(* ===== verification/_CoqProject ===== *)
-Q . S2P
Prelude.v
Posix.v
Stdio.v
StdioRead.v
StdioWrite.v
StdioCorrect.v
Registry.v
RegistryCorrect.v
RegistryClaims.v
DirCorrect.v
ElfParser.v
ElfCorrect.v
ElfClaims.v
Bootstrap.v
BootstrapCorrect.v
ResolveCorrect.v
BootstrapClaims.v
Loader.v
LoaderCorrect.v
Monitor.v
LoaderClaims.v
Fixups.v
FixupsCorrect.v
FixupsClaims.v
Upload.v
UploadCorrect.v
UploadClaims.v
Records.v
Tracer.v
TracerReader.v
TracerMaps.v
TracerCorrect.v
TracerEvents.v
TracerExit.v
TracerPath.v
TracerMapCorrect.v
TracerSystem.v
SyscallsX86.v
SyscallsArm64.v
SyscallsArm.v
Architectures.v
SyscallsOther.v
TracerDemo.v
TracerClaims.v
TracerMapClaims.v
TracerSafety.v
SockAddr.v
SpawnGater.v
SpawnGaterClaims.v
ActivitySampler.v
Zymbiote.v
ZymbioteClaims.v
UploadListener.v
MachO.v
ExportsTrie.v
SymbolText.v
MachOClaims.v
Binjector.v
BinjectorInstances.v
BinjectorSpawn.v
BinjectorCorrect.v
InjecteeCorrect.v
FifoLedger.v
BinjectorScript.v
BinjectorClaims.v
PayloadCode.v
PayloadMachine.v
PayloadCorrect.v
FieldStrings.v
PayloadClaims.v
Qinjector.v
QinjectorInstances.v
QnxCall.v
QnxLibrary.v
QnxInject.v
QnxPayload.v
QinjectorClaims.v
SelinuxPolicy.v
SelinuxCorrect.v
SelinuxClaims.v
