(* ===== verification/Prelude.v ===== *)
(** * frida-core: the native code of its Linux, FreeBSD, QNX and iOS back ends, verified

    frida-core injects an agent into another process.  Most of it is Vala code
    on GLib's main loop; the part written in C with logic of its own runs where
    no ordinary runtime exists (inside the process that is being instrumented,
    or inside the kernel, as BPF programs) or drives another process by hand.
    This library models that part, one file per component, and proves the
    properties its users rely on.

    ** The parts and how they interact

    - The injector's helper process writes the _bootstrapper_
      (src/src/linux/helpers/bootstrapper.c) into the target and runs it there.
      It finds the dynamic linker and libc of the process, with the _ELF parser_
      (elf-parser.c), fills the table of libc functions (inject-context.h), and
      opens a pair of control descriptors.
    - The _loader_ (loader.c) is then started as a thread of the target with that
      table.  It says hello on its control descriptor, receives the agent's code,
      loads it, does a handshake, runs it, and says goodbye.  The injector's
      _monitor_ (src/src/linux/frida-helper-backend.vala) decodes its messages.
    - The agent is linked against the _libc shim_ (src/lib/payload/libc-shim.c),
      which replaces stdio, directory reading and exit handlers so that the
      agent does not share state with the target's libc.
    - The _system-call tracer_ (syscall-tracer.bpf.c) runs in the kernel at every
      system call.  It writes records into a ring buffer; the host
      (src/src/linux/syscall-tracer.vala) decodes them with the tables of
      signatures of src/lib/base/linux-syscalls/*-glue.c.
    - The _spawn gater_ (spawn-gater.bpf.c) stops new processes until the host has
      decided about them, and the _activity sampler_ (activity-sampler.bpf.c)
      counts where threads spend time.
    - On Android the _zygote payload_ (zymbiote.c) makes a forked process report
      itself to the host and wait for permission to go on.
    - On iOS the image is uploaded over a socket instead: the _upload listener_
      (src/src/fruity/helpers/upload-listener.c) opens the socket, the _upload
      receiver_ (upload-receiver.c) executes a client's commands, which write
      memory, relocate the image and run its constructors.  The _symbol helpers_
      (symbol-fetcher.c, symbol-resolver.c) find functions in Mach-O images.

    - On FreeBSD the _binjector_ (src/src/freebsd/binjector-glue.c) stops the
      process with ptrace and makes one of its threads call mmap and mprotect.  It
      emits a _payload_ (code for three processors, and its data), which starts a
      thread; the thread loads the agent, runs it, and reports through a FIFO to
      the _session_ in binjector.vala.
    - On QNX the _qinjector_ (src/src/qnx/qinjector-glue.c) does the same through
      /proc/<pid>/as, with a search for libc among the mappings and an ARM payload
      that reports with pulses on a channel.
    - On Android the _SELinux patcher_ (src/lib/selinux/patch.c) adds types and rules for
      the agent to the policy of the kernel before any of this happens.

    ** Files

    - [Prelude] (this file): the monad of the C code, [M], whose outcomes tell a
      returned value from a failed assertion, an invalid memory access and a loop
      that ran out of fuel; total correctness [wp] and partial correctness
      [hoare]/[keeps] with their rules, tactics and hint databases; machine
      integers as [Z] with explicit wrap-around; blocks of bytes as [list Z].
    - [Posix]: the system calls as a class [Kernel] with laws [KernelLaws]
      (reads and writes may be short or interrupted), an executable kernel
      [MemKernel] that satisfies them, and the shim's EINTR wrappers.
    - [Stdio], [StdioRead], [StdioWrite], [StdioCorrect]: the buffered streams of
      the libc shim.  [FridaFile] has the fields of the C structure; there is one
      definition per function.  A stream refines a list of unread bytes and a
      list of written ones.
    - [Registry], [RegistryCorrect], [RegistryClaims], [DirCorrect]: handles, the
      tables of open streams and directories, opening, closing, flushing
      everything, exit handlers and directory records.  The order of a hash
      table is a parameter ([hash_order]).
    - [ElfParser], [ElfCorrect], [ElfClaims]: the parser for 64-bit images over
      a byte-addressed memory, against images described by their headers, dynamic
      entries, sections and symbols.
    - [Bootstrap], [BootstrapCorrect], [ResolveCorrect],
      [BootstrapClaims]: probing, parsing of /proc files, resolution of the
      function table, mapping of a linker, and the entry point [frida_bootstrap].
    - [Loader], [LoaderCorrect], [Monitor], [LoaderClaims]: the loader thread,
      [frida_main], over a class [LoaderEnv] of socket and linker functions with
      laws [LoaderLaws]; a trace of what others can see of it; the monitor's
      decoder.  [establish], [load_agent], [serve_agent] and [beach] are the
      stretches of [frida_main] between its labels.
    - [Fixups], [FixupsCorrect], [FixupsClaims]: threaded items and chained
      fixups over a memory with windows (vm_remap); pointer authentication,
      dlopen and dlsym are the class [UploadApi].
    - [Upload], [UploadCorrect], [UploadClaims]: the command loop of
      [frida_receive] over [UploadKernel] with laws [UploadLaws], and the meaning
      of commands ([execute]) it refines.
    - [Records]: byte layouts of the records the BPF programs share with the host.
    - [Tracer]: the handlers of syscall-tracer.bpf.c over a state of BPF maps; what
      the kernel supplies (task, memory of the process, clock, helpers) is the
      class [Machine].  [TracerReader]: the host's decoder and its
      request for a batch of events.  [TracerMaps]: the list of memory mappings with
      their generations.
    - [TracerCorrect], [TracerEvents], [TracerExit], [TracerPath],
      [TracerMapCorrect], [TracerSystem]: the rules and lemmas for them; the last
      runs handlers as steps of a system and carries the invariant.
    - [SyscallsX86], [SyscallsArm64], [SyscallsArm], [SyscallsOther]: the signature
      tables of the architectures, row by row; [Architectures]: the search in them and
      what holds of every row.
    - [TracerDemo]: concrete machines for the witnesses;
      [TracerClaims], [TracerMapClaims], [TracerSafety]: the
      theorems; [SockAddr]: the decoder of socket addresses.
    - [SpawnGater], [SpawnGaterClaims], [ActivitySampler]:
      the two other BPF programs.
    - [Zymbiote], [ZymbioteClaims]: the zygote payload with the
      host's reader of its greeting (src/src/linux/linux-host-session.vala).
    - [UploadListener]: the listener and what the injector makes of its result.
    - [MachO], [ExportsTrie], [MachOClaims]: the symbol helpers; the exports trie
      as a table of nodes laid out in memory.  [SymbolText]: the fetcher's text.
    - [Binjector]: the FreeBSD injector's requests and its calls in another process,
      over the class [BsdKernel] with laws [BsdLaws], with a log of
      the requests that succeeded.  [BinjectorInstances],
      [BinjectorSpawn]: injectees as objects in a heap, spawning and exec
      transitions.  [BinjectorCorrect], [InjecteeCorrect]: the calling conventions,
      and what each step leaves in the log.  [FifoLedger]: an abstract ledger of descriptors that every operation
      refines.  [BinjectorScript]: a scripted system; [BinjectorClaims].
    - [PayloadCode], [PayloadMachine], [PayloadCorrect], [FieldStrings],
      [PayloadClaims]: the emitted code as instructions, a machine
      with symbolic stack addresses and an [abi] per processor, the protocol of calls
      the code follows, the session's reader, and structures with C strings.
    - [Qinjector], [QinjectorInstances]: the QNX injector over the class [QnxKernel]
      with laws [QnxLaws].  [QnxCall], [QnxLibrary], [QnxInject]:
      rules for logs; calls, the search for libraries, injections and channels.
      [QnxPayload]: its payload on the machine above, and the session.
      [QinjectorClaims].
    - [SelinuxPolicy]: the patcher over a policy database with the fields of libsepol
      that it reads and writes; files, the image of a policy and the kernel's mode are
      the class [SelinuxSystem] with laws [SelinuxLaws].  [SelinuxCorrect]: what a policy
      grants, and what each step adds.  [SelinuxClaims]: the theorems and a scripted
      device.

    ** What the theorems show

    - Streams: [fread], [fgets], [getdelim], [fgetwc] deliver the bytes of the
      file in order however reads are split or interrupted, [fwrite] and
      [fflush] deliver what they report, positions survive seeking, and any
      sequence of reads keeps the stream valid.  Opening, flushing everything and
      closing keep the tables valid and touch only the streams they should.
    - Places where the shim departs from ISO C are theorems too: a flush that
      fails part way repeats bytes (the count of [fwrite] is still that of the
      accepted bytes), a relative seek ignores read-ahead, closing
      hides a failed flush, and a multi-byte character cannot be pushed back.
    - ELF: enumeration of exports visits exactly the defined global and weak
      functions and objects of the dynamic table, in order, when what follows the
      table cannot be taken for a symbol, and stops when the callback says so; the load base and the SONAME are right;
      an image without a dynamic segment is fatal.
    - Bootstrapper: numbers and paths are parsed as meant, every line of a file
      reaches the parser (and a line that arrives in parts does not), resolution
      succeeds only with a complete table (of a libc other than Android's), no
      descriptor is leaked.
    - Loader: messages arrive whole, and the bytes that its functions send are
      decoded to what they meant, the agent runs only after
      the handshake and at most once, the unload policy is obeyed, load failures
      are reported, every descriptor is closed unless the agent claimed it.
    - Upload: every fixup becomes the pointer it stands for and nothing else
      changes; the receiver turns away clients that do not know the session id and
      executes the commands of the first that does, in order.  The special library ordinals of dyld are misread.
      The injector can tell from the packed result whether the listener listens.
    - Tracer: what the host decodes of a call is what the call was, and the arguments
      it shows are those that tables by the call's name list, up to their limits; a
      request for events does not upset the reader when the processes are native; the table searches find the
      signature of every number; the maps keep their invariant over every
      sequence of events; records are dropped only when they are counted as
      dropped; processes that are not traced are left alone.  Records and signals are
      separate steps: every SIGSTOP belongs to a request that the host answers with
      a SIGCONT, which can overtake it ([continue_before_stop]).  A full batch loses
      an event ([full_batch_loses_event]), and the number of a device is misread
      ([device_misread]).
    - Spawn gater and sampler: a process that waits is known to the host unless it
      was answered already, closing the gate answers everybody, although a
      resumption can fail or come before the signal ([resume_before_stop]); samples
      can be read back.
    - Zygote payload: the host understands the greeting however it is split, and a
      forked process reports itself once; it waits for an answer unless the
      conversation fails; an empty name never ends.
    - Symbol helpers: an exported name gives the address the trie has for it and
      any other name none; the vector of names is resolved in order.
    - FreeBSD: a successful injection lets a process that was not traced go with the
      registers it had; one that fails after these were read keeps it traced; remote
      calls follow the calling convention, and end at any SIGSEGV
      ([callee_fault_taken_for_return]); every
      open FIFO has one owner; the code for all processors makes the same calls and
      gives its caller's registers and stack back; the session reads the thread's
      report; strings with room in their fields read back.
    - QNX: a call of a function that comes back puts the thread back and ends (without
      a thread it does not, [find_thread_spins]); the library taken is the one whose
      path has the right form, unless mappings are added meanwhile; every channel has one owner; an injection transfers
      code and data that do not overlap; the ARM code follows its protocol, and its
      pulses are understood in any order while its thread is alive; a disconnection
      that is handled after the thread's end overtakes the farewell
      ([disconnect_overtakes_bye]).
    - SELinux: the patched policy grants what the old access vectors did and exactly what
      the rules name, with two new types; it is saved or its user is told; the kernel's
      mode is as before in every run.

    ** Fuel and bounds

    Loops take fuel and report [Stuck] without it; theorems that promise a result
    say how much is enough: one more than the number of interruptions plus the
    bytes, lines, items or commands that are left, 65536 for the loader (the
    longest error text has 65535 bytes).  Counted loops need none, and the BPF
    programs have no others, since the verifier refuses them.  Words are
    wrapped to their width where the code computes with them; a C string is a
    list of bytes without its terminator; a path of the loader's fallback address
    must fit [sun_path] (108 bytes), and the model crashes where it does not.  The
    SELinux patcher needs an iteration per byte of a policy's image, and one per
    interruption.  A call
    in a QNX process needs one more iteration than there are page faults before it
    returns.  Strings for the payloads have fields of 32 and 256 bytes, and the ARM
    code 512 before its data; the theorems say what happens within these bounds, and
    [long_fifo_path_runs_on] what happens beyond.

    ** What is not modelled

    Locks of the libc shim (each operation is one step), raw system calls and
    stack switching in inline assembly, pass-through wrappers of the allocator,
    32-bit ELF, the wait for the loader thread's end in the monitor.  BPF handlers
    run one at a time, except that the signals they send arrive later, as steps of
    their own: their interleaving on several processors is that of whole handlers.  The dynamic linker, the agent, constructors, the kernel's data that
    BPF reads and pointer authentication are parameters, and so are the encodings of
    emitted instructions, which a library outside the repository makes.  The Vala core
    runs on GLib's main loop and is modelled only where it decodes what the C code
    sends.  The Windows and Darwin glue drives interfaces of those systems with
    little logic of its own; pipes and peer-to-peer transport hand their work to
    libraries.  The indices that libsepol keeps for itself and the memory of its
    objects are not part of the policy database of the model.

    ** What is left

    [frida_process_chained_fixups] end to end, the layout [frida_map_elf] gives a
    linker, and the enumeration of processes (src/src/linux/system-linux.c and its
    counterparts), which formats what the kernel reports. *)
From stdpp Require Export base list gmap strings.
From Stdlib Require Export ZArith Lia.
#[global] Open Scope Z_scope.

(** * Computations of the modelled C code

    A C function that touches process state is a computation in [M S]: it maps
    the state to an outcome.  [Ret] is a normal return, [Failed] an [assert]
    (or [g_assert_not_reached]) that does not hold, [Crash] an access outside
    the mapped memory and [Stuck] a loop that used up the iterations it was
    given.  Every [while] of the source is an instance of [loop]. *)

Inductive outcome (A : Type) : Type :=
| Ret (a : A)
| Failed
| Crash
| Stuck.
Arguments Ret {A} a.
Arguments Failed {A}.
Arguments Crash {A}.
Arguments Stuck {A}.

Definition M (S A : Type) : Type := S → outcome (A * S).

Definition ret {S A} (a : A) : M S A := λ s, Ret (a, s).

Definition bind {S A B} (m : M S A) (k : A → M S B) : M S B := λ s,
  match m s with
  | Ret (a, s') => k a s'
  | Failed => Failed
  | Crash => Crash
  | Stuck => Stuck
  end.

Definition get {S} : M S S := λ s, Ret (s, s).
Definition put {S} (s : S) : M S unit := λ _, Ret (tt, s).
Definition modify {S} (g : S → S) : M S unit := λ s, Ret (tt, g s).
Definition gets {S A} (g : S → A) : M S A := λ s, Ret (g s, s).
Definition c_assert {S} (b : bool) : M S unit :=
  λ s, if b then Ret (tt, s) else Failed.
Definition crash {S A} : M S A := λ _, Crash.
Definition c_assert_not_reached {S A} : M S A := λ _, Failed.

Declare Scope frida_scope.
Delimit Scope frida_scope with frida.
Notation "'let!' x := c 'in' k" := (bind c (λ x, k))
  (at level 10, x name, c at level 200, k at level 200,
   format "'[v' 'let!'  x  :=  c  'in' '/' k ']'") : frida_scope.
Notation "'do!' c 'in' k" := (bind c (λ _, k))
  (at level 10, c at level 200, k at level 200,
   format "'[v' 'do!'  c  'in' '/' k ']'") : frida_scope.
#[global] Open Scope frida_scope.

Fixpoint loop {S A R} (fuel : nat) (body : A → M S (A + R)) (a : A) : M S R :=
  match fuel with
  | O => λ _, Stuck
  | Datatypes.S n =>
      let! r := body a in
      match r with
      | inl a' => loop n body a'
      | inr v => ret v
      end
  end.

(** ** Total correctness

    [wp m s Q] says that [m] started in [s] returns, and that the result and
    the final state satisfy [Q]: it rules out failed assertions, crashes and
    loops that do not end. *)

Definition wp {S A} (m : M S A) (s : S) (Q : A → S → Prop) : Prop :=
  ∃ a s', m s = Ret (a, s') ∧ Q a s'.

Section wp_rules.
Context {S : Type}.

Lemma wp_ret {A} (a : A) (s : S) (Q : A → S → Prop) : Q a s → wp (ret a) s Q.
Proof. intros H. exists a, s. done. Qed.

Lemma wp_bind {A B} (m : M S A) (k : A → M S B) s Q :
  wp m s (λ a s', wp (k a) s' Q) → wp (bind m k) s Q.
Proof.
  intros (a & s' & Hm & b & s'' & Hk & HQ).
  exists b, s''. unfold bind. rewrite Hm. done.
Qed.

Lemma wp_mono {A} (m : M S A) s (P Q : A → S → Prop) :
  wp m s P → (∀ a s', P a s' → Q a s') → wp m s Q.
Proof. intros (a & s' & Hm & HP) HPQ. exists a, s'. auto. Qed.

Lemma wp_get (s : S) (Q : S → S → Prop) : Q s s → wp get s Q.
Proof. intros H. exists s, s. done. Qed.

Lemma wp_gets {A} (g : S → A) s (Q : A → S → Prop) : Q (g s) s → wp (gets g) s Q.
Proof. intros H. exists (g s), s. done. Qed.

Lemma wp_put (s t : S) (Q : unit → S → Prop) : Q tt t → wp (put t) s Q.
Proof. intros H. exists tt, t. done. Qed.

Lemma wp_modify (g : S → S) s (Q : unit → S → Prop) : Q tt (g s) → wp (modify g) s Q.
Proof. intros H. exists tt, (g s). done. Qed.

Lemma wp_assert (b : bool) s (Q : unit → S → Prop) :
  b = true → Q tt s → wp (c_assert b) s Q.
Proof. intros -> H. exists tt, s. done. Qed.

(** The loop rule: an invariant that every iteration keeps and a measure it
    decreases.  [m a s < fuel] is what makes the iterations suffice. *)
Lemma wp_loop {A R} (body : A → M S (A + R)) (I : A → S → Prop)
    (m : A → S → nat) (Q : R → S → Prop) :
  (∀ a s, I a s → wp (body a) s (λ r s',
     match r with
     | inl a' => I a' s' ∧ (m a' s' < m a s)%nat
     | inr v => Q v s'
     end)) →
  ∀ fuel a s, I a s → (m a s < fuel)%nat → wp (loop fuel body a) s Q.
Proof.
  intros Hbody fuel. induction fuel as [|n IH]; intros a s HI Hm; [lia|].
  cbn [loop]. apply wp_bind. eapply wp_mono; [by apply Hbody|].
  intros [a'|v] s'; cbn.
  - intros [HI' Hlt]. apply IH; [done|lia].
  - intros HQ. by apply wp_ret.
Qed.

Lemma wp_frame_eq {A} (m : M S A) s Q a s' :
  wp m s Q → m s = Ret (a, s') → Q a s'.
Proof. intros (b & t & Hm & HQ) Hr. congruence. Qed.
End wp_rules.

(** More iterations never change what a loop that ends returns. *)
Lemma loop_fuel_mono {S A R} (body : A → M S (A + R)) n n' a s v :
  loop n body a s = Ret v → (n ≤ n')%nat → loop n' body a s = Ret v.
Proof.
  revert n' a s. induction n as [|n IH]; intros n' a s H Hle; [done|].
  destruct n' as [|n']; [lia|]. cbn [loop] in *. unfold bind in *.
  destruct (body a s) as [[[a'|r] s']| | |]; try done. apply IH; [done|lia].
Qed.

(** ** Partial correctness

    [hoare P m Q]: whenever [m], started where [P] holds, returns, [Q] holds of
    the result and the final state.  [keeps I m] is the special case of an
    invariant, for safety properties of code that may also not return. *)
Definition hoare {S A} (P : S → Prop) (m : M S A) (Q : A → S → Prop) : Prop :=
  ∀ s a s', P s → m s = Ret (a, s') → Q a s'.
Definition keeps {S A} (I : S → Prop) (m : M S A) : Prop := hoare I m (λ _, I).

Section hoare_rules.
Context {S : Type}.

Lemma hoare_ret {A} (P : S → Prop) (a : A) (Q : A → S → Prop) :
  (∀ s, P s → Q a s) → hoare P (ret a) Q.
Proof. intros H s b s' HP [= <- <-]. auto. Qed.
Lemma hoare_bind {A B} (P : S → Prop) (m : M S A) (k : A → M S B) (R : A → S → Prop) Q :
  hoare P m R → (∀ a, hoare (R a) (k a) Q) → hoare P (bind m k) Q.
Proof.
  intros Hm Hk s b s' HP. unfold bind. destruct (m s) as [[a t]| | |] eqn:E; try done.
  intros Hr. by apply (Hk a t b s' (Hm s a t HP E)).
Qed.
Lemma hoare_mono {A} (P P' : S → Prop) (m : M S A) (Q Q' : A → S → Prop) :
  hoare P m Q → (∀ s, P' s → P s) → (∀ a s, Q a s → Q' a s) → hoare P' m Q'.
Proof. intros Hm HP HQ s a s' Hs E. eauto. Qed.
Lemma hoare_loop {A R} (body : A → M S (A + R)) (I : A → S → Prop) (Q : R → S → Prop) fuel :
  (∀ a, hoare (I a) (body a) (λ r s, match r with inl a' => I a' s | inr v => Q v s end)) →
  ∀ a, hoare (I a) (loop fuel body a) Q.
Proof.
  intros Hb. induction fuel as [|n IH]; intros a s v s' HI; cbn [loop]; [done|].
  unfold bind. destruct (body a s) as [[[a'|w] t]| | |] eqn:E; try done.
  - apply IH. by apply (Hb _ _ _ _ HI E).
  - intros [= <- <-]. by apply (Hb _ _ _ _ HI E).
Qed.

Lemma hoare_pure {A} (φ : Prop) (P : S → Prop) (m : M S A) (Q : A → S → Prop) :
  (φ → hoare P m Q) → hoare (λ s, φ ∧ P s) m Q.
Proof. intros Hm s a s' [Hφ HP]. by apply Hm. Qed.

Lemma keeps_ret {A} (I : S → Prop) (a : A) : keeps I (ret a).
Proof. by apply hoare_ret. Qed.
Lemma keeps_bind {A B} (I : S → Prop) (m : M S A) (k : A → M S B) :
  keeps I m → (∀ a, keeps I (k a)) → keeps I (bind m k).
Proof. intros Hm Hk. eapply hoare_bind; [exact Hm|]. exact Hk. Qed.
Lemma keeps_loop {A R} (I : S → Prop) (body : A → M S (A + R)) fuel :
  (∀ a, keeps I (body a)) → ∀ a, keeps I (loop fuel body a).
Proof.
  intros Hb. apply hoare_loop. intros a s r s' HI E. specialize (Hb a s r s' HI E).
  by destruct r.
Qed.
Lemma keeps_stop {A} (I : S → Prop) : keeps I (crash (S := S) (A := A)).
Proof. intros s a s' _ E. done. Qed.
Lemma keeps_stuck {A} (I : S → Prop) : keeps I (λ _ : S, @Stuck (A * S)).
Proof. intros s a s' _ E. done. Qed.
End hoare_rules.

Create HintDb frida.
Create HintDb keeps.
#[export] Hint Resolve keeps_ret keeps_stop keeps_stuck : keeps.
(** Split a computation into its calls; each is closed by the [keeps] hints.
    [keeps_rule] is where a file adds rules for its own control structures. *)
Ltac keeps_rule := fail.
Ltac keeps_step :=
  lazymatch goal with
  | |- ∀ _, _ => intros ?
  | |- keeps _ (bind _ _) => apply keeps_bind
  | |- keeps _ (loop _ _ _) => apply keeps_loop
  | |- keeps _ (match ?x with _ => _ end) => destruct x
  | |- keeps _ _ => first [solve [eauto 3 with keeps] | keeps_rule]
  end; cbn zeta beta.
Ltac keeps_auto := cbn zeta beta; repeat keeps_step.
#[export] Hint Resolve wp_ret wp_get wp_gets wp_put wp_modify : frida.

(** One symbolic-execution step of the goal [wp m s Q]. *)
Ltac wp_step :=
  match goal with
  | |- wp (bind _ _) _ _ => apply wp_bind
  | |- wp (ret _) _ _ => apply wp_ret
  | |- wp get _ _ => apply wp_get
  | |- wp (gets _) _ _ => apply wp_gets
  | |- wp (put _) _ _ => apply wp_put
  | |- wp (modify _) _ _ => apply wp_modify
  | |- wp (match ?x with _ => _ end) _ _ => destruct x eqn:?
  end; cbn beta iota.
Ltac wp_steps := repeat wp_step.

(** Use a specification [H : wp m s P] for the call [m] at the head. *)
Tactic Notation "wp_call" uconstr(H) := eapply wp_mono; [eapply H|]; cbn beta.

(** * Machine integers and byte blocks

    A C integer of width [w] is the [Z] of its value; conversions to an
    unsigned type wrap modulo [2 ^ w], conversions to a signed type give the
    two's complement value.  A byte is a [Z] of [0 .. 255], a block of memory
    or a [char] array a [list Z], a [size_t] offset a [Z]. *)

Definition u8 (z : Z) : Z := z mod 2 ^ 8.
Definition u16 (z : Z) : Z := z mod 2 ^ 16.
Definition u32 (z : Z) : Z := z mod 2 ^ 32.
Definition u64 (z : Z) : Z := z mod 2 ^ 64.
Definition s32 (z : Z) : Z :=
  let w := u32 z in if w <? 2 ^ 31 then w else w - 2 ^ 32.
Definition s64 (z : Z) : Z :=
  let w := u64 z in if w <? 2 ^ 63 then w else w - 2 ^ 64.

Definition is_byte (b : Z) : Prop := 0 ≤ b < 256.

Definition zlen {A} (l : list A) : Z := Z.of_nat (length l).
Definition ztake {A} (n : Z) (l : list A) : list A := take (Z.to_nat n) l.
Definition zdrop {A} (n : Z) (l : list A) : list A := drop (Z.to_nat n) l.
(** The elements [i, i + 1, .., j - 1] of a block. *)
Definition zslice {A} (i j : Z) (l : list A) : list A := ztake (j - i) (zdrop i l).
(** [memcpy (l + i, bs, length bs)]. *)
Definition zwrite {A} (i : Z) (bs l : list A) : list A :=
  ztake i l ++ bs ++ zdrop (i + zlen bs) l.
(** [l[i]], for an index inside the block. *)
Definition znth (l : list Z) (i : Z) : Z := nth (Z.to_nat i) l 0.
Definition zeros (n : Z) : list Z := replicate (Z.to_nat n) 0.

Definition le_bytes (n : Z) (z : Z) : list Z := Z_to_little_endian n 8 z.
Definition le_value (bs : list Z) : Z := little_endian_to_Z 8 bs.

(** The bytes of a string literal, without the terminating NUL. *)
Definition bytes_of (s : string) : list Z :=
  (λ a, Z.of_nat (Ascii.nat_of_ascii a)) <$> String.list_ascii_of_string s.

Section words.
Lemma u8_range z : is_byte (u8 z).
Proof. unfold is_byte, u8. pose proof (Z.mod_pos_bound z (2 ^ 8)). lia. Qed.
Lemma u16_range z : 0 ≤ u16 z < 2 ^ 16.
Proof. apply Z.mod_pos_bound. lia. Qed.
Lemma u32_range z : 0 ≤ u32 z < 2 ^ 32.
Proof. apply Z.mod_pos_bound. lia. Qed.
Lemma u64_range z : 0 ≤ u64 z < 2 ^ 64.
Proof. apply Z.mod_pos_bound. lia. Qed.
Lemma u8_small z : is_byte z → u8 z = z.
Proof. apply Z.mod_small. Qed.
Lemma u16_small z : 0 ≤ z < 2 ^ 16 → u16 z = z.
Proof. apply Z.mod_small. Qed.
Lemma u32_small z : 0 ≤ z < 2 ^ 32 → u32 z = z.
Proof. apply Z.mod_small. Qed.
Lemma u64_small z : 0 ≤ z < 2 ^ 64 → u64 z = z.
Proof. apply Z.mod_small. Qed.
(** Or-ing in bits below the lowest one that is set adds them. *)
Lemma lor_shift a b k : 0 ≤ k → 0 ≤ b < 2 ^ k → Z.lor (a * 2 ^ k) b = a * 2 ^ k + b.
Proof.
  intros Hk Hb. apply Z.bits_inj'. intros n Hn. rewrite Z.lor_spec.
  destruct (Z.ltb_spec n k) as [Hlt|Hge].
  - rewrite Z.mul_pow2_bits_low by done. cbn [orb].
    rewrite <- (Z.mod_pow2_bits_low (a * 2 ^ k + b) k) by done.
    by rewrite Z.add_comm, Z.mod_add, Z.mod_small by lia.
  - replace n with (k + (n - k)) at 1 by lia. rewrite Z.mul_pow2_bits_add by lia.
    replace n with (n - k + k) at 2 3 by lia. rewrite <- !Z.div_pow2_bits by lia.
    rewrite Z.div_add_l, (Z.div_small b), Z.add_0_r by lia. by rewrite Z.bits_0, orb_false_r.
Qed.
Lemma s32_small z : - 2 ^ 31 ≤ z < 2 ^ 31 → s32 z = z.
Proof.
  intros H. unfold s32, u32.
  pose proof (Z.div_mod z (2 ^ 32)). pose proof (Z.mod_pos_bound z (2 ^ 32)).
  destruct (Z.ltb_spec (z mod 2 ^ 32) (2 ^ 31)); lia.
Qed.
Lemma s32_of_u32 z : - 2 ^ 31 ≤ z < 2 ^ 31 → s32 (u32 z) = z.
Proof.
  intros Hz. transitivity (s32 z); [|by apply s32_small].
  unfold s32, u32. rewrite Zmod_mod. done.
Qed.
Lemma u64_add_l a b : u64 (u64 a + b) = u64 (a + b).
Proof. apply Zplus_mod_idemp_l. Qed.
Lemma u64_add_r a b : u64 (a + u64 b) = u64 (a + b).
Proof. apply Zplus_mod_idemp_r. Qed.
Lemma u64_u64 a : u64 (u64 a) = u64 a.
Proof. apply Zmod_mod. Qed.
End words.
#[export] Hint Resolve u8_range u16_range u32_range u64_range : frida.

Section blocks.
Context {A : Type}.
Implicit Types l bs : list A.

Lemma zlen_nonneg l : 0 ≤ zlen l.
Proof. unfold zlen. lia. Qed.
Lemma zlen_nil : zlen (@nil A) = 0.
Proof. done. Qed.
Lemma zlen_cons x l : zlen (x :: l) = 1 + zlen l.
Proof. unfold zlen. cbn [length]. lia. Qed.
Lemma zlen_app l bs : zlen (l ++ bs) = zlen l + zlen bs.
Proof. unfold zlen. rewrite length_app. lia. Qed.
Lemma zlen_nil_inv l : zlen l = 0 → l = [].
Proof. destruct l; [done|]. rewrite zlen_cons. pose proof (zlen_nonneg l). lia. Qed.
Lemma zlen_ztake n l : zlen (ztake n l) = Z.max 0 (Z.min n (zlen l)).
Proof. unfold zlen, ztake. rewrite length_take. lia. Qed.
Lemma zlen_zdrop n l : zlen (zdrop n l) = Z.max 0 (zlen l - Z.max 0 n).
Proof. unfold zlen, zdrop. rewrite length_drop. lia. Qed.
Lemma zlen_zslice i j l :
  zlen (zslice i j l) = Z.max 0 (Z.min (j - i) (Z.max 0 (zlen l - Z.max 0 i))).
Proof. unfold zslice. by rewrite zlen_ztake, zlen_zdrop. Qed.
Lemma zlen_reverse l : zlen (reverse l) = zlen l.
Proof. unfold zlen. by rewrite length_reverse. Qed.
Lemma zlen_zwrite i bs l :
  0 ≤ i → i + zlen bs ≤ zlen l → zlen (zwrite i bs l) = zlen l.
Proof.
  intros. pose proof (zlen_nonneg bs). unfold zwrite.
  rewrite !zlen_app, zlen_ztake, zlen_zdrop. lia.
Qed.

Lemma ztake_zdrop n l : ztake n l ++ zdrop n l = l.
Proof. apply take_drop. Qed.
Lemma ztake_ge n l : zlen l ≤ n → ztake n l = l.
Proof. unfold zlen, ztake. intros. apply take_ge. lia. Qed.
Lemma ztake_le n l : n ≤ 0 → ztake n l = [].
Proof. unfold ztake. intros. by replace (Z.to_nat n) with O by lia. Qed.
Lemma zdrop_ge n l : zlen l ≤ n → zdrop n l = [].
Proof. unfold zlen, zdrop. intros. apply drop_ge. lia. Qed.
Lemma zdrop_le n l : n ≤ 0 → zdrop n l = l.
Proof. unfold zdrop. intros. by replace (Z.to_nat n) with O by lia. Qed.
Lemma zdrop_zdrop a b l : 0 ≤ a → 0 ≤ b → zdrop a (zdrop b l) = zdrop (a + b) l.
Proof. unfold zdrop. intros. rewrite drop_drop. f_equal. lia. Qed.
Lemma ztake_app_exact l bs : ztake (zlen l) (l ++ bs) = l.
Proof. unfold ztake, zlen. rewrite Nat2Z.id. apply take_app_length. Qed.
Lemma zdrop_app_exact l bs : zdrop (zlen l) (l ++ bs) = bs.
Proof. unfold zdrop, zlen. rewrite Nat2Z.id. apply drop_app_length. Qed.
Lemma ztake_app_le n l bs : n ≤ zlen l → ztake n (l ++ bs) = ztake n l.
Proof. unfold ztake, zlen. intros. apply take_app_le. lia. Qed.
Lemma zdrop_app_le n l bs : n ≤ zlen l → zdrop n (l ++ bs) = zdrop n l ++ bs.
Proof. unfold zdrop, zlen. intros. apply drop_app_le. lia. Qed.
Lemma ztake_plus a b l : 0 ≤ a → 0 ≤ b → ztake (a + b) l = ztake a l ++ ztake b (zdrop a l).
Proof.
  intros. unfold ztake, zdrop. rewrite Z2Nat.inj_add by lia.
  by rewrite take_take_drop.
Qed.
Lemma ztake_ztake a b l : ztake a (ztake b l) = ztake (Z.min a b) l.
Proof. unfold ztake. rewrite take_take. f_equal. lia. Qed.
Lemma zdrop_ztake_comm a b l : 0 ≤ a → 0 ≤ b → zdrop a (ztake (a + b) l) = ztake b (zdrop a l).
Proof.
  intros. unfold zdrop, ztake. rewrite Z2Nat.inj_add by lia.
  symmetry. apply take_drop_commute.
Qed.

Lemma zslice_empty i l : zslice i i l = [].
Proof. unfold zslice. by rewrite Z.sub_diag. Qed.
Lemma zslice_split i j k l :
  0 ≤ i ≤ j → j ≤ k → zslice i k l = zslice i j l ++ zslice j k l.
Proof.
  intros. unfold zslice. replace (k - i) with ((j - i) + (k - j)) by lia.
  rewrite ztake_plus by lia. f_equal. rewrite zdrop_zdrop by lia. do 2 f_equal. lia.
Qed.
Lemma zslice_take i j n l :
  0 ≤ n ≤ j - i → ztake n (zslice i j l) = zslice i (i + n) l.
Proof.
  intros. unfold zslice. rewrite ztake_ztake. f_equal. lia.
Qed.
Lemma zslice_0 j l : zslice 0 j l = ztake j l.
Proof. unfold zslice. by rewrite Z.sub_0_r. Qed.
Lemma zslice_all l : zslice 0 (zlen l) l = l.
Proof. rewrite zslice_0. by apply ztake_ge. Qed.

Lemma ztake_zwrite i bs l :
  0 ≤ i ≤ zlen l → ztake (i + zlen bs) (zwrite i bs l) = ztake i l ++ bs.
Proof.
  intros. unfold zwrite. rewrite app_assoc.
  replace (i + zlen bs) with (zlen (ztake i l ++ bs)); [apply ztake_app_exact|].
  rewrite zlen_app, zlen_ztake. lia.
Qed.
Lemma ztake_zwrite_0 bs l : ztake (zlen bs) (zwrite 0 bs l) = bs.
Proof.
  pose proof (zlen_nonneg l).
  etransitivity; [apply (ztake_zwrite 0)|]; [lia|]. by rewrite ztake_le.
Qed.
Lemma ztake_zwrite_before i j bs l :
  i ≤ j → j ≤ zlen l → ztake i (zwrite j bs l) = ztake i l.
Proof.
  intros. unfold zwrite. rewrite ztake_app_le by (rewrite zlen_ztake; lia).
  rewrite ztake_ztake. f_equal. lia.
Qed.

Lemma Forall_zwrite (P : A → Prop) i bs l :
  Forall P bs → Forall P l → Forall P (zwrite i bs l).
Proof.
  intros Hb Hl. unfold zwrite, ztake, zdrop.
  apply Forall_app; split; [by apply Forall_take|].
  apply Forall_app; split; [done|by apply Forall_drop].
Qed.
End blocks.
#[export] Hint Resolve zlen_nonneg Forall_zwrite : frida.
#[export] Hint Rewrite @zlen_nil @zlen_cons @zlen_app @zlen_ztake @zlen_zdrop
  @zlen_zslice @zlen_reverse : zlen.

(** ** Little-endian integers *)
Section little_endian.
Lemma zlen_le_bytes n z : 0 ≤ n → zlen (le_bytes n z) = n.
Proof.
  intros. unfold le_bytes, zlen. rewrite length_Z_to_little_endian by lia. lia.
Qed.
Lemma le_value_le_bytes n z : 0 ≤ n → le_value (le_bytes n z) = z mod 2 ^ (n * 8).
Proof.
  intros. unfold le_bytes, le_value.
  by rewrite little_endian_to_Z_to_little_endian by lia.
Qed.
Lemma le_value_small n z : 0 ≤ n → 0 ≤ z < 2 ^ (n * 8) → le_value (le_bytes n z) = z.
Proof. intros. rewrite le_value_le_bytes by lia. by apply Z.mod_small. Qed.
Lemma le_bytes_byte n z : 0 ≤ n → Forall is_byte (le_bytes n z).
Proof. intros. apply (Z_to_little_endian_bound n 8 z); lia. Qed.
Lemma le_value_bound bs : Forall is_byte bs → 0 ≤ le_value bs < 2 ^ (zlen bs * 8).
Proof. intros. by apply (little_endian_to_Z_bound 8 bs). Qed.
Lemma le_bytes_le_value n bs : zlen bs = n → Forall is_byte bs → le_bytes n (le_value bs) = bs.
Proof. intros Hn Hb. by apply (Z_to_little_endian_to_Z n 8 bs). Qed.
End little_endian.

Section slices.
Context {A : Type}.
Implicit Types l : list A.
Lemma zslice_mid (a b c : list A) i j :
  i = zlen a → j = i + zlen b → zslice i j (a ++ b ++ c) = b.
Proof.
  intros -> ->. unfold zslice. rewrite zdrop_app_exact.
  replace (zlen a + zlen b - zlen a) with (zlen b) by lia. apply ztake_app_exact.
Qed.
Lemma zdrop_mid (a b : list A) i : i = zlen a → zdrop i (a ++ b) = b.
Proof. intros ->. apply zdrop_app_exact. Qed.
Lemma zslice_zdrop i j k l : 0 ≤ i → 0 ≤ k → zslice i j (zdrop k l) = zslice (k + i) (k + j) l.
Proof.
  intros. unfold zslice. rewrite zdrop_zdrop by lia. f_equal; [lia|f_equal; lia].
Qed.
Lemma zslice_ztake i j k l : 0 ≤ i → j ≤ k → zslice i j (ztake k l) = zslice i j l.
Proof.
  intros. unfold zslice. destruct (decide (i ≤ k)).
  - replace k with (i + (k - i)) by lia. rewrite zdrop_ztake_comm by lia.
    rewrite ztake_ztake. f_equal. lia.
  - rewrite !(ztake_le (j - i)) by lia. done.
Qed.
End slices.

(** Close length side conditions. *)
Ltac zlen_facts :=
  repeat match goal with
  | |- context [zlen ?l] =>
      lazymatch goal with
      | _ : 0 ≤ zlen l |- _ => fail
      | _ => pose proof (zlen_nonneg l)
      end
  | _ : context [zlen ?l] |- _ =>
      lazymatch goal with
      | _ : 0 ≤ zlen l |- _ => fail
      | _ => pose proof (zlen_nonneg l)
      end
  end.
Ltac zlia := autorewrite with zlen in *; zlen_facts; lia.

Section znth.
Lemma znth_app_r (l bs : list Z) i : 0 ≤ i → znth (l ++ bs) (zlen l + i) = znth bs i.
Proof.
  intros. unfold znth, zlen. rewrite app_nth2 by lia. f_equal. lia.
Qed.
Lemma zslice_cons i j (l : list Z) :
  0 ≤ i < j → i < zlen l → zslice i j l = znth l i :: zslice (i + 1) j l.
Proof.
  intros. rewrite (zslice_split i (i + 1) j) by lia.
  change (znth l i :: zslice (i + 1) j l) with ([znth l i] ++ zslice (i + 1) j l).
  f_equal. unfold zslice, ztake, zdrop, znth, zlen in *.
  replace (Z.to_nat (i + 1 - i)) with 1%nat by lia.
  destruct (drop (Z.to_nat i) l) as [|x r] eqn:E.
  { apply (f_equal length) in E. rewrite length_drop in E. cbn in E. lia. }
  rewrite <- (take_drop (Z.to_nat i) l), E.
  rewrite app_nth2; rewrite length_take; [|lia].
  replace (Z.to_nat i - _)%nat with O by lia. done.
Qed.
Lemma zeros_le n : n ≤ 0 → zeros n = [].
Proof. intros. unfold zeros. by replace (Z.to_nat n) with O by lia. Qed.
Lemma zlen_zeros n : 0 ≤ n → zlen (zeros n) = n.
Proof. intros. unfold zlen, zeros. rewrite length_replicate. lia. Qed.
End znth.
