(* ===== verification/Posix.v ===== *)
(** The system-call interface the C code runs on, and the libc shim's
    interrupt-safe wrappers around it.

    The operating system is a parameter: [Kernel] is the record of the system
    calls the shim issues, [KernelLaws] states the documented behaviour the
    theorems rely on (POSIX read, write and lseek), and [memk] is an
    executable kernel, with scripted interruptions, short transfers and
    errors, that satisfies it. *)
From S2P Require Import Prelude.

(** ** errno values and constants (Linux) *)
Definition EINTR : Z := 4.
Definition EIO : Z := 5.
Definition ENOENT : Z := 2.
Definition EBADF : Z := 9.
Definition EINVAL : Z := 22.
Definition ENOMEM : Z := 12.
Definition EILSEQ : Z := 84.
Definition SEEK_SET : Z := 0.
Definition SEEK_CUR : Z := 1.
Definition SEEK_END : Z := 2.
Definition O_RDONLY : Z := 0.
Definition O_WRONLY : Z := 1.
Definition O_RDWR : Z := 2.
Definition O_CREAT : Z := 64.
Definition O_TRUNC : Z := 512.
Definition O_APPEND : Z := 1024.
Definition O_DIRECTORY : Z := 65536.

(** What a system call gives back: a value, or [-1] with [errno] set. *)
Inductive sysret (A : Type) : Type :=
| SysOk (a : A)
| SysErr (e : Z).
Arguments SysOk {A} a.
Arguments SysErr {A} e.

(** 1 when the call was interrupted by a signal. *)
Definition interrupted {A} (r : sysret A) : nat :=
  match r with SysErr e => if e =? EINTR then 1 else 0 | SysOk _ => 0 end.

Class Kernel (K : Type) := {
  k_open : list Z → Z → option Z → K → sysret Z * K;
  k_read : Z → Z → K → sysret (list Z) * K;
  k_write : Z → list Z → K → sysret Z * K;
  k_close : Z → K → sysret unit * K;
  k_lseek : Z → Z → Z → K → sysret Z * K;
  k_getdents : Z → Z → K → sysret (list Z) * K
}.

(** The part of a process the wrappers touch: the kernel behind it and
    [errno]. *)
Record proc (K : Type) := mk_proc { p_kern : K; p_errno : Z }.
Arguments mk_proc {K} _ _.
Arguments p_kern {K} _.
Arguments p_errno {K} _.

Section syscalls.
Context {K : Type} `{Kernel K}.

(** A raw libc call: [None] is a return value of [-1]. *)
Definition syscall {A} (c : K → sysret A * K) : M (proc K) (option A) := λ s,
  match c (p_kern s) with
  | (SysOk a, k) => Ret (Some a, mk_proc k (p_errno s))
  | (SysErr e, k) => Ret (None, mk_proc k e)
  end.

(** The shape the five wrappers of the shim share:
    retry as long as the call fails with EINTR. *)
Definition nointr {A} (fuel : nat) (c : K → sysret A * K) : M (proc K) (option A) :=
  loop fuel (λ _ : unit,
    let! r := syscall c in
    match r with
    | Some v => ret (inr (Some v))
    | None =>
        let! e := gets p_errno in
        if e =? EINTR then ret (inl tt) else ret (inr None)
    end) tt.

Definition frida_open_nointr (fuel : nat) (pathname : list Z) (flags mode : Z)
    : M (proc K) (option Z) :=
  nointr fuel
    (if Z.land flags O_CREAT =? 0 then k_open pathname flags None
     else k_open pathname flags (Some mode)).

Definition frida_read_nointr (fuel : nat) (fd count : Z) : M (proc K) (option (list Z)) :=
  nointr fuel (k_read fd count).

Definition frida_write_nointr (fuel : nat) (fd : Z) (buf : list Z) : M (proc K) (option Z) :=
  nointr fuel (k_write fd buf).

Definition frida_close_nointr (fuel : nat) (fd : Z) : M (proc K) (option unit) :=
  nointr fuel (k_close fd).

Definition frida_lseek_nointr (fuel : nat) (fd offset whence : Z) : M (proc K) (option Z) :=
  nointr fuel (k_lseek fd offset whence).

Definition frida_getdirents_nointr (fuel : nat) (fd size : Z)
    : M (proc K) (option (list Z)) :=
  nointr fuel (k_getdents fd size).
End syscalls.

(** One call that is not interrupted decides the wrapper's result. *)
Lemma nointr_ok {K A} (c : K → sysret A * K) fuel (q : proc K) v k :
  c (p_kern q) = (SysOk v, k) → nointr (S fuel) c q = Ret (Some v, mk_proc k (p_errno q)).
Proof. intros E. unfold nointr. cbn [loop]. unfold bind at 1 2, syscall at 1. by rewrite E. Qed.
Lemma nointr_err {K A} (c : K → sysret A * K) fuel (q : proc K) e k :
  c (p_kern q) = (SysErr e, k) → e ≠ EINTR → nointr (S fuel) c q = Ret (None, mk_proc k e).
Proof.
  intros E He. unfold nointr. cbn [loop]. unfold bind at 1 2, syscall at 1. rewrite E.
  unfold bind at 1, gets at 1. cbn [p_errno]. by rewrite (proj2 (Z.eqb_neq e EINTR) He).
Qed.

(** ** The documented behaviour of the kernel

    [k_content], [k_pos] and [k_written] observe an open file: its bytes, its
    offset, and everything [write] has accepted on it.  [k_signals] bounds the
    interruptions still to come, which is what makes the retry loops end. *)
Class KernelLaws (K : Type) `{Kernel K} := {
  k_content : K → Z → list Z;
  k_pos : K → Z → Z;
  k_written : K → Z → list Z;
  k_signals : K → nat;
  k_pos_nonneg k fd : 0 ≤ k_pos k fd;
  read_ok fd n k bs k' :
    k_read fd n k = (SysOk bs, k') →
    zlen bs ≤ Z.max 0 n ∧
    bs = ztake (zlen bs) (zdrop (k_pos k fd) (k_content k fd)) ∧
    (bs = [] → 0 < n → zlen (k_content k fd) ≤ k_pos k fd) ∧
    k_pos k' fd = k_pos k fd + zlen bs;
  read_err fd n k e k' :
    k_read fd n k = (SysErr e, k') → 0 < e ∧ k_pos k' fd = k_pos k fd;
  read_frame fd n k r k' :
    k_read fd n k = (r, k') →
    (∀ fd', k_content k' fd' = k_content k fd' ∧ k_written k' fd' = k_written k fd') ∧
    (∀ fd', fd' ≠ fd → k_pos k' fd' = k_pos k fd');
  read_bytes fd n k bs k' : k_read fd n k = (SysOk bs, k') → Forall is_byte bs;
  write_ok fd bs k n k' :
    k_write fd bs k = (SysOk n, k') →
    0 ≤ n ≤ zlen bs ∧ (bs ≠ [] → 0 < n) ∧
    k_written k' fd = k_written k fd ++ ztake n bs;
  write_err fd bs k e k' :
    k_write fd bs k = (SysErr e, k') →
    0 < e ∧ k_written k' fd = k_written k fd ∧ k_content k' fd = k_content k fd ∧
    k_pos k' fd = k_pos k fd;
  write_frame fd bs k r k' :
    k_write fd bs k = (r, k') →
    ∀ fd', fd' ≠ fd → k_written k' fd' = k_written k fd' ∧
      k_content k' fd' = k_content k fd' ∧ k_pos k' fd' = k_pos k fd';
  lseek_ok fd off wh k p k' :
    k_lseek fd off wh k = (SysOk p, k') →
    k_pos k' fd = p ∧
    p = (if wh =? SEEK_SET then off
         else if wh =? SEEK_CUR then k_pos k fd + off
         else zlen (k_content k fd) + off);
  lseek_err fd off wh k e k' :
    k_lseek fd off wh k = (SysErr e, k') → 0 < e ∧ k_pos k' fd = k_pos k fd;
  lseek_frame fd off wh k r k' :
    k_lseek fd off wh k = (r, k') →
    ∀ fd', k_content k' fd' = k_content k fd' ∧ k_written k' fd' = k_written k fd';
  (** Closing a descriptor does not take back what was written through it. *)
  close_frame fd k r k' :
    k_close fd k = (r, k') → ∀ fd', k_written k' fd' = k_written k fd';
  signals_open p fl m k r k' :
    k_open p fl m k = (r, k') →
    (k_signals k' + interrupted r ≤ k_signals k)%nat;
  signals_read fd n k r k' :
    k_read fd n k = (r, k') →
    (k_signals k' + interrupted r ≤ k_signals k)%nat;
  signals_write fd bs k r k' :
    k_write fd bs k = (r, k') →
    (k_signals k' + interrupted r ≤ k_signals k)%nat;
  signals_close fd k r k' :
    k_close fd k = (r, k') →
    (k_signals k' + interrupted r ≤ k_signals k)%nat;
  signals_lseek fd off wh k r k' :
    k_lseek fd off wh k = (r, k') →
    (k_signals k' + interrupted r ≤ k_signals k)%nat;
  signals_getdents fd n k r k' :
    k_getdents fd n k = (r, k') →
    (k_signals k' + interrupted r ≤ k_signals k)%nat
}.

(** The bytes of [fd] that have not been read yet. *)
Definition k_rest {K} `{KernelLaws K} (k : K) (fd : Z) : list Z :=
  zdrop (k_pos k fd) (k_content k fd).

Section laws.
Context {K : Type} `{KernelLaws K}.
Implicit Types (k : K) (fd : Z) (s : proc K).

Lemma read_rest fd n k bs k' :
  k_read fd n k = (SysOk bs, k') →
  k_rest k fd = bs ++ k_rest k' fd ∧ zlen bs ≤ Z.max 0 n ∧
  (bs = [] → 0 < n → k_rest k fd = []).
Proof.
  intros E. destruct (read_ok _ _ _ _ _ E) as (Hlen & Hbs & Heof & Hpos).
  destruct (read_frame _ _ _ _ _ E) as [Hf _]. destruct (Hf fd) as [Hc _].
  pose proof (k_pos_nonneg k fd). unfold k_rest. rewrite Hc, Hpos.
  split_and!; [|done|].
  - rewrite Hbs at 1. rewrite (Z.add_comm (k_pos k fd)).
    rewrite <- zdrop_zdrop by (auto with frida). symmetry. apply ztake_zdrop.
  - intros -> Hn. apply zdrop_ge. auto.
Qed.

(** The retry loop ends, and what it hands back is the answer of the first
    call that was not interrupted; [J] is what interruptions preserve. *)
Lemma wp_nointr {A} (J : K → Prop) (c : K → sysret A * K) fuel s :
  (∀ k r k', c k = (r, k') → (k_signals k' + interrupted r ≤ k_signals k)%nat) →
  (∀ k k', J k → c k = (SysErr EINTR, k') → J k') →
  J (p_kern s) → (k_signals (p_kern s) < fuel)%nat →
  wp (nointr fuel c) s (λ r s', ∃ k, J k ∧
    (k_signals (p_kern s') ≤ k_signals (p_kern s))%nat ∧
    match r with
    | Some v => c k = (SysOk v, p_kern s')
    | None => ∃ e, c k = (SysErr e, p_kern s') ∧ p_errno s' = e ∧ e ≠ EINTR
    end).
Proof.
  intros Hsig HJ HJs Hfuel. unfold nointr.
  apply (wp_loop _
    (λ _ t, J (p_kern t) ∧ (k_signals (p_kern t) ≤ k_signals (p_kern s))%nat)
    (λ _ t, k_signals (p_kern t))); [|done|done].
  clear Hfuel. intros [] t [HJt Ht]. wp_steps. unfold syscall.
  destruct (c (p_kern t)) as [[v|e] k'] eqn:E; pose proof (Hsig _ _ _ E) as Hs;
    cbn in Hs; (eexists _, _; split; [cbn; rewrite E; reflexivity|]); cbn.
  - wp_steps. exists (p_kern t). cbn. split_and!; [done|lia|done].
  - wp_steps; cbn in *.
    + apply Z.eqb_eq in Heqb as ->. cbn in Hs. split; [|lia]. split; [by eapply HJ|lia].
    + exists (p_kern t). apply Z.eqb_neq in Heqb.
      split; [done|]. split; [lia|]. eauto.
Qed.

(** [frida_read_nointr]: the bytes handed back are the next unread ones, an
    empty block means end of file, and a failure leaves the input alone. *)
Lemma wp_read_nointr fuel fd n s :
  (k_signals (p_kern s) < fuel)%nat →
  wp (frida_read_nointr fuel fd n) s (λ r s',
    (k_signals (p_kern s') ≤ k_signals (p_kern s))%nat ∧
    (∀ fd', k_written (p_kern s') fd' = k_written (p_kern s) fd') ∧
    match r with
    | Some bs => k_rest (p_kern s) fd = bs ++ k_rest (p_kern s') fd ∧
        zlen bs ≤ Z.max 0 n ∧ Forall is_byte bs ∧
        k_pos (p_kern s') fd = k_pos (p_kern s) fd + zlen bs ∧
        (bs = [] → 0 < n → k_rest (p_kern s) fd = [])
    | None => k_rest (p_kern s') fd = k_rest (p_kern s) fd ∧
        k_pos (p_kern s') fd = k_pos (p_kern s) fd ∧ 0 < p_errno s'
    end).
Proof.
  intros Hf. unfold frida_read_nointr.
  wp_call (wp_nointr (λ k, k_rest k fd = k_rest (p_kern s) fd ∧
    k_pos k fd = k_pos (p_kern s) fd ∧
    ∀ fd', k_written k fd' = k_written (p_kern s) fd')); [|clear Hf|done|done|].
  - intros. by eapply signals_read.
  - intros k k' (Hr & Hp & Hw) E. pose proof (read_err _ _ _ _ _ E) as [Hpos Hp'].
    destruct (read_frame _ _ _ _ _ E) as [Hfr _].
    split_and!; [|congruence|intros fd'; destruct (Hfr fd'); congruence].
    rewrite <- Hr. unfold k_rest. destruct (Hfr fd) as [-> _]. by rewrite Hp'.
  - intros [bs|] s' (k & (Hr & Hp & Hw) & Hs & E).
    + destruct (read_rest _ _ _ _ _ E) as (Hr' & Hlen & Heof).
      destruct (read_ok _ _ _ _ _ E) as (_ & _ & _ & Hp').
      destruct (read_frame _ _ _ _ _ E) as [Hfr _].
      split_and!; [done|intros fd'; destruct (Hfr fd'); congruence|congruence|done
        |by eapply read_bytes|congruence|].
      intros Hn Hpos. rewrite <- Hr. auto.
    + destruct E as (e & E & He & Hne). pose proof (read_err _ _ _ _ _ E) as [Hpos Hp'].
      destruct (read_frame _ _ _ _ _ E) as [Hfr _].
      split_and!; [done|intros fd'; destruct (Hfr fd'); congruence| |congruence|congruence].
      rewrite <- Hr. unfold k_rest. destruct (Hfr fd) as [-> _]. by rewrite Hp'.
Qed.

(** [frida_write_nointr]: the bytes accepted are a prefix of the buffer, not
    an empty one unless the buffer is; a failure accepts none. *)
Lemma wp_write_nointr fuel fd bs s :
  (k_signals (p_kern s) < fuel)%nat →
  wp (frida_write_nointr fuel fd bs) s (λ r s',
    (k_signals (p_kern s') ≤ k_signals (p_kern s))%nat ∧
    (∀ fd', fd' ≠ fd → k_written (p_kern s') fd' = k_written (p_kern s) fd') ∧
    match r with
    | Some n => 0 ≤ n ≤ zlen bs ∧ (bs ≠ [] → 0 < n) ∧
        k_written (p_kern s') fd = k_written (p_kern s) fd ++ ztake n bs
    | None => k_written (p_kern s') fd = k_written (p_kern s) fd ∧
        k_pos (p_kern s') fd = k_pos (p_kern s) fd ∧
        k_rest (p_kern s') fd = k_rest (p_kern s) fd ∧ 0 < p_errno s'
    end).
Proof.
  intros Hf. unfold frida_write_nointr.
  wp_call (wp_nointr (λ k, k_pos k fd = k_pos (p_kern s) fd ∧
    k_content k fd = k_content (p_kern s) fd ∧
    ∀ fd', k_written k fd' = k_written (p_kern s) fd')); [|clear Hf|done|done|].
  - intros. by eapply signals_write.
  - intros k k' (Hp & Hc & Hw) E.
    destruct (write_err _ _ _ _ _ E) as (Hpos & Hw' & Hc' & Hp').
    pose proof (write_frame _ _ _ _ _ E) as Hfr.
    split_and!; [congruence|congruence|]. intros fd'.
    destruct (decide (fd' = fd)) as [->|Hne]; [congruence|].
    destruct (Hfr fd' Hne). congruence.
  - intros [n|] s' (k & (Hp & Hc & Hw) & Hs & E).
    + destruct (write_ok _ _ _ _ _ E) as (Hn & Hpos & Hw').
      pose proof (write_frame _ _ _ _ _ E) as Hfr.
      split_and!; [done| |lia|lia|done|congruence].
      intros fd' Hne. destruct (Hfr fd' Hne). congruence.
    + destruct E as (e & E & He & Hne).
      destruct (write_err _ _ _ _ _ E) as (Hpos & Hw' & Hc' & Hp').
      pose proof (write_frame _ _ _ _ _ E) as Hfr.
      split_and!; [done| |congruence|congruence| |congruence].
      * intros fd' Hd. destruct (Hfr fd' Hd). congruence.
      * unfold k_rest. congruence.
Qed.

Lemma wp_lseek_nointr fuel fd off wh s :
  (k_signals (p_kern s) < fuel)%nat →
  wp (frida_lseek_nointr fuel fd off wh) s (λ r s',
    (k_signals (p_kern s') ≤ k_signals (p_kern s))%nat ∧
    (∀ fd', k_content (p_kern s') fd' = k_content (p_kern s) fd' ∧
            k_written (p_kern s') fd' = k_written (p_kern s) fd') ∧
    match r with
    | Some p => k_pos (p_kern s') fd = p ∧
        p = (if wh =? SEEK_SET then off
             else if wh =? SEEK_CUR then k_pos (p_kern s) fd + off
             else zlen (k_content (p_kern s) fd) + off)
    | None => k_pos (p_kern s') fd = k_pos (p_kern s) fd ∧ 0 < p_errno s'
    end).
Proof.
  intros Hf. unfold frida_lseek_nointr.
  wp_call (wp_nointr (λ k, k_pos k fd = k_pos (p_kern s) fd ∧
    ∀ fd', k_content k fd' = k_content (p_kern s) fd' ∧
           k_written k fd' = k_written (p_kern s) fd')); [|clear Hf|done|done|].
  - intros. by eapply signals_lseek.
  - intros k k' (Hp & Hfr) E. pose proof (lseek_err _ _ _ _ _ _ E) as [Hpos Hp'].
    split; [congruence|]. intros fd'.
    destruct (Hfr fd'), (lseek_frame _ _ _ _ _ _ E fd'). split; congruence.
  - intros [p|] s' (k & (Hp & Hfr) & Hs & E).
    + destruct (lseek_ok _ _ _ _ _ _ E) as (Hp' & Hv).
      destruct (Hfr fd) as [Hc _]. rewrite Hc, Hp in Hv.
      split_and!; [done| |done|done]. intros fd'.
      destruct (Hfr fd'), (lseek_frame _ _ _ _ _ _ E fd'). split; congruence.
    + destruct E as (e & E & He & Hne). pose proof (lseek_err _ _ _ _ _ _ E) as [Hpos Hp'].
      split_and!; [done| |congruence|congruence]. intros fd'.
      destruct (Hfr fd'), (lseek_frame _ _ _ _ _ _ E fd'). split; congruence.
Qed.
End laws.

(** ** An executable kernel

    Regular files held in memory.  Each call consumes one entry of a script
    that makes it fail, or limits the bytes a transfer moves; an exhausted
    script lets every call go through. *)
Module MemKernel.

Inductive act :=
| Go
| Short (n : positive)
| Err (e : positive).

Record memfile := mk_memfile {
  mf_open : bool;
  mf_data : list Z;
  mf_pos : N;
  mf_written : list Z
}.

Record memk := mk_memk {
  m_files : gmap Z memfile;
  m_disk : list (list Z * list Z);
  m_script : list act;
  m_next : Z
}.

Definition no_file : memfile := mk_memfile false [] 0 [].
Definition file (k : memk) (fd : Z) : memfile := default no_file (m_files k !! fd).
Definition with_file (k : memk) (fd : Z) (f : memfile) (script : list act) : memk :=
  mk_memk (<[fd := f]> (m_files k)) (m_disk k) script (m_next k).
Definition skip (k : memk) (script : list act) : memk :=
  mk_memk (m_files k) (m_disk k) script (m_next k).
Definition content (k : memk) (fd : Z) : list Z := u8 <$> mf_data (file k fd).
Definition pos (k : memk) (fd : Z) : Z := Z.of_N (mf_pos (file k fd)).
Definition act_signals (a : act) : nat :=
  match a with Err e => if Zpos e =? EINTR then 1 else 0 | _ => 0 end.
Definition signals (k : memk) : nat := sum_list (act_signals <$> m_script k).

(** Run a call under the next entry of the script; [go] receives the number of
    bytes the entry allows. *)
Definition scripted {A} (k : memk) (go : option positive → memk → sysret A * memk)
    : sysret A * memk :=
  match m_script k with
  | [] => go None (skip k [])
  | Go :: r => go None (skip k r)
  | Short n :: r => go (Some n) (skip k r)
  | Err e :: r => (SysErr (Zpos e), skip k r)
  end.

Definition limit (lim : option positive) (n : Z) : Z :=
  match lim with Some m => Z.min (Zpos m) n | None => n end.

Definition m_read (fd n : Z) (k : memk) : sysret (list Z) * memk :=
  scripted k (λ lim k,
    let f := file k fd in
    if negb (mf_open f) then (SysErr EBADF, k)
    else
      let bs := ztake (limit lim n) (zdrop (pos k fd) (content k fd)) in
      (SysOk bs, with_file k fd (mk_memfile true (mf_data f)
         (mf_pos f + Z.to_N (zlen bs)) (mf_written f)) (m_script k))).

Definition m_write (fd : Z) (bs : list Z) (k : memk) : sysret Z * memk :=
  scripted k (λ lim k,
    let f := file k fd in
    if negb (mf_open f) then (SysErr EBADF, k)
    else
      let n := limit lim (zlen bs) in
      let p := pos k fd in
      let d := mf_data f in
      (SysOk n, with_file k fd (mk_memfile true
         (ztake p d ++ zeros (p - zlen d) ++ ztake n bs ++ zdrop (p + n) d)
         (mf_pos f + Z.to_N n) (mf_written f ++ ztake n bs)) (m_script k))).

Definition m_close (fd : Z) (k : memk) : sysret unit * memk :=
  scripted k (λ _ k,
    let f := file k fd in
    if negb (mf_open f) then (SysErr EBADF, k)
    else (SysOk tt, with_file k fd
            (mk_memfile false (mf_data f) (mf_pos f) (mf_written f)) (m_script k))).

Definition m_lseek (fd off wh : Z) (k : memk) : sysret Z * memk :=
  scripted k (λ _ k,
    let f := file k fd in
    let p := if wh =? SEEK_SET then off
             else if wh =? SEEK_CUR then pos k fd + off
             else zlen (content k fd) + off in
    if negb (mf_open f) then (SysErr EBADF, k)
    else if p <? 0 then (SysErr EINVAL, k)
    else (SysOk p, with_file k fd
            (mk_memfile true (mf_data f) (Z.to_N p) (mf_written f)) (m_script k))).

Definition m_open (path : list Z) (flags : Z) (mode : option Z) (k : memk) : sysret Z * memk :=
  scripted k (λ _ k,
    let found := list_find (λ e, e.1 = path) (m_disk k) in
    let data := match found with Some (_, e) => e.2 | None => [] end in
    if andb (Z.land flags O_CREAT =? 0) (bool_decide (found = None)) then (SysErr ENOENT, k)
    else
      let fd := m_next k in
      let data := if Z.land flags O_TRUNC =? 0 then data else [] in
      (SysOk fd, mk_memk (<[fd := mk_memfile true data 0 []]> (m_files k))
                   (m_disk k) (m_script k) (fd + 1))).

#[export] Instance memk_kernel : Kernel memk := {|
  k_open := m_open;
  k_read := m_read;
  k_write := m_write;
  k_close := m_close;
  k_lseek := m_lseek;
  k_getdents := m_read
|}.

Lemma file_with_file k fd f sc fd' :
  file (with_file k fd f sc) fd' = if decide (fd = fd') then f else file k fd'.
Proof.
  unfold file, with_file. cbn. rewrite lookup_insert. by case_decide.
Qed.

Lemma signals_scripted {A} k (go : option positive → memk → sysret A * memk) r k' :
  (∀ lim j r' j', go lim j = (r', j') → m_script j' = m_script j ∧ interrupted r' = O) →
  scripted k go = (r, k') → (signals k' + interrupted r ≤ signals k)%nat.
Proof.
  intros Hgo. unfold scripted, signals.
  destruct (m_script k) as [|[| n |e] sc] eqn:E; cbn;
    try (intros Hr; apply Hgo in Hr as [-> ->]; cbn; lia).
  intros [= <- <-]. cbn. lia.
Qed.

(** What a call does once the script lets it through. *)
Lemma scripted_ok {A} k (go : option positive → memk → sysret A * memk) a k' :
  scripted k go = (SysOk a, k') → ∃ lim sc, go lim (skip k sc) = (SysOk a, k').
Proof.
  unfold scripted. destruct (m_script k) as [|[| n |e] sc]; [eauto..|]. by intros [=].
Qed.
Lemma scripted_any {A} k (go : option positive → memk → sysret A * memk) r k' :
  scripted k go = (r, k') →
  (∃ lim sc, go lim (skip k sc) = (r, k')) ∨ (∃ sc e, r = SysErr (Zpos e) ∧ k' = skip k sc).
Proof.
  unfold scripted. destruct (m_script k) as [|[| n |e] sc]; eauto.
  intros [= <- <-]. eauto.
Qed.

Ltac memk_ok E :=
  let lim := fresh "lim" in let sc := fresh "sc" in
  apply scripted_ok in E as (lim & sc & E); cbn in E;
  repeat case_match; simplify_eq.
Ltac memk_any E :=
  let lim := fresh "lim" in let sc := fresh "sc" in let e := fresh "e" in
  apply scripted_any in E as [(lim & sc & E)|(sc & e & E & ->)]; cbn in E;
  repeat case_match; simplify_eq.

Lemma file_skip k sc fd : file (skip k sc) fd = file k fd.
Proof. done. Qed.

Lemma limit_range lim n : 0 ≤ n → 0 ≤ limit lim n ≤ n ∧ (0 < n → 0 < limit lim n).
Proof. destruct lim; cbn; lia. Qed.

#[export] Program Instance memk_laws : KernelLaws memk := {|
  k_content := content;
  k_pos := pos;
  k_written k fd := mf_written (file k fd);
  k_signals := signals
|}.
Next Obligation. intros. unfold pos. lia. Qed.
Next Obligation.
  intros fd n k bs k' E. memk_ok E. unfold content, pos in *.
  rewrite !file_with_file. rewrite !file_skip. case_decide; [|done]. cbn.
  set (d := u8 <$> mf_data (file k fd)). set (p := Z.of_N (mf_pos (file k fd))).
  split_and!.
  - rewrite zlen_ztake. destruct lim; cbn; lia.
  - rewrite zlen_ztake. unfold ztake.
    set (l := zdrop p d). rewrite <- (firstn_all (take (Z.to_nat (limit lim n)) l)) at 1.
    rewrite length_take, take_take. f_equal. unfold zlen. lia.
  - intros Hnil Hn. apply (f_equal zlen) in Hnil.
    rewrite zlen_ztake, zlen_zdrop in Hnil. change (zlen (@nil Z)) with 0 in Hnil.
    destruct (limit_range lim n); lia.
  - pose proof (zlen_nonneg (ztake (limit lim n) (zdrop p d))). lia.
Qed.
Next Obligation. intros fd n k e k' E. memk_any E; done. Qed.
Next Obligation.
  intros fd n k r k' E. memk_any E; split; intros; unfold content, pos;
    rewrite ?file_with_file, ?file_skip; repeat case_decide; naive_solver.
Qed.
Next Obligation.
  intros fd n k bs k' E. memk_ok E. unfold content.
  apply Forall_take, Forall_drop, Forall_fmap, Forall_true. intros. apply u8_range.
Qed.
Next Obligation.
  intros fd bs k n k' E. memk_ok E.
  pose proof (zlen_nonneg bs) as Hb. destruct (limit_range lim (zlen bs) Hb) as [Hl Hl'].
  rewrite !file_with_file, !file_skip. case_decide; [|done]. cbn.
  split_and!; [lia|lia| |done]. intros Hne. apply Hl'.
  destruct bs; [done|]. rewrite zlen_cons in *. pose proof (zlen_nonneg bs). lia.
Qed.
Next Obligation. intros fd bs k e k' E. memk_any E; done. Qed.
Next Obligation.
  intros fd bs k r k' E fd' Hne. memk_any E; unfold content, pos;
    rewrite ?file_with_file, ?file_skip; repeat case_decide; naive_solver.
Qed.
Next Obligation.
  intros fd off wh k p k' E. apply scripted_ok in E as (lim & sc & E). cbn in E.
  unfold content, pos in *. rewrite file_skip in E.
  set (q := if wh =? SEEK_SET then _ else _) in *.
  destruct (mf_open (file k fd)); cbn in E; [|done].
  destruct (Z.ltb_spec q 0); simplify_eq.
  rewrite !file_with_file. case_decide; [|done]. cbn. split; [lia|done].
Qed.
Next Obligation.
  intros fd off wh k e k' E. apply scripted_any in E as [(lim & sc & E)|(sc & e' & E & ->)];
    [|by simplify_eq]. cbn in E. set (q := if wh =? SEEK_SET then _ else _) in *.
  destruct (mf_open _); cbn in E; [|by simplify_eq].
  destruct (q <? 0); by simplify_eq.
Qed.
Next Obligation.
  intros fd off wh k r k' E fd'. apply scripted_any in E as [(lim & sc & E)|(sc & e' & E & ->)];
    [|done]. cbn in E. set (q := if wh =? SEEK_SET then _ else _) in *.
  destruct (mf_open _); cbn in E; [|by simplify_eq].
  destruct (q <? 0); simplify_eq; [done|]. unfold content, pos.
  rewrite !file_with_file, !file_skip. repeat case_decide; naive_solver.
Qed.
Next Obligation.
  intros fd k r k' E fd'. memk_any E; rewrite ?file_with_file, ?file_skip;
    repeat case_decide; naive_solver.
Qed.
Next Obligation. intros p fl m k r k'. apply signals_scripted. intros; cbn in *; repeat case_match; simplify_eq; done. Qed.
Next Obligation. intros fd n k r k'. apply signals_scripted. intros; cbn in *; repeat case_match; simplify_eq; done. Qed.
Next Obligation. intros fd n k r k'. apply signals_scripted. intros; cbn in *; repeat case_match; simplify_eq; done. Qed.
Next Obligation. intros fd k r k'. apply signals_scripted. intros; cbn in *; repeat case_match; simplify_eq; done. Qed.
Next Obligation.
  intros fd off wh k r k'. apply signals_scripted. intros lim j r' j'.
  cbn zeta. set (q := if wh =? SEEK_SET then _ else _).
  destruct (mf_open (file j fd)); cbn; [|by intros [= <- <-]].
  destruct (q <? 0); by intros [= <- <-].
Qed.
Next Obligation. intros fd n k r k'. apply signals_scripted. intros; cbn in *; repeat case_match; simplify_eq; done. Qed.

End MemKernel.
