(* ===== verification/Stdio.v ===== *)
(** The buffered streams of the libc shim (src/lib/payload/libc-shim.c):
    the [FridaFile] state, buffer refill and flush, and every operation on an
    open stream.  The code that resolves a [FILE *] to its [FridaFile], and the
    life cycle of streams, are in file Registry. *)
From S2P Require Import Prelude Posix.

Definition EOF : Z := -1.
Definition WEOF : Z := 4294967295.
Definition _IONBF : Z := 0.
Definition _IOFBF : Z := 1.
Definition _IOLBF : Z := 2.
Definition BUFSIZ : Z := 8192.
Definition FRIDA_STDIO_BUFSIZE : Z := 4096.
Definition FRIDA_GETLINE_INITIAL_SIZE : Z := 128.
Definition UNGOT_SIZE : Z := 8.
Definition NEWLINE : Z := 10.

(** ** The stream state

    [rbuf] and [wbuf] are the heap blocks (empty when NULL); the contents of a
    block nothing was written to are zero in the model, and [file_wf] keeps
    every read inside the part that was written. *)
Record FridaFile := mk_FridaFile {
  fd : Z;
  close_fd : bool;
  buf_mode : Z;
  eof : bool;
  err : Z;
  rbuf : list Z;
  owns_rbuf : bool;
  rcap : Z;
  rpos : Z;
  rlen : Z;
  wbuf : list Z;
  owns_wbuf : bool;
  wcap : Z;
  wlen : Z;
  ungot_buf : list Z;
  ungot_len : Z
}.

Definition set_buf_mode (v : Z) (f : FridaFile) : FridaFile :=
  mk_FridaFile (fd f) (close_fd f) v (eof f) (err f) (rbuf f) (owns_rbuf f) (rcap f)
    (rpos f) (rlen f) (wbuf f) (owns_wbuf f) (wcap f) (wlen f) (ungot_buf f) (ungot_len f).
Definition set_eof (v : bool) (f : FridaFile) : FridaFile :=
  mk_FridaFile (fd f) (close_fd f) (buf_mode f) v (err f) (rbuf f) (owns_rbuf f) (rcap f)
    (rpos f) (rlen f) (wbuf f) (owns_wbuf f) (wcap f) (wlen f) (ungot_buf f) (ungot_len f).
Definition set_err (v : Z) (f : FridaFile) : FridaFile :=
  mk_FridaFile (fd f) (close_fd f) (buf_mode f) (eof f) v (rbuf f) (owns_rbuf f) (rcap f)
    (rpos f) (rlen f) (wbuf f) (owns_wbuf f) (wcap f) (wlen f) (ungot_buf f) (ungot_len f).
Definition set_rblock (b : list Z) (o : bool) (c : Z) (f : FridaFile) : FridaFile :=
  mk_FridaFile (fd f) (close_fd f) (buf_mode f) (eof f) (err f) b o c
    (rpos f) (rlen f) (wbuf f) (owns_wbuf f) (wcap f) (wlen f) (ungot_buf f) (ungot_len f).
Definition set_rpos (v : Z) (f : FridaFile) : FridaFile :=
  mk_FridaFile (fd f) (close_fd f) (buf_mode f) (eof f) (err f) (rbuf f) (owns_rbuf f) (rcap f)
    v (rlen f) (wbuf f) (owns_wbuf f) (wcap f) (wlen f) (ungot_buf f) (ungot_len f).
Definition set_rlen (v : Z) (f : FridaFile) : FridaFile :=
  mk_FridaFile (fd f) (close_fd f) (buf_mode f) (eof f) (err f) (rbuf f) (owns_rbuf f) (rcap f)
    (rpos f) v (wbuf f) (owns_wbuf f) (wcap f) (wlen f) (ungot_buf f) (ungot_len f).
Definition set_wblock (b : list Z) (o : bool) (c : Z) (f : FridaFile) : FridaFile :=
  mk_FridaFile (fd f) (close_fd f) (buf_mode f) (eof f) (err f) (rbuf f) (owns_rbuf f) (rcap f)
    (rpos f) (rlen f) b o c (wlen f) (ungot_buf f) (ungot_len f).
Definition set_wlen (v : Z) (f : FridaFile) : FridaFile :=
  mk_FridaFile (fd f) (close_fd f) (buf_mode f) (eof f) (err f) (rbuf f) (owns_rbuf f) (rcap f)
    (rpos f) (rlen f) (wbuf f) (owns_wbuf f) (wcap f) v (ungot_buf f) (ungot_len f).
Definition set_ungot (b : list Z) (n : Z) (f : FridaFile) : FridaFile :=
  mk_FridaFile (fd f) (close_fd f) (buf_mode f) (eof f) (err f) (rbuf f) (owns_rbuf f) (rcap f)
    (rpos f) (rlen f) (wbuf f) (owns_wbuf f) (wcap f) (wlen f) b n.

(** [g_malloc] and [g_realloc] of a byte block. *)
Definition g_malloc (n : Z) : list Z := zeros n.
Definition g_realloc (b : list Z) (n : Z) : list Z := ztake n b ++ zeros (n - zlen b).

Definition frida_file_new (fd : Z) (close_fd : bool) (buf_mode : Z) : FridaFile :=
  if buf_mode =? _IONBF
  then mk_FridaFile fd close_fd buf_mode false 0 [] false 0 0 0 [] false 0 0
         (zeros UNGOT_SIZE) 0
  else mk_FridaFile fd close_fd buf_mode false 0
         (g_malloc FRIDA_STDIO_BUFSIZE) true FRIDA_STDIO_BUFSIZE 0 0
         (g_malloc FRIDA_STDIO_BUFSIZE) true FRIDA_STDIO_BUFSIZE 0
         (zeros UNGOT_SIZE) 0.

Definition frida_utf8_expected_len (first : Z) : option Z :=
  if first <? 128 then Some 1
  else if Z.land first 0xe0 =? 0xc0 then Some 2
  else if Z.land first 0xf0 =? 0xe0 then Some 3
  else if Z.land first 0xf8 =? 0xf0 then Some 4
  else None.

(** [frida_parse_fopen_mode]; [None] is [g_assert_not_reached]. *)
Definition frida_parse_fopen_mode (mode : list Z) : option Z :=
  let c0 := znth mode 0 in
  let plus := bool_decide (43 ∈ mode) in
  if c0 =? 114 then Some (if plus then O_RDWR else O_RDONLY)
  else if c0 =? 119 then
    Some (Z.lor (Z.lor (if plus then O_RDWR else O_WRONLY) O_CREAT) O_TRUNC)
  else if c0 =? 97 then
    Some (Z.lor (Z.lor (if plus then O_RDWR else O_WRONLY) O_CREAT) O_APPEND)
  else None.

(** ** Operations on an open stream *)

(** One open stream and the process that uses it. *)
Record io (K : Type) := mk_io { io_f : FridaFile; io_p : proc K }.
Arguments mk_io {K} _ _.
Arguments io_f {K} _.
Arguments io_p {K} _.

Section ops.
Context {K : Type} `{Kernel K}.
(** [g_utf8_get_char_validated] and [g_unichar_to_utf8] of GLib. *)
Context (g_utf8_get_char_validated : list Z → Z).
Context (g_unichar_to_utf8 : Z → list Z).

Definition on_proc {A} (m : M (proc K) A) : M (io K) A := λ s,
  match m (io_p s) with
  | Ret (a, p) => Ret (a, mk_io (io_f s) p)
  | Failed => Failed
  | Crash => Crash
  | Stuck => Stuck
  end.
Definition get_f : M (io K) FridaFile := gets io_f.
Definition upd_f (g : FridaFile → FridaFile) : M (io K) unit :=
  modify (λ s, mk_io (g (io_f s)) (io_p s)).
Definition get_errno : M (io K) Z := gets (λ s, p_errno (io_p s)).
Definition set_errno (e : Z) : M (io K) unit :=
  modify (λ s, mk_io (io_f s) (mk_proc (p_kern (io_p s)) e)).

Definition frida_file_flush_write (fuel : nat) : M (io K) Z :=
  loop fuel (λ off,
    let! f := get_f in
    if off =? wlen f then
      do! upd_f (set_wlen 0) in
      ret (inr 0)
    else
      let! n := on_proc (frida_write_nointr fuel (fd f) (zslice off (wlen f) (wbuf f))) in
      match n with
      | None =>
          let! e := get_errno in
          do! upd_f (set_err e) in
          ret (inr (-1))
      | Some n => ret (inl (off + n))
      end) 0.

Definition frida_file_fill_read (fuel : nat) : M (io K) Z :=
  do! upd_f (λ f, set_rlen 0 (set_rpos 0 f)) in
  let! f := get_f in
  if buf_mode f =? _IONBF then ret 0
  else
    let! n := on_proc (frida_read_nointr fuel (fd f) (rcap f)) in
    match n with
    | None =>
        let! e := get_errno in
        do! upd_f (set_err e) in
        ret (-1)
    | Some bs =>
        if zlen bs =? 0 then
          do! upd_f (set_eof true) in
          ret 0
        else
          do! upd_f (λ f, set_rlen (zlen bs)
                (set_rblock (zwrite 0 bs (rbuf f)) (owns_rbuf f) (rcap f) f)) in
          ret (zlen bs)
    end.

(** The refill [getc_unlocked] and [fread] share: is there a buffered byte? *)
Definition refill_if_empty (fuel : nat) : M (io K) bool :=
  let! f := get_f in
  if rpos f =? rlen f then
    let! r := frida_file_fill_read fuel in
    if r =? -1 then ret false
    else let! f := get_f in ret (negb (rlen f =? 0))
  else ret true.

(** [fflush] on a stream. *)
Definition fflush_stream (fuel : nat) : M (io K) Z :=
  let! r := frida_file_flush_write fuel in
  ret (if r =? 0 then 0 else EOF).

Definition setvbuf (fuel : nat) (buf : option (list Z)) (mode size : Z) : M (io K) Z :=
  let! r := fflush_stream fuel in
  if negb (r =? 0) then ret (-1)
  else
    do! upd_f (set_buf_mode mode) in
    if mode =? _IONBF then
      do! upd_f (λ f, set_wlen 0 (set_rlen 0 (set_rpos 0
            (set_wblock [] false 0 (set_rblock [] false 0 f))))) in
      ret 0
    else
      let size := if size =? 0 then BUFSIZ else size in
      do! upd_f (λ f, if owns_rbuf f then f else set_rblock [] (owns_rbuf f) 0 f) in
      do! upd_f (λ f, set_rblock (g_realloc (rbuf f) size) true size f) in
      do! upd_f (λ f,
            match buf with
            | Some b => set_wblock b false size f
            | None =>
                let f := if owns_wbuf f then f else set_wblock [] (owns_wbuf f) 0 f in
                set_wblock (g_realloc (wbuf f) size) true size f
            end) in
      do! upd_f (λ f, set_wlen 0 (set_rlen 0 (set_rpos 0 f))) in
      ret 0.

Definition setbuf (fuel : nat) (buf : option (list Z)) : M (io K) unit :=
  match buf with
  | None => do! setvbuf fuel None _IONBF 0 in ret tt
  | Some b => do! setvbuf fuel (Some b) _IOFBF BUFSIZ in ret tt
  end.
Definition setlinebuf (fuel : nat) : M (io K) Z := setvbuf fuel None _IOLBF 0.
Definition setbuffer (fuel : nat) (buf : option (list Z)) (size : Z) : M (io K) unit :=
  do! setvbuf fuel buf (match buf with Some _ => _IOFBF | None => _IONBF end) size in
  ret tt.

Definition fileno : M (io K) Z := let! f := get_f in ret (fd f).
Definition feof : M (io K) Z := let! f := get_f in ret (if eof f then 1 else 0).
Definition ferror : M (io K) Z := let! f := get_f in ret (if err f =? 0 then 0 else 1).

Definition getc_unlocked (fuel : nat) : M (io K) Z :=
  let! f := get_f in
  if negb (ungot_len f =? 0) then
    do! upd_f (λ f, set_ungot (ungot_buf f) (ungot_len f - 1) f) in
    ret (znth (ungot_buf f) (ungot_len f - 1))
  else if buf_mode f =? _IONBF then
    let! n := on_proc (frida_read_nointr fuel (fd f) 1) in
    match n with
    | None =>
        let! e := get_errno in
        do! upd_f (set_err e) in
        ret EOF
    | Some [] =>
        do! upd_f (set_eof true) in
        ret EOF
    | Some (ch :: _) => ret ch
    end
  else
    let! more := refill_if_empty fuel in
    if more then
      let! f := get_f in
      do! upd_f (λ f, set_rpos (rpos f + 1) f) in
      ret (znth (rbuf f) (rpos f))
    else ret EOF.

Definition getc (fuel : nat) : M (io K) Z := getc_unlocked fuel.
Definition __srget (fuel : nat) : M (io K) Z := getc_unlocked fuel.

Definition ungetc (c : Z) : M (io K) Z :=
  let! f := get_f in
  if c =? EOF then ret EOF
  else if ungot_len f =? UNGOT_SIZE then ret EOF
  else
    do! upd_f (λ f, set_eof false
          (set_ungot (zwrite (ungot_len f) [u8 c] (ungot_buf f)) (ungot_len f + 1) f)) in
    ret c.

Definition wide_failed : M (io K) Z :=
  do! set_errno EILSEQ in
  let! e := get_errno in
  do! upd_f (set_err e) in
  ret WEOF.

(** The bytes of a wide character that follow the first. *)
Definition fgetwc_rest (fuel : nat) (first need : Z) : M (io K) (option (list Z)) :=
  loop fuel (λ bytes,
    if zlen bytes =? need then ret (inr (Some bytes))
    else
      let! c := getc_unlocked fuel in
      if c =? EOF then ret (inr None) else ret (inl (bytes ++ [u8 c]))) [first].

Definition fgetwc (fuel : nat) : M (io K) Z :=
  let! c := getc_unlocked fuel in
  if c =? EOF then ret WEOF
  else
    match frida_utf8_expected_len (u8 c) with
    | None => wide_failed
    | Some need =>
        let! bytes := fgetwc_rest fuel (u8 c) need in
        match bytes with
        | None => wide_failed
        | Some bytes =>
            let ch := g_utf8_get_char_validated bytes in
            if orb (ch =? u32 (-1)) (ch =? u32 (-2)) then wide_failed else ret ch
        end
    end.

Definition getwc (fuel : nat) : M (io K) Z := fgetwc fuel.

Definition ungetwc (wc : Z) : M (io K) Z :=
  if wc =? WEOF then ret WEOF
  else
    let! f := get_f in
    let tmp := g_unichar_to_utf8 wc in
    let len := zlen tmp in
    if orb (len <=? 0) (4 <? len) then wide_failed
    else if UNGOT_SIZE <? ungot_len f + len then ret WEOF
    else
      do! upd_f (λ f, set_eof false
            (set_ungot (zwrite (ungot_len f) tmp (ungot_buf f)) (ungot_len f + len) f)) in
      ret wc.

(** [fread]: the members read, and the bytes stored at [ptr]. *)
Definition fread (fuel : nat) (size nmemb : Z) : M (io K) (Z * list Z) :=
  if orb (size =? 0) (nmemb =? 0) then ret (0, [])
  else
    let want := u64 (size * nmemb) in
    loop fuel (λ out,
      let got := zlen out in
      let done := inr (got / size, out) in
      if got =? want then ret done
      else
        let! f := get_f in
        if negb (ungot_len f =? 0) then
          do! upd_f (λ f, set_ungot (ungot_buf f) (ungot_len f - 1) f) in
          ret (inl (out ++ [znth (ungot_buf f) (ungot_len f - 1)]))
        else if buf_mode f =? _IONBF then
          let! n := on_proc (frida_read_nointr fuel (fd f) (want - got)) in
          match n with
          | None =>
              let! e := get_errno in
              do! upd_f (set_err e) in
              ret done
          | Some [] =>
              do! upd_f (set_eof true) in
              ret done
          | Some bs => ret (inl (out ++ bs))
          end
        else
          let! more := refill_if_empty fuel in
          if more then
            let! f := get_f in
            let take := Z.min (want - got) (rlen f - rpos f) in
            do! upd_f (λ f, set_rpos (rpos f + take) f) in
            ret (inl (out ++ zslice (rpos f) (rpos f + take) (rbuf f)))
          else ret done) [].

Definition fwrite_unbuffered (fuel : nat) (fd0 : Z) (data : list Z) : M (io K) Z :=
  loop fuel (λ off,
    if off =? zlen data then ret (inr off)
    else
      let! n := on_proc (frida_write_nointr fuel fd0 (zslice off (zlen data) data)) in
      match n with
      | None =>
          let! e := get_errno in
          do! upd_f (set_err e) in
          ret (inr off)
      | Some n => ret (inl (off + n))
      end) 0.

(** The room in the write buffer, made by a flush when there is none. *)
Definition fwrite_room (fuel : nat) : M (io K) (option Z) :=
  let! f := get_f in
  if wcap f - wlen f =? 0 then
    let! r := frida_file_flush_write fuel in
    if r =? 0 then let! f := get_f in ret (Some (wcap f)) else ret None
  else ret (Some (wcap f - wlen f)).

Definition fwrite_buffered (fuel : nat) (data : list Z) : M (io K) Z :=
  loop fuel (λ off,
    if off =? zlen data then ret (inr off)
    else
      let! room := fwrite_room fuel in
      match room with
      | None => ret (inr off)
      | Some space =>
          let take := Z.min (zlen data - off) space in
          let chunk := zslice off (off + take) data in
          do! upd_f (λ f, set_wlen (wlen f + take)
                (set_wblock (zwrite (wlen f) chunk (wbuf f)) (owns_wbuf f) (wcap f) f)) in
          let off := off + take in
          let! f := get_f in
          if andb (buf_mode f =? _IOLBF) (bool_decide (NEWLINE ∈ chunk)) then
            let! r := frida_file_flush_write fuel in
            ret (if r =? 0 then inl off else inr off)
          else ret (inl off)
      end) 0.

(** [fwrite] of the [size * nmemb] bytes [data]: the members written. *)
Definition fwrite (fuel : nat) (data : list Z) (size nmemb : Z) : M (io K) Z :=
  if orb (size =? 0) (nmemb =? 0) then ret 0
  else
    let total := u64 (size * nmemb) in
    let! f := get_f in
    let! off :=
      (if buf_mode f =? _IONBF then fwrite_unbuffered fuel (fd f) (ztake total data)
       else fwrite_buffered fuel (ztake total data)) in
    ret (off / size).

Definition fputc (fuel : nat) (c : Z) : M (io K) Z :=
  let ch := u8 c in
  let! n := fwrite fuel [ch] 1 1 in
  ret (if n =? 1 then ch else EOF).
Definition putc (fuel : nat) (c : Z) : M (io K) Z := fputc fuel c.

Definition fputwc (fuel : nat) (wc : Z) : M (io K) Z :=
  if wc =? WEOF then ret WEOF
  else
    let tmp := g_unichar_to_utf8 wc in
    let len := zlen tmp in
    if orb (len <=? 0) (4 <? len) then wide_failed
    else
      let! n := fwrite fuel tmp 1 len in
      ret (if n =? len then wc else WEOF).
Definition putwc (fuel : nat) (wc : Z) : M (io K) Z := fputwc fuel wc.

Definition fputs (fuel : nat) (s : list Z) : M (io K) Z :=
  let len := zlen s in
  let! n := fwrite fuel s 1 len in
  ret (if n =? len then s32 len else EOF).

(** [fgets]: [None] is NULL, otherwise the bytes stored before the NUL. *)
Definition fgets (fuel : nat) (size : Z) : M (io K) (option (list Z)) :=
  let! s := loop fuel (λ s,
    if zlen s <? size - 1 then
      let! c := getc_unlocked fuel in
      if c =? EOF then ret (inr s)
      else
        let s := s ++ [u8 c] in
        ret (if c =? NEWLINE then inr s else inl s)
    else ret (inr s)) [] in
  ret (if zlen s =? 0 then None else Some s).

Definition frida_fseek_impl (fuel : nat) (offset whence : Z) : M (io K) Z :=
  let! r := fflush_stream fuel in
  if negb (r =? 0) then ret (-1)
  else
    do! upd_f (λ f, set_eof false (set_ungot (ungot_buf f) 0 (set_rlen 0 (set_rpos 0 f)))) in
    let! f := get_f in
    let! r := on_proc (frida_lseek_nointr fuel (fd f) offset whence) in
    match r with
    | None =>
        let! e := get_errno in
        do! upd_f (set_err e) in
        ret (-1)
    | Some _ => ret 0
    end.
Definition fseek (fuel : nat) (offset whence : Z) : M (io K) Z :=
  frida_fseek_impl fuel offset whence.
Definition fseeko (fuel : nat) (offset whence : Z) : M (io K) Z :=
  frida_fseek_impl fuel offset whence.

Definition frida_ftell_impl (fuel : nat) : M (io K) Z :=
  let! f := get_f in
  let! pos := on_proc (frida_lseek_nointr fuel (fd f) 0 SEEK_CUR) in
  match pos with
  | None =>
      let! e := get_errno in
      do! upd_f (set_err e) in
      ret (-1)
  | Some pos =>
      let pos := if buf_mode f =? _IONBF then pos else pos - (rlen f - rpos f) in
      ret (pos - ungot_len f)
  end.
Definition ftell (fuel : nat) : M (io K) Z :=
  let! pos := frida_ftell_impl fuel in
  ret (if pos =? -1 then -1 else pos).
Definition ftello (fuel : nat) : M (io K) Z := frida_ftell_impl fuel.

Definition rewind (fuel : nat) : M (io K) unit :=
  do! fseek fuel 0 SEEK_SET in
  upd_f (λ f, set_eof false (set_err 0 f)).

(** [getdelim]: the value returned, and the line buffer and its size, which
    the caller owns ([None] is a NULL buffer). *)
Definition getdelim_start (lineptr : option (list Z)) (n : Z) : list Z * Z :=
  match lineptr with
  | Some l => if n =? 0 then (g_realloc l FRIDA_GETLINE_INITIAL_SIZE, FRIDA_GETLINE_INITIAL_SIZE)
              else (l, n)
  | None => (g_realloc [] FRIDA_GETLINE_INITIAL_SIZE, FRIDA_GETLINE_INITIAL_SIZE)
  end.
Definition getdelim_grow (line : list Z) (n len : Z) : list Z * Z :=
  if n <? len + 2 then
    let new_n := u64 (n * 2) in
    let new_n := if new_n <? len + 2 then len + 2 else new_n in
    (g_realloc line new_n, new_n)
  else (line, n).
Definition getdelim (fuel : nat) (lineptr : option (list Z)) (n : Z) (delimiter : Z)
    : M (io K) (Z * list Z * Z) :=
  let finish line n len := (len, zwrite len [0] line, n) in
  loop fuel (λ '(line, n, len),
    let! c := getc_unlocked fuel in
    if c =? EOF then
      ret (inr (if len =? 0 then (-1, line, n) else finish line n len))
    else
      let '(line, n) := getdelim_grow line n len in
      let line := zwrite len [u8 c] line in
      let len := len + 1 in
      ret (if c =? delimiter then inr (finish line n len) else inl (line, n, len)))
    (getdelim_start lineptr n, 0).
Definition getline (fuel : nat) (lineptr : option (list Z)) (n : Z)
    : M (io K) (Z * list Z * Z) :=
  getdelim fuel lineptr n NEWLINE.
End ops.
