(* ===== verification/StdioRead.v ===== *)
(** Correctness of the reading side of the libc shim's streams: the refinement
    of [getc], [fread], [fgets] and [getdelim] to reading a list of bytes. *)
From S2P Require Import Prelude Posix Stdio.

(** ** The invariant of a stream *)
Definition file_wf (f : FridaFile) : Prop :=
  0 ≤ rpos f ≤ rlen f ∧ rlen f ≤ rcap f ∧ zlen (rbuf f) = rcap f ∧
  0 ≤ wlen f ≤ wcap f ∧ zlen (wbuf f) = wcap f ∧
  0 ≤ ungot_len f ≤ UNGOT_SIZE ∧ zlen (ungot_buf f) = UNGOT_SIZE ∧
  Forall is_byte (rbuf f) ∧ Forall is_byte (ungot_buf f) ∧
  (if buf_mode f =? _IONBF then rlen f = 0 ∧ wlen f = 0 else 0 < rcap f ∧ 0 < wcap f).

(** ** The abstract view: a stream is the bytes still to be read, and the bytes
    written so far, whatever part of them is buffered. *)
Definition pushed (f : FridaFile) : list Z := reverse (ztake (ungot_len f) (ungot_buf f)).
Definition buffered (f : FridaFile) : list Z := zslice (rpos f) (rlen f) (rbuf f).
Definition pending (f : FridaFile) : list Z := ztake (wlen f) (wbuf f).

Section views.
Context {K : Type} `{KernelLaws K}.

Definition input (s : io K) : list Z :=
  pushed (io_f s) ++ buffered (io_f s) ++ k_rest (p_kern (io_p s)) (fd (io_f s)).
Definition output (s : io K) : list Z :=
  k_written (p_kern (io_p s)) (fd (io_f s)) ++ pending (io_f s).

(** The position of the next byte to read: where the descriptor is, less what
    was read ahead or pushed back. *)
Definition lpos (s : io K) : Z :=
  k_pos (p_kern (io_p s)) (fd (io_f s)) - zlen (buffered (io_f s)) - zlen (pushed (io_f s)).

(** What reading leaves alone. *)
Record reading (s s' : io K) : Prop := {
  rd_wf : file_wf (io_f s');
  rd_fd : fd (io_f s') = fd (io_f s);
  rd_mode : buf_mode (io_f s') = buf_mode (io_f s);
  rd_close : close_fd (io_f s') = close_fd (io_f s);
  rd_pending : pending (io_f s') = pending (io_f s);
  rd_written : ∀ n, k_written (p_kern (io_p s')) n = k_written (p_kern (io_p s)) n;
  rd_signals : (k_signals (p_kern (io_p s')) ≤ k_signals (p_kern (io_p s)))%nat
}.

Lemma reading_refl s : file_wf (io_f s) → reading s s.
Proof. by constructor. Qed.
Lemma reading_trans s1 s2 s3 : reading s1 s2 → reading s2 s3 → reading s1 s3.
Proof. intros [] []. constructor; try congruence; try done. lia. Qed.
Lemma reading_output s s' : reading s s' → output s' = output s.
Proof. intros [? Hfd ? ? Hp Hw ?]. unfold output. by rewrite Hfd, Hw, Hp. Qed.

Lemma wp_on_proc {A} (m : M (proc K) A) s Q :
  wp m (io_p s) (λ a p, Q a (mk_io (io_f s) p)) → wp (on_proc m) s Q.
Proof.
  intros (a & p & Hm & HQ). exists a, (mk_io (io_f s) p). unfold on_proc. by rewrite Hm.
Qed.
End views.
Arguments reading {K _ _} _ _.
Arguments input {K _ _} s : simpl never.
Arguments output {K _ _} s : simpl never.
Arguments lpos {K _ _} s : simpl never.
Arguments pushed f : simpl never.
Arguments buffered f : simpl never.
Arguments pending f : simpl never.
#[export] Hint Resolve reading_refl : frida.

(** Steps of a computation on a stream. *)
Ltac io_step :=
  first [ wp_step
        | match goal with
          | |- wp get_f _ _ => apply wp_gets
          | |- wp (upd_f _) _ _ => apply wp_modify
          | |- wp get_errno _ _ => apply wp_gets
          | |- wp (set_errno _) _ _ => apply wp_modify
          | |- wp (on_proc _) _ _ => apply wp_on_proc
          end ];
  cbn beta iota zeta.
Ltac io_steps := repeat io_step.

(** Break [file_wf] up and rebuild it with linear arithmetic. *)
Ltac wf_destruct H :=
  let Hm := fresh "Hmode" in
  destruct H as (? & ? & ? & ? & ? & ? & ? & ? & ? & Hm).

(** ** Reference definitions: the line a list of bytes starts with *)
Fixpoint upto (delim : Z) (l : list Z) : list Z :=
  match l with
  | [] => []
  | x :: r => if x =? delim then [x] else x :: upto delim r
  end.

Lemma upto_app delim out l : delim ∉ out → upto delim (out ++ l) = out ++ upto delim l.
Proof.
  induction out as [|x out IH]; intros Hd; [done|]. cbn.
  apply not_elem_of_cons in Hd as [Hx Hd]. destruct (Z.eqb_spec x delim); [done|].
  by rewrite IH.
Qed.
Lemma upto_prefix delim l : upto delim l `prefix_of` l.
Proof.
  induction l as [|x l IH]; cbn; [done|]. destruct (x =? delim).
  - by exists l.
  - by apply prefix_cons.
Qed.

Section reads.
Context {K : Type} `{KernelLaws K}.
Implicit Types s : io K.

Lemma is_byte_znth l i : Forall is_byte l → is_byte (znth l i).
Proof.
  intros Hl. unfold znth. destruct (nth_in_or_default (Z.to_nat i) l 0) as [Hin| ->].
  - rewrite Forall_forall in Hl. apply Hl. by apply list_elem_of_In.
  - unfold is_byte. lia.
Qed.

Lemma pushed_pop f :
  0 < ungot_len f ≤ zlen (ungot_buf f) →
  pushed f = znth (ungot_buf f) (ungot_len f - 1) ::
    reverse (ztake (ungot_len f - 1) (ungot_buf f)).
Proof.
  intros Hn. unfold pushed.
  replace (ungot_len f) with ((ungot_len f - 1) + 1) at 1 by lia.
  rewrite ztake_plus by lia. rewrite reverse_app.
  rewrite <- (Z.add_simpl_l (ungot_len f - 1) 1) at 1.
  pose proof (zslice_cons (ungot_len f - 1) (ungot_len f) (ungot_buf f)) as E.
  replace (ungot_len f - 1 + 1) with (ungot_len f) in E by lia.
  rewrite zslice_empty in E. unfold zslice in E.
  replace (ungot_len f - (ungot_len f - 1)) with 1 in E by lia.
  replace (ungot_len f - 1 + 1 - (ungot_len f - 1)) with 1 by lia.
  rewrite E by lia. done.
Qed.

Lemma pushed_nil f : ungot_len f = 0 → pushed f = [].
Proof. intros E. unfold pushed. by rewrite E, ztake_le. Qed.
Lemma buffered_nil f : rpos f = rlen f → buffered f = [].
Proof. intros E. unfold buffered. by rewrite E, zslice_empty. Qed.

(** [frida_file_fill_read] on an empty buffer: it moves unread bytes into the
    buffer, or reports end of file or an error. *)
Lemma wp_fill_read fuel s :
  file_wf (io_f s) → buf_mode (io_f s) ≠ _IONBF →
  (k_signals (p_kern (io_p s)) < fuel)%nat →
  wp (frida_file_fill_read fuel) s (λ r s',
    reading s s' ∧ rpos (io_f s') = 0 ∧ ungot_len (io_f s') = ungot_len (io_f s) ∧
    ungot_buf (io_f s') = ungot_buf (io_f s) ∧
    buffered (io_f s') ++ k_rest (p_kern (io_p s')) (fd (io_f s')) =
      k_rest (p_kern (io_p s)) (fd (io_f s)) ∧
    k_pos (p_kern (io_p s')) (fd (io_f s')) =
      k_pos (p_kern (io_p s)) (fd (io_f s)) + zlen (buffered (io_f s')) ∧
    ((r = -1 ∧ rlen (io_f s') = 0 ∧ 0 < err (io_f s')) ∨
     (r = 0 ∧ rlen (io_f s') = 0 ∧ eof (io_f s') = true ∧
        k_rest (p_kern (io_p s)) (fd (io_f s)) = []) ∨
     (0 < r ∧ rlen (io_f s') = r))).
Proof.
  intros Hwf Hmode Hfuel. pose proof Hwf as Hwf'. wf_destruct Hwf'.
  unfold frida_file_fill_read. io_steps; cbn in *.
  { by apply Z.eqb_eq in Heqb. }
  rewrite Heqb in Hmode0.
  wp_call (wp_read_nointr _ _ _ (io_p s)); [done|].
  intros [bs|] p (Hsig & Hwr & Hr); io_steps; cbn.
  - destruct Hr as (Hr & Hl & _ & Hp & Heof).
    apply Z.eqb_eq in Heqb0. apply zlen_nil_inv in Heqb0 as ->. cbn in Hr.
    split.
    { constructor; try done. unfold file_wf; cbn. rewrite Heqb. split_and!; lia || done. }
    split_and!; [done..| | |].
    + rewrite buffered_nil by done. done.
    + rewrite buffered_nil by done. done.
    + right. left. split_and!; try done. apply Heof; [done|lia].
  - destruct Hr as (Hr & Hl & Hb & Hp & Heof).
    apply Z.eqb_neq in Heqb0. pose proof (zlen_nonneg bs).
    split.
    { constructor; try done. unfold file_wf; cbn. rewrite Heqb.
      rewrite zlen_zwrite by lia. split_and!; try lia; try done.
      auto with frida. }
    split_and!; [done..| | |].
    + unfold buffered; cbn. rewrite zslice_0, Hr. f_equal. apply ztake_zwrite_0.
    + unfold buffered; cbn. by rewrite zslice_0, ztake_zwrite_0.
    + right. right. lia.
  - destruct Hr as (Hr & Hp & He).
    split.
    { constructor; try done. unfold file_wf; cbn. rewrite Heqb. split_and!; lia || done. }
    split_and!; [done..| | |].
    + rewrite buffered_nil by done. done.
    + rewrite buffered_nil by done. change (zlen []) with 0. lia.
    + left. done.
Qed.

(** [refill_if_empty]: a byte becomes available, unless the stream is at its
    end or the read failed. *)
Lemma wp_refill fuel s :
  file_wf (io_f s) → buf_mode (io_f s) ≠ _IONBF → ungot_len (io_f s) = 0 →
  (k_signals (p_kern (io_p s)) < fuel)%nat →
  wp (refill_if_empty fuel) s (λ more s',
    reading s s' ∧ ungot_len (io_f s') = 0 ∧ input s' = input s ∧ lpos s' = lpos s ∧
    if more : bool then rpos (io_f s') < rlen (io_f s')
    else (input s' = [] ∧ eof (io_f s') = true) ∨ 0 < err (io_f s')).
Proof.
  intros Hwf Hmode Hu Hfuel. unfold refill_if_empty. io_steps.
  - apply Z.eqb_eq in Heqb.
    assert (Hin : input s = k_rest (p_kern (io_p s)) (fd (io_f s))).
    { unfold input. by rewrite pushed_nil, buffered_nil by done. }
    wp_call wp_fill_read; [done..|].
    intros r s' (Hrd & Hpos & Hun & Hub & Hrest & Hkp & Hr).
    assert (Hlp : lpos s' = lpos s).
    { unfold lpos. rewrite !pushed_nil by congruence. rewrite (buffered_nil (io_f s)) by done.
      rewrite Hkp. change (zlen []) with 0. lia. }
    assert (Hin' : input s' = input s).
    { unfold input at 1. rewrite pushed_nil by congruence. rewrite Hin. apply Hrest. }
    io_steps.
    + apply Z.eqb_eq in Heqb0. subst r. split_and!; [done|congruence|done|done|].
      right. destruct Hr as [?|[?|?]]; lia.
    + apply Z.eqb_neq in Heqb0. split_and!; [done|congruence|done|done|].
      destruct (Z.eqb_spec (rlen (io_f s')) 0); cbn.
      * left. destruct Hr as [?|[(?&?&?&?)|?]]; [lia| |lia]. split; [|done]. congruence.
      * pose proof (rd_wf _ _ Hrd) as Hw. wf_destruct Hw. lia.
  - apply Z.eqb_neq in Heqb. pose proof Hwf as Hw. wf_destruct Hw.
    split_and!; auto with frida. lia.
Qed.

(** The stream after the byte under the read position is taken. *)
Lemma reading_advance s n :
  file_wf (io_f s) → 0 ≤ n ≤ rlen (io_f s) - rpos (io_f s) → ungot_len (io_f s) = 0 →
  let s' := mk_io (set_rpos (rpos (io_f s) + n) (io_f s)) (io_p s) in
  reading s s' ∧ ungot_len (io_f s') = 0 ∧ lpos s' = lpos s + n ∧
  input s = zslice (rpos (io_f s)) (rpos (io_f s) + n) (rbuf (io_f s)) ++ input s'.
Proof.
  intros Hwf Hn Hu s'. pose proof Hwf as Hw. wf_destruct Hw.
  split_and!; [|done| |].
  - constructor; try done. unfold file_wf; cbn. split_and!; lia || done.
  - unfold lpos. rewrite !pushed_nil by done. unfold buffered; cbn.
    rewrite !zlen_zslice. lia.
  - unfold input, pushed, buffered; cbn. rewrite Hu, ztake_le by lia. cbn.
    rewrite app_assoc. f_equal. apply zslice_split; lia.
Qed.

Lemma reading_pop s :
  file_wf (io_f s) → ungot_len (io_f s) ≠ 0 →
  let f := io_f s in
  let s' := mk_io (set_ungot (ungot_buf f) (ungot_len f - 1) f) (io_p s) in
  let c := znth (ungot_buf f) (ungot_len f - 1) in
  reading s s' ∧ is_byte c ∧ lpos s' = lpos s + 1 ∧ input s = c :: input s'.
Proof.
  intros Hwf Hn. cbn zeta. pose proof Hwf as Hw. wf_destruct Hw.
  split_and!.
  - constructor; try done. unfold file_wf; cbn. split_and!; lia || done.
  - by apply is_byte_znth.
  - unfold lpos. rewrite (pushed_pop (io_f s)) by lia. cbn.
    rewrite zlen_cons. unfold pushed; cbn. unfold buffered; cbn. lia.
  - unfold input. rewrite pushed_pop by lia. done.
Qed.

(** [getc_unlocked] takes the next byte of the stream, whether it was pushed
    back, buffered, or has to be read. *)
Lemma wp_getc fuel s :
  file_wf (io_f s) → (k_signals (p_kern (io_p s)) < fuel)%nat →
  wp (getc_unlocked fuel) s (λ c s',
    reading s s' ∧
    ((c = EOF ∧ input s' = input s ∧ lpos s' = lpos s ∧
        ((input s' = [] ∧ eof (io_f s') = true) ∨ 0 < err (io_f s'))) ∨
     (is_byte c ∧ input s = c :: input s' ∧ lpos s' = lpos s + 1))).
Proof.
  intros Hwf Hfuel. unfold getc_unlocked. io_steps.
  - apply negb_true_iff, Z.eqb_neq in Heqb.
    destruct (reading_pop s Hwf Heqb) as (Hrd & Hb & Hlp & Hin). auto.
  - apply negb_false_iff, Z.eqb_eq in Heqb. apply Z.eqb_eq in Heqb0.
    pose proof Hwf as Hw. wf_destruct Hw. rewrite Heqb0 in Hmode; cbn in Hmode.
    wp_call wp_read_nointr; [done|].
    assert (Hin : ∀ p, input (mk_io (io_f s) p) = k_rest (p_kern p) (fd (io_f s))).
    { intros p. unfold input; cbn. by rewrite pushed_nil, buffered_nil by lia. }
    assert (Hlp : ∀ p, lpos (mk_io (io_f s) p) = k_pos (p_kern p) (fd (io_f s))).
    { intros p. unfold lpos; cbn. rewrite pushed_nil, buffered_nil by lia.
      change (zlen []) with 0. lia. }
    pose proof (Hin (io_p s)) as Hin0. pose proof (Hlp (io_p s)) as Hlp0.
    destruct s as [f p0]; cbn in *.
    intros [[|ch bs]|] p (Hsig & Hwr & Hr); io_steps; cbn in *.
    + destruct Hr as (Hr & _ & _ & Hp & Heof). split.
      { constructor; try done. }
      left. split_and!; [done| | |].
      * transitivity (input (mk_io f p)); [done|]. rewrite Hin, Hin0. done.
      * transitivity (lpos (mk_io f p)); [done|]. rewrite Hlp, Hlp0, Hp.
        change (zlen []) with 0. lia.
      * left. split; [|done]. transitivity (input (mk_io f p)); [done|].
        rewrite Hin. rewrite <- Heof, Hr; done || lia.
    + destruct Hr as (Hr & Hl & Hb & Hp & _). split; [by constructor|]. right.
      rewrite zlen_cons in Hl.
      assert (bs = []) as -> by (apply zlen_nil_inv; pose proof (zlen_nonneg bs); lia).
      split_and!; [by inversion Hb|by rewrite !Hin, Hr|]. by rewrite !Hlp, Hp.
    + destruct Hr as (Hr & Hp & He). split; [by constructor|].
      left. split_and!; [done| | |by right].
      * transitivity (input (mk_io f p)); [done|]. by rewrite Hin, Hin0.
      * transitivity (lpos (mk_io f p)); [done|]. by rewrite Hlp, Hlp0.
  - apply negb_false_iff, Z.eqb_eq in Heqb. apply Z.eqb_neq in Heqb0.
    wp_call wp_refill; [done..|].
    intros [] s' (Hrd & Hu & Hin & Hlp & Hmore); io_steps.
    + destruct (reading_advance s' 1 (rd_wf _ _ Hrd)) as (Hrd' & _ & Hlp' & Hin'); [lia|done|].
      split; [by eapply reading_trans|]. right.
      pose proof (rd_wf _ _ Hrd) as Hw. wf_destruct Hw.
      split_and!; [by apply is_byte_znth| |by rewrite Hlp', Hlp]. rewrite <- Hin, Hin'.
      rewrite zslice_cons by lia. by rewrite zslice_empty.
    + split; [done|]. left. done.
Qed.

(** The loop of [fread] collects a prefix of the stream. *)
Lemma wp_fread fuel size nmemb s :
  file_wf (io_f s) → 0 < size → 0 < nmemb → size * nmemb < 2 ^ 64 →
  (Z.to_nat (size * nmemb) + k_signals (p_kern (io_p s)) < fuel)%nat →
  wp (fread fuel size nmemb) s (λ r s',
    reading s s' ∧ input s = r.2 ++ input s' ∧ r.1 = zlen r.2 / size ∧
    zlen r.2 ≤ size * nmemb ∧ lpos s' = lpos s + zlen r.2 ∧
    (zlen r.2 = size * nmemb ∨ (input s' = [] ∧ eof (io_f s') = true) ∨
     0 < err (io_f s'))).
Proof.
  intros Hwf Hs Hn Hover Hfuel. unfold fread.
  destruct (Z.eqb_spec size 0) as [|_]; [lia|].
  destruct (Z.eqb_spec nmemb 0) as [|_]; [lia|]. cbn.
  rewrite u64_small by nia. set (want := size * nmemb) in *.
  apply (wp_loop _
    (λ out t, reading s t ∧ input s = out ++ input t ∧ zlen out ≤ want ∧
      lpos t = lpos s + zlen out)
    (λ out t, Z.to_nat (want - zlen out))); cycle 1.
  { change (zlen []) with 0. split_and!; [by auto with frida|done|lia|lia]. }
  { change (zlen []) with 0. lia. }
  intros out t (Hrd & Hin & Hlen & Hlp). pose proof (rd_wf _ _ Hrd) as Hwt.
  pose proof (rd_signals _ _ Hrd) as Hsg.
  assert (Hstep : ∀ t' bs, reading t t' → input t = bs ++ input t' →
    lpos t' = lpos t + zlen bs → 0 < zlen bs ≤ want - zlen out →
    (reading s t' ∧ input s = (out ++ bs) ++ input t' ∧ zlen (out ++ bs) ≤ want ∧
     lpos t' = lpos s + zlen (out ++ bs)) ∧
    (Z.to_nat (want - zlen (out ++ bs)) < Z.to_nat (want - zlen out))%nat).
  { intros t' bs Hrd' Hin' Hlp' Hb. rewrite zlen_app. split; [|lia].
    split_and!; [by eapply reading_trans| |lia|lia]. by rewrite <- app_assoc, <- Hin'. }
  io_steps.
  - apply Z.eqb_eq in Heqb. cbn. split_and!; auto.
  - apply negb_true_iff, Z.eqb_neq in Heqb0.
    destruct (reading_pop t Hwt Heqb0) as (Hrd' & Hb & Hlp' & Hin').
    apply Z.eqb_neq in Heqb. apply Hstep; [done..|]. change (zlen [_]) with 1. lia.
  - (* unbuffered *)
    apply negb_false_iff, Z.eqb_eq in Heqb0. apply Z.eqb_eq in Heqb1.
    apply Z.eqb_neq in Heqb.
    pose proof Hwt as Hw. wf_destruct Hw. rewrite Heqb1 in Hmode; cbn in Hmode.
    wp_call wp_read_nointr; [lia|].
    assert (Hi : ∀ g p, fd g = fd (io_f t) → pushed g = [] → buffered g = [] →
      input (mk_io g p) = k_rest (p_kern p) (fd (io_f t))).
    { intros g p Hf Hp Hb. unfold input; cbn. by rewrite Hf, Hp, Hb. }
    assert (Hl : ∀ g p, fd g = fd (io_f t) → pushed g = [] → buffered g = [] →
      lpos (mk_io g p) = k_pos (p_kern p) (fd (io_f t))).
    { intros g p Hf Hp Hb. unfold lpos; cbn. rewrite Hf, Hp, Hb.
      change (zlen []) with 0. lia. }
    assert (pushed (io_f t) = [] ∧ buffered (io_f t) = []) as [Hp Hb].
    { split; [by apply pushed_nil|apply buffered_nil; lia]. }
    assert (Hit : input t = k_rest (p_kern (io_p t)) (fd (io_f t))).
    { destruct t. by apply Hi. }
    assert (Hlt : lpos t = k_pos (p_kern (io_p t)) (fd (io_f t))).
    { destruct t. by apply Hl. }
    intros [[|ch bs]|] p (Hsig & Hwr & Hr); io_steps; cbn.
    + destruct Hr as (Hr & _ & _ & Hkp & Heof). cbn in Hr.
      change (zlen []) with 0 in Hkp.
      assert (k_rest (p_kern p) (fd (io_f t)) = []) as He.
      { rewrite <- Hr. apply Heof; [done|lia]. }
      split; [by eapply reading_trans; [done|constructor]|].
      split_and!; [|done|lia|rewrite Hl by done; lia|].
      * rewrite Hin, Hit. f_equal. rewrite Hi by done. congruence.
      * right. left. split; [|done]. by rewrite Hi.
    + destruct Hr as (Hr & Hbl & _ & Hkp & _). apply Hstep; [by constructor| | |].
      * rewrite Hit, Hr. by rewrite Hi.
      * rewrite Hl by done. lia.
      * rewrite zlen_cons in *. pose proof (zlen_nonneg bs). lia.
    + destruct Hr as (Hr & Hkp & He).
      split; [by eapply reading_trans; [done|constructor]|].
      split_and!; [|done|lia|rewrite Hl by done; lia|by right; right]. rewrite Hin, Hit. f_equal. by rewrite Hi.
  - (* buffered *)
    apply negb_false_iff, Z.eqb_eq in Heqb0. apply Z.eqb_neq in Heqb1, Heqb.
    wp_call wp_refill; [done..|lia|].
    intros [] t' (Hrd' & Hu & Hin' & Hlp' & Hmore); io_steps.
    + set (n := Z.min (want - zlen out) (rlen (io_f t') - rpos (io_f t'))).
      pose proof (rd_wf _ _ Hrd') as Hw. wf_destruct Hw.
      destruct (reading_advance t' n (rd_wf _ _ Hrd')) as (Hrd'' & _ & Hlp'' & Hin'');
        [lia|done|].
      apply Hstep; [by eapply reading_trans| | |].
      * by rewrite <- Hin', Hin''.
      * rewrite zlen_zslice. lia.
      * rewrite zlen_zslice. lia.
    + cbn. split_and!; [by eapply reading_trans|congruence|done|lia|lia|by right].
Qed.

(** [ungetc] puts a byte in front of the stream. *)
Lemma wp_ungetc c s :
  file_wf (io_f s) → c ≠ EOF →
  wp (ungetc c) s (λ r s',
    if ungot_len (io_f s) =? UNGOT_SIZE then r = EOF ∧ s' = s
    else r = c ∧ reading s s' ∧ input s' = u8 c :: input s ∧ lpos s' = lpos s - 1 ∧
         ungot_len (io_f s') = ungot_len (io_f s) + 1 ∧ eof (io_f s') = false).
Proof.
  intros Hwf Hc. unfold ungetc. io_steps; try done.
  { by apply Z.eqb_eq in Heqb. }
  apply Z.eqb_neq in Heqb0. pose proof Hwf as Hw. wf_destruct Hw.
  assert (zlen [u8 c] = 1) by done.
  split_and!; [done| | | |done|done].
  - constructor; try done. unfold file_wf; cbn.
    rewrite zlen_zwrite by lia.
    split_and!; try lia; try done.
    apply Forall_zwrite; [|done]. constructor; [apply u8_range|done].
  - unfold input, pushed; cbn.
    change (ungot_len (io_f s) + 1) with (ungot_len (io_f s) + zlen [u8 c]).
    rewrite ztake_zwrite by lia. rewrite reverse_app. done.
  - unfold lpos, pushed, buffered; cbn. rewrite !zlen_reverse, !zlen_ztake.
    rewrite zlen_zwrite by lia. lia.
Qed.

(** A byte appended to what a line reader has collected. *)
Lemma collect_step s t t' out c :
  input s = out ++ input t → input t = c :: input t' →
  input s = (out ++ [c]) ++ input t'.
Proof. intros -> ->. by rewrite <- app_assoc. Qed.

Lemma wp_fgets fuel size s :
  file_wf (io_f s) → 1 ≤ size →
  (length (input s) + k_signals (p_kern (io_p s)) < fuel)%nat →
  wp (fgets fuel size) s (λ r s', reading s s' ∧ ∃ line,
    input s = line ++ input s' ∧
    r = (if zlen line =? 0 then None else Some line) ∧
    (line = ztake (size - 1) (upto NEWLINE (input s)) ∨
     (0 < err (io_f s') ∧ line `prefix_of` (ztake (size - 1) (upto NEWLINE (input s)))))).
Proof.
  intros Hwf Hsize Hfuel. unfold fgets. apply wp_bind.
  wp_call (wp_loop _
    (λ out t, reading s t ∧ input s = out ++ input t ∧ (NEWLINE ∉ out) ∧ zlen out ≤ size - 1)
    (λ out t, length (input t))
    (λ line t, reading s t ∧ input s = line ++ input t ∧
      (line = ztake (size - 1) (upto NEWLINE (input s)) ∨
       (0 < err (io_f t) ∧ line `prefix_of` (ztake (size - 1) (upto NEWLINE (input s))))))).
  - intros out t (Hrd & Hin & Hnl & Hlen).
    pose proof (rd_wf _ _ Hrd) as Hwt. pose proof (rd_signals _ _ Hrd) as Hsg.
    assert (Hup : ztake (size - 1) (upto NEWLINE (input s)) =
      out ++ ztake (size - 1 - zlen out) (upto NEWLINE (input t))).
    { rewrite Hin, upto_app by done. unfold ztake, zlen in *.
      rewrite take_app_ge by lia. do 2 f_equal. lia. }
    io_steps.
    + apply Z.ltb_lt in Heqb. wp_call wp_getc; [done|lia|].
      intros c t' (Hrd' & [(-> & Hin' & _ & He)|(Hb & Hin' & _)]); io_steps; try done.
      * rewrite <- Hin' in Hin. split_and!; [by eapply reading_trans|done|].
        rewrite Hup, <- Hin'. destruct He as [[He _]|He].
        -- left. rewrite He. cbn. unfold ztake. by rewrite take_nil, app_nil_r.
        -- right. split; [done|]. by apply prefix_app_r.
      * exfalso. apply Z.eqb_eq in Heqb0. unfold is_byte, EOF in *. lia.
      * rewrite u8_small by done.
        destruct (Z.eqb_spec c NEWLINE) as [->|Hc].
        -- split_and!; [by eapply reading_trans|by eapply collect_step|].
           left. rewrite Hup, Hin'. cbn. f_equal. rewrite ztake_ge; [done|].
           rewrite zlen_cons, zlen_nil. lia.
        -- split; [split_and!|].
           ++ by eapply reading_trans.
           ++ by eapply collect_step.
           ++ rewrite not_elem_of_app. split; [done|]. by apply not_elem_of_cons; split; [done|apply not_elem_of_nil].
           ++ rewrite zlen_app, zlen_cons, zlen_nil. lia.
           ++ rewrite Hin'. cbn. lia.
    + apply Z.ltb_ge in Heqb. split_and!; [done|done|]. left.
      rewrite Hup, (ztake_le (_ - _)) by lia. by rewrite app_nil_r.
  - split_and!; [by auto with frida|done|apply not_elem_of_nil|rewrite zlen_nil; lia].
  - lia.
  - intros line t (Hrd & Hin & Hl). io_steps. eauto.
Qed.

Lemma g_realloc_length b n : 0 ≤ n → zlen (g_realloc b n) = n.
Proof.
  intros. unfold g_realloc. rewrite zlen_app, zlen_ztake. pose proof (zlen_nonneg b).
  destruct (Z.le_gt_cases (zlen b) n); [rewrite zlen_zeros by lia; lia|].
  rewrite zeros_le by lia. change (zlen (@nil Z)) with 0. lia.
Qed.
Lemma g_realloc_take b n m : m ≤ zlen b → m ≤ n → ztake m (g_realloc b n) = ztake m b.
Proof.
  intros. unfold g_realloc. rewrite ztake_app_le by (rewrite zlen_ztake; lia).
  rewrite ztake_ztake. f_equal. lia.
Qed.

(** Growing the line buffer leaves room for a byte and a terminator, and
    keeps the bytes collected so far. *)
Lemma getdelim_grow_room line n len line' n' :
  zlen line = n → 0 ≤ len ≤ n → getdelim_grow line n len = (line', n') →
  zlen line' = n' ∧ len + 2 ≤ n' ∧ ztake len line' = ztake len line.
Proof.
  intros Hl Hlen. unfold getdelim_grow.
  destruct (Z.ltb_spec n (len + 2)); intros [= <- <-].
  - set (m := if _ <? _ then _ else _).
    assert (len + 2 ≤ m) by (subst m; destruct (Z.ltb_spec (u64 (n * 2)) (len + 2)); lia).
    split_and!; [apply g_realloc_length; lia|lia|apply g_realloc_take; lia].
  - split_and!; [done|lia|done].
Qed.

(** A caller's line buffer: NULL, or a block of [n] bytes. *)
Definition line_buffer (lineptr : option (list Z)) (n : Z) : Prop :=
  match lineptr with Some l => zlen l = n | None => True end.

Lemma getdelim_start_ok lineptr n line n' :
  line_buffer lineptr n → getdelim_start lineptr n = (line, n') →
  zlen line = n' ∧ 0 < n'.
Proof.
  unfold line_buffer, getdelim_start, FRIDA_GETLINE_INITIAL_SIZE.
  destruct lineptr as [l|]; [destruct (Z.eqb_spec n 0)|]; intros Hl [= <- <-].
  - split; [by apply g_realloc_length|lia].
  - split; [done|]. pose proof (zlen_nonneg l). lia.
  - split; [by apply g_realloc_length|lia].
Qed.

(** The line handed to the caller: [len] bytes and a NUL, inside the buffer. *)
Definition line_result (line : list Z) (r : Z * list Z * Z) : Prop :=
  if zlen line =? 0 then r.1.1 = -1
  else r.1.1 = zlen line ∧ zlen r.1.2 = r.2 ∧
    ztake (zlen line + 1) r.1.2 = line ++ [0].

Lemma line_result_finish line n len out :
  zlen line = n → ztake len line = out → len = zlen out → 0 < len → len + 1 ≤ n →
  line_result out (len, zwrite len [0] line, n).
Proof.
  intros Hl Ho Hlen Hpos Hn. unfold line_result; cbn.
  destruct (Z.eqb_spec (zlen out) 0); [lia|].
  assert (zlen [0] = 1) as H1 by done.
  split_and!; [done|rewrite zlen_zwrite; lia|].
  rewrite <- Hlen, <- H1, ztake_zwrite by lia. by rewrite Ho.
Qed.

Lemma wp_getdelim fuel lineptr n delim s :
  file_wf (io_f s) → line_buffer lineptr n →
  (length (input s) + k_signals (p_kern (io_p s)) < fuel)%nat →
  wp (getdelim fuel lineptr n delim) s (λ r s', reading s s' ∧ ∃ line,
    input s = line ++ input s' ∧ line_result line r ∧
    (line = upto delim (input s) ∨
     (0 < err (io_f s') ∧ line `prefix_of` (upto delim (input s))))).
Proof.
  intros Hwf Hbuf Hfuel. unfold getdelim.
  destruct (getdelim_start lineptr n) as [line0 n0] eqn:E0.
  destruct (getdelim_start_ok _ _ _ _ Hbuf E0) as [Hl0 Hn0].
  apply (wp_loop _
    (λ '(line, m, len) t, reading s t ∧ ∃ out, input s = out ++ input t ∧ (delim ∉ out) ∧
      ztake len line = out ∧ len = zlen out ∧ zlen line = m ∧
      len ≤ m ∧ (0 < len → len + 1 ≤ m))
    (λ _ t, length (input t))); cycle 1.
  { split; [by auto with frida|]. exists []. split_and!; try done; try lia.
    apply not_elem_of_nil. }
  { lia. }
  intros [[line m] len] t (Hrd & out & Hin & Hd & Ho & Hlen & Hm & Hle & Hle').
  pose proof (rd_wf _ _ Hrd) as Hwt. pose proof (rd_signals _ _ Hrd) as Hsg.
  assert (Hup : upto delim (input s) = out ++ upto delim (input t)).
  { rewrite Hin. by apply upto_app. }
  io_steps. wp_call wp_getc; [done|lia|].
  intros c t' (Hrd' & [(-> & Hin' & _ & He)|(Hb & Hin' & _)]).
  - change (EOF =? EOF) with true. cbn iota. io_steps.
    split; [by eapply reading_trans|]. exists out. rewrite <- Hin' in Hin.
    split_and!; [done| |].
    + destruct (Z.eqb_spec len 0).
      * unfold line_result; cbn. by destruct (Z.eqb_spec (zlen out) 0); [|lia].
      * pose proof (zlen_nonneg out). apply line_result_finish; try done; lia.
    + rewrite Hup, <- Hin'. destruct He as [[He _]|He].
      * left. rewrite He. cbn. by rewrite app_nil_r.
      * right. split; [done|]. by apply prefix_app_r.
  - destruct (Z.eqb_spec c EOF); [unfold is_byte, EOF in *; lia|].
    destruct (getdelim_grow line m len) as [line' m'] eqn:Eg.
    pose proof (zlen_nonneg out).
    destruct (getdelim_grow_room line m len line' m') as (Hl' & Hr & Ht); [done|lia|done|].
    io_steps. rewrite u8_small by done.
    assert (zlen [c] = 1) as H1c by done.
    assert (zlen (zwrite len [c] line') = m') by (rewrite zlen_zwrite; lia).
    assert (ztake (len + 1) (zwrite len [c] line') = out ++ [c]).
    { rewrite <- H1c, ztake_zwrite by lia. by rewrite Ht, Ho. }
    assert (len + 1 = zlen (out ++ [c])) by (rewrite zlen_app, H1c; lia).
    destruct (Z.eqb_spec c delim) as [->|Hc].
    + split; [by eapply reading_trans|]. exists (out ++ [delim]).
      split_and!; [by eapply collect_step| |].
      * apply line_result_finish; try done; lia.
      * left. rewrite Hup, Hin'. cbn. by rewrite Z.eqb_refl.
    + split; [|rewrite Hin'; cbn; lia]. split; [by eapply reading_trans|].
      exists (out ++ [c]). split_and!; try done; try lia; [by eapply collect_step|].
      rewrite not_elem_of_app, list_elem_of_singleton. naive_solver.
Qed.
End reads.
