(* ===== verification/StdioWrite.v ===== *)
(** Correctness of the writing side of the libc shim's streams: flushing,
    [fwrite] in its three buffering modes, repositioning and [setvbuf]. *)
From S2P Require Import Prelude Posix Stdio StdioRead.

Section writes.
Context {K : Type} `{KernelLaws K}.
Implicit Types s : io K.

(** What writing leaves alone. *)
Record writing (s s' : io K) : Prop := {
  wr_wf : file_wf (io_f s');
  wr_fd : fd (io_f s') = fd (io_f s);
  wr_mode : buf_mode (io_f s') = buf_mode (io_f s);
  wr_close : close_fd (io_f s') = close_fd (io_f s);
  wr_cap : wcap (io_f s') = wcap (io_f s);
  wr_pushed : pushed (io_f s') = pushed (io_f s);
  wr_buffered : buffered (io_f s') = buffered (io_f s);
  wr_eof : eof (io_f s') = eof (io_f s);
  wr_other : ∀ n, n ≠ fd (io_f s) →
    k_written (p_kern (io_p s')) n = k_written (p_kern (io_p s)) n;
  wr_signals : (k_signals (p_kern (io_p s')) ≤ k_signals (p_kern (io_p s)))%nat
}.

Lemma writing_refl s : file_wf (io_f s) → writing s s.
Proof. by constructor. Qed.
Lemma writing_trans s1 s2 s3 : writing s1 s2 → writing s2 s3 → writing s1 s3.
Proof.
  intros [? Hfd ? ? ? ? ? ? Ho ?] [? ? ? ? ? ? ? ? Ho' ?].
  constructor; try congruence; try done; [|lia].
  intros n Hn. rewrite Ho' by congruence. by apply Ho.
Qed.

(** Setting [wlen], [err] and [wbuf] keeps the stream well formed. *)
Lemma file_wf_set_err e f : file_wf f → file_wf (set_err e f).
Proof. done. Qed.
Lemma file_wf_set_wlen n f :
  file_wf f → 0 ≤ n ≤ wlen f → file_wf (set_wlen n f).
Proof.
  intros Hw Hn. wf_destruct Hw. unfold file_wf; cbn.
  split_and!; try lia; try done. destruct (buf_mode f =? _IONBF); [lia|done].
Qed.

Lemma wp_flush fuel s :
  file_wf (io_f s) →
  (Z.to_nat (wlen (io_f s)) + k_signals (p_kern (io_p s)) < fuel)%nat →
  wp (frida_file_flush_write fuel) s (λ r s', writing s s' ∧
    let fd0 := fd (io_f s) in
    let w := k_written (p_kern (io_p s)) fd0 in
    let w' := k_written (p_kern (io_p s')) fd0 in
    if r =? 0 then wlen (io_f s') = 0 ∧ w' = w ++ pending (io_f s) ∧
                   err (io_f s') = err (io_f s)
    else r = -1 ∧ 0 < err (io_f s') ∧ pending (io_f s') = pending (io_f s) ∧
         ∃ n, 0 ≤ n < wlen (io_f s) ∧ w' = w ++ ztake n (pending (io_f s))).
Proof.
  intros Hwf Hfuel. unfold frida_file_flush_write.
  pose proof Hwf as Hw. wf_destruct Hw.
  apply (wp_loop _
    (λ off t, writing s t ∧ io_f t = io_f s ∧ 0 ≤ off ≤ wlen (io_f s) ∧
      k_written (p_kern (io_p t)) (fd (io_f s)) =
      k_written (p_kern (io_p s)) (fd (io_f s)) ++ ztake off (pending (io_f s)))
    (λ off _, Z.to_nat (wlen (io_f s) - off))); cycle 1.
  { split_and!; [by apply writing_refl|done|lia|lia|].
    rewrite ztake_le by lia. by rewrite app_nil_r. }
  { lia. }
  intros off t (Hwr & Hf & Hoff & Hwritten). pose proof (wr_signals _ _ Hwr) as Hsg.
  assert (Hpend : zlen (pending (io_f s)) = wlen (io_f s)).
  { unfold pending. rewrite zlen_ztake. lia. }
  io_steps; rewrite ?Hf in *.
  - apply Z.eqb_eq in Heqb. subst off. cbn. split_and!; [|done| |done].
    + destruct Hwr. constructor; cbn; rewrite ?Hf in *; try done.
      apply file_wf_set_wlen; [done|lia].
    + by rewrite Hwritten, ztake_ge by lia.
  - apply Z.eqb_neq in Heqb.
    wp_call wp_write_nointr; [lia|].
    intros [n|] p (Hsig & Hother & Hr); io_steps; cbn.
    + destruct Hr as (Hn & Hpos & Hr).
      assert (Hsl : zlen (zslice off (wlen (io_f s)) (wbuf (io_f s))) = wlen (io_f s) - off)
        by (rewrite zlen_zslice; lia).
      assert (zslice off (wlen (io_f s)) (wbuf (io_f s)) ≠ []) as Hne.
      { intros E. rewrite E in Hsl. change (zlen (@nil Z)) with 0 in Hsl. lia. }
      specialize (Hpos Hne). split; [|lia]. split_and!; [|done|lia|lia|].
      * destruct Hwr as [? ? ? ? ? ? ? ? Ho ?]. constructor; cbn; try done; [|lia].
        intros m Hm. rewrite Hother by done. by apply Ho.
      * rewrite Hr, Hwritten, <- app_assoc. f_equal.
        rewrite ztake_plus by lia. f_equal. unfold pending, zslice.
        rewrite ztake_ztake. rewrite Z.min_l by lia.
        replace (wlen (io_f s)) with (off + (wlen (io_f s) - off)) at 1 by lia.
        rewrite zdrop_ztake_comm by lia. rewrite ztake_ztake. f_equal. lia.
    + destruct Hr as (Hr & _ & _ & He). split.
      * destruct Hwr as [? ? ? ? ? ? ? ? Ho ?]. constructor; cbn; try done; [|lia].
        intros m Hm. rewrite Hother by done. by apply Ho.
      * split_and!; [done|done|done|]. exists off. split; [lia|]. by rewrite Hr.
Qed.

(** A system call on the stream's descriptor, and the error it may record. *)
Lemma writing_kernel s (p : proc K) e :
  file_wf (io_f s) →
  (∀ m, m ≠ fd (io_f s) → k_written (p_kern p) m = k_written (p_kern (io_p s)) m) →
  (k_signals (p_kern p) ≤ k_signals (p_kern (io_p s)))%nat →
  writing s (mk_io (io_f s) p) ∧ writing s (mk_io (set_err e (io_f s)) p).
Proof. intros. split; by constructor. Qed.

Lemma pending_nil f : wlen f = 0 → pending f = [].
Proof. intros E. unfold pending. by rewrite E, ztake_le. Qed.

(** The first [off] bytes of [data] follow the earlier output: they are in the kernel or
    pending.  Only after a flush that failed the kernel may have some of the pending bytes
    already. *)
Definition accepted s (data : list Z) (off : Z) s' : Prop :=
  ∃ w m, w ++ pending (io_f s') = output s ++ ztake off data ∧
    k_written (p_kern (io_p s')) (fd (io_f s)) = w ++ ztake m (pending (io_f s')) ∧
    0 ≤ m ∧ (m = 0 ∨ (m < zlen (pending (io_f s')) ∧ 0 < err (io_f s'))).
Lemma output_accepted s data off s' :
  fd (io_f s') = fd (io_f s) → output s' = output s ++ ztake off data → accepted s data off s'.
Proof.
  intros Hfd Ho. exists (k_written (p_kern (io_p s')) (fd (io_f s))), 0. unfold output in Ho at 1. rewrite Hfd in Ho.
  split_and!; [done|by rewrite ztake_le, app_nil_r by lia|lia|by left].
Qed.
Lemma flush_failure_accepted s t s' data off n :
  output t = output s ++ ztake off data → fd (io_f t) = fd (io_f s) → pending (io_f s') = pending (io_f t) →
  0 ≤ n < wlen (io_f t) → zlen (pending (io_f t)) = wlen (io_f t) → 0 < err (io_f s') →
  k_written (p_kern (io_p s')) (fd (io_f t)) = k_written (p_kern (io_p t)) (fd (io_f t)) ++ ztake n (pending (io_f t)) →
  accepted s data off s'.
Proof.
  intros Ho Hfd Hp Hn Hl He Hw. exists (k_written (p_kern (io_p t)) (fd (io_f t))), n. rewrite Hp.
  split_and!; [by rewrite <- Ho|by rewrite <- Hfd|lia|right; lia].
Qed.
Lemma zlen_pending f : file_wf f → zlen (pending f) = wlen f.
Proof. intros Hw. wf_destruct Hw. unfold pending. rewrite zlen_ztake. lia. Qed.

(** [fwrite] without a buffer hands every byte to the kernel, in order. *)
Lemma wp_fwrite_unbuffered fuel data s :
  file_wf (io_f s) → buf_mode (io_f s) = _IONBF →
  (length data + k_signals (p_kern (io_p s)) < fuel)%nat →
  wp (fwrite_unbuffered fuel (fd (io_f s)) data) s (λ off s', writing s s' ∧
    0 ≤ off ≤ zlen data ∧ output s' = output s ++ ztake off data ∧
    (off = zlen data ∨ 0 < err (io_f s'))).
Proof.
  intros Hwf Hmode Hfuel. unfold fwrite_unbuffered.
  pose proof Hwf as Hw. wf_destruct Hw. rewrite Hmode in Hmode0; cbn in Hmode0.
  apply (wp_loop _
    (λ off t, writing s t ∧ 0 ≤ off ≤ zlen data ∧ wlen (io_f t) = 0 ∧
      output t = output s ++ ztake off data)
    (λ off _, Z.to_nat (zlen data - off))); cycle 1.
  { pose proof (zlen_nonneg data). split_and!; [by apply writing_refl|lia|lia|lia|].
    rewrite ztake_le by lia. by rewrite app_nil_r. }
  { unfold zlen. lia. }
  intros off t (Hwr & Hoff & Hw0 & Hout). pose proof (wr_signals _ _ Hwr) as Hsg.
  io_steps.
  - apply Z.eqb_eq in Heqb. auto.
  - apply Z.eqb_neq in Heqb. wp_call wp_write_nointr; [lia|].
    pose proof (wr_fd _ _ Hwr) as Hfd.
    assert (Ho : output t = k_written (p_kern (io_p t)) (fd (io_f s))).
    { unfold output. rewrite pending_nil, app_nil_r by done. by rewrite Hfd. }
    intros [n|] p (Hsig & Hother & Hr); io_steps; cbn.
    + destruct Hr as (Hn & Hpos & Hr). rewrite zlen_zslice in Hn.
      assert (zslice off (zlen data) data ≠ []) as Hne.
      { intros E. apply (f_equal zlen) in E. rewrite zlen_zslice in E.
        change (zlen (@nil Z)) with 0 in E. lia. }
      specialize (Hpos Hne). split; [|lia]. split_and!; [|lia|lia|done|].
      * eapply writing_trans; [done|]. 
        apply (writing_kernel t p (p_errno p)); [exact (wr_wf _ _ Hwr)| |done].
        intros m Hm. apply Hother. congruence.
      * unfold output; cbn. rewrite pending_nil, app_nil_r by done.
        rewrite Hfd, Hr, <- Ho, Hout, <- app_assoc. f_equal.
        rewrite ztake_plus by lia. f_equal. unfold zslice. rewrite ztake_ztake.
        f_equal. lia.
    + destruct Hr as (Hr & _ & _ & He). split_and!; [|lia|lia| |by right].
      * eapply writing_trans; [done|]. 
        apply (writing_kernel t p (p_errno p)); [exact (wr_wf _ _ Hwr)| |done].
        intros m Hm. apply Hother. congruence.
      * rewrite <- Hout, Ho. unfold output; cbn.
        rewrite pending_nil, app_nil_r by done. by rewrite Hfd, Hr.
Qed.

(** The buffer after [take] bytes were copied behind the pending ones. *)
Lemma writing_append s chunk :
  file_wf (io_f s) → buf_mode (io_f s) ≠ _IONBF →
  zlen chunk ≤ wcap (io_f s) - wlen (io_f s) →
  let f := io_f s in
  let s' := mk_io (set_wlen (wlen f + zlen chunk)
    (set_wblock (zwrite (wlen f) chunk (wbuf f)) (owns_wbuf f) (wcap f) f)) (io_p s) in
  writing s s' ∧ output s' = output s ++ chunk ∧
  pending (io_f s') = pending f ++ chunk ∧ wlen (io_f s') = wlen f + zlen chunk ∧
  err (io_f s') = err f.
Proof.
  intros Hwf Hmode Hn. cbn zeta. pose proof Hwf as Hw. wf_destruct Hw.
  pose proof (zlen_nonneg chunk).
  assert (Hp : pending (set_wlen (wlen (io_f s) + zlen chunk)
    (set_wblock (zwrite (wlen (io_f s)) chunk (wbuf (io_f s))) (owns_wbuf (io_f s))
      (wcap (io_f s)) (io_f s))) = pending (io_f s) ++ chunk).
  { unfold pending; cbn. apply ztake_zwrite. lia. }
  split_and!; [|unfold output; cbn; by rewrite Hp, app_assoc|done|done|done].
  constructor; cbn; try done. unfold file_wf; cbn.
  destruct (Z.eqb_spec (buf_mode (io_f s)) _IONBF); [done|].
  rewrite zlen_zwrite by lia. split_and!; lia || done.
Qed.

Definition line_clean (f : FridaFile) : Prop :=
  buf_mode f = _IOLBF → NEWLINE ∉ pending f.

Lemma wp_fwrite_room fuel s :
  file_wf (io_f s) → buf_mode (io_f s) ≠ _IONBF →
  (Z.to_nat (wcap (io_f s)) + k_signals (p_kern (io_p s)) < fuel)%nat →
  wp (fwrite_room fuel) s (λ room s', writing s s' ∧
    match room with
    | None => 0 < err (io_f s') ∧ pending (io_f s') = pending (io_f s) ∧ ∃ n, 0 ≤ n < wlen (io_f s) ∧
        k_written (p_kern (io_p s')) (fd (io_f s)) = k_written (p_kern (io_p s)) (fd (io_f s)) ++ ztake n (pending (io_f s))
    | Some space => 0 < space ∧ space = wcap (io_f s') - wlen (io_f s') ∧
        output s' = output s ∧ (line_clean (io_f s) → line_clean (io_f s'))
    end).
Proof.
  intros Hwf Hmode Hfuel. pose proof Hwf as Hw. wf_destruct Hw.
  destruct (Z.eqb_spec (buf_mode (io_f s)) _IONBF) as [|_]; [congruence|].
  unfold fwrite_room. io_steps.
  - apply Z.eqb_eq in Heqb. wp_call wp_flush; [done|lia|].
    intros r s' (Hwr & Hr). io_steps; cbn zeta in Hr.
    + destruct Hr as (Hz & Hw & He). pose proof (wr_cap _ _ Hwr).
      split_and!; [done|lia|lia| |].
      * unfold output. rewrite (pending_nil (io_f s')), app_nil_r by done.
        by rewrite (wr_fd _ _ Hwr).
      * intros _ _. rewrite pending_nil by done. apply not_elem_of_nil.
    + split; [done|]. tauto.
  - apply Z.eqb_neq in Heqb. split_and!; [by apply writing_refl|lia|lia|done|done].
Qed.

(** [fwrite] into the buffer: the bytes join the output in order; on a line
    buffered stream none of the bytes left in the buffer is a newline. *)
Lemma wp_fwrite_buffered fuel data s :
  file_wf (io_f s) → buf_mode (io_f s) ≠ _IONBF →
  (length data + Z.to_nat (wcap (io_f s)) + k_signals (p_kern (io_p s)) < fuel)%nat →
  wp (fwrite_buffered fuel data) s (λ off s', writing s s' ∧ 0 ≤ off ≤ zlen data ∧
    ((off = zlen data ∧ output s' = output s ++ data ∧
      (line_clean (io_f s) → line_clean (io_f s'))) ∨
     0 < err (io_f s')) ∧ accepted s data off s').
Proof.
  intros Hwf Hmode Hfuel. unfold fwrite_buffered.
  apply (wp_loop _
    (λ off t, writing s t ∧ 0 ≤ off ≤ zlen data ∧ output t = output s ++ ztake off data ∧
      (line_clean (io_f s) → line_clean (io_f t)))
    (λ off _, Z.to_nat (zlen data - off))); cycle 1.
  { pose proof (zlen_nonneg data). split_and!; [by apply writing_refl|lia|lia| |done].
    rewrite ztake_le by lia. by rewrite app_nil_r. }
  { unfold zlen. lia. }
  intros off t (Hwr & Hoff & Hout & Hcl).
  io_steps.
  { apply Z.eqb_eq in Heqb. split_and!; [done|lia|lia| |by apply output_accepted; [apply Hwr|]]. left. split_and!; [done| |done].
    rewrite Hout. by rewrite ztake_ge by lia. }
  apply Z.eqb_neq in Heqb.
  pose proof (wr_signals _ _ Hwr). pose proof (wr_cap _ _ Hwr) as Hcap.
  wp_call wp_fwrite_room; [exact (wr_wf _ _ Hwr)|by rewrite (wr_mode _ _ Hwr)|lia|].
  intros [space|] t' (Hwr' & Hroom); [do 4 io_step|io_steps]; cycle 1.
  { destruct Hroom as (He & Hp & n & Hn & Hw). split_and!; [by eapply writing_trans|lia|lia|by right|].
    apply (flush_failure_accepted s t t' data off n); try done; [apply Hwr|apply zlen_pending, Hwr]. }
  destruct Hroom as (Hpos & Hsp & Hout' & Hcl').
  set (take := Z.min (zlen data - off) space). set (chunk := zslice off (off + take) data).
  assert (Hck : zlen chunk = take) by (subst chunk; rewrite zlen_zslice; lia).
  pose proof (writing_trans _ _ _ Hwr Hwr') as Hst.
  pose proof (wr_mode _ _ Hst) as Hm.
  destruct (writing_append t' chunk (wr_wf _ _ Hwr')) as (Hwr2 & Hout2 & Hp2 & Hl2 & He2);
    [congruence|lia|]. rewrite Hck in *.
  set (t2 := mk_io _ _) in *.
  assert (Hdata : output t2 = output s ++ ztake (off + take) data).
  { rewrite Hout2, Hout', Hout, <- app_assoc. f_equal. rewrite ztake_plus by lia.
    f_equal. subst chunk. unfold zslice. f_equal. lia. }
  pose proof (writing_trans _ _ _ Hst Hwr2) as Hst2.
  destruct (buf_mode (io_f t2) =? _IOLBF) eqn:Elbf;
    [destruct (bool_decide (NEWLINE ∈ chunk)) eqn:Enl|]; cbn [andb].
  - pose proof (wr_signals _ _ Hst2). pose proof (wr_cap _ _ Hst2).
    pose proof (wr_wf _ _ Hst2) as Hw. pose proof Hw as Hw'. wf_destruct Hw'.
    io_steps. wp_call wp_flush; [done|lia|].
    intros r t3 (Hwr3 & Hr). io_steps.
    destruct (Z.eqb_spec r 0) as [->|Hr0]; cbn zeta in Hr.
    + destruct Hr as (Hz & Hw3 & _). split; [|lia].
      split_and!; [by eapply writing_trans|lia|lia| |].
      * unfold output. rewrite (pending_nil (io_f t3)), app_nil_r by done.
        rewrite (wr_fd _ _ Hwr3), Hw3. exact Hdata.
      * intros _ _. rewrite pending_nil by done. apply not_elem_of_nil.
    + destruct Hr as (_ & He & Hp & n & Hn & Hw3). split_and!; [by eapply writing_trans|lia|lia|by right|].
      apply (flush_failure_accepted s t2 t3 data _ n); try done; [apply Hst2|by apply zlen_pending].
  - io_steps. split; [|lia]. split_and!; [done|lia|lia|done|].
    intros Hc _. rewrite Hp2. apply bool_decide_eq_false in Enl.
    rewrite not_elem_of_app. split; [|done]. apply Hcl'; [by apply Hcl|].
    apply Z.eqb_eq in Elbf. pose proof (wr_mode _ _ Hwr2). congruence.
  - io_steps. split; [|lia]. split_and!; [done|lia|lia|done|].
    apply Z.eqb_neq in Elbf. intros _ ?. done.
Qed.

(** [fwrite] in every buffering mode. *)
Lemma wp_fwrite fuel data size nmemb s :
  file_wf (io_f s) → 0 < size → 0 < nmemb →
  size * nmemb < 2 ^ 64 → zlen data = size * nmemb →
  (length data + Z.to_nat (wcap (io_f s)) + k_signals (p_kern (io_p s)) < fuel)%nat →
  wp (fwrite fuel data size nmemb) s (λ n s', writing s s' ∧ 0 ≤ n ≤ nmemb ∧
    ((n = nmemb ∧ output s' = output s ++ data ∧
      (line_clean (io_f s) → line_clean (io_f s'))) ∨
     0 < err (io_f s')) ∧
    ∃ off, 0 ≤ off ≤ zlen data ∧ n = off / size ∧ accepted s data off s').
Proof.
  intros Hwf Hs Hn Hover Hlen Hfuel. unfold fwrite.
  destruct (Z.eqb_spec size 0) as [|_]; [lia|].
  destruct (Z.eqb_spec nmemb 0) as [|_]; [lia|]. cbn.
  rewrite u64_small by nia. rewrite ztake_ge by lia.
  assert (Hdiv : ∀ off, 0 ≤ off ≤ zlen data → 0 ≤ off / size ≤ nmemb).
  { intros off Hoff. split; [apply Z.div_pos; lia|]. apply Z.div_le_upper_bound; lia. }
  assert (Hall : zlen data / size = nmemb).
  { rewrite Hlen, Z.mul_comm. apply Z.div_mul. lia. }
  do 3 io_step.
  eapply (wp_mono _ _ (λ off s', writing s s' ∧ 0 ≤ off ≤ zlen data ∧
    ((off = zlen data ∧ output s' = output s ++ data ∧
      (line_clean (io_f s) → line_clean (io_f s'))) ∨
     0 < err (io_f s')) ∧ accepted s data off s')).
  - destruct (Z.eqb_spec (buf_mode (io_f s)) _IONBF) as [Hm|Hm].
    + wp_call wp_fwrite_unbuffered; [done|done|lia|].
      intros off s' (Hwr & Hoff & Hout & Hend). split_and!; [done|lia|lia| |by apply output_accepted; [apply Hwr|]].
      destruct Hend as [->|]; [left|by right]. split_and!; [done| |].
      * by rewrite Hout, ztake_ge.
      * intros _ Hm'. rewrite (wr_mode _ _ Hwr), Hm in Hm'. done.
    + wp_call wp_fwrite_buffered; [done|done|lia|]. done.
  - intros off s' (Hwr & Hoff & Hend & Hacc). io_steps.
    split_and!; [done|apply Hdiv; lia|apply Hdiv; lia| |by exists off].
    destruct Hend as [(-> & Hout & Hc)|]; [left|by right]. done.
Qed.

Lemma file_wf_new fd0 cl mode : file_wf (frida_file_new fd0 cl mode).
Proof.
  unfold frida_file_new. destruct (Z.eqb_spec mode _IONBF) as [->|Hm];
    unfold file_wf; cbn -[zeros]; unfold UNGOT_SIZE, FRIDA_STDIO_BUFSIZE, g_malloc.
  - split_and!; try done; try lia; apply Forall_replicate; unfold is_byte; lia.
  - destruct (Z.eqb_spec mode _IONBF); [done|]. rewrite !zlen_zeros by lia.
    split_and!; try done; try lia; apply Forall_replicate; unfold is_byte; lia.
Qed.

(** The buffer a caller may hand to [setvbuf]. *)
Definition user_buffer (buf : option (list Z)) (size : Z) : Prop :=
  0 ≤ size ∧
  match buf with Some b => zlen b = (if size =? 0 then BUFSIZ else size) | None => True end.

Lemma Forall_realloc b n : Forall is_byte b → Forall is_byte (g_realloc b n).
Proof.
  intros Hb. apply Forall_app; split; [by apply Forall_take|].
  apply Forall_replicate. unfold is_byte. lia.
Qed.

(** Case analysis on who owns the two buffers. *)
Ltac owners :=
  match goal with |- context [owns_rbuf ?f] => destruct (owns_rbuf f) end; cbn;
  match goal with buf : option (list Z) |- _ => destruct buf end; cbn;
  try match goal with |- context [owns_wbuf ?f] => destruct (owns_wbuf f) end; cbn.

(** [setvbuf] flushes, then installs buffers of the requested size. *)
Lemma wp_setvbuf fuel buf mode size s :
  file_wf (io_f s) → user_buffer buf size →
  (Z.to_nat (wlen (io_f s)) + k_signals (p_kern (io_p s)) < fuel)%nat →
  wp (setvbuf fuel buf mode size) s (λ r s', file_wf (io_f s') ∧
    fd (io_f s') = fd (io_f s) ∧
    ((r = 0 ∧ output s' = output s ∧ pending (io_f s') = [] ∧ buf_mode (io_f s') = mode ∧
        pushed (io_f s') = pushed (io_f s) ∧ buffered (io_f s') = []) ∨
     (r = -1 ∧ 0 < err (io_f s') ∧ buf_mode (io_f s') = buf_mode (io_f s)))).
Proof.
  intros Hwf [Hsize Hbuf] Hfuel. unfold setvbuf, fflush_stream.
  do 2 io_step. wp_call wp_flush; [done|lia|].
  intros r s' (Hwr & Hr). pose proof (wr_wf _ _ Hwr) as Hw. wf_destruct Hw.
  pose proof (wr_fd _ _ Hwr) as Hfd.
  destruct (r =? 0); cbn zeta in Hr; cycle 1.
  { io_step. change (negb (EOF =? 0)) with true. cbn iota. io_steps.
    split_and!; [exact (wr_wf _ _ Hwr)|done|].
    right. split_and!; [done|tauto|exact (wr_mode _ _ Hwr)]. }
  destruct Hr as (Hz & Hw' & _). io_step. change (negb (0 =? 0)) with false. cbn iota.
  assert (Hout : output s = k_written (p_kern (io_p s')) (fd (io_f s))) by done.
  set (sz := if size =? 0 then BUFSIZ else size) in *.
  assert (0 < sz) by (subst sz; destruct (Z.eqb_spec size 0); unfold BUFSIZ; lia).
  assert (Hb0 : Forall is_byte (@nil Z)) by done.
  io_steps.
  - apply Z.eqb_eq in Heqb as ->. split_and!; [|done|].
    + unfold file_wf; cbn. split_and!; try lia; done.
    + left. split_and!; try done; [|exact (wr_pushed _ _ Hwr)].
      unfold output; cbn. rewrite pending_nil, app_nil_r by done. by rewrite Hfd.
  - apply Z.eqb_neq in Heqb.
    split_and!; [|owners; done|].
    + assert (zlen (@nil Z) = 0) by done.
      unfold file_wf; owners;
        (destruct (Z.eqb_spec mode _IONBF); [done|]);
        rewrite ?g_realloc_length by lia; split_and!; try lia; try done;
        apply Forall_realloc; done.
    + left. owners;
        (split_and!; try done; [|exact (wr_pushed _ _ Hwr)]);
        unfold output; cbn; rewrite pending_nil, app_nil_r by done; by rewrite Hfd.
Qed.
End writes.
