(* ===== verification/StdioCorrect.v ===== *)
(** The theorems about the libc shim's streams: what each operation on an open
    [FILE] does, on every branch, over any kernel that behaves as documented. *)
From S2P Require Import Prelude Posix Stdio StdioRead StdioWrite.

Section seek.
Context {K : Type} `{KernelLaws K}.
Implicit Types s : io K.

(** Where [fseek] leaves the stream, for any [whence]. *)
Lemma wp_fseek fuel off wh s :
  file_wf (io_f s) →
  (Z.to_nat (wlen (io_f s)) + k_signals (p_kern (io_p s)) < fuel)%nat →
  wp (frida_fseek_impl fuel off wh) s (λ r s', file_wf (io_f s') ∧
    fd (io_f s') = fd (io_f s) ∧ buf_mode (io_f s') = buf_mode (io_f s) ∧
    if r =? 0 then
      eof (io_f s') = false ∧ output s' = output s ∧ pending (io_f s') = [] ∧
      pushed (io_f s') = [] ∧ buffered (io_f s') = [] ∧
      lpos s' = k_pos (p_kern (io_p s')) (fd (io_f s)) ∧
      (wh = SEEK_SET → lpos s' = off) ∧
      (wh = SEEK_CUR → wlen (io_f s) = 0 →
       lpos s' = k_pos (p_kern (io_p s)) (fd (io_f s)) + off)
    else r = -1 ∧ 0 < err (io_f s')).
Proof.
  intros Hwf Hfuel. unfold frida_fseek_impl, fflush_stream.
  do 2 io_step.
  (* with nothing pending, the flush does not move the descriptor *)
  assert (Hflush : wp (frida_file_flush_write fuel) s (λ r s',
    wlen (io_f s) = 0 → r = 0 ∧ io_p s' = io_p s)).
  { destruct (Z.eqb_spec (wlen (io_f s)) 0) as [E|E].
    - destruct fuel as [|fuel]; [lia|]. unfold frida_file_flush_write. cbn [loop].
      io_step. io_step. io_step. rewrite E. change (0 =? 0) with true. cbn iota. io_steps. done.
    - wp_call wp_flush; [done|done|]. intros. by exfalso. }
  destruct (wp_flush fuel s Hwf Hfuel) as (r & s' & Hrun & Hwr & Hr).
  pose proof (wp_frame_eq _ _ _ _ _ Hflush Hrun) as Hsame. cbn beta in Hsame.
  exists r, s'. split; [done|]. clear Hrun Hflush.
  pose proof (wr_wf _ _ Hwr) as Hw. wf_destruct Hw.
  pose proof (wr_fd _ _ Hwr) as Hfd. pose proof (wr_mode _ _ Hwr) as Hm.
  destruct (r =? 0) eqn:Er; cbn zeta in Hr; cycle 1.
  { io_step. change (negb (EOF =? 0)) with true. cbn iota. io_steps.
    change (-1 =? 0) with false. cbn iota.
    split_and!; [exact (wr_wf _ _ Hwr)|done|done|done|tauto]. }
  destruct Hr as (Hz & Hw' & _). io_step. change (negb (0 =? 0)) with false. cbn iota.
  pose proof (wr_signals _ _ Hwr) as Hsg. do 6 io_step.
  assert (Hwf' : file_wf (set_eof false (set_ungot (ungot_buf (io_f s')) 0
    (set_rlen 0 (set_rpos 0 (io_f s')))))).
  { unfold file_wf; cbn. destruct (buf_mode (io_f s') =? _IONBF); split_and!; lia || done. }
  wp_call wp_lseek_nointr; [cbn; lia|].
  intros [p|] q (Hsig & Hfr & Hp); io_steps; cbn -[Z.eqb] in *;
    [change (0 =? 0) with true|change (-1 =? 0) with false]; cbn iota.
  - destruct Hp as [Hp Hv].
    assert (Hl : lpos (mk_io (set_eof false (set_ungot (ungot_buf (io_f s')) 0
      (set_rlen 0 (set_rpos 0 (io_f s'))))) q) = k_pos (p_kern q) (fd (io_f s))).
    { unfold lpos; cbn. rewrite pushed_nil, buffered_nil by done.
      change (zlen []) with 0. rewrite Hfd. lia. }
    split_and!; [done|done|done|done| |by apply pending_nil|by apply pushed_nil
      |by apply buffered_nil|done| |].
    + unfold output; cbn. rewrite pending_nil, app_nil_r by done.
      destruct (Hfr (fd (io_f s'))) as [_ ->]. by rewrite Hfd, Hw'.
    + intros ->. rewrite Hl, <- Hfd, Hp, Hv. done.
    + intros -> H0w. destruct (Hsame H0w) as [_ Hio]. rewrite Hl, <- Hfd, Hp, Hv.
      rewrite Hio. done.
  - destruct Hp as [Hp He]. done.
Qed.

(** [ftell] reports where the next byte comes from, and changes nothing. *)
Lemma wp_ftell fuel s :
  file_wf (io_f s) → (k_signals (p_kern (io_p s)) < fuel)%nat →
  wp (frida_ftell_impl fuel) s (λ r s', reading s s' ∧
    ((r = lpos s ∧ lpos s' = lpos s ∧ io_f s' = io_f s) ∨ (r = -1 ∧ 0 < err (io_f s')))).
Proof.
  intros Hwf Hfuel. unfold frida_ftell_impl. pose proof Hwf as Hw. wf_destruct Hw.
  do 4 io_step. wp_call wp_lseek_nointr; [done|].
  intros [p|] q (Hsig & Hfr & Hp); io_steps.
  - destruct Hp as [Hp Hv]. change (SEEK_CUR =? SEEK_SET) with false in Hv.
    change (SEEK_CUR =? SEEK_CUR) with true in Hv. cbn iota in Hv.
    split; [constructor; try done; intros n; apply Hfr|]. left.
    unfold lpos; cbn. unfold pushed. rewrite zlen_reverse, zlen_ztake.
    unfold buffered. rewrite zlen_zslice.
    destruct (buf_mode (io_f s) =? _IONBF); split_and!; lia || done.
  - destruct Hp as [Hp He]. split; [constructor; try done; intros n; apply Hfr|].
    by right.
Qed.
End seek.

(** ** Wide characters *)
Section wide.
Context {K : Type} `{KernelLaws K}.
Context (g_utf8_get_char_validated : list Z → Z) (g_unichar_to_utf8 : Z → list Z).
Implicit Types s : io K.

Lemma wp_wide_failed s :
  wp wide_failed s (λ r s', r = WEOF ∧
    s' = mk_io (set_err EILSEQ (io_f s)) (mk_proc (p_kern (io_p s)) EILSEQ)).
Proof. unfold wide_failed. io_steps. done. Qed.

(** Collecting the bytes of one character: all of them, or the stream ended
    or failed half way. *)
Lemma wp_fgetwc_rest fuel first need s :
  file_wf (io_f s) → 1 ≤ need ≤ 4 → (4 + k_signals (p_kern (io_p s)) < fuel)%nat →
  wp (fgetwc_rest fuel first need) s (λ r s', reading s s' ∧
    match r with
    | Some bytes => ∃ more, bytes = first :: more ∧ zlen bytes = need ∧
        input s = more ++ input s'
    | None => (zlen (input s) < need - 1 ∧ input s' = []) ∨ 0 < err (io_f s')
    end).
Proof.
  intros Hwf Hneed Hfuel. unfold fgetwc_rest.
  apply (wp_loop _
    (λ bytes t, reading s t ∧ ∃ more, bytes = first :: more ∧ zlen bytes ≤ need ∧
      input s = more ++ input t)
    (λ bytes _, Z.to_nat (need - zlen bytes))); cycle 1.
  { split; [by auto with frida|]. exists []. change (zlen [first]) with 1.
    split_and!; [done|lia|done]. }
  { change (zlen [first]) with 1. lia. }
  intros bytes t (Hrd & more & -> & Hlen & Hin). rewrite zlen_cons in Hlen.
  pose proof (rd_signals _ _ Hrd). io_steps.
  - apply Z.eqb_eq in Heqb. split; [done|]. eauto.
  - apply Z.eqb_neq in Heqb. rewrite zlen_cons in Heqb.
    wp_call wp_getc; [exact (rd_wf _ _ Hrd)|lia|].
    intros c t' (Hrd' & [(-> & Hin' & _ & He)|(Hb & Hin' & _)]).
    + change (EOF =? EOF) with true. cbn iota. io_steps.
      split; [by eapply reading_trans|]. destruct He as [[He _]|He]; [left|by right].
      rewrite Hin, <- Hin', He, app_nil_r. split; [lia|done].
    + destruct (Z.eqb_spec c EOF); [unfold is_byte, EOF in *; lia|]. io_steps.
      rewrite u8_small by done. change (first :: more ++ [c]) with ((first :: more) ++ [c]).
      rewrite zlen_app, zlen_cons. change (zlen [c]) with 1. split; [|lia].
      split; [by eapply reading_trans|]. exists (more ++ [c]).
      split_and!; [done|lia|by eapply collect_step].
Qed.

(** [fgetwc] on a stream that starts with one encoded character. *)
Lemma wp_fgetwc fuel s bytes rest wc :
  file_wf (io_f s) → (5 + k_signals (p_kern (io_p s)) < fuel)%nat →
  input s = bytes ++ rest → Forall is_byte bytes →
  frida_utf8_expected_len (znth bytes 0) = Some (zlen bytes) →
  g_utf8_get_char_validated bytes = wc → 0 ≤ wc < 2 ^ 32 - 2 →
  wp (fgetwc g_utf8_get_char_validated fuel) s (λ r s', reading s s' ∧
    ((r = wc ∧ input s' = rest) ∨ (r = WEOF ∧ 0 < err (io_f s')))).
Proof.
  intros Hwf Hfuel Hin Hb Hlen Hdec Hwc. unfold fgetwc.
  assert (Hn : 1 ≤ zlen bytes ≤ 4).
  { unfold frida_utf8_expected_len in Hlen. repeat case_match; simplify_eq; lia. }
  destruct bytes as [|b more]; [change (zlen []) with 0 in Hn; lia|]. change (znth (b :: more) 0) with b in Hlen.
  apply Forall_cons in Hb as [Hb Hmore].
  io_step. wp_call wp_getc; [done|lia|].
  intros c t (Hrd & [(-> & Hin' & _ & He)|(Hc & Hin' & _)]).
  { change (EOF =? EOF) with true. cbn iota. io_steps. split; [done|].
    destruct He as [[He _]|He]; [|by right].
    exfalso. rewrite <- Hin', He in Hin. done. }
  destruct (Z.eqb_spec c EOF); [unfold is_byte, EOF in *; lia|].
  rewrite Hin in Hin'. cbn in Hin'. injection Hin' as <- Hin'.
  rewrite u8_small, Hlen by done.
  pose proof (rd_signals _ _ Hrd). io_step.
  wp_call wp_fgetwc_rest; [exact (rd_wf _ _ Hrd)|done|lia|].
  intros [bytes|] t' (Hrd' & Hr).
  - destruct Hr as (more' & -> & Hlen' & Hin'').
    assert (more' = more ∧ input t' = rest) as [-> <-].
    { rewrite <- Hin' in Hin''. apply app_inj_1 in Hin'' as [-> ->]; [done|].
      unfold zlen in Hlen'. cbn in Hlen'. lia. }
    rewrite Hdec. unfold u32 in *.
    destruct (Z.eqb_spec wc (-1 mod 2 ^ 32)) as [E|_]; [vm_compute in E; lia|].
    destruct (Z.eqb_spec wc (-2 mod 2 ^ 32)) as [E|_]; [vm_compute in E; lia|].
    cbn. io_steps. split; [by eapply reading_trans|]. by left.
  - wp_call wp_wide_failed. intros r s' (-> & ->). split.
    + eapply reading_trans; [done|]. eapply reading_trans; [done|].
      pose proof (rd_wf _ _ Hrd'). by constructor.
    + right. split; [done|]. cbn. unfold EILSEQ. lia.
Qed.

(** [ungetwc] stores the encoded bytes in the order [getc] does not expect:
    the stream then starts with the encoding reversed. *)
Lemma wp_ungetwc wc s :
  file_wf (io_f s) → wc ≠ WEOF → Forall is_byte (g_unichar_to_utf8 wc) →
  1 ≤ zlen (g_unichar_to_utf8 wc) ≤ 4 →
  ungot_len (io_f s) + zlen (g_unichar_to_utf8 wc) ≤ UNGOT_SIZE →
  wp (ungetwc g_unichar_to_utf8 wc) s (λ r s', r = wc ∧ reading s s' ∧
    ungot_len (io_f s') ≠ 0 ∧ input s' = reverse (g_unichar_to_utf8 wc) ++ input s).
Proof.
  intros Hwf Hwc Hb Hlen Hroom. unfold ungetwc.
  destruct (Z.eqb_spec wc WEOF) as [|_]; [done|]. do 2 io_step.
  set (tmp := g_unichar_to_utf8 wc) in *.
  destruct (Z.leb_spec (zlen tmp) 0); [lia|]. destruct (Z.ltb_spec 4 (zlen tmp)); [lia|].
  cbn [orb]. destruct (Z.ltb_spec UNGOT_SIZE (ungot_len (io_f s) + zlen tmp)); [lia|].
  io_steps. pose proof Hwf as Hw. wf_destruct Hw. split_and!; [done| |cbn; lia|].
  - constructor; try done. unfold file_wf; cbn. rewrite zlen_zwrite by lia.
    split_and!; try lia; try done. by apply Forall_zwrite.
  - unfold input, pushed; cbn. rewrite ztake_zwrite by lia.
    by rewrite reverse_app, <- app_assoc.
Qed.
End wide.

(** ** The properties *)
Import MemKernel.

(** A process with one open file of the memory kernel, on descriptor 5. *)
Definition demo_kernel (data : list Z) (script : list act) : memk :=
  mk_memk {[5 := mk_memfile true data 0 []]} [] script 6.
Definition demo (mode : Z) (data : list Z) (script : list act) : io memk :=
  mk_io (frida_file_new 5 true mode) (mk_proc (demo_kernel data script) 0).

Lemma demo_wf mode data script : file_wf (io_f (demo mode data script)).
Proof. apply file_wf_new. Qed.
(** C1: fread reads a list of bytes.  On any stream in a valid state, whatever
    part of its input was pushed back, is buffered, or is still in the kernel,
    and however the kernel splits or interrupts the reads, [fread] returns, the
    bytes stored are the next bytes of the stream in order, the count is the
    number of whole members among them, and it stops short of the request only
    at end of file (with the flag set) or after an error (recorded). *)
Theorem fread_correct {K} `{KernelLaws K} fuel size nmemb (s : io K) :
  file_wf (io_f s) → 0 < size → 0 < nmemb → size * nmemb < 2 ^ 64 →
  (Z.to_nat (size * nmemb) + k_signals (p_kern (io_p s)) < fuel)%nat →
  wp (fread fuel size nmemb) s (λ r s',
    reading s s' ∧ input s = r.2 ++ input s' ∧ r.1 = zlen r.2 / size ∧
    zlen r.2 ≤ size * nmemb ∧ lpos s' = lpos s + zlen r.2 ∧
    (zlen r.2 = size * nmemb ∨ (input s' = [] ∧ eof (io_f s') = true) ∨
     0 < err (io_f s'))).
Proof. apply wp_fread. Qed.

(** Reading two members of two bytes with an interruption and a short read. *)
Lemma fread_correct_witness :
  file_wf (io_f (demo _IONBF [1; 2; 3] [Err 4; Short 2])) ∧
  fread 20 2 2 (demo _IONBF [1; 2; 3] [Err 4; Short 2]) =
    Ret (1, [1; 2; 3], mk_io (set_eof true (frida_file_new 5 true _IONBF))
      (mk_proc (mk_memk {[5 := mk_memfile true [1; 2; 3] 3 []]} [] [] 6) 4)) ∧
  wp (fread 20 2 2) (demo _IONBF [1; 2; 3] [Err 4; Short 2])
    (λ r s', r.1 = zlen r.2 / 2 ∧
      input (demo _IONBF [1; 2; 3] [Err 4; Short 2]) = r.2 ++ input s').
Proof.
  split; [apply demo_wf|]. split; [vm_compute; reflexivity|].
  eapply wp_mono;
    [apply (fread_correct 20 2 2 (demo _IONBF [1; 2; 3] [Err 4; Short 2])); [apply demo_wf|..]|].
  - lia.
  - lia.
  - lia.
  - vm_compute. lia.
  - intros r s' (_ & Hin & Hr & _). split; assumption.
Defined.

(** C5: fwrite appends to the output of the stream.  In every buffering mode,
    with any splitting or interruption of the writes, [fwrite] returns; either
    all members were taken, the bytes follow the earlier output in order (in the
    kernel or in the buffer) and, on a line buffered stream, none of the bytes
    held back is a newline if none was before; or the error indicator is set.  In both
    cases the count is that of the whole members among the bytes that were accepted: these
    follow the earlier output, in the kernel or pending in the buffer; only after a flush
    that failed the kernel has some of the pending bytes as well.  The read side of the
    stream and other descriptors are untouched. *)
Theorem fwrite_correct {K} `{KernelLaws K} fuel data size nmemb (s : io K) :
  file_wf (io_f s) → 0 < size → 0 < nmemb →
  size * nmemb < 2 ^ 64 → zlen data = size * nmemb →
  (length data + Z.to_nat (wcap (io_f s)) + k_signals (p_kern (io_p s)) < fuel)%nat →
  wp (fwrite fuel data size nmemb) s (λ n s', writing s s' ∧ 0 ≤ n ≤ nmemb ∧
    ((n = nmemb ∧ output s' = output s ++ data ∧
        (line_clean (io_f s) → line_clean (io_f s'))) ∨
     0 < err (io_f s')) ∧
    ∃ off, 0 ≤ off ≤ zlen data ∧ n = off / size ∧ accepted s data off s').
Proof. apply wp_fwrite. Qed.

Lemma fwrite_correct_witness :
  let s := demo _IOLBF [] [Short 3; Err 4] in
  file_wf (io_f s) ∧
  wp (fwrite 4200 [104; 105; 10; 120] 1 4) s (λ n s', writing s s' ∧ 0 ≤ n ≤ 4 ∧
    ((n = 4 ∧ output s' = output s ++ [104; 105; 10; 120] ∧
        (line_clean (io_f s) → line_clean (io_f s'))) ∨
     0 < err (io_f s')) ∧
    ∃ off, 0 ≤ off ≤ 4 ∧ n = off / 1 ∧ accepted s [104; 105; 10; 120] off s').
Proof.
  intros s. split; [apply demo_wf|].
  apply (fwrite_correct 4200 [104; 105; 10; 120] 1 4 s).
  - apply demo_wf.
  - lia.
  - lia.
  - lia.
  - reflexivity.
  - change (Z.to_nat (wcap (io_f s))) with 4096%nat. vm_compute. lia.
Defined.

(** fgets returns a line.  It stores the bytes of the stream up to and
    including the first newline, at most [size - 1] of them, consumes exactly
    those, and returns NULL only when it stored none; only a read error can make
    the line shorter. *)
Theorem fgets_correct {K} `{KernelLaws K} fuel size (s : io K) :
  file_wf (io_f s) → 1 ≤ size →
  (length (input s) + k_signals (p_kern (io_p s)) < fuel)%nat →
  wp (fgets fuel size) s (λ r s', reading s s' ∧ ∃ line,
    input s = line ++ input s' ∧
    r = (if zlen line =? 0 then None else Some line) ∧
    (line = ztake (size - 1) (upto NEWLINE (input s)) ∨
     (0 < err (io_f s') ∧ line `prefix_of` (ztake (size - 1) (upto NEWLINE (input s)))))).
Proof. apply wp_fgets. Qed.

Lemma fgets_correct_witness :
  let s := demo _IOFBF [97; 98; 10; 99] [Err 4] in
  file_wf (io_f s) ∧
  wp (fgets 20 80) s (λ r s', reading s s' ∧ ∃ line,
    input s = line ++ input s' ∧
    r = (if zlen line =? 0 then None else Some line) ∧
    (line = ztake (80 - 1) (upto NEWLINE (input s)) ∨
     (0 < err (io_f s') ∧ line `prefix_of` (ztake (80 - 1) (upto NEWLINE (input s)))))).
Proof.
  intros s. split; [apply demo_wf|]. apply (fgets_correct 20 80 s).
  - apply demo_wf.
  - lia.
  - vm_compute. lia.
Defined.

(** C9: getdelim returns a line and never writes outside its buffer.  The line
    is the stream up to and including the delimiter; the buffer handed back has
    the size reported, holds the line and a terminating NUL inside that size
    (however often it was grown), and [-1] means nothing was left to read. *)
Theorem getdelim_correct {K} `{KernelLaws K} fuel lineptr n delim (s : io K) :
  file_wf (io_f s) → line_buffer lineptr n →
  (length (input s) + k_signals (p_kern (io_p s)) < fuel)%nat →
  wp (getdelim fuel lineptr n delim) s (λ r s', reading s s' ∧ ∃ line,
    input s = line ++ input s' ∧ line_result line r ∧
    (line = upto delim (input s) ∨
     (0 < err (io_f s') ∧ line `prefix_of` (upto delim (input s))))).
Proof. apply wp_getdelim. Qed.

Lemma getdelim_correct_witness :
  let s := demo _IOFBF [97; 98; 58; 99] [Short 1; Short 1] in
  file_wf (io_f s) ∧ line_buffer (Some [7]) 1 ∧
  wp (getdelim 20 (Some [7]) 1 58) s (λ r s', reading s s' ∧ ∃ line,
    input s = line ++ input s' ∧ line_result line r ∧
    (line = upto 58 (input s) ∨
     (0 < err (io_f s') ∧ line `prefix_of` (upto 58 (input s))))).
Proof.
  intros s. split; [apply demo_wf|]. split; [reflexivity|].
  apply (getdelim_correct 20 (Some [7]) 1 58 s).
  - apply demo_wf.
  - reflexivity.
  - vm_compute. lia.
Defined.

(** a byte pushed back is the next byte read.  [ungetc] followed by [getc]
    returns the byte (converted to [unsigned char]) and restores the input and
    the read position, in every buffering mode; it refuses a ninth byte. *)
Theorem ungetc_getc {K} `{KernelLaws K} fuel c (s : io K) :
  file_wf (io_f s) → c ≠ EOF → (k_signals (p_kern (io_p s)) < fuel)%nat →
  wp (let! r := ungetc c in let! d := getc fuel in ret (r, d)) s (λ r s',
    if ungot_len (io_f s) =? UNGOT_SIZE then r.1 = EOF
    else r = (c, u8 c) ∧ input s' = input s ∧ lpos s' = lpos s ∧ eof (io_f s') = false).
Proof.
  intros Hwf Hc Hfuel. io_step. wp_call wp_ungetc; [done|done|].
  intros r t Ht. io_step. destruct (ungot_len (io_f s) =? UNGOT_SIZE) eqn:E.
  - destruct Ht as [-> ->]. unfold getc. wp_call wp_getc; [done|done|].
    intros d s' _. by io_steps.
  - destruct Ht as (-> & Hrd & Hin & Hlp & Hu & Heof). unfold getc, getc_unlocked.
    assert (Hu0 : ungot_len (io_f t) ≠ 0) by (wf_destruct Hwf; lia).
    destruct (reading_pop t (rd_wf _ _ Hrd) Hu0) as (_ & _ & Hlp' & Hin').
    do 2 io_step. destruct (Z.eqb_spec (ungot_len (io_f t)) 0) as [|_]; [done|].
    cbn [negb]. io_steps. rewrite Hin in Hin'. injection Hin' as -> Hin'.
    split_and!; [done|done|lia|done].
Qed.

Lemma ungetc_getc_witness :
  let s := demo _IOFBF [1; 2] [] in
  file_wf (io_f s) ∧
  wp (let! r := ungetc 300 in let! d := getc 5 in ret (r, d)) s (λ r s',
    if ungot_len (io_f s) =? UNGOT_SIZE then r.1 = EOF
    else r = (300, u8 300) ∧ input s' = input s ∧ lpos s' = lpos s ∧ eof (io_f s') = false).
Proof.
  intros s. split; [apply demo_wf|]. apply (ungetc_getc 5 300 s).
  - apply demo_wf.
  - discriminate.
  - vm_compute. lia.
Defined.

(** fseek and ftell agree.  After a successful [fseek] to an absolute offset,
    the pending output is flushed, nothing read ahead or pushed back survives,
    the end-of-file flag is clear, and [ftell] returns that offset. *)
Theorem fseek_ftell {K} `{KernelLaws K} fuel off (s : io K) :
  file_wf (io_f s) →
  (Z.to_nat (wlen (io_f s)) + k_signals (p_kern (io_p s)) < fuel)%nat →
  wp (fseek fuel off SEEK_SET) s (λ r s', file_wf (io_f s') ∧
    if r =? 0 then
      eof (io_f s') = false ∧ output s' = output s ∧ pending (io_f s') = [] ∧
      input s' = k_rest (p_kern (io_p s')) (fd (io_f s')) ∧
      ∀ fuel', (k_signals (p_kern (io_p s')) < fuel')%nat →
        wp (frida_ftell_impl fuel') s' (λ p t, p = off ∨ (p = -1 ∧ 0 < err (io_f t)))
    else r = -1 ∧ 0 < err (io_f s')).
Proof.
  intros Hwf Hfuel. unfold fseek. wp_call wp_fseek; [done|done|].
  intros r s' (Hwf' & Hfd & _ & Hr). split; [done|]. destruct (r =? 0); [|done].
  destruct Hr as (? & ? & ? & Hp & Hb & _ & Hset & _).
  split_and!; try done.
  - unfold input. by rewrite Hp, Hb.
  - intros fuel' Hf. wp_call wp_ftell; [done|done|].
    intros p t (_ & [(-> & _)|?]); [left|by right]. by apply Hset.
Qed.

Lemma fseek_ftell_witness :
  let s := demo _IOFBF [1; 2; 3; 4] [Err 4] in
  file_wf (io_f s) ∧
  wp (fseek 9 2 SEEK_SET) s (λ r s', file_wf (io_f s') ∧
    if r =? 0 then
      eof (io_f s') = false ∧ output s' = output s ∧ pending (io_f s') = [] ∧
      input s' = k_rest (p_kern (io_p s')) (fd (io_f s')) ∧
      ∀ fuel', (k_signals (p_kern (io_p s')) < fuel')%nat →
        wp (frida_ftell_impl fuel') s' (λ p t, p = 2 ∨ (p = -1 ∧ 0 < err (io_f t)))
    else r = -1 ∧ 0 < err (io_f s')).
Proof.
  intros s. split; [apply demo_wf|]. apply (fseek_ftell 9 2 s).
  - apply demo_wf.
  - vm_compute. lia.
Defined.

(** a relative fseek does not account for read-ahead.  On a stream without
    pending output, a successful [fseek (f, off, SEEK_CUR)] ends up at the
    position [ftell] reported plus [off] plus the number of bytes that were
    buffered or pushed back: the descriptor's own offset is used as the base,
    although [ftell] subtracts the read-ahead from it. *)
Theorem fseek_cur_skips_readahead {K} `{KernelLaws K} fuel off (s : io K) :
  file_wf (io_f s) → wlen (io_f s) = 0 →
  (Z.to_nat (wlen (io_f s)) + k_signals (p_kern (io_p s)) < fuel)%nat →
  wp (fseek fuel off SEEK_CUR) s (λ r s',
    if r =? 0
    then lpos s' = lpos s + off + zlen (buffered (io_f s)) + zlen (pushed (io_f s))
    else r = -1 ∧ 0 < err (io_f s')).
Proof.
  intros Hwf Hw Hfuel. unfold fseek. wp_call wp_fseek; [done|done|].
  intros r s' (_ & _ & _ & Hr). destruct (r =? 0); [|done].
  destruct Hr as (_ & _ & _ & _ & _ & _ & _ & Hcur). rewrite Hcur by done.
  unfold lpos. lia.
Qed.

(** Reading one byte of three and seeking by zero loses the other two. *)
Lemma fseek_cur_skips_readahead_witness :
  let s := demo _IOFBF [1; 2; 3] [] in
  (let! c := getc 3 in let! p := ftell 3 in let! r := fseek 3 0 SEEK_CUR in
   let! q := ftell 3 in let! d := getc 3 in ret (c, p, r, q, d)) s =
    Ret ((1, 1, 0, 3, EOF), mk_io (set_eof true (set_rblock (zwrite 0 [1; 2; 3] (zeros 4096))
      true 4096 (frida_file_new 5 true _IOFBF)))
      (mk_proc (mk_memk {[5 := mk_memfile true [1; 2; 3] 3 []]} [] [] 6) 0)) ∧
  wp (fseek 3 0 SEEK_CUR) s (λ r s',
    if r =? 0
    then lpos s' = lpos s + 0 + zlen (buffered (io_f s)) + zlen (pushed (io_f s))
    else r = -1 ∧ 0 < err (io_f s')).
Proof.
  intros s. split; [vm_compute; reflexivity|]. apply (fseek_cur_skips_readahead 3 0 s).
  - apply demo_wf.
  - reflexivity.
  - vm_compute. lia.
Defined.

(** a flush that fails half way keeps the bytes it already wrote.  When
    [frida_file_flush_write] fails, the kernel has taken some prefix of the
    pending bytes and all of them stay pending, so the stream's output now
    contains that prefix twice and the next successful flush repeats it. *)
Theorem flush_failure_repeats {K} `{KernelLaws K} fuel (s : io K) :
  file_wf (io_f s) →
  (Z.to_nat (wlen (io_f s)) + k_signals (p_kern (io_p s)) < fuel)%nat →
  wp (frida_file_flush_write fuel) s (λ r s',
    if r =? 0 then output s' = output s ∧ pending (io_f s') = []
    else ∃ n, 0 ≤ n < wlen (io_f s) ∧
      output s' = k_written (p_kern (io_p s)) (fd (io_f s)) ++
        ztake n (pending (io_f s)) ++ pending (io_f s)).
Proof.
  intros Hwf Hfuel. wp_call wp_flush; [done|done|].
  intros r s' (Hwr & Hr). pose proof (wr_fd _ _ Hwr) as Hfd.
  destruct (r =? 0); cbn zeta in Hr.
  - destruct Hr as (Hz & Hw & _). rewrite (pending_nil (io_f s')) by done. split; [|done].
    unfold output. rewrite (pending_nil (io_f s')), app_nil_r by done. by rewrite Hfd.
  - destruct Hr as (_ & _ & Hp & n & Hn & Hw). exists n. split; [done|].
    unfold output. by rewrite Hfd, Hp, Hw, <- app_assoc.
Qed.

(** "hello" on a device that takes two bytes, fails once, then recovers: the
    first flush reports the error, the second writes the whole buffer again. *)
Lemma flush_failure_repeats_witness :
  let s := demo _IOFBF [] [Short 2; Err 5] in
  let hello := bytes_of "hello" in
  (∃ s', (let! n := fwrite 9 hello 1 5 in let! a := fflush_stream 9 in
          let! b := fflush_stream 9 in ret (n, a, b)) s = Ret ((5, EOF, 0), s') ∧
     output s' = bytes_of "hehello") ∧
  wp (frida_file_flush_write 9) s (λ r s',
    if r =? 0 then output s' = output s ∧ pending (io_f s') = []
    else ∃ n, 0 ≤ n < wlen (io_f s) ∧
      output s' = k_written (p_kern (io_p s)) (fd (io_f s)) ++
        ztake n (pending (io_f s)) ++ pending (io_f s)).
Proof.
  intros s hello. split; [eexists; split; vm_compute; reflexivity|].
  apply (flush_failure_repeats 9 s).
  - apply demo_wf.
  - vm_compute. lia.
Defined.

(** ** Wide characters over GLib's UTF-8 functions *)

(** Documented behaviour of [g_unichar_to_utf8] and
    [g_utf8_get_char_validated] on a character: the encoding is the standard
    one (a lead byte announcing the length, then continuation bytes) and
    decoding it gives the character back. *)
Record utf8_character (encode : Z → list Z) (decode : list Z → Z) (wc : Z) : Prop := {
  uc_range : 0 ≤ wc < 2 ^ 32 - 2;
  uc_bytes : Forall is_byte (encode wc);
  uc_lead : frida_utf8_expected_len (znth (encode wc) 0) = Some (zlen (encode wc));
  uc_cont : Forall (λ b, 128 ≤ b < 192) (zdrop 1 (encode wc));
  uc_decode : decode (encode wc) = wc
}.

Lemma uc_length encode decode wc :
  utf8_character encode decode wc → 1 ≤ zlen (encode wc) ≤ 4.
Proof.
  intros [_ _ Hl _ _]. unfold frida_utf8_expected_len in Hl.
  repeat case_match; simplify_eq; lia.
Qed.

(** fgetwc decodes what is in the stream.  When the stream starts with the
    encoding of a character, [fgetwc] returns that character and consumes
    exactly its bytes, also when they arrive one at a time, or it reports the
    read error that stopped it. *)
Theorem fgetwc_correct {K} `{KernelLaws K} encode decode wc fuel rest (s : io K) :
  utf8_character encode decode wc → file_wf (io_f s) →
  (5 + k_signals (p_kern (io_p s)) < fuel)%nat → input s = encode wc ++ rest →
  wp (fgetwc decode fuel) s (λ r s', reading s s' ∧
    ((r = wc ∧ input s' = rest) ∨ (r = WEOF ∧ 0 < err (io_f s')))).
Proof.
  intros Hu Hwf Hfuel Hin. destruct Hu.
  by apply (wp_fgetwc decode fuel s (encode wc)).
Qed.

(** U+00E9 and U+20AC, decoded by shifting six bits per continuation byte. *)
Definition demo_decode (bs : list Z) : Z :=
  match bs with
  | [a] => a
  | [a; b] => (a - 192) * 64 + (b - 128)
  | [a; b; c] => (a - 224) * 4096 + (b - 128) * 64 + (c - 128)
  | _ => u32 (-1)
  end.
Definition demo_encode (wc : Z) : list Z :=
  if wc <? 128 then [wc]
  else if wc <? 2048 then [192 + wc / 64; 128 + wc mod 64]
  else [224 + wc / 4096; 128 + wc / 64 mod 64; 128 + wc mod 64].
Lemma demo_character : utf8_character demo_encode demo_decode 8364.
Proof.
  constructor; [lia| | | |]; [|vm_compute; reflexivity| |vm_compute; reflexivity].
  - change (demo_encode 8364) with [226; 130; 172]. repeat constructor; lia.
  - change (zdrop 1 (demo_encode 8364)) with [130; 172]. repeat constructor; lia.
Qed.

Lemma fgetwc_correct_witness :
  let s := demo _IOFBF [226; 130; 172; 7] [Short 1; Short 1] in
  utf8_character demo_encode demo_decode 8364 ∧
  wp (fgetwc demo_decode 9) s (λ r s', reading s s' ∧
    ((r = 8364 ∧ input s' = [7]) ∨ (r = WEOF ∧ 0 < err (io_f s')))).
Proof.
  intros s. split; [apply demo_character|].
  apply (fgetwc_correct demo_encode demo_decode 8364 9 [7] s).
  - apply demo_character.
  - apply demo_wf.
  - vm_compute. lia.
  - vm_compute. reflexivity.
Defined.

Lemma expected_len_continuation b : 128 ≤ b < 192 → frida_utf8_expected_len b = None.
Proof.
  intros Hb.
  assert (Hall : Forall (λ b, frida_utf8_expected_len b = None) (seqZ 128 64)).
  { vm_compute. repeat constructor. }
  rewrite Forall_forall in Hall. apply Hall. apply elem_of_seqZ. lia.
Qed.

(** a multi-byte wide character pushed back cannot be read again.  [ungetwc]
    of a character whose encoding has two bytes or more succeeds, but it leaves
    the bytes in stack order, so the next [fgetwc] meets a continuation byte
    first and fails with EILSEQ instead of returning the character. *)
Theorem ungetwc_fgetwc_fails {K} `{KernelLaws K} encode decode wc fuel (s : io K) :
  utf8_character encode decode wc → 2 ≤ zlen (encode wc) → file_wf (io_f s) →
  ungot_len (io_f s) + zlen (encode wc) ≤ UNGOT_SIZE →
  wp (let! r := ungetwc encode wc in let! d := fgetwc decode fuel in ret (r, d)) s
    (λ r s', r = (wc, WEOF) ∧ err (io_f s') = EILSEQ ∧ p_errno (io_p s') = EILSEQ).
Proof.
  intros Hu Hlen Hwf Hroom. pose proof (uc_length _ _ _ Hu). destruct Hu as [Hr Hb _ Hc _].
  io_step. wp_call wp_ungetwc; [done|unfold WEOF; lia|done|done|done|].
  intros r t (-> & Hrd & Hun & Hin). io_step. unfold fgetwc, getc_unlocked. do 3 io_step.
  destruct (Z.eqb_spec (ungot_len (io_f t)) 0) as [|_]; [done|]. cbn [negb].
  destruct (reading_pop t (rd_wf _ _ Hrd) Hun) as (_ & Hbyte & _ & Hpop).
  set (c := znth _ _) in *.
  assert (Hcont : 128 ≤ c < 192).
  { destruct (encode wc) as [|e0 l]; [change (zlen []) with 0 in Hlen; lia|].
    change (zdrop 1 (e0 :: l)) with l in Hc.
    destruct l as [|x l _] using rev_ind; [change (zlen [e0]) with 1 in Hlen; lia|].
    rewrite app_comm_cons, reverse_app in Hin. rewrite Hpop in Hin. cbn in Hin.
    injection Hin as -> _. apply Forall_app in Hc as [_ Hc]. by inversion Hc. }
  io_steps.
  { apply Z.eqb_eq in Heqb. unfold EOF in Heqb. lia. }
  all: rewrite u8_small in * by (unfold is_byte; lia).
  - by rewrite expected_len_continuation in Heqo.
  - wp_call wp_wide_failed. intros r s' (-> & ->). io_steps. done.
Qed.

Lemma ungetwc_fgetwc_fails_witness :
  let s := demo _IOFBF [65] [] in
  utf8_character demo_encode demo_decode 8364 ∧
  wp (let! r := ungetwc demo_encode 8364 in let! d := fgetwc demo_decode 4 in ret (r, d)) s
    (λ r s', r = (8364, WEOF) ∧ err (io_f s') = EILSEQ ∧ p_errno (io_p s') = EILSEQ).
Proof.
  intros s. split; [apply demo_character|].
  apply (ungetwc_fgetwc_fails demo_encode demo_decode 8364 4 s).
  - apply demo_character.
  - vm_compute. discriminate.
  - apply demo_wf.
  - vm_compute. discriminate.
Defined.

(** ** Any sequence of operations *)

(** The calls a program makes on one open stream. *)
Inductive stream_op :=
| Getc
| Ungetc (c : Z)
| Fread (size nmemb : Z)
| Fwrite (data : list Z) (size nmemb : Z)
| Fflush
| Setvbuf (buf : option (list Z)) (mode size : Z)
| Fseek (off whence : Z)
| Ftell
| Rewind
| Fgets (size : Z)
| Getdelim (lineptr : option (list Z)) (n delim : Z).

(** Arguments C allows. *)
Definition op_ok (o : stream_op) : Prop :=
  match o with
  | Fread size nmemb => 0 ≤ size ∧ 0 ≤ nmemb ∧ size * nmemb < 2 ^ 64
  | Fwrite data size nmemb =>
      0 ≤ size ∧ 0 ≤ nmemb ∧ size * nmemb < 2 ^ 64 ∧ zlen data = size * nmemb
  | Setvbuf buf _ size => user_buffer buf size
  | Fgets size => 1 ≤ size
  | Getdelim lineptr n _ => line_buffer lineptr n
  | _ => True
  end.

Section sequences.
Context {K : Type} `{KernelLaws K}.
Implicit Types s : io K.

Definition drop_result {A} (m : M (io K) A) : M (io K) unit := do! m in ret tt.
Definition run_op (fuel : nat) (o : stream_op) : M (io K) unit :=
  match o with
  | Getc => drop_result (getc fuel)
  | Ungetc c => drop_result (ungetc c)
  | Fread size nmemb => drop_result (fread fuel size nmemb)
  | Fwrite data size nmemb => drop_result (fwrite fuel data size nmemb)
  | Fflush => drop_result (fflush_stream fuel)
  | Setvbuf buf mode size => drop_result (setvbuf fuel buf mode size)
  | Fseek off wh => drop_result (fseek fuel off wh)
  | Ftell => drop_result (ftell fuel)
  | Rewind => rewind fuel
  | Fgets size => drop_result (fgets fuel size)
  | Getdelim l n d => drop_result (getdelim fuel l n d)
  end.

(** The iterations each loop of a call is given: the bytes it may move plus
    the interruptions that may come. *)
Definition op_size (o : stream_op) : nat :=
  match o with
  | Fread size nmemb => Z.to_nat (size * nmemb)
  | Fwrite data _ _ => length data
  | _ => 0
  end.
Definition op_fuel (o : stream_op) (s : io K) : nat :=
  S (op_size o + length (input s) + Z.to_nat (wcap (io_f s)) + k_signals (p_kern (io_p s))).
Fixpoint run_ops (ops : list stream_op) : M (io K) unit :=
  match ops with
  | [] => ret tt
  | o :: r => let! s := get in do! run_op (op_fuel o s) o in run_ops r
  end.

Lemma wp_drop {A} (m : M (io K) A) s (P : io K → Prop) :
  wp m s (λ _ s', P s') → wp (drop_result m) s (λ _ s', P s').
Proof. intros Hm. unfold drop_result. io_step. wp_call Hm. intros. by io_steps. Qed.

Lemma wp_run_op o s :
  file_wf (io_f s) → op_ok o →
  wp (run_op (op_fuel o s) o) s (λ _ s', file_wf (io_f s')).
Proof.
  intros Hwf Hok. pose proof Hwf as Hw. wf_destruct Hw.
  assert (Hseek : ∀ off wh, wp (fseek (op_fuel o s) off wh) s (λ _ s', file_wf (io_f s'))).
  { intros off wh. unfold fseek. wp_call wp_fseek; [done|unfold op_fuel; lia|].
    intros ? ? [? _]. done. }
  destruct o; cbn [run_op op_ok] in *; try apply wp_drop.
  - unfold getc. wp_call wp_getc; [done|unfold op_fuel; lia|].
    intros ? ? [Hrd _]. apply (rd_wf _ _ Hrd).
  - destruct (Z.eq_dec c EOF) as [->|Hc].
    + unfold ungetc. change (EOF =? EOF) with true. by io_steps.
    + wp_call wp_ungetc; [done|done|]. intros r s' Hr.
      destruct (ungot_len (io_f s) =? UNGOT_SIZE); [by destruct Hr as [_ ->]|]. destruct Hr as (_ & Hrd & _).
      apply (rd_wf _ _ Hrd).
  - destruct (Z.eqb_spec size 0) as [->|?]; [|destruct (Z.eqb_spec nmemb 0) as [->|?]].
    + unfold fread. by io_steps.
    + unfold fread. rewrite orb_true_r. by io_steps.
    + wp_call wp_fread; [done|lia|lia|lia|unfold op_fuel; cbn; lia|].
      intros ? ? [Hrd _]. apply (rd_wf _ _ Hrd).
  - destruct (Z.eqb_spec size 0) as [->|?]; [|destruct (Z.eqb_spec nmemb 0) as [->|?]].
    + unfold fwrite. by io_steps.
    + unfold fwrite. rewrite orb_true_r. by io_steps.
    + wp_call wp_fwrite; [done|lia|lia|lia|lia|unfold op_fuel; cbn; lia|].
      intros ? ? [Hwr _]. apply (wr_wf _ _ Hwr).
  - unfold fflush_stream. io_step. wp_call wp_flush; [done|unfold op_fuel; lia|].
    intros ? ? [Hwr _]. io_steps; apply (wr_wf _ _ Hwr).
  - wp_call wp_setvbuf; [done|done|unfold op_fuel; lia|]. intros ? ? [? _]. done.
  - apply Hseek.
  - unfold ftell. io_step. wp_call wp_ftell; [done|unfold op_fuel; lia|].
    intros ? ? [Hrd _]. io_steps; apply (rd_wf _ _ Hrd).
  - unfold rewind. io_step. wp_call Hseek. intros _ s' Hs. by io_steps.
  - wp_call wp_fgets; [done|done|unfold op_fuel; lia|].
    intros ? ? [Hrd _]. apply (rd_wf _ _ Hrd).
  - wp_call wp_getdelim; [done|done|unfold op_fuel; lia|].
    intros ? ? [Hrd _]. apply (rd_wf _ _ Hrd).
Qed.
End sequences.

(** no sequence of stream operations goes wrong.  A stream starts in a valid
    state when it is opened, and any sequence of calls with arguments C allows
    returns (no loop runs away, whatever errors, short transfers and
    interruptions the kernel produces) and leaves a valid state: every buffer
    index stays inside its block. *)
Theorem stream_sequences_safe {K} `{KernelLaws K} fd0 cl mode ops (p : proc K) :
  Forall op_ok ops →
  wp (run_ops ops) (mk_io (frida_file_new fd0 cl mode) p) (λ _ s', file_wf (io_f s')).
Proof.
  intros Hok. pose proof (file_wf_new fd0 cl mode) as Hwf.
  change (frida_file_new fd0 cl mode) with (io_f (mk_io (frida_file_new fd0 cl mode) p)) in Hwf.
  revert Hwf. generalize (mk_io (frida_file_new fd0 cl mode) p).
  induction Hok as [|o ops Ho _ IH]; intros s Hwf; cbn [run_ops]; [by io_steps|].
  do 3 io_step. wp_call wp_run_op; [done|done|]. intros _ s' Hwf'. by apply IH.
Qed.

Lemma stream_sequences_safe_witness :
  let ops := [Fwrite [104; 10] 1 2; Setvbuf None _IONBF 0; Fseek 0 SEEK_SET; Getc;
              Ungetc 65; Getdelim None 0 10; Ftell; Fflush] in
  Forall op_ok ops ∧
  wp (run_ops ops) (mk_io (frida_file_new 5 true _IOFBF)
        (mk_proc (demo_kernel [] [Err 4; Short 1; Err 5]) 0)) (λ _ s', file_wf (io_f s')).
Proof.
  intros ops. assert (Hok : Forall op_ok ops).
  { repeat constructor; try lia; reflexivity. }
  split; [exact Hok|]. apply (stream_sequences_safe 5 true _IOFBF ops). exact Hok.
Defined.
