(* ===== verification/Registry.v ===== *)
(** The life cycle of the libc shim's streams and directories
    (src/lib/payload/libc-shim.c): the heap blocks behind [FILE *] and [DIR *],
    the tables of open streams and directories, opening and closing, flushing
    everything, the exit handlers, formatted output and directory reading. *)
From S2P Require Import Prelude Posix Stdio.

Definition FRIDA_FILE_MAGIC : Z := 0x46524944.
Definition FRIDA_DIR_MAGIC : Z := 0x46444952.

(** The addresses of the three static streams; heap blocks lie above them. *)
Definition stdin : Z := 16.
Definition stdout : Z := 32.
Definition stderr : Z := 48.
Definition HEAP_BASE : Z := 4096.

Record FridaFileHandle := mk_handle { magic : Z; impl : Z }.

Record dirent := mk_dirent { d_ino : Z; d_type : Z; d_name : list Z }.

Record FridaDir := mk_FridaDir {
  dir_magic : Z;
  dir_fd : Z;
  dir_close_fd : bool;
  dir_buf : list Z;
  dir_cap : Z;
  dir_pos : Z;
  dir_len : Z;
  dir_cur : dirent
}.

Record FridaExitEntry := mk_exit_entry { func : Z; user_data : Z }.

Record shim (K : Type) := mk_shim {
  sh_p : proc K;
  sh_next : Z;
  sh_handles : gmap Z FridaFileHandle;
  sh_files : gmap Z FridaFile;
  sh_dirs : gmap Z FridaDir;
  frida_streams : list Z;
  frida_dirs : list Z;
  frida_atexit_entries : list FridaExitEntry;
  frida_libc_shim_initialized : bool;
  frida_deinit_expected : bool
}.
Arguments mk_shim {K} _ _ _ _ _ _ _ _ _ _.
Arguments sh_p {K} _.
Arguments sh_next {K} _.
Arguments sh_handles {K} _.
Arguments sh_files {K} _.
Arguments sh_dirs {K} _.
Arguments frida_streams {K} _.
Arguments frida_dirs {K} _.
Arguments frida_atexit_entries {K} _.
Arguments frida_libc_shim_initialized {K} _.
Arguments frida_deinit_expected {K} _.

Section shim_state.
Context {K : Type}.
Definition set_p (p : proc K) (s : shim K) : shim K :=
  mk_shim p (sh_next s) (sh_handles s) (sh_files s) (sh_dirs s) (frida_streams s)
    (frida_dirs s) (frida_atexit_entries s) (frida_libc_shim_initialized s)
    (frida_deinit_expected s).
Definition set_heap (n : Z) (h : gmap Z FridaFileHandle) (f : gmap Z FridaFile)
    (d : gmap Z FridaDir) (s : shim K) : shim K :=
  mk_shim (sh_p s) n h f d (frida_streams s) (frida_dirs s) (frida_atexit_entries s)
    (frida_libc_shim_initialized s) (frida_deinit_expected s).
Definition set_handles (h : gmap Z FridaFileHandle) (s : shim K) : shim K :=
  set_heap (sh_next s) h (sh_files s) (sh_dirs s) s.
Definition set_files (f : gmap Z FridaFile) (s : shim K) : shim K :=
  set_heap (sh_next s) (sh_handles s) f (sh_dirs s) s.
Definition set_dirs (d : gmap Z FridaDir) (s : shim K) : shim K :=
  set_heap (sh_next s) (sh_handles s) (sh_files s) d s.
Definition set_tables (st ds : list Z) (s : shim K) : shim K :=
  mk_shim (sh_p s) (sh_next s) (sh_handles s) (sh_files s) (sh_dirs s) st ds
    (frida_atexit_entries s) (frida_libc_shim_initialized s) (frida_deinit_expected s).
Definition set_atexit (e : list FridaExitEntry) (s : shim K) : shim K :=
  mk_shim (sh_p s) (sh_next s) (sh_handles s) (sh_files s) (sh_dirs s) (frida_streams s)
    (frida_dirs s) e (frida_libc_shim_initialized s) (frida_deinit_expected s).
Definition set_flags (i d : bool) (s : shim K) : shim K :=
  mk_shim (sh_p s) (sh_next s) (sh_handles s) (sh_files s) (sh_dirs s) (frida_streams s)
    (frida_dirs s) (frida_atexit_entries s) i d.
End shim_state.

Section lifecycle.
Context {K : Type} `{Kernel K}.
(** The order in which a [GHashTable] iterates over its keys. *)
Context (hash_order : list Z → list Z).

Definition at_proc {A} (m : M (proc K) A) : M (shim K) A := λ s,
  match m (sh_p s) with
  | Ret (a, p) => Ret (a, set_p p s)
  | Failed => Failed
  | Crash => Crash
  | Stuck => Stuck
  end.
(** Read a heap block; a pointer to no block is an invalid access. *)
Definition deref {A} (m : shim K → gmap Z A) (p : Z) : M (shim K) A := λ s,
  match m s !! p with Some v => Ret (v, s) | None => Crash end.
(** [g_new0]: the address of a fresh block. *)
Definition g_new (upd : Z → shim K → shim K) : M (shim K) Z := λ s,
  let p := sh_next s in
  Ret (p, upd p (set_heap (p + 1) (sh_handles s) (sh_files s) (sh_dirs s) s)).

Definition frida_libc_shim_prepare_to_deinit : M (shim K) unit :=
  modify (λ s, set_flags (frida_libc_shim_initialized s) true s).

(** *** Handles *)
Definition frida_file_get_impl (stream : Z) : M (shim K) Z :=
  do! c_assert (negb (stream =? 0)) in
  let! h := deref sh_handles stream in
  do! c_assert (magic h =? FRIDA_FILE_MAGIC) in
  do! c_assert (negb (impl h =? 0)) in
  ret (impl h).

Definition frida_file_bind_slot (slot im : Z) : M (shim K) unit :=
  do! c_assert (negb (slot =? 0)) in
  do! c_assert (negb (im =? 0)) in
  modify (λ s, set_handles (<[slot := mk_handle FRIDA_FILE_MAGIC im]> (sh_handles s)) s).

Definition frida_file_wrap (im : Z) : M (shim K) Z :=
  do! c_assert (negb (im =? 0)) in
  g_new (λ p s, set_handles (<[p := mk_handle FRIDA_FILE_MAGIC im]> (sh_handles s)) s).

Definition frida_file_unwrap (stream : Z) : M (shim K) unit :=
  do! c_assert (negb (stream =? 0)) in
  let! h := deref sh_handles stream in
  do! c_assert (magic h =? FRIDA_FILE_MAGIC) in
  modify (λ s, set_handles (delete stream (sh_handles s)) s).

(** A fresh [FridaFile] block. *)
Definition new_file (fd : Z) (close_fd : bool) (buf_mode : Z) : M (shim K) Z :=
  g_new (λ p s, set_files (<[p := frida_file_new fd close_fd buf_mode]> (sh_files s)) s).

Definition frida_file_free (f : Z) : M (shim K) unit :=
  if f =? 0 then ret tt
  else do! deref sh_files f in
       modify (λ s, set_files (delete f (sh_files s)) s).

(** Run an operation on the stream behind a [FridaFile] or [FILE] pointer. *)
Definition on_file {A} (f : Z) (m : M (io K) A) : M (shim K) A := λ s,
  match sh_files s !! f with
  | None => Crash
  | Some v =>
      match m (mk_io v (sh_p s)) with
      | Ret (a, t) => Ret (a, set_p (io_p t) (set_files (<[f := io_f t]> (sh_files s)) s))
      | Failed => Failed
      | Crash => Crash
      | Stuck => Stuck
      end
  end.
Definition on_stream {A} (stream : Z) (m : M (io K) A) : M (shim K) A :=
  let! f := frida_file_get_impl stream in on_file f m.

(** *** The table of open streams *)
Definition frida_stdio_register_stream (stream : Z) : M (shim K) unit :=
  modify (λ s, set_tables
    (if bool_decide (stream ∈ frida_streams s) then frida_streams s
     else frida_streams s ++ [stream]) (frida_dirs s) s).
Definition frida_stdio_unregister_stream (stream : Z) : M (shim K) unit :=
  modify (λ s, set_tables (filter (λ x, x ≠ stream) (frida_streams s)) (frida_dirs s) s).
Definition frida_stdio_register_dir (dirp : Z) : M (shim K) unit :=
  modify (λ s, set_tables (frida_streams s)
    (if bool_decide (dirp ∈ frida_dirs s) then frida_dirs s
     else frida_dirs s ++ [dirp]) s).
Definition frida_stdio_unregister_dir (dirp : Z) : M (shim K) unit :=
  modify (λ s, set_tables (frida_streams s) (filter (λ x, x ≠ dirp) (frida_dirs s)) s).

(** Visit the keys of a table. *)
Fixpoint for_each {S} (l : list Z) (body : Z → M S unit) : M S unit :=
  match l with
  | [] => ret tt
  | x :: r => do! body x in for_each r body
  end.

Fixpoint flush_streams (fuel : nat) (l : list Z) (result : Z) : M (shim K) Z :=
  match l with
  | [] => ret result
  | stream :: r =>
      let! f := frida_file_get_impl stream in
      let! n := on_file f (frida_file_flush_write fuel) in
      flush_streams fuel r (if n =? 0 then result else EOF)
  end.
Definition frida_flush_all_streams (fuel : nat) (result : Z) : M (shim K) Z :=
  let! s := get in
  flush_streams fuel (hash_order (frida_streams s)) result.

Definition fflush (fuel : nat) (stream : Z) : M (shim K) Z :=
  if negb (stream =? 0) then on_stream stream (fflush_stream fuel)
  else
    let! f0 := frida_file_get_impl stdin in
    let! f1 := frida_file_get_impl stdout in
    let! f2 := frida_file_get_impl stderr in
    let! r0 := on_file f0 (frida_file_flush_write fuel) in
    let! r1 := on_file f1 (frida_file_flush_write fuel) in
    let! r2 := on_file f2 (frida_file_flush_write fuel) in
    let result := if andb (r0 =? 0) (andb (r1 =? 0) (r2 =? 0)) then 0 else EOF in
    frida_flush_all_streams fuel result.

(** *** Opening and closing *)
Definition open_stream (fd : Z) : M (shim K) Z :=
  let! im := new_file fd true _IOFBF in
  let! result := frida_file_wrap im in
  do! frida_stdio_register_stream result in
  ret result.

Definition frida_fopen_impl (fuel : nat) (pathname mode : list Z) : M (shim K) Z :=
  match frida_parse_fopen_mode mode with
  | None => c_assert_not_reached
  | Some oflags =>
      let! fd := at_proc (frida_open_nointr fuel pathname oflags 438) in
      match fd with
      | None => ret 0
      | Some fd => open_stream fd
      end
  end.

Definition fdopen (fd : Z) (mode : list Z) : M (shim K) Z :=
  match frida_parse_fopen_mode mode with
  | None => c_assert_not_reached
  | Some _ => open_stream fd
  end.

(** [tmpfile]; the outcome of [g_file_open_tmp] is an argument. *)
Definition tmpfile (g_file_open_tmp : option Z) : M (shim K) Z :=
  match g_file_open_tmp with
  | None => ret 0
  | Some fd => open_stream fd
  end.

Definition fclose (fuel : nat) (stream : Z) : M (shim K) Z :=
  let! f := frida_file_get_impl stream in
  do! fflush fuel stream in
  let! v := deref sh_files f in
  let! closed :=
    (if close_fd v then at_proc (frida_close_nointr fuel (fd v)) else ret (Some tt)) in
  match closed with
  | None => ret EOF
  | Some _ =>
      do! frida_stdio_unregister_stream stream in
      do! frida_file_free f in
      do! frida_file_unwrap stream in
      ret 0
  end.

(** *** Initialization and teardown *)
Definition frida_libc_shim_init : M (shim K) unit :=
  let! s := get in
  if frida_libc_shim_initialized s then ret tt
  else
    do! modify (set_tables [] []) in
    let! f0 := new_file 0 false _IOFBF in
    do! frida_file_bind_slot stdin f0 in
    let! f1 := new_file 1 false _IOLBF in
    do! frida_file_bind_slot stdout f1 in
    let! f2 := new_file 2 false _IONBF in
    do! frida_file_bind_slot stderr f2 in
    modify (λ s, set_flags true (frida_deinit_expected s) s).

Definition deinit_stream (fuel : nat) (stream : Z) : M (shim K) unit :=
  let! f := frida_file_get_impl stream in
  do! on_file f (frida_file_flush_write fuel) in
  let! v := deref sh_files f in
  do! (if close_fd v then do! at_proc (frida_close_nointr fuel (fd v)) in ret tt
       else ret tt) in
  do! frida_file_free f in
  do! frida_file_unwrap stream in
  frida_stdio_unregister_stream stream.

Definition frida_dir_get_impl (dirp : Z) : M (shim K) FridaDir :=
  do! c_assert (negb (dirp =? 0)) in
  let! d := deref sh_dirs dirp in
  do! c_assert (dir_magic d =? FRIDA_DIR_MAGIC) in
  ret d.
Definition frida_dir_free (d : Z) : M (shim K) unit :=
  if d =? 0 then ret tt
  else
    let! v := deref sh_dirs d in
    do! c_assert (dir_magic v =? FRIDA_DIR_MAGIC) in
    modify (λ s, set_dirs (delete d (sh_dirs s)) s).

Definition deinit_dir (fuel : nat) (dirp : Z) : M (shim K) unit :=
  let! d := frida_dir_get_impl dirp in
  do! (if dir_close_fd d then do! at_proc (frida_close_nointr fuel (dir_fd d)) in ret tt
       else ret tt) in
  do! frida_dir_free dirp in
  frida_stdio_unregister_dir dirp.

(** Release one of the three static streams. *)
Definition clear_slot (slot : Z) : M (shim K) unit :=
  let! h := deref sh_handles slot in
  do! frida_file_free (impl h) in
  modify (λ s, set_handles (<[slot := mk_handle 0 0]> (sh_handles s)) s).

Definition frida_libc_shim_deinit (fuel : nat) : M (shim K) unit :=
  let! s := get in
  do! c_assert (frida_libc_shim_initialized s) in
  do! fflush fuel 0 in
  let! s := get in
  if negb (frida_deinit_expected s) then ret tt
  else
    do! for_each (hash_order (frida_streams s)) (deinit_stream fuel) in
    do! for_each (hash_order (frida_dirs s)) (deinit_dir fuel) in
    do! clear_slot stdin in
    do! clear_slot stdout in
    clear_slot stderr.

(** *** Exit handlers *)
Definition __cxa_atexit (f arg : Z) : M (shim K) Z :=
  do! frida_libc_shim_init in
  do! modify (λ s, set_atexit (frida_atexit_entries s ++ [mk_exit_entry f arg]) s) in
  ret 0.
Definition atexit (f : Z) : M (shim K) Z :=
  do! __cxa_atexit f 0 in ret 0.

Context (call_handler : FridaExitEntry → M (shim K) unit).
Fixpoint run_handlers (fuel : nat) (i : Z) : M (shim K) unit :=
  match fuel with
  | O => λ _, Stuck
  | S n =>
      if i <? 0 then ret tt
      else
        let! s := get in
        match frida_atexit_entries s !! Z.to_nat i with
        | None => crash
        | Some entry => do! call_handler entry in run_handlers n (i - 1)
        end
  end.
Definition frida_run_atexit_handlers (fuel : nat) : M (shim K) unit :=
  let! s := get in
  do! run_handlers fuel (zlen (frida_atexit_entries s) - 1) in
  modify (set_atexit []).
End lifecycle.

(** ** Formatted output

    [gum_vasprintf] is a parameter: the functions take the formatted message. *)
Section printf.
Context {K : Type} `{Kernel K}.

Definition frida_write_formatted_to_fd (fuel : nat) (fd : Z) (message : list Z)
    : M (proc K) Z :=
  loop fuel (λ off,
    if off =? zlen message then ret (inr 0)
    else
      let! n := frida_write_nointr fuel fd (zslice off (zlen message) message) in
      match n with
      | None => ret (inr (-1))
      | Some n => ret (inl (off + n))
      end) 0.
Definition vprintf (fuel : nat) (message : list Z) : M (proc K) Z :=
  frida_write_formatted_to_fd fuel 1 message.
Definition printf (fuel : nat) (message : list Z) : M (proc K) Z :=
  frida_write_formatted_to_fd fuel 1 message.
Definition vfprintf (fuel : nat) (stream : Z) (message : list Z) : M (shim K) Z :=
  let! fd := on_stream stream fileno in
  at_proc (frida_write_formatted_to_fd fuel fd message).
Definition fprintf (fuel : nat) (stream : Z) (message : list Z) : M (shim K) Z :=
  let! fd := on_stream stream fileno in
  at_proc (frida_write_formatted_to_fd fuel fd message).

Definition putchar (fuel : nat) (c : Z) : M (proc K) Z :=
  let! n := frida_write_nointr fuel 1 [u8 c] in
  ret (match n with Some 1 => u8 c | _ => EOF end).
Definition puts (fuel : nat) (s : list Z) : M (proc K) Z :=
  let! n := frida_write_nointr fuel 1 s in
  match n with
  | None => ret EOF
  | Some n =>
      if negb (n =? zlen s) then ret EOF
      else
        let! n := frida_write_nointr fuel 1 [NEWLINE] in
        ret (match n with Some 1 => 1 | _ => EOF end)
  end.

(** [posix_memalign] over [gum_memalign], whose result is an argument. *)
Definition posix_memalign (gum_memalign : Z) (memptr : Z) : Z * Z :=
  if gum_memalign =? 0 then (ENOMEM, memptr) else (0, gum_memalign).
End printf.

(** ** Duplicating descriptors (Linux) *)
Section dup.
Context {K : Type}.
(** [dup3] and [fcntl (fd, F_GETFD)] of the kernel. *)
Context (k_dup3 : Z → Z → Z → K → sysret Z * K) (k_getfd : Z → K → sysret Z * K).

Definition dup3 (old_fd new_fd flags : Z) : M (proc K) (option Z) :=
  syscall (k_dup3 old_fd new_fd flags).
Definition dup2 (old_fd new_fd : Z) : M (proc K) (option Z) :=
  if new_fd =? old_fd then
    let! r := syscall (k_getfd new_fd) in
    match r with
    | None => ret None
    | Some _ => ret (Some new_fd)
    end
  else dup3 old_fd new_fd 0.
End dup.

(** ** Directories *)

(** [sizeof (d->cur.d_name)] on Linux and on Darwin. *)
Definition LINUX_NAME_MAX : Z := 256.
Definition DARWIN_NAME_MAX : Z := 1024.

Definition no_dirent : dirent := mk_dirent 0 0 [].
Definition new_dir (fd : Z) : FridaDir :=
  mk_FridaDir FRIDA_DIR_MAGIC fd true (zeros FRIDA_STDIO_BUFSIZE) FRIDA_STDIO_BUFSIZE 0 0
    no_dirent.

(** An integer field of the kernel's record at an offset of the buffer. *)
Definition field (buf : list Z) (off size : Z) : Z := le_value (zslice off (off + size) buf).

(** The bytes before the first NUL, at most [n] of them. *)
Fixpoint cstring (l : list Z) : list Z :=
  match l with
  | [] => []
  | c :: r => if c =? 0 then [] else c :: cstring r
  end.
Definition strnlen_bytes (n : Z) (l : list Z) : list Z := ztake n (cstring l).

(** The record of getdents64 at the read position. *)
Definition linux_entry (d : FridaDir) : FridaDir * dirent :=
  let reclen := field (dir_buf d) (dir_pos d + 16) 2 in
  let e := mk_dirent (field (dir_buf d) (dir_pos d) 8)
             (znth (dir_buf d) (dir_pos d + 18))
             (strnlen_bytes (LINUX_NAME_MAX - 1) (zdrop (dir_pos d + 19) (dir_buf d))) in
  (mk_FridaDir (dir_magic d) (dir_fd d) (dir_close_fd d) (dir_buf d) (dir_cap d)
     (dir_pos d + reclen) (dir_len d) e, e).

Definition DT_UNKNOWN : Z := 0.
Definition DT_FIFO : Z := 1.
Definition DT_CHR : Z := 2.
Definition DT_DIR : Z := 4.
Definition DT_BLK : Z := 6.
Definition DT_REG : Z := 8.
Definition DT_LNK : Z := 10.
Definition DT_SOCK : Z := 12.

Definition frida_darwin_objtype_to_dtype (objtype : Z) : Z :=
  if objtype =? 1 then DT_REG
  else if objtype =? 2 then DT_DIR
  else if objtype =? 3 then DT_BLK
  else if objtype =? 4 then DT_CHR
  else if objtype =? 5 then DT_LNK
  else if objtype =? 6 then DT_SOCK
  else if objtype =? 7 then DT_FIFO
  else DT_UNKNOWN.

(** The group of getattrlistbulk at the read position: its length, the
    returned attributes, the name reference, the type and the object id.
    The block is 4-byte aligned.  [None] is the failed assertion on the
    attributes. *)
Definition ATTRS_WANTED : Z := Z.lor (Z.lor 1 8) 32.
Definition darwin_entry (d : FridaDir) : option (FridaDir * dirent) :=
  let group := dir_pos d in
  let group_len := field (dir_buf d) group 4 in
  let base := group + 4 in
  let returned := field (dir_buf d) base 4 in
  if negb (Z.land returned ATTRS_WANTED =? ATTRS_WANTED) then None
  else
    let p := base + 20 in
    let name_off := p + s32 (field (dir_buf d) p 4) in
    let name_len := field (dir_buf d) (p + 4) 4 in
    let name_len :=
      if andb (negb (name_len =? 0)) (znth (dir_buf d) (name_off + name_len - 1) =? 0)
      then name_len - 1 else name_len in
    let p := p + 8 in
    let objtype := field (dir_buf d) p 4 in
    let p := p + 4 in
    let p := Z.land (p + 3) (Z.lnot 3) in
    let objno := field (dir_buf d) p 4 in
    let copy_len := if DARWIN_NAME_MAX - 1 <? name_len then DARWIN_NAME_MAX - 1 else name_len in
    let e := mk_dirent objno (frida_darwin_objtype_to_dtype objtype)
               (zslice name_off (name_off + copy_len) (dir_buf d)) in
    Some (mk_FridaDir (dir_magic d) (dir_fd d) (dir_close_fd d) (dir_buf d) (dir_cap d)
            (dir_pos d + group_len) (dir_len d) e, e).

Section dirs.
Context {K : Type} `{Kernel K}.

Definition frida_dir_wrap (d : FridaDir) : M (shim K) Z :=
  do! c_assert (dir_magic d =? FRIDA_DIR_MAGIC) in
  g_new (λ p s, set_dirs (<[p := d]> (sh_dirs s)) s).

Definition fdopendir (fd : Z) : M (shim K) Z :=
  let! result := frida_dir_wrap (new_dir fd) in
  do! frida_stdio_register_dir result in
  ret result.

Definition opendir (fuel : nat) (name : list Z) : M (shim K) Z :=
  let! fd := at_proc (frida_open_nointr fuel name (Z.lor O_RDONLY O_DIRECTORY) 0) in
  match fd with
  | None => ret 0
  | Some fd =>
      let! result := frida_dir_wrap (new_dir fd) in
      do! frida_stdio_register_dir result in
      ret result
  end.

Definition closedir (fuel : nat) (dirp : Z) : M (shim K) Z :=
  let! d := frida_dir_get_impl dirp in
  let! closed :=
    (if dir_close_fd d then at_proc (frida_close_nointr fuel (dir_fd d))
     else ret (Some tt)) in
  match closed with
  | None => ret (-1)
  | Some _ =>
      do! frida_stdio_unregister_dir dirp in
      do! frida_dir_free dirp in
      ret 0
  end.

Definition store_dir (dirp : Z) (d : FridaDir) : M (shim K) unit :=
  modify (λ s, set_dirs (<[dirp := d]> (sh_dirs s)) s).

(** [readdir] on Linux: [None] is NULL. *)
Definition readdir (fuel : nat) (dirp : Z) : M (shim K) (option dirent) :=
  let! d := frida_dir_get_impl dirp in
  let! d :=
    (if dir_pos d =? dir_len d then
       let! bs := at_proc (frida_getdirents_nointr fuel (dir_fd d) (dir_cap d)) in
       match bs with
       | None | Some [] =>
           do! store_dir dirp (mk_FridaDir (dir_magic d) (dir_fd d) (dir_close_fd d)
                 (dir_buf d) (dir_cap d) 0 0 (dir_cur d)) in
           ret None
       | Some bs =>
           ret (Some (mk_FridaDir (dir_magic d) (dir_fd d) (dir_close_fd d)
             (zwrite 0 bs (dir_buf d)) (dir_cap d) 0 (zlen bs) (dir_cur d)))
       end
     else ret (Some d)) in
  match d with
  | None => ret None
  | Some d =>
      let '(d, e) := linux_entry d in
      do! store_dir dirp d in
      ret (Some e)
  end.

(** [frida_dir_refill_darwin]; getattrlistbulk gives the number of groups and
    their bytes. *)
Context (k_getattrlistbulk : Z → Z → K → sysret (Z * list Z) * K).
Fixpoint groups_length (n : nat) (buf : list Z) (p len : Z) : Z * Z :=
  match n with
  | O => (1, len)
  | S n =>
      let group_len := field buf p 4 in
      if group_len =? 0 then (-1, len)
      else groups_length n buf (p + group_len) (len + group_len)
  end.
Definition frida_dir_refill_darwin (fuel : nat) (d : FridaDir) : M (proc K) (Z * FridaDir) :=
  let with_block b len := mk_FridaDir (dir_magic d) (dir_fd d) (dir_close_fd d)
    b (dir_cap d) 0 len (dir_cur d) in
  let! r := nointr fuel (k_getattrlistbulk (dir_fd d) (dir_cap d)) in
  match r with
  | None => ret (-1, with_block (dir_buf d) 0)
  | Some (n, bs) =>
      let b := zwrite 0 bs (dir_buf d) in
      if n =? 0 then ret (0, with_block b 0)
      else
        let '(res, len) := groups_length (Z.to_nat n) b 0 0 in
        ret (res, with_block b len)
  end.
(** [readdir] on Darwin. *)
Definition readdir_darwin (fuel : nat) (dirp : Z) : M (shim K) (option dirent) :=
  let! d := frida_dir_get_impl dirp in
  let! r :=
    (if dir_pos d =? dir_len d then
       let! r := at_proc (frida_dir_refill_darwin fuel d) in
       let '(res, d) := r in
       do! store_dir dirp d in
       ret (if orb (res =? -1) (res =? 0) then None else Some d)
     else ret (Some d)) in
  match r with
  | None => ret None
  | Some d =>
      match darwin_entry d with
      | None => c_assert_not_reached
      | Some (d, e) =>
          do! store_dir dirp d in
          ret (Some e)
      end
  end.
End dirs.
