(* ===== verification/RegistryCorrect.v ===== *)
(** Theorems about the life cycle of streams and directories in the libc shim:
    flushing everything, closing, exit handlers and directory records. *)
From S2P Require Import Prelude Posix Stdio StdioRead StdioWrite Registry.

(** ** Valid tables *)
Definition resolve {K} (s : shim K) (stream : Z) : option (Z * FridaFile) :=
  match sh_handles s !! stream with
  | Some h =>
      if andb (magic h =? FRIDA_FILE_MAGIC) (negb (impl h =? 0)) then
        match sh_files s !! impl h with Some f => Some (impl h, f) | None => None end
      else None
  | None => None
  end.

(** The streams a process can hold: the three static ones and those opened. *)
Definition all_streams {K} (s : shim K) : list Z := [stdin; stdout; stderr] ++ frida_streams s.

Lemma static_in {K} (s : shim K) st : st ∈ [stdin; stdout; stderr] → st ∈ all_streams s.
Proof. intros Hst. apply elem_of_app. by left. Qed.
Ltac static := apply static_in; repeat first [left; done | right].
Lemma opened_in {K} (s : shim K) st : st ∈ frida_streams s → st ∈ all_streams s.
Proof. intros Hst. apply elem_of_app. by right. Qed.

Record shim_wf {K} (s : shim K) : Prop := {
  sw_nodup : NoDup (all_streams s);
  sw_resolve : ∀ st, st ∈ all_streams s → st ≠ 0 ∧ ∃ p f, resolve s st = Some (p, f) ∧ file_wf f;
  sw_inj : ∀ st st' p f f', st ∈ all_streams s → st' ∈ all_streams s →
    resolve s st = Some (p, f) → resolve s st' = Some (p, f') → st = st';
  sw_next : HEAP_BASE ≤ sh_next s;
  sw_handles : ∀ a, is_Some (sh_handles s !! a) → a < sh_next s;
  sw_files : ∀ a, is_Some (sh_files s !! a) → a < sh_next s
}.

Lemma resolve_files {K} (s : shim K) st p f :
  resolve s st = Some (p, f) → sh_files s !! p = Some f ∧ p ≠ 0 ∧
    ∃ h, sh_handles s !! st = Some h ∧ magic h = FRIDA_FILE_MAGIC ∧ impl h = p.
Proof.
  unfold resolve. destruct (sh_handles s !! st) as [h|] eqn:Eh; [|done].
  destruct (Z.eqb_spec (magic h) FRIDA_FILE_MAGIC); [|done].
  destruct (Z.eqb_spec (impl h) 0); [done|]. cbn.
  destruct (sh_files s !! impl h) eqn:Ef; [|done]. intros [= <- <-]. eauto 6.
Qed.

Lemma resolve_set_file {K} (s : shim K) p g q st :
  is_Some (sh_files s !! p) →
  resolve (set_p q (set_files (<[p := g]> (sh_files s)) s)) st =
  match resolve s st with
  | Some (p', f) => Some (p', if decide (p = p') then g else f)
  | None => None
  end.
Proof.
  intros [f0 Hf0]. unfold resolve; cbn. destruct (sh_handles s !! st) as [h|]; [|done].
  destruct (magic h =? FRIDA_FILE_MAGIC), (impl h =? 0); cbn; try done.
  rewrite lookup_insert. case_decide as E.
  - subst p. rewrite Hf0. by rewrite decide_True.
  - destruct (sh_files s !! impl h); [|done]. by rewrite decide_False.
Qed.

(** Replacing a stream's state by another valid one keeps the tables valid. *)
Lemma shim_wf_set_file {K} (s : shim K) p g :
  shim_wf s → is_Some (sh_files s !! p) → file_wf g →
  shim_wf (set_files (<[p := g]> (sh_files s)) s).
Proof.
  intros Hwf Hp Hg.
  assert (Hr : ∀ st, resolve (set_files (<[p := g]> (sh_files s)) s) st =
    match resolve s st with
    | Some (p', f) => Some (p', if decide (p = p') then g else f)
    | None => None
    end).
  { intros st. exact (resolve_set_file s p g (sh_p s) st Hp). }
  destruct Hwf as [Hnd Hrs Hinj Hnx Hha Hfi]. constructor; try done.
  - intros st Hin. destruct (Hrs st Hin) as (? & q & f & Hq & ?). split; [done|].
    rewrite Hr, Hq. eexists q, _. split; [done|]. by case_decide.
  - intros st st' q f f' Hi Hi' Hq Hq'. rewrite Hr in Hq, Hq'.
    destruct (resolve s st) as [[]|] eqn:E, (resolve s st') as [[]|] eqn:E'; try done.
    injection Hq as <- _. injection Hq' as -> _. by eapply (Hinj st st').
  - intros a. cbn. rewrite lookup_insert. case_decide as E; [|apply Hfi].
    intros _. subst a. by apply Hfi.
Qed.

Section rules.
Context {K : Type} `{KernelLaws K}.
Implicit Types s : shim K.

Lemma wp_get_impl s st p f :
  st ≠ 0 → resolve s st = Some (p, f) →
  wp (frida_file_get_impl st) s (λ r s', r = p ∧ s' = s).
Proof.
  intros Hne Hr. apply resolve_files in Hr as (_ & Hp & h & Hh & Hm & Hi).
  unfold frida_file_get_impl, deref. exists p, s. split; [|done].
  unfold bind, c_assert. destruct (Z.eqb_spec st 0); [done|]. cbn. rewrite Hh.
  rewrite Hm, Hi. cbn. by destruct (Z.eqb_spec p 0).
Qed.

Lemma wp_on_file {A} s p f (m : M (io K) A) Q :
  sh_files s !! p = Some f →
  wp m (mk_io f (sh_p s)) (λ a t,
    Q a (set_p (io_p t) (set_files (<[p := io_f t]> (sh_files s)) s))) →
  wp (on_file p m) s Q.
Proof.
  intros Hf (a & t & Hm & HQ). eexists a, _. split; [|exact HQ].
  unfold on_file. by rewrite Hf, Hm.
Qed.

Lemma wp_at_proc {A} (m : M (proc K) A) s Q :
  wp m (sh_p s) (λ a p, Q a (set_p p s)) → wp (at_proc m) s Q.
Proof. intros (a & p & Hm & HQ). exists a, (set_p p s). unfold at_proc. by rewrite Hm. Qed.
End rules.

(** ** Flushing every stream *)
Section flush_all.
Context {K : Type} `{KernelLaws K}.
Implicit Types s : shim K.
Context (hash_order : list Z → list Z).
Hypothesis hash_order_perm : ∀ l, Permutation (hash_order l) l.

Definition written s (fd : Z) : list Z := k_written (p_kern (sh_p s)) fd.

(** A stream the flush has not come to yet, and one it is done with. *)
Definition untouched s0 s (st : Z) : Prop :=
  ∃ p f, resolve s0 st = Some (p, f) ∧ resolve s st = Some (p, f) ∧
    written s (fd f) = written s0 (fd f).
Definition flushed s0 s (st : Z) : Prop :=
  ∃ p f f', resolve s0 st = Some (p, f) ∧ resolve s st = Some (p, f') ∧
    fd f' = fd f ∧ pending f' = [] ∧ written s (fd f) = written s0 (fd f) ++ pending f.

(** Two streams never share a descriptor. *)
Definition distinct_fds s : Prop :=
  ∀ st st' p p' f f', st ∈ all_streams s → st' ∈ all_streams s →
    resolve s st = Some (p, f) → resolve s st' = Some (p', f') → fd f = fd f' → st = st'.

Definition enough_fuel s (fuel : nat) : Prop :=
  ∀ st p f, resolve s st = Some (p, f) →
    (Z.to_nat (wcap f) + k_signals (p_kern (sh_p s)) < fuel)%nat.

(** What a flush leaves alone. *)
Record same_tables s s' : Prop := {
  st_streams : frida_streams s' = frida_streams s;
  st_handles : sh_handles s' = sh_handles s;
  st_next : sh_next s' = sh_next s;
  st_flags : frida_deinit_expected s' = frida_deinit_expected s;
  st_dom : ∀ a, is_Some (sh_files s' !! a) ↔ is_Some (sh_files s !! a)
}.
Lemma same_tables_trans s1 s2 s3 :
  same_tables s1 s2 → same_tables s2 s3 → same_tables s1 s3.
Proof.
  intros [A1 A2 A3 A4 A5] [B1 B2 B3 B4 B5]. constructor; try congruence.
  intros a. by rewrite B5.
Qed.

Lemma all_streams_same s s' : same_tables s s' → all_streams s' = all_streams s.
Proof. intros [Hs _ _ _ _]. unfold all_streams. by rewrite Hs. Qed.

Lemma untouched_flushed s1 s2 s3 st :
  untouched s1 s2 st → flushed s2 s3 st → flushed s1 s3 st.
Proof.
  intros (p & f & H1 & H2 & H3) (p' & f' & g & H4 & H5 & H6 & H7 & H8).
  rewrite H2 in H4. injection H4 as <- <-. exists p, f, g. by rewrite <- H3.
Qed.
Lemma flushed_untouched s1 s2 s3 st :
  flushed s1 s2 st → untouched s2 s3 st → flushed s1 s3 st.
Proof.
  intros (p & f & g & H1 & H2 & H3 & H4 & H5) (p' & f' & H6 & H7 & H8).
  rewrite H2 in H6. injection H6 as <- <-. exists p, f, g.
  split_and!; try done. by rewrite <- H3, H8, H3.
Qed.
Lemma untouched_trans s1 s2 s3 st :
  untouched s1 s2 st → untouched s2 s3 st → untouched s1 s3 st.
Proof.
  intros (p & f & H1 & H2 & H3) (p' & f' & H4 & H5 & H6).
  rewrite H2 in H4. injection H4 as <- <-. exists p, f.
  split_and!; try done. by rewrite H6.
Qed.
Lemma untouched_resolve s1 s2 st p f :
  untouched s1 s2 st → resolve s1 st = Some (p, f) → resolve s2 st = Some (p, f).
Proof. intros (p' & f' & H1 & H2 & _) H3. congruence. Qed.

(** What holds between flushes. *)
Record flushing (fuel : nat) s : Prop := {
  fl_wf : shim_wf s;
  fl_fds : distinct_fds s;
  fl_fuel : enough_fuel s fuel
}.

(** One flush: the stream becomes flushed or the result is not zero, every
    other stream keeps its state, and the tables stay valid. *)
Lemma wp_flush_one fuel s st p f :
  flushing fuel s → st ∈ all_streams s → resolve s st = Some (p, f) →
  wp (on_file p (frida_file_flush_write fuel)) s (λ n s',
    flushing fuel s' ∧ same_tables s s' ∧
    (n = 0 → flushed s s' st) ∧
    (∃ f' m, resolve s' st = Some (p, f') ∧ fd f' = fd f ∧ close_fd f' = close_fd f ∧
       (n ≠ 0 → m < zlen (pending f)) ∧ m ≤ zlen (pending f) ∧
       written s' (fd f) = written s (fd f) ++ ztake m (pending f)) ∧
    (∀ st', st' ∈ all_streams s → st' ≠ st → untouched s s' st')).
Proof.
  intros [Hwf Hfd Hfuel] Hst Hres.
  destruct (sw_resolve _ Hwf st Hst) as (_ & p' & f' & Hres' & Hfwf).
  rewrite Hres in Hres'. injection Hres' as <- <-.
  destruct (resolve_files _ _ _ _ Hres) as (Hfile & Hp & h & Hh & Hm & Hi).
  apply (wp_on_file _ _ f); [done|].
  pose proof (Hfuel _ _ _ Hres) as Hfu. pose proof Hfwf as Hw. wf_destruct Hw.
  wp_call wp_flush; [done|cbn; lia|].
  intros n t (Hwr & Hr). cbn [io_f io_p] in *.
  set (s' := set_p _ _).
  assert (Hres1 : ∀ st' q g, resolve s st' = Some (q, g) →
    resolve s' st' = Some (q, if decide (p = q) then io_f t else g)).
  { intros st' q g Hq. subst s'. by rewrite resolve_set_file, Hq by eauto. }
  assert (Hother : ∀ st' q g, st' ∈ all_streams s → st' ≠ st → resolve s st' = Some (q, g) →
    q ≠ p ∧ fd g ≠ fd f).
  { intros st' q g Hin Hne Hq. split; intros E; apply Hne.
    - subst q. by eapply (sw_inj _ Hwf).
    - by eapply Hfd. }
  assert (Hkeep : ∀ st' q g, st' ∈ all_streams s → resolve s' st' = Some (q, g) →
    ∃ g0, resolve s st' = Some (q, g0) ∧ fd g = fd g0 ∧ file_wf g ∧ wcap g = wcap g0).
  { intros st' q g Hin Hq. destruct (sw_resolve _ Hwf st' Hin) as (_ & q0 & g0 & Hq0 & Hg0).
    rewrite (Hres1 _ _ _ Hq0) in Hq. injection Hq as <- <-.
    exists g0. destruct (decide (p = q0)) as [->|]; [|done].
    apply resolve_files in Hq0 as Hq0'. destruct Hq0' as (Hq1 & _). simplify_eq.
    split_and!; [done|exact (wr_fd _ _ Hwr)|exact (wr_wf _ _ Hwr)|exact (wr_cap _ _ Hwr)]. }
  split_and!; [constructor|..].
  - destruct Hwf as [Hnd Hrs Hinj Hnx Hha Hfi]. constructor; try done.
    + intros st' Hin. destruct (Hrs st' Hin) as (Hne & q & g & Hq & _).
      split; [done|]. eexists q, _. split; [by apply Hres1|].
      by destruct (Hkeep st' q _ Hin (Hres1 _ _ _ Hq)) as (? & _ & _ & ? & _).
    + intros st1 st2 q g g' Hi1 Hi2 Hq Hq'.
      destruct (Hkeep _ _ _ Hi1 Hq) as (? & ? & _), (Hkeep _ _ _ Hi2 Hq') as (? & ? & _).
      by eapply Hinj.
    + intros a. subst s'; cbn. rewrite lookup_insert. case_decide as E; [|apply Hfi].
      intros _. apply Hfi. subst a. eauto.
  - intros st1 st2 q q' g g' Hi1 Hi2 Hq Hq' E.
    destruct (Hkeep _ _ _ Hi1 Hq) as (? & ? & ? & _), (Hkeep _ _ _ Hi2 Hq') as (? & ? & ? & _).
    eapply Hfd; eauto; congruence.
  - pose proof (wr_signals _ _ Hwr) as Hsig. cbn in Hsig.
    intros st' q g Hq. subst s'. cbn. rewrite resolve_set_file in Hq by eauto.
    pose proof (wr_cap _ _ Hwr) as Hcap. cbn in Hcap.
    destruct (resolve s st') as [[q0 g0]|] eqn:E0.
    + injection Hq as <- <-. specialize (Hfuel _ _ _ E0).
      apply resolve_files in E0 as (E0 & _). case_decide; simplify_eq; lia.
    + done.
  - constructor; try done. intros a. subst s'; cbn. rewrite lookup_insert.
    case_decide as E; [|done]. subst a. rewrite Hfile. split; eauto.
  - intros ->. change (0 =? 0) with true in Hr. destruct Hr as (Hz & Hwritten & _).
    exists p, f, (io_f t). split_and!; [done| |exact (wr_fd _ _ Hwr)|by apply pending_nil|done].
    rewrite (Hres1 _ _ _ Hres). by rewrite decide_True.
  - assert (Hpl : zlen (pending f) = wlen f).
    { unfold pending. rewrite zlen_ztake. lia. }
    assert (Hrt : resolve s' st = Some (p, io_f t)).
    { rewrite (Hres1 _ _ _ Hres). by rewrite decide_True. }
    destruct (Z.eqb_spec n 0) as [Hn|Hn]; cbn zeta in Hr.
    + destruct Hr as (_ & Hwritten & _). exists (io_f t), (wlen f).
      split_and!; [done|exact (wr_fd _ _ Hwr)|exact (wr_close _ _ Hwr)|done|lia|].
      rewrite ztake_ge by lia. done.
    + destruct Hr as (_ & _ & _ & m & Hm' & Hwritten). exists (io_f t), m.
      split_and!; [done|exact (wr_fd _ _ Hwr)|exact (wr_close _ _ Hwr)|lia|lia|done].
  - intros st' Hin Hne. destruct (sw_resolve _ Hwf st' Hin) as (_ & q & g & Hq & _).
    destruct (Hother _ _ _ Hin Hne Hq) as [Hqp Hfg].
    exists q, g. split_and!; [done| |].
    + rewrite (Hres1 _ _ _ Hq). rewrite decide_False; [done|congruence].
    + unfold written. subst s'; cbn. by apply (wr_other _ _ Hwr).
Qed.

Lemma flushing_resolve fuel s st :
  flushing fuel s → st ∈ all_streams s → st ≠ 0 ∧ ∃ p f, resolve s st = Some (p, f).
Proof.
  intros [Hwf _ _] Hin. destruct (sw_resolve _ Hwf st Hin) as (? & p & f & ? & _). eauto.
Qed.

Lemma wp_flush_streams fuel l : ∀ s result,
  flushing fuel s → NoDup l → (∀ st, st ∈ l → st ∈ all_streams s) →
  wp (flush_streams fuel l result) s (λ r s',
    flushing fuel s' ∧ same_tables s s' ∧ (r = EOF ∨ r = result) ∧
    (r = 0 → result = 0 ∧ ∀ st, st ∈ l → flushed s s' st) ∧
    (∀ st', st' ∈ all_streams s → st' ∉ l → untouched s s' st')).
Proof.
  induction l as [|st l IH]; intros s result Hfl Hnd Hsub; cbn [flush_streams].
  { apply wp_ret. split_and!; try done; [by right| |].
    - intros Hr. split; [done|]. intros st Hst. by apply elem_of_nil in Hst.
    - intros st' Hin _. destruct (flushing_resolve _ _ _ Hfl Hin) as (_ & p & f & Hr).
      by exists p, f. }
  apply NoDup_cons in Hnd as [Hst Hnd].
  assert (Hin : st ∈ all_streams s) by (apply Hsub; left).
  destruct (flushing_resolve _ _ _ Hfl Hin) as (Hne & p & f & Hr).
  apply wp_bind. wp_call wp_get_impl; [done..|]. intros ? ? [-> ->].
  apply wp_bind. wp_call wp_flush_one; [done..|].
  intros n s1 (Hfl1 & Hsame & Hz & _ & Hunt).
  wp_call IH; [done|done| |].
  { intros st' Hst'. rewrite (all_streams_same _ _ Hsame). apply Hsub. by right. }
  intros r s2 (Hfl2 & Hsame2 & Hrr & Hz2 & Hunt2).
  rewrite (all_streams_same _ _ Hsame) in Hunt2.
  split_and!; try done.
  - by eapply same_tables_trans.
  - destruct (n =? 0); tauto.
  - intros Hr0. destruct (Hz2 Hr0) as [Hres Hl].
    destruct (Z.eqb_spec n 0) as [Hn|]; [|done]. split; [done|].
    intros st' Hst'. apply elem_of_cons in Hst' as [->|Hst'].
    + eapply flushed_untouched; [by apply Hz|by apply Hunt2].
    + eapply untouched_flushed; [apply Hunt; [apply Hsub; by right|congruence]|by apply Hl].
  - intros st' Hin' Hni. apply not_elem_of_cons in Hni as [Hne' Hni].
    eapply untouched_trans; [by apply Hunt|by apply Hunt2].
Qed.

(** The static streams, in the order [fflush (NULL)] takes them. *)
Lemma wp_fflush_null fuel s :
  flushing fuel s →
  wp (fflush hash_order fuel 0) s (λ r s',
    flushing fuel s' ∧ same_tables s s' ∧ (r = EOF ∨ r = 0) ∧
    (r = 0 → ∀ st, st ∈ all_streams s → flushed s s' st)).
Proof.
  intros Hfl. unfold fflush. cbn [Z.eqb negb].
  pose proof (sw_nodup _ (fl_wf _ _ Hfl)) as Hnd.
  unfold all_streams in Hnd. apply NoDup_app in Hnd as (Hnd3 & Hdisj & Hnd).
  destruct (flushing_resolve _ _ stdin Hfl) as (Hn0 & p0 & f0 & R0); [static|].
  destruct (flushing_resolve _ _ stdout Hfl) as (Hn1 & p1 & f1 & R1); [static|].
  destruct (flushing_resolve _ _ stderr Hfl) as (Hn2 & p2 & f2 & R2); [static|].
  do 3 (apply wp_bind; wp_call wp_get_impl; [done..|]; intros ? ? [-> ->]).
  apply wp_bind. wp_call (wp_flush_one _ _ stdin); [done|static|done|].
  intros r0 s1 (Hfl1 & Hs1 & Hz0 & _ & Hu1). pose proof (all_streams_same _ _ Hs1) as Ha1.
  apply wp_bind. wp_call (wp_flush_one _ _ stdout); [done|rewrite ?Ha1; static| |].
  { eapply untouched_resolve; [apply Hu1; [static|done]|done]. }
  intros r1 s2 (Hfl2 & Hs2 & Hz1 & _ & Hu2). pose proof (all_streams_same _ _ Hs2) as Ha2.
  rewrite Ha1 in Ha2, Hu2.
  apply wp_bind. wp_call (wp_flush_one _ _ stderr); [done|rewrite Ha2; static| |].
  { eapply untouched_resolve; [apply Hu2; [static|done]|].
    eapply untouched_resolve; [apply Hu1; [static|done]|done]. }
  intros r2 s3 (Hfl3 & Hs3 & Hz2 & _ & Hu3). pose proof (all_streams_same _ _ Hs3) as Ha3.
  rewrite Ha2 in Ha3, Hu3. unfold frida_flush_all_streams.
  assert (Hst3 : frida_streams s3 = frida_streams s).
  { pose proof (st_streams _ _ Hs1). pose proof (st_streams _ _ Hs2).
    pose proof (st_streams _ _ Hs3). congruence. }
  apply wp_bind, wp_get. rewrite Hst3.
  wp_call wp_flush_streams; [done|by rewrite hash_order_perm| |].
  { intros st. rewrite hash_order_perm, Ha3. apply opened_in. }
  intros r s4 (Hfl4 & Hs4 & Hr & Hz3 & Hu4). rewrite Ha3 in Hu4.
  split_and!; [done| | |].
  { do 3 (eapply same_tables_trans; [eassumption|]). done. }
  { destruct (_ && _); tauto. }
  intros Hr0. destruct (Hz3 Hr0) as [Hzz Hl].
  destruct (Z.eqb_spec r0 0) as [E0|], (Z.eqb_spec r1 0) as [E1|], (Z.eqb_spec r2 0) as [E2|];
    try done.
  assert (Hni : ∀ st, st ∈ [stdin; stdout; stderr] → st ∉ hash_order (frida_streams s)).
  { intros st Hin. rewrite hash_order_perm. by apply Hdisj. }
  intros st Hst. unfold all_streams in Hst. apply elem_of_app in Hst as [Hst|Hst].
  - pose proof (Hni _ Hst) as Hns.
    assert (Hall : st ∈ all_streams s) by (by apply static_in).
    apply elem_of_cons in Hst as [->|Hst]; [|apply elem_of_cons in Hst as [->|Hst]];
      [| |apply list_elem_of_singleton in Hst as ->].
    + eapply flushed_untouched; [by apply Hz0|].
      eapply untouched_trans; [by apply Hu2|]. eapply untouched_trans; [by apply Hu3|].
      by apply Hu4.
    + eapply untouched_flushed; [by apply Hu1|].
      eapply flushed_untouched; [by apply Hz1|].
      eapply untouched_trans; [by apply Hu3|]. by apply Hu4.
    + eapply untouched_flushed; [by apply Hu1|].
      eapply untouched_flushed; [by apply Hu2|].
      eapply flushed_untouched; [by apply Hz2|]. by apply Hu4.
  - assert (Hall : st ∈ all_streams s) by (by apply opened_in).
    assert (Hn : st ∉ [stdin; stdout; stderr]) by (intros Hx; by apply (Hdisj _ Hx)).
    rewrite !not_elem_of_cons in Hn. destruct Hn as (? & ? & ? & _).
    eapply untouched_flushed; [by apply Hu1|]. eapply untouched_flushed; [by apply Hu2|].
    eapply untouched_flushed; [by apply Hu3|]. apply Hl. by rewrite hash_order_perm.
Qed.
End flush_all.

(** ** Closing and opening a stream *)
Section close.
Context {K : Type} `{KernelLaws K}.
Implicit Types s : shim K.
Context (hash_order : list Z → list Z).

(** The state [fclose] leaves once the stream is released. *)
Definition release (st p : Z) s : shim K :=
  set_handles (delete st (sh_handles s))
    (set_files (delete p (sh_files s))
       (set_tables (filter (λ x, x ≠ st) (frida_streams s)) (frida_dirs s) s)).

Lemma resolve_release s st p st' q g :
  shim_wf s → st ∈ all_streams s → st' ∈ all_streams s → (∃ f, resolve s st = Some (p, f)) →
  resolve (release st p s) st' = Some (q, g) ↔ st' ≠ st ∧ resolve s st' = Some (q, g).
Proof.
  intros Hwf Hst Hst' [f Hf]. destruct (decide (st' = st)) as [->|Hne].
  { split; [|tauto]. unfold resolve, release; cbn. by rewrite lookup_delete, decide_True. }
  assert (Hp : ∀ g', resolve s st' ≠ Some (p, g')).
  { intros g' Hg'. apply Hne. by eapply (sw_inj _ Hwf). }
  revert Hp. unfold resolve, release; cbn. rewrite lookup_delete, decide_False by congruence.
  destruct (sh_handles s !! st') as [h|]; [|naive_solver].
  destruct (magic h =? FRIDA_FILE_MAGIC), (impl h =? 0); cbn; try naive_solver.
  rewrite lookup_delete. case_decide as E; [|naive_solver].
  subst p. destruct (sh_files s !! impl h) as [g'|] eqn:E; [|naive_solver].
  intros Hp. by destruct (Hp g').
Qed.

Lemma in_release st p s st' :
  st ∈ frida_streams s → shim_wf s →
  st' ∈ all_streams (release st p s) ↔ st' ∈ all_streams s ∧ st' ≠ st.
Proof.
  intros Hst Hwf. pose proof (sw_nodup _ Hwf) as Hnd.
  unfold all_streams in *. apply NoDup_app in Hnd as (_ & Hd & _). unfold release; cbn [frida_streams set_handles set_files set_heap set_tables].
  rewrite !elem_of_app, list_elem_of_filter.
  split; [intros [Hx|[? ?]]|intros [[?|?] ?]]; try tauto.
  split; [by left|]. intros ->. by apply (Hd st).
Qed.

Lemma shim_wf_release st p s f :
  shim_wf s → st ∈ frida_streams s → resolve s st = Some (p, f) →
  shim_wf (release st p s).
Proof.
  intros Hwf Hst Hf. pose proof (opened_in _ _ Hst) as Hall.
  assert (Hex : ∃ f, resolve s st = Some (p, f)) by eauto.
  constructor.
  - pose proof (sw_nodup _ Hwf) as Hnd. unfold all_streams in *.
    apply NoDup_app in Hnd as (H3 & Hd & Hn). unfold release; cbn [frida_streams set_handles set_files set_heap set_tables].
    apply NoDup_app. split_and!; [done| |by apply NoDup_filter].
    intros x Hx. rewrite list_elem_of_filter. intros [_ Hx']. by apply (Hd x).
  - intros st' Hin. apply in_release in Hin as [Hin Hne]; [|done..].
    destruct (sw_resolve _ Hwf st' Hin) as (? & q & g & Hq & ?). split; [done|].
    exists q, g. split; [|done]. by apply resolve_release.
  - intros st1 st2 q g g' H1 H2 Hq Hq'.
    apply in_release in H1 as [H1 ?], H2 as [H2 ?]; [|done..].
    apply resolve_release in Hq as [_ Hq], Hq' as [_ Hq']; try done.
    by eapply (sw_inj _ Hwf).
  - apply (sw_next _ Hwf).
  - intros a. unfold release; cbn. rewrite lookup_delete. case_decide; [by intros []|].
    apply (sw_handles _ Hwf).
  - intros a. unfold release; cbn. rewrite lookup_delete. case_decide; [by intros []|].
    apply (sw_files _ Hwf).
Qed.

Lemma wp_close_nointr fuel fd (q : proc K) :
  (k_signals (p_kern q) < fuel)%nat →
  wp (frida_close_nointr fuel fd) q (λ _ q',
    (∀ fd', k_written (p_kern q') fd' = k_written (p_kern q) fd') ∧
    (k_signals (p_kern q') ≤ k_signals (p_kern q))%nat).
Proof.
  intros Hf. unfold frida_close_nointr.
  wp_call (wp_nointr (λ k, ∀ fd', k_written k fd' = k_written (p_kern q) fd')).
  - intros. by eapply signals_close.
  - intros k k' HJ E fd'. by rewrite (close_frame _ _ _ _ E).
  - done.
  - done.
  - intros r q' (k & HJ & Hs & Hr). split; [|done]. intros fd'. rewrite <- HJ.
    destruct r; [|destruct Hr as (e & Hr & _)]; by rewrite (close_frame _ _ _ _ Hr).
Qed.

(** The part of [fclose] after the flush. *)
Lemma wp_fclose fuel s st p f :
  flushing fuel s → st ∈ frida_streams s → resolve s st = Some (p, f) →
  wp (fclose hash_order fuel st) s (λ r s', ∃ s1 q f' m,
    flushing fuel s1 ∧ same_tables s s1 ∧
    resolve s1 st = Some (p, f') ∧ fd f' = fd f ∧
    (∀ st', st' ∈ all_streams s → st' ≠ st → untouched s s1 st') ∧
    (∀ n, k_written (p_kern q) n = written s1 n) ∧
    (k_signals (p_kern q) ≤ k_signals (p_kern (sh_p s1)))%nat ∧
    m ≤ zlen (pending f) ∧ written s1 (fd f) = written s (fd f) ++ ztake m (pending f) ∧
    ((r = 0 ∧ s' = release st p (set_p q s1)) ∨ (r = EOF ∧ s' = set_p q s1))).
Proof.
  intros Hfl Hst Hres. pose proof (opened_in _ _ Hst) as Hall.
  destruct (flushing_resolve _ _ _ Hfl Hall) as (Hne & _).
  unfold fclose. apply wp_bind. wp_call wp_get_impl; [done..|]. intros ? ? [-> ->].
  apply wp_bind. unfold fflush. rewrite (proj2 (Z.eqb_neq st 0) Hne). cbn [negb].
  unfold on_stream. apply wp_bind. wp_call wp_get_impl; [done..|]. intros ? ? [-> ->].
  assert (Hon : ∀ Q, wp (on_file p (frida_file_flush_write fuel)) s (λ n s1, Q s1) →
    wp (on_file p (fflush_stream fuel)) s (λ _ s1, Q s1)).
  { intros Q (n & s1 & E & HQ). revert E. unfold on_file, fflush_stream, bind.
    destruct (sh_files s !! p) as [v|] eqn:Ev; [|done].
    destruct (frida_file_flush_write fuel _) as [[n' t]| | |] eqn:Et; intros Hrun; try done.
    injection Hrun as -> <-. eexists _, _. rewrite Ev, Et. split; [reflexivity|done]. }
  apply Hon. wp_call wp_flush_one; [done..|].
  intros _ s1 (Hfl1 & Hsame & _ & (f' & m & Hr1 & Hfd & Hcl & _ & Hm & Hw) & Hunt).
  destruct (resolve_files _ _ _ _ Hr1) as (Hfile & Hp & h & Hh & Hmg & Hi).
  assert (Hsig : (k_signals (p_kern (sh_p s1)) < fuel)%nat).
  { pose proof (fl_fuel _ _ Hfl1 _ _ _ Hr1). lia. }
  apply wp_bind. exists f', s1. split; [unfold deref; by rewrite Hfile|].
  assert (Hfin : ∀ q, (∀ n, k_written (p_kern q) n = written s1 n) →
    (k_signals (p_kern q) ≤ k_signals (p_kern (sh_p s1)))%nat →
    wp (do! frida_stdio_unregister_stream st in do! frida_file_free p in
        do! frida_file_unwrap st in ret 0) (set_p q s1)
      (λ r s', r = 0 ∧ s' = release st p (set_p q s1))).
  { intros q _ _. exists 0, (release st p (set_p q s1)). split; [|done].
    unfold frida_stdio_unregister_stream, frida_file_free, frida_file_unwrap, deref,
      bind, modify, c_assert. rewrite (proj2 (Z.eqb_neq p 0) Hp). cbn. rewrite Hfile. cbn.
    rewrite (proj2 (Z.eqb_neq st 0) Hne). cbn. rewrite Hh. by rewrite Hmg. }
  apply wp_bind. destruct (close_fd f').
  - apply wp_at_proc. wp_call wp_close_nointr; [done|]. intros r q [Hq Hqs].
    destruct r as [u|].
    + wp_call Hfin; [done|done|]. intros r s' [-> ->].
      exists s1, q, f', m. split_and!; try done. by left.
    + apply wp_ret. exists s1, q, f', m. split_and!; try done. by right.
  - apply wp_ret. replace s1 with (set_p (sh_p s1) s1) at 1 by (by destruct s1).
    wp_call Hfin; [done|done|]. intros r s' [-> ->].
    exists s1, (sh_p s1), f', m. split_and!; try done. by left.
Qed.
End close.

(** ** Opening *)
Section opening.
Context {K : Type} `{KernelLaws K}.
Implicit Types s : shim K.

(** The state after a stream was opened on [fd]: its handle is the second
    of two fresh blocks, the first holds the stream. *)
Definition opened fd s : shim K :=
  let p := sh_next s in
  set_tables (frida_streams s ++ [p + 1]) (frida_dirs s)
    (set_heap (p + 2) (<[p + 1 := mk_handle FRIDA_FILE_MAGIC p]> (sh_handles s))
       (<[p := frida_file_new fd true _IOFBF]> (sh_files s)) (sh_dirs s) s).

Lemma fresh_stream s : shim_wf s → sh_next s + 1 ∉ all_streams s.
Proof.
  intros Hwf Hin. destruct (sw_resolve _ Hwf _ Hin) as (_ & p & f & Hr & _).
  apply resolve_files in Hr as (_ & _ & h & Hh & _).
  pose proof (sw_handles _ Hwf _ (ex_intro _ h Hh)). lia.
Qed.

Lemma wp_open_stream fd s :
  shim_wf s → wp (open_stream fd) s (λ r s', r = sh_next s + 1 ∧ s' = opened fd s).
Proof.
  intros Hwf. pose proof (sw_next _ Hwf) as Hn. unfold HEAP_BASE in Hn.
  pose proof (fresh_stream _ Hwf) as Hfr.
  eexists (sh_next s + 1), (opened fd s). split; [|done].
  unfold open_stream, new_file, frida_file_wrap, frida_stdio_register_stream, g_new, bind,
    modify, c_assert, ret. cbn.
  destruct (Z.eqb_spec (sh_next s) 0); [lia|]. cbn.
  rewrite bool_decide_false by (intros Hx; by apply Hfr, opened_in).
  unfold opened, set_tables, set_handles, set_files, set_heap. cbn.
  replace (sh_next s + 1 + 1) with (sh_next s + 2) by lia. done.
Qed.

Lemma resolve_opened_new fd s :
  shim_wf s →
  resolve (opened fd s) (sh_next s + 1) = Some (sh_next s, frida_file_new fd true _IOFBF).
Proof.
  intros Hwf. pose proof (sw_next _ Hwf) as Hn. unfold HEAP_BASE in Hn.
  unfold resolve, opened; cbn -[frida_file_new].
  rewrite lookup_insert, decide_True by done. cbn -[frida_file_new].
  destruct (Z.eqb_spec (sh_next s) 0); [lia|]. cbn -[frida_file_new].
  by rewrite lookup_insert, decide_True.
Qed.
Lemma resolve_opened_old fd s st :
  shim_wf s → st ∈ all_streams s → resolve (opened fd s) st = resolve s st.
Proof.
  intros Hwf Hin. assert (Hne : sh_next s + 1 ≠ st) by (intros <-; by apply (fresh_stream s)).
  destruct (sw_resolve _ Hwf st Hin) as (_ & p & f & Hr & _). rewrite Hr.
  apply resolve_files in Hr as (Hf & Hp & h & Hh & Hm & Hi).
  pose proof (sw_files _ Hwf p (ex_intro _ f Hf)).
  unfold resolve, opened; cbn -[frida_file_new].
  rewrite lookup_insert, decide_False by done.
  rewrite Hh, Hm, Hi. cbn -[frida_file_new]. destruct (Z.eqb_spec p 0); [done|].
  cbn -[frida_file_new]. rewrite lookup_insert, decide_False by lia. by rewrite Hf.
Qed.

Lemma in_opened fd s st :
  st ∈ all_streams (opened fd s) ↔ st ∈ all_streams s ∨ st = sh_next s + 1.
Proof.
  unfold all_streams, opened; cbn [frida_streams set_tables set_heap].
  rewrite !elem_of_app, list_elem_of_singleton. tauto.
Qed.

Lemma shim_wf_opened fd s : shim_wf s → shim_wf (opened fd s).
Proof.
  intros Hwf. pose proof (sw_next _ Hwf) as Hn. unfold HEAP_BASE in Hn.
  pose proof (fresh_stream _ Hwf) as Hfr.
  assert (Hold : ∀ st q g, st ∈ all_streams s → resolve s st = Some (q, g) → q < sh_next s).
  { intros st q g _ Hq. apply resolve_files in Hq as (Hf & _).
    apply (sw_files _ Hwf). eauto. }
  constructor.
  - pose proof (sw_nodup _ Hwf) as Hnd. unfold all_streams, opened in *.
    cbn [frida_streams set_tables set_heap] in *. rewrite app_assoc.
    apply NoDup_app. split_and!; [done| |apply NoDup_singleton].
    intros x Hx Hs. apply list_elem_of_singleton in Hs as ->. done.
  - intros st Hin. apply in_opened in Hin as [Hin| ->].
    + destruct (sw_resolve _ Hwf st Hin) as (? & q & g & Hq & ?). split; [done|].
      exists q, g. by rewrite resolve_opened_old.
    + split; [lia|]. eexists _, _. split; [by apply resolve_opened_new|].
      apply file_wf_new.
  - intros st1 st2 q g g' H1 H2.
    apply in_opened in H1 as [H1| ->], H2 as [H2| ->];
      rewrite ?resolve_opened_new by exact Hwf; rewrite ?resolve_opened_old by assumption.
    + apply (sw_inj _ Hwf); assumption.
    + intros Hq [= Heq _]. pose proof (Hold _ _ _ H1 Hq). lia.
    + intros [= Heq _] Hq. pose proof (Hold _ _ _ H2 Hq). lia.
    + reflexivity.
  - unfold opened; cbn. unfold HEAP_BASE. lia.
  - intros a. unfold opened; cbn. rewrite lookup_insert. case_decide; [lia|].
    intros Ha. apply (sw_handles _ Hwf) in Ha. lia.
  - intros a. unfold opened; cbn. rewrite lookup_insert. case_decide; [lia|].
    intros Ha. apply (sw_files _ Hwf) in Ha. lia.
Qed.

Lemma shim_wf_set_p q s : shim_wf s → shim_wf (set_p q s).
Proof. intros []. by constructor. Qed.

Lemma wp_open_nointr fuel path flags mode (q : proc K) :
  (k_signals (p_kern q) < fuel)%nat →
  wp (frida_open_nointr fuel path flags mode) q (λ r q',
    (k_signals (p_kern q') ≤ k_signals (p_kern q))%nat).
Proof.
  intros Hf. unfold frida_open_nointr.
  wp_call (wp_nointr (λ _, True)); [|done|done|done|].
  - intros k r k' E. case_match; by eapply signals_open.
  - by intros r q' (? & _ & ? & _).
Qed.
End opening.

(** The state of a process before the shim is set up. *)
Definition pristine {K} (k : K) : shim K :=
  mk_shim (mk_proc k 0) HEAP_BASE ∅ ∅ ∅ [] [] [] false false.

(** The state [frida_libc_shim_init] builds. *)
Definition booted {K} (k : K) : shim K :=
  mk_shim (mk_proc k 0) (HEAP_BASE + 3)
    (<[stderr := mk_handle FRIDA_FILE_MAGIC (HEAP_BASE + 2)]>
     (<[stdout := mk_handle FRIDA_FILE_MAGIC (HEAP_BASE + 1)]>
      (<[stdin := mk_handle FRIDA_FILE_MAGIC HEAP_BASE]> ∅)))
    (<[HEAP_BASE + 2 := frida_file_new 2 false _IONBF]>
     (<[HEAP_BASE + 1 := frida_file_new 1 false _IOLBF]>
      (<[HEAP_BASE := frida_file_new 0 false _IOFBF]> ∅)))
    ∅ [] [] [] true false.

Lemma init_booted {K} (k : K) : frida_libc_shim_init (pristine k) = Ret (tt, booted k).
Proof. reflexivity. Qed.

Lemma resolve_booted {K} (k : K) st p f :
  resolve (booted k) st = Some (p, f) →
  (st = stdin ∧ p = HEAP_BASE ∧ f = frida_file_new 0 false _IOFBF) ∨
  (st = stdout ∧ p = HEAP_BASE + 1 ∧ f = frida_file_new 1 false _IOLBF) ∨
  (st = stderr ∧ p = HEAP_BASE + 2 ∧ f = frida_file_new 2 false _IONBF).
Proof.
  unfold resolve, booted; cbn [sh_handles sh_files]. rewrite !lookup_insert.
  repeat case_decide; subst; cbn; try (intros [= <- <-]; tauto).
Qed.

Lemma shim_wf_booted {K} (k : K) : shim_wf (booted k).
Proof.
  assert (Hin : ∀ st, st ∈ all_streams (booted k) → st = stdin ∨ st = stdout ∨ st = stderr).
  { intros st. unfold all_streams; cbn [frida_streams booted]. rewrite app_nil_r.
    rewrite !elem_of_cons, elem_of_nil. tauto. }
  constructor.
  - unfold all_streams; cbn. repeat constructor; rewrite ?elem_of_cons, ?elem_of_nil; try done;
      intros Hx; repeat destruct Hx as [Hx|Hx]; done.
  - intros st Hst. apply Hin in Hst as [-> |[-> | ->]]; (split; [done|]);
      eexists _, _; (split; [reflexivity|apply file_wf_new]).
  - intros st st' p f f' _ _ H1 H2.
    apply resolve_booted in H1, H2. unfold HEAP_BASE in *.
    destruct H1 as [(-> & ? & _)|[(-> & ? & _)|(-> & ? & _)]],
      H2 as [(-> & ? & _)|[(-> & ? & _)|(-> & ? & _)]]; done || lia.
  - cbn. lia.
  - intros a. cbn. rewrite !lookup_insert. repeat case_decide; subst; try done.
    rewrite lookup_empty. by intros [].
  - intros a. cbn [sh_files sh_next booted]. rewrite !lookup_insert.
    repeat case_decide; subst; try done; try lia.
    rewrite lookup_empty. by intros [].
Qed.
