(* ===== verification/RegistryClaims.v ===== *)
(** What the stream tables of the libc shim guarantee: set-up, opening,
    flushing everything and closing. *)
From S2P Require Import Prelude Posix Stdio StdioRead StdioWrite StdioCorrect Registry RegistryCorrect.
Import MemKernel.

(** a stream the shim opens is usable and nothing else moves.  In a process
    whose stream tables are valid, [fopen] with a valid mode returns whatever
    the kernel does; NULL leaves every table as it was, and any other result is
    a new handle that is registered, resolves to a fresh fully buffered stream
    on the new descriptor, keeps the tables valid, and leaves every stream that
    was open resolving to the same state. *)
Theorem fopen_registers {K} `{KernelLaws K} fuel path mode flags (s : shim K) :
  shim_wf s → frida_parse_fopen_mode mode = Some flags →
  (k_signals (p_kern (sh_p s)) < fuel)%nat →
  wp (frida_fopen_impl fuel path mode) s (λ st s', shim_wf s' ∧
    if st =? 0 then frida_streams s' = frida_streams s ∧ sh_handles s' = sh_handles s ∧
                    sh_files s' = sh_files s
    else st ∉ all_streams s ∧ frida_streams s' = frida_streams s ++ [st] ∧
      (∃ p fd, resolve s' st = Some (p, frida_file_new fd true _IOFBF)) ∧
      ∀ st', st' ∈ all_streams s → resolve s' st' = resolve s st').
Proof.
  intros Hwf Hm Hf. pose proof (sw_next _ Hwf) as Hn. unfold HEAP_BASE in Hn.
  unfold frida_fopen_impl. rewrite Hm. apply wp_bind, wp_at_proc.
  wp_call wp_open_nointr; [done|]. intros [fd|] q Hq.
  - pose proof (shim_wf_set_p q s Hwf) as Hwf'. wp_call wp_open_stream; [done|].
    intros st s' [-> ->]. split; [by apply shim_wf_opened|]. cbn [sh_next set_p].
    destruct (Z.eqb_spec (sh_next s + 1) 0); [lia|]. split_and!.
    + by apply fresh_stream.
    + done.
    + eexists _, _. by apply (resolve_opened_new fd (set_p q s)).
    + intros st' Hin. by apply (resolve_opened_old fd (set_p q s)).
  - apply wp_ret. split; [by apply shim_wf_set_p|]. done.
Qed.

Definition disk_kernel (script : list act) : memk :=
  mk_memk ∅ [(bytes_of "/f", [104; 105])] script 3.

Lemma fopen_registers_witness :
  let s := booted (disk_kernel [Err 4; Err 4]) in
  (∃ s', frida_fopen_impl 9 (bytes_of "/f") (bytes_of "r") s = Ret (4100, s')) ∧
  wp (frida_fopen_impl 9 (bytes_of "/f") (bytes_of "r")) s (λ st s', shim_wf s' ∧
    if st =? 0 then frida_streams s' = frida_streams s ∧ sh_handles s' = sh_handles s ∧
                    sh_files s' = sh_files s
    else st ∉ all_streams s ∧ frida_streams s' = frida_streams s ++ [st] ∧
      (∃ p fd, resolve s' st = Some (p, frida_file_new fd true _IOFBF)) ∧
      ∀ st', st' ∈ all_streams s → resolve s' st' = resolve s st').
Proof.
  intros s. split; [eexists; vm_compute; reflexivity|].
  apply (fopen_registers 9 (bytes_of "/f") (bytes_of "r") O_RDONLY s).
  - apply shim_wf_booted.
  - vm_compute. reflexivity.
  - vm_compute. lia.
Defined.

(** A process with the static streams and one stream open on descriptor 5,
    whose buffer holds [data]. *)
Definition pending_file (data : list Z) : FridaFile :=
  set_wlen (zlen data) (set_wblock (data ++ zeros (FRIDA_STDIO_BUFSIZE - zlen data)) true
    FRIDA_STDIO_BUFSIZE (frida_file_new 5 true _IOFBF)).
Definition demo_shim (data : list Z) (script : list act) : shim memk :=
  let s := opened 5 (booted (mk_memk {[0 := mk_memfile true [] 0 []; 1 := mk_memfile true [] 0 [];
    2 := mk_memfile true [] 0 []; 5 := mk_memfile true [] 0 []]} [] script 6)) in
  set_files (<[4099 := pending_file data]> (sh_files s)) s.

(** C26: a null [fflush] that returns 0 delivered everything.  Given
    that the table is iterated in some order, that no two streams share a
    descriptor, and that the tables are valid, [fflush (NULL)] returns 0 or EOF
    and keeps the tables; when it returns 0, for each static and each open
    stream the bytes that were pending have been written to its descriptor,
    once and in order, and none is pending any more. *)
Theorem fflush_all_delivers {K} `{KernelLaws K} hash_order fuel (s : shim K) :
  (∀ l, Permutation (hash_order l) l) → shim_wf s → distinct_fds s → enough_fuel s fuel →
  wp (fflush hash_order fuel 0) s (λ r s',
    shim_wf s' ∧ frida_streams s' = frida_streams s ∧ (r = EOF ∨ r = 0) ∧
    (r = 0 → ∀ st, st ∈ all_streams s → ∃ p f f',
       resolve s st = Some (p, f) ∧ resolve s' st = Some (p, f') ∧ pending f' = [] ∧
       k_written (p_kern (sh_p s')) (fd f) =
         k_written (p_kern (sh_p s)) (fd f) ++ pending f)).
Proof.
  intros Hperm Hwf Hfd Hfuel. wp_call wp_fflush_null; [done|by constructor|].
  intros r s' (Hfl & Hsame & Hr & Hz).
  split_and!; [apply Hfl|apply Hsame|done|].
  intros Hr0 st Hst. destruct (Hz Hr0 st Hst) as (p & f & f' & ? & ? & ? & ? & ?).
  by exists p, f, f'.
Qed.

Lemma resolve_demo data script st p f :
  resolve (demo_shim data script) st = Some (p, f) →
  (st = stdin ∧ f = frida_file_new 0 false _IOFBF) ∨
  (st = stdout ∧ f = frida_file_new 1 false _IOLBF) ∨
  (st = stderr ∧ f = frida_file_new 2 false _IONBF) ∨
  (st = 4100 ∧ p = 4099 ∧ f = pending_file data).
Proof.
  unfold resolve, demo_shim, opened, booted; cbn [sh_handles sh_files set_files set_heap set_tables sh_next].
  rewrite !lookup_insert.
  repeat case_decide; subst; cbn -[frida_file_new pending_file];
    try (intros [= <- <-]; tauto).
Qed.

Lemma demo_shim_ok data script :
  zlen data ≤ FRIDA_STDIO_BUFSIZE → Forall is_byte data →
  let s := demo_shim data script in
  shim_wf s ∧ distinct_fds s ∧ (∀ fuel, (4096 + signals (p_kern (sh_p s)) < fuel)%nat → enough_fuel s fuel).
Proof.
  intros Hlen Hb. cbn zeta. split_and!.
  - apply shim_wf_set_file.
    + apply shim_wf_opened, shim_wf_booted.
    + by eexists.
    + pose proof (file_wf_new 5 true _IOFBF) as Hw. pose proof (zlen_nonneg data).
      unfold pending_file, file_wf in *. cbn in Hw |- *.
      unfold FRIDA_STDIO_BUFSIZE in *. autorewrite with zlen.
      destruct Hw as (? & ? & ? & ? & ? & ? & ? & ? & ? & ?). split_and!; try done; try (rewrite zlen_zeros by lia); lia.
  - intros st st' p p' f f' _ _ H1 H2.
    apply resolve_demo in H1, H2.
    destruct H1 as [(-> & ->)|[(-> & ->)|[(-> & ->)|(-> & _ & ->)]]],
      H2 as [(-> & ->)|[(-> & ->)|[(-> & ->)|(-> & _ & ->)]]]; done.
  - intros fuel Hf st p f Hr. apply resolve_demo in Hr.
    change (signals _) with (k_signals (p_kern (sh_p (demo_shim data script)))) in Hf.
    set (n := k_signals _) in *. clearbody n.
    destruct Hr as [(-> & ->)|[(-> & ->)|[(-> & ->)|(-> & _ & ->)]]]; cbn; unfold FRIDA_STDIO_BUFSIZE; lia.
Qed.

(** Three bytes pending, taken by the kernel one and then two at a time. *)
Lemma fflush_all_delivers_witness :
  let s := demo_shim [97; 98; 99] [Short 1; Err 4] in
  (∃ s', fflush (λ l, l) 5000 0 s = Ret (0, s') ∧ k_written (p_kern (sh_p s')) 5 = [97; 98; 99]) ∧
  wp (fflush (λ l, l) 5000 0) s (λ r s',
    shim_wf s' ∧ frida_streams s' = frida_streams s ∧ (r = EOF ∨ r = 0) ∧
    (r = 0 → ∀ st, st ∈ all_streams s → ∃ p f f',
       resolve s st = Some (p, f) ∧ resolve s' st = Some (p, f') ∧ pending f' = [] ∧
       k_written (p_kern (sh_p s')) (fd f) =
         k_written (p_kern (sh_p s)) (fd f) ++ pending f)).
Proof.
  intros s. split; [eexists; split; vm_compute; reflexivity|].
  destruct (demo_shim_ok [97; 98; 99] [Short 1; Err 4]) as (Hwf & Hfd & Hfu);
    [vm_compute; done|by repeat constructor|].
  apply (fflush_all_delivers (λ l, l) 5000 s); [done|exact Hwf|exact Hfd|].
  apply Hfu. vm_compute. lia.
Defined.

(** [fclose] releases exactly one stream.  On an open stream in a valid
    process it returns 0 or EOF; 0 means that its handle and its stream block
    are freed and it is out of the table, EOF that the table is unchanged; the
    tables stay valid, every other stream keeps its state and its output, and
    what reached the descriptor is a prefix of the pending bytes. *)
Theorem fclose_releases {K} `{KernelLaws K} hash_order fuel (s : shim K) st p f :
  shim_wf s → distinct_fds s → enough_fuel s fuel → st ∈ frida_streams s →
  resolve s st = Some (p, f) →
  wp (fclose hash_order fuel st) s (λ r s', shim_wf s' ∧
    (∃ m, k_written (p_kern (sh_p s')) (fd f) =
       k_written (p_kern (sh_p s)) (fd f) ++ ztake m (pending f)) ∧
    (∀ st', st' ∈ all_streams s → st' ≠ st → resolve s' st' = resolve s st') ∧
    if r =? 0 then frida_streams s' = filter (λ x, x ≠ st) (frida_streams s) ∧
                   sh_handles s' !! st = None ∧ sh_files s' !! p = None
    else r = EOF ∧ frida_streams s' = frida_streams s ∧ is_Some (resolve s' st)).
Proof.
  intros Hwf Hfd Hfuel Hst Hres. wp_call wp_fclose; [by constructor|done|done|].
  intros r s' (s1 & q & f' & m & Hfl & Hsame & Hr1 & Hfd1 & Hunt & Hq & _ & _ & Hw & Hr).
  pose proof (st_streams _ _ Hsame) as Hs1. pose proof (fl_wf _ _ Hfl) as Hwf1.
  assert (Hst1 : st ∈ frida_streams (set_p q s1)) by (cbn; by rewrite Hs1).
  assert (Hkeep : ∀ st', st' ∈ all_streams s → st' ≠ st → resolve s1 st' = resolve s st').
  { intros st' Hin Hne. destruct (Hunt st' Hin Hne) as (q' & g & E1 & E2 & _). congruence. }
  destruct Hr as [[-> ->]|[-> ->]].
  - change (0 =? 0) with true. cbn iota. split_and!.
    + eapply shim_wf_release; [by apply shim_wf_set_p|done|exact Hr1].
    + exists m. cbn. by rewrite Hq.
    + intros st' Hin Hne. rewrite <- Hkeep by done.
      destruct (Hunt st' Hin Hne) as (q' & g & E1 & E2 & _). rewrite E2.
      eapply (resolve_release (set_p q s1)); [by apply shim_wf_set_p| | |eauto|done].
      * by apply opened_in.
      * unfold all_streams in *. cbn. by rewrite Hs1.
    + cbn. by rewrite Hs1.
    + cbn. by rewrite lookup_delete, decide_True.
    + cbn. by rewrite lookup_delete, decide_True.
  - change (EOF =? 0) with false. cbn iota. split_and!.
    + by apply shim_wf_set_p.
    + exists m. cbn. by rewrite Hq.
    + intros st' Hin Hne. by apply Hkeep.
    + done.
    + done.
    + by eexists.
Qed.

Lemma fclose_releases_witness :
  let s := demo_shim [97; 98; 99] [Short 1; Err 4] in
  (∃ s', fclose (λ l, l) 5000 4100 s = Ret (0, s') ∧ frida_streams s' = []) ∧
  wp (fclose (λ l, l) 5000 4100) s (λ r s', shim_wf s' ∧
    (∃ m, k_written (p_kern (sh_p s')) (fd (pending_file [97; 98; 99])) =
       k_written (p_kern (sh_p s)) (fd (pending_file [97; 98; 99])) ++
       ztake m (pending (pending_file [97; 98; 99]))) ∧
    (∀ st', st' ∈ all_streams s → st' ≠ 4100 → resolve s' st' = resolve s st') ∧
    if r =? 0 then frida_streams s' = filter (λ x, x ≠ 4100) (frida_streams s) ∧
                   sh_handles s' !! 4100 = None ∧ sh_files s' !! 4099 = None
    else r = EOF ∧ frida_streams s' = frida_streams s ∧ is_Some (resolve s' 4100)).
Proof.
  intros s. split; [eexists; split; vm_compute; reflexivity|].
  destruct (demo_shim_ok [97; 98; 99] [Short 1; Err 4]) as (Hwf & Hfd & Hfu);
    [vm_compute; done|by repeat constructor|].
  apply (fclose_releases (λ l, l) 5000 s 4100 4099 (pending_file [97; 98; 99]));
    [exact Hwf|exact Hfd| |left|reflexivity].
  apply Hfu. vm_compute. lia.
Defined.

(** [fclose] reports success after losing data.  When the stream has
    pending bytes, the kernel refuses the write with an error other than EINTR
    and then closes the descriptor, [fclose] returns 0, the stream is gone, and
    not one of its pending bytes was written. *)
Theorem fclose_ignores_flush_failure {K} `{KernelLaws K} hash_order fuel (s : shim K)
    st p f e k1 k2 :
  shim_wf s → st ∈ frida_streams s → resolve s st = Some (p, f) →
  0 < wlen f → close_fd f = true →
  k_write (fd f) (pending f) (p_kern (sh_p s)) = (SysErr e, k1) → e ≠ EINTR →
  k_close (fd f) k1 = (SysOk tt, k2) → (0 < fuel)%nat →
  wp (fclose hash_order fuel st) s (λ r s', r = 0 ∧
    frida_streams s' = filter (λ x, x ≠ st) (frida_streams s) ∧
    k_written (p_kern (sh_p s')) (fd f) = k_written (p_kern (sh_p s)) (fd f)).
Proof.
  intros Hwf Hst Hres Hlen Hcl Hw He Hc Hfuel.
  destruct (sw_resolve _ Hwf st (opened_in _ _ Hst)) as (Hne & _).
  destruct (resolve_files _ _ _ _ Hres) as (Hfile & Hp & h & Hh & Hmg & Hi).
  destruct (write_err _ _ _ _ _ Hw) as (_ & Hk1 & _).
  pose proof (close_frame _ _ _ _ Hc (fd f)) as Hk2.
  destruct fuel as [|fuel]; [lia|].
  assert (Hpend : zslice 0 (wlen f) (wbuf f) = pending f) by apply zslice_0.
  assert (Hflush : frida_file_flush_write (S fuel) (mk_io f (sh_p s)) =
    Ret (-1, mk_io (set_err e f) (mk_proc k1 e))).
  { unfold frida_file_flush_write. cbn [loop]. unfold bind at 1 2, get_f at 1, gets at 1.
    cbn [io_f io_p]. destruct (Z.eqb_spec 0 (wlen f)); [lia|]. rewrite Hpend.
    unfold bind at 1, on_proc at 1, frida_write_nointr at 1. cbn [io_p].
    by rewrite (nointr_err _ _ _ _ _ Hw He). }
  assert (Hget : ∀ s' : shim K, sh_handles s' = sh_handles s →
    frida_file_get_impl st s' = Ret (p, s')).
  { intros s' Hs'. unfold frida_file_get_impl, bind, c_assert, deref.
    rewrite (proj2 (Z.eqb_neq st 0) Hne). cbn. rewrite Hs', Hh, Hmg, Hi.
    cbn. by rewrite (proj2 (Z.eqb_neq p 0) Hp). }
  eexists 0, _. split; [|split; [done|split]].
  - unfold fclose, bind at 1. rewrite Hget by done. unfold bind at 1, fflush.
    rewrite (proj2 (Z.eqb_neq st 0) Hne). cbn [negb]. unfold on_stream, bind at 1.
    rewrite Hget by done. unfold on_file. rewrite Hfile. unfold fflush_stream, bind at 1.
    rewrite Hflush. cbn -[Z.eqb frida_close_nointr]. unfold bind at 1, deref.
    cbn [sh_files set_p set_files set_heap]. rewrite lookup_insert, decide_True by done.
    cbn [close_fd set_err fd]. rewrite Hcl. unfold bind at 1, at_proc.
    unfold frida_close_nointr. cbn [sh_p set_p].
    rewrite (nointr_ok (k_close (fd f)) fuel (mk_proc k1 e) tt k2 Hc). cbn [p_errno].
    unfold ret, frida_stdio_unregister_stream, bind, modify, frida_file_free, deref.
    rewrite (proj2 (Z.eqb_neq p 0) Hp). unfold bind, modify. cbn.
    rewrite lookup_insert, decide_True by done.
    unfold frida_file_unwrap, bind, c_assert, deref, modify.
    rewrite (proj2 (Z.eqb_neq st 0) Hne). cbn. rewrite Hh, Hmg. reflexivity.
  - done.
  - cbn. congruence.
Qed.

(** Three bytes on a full device (ENOSPC). *)
Lemma fclose_ignores_flush_failure_witness :
  let s := demo_shim [97; 98; 99] [Err 28] in
  wp (fclose (λ l, l) 9 4100) s (λ r s', r = 0 ∧
    frida_streams s' = filter (λ x, x ≠ 4100) (frida_streams s) ∧
    k_written (p_kern (sh_p s')) (fd (pending_file [97; 98; 99])) =
      k_written (p_kern (sh_p s)) (fd (pending_file [97; 98; 99]))).
Proof.
  intros s.
  destruct (demo_shim_ok [97; 98; 99] [Err 28]) as (Hwf & _ & _);
    [vm_compute; done|by repeat constructor|].
  apply (fclose_ignores_flush_failure (λ l, l) 9 s 4100 4099 (pending_file [97; 98; 99]) 28
    (skip (p_kern (sh_p s)) []) (m_close 5 (skip (p_kern (sh_p s)) [])).2);
    [exact Hwf|left|reflexivity|reflexivity|reflexivity|reflexivity|done| |lia].
  vm_compute. reflexivity.
Defined.
