(* ===== verification/DirCorrect.v ===== *)
(** Exit handlers run in reverse order of registration, and directory streams
    give back the records of the kernel. *)
From S2P Require Import Prelude Posix Stdio StdioCorrect Registry RegistryCorrect.
Import MemKernel.

(** ** Exit handlers *)
Section atexit.
Context {K : Type} `{Kernel K}.
Implicit Types s : shim K.

(** Call the handlers of a list from its head on. *)
Fixpoint call_all (call : FridaExitEntry → M (shim K) unit) (l : list FridaExitEntry)
    : M (shim K) unit :=
  match l with
  | [] => ret tt
  | e :: r => do! call e in call_all call r
  end.

(** A handler may do anything but remove entries from the table. *)
Definition keeps_table (call : FridaExitEntry → M (shim K) unit) : Prop :=
  ∀ e s u s', call e s = Ret (u, s') →
    ∃ more, frida_atexit_entries s' = frida_atexit_entries s ++ more.

Lemma run_handlers_reverse call es : ∀ more fuel s,
  keeps_table call → (length es < fuel)%nat →
  frida_atexit_entries s = es ++ more →
  run_handlers call fuel (zlen es - 1) s = call_all call (reverse es) s.
Proof.
  induction es as [|e es IH] using rev_ind; intros more fuel s Hcall Hfuel Hes;
    (destruct fuel as [|fuel]; [lia|]); cbn [run_handlers]; [done|].
  rewrite length_app in Hfuel. cbn in Hfuel. rewrite zlen_app, reverse_snoc.
  pose proof (zlen_nonneg es). change (zlen [e]) with 1.
  destruct (Z.ltb_spec (zlen es + 1 - 1) 0); [lia|].
  unfold bind at 1, get at 1. replace (zlen es + 1 - 1) with (zlen es) by lia.
  rewrite Hes, <- app_assoc. unfold zlen at 1. rewrite Nat2Z.id.
  change ([e] ++ more) with (e :: more). rewrite list_lookup_middle by done.
  cbn [call_all]. unfold bind.
  destruct (call e s) as [[u s']| | |] eqn:E; try done.
  destruct (Hcall _ _ _ _ E) as [m Hm].
  apply (IH ([e] ++ more ++ m)); [done|lia|].
  rewrite Hm, Hes. by rewrite <- !app_assoc.
Qed.

(** Register a list of handlers, first to last. *)
Fixpoint register_all (l : list FridaExitEntry) : M (shim K) unit :=
  match l with
  | [] => ret tt
  | e :: r => do! __cxa_atexit (func e) (user_data e) in register_all r
  end.

Lemma register_all_entries l : ∀ s,
  frida_libc_shim_initialized s = true →
  register_all l s = Ret (tt, set_atexit (frida_atexit_entries s ++ l) s).
Proof.
  induction l as [|e l IH]; intros s Hi; cbn [register_all].
  - rewrite app_nil_r. by destruct s.
  - unfold __cxa_atexit, frida_libc_shim_init, bind, get, modify, ret. rewrite Hi.
    destruct e as [fn ud]; cbn [func user_data].
    rewrite IH by done. cbn [frida_atexit_entries set_atexit].
    by rewrite <- app_assoc.
Qed.
End atexit.

(** exit handlers run last registered first, each once, and the table is
    emptied.  For handlers that do not take entries out of the table (they may
    register new ones, write through streams, fail or not return), registering
    a list of handlers and running them is the same computation as calling the
    list backwards and clearing the table. *)
Theorem atexit_reverse_order {K} `{Kernel K} call fuel (l : list FridaExitEntry) (s : shim K) :
  keeps_table call → frida_libc_shim_initialized s = true → frida_atexit_entries s = [] →
  (length l < fuel)%nat →
  (do! register_all l in frida_run_atexit_handlers call fuel) s =
  (do! call_all call (reverse l) in modify (set_atexit [])) (set_atexit l s).
Proof.
  intros Hc Hi Hempty Hf. unfold bind at 1. rewrite register_all_entries by done.
  rewrite Hempty. cbn [app]. unfold frida_run_atexit_handlers, bind, get.
  cbn [frida_atexit_entries set_atexit].
  by rewrite (run_handlers_reverse call l []) by (done || by rewrite app_nil_r).
Qed.

(** Handlers that write their argument to descriptor 1. *)
Definition demo_handler (e : FridaExitEntry) : M (shim memk) unit :=
  do! at_proc (frida_write_nointr 9 1 [user_data e]) in ret tt.

Lemma atexit_reverse_order_witness :
  let s := booted (mk_memk {[1 := mk_memfile true [] 0 []]} [] [Err 4] 6) in
  let l := [mk_exit_entry 1 65; mk_exit_entry 1 66; mk_exit_entry 1 67] in
  (∃ s', (do! register_all l in frida_run_atexit_handlers demo_handler 4) s = Ret (tt, s') ∧
     mf_written (file (p_kern (sh_p s')) 1) = [67; 66; 65]) ∧
  (do! register_all l in frida_run_atexit_handlers demo_handler 4) s =
  (do! call_all demo_handler (reverse l) in modify (set_atexit [])) (set_atexit l s).
Proof.
  intros s l. split; [eexists; split; vm_compute; reflexivity|].
  apply (atexit_reverse_order demo_handler 4 l s); [|done|done|cbn; lia].
  intros e t u t' E. exists []. rewrite app_nil_r. revert E.
  unfold demo_handler, bind, at_proc, ret.
  destruct (frida_write_nointr 9 1 [user_data e] (sh_p t)) as [[r p]| | |]; try done.
  by intros [= _ <-].
Defined.

(** ** Directory records *)

(** The record [getdents64] writes for an entry: inode, offset, record length,
    type, and the name with its terminator and padding. *)
Definition encode_dirent (off : Z) (pad : list Z) (e : dirent) : list Z :=
  le_bytes 8 (d_ino e) ++ le_bytes 8 off ++
  le_bytes 2 (19 + zlen (d_name e) + 1 + zlen pad) ++ [d_type e] ++ d_name e ++ 0 :: pad.

Definition dirent_ok (e : dirent) : Prop :=
  0 ≤ d_ino e < 2 ^ 64 ∧ Forall (λ c, c ≠ 0) (d_name e) ∧ zlen (d_name e) ≤ 255.

Lemma zlen_encode_dirent off pad e :
  zlen (encode_dirent off pad e) = 19 + zlen (d_name e) + 1 + zlen pad.
Proof.
  unfold encode_dirent. autorewrite with zlen. rewrite !zlen_le_bytes by lia. lia.
Qed.

Lemma cstring_app l r : Forall (λ c, c ≠ 0) l → cstring (l ++ 0 :: r) = l.
Proof.
  induction 1 as [|c l Hc _ IH]; cbn; [done|].
  destruct (Z.eqb_spec c 0); [done|]. by rewrite IH.
Qed.

(** Decoding the record at the read position. *)
Lemma linux_entry_decodes d pre post off pad e :
  dirent_ok e → 19 + zlen (d_name e) + 1 + zlen pad < 2 ^ 16 →
  dir_buf d = pre ++ encode_dirent off pad e ++ post → dir_pos d = zlen pre →
  linux_entry d =
    (mk_FridaDir (dir_magic d) (dir_fd d) (dir_close_fd d) (dir_buf d) (dir_cap d)
       (dir_pos d + zlen (encode_dirent off pad e)) (dir_len d) e, e).
Proof.
  intros (Hino & Hname & Hlen) Hrec Hbuf Hpos. rewrite zlen_encode_dirent.
  assert (Hn := zlen_nonneg (d_name e)). assert (Hp := zlen_nonneg pad).
  unfold linux_entry, field. rewrite Hbuf, Hpos. unfold encode_dirent.
  set (reclen := 19 + zlen (d_name e) + 1 + zlen pad) in *.
  assert (E1 : zslice (zlen pre) (zlen pre + 8) (pre ++ (le_bytes 8 (d_ino e) ++ le_bytes 8 off ++
    le_bytes 2 reclen ++ [d_type e] ++ d_name e ++ 0 :: pad) ++ post) = le_bytes 8 (d_ino e)).
  { rewrite <- !app_assoc. apply zslice_mid; [done|by rewrite zlen_le_bytes]. }
  assert (E2 : zslice (zlen pre + 16) (zlen pre + 16 + 2) (pre ++ (le_bytes 8 (d_ino e) ++
    le_bytes 8 off ++ le_bytes 2 reclen ++ [d_type e] ++ d_name e ++ 0 :: pad) ++ post) =
    le_bytes 2 reclen).
  { rewrite <- !app_assoc, (app_assoc pre), (app_assoc (pre ++ _)).
    apply zslice_mid; [|by rewrite zlen_le_bytes].
    rewrite !zlen_app, !zlen_le_bytes by lia. lia. }
  assert (E3 : zdrop (zlen pre + 18) (pre ++ (le_bytes 8 (d_ino e) ++ le_bytes 8 off ++
    le_bytes 2 reclen ++ [d_type e] ++ d_name e ++ 0 :: pad) ++ post) =
    d_type e :: d_name e ++ 0 :: pad ++ post).
  { rewrite <- !app_assoc, (app_assoc pre), (app_assoc (pre ++ _)), (app_assoc ((pre ++ _) ++ _)).
    rewrite zdrop_mid; [done|]. rewrite !zlen_app, !zlen_le_bytes by lia. lia. }
  rewrite E1, E2, !le_value_small by lia.
  set (buf := pre ++ _ ++ post) in *.
  assert (E4 : znth buf (zlen pre + 18) = d_type e).
  { unfold znth. unfold zdrop in E3.
    rewrite <- (Nat.add_0_r (Z.to_nat _)), <- nth_skipn. by rewrite E3. }
  assert (E5 : zdrop (zlen pre + 19) buf = d_name e ++ 0 :: pad ++ post).
  { replace (zlen pre + 19) with (1 + (zlen pre + 18)) by lia.
    rewrite <- zdrop_zdrop by zlia. by rewrite E3. }
  rewrite E4, E5. unfold strnlen_bytes. rewrite cstring_app by done.
  rewrite ztake_ge by (unfold LINUX_NAME_MAX; lia). by destruct e.
Qed.

(** A record: its offset cookie, its padding and the entry. *)
Definition record : Type := Z * list Z * dirent.
Definition record_ok (r : record) : Prop :=
  dirent_ok r.2 ∧ 19 + zlen (d_name r.2) + 1 + zlen r.1.2 < 2 ^ 16.
Definition encode_records (rs : list record) : list Z :=
  concat ((λ r : record, encode_dirent r.1.1 r.1.2 r.2) <$> rs).

Section readdir.
Context {K : Type} `{Kernel K}.
Implicit Types s : shim K.

(** Call [readdir] a number of times. *)
Fixpoint read_entries (fuel n : nat) (dirp : Z) : M (shim K) (list (option dirent)) :=
  match n with
  | O => ret []
  | S n =>
      let! e := readdir fuel dirp in
      let! r := read_entries fuel n dirp in
      ret (e :: r)
  end.

(** The directory stream has the records [rs] left in its buffer. *)
Definition holds (d : FridaDir) (rs : list record) : Prop :=
  dir_magic d = FRIDA_DIR_MAGIC ∧
  ∃ pre post, dir_buf d = pre ++ encode_records rs ++ post ∧ dir_pos d = zlen pre ∧
    dir_len d = zlen pre + zlen (encode_records rs).

Definition same_dir (d d' : FridaDir) : Prop :=
  dir_magic d' = dir_magic d ∧ dir_fd d' = dir_fd d ∧ dir_cap d' = dir_cap d ∧
  dir_close_fd d' = dir_close_fd d ∧ zlen (dir_buf d') = zlen (dir_buf d).

Lemma get_dir s dirp d :
  dirp ≠ 0 → sh_dirs s !! dirp = Some d → dir_magic d = FRIDA_DIR_MAGIC →
  frida_dir_get_impl dirp s = Ret (d, s).
Proof.
  intros Hne Hd Hm. unfold frida_dir_get_impl, bind, c_assert, deref.
  rewrite (proj2 (Z.eqb_neq dirp 0) Hne). cbn. rewrite Hd. cbn. by rewrite Hm.
Qed.

(** Taking the next buffered record. *)
Lemma holds_next d r rs :
  record_ok r → holds d (r :: rs) →
  dir_pos d ≠ dir_len d ∧
  ∃ d', linux_entry d = (d', r.2) ∧ holds d' rs ∧ same_dir d d'.
Proof.
  intros [Hok Hlen] (Hm & pre & post & Hbuf & Hpos & Hl). destruct r as [[off pad] e].
  cbn [fst snd] in *. unfold encode_records in *. cbn in Hbuf, Hl.
  set (rest := concat _) in *. rewrite <- app_assoc in Hbuf.
  rewrite zlen_app, zlen_encode_dirent in Hl. split; [zlia|].
  eexists. split; [by apply (linux_entry_decodes d pre (rest ++ post) off pad)|].
  split; [|done]. split; [done|]. cbn.
  exists (pre ++ encode_dirent off pad e), post. rewrite Hbuf, Hpos, <- app_assoc.
  rewrite zlen_app, zlen_encode_dirent. split_and!; [done|done|]. rewrite Hl.
  change (encode_records rs) with rest. lia.
Qed.

Lemma readdir_buffered fuel s dirp d r rs :
  dirp ≠ 0 → sh_dirs s !! dirp = Some d → record_ok r → holds d (r :: rs) →
  ∃ d', readdir fuel dirp s = Ret (Some r.2, set_dirs (<[dirp := d']> (sh_dirs s)) s) ∧
    holds d' rs ∧ same_dir d d'.
Proof.
  intros Hne Hd Hr Hh. destruct (holds_next _ _ _ Hr Hh) as (Hpl & d' & He & Hh' & Hs).
  exists d'. split; [|done]. destruct Hh as [Hm _].
  unfold readdir, bind at 1. rewrite (get_dir s dirp d) by done.
  rewrite (proj2 (Z.eqb_neq _ _) Hpl). unfold bind at 1, ret at 1. by rewrite He.
Qed.

(** A whole buffer of records, followed by whatever comes next. *)
Lemma read_buffered fuel n dirp rs : ∀ s d,
  dirp ≠ 0 → sh_dirs s !! dirp = Some d → Forall record_ok rs → holds d rs →
  ∃ d', holds d' [] ∧ same_dir d d' ∧
    read_entries fuel (length rs + n) dirp s =
    (let! r := read_entries fuel n dirp in ret (((λ r : record, Some r.2) <$> rs) ++ r))
      (set_dirs (<[dirp := d']> (sh_dirs s)) s).
Proof.
  induction rs as [|r rs IH]; intros s d Hne Hd Hrs Hh.
  - exists d. split; [done|]. split; [done|].
    rewrite insert_id by done. replace (set_dirs (sh_dirs s) s) with s by (by destruct s).
    cbn. unfold bind, ret. by destruct (read_entries fuel n dirp s) as [[]| | |].
  - apply Forall_cons in Hrs as [Hr Hrs].
    destruct (readdir_buffered fuel s dirp d r rs Hne Hd Hr Hh) as (d1 & E & Hh1 & Hs1).
    set (s1 := set_dirs _ s) in E.
    destruct (IH s1 d1 Hne) as (d2 & Hh2 & Hs2 & E2); [|done|done|].
    { cbn. by rewrite lookup_insert, decide_True. }
    exists d2. split; [done|]. split; [unfold same_dir in *; naive_solver congruence|].
    cbn [length Nat.add read_entries]. unfold bind at 1. rewrite E. unfold bind at 1. rewrite E2.
    replace (set_dirs (<[dirp:=d2]> (sh_dirs s1)) s1)
      with (set_dirs (<[dirp:=d2]> (sh_dirs s)) s).
    2: { subst s1. unfold set_dirs, set_heap; cbn. by rewrite insert_insert, decide_True. }
    unfold bind, ret. by destruct (read_entries fuel n dirp _) as [[]| | |].
Qed.
End readdir.

(** a directory stream lists the directory.  When the kernel answers the
    first getdents64 of an empty directory stream with a block of well-formed
    records that fits the buffer and the next one with the end of the
    directory, as many calls of [readdir] as there are records give their
    inodes, types and names in order, and the call after them gives NULL. *)
Theorem readdir_lists {K} `{Kernel K} fuel dirp d (rs : list record) k1 k2 (s : shim K) :
  dirp ≠ 0 → sh_dirs s !! dirp = Some d → dir_magic d = FRIDA_DIR_MAGIC →
  dir_pos d = dir_len d → zlen (dir_buf d) = dir_cap d →
  rs ≠ [] → Forall record_ok rs → zlen (encode_records rs) ≤ dir_cap d →
  k_getdents (dir_fd d) (dir_cap d) (p_kern (sh_p s)) = (SysOk (encode_records rs), k1) →
  k_getdents (dir_fd d) (dir_cap d) k1 = (SysOk [], k2) →
  ∃ s', read_entries (S fuel) (length rs + 1) dirp s =
    Ret (((λ r : record, Some r.2) <$> rs) ++ [None], s') ∧ p_kern (sh_p s') = k2.
Proof.
  intros Hne Hd Hm Hpl Hcap Hrs Hok Hfit Hk1 Hk2.
  destruct rs as [|r rs]; [done|]. apply Forall_cons in Hok as [Hr Hok].
  set (d1 := mk_FridaDir (dir_magic d) (dir_fd d) (dir_close_fd d)
    (zwrite 0 (encode_records (r :: rs)) (dir_buf d)) (dir_cap d) 0
    (zlen (encode_records (r :: rs))) (dir_cur d)).
  assert (Hh : holds d1 (r :: rs)).
  { split; [done|]. exists [], (zdrop (zlen (encode_records (r :: rs))) (dir_buf d)).
    unfold d1, zwrite. cbn [dir_buf dir_pos dir_len]. by rewrite ztake_le. }
  destruct (holds_next _ _ _ Hr Hh) as (_ & d2 & He & Hh2 & Hs2).
  set (s1 := set_dirs (<[dirp := d2]> (sh_dirs s)) (set_p (mk_proc k1 (p_errno (sh_p s))) s)).
  assert (Hfirst : readdir (S fuel) dirp s = Ret (Some r.2, s1)).
  { unfold readdir, bind at 1. rewrite (get_dir s dirp d) by done. rewrite Hpl, Z.eqb_refl.
    unfold bind at 1 2, at_proc, frida_getdirents_nointr. rewrite (nointr_ok _ _ _ _ _ Hk1).
    destruct (encode_records (r :: rs)) as [|b bs] eqn:Eb.
    { exfalso. apply (f_equal zlen) in Eb. revert Eb. unfold encode_records.
      cbn. rewrite zlen_app, zlen_encode_dirent, zlen_nil. zlia. }
    unfold ret. subst d1. rewrite He. done. }
  destruct (read_buffered (S fuel) 1 dirp rs s1 d2 Hne) as (d3 & [Hm3 (pre & post & _ & Hp3 & Hl3)]
    & Hs3 & Erest); [|done|done|].
  { subst s1. cbn. by rewrite lookup_insert, decide_True. }
  cbn [length Nat.add read_entries]. unfold bind at 1. rewrite Hfirst.
  unfold bind at 1. rewrite Erest. unfold bind at 1. cbn [read_entries]. unfold bind at 1.
  set (s2 := set_dirs _ s1).
  assert (Hlast : ∃ s3, readdir (S fuel) dirp s2 = Ret (None, s3) ∧ p_kern (sh_p s3) = k2).
  { eexists. unfold readdir, bind at 1. rewrite (get_dir s2 dirp d3); [|done| |done].
    2: { subst s2. cbn. by rewrite lookup_insert, decide_True. }
    rewrite Hp3, Hl3. change (zlen (encode_records [])) with 0. rewrite Z.add_0_r, Z.eqb_refl.
    unfold bind at 1 2, at_proc, frida_getdirents_nointr.
    destruct Hs3 as (_ & Hf3 & Hc3 & _), Hs2 as (_ & Hf2 & Hc2 & _).
    rewrite Hf3, Hc3, Hf2, Hc2. cbn [dir_fd dir_cap d1].
    rewrite (nointr_ok _ fuel (sh_p s2) [] k2) by exact Hk2. split; reflexivity. }
  destruct Hlast as (s3 & -> & Hk). exists s3. split; [|done]. reflexivity.
Qed.

Definition demo_records : list record :=
  [(1, [], mk_dirent 11 4 (bytes_of ".")); (2, [0; 0; 0], mk_dirent 12 8 (bytes_of "a.out"))].
Definition demo_dir_shim : shim memk :=
  mk_shim (mk_proc (mk_memk {[5 := mk_memfile true (encode_records demo_records) 0 []]} [] [Err 4] 6) 0)
    4097 ∅ ∅ {[4096 := new_dir 5]} [] [4096] [] true false.

(** The kernel's script interrupts the first call once; [readdir] retries. *)
Lemma readdir_lists_witness :
  let s := set_p (mk_proc (skip (p_kern (sh_p demo_dir_shim)) []) 4) demo_dir_shim in
  (∃ s', read_entries 3 3 4096 demo_dir_shim =
     Ret ([Some (mk_dirent 11 4 (bytes_of ".")); Some (mk_dirent 12 8 (bytes_of "a.out")); None], s')) ∧
  ∃ s', read_entries 3 3 4096 s =
    Ret (((λ r : record, Some r.2) <$> demo_records) ++ [None], s') ∧
    p_kern (sh_p s') = (m_read 5 4096 (m_read 5 4096 (p_kern (sh_p s))).2).2.
Proof.
  intros s. split; [eexists; vm_compute; reflexivity|].
  apply (readdir_lists 2 4096 (new_dir 5) demo_records (m_read 5 4096 (p_kern (sh_p s))).2 _ s);
    [lia|vm_compute; reflexivity|reflexivity|reflexivity|vm_compute; reflexivity|discriminate| |
     vm_compute; discriminate|vm_compute; reflexivity|vm_compute; reflexivity].
  repeat constructor; vm_compute; congruence.
Defined.
