(* ===== verification/ElfParser.v ===== *)
(** The ELF parser of the Linux helpers (src/src/linux/helpers/elf-parser.c
    and .h), for the 64-bit little-endian class: program headers, the dynamic
    section, exports, symbols, the load base and the page macros.

    The parser only reads memory.  Memory is a parameter [mem], giving the byte
    at an address or [None] where nothing is mapped; reading there is [Crash].
    Addresses are 64-bit words, so every sum wraps. *)
From S2P Require Import Prelude.

Definition PT_LOAD : Z := 1.
Definition PT_DYNAMIC : Z := 2.
Definition PT_INTERP : Z := 3.
Definition PT_PHDR : Z := 6.
Definition DT_STRTAB : Z := 5.
Definition DT_SYMTAB : Z := 6.
Definition DT_STRSZ : Z := 10.
Definition DT_SONAME : Z := 14.
Definition SHT_SYMTAB : Z := 2.
Definition SHN_UNDEF : Z := 0.
Definition STT_OBJECT : Z := 1.
Definition STT_FUNC : Z := 2.
Definition STB_GLOBAL : Z := 1.
Definition STB_WEAK : Z := 2.

(** [sizeof] of [Elf64_Dyn] and [Elf64_Sym]. *)
Definition DYN_SIZE : Z := 16.
Definition SYM_SIZE : Z := 24.

(** *** The page macros *)
Definition u64_not (z : Z) : Z := 2 ^ 64 - 1 - u64 z.
Definition FRIDA_ELF_PAGE_ALIGN (value page_size : Z) : Z :=
  Z.land (u64 (u64 value + u64 (page_size - 1))) (u64_not (page_size - 1)).
Definition FRIDA_ELF_PAGE_START (value page_size : Z) : Z :=
  Z.land (u64 value) (u64_not (page_size - 1)).
Definition FRIDA_ELF_PAGE_OFFSET (value page_size : Z) : Z :=
  Z.land (u64 value) (u64 (page_size - 1)).

Definition FRIDA_ELF_ST_TYPE (info : Z) : Z := Z.land info 0xf.
Definition FRIDA_ELF_ST_BIND (info : Z) : Z := Z.shiftr info 4.

Record FridaElfExportDetails := mk_details {
  d_sym_name : Z;
  d_address : Z;
  d_sym_type : Z;
  d_bind : Z
}.

(** A counted [for] with early exit: the body gives the next state of the
    locals or leaves the loop with a result. *)
Fixpoint for_range {S A R} (n : nat) (i : Z) (body : Z → A → M S (A + R)) (a : A)
    : M S (A + R) :=
  match n with
  | O => ret (inl a)
  | Datatypes.S n =>
      let! r := body i a in
      match r with
      | inl a' => for_range n (i + 1) body a'
      | inr v => ret (inr v)
      end
  end.
(** The loop without early exit. *)
Definition for_all {S A} (n : nat) (body : Z → A → M S A) (a : A) : M S A :=
  let! r := for_range (R := False) n 0 (λ i a, let! a := body i a in ret (inl a)) a in
  match r with
  | inl a => ret a
  | inr v => match v with end
  end.

(** The three words [frida_elf_enumerate_exports] collects. *)
Record dyn_info := mk_dyn_info { di_symbols : Z; di_strings : Z; di_strsz : Z }.

Section parser.
Context {S : Type}.
Context (mem : Z → option Z).
(** The callback, with the state it closes over. *)
Context (func : FridaElfExportDetails → M S bool).

Fixpoint load_bytes (n : nat) (a : Z) : option (list Z) :=
  match n with
  | O => Some []
  | Datatypes.S n =>
      match mem (u64 a), load_bytes n (a + 1) with
      | Some b, Some r => Some (b :: r)
      | _, _ => None
      end
  end.
(** Read an [n]-byte field. *)
Definition load (n : nat) (a : Z) : M S Z := λ s,
  match load_bytes n a with
  | Some bs => Ret (le_value bs, s)
  | None => Crash
  end.

(** Fields of the ELF header. *)
Definition e_phoff (ehdr : Z) : M S Z := load 8 (ehdr + 32).
Definition e_shoff (ehdr : Z) : M S Z := load 8 (ehdr + 40).
Definition e_phentsize (ehdr : Z) : M S Z := load 2 (ehdr + 54).
Definition e_phnum (ehdr : Z) : M S Z := load 2 (ehdr + 56).
Definition e_shentsize (ehdr : Z) : M S Z := load 2 (ehdr + 58).
Definition e_shnum (ehdr : Z) : M S Z := load 2 (ehdr + 60).
(** Of a program header. *)
Definition p_type (phdr : Z) : M S Z := load 4 phdr.
Definition p_offset (phdr : Z) : M S Z := load 8 (phdr + 8).
Definition p_vaddr (phdr : Z) : M S Z := load 8 (phdr + 16).
Definition p_filesz (phdr : Z) : M S Z := load 8 (phdr + 32).
Definition p_memsz (phdr : Z) : M S Z := load 8 (phdr + 40).
(** Of an entry of the dynamic section. *)
Definition d_tag (dyn : Z) : M S Z := load 8 dyn.
Definition d_ptr (dyn : Z) : M S Z := load 8 (dyn + 8).
(** Of a symbol. *)
Definition st_name (sym : Z) : M S Z := load 4 sym.
Definition st_info (sym : Z) : M S Z := load 1 (sym + 4).
Definition st_shndx (sym : Z) : M S Z := load 2 (sym + 6).
Definition st_value (sym : Z) : M S Z := load 8 (sym + 8).
(** Of a section header. *)
Definition sh_type (shdr : Z) : M S Z := load 4 (shdr + 4).
Definition sh_offset (shdr : Z) : M S Z := load 8 (shdr + 24).
Definition sh_size (shdr : Z) : M S Z := load 8 (shdr + 32).
Definition sh_link (shdr : Z) : M S Z := load 4 (shdr + 40).
Definition sh_entsize (shdr : Z) : M S Z := load 8 (shdr + 56).

(** The address of the [i]-th program header; the product is an [int]. *)
Definition phdr_at (ehdr : Z) (i : Z) : M S Z :=
  let! phoff := e_phoff ehdr in
  let! phentsize := e_phentsize ehdr in
  ret (u64 (ehdr + phoff + s32 (i * phentsize))).

(** NULL is 0. *)
Definition frida_find_program_header_by_type (ehdr type : Z) : M S Z :=
  let! phnum := e_phnum ehdr in
  let! r := for_range (Z.to_nat phnum) 0 (λ i _,
    let! phdr := phdr_at ehdr i in
    let! t := p_type phdr in
    if t =? type then ret (inr phdr) else ret (inl tt)) tt in
  ret (match r with inl _ => 0 | inr phdr => phdr end).

Definition frida_compute_elf_region_upper_bound (ehdr address : Z) : M S Z :=
  let! phnum := e_phnum ehdr in
  let! r := for_range (Z.to_nat phnum) 0 (λ i _,
    let! phdr := phdr_at ehdr i in
    let! start := p_vaddr phdr in
    let! memsz := p_memsz phdr in
    let end_ := u64 (start + memsz) in
    let! t := p_type phdr in
    if andb (t =? PT_LOAD) (andb (start <=? address) (address <? end_))
    then ret (inr (u64 (end_ - address))) else ret (inl tt)) tt in
  ret (match r with inl _ => 0 | inr size => size end).

Definition frida_elf_find_dynamic_section (ehdr : Z) : M S Z :=
  let! dyn := frida_find_program_header_by_type ehdr PT_DYNAMIC in
  let! vaddr := p_vaddr dyn in
  ret (u64 (ehdr + vaddr)).

Definition frida_elf_query_soname (ehdr : Z) : M S Z :=
  let! dyn := frida_find_program_header_by_type ehdr PT_DYNAMIC in
  let! filesz := p_filesz dyn in
  let num_entries := filesz / DYN_SIZE in
  let! vaddr := p_vaddr dyn in
  let entries := u64 (ehdr + vaddr) in
  let! r := for_all (Z.to_nat num_entries) (λ i '(soname_offset, strings_base),
    let entry := u64 (entries + i * DYN_SIZE) in
    let! tag := d_tag entry in
    if tag =? DT_SONAME then let! v := d_ptr entry in ret (v, strings_base)
    else if tag =? DT_STRTAB then let! v := d_ptr entry in ret (soname_offset, v)
    else ret (soname_offset, strings_base)) (0, 0) in
  let '(soname_offset, strings_base) := r in
  if orb (soname_offset =? 0) (strings_base =? 0) then ret 0
  else
    let strings_base :=
      if strings_base <? ehdr then u64 (strings_base + ehdr) else strings_base in
    ret (u64 (strings_base + soname_offset)).

(** The first loop of [frida_elf_enumerate_exports]. *)
Definition collect_dynamic (ehdr dyn : Z) : M S dyn_info :=
  let! filesz := p_filesz dyn in
  let num_entries := filesz / DYN_SIZE in
  for_all (Z.to_nat num_entries) (λ i d,
    let! vaddr := p_vaddr dyn in
    let entry := u64 (ehdr + vaddr + i * DYN_SIZE) in
    let! tag := d_tag entry in
    if tag =? DT_SYMTAB then
      let! v := d_ptr entry in ret (mk_dyn_info v (di_strings d) (di_strsz d))
    else if tag =? DT_STRTAB then
      let! v := d_ptr entry in ret (mk_dyn_info (di_symbols d) v (di_strsz d))
    else if tag =? DT_STRSZ then
      let! v := d_ptr entry in ret (mk_dyn_info (di_symbols d) (di_strings d) v)
    else ret d) (mk_dyn_info 0 0 0).

Definition frida_elf_enumerate_exports (ehdr : Z) : M S unit :=
  let! dyn := frida_find_program_header_by_type ehdr PT_DYNAMIC in
  let! d := collect_dynamic ehdr dyn in
  if orb (di_symbols d =? 0) (orb (di_strings d =? 0) (di_strsz d =? 0)) then ret tt
  else
    let relative := di_symbols d <? ehdr in
    let symbols_base := if relative then u64 (di_symbols d + ehdr) else di_symbols d in
    let strings_base := if relative then u64 (di_strings d + ehdr) else di_strings d in
    let! symbols_size :=
      frida_compute_elf_region_upper_bound ehdr (u64 (symbols_base - ehdr)) in
    if symbols_size =? 0 then ret tt
    else
      let num_symbols := symbols_size / SYM_SIZE in
      do! for_range (Z.to_nat num_symbols) 0 (λ i _,
        let sym := u64 (symbols_base + i * SYM_SIZE) in
        let! name := st_name sym in
        if di_strsz d <=? name then ret (inr tt)
        else
        let! shndx := st_shndx sym in
        if shndx =? SHN_UNDEF then ret (inl tt)
        else
        let! info := st_info sym in
        let type := FRIDA_ELF_ST_TYPE info in
        if negb (orb (type =? STT_FUNC) (type =? STT_OBJECT)) then ret (inl tt)
        else
        let bind := FRIDA_ELF_ST_BIND info in
        if negb (orb (bind =? STB_GLOBAL) (bind =? STB_WEAK)) then ret (inl tt)
        else
        let! value := st_value sym in
        let! more := func (mk_details (u64 (strings_base + name)) (u64 (ehdr + value))
                             type bind) in
        if more then ret (inl tt) else ret (inr tt)) tt in
      ret tt.

(** What the section-header loop of [frida_elf_enumerate_symbols] finds: the
    symbols, their number and the strings. *)
Definition find_symtab (ehdr : Z) : M S (option (Z * Z * Z)) :=
  let! shoff := e_shoff ehdr in
  let section_headers := u64 (ehdr + shoff) in
  let! shnum := e_shnum ehdr in
  let! r := for_range (Z.to_nat shnum) 0 (λ i _,
    let! shentsize := e_shentsize ehdr in
    let shdr := u64 (section_headers + i * shentsize) in
    let! t := sh_type shdr in
    if t =? SHT_SYMTAB then
      let! offset := sh_offset shdr in
      let! entsize := sh_entsize shdr in
      let! size := sh_size shdr in
      if entsize =? 0 then crash
      else
        let! link := sh_link shdr in
        let strings_shdr := u64 (section_headers + u32 (link * shentsize)) in
        let! str_offset := sh_offset strings_shdr in
        ret (inr (u64 (ehdr + offset), size / entsize, u64 (ehdr + str_offset)))
    else ret (inl tt)) tt in
  ret (match r with inl _ => None | inr v => Some v end).

Definition frida_elf_enumerate_symbols (ehdr loaded_base : Z) : M S unit :=
  let! r := find_symtab ehdr in
  match r with
  | None => ret tt
  | Some (symbols, num_symbols, strings) =>
      if symbols =? 0 then ret tt
      else
        do! for_range (Z.to_nat num_symbols) 0 (λ i _,
          let sym := u64 (symbols + i * SYM_SIZE) in
          let! shndx := st_shndx sym in
          if shndx =? SHN_UNDEF then ret (inl tt)
          else
          let! info := st_info sym in
          let type := FRIDA_ELF_ST_TYPE info in
          if negb (orb (type =? STT_FUNC) (type =? STT_OBJECT)) then ret (inl tt)
          else
          let bind := FRIDA_ELF_ST_BIND info in
          let! name := st_name sym in
          let! value := st_value sym in
          let! more := func (mk_details (u64 (strings + name)) (u64 (loaded_base + value))
                               type bind) in
          if more then ret (inl tt) else ret (inr tt)) tt in
        ret tt
  end.

Definition frida_elf_compute_base_from_phdrs (phdrs phdr_size phdr_count page_size : Z)
    : M S Z :=
  let! base := for_all (Z.to_nat phdr_count) (λ i base,
    let phdr := u64 (phdrs + i * phdr_size) in
    let! t := p_type phdr in
    let! base :=
      (if t =? PT_PHDR then let! off := p_offset phdr in ret (u64 (phdrs - off))
       else ret base) in
    if t =? PT_LOAD then
      let! off := p_offset phdr in
      if andb (off =? 0) (base =? 0) then p_vaddr phdr else ret base
    else ret base) 0 in
  ret (if base =? 0 then FRIDA_ELF_PAGE_START phdrs page_size else base).
End parser.
