(* ===== verification/ElfCorrect.v ===== *)
(** The ELF parser against the ELF format: images are given by their program
    headers, dynamic entries, section headers and symbols, laid out in memory
    as the format prescribes, and the parser is shown to compute the functions
    of those lists that its callers rely on. *)
From S2P Require Import Prelude ElfParser.

(** ** Counted loops keep what their bodies keep *)
Lemma keeps_for_range {S A R} (I : S → Prop) n (body : Z → A → M S (A + R)) :
  (∀ i a, keeps I (body i a)) → ∀ i a, keeps I (for_range n i body a).
Proof.
  intros Hb. induction n as [|n IH]; intros i a; cbn [for_range]; keeps_auto.
Qed.
Lemma keeps_for_all {S A} (I : S → Prop) n (body : Z → A → M S A) :
  (∀ i a, keeps I (body i a)) → ∀ a, keeps I (for_all n body a).
Proof.
  intros Hb a. unfold for_all. apply keeps_bind; [|intros [|[]]; keeps_auto].
  apply keeps_for_range. keeps_auto.
Qed.
Ltac keeps_rule ::= first [apply keeps_for_range | apply keeps_for_all].

(** ** Structures in memory *)

(** A structure is a list of fields, each with its size in bytes. *)
Definition encode_fields (fs : list (Z * Z)) : list Z :=
  concat ((λ f : Z * Z, le_bytes f.1 f.2) <$> fs).
Definition fields_ok (fs : list (Z * Z)) : Prop :=
  Forall (λ f : Z * Z, 0 ≤ f.1 ∧ 0 ≤ f.2 < 2 ^ (f.1 * 8)) fs.
(** The offset of the [k]-th field. *)
Fixpoint field_offset (k : nat) (fs : list (Z * Z)) : Z :=
  match k, fs with
  | S k, f :: r => f.1 + field_offset k r
  | _, _ => 0
  end.

Definition bytes_at (mem : Z → option Z) (a : Z) (bs : list Z) : Prop :=
  ∀ i b, bs !! i = Some b → mem (u64 (a + Z.of_nat i)) = Some b.
Definition array_at (mem : Z → option Z) (stride a : Z) (es : list (list (Z * Z))) : Prop :=
  ∀ i e, es !! i = Some e → bytes_at mem (a + Z.of_nat i * stride) (encode_fields e).

Section memory.
Context {S : Type}.
Implicit Types (mem : Z → option Z) (s : S).

Lemma bytes_at_u64 mem a bs : bytes_at mem a bs → bytes_at mem (u64 a) bs.
Proof. intros H i b Hb. rewrite u64_add_l. by apply H. Qed.
Lemma bytes_at_app mem a b1 b2 :
  bytes_at mem a (b1 ++ b2) → bytes_at mem a b1 ∧ bytes_at mem (a + zlen b1) b2.
Proof.
  intros H. split; intros i b Hb.
  - apply H. by apply lookup_app_l_Some.
  - replace (a + zlen b1 + Z.of_nat i) with (a + Z.of_nat (length b1 + i)) by (unfold zlen; lia).
    apply H. rewrite lookup_app_r by lia. by replace (length b1 + i - length b1)%nat with i by lia.
Qed.

Lemma load_bytes_at mem bs : ∀ a, bytes_at mem a bs → load_bytes mem (length bs) a = Some bs.
Proof.
  induction bs as [|b bs IH]; intros a H; cbn; [done|].
  assert (E := H O b eq_refl). rewrite Z.add_0_r in E. rewrite E, IH; [done|].
  by apply (bytes_at_app mem a [b] bs).
Qed.

Lemma load_u64 mem n : ∀ a, load_bytes mem n (u64 a) = load_bytes mem n a.
Proof.
  assert (Hm : ∀ a b, u64 a = u64 b → load_bytes mem n a = load_bytes mem n b).
  { induction n as [|n IH]; intros a b E; cbn; [done|]. rewrite E.
    rewrite (IH (a + 1) (b + 1)); [done|].
    rewrite <- (u64_add_l a), <- (u64_add_l b). by rewrite E. }
  intros a. apply Hm. apply u64_u64.
Qed.

(** Reading a field of a structure gives its value. *)
Lemma load_field mem a fs k n v s :
  bytes_at mem a (encode_fields fs) → fields_ok fs → fs !! k = Some (Z.of_nat n, v) →
  load mem n (a + field_offset k fs) s = Ret (v, s).
Proof.
  revert a k. induction fs as [|f fs IH]; intros a k Hb Hok Hk; [done|].
  apply Forall_cons in Hok as [[Hf1 Hf2] Hok].
  unfold encode_fields in Hb. cbn in Hb. apply bytes_at_app in Hb as [Hb1 Hb2].
  rewrite zlen_le_bytes in Hb2 by done.
  destruct k as [|k]; cbn in Hk |- *.
  - injection Hk as ->. cbn in *. unfold load. rewrite Z.add_0_r.
    assert (Hlen : length (le_bytes (Z.of_nat n) v) = n).
    { pose proof (zlen_le_bytes (Z.of_nat n) v). unfold zlen in *. lia. }
    rewrite <- Hlen at 1. rewrite load_bytes_at by done.
    by rewrite le_value_small.
  - rewrite Z.add_assoc. by apply IH.
Qed.
End memory.

Lemma bind_ext_l {S A B} (m m' : M S A) (k : A → M S B) s :
  m s = m' s → bind m k s = bind m' k s.
Proof. intros E. unfold bind. by rewrite E. Qed.

(** ** Loops over tables *)
Section visits.
Context {S X A R : Type}.

Fixpoint visit (f : X → A → M S (A + R)) (l : list X) (a : A) : M S (A + R) :=
  match l with
  | [] => ret (inl a)
  | x :: l =>
      let! v := f x a in
      match v with
      | inl a => visit f l a
      | inr r => ret (inr r)
      end
  end.

Lemma for_range_visit (body : Z → A → M S (A + R)) f (l : list X) : ∀ k a s,
  (∀ i x a s, l !! i = Some x → body (k + Z.of_nat i) a s = f x a s) →
  for_range (length l) k body a s = visit f l a s.
Proof.
  induction l as [|x l IH]; intros k a s H; cbn; [done|].
  unfold bind. rewrite <- (H O x a s) by done. rewrite Z.add_0_r.
  destruct (body k a s) as [[[a'|r] s']| | |]; try done.
  apply IH. intros i y b t Hy. rewrite <- (H (Datatypes.S i) y b t) by done.
  f_equal. lia.
Qed.
End visits.

Lemma visit_fold {S X A R} (f : A → X → A) (l : list X) : ∀ a (s : S),
  visit (R := R) (λ x a, ret (inl (f a x))) l a s = Ret (inl (foldl f a l), s).
Proof. induction l as [|x l IH]; intros a s; [done|]. apply IH. Qed.

Lemma for_all_fold {S X A} (body : Z → A → M S A) (f : A → X → A) (l : list X) a s :
  (∀ i x a s, l !! i = Some x → body (Z.of_nat i) a s = Ret (f a x, s)) →
  for_all (length l) body a s = Ret (foldl f a l, s).
Proof.
  intros H. unfold for_all, bind at 1.
  rewrite (for_range_visit _ (λ x a, ret (inl (f a x))) l).
  - by rewrite visit_fold.
  - intros i x b t Hx. unfold bind. rewrite Z.add_0_l. by rewrite (H i x b t).
Qed.

(** A search: leave the loop at the first element that matches. *)
Lemma for_range_find {S X R} (P : X → Prop) `{∀ x, Decision (P x)} (g : nat → X → R)
    (body : Z → unit → M S (unit + R)) (l : list X) (s : S) :
  (∀ i x s, l !! i = Some x → ¬ P x → body (Z.of_nat i) tt s = Ret (inl tt, s)) →
  (∀ i x s, list_find P l = Some (i, x) → body (Z.of_nat i) tt s = Ret (inr (g i x), s)) →
  for_range (length l) 0 body tt s =
  Ret (match list_find P l with Some (i, x) => inr (g i x) | None => inl tt end, s).
Proof.
  assert (Hgen : ∀ k,
    (∀ i x s, l !! i = Some x → ¬ P x → body (Z.of_nat (k + i)) tt s = Ret (inl tt, s)) →
    (∀ i x s, list_find P l = Some (i, x) →
       body (Z.of_nat (k + i)) tt s = Ret (inr (g (k + i)%nat x), s)) →
    for_range (length l) (Z.of_nat k) body tt s =
    Ret (match list_find P l with Some (i, x) => inr (g (k + i)%nat x) | None => inl tt end, s)).
  { induction l as [|x l IH]; intros k H1 H2; cbn in *; [done|]. unfold bind.
    case_decide as Hx.
    - assert (E := H2 O x s eq_refl). rewrite Nat.add_0_r in *. by rewrite E.
    - assert (E := H1 O x s eq_refl Hx). rewrite Nat.add_0_r in E. rewrite E.
      replace (Z.of_nat k + 1) with (Z.of_nat (Datatypes.S k)) by lia.
      rewrite IH.
      + destruct (list_find P l) as [[i y]|]; cbn; [|done].
        by replace (k + Datatypes.S i)%nat with (Datatypes.S (k + i)) by lia.
      + intros i y t Hy. replace (Datatypes.S k + i)%nat with (k + Datatypes.S i)%nat by lia.
        by apply H1.
      + intros i y t Hy. replace (Datatypes.S k + i)%nat with (k + Datatypes.S i)%nat by lia.
        apply H2. by rewrite Hy. }
  intros H1 H2. by apply (Hgen O).
Qed.
(** The same, when every iteration decides the test. *)
Lemma for_range_find_all {S X R} (P : X → Prop) `{∀ x, Decision (P x)} (g : nat → X → R)
    (body : Z → unit → M S (unit + R)) (l : list X) (s : S) :
  (∀ i x s, l !! i = Some x →
     body (Z.of_nat i) tt s = Ret (if decide (P x) then inr (g i x) else inl tt, s)) →
  for_range (length l) 0 body tt s =
  Ret (match list_find P l with Some (i, x) => inr (g i x) | None => inl tt end, s).
Proof.
  intros Hb. apply for_range_find.
  - intros i x t Hx HP. rewrite (Hb i x) by done. by rewrite decide_False.
  - intros i x t Hf. apply list_find_Some in Hf as (Hx & HP & _).
    rewrite (Hb i x) by done. by rewrite decide_True.
Qed.

(** ** The ELF structures *)
Record phdr := mk_phdr {
  ph_type : Z; ph_flags : Z; ph_offset : Z; ph_vaddr : Z; ph_paddr : Z;
  ph_filesz : Z; ph_memsz : Z; ph_align : Z
}.
Definition phdr_fields (p : phdr) : list (Z * Z) :=
  [(4, ph_type p); (4, ph_flags p); (8, ph_offset p); (8, ph_vaddr p); (8, ph_paddr p);
   (8, ph_filesz p); (8, ph_memsz p); (8, ph_align p)].

Record sym := mk_sym { sy_name : Z; sy_info : Z; sy_other : Z; sy_shndx : Z; sy_value : Z; sy_size : Z }.
Definition sym_fields (y : sym) : list (Z * Z) :=
  [(4, sy_name y); (1, sy_info y); (1, sy_other y); (2, sy_shndx y); (8, sy_value y); (8, sy_size y)].

(** An entry of the dynamic section: tag and value. *)
Definition dyn_fields (d : Z * Z) : list (Z * Z) := [(8, d.1); (8, d.2)].

Record shdr := mk_shdr {
  se_name : Z; se_type : Z; se_flags : Z; se_addr : Z; se_offset : Z; se_size : Z;
  se_link : Z; se_info : Z; se_align : Z; se_entsize : Z
}.
Definition shdr_fields (h : shdr) : list (Z * Z) :=
  [(4, se_name h); (4, se_type h); (8, se_flags h); (8, se_addr h); (8, se_offset h);
   (8, se_size h); (4, se_link h); (4, se_info h); (8, se_align h); (8, se_entsize h)].

(** The ELF header, after its 32 bytes of identification. *)
Record ehdr := mk_ehdr {
  eh_phoff : Z; eh_shoff : Z; eh_flags : Z; eh_ehsize : Z; eh_phentsize : Z;
  eh_phnum : Z; eh_shentsize : Z; eh_shnum : Z; eh_shstrndx : Z
}.
Definition ehdr_fields (h : ehdr) : list (Z * Z) :=
  [(8, eh_phoff h); (8, eh_shoff h); (4, eh_flags h); (2, eh_ehsize h); (2, eh_phentsize h);
   (2, eh_phnum h); (2, eh_shentsize h); (2, eh_shnum h); (2, eh_shstrndx h)].

(** A table of structures at an address. *)
Record table_at {X} (mem : Z → option Z) (fields : X → list (Z * Z)) (stride a : Z) (l : list X)
    : Prop := {
  ta_bytes : array_at mem stride a (fields <$> l);
  ta_ok : Forall (λ x, fields_ok (fields x)) l
}.

(** The image at [base]: its header and its program headers. *)
Record image_at (mem : Z → option Z) (base : Z) (h : ehdr) (phdrs : list phdr) : Prop := {
  ia_header : bytes_at mem (base + 32) (encode_fields (ehdr_fields h));
  ia_header_ok : fields_ok (ehdr_fields h);
  ia_phnum : eh_phnum h = zlen phdrs;
  ia_int : zlen phdrs * eh_phentsize h < 2 ^ 31;
  ia_phdrs : table_at mem phdr_fields (eh_phentsize h) (base + eh_phoff h) phdrs
}.

Section fields.
Context {S : Type} (mem : Z → option Z).
Implicit Types s : S.

Lemma table_field {X} (fields : X → list (Z * Z)) stride a (l : list X) i x k n v s :
  table_at mem fields stride a l → l !! i = Some x →
  fields x !! k = Some (Z.of_nat n, v) →
  load mem n (a + Z.of_nat i * stride + field_offset k (fields x)) s = Ret (v, s).
Proof.
  intros [Hb Hok] Hx Hk. apply load_field; [| |done].
  2: { exact (Forall_lookup_1 _ _ _ _ Hok Hx). }
  apply Hb. by rewrite list_lookup_fmap, Hx.
Qed.

Lemma load_wrap n a off s : load mem n (u64 a + off) s = load mem n (a + off) s.
Proof.
  unfold load. rewrite <- (load_u64 mem n (u64 a + off)), u64_add_l. by rewrite load_u64.
Qed.
Lemma load_wrap0 n a s : load mem n (u64 a) s = load mem n a s.
Proof. unfold load. by rewrite load_u64. Qed.
End fields.

Section headers.
Context {S : Type} (mem : Z → option Z) (base : Z) (h : ehdr) (phdrs : list phdr).
Hypothesis Him : image_at mem base h phdrs.
Implicit Types s : S.

Lemma ehdr_field k n v s :
  ehdr_fields h !! k = Some (Z.of_nat n, v) →
  load mem n (base + (32 + field_offset k (ehdr_fields h))) s = Ret (v, s).
Proof.
  intros Hk. rewrite Z.add_assoc. apply load_field; [apply Him|apply Him|done].
Qed.

Lemma phentsize_nonneg : 0 ≤ eh_phentsize h < 2 ^ 16.
Proof.
  pose proof (ia_header_ok _ _ _ _ Him) as Hok.
  destruct (Forall_lookup_1 _ _ 4%nat _ Hok eq_refl) as [_ Hr]. cbn in Hr. lia.
Qed.

(** The address of a program header. *)
Definition phdr_addr (i : nat) : Z :=
  u64 (base + eh_phoff h + Z.of_nat i * eh_phentsize h).

Lemma phdr_at_ok i p s :
  phdrs !! i = Some p → phdr_at mem base (Z.of_nat i) s = Ret (phdr_addr i, s).
Proof.
  intros Hp. unfold phdr_at, e_phoff, e_phentsize, bind.
  rewrite (ehdr_field 0 8 (eh_phoff h)) by done.
  rewrite (ehdr_field 4 2 (eh_phentsize h)) by done. unfold ret, phdr_addr.
  apply lookup_lt_Some in Hp. pose proof phentsize_nonneg.
  pose proof (ia_int _ _ _ _ Him). unfold zlen in *.
  rewrite s32_small by nia. done.
Qed.

Lemma phdr_field i p k n v s :
  phdrs !! i = Some p → phdr_fields p !! k = Some (Z.of_nat n, v) →
  load mem n (phdr_addr i + field_offset k (phdr_fields p)) s = Ret (v, s).
Proof.
  intros Hp Hk. unfold phdr_addr. rewrite load_wrap.
  by eapply table_field; [apply Him| |].
Qed.
Lemma phdr_field0 i p s :
  phdrs !! i = Some p → load mem 4 (phdr_addr i) s = Ret (ph_type p, s).
Proof.
  intros Hp. rewrite <- (Z.add_0_r (phdr_addr i)).
  by apply (phdr_field i p 0 4 (ph_type p)).
Qed.

Lemma phnum_loads s : e_phnum mem base s = Ret (zlen phdrs, s).
Proof.
  unfold e_phnum. rewrite <- (ia_phnum _ _ _ _ Him). by apply (ehdr_field 5 2 (eh_phnum h)).
Qed.

(** The address of the first program header of a type. *)
Lemma find_program_header_ok type s :
  frida_find_program_header_by_type mem base type s =
  Ret (match list_find (λ p, ph_type p = type) phdrs with
       | Some (i, _) => phdr_addr i
       | None => 0
       end, s).
Proof.
  unfold frida_find_program_header_by_type, bind at 1. rewrite phnum_loads.
  unfold zlen. rewrite Nat2Z.id. unfold bind at 1.
  rewrite (for_range_find_all (λ p, ph_type p = type) (λ i _, phdr_addr i)).
  - unfold ret. by destruct (list_find _ phdrs) as [[i p]|].
  - intros i q t Hq. unfold bind. rewrite (phdr_at_ok i q) by done. unfold p_type.
    rewrite (phdr_field0 i q) by done.
    destruct (Z.eqb_spec (ph_type q) type); case_decide; done.
Qed.

(** The rest of the segment that holds an address. *)
Definition holds_address (a : Z) (p : phdr) : Prop :=
  ph_type p = PT_LOAD ∧ ph_vaddr p ≤ a < u64 (ph_vaddr p + ph_memsz p).
Definition region_size (a : Z) : Z :=
  match list_find (holds_address a) phdrs with
  | Some (_, p) => u64 (u64 (ph_vaddr p + ph_memsz p) - a)
  | None => 0
  end.
Lemma region_upper_bound_ok a s :
  frida_compute_elf_region_upper_bound mem base a s = Ret (region_size a, s).
Proof.
  unfold frida_compute_elf_region_upper_bound, bind at 1. rewrite phnum_loads.
  unfold zlen. rewrite Nat2Z.id. unfold bind at 1.
  rewrite (for_range_find_all (holds_address a)
    (λ _ p, u64 (u64 (ph_vaddr p + ph_memsz p) - a))).
  - unfold ret, region_size. by destruct (list_find _ phdrs) as [[i p]|].
  - intros i q t Hq. unfold bind. rewrite (phdr_at_ok i q) by done. unfold p_vaddr, p_memsz, p_type.
    rewrite (phdr_field i q 3 8 (ph_vaddr q)) by done.
    rewrite (phdr_field i q 6 8 (ph_memsz q)) by done.
    rewrite (phdr_field0 i q) by done. unfold holds_address.
    destruct (Z.eqb_spec (ph_type q) PT_LOAD), (Z.leb_spec (ph_vaddr q) a),
      (Z.ltb_spec a (u64 (ph_vaddr q + ph_memsz q))); cbn [andb]; case_decide;
      try done; exfalso; lia.
Qed.

(** ** The dynamic section *)
Context (dyns : list (Z * Z)) (dp : phdr) (di : nat).
Hypothesis Hdyn : list_find (λ p, ph_type p = PT_DYNAMIC) phdrs = Some (di, dp).
Hypothesis Hdyns : table_at mem dyn_fields DYN_SIZE (base + ph_vaddr dp) dyns.
Hypothesis Hnum : ph_filesz dp / DYN_SIZE = zlen dyns.

(** The value of the last entry with a tag, 0 when there is none. *)
Definition tag_value (tag : Z) : Z :=
  foldl (λ v (d : Z * Z), if d.1 =? tag then d.2 else v) 0 dyns.

Lemma dp_lookup : phdrs !! di = Some dp.
Proof. by apply list_find_Some in Hdyn as (? & _). Qed.

Lemma dyn_loads i d s :
  dyns !! i = Some d →
  load mem 8 (base + ph_vaddr dp + Z.of_nat i * DYN_SIZE) s = Ret (d.1, s) ∧
  load mem 8 (base + ph_vaddr dp + Z.of_nat i * DYN_SIZE + 8) s = Ret (d.2, s).
Proof.
  intros Hd. split.
  - rewrite <- (Z.add_0_r (_ + Z.of_nat i * DYN_SIZE)).
    by apply (table_field mem dyn_fields DYN_SIZE _ dyns i d 0 8 d.1).
  - by apply (table_field mem dyn_fields DYN_SIZE _ dyns i d 1 8 d.2).
Qed.

Lemma foldl_project {X A B} (f : A → X → A) (g : B → X → B) (p : A → B) (l : list X) : ∀ a,
  (∀ a x, p (f a x) = g (p a) x) → p (foldl f a l) = foldl g (p a) l.
Proof. induction l as [|x l IH]; intros a H; cbn; [done|]. by rewrite IH, H. Qed.

Lemma collect_dynamic_ok s :
  collect_dynamic mem base (phdr_addr di) s =
  Ret (mk_dyn_info (tag_value DT_SYMTAB) (tag_value DT_STRTAB) (tag_value DT_STRSZ), s).
Proof.
  unfold collect_dynamic, bind at 1, p_filesz.
  rewrite (phdr_field di dp 5 8 (ph_filesz dp)) by (done || apply dp_lookup).
  rewrite Hnum. unfold zlen. rewrite Nat2Z.id.
  rewrite (for_all_fold _ (λ d (e : Z * Z),
    if e.1 =? DT_SYMTAB then mk_dyn_info e.2 (di_strings d) (di_strsz d)
    else if e.1 =? DT_STRTAB then mk_dyn_info (di_symbols d) e.2 (di_strsz d)
    else if e.1 =? DT_STRSZ then mk_dyn_info (di_symbols d) (di_strings d) e.2 else d) dyns).
  - set (r := foldl _ _ _). do 2 f_equal.
    assert (E1 : di_symbols r = tag_value DT_SYMTAB);
      [|assert (E2 : di_strings r = tag_value DT_STRTAB);
        [|assert (E3 : di_strsz r = tag_value DT_STRSZ);
          [|rewrite <- E1, <- E2, <- E3; by destruct r]]];
      subst r; unfold tag_value; apply foldl_project; intros a x; cbn;
      (destruct (Z.eqb_spec x.1 DT_SYMTAB) as [E|]; [by rewrite ?E|]);
      (destruct (Z.eqb_spec x.1 DT_STRTAB) as [E|]; [by rewrite ?E|]);
      (destruct (Z.eqb_spec x.1 DT_STRSZ) as [E|]; [by rewrite ?E|done]).
  - intros i e d t He. unfold bind, p_vaddr, d_tag, d_ptr.
    rewrite (phdr_field di dp 3 8 (ph_vaddr dp)) by (done || apply dp_lookup).
    rewrite load_wrap0. destruct (dyn_loads i e t He) as [E1 E2]. rewrite E1.
    destruct (e.1 =? DT_SYMTAB); [by rewrite load_wrap, E2|].
    destruct (e.1 =? DT_STRTAB); [by rewrite load_wrap, E2|].
    destruct (e.1 =? DT_STRSZ); [by rewrite load_wrap, E2|done].
Qed.

(** ** Exports *)

(** The addresses the loop uses: the dynamic entries hold offsets from the base
    until the dynamic linker has relocated them. *)
Definition relocated (v : Z) : Z :=
  if tag_value DT_SYMTAB <? base then u64 (v + base) else v.
Definition symbols_base : Z := relocated (tag_value DT_SYMTAB).
Definition strings_base : Z := relocated (tag_value DT_STRTAB).
Definition num_symbols : Z := region_size (u64 (symbols_base - base)) / SYM_SIZE.

Definition export_ok (y : sym) : Prop :=
  sy_shndx y ≠ SHN_UNDEF ∧
  (FRIDA_ELF_ST_TYPE (sy_info y) = STT_FUNC ∨ FRIDA_ELF_ST_TYPE (sy_info y) = STT_OBJECT) ∧
  (FRIDA_ELF_ST_BIND (sy_info y) = STB_GLOBAL ∨ FRIDA_ELF_ST_BIND (sy_info y) = STB_WEAK).
#[export] Instance export_ok_dec y : Decision (export_ok y).
Proof. unfold export_ok. apply _. Defined.
Definition export_details (y : sym) : FridaElfExportDetails :=
  mk_details (u64 (strings_base + sy_name y)) (u64 (base + sy_value y))
    (FRIDA_ELF_ST_TYPE (sy_info y)) (FRIDA_ELF_ST_BIND (sy_info y)).
(** The exported symbols: those before the first whose name is past the end of
    the string table. *)
Fixpoint before_end (syms : list sym) : list sym :=
  match syms with
  | [] => []
  | y :: r => if tag_value DT_STRSZ <=? sy_name y then [] else y :: before_end r
  end.
Definition exports (syms : list sym) : list FridaElfExportDetails :=
  export_details <$> filter export_ok (before_end syms).
End headers.

(** Call a function on the elements of a list until it says to stop. *)
Fixpoint until_false {S X} (func : X → M S bool) (l : list X) : M S unit :=
  match l with
  | [] => ret tt
  | x :: r => let! more := func x in if more then until_false func r else ret tt
  end.

Section symbols.
Context {S : Type} (mem : Z → option Z) (func : FridaElfExportDetails → M S bool).
Implicit Types s : S.

Lemma sym_loads a (syms : list sym) i y s :
  table_at mem sym_fields SYM_SIZE a syms → syms !! i = Some y →
  let p := u64 (a + Z.of_nat i * SYM_SIZE) in
  st_name mem p s = Ret (sy_name y, s) ∧ st_info mem p s = Ret (sy_info y, s) ∧
  st_shndx mem p s = Ret (sy_shndx y, s) ∧ st_value mem p s = Ret (sy_value y, s).
Proof.
  intros Ht Hy p. subst p. unfold st_name, st_info, st_shndx, st_value.
  rewrite load_wrap0, !load_wrap.
  rewrite <- (Z.add_0_r (a + Z.of_nat i * SYM_SIZE)) at 1. split_and!.
  - exact (table_field mem sym_fields SYM_SIZE a syms i y 0 4 _ s Ht Hy eq_refl).
  - exact (table_field mem sym_fields SYM_SIZE a syms i y 1 1 _ s Ht Hy eq_refl).
  - exact (table_field mem sym_fields SYM_SIZE a syms i y 3 2 _ s Ht Hy eq_refl).
  - exact (table_field mem sym_fields SYM_SIZE a syms i y 4 8 _ s Ht Hy eq_refl).
Qed.

(** One symbol of the export loop. *)
Definition export_step base dyns (y : sym) : M S (unit + unit) :=
  if tag_value dyns DT_STRSZ <=? sy_name y then ret (inr tt)
  else if decide (export_ok y) then
    let! more := func (export_details base dyns y) in
    ret (if more then inl tt else inr tt)
  else ret (inl tt).

Lemma visit_exports base dyns (syms : list sym) : ∀ s,
  bind (visit (λ y _, export_step base dyns y) syms tt) (λ _, ret tt) s =
  until_false func (exports base dyns syms) s.
Proof.
  induction syms as [|y syms IH]; intros s; [done|].
  cbn [visit]. unfold bind at 1 2, export_step at 1, exports. cbn [before_end].
  destruct (tag_value dyns DT_STRSZ <=? sy_name y); [done|].
  rewrite filter_cons. destruct (decide (export_ok y)); [|apply IH].
  cbn [fmap list_fmap until_false]. unfold bind.
  destruct (func (export_details base dyns y) s) as [[[] s']| | |]; try done. apply IH.
Qed.

Lemma type_tests info :
  negb (orb (FRIDA_ELF_ST_TYPE info =? STT_FUNC) (FRIDA_ELF_ST_TYPE info =? STT_OBJECT)) = false ↔
  FRIDA_ELF_ST_TYPE info = STT_FUNC ∨ FRIDA_ELF_ST_TYPE info = STT_OBJECT.
Proof. rewrite negb_false_iff, orb_true_iff, !Z.eqb_eq. done. Qed.
Lemma bind_tests info :
  negb (orb (FRIDA_ELF_ST_BIND info =? STB_GLOBAL) (FRIDA_ELF_ST_BIND info =? STB_WEAK)) = false ↔
  FRIDA_ELF_ST_BIND info = STB_GLOBAL ∨ FRIDA_ELF_ST_BIND info = STB_WEAK.
Proof. rewrite negb_false_iff, orb_true_iff, !Z.eqb_eq. done. Qed.

Lemma exports_run base h phdrs dyns di dp syms s :
  image_at mem base h phdrs →
  list_find (λ p, ph_type p = PT_DYNAMIC) phdrs = Some (di, dp) →
  table_at mem dyn_fields DYN_SIZE (base + ph_vaddr dp) dyns →
  ph_filesz dp / DYN_SIZE = zlen dyns →
  tag_value dyns DT_SYMTAB ≠ 0 → tag_value dyns DT_STRTAB ≠ 0 → tag_value dyns DT_STRSZ ≠ 0 →
  num_symbols base phdrs dyns = zlen syms →
  table_at mem sym_fields SYM_SIZE (symbols_base base dyns) syms →
  frida_elf_enumerate_exports mem func base s = until_false func (exports base dyns syms) s.
Proof.
  intros Him Hdyn Hdyns Hnum H1 H2 H3 Hsyms Ht. unfold frida_elf_enumerate_exports, bind at 1.
  rewrite (find_program_header_ok mem base h phdrs Him), Hdyn. unfold bind at 1.
  rewrite (collect_dynamic_ok mem base h phdrs Him dyns dp di Hdyn Hdyns Hnum).
  cbn [di_symbols di_strings di_strsz].
  rewrite (proj2 (Z.eqb_neq _ _) H1), (proj2 (Z.eqb_neq _ _) H2), (proj2 (Z.eqb_neq _ _) H3).
  cbn [orb]. cbn zeta.
  change (if tag_value dyns DT_SYMTAB <? base then u64 (tag_value dyns DT_SYMTAB + base)
          else tag_value dyns DT_SYMTAB) with (symbols_base base dyns).
  change (if tag_value dyns DT_SYMTAB <? base then u64 (tag_value dyns DT_STRTAB + base)
          else tag_value dyns DT_STRTAB) with (strings_base base dyns).
  unfold bind at 1. rewrite (region_upper_bound_ok mem base h phdrs Him).
  destruct (Z.eqb_spec (region_size phdrs (u64 (symbols_base base dyns - base))) 0) as [Hz|Hz].
  { unfold num_symbols in Hsyms. rewrite Hz in Hsyms. destruct syms; [done|].
    rewrite zlen_cons in Hsyms. pose proof (zlen_nonneg syms).
    change (0 / SYM_SIZE) with 0 in Hsyms. lia. }
  change (region_size phdrs _ / SYM_SIZE) with (num_symbols base phdrs dyns).
  rewrite Hsyms. unfold zlen. rewrite Nat2Z.id. rewrite <- visit_exports.
  apply bind_ext_l. apply (for_range_visit _ (λ y _, export_step base dyns y) syms).
  intros i y [] t Hy. rewrite Z.add_0_l.
  destruct (sym_loads _ syms i y t Ht Hy) as (E1 & E2 & E3 & E4). cbn zeta in *.
  unfold bind at 1. rewrite E1. unfold export_step.
  destruct (tag_value dyns DT_STRSZ <=? sy_name y); [done|].
  unfold bind at 1. rewrite E3.
  destruct (Z.eqb_spec (sy_shndx y) SHN_UNDEF).
  { rewrite decide_False; [done|]. by intros [? _]. }
  unfold bind at 1. rewrite E2. cbn zeta.
  destruct (negb (orb (FRIDA_ELF_ST_TYPE _ =? STT_FUNC) _)) eqn:Et.
  { rewrite decide_False; [done|]. intros (_ & Hx & _). apply type_tests in Hx. congruence. }
  destruct (negb (orb (FRIDA_ELF_ST_BIND _ =? STB_GLOBAL) _)) eqn:Eb.
  { rewrite decide_False; [done|]. intros (_ & _ & Hx). apply bind_tests in Hx. congruence. }
  rewrite decide_True.
  2: { split_and!; [done|by apply type_tests|by apply bind_tests]. }
  unfold bind at 1. rewrite E4. unfold bind.
  by destruct (func _ t) as [[[] ?]| | |].
Qed.
End symbols.

(** ** The static symbol table *)
Definition symbol_ok (y : sym) : Prop :=
  sy_shndx y ≠ SHN_UNDEF ∧
  (FRIDA_ELF_ST_TYPE (sy_info y) = STT_FUNC ∨ FRIDA_ELF_ST_TYPE (sy_info y) = STT_OBJECT).
#[export] Instance symbol_ok_dec y : Decision (symbol_ok y).
Proof. unfold symbol_ok. apply _. Defined.
Definition symbol_details (strings loaded_base : Z) (y : sym) : FridaElfExportDetails :=
  mk_details (u64 (strings + sy_name y)) (u64 (loaded_base + sy_value y))
    (FRIDA_ELF_ST_TYPE (sy_info y)) (FRIDA_ELF_ST_BIND (sy_info y)).

(** The sections of an image, and the symbol table among them. *)
Record symtab_at (mem : Z → option Z) (base : Z) (h : ehdr) (shdrs : list shdr)
    (hd strs : shdr) (syms : list sym) : Prop := {
  sa_shnum : eh_shnum h = zlen shdrs;
  sa_table : table_at mem shdr_fields (eh_shentsize h) (base + eh_shoff h) shdrs;
  sa_first : ∃ i, list_find (λ x, se_type x = SHT_SYMTAB) shdrs = Some (i, hd);
  sa_entsize : se_entsize hd ≠ 0;
  sa_link : shdrs !! Z.to_nat (se_link hd) = Some strs;
  sa_link_fits : se_link hd * eh_shentsize h < 2 ^ 32;
  sa_count : se_size hd / se_entsize hd = zlen syms;
  sa_syms : table_at mem sym_fields SYM_SIZE (base + se_offset hd) syms;
  sa_nonnull : u64 (base + se_offset hd) ≠ 0
}.

Section static_symbols.
Context {S : Type} (mem : Z → option Z) (func : FridaElfExportDetails → M S bool).
Context (base : Z) (h : ehdr) (phdrs : list phdr) (shdrs : list shdr) (hd strs : shdr).
Context (syms : list sym).
Hypothesis Him : image_at mem base h phdrs.
Hypothesis Hsa : symtab_at mem base h shdrs hd strs syms.
Implicit Types s : S.

Lemma shdr_field i x k n v s :
  shdrs !! i = Some x → shdr_fields x !! k = Some (Z.of_nat n, v) →
  load mem n (u64 (u64 (base + eh_shoff h) + Z.of_nat i * eh_shentsize h) +
              field_offset k (shdr_fields x)) s = Ret (v, s).
Proof.
  intros Hx Hk. rewrite u64_add_l, load_wrap.
  exact (table_field mem shdr_fields _ _ shdrs i x k n v s (sa_table _ _ _ _ _ _ _ Hsa) Hx Hk).
Qed.

Lemma find_symtab_ok s :
  find_symtab mem base s =
  Ret (Some (u64 (base + se_offset hd), zlen syms, u64 (base + se_offset strs)), s).
Proof.
  destruct (sa_first _ _ _ _ _ _ _ Hsa) as [j Hj].
  unfold find_symtab, bind at 1, e_shoff. rewrite (ehdr_field mem base h phdrs Him 1 8 (eh_shoff h)) by done.
  unfold bind at 1, e_shnum. rewrite (ehdr_field mem base h phdrs Him 7 2 (eh_shnum h)) by done.
  rewrite (sa_shnum _ _ _ _ _ _ _ Hsa). unfold zlen at 1. rewrite Nat2Z.id. cbn zeta.
  unfold bind at 1.
  rewrite (for_range_find (λ x, se_type x = SHT_SYMTAB) (λ _ _,
    (u64 (base + se_offset hd), zlen syms, u64 (base + se_offset strs)))).
  - by rewrite Hj.
  - intros i x t Hx Hne. unfold bind at 1, e_shentsize.
    rewrite (ehdr_field mem base h phdrs Him 6 2 (eh_shentsize h)) by done.
    unfold bind at 1, sh_type. rewrite (shdr_field i x 1 4 (se_type x)) by done.
    by rewrite (proj2 (Z.eqb_neq _ _) Hne).
  - intros i x t Hf. rewrite Hj in Hf. injection Hf as <- <-.
    apply list_find_Some in Hj as (Hx & Htype & _). unfold bind at 1, e_shentsize.
    rewrite (ehdr_field mem base h phdrs Him 6 2 (eh_shentsize h)) by done.
    unfold bind at 1, sh_type. rewrite (shdr_field j hd 1 4 (se_type hd)) by done.
    rewrite Htype, Z.eqb_refl.
    unfold bind at 1, sh_offset at 1. rewrite (shdr_field j hd 4 8 (se_offset hd)) by done.
    unfold bind at 1, sh_entsize. rewrite (shdr_field j hd 9 8 (se_entsize hd)) by done.
    unfold bind at 1, sh_size. rewrite (shdr_field j hd 5 8 (se_size hd)) by done.
    rewrite (proj2 (Z.eqb_neq _ _) (sa_entsize _ _ _ _ _ _ _ Hsa)).
    unfold bind at 1, sh_link. rewrite (shdr_field j hd 6 4 (se_link hd)) by done.
    assert (Hlink : 0 ≤ se_link hd).
    { pose proof (Forall_lookup_1 _ _ _ _ (ta_ok _ _ _ _ _ (sa_table _ _ _ _ _ _ _ Hsa)) Hx) as Hok.
      destruct (Forall_lookup_1 _ _ 6%nat _ Hok eq_refl) as [_ Hr]. cbn in Hr. lia. }
    assert (Hes : 0 ≤ eh_shentsize h).
    { destruct (Forall_lookup_1 _ _ 6%nat _ (ia_header_ok _ _ _ _ Him) eq_refl) as [_ Hr].
      cbn in Hr. lia. }
    pose proof (sa_link_fits _ _ _ _ _ _ _ Hsa). rewrite u32_small by nia.
    rewrite <- (Z2Nat.id (se_link hd)) by done.
    unfold bind at 1, sh_offset at 1.
    rewrite (shdr_field _ strs 4 8 (se_offset strs)) by (done || apply (sa_link _ _ _ _ _ _ _ Hsa)).
    by rewrite (sa_count _ _ _ _ _ _ _ Hsa).
Qed.

Lemma visit_symbols strings loaded_base (l : list sym) : ∀ s,
  bind (visit (λ y (_ : unit), if decide (symbol_ok y) then
      let! more := func (symbol_details strings loaded_base y) in
      ret (if more then inl tt else inr tt) else ret (inl tt)) l tt)
    (λ _ : unit + unit, ret tt) s =
  until_false func (symbol_details strings loaded_base <$> filter symbol_ok l) s.
Proof.
  induction l as [|y l IH]; intros s; [done|]. cbn [visit]. unfold bind at 1 2.
  rewrite filter_cons. destruct (decide (symbol_ok y)); [|apply IH].
  cbn [fmap list_fmap until_false]. unfold bind.
  destruct (func _ s) as [[[] s']| | |]; try done. apply IH.
Qed.

Lemma symbols_run loaded_base s :
  frida_elf_enumerate_symbols mem func base loaded_base s =
  until_false func (symbol_details (u64 (base + se_offset strs)) loaded_base <$>
                    filter symbol_ok syms) s.
Proof.
  unfold frida_elf_enumerate_symbols, bind at 1. rewrite find_symtab_ok.
  rewrite (proj2 (Z.eqb_neq _ _) (sa_nonnull _ _ _ _ _ _ _ Hsa)).
  unfold zlen. rewrite Nat2Z.id, <- visit_symbols. apply bind_ext_l.
  apply for_range_visit. intros i y [] t Hy. rewrite Z.add_0_l. cbn zeta. rewrite u64_add_l.
  destruct (sym_loads mem _ syms i y t (sa_syms _ _ _ _ _ _ _ Hsa) Hy) as (E1 & E2 & E3 & E4).
  cbn zeta in *. unfold bind at 1. rewrite E3.
  destruct (Z.eqb_spec (sy_shndx y) SHN_UNDEF).
  { rewrite decide_False; [done|]. by intros [? _]. }
  unfold bind at 1. rewrite E2. cbn zeta.
  destruct (negb (orb (FRIDA_ELF_ST_TYPE _ =? STT_FUNC) _)) eqn:Et.
  { rewrite decide_False; [done|]. intros (_ & Hx). apply type_tests in Hx. congruence. }
  rewrite decide_True by (split; [done|by apply type_tests]).
  unfold bind at 1. rewrite E1. unfold bind at 1. rewrite E4. unfold bind.
  by destruct (func _ t) as [[[] ?]| | |].
Qed.
End static_symbols.
