(* ===== verification/ElfClaims.v ===== *)
(** What the ELF parser guarantees: exports and symbols, the load base, the
    extent of a segment, the page macros, and what happens to an image without
    a dynamic section. *)
From S2P Require Import Prelude ElfParser ElfCorrect.

(** ** Page arithmetic *)
Lemma land_mask x k :
  0 ≤ k < 64 → 0 ≤ x < 2 ^ 64 → Z.land x (u64_not (2 ^ k - 1)) = x - x mod 2 ^ k.
Proof.
  intros Hk Hx. unfold u64_not.
  assert (Hp : 0 < 2 ^ k ≤ 2 ^ 64) by (split; [lia|apply Z.pow_le_mono_r; lia]).
  rewrite u64_small by lia.
  assert (E : 2 ^ 64 - 1 - (2 ^ k - 1) = Z.ldiff (Z.ones 64) (Z.ones k)).
  { rewrite <- Z.sub_nocarry_ldiff; [rewrite !Z.ones_equiv; lia|].
    apply Z.bits_inj'. intros n Hn. rewrite Z.ldiff_spec, Z.bits_0, !Z.testbit_ones_nonneg by lia.
    destruct (Z.ltb_spec n k), (Z.ltb_spec n 64); cbn; lia. }
  rewrite E. transitivity (Z.ldiff x (Z.ones k)).
  - apply Z.bits_inj'. intros n Hn. rewrite Z.land_spec, !Z.ldiff_spec, !Z.testbit_ones_nonneg by lia.
    destruct (Z.ltb_spec n 64); [by rewrite andb_true_l|].
    rewrite andb_false_l, andb_false_r. symmetry. apply andb_false_intro1.
    apply (Z.bits_above_log2 x n); [lia|]. destruct (decide (x = 0)) as [->|]; [cbn; lia|].
    apply Z.log2_lt_pow2; [lia|]. pose proof (Z.pow_le_mono_r 2 64 n). lia.
  - rewrite Z.ldiff_ones_r, Z.shiftl_mul_pow2, Z.shiftr_div_pow2 by lia.
    pose proof (Z.div_mod x (2 ^ k)). lia.
Qed.

(** the page macros round as their names say.  For a page size that is a
    power of two and a 64-bit address, [FRIDA_ELF_PAGE_START] is the last page
    boundary at or below the address, [FRIDA_ELF_PAGE_OFFSET] the distance from
    it, and [FRIDA_ELF_PAGE_ALIGN] the first boundary at or above the address
    unless rounding up leaves the address space, where it wraps to 0. *)
Theorem page_macros k v :
  0 ≤ k < 64 → 0 ≤ v < 2 ^ 64 → let ps := 2 ^ k in
  FRIDA_ELF_PAGE_START v ps = ps * (v / ps) ∧
  FRIDA_ELF_PAGE_START v ps + FRIDA_ELF_PAGE_OFFSET v ps = v ∧
  0 ≤ FRIDA_ELF_PAGE_OFFSET v ps < ps ∧
  FRIDA_ELF_PAGE_ALIGN v ps =
    if v + ps - 1 <? 2 ^ 64 then ps * ((v + ps - 1) / ps) else 0.
Proof.
  intros Hk Hv ps. assert (Hp : 0 < ps ≤ 2 ^ 63).
  { subst ps. split; [lia|apply Z.pow_le_mono_r; lia]. }
  assert (Hoff : FRIDA_ELF_PAGE_OFFSET v ps = v mod ps).
  { unfold FRIDA_ELF_PAGE_OFFSET. rewrite !u64_small by lia.
    replace (ps - 1) with (Z.ones k) by (rewrite Z.ones_equiv; subst ps; lia).
    apply Z.land_ones. lia. }
  assert (Hstart : FRIDA_ELF_PAGE_START v ps = v - v mod ps).
  { unfold FRIDA_ELF_PAGE_START. rewrite u64_small by lia. by apply land_mask. }
  pose proof (Z.div_mod v ps). pose proof (Z.mod_pos_bound v ps).
  rewrite Hoff, Hstart. split_and!; [lia..|].
  unfold FRIDA_ELF_PAGE_ALIGN. rewrite (u64_small v), (u64_small (ps - 1)) by lia.
  subst ps. rewrite land_mask; [|done|apply u64_range].
  replace (v + (2 ^ k - 1)) with (v + 2 ^ k - 1) by lia.
  destruct (Z.ltb_spec (v + 2 ^ k - 1) (2 ^ 64)).
  - rewrite u64_small by lia. pose proof (Z.div_mod (v + 2 ^ k - 1) (2 ^ k)). lia.
  - assert (E : u64 (v + 2 ^ k - 1) = v + 2 ^ k - 1 - 2 ^ 64).
    { unfold u64. symmetry. apply (Z.mod_unique _ _ 1); lia. }
    rewrite E, (Z.mod_small (v + 2 ^ k - 1 - 2 ^ 64)) by lia. lia.
Qed.

Lemma page_macros_witness :
  FRIDA_ELF_PAGE_START 0x12345 (2 ^ 12) = 2 ^ 12 * (0x12345 / 2 ^ 12) ∧
  FRIDA_ELF_PAGE_START 0x12345 (2 ^ 12) + FRIDA_ELF_PAGE_OFFSET 0x12345 (2 ^ 12) = 0x12345 ∧
  0 ≤ FRIDA_ELF_PAGE_OFFSET 0x12345 (2 ^ 12) < 2 ^ 12 ∧
  FRIDA_ELF_PAGE_ALIGN 0x12345 (2 ^ 12) =
    if 0x12345 + 2 ^ 12 - 1 <? 2 ^ 64 then 2 ^ 12 * ((0x12345 + 2 ^ 12 - 1) / 2 ^ 12) else 0.
Proof. apply (page_macros 12 0x12345); lia. Defined.

(** ** A concrete image *)

(** Memory given by blocks of bytes. *)
Fixpoint mem_of (blocks : list (Z * list Z)) (a : Z) : option Z :=
  match blocks with
  | [] => None
  | (start, bs) :: r =>
      if andb (start <=? a) (a <? start + zlen bs)
      then bs !! Z.to_nat (a - start) else mem_of r a
  end.

Lemma load_bytes_inv mem bs : ∀ a,
  load_bytes mem (length bs) a = Some bs → bytes_at mem a bs.
Proof.
  induction bs as [|b bs IH]; intros a H i c Hi; [done|]. cbn in H.
  destruct (mem (u64 a)) as [b'|] eqn:E; [|done].
  destruct (load_bytes mem (length bs) (a + 1)) as [r|] eqn:Er; [|done].
  injection H as -> ->. destruct i as [|i]; cbn in Hi.
  - injection Hi as ->. by rewrite Z.add_0_r.
  - replace (a + Z.of_nat (S i)) with (a + 1 + Z.of_nat i) by lia. by apply IH.
Qed.

Fixpoint table_check {X} (mem : Z → option Z) (fields : X → list (Z * Z)) (stride a : Z)
    (l : list X) : bool :=
  match l with
  | [] => true
  | x :: r =>
      andb (bool_decide (load_bytes mem (length (encode_fields (fields x))) a =
                         Some (encode_fields (fields x))))
        (andb (forallb (λ f : Z * Z, andb (0 <=? f.1) (andb (0 <=? f.2) (f.2 <? 2 ^ (f.1 * 8))))
                 (fields x))
           (table_check mem fields stride (a + stride) r))
  end.

Lemma fields_check fs :
  forallb (λ f : Z * Z, andb (0 <=? f.1) (andb (0 <=? f.2) (f.2 <? 2 ^ (f.1 * 8)))) fs = true →
  fields_ok fs.
Proof.
  intros H. unfold fields_ok. rewrite forallb_forall in H. apply list.Forall_forall.
  intros f Hf. apply list_elem_of_In, H in Hf.
  apply andb_prop in Hf as [H1 Hf]. apply andb_prop in Hf as [H2 H3]. lia.
Qed.

Lemma table_check_ok {X} mem (fields : X → list (Z * Z)) stride l : ∀ a,
  table_check mem fields stride a l = true → table_at mem fields stride a l.
Proof.
  induction l as [|x l IH]; intros a H; cbn in H.
  { constructor; [intros i e He; by destruct i|constructor]. }
  apply andb_prop in H as [H1 H]. apply andb_prop in H as [H2 H3].
  apply bool_decide_eq_true_1 in H1. apply IH in H3 as [Hb Hok].
  constructor; [|constructor; [by apply fields_check|done]].
  intros [|i] e He; cbn in He.
  - injection He as <-. rewrite Z.mul_0_l, Z.add_0_r. by apply load_bytes_inv.
  - replace (a + Z.of_nat (S i) * stride) with (a + stride + Z.of_nat i * stride) by lia.
    by apply Hb.
Qed.

Definition demo_base : Z := 0x10000.
Definition demo_ehdr : ehdr := mk_ehdr 64 0x300 0 64 56 2 64 2 0.
Definition demo_phdrs : list phdr :=
  [mk_phdr PT_LOAD 5 0 0 0 0x278 0x278 4096; mk_phdr PT_DYNAMIC 6 0x100 0x100 0x100 64 64 8].
Definition demo_dyns : list (Z * Z) :=
  [(DT_STRTAB, 0x180); (DT_SYMTAB, 0x200); (DT_STRSZ, 32); (0, 0)].
(** An undefined symbol, a global function, a local function, a weak object and
    an entry that is no symbol at all. *)
Definition demo_syms : list sym :=
  [mk_sym 1 18 0 0 0 0; mk_sym 5 18 0 7 0x1000 16; mk_sym 9 2 0 7 0x1010 16;
   mk_sym 12 33 0 9 0x2000 8; mk_sym 99 18 0 7 0x3000 8].
Definition demo_shdrs : list shdr :=
  [mk_shdr 0 SHT_SYMTAB 0 0 0x200 120 1 0 8 24; mk_shdr 0 3 0 0 0x180 32 0 0 1 0].
Definition demo_mem : Z → option Z :=
  mem_of [(demo_base + 32, encode_fields (ehdr_fields demo_ehdr));
          (demo_base + 64, concat (encode_fields <$> (phdr_fields <$> demo_phdrs)));
          (demo_base + 0x100, concat (encode_fields <$> (dyn_fields <$> demo_dyns)));
          (demo_base + 0x200, concat (encode_fields <$> (sym_fields <$> demo_syms)));
          (demo_base + 0x300, concat (encode_fields <$> (shdr_fields <$> demo_shdrs)))].

Lemma demo_image : image_at demo_mem demo_base demo_ehdr demo_phdrs.
Proof.
  constructor.
  - apply load_bytes_inv. vm_compute. reflexivity.
  - apply fields_check. vm_compute. reflexivity.
  - reflexivity.
  - vm_compute. reflexivity.
  - apply table_check_ok. vm_compute. reflexivity.
Qed.

(** A callback that collects what it is given and stops after [n] symbols. *)
Definition collect (n : nat) (d : FridaElfExportDetails)
    : M (list FridaElfExportDetails) bool := λ s,
  Ret (bool_decide (length s + 1 < n)%nat, s ++ [d]).

(** What the symbol table says of a symbol: 1 is an object and 2 a function, 1 is global
    and 2 weak. *)
Definition exported (y : sym) : Prop :=
  sy_shndx y ≠ 0 ∧ sy_info y mod 16 ∈ [1; 2] ∧ sy_info y / 16 ∈ [1; 2].
#[export] Instance exported_dec y : Decision (exported y).
Proof. unfold exported. apply _. Defined.
Definition exported_as (base strings : Z) (y : sym) : FridaElfExportDetails :=
  mk_details (u64 (strings + sy_name y)) (u64 (base + sy_value y)) (sy_info y mod 16) (sy_info y / 16).
(** What follows the symbol table in its segment cannot be taken for a symbol: there is
    nothing, or it begins with a name past the end of the strings. *)
Definition table_ends (strsz : Z) (rest : list sym) : Prop :=
  match rest with [] => True | y :: _ => strsz ≤ sy_name y end.

Lemma info_parts y : FRIDA_ELF_ST_TYPE (sy_info y) = sy_info y mod 16 ∧ FRIDA_ELF_ST_BIND (sy_info y) = sy_info y / 16.
Proof.
  unfold FRIDA_ELF_ST_TYPE, FRIDA_ELF_ST_BIND. split.
  - change 0xf with (Z.ones 4). by rewrite Z.land_ones.
  - by rewrite Z.shiftr_div_pow2.
Qed.
Lemma exported_ok y : export_ok y ↔ exported y.
Proof.
  unfold export_ok, exported. destruct (info_parts y) as [-> ->].
  unfold STT_FUNC, STT_OBJECT, STB_GLOBAL, STB_WEAK, SHN_UNDEF. set_solver.
Qed.
Lemma before_end_table dyns table rest :
  Forall (λ y, sy_name y < tag_value dyns DT_STRSZ) table → table_ends (tag_value dyns DT_STRSZ) rest →
  before_end dyns (table ++ rest) = table.
Proof.
  intros Ht Hr. induction Ht as [|y table Hy _ IH]; cbn [before_end app].
  - destruct rest as [|y rest]; [done|]. cbn in *. by rewrite (proj2 (Z.leb_le _ _) Hr).
  - rewrite (proj2 (Z.leb_gt _ _) Hy). by rewrite IH.
Qed.
Lemma exports_of_table base dyns table rest :
  Forall (λ y, sy_name y < tag_value dyns DT_STRSZ) table → table_ends (tag_value dyns DT_STRSZ) rest →
  exports base dyns (table ++ rest) = exported_as base (strings_base base dyns) <$> filter exported table.
Proof.
  intros Ht Hr. unfold exports. rewrite before_end_table by done.
  rewrite (list_filter_iff export_ok exported) by apply exported_ok.
  apply list_fmap_ext. intros i y _. unfold export_details, exported_as. by destruct (info_parts y) as [-> ->].
Qed.

(** C21: enumerating exports calls the callback on exactly the exported
    functions and objects of the dynamic symbol table.  The image is in memory
    and its dynamic section names its symbol and string tables, relocated or
    not.  The number of symbols is not recorded: [table] are the symbols, all
    with names inside the string table, and [rest] what the remainder of the
    segment looks like when it is read as symbols; what follows the table must
    not look like one ([table_ends]), since the loop stops at the first name
    past the strings.  Then the call is the same computation as calling the
    callback, until it declines, on the symbols of [table] that are defined, are
    a function or an object, and are global or weak, in order, with their
    absolute names and addresses; local symbols and those of other types (such
    as indirect functions and thread-local ones) are left out. *)
Theorem enumerate_exports_correct {S} mem func base h phdrs dyns di dp table rest (s : S) :
  image_at mem base h phdrs →
  list_find (λ p, ph_type p = PT_DYNAMIC) phdrs = Some (di, dp) →
  table_at mem dyn_fields DYN_SIZE (base + ph_vaddr dp) dyns →
  ph_filesz dp / DYN_SIZE = zlen dyns →
  tag_value dyns DT_SYMTAB ≠ 0 → tag_value dyns DT_STRTAB ≠ 0 → tag_value dyns DT_STRSZ ≠ 0 →
  num_symbols base phdrs dyns = zlen (table ++ rest) →
  table_at mem sym_fields SYM_SIZE (symbols_base base dyns) (table ++ rest) →
  Forall (λ y, sy_name y < tag_value dyns DT_STRSZ) table → table_ends (tag_value dyns DT_STRSZ) rest →
  frida_elf_enumerate_exports mem func base s =
  until_false func (exported_as base (strings_base base dyns) <$> filter exported table) s.
Proof.
  intros Hi Hd Hy Hn H1 H2 H3 Hc Ht Hin Hend. rewrite <- (exports_of_table base dyns table rest) by done.
  by apply (exports_run mem func base h phdrs dyns di dp (table ++ rest)).
Qed.

Lemma enumerate_exports_correct_witness :
  frida_elf_enumerate_exports demo_mem (collect 9) demo_base [] =
    Ret (tt, [mk_details 0x10185 0x11000 2 1; mk_details 0x1018c 0x12000 1 2]) ∧
  frida_elf_enumerate_exports demo_mem (collect 9) demo_base [] =
    until_false (collect 9) (exported_as demo_base 0x10180 <$> filter exported (take 4 demo_syms)) [].
Proof.
  split; [vm_compute; reflexivity|].
  apply (enumerate_exports_correct demo_mem (collect 9) demo_base demo_ehdr demo_phdrs demo_dyns
    1%nat (mk_phdr PT_DYNAMIC 6 0x100 0x100 0x100 64 64 8) (take 4 demo_syms) (drop 4 demo_syms) []);
    [apply demo_image|vm_compute; reflexivity|apply table_check_ok; vm_compute; reflexivity|
     vm_compute; reflexivity|vm_compute; discriminate|vm_compute; discriminate|
     vm_compute; discriminate|vm_compute; reflexivity|
     apply table_check_ok; vm_compute; reflexivity|repeat constructor|vm_compute; discriminate].
Defined.

(** enumerating symbols calls the callback on exactly the defined functions
    and objects of the first symbol table section, in order, relative to the
    given load address and with names in the linked string section, until it
    declines. *)
Theorem enumerate_symbols_correct {S} mem func base h phdrs shdrs hd strs syms loaded_base (s : S) :
  image_at mem base h phdrs → symtab_at mem base h shdrs hd strs syms →
  frida_elf_enumerate_symbols mem func base loaded_base s =
  until_false func (symbol_details (u64 (base + se_offset strs)) loaded_base <$>
                    filter symbol_ok syms) s.
Proof. intros Him Hsa. by apply (symbols_run mem func base h phdrs shdrs hd strs syms). Qed.

Lemma enumerate_symbols_correct_witness :
  frida_elf_enumerate_symbols demo_mem (collect 3) demo_base 0x500000 [] =
    Ret (tt, [mk_details 0x10185 0x501000 2 1; mk_details 0x10189 0x501010 2 0;
              mk_details 0x1018c 0x502000 1 2]) ∧
  frida_elf_enumerate_symbols demo_mem (collect 3) demo_base 0x500000 [] =
  until_false (collect 3) (symbol_details (u64 (demo_base + 0x180)) 0x500000 <$>
                    filter symbol_ok demo_syms) [].
Proof.
  split; [vm_compute; reflexivity|].
  apply (enumerate_symbols_correct demo_mem (collect 3) demo_base demo_ehdr demo_phdrs demo_shdrs
    (mk_shdr 0 SHT_SYMTAB 0 0 0x200 120 1 0 8 24) (mk_shdr 0 3 0 0 0x180 32 0 0 1 0) demo_syms);
    [apply demo_image|].
  constructor; try (apply table_check_ok; vm_compute; reflexivity);
    [reflexivity|exists 0%nat; reflexivity|vm_compute; discriminate|reflexivity|
     vm_compute; reflexivity|vm_compute; reflexivity|vm_compute; discriminate].
Defined.

(** the soname is found.  For an image in memory with a dynamic section,
    [frida_elf_query_soname] returns the address of the name given by the last
    DT_SONAME entry in the string table given by the last DT_STRTAB entry,
    relocating the latter when it is still an offset, and NULL when either
    entry is missing. *)
Theorem query_soname_correct {S} mem base h phdrs dyns di dp (s : S) :
  image_at mem base h phdrs →
  list_find (λ p, ph_type p = PT_DYNAMIC) phdrs = Some (di, dp) →
  table_at mem dyn_fields DYN_SIZE (base + ph_vaddr dp) dyns →
  ph_filesz dp / DYN_SIZE = zlen dyns →
  let soname := tag_value dyns DT_SONAME in
  let strtab := tag_value dyns DT_STRTAB in
  frida_elf_query_soname mem base s =
  Ret (if orb (soname =? 0) (strtab =? 0) then 0
       else u64 ((if strtab <? base then u64 (strtab + base) else strtab) + soname), s).
Proof.
  intros Him Hdyn Hdyns Hnum soname strtab. pose proof (dp_lookup phdrs dp di Hdyn) as Hdp.
  unfold frida_elf_query_soname, bind at 1.
  rewrite (find_program_header_ok mem base h phdrs Him), Hdyn. unfold bind at 1, p_filesz.
  rewrite (phdr_field mem base h phdrs Him di dp 5 8 (ph_filesz dp)) by done.
  unfold bind at 1, p_vaddr.
  rewrite (phdr_field mem base h phdrs Him di dp 3 8 (ph_vaddr dp)) by done.
  rewrite Hnum. unfold zlen. rewrite Nat2Z.id. unfold bind at 1. cbn zeta.
  rewrite (for_all_fold _ (λ a (d : Z * Z),
    (if d.1 =? DT_SONAME then d.2 else a.1, if d.1 =? DT_STRTAB then d.2 else a.2)) dyns).
  - set (r := foldl _ _ _).
    assert (E1 : r.1 = soname) by (subst r; apply (foldl_project _ _ fst); done).
    assert (E2 : r.2 = strtab) by (subst r; apply (foldl_project _ _ snd); done).
    destruct r as [r1 r2]. cbn in E1, E2. subst r1 r2. by destruct (_ || _).
  - intros i e [a b] t He. rewrite u64_add_l. unfold bind, d_tag, d_ptr. rewrite load_wrap0.
    destruct (dyn_loads mem base dyns dp Hdyns i e t He) as [E1 E2]. rewrite E1. cbn [fst snd].
    destruct (Z.eqb_spec e.1 DT_SONAME) as [E|].
    { rewrite load_wrap, E2, E. done. }
    destruct (e.1 =? DT_STRTAB); [|done]. by rewrite load_wrap, E2.
Qed.

Lemma query_soname_correct_witness :
  frida_elf_query_soname demo_mem demo_base tt = Ret (0, tt) ∧
  frida_elf_query_soname demo_mem demo_base tt =
  Ret (if orb (tag_value demo_dyns DT_SONAME =? 0) (tag_value demo_dyns DT_STRTAB =? 0) then 0
       else u64 ((if tag_value demo_dyns DT_STRTAB <? demo_base
                  then u64 (tag_value demo_dyns DT_STRTAB + demo_base)
                  else tag_value demo_dyns DT_STRTAB) + tag_value demo_dyns DT_SONAME), tt).
Proof.
  split; [vm_compute; reflexivity|].
  apply (query_soname_correct demo_mem demo_base demo_ehdr demo_phdrs demo_dyns
    1%nat (mk_phdr PT_DYNAMIC 6 0x100 0x100 0x100 64 64 8) tt);
    [apply demo_image|vm_compute; reflexivity|apply table_check_ok; vm_compute; reflexivity|
     vm_compute; reflexivity].
Defined.

(** an image without a dynamic section is fatal.  When no program header
    has type PT_DYNAMIC and nothing is mapped near address 0, looking up the
    dynamic section, the soname or the exports reads through the NULL pointer
    that [frida_find_program_header_by_type] returned. *)
Theorem missing_dynamic_crashes {S} mem func base h phdrs (s : S) :
  image_at mem base h phdrs → Forall (λ p, ph_type p ≠ PT_DYNAMIC) phdrs →
  (∀ a, 0 ≤ a < 4096 → mem a = None) →
  frida_elf_find_dynamic_section mem base s = Crash ∧
  frida_elf_query_soname mem base s = Crash ∧
  frida_elf_enumerate_exports mem func base s = Crash.
Proof.
  intros Him Hno Hnull.
  assert (Hf : ∀ t : S, frida_find_program_header_by_type mem base PT_DYNAMIC t = Ret (0, t)).
  { intros t. rewrite (find_program_header_ok mem base h phdrs Him).
    destruct (list_find _ phdrs) as [[i p]|] eqn:E; [|done].
    apply list_find_Some in E as (Hp & Ht & _). by apply (Forall_lookup_1 _ _ _ _ Hno Hp) in Ht. }
  assert (Hl : ∀ a n (t : S), 0 ≤ a < 4096 → load mem (Datatypes.S n) a t = Crash).
  { intros a n t Ha. unfold load. cbn [load_bytes]. rewrite u64_small by lia. by rewrite Hnull. }
  unfold frida_elf_find_dynamic_section, frida_elf_query_soname, frida_elf_enumerate_exports,
    collect_dynamic, bind, p_vaddr, p_filesz. rewrite !Hf, !Hl by lia. done.
Qed.

Definition demo_static : list phdr := [mk_phdr PT_LOAD 5 0 0 0 0x278 0x278 4096].
Definition demo_static_mem : Z → option Z :=
  mem_of [(demo_base + 32, encode_fields (ehdr_fields (mk_ehdr 64 0 0 64 56 1 64 0 0)));
          (demo_base + 64, concat (encode_fields <$> (phdr_fields <$> demo_static)))].

Lemma missing_dynamic_crashes_witness :
  frida_elf_find_dynamic_section demo_static_mem demo_base tt = Crash ∧
  frida_elf_query_soname demo_static_mem demo_base tt = Crash ∧
  frida_elf_enumerate_exports demo_static_mem (λ _, ret true) demo_base tt = Crash.
Proof.
  apply (missing_dynamic_crashes demo_static_mem (λ _, ret true) demo_base
    (mk_ehdr 64 0 0 64 56 1 64 0 0) demo_static tt).
  - constructor; [apply load_bytes_inv; vm_compute; reflexivity|
      apply fields_check; vm_compute; reflexivity|reflexivity|vm_compute; reflexivity|
      apply table_check_ok; vm_compute; reflexivity].
  - by repeat constructor.
  - intros a Ha. unfold demo_static_mem, mem_of, demo_base.
    destruct (Z.leb_spec (0x10000 + 32) a); [lia|].
    destruct (Z.leb_spec (0x10000 + 64) a); [lia|]. done.
Defined.

(** ** The load base *)
Section base.
Context (mem : Z → option Z) (table page_size : Z).

Definition base_step (base : Z) (p : phdr) : Z :=
  let base := if ph_type p =? PT_PHDR then u64 (table - ph_offset p) else base in
  if andb (ph_type p =? PT_LOAD) (andb (ph_offset p =? 0) (base =? 0))
  then ph_vaddr p else base.

Lemma compute_base_fold {S} stride (l : list phdr) (s : S) :
  table_at mem phdr_fields stride table l →
  frida_elf_compute_base_from_phdrs mem table stride (zlen l) page_size s =
  let base := foldl base_step 0 l in
  Ret (if base =? 0 then FRIDA_ELF_PAGE_START table page_size else base, s).
Proof.
  intros Ht. unfold frida_elf_compute_base_from_phdrs, zlen. rewrite Nat2Z.id.
  unfold bind at 1. rewrite (for_all_fold _ base_step l); [done|].
  intros i p base t Hp. unfold p_type, p_offset, p_vaddr, bind. rewrite load_wrap0.
  assert (E0 : load mem 4 (table + Z.of_nat i * stride) t = Ret (ph_type p, t)).
  { rewrite <- (Z.add_0_r (table + Z.of_nat i * stride)).
    exact (table_field mem phdr_fields stride table l i p 0 4 (ph_type p) t Ht Hp eq_refl). }
  rewrite E0.
  assert (E : ∀ t : S, load mem 8 (u64 (table + Z.of_nat i * stride) + 8) t = Ret (ph_offset p, t)).
  { intros t'. rewrite load_wrap.
    exact (table_field mem phdr_fields stride table l i p 2 8 (ph_offset p) t' Ht Hp eq_refl). }
  assert (E' : load mem 8 (u64 (table + Z.of_nat i * stride) + 16) t = Ret (ph_vaddr p, t)).
  { rewrite load_wrap.
    exact (table_field mem phdr_fields stride table l i p 3 8 (ph_vaddr p) t Ht Hp eq_refl). }
  unfold base_step. destruct (ph_type p =? PT_PHDR).
  - rewrite E. unfold ret. destruct (ph_type p =? PT_LOAD); cbn [andb]; [|done].
    rewrite E. by destruct (andb _ _).
  - unfold ret. destruct (ph_type p =? PT_LOAD); cbn [andb]; [|done].
    rewrite E. by destruct (andb _ _).
Qed.

Lemma fold_base_phdr base off (l : list phdr) : ∀ a,
  u64 (table - off) = base → base ≠ 0 →
  Forall (λ p, ph_type p = PT_PHDR → ph_offset p = off) l →
  a = base ∨ Exists (λ p, ph_type p = PT_PHDR) l → foldl base_step a l = base.
Proof.
  induction l as [|p l IH]; intros a Hb Hne Hall Hex; cbn.
  { destruct Hex as [?|Hex]; [done|by apply Exists_nil in Hex]. }
  apply Forall_cons in Hall as [Hp Hall]. apply IH; try done. unfold base_step.
  destruct (Z.eqb_spec (ph_type p) PT_PHDR) as [E|E].
  - left. rewrite Hp, Hb, E by done. done.
  - destruct Hex as [->|Hex].
    + left. rewrite (proj2 (Z.eqb_neq base 0) Hne), !andb_false_r. done.
    + right. apply Exists_cons in Hex as [?|?]; done.
Qed.

Lemma fold_base_load (l : list phdr) : ∀ a,
  Forall (λ p, ph_type p ≠ PT_PHDR) l →
  foldl base_step a l =
  if decide (a ≠ 0) then a else
  match list_find (λ p, ph_type p = PT_LOAD ∧ ph_offset p = 0 ∧ ph_vaddr p ≠ 0) l with
  | Some (_, p) => ph_vaddr p
  | None => 0
  end.
Proof.
  induction l as [|p l IH]; intros a Hall; cbn.
  { case_decide; [done|lia]. }
  apply Forall_cons in Hall as [Hp Hall]. rewrite IH by done. unfold base_step.
  rewrite (proj2 (Z.eqb_neq _ _) Hp).
  destruct (Z.eqb_spec (ph_type p) PT_LOAD), (Z.eqb_spec (ph_offset p) 0), (Z.eqb_spec a 0);
    cbn [andb]; repeat case_decide; try (lia || tauto || done);
    try by destruct (list_find _ l) as [[]|].
Qed.
End base.

(** the load base comes from the program headers.  With the header table
    at [base + off] and every PT_PHDR entry recording [off], the result is
    [base], wherever the entry stands; without PT_PHDR entries it is the address
    of the first loaded segment of offset 0 that has one, and failing that the
    start of the page the table is in. *)
Theorem compute_base_correct {S} mem table stride (l : list phdr) page_size (s : S) :
  table_at mem phdr_fields stride table l →
  (∀ base off, 0 < base < 2 ^ 64 → table = base + off →
     Forall (λ p, ph_type p = PT_PHDR → ph_offset p = off) l →
     Exists (λ p, ph_type p = PT_PHDR) l →
     frida_elf_compute_base_from_phdrs mem table stride (zlen l) page_size s = Ret (base, s)) ∧
  (Forall (λ p, ph_type p ≠ PT_PHDR) l →
   frida_elf_compute_base_from_phdrs mem table stride (zlen l) page_size s =
   Ret (match list_find (λ p, ph_type p = PT_LOAD ∧ ph_offset p = 0 ∧ ph_vaddr p ≠ 0) l with
        | Some (_, p) => ph_vaddr p
        | None => FRIDA_ELF_PAGE_START table page_size
        end, s)).
Proof.
  intros Ht. rewrite (compute_base_fold mem table page_size stride l s Ht). cbn zeta. split.
  - intros base off Hb Htab Hall Hex.
    rewrite (fold_base_phdr table base off); [|subst table|lia|done|by right].
    + by rewrite (proj2 (Z.eqb_neq base 0)) by lia.
    + replace (base + off - off) with base by lia. apply u64_small. lia.
  - intros Hall. rewrite fold_base_load by done. rewrite decide_False by lia.
    destruct (list_find _ l) as [[i p]|] eqn:E; [|done].
    apply list_find_Some in E as (_ & (_ & _ & Hv) & _).
    by rewrite (proj2 (Z.eqb_neq _ _) Hv).
Qed.

Lemma compute_base_correct_witness :
  frida_elf_compute_base_from_phdrs
    (mem_of [(0x7f040, concat (encode_fields <$> (phdr_fields <$>
       [mk_phdr PT_LOAD 5 0 0x400 0 0 0 0; mk_phdr PT_PHDR 4 64 64 64 0 0 8])))])
    0x7f040 56 2 4096 tt = Ret (0x7f000, tt).
Proof.
  set (l := [mk_phdr PT_LOAD 5 0 0x400 0 0 0 0; mk_phdr PT_PHDR 4 64 64 64 0 0 8]).
  refine (proj1 (compute_base_correct _ 0x7f040 56 l 4096 tt _) 0x7f000 64 _ _ _ _).
  - apply table_check_ok. vm_compute. reflexivity.
  - lia.
  - reflexivity.
  - repeat constructor; cbn; discriminate || reflexivity.
  - right. by left.
Defined.
