(* ===== verification/Bootstrap.v ===== *)
(** The first stage of Linux injection (src/src/linux/helpers/bootstrapper.c
    and inject-context.h), which runs inside the target without a libc of its
    own: finding the dynamic linker and libc of the process, collecting the
    addresses of the functions the loader needs, and loading a libc into a
    static process. *)
From S2P Require Import Prelude Posix Stdio ElfParser ElfCorrect.

(** *** inject-context.h *)
Definition FRIDA_BOOTSTRAP_ALLOCATION_SUCCESS : Z := 0.
Definition FRIDA_BOOTSTRAP_ALLOCATION_ERROR : Z := 1.
Definition FRIDA_BOOTSTRAP_SUCCESS : Z := 2.
Definition FRIDA_BOOTSTRAP_AUXV_NOT_FOUND : Z := 3.
Definition FRIDA_BOOTSTRAP_TOO_EARLY : Z := 4.
Definition FRIDA_BOOTSTRAP_LIBC_LOAD_ERROR : Z := 5.
Definition FRIDA_BOOTSTRAP_LIBC_UNSUPPORTED : Z := 6.

Inductive FridaRtldFlavor :=
| FRIDA_RTLD_UNKNOWN
| FRIDA_RTLD_NONE
| FRIDA_RTLD_GLIBC
| FRIDA_RTLD_UCLIBC
| FRIDA_RTLD_MUSL
| FRIDA_RTLD_ANDROID.
#[export] Instance flavor_eq_dec : EqDecision FridaRtldFlavor.
Proof. solve_decision. Defined.

Record FridaBootstrapContext := mk_boot_ctx {
  bc_allocation_base : Z;
  bc_allocation_size : Z;
  bc_page_size : Z;
  bc_fallback_ld : list Z;
  bc_fallback_libc : list Z;
  bc_rtld_flavor : FridaRtldFlavor;
  bc_rtld_base : Z;
  bc_r_brk : Z;
  bc_enable_ctrlfds : bool;
  bc_ctrlfds : Z * Z
}.

(** The function pointers of [FridaLibcApi], by field. *)
Inductive api_fn :=
| Fprintf | Fsprintf | Fmmap | Fmunmap | Fsocket | Fsocketpair | Fconnect | Frecvmsg | Fsend
| Ffcntl | Fclose | Fpthread_create | Fpthread_detach | Fdlopen | Fdlclose | Fdlsym | Fdlerror.
#[export] Instance api_fn_eq_dec : EqDecision api_fn.
Proof. solve_decision. Defined.
Definition all_fns : list api_fn :=
  [Fprintf; Fsprintf; Fmmap; Fmunmap; Fsocket; Fsocketpair; Fconnect; Frecvmsg; Fsend;
   Ffcntl; Fclose; Fpthread_create; Fpthread_detach; Fdlopen; Fdlclose; Fdlsym; Fdlerror].

Record FridaLibcApi := mk_api { api : api_fn → Z; dlopen_flags : Z }.
Definition set_fn (f : api_fn) (v : Z) (a : FridaLibcApi) : FridaLibcApi :=
  mk_api (λ g, if decide (g = f) then v else api a g) (dlopen_flags a).
Definition or_flags (v : Z) (a : FridaLibcApi) : FridaLibcApi :=
  mk_api (api a) (Z.lor (dlopen_flags a) v).

Definition RTLD_LAZY : Z := 1.
Definition FRIDA_GLIBC_RTLD_DLOPEN : Z := 0x80000000.

Record FridaCollectLibcApiContext := mk_collect {
  total_missing : Z;
  cc_flavor : FridaRtldFlavor;
  cc_api : FridaLibcApi
}.

Record FridaProcessLayout := mk_layout {
  lo_phdrs : Z;
  lo_phdr_size : Z;
  lo_phdr_count : Z;
  lo_interpreter : Z;
  lo_rtld_flavor : FridaRtldFlavor;
  lo_r_debug : Z;
  lo_r_brk : Z;
  lo_libc : Z
}.
Definition empty_layout : FridaProcessLayout :=
  mk_layout 0 0 0 0 FRIDA_RTLD_UNKNOWN 0 0 0.
Definition set_flavor (v : FridaRtldFlavor) (l : FridaProcessLayout) : FridaProcessLayout :=
  mk_layout (lo_phdrs l) (lo_phdr_size l) (lo_phdr_count l) (lo_interpreter l) v
    (lo_r_debug l) (lo_r_brk l) (lo_libc l).
Definition set_r_debug (v : Z) (l : FridaProcessLayout) : FridaProcessLayout :=
  mk_layout (lo_phdrs l) (lo_phdr_size l) (lo_phdr_count l) (lo_interpreter l)
    (lo_rtld_flavor l) v (lo_r_brk l) (lo_libc l).
Definition set_r_brk (v : Z) (l : FridaProcessLayout) : FridaProcessLayout :=
  mk_layout (lo_phdrs l) (lo_phdr_size l) (lo_phdr_count l) (lo_interpreter l)
    (lo_rtld_flavor l) (lo_r_debug l) v (lo_libc l).
Definition set_libc (v : Z) (l : FridaProcessLayout) : FridaProcessLayout :=
  mk_layout (lo_phdrs l) (lo_phdr_size l) (lo_phdr_count l) (lo_interpreter l)
    (lo_rtld_flavor l) (lo_r_debug l) (lo_r_brk l) v.

(** *** C strings

    A C string is the list of its bytes before the NUL. *)
Fixpoint strchr (c : Z) (l : list Z) : option nat :=
  match l with
  | [] => None
  | x :: r => if x =? 0 then None else if x =? c then Some O else S <$> strchr c r
  end.
(** The part after the last occurrence. *)
Fixpoint after_last (c : Z) (l : list Z) : option (list Z) :=
  match l with
  | [] => None
  | x :: r =>
      match after_last c r with
      | Some t => Some t
      | None => if x =? c then Some r else None
      end
  end.
Definition strcmp_eq (a b : list Z) : bool := bool_decide (a = b).

Fixpoint frida_parse_size_from (result : Z) (str : list Z) : Z :=
  match str with
  | [] => result
  | ch :: r =>
      if andb (48 <=? ch) (ch <=? 57)
      then frida_parse_size_from (u64 (result * 16 + (ch - 48))) r
      else if andb (97 <=? ch) (ch <=? 102)
      then frida_parse_size_from (u64 (result * 16 + (10 + (ch - 97)))) r
      else result
  end.
Definition frida_parse_size (str : list Z) : Z := frida_parse_size_from 0 str.

(** [strncmp (str, prefix, strlen (prefix)) == 0]. *)
Fixpoint frida_str_has_prefix (str prefix : list Z) {struct prefix} : bool :=
  match prefix, str with
  | [], _ => true
  | c :: p, x :: s => andb (x =? c) (frida_str_has_prefix s p)
  | _ :: _, [] => false
  end.
Definition frida_str_has_suffix (str suffix : list Z) : bool :=
  if zlen str <? zlen suffix then false
  else strcmp_eq (zdrop (zlen str - zlen suffix) str) suffix.

Definition SLASH : Z := 47.

Definition frida_infer_rtld_flavor_from_filename (name : list Z) : FridaRtldFlavor :=
  if frida_str_has_prefix name (bytes_of "ld-linux-") then FRIDA_RTLD_GLIBC
  else if frida_str_has_prefix name (bytes_of "ld-uClibc") then FRIDA_RTLD_UCLIBC
  else if orb (strcmp_eq name (bytes_of "libc.so"))
            (orb (frida_str_has_prefix name (bytes_of "libc.musl"))
                 (frida_str_has_prefix name (bytes_of "ld-musl"))) then FRIDA_RTLD_MUSL
  else if strcmp_eq name (bytes_of "ld-android.so") then FRIDA_RTLD_ANDROID
  else if strcmp_eq name (bytes_of "linker") then FRIDA_RTLD_ANDROID
  else if strcmp_eq name (bytes_of "linker64") then FRIDA_RTLD_ANDROID
  else FRIDA_RTLD_UNKNOWN.

Definition frida_path_is_libc (path : list Z) (rtld_flavor : FridaRtldFlavor) : bool :=
  if decide (rtld_flavor = FRIDA_RTLD_ANDROID) then
    orb (frida_str_has_suffix path (bytes_of "/lib/libc.so"))
      (orb (frida_str_has_suffix path (bytes_of "/lib64/libc.so"))
           (frida_str_has_suffix path (bytes_of "/bionic/libc.so")))
  else
    let name := match after_last SLASH path with Some n => n | None => path end in
    orb (frida_str_has_prefix name (bytes_of "libc.so"))
      (orb (frida_str_has_prefix name (bytes_of "libc.musl"))
           (frida_str_has_prefix name (bytes_of "ld-musl"))).

(** *** Collecting symbols *)

(** The [FRIDA_TRY_COLLECT] chain: the fields in order, the name each takes and
    the flags it adds. *)
Definition libc_names : list (api_fn * list Z * Z) :=
  [(Fprintf, bytes_of "printf", 0); (Fsprintf, bytes_of "sprintf", 0);
   (Fmmap, bytes_of "mmap", 0); (Fmunmap, bytes_of "munmap", 0);
   (Fsocket, bytes_of "socket", 0); (Fsocketpair, bytes_of "socketpair", 0);
   (Fconnect, bytes_of "connect", 0); (Frecvmsg, bytes_of "recvmsg", 0);
   (Fsend, bytes_of "send", 0); (Ffcntl, bytes_of "fcntl", 0); (Fclose, bytes_of "close", 0);
   (Fpthread_create, bytes_of "pthread_create", 0);
   (Fpthread_detach, bytes_of "pthread_detach", 0)].
Definition dl_names : list (api_fn * list Z * Z) :=
  [(Fdlopen, bytes_of "dlopen", 0);
   (Fdlopen, bytes_of "__libc_dlopen_mode", FRIDA_GLIBC_RTLD_DLOPEN);
   (Fdlclose, bytes_of "dlclose", 0); (Fdlclose, bytes_of "__libc_dlclose", 0);
   (Fdlsym, bytes_of "dlsym", 0); (Fdlsym, bytes_of "__libc_dlsym", 0);
   (Fdlerror, bytes_of "dlerror", 0)].
Definition linker_names : list (api_fn * list Z * Z) :=
  [(Fdlopen, bytes_of "__loader_dlopen", 0); (Fdlclose, bytes_of "__loader_dlclose", 0);
   (Fdlsym, bytes_of "__loader_dlsym", 0); (Fdlerror, bytes_of "__loader_dlerror", 0);
   (Fdlopen, bytes_of "__dl__Z8__dlopenPKciPKv", 0);
   (Fdlclose, bytes_of "__dl__Z9__dlclosePv", 0);
   (Fdlsym, bytes_of "__dl__Z7__dlsymPvPKcPKv", 0);
   (Fdlerror, bytes_of "__dl__Z9__dlerrorv", 0)].

Fixpoint try_collect (names : list (api_fn * list Z * Z)) (name : list Z) (address : Z)
    (ctx : FridaCollectLibcApiContext) : FridaCollectLibcApiContext :=
  match names with
  | [] => ctx
  | (e, n, flags) :: r =>
      if andb (api (cc_api ctx) e =? 0) (strcmp_eq name n) then
        mk_collect (total_missing ctx - 1) (cc_flavor ctx)
          (or_flags flags (set_fn e address (cc_api ctx)))
      else try_collect r name address ctx
  end.

Definition frida_collect_libc_symbol (name : list Z) (details : FridaElfExportDetails)
    (ctx : FridaCollectLibcApiContext) : bool * FridaCollectLibcApiContext :=
  if negb (d_sym_type details =? STT_FUNC) then (true, ctx)
  else
    let names := if decide (cc_flavor ctx = FRIDA_RTLD_ANDROID) then libc_names
                 else libc_names ++ dl_names in
    let ctx := try_collect names name (d_address details) ctx in
    (0 <? total_missing ctx, ctx).

Definition frida_collect_android_linker_symbol (name : list Z) (details : FridaElfExportDetails)
    (ctx : FridaCollectLibcApiContext) : bool * FridaCollectLibcApiContext :=
  if negb (d_sym_type details =? STT_FUNC) then (true, ctx)
  else
    let ctx := try_collect linker_names name (d_address details) ctx in
    (0 <? total_missing ctx, ctx).

Definition frida_collect_interpreter_symbol (name : list Z) (details : FridaElfExportDetails)
    (layout : FridaProcessLayout) : bool * FridaProcessLayout :=
  let layout :=
    if andb (lo_r_debug layout =? 0) (andb (d_sym_type details =? STT_OBJECT)
         (orb (strcmp_eq name (bytes_of "_r_debug"))
              (strcmp_eq name (bytes_of "__dl__r_debug"))))
    then set_r_debug (d_address details) layout else layout in
  let layout :=
    if andb (lo_r_brk layout =? 0) (andb (d_sym_type details =? STT_FUNC)
         (orb (strcmp_eq name (bytes_of "_dl_debug_state"))
              (orb (strcmp_eq name (bytes_of "__dl_rtld_db_dlactivity"))
                   (strcmp_eq name (bytes_of "rtld_db_dlactivity")))))
    then set_r_brk (d_address details) layout else layout in
  (negb (andb (negb (lo_r_debug layout =? 0)) (negb (lo_r_brk layout =? 0))), layout).

(** *** System calls

    The bootstrapper calls the kernel directly; [Kernel] gives open, read,
    lseek and close, [BootKernel] the rest: the memory of the process, mappings
    (an error is [MAP_FAILED]), prctl, socketpair and the target's own
    functions, called through their addresses. *)
Class BootKernel (K : Type) `{Kernel K} := {
  k_mem : K → Z → option Z;
  k_store : Z → list Z → K → option K;
  k_mmap : Z → Z → Z → Z → Z → Z → K → sysret Z * K;
  k_munmap : Z → Z → K → K;
  k_prctl : Z → Z → K → Z * K;
  k_socketpair : K → sysret (Z * Z) * K;
  k_dlopen : Z → list Z → Z → Z → K → Z * K;
  k_dlsym : Z → Z → list Z → Z → K → Z * K
}.

Definition MAP_FAILED : Z := 2 ^ 64 - 1.
Definition PROT_READ : Z := 1.
Definition PROT_WRITE : Z := 2.
Definition PROT_EXEC : Z := 4.
Definition MAP_PRIVATE : Z := 2.
Definition MAP_FIXED : Z := 16.
Definition MAP_ANONYMOUS : Z := 32.
Definition PR_GET_DUMPABLE : Z := 3.
Definition PR_SET_DUMPABLE : Z := 4.

Definition AT_PHDR : Z := 3.
Definition AT_PHENT : Z := 4.
Definition AT_PHNUM : Z := 5.
Definition AT_PAGESZ : Z := 6.
Definition AT_BASE : Z := 7.
Definition AT_ENTRY : Z := 9.
Definition AT_RANDOM : Z := 25.
Definition AT_EXECFN : Z := 31.
(** [sizeof (Elf64_auxv_t)]. *)
Definition AUXV_SIZE : Z := 16.

Definition PARSE_BUFFER : Z := 2048.

(** A parser is given the unread bytes of the buffer; it returns how many it
    consumed, 0 to ask for more and -1 to stop. *)
Definition FridaParseFunc (K U : Type) : Type := list Z → U → M K (Z * U).

Section boot.
Context {K : Type} `{BootKernel K}.

(** A system call; [None] is -1. *)
Definition sys {A} (c : K → sysret A * K) : M K (option A) := λ k,
  match c k with
  | (SysOk a, k') => Ret (Some a, k')
  | (SysErr _, k') => Ret (None, k')
  end.
Definition boot_open (path : list Z) : M K (option Z) := sys (k_open path O_RDONLY None).
Definition boot_close (fd : Z) : M K unit := do! sys (k_close fd) in ret tt.
Definition boot_mmap (addr length prot flags fd off : Z) : M K Z :=
  let! r := sys (k_mmap addr length prot flags fd off) in
  ret (match r with Some p => p | None => MAP_FAILED end).
Definition boot_munmap (addr length : Z) : M K unit := modify (k_munmap addr length).
Definition frida_prctl (option arg2 : Z) : M K Z := λ k, Ret (k_prctl option arg2 k).
Definition rd (n : nat) (a : Z) : M K Z := λ k, load (k_mem k) n a k.
Definition store (a : Z) (bs : list Z) : M K unit := λ k,
  match k_store a bs k with Some k' => Ret (tt, k') | None => Crash end.

(** The C string at an address. *)
Fixpoint cstr (fuel : nat) (a : Z) : M K (list Z) :=
  match fuel with
  | O => λ _, Stuck
  | S n =>
      let! b := rd 1 a in
      if b =? 0 then ret [] else let! r := cstr n (a + 1) in ret (b :: r)
  end.

(** Run a symbol callback over an image with its own state [U]. *)
Definition with_symbols {U} (fuel : nat)
    (enumerate : ∀ S, (Z → option Z) → (FridaElfExportDetails → M S bool) → M S unit)
    (func : list Z → FridaElfExportDetails → U → bool * U) (u : U) : M K U := λ k,
  let callback : FridaElfExportDetails → M (U * K) bool := λ d '(u, k),
    match cstr fuel (d_sym_name d) k with
    | Ret (name, k) => let '(b, u) := func name d u in Ret (b, (u, k))
    | Failed => Failed
    | Crash => Crash
    | Stuck => Stuck
    end in
  match enumerate (U * K)%type (k_mem k) callback (u, k) with
  | Ret (_, (u, k)) => Ret (u, k)
  | Failed => Failed
  | Crash => Crash
  | Stuck => Stuck
  end.
Definition enumerate_exports {U} fuel (ehdr : Z)
    (func : list Z → FridaElfExportDetails → U → bool * U) (u : U) : M K U :=
  with_symbols fuel (λ S mem cb, frida_elf_enumerate_exports mem cb ehdr) func u.

(** The inner loop: parse from the cursor on.  [inl data] asks for more input
    with [data] left over, [inr] stops. *)
Definition parse_buffer {U} (fuel : nat) (parse : FridaParseFunc K U) (data : list Z) (u : U)
    : M K ((list Z + unit) * U) :=
  loop fuel (λ '(cursor, u),
    let! r := parse (zdrop cursor data) u in
    let '(n, u) := r in
    if n =? -1 then ret (inr (inr tt, u))
    else if n =? 0 then
      ret (inr (inl (if negb (cursor =? 0) then zdrop cursor data else []), u))
    else ret (inl (cursor + n, u))) (0, u).

Definition frida_parse_file {U} (fuel : nat) (path : list Z) (parse : FridaParseFunc K U) (u : U)
    : M K U :=
  let! fd := boot_open path in
  match fd with
  | None => ret u
  | Some fd =>
      let! u := loop fuel (λ '(data, u),
        let! r := sys (k_read fd (PARSE_BUFFER - zlen data - 1)) in
        let data := match r with Some bs => data ++ bs | None => data end in
        if zlen data =? 0 then ret (inr u)
        else
          let! r := parse_buffer fuel parse data u in
          let '(next, u) := r in
          match next with
          | inr _ => ret (inr u)
          | inl data => ret (inl (data, u))
          end) ([], u) in
      do! boot_close fd in
      ret u
  end.

Definition frida_parse_auxv_entry : FridaParseFunc K FridaProcessLayout := λ data l,
  if zlen data <? AUXV_SIZE then ret (0, l)
  else
    let a_type := le_value (zslice 0 8 data) in
    let a_val := le_value (zslice 8 16 data) in
    let l :=
      if a_type =? AT_PHDR then
        mk_layout a_val (lo_phdr_size l) (lo_phdr_count l) (lo_interpreter l)
          (lo_rtld_flavor l) (lo_r_debug l) (lo_r_brk l) (lo_libc l)
      else if a_type =? AT_PHENT then
        mk_layout (lo_phdrs l) (u16 a_val) (lo_phdr_count l) (lo_interpreter l)
          (lo_rtld_flavor l) (lo_r_debug l) (lo_r_brk l) (lo_libc l)
      else if a_type =? AT_PHNUM then
        mk_layout (lo_phdrs l) (lo_phdr_size l) (u16 a_val) (lo_interpreter l)
          (lo_rtld_flavor l) (lo_r_debug l) (lo_r_brk l) (lo_libc l)
      else if a_type =? AT_BASE then
        mk_layout (lo_phdrs l) (lo_phdr_size l) (lo_phdr_count l) a_val
          (lo_rtld_flavor l) (lo_r_debug l) (lo_r_brk l) (lo_libc l)
      else l in
    ret (AUXV_SIZE, l).

(** What the three maps parsers share: the first line of the data. *)
Definition maps_line {U} (f : list Z → U → M K (bool * U)) : FridaParseFunc K U := λ data u,
  match strchr NEWLINE data with
  | None => ret (0, u)
  | Some i =>
      let! r := f (take i data) u in
      let '(stop, u) := r in
      ret (if stop : bool then -1 else Z.of_nat i + 1, u)
  end.

(** The context is the base and the descriptor. *)
Definition frida_open_file_for_matching_maps_line : FridaParseFunc K (Z * Z) :=
  maps_line (λ line '(base, fd),
    if frida_parse_size line =? base then
      match strchr SLASH line with
      | Some i =>
          let! r := boot_open (drop i line) in
          ret (true, (base, match r with Some fd => fd | None => -1 end))
      | None => ret (false, (base, fd))
      end
    else ret (false, (base, fd))).

(** The context is the interpreter and the flavor. *)
Definition frida_try_infer_rtld_flavor_from_maps_line : FridaParseFunc K (Z * FridaRtldFlavor) :=
  maps_line (λ line '(interpreter, flavor),
    if frida_parse_size line =? interpreter then
      match after_last SLASH line with
      | Some filename => ret (true, (interpreter, frida_infer_rtld_flavor_from_filename filename))
      | None => crash
      end
    else ret (false, (interpreter, flavor))).

Definition frida_try_find_libc_from_maps_line : FridaParseFunc K FridaProcessLayout :=
  maps_line (λ line l,
    match strchr SLASH line with
    | Some i =>
        if frida_path_is_libc (drop i line) (lo_rtld_flavor l)
        then ret (true, set_libc (frida_parse_size line) l)
        else ret (false, l)
    | None => ret (false, l)
    end).

Definition maps : list Z := bytes_of "/proc/self/maps".

Definition frida_open_file_for_mapped_range_with_base (fuel : nat) (base : Z) : M K Z :=
  let! ctx := frida_parse_file fuel maps frida_open_file_for_matching_maps_line (base, -1) in
  ret ctx.2.

Definition frida_enumerate_module_symbols_on_disk {U} (fuel : nat) (loaded_base : Z)
    (func : list Z → FridaElfExportDetails → U → bool * U) (u : U) : M K U :=
  let! fd := frida_open_file_for_mapped_range_with_base fuel loaded_base in
  if fd =? -1 then ret u
  else
    let! r := sys (k_lseek fd 0 SEEK_END) in
    let size := match r with Some n => n | None => -1 end in
    let! elf := boot_mmap 0 (u64 size) PROT_READ MAP_PRIVATE fd 0 in
    let! u := with_symbols fuel
                (λ S mem cb, frida_elf_enumerate_symbols mem cb elf loaded_base) func u in
    do! boot_munmap elf (u64 size) in
    do! boot_close fd in
    ret u.

Definition frida_detect_rtld_flavor (fuel : nat) (interpreter : Z) : M K FridaRtldFlavor :=
  if interpreter =? 0 then ret FRIDA_RTLD_NONE
  else
    let! soname := (λ k, frida_elf_query_soname (k_mem k) interpreter k) in
    if negb (soname =? 0) then
      let! name := cstr fuel soname in
      ret (frida_infer_rtld_flavor_from_filename name)
    else
      let! ctx := frida_parse_file fuel maps frida_try_infer_rtld_flavor_from_maps_line
                    (interpreter, FRIDA_RTLD_UNKNOWN) in
      ret ctx.2.
End boot.

Definition ET_EXEC : Z := 2.
Definition DT_NULL : Z := 0.
Definition DT_INIT : Z := 12.
Definition DT_INIT_ARRAY : Z := 25.
Definition DT_PREINIT_ARRAY : Z := 32.

Section probe.
Context {K : Type} `{BootKernel K}.

(** Walk the linker's list of modules for libc; the links are the fields of
    [FridaLinkMap]. *)
Definition find_libc_in_link_map (fuel : nat) (map0 : Z) (flavor : FridaRtldFlavor) : M K Z :=
  loop fuel (λ map,
    if map =? 0 then ret (inr 0)
    else
      let! l_name := rd 8 (map + 8) in
      let! name := cstr fuel l_name in
      if frida_path_is_libc name flavor then
        let! l_addr := rd 8 map in ret (inr l_addr)
      else
        let! next := rd 8 (map + 24) in ret (inl next)) map0.

(** The initializer or entrypoint that will run first, from the program's
    dynamic section. *)
Definition earliest_initializer (fuel : nat) (entries addr_delta : Z) : M K Z :=
  loop fuel (λ '(entry, r_brk),
    let! tag := rd 8 entry in
    if tag =? DT_NULL then ret (inr r_brk)
    else
      let! r_brk :=
        (if tag =? DT_INIT then
           let! v := rd 8 (entry + 8) in ret (u64 (v + addr_delta))
         else if orb (tag =? DT_PREINIT_ARRAY) (tag =? DT_INIT_ARRAY) then
           if r_brk =? 0 then
             let! v := rd 8 (entry + 8) in
             let! val := rd 8 (u64 (v + addr_delta)) in
             ret (if andb (negb (val =? 0)) (negb (val =? 2 ^ 64 - 1)) then val else r_brk)
           else ret r_brk
         else ret r_brk) in
      ret (inl (u64 (entry + DYN_SIZE), r_brk))) (entries, 0).

Definition program_breakpoint (fuel : nat) (page_size program : Z) (l : FridaProcessLayout) : M K Z :=
  let! program_elf := (λ k, frida_elf_compute_base_from_phdrs (k_mem k) (lo_phdrs l)
                              (lo_phdr_size l) (lo_phdr_count l) page_size k) in
  let! e_type := rd 2 (program_elf + 16) in
  let addr_delta := if e_type =? ET_EXEC then 0 else program_elf in
  let! l_ld := rd 8 (program + 16) in
  let! entries :=
    (if negb (l_ld =? 0) then ret l_ld
     else (λ k, frida_elf_find_dynamic_section (k_mem k) program_elf k)) in
  let! r_brk := earliest_initializer fuel entries addr_delta in
  if r_brk =? 0 then
    let! e_entry := rd 8 (program_elf + 24) in ret (u64 (e_entry + addr_delta))
  else ret r_brk.

(** The part of [frida_probe_process] that uses the dynamic linker; the flag
    says whether to fall back on the maps file. *)
Definition probe_interpreter (fuel : nat) (page_size : Z) (l : FridaProcessLayout)
    : M K (bool * FridaProcessLayout) :=
  let! l := enumerate_exports fuel (lo_interpreter l) frida_collect_interpreter_symbol l in
  let! l :=
    (if orb (lo_r_debug l =? 0) (lo_r_brk l =? 0)
     then frida_enumerate_module_symbols_on_disk fuel (lo_interpreter l)
            frida_collect_interpreter_symbol l
     else ret l) in
  if lo_r_debug l =? 0 then ret (true, l)
  else
    let! r_map := rd 8 (lo_r_debug l + 8) in
    let! libc := find_libc_in_link_map fuel r_map (lo_rtld_flavor l) in
    let l := if libc =? 0 then l else set_libc libc l in
    let! l :=
      (if andb (lo_libc l =? 0) (negb (r_map =? 0)) then
         let! r_brk := program_breakpoint fuel page_size r_map l in
         ret (set_r_brk r_brk l)
       else ret l) in
    ret (false, l).

Definition frida_probe_process (fuel : nat) (page_size : Z) : M K (bool * FridaProcessLayout) :=
  let! previous_dumpable := frida_prctl PR_GET_DUMPABLE 0 in
  let change := andb (negb (previous_dumpable =? -1)) (negb (previous_dumpable =? 1)) in
  do! (if change then do! frida_prctl PR_SET_DUMPABLE 1 in ret tt else ret tt) in
  let! l := frida_parse_file fuel (bytes_of "/proc/self/auxv") frida_parse_auxv_entry
              empty_layout in
  do! (if change then do! frida_prctl PR_SET_DUMPABLE previous_dumpable in ret tt
       else ret tt) in
  if lo_phdrs l =? 0 then ret (false, l)
  else
    let! flavor := frida_detect_rtld_flavor fuel (lo_interpreter l) in
    let l := set_flavor flavor l in
    let! r :=
      (if negb (lo_interpreter l =? 0) then probe_interpreter fuel page_size l
       else ret (true, l)) in
    let '(use_proc_fallback, l) := r in
    let! l :=
      (if use_proc_fallback : bool
       then frida_parse_file fuel maps frida_try_find_libc_from_maps_line l
       else ret l) in
    ret (true, l).

(** *** Resolving the libc functions *)

(** Calls of the target's functions; a null function pointer is fatal. *)
Definition call_dlopen (a : FridaLibcApi) (name : list Z) (caller : Z) : M K Z :=
  if api a Fdlopen =? 0 then crash
  else λ k, Ret (k_dlopen (api a Fdlopen) name (dlopen_flags a) caller k).
Definition call_dlsym (a : FridaLibcApi) (handle : Z) (name : list Z) (caller : Z) : M K Z :=
  if api a Fdlsym =? 0 then crash
  else λ k, Ret (k_dlsym (api a Fdlsym) handle name caller k).

(** The libpthread fallback. *)
Definition resolve_pthread (c : FridaCollectLibcApiContext) : M K FridaCollectLibcApiContext :=
  let a := cc_api c in
  if andb (total_missing c =? 2)
       (andb (api a Fpthread_create =? 0) (api a Fpthread_detach =? 0)) then
    let pretend_caller_addr := api a Fclose in
    let! libpthread := call_dlopen a (bytes_of "libpthread.so.0") pretend_caller_addr in
    if negb (libpthread =? 0) then
      let! create := call_dlsym a libpthread (bytes_of "pthread_create") pretend_caller_addr in
      let a := set_fn Fpthread_create create a in
      let missing := total_missing c - (if create =? 0 then 0 else 1) in
      let! detach := call_dlsym a libpthread (bytes_of "pthread_detach") pretend_caller_addr in
      let a := set_fn Fpthread_detach detach a in
      let missing := missing - (if detach =? 0 then 0 else 1) in
      ret (mk_collect missing (cc_flavor c) a)
    else ret c
  else ret c.

Definition initial_collect (flavor : FridaRtldFlavor) : FridaCollectLibcApiContext :=
  mk_collect (if decide (flavor = FRIDA_RTLD_ANDROID) then 17 - 4 else 17) flavor
    (mk_api (λ _, 0) RTLD_LAZY).

(** glibc's private dlopen comes without dlerror. *)
Definition forgive_dlerror (c : FridaCollectLibcApiContext) : FridaCollectLibcApiContext :=
  if andb (0 <? total_missing c)
       (andb (negb (Z.land (dlopen_flags (cc_api c)) FRIDA_GLIBC_RTLD_DLOPEN =? 0))
             (api (cc_api c) Fdlerror =? 0))
  then mk_collect (total_missing c - 1) (cc_flavor c) (cc_api c) else c.

Definition frida_resolve_libc_apis (fuel : nat) (layout : FridaProcessLayout)
    : M K (bool * FridaLibcApi) :=
  let! c := enumerate_exports fuel (lo_libc layout) frida_collect_libc_symbol
              (initial_collect (lo_rtld_flavor layout)) in
  let! c := resolve_pthread (forgive_dlerror c) in
  if negb (total_missing c =? 0) then ret (false, cc_api c)
  else if decide (lo_rtld_flavor layout = FRIDA_RTLD_ANDROID) then
    let c := mk_collect 4 (cc_flavor c) (cc_api c) in
    let! c := enumerate_exports fuel (lo_interpreter layout)
                frida_collect_android_linker_symbol c in
    let! c :=
      (if total_missing c =? 4
       then frida_enumerate_module_symbols_on_disk fuel (lo_interpreter layout)
              frida_collect_android_linker_symbol c
       else ret c) in
    let found_all_or_none := orb (total_missing c =? 0) (total_missing c =? 4) in
    ret (found_all_or_none, cc_api c)
  else ret (true, cc_api c).
End probe.

(** *** Mapping an ELF file *)
Definition EHDR_SIZE : Z := 64.
Definition PHDR_SIZE : Z := 56.
Definition PF_X : Z := 1.
Definition PF_W : Z := 2.
Definition PF_R : Z := 4.

(** The [i]-th program header of the block read from the file. *)
Definition phdr_of (bs : list Z) : phdr :=
  mk_phdr (le_value (zslice 0 4 bs)) (le_value (zslice 4 8 bs)) (le_value (zslice 8 16 bs))
    (le_value (zslice 16 24 bs)) (le_value (zslice 24 32 bs)) (le_value (zslice 32 40 bs))
    (le_value (zslice 40 48 bs)) (le_value (zslice 48 56 bs)).
Definition nth_phdr (block : list Z) (i : nat) : option phdr :=
  let off := Z.of_nat i * PHDR_SIZE in
  if off + PHDR_SIZE <=? zlen block then Some (phdr_of (zslice off (off + PHDR_SIZE) block))
  else None.
(** The headers the loops visit; reading past the block is an invalid access. *)
Fixpoint phdrs_of (block : list Z) (i n : nat) : option (list phdr) :=
  match n with
  | O => Some []
  | S n =>
      match nth_phdr block i, phdrs_of block (S i) n with
      | Some p, Some r => Some (p :: r)
      | _, _ => None
      end
  end.

(** [lowest] and [highest] after the first loop. *)
Definition elf_extent (page_size : Z) (phdrs : list phdr) : Z * Z :=
  foldl (λ '(lowest, highest) p,
    if ph_type p =? PT_LOAD then
      (Z.min (FRIDA_ELF_PAGE_START (ph_vaddr p) page_size) lowest,
       Z.max (u64 (ph_vaddr p + ph_memsz p)) highest)
    else (lowest, highest)) (2 ^ 64 - 1, 0) phdrs.

Definition segment_prot (flags : Z) : Z :=
  Z.lor (Z.lor (if negb (Z.land flags PF_R =? 0) then PROT_READ else 0)
               (if negb (Z.land flags PF_W =? 0) then PROT_WRITE else 0))
        (if negb (Z.land flags PF_X =? 0) then PROT_EXEC else 0).

Section map_elf.
Context {K : Type} `{BootKernel K}.

(** The second loop: [None] is the failed mapping. *)
Fixpoint map_segments (page_size base lowest fd : Z) (phdrs : list phdr)
    (previous_end bss_start bss_end : Z) : M K (option (Z * Z)) :=
  match phdrs with
  | [] => ret (Some (bss_start, bss_end))
  | p :: r =>
      if ph_type p =? PT_LOAD then
        let relative_vaddr := u64 (ph_vaddr p - lowest) in
        let map_address := FRIDA_ELF_PAGE_START (u64 (base + relative_vaddr)) page_size in
        let gap_size := if negb (previous_end =? 0) then u64 (map_address - previous_end) else 0 in
        do! (if negb (gap_size =? 0) then boot_munmap previous_end gap_size else ret tt) in
        let page_offset := FRIDA_ELF_PAGE_OFFSET relative_vaddr page_size in
        let map_offset := u64 (ph_offset p - page_offset) in
        let map_size := FRIDA_ELF_PAGE_ALIGN (u64 (ph_filesz p + page_offset)) page_size in
        let! segment_base := boot_mmap map_address map_size (segment_prot (ph_flags p))
                               (Z.lor MAP_PRIVATE MAP_FIXED) fd map_offset in
        if segment_base =? MAP_FAILED then ret None
        else
          map_segments page_size base lowest fd r (u64 (segment_base + map_size))
            (Z.max (u64 (base + relative_vaddr + ph_filesz p)) bss_start)
            (Z.max (u64 (base + relative_vaddr + ph_memsz p)) bss_end)
      else map_segments page_size base lowest fd r previous_end bss_start bss_end
  end.

(** From the opened file on: the base and the entrypoint, or [None] after
    unmapping what was mapped. *)
Definition map_opened (page_size fd : Z) : M K (option (Z * Z)) :=
  let! r := sys (k_read fd EHDR_SIZE) in
  match r with
  | None => ret None
  | Some ehdr =>
      if negb (zlen ehdr =? EHDR_SIZE) then ret None
      else
      let! r := sys (k_lseek fd (le_value (zslice 32 40 ehdr)) SEEK_SET) in
      match r with
      | None => ret None
      | Some _ =>
          let e_phnum := le_value (zslice 56 58 ehdr) in
          let phdrs_size := u64 (s32 (e_phnum * le_value (zslice 54 56 ehdr))) in
          let! r := sys (k_read fd phdrs_size) in
          match r with
          | None => ret None
          | Some block =>
              if negb (zlen block =? phdrs_size) then ret None
              else
              match phdrs_of block 0 (Z.to_nat e_phnum) with
              | None => crash
              | Some phdrs =>
                  let '(lowest, highest) := elf_extent page_size phdrs in
                  let footprint_size := u64 (highest - lowest) in
                  let! base := boot_mmap 0 footprint_size (Z.lor PROT_READ PROT_WRITE)
                                 (Z.lor MAP_PRIVATE MAP_ANONYMOUS) (-1) 0 in
                  if base =? MAP_FAILED then ret None
                  else
                    let! r := map_segments page_size base lowest fd phdrs 0 0 0 in
                    match r with
                    | None => do! boot_munmap base footprint_size in ret None
                    | Some (bss_start, _) =>
                        let n := FRIDA_ELF_PAGE_OFFSET bss_start page_size in
                        do! (if negb (n =? 0) then store bss_start (zeros (page_size - n))
                             else ret tt) in
                        ret (Some (base, u64 (base + le_value (zslice 24 32 ehdr))))
                    end
              end
          end
      end
  end.

Definition frida_map_elf (page_size : Z) (path : list Z) : M K (option (Z * Z)) :=
  let! fd := boot_open path in
  match fd with
  | None => ret None
  | Some fd =>
      let! r := map_opened page_size fd in
      do! boot_close fd in
      ret r
  end.
End map_elf.

(** *** Loading a libc into a static process *)
Definition DT_NEEDED : Z := 1.
Definition DT_SYMENT : Z := 11.
Definition DT_FLAGS_1 : Z := 0x6ffffffb.
Definition DF_1_PIE : Z := 0x08000000.
Definition phdr_offset : Z := 64.
Definition ld_name_offset : Z := 256.
Definition strtab_offset : Z := 384.
Definition symtab_offset : Z := 448.
Definition dyn_offset : Z := 512.
Definition entrypoint_offset : Z := 1024.

Definition program_dyn (libc_name : list Z) : list (Z * Z) :=
  [(DT_NEEDED, 0); (DT_STRTAB, strtab_offset); (DT_STRSZ, zlen libc_name + 1);
   (DT_SYMTAB, symtab_offset); (DT_SYMENT, SYM_SIZE); (DT_FLAGS_1, DF_1_PIE); (DT_NULL, 0)].
Definition program_phdrs (ld_name libc_name : list Z) : list phdr :=
  let ld_name_size := zlen ld_name + 1 in
  let dyn_size := zlen (program_dyn libc_name) * DYN_SIZE in
  [mk_phdr PT_PHDR PF_R phdr_offset phdr_offset phdr_offset (3 * PHDR_SIZE) (3 * PHDR_SIZE) 8;
   mk_phdr PT_INTERP PF_R ld_name_offset ld_name_offset ld_name_offset ld_name_size ld_name_size 1;
   mk_phdr PT_DYNAMIC (Z.lor PF_R PF_W) dyn_offset dyn_offset dyn_offset dyn_size dyn_size 8].
(** [e_ident], type, machine and version, then the rest of the header. *)
Definition program_ehdr : list Z :=
  [127; 69; 76; 70; 2; 1; 1; 0; 0; 0; 0; 0; 0; 0; 0; 0] ++
  le_bytes 2 3 ++ le_bytes 2 62 ++ le_bytes 4 1 ++ le_bytes 8 entrypoint_offset ++
  encode_fields (ehdr_fields (mk_ehdr phdr_offset (2 ^ 64 - 1) 0 EHDR_SIZE PHDR_SIZE 3 0 0 0)).

(** The stack the dynamic linker is entered with: the auxiliary vector.
    [libc_main], [random] and [execfn] are the addresses of [frida_libc_main],
    the random bytes and the program name. *)
Definition program_auxv (page_size program ld libc_main random execfn : Z) : list (Z * Z) :=
  [(AT_PAGESZ, page_size); (AT_PHDR, u64 (program + phdr_offset)); (AT_PHENT, PHDR_SIZE);
   (AT_PHNUM, 3); (AT_BASE, ld); (AT_ENTRY, libc_main); (AT_RANDOM, random);
   (AT_EXECFN, execfn); (0, 0)].

(** How [frida_bootstrap] ends: with a status, or by jumping into the dynamic
    linker at an entrypoint with an auxiliary vector. *)
Inductive boot_result :=
| Status (s : Z)
| Jump (entrypoint : Z) (auxv : list (Z * Z)).

Section load_libc.
Context {K : Type} `{BootKernel K}.
Context (libc_main random execfn : Z).

Definition frida_try_load_libc_and_raise (ctx : FridaBootstrapContext)
    : M K (option (Z * list (Z * Z))) :=
  let ld_name := bc_fallback_ld ctx in
  let libc_name := bc_fallback_libc ctx in
  let! ld := frida_map_elf (bc_page_size ctx) ld_name in
  match ld with
  | None => ret None
  | Some (ld, entrypoint) =>
      let! program := boot_mmap 0 (bc_page_size ctx)
        (Z.lor (Z.lor PROT_READ PROT_WRITE) PROT_EXEC) (Z.lor MAP_PRIVATE MAP_ANONYMOUS) (-1) 0 in
      do! store program program_ehdr in
      do! store (u64 (program + phdr_offset))
            (concat (encode_fields <$> (phdr_fields <$> program_phdrs ld_name libc_name))) in
      do! store (u64 (program + ld_name_offset)) (ld_name ++ [0]) in
      do! store (u64 (program + strtab_offset)) (libc_name ++ [0]) in
      do! store (u64 (program + dyn_offset))
            (concat (encode_fields <$> (dyn_fields <$> program_dyn libc_name))) in
      ret (Some (entrypoint,
        program_auxv (bc_page_size ctx) program ld libc_main random execfn))
  end.

Definition frida_bootstrap (fuel : nat) (ctx : FridaBootstrapContext)
    : M K (boot_result * FridaBootstrapContext * option FridaLibcApi) :=
  let with_alloc b := mk_boot_ctx b (bc_allocation_size ctx) (bc_page_size ctx)
    (bc_fallback_ld ctx) (bc_fallback_libc ctx) (bc_rtld_flavor ctx) (bc_rtld_base ctx)
    (bc_r_brk ctx) (bc_enable_ctrlfds ctx) (bc_ctrlfds ctx) in
  if bc_allocation_base ctx =? 0 then
    let! b := boot_mmap 0 (bc_allocation_size ctx)
      (Z.lor (Z.lor PROT_READ PROT_WRITE) PROT_EXEC) (Z.lor MAP_PRIVATE MAP_ANONYMOUS) (-1) 0 in
    ret (Status (if b =? MAP_FAILED then FRIDA_BOOTSTRAP_ALLOCATION_ERROR
                 else FRIDA_BOOTSTRAP_ALLOCATION_SUCCESS), with_alloc b, None)
  else
    let! r := frida_probe_process fuel (bc_page_size ctx) in
    let '(found, process) := r in
    if negb found then ret (Status FRIDA_BOOTSTRAP_AUXV_NOT_FOUND, ctx, None)
    else
      let with_process fds := mk_boot_ctx (bc_allocation_base ctx) (bc_allocation_size ctx)
        (bc_page_size ctx) (bc_fallback_ld ctx) (bc_fallback_libc ctx) (lo_rtld_flavor process)
        (lo_interpreter process) (lo_r_brk process) (bc_enable_ctrlfds ctx) fds in
      let ctx := with_process (bc_ctrlfds ctx) in
      if andb (negb (lo_interpreter process =? 0)) (lo_libc process =? 0)
      then ret (Status FRIDA_BOOTSTRAP_TOO_EARLY, ctx, None)
      else if andb (lo_interpreter process =? 0) (lo_libc process =? 0) then
        let! j := frida_try_load_libc_and_raise ctx in
        ret (match j with
             | None => Status FRIDA_BOOTSTRAP_LIBC_LOAD_ERROR
             | Some (entrypoint, auxv) => Jump entrypoint auxv
             end, ctx, None)
      else
        let! r := frida_resolve_libc_apis fuel process in
        let '(ok, libc) := r in
        if negb ok then ret (Status FRIDA_BOOTSTRAP_LIBC_UNSUPPORTED, ctx, Some libc)
        else
          let! fds :=
            (if bc_enable_ctrlfds ctx then
               let! r := sys k_socketpair in
               ret (match r with Some fds => fds | None => (-1, -1) end)
             else ret (-1, -1)) in
          ret (Status FRIDA_BOOTSTRAP_SUCCESS, with_process fds, Some libc).
End load_libc.
