(* ===== verification/BootstrapCorrect.v ===== *)
(** The bootstrapper's string functions and its reader of kernel text files:
    hexadecimal numbers, path tests, and the visiting of lines. *)
From S2P Require Import Prelude Posix Stdio ElfParser ElfCorrect Bootstrap.

(** ** Hexadecimal numbers *)
Definition hex_digit (d : Z) : Z := if d <? 10 then 48 + d else 87 + d.
Definition hex_value (ds : list Z) : Z := foldl (λ v d, v * 16 + d) 0 ds.
Definition is_hex (ch : Z) : Prop := 48 ≤ ch ≤ 57 ∨ 97 ≤ ch ≤ 102.
Definition hex_ends (rest : list Z) : Prop :=
  match rest with [] => True | ch :: _ => ¬ is_hex ch end.

Lemma parse_size_from_spec ds : ∀ v rest,
  Forall (λ d, 0 ≤ d < 16) ds → hex_ends rest → 0 ≤ v < 2 ^ 64 →
  frida_parse_size_from v ((hex_digit <$> ds) ++ rest) =
  u64 (foldl (λ v d, v * 16 + d) v ds).
Proof.
  induction ds as [|d ds IH]; intros v rest Hds Hrest Hv;
    cbn [fmap list_fmap app frida_parse_size_from foldl].
  - rewrite u64_small by done. destruct rest as [|ch rest]; [done|]. cbn in *.
    unfold is_hex in Hrest.
    destruct (Z.leb_spec 48 ch), (Z.leb_spec ch 57), (Z.leb_spec 97 ch), (Z.leb_spec ch 102);
      cbn; try done; exfalso; apply Hrest; lia.
  - apply Forall_cons in Hds as [Hd Hds].
    assert (E : foldl (λ v d : Z, v * 16 + d) (u64 (v * 16 + d)) ds mod 2 ^ 64 =
                foldl (λ v d : Z, v * 16 + d) (v * 16 + d) ds mod 2 ^ 64).
    { clear IH Hds Hd Hrest. unfold u64. generalize (v * 16 + d). intros w.
      assert (Hgen : ∀ a b, a mod 2 ^ 64 = b mod 2 ^ 64 →
        foldl (λ v d : Z, v * 16 + d) a ds mod 2 ^ 64 =
        foldl (λ v d : Z, v * 16 + d) b ds mod 2 ^ 64).
      { induction ds as [|e ds IH]; intros a b Hab; cbn [foldl]; [done|].
        apply IH. rewrite (Z.add_mod (a * 16)), (Z.add_mod (b * 16)) by lia.
        rewrite (Z.mul_mod a), (Z.mul_mod b) by lia. by rewrite Hab. }
      apply Hgen, Zmod_mod. }
    assert (Hh : hex_digit d = if d <? 10 then 48 + d else 87 + d) by done.
    rewrite Hh. destruct (Z.ltb_spec d 10).
    + destruct (Z.leb_spec 48 (48 + d)), (Z.leb_spec (48 + d) 57); try lia. cbn [andb].
      replace (48 + d - 48) with d by lia. rewrite IH by (done || apply u64_range). exact E.
    + destruct (Z.leb_spec 48 (87 + d)), (Z.leb_spec (87 + d) 57); try lia. cbn [andb].
      destruct (Z.leb_spec 97 (87 + d)), (Z.leb_spec (87 + d) 102); try lia. cbn [andb].
      replace (10 + (87 + d - 97)) with d by lia. rewrite IH by (done || apply u64_range). exact E.
Qed.

(** ** Prefixes, suffixes and base names *)
Lemma has_prefix_spec p : ∀ s, frida_str_has_prefix s p = true ↔ ∃ r, s = p ++ r.
Proof.
  induction p as [|c p IH]; intros s; cbn.
  { split; [intros _; by exists s|done]. }
  destruct s as [|x s].
  { split; [done|]. by intros [r Hr]. }
  rewrite andb_true_iff, Z.eqb_eq, IH. split.
  - intros [-> [r ->]]. by exists r.
  - intros [r [= -> ->]]. split; [done|]. by exists r.
Qed.

Lemma has_suffix_spec p s : frida_str_has_suffix s p = true ↔ ∃ r, s = r ++ p.
Proof.
  unfold frida_str_has_suffix, strcmp_eq. pose proof (zlen_nonneg p). split.
  - destruct (Z.ltb_spec (zlen s) (zlen p)); [done|]. intros E.
    apply bool_decide_eq_true_1 in E. exists (ztake (zlen s - zlen p) s).
    rewrite <- E at 2. by rewrite ztake_zdrop.
  - intros [r ->]. rewrite zlen_app. pose proof (zlen_nonneg r).
    destruct (Z.ltb_spec (zlen r + zlen p) (zlen p)); [lia|].
    apply bool_decide_eq_true_2. replace (zlen r + zlen p - zlen p) with (zlen r) by lia.
    apply zdrop_app_exact.
Qed.

(** The name after the last slash. *)
Definition base_name (path name : list Z) : Prop :=
  SLASH ∉ name ∧ (path = name ∨ ∃ dir, path = dir ++ SLASH :: name).

Lemma after_last_spec c l :
  match after_last c l with
  | Some t => c ∉ t ∧ ∃ d, l = d ++ c :: t
  | None => c ∉ l
  end.
Proof.
  induction l as [|x l IH]; cbn; [apply not_elem_of_nil|].
  destruct (after_last c l) as [t|].
  - destruct IH as [Ht [d ->]]. split; [done|]. by exists (x :: d).
  - destruct (Z.eqb_spec x c) as [->|Hx].
    + split; [done|]. by exists [].
    + apply not_elem_of_cons. split; congruence.
Qed.

Lemma base_name_after_last path name :
  base_name path name ↔ name = match after_last SLASH path with Some n => n | None => path end.
Proof.
  pose proof (after_last_spec SLASH path) as Hs. split.
  - intros [Hn Hp]. destruct (after_last SLASH path) as [t|].
    + destruct Hs as [Ht [d Hd]], Hp as [->|[dir ->]].
      * exfalso. apply Hn. rewrite Hd. apply elem_of_app. right. left.
      * revert dir Hd. induction d as [|y d IH]; intros [|z dir] Hd; cbn in Hd.
        -- by injection Hd.
        -- injection Hd as -> Hd. exfalso. apply Ht. rewrite <- Hd.
           apply elem_of_app. right. left.
        -- injection Hd as <- Hd. exfalso. apply Hn. rewrite Hd.
           apply elem_of_app. right. left.
        -- injection Hd as _ Hd. by apply (IH dir).
    + destruct Hp as [->|[dir ->]]; [done|]. exfalso. apply Hs.
      apply elem_of_app. right. left.
  - intros ->. destruct (after_last SLASH path) as [t|].
    + destruct Hs as [Ht [d ->]]. split; [done|]. right. by exists d.
    + split; [done|by left].
Qed.

(** ** Reading a text file line by line *)

(** The complete lines of a text, without their newlines, and what follows the
    last one. *)
Fixpoint lines_of (cur l : list Z) : list (list Z) * list Z :=
  match l with
  | [] => ([], cur)
  | x :: r =>
      if x =? NEWLINE then let '(ls, t) := lines_of [] r in (cur :: ls, t)
      else lines_of (cur ++ [x]) r
  end.
Definition lines (l : list Z) : list (list Z) := (lines_of [] l).1.
Definition leftover (l : list Z) : list Z := (lines_of [] l).2.

(** Visit lines until the function says to stop; the flag says whether it did. *)
Fixpoint visit_lines {U} (f : list Z → U → bool * U) (ls : list (list Z)) (u : U) : bool * U :=
  match ls with
  | [] => (false, u)
  | l :: r => let '(stop, u) := f l u in if stop then (true, u) else visit_lines f r u
  end.

Lemma visit_lines_app {U} (f : list Z → U → bool * U) l1 : ∀ l2 u,
  visit_lines f (l1 ++ l2) u =
  let '(stop, u) := visit_lines f l1 u in if stop then (true, u) else visit_lines f l2 u.
Proof.
  induction l1 as [|l l1 IH]; intros l2 u; cbn; [done|].
  destruct (f l u) as [[] u']; [done|]. apply IH.
Qed.

Definition no_nul (l : list Z) : Prop := Forall (λ c, c ≠ 0) l.

Lemma lines_of_no_newline l : ∀ cur, NEWLINE ∉ l → lines_of cur l = ([], cur ++ l).
Proof.
  induction l as [|x l IH]; intros cur Hn; cbn; [by rewrite app_nil_r|].
  apply not_elem_of_cons in Hn as [Hx Hn]. destruct (Z.eqb_spec x NEWLINE); [congruence|].
  rewrite IH by done. by rewrite <- app_assoc.
Qed.
Lemma lines_of_newline a r : ∀ cur,
  NEWLINE ∉ a → lines_of cur (a ++ NEWLINE :: r) =
    let '(ls, t) := lines_of [] r in ((cur ++ a) :: ls, t).
Proof.
  induction a as [|x a IH]; intros cur Hn; cbn; [by rewrite app_nil_r|].
  apply not_elem_of_cons in Hn as [Hx Hn]. destruct (Z.eqb_spec x NEWLINE); [congruence|].
  rewrite IH by done. by rewrite <- app_assoc.
Qed.

(** Text read in two parts. *)
Lemma lines_of_app a : ∀ cur b,
  lines_of cur (a ++ b) =
  let '(l1, t) := lines_of cur a in let '(l2, t') := lines_of t b in (l1 ++ l2, t').
Proof.
  induction a as [|x a IH]; intros cur b; cbn.
  { by destruct (lines_of cur b). }
  destruct (x =? NEWLINE); [|apply IH]. rewrite IH.
  destruct (lines_of [] a) as [l1 t], (lines_of t b) as [l2 t']. done.
Qed.
Lemma lines_of_cur cur l : NEWLINE ∉ cur → lines_of cur l = lines_of [] (cur ++ l).
Proof.
  intros Hn. rewrite lines_of_app, (lines_of_no_newline cur []) by done. cbn.
  by destruct (lines_of cur l).
Qed.

Lemma lines_of_tail l : ∀ cur, NEWLINE ∉ cur → NEWLINE ∉ (lines_of cur l).2.
Proof.
  induction l as [|x l IH]; intros cur Hn; cbn; [done|].
  destruct (Z.eqb_spec x NEWLINE).
  - specialize (IH [] (not_elem_of_nil _)). by destruct (lines_of [] l).
  - apply IH. rewrite elem_of_app, list_elem_of_singleton. intros [?|?]; [done|congruence].
Qed.
Lemma leftover_no_newline l : NEWLINE ∉ leftover l.
Proof. apply lines_of_tail, not_elem_of_nil. Qed.

Lemma lines_app a b : lines (a ++ b) = lines a ++ lines (leftover a ++ b).
Proof.
  unfold lines, leftover. rewrite lines_of_app.
  pose proof (leftover_no_newline a) as Hn. unfold leftover in Hn.
  destruct (lines_of [] a) as [l1 t]. cbn in *. rewrite <- lines_of_cur by done.
  by destruct (lines_of t b).
Qed.
Lemma leftover_app a b : leftover (a ++ b) = leftover (leftover a ++ b).
Proof.
  unfold leftover. rewrite lines_of_app.
  pose proof (leftover_no_newline a) as Hn. unfold leftover in Hn.
  destruct (lines_of [] a) as [l1 t]. cbn in *. rewrite <- lines_of_cur by done.
  by destruct (lines_of t b).
Qed.

Lemma strchr_newline a r :
  NEWLINE ∉ a → no_nul a → strchr NEWLINE (a ++ NEWLINE :: r) = Some (length a).
Proof.
  induction a as [|x a IH]; intros Hn Hz; cbn; [done|].
  apply not_elem_of_cons in Hn as [Hx Hn]. apply Forall_cons in Hz as [Hz0 Hz].
  destruct (Z.eqb_spec x 0); [done|]. destruct (Z.eqb_spec x NEWLINE); [congruence|].
  by rewrite IH.
Qed.
Lemma strchr_none a : NEWLINE ∉ a → strchr NEWLINE a = None.
Proof.
  induction a as [|x a IH]; intros Hn; cbn; [done|].
  apply not_elem_of_cons in Hn as [Hx Hn]. destruct (x =? 0); [done|].
  destruct (Z.eqb_spec x NEWLINE); [congruence|]. by rewrite IH.
Qed.

(** Split off the first line. *)
Lemma first_line l : NEWLINE ∈ l → ∃ a r, l = a ++ NEWLINE :: r ∧ NEWLINE ∉ a.
Proof.
  induction l as [|x l IH]; intros Hin; [by apply elem_of_nil in Hin|].
  destruct (Z.eqb_spec x NEWLINE) as [->|Hx].
  { exists [], l. split; [done|apply not_elem_of_nil]. }
  apply elem_of_cons in Hin as [?|Hin]; [congruence|].
  destruct (IH Hin) as (a & r & -> & Ha). exists (x :: a), r. split; [done|].
  apply not_elem_of_cons. split; [congruence|done].
Qed.

Section parse_file.
Context {K : Type} `{BootKernel K}.
Context {U : Type} (f : list Z → U → bool * U).
Implicit Types (k : K) (u : U).

(** A line parser without system calls of its own. *)
Definition line_parser : FridaParseFunc K U := maps_line (λ l u, ret (f l u)).

(** The inner loop visits the complete lines of the buffer and keeps the rest,
    unless there was no complete line at all. *)
Definition buffer_result (data : list Z) u : (list Z + unit) * U :=
  let '(stop, u) := visit_lines f (lines data) u in
  (if stop : bool then inr tt
   else inl (if decide (NEWLINE ∈ data) then leftover data else []), u).

(** One iteration of the inner loop. *)
Definition parse_step (data : list Z) : Z * U → M K (Z * U + (list Z + unit) * U) :=
  λ '(cursor, u),
    let! r := line_parser (zdrop cursor data) u in
    let '(n, u) := r in
    if n =? -1 then ret (inr (inr tt, u))
    else if n =? 0 then
      ret (inr (inl (if negb (cursor =? 0) then zdrop cursor data else []), u))
    else ret (inl (cursor + n, u)).

Lemma parse_step_line pre a r u k :
  NEWLINE ∉ a → no_nul a →
  parse_step (pre ++ a ++ NEWLINE :: r) (zlen pre, u) k =
  Ret (let '(stop, u) := f a u in
       if stop : bool then inr (inr tt, u) else inl (zlen (pre ++ a ++ [NEWLINE]), u), k).
Proof.
  intros Ha Hz. unfold parse_step, bind at 1. rewrite zdrop_app_exact.
  unfold line_parser, maps_line. rewrite strchr_newline by done.
  unfold bind, ret. rewrite take_app_length. destruct (f a u) as [[] u'] eqn:Ef; [done|].
  destruct (Z.eqb_spec (Z.of_nat (length a) + 1) (-1)); [lia|].
  destruct (Z.eqb_spec (Z.of_nat (length a) + 1) 0); [lia|].
  do 4 f_equal. unfold zlen. rewrite !length_app. cbn. lia.
Qed.
Lemma parse_step_end pre data u k :
  NEWLINE ∉ data →
  parse_step (pre ++ data) (zlen pre, u) k =
  Ret (inr (inl (if decide (pre = []) then [] else data), u), k).
Proof.
  intros Hn. unfold parse_step, bind at 1. rewrite zdrop_app_exact.
  unfold line_parser, maps_line. rewrite strchr_none by done. unfold ret.
  change (0 =? -1) with false. change (0 =? 0) with true. cbn iota.
  do 4 f_equal. destruct pre as [|x pre]; [done|]. rewrite decide_False by done.
  pose proof (zlen_nonneg pre). rewrite zlen_cons.
  by destruct (Z.eqb_spec (1 + zlen pre) 0); [lia|].
Qed.

Lemma parse_lines_from fuel : ∀ pre data u k,
  no_nul data → (length data < fuel)%nat →
  loop fuel (parse_step (pre ++ data)) (zlen pre, u) k =
  Ret (let '(stop, u) := visit_lines f (lines data) u in
       (if stop : bool then inr tt
        else inl (if decide (pre = [] ∧ NEWLINE ∉ data) then [] else leftover data), u), k).
Proof.
  induction fuel as [|fuel IH]; intros pre data u k Hz Hf; [lia|].
  cbn [loop]. unfold bind at 1. destruct (decide (NEWLINE ∈ data)) as [Hin|Hin].
  - destruct (first_line data Hin) as (a & r & -> & Ha).
    apply Forall_app in Hz as [Hza Hzr]. rewrite parse_step_line by done.
    unfold lines, leftover. rewrite lines_of_newline by done.
    destruct (lines_of [] r) as [ls t] eqn:El. cbn [fst snd app visit_lines].
    destruct (f a u) as [[] u']; [done|].
    replace (pre ++ a ++ NEWLINE :: r) with ((pre ++ a ++ [NEWLINE]) ++ r)
      by (by rewrite <- !app_assoc).
    rewrite IH.
    + unfold lines, leftover. rewrite El. cbn [fst snd].
      destruct (visit_lines f ls u') as [[] u'']; [done|].
      rewrite !decide_False; [done| |].
      * intros [_ Hn]. apply Hn. apply elem_of_app. right. left.
      * intros [Hnil _]. by destruct pre, a.
    + by apply Forall_cons in Hzr as [_ ?].
    + rewrite length_app in Hf. cbn in Hf. lia.
  - rewrite parse_step_end by done.
    unfold lines, leftover. rewrite lines_of_no_newline by done. cbn [fst snd app visit_lines].
    unfold ret. do 4 f_equal. repeat case_decide; tauto.
Qed.

Lemma parse_buffer_lines fuel data u k :
  no_nul data → (length data < fuel)%nat →
  parse_buffer fuel line_parser data u k = Ret (buffer_result data u, k).
Proof.
  intros Hz Hf. unfold parse_buffer.
  change (loop fuel _ (0, u) k) with (loop fuel (parse_step ([] ++ data)) (zlen (@nil Z), u) k).
  rewrite parse_lines_from by done.
  unfold buffer_result. destruct (visit_lines f (lines data) u) as [[] u']; [done|].
  do 4 f_equal. repeat case_decide; tauto.
Qed.

(** ** The whole file *)

(** The kernel delivers a file in chunks, given room for them, then end of file. *)
Fixpoint feeds (fd : Z) (chunks : list (list Z)) k : Prop :=
  match chunks with
  | [] => ∃ k1 k2, (∀ n, k_read fd n k = (SysOk [], k1)) ∧ (∀ n, k_read fd n k1 = (SysOk [], k2))
  | c :: r => ∃ k', (∀ n, zlen c ≤ n → k_read fd n k = (SysOk c, k')) ∧ feeds fd r k'
  end.
(** Each chunk fits behind what was left over and completes at least a line, as
    the kernel's line-oriented files guarantee. *)
Fixpoint line_chunks (left : list Z) (chunks : list (list Z)) : Prop :=
  match chunks with
  | [] => True
  | c :: r => no_nul c ∧ zlen left + zlen c < PARSE_BUFFER ∧ NEWLINE ∈ c ∧
      line_chunks (leftover (left ++ c)) r
  end.

(** One iteration of the outer loop. *)
Definition file_step (fuel : nat) (fd : Z) : list Z * U → M K (list Z * U + U) := λ '(data, u),
  let! r := sys (k_read fd (PARSE_BUFFER - zlen data - 1)) in
  let data := match r with Some bs => data ++ bs | None => data end in
  if zlen data =? 0 then ret (inr u)
  else
    let! r := parse_buffer fuel line_parser data u in
    let '(next, u) := r in
    match next with
    | inr _ => ret (inr u)
    | inl data => ret (inl (data, u))
    end.

Lemma no_nul_leftover l : no_nul l → no_nul (leftover l).
Proof.
  intros Hl. unfold leftover. assert (Hgen : ∀ cur, no_nul cur → no_nul (lines_of cur l).2).
  { induction Hl as [|x l Hx Hl IH]; intros cur Hc; cbn; [done|].
    destruct (x =? NEWLINE).
    - specialize (IH [] (Forall_nil_2 _)). by destruct (lines_of [] l).
    - apply IH. apply Forall_app. split; [done|]. by apply Forall_singleton. }
  apply Hgen. constructor.
Qed.

Lemma file_step_chunk fuel fd left c u k k' :
  no_nul left → no_nul c → c ≠ [] → zlen left + zlen c < PARSE_BUFFER → (2048 ≤ fuel)%nat →
  (∀ n, zlen c ≤ n → k_read fd n k = (SysOk c, k')) →
  file_step fuel fd (left, u) k =
  Ret (let '(next, u) := buffer_result (left ++ c) u in
       match next with inr _ => inr u | inl data => inl (data, u) end, k').
Proof.
  intros Hzl Hzc Hne Hlen Hf Hr. pose proof (zlen_nonneg left). unfold PARSE_BUFFER in *.
  unfold file_step, bind at 1, sys. rewrite Hr by (unfold PARSE_BUFFER; lia).
  assert (Hc : 0 < zlen c).
  { destruct c; [done|]. rewrite zlen_cons. pose proof (zlen_nonneg c). lia. }
  rewrite zlen_app. destruct (Z.eqb_spec (zlen left + zlen c) 0); [lia|].
  unfold bind. rewrite parse_buffer_lines.
  - by destruct (buffer_result (left ++ c) u) as [[] u'].
  - by apply Forall_app.
  - rewrite length_app. unfold zlen in *. lia.
Qed.

Lemma parse_chunks fd chunks : ∀ fuel0 fuel left u k,
  NEWLINE ∉ left → no_nul left → zlen left < PARSE_BUFFER → line_chunks left chunks →
  feeds fd chunks k → (2048 ≤ fuel0)%nat → (length chunks + 2 ≤ fuel)%nat →
  ∃ k', loop fuel (file_step fuel0 fd) (left, u) k =
    Ret ((visit_lines f (lines (left ++ concat chunks)) u).2, k').
Proof.
  induction chunks as [|c chunks IH]; intros fuel0 fuel left u k Hn Hz Hlen Hok Hfeed Hf0 Hf.
  - destruct Hfeed as (k1 & k2 & R1 & R2). cbn [concat]. rewrite app_nil_r.
    unfold lines. rewrite lines_of_no_newline by done. cbn [fst visit_lines snd].
    destruct fuel as [|[|fuel]]; [cbn in Hf; lia..|]. cbn [loop]. unfold bind at 1.
    assert (Hend : ∀ u, file_step fuel0 fd ([], u) k1 = Ret (inr u, k2)).
    { intros u'. unfold file_step, bind at 1, sys. by rewrite R2. }
    destruct left as [|x left].
    + exists k1. unfold file_step at 1, bind at 1, sys. by rewrite R1.
    + exists k2. unfold file_step at 1, bind at 1 2, sys. rewrite R1, app_nil_r.
      pose proof (zlen_nonneg left). rewrite zlen_cons.
      destruct (Z.eqb_spec (1 + zlen left) 0); [lia|].
      rewrite parse_buffer_lines; [|done|unfold PARSE_BUFFER, zlen in *; lia].
      unfold buffer_result, lines. rewrite lines_of_no_newline by done.
      cbn [fst visit_lines]. rewrite decide_False by done. unfold ret, bind. by rewrite Hend.
  - destruct Hfeed as (k' & R & Hfeed), Hok as (Hzc & Hroom & Hnl & Hok).
    destruct fuel as [|fuel]; [cbn in Hf; lia|]. cbn [loop]. unfold bind at 1.
    rewrite (file_step_chunk fuel0 fd left c u k k'); try done.
    2: { intros ->. by apply elem_of_nil in Hnl. }
    unfold buffer_result. cbn [concat]. rewrite app_assoc, (lines_app (left ++ c)), visit_lines_app.
    destruct (visit_lines f (lines (left ++ c)) u) as [[] u']; [by exists k'|].
    rewrite decide_True by (apply elem_of_app; by right).
    apply IH; try done.
    + apply leftover_no_newline.
    + apply no_nul_leftover. by apply Forall_app.
    + assert (Hle : ∀ l cur, zlen (lines_of cur l).2 ≤ zlen cur + zlen l).
      { induction l as [|x l IHl]; intros cur; cbn [lines_of snd]; [rewrite zlen_nil; lia|].
        rewrite zlen_cons. pose proof (zlen_nonneg cur). destruct (x =? NEWLINE).
        - specialize (IHl []). rewrite zlen_nil in IHl. destruct (lines_of [] l). cbn in *. lia.
        - specialize (IHl (cur ++ [x])). rewrite zlen_app in IHl.
          change (zlen [x]) with 1 in IHl. lia. }
      specialize (Hle (left ++ c) []). rewrite zlen_app, zlen_nil in Hle. unfold leftover. lia.
    + cbn in Hf. lia.
Qed.

Lemma parse_file_eq fuel path u k fd k0 :
  k_open path O_RDONLY None k = (SysOk fd, k0) →
  frida_parse_file fuel path line_parser u k =
  bind (loop fuel (file_step fuel fd) ([], u)) (λ u, do! boot_close fd in ret u) k0.
Proof. intros Ho. unfold frida_parse_file, boot_open, bind at 1, sys at 1. by rewrite Ho. Qed.

Lemma boot_close_returns fd k : ∃ k', boot_close fd k = Ret (tt, k').
Proof.
  unfold boot_close, bind, sys, ret. destruct (k_close fd k) as [[] k']; by eexists.
Qed.
End parse_file.

(** * The bootstrapper leaves no descriptor behind: whatever the target's files
    and memory hold, the descriptors open when it returns are those open before
    and, on success, the two ends of the control channel. *)
(** ** The parser keeps what its callback keeps *)
Section elf.
Context {S : Type} (mem : Z → option Z) (func : FridaElfExportDetails → M S bool).
Context (I : S → Prop).
Hypothesis Hfunc : ∀ d, keeps I (func d).

Lemma keeps_load n a : keeps I (load mem n a).
Proof.
  intros s v s' HI. unfold load. destruct (load_bytes mem n a); [|done]. by intros [= _ <-].
Qed.
Hint Resolve keeps_load keeps_for_range keeps_for_all Hfunc : keeps.

Lemma keeps_find_phdr ehdr type : keeps I (frida_find_program_header_by_type mem ehdr type).
Proof.
  unfold frida_find_program_header_by_type, phdr_at, e_phnum, e_phoff, e_phentsize, p_type.
  keeps_auto.
Qed.
Lemma keeps_region ehdr a : keeps I (frida_compute_elf_region_upper_bound mem ehdr a).
Proof.
  unfold frida_compute_elf_region_upper_bound, phdr_at, e_phnum, e_phoff, e_phentsize, p_type,
    p_vaddr, p_memsz.
  keeps_auto.
Qed.
Lemma keeps_collect_dynamic ehdr dyn : keeps I (collect_dynamic mem ehdr dyn).
Proof. unfold collect_dynamic, p_filesz, p_vaddr, d_tag, d_ptr. keeps_auto. Qed.
Hint Resolve keeps_find_phdr keeps_region keeps_collect_dynamic : keeps.
Lemma keeps_soname ehdr : keeps I (frida_elf_query_soname mem ehdr).
Proof. unfold frida_elf_query_soname, p_filesz, p_vaddr, d_tag, d_ptr. keeps_auto. Qed.
Lemma keeps_find_dynamic ehdr : keeps I (frida_elf_find_dynamic_section mem ehdr).
Proof. unfold frida_elf_find_dynamic_section, p_vaddr. keeps_auto. Qed.
Lemma keeps_compute_base phdrs size count page_size :
  keeps I (frida_elf_compute_base_from_phdrs mem phdrs size count page_size).
Proof. unfold frida_elf_compute_base_from_phdrs, p_type, p_offset, p_vaddr. keeps_auto. Qed.
Lemma keeps_exports ehdr : keeps I (frida_elf_enumerate_exports mem func ehdr).
Proof. unfold frida_elf_enumerate_exports, st_name, st_shndx, st_info, st_value. keeps_auto. Qed.
Lemma keeps_symbols ehdr loaded_base : keeps I (frida_elf_enumerate_symbols mem func ehdr loaded_base).
Proof.
  unfold frida_elf_enumerate_symbols, find_symtab, e_shoff, e_shnum, e_shentsize, sh_type,
    sh_offset, sh_entsize, sh_size, sh_link, st_name, st_shndx, st_info, st_value.
  keeps_auto.
Qed.
End elf.

(** ** Descriptors *)

(** What the kernel documents of descriptors: opening gives one that was not
    open, closing takes it away whatever the result, socketpair gives two, and
    no other call changes the set. *)
Class FdLaws (K : Type) `{BootKernel K} := {
  k_fds : K → gset Z;
  fd_open path flags mode k r k' : k_open path flags mode k = (r, k') →
    match r with
    | SysOk fd => 0 ≤ fd ∧ fd ∉ k_fds k ∧ k_fds k' = {[fd]} ∪ k_fds k
    | SysErr _ => k_fds k' = k_fds k
    end;
  fd_close fd k r k' : k_close fd k = (r, k') → k_fds k' = k_fds k ∖ {[fd]};
  fd_socketpair k r k' : k_socketpair k = (r, k') →
    match r with
    | SysOk (a, b) => k_fds k' = {[a; b]} ∪ k_fds k
    | SysErr _ => k_fds k' = k_fds k
    end;
  fd_read fd n k r k' : k_read fd n k = (r, k') → k_fds k' = k_fds k;
  fd_lseek fd off wh k r k' : k_lseek fd off wh k = (r, k') → k_fds k' = k_fds k;
  fd_mmap addr len prot flags fd off k r k' :
    k_mmap addr len prot flags fd off k = (r, k') → k_fds k' = k_fds k;
  fd_munmap addr len k : k_fds (k_munmap addr len k) = k_fds k;
  fd_store a bs k k' : k_store a bs k = Some k' → k_fds k' = k_fds k;
  fd_prctl option arg k r k' : k_prctl option arg k = (r, k') → k_fds k' = k_fds k;
  fd_dlopen f name flags caller k r k' :
    k_dlopen f name flags caller k = (r, k') → k_fds k' = k_fds k;
  fd_dlsym f handle name caller k r k' :
    k_dlsym f handle name caller k = (r, k') → k_fds k' = k_fds k
}.

Section fds.
Context {K : Type} `{FdLaws K}.
Implicit Types (k : K) (F : gset Z).

Definition fds F k : Prop := k_fds k = F.

Lemma keeps_sys {A} F (c : K → sysret A * K) :
  (∀ k r k', c k = (r, k') → k_fds k' = k_fds k) → keeps (fds F) (sys c).
Proof.
  intros Hc k a k' Hk. unfold sys. destruct (c k) as [r k1] eqn:E. apply Hc in E.
  unfold fds in *. destruct r; intros [= <- <-]; congruence.
Qed.
Lemma keeps_read F fd n : keeps (fds F) (sys (k_read fd n)).
Proof. apply keeps_sys. intros. by eapply fd_read. Qed.
Lemma keeps_lseek F fd off wh : keeps (fds F) (sys (k_lseek fd off wh)).
Proof. apply keeps_sys. intros. by eapply fd_lseek. Qed.
Lemma keeps_mmap F a l p fl fd off : keeps (fds F) (boot_mmap a l p fl fd off).
Proof.
  apply keeps_bind; [|keeps_auto]. apply keeps_sys. intros. by eapply fd_mmap.
Qed.
Lemma keeps_munmap F a l : keeps (fds F) (boot_munmap a l).
Proof. intros k u k' Hk [= _ <-]. unfold fds in *. by rewrite fd_munmap. Qed.
Lemma keeps_store F a bs : keeps (fds F) (store a bs).
Proof.
  intros k u k' Hk. unfold store. destruct (k_store a bs k) eqn:E; [|done].
  intros [= _ <-]. apply fd_store in E. unfold fds in *. congruence.
Qed.
Lemma keeps_prctl F o a : keeps (fds F) (frida_prctl o a).
Proof.
  intros k r k' Hk. unfold frida_prctl. intros [= E]. apply fd_prctl in E. unfold fds in *. congruence.
Qed.
(** Code that leaves the state alone. *)
Lemma keeps_at_mem {A} F (m : (Z → option Z) → M K A) :
  (∀ mem, keeps (fds F) (m mem)) → keeps (fds F) (λ k, m (k_mem k) k).
Proof. intros Hm k a k' Hk E. by eapply Hm. Qed.
Lemma keeps_rd F n a : keeps (fds F) (rd n a).
Proof. apply (keeps_at_mem F (λ mem, load mem n a)). intros mem. apply keeps_load. Qed.
Hint Resolve keeps_read keeps_lseek keeps_mmap keeps_munmap keeps_store keeps_prctl keeps_rd : keeps.

Lemma keeps_cstr F fuel : ∀ a, keeps (fds F) (cstr fuel a).
Proof. induction fuel as [|n IH]; intros a; cbn [cstr]; keeps_auto. Qed.
Hint Resolve keeps_cstr : keeps.

Lemma keeps_with_symbols {U} F fuel enumerate (func : list Z → FridaElfExportDetails → U → bool * U) u :
  (∀ S mem (cb : FridaElfExportDetails → M S bool) (I : S → Prop),
     (∀ d, keeps I (cb d)) → keeps I (enumerate S mem cb)) →
  keeps (fds F) (with_symbols fuel enumerate func u).
Proof.
  intros He k u' k' Hk. unfold with_symbols. set (cb := λ (d : FridaElfExportDetails), _).
  destruct (enumerate (U * K)%type (k_mem k) cb (u, k)) as [[x [u1 k1]]| | |] eqn:E; try done.
  intros [= <- <-].
  apply (He (U * K)%type (k_mem k) cb (λ p, fds F p.2)) in E; [done| |done].
  intros d [u0 k0] b [u2 k2] HF. subst cb. cbn beta iota.
  destruct (cstr fuel (d_sym_name d) k0) as [[name k3]| | |] eqn:Ec; try done.
  destruct (func name d u0) as [b' u3]. intros [= _ _ <-].
  by apply (keeps_cstr F fuel _ _ _ _ HF Ec).
Qed.
Lemma keeps_enumerate_exports {U} F fuel ehdr (func : list Z → FridaElfExportDetails → U → bool * U) u :
  keeps (fds F) (enumerate_exports fuel ehdr func u).
Proof. apply keeps_with_symbols. intros. by apply keeps_exports. Qed.
Hint Resolve keeps_enumerate_exports : keeps.

(** Opening, working and closing. *)
Lemma close_balances F fd : fd ∉ F → hoare (fds ({[fd]} ∪ F)) (boot_close fd) (λ _, fds F).
Proof.
  intros Hfd. unfold boot_close. apply (hoare_bind _ _ _ (λ _, fds F)); [|intros; apply keeps_ret].
  intros k a k' Hk. unfold sys. destruct (k_close fd k) as [r k1] eqn:E.
  apply fd_close in E. unfold fds in *. destruct r; intros [= _ <-]; rewrite E, Hk; set_solver.
Qed.
Lemma open_gives F path :
  hoare (fds F) (boot_open path) (λ r k,
    match r with Some fd => 0 ≤ fd ∧ fd ∉ F ∧ fds ({[fd]} ∪ F) k | None => fds F k end).
Proof.
  intros k a k' Hk. unfold boot_open, sys. destruct (k_open path _ _ k) as [r k1] eqn:E.
  apply fd_open in E. unfold fds in *. destruct r; intros [= <- <-]; [|congruence].
  by rewrite <- Hk.
Qed.

(** [frida_parse_file] with a parser that keeps [J] until it stops with [J']. *)
Lemma hoare_parse_file {U} F fuel path (parse : FridaParseFunc K U) u (J J' : gset Z → U → K → Prop) :
  (∀ F data u, hoare (J F u) (parse data u)
     (λ r k, if r.1 =? -1 then J' F r.2 k else J F r.2 k)) →
  (∀ F u k, J F u k → J' F u k) →
  (∀ F fd n u, hoare (J F u) (sys (k_read fd n)) (λ _, J F u)) →
  (∀ F fd u, fd ∉ F → hoare (J' ({[fd]} ∪ F) u) (boot_close fd) (λ _, J' F u)) →
  (∀ F k, fds F k → J F u k) →
  hoare (fds F) (frida_parse_file fuel path parse u) (λ u k, J' F u k).
Proof.
  intros Hparse Hjj Hread Hclose Hinit. unfold frida_parse_file.
  eapply hoare_bind; [apply open_gives|]. intros [fd|]; [|apply hoare_ret; auto].
  apply hoare_pure. intros Hpos. apply hoare_pure. intros Hfd.
  apply (hoare_bind _ _ _ (J' ({[fd]} ∪ F))).
  2: { intros u'. eapply (hoare_bind _ _ _ (λ _, J' F u')); [by apply Hclose|].
       intros []. by apply hoare_ret. }
  eapply hoare_mono; [refine (hoare_loop _ (λ (p : list Z * U) k, J ({[fd]} ∪ F) p.2 k) (J' ({[fd]} ∪ F)) fuel _ ([], u))
    |intros s Hs; by apply (Hinit _ s)|done].
  intros [data u']. cbn [snd]. eapply hoare_bind; [apply Hread|]. intros r. cbn zeta.
  destruct (_ =? 0); [apply hoare_ret; auto|].
  eapply (hoare_bind _ _ _ (λ r k, match r.1 with inr _ => J' ({[fd]} ∪ F) r.2 k | inl _ => J ({[fd]} ∪ F) r.2 k end)).
  - unfold parse_buffer.
    refine (hoare_loop _ (λ (p : Z * U) k, J ({[fd]} ∪ F) p.2 k) _ fuel _ (0, u')).
    intros [cursor u1]. cbn [snd].
    eapply hoare_bind; [apply Hparse|]. intros [n u2]. cbn [fst snd].
    destruct (n =? -1); [by apply hoare_ret|]. destruct (n =? 0); by apply hoare_ret.
  - intros [[] u1]; by apply hoare_ret.
Qed.

Lemma keeps_parse_file {U} F fuel path (parse : FridaParseFunc K U) u :
  (∀ F data u, keeps (fds F) (parse data u)) → keeps (fds F) (frida_parse_file fuel path parse u).
Proof.
  intros Hp. apply (hoare_parse_file F fuel path parse u (λ F _, fds F) (λ F _, fds F)).
  - intros F' data u' k r k' Hk E. case_match; by eapply Hp.
  - done.
  - intros. apply keeps_read.
  - intros. by apply close_balances.
  - done.
Qed.
Hint Resolve keeps_parse_file : keeps.

Lemma keeps_auxv F data u : keeps (fds F) (frida_parse_auxv_entry data u).
Proof. unfold frida_parse_auxv_entry. keeps_auto. Qed.
Lemma keeps_maps_line {U} F (f : list Z → U → M K (bool * U)) data u :
  (∀ l u, keeps (fds F) (f l u)) → keeps (fds F) (maps_line f data u).
Proof. intros Hf. unfold maps_line. keeps_auto. Qed.
Lemma keeps_infer_line F data u :
  keeps (fds F) (frida_try_infer_rtld_flavor_from_maps_line data u).
Proof. apply keeps_maps_line. intros l [i fl]. keeps_auto. Qed.
Lemma keeps_find_libc_line F data u : keeps (fds F) (frida_try_find_libc_from_maps_line data u).
Proof. apply keeps_maps_line. keeps_auto. Qed.
Hint Resolve keeps_auxv keeps_infer_line keeps_find_libc_line : keeps.

(** The descriptor a search of the maps file ends with, if it opened one. *)
Definition one_more F (fd : Z) k : Prop :=
  (fd = -1 ∧ fds F k) ∨ (fd ≠ -1 ∧ fd ∉ F ∧ fds ({[fd]} ∪ F) k).

Lemma hoare_matching_line F data u :
  hoare (λ k, u.2 = -1 ∧ fds F k) (frida_open_file_for_matching_maps_line data u)
    (λ r k, if r.1 =? -1 then one_more F r.2.2 k else r.2.2 = -1 ∧ fds F k).
Proof.
  apply hoare_pure. intros Hu. unfold frida_open_file_for_matching_maps_line, maps_line.
  destruct u as [base fd]. cbn [snd] in Hu. subst fd.
  destruct (strchr NEWLINE data) as [i|]; [|by apply hoare_ret].
  apply (hoare_bind _ _ _ (λ r k, if r.1 : bool then one_more F r.2.2 k else r.2.2 = -1 ∧ fds F k)).
  - destruct (_ =? base); [|by apply hoare_ret].
    destruct (strchr SLASH (take i data)); [|by apply hoare_ret].
    eapply hoare_bind; [apply open_gives|]. intros [fd|]; apply hoare_ret; cbn.
    + intros k (Hp & Hf & Hk). right. split_and!; [lia|done|done].
    + intros k Hk. by left.
  - intros [[] u]; apply hoare_ret; cbn [fst snd]; [done|]. intros k Hk.
    destruct (Z.eqb_spec (Z.of_nat i + 1) (-1)); [lia|done].
Qed.

Lemma hoare_open_mapped F fuel base :
  hoare (fds F) (frida_open_file_for_mapped_range_with_base fuel base) (one_more F).
Proof.
  unfold frida_open_file_for_mapped_range_with_base.
  apply (hoare_bind _ _ _ (λ u, one_more F u.2)); [|intros [b fd]; by apply hoare_ret].
  apply (hoare_parse_file F fuel maps _ (base, -1) (λ F u k, u.2 = -1 ∧ fds F k) (λ F u, one_more F u.2)).
  - intros. apply hoare_matching_line.
  - intros F' u k Hk. by left.
  - intros F' fd n u. apply hoare_pure. intros Hu. eapply hoare_mono; [apply (keeps_read F')|done|done].
  - intros F' fd u Hfd k a k' Hk E. unfold boot_close, bind, sys in E.
    revert E. destruct (k_close fd k) as [r k1] eqn:Ec. intros E. apply fd_close in Ec.
    assert (k' = k1) as -> by (destruct r; by injection E). unfold one_more, fds in *.
    destruct Hk as [[-> Hk]|(Hne & Hn & Hk)].
    + left. split; [done|]. rewrite Ec, Hk. set_solver.
    + right. split_and!; [done|set_solver|]. rewrite Ec, Hk. set_solver.
  - done.
Qed.

Lemma keeps_on_disk {U} F fuel base (func : list Z → FridaElfExportDetails → U → bool * U) u :
  keeps (fds F) (frida_enumerate_module_symbols_on_disk fuel base func u).
Proof.
  unfold frida_enumerate_module_symbols_on_disk.
  eapply hoare_bind; [apply hoare_open_mapped|]. intros fd.
  destruct (Z.eqb_spec fd (-1)) as [->|Hne].
  { apply hoare_ret. intros k [[_ ?]|[? _]]; done. }
  intros k a k' Hk. destruct Hk as [[? _]|(_ & Hfd & Hk)]; [done|]. revert k a k' Hk.
  apply (hoare_bind _ _ _ (λ _, fds ({[fd]} ∪ F))); [apply keeps_lseek|]. intros r. cbn zeta.
  apply (hoare_bind _ _ _ (λ _, fds ({[fd]} ∪ F))); [apply keeps_mmap|]. intros elf.
  apply (hoare_bind _ _ _ (λ _, fds ({[fd]} ∪ F))).
  { apply keeps_with_symbols. intros. by apply keeps_symbols. }
  intros u'. apply (hoare_bind _ _ _ (λ _, fds ({[fd]} ∪ F))); [apply keeps_munmap|]. intros [].
  apply (hoare_bind _ _ _ (λ _, fds F)); [by apply close_balances|]. intros []. apply keeps_ret.
Qed.
Hint Resolve keeps_on_disk : keeps.

Lemma keeps_detect F fuel interpreter : keeps (fds F) (frida_detect_rtld_flavor fuel interpreter).
Proof.
  unfold frida_detect_rtld_flavor. keeps_auto.
  apply (keeps_at_mem F (λ mem, frida_elf_query_soname mem interpreter)). intros mem. apply keeps_soname.
Qed.
Lemma keeps_find_link_map F fuel map flavor : keeps (fds F) (find_libc_in_link_map fuel map flavor).
Proof. unfold find_libc_in_link_map. keeps_auto. Qed.
Lemma keeps_initializer F fuel entries delta : keeps (fds F) (earliest_initializer fuel entries delta).
Proof. unfold earliest_initializer. keeps_auto. Qed.
Hint Resolve keeps_detect keeps_find_link_map keeps_initializer : keeps.
Lemma keeps_program_breakpoint F fuel page_size program l :
  keeps (fds F) (program_breakpoint fuel page_size program l).
Proof.
  unfold program_breakpoint. apply keeps_bind; [|keeps_auto].
  - apply (keeps_at_mem F (λ mem, frida_elf_compute_base_from_phdrs mem (lo_phdrs l)
      (lo_phdr_size l) (lo_phdr_count l) page_size)).
    intros mem. apply keeps_compute_base.
  - apply (keeps_at_mem F (λ mem, frida_elf_find_dynamic_section mem a)).
    intros mem. apply keeps_find_dynamic.
Qed.
Hint Resolve keeps_program_breakpoint : keeps.
Lemma keeps_probe F fuel page_size : keeps (fds F) (frida_probe_process fuel page_size).
Proof. unfold frida_probe_process, probe_interpreter. keeps_auto. Qed.

Lemma keeps_dlopen F a name caller : keeps (fds F) (call_dlopen a name caller).
Proof.
  unfold call_dlopen. destruct (_ =? 0); [keeps_auto|]. intros k r k' Hk [= E].
  apply fd_dlopen in E. unfold fds in *. congruence.
Qed.
Lemma keeps_dlsym F a handle name caller : keeps (fds F) (call_dlsym a handle name caller).
Proof.
  unfold call_dlsym. destruct (_ =? 0); [keeps_auto|]. intros k r k' Hk [= E].
  apply fd_dlsym in E. unfold fds in *. congruence.
Qed.
Hint Resolve keeps_probe keeps_dlopen keeps_dlsym : keeps.
Lemma keeps_resolve F fuel layout : keeps (fds F) (frida_resolve_libc_apis fuel layout).
Proof. unfold frida_resolve_libc_apis, resolve_pthread. keeps_auto. Qed.

Lemma keeps_map_segments F page_size base lowest fd phdrs : ∀ previous_end bss_start bss_end,
  keeps (fds F) (map_segments page_size base lowest fd phdrs previous_end bss_start bss_end).
Proof. induction phdrs as [|p phdrs IH]; intros; cbn [map_segments]; keeps_auto. Qed.
Hint Resolve keeps_resolve keeps_map_segments : keeps.
Lemma keeps_map_elf F page_size path : keeps (fds F) (frida_map_elf page_size path).
Proof.
  unfold frida_map_elf. eapply hoare_bind; [apply open_gives|].
  intros [fd|]; [|apply hoare_ret; done].
  apply hoare_pure. intros _. apply hoare_pure. intros Hfd.
  apply (hoare_bind _ _ _ (λ _, fds ({[fd]} ∪ F))).
  { change (keeps (fds ({[fd]} ∪ F)) (map_opened page_size fd)). unfold map_opened. keeps_auto. }
  intros r. apply (hoare_bind _ _ _ (λ _, fds F)); [by apply close_balances|]. intros []. apply keeps_ret.
Qed.
Hint Resolve keeps_map_elf : keeps.
Lemma keeps_load_libc F libc_main random execfn ctx :
  keeps (fds F) (frida_try_load_libc_and_raise libc_main random execfn ctx).
Proof. unfold frida_try_load_libc_and_raise. keeps_auto. Qed.
End fds.
