(* ===== verification/ResolveCorrect.v ===== *)
(** Collecting the functions of the target's libc: the count of missing
    functions is exact, and resolution succeeds with a complete table. *)
From S2P Require Import Prelude Posix ElfParser ElfCorrect Bootstrap.

(** ** Interface to the ELF parser

    What resolution needs to know of an image: which symbols the parser hands
    to a callback. *)
Definition exports_of (mem : Z → option Z) (base : Z) (l : list FridaElfExportDetails) : Prop :=
  ∀ S (func : FridaElfExportDetails → M S bool) (s : S),
    frida_elf_enumerate_exports mem func base s = until_false func l s.

(** The name of each field in the ordinary case. *)
Definition fn_name (f : api_fn) : list Z :=
  match f with
  | Fprintf => bytes_of "printf" | Fsprintf => bytes_of "sprintf" | Fmmap => bytes_of "mmap"
  | Fmunmap => bytes_of "munmap" | Fsocket => bytes_of "socket"
  | Fsocketpair => bytes_of "socketpair" | Fconnect => bytes_of "connect"
  | Frecvmsg => bytes_of "recvmsg" | Fsend => bytes_of "send" | Ffcntl => bytes_of "fcntl"
  | Fclose => bytes_of "close" | Fpthread_create => bytes_of "pthread_create"
  | Fpthread_detach => bytes_of "pthread_detach" | Fdlopen => bytes_of "dlopen"
  | Fdlclose => bytes_of "dlclose" | Fdlsym => bytes_of "dlsym" | Fdlerror => bytes_of "dlerror"
  end.

(** ** Counting null fields *)
Definition nulls (a : FridaLibcApi) : Z := zlen (filter (λ f, api a f = 0) all_fns).

Lemma all_fns_nodup : NoDup all_fns.
Proof. apply (bool_decide_unpack _). vm_compute. exact I. Qed.
Lemma all_fns_in f : f ∈ all_fns.
Proof. apply (bool_decide_unpack _). destruct f; vm_compute; exact I. Qed.

Lemma filter_agree {X} (P Q : X → Prop) `{∀ x, Decision (P x)} `{∀ x, Decision (Q x)} (l : list X) :
  (∀ g, g ∈ l → P g ↔ Q g) → filter P l = filter Q l.
Proof.
  induction l as [|x l IH]; intros Hpq; [done|]. rewrite !filter_cons.
  rewrite IH by (intros g Hg; apply Hpq; by right).
  assert (Hx : P x ↔ Q x) by (apply Hpq; left). repeat case_decide; tauto || done.
Qed.

Lemma filter_drop_one {X} (P Q : X → Prop) `{∀ x, Decision (P x)} `{∀ x, Decision (Q x)}
    e (l : list X) :
  NoDup l → e ∈ l → P e → ¬ Q e → (∀ g, g ≠ e → Q g ↔ P g) →
  length (filter P l) = S (length (filter Q l)).
Proof.
  intros Hnd Hin Hp Hq Hpq. induction l as [|x l IH]; [by apply elem_of_nil in Hin|].
  apply NoDup_cons in Hnd as [Hx Hnd].
  assert (Hsame : e ∉ l → filter P l = filter Q l).
  { intros Hni. apply filter_agree. intros g Hg. symmetry. apply Hpq. by intros ->. }
  rewrite !filter_cons. apply elem_of_cons in Hin as [->|Hin].
  - rewrite decide_True, decide_False by done. cbn. by rewrite Hsame.
  - assert (x ≠ e) by (by intros ->). destruct (decide (P x)) as [Px|Px].
    + rewrite decide_True by (by apply Hpq). cbn. by rewrite IH.
    + rewrite decide_False by (by rewrite Hpq). by apply IH.
Qed.

Lemma nulls_set a f v :
  api a f = 0 → nulls (set_fn f v a) = nulls a - (if v =? 0 then 0 else 1).
Proof.
  intros Hf. destruct (Z.eqb_spec v 0) as [->|Hv].
  - assert (E : ∀ g, api (set_fn f 0 a) g = api a g).
    { intros g. cbn. case_decide; congruence. }
    rewrite Z.sub_0_r. unfold nulls. f_equal. apply list_filter_iff. intros g. by rewrite E.
  - unfold nulls, zlen.
    rewrite (filter_drop_one (λ g, api a g = 0) (λ g, api (set_fn f v a) g = 0) f all_fns);
      [lia|apply all_fns_nodup|apply all_fns_in|done| |].
    + cbn. by rewrite decide_True.
    + intros g Hg. cbn. by rewrite decide_False.
Qed.

Lemma nulls_at_least a (l : list api_fn) :
  NoDup l → Forall (λ f, api a f = 0) l → zlen l ≤ nulls a.
Proof.
  intros Hnd Hl. unfold nulls, zlen. apply Nat2Z.inj_le, submseteq_length, NoDup_submseteq; [done|].
  intros f Hf. apply list_elem_of_filter. split; [|apply all_fns_in].
  rewrite list.Forall_forall in Hl. by apply Hl.
Qed.
Lemma nulls_zero a f : nulls a = 0 → api a f ≠ 0.
Proof.
  intros Hz Hf. pose proof (nulls_at_least a [f] (NoDup_singleton f)) as Hn.
  rewrite Forall_singleton in Hn. specialize (Hn Hf). change (zlen [f]) with 1 in Hn. lia.
Qed.

(** ** One symbol *)
Section collect.
Context (names : list (api_fn * list Z * Z)) (name : list Z) (address : Z).
Hypothesis Haddr : address ≠ 0.
Implicit Types c : FridaCollectLibcApiContext.

Lemma try_collect_count c :
  nulls (cc_api (try_collect names name address c)) - total_missing (try_collect names name address c)
  = nulls (cc_api c) - total_missing c.
Proof.
  induction names as [|[[e n] fl] r IH]; cbn; [done|].
  destruct (Z.eqb_spec (api (cc_api c) e) 0) as [He|]; cbn [andb]; [|done].
  destruct (strcmp_eq name n); [|done]. cbn [cc_api total_missing].
  change (nulls (or_flags fl (set_fn e address (cc_api c))))
    with (nulls (set_fn e address (cc_api c))).
  rewrite nulls_set by done. rewrite (proj2 (Z.eqb_neq address 0) Haddr). lia.
Qed.

Lemma try_collect_keeps c f :
  api (cc_api c) f ≠ 0 → api (cc_api (try_collect names name address c)) f ≠ 0.
Proof.
  intros Hf. induction names as [|[[e n] fl] r IH]; cbn; [done|].
  destruct (_ && _); [|done]. cbn. by case_decide.
Qed.

Lemma try_collect_flavor c : cc_flavor (try_collect names name address c) = cc_flavor c.
Proof.
  induction names as [|[[e n] fl] r IH]; cbn; [done|]. by destruct (_ && _).
Qed.

(** A field whose name is in the chain is filled by a symbol of that name. *)
Lemma try_collect_fills c f fl :
  NoDup ((λ x : api_fn * list Z * Z, x.1.2) <$> names) → (f, name, fl) ∈ names →
  api (cc_api (try_collect names name address c)) f ≠ 0.
Proof.
  destruct (decide (api (cc_api c) f = 0)) as [Hf|Hf]; [|intros; by apply try_collect_keeps].
  revert Hf. induction names as [|[[e n] fl'] r IH]; intros Hf Hnd Hin; [by apply elem_of_nil in Hin|].
  cbn in Hnd. apply NoDup_cons in Hnd as [Hn Hnd]. cbn [try_collect].
  apply elem_of_cons in Hin as [Hin|Hin].
  - injection Hin as <- <- _. rewrite Hf. unfold strcmp_eq. rewrite bool_decide_true by done.
    cbn. by rewrite decide_True.
  - assert (Hne : name ≠ n).
    { intros <-. apply Hn. apply list_elem_of_fmap. by exists (f, name, fl). }
    unfold strcmp_eq. rewrite bool_decide_false, andb_false_r by done. by apply IH.
Qed.
End collect.

Lemma chain_nodup : NoDup ((λ x : api_fn * list Z * Z, x.1.2) <$> (libc_names ++ dl_names)).
Proof. apply (bool_decide_unpack _). vm_compute. exact I. Qed.
Lemma chain_has f : ∃ fl, (f, fn_name f, fl) ∈ libc_names ++ dl_names.
Proof. exists 0. apply (bool_decide_unpack _). destruct f; vm_compute; exact I. Qed.

(** ** All symbols of an image *)
Section fold.
Context {U : Type} (func : list Z → FridaElfExportDetails → U → bool * U).
Context (nm : FridaElfExportDetails → list Z).

Fixpoint fold_stop (l : list FridaElfExportDetails) (u : U) : U :=
  match l with
  | [] => u
  | d :: r => let '(b, u) := func (nm d) d u in if b : bool then fold_stop r u else u
  end.

Lemma enumerate_fold {K} `{BootKernel K} fuel base l u (k : K) :
  exports_of (k_mem k) base l →
  Forall (λ d, cstr fuel (d_sym_name d) k = Ret (nm d, k)) l →
  enumerate_exports fuel base func u k = Ret (fold_stop l u, k).
Proof.
  intros Hex Hnm. unfold enumerate_exports, with_symbols. rewrite Hex. clear Hex.
  revert u. induction Hnm as [|d l Hd Hl IH]; intros u; cbn; [done|].
  unfold bind. rewrite Hd. destruct (func (nm d) d u) as [[] u']; [|done]. apply IH.
Qed.
End fold.

Section libc.
Context (nm : FridaElfExportDetails → list Z).
Implicit Types c : FridaCollectLibcApiContext.

Definition collected (l : list FridaElfExportDetails) c : FridaCollectLibcApiContext :=
  fold_stop frida_collect_libc_symbol nm l c.

Lemma collected_cons d l c :
  cc_flavor c ≠ FRIDA_RTLD_ANDROID →
  collected (d :: l) c =
  if d_sym_type d =? STT_FUNC then
    let c1 := try_collect (libc_names ++ dl_names) (nm d) (d_address d) c in
    if 0 <? total_missing c1 then collected l c1 else c1
  else collected l c.
Proof.
  intros Hf. unfold collected. cbn [fold_stop]. unfold frida_collect_libc_symbol at 1.
  destruct (d_sym_type d =? STT_FUNC); cbn [negb]; [|done]. by rewrite decide_False.
Qed.

(** The count is exact, fields stay filled, and none is left null once every
    name has been seen. *)
Lemma collected_facts l : ∀ c,
  Forall (λ d, d_address d ≠ 0) l → cc_flavor c ≠ FRIDA_RTLD_ANDROID →
  total_missing c = nulls (cc_api c) →
  total_missing (collected l c) = nulls (cc_api (collected l c)) ∧
  ((∀ f, api (cc_api c) f ≠ 0 ∨
         ∃ d, d ∈ l ∧ d_sym_type d = STT_FUNC ∧ nm d = fn_name f) →
   nulls (cc_api (collected l c)) = 0).
Proof.
  induction l as [|d l IH]; intros c Hadr Hfl Hcount.
  { split; [done|]. unfold collected; cbn [fold_stop]. intros Hall. unfold nulls.
    rewrite (filter_agree _ (λ _, False)); [|intros g _; destruct (Hall g) as [?|(? & Hx & _)]; [tauto|]].
    - reflexivity.
    - by apply elem_of_nil in Hx. }
  apply Forall_cons in Hadr as [Hd Hadr]. rewrite collected_cons by done.
  destruct (Z.eqb_spec (d_sym_type d) STT_FUNC) as [Ht|Ht].
  - cbn zeta. set (c1 := try_collect _ _ _ c).
    assert (Hc1 : total_missing c1 = nulls (cc_api c1)).
    { pose proof (try_collect_count (libc_names ++ dl_names) (nm d) (d_address d) Hd c).
      subst c1. lia. }
    assert (Hf1 : cc_flavor c1 ≠ FRIDA_RTLD_ANDROID) by (subst c1; by rewrite try_collect_flavor).
    destruct (Z.ltb_spec 0 (total_missing c1)).
    + destruct (IH c1 Hadr Hf1 Hc1) as [H1 H2]. split; [done|]. intros Hall. apply H2.
      intros f. destruct (Hall f) as [Hf|(d' & Hin & Ht' & Hn)].
      * left. by apply try_collect_keeps.
      * apply elem_of_cons in Hin as [->|Hin]; [|right; by exists d'].
        left. destruct (chain_has f) as [fl Hfl']. subst c1. rewrite <- Hn in Hfl'.
        eapply try_collect_fills; [done|apply chain_nodup|exact Hfl'].
    + split; [done|]. intros _. pose proof (zlen_nonneg (filter (λ f, api (cc_api c1) f = 0) all_fns)).
      unfold nulls in *. lia.
  - destruct (IH c Hadr Hfl Hcount) as [H1 H2]. split; [done|]. intros Hall. apply H2.
    intros f. destruct (Hall f) as [Hf|(d' & Hin & Ht' & Hn)]; [by left|].
    apply elem_of_cons in Hin as [->|Hin]; [done|]. right. by exists d'.
Qed.
End libc.

(** ** Resolution *)

(** The count, with dlerror forgiven when glibc's private dlopen was taken. *)
Definition count_ok (c : FridaCollectLibcApiContext) : Prop :=
  total_missing c = nulls (cc_api c) ∨
  (total_missing c + 1 = nulls (cc_api c) ∧ api (cc_api c) Fdlerror = 0 ∧
   Z.land (dlopen_flags (cc_api c)) FRIDA_GLIBC_RTLD_DLOPEN ≠ 0).

Lemma forgive_ok c : total_missing c = nulls (cc_api c) → count_ok (forgive_dlerror c).
Proof.
  intros Hc. unfold forgive_dlerror, count_ok.
  destruct (0 <? total_missing c); cbn [andb]; [|by left].
  destruct (Z.eqb_spec (Z.land (dlopen_flags (cc_api c)) FRIDA_GLIBC_RTLD_DLOPEN) 0); cbn [negb andb];
    [by left|].
  destruct (Z.eqb_spec (api (cc_api c) Fdlerror) 0); cbn [andb total_missing cc_api]; [|by left].
  right. split_and!; [lia|done|done].
Qed.

(** A complete table: at most dlerror is missing, and only with glibc's
    private dlopen. *)
Definition complete (a : FridaLibcApi) : Prop :=
  ∀ f, api a f ≠ 0 ∨ (f = Fdlerror ∧ Z.land (dlopen_flags a) FRIDA_GLIBC_RTLD_DLOPEN ≠ 0).

Lemma count_complete c : count_ok c → total_missing c = 0 → complete (cc_api c).
Proof.
  intros [Hc|(Hc & Hd & Hg)] Hz f.
  - left. apply nulls_zero. lia.
  - destruct (decide (f = Fdlerror)) as [->|Hf]; [by right|]. left. intros H0.
    assert (Hn : zlen [f; Fdlerror] ≤ nulls (cc_api c)).
    { apply nulls_at_least; [|by repeat constructor].
      apply NoDup_cons. split; [by rewrite list_elem_of_singleton|apply NoDup_singleton]. }
    change (zlen [f; Fdlerror]) with 2 in Hn. lia.
Qed.

(** With exactly the two pthread functions missing, dlopen and dlsym are there. *)
Lemma pthread_only c f :
  count_ok c → total_missing c = 2 → api (cc_api c) Fpthread_create = 0 →
  api (cc_api c) Fpthread_detach = 0 → f = Fdlopen ∨ f = Fdlsym → api (cc_api c) f ≠ 0.
Proof.
  intros Hc H2 Hpc Hpd Hf H0. destruct Hc as [Hc|(Hc & Hd & _)].
  - assert (Hn : zlen [f; Fpthread_create; Fpthread_detach] ≤ nulls (cc_api c)).
    { apply nulls_at_least; [|by repeat constructor].
      destruct Hf as [-> | ->]; apply (bool_decide_unpack _); vm_compute; exact I. }
    change (zlen _) with 3 in Hn. lia.
  - assert (Hn : zlen [f; Fpthread_create; Fpthread_detach; Fdlerror] ≤ nulls (cc_api c)).
    { apply nulls_at_least; [|by repeat constructor].
      destruct Hf as [-> | ->]; apply (bool_decide_unpack _); vm_compute; exact I. }
    change (zlen _) with 4 in Hn. lia.
Qed.

Lemma pthread_ok {K} `{BootKernel K} c (k : K) :
  count_ok c → ∃ c' k', resolve_pthread c k = Ret (c', k') ∧ count_ok c' ∧
    total_missing c' ≤ total_missing c ∧
    (total_missing c = 0 → c' = c).
Proof.
  intros Hc. unfold resolve_pthread.
  destruct (Z.eqb_spec (total_missing c) 2) as [H2|]; cbn [andb];
    [|exists c, k; split_and!; done || lia].
  destruct (Z.eqb_spec (api (cc_api c) Fpthread_create) 0) as [Hpc|]; cbn [andb];
    [|exists c, k; split_and!; done || lia].
  destruct (Z.eqb_spec (api (cc_api c) Fpthread_detach) 0) as [Hpd|];
    [|exists c, k; split_and!; done || lia].
  pose proof (pthread_only c Fdlopen Hc H2 Hpc Hpd (or_introl eq_refl)) as Ho.
  pose proof (pthread_only c Fdlsym Hc H2 Hpc Hpd (or_intror eq_refl)) as Hs.
  unfold bind at 1, call_dlopen. rewrite (proj2 (Z.eqb_neq _ _) Ho).
  destruct (k_dlopen _ _ _ _ k) as [lib k1].
  destruct (Z.eqb_spec lib 0); cbn [negb]; [exists c, k1; split_and!; done || lia|].
  unfold bind at 1, call_dlsym. rewrite (proj2 (Z.eqb_neq _ _) Hs).
  destruct (k_dlsym _ _ _ _ k1) as [create k2]. unfold bind at 1.
  cbn [api set_fn]. rewrite (decide_False (P := Fdlsym = _)) by done.
  rewrite (proj2 (Z.eqb_neq _ _) Hs). destruct (k_dlsym _ _ _ _ k2) as [detach k3].
  eexists _, k3. split; [reflexivity|]. cbn [total_missing cc_api].
  set (a1 := set_fn Fpthread_create create (cc_api c)).
  assert (E1 : nulls a1 = nulls (cc_api c) - (if create =? 0 then 0 else 1)) by (by apply nulls_set).
  assert (E2 : nulls (set_fn Fpthread_detach detach a1) = nulls a1 - (if detach =? 0 then 0 else 1)).
  { apply nulls_set. subst a1. cbn. by rewrite decide_False. }
  split_and!; [|destruct (create =? 0), (detach =? 0); lia|lia].
  unfold count_ok. cbn [total_missing cc_api]. rewrite E2, E1.
  destruct Hc as [Hc|(Hc & Hd & Hg)]; [left; lia|]. right. split_and!; [lia| |done].
  subst a1. cbn. by rewrite !decide_False.
Qed.
