(* ===== verification/BootstrapClaims.v ===== *)
(** What the bootstrapper guarantees: its parsers, its reader of kernel text
    files, the completeness of the function table, and its descriptors. *)
From S2P Require Import Prelude Posix Stdio ElfParser ElfCorrect ElfClaims Bootstrap BootstrapCorrect ResolveCorrect.

(** ** A kernel for the examples: files given in chunks, memory in blocks *)
Record chunkk := mk_chunkk {
  ck_files : list (list Z * list (list Z));
  ck_chunks : list (list Z);
  ck_mem : list (Z * list Z);
  ck_fds : gset Z;
  ck_next : N
}.
Definition ck_open (path : list Z) (k : chunkk) : sysret Z * chunkk :=
  let fd := Z.of_N (ck_next k) in
  match list_find (λ e, e.1 = path) (ck_files k) with
  | Some (_, (_, chunks)) =>
      if decide (fd ∈ ck_fds k) then (SysErr 24, k)
      else (SysOk fd, mk_chunkk (ck_files k) chunks (ck_mem k) ({[fd]} ∪ ck_fds k) (ck_next k + 1))
  | None => (SysErr 2, k)
  end.
Definition ck_read (k : chunkk) : sysret (list Z) * chunkk :=
  match ck_chunks k with
  | [] => (SysOk [], k)
  | c :: r => (SysOk c, mk_chunkk (ck_files k) r (ck_mem k) (ck_fds k) (ck_next k))
  end.
#[export] Instance chunkk_kernel : Kernel chunkk := {|
  k_open path _ _ := ck_open path;
  k_read _ _ := ck_read;
  k_write _ bs k := (SysOk (zlen bs), k);
  k_close fd k := (SysOk tt, mk_chunkk (ck_files k) (ck_chunks k) (ck_mem k) (ck_fds k ∖ {[fd]}) (ck_next k));
  k_lseek _ off _ k := (SysOk off, k);
  k_getdents _ _ k := (SysOk [], k)
|}.
#[export] Instance chunkk_boot : BootKernel chunkk := {|
  k_mem k := mem_of (ck_mem k);
  k_store a bs k := Some (mk_chunkk (ck_files k) (ck_chunks k) ((a, bs) :: ck_mem k) (ck_fds k) (ck_next k));
  k_mmap _ _ _ _ _ _ k := (SysErr 12, k);
  k_munmap _ _ k := k;
  k_prctl _ _ k := (1, k);
  k_socketpair k := (SysErr 24, k);
  k_dlopen _ _ _ _ k := (0, k);
  k_dlsym _ _ _ _ k := (0, k)
|}.
#[export] Program Instance chunkk_fds : FdLaws chunkk := {| k_fds := ck_fds |}.
Next Obligation.
  intros path flags mode k r k' E. cbn in E. unfold ck_open in E.
  destruct (list_find _ _) as [[? [? ?]]|]; [|by simplify_eq].
  case_decide; simplify_eq; [done|]. cbn. split_and!; [lia|done|done].
Qed.
Next Obligation. intros fd k r k' E. by simplify_eq/=. Qed.
Next Obligation. intros k r k' E. by simplify_eq/=. Qed.
Next Obligation. intros fd n k r k' E. cbn in E. unfold ck_read in E. case_match; by simplify_eq. Qed.
Next Obligation. intros. by simplify_eq/=. Qed.
Next Obligation. intros. by simplify_eq/=. Qed.
Next Obligation. done. Qed.
Next Obligation. intros. by simplify_eq/=. Qed.
Next Obligation. intros. by simplify_eq/=. Qed.
Next Obligation. intros. by simplify_eq/=. Qed.
Next Obligation. intros. by simplify_eq/=. Qed.

(** the hexadecimal parser reads back what the kernel prints.  On the
    lower-case digits of a number followed by a character that is no digit, or
    by the end of the string, [frida_parse_size] gives the number modulo the
    width of [size_t]. *)
Theorem parse_size_roundtrip ds rest :
  Forall (λ d, 0 ≤ d < 16) ds → hex_ends rest →
  frida_parse_size ((hex_digit <$> ds) ++ rest) = u64 (hex_value ds).
Proof. intros Hds Hrest. by apply parse_size_from_spec. Qed.

Lemma parse_size_roundtrip_witness :
  (hex_digit <$> [7; 15; 0; 0; 10]) ++ bytes_of "-7ffff" = bytes_of "7f00a-7ffff" ∧
  frida_parse_size ((hex_digit <$> [7; 15; 0; 0; 10]) ++ bytes_of "-7ffff") =
    u64 (hex_value [7; 15; 0; 0; 10]).
Proof.
  split; [reflexivity|].
  apply (parse_size_roundtrip [7; 15; 0; 0; 10] (bytes_of "-7ffff")).
  - repeat constructor; lia.
  - change (¬ is_hex 45). unfold is_hex. lia.
Defined.

(** which files count as libc.  Under Android's linker it is a path ending
    in one of three libc.so locations; under any other it is a path whose name
    after the last slash begins like a glibc or musl libc. *)
Theorem path_is_libc_spec path flavor :
  frida_path_is_libc path flavor = true ↔
  if decide (flavor = FRIDA_RTLD_ANDROID) then
    ∃ dir e, path = dir ++ e ∧
      e ∈ [bytes_of "/lib/libc.so"; bytes_of "/lib64/libc.so"; bytes_of "/bionic/libc.so"]
  else
    ∃ name b rest, base_name path name ∧ name = b ++ rest ∧
      b ∈ [bytes_of "libc.so"; bytes_of "libc.musl"; bytes_of "ld-musl"].
Proof.
  unfold frida_path_is_libc. destruct (decide (flavor = FRIDA_RTLD_ANDROID)).
  - rewrite !orb_true_iff, !has_suffix_spec. split.
    + intros [[d ->]|[[d ->]|[d ->]]]; eexists d, _; (split; [reflexivity|]);
        rewrite !elem_of_cons; tauto.
    + intros (d & e' & -> & He). rewrite !elem_of_cons, elem_of_nil in He.
      destruct He as [-> |[-> |[-> |[]]]]; eauto.
  - set (name := match after_last SLASH path with Some n => n | None => path end).
    rewrite !orb_true_iff, !has_prefix_spec. split.
    + intros Hn. assert (Hb : base_name path name) by (by apply base_name_after_last).
      destruct Hn as [[r Hr]|[[r Hr]|[r Hr]]]; eexists name, _, r; (split; [done|]);
        (split; [exact Hr|]); rewrite !elem_of_cons; tauto.
    + intros (nm & b & rest & Hb & Hn & Hin). apply base_name_after_last in Hb.
      fold name in Hb. subst nm. rewrite !elem_of_cons, elem_of_nil in Hin.
      destruct Hin as [-> |[-> |[-> |[]]]]; eauto.
Qed.

(** reading a text file visits its lines.  When the kernel delivers the
    file in chunks that fit the buffer and each complete at least one line,
    [frida_parse_file] calls the line parser on every complete line in order
    until it stops, whatever the chunk boundaries are, and returns. *)
Theorem parse_file_lines {K} `{BootKernel K} {U} (f : list Z → U → bool * U) fuel path chunks fd
    u (k k0 : K) :
  k_open path O_RDONLY None k = (SysOk fd, k0) → feeds fd chunks k0 → line_chunks [] chunks →
  (2048 ≤ fuel)%nat → (length chunks + 2 ≤ fuel)%nat →
  ∃ k', frida_parse_file fuel path (line_parser f) u k =
    Ret ((visit_lines f (lines (concat chunks)) u).2, k').
Proof.
  intros Ho Hfeed Hok Hf Hc. rewrite (parse_file_eq f fuel path u k fd k0 Ho).
  destruct (parse_chunks f fd chunks fuel fuel [] u k0) as [k1 E]; try done.
  - apply not_elem_of_nil.
  - constructor.
  - unfold bind. rewrite E. destruct (boot_close_returns fd k1) as [k2 ->]. by exists k2.
Qed.

Definition text_kernel (chunks : list (list Z)) : chunkk :=
  mk_chunkk [(maps, chunks)] [] [] {[0; 1; 2]} 3.
(** Count lines, and stop at an empty one. *)
Definition count_lines (l : list Z) (u : list (list Z)) : bool * list (list Z) :=
  (bool_decide (l = []), u ++ [l]).
Ltac list_in := repeat first [left; done | right].

Lemma parse_file_lines_witness :
  let chunks := [bytes_of "ab" ++ [10] ++ bytes_of "cd"; bytes_of "ef" ++ [10; 10] ++ bytes_of "g"] in
  (visit_lines count_lines (lines (concat chunks)) []).2 =
    [bytes_of "ab"; bytes_of "cdef"; []] ∧
  ∃ k', frida_parse_file 2048 maps (line_parser count_lines) [] (text_kernel chunks) =
    Ret ((visit_lines count_lines (lines (concat chunks)) []).2, k').
Proof.
  intros chunks. split; [reflexivity|].
  apply (parse_file_lines count_lines 2048 maps chunks 3 [] (text_kernel chunks)
    (mk_chunkk [(maps, chunks)] chunks [] ({[3]} ∪ {[0; 1; 2]}) 4)).
  - reflexivity.
  - cbn. eexists. split; [reflexivity|]. eexists. split; [reflexivity|].
    eexists _, _. split; reflexivity.
  - cbn. split_and!; try (by repeat constructor); try (vm_compute; reflexivity); list_in.
  - lia.
  - cbn. lia.
Defined.

(** a line that arrives in pieces is lost.  When the first chunk holds no
    newline, as it does when a line is longer than the buffer, its bytes are
    discarded and the rest of that line is parsed as a line of its own: the
    result is that of the file without them. *)
Theorem parse_file_drops_partial_line {K} `{BootKernel K} {U} (f : list Z → U → bool * U)
    fuel path c chunks fd u (k k0 k1 : K) :
  k_open path O_RDONLY None k = (SysOk fd, k0) →
  (∀ n, zlen c ≤ n → k_read fd n k0 = (SysOk c, k1)) →
  c ≠ [] → no_nul c → NEWLINE ∉ c → zlen c < PARSE_BUFFER →
  feeds fd chunks k1 → line_chunks [] chunks →
  (2048 ≤ fuel)%nat → (length chunks + 3 ≤ fuel)%nat →
  ∃ k', frida_parse_file fuel path (line_parser f) u k =
    Ret ((visit_lines f (lines (concat chunks)) u).2, k').
Proof.
  intros Ho Hr Hne Hz Hn Hlen Hfeed Hok Hf Hc. rewrite (parse_file_eq f fuel path u k fd k0 Ho).
  destruct fuel as [|fuel]; [lia|]. set (fuel0 := S fuel) in *. subst fuel0. cbn [loop].
  unfold bind at 1 2.
  rewrite (file_step_chunk f (S fuel) fd [] c u k0 k1); try done; [|constructor].
  unfold buffer_result. cbn [app]. unfold lines at 1. rewrite lines_of_no_newline by done.
  cbn [fst visit_lines]. rewrite decide_False by done.
  destruct (parse_chunks f fd chunks (S fuel) fuel [] u k1) as [k2 E]; try done.
  - apply not_elem_of_nil.
  - constructor.
  - lia.
  - rewrite E. destruct (boot_close_returns fd k2) as [k3 E3]. unfold bind. rewrite E3. by exists k3.
Qed.

(** A line of 2047 characters and its end are read as a line "ef". *)
Lemma parse_file_drops_partial_line_witness :
  let c := replicate 2047 97 in
  let chunks := [bytes_of "ef" ++ [10]] in
  (visit_lines count_lines (lines (concat chunks)) []).2 = [bytes_of "ef"] ∧
  ∃ k', frida_parse_file 2048 maps (line_parser count_lines) [] (text_kernel (c :: chunks)) =
    Ret ((visit_lines count_lines (lines (concat chunks)) []).2, k').
Proof.
  intros c chunks. split; [reflexivity|].
  apply (parse_file_drops_partial_line count_lines 2048 maps c chunks 3 [] (text_kernel (c :: chunks))
    (mk_chunkk [(maps, c :: chunks)] (c :: chunks) [] ({[3]} ∪ {[0; 1; 2]}) 4)
    (mk_chunkk [(maps, c :: chunks)] chunks [] ({[3]} ∪ {[0; 1; 2]}) 4)).
  - reflexivity.
  - intros n _. reflexivity.
  - done.
  - apply Forall_replicate. done.
  - subst c. intros Hx. apply elem_of_replicate in Hx as [Hx _]. done.
  - vm_compute. reflexivity.
  - cbn. eexists. split; [reflexivity|]. eexists _, _. split; reflexivity.
  - cbn. split_and!; try (by repeat constructor); try (vm_compute; reflexivity); list_in.
  - lia.
  - cbn. lia.
Defined.

(** ** The function table *)

(** The ELF parser provides the interface resolution relies on. *)
Lemma exports_of_image mem base h phdrs dyns di dp syms :
  image_at mem base h phdrs →
  list_find (λ p, ph_type p = PT_DYNAMIC) phdrs = Some (di, dp) →
  table_at mem dyn_fields DYN_SIZE (base + ph_vaddr dp) dyns →
  ph_filesz dp / DYN_SIZE = zlen dyns →
  tag_value dyns DT_SYMTAB ≠ 0 → tag_value dyns DT_STRTAB ≠ 0 → tag_value dyns DT_STRSZ ≠ 0 →
  num_symbols base phdrs dyns = zlen syms →
  table_at mem sym_fields SYM_SIZE (symbols_base base dyns) syms →
  exports_of mem base (exports base dyns syms).
Proof. intros ????????? S func s. by eapply exports_run. Qed.

(** C6: resolving the functions of a libc other than Android's never goes through
    a null pointer and never claims more than it has.  When the libc's exports
    have readable names and non-null addresses, [frida_resolve_libc_apis]
    returns; true means every function pointer is set, except that dlerror may
    be missing when glibc's private dlopen was taken; and if libc exports all
    seventeen functions under their own names, the result is true with every
    pointer set.  (With Android's linker the result can also be true with none
    of the four dl functions.) *)
Theorem resolve_libc_complete {K} `{BootKernel K} fuel layout l nm (k : K) :
  lo_rtld_flavor layout ≠ FRIDA_RTLD_ANDROID →
  exports_of (k_mem k) (lo_libc layout) l →
  Forall (λ d, cstr fuel (d_sym_name d) k = Ret (nm d, k)) l →
  Forall (λ d, d_address d ≠ 0) l →
  ∃ ok a k', frida_resolve_libc_apis fuel layout k = Ret ((ok, a), k') ∧
    (ok = true → complete a) ∧
    ((∀ f, ∃ d, d ∈ l ∧ d_sym_type d = STT_FUNC ∧ nm d = fn_name f) →
     ok = true ∧ ∀ f, api a f ≠ 0).
Proof.
  intros Hfl Hex Hnm Hadr. unfold frida_resolve_libc_apis, bind at 1.
  rewrite (enumerate_fold frida_collect_libc_symbol nm fuel (lo_libc layout) l _ k Hex Hnm).
  set (c0 := initial_collect _).
  assert (Hc0 : total_missing c0 = nulls (cc_api c0)).
  { subst c0. unfold initial_collect. by rewrite decide_False. }
  destruct (collected_facts nm l c0 Hadr Hfl Hc0) as [Hcount Hall].
  fold (collected nm l c0). set (c1 := collected nm l c0) in *.
  destruct (pthread_ok (forgive_dlerror c1) k (forgive_ok c1 Hcount)) as (c2 & k2 & E & Hc2 & _ & Hz).
  unfold bind at 1. rewrite E.
  destruct (Z.eqb_spec (total_missing c2) 0) as [Hz2|Hz2]; cbn [negb].
  - rewrite decide_False by done. exists true, (cc_api c2), k2. split; [done|].
    split; [intros _; by apply count_complete|]. intros Hf. split; [done|].
    assert (Hn : nulls (cc_api c1) = 0) by (apply Hall; intros f; right; apply Hf).
    assert (Ef : forgive_dlerror c1 = c1).
    { unfold forgive_dlerror. destruct (Z.ltb_spec 0 (total_missing c1)); [lia|done]. }
    intros f. rewrite Hz; rewrite Ef; [by apply nulls_zero|lia].
  - exists false, (cc_api c2), k2. split; [done|]. split; [done|]. intros Hf. exfalso.
    assert (Hn : nulls (cc_api c1) = 0) by (apply Hall; intros f; right; apply Hf).
    assert (Ef : forgive_dlerror c1 = c1).
    { unfold forgive_dlerror. destruct (Z.ltb_spec 0 (total_missing c1)); [lia|done]. }
    rewrite Ef in Hz. specialize (Hz ltac:(lia)). subst c2. lia.
Qed.

(** A libc with the seventeen functions, at 0x20000. *)
Definition libc_base : Z := 0x20000.
Definition libc_strings : list Z := 0 :: concat ((λ f, fn_name f ++ [0]) <$> all_fns).
Fixpoint libc_syms_from (off v : Z) (l : list api_fn) : list sym :=
  match l with
  | [] => [mk_sym 0xffff 0 0 0 0 0]
  | f :: r => mk_sym off 18 0 7 v 16 :: libc_syms_from (off + zlen (fn_name f) + 1) (v + 16) r
  end.
Definition libc_syms : list sym := libc_syms_from 1 0x1000 all_fns.
Definition libc_dyns : list (Z * Z) :=
  [(DT_STRTAB, 0x200); (DT_SYMTAB, 0x400); (DT_STRSZ, zlen libc_strings); (0, 0)].
Definition libc_phdrs : list phdr :=
  [mk_phdr PT_LOAD 5 0 0 0 0x5b0 0x5b0 4096; mk_phdr PT_DYNAMIC 6 0x100 0x100 0x100 64 64 8].
Definition libc_ehdr : ehdr := mk_ehdr 64 0 0 64 56 2 64 0 0.
Definition libc_kernel : chunkk :=
  mk_chunkk [] []
    [(libc_base + 32, encode_fields (ehdr_fields libc_ehdr));
     (libc_base + 64, concat (encode_fields <$> (phdr_fields <$> libc_phdrs)));
     (libc_base + 0x100, concat (encode_fields <$> (dyn_fields <$> libc_dyns)));
     (libc_base + 0x200, libc_strings);
     (libc_base + 0x400, concat (encode_fields <$> (sym_fields <$> libc_syms)))] ∅ 3.
Definition libc_layout : FridaProcessLayout :=
  mk_layout 0x1000 56 3 0x7000 FRIDA_RTLD_GLIBC 0 0 libc_base.
Definition libc_name (d : FridaElfExportDetails) : list Z :=
  match cstr 64 (d_sym_name d) libc_kernel with Ret (n, _) => n | _ => [] end.

Lemma libc_exports : exports_of (k_mem libc_kernel) libc_base (exports libc_base libc_dyns libc_syms).
Proof.
  apply (exports_of_image _ libc_base libc_ehdr libc_phdrs libc_dyns 1
    (mk_phdr PT_DYNAMIC 6 0x100 0x100 0x100 64 64 8) libc_syms).
  - constructor; [apply load_bytes_inv; vm_compute; reflexivity|
      apply fields_check; vm_compute; reflexivity|reflexivity|vm_compute; reflexivity|
      apply table_check_ok; vm_compute; reflexivity].
  - vm_compute. reflexivity.
  - apply table_check_ok. vm_compute. reflexivity.
  - vm_compute. reflexivity.
  - vm_compute. discriminate.
  - vm_compute. discriminate.
  - vm_compute. discriminate.
  - vm_compute. reflexivity.
  - apply table_check_ok. vm_compute. reflexivity.
Qed.

Lemma cstr_state {K} `{BootKernel K} n : ∀ a (k : K) x k', cstr n a k = Ret (x, k') → k' = k.
Proof.
  induction n as [|n IH]; intros a k x k'; cbn [cstr]; [done|]. unfold bind, rd, load.
  destruct (load_bytes (k_mem k) 1 a); [|done]. destruct (_ =? 0); [by intros [= _ <-]|].
  destruct (cstr n (a + 1) k) as [[r k1]| | |] eqn:E; try done.
  intros [= _ <-]. by eapply IH.
Qed.
Lemma libc_names_ok :
  Forall (λ d, cstr 64 (d_sym_name d) libc_kernel = Ret (libc_name d, libc_kernel))
    (exports libc_base libc_dyns libc_syms).
Proof.
  assert (Hb : forallb (λ d, match cstr 64 (d_sym_name d) libc_kernel with Ret _ => true | _ => false end)
    (exports libc_base libc_dyns libc_syms) = true) by (vm_compute; reflexivity).
  rewrite forallb_forall in Hb. apply list.Forall_forall. intros d Hd.
  apply list_elem_of_In, Hb in Hd. unfold libc_name.
  destruct (cstr 64 (d_sym_name d) libc_kernel) as [[x k']| | |] eqn:E; try done.
  by apply cstr_state in E as ->.
Qed.
Lemma libc_addresses_ok : Forall (λ d, d_address d ≠ 0) (exports libc_base libc_dyns libc_syms).
Proof.
  assert (Hb : forallb (λ d, negb (d_address d =? 0)) (exports libc_base libc_dyns libc_syms) = true)
    by (vm_compute; reflexivity).
  rewrite forallb_forall in Hb. apply list.Forall_forall. intros d Hd.
  apply list_elem_of_In, Hb in Hd. intros E. by rewrite E in Hd.
Qed.

Lemma resolve_libc_complete_witness :
  (∃ a k', frida_resolve_libc_apis 64 libc_layout libc_kernel = Ret ((true, a), k') ∧
     api a Fdlsym = 0x210f0) ∧
  ∃ ok a k', frida_resolve_libc_apis 64 libc_layout libc_kernel = Ret ((ok, a), k') ∧
    (ok = true → complete a) ∧
    ((∀ f, ∃ d, d ∈ exports libc_base libc_dyns libc_syms ∧ d_sym_type d = STT_FUNC ∧
        libc_name d = fn_name f) → ok = true ∧ ∀ f, api a f ≠ 0).
Proof.
  split; [eexists _, _; split; vm_compute; reflexivity|].
  apply (resolve_libc_complete 64 libc_layout (exports libc_base libc_dyns libc_syms) libc_name
    libc_kernel).
  - discriminate.
  - exact libc_exports.
  - exact libc_names_ok.
  - exact libc_addresses_ok.
Defined.

(** bootstrapping leaks no descriptor.  Whenever [frida_bootstrap] returns
    or jumps into a freshly loaded linker, the descriptors of the target are
    the ones it had before, plus, when it reports success with control
    descriptors, the two ends it stored in the context. *)
Theorem bootstrap_fd_balance {K} `{FdLaws K} libc_main random execfn fuel ctx (k k' : K) r ctx' a :
  frida_bootstrap libc_main random execfn fuel ctx k = Ret ((r, ctx', a), k') →
  k_fds k' = k_fds k ∨
  (r = Status FRIDA_BOOTSTRAP_SUCCESS ∧ bc_enable_ctrlfds ctx = true ∧
   k_fds k' = {[(bc_ctrlfds ctx').1; (bc_ctrlfds ctx').2]} ∪ k_fds k).
Proof.
  set (F := k_fds k). intros E.
  set (Q := λ (x : boot_result * FridaBootstrapContext * option FridaLibcApi) (k' : K),
    fds F k' ∨ (x.1.1 = Status FRIDA_BOOTSTRAP_SUCCESS ∧ bc_enable_ctrlfds ctx = true ∧
      k_fds k' = {[(bc_ctrlfds x.1.2).1; (bc_ctrlfds x.1.2).2]} ∪ F)).
  enough (Hh : hoare (fds F) (frida_bootstrap libc_main random execfn fuel ctx) Q)
    by exact (Hh k _ k' eq_refl E).
  assert (Hret : ∀ x, hoare (fds F) (ret x) Q) by (intros x; apply hoare_ret; by left).
  unfold frida_bootstrap. destruct (bc_allocation_base ctx =? 0).
  { eapply hoare_bind; [apply (keeps_mmap F)|]. intros b. apply Hret. }
  eapply hoare_bind; [apply (keeps_probe F)|]. intros [found process].
  destruct found; cbn [negb]; [|apply Hret]. cbn zeta.
  destruct (andb (negb _) _); [apply Hret|]. destruct (andb _ _).
  { eapply hoare_bind; [apply (keeps_load_libc F)|]. intros j. apply Hret. }
  eapply hoare_bind; [apply (keeps_resolve F)|]. intros [ok libc].
  destruct ok; cbn [negb]; [|apply Hret]. cbn [bc_enable_ctrlfds].
  destruct (bc_enable_ctrlfds ctx) eqn:Een.
  - apply (hoare_bind _ _ _ (λ fds' k', fds F k' ∨ k_fds k' = {[fds'.1; fds'.2]} ∪ F)).
    + intros k1 x k2 Hk. unfold bind, sys, ret. destruct (k_socketpair k1) as [r1 k3] eqn:Es.
      apply fd_socketpair in Es. unfold fds in *.
      destruct r1 as [[p q]|]; intros [= <- <-]; [right|left]; cbn; congruence.
    + intros p. apply hoare_ret. intros k1 [?|?]; [by left|right]. done.
  - apply (hoare_bind _ _ _ (λ _, fds F)); [by apply hoare_ret|]. intros p. apply Hret.
Qed.

(** A process whose auxiliary vector cannot be read. *)
Lemma bootstrap_fd_balance_witness :
  let k := text_kernel [] in
  let ctx := mk_boot_ctx 0x1000 4096 4096 [] [] FRIDA_RTLD_UNKNOWN 0 0 true (-1, -1) in
  frida_bootstrap 0 0 0 9 ctx k = Ret ((Status FRIDA_BOOTSTRAP_AUXV_NOT_FOUND, ctx, None), k) ∧
  (k_fds k = k_fds k ∨
   (Status FRIDA_BOOTSTRAP_AUXV_NOT_FOUND = Status FRIDA_BOOTSTRAP_SUCCESS ∧
    bc_enable_ctrlfds ctx = true ∧
    k_fds k = {[(bc_ctrlfds ctx).1; (bc_ctrlfds ctx).2]} ∪ k_fds k)).
Proof.
  intros k ctx. split; [vm_compute; reflexivity|].
  apply (bootstrap_fd_balance 0 0 0 9 ctx k k (Status FRIDA_BOOTSTRAP_AUXV_NOT_FOUND) ctx None).
  vm_compute. reflexivity.
Defined.
