(* ===== verification/Loader.v ===== *)
(** The second stage of Linux injection (src/src/linux/helpers/loader.c): the
    worker thread that receives the agent over a control socket, loads and runs
    it, and reports to the injector.

    The environment is the target's kernel, its dynamic linker and the agent:
    [LoaderEnv] gives their functions.  Besides their state the model keeps the
    trace of what the loader did. *)
From S2P Require Import Prelude Posix ElfParser Bootstrap.

(** *** inject-context.h: messages *)
Definition FRIDA_MESSAGE_HELLO : Z := 0.
Definition FRIDA_MESSAGE_READY : Z := 1.
Definition FRIDA_MESSAGE_ACK : Z := 2.
Definition FRIDA_MESSAGE_BYE : Z := 3.
Definition FRIDA_MESSAGE_ERROR_DLOPEN : Z := 4.
Definition FRIDA_MESSAGE_ERROR_DLSYM : Z := 5.

Inductive FridaUnloadPolicy :=
| FRIDA_UNLOAD_POLICY_IMMEDIATE
| FRIDA_UNLOAD_POLICY_RESIDENT
| FRIDA_UNLOAD_POLICY_DEFERRED.
#[export] Instance policy_eq_dec : EqDecision FridaUnloadPolicy.
Proof. solve_decision. Defined.
Definition policy_value (p : FridaUnloadPolicy) : Z :=
  match p with
  | FRIDA_UNLOAD_POLICY_IMMEDIATE => 0
  | FRIDA_UNLOAD_POLICY_RESIDENT => 1
  | FRIDA_UNLOAD_POLICY_DEFERRED => 2
  end.

Record FridaLoaderContext := mk_loader_ctx {
  lc_ctrlfds : Z * Z;
  lc_agent_entrypoint : list Z;
  lc_agent_data : list Z;
  lc_fallback_address : list Z;
  lc_libc : FridaLibcApi;
  lc_agent_handle : Z;
  lc_agent_entrypoint_impl : Z
}.

(** What the loader does that others can see. *)
Inductive event :=
| Sent (fd : Z) (bs : list Z)
| Received (fd : Z) (bs : list Z)
| ReceivedFd (sockfd fd : Z)
| Connected (fd : Z)
| Closed (fd : Z)
| Dlclosed (handle : Z)
| Detached
| Entered (entrypoint : Z) (ctrlfd agent_ctrlfd : Z)
| Returned (unload_policy : FridaUnloadPolicy) (ctrlfd agent_ctrlfd : Z).

Class LoaderEnv (K : Type) := {
  e_send : Z → list Z → K → sysret Z * K;
  e_recvmsg : Z → Z → bool → K → sysret (list Z * option Z) * K;
  e_close : Z → K → K;
  e_socket : K → sysret Z * K;
  e_connect : Z → list Z → K → sysret unit * K;
  e_fcntl : Z → Z → Z → K → Z * K;
  e_dlopen : list Z → Z → K → Z * K;
  e_dlsym : Z → list Z → K → Z * K;
  e_dlclose : Z → K → K;
  e_dlerror : K → list Z * K;
  e_detach : K → K;
  (** The agent runs: it sets the unload policy and the two descriptors. *)
  e_agent : Z → list Z → Z → Z → K → (FridaUnloadPolicy * Z * Z) * K
}.

Record loader (K : Type) := mk_loader { lw_k : K; lw_trace : list event }.
Arguments mk_loader {K} _ _.
Arguments lw_k {K} _.
Arguments lw_trace {K} _.

Definition F_GETFD : Z := 1.
Definition F_SETFD : Z := 2.
Definition FD_CLOEXEC : Z := 1.

(** [sprintf] of a non-negative [int]. *)
Fixpoint decimal (fuel : nat) (n : Z) : list Z :=
  match fuel with
  | O => []
  | S f => (if n <? 10 then [] else decimal f (n / 10)) ++ [48 + n mod 10]
  end.
Definition INT_DIGITS : nat := 10.
Definition agent_path (fd : Z) : list Z := bytes_of "/proc/self/fd/" ++ decimal INT_DIGITS fd.

(** [sizeof (addr.sun_path)]. *)
Definition SUN_PATH_SIZE : Z := 108.

Section loader.
Context {K : Type} `{LoaderEnv K}.
Context (libc : FridaLibcApi).

(** Call one of the resolved functions; a null pointer is fatal. *)
Definition call {A} (f : api_fn) (m : K → A * K) : M (loader K) A := λ s,
  if api libc f =? 0 then Crash
  else let '(a, k) := m (lw_k s) in Ret (a, mk_loader k (lw_trace s)).
Definition emit (e : event) : M (loader K) unit :=
  modify (λ s, mk_loader (lw_k s) (lw_trace s ++ [e])).
Definition libc_close (fd : Z) : M (loader K) unit :=
  do! call Fclose (λ k, (tt, e_close fd k)) in emit (Closed fd).

Definition frida_send_chunk (fuel : nat) (sockfd : Z) (buffer : list Z) : M (loader K) bool :=
  loop fuel (λ cursor,
    if cursor =? zlen buffer then ret (inr true)
    else
      let rest := zdrop cursor buffer in
      let! n := call Fsend (e_send sockfd rest) in
      match n with
      | SysErr _ => ret (inr false)
      | SysOk n => do! emit (Sent sockfd (ztake n rest)) in ret (inl (cursor + n))
      end) 0.

Definition frida_receive_chunk (fuel : nat) (sockfd length : Z) : M (loader K) (option (list Z)) :=
  loop fuel (λ buffer,
    if zlen buffer =? length then ret (inr (Some buffer))
    else
      let! r := call Frecvmsg (e_recvmsg sockfd (length - zlen buffer) false) in
      match r with
      | SysErr _ | SysOk ([], _) => ret (inr None)
      | SysOk (bs, _) => do! emit (Received sockfd bs) in ret (inl (buffer ++ bs))
      end) [].

Definition frida_receive_fd (sockfd : Z) : M (loader K) Z :=
  let! r := call Frecvmsg (e_recvmsg sockfd 1 true) in
  match r with
  | SysErr _ | SysOk ([], _) | SysOk (_, None) => ret (-1)
  | SysOk (_, Some fd) => do! emit (ReceivedFd sockfd fd) in ret fd
  end.

Definition frida_enable_close_on_exec (fd : Z) : M (loader K) unit :=
  let! flags := call Ffcntl (e_fcntl fd F_GETFD 0) in
  do! call Ffcntl (e_fcntl fd F_SETFD (Z.lor flags FD_CLOEXEC)) in ret tt.

Definition frida_send_hello (fuel : nat) (sockfd thread_id : Z) : M (loader K) bool :=
  let! ok := frida_send_chunk fuel sockfd [FRIDA_MESSAGE_HELLO] in
  if negb ok then ret false else frida_send_chunk fuel sockfd (le_bytes 4 thread_id).
Definition frida_send_ready (fuel : nat) (sockfd : Z) : M (loader K) bool :=
  frida_send_chunk fuel sockfd [FRIDA_MESSAGE_READY].
Definition frida_receive_ack (fuel : nat) (sockfd : Z) : M (loader K) bool :=
  let! r := frida_receive_chunk fuel sockfd 1 in
  ret (match r with Some [type] => type =? FRIDA_MESSAGE_ACK | _ => false end).
Definition frida_send_bye (fuel : nat) (sockfd : Z) (unload_policy : FridaUnloadPolicy)
    : M (loader K) bool :=
  let! ok := frida_send_chunk fuel sockfd [FRIDA_MESSAGE_BYE] in
  if negb ok then ret false
  else frida_send_chunk fuel sockfd (le_bytes 4 (policy_value unload_policy)).
Definition frida_send_error (fuel : nat) (sockfd type : Z) (message : list Z)
    : M (loader K) bool :=
  let length := u16 (zlen message) in
  let! ok := frida_send_chunk fuel sockfd [type] in
  if negb ok then ret false
  else
    let! ok := frida_send_chunk fuel sockfd (le_bytes 2 length) in
    if negb ok then ret false
    else
      let! ok := frida_send_chunk fuel sockfd (ztake length message) in
      if negb ok then ret false else ret true.

(** An address that does not fit [sun_path] is written past its end. *)
Definition frida_connect (address : list Z) : M (loader K) Z :=
  let! r := call Fsocket e_socket in
  match r with
  | SysErr _ => ret (-1)
  | SysOk sockfd =>
      do! emit (Connected sockfd) in
      if SUN_PATH_SIZE <? 1 + zlen address then crash
      else
        let! r := call Fconnect (e_connect sockfd (0 :: address)) in
        match r with
        | SysErr _ => do! libc_close sockfd in ret (-1)
        | SysOk _ => ret sockfd
        end
  end.

Definition dlerror_or (fallback : list Z) : M (loader K) (list Z) :=
  if negb (api libc Fdlerror =? 0) then call Fdlerror e_dlerror else ret fallback.

(** The label [beach]. *)
Definition beach (fuel : nat) (unload_policy : FridaUnloadPolicy)
    (agent_handle agent_ctrlfd agent_codefd ctrlfd : Z) : M (loader K) unit :=
  do! (if andb (bool_decide (unload_policy = FRIDA_UNLOAD_POLICY_IMMEDIATE))
            (negb (agent_handle =? 0))
       then do! call Fdlclose (λ k, (tt, e_dlclose agent_handle k)) in
            emit (Dlclosed agent_handle)
       else ret tt) in
  do! (if bool_decide (unload_policy ≠ FRIDA_UNLOAD_POLICY_DEFERRED)
       then do! call Fpthread_detach (λ k, (tt, e_detach k)) in emit Detached
       else ret tt) in
  do! (if negb (agent_ctrlfd =? -1) then libc_close agent_ctrlfd else ret tt) in
  do! (if negb (agent_codefd =? -1) then libc_close agent_codefd else ret tt) in
  if negb (ctrlfd =? -1) then
    do! frida_send_bye fuel ctrlfd unload_policy in
    libc_close ctrlfd
  else ret tt.

(** Everything before the labels: a connected control descriptor that said
    hello; -1 and [false] when there is none to go on with. *)
Definition establish (fuel : nat) (ctx : FridaLoaderContext) (thread_id : Z)
    : M (loader K) (Z * bool) :=
  let '(ctrlfd_for_peer, ctrlfd) := lc_ctrlfds ctx in
  do! (if negb (ctrlfd_for_peer =? -1) then libc_close ctrlfd_for_peer else ret tt) in
  let! ctrlfd :=
    (if negb (ctrlfd =? -1) then
       let! ok := frida_send_hello fuel ctrlfd thread_id in
       if negb ok then do! libc_close ctrlfd in ret (-1) else ret ctrlfd
     else ret (-1)) in
  if ctrlfd =? -1 then
    let! ctrlfd := frida_connect (lc_fallback_address ctx) in
    if ctrlfd =? -1 then ret (-1, false)
    else
      let! ok := frida_send_hello fuel ctrlfd thread_id in
      ret (ctrlfd, ok)
  else ret (ctrlfd, true).

(** Receiving the agent's code and loading it: the handle and entrypoint, or
    the descriptor still to be closed and the handle of a failed attempt. *)
Definition load_agent (fuel : nat) (ctx : FridaLoaderContext) (ctrlfd : Z)
    : M (loader K) (Z * Z + Z * Z) :=
  if negb (lc_agent_handle ctx =? 0)
  then ret (inl (lc_agent_handle ctx, lc_agent_entrypoint_impl ctx))
  else
    let! agent_codefd := frida_receive_fd ctrlfd in
    if agent_codefd =? -1 then ret (inr (-1, 0))
    else
      let! handle := call Fdlopen (e_dlopen (agent_path agent_codefd) (dlopen_flags libc)) in
      if handle =? 0 then
        let! message := dlerror_or (bytes_of "Unable to load library") in
        do! frida_send_error fuel ctrlfd FRIDA_MESSAGE_ERROR_DLOPEN message in
        ret (inr (agent_codefd, 0))
      else
        do! libc_close agent_codefd in
        let! impl := call Fdlsym (e_dlsym handle (lc_agent_entrypoint ctx)) in
        if impl =? 0 then
          let! message := dlerror_or (bytes_of "Unable to find entrypoint") in
          do! frida_send_error fuel ctrlfd FRIDA_MESSAGE_ERROR_DLSYM message in
          ret (inr (-1, handle))
        else ret (inl (handle, impl)).

(** From the loaded agent to the end: the handshake and the agent's run. *)
Definition serve_agent (fuel : nat) (ctx : FridaLoaderContext) (handle impl ctrlfd : Z)
    : M (loader K) unit :=
  let immediate := FRIDA_UNLOAD_POLICY_IMMEDIATE in
  let! agent_ctrlfd := frida_receive_fd ctrlfd in
  do! (if negb (agent_ctrlfd =? -1) then frida_enable_close_on_exec agent_ctrlfd
       else ret tt) in
  let! ready := frida_send_ready fuel ctrlfd in
  if negb ready then beach fuel immediate handle agent_ctrlfd (-1) ctrlfd
  else
    let! acked := frida_receive_ack fuel ctrlfd in
    if negb acked then beach fuel immediate handle agent_ctrlfd (-1) ctrlfd
    else
      do! emit (Entered impl ctrlfd agent_ctrlfd) in
      let! r := (λ s,
        if impl =? 0 then Crash
        else let '(r, k) := e_agent impl (lc_agent_data ctx) ctrlfd agent_ctrlfd (lw_k s) in
             Ret (r, mk_loader k (lw_trace s))) in
      let '(unload_policy, ctrlfd, agent_ctrlfd) := r in
      do! emit (Returned unload_policy ctrlfd agent_ctrlfd) in
      beach fuel unload_policy handle agent_ctrlfd (-1) ctrlfd.

Definition frida_main (fuel : nat) (ctx : FridaLoaderContext) (thread_id : Z)
    : M (loader K) unit :=
  let immediate := FRIDA_UNLOAD_POLICY_IMMEDIATE in
  let! r := establish fuel ctx thread_id in
  let '(ctrlfd, ok) := r in
  if negb ok then beach fuel immediate (lc_agent_handle ctx) (-1) (-1) ctrlfd
  else
    let! r := load_agent fuel ctx ctrlfd in
    match r with
    | inr (agent_codefd, handle) => beach fuel immediate handle (-1) agent_codefd ctrlfd
    | inl (handle, impl) => serve_agent fuel ctx handle impl ctrlfd
    end.
End loader.
