(* ===== verification/LoaderCorrect.v ===== *)
(** The loader's messages reach the injector whole, the agent is entered only
    after the handshake, and descriptors are balanced. *)
From S2P Require Import Prelude Posix ElfParser Bootstrap ResolveCorrect Loader.

(** ** The documented behaviour of the environment *)
Class LoaderLaws (K : Type) `{LoaderEnv K} := {
  e_fds : K → gset Z;
  send_law fd bs k r k' : e_send fd bs k = (r, k') →
    e_fds k' = e_fds k ∧ match r with SysOk n => bs ≠ [] → 0 < n ≤ zlen bs | SysErr _ => True end;
  recv_law fd n control k r k' : 1 ≤ n → e_recvmsg fd n control k = (r, k') →
    match r with
    | SysOk (bs, Some fd') => control = true ∧ 0 < zlen bs ≤ n ∧ 0 ≤ fd' ∧ fd' ∉ e_fds k ∧
        e_fds k' = {[fd']} ∪ e_fds k
    | SysOk (bs, None) => zlen bs ≤ n ∧ e_fds k' = e_fds k
    | SysErr _ => e_fds k' = e_fds k
    end;
  close_law fd k : e_fds (e_close fd k) = e_fds k ∖ {[fd]};
  socket_law k r k' : e_socket k = (r, k') →
    match r with
    | SysOk fd => 0 ≤ fd ∧ fd ∉ e_fds k ∧ e_fds k' = {[fd]} ∪ e_fds k
    | SysErr _ => e_fds k' = e_fds k
    end;
  connect_law fd a k r k' : e_connect fd a k = (r, k') → e_fds k' = e_fds k;
  fcntl_law fd c a k r k' : e_fcntl fd c a k = (r, k') → e_fds k' = e_fds k;
  dlopen_law p f k r k' : e_dlopen p f k = (r, k') → e_fds k' = e_fds k;
  dlsym_law h n k r k' : e_dlsym h n k = (r, k') → e_fds k' = e_fds k;
  dlclose_law h k : e_fds (e_dlclose h k) = e_fds k;
  dlerror_law k r k' : e_dlerror k = (r, k') → e_fds k' = e_fds k;
  detach_law k : e_fds (e_detach k) = e_fds k;
  (** The agent hands a descriptor back or claims it by storing -1. *)
  agent_law i d c a k p c' a' k' : e_agent i d c a k = ((p, c', a'), k') →
    (c' = c ∨ c' = -1) ∧ (a' = a ∨ a' = -1) ∧ e_fds k' = e_fds k
}.

(** ** Traces *)

(** The bytes sent on a descriptor since it was last closed. *)
Definition talk_step (fd : Z) (acc : list Z) (e : event) : list Z :=
  match e with
  | Sent f bs => if f =? fd then acc ++ bs else acc
  | Closed f => if f =? fd then [] else acc
  | _ => acc
  end.
Definition talk (fd : Z) (tr : list event) : list Z := foldl (talk_step fd) [] tr.
(** The bytes received on it. *)
Definition heard_step (fd : Z) (acc : list Z) (e : event) : list Z :=
  match e with
  | Received f bs => if f =? fd then acc ++ bs else acc
  | Closed f => if f =? fd then [] else acc
  | _ => acc
  end.
Definition heard (fd : Z) (tr : list event) : list Z := foldl (heard_step fd) [] tr.
Definition is_entry (e : event) : bool := match e with Entered _ _ _ => true | _ => false end.
Definition no_entry (tr : list event) : Prop := Forall (λ e, is_entry e = false) tr.

Definition hello_frame (thread_id : Z) : list Z := FRIDA_MESSAGE_HELLO :: le_bytes 4 thread_id.
Definition ready_frame : list Z := [FRIDA_MESSAGE_READY].
Definition bye_frame (p : FridaUnloadPolicy) : list Z :=
  FRIDA_MESSAGE_BYE :: le_bytes 4 (policy_value p).
Definition error_frame (type : Z) (message : list Z) : list Z :=
  let length := u16 (zlen message) in type :: le_bytes 2 length ++ ztake length message.

Lemma talk_snoc fd tr e : talk fd (tr ++ [e]) = talk_step fd (talk fd tr) e.
Proof. unfold talk. by rewrite foldl_app. Qed.
Lemma heard_snoc fd tr e : heard fd (tr ++ [e]) = heard_step fd (heard fd tr) e.
Proof. unfold heard. by rewrite foldl_app. Qed.

Section loader_rules.
Context {K : Type} `{LoaderLaws K}.
Context (libc : FridaLibcApi).
Hypothesis Hlibc : complete libc.
Implicit Types s : loader K.

Notation fdset s := (e_fds (lw_k s)).

Lemma fn_set f : f ≠ Fdlerror → api libc f ≠ 0.
Proof. intros Hf. destruct (Hlibc f) as [?|[? _]]; done. Qed.

Lemma wp_call_fn {A} f (m : K → A * K) s Q :
  f ≠ Fdlerror → (∀ a k, m (lw_k s) = (a, k) → Q a (mk_loader k (lw_trace s))) →
  wp (call libc f m) s Q.
Proof.
  intros Hf HQ. unfold call. destruct (m (lw_k s)) as [a k] eqn:E.
  exists a, (mk_loader k (lw_trace s)). rewrite (proj2 (Z.eqb_neq _ _) (fn_set f Hf)), E. auto.
Qed.
Lemma wp_emit e s Q : Q tt (mk_loader (lw_k s) (lw_trace s ++ [e])) → wp (emit e) s Q.
Proof. intros HQ. by apply wp_modify. Qed.

Lemma wp_close fd s :
  wp (libc_close libc fd) s (λ _ s', fdset s' = fdset s ∖ {[fd]} ∧
    lw_trace s' = lw_trace s ++ [Closed fd]).
Proof.
  unfold libc_close. apply wp_bind, wp_call_fn; [done|]. intros [] k [= <-].
  apply wp_emit. cbn. by rewrite close_law.
Qed.

(** Only the history matters for what follows: no entry so far. *)
Definition extends s s' : Prop := ∃ tr, lw_trace s' = lw_trace s ++ tr ∧ no_entry tr.
Lemma extends_trans s1 s2 s3 : extends s1 s2 → extends s2 s3 → extends s1 s3.
Proof.
  intros (t1 & E1 & N1) (t2 & E2 & N2). exists (t1 ++ t2). rewrite E2, E1, app_assoc.
  split; [done|]. by apply Forall_app.
Qed.
Lemma extends_refl s : extends s s.
Proof. exists []. rewrite app_nil_r. split; [done|constructor]. Qed.
Lemma extends_same s k : extends s (mk_loader k (lw_trace s)).
Proof. exists []. cbn. rewrite app_nil_r. split; [done|constructor]. Qed.
Lemma extends_emit s k e : is_entry e = false → extends s (mk_loader k (lw_trace s ++ [e])).
Proof. intros He. exists [e]. split; [done|]. by apply Forall_singleton. Qed.
Lemma extends_close s s' fd : lw_trace s' = lw_trace s ++ [Closed fd] → extends s s'.
Proof. intros E. exists [Closed fd]. split; [done|]. by apply Forall_singleton. Qed.

(** Sending only adds chunks to the trace, which make up the bytes sent. *)
Definition sends (fd : Z) s s' (bs : list Z) : Prop :=
  fdset s' = fdset s ∧
  ∃ chunks, lw_trace s' = lw_trace s ++ (Sent fd <$> chunks) ∧ concat chunks = bs.

Lemma talk_sent f fd tr chunks :
  talk f (tr ++ (Sent fd <$> chunks)) = if f =? fd then talk f tr ++ concat chunks else talk f tr.
Proof.
  induction chunks as [|bs chunks IH] using rev_ind; cbn [fmap list_fmap concat].
  - rewrite !app_nil_r. by destruct (f =? fd).
  - rewrite fmap_app, app_assoc. change (Sent fd <$> [bs]) with [Sent fd bs].
    rewrite talk_snoc, IH. cbn [talk_step].
    rewrite Z.eqb_sym. destruct (f =? fd); [|done].
    rewrite concat_app. cbn. by rewrite app_nil_r, app_assoc.
Qed.
Lemma heard_sent f fd tr chunks : heard f (tr ++ (Sent fd <$> chunks)) = heard f tr.
Proof.
  induction chunks as [|bs chunks IH] using rev_ind; cbn [fmap list_fmap].
  - by rewrite app_nil_r.
  - rewrite fmap_app, app_assoc. change (Sent fd <$> [bs]) with [Sent fd bs].
    by rewrite heard_snoc, IH.
Qed.
Lemma no_entry_sent fd chunks : no_entry (Sent fd <$> chunks).
Proof. apply Forall_fmap, Forall_true. done. Qed.

Lemma sends_talk fd s s' bs f : sends fd s s' bs →
  talk f (lw_trace s') = if f =? fd then talk f (lw_trace s) ++ bs else talk f (lw_trace s).
Proof. intros (_ & chunks & -> & <-). apply talk_sent. Qed.
Lemma sends_heard fd s s' bs f : sends fd s s' bs → heard f (lw_trace s') = heard f (lw_trace s).
Proof. intros (_ & chunks & -> & <-). apply heard_sent. Qed.
Lemma sends_extends fd s s' bs : sends fd s s' bs → extends s s'.
Proof. intros (_ & chunks & E & _). eexists. split; [exact E|apply no_entry_sent]. Qed.
Lemma sends_same fd s k : e_fds k = fdset s → sends fd s (mk_loader k (lw_trace s)) [].
Proof. intros Hk. split; [done|]. exists []. cbn. by rewrite app_nil_r. Qed.
Lemma sends_refl fd s : sends fd s s [].
Proof. split; [done|]. exists []. cbn. by rewrite app_nil_r. Qed.
Lemma sends_trans fd s1 s2 s3 b1 b2 :
  sends fd s1 s2 b1 → sends fd s2 s3 b2 → sends fd s1 s3 (b1 ++ b2).
Proof.
  intros (F1 & c1 & E1 & <-) (F2 & c2 & E2 & <-). split; [congruence|].
  exists (c1 ++ c2). by rewrite E2, E1, fmap_app, app_assoc, concat_app.
Qed.
Lemma sends_emit fd s k bs :
  e_fds k = fdset s → sends fd s (mk_loader k (lw_trace s ++ [Sent fd bs])) bs.
Proof. intros Hk. split; [done|]. exists [bs]. cbn. by rewrite app_nil_r. Qed.

(** A message was sent whole, or cut short. *)
Definition message (ok : bool) (bs frame : list Z) : Prop :=
  if ok then bs = frame else bs `prefix_of` frame.

Lemma wp_send_chunk fuel fd buffer s :
  (length buffer < fuel)%nat →
  wp (frida_send_chunk libc fuel fd buffer) s (λ ok s', ∃ bs, sends fd s s' bs ∧
    message ok bs buffer).
Proof.
  intros Hf. unfold frida_send_chunk.
  apply (wp_loop _
    (λ cursor s', 0 ≤ cursor ≤ zlen buffer ∧ sends fd s s' (ztake cursor buffer))
    (λ cursor _, Z.to_nat (zlen buffer - cursor))).
  - intros cursor s1 [Hc Hs]. destruct (Z.eqb_spec cursor (zlen buffer)) as [->|Hne].
    { apply wp_ret. exists (ztake (zlen buffer) buffer). split; [done|]. by apply ztake_ge. }
    cbn zeta. apply wp_bind, wp_call_fn; [done|]. intros r k E.
    apply send_law in E as [Hk Hr]. destruct r as [n|e].
    + apply wp_bind, wp_emit, wp_ret.
      assert (Hn : 0 < n ≤ zlen (zdrop cursor buffer)).
      { apply Hr. intros Hnil. apply (f_equal zlen) in Hnil. rewrite zlen_zdrop in Hnil.
        change (zlen (@nil Z)) with 0 in Hnil. lia. }
      rewrite zlen_zdrop in Hn. split; [split; [lia|]|lia].
      rewrite ztake_plus by lia. eapply sends_trans; [exact Hs|]. by apply (sends_emit fd s1 k).
    + apply wp_ret. exists (ztake cursor buffer). split; [|apply prefix_take].
      rewrite <- (app_nil_r (ztake cursor buffer)).
      eapply sends_trans; [exact Hs|]. by apply sends_same.
  - split; [pose proof (zlen_nonneg buffer); lia|]. rewrite ztake_le by lia. apply sends_refl.
  - unfold zlen. lia.
Qed.

(** A chunk, then another message if it went well. *)
Lemma wp_send_then fuel fd b1 b2 m s :
  (length b1 < fuel)%nat →
  (∀ s1, wp m s1 (λ ok s', ∃ bs, sends fd s1 s' bs ∧ message ok bs b2)) →
  wp (let! ok := frida_send_chunk libc fuel fd b1 in if negb ok then ret false else m) s
    (λ ok s', ∃ bs, sends fd s s' bs ∧ message ok bs (b1 ++ b2)).
Proof.
  intros H1 H2. apply wp_bind. wp_call (wp_send_chunk fuel fd b1 s H1).
  intros ok1 s1 (bs1 & Hs1 & Hb1). destruct ok1; cbn [negb].
  - cbn in Hb1. subst bs1. wp_call (H2 s1). intros ok2 s2 (bs2 & Hs2 & Hb2).
    exists (b1 ++ bs2). split; [by eapply sends_trans|]. destruct ok2; cbn in *.
    + by subst.
    + by apply prefix_app.
  - apply wp_ret. exists bs1. split; [done|]. by apply prefix_app_r.
Qed.

Lemma length_le_bytes_lt n v fuel : 0 ≤ n → (Z.to_nat n < fuel)%nat → (length (le_bytes n v) < fuel)%nat.
Proof. intros Hn Hf. pose proof (zlen_le_bytes n v Hn) as Hl. unfold zlen in Hl. lia. Qed.

Lemma wp_send_hello fuel fd tid s :
  (4 < fuel)%nat → wp (frida_send_hello libc fuel fd tid) s (λ ok s', ∃ bs, sends fd s s' bs ∧
    message ok bs (hello_frame tid)).
Proof.
  intros Hf. apply (wp_send_then fuel fd [FRIDA_MESSAGE_HELLO] (le_bytes 4 tid)); [cbn; lia|].
  intros s1. apply wp_send_chunk, length_le_bytes_lt; lia.
Qed.
Lemma wp_send_bye fuel fd p s :
  (4 < fuel)%nat → wp (frida_send_bye libc fuel fd p) s (λ ok s', ∃ bs, sends fd s s' bs ∧
    message ok bs (bye_frame p)).
Proof.
  intros Hf. apply (wp_send_then fuel fd [FRIDA_MESSAGE_BYE] (le_bytes 4 (policy_value p))); [cbn; lia|].
  intros s1. apply wp_send_chunk, length_le_bytes_lt; lia.
Qed.
Lemma wp_send_ready fuel fd s :
  (4 < fuel)%nat → wp (frida_send_ready libc fuel fd) s (λ ok s', ∃ bs, sends fd s s' bs ∧
    message ok bs ready_frame).
Proof. intros Hf. apply wp_send_chunk. cbn. lia. Qed.
Lemma wp_send_error fuel fd type msg s :
  65536 ≤ Z.of_nat fuel → wp (frida_send_error libc fuel fd type msg) s (λ ok s', ∃ bs,
    sends fd s s' bs ∧ message ok bs (error_frame type msg)).
Proof.
  intros Hf. pose proof (u16_range (zlen msg)) as Hr. unfold frida_send_error. cbn zeta.
  apply (wp_send_then fuel fd [type] (le_bytes 2 (u16 (zlen msg)) ++ ztake (u16 (zlen msg)) msg));
    [cbn; lia|]. intros s1.
  apply wp_send_then; [apply length_le_bytes_lt; lia|]. intros s2.
  wp_call (wp_send_then fuel fd (ztake (u16 (zlen msg)) msg) [] (ret true) s2).
  - pose proof (zlen_ztake (u16 (zlen msg)) msg) as Hl. unfold zlen at 1 in Hl. lia.
  - intros s3. apply wp_ret. exists []. split; [apply sends_refl|done].
  - intros ok s'. by rewrite app_nil_r.
Qed.

Lemma wp_receive_chunk fuel fd n s :
  0 ≤ n → (Z.to_nat n < fuel)%nat →
  wp (frida_receive_chunk libc fuel fd n) s (λ r s', extends s s' ∧ fdset s' = fdset s ∧
    (∀ f, talk f (lw_trace s') = talk f (lw_trace s)) ∧
    match r with
    | Some bs => zlen bs = n ∧ heard fd (lw_trace s') = heard fd (lw_trace s) ++ bs
    | None => True
    end).
Proof.
  intros Hn Hf. unfold frida_receive_chunk.
  apply (wp_loop _
    (λ buffer s', zlen buffer ≤ n ∧ extends s s' ∧ fdset s' = fdset s ∧
       (∀ f, talk f (lw_trace s') = talk f (lw_trace s)) ∧
       heard fd (lw_trace s') = heard fd (lw_trace s) ++ buffer)
    (λ buffer _, Z.to_nat (n - zlen buffer))).
  - intros buffer s1 (Hl & Hext & Hk & Htalk & Hheard).
    destruct (Z.eqb_spec (zlen buffer) n); [by apply wp_ret|].
    apply wp_bind, wp_call_fn; [done|]. intros r k E. apply recv_law in E; [|lia].
    destruct r as [[bs o]|e]; [|apply wp_ret; cbn [lw_k lw_trace]; split_and!; [done|congruence|done|done]].
    destruct o as [fd'|]; [by destruct E as [? _]|]. destruct E as [Hb Hk'].
    destruct bs as [|b bs].
    { apply wp_ret. cbn [lw_k lw_trace]. split_and!; [done|congruence|done|done]. }
    apply wp_bind, wp_emit, wp_ret. cbn [lw_k lw_trace]. rewrite zlen_cons in Hb.
    pose proof (zlen_nonneg bs). rewrite zlen_app, zlen_cons. split; [|lia].
    split_and!; [lia| |congruence| |].
    + eapply extends_trans; [exact Hext|]. by apply (extends_emit s1 k).
    + intros f. rewrite talk_snoc. apply Htalk.
    + rewrite heard_snoc. cbn [heard_step]. by rewrite Z.eqb_refl, Hheard, <- app_assoc.
  - rewrite zlen_nil, app_nil_r. split_and!; [done|apply extends_refl|done..].
  - rewrite zlen_nil. lia.
Qed.

Lemma wp_receive_ack fuel fd s :
  (2 < fuel)%nat → wp (frida_receive_ack libc fuel fd) s (λ ok s', extends s s' ∧
    fdset s' = fdset s ∧ (∀ f, talk f (lw_trace s') = talk f (lw_trace s)) ∧
    (ok = true → heard fd (lw_trace s') = heard fd (lw_trace s) ++ [FRIDA_MESSAGE_ACK])).
Proof.
  intros Hf. unfold frida_receive_ack. apply wp_bind.
  wp_call (wp_receive_chunk fuel fd 1 s); [lia|lia|]. intros r s' (Hext & Hk & Ht & Hr).
  apply wp_ret. split_and!; try done. destruct r as [[|type [|]]|]; try done.
  intros E. apply Z.eqb_eq in E. subst type. tauto.
Qed.

Lemma wp_receive_fd fd s :
  wp (frida_receive_fd libc fd) s (λ r s', extends s s' ∧
    (∀ f, talk f (lw_trace s') = talk f (lw_trace s)) ∧
    (∀ f, heard f (lw_trace s') = heard f (lw_trace s)) ∧
    if r =? -1 then fdset s' = fdset s
    else 0 ≤ r ∧ r ∉ fdset s ∧ fdset s' = {[r]} ∪ fdset s).
Proof.
  unfold frida_receive_fd. apply wp_bind, wp_call_fn; [done|]. intros r k E.
  apply recv_law in E; [|lia].
  assert (Hnone : e_fds k = fdset s → wp (ret (-1)) (mk_loader k (lw_trace s)) (λ r s', extends s s' ∧
    (∀ f, talk f (lw_trace s') = talk f (lw_trace s)) ∧
    (∀ f, heard f (lw_trace s') = heard f (lw_trace s)) ∧
    if r =? -1 then fdset s' = fdset s
    else 0 ≤ r ∧ r ∉ fdset s ∧ fdset s' = {[r]} ∪ fdset s)).
  { intros Hk. apply wp_ret. split_and!; try done. apply extends_same. }
  destruct r as [[bs [fd'|]]|e].
  - destruct E as (_ & Hb & Hp & Hn & Hk). destruct bs as [|b bs]; [unfold zlen in Hb; cbn [length] in Hb; lia|].
    apply wp_bind, wp_emit, wp_ret. cbn [lw_k lw_trace].
    destruct (Z.eqb_spec fd' (-1)); [lia|]. split_and!; try done.
    + by apply (extends_emit s k).
    + intros f. by rewrite talk_snoc.
    + intros f. by rewrite heard_snoc.
  - destruct E as [_ Hk]. destruct bs; by apply Hnone.
  - by apply Hnone.
Qed.

Lemma wp_cloexec fd s :
  wp (frida_enable_close_on_exec libc fd) s (λ _ s',
    fdset s' = fdset s ∧ lw_trace s' = lw_trace s).
Proof.
  unfold frida_enable_close_on_exec. apply wp_bind, wp_call_fn; [done|]. intros fl k E.
  apply fcntl_law in E. apply wp_bind, wp_call_fn; [done|]. intros r k' E'.
  apply fcntl_law in E'. cbn in E'. apply wp_ret. cbn. split; [congruence|done].
Qed.

Lemma wp_connect address s :
  zlen address < SUN_PATH_SIZE →
  wp (frida_connect libc address) s (λ r s', extends s s' ∧
    (∀ f, heard f (lw_trace s') = [] ∨ heard f (lw_trace s') = heard f (lw_trace s)) ∧
    (∀ f, talk f (lw_trace s') = [] ∨ talk f (lw_trace s') = talk f (lw_trace s)) ∧
    if r =? -1 then fdset s' = fdset s
    else 0 ≤ r ∧ r ∉ fdset s ∧ fdset s' = {[r]} ∪ fdset s).
Proof.
  intros Hlen. unfold frida_connect. apply wp_bind, wp_call_fn; [done|]. intros r k E.
  apply socket_law in E. destruct r as [fd|e].
  2: { apply wp_ret. split_and!; try (by right); try done.
       apply extends_same. }
  destruct E as (Hp & Hn & Hk). apply wp_bind, wp_emit. cbn [lw_k lw_trace].
  destruct (Z.ltb_spec SUN_PATH_SIZE (1 + zlen address)); [lia|].
  apply wp_bind, wp_call_fn; [done|]. intros r k' E. apply connect_law in E. cbn in E.
  assert (Hext : extends s (mk_loader k' (lw_trace s ++ [Connected fd]))) by (by apply extends_emit).
  destruct r as [u|e].
  - apply wp_ret. cbn [lw_k lw_trace]. destruct (Z.eqb_spec fd (-1)); [lia|].
    split_and!; [done| | |done|done|congruence]; intros f; right;
      by rewrite ?talk_snoc, ?heard_snoc.
  - apply wp_bind. wp_call wp_close. intros _ s' [Hk' Et]. apply wp_ret. cbn [lw_k lw_trace] in *.
    split_and!.
    + eapply extends_trans; [exact Hext|]. by eapply extends_close.
    + intros f. rewrite Et, heard_snoc. cbn. destruct (fd =? f); [by left|right]. by rewrite heard_snoc.
    + intros f. rewrite Et, talk_snoc. cbn. destruct (fd =? f); [by left|right]. by rewrite talk_snoc.
    + change (-1 =? -1) with true. cbn iota. rewrite Hk', E, Hk. set_solver.
Qed.

(** The descriptor a variable owns. *)
Definition own (fd : Z) : gset Z := if fd =? -1 then ∅ else {[fd]}.
Lemma own_neg : own (-1) = ∅.
Proof. done. Qed.
Lemma own_fd fd : fd ≠ -1 → own fd = {[fd]}.
Proof. intros Hf. unfold own. by rewrite (proj2 (Z.eqb_neq _ _) Hf). Qed.

Definition closing (fd : Z) : list event := if fd =? -1 then [] else [Closed fd].
Lemma no_entry_closing fd : no_entry (closing fd).
Proof. unfold closing. destruct (fd =? -1); repeat constructor. Qed.

Lemma wp_close_owned fd s :
  wp (if negb (fd =? -1) then libc_close libc fd else ret tt) s (λ _ s',
    fdset s' = fdset s ∖ own fd ∧ lw_trace s' = lw_trace s ++ closing fd).
Proof.
  unfold own, closing. destruct (fd =? -1); cbn [negb].
  - apply wp_ret. rewrite app_nil_r. split; [set_solver|done].
  - apply wp_close.
Qed.

(** What the label [beach] does, in order: [chunks] is what went out as bye. *)
Definition farewell (p : FridaUnloadPolicy) (handle a code c : Z) (chunks : list (list Z))
    : list event :=
  (if bool_decide (p = FRIDA_UNLOAD_POLICY_IMMEDIATE) && negb (handle =? 0)
   then [Dlclosed handle] else []) ++
  (if bool_decide (p ≠ FRIDA_UNLOAD_POLICY_DEFERRED) then [Detached] else []) ++
  closing a ++ closing code ++ (if c =? -1 then [] else (Sent c <$> chunks) ++ [Closed c]).

Lemma wp_event f (g : K → K) e s :
  f ≠ Fdlerror → e_fds (g (lw_k s)) = fdset s →
  wp (do! call libc f (λ k, (tt, g k)) in emit e) s (λ _ s',
    fdset s' = fdset s ∧ lw_trace s' = lw_trace s ++ [e]).
Proof. intros Hf Hg. apply wp_bind, wp_call_fn; [done|]. intros [] k [= <-]. by apply wp_emit. Qed.

(** A guarded step that leaves a trace. *)
Lemma wp_guarded (b : bool) (m : M (loader K) unit) tr s :
  (∀ s1, wp m s1 (λ _ s', fdset s' = fdset s1 ∧ lw_trace s' = lw_trace s1 ++ tr)) →
  wp (if b then m else ret tt) s (λ _ s',
    fdset s' = fdset s ∧ lw_trace s' = lw_trace s ++ (if b then tr else [])).
Proof. intros Hm. destruct b; [apply Hm|]. apply wp_ret. by rewrite app_nil_r. Qed.

Lemma wp_beach fuel p handle a code c s :
  (4 < fuel)%nat →
  wp (beach libc fuel p handle a code c) s (λ _ s',
    fdset s' = fdset s ∖ own a ∖ own code ∖ own c ∧
    ∃ chunks, concat chunks `prefix_of` bye_frame p ∧
      lw_trace s' = lw_trace s ++ farewell p handle a code c chunks).
Proof.
  intros Hf. unfold beach, farewell.
  apply wp_bind. wp_call (wp_guarded _ _ [Dlclosed handle] s).
  { intros s1. by apply wp_event; [|apply dlclose_law]. }
  intros _ s1 [F1 T1]. apply wp_bind. wp_call (wp_guarded _ _ [Detached] s1).
  { intros s'. by apply wp_event; [|apply detach_law]. }
  intros _ s2 [F2 T2]. apply wp_bind. wp_call (wp_close_owned a s2). intros _ s3 [F3 T3].
  apply wp_bind. wp_call (wp_close_owned code s3). intros _ s4 [F4 T4].
  destruct (Z.eqb_spec c (-1)) as [->|Hc]; cbn [negb].
  - apply wp_ret. rewrite own_neg, F4, F3, F2, F1. split; [set_solver|].
    exists []. split; [apply prefix_nil|]. by rewrite T4, T3, T2, T1, <- !app_assoc, app_nil_r.
  - apply wp_bind. wp_call (wp_send_bye fuel c p s4 Hf). intros ok s5 (bs & (F5 & chunks & T5 & Hc5) & Hm).
    wp_call (wp_close c s5). intros _ s6 [F6 T6].
    rewrite F6, F5, F4, F3, F2, F1, (own_fd c Hc). split; [done|].
    exists chunks. rewrite Hc5. split; [destruct ok; cbn in Hm; [by rewrite Hm|done]|].
    by rewrite T6, T5, T4, T3, T2, T1, <- !app_assoc.
Qed.

(** Nothing was said or heard yet. *)
Record unused s : Prop := {
  un_talk f : talk f (lw_trace s) = [];
  un_heard f : heard f (lw_trace s) = [];
  un_entry : no_entry (lw_trace s)
}.
Lemma unused_init s : lw_trace s = [] → unused s.
Proof. intros E. constructor; rewrite E; done || constructor. Qed.
Lemma unused_closing s s' fd : unused s → lw_trace s' = lw_trace s ++ closing fd → unused s'.
Proof.
  intros [Ht Hh He] E. unfold closing in E. destruct (fd =? -1).
  - rewrite app_nil_r in E. constructor; rewrite E; auto.
  - constructor; rewrite E.
    + intros f. rewrite talk_snoc. cbn. destruct (fd =? f); auto.
    + intros f. rewrite heard_snoc. cbn. destruct (fd =? f); auto.
    + apply Forall_app. split; [done|]. by apply Forall_singleton.
Qed.
Lemma no_entry_extends s s' : no_entry (lw_trace s) → extends s s' → no_entry (lw_trace s').
Proof. intros Hn (tr & -> & Ht). by apply Forall_app. Qed.
Lemma closed_after fd s s' s'' bs :
  unused s → sends fd s s' bs → lw_trace s'' = lw_trace s' ++ [Closed fd] → unused s''.
Proof.
  intros Hu Hs E. constructor.
  - intros f. rewrite E, talk_snoc. cbn [talk_step]. destruct (Z.eqb_spec fd f); [done|].
    rewrite (sends_talk _ _ _ _ f Hs), (proj2 (Z.eqb_neq f fd)) by done. apply Hu.
  - intros f. rewrite E, heard_snoc, (sends_heard _ _ _ _ f Hs). cbn.
    destruct (fd =? f); [done|]. apply Hu.
  - rewrite E. apply Forall_app. split; [|by apply Forall_singleton].
    eapply no_entry_extends; [apply Hu|]. by eapply sends_extends.
Qed.

(** Where [establish] leaves the loader: the control descriptor [c] is the
    only one it holds, and the injector was greeted on it. *)
Record greeted (tid : Z) (G : gset Z) s (c : Z) (ok : bool) : Prop := {
  gr_entry : no_entry (lw_trace s);
  gr_heard f : heard f (lw_trace s) = [];
  gr_fds : fdset s ∖ own c = G;
  gr_ok : ok = true → c ≠ -1 ∧ c ∈ fdset s ∧ talk c (lw_trace s) = hello_frame tid
}.
Lemma greeted_hello tid G s s' c bs ok :
  unused s → fdset s ∖ own c = G → c ≠ -1 → c ∈ fdset s →
  sends c s s' bs → message ok bs (hello_frame tid) → greeted tid G s' c ok.
Proof.
  intros Hu HG Hc Hin Hs Hm. constructor.
  - eapply no_entry_extends; [apply Hu|]. by eapply sends_extends.
  - intros f. rewrite (sends_heard _ _ _ _ f Hs). apply Hu.
  - by rewrite (proj1 Hs).
  - intros ->. cbn in Hm. rewrite (proj1 Hs), (sends_talk _ _ _ _ c Hs), Z.eqb_refl.
    rewrite (un_talk _ Hu). subst bs. done.
Qed.

Lemma wp_connect_greet fuel address tid s :
  (4 < fuel)%nat → zlen address < SUN_PATH_SIZE → unused s →
  wp (let! ctrlfd := frida_connect libc address in
      if ctrlfd =? -1 then ret (-1, false)
      else let! ok := frida_send_hello libc fuel ctrlfd tid in ret (ctrlfd, ok)) s
    (λ r s', greeted tid (fdset s) s' r.1 r.2).
Proof.
  intros Hf Ha Hu. apply wp_bind. wp_call (wp_connect address s Ha).
  intros c s1 (Hext & Hh & Ht & Hfds).
  assert (Hu1 : unused s1).
  { constructor.
    - intros f. destruct (Ht f) as [E|E]; rewrite E; [done|apply Hu].
    - intros f. destruct (Hh f) as [E|E]; rewrite E; [done|apply Hu].
    - eapply no_entry_extends; [apply Hu|done]. }
  destruct (Z.eqb_spec c (-1)) as [->|Hc].
  - apply wp_ret. constructor; [apply Hu1|apply Hu1| |done]. cbn [fst].
    rewrite own_neg, Hfds. set_solver.
  - destruct Hfds as (Hp & Hn & Hk). apply wp_bind. wp_call (wp_send_hello fuel c tid s1 Hf).
    intros ok s2 (bs & Hs & Hm). apply wp_ret. cbn [fst snd].
    eapply greeted_hello; try done; rewrite Hk, ?(own_fd c Hc); set_solver.
Qed.

Lemma wp_establish fuel ctx tid s :
  (4 < fuel)%nat → zlen (lc_fallback_address ctx) < SUN_PATH_SIZE → lw_trace s = [] →
  (let '(p, c) := lc_ctrlfds ctx in c ≠ -1 → c ∈ fdset s ∧ p ≠ c) →
  wp (establish libc fuel ctx tid) s (λ r s', let '(p, c) := lc_ctrlfds ctx in
    greeted tid (fdset s ∖ own p ∖ own c) s' r.1 r.2).
Proof.
  intros Hf Ha Htr Hctl. unfold establish. destruct (lc_ctrlfds ctx) as [p c].
  apply wp_bind. wp_call (wp_close_owned p s). intros _ s1 [F1 T1].
  pose proof (unused_closing _ _ _ (unused_init s Htr) T1) as Hu1.
  apply wp_bind. destruct (Z.eqb_spec c (-1)) as [->|Hc]; cbn [negb].
  - apply wp_ret. change (-1 =? -1) with true. cbn iota.
    wp_call (wp_connect_greet fuel (lc_fallback_address ctx) tid s1 Hf Ha Hu1).
    intros r s'. rewrite F1, own_neg. by rewrite difference_empty_L.
  - destruct (Hctl Hc) as [Hin Hpc]. apply wp_bind. wp_call (wp_send_hello fuel c tid s1 Hf).
    intros ok s2 (bs & Hs & Hm). destruct ok; cbn [negb].
    + apply wp_ret. rewrite (proj2 (Z.eqb_neq _ _) Hc). apply wp_ret. cbn [fst snd].
      eapply greeted_hello; try done.
      * by rewrite F1.
      * rewrite F1. unfold own. destruct (p =? -1); set_solver.
    + apply wp_bind. wp_call (wp_close c s2). intros _ s3 [F3 T3]. apply wp_ret.
      change (-1 =? -1) with true. cbn iota.
      wp_call (wp_connect_greet fuel (lc_fallback_address ctx) tid s3 Hf Ha
                 (closed_after _ _ _ _ _ Hu1 Hs T3)).
      intros r s'. by rewrite F3, (proj1 Hs), F1, (own_fd c Hc).
Qed.

Lemma wp_dlerror_or fallback s :
  wp (dlerror_or libc fallback) s (λ _ s', fdset s' = fdset s ∧ lw_trace s' = lw_trace s).
Proof.
  unfold dlerror_or, call. destruct (api libc Fdlerror =? 0) eqn:E; cbn [negb]; [by apply wp_ret|].
  destruct (e_dlerror (lw_k s)) as [m k] eqn:Em. exists m, (mk_loader k (lw_trace s)).
  rewrite Em. split; [done|]. split; [|done]. by eapply dlerror_law.
Qed.

(** What the injector is told about an agent that could not be loaded. *)
Definition reported (c : Z) s s' (type : Z) : Prop :=
  ∃ bs msg, talk c (lw_trace s') = talk c (lw_trace s) ++ bs ∧ bs `prefix_of` error_frame type msg.

Lemma wp_report {A} fuel c type fallback (r : A) s :
  65536 ≤ Z.of_nat fuel →
  wp (let! msg := dlerror_or libc fallback in
      do! frida_send_error libc fuel c type msg in ret r) s (λ r' s',
    r' = r ∧ extends s s' ∧ fdset s' = fdset s ∧ reported c s s' type).
Proof.
  intros Hf. apply wp_bind. wp_call wp_dlerror_or. intros msg s1 [F1 T1]. apply wp_bind.
  wp_call (wp_send_error fuel c type msg s1 Hf). intros ok s2 (bs & Hs & Hm).
  apply wp_ret. split_and!; [done|..].
  - pose proof (sends_extends _ _ _ _ Hs) as (tr & E & Hn). exists tr. by rewrite E, T1.
  - by rewrite (proj1 Hs).
  - exists bs, msg. rewrite (sends_talk _ _ _ _ c Hs), Z.eqb_refl, T1.
    split; [done|]. destruct ok; cbn in Hm; [by rewrite Hm|done].
Qed.

(** [load_agent] keeps the conversation as it was when it succeeds; otherwise
    it says what went wrong and leaves at most the code descriptor open. *)
Definition loaded (c : Z) s (r : Z * Z + Z * Z) s' : Prop :=
  match r with
  | inl (h, impl) => h ≠ 0 ∧ impl ≠ 0 ∧ fdset s' = fdset s ∧ talk c (lw_trace s') = talk c (lw_trace s) ∧
      heard c (lw_trace s') = heard c (lw_trace s)
  | inr (code, h) => fdset s' ∖ own code = fdset s ∧
      if negb (code =? -1) then reported c s s' FRIDA_MESSAGE_ERROR_DLOPEN
      else if negb (h =? 0) then reported c s s' FRIDA_MESSAGE_ERROR_DLSYM
      else talk c (lw_trace s') = talk c (lw_trace s)
  end.

(** Once the code descriptor is closed, the entrypoint is looked up. *)
Lemma wp_lookup_entrypoint fuel ctx c h s :
  65536 ≤ Z.of_nat fuel → h ≠ 0 →
  wp (let! impl := call libc Fdlsym (e_dlsym h (lc_agent_entrypoint ctx)) in
      if impl =? 0 then
        let! message := dlerror_or libc (bytes_of "Unable to find entrypoint") in
        do! frida_send_error libc fuel c FRIDA_MESSAGE_ERROR_DLSYM message in
        ret (inr (-1, h))
      else ret (inl (h, impl))) s (λ r s', extends s s' ∧ loaded c s r s').
Proof.
  intros Hf Hh. apply wp_bind, wp_call_fn; [done|]. intros impl k E. apply dlsym_law in E.
  destruct (Z.eqb_spec impl 0) as [_|Hi].
  - wp_call (wp_report (A := Z * Z + Z * Z) fuel c FRIDA_MESSAGE_ERROR_DLSYM
      (bytes_of "Unable to find entrypoint") (inr (-1, h)) (mk_loader k (lw_trace s)) Hf).
    intros r s2 (-> & Hx & F & R). split; [done|].
    cbn [loaded]. rewrite (proj2 (Z.eqb_neq _ _) Hh). split; [|done].
    rewrite own_neg, F. cbn [lw_k]. rewrite E. set_solver.
  - apply wp_ret. split; [apply extends_same|]. done.
Qed.

Lemma wp_load_agent fuel ctx c s :
  65536 ≤ Z.of_nat fuel → c ∈ fdset s →
  (lc_agent_handle ctx ≠ 0 → lc_agent_entrypoint_impl ctx ≠ 0) →
  wp (load_agent libc fuel ctx c) s (λ r s', extends s s' ∧ loaded c s r s').
Proof.
  intros Hf Hc Himpl. unfold load_agent. destruct (Z.eqb_spec (lc_agent_handle ctx) 0) as [_|Hh]; cbn [negb].
  2: { apply wp_ret. split; [apply extends_refl|]. split; auto. }
  apply wp_bind. wp_call (wp_receive_fd c s). intros code s1 (X1 & T1 & H1' & F1).
  destruct (Z.eqb_spec code (-1)) as [->|Hne].
  { apply wp_ret. split; [done|]. cbn [loaded]. rewrite own_neg, F1. split; [set_solver|]. apply T1. }
  destruct F1 as (Hp & Hn & F1). apply wp_bind, wp_call_fn; [done|]. intros h k E.
  apply dlopen_law in E. destruct (Z.eqb_spec h 0) as [->|Hh].
  - wp_call (wp_report (A := Z * Z + Z * Z) fuel c FRIDA_MESSAGE_ERROR_DLOPEN
      (bytes_of "Unable to load library") (inr (code, 0)) (mk_loader k (lw_trace s1)) Hf).
    intros r s2 (-> & X2 & F2 & bs & msg & T2 & R). split; [by eapply extends_trans|].
    cbn [loaded]. rewrite (proj2 (Z.eqb_neq _ _) Hne), (own_fd code Hne). split.
    + rewrite F2. cbn [lw_k]. rewrite E, F1. set_solver.
    + exists bs, msg. split; [|done]. by rewrite T2, <- T1.
  - apply wp_bind. wp_call (wp_close code). intros _ s2 [F2 T2]. cbn [lw_k lw_trace] in F2, T2.
    wp_call (wp_lookup_entrypoint fuel ctx c h s2 Hf Hh). intros r s3 [X3 L].
    assert (Hcode : code ≠ c) by set_solver.
    assert (Ht : talk c (lw_trace s2) = talk c (lw_trace s)).
    { rewrite T2, talk_snoc. cbn. by rewrite (proj2 (Z.eqb_neq _ _) Hcode), T1. }
    assert (Hhd : heard c (lw_trace s2) = heard c (lw_trace s)).
    { rewrite T2, heard_snoc. cbn. by rewrite (proj2 (Z.eqb_neq _ _) Hcode), H1'. }
    assert (Hfd : fdset s2 = fdset s) by (rewrite F2, E, F1; set_solver).
    split; [eapply extends_trans; [exact X1|]; eapply extends_trans; [|exact X3]; by eapply extends_close|].
    unfold loaded, reported in *. by rewrite Hfd, Ht, Hhd in L.
Qed.

(** ** The whole run *)

(** The agent was never entered: everything is closed again. *)
Definition turned_away (G : gset Z) s' : Prop :=
  ∃ pre handle a code c chunks,
    lw_trace s' = pre ++ farewell FRIDA_UNLOAD_POLICY_IMMEDIATE handle a code c chunks ∧
    no_entry pre ∧ concat chunks `prefix_of` bye_frame FRIDA_UNLOAD_POLICY_IMMEDIATE ∧
    fdset s' = G.
(** The agent was entered after the handshake on its control descriptor, and
    what it did not claim was closed. *)
Definition served (tid : Z) (G : gset Z) s' : Prop :=
  ∃ pre impl c a p c' a' handle chunks,
    lw_trace s' = pre ++ [Entered impl c a; Returned p c' a'] ++ farewell p handle a' (-1) c' chunks ∧
    no_entry pre ∧ concat chunks `prefix_of` bye_frame p ∧ handle ≠ 0 ∧
    talk c pre = hello_frame tid ++ ready_frame ∧ heard c pre = [FRIDA_MESSAGE_ACK] ∧
    (c' = c ∨ c' = -1) ∧ (a' = a ∨ a' = -1) ∧
    fdset s' = G ∪ (own c ∖ own c') ∪ (own a ∖ own a').

Lemma wp_beach_turned_away fuel G handle a code c s :
  (4 < fuel)%nat → no_entry (lw_trace s) → fdset s ∖ own a ∖ own code ∖ own c = G →
  wp (beach libc fuel FRIDA_UNLOAD_POLICY_IMMEDIATE handle a code c) s (λ _ s', turned_away G s').
Proof.
  intros Hf Hn HG. wp_call wp_beach; [done|]. intros _ s' (F & chunks & Hc & T).
  exists (lw_trace s), handle, a, code, c, chunks. by rewrite F.
Qed.

Lemma own_received a s s1 :
  (if a =? -1 then fdset s1 = fdset s else 0 ≤ a ∧ a ∉ fdset s ∧ fdset s1 = {[a]} ∪ fdset s) →
  fdset s1 = own a ∪ fdset s ∧ own a ## fdset s.
Proof. unfold own. destruct (a =? -1); intros Ha; set_solver. Qed.

Lemma wp_serve_agent fuel ctx tid G handle impl c s :
  (4 < fuel)%nat → handle ≠ 0 → impl ≠ 0 → no_entry (lw_trace s) → c ≠ -1 → c ∈ fdset s →
  fdset s ∖ own c = G →
  talk c (lw_trace s) = hello_frame tid → heard c (lw_trace s) = [] →
  wp (serve_agent libc fuel ctx handle impl c) s (λ _ s', turned_away G s' ∨ served tid G s').
Proof.
  intros Hf Hh Hi He Hc Hin HG Ht Hd. unfold serve_agent.
  apply wp_bind. wp_call (wp_receive_fd c s). intros a s1 (X1 & T1 & D1 & F1).
  apply own_received in F1 as [F1 Hdis]. apply wp_bind.
  wp_call (wp_guarded (negb (a =? -1)) (frida_enable_close_on_exec libc a) [] s1).
  { intros s'. wp_call (wp_cloexec a s'). intros _ s'' [F T]. by rewrite F, T, app_nil_r. }
  intros _ s2 [F2 T2].
  replace (if negb (a =? -1) then [] else []) with (@nil event) in T2 by (by destruct (a =? -1)).
  rewrite app_nil_r in T2.
  apply wp_bind. wp_call (wp_send_ready fuel c s2 Hf). intros ready s3 (bs & Hs & Hm).
  assert (He3 : no_entry (lw_trace s3)).
  { eapply no_entry_extends; [|by eapply sends_extends]. rewrite T2. by eapply no_entry_extends. }
  assert (F3 : fdset s3 = own a ∪ fdset s) by (by rewrite (proj1 Hs), F2, F1).
  destruct ready; cbn [negb].
  2: { wp_call wp_beach_turned_away; [done|done| |by intros _ s'; left].
       rewrite F3, own_neg, <- HG. set_solver. }
  apply wp_bind. wp_call (wp_receive_ack fuel c s3); [lia|]. intros acked s4 (X4 & F4 & T4 & D4).
  pose proof (no_entry_extends _ _ He3 X4) as He4. destruct acked; cbn [negb].
  2: { wp_call wp_beach_turned_away; [done|done| |by intros _ s'; left].
       rewrite F4, F3, own_neg, <- HG. set_solver. }
  apply wp_bind, wp_emit. cbn [lw_k lw_trace].
  destruct (e_agent impl (lc_agent_data ctx) c a (lw_k s4)) as [[[p c'] a'] k] eqn:Ea.
  apply wp_bind. exists (p, c', a'), (mk_loader k (lw_trace s4 ++ [Entered impl c a])).
  cbn [lw_k lw_trace]. rewrite (proj2 (Z.eqb_neq _ _) Hi), Ea. split; [done|]. cbn beta iota.
  apply agent_law in Ea as (Hc' & Ha' & Fk).
  apply wp_bind, wp_emit. cbn [lw_k lw_trace]. wp_call wp_beach; [done|].
  intros _ s' (F & chunks & Hch & T). right. cbn [lw_k lw_trace] in F, T.
  exists (lw_trace s4), impl, c, a, p, c', a', handle, chunks. split_and!; try done.
  - by rewrite T, <- !app_assoc.
  - rewrite T4, (sends_talk _ _ _ _ c Hs), Z.eqb_refl, T2, T1, Ht. cbn in Hm. by rewrite Hm.
  - by rewrite (D4 eq_refl), (sends_heard _ _ _ _ c Hs), T2, D1, Hd.
  - rewrite F, Fk, F4, F3, own_neg, <- HG. rewrite (own_fd c Hc) in *.
    destruct Hc' as [->| ->], Ha' as [->| ->]; rewrite ?own_neg, ?(own_fd c Hc);
      apply set_eq; intros x; destruct (decide (x = c)); set_solver.
Qed.

(** From where [establish] starts to the end of the thread. *)
Lemma wp_frida_main fuel ctx tid s :
  65536 ≤ Z.of_nat fuel → zlen (lc_fallback_address ctx) < SUN_PATH_SIZE → lw_trace s = [] →
  (let '(p, c) := lc_ctrlfds ctx in c ≠ -1 → c ∈ fdset s ∧ p ≠ c) →
  (lc_agent_handle ctx ≠ 0 → lc_agent_entrypoint_impl ctx ≠ 0) →
  wp (frida_main libc fuel ctx tid) s (λ _ s', let '(p, c) := lc_ctrlfds ctx in
    turned_away (fdset s ∖ own p ∖ own c) s' ∨ served tid (fdset s ∖ own p ∖ own c) s').
Proof.
  intros Hf Ha Htr Hctl Himpl. assert (Hf' : (4 < fuel)%nat) by lia. unfold frida_main. cbn zeta.
  apply wp_bind. wp_call (wp_establish fuel ctx tid s Hf' Ha Htr Hctl).
  destruct (lc_ctrlfds ctx) as [p c0]. set (G := fdset s ∖ own p ∖ own c0).
  intros [c ok] s1 [He1 Hd1 F1 Hok]. cbn [fst snd] in *. destruct ok; cbn [negb].
  2: { wp_call wp_beach_turned_away; [done|done| |by intros _ s'; left].
       by rewrite own_neg, !difference_empty_L. }
  destruct (Hok eq_refl) as (Hc & Hin & Ht). apply wp_bind.
  wp_call (wp_load_agent fuel ctx c s1 Hf Hin Himpl). intros r s2 [X2 L].
  pose proof (no_entry_extends _ _ He1 X2) as He2. destruct r as [[h impl]|[code h]].
  - destruct L as (Hh & Hi & F2 & T2 & D2).
    apply wp_serve_agent; try done; [by rewrite F2|by rewrite F2|by rewrite T2|by rewrite D2].
  - destruct L as [F2 _]. wp_call wp_beach_turned_away; [done|done| |by intros _ s'; left].
    by rewrite own_neg, difference_empty_L, F2.
Qed.
End loader_rules.
