(* ===== verification/Monitor.v ===== *)
(** The injector's end of the control socket (the method [monitor] of
    src/src/linux/frida-helper-backend.vala): it decodes what the loader sent.
    The stream is what the socket delivers until its end. *)
From S2P Require Import Prelude Posix ElfParser Bootstrap ResolveCorrect Loader LoaderCorrect.

Record monitor_state := mk_monitor {
  mon_hello : option Z;
  mon_ready : bool;
  mon_bye : option Z;
  mon_error : option (list Z)
}.
Definition monitor_init : monitor_state := mk_monitor None false None None.

(** [read_all_async] into a zeroed buffer of [n] bytes: the number of bytes
    read, the buffer, and the rest of the stream. *)
Definition read_all (n : Z) (input : list Z) : Z * list Z * list Z :=
  let got := ztake n input in
  (zlen got, got ++ replicate (Z.to_nat (n - zlen got)) 0, zdrop n input).

(** The text of a zero-terminated buffer. *)
Fixpoint c_text (data : list Z) : list Z :=
  match data with
  | [] => []
  | b :: data' => if b =? 0 then [] else b :: c_text data'
  end.

(** One message whose type was read: the new state, the rest of the stream, and
    whether it was the last. *)
Definition monitor_message (type : Z) (input : list Z) (st : monitor_state)
    : monitor_state * list Z * bool :=
  if type =? FRIDA_MESSAGE_HELLO then
    let '(n, m, rest) := read_all 4 input in
    if n =? 0 then (st, rest, false)
    else (mk_monitor (Some (le_value m)) (mon_ready st) (mon_bye st) (mon_error st), rest, false)
  else if type =? FRIDA_MESSAGE_READY then
    (mk_monitor (mon_hello st) true (mon_bye st) (mon_error st), input, false)
  else if type =? FRIDA_MESSAGE_BYE then
    let '(n, m, rest) := read_all 4 input in
    if n =? 0 then (st, rest, true)
    else (mk_monitor (mon_hello st) (mon_ready st) (Some (le_value m)) (mon_error st), rest, true)
  else if orb (type =? FRIDA_MESSAGE_ERROR_DLOPEN) (type =? FRIDA_MESSAGE_ERROR_DLSYM) then
    let '(n, m, rest) := read_all 2 input in
    if n =? 0 then (st, rest, false)
    else
      let '(n, data, rest) := read_all (le_value m) rest in
      if n =? 0 then (st, rest, false)
      else (mk_monitor (mon_hello st) (mon_ready st) (mon_bye st) (Some (c_text data)), rest, false)
  else (st, input, false).

Fixpoint monitor (fuel : nat) (input : list Z) (st : monitor_state) : option monitor_state :=
  match fuel with
  | O => None
  | S f =>
      match input with
      | [] => Some st
      | type :: input' =>
          let '(st', rest, done) := monitor_message type input' st in
          if done : bool then Some st' else monitor f rest st'
      end
  end.

(** The policy [on_stop] is called with. *)
Definition stop_policy (st : monitor_state) : Z := default (policy_value FRIDA_UNLOAD_POLICY_IMMEDIATE) (mon_bye st).

(** ** The messages of the protocol *)
Inductive message_to_peer :=
| Hello (thread_id : Z)
| Ready
| ErrorDlopen (text : list Z)
| ErrorDlsym (text : list Z).
Definition encode (m : message_to_peer) : list Z :=
  match m with
  | Hello tid => hello_frame tid
  | Ready => ready_frame
  | ErrorDlopen text => error_frame FRIDA_MESSAGE_ERROR_DLOPEN text
  | ErrorDlsym text => error_frame FRIDA_MESSAGE_ERROR_DLSYM text
  end.
(** What the injector makes of a message. *)
Definition understand (st : monitor_state) (m : message_to_peer) : monitor_state :=
  match m with
  | Hello tid => mk_monitor (Some tid) (mon_ready st) (mon_bye st) (mon_error st)
  | Ready => mk_monitor (mon_hello st) true (mon_bye st) (mon_error st)
  | ErrorDlopen text | ErrorDlsym text =>
      mk_monitor (mon_hello st) (mon_ready st) (mon_bye st) (Some text)
  end.
(** A thread id is 32 bits wide; an error text is a C string that fits the
    16-bit length and is not empty. *)
Definition sendable (m : message_to_peer) : Prop :=
  match m with
  | Hello tid => 0 ≤ tid < 2 ^ 32
  | Ready => True
  | ErrorDlopen text | ErrorDlsym text => 0 < zlen text < 2 ^ 16 ∧ Forall (λ b, b ≠ 0) text
  end.

Lemma read_all_app n bs input :
  zlen bs = n → read_all n (bs ++ input) = (n, bs, input).
Proof.
  intros <-. unfold read_all. rewrite ztake_app_exact, zdrop_app_exact, Z.sub_diag.
  cbn. by rewrite app_nil_r.
Qed.
Lemma c_text_id text : Forall (λ b, b ≠ 0) text → c_text text = text.
Proof. induction 1 as [|b text Hb _ IH]; [done|]. cbn. by rewrite (proj2 (Z.eqb_neq _ _) Hb), IH. Qed.

Lemma monitor_error type text input st :
  orb (type =? FRIDA_MESSAGE_ERROR_DLOPEN) (type =? FRIDA_MESSAGE_ERROR_DLSYM) = true →
  0 < zlen text < 2 ^ 16 → Forall (λ b, b ≠ 0) text →
  monitor_message type (le_bytes 2 (u16 (zlen text)) ++ ztake (u16 (zlen text)) text ++ input) st =
  (mk_monitor (mon_hello st) (mon_ready st) (mon_bye st) (Some text), input, false).
Proof.
  intros Ht Hl Hz. unfold monitor_message.
  assert (Hu : u16 (zlen text) = zlen text) by (apply Z.mod_small; lia). rewrite Hu.
  rewrite (ztake_ge (zlen text) text), Ht by lia.
  assert (Hcases : type = FRIDA_MESSAGE_ERROR_DLOPEN ∨ type = FRIDA_MESSAGE_ERROR_DLSYM).
  { apply orb_true_iff in Ht as [E|E]; apply Z.eqb_eq in E; auto. }
  destruct Hcases as [-> | ->]; cbn [Z.eqb FRIDA_MESSAGE_ERROR_DLOPEN FRIDA_MESSAGE_ERROR_DLSYM];
    rewrite (read_all_app 2) by (apply zlen_le_bytes; lia);
    rewrite le_value_le_bytes, Z.mod_small by lia; cbn [Z.eqb Z.mul];
    rewrite (read_all_app (zlen text)) by done;
    rewrite (proj2 (Z.eqb_neq (zlen text) 0)) by lia; by rewrite c_text_id.
Qed.

(** One message is understood as it was meant. *)
Lemma monitor_one m input st fuel :
  sendable m → monitor (S fuel) (encode m ++ input) st = monitor fuel input (understand st m).
Proof.
  intros Hm. destruct m as [tid| |text|text]; cbn [encode understand].
  - cbn in Hm. cbn [monitor hello_frame app].
    change (monitor_message FRIDA_MESSAGE_HELLO (le_bytes 4 tid ++ input) st) with
      (let '(n, m, rest) := read_all 4 (le_bytes 4 tid ++ input) in
       if n =? 0 then (st, rest, false)
       else (mk_monitor (Some (le_value m)) (mon_ready st) (mon_bye st) (mon_error st), rest, false)).
    rewrite read_all_app by (apply zlen_le_bytes; lia). cbn [Z.eqb].
    by rewrite le_value_le_bytes, Z.mod_small by lia.
  - done.
  - destruct Hm as [Hl Hz]. unfold error_frame. cbn [monitor app]. rewrite <- app_assoc.
    by rewrite monitor_error.
  - destruct Hm as [Hl Hz]. unfold error_frame. cbn [monitor app]. rewrite <- app_assoc.
    by rewrite monitor_error.
Qed.
Lemma monitor_bye p input st fuel :
  monitor (S fuel) (bye_frame p ++ input) st =
  Some (mk_monitor (mon_hello st) (mon_ready st) (Some (policy_value p)) (mon_error st)).
Proof.
  cbn [monitor bye_frame app]. unfold monitor_message.
  change (FRIDA_MESSAGE_BYE =? FRIDA_MESSAGE_HELLO) with false.
  change (FRIDA_MESSAGE_BYE =? FRIDA_MESSAGE_READY) with false. rewrite Z.eqb_refl.
  rewrite read_all_app by (apply zlen_le_bytes; lia). cbn [Z.eqb].
  rewrite le_value_le_bytes by lia. by destruct p.
Qed.
