(* ===== verification/LoaderClaims.v ===== *)
(** What the loader promises: messages arrive whole and are understood by the
    injector, the agent runs only after the handshake, the unload policy is
    obeyed, and descriptors are balanced. *)
From S2P Require Import Prelude Posix ElfParser Bootstrap ResolveCorrect Loader LoaderCorrect Monitor.

(** ** A target to run the loader in

    Its sockets take three bytes at a time; [w_next] is the descriptor the
    kernel hands out next, [w_ack] what the injector answers, and the agent
    keeps its own control descriptor when [w_keep]. *)
Record target := mk_target {
  w_fds : gset Z;
  w_next : Z;
  w_ack : list Z;
  w_handle : Z;
  w_keep : bool;
  w_policy : FridaUnloadPolicy
}.
Definition alloc_fd (k : target) : option (Z * target) :=
  if decide (0 ≤ w_next k ∧ w_next k ∉ w_fds k)
  then Some (w_next k, mk_target ({[w_next k]} ∪ w_fds k) (w_next k + 1) (w_ack k) (w_handle k)
                         (w_keep k) (w_policy k))
  else None.
Definition without (fd : Z) (k : target) : target :=
  mk_target (w_fds k ∖ {[fd]}) (w_next k) (w_ack k) (w_handle k) (w_keep k) (w_policy k).

#[export] Instance target_env : LoaderEnv target := {
  e_send _ bs k := (SysOk (Z.min 3 (zlen bs)), k);
  e_recvmsg _ n control k :=
    if control then
      match alloc_fd k with Some (fd, k') => (SysOk ([0], Some fd), k') | None => (SysErr EBADF, k) end
    else (SysOk (ztake n (w_ack k), None), k);
  e_close fd k := without fd k;
  e_socket k := match alloc_fd k with Some (fd, k') => (SysOk fd, k') | None => (SysErr EBADF, k) end;
  e_connect _ _ k := (SysOk tt, k);
  e_fcntl _ _ _ k := (0, k);
  e_dlopen _ _ k := (w_handle k, k);
  e_dlsym _ _ k := (0x7000, k);
  e_dlclose _ k := k;
  e_dlerror k := (bytes_of "bad ELF", k);
  e_detach k := k;
  e_agent _ _ c a k := ((w_policy k, c, if w_keep k then -1 else a), k)
}.

Lemma alloc_fd_ok k fd k' : alloc_fd k = Some (fd, k') →
  0 ≤ fd ∧ fd ∉ w_fds k ∧ w_fds k' = {[fd]} ∪ w_fds k.
Proof. unfold alloc_fd. case_decide; [|done]. intros [= <- <-]. tauto. Qed.

#[export] Instance target_laws : LoaderLaws target.
Proof.
  refine {| e_fds := w_fds |}; cbn; try (by intros; simplify_eq); try done.
  - intros _ bs k r k' [= <- <-]. split; [done|]. intros Hbs.
    destruct bs as [|b bs]; [done|]. rewrite zlen_cons. pose proof (zlen_nonneg bs). lia.
  - intros _ n control k r k' Hn E. destruct control.
    + destruct (alloc_fd k) as [[fd k1]|] eqn:Ea; injection E as <- <-; [|done].
      apply alloc_fd_ok in Ea as (? & ? & ?). change (zlen [0]) with 1. split_and!; done || lia.
    + injection E as <- <-. rewrite zlen_ztake. pose proof (zlen_nonneg (w_ack k)). split; [lia|done].
  - intros k r k' E. destruct (alloc_fd k) as [[fd k1]|] eqn:Ea; injection E as <- <-; [|done].
    by apply alloc_fd_ok in Ea.
  - intros _ _ c a k p c' a' k' [= <- <- <- <-]. split; [by left|].
    destruct (w_keep k); auto.
Defined.

(** A complete function table, and what the injector passes in. *)
Definition full_api : FridaLibcApi := mk_api (λ _, 0x5000) 1.
Lemma full_api_complete : complete full_api.
Proof. intros f. by left. Qed.
Definition agent_ctx : FridaLoaderContext :=
  mk_loader_ctx (7, 8) (bytes_of "frida_agent_main") [] (bytes_of "/frida-1") full_api 0 0.
Definition start (ack : list Z) (handle : Z) (keep : bool) (p : FridaUnloadPolicy) : loader target :=
  mk_loader (mk_target {[0; 1; 2; 7; 8]} 9 ack handle keep p) [].
Definition enough : nat := Z.to_nat 65536.

(** every message is delivered whole or the sender knows that it was not:
    [frida_send_chunk] returns however few bytes each [send] takes; if it
    returns true the peer was sent exactly the buffer, otherwise a part of it
    from its start.  No other conversation and no descriptor is touched. *)
Theorem send_chunk_delivers {K} `{LoaderLaws K} libc fuel fd buffer (s : loader K) :
  complete libc → (length buffer < fuel)%nat →
  wp (frida_send_chunk libc fuel fd buffer) s (λ ok s',
    e_fds (lw_k s') = e_fds (lw_k s) ∧
    (∃ bs, talk fd (lw_trace s') = talk fd (lw_trace s) ++ bs ∧
       if ok : bool then bs = buffer else bs `prefix_of` buffer) ∧
    ∀ f, f ≠ fd → talk f (lw_trace s') = talk f (lw_trace s)).
Proof.
  intros Hl Hf. wp_call (wp_send_chunk libc Hl fuel fd buffer s Hf).
  intros ok s' (bs & Hs & Hm). split; [apply Hs|]. split.
  - exists bs. by rewrite (sends_talk _ _ _ _ fd Hs), Z.eqb_refl.
  - intros f Hne. by rewrite (sends_talk _ _ _ _ f Hs), (proj2 (Z.eqb_neq _ _) Hne).
Qed.

Lemma send_chunk_delivers_witness :
  let s := start [] 0 true FRIDA_UNLOAD_POLICY_IMMEDIATE in
  let buffer := bytes_of "ten bytes!" in
  wp (frida_send_chunk full_api 20 8 buffer) s (λ ok s',
    e_fds (lw_k s') = e_fds (lw_k s) ∧
    (∃ bs, talk 8 (lw_trace s') = talk 8 (lw_trace s) ++ bs ∧
       if ok : bool then bs = buffer else bs `prefix_of` buffer) ∧
    ∀ f, f ≠ 8 → talk f (lw_trace s') = talk f (lw_trace s)).
Proof.
  intros s buffer. apply (send_chunk_delivers full_api 20 8 buffer s).
  - exact full_api_complete.
  - vm_compute. lia.
Defined.

(** ** The whole thread *)
Lemma no_entry_farewell p h a code c chunks : no_entry (farewell p h a code c chunks).
Proof.
  unfold farewell, no_entry. rewrite !Forall_app. split_and!.
  - destruct (_ && _); repeat constructor.
  - destruct (bool_decide _); repeat constructor.
  - apply no_entry_closing.
  - apply no_entry_closing.
  - destruct (c =? -1); [constructor|]. apply Forall_app. split; [apply no_entry_sent|].
    by apply Forall_singleton.
Qed.
Lemma first_entry pre0 pre e0 e post0 post :
  no_entry pre0 → no_entry post0 → is_entry e0 = true → is_entry e = true →
  pre0 ++ e0 :: post0 = pre ++ e :: post → pre0 = pre ∧ e0 = e ∧ post0 = post.
Proof.
  intros Hpre Hpost He0 He. revert pre. induction Hpre as [|x pre0 Hx _ IH]; intros [|y pre] E.
  - by injection E.
  - injection E as -> ->. apply Forall_app in Hpost as [_ Hpost].
    apply Forall_cons in Hpost as [? _]. congruence.
  - injection E as -> _. congruence.
  - injection E as -> E. destruct (IH pre E) as (-> & -> & ->). done.
Qed.
Lemma no_entry_mid pre e post : no_entry (pre ++ e :: post) → is_entry e = false.
Proof. intros Hn. apply Forall_app in Hn as [_ Hn]. by apply Forall_cons in Hn as [? _]. Qed.

(** Two messages it cannot be confused about: a served thread was entered once. *)
Lemma served_entry {K} `{LoaderLaws K} tid G (s' : loader K) pre impl c a post :
  served tid G s' → lw_trace s' = pre ++ Entered impl c a :: post →
  ∃ p c' a' handle chunks,
    post = Returned p c' a' :: farewell p handle a' (-1) c' chunks ∧
    no_entry pre ∧ concat chunks `prefix_of` bye_frame p ∧ handle ≠ 0 ∧
    talk c pre = hello_frame tid ++ ready_frame ∧ heard c pre = [FRIDA_MESSAGE_ACK] ∧
    (c' = c ∨ c' = -1) ∧ (a' = a ∨ a' = -1) ∧
    e_fds (lw_k s') = G ∪ (own c ∖ own c') ∪ (own a ∖ own a').
Proof.
  intros (pre0 & impl0 & c0 & a0 & p & c' & a' & h & chunks & T & Hn & Hch & Hh & Ht & Hd & Hc & Ha & F) E.
  rewrite T in E. cbn [app] in E. apply first_entry in E as (-> & [= -> -> ->] & <-); try done.
  - exists p, c', a', h, chunks. done.
  - apply Forall_cons. split; [done|apply no_entry_farewell].
Qed.
Lemma turned_away_entry {K} `{LoaderLaws K} G (s' : loader K) :
  turned_away G s' → no_entry (lw_trace s').
Proof.
  intros (pre & h & a & code & c & chunks & -> & Hn & _). apply Forall_app.
  split; [done|apply no_entry_farewell].
Qed.

Section main.
Context {K : Type} `{LoaderLaws K}.
Context (libc : FridaLibcApi) (fuel : nat) (ctx : FridaLoaderContext) (tid : Z) (s : loader K).
(** What the injector sets up: all functions resolved, an address that fits,
    descriptors that are open and distinct. *)
Hypothesis Hlibc : complete libc.
Hypothesis Hfuel : 65536 ≤ Z.of_nat fuel.
Hypothesis Haddress : zlen (lc_fallback_address ctx) < SUN_PATH_SIZE.
Hypothesis Hfresh : lw_trace s = [].
Hypothesis Hctrlfds : (lc_ctrlfds ctx).2 ≠ -1 →
  (lc_ctrlfds ctx).2 ∈ e_fds (lw_k s) ∧ (lc_ctrlfds ctx).1 ≠ (lc_ctrlfds ctx).2.
Hypothesis Himpl : lc_agent_handle ctx ≠ 0 → lc_agent_entrypoint_impl ctx ≠ 0.

(** What is left when the loader gave back everything it was passed. *)
Definition handed_back : gset Z :=
  e_fds (lw_k s) ∖ own (lc_ctrlfds ctx).1 ∖ own (lc_ctrlfds ctx).2.

Lemma wp_main :
  wp (frida_main libc fuel ctx tid) s (λ _ s', turned_away handed_back s' ∨ served tid handed_back s').
Proof using All.
  unfold handed_back. pose proof (wp_frida_main libc Hlibc fuel ctx tid s) as Hw.
  destruct (lc_ctrlfds ctx) as [p c]. by apply Hw.
Qed.

(** C3: the agent runs only after the handshake.  The loader thread always
    finishes, and if it enters the agent it does so once, after it sent the
    injector exactly HELLO with its thread id and READY on the agent's control
    descriptor and received exactly the ACK on it. *)
Theorem loader_enters_after_handshake :
  wp (frida_main libc fuel ctx tid) s (λ _ s', ∀ pre impl c a post,
    lw_trace s' = pre ++ Entered impl c a :: post →
    talk c pre = hello_frame tid ++ ready_frame ∧ heard c pre = [FRIDA_MESSAGE_ACK] ∧
    no_entry pre ∧ no_entry post).
Proof using All.
  wp_call wp_main. intros _ s' [Ht|Hs] pre impl c a post E.
  - apply turned_away_entry in Ht. rewrite E in Ht. by apply no_entry_mid in Ht.
  - destruct (served_entry _ _ _ _ _ _ _ _ Hs E)
      as (p & c' & a' & h & chunks & -> & Hn & _ & _ & Hta & Hd & _).
    split_and!; try done. apply Forall_cons. split; [done|apply no_entry_farewell].
Qed.


(** C10: the loader leaks no descriptor.  When its thread ends, the descriptors
    it was passed, connected or received are closed, except the ones the agent
    claimed for itself. *)
Theorem loader_fd_balance :
  wp (frida_main libc fuel ctx tid) s (λ _ s',
    (no_entry (lw_trace s') → e_fds (lw_k s') = handed_back) ∧
    ∀ pre impl c a p c' a' post,
      lw_trace s' = pre ++ [Entered impl c a; Returned p c' a'] ++ post →
      e_fds (lw_k s') = handed_back ∪ (own c ∖ own c') ∪ (own a ∖ own a')).
Proof using All.
  wp_call wp_main. intros _ s' [Ht|Hs]; split.
  - intros _. destruct Ht as (? & ? & ? & ? & ? & ? & ? & ? & ? & ?). done.
  - intros pre impl c a p c' a' post E. apply turned_away_entry in Ht. rewrite E in Ht.
    by apply no_entry_mid in Ht.
  - intros Hn. destruct Hs as (pre0 & impl0 & c0 & a0 & p & c' & a' & h & chunks & T & _).
    rewrite T in Hn. by apply no_entry_mid in Hn.
  - intros pre impl c a p c' a' post E.
    destruct (served_entry _ _ _ _ _ _ _ _ Hs E)
      as (p0 & c0 & a0 & h & chunks & [= <- <- <- _] & _ & _ & _ & _ & _ & _ & _ & F). done.
Qed.
End main.

(** The thread runs the agent in this target. *)
Definition runs_agent (s : loader target) : bool :=
  match frida_main full_api enough agent_ctx 77 s with
  | Ret (_, s') => existsb is_entry (lw_trace s')
  | _ => false
  end.

Lemma loader_enters_after_handshake_witness :
  let s := start [FRIDA_MESSAGE_ACK] 0x9000 true FRIDA_UNLOAD_POLICY_RESIDENT in
  runs_agent s = true ∧
  wp (frida_main full_api enough agent_ctx 77) s (λ _ s', ∀ pre impl c a post,
    lw_trace s' = pre ++ Entered impl c a :: post →
    talk c pre = hello_frame 77 ++ ready_frame ∧ heard c pre = [FRIDA_MESSAGE_ACK] ∧
    no_entry pre ∧ no_entry post).
Proof.
  intros s. split; [vm_compute; reflexivity|].
  apply (loader_enters_after_handshake full_api enough agent_ctx 77 s).
  - exact full_api_complete.
  - vm_compute. discriminate.
  - vm_compute. reflexivity.
  - reflexivity.
  - intros _. split; [|vm_compute; discriminate]. cbn. set_solver.
  - intros Hh. exfalso. by apply Hh.
Defined.


Lemma loader_fd_balance_witness :
  let s := start [FRIDA_MESSAGE_ACK] 0x9000 true FRIDA_UNLOAD_POLICY_IMMEDIATE in
  runs_agent s = true ∧
  wp (frida_main full_api enough agent_ctx 77) s (λ _ s',
    (no_entry (lw_trace s') → e_fds (lw_k s') = handed_back agent_ctx s) ∧
    ∀ pre impl c a p c' a' post,
      lw_trace s' = pre ++ [Entered impl c a; Returned p c' a'] ++ post →
      e_fds (lw_k s') = handed_back agent_ctx s ∪ (own c ∖ own c') ∪ (own a ∖ own a')).
Proof.
  intros s. split; [vm_compute; reflexivity|].
  apply (loader_fd_balance full_api enough agent_ctx 77 s).
  - exact full_api_complete.
  - vm_compute. discriminate.
  - vm_compute. reflexivity.
  - reflexivity.
  - intros _. split; [|vm_compute; discriminate]. cbn. set_solver.
  - intros Hh. exfalso. by apply Hh.
Defined.

(** an agent that cannot be loaded is reported.  Receiving the agent's code
    and loading it always finishes; on success the conversation is as before
    and the code descriptor is closed; when dlopen or dlsym failed the injector
    was sent the corresponding ERROR message with its text (or the part that
    could be sent), and only the code descriptor of a failed dlopen is left to
    close. *)
Theorem load_failure_reported {K} `{LoaderLaws K} libc fuel ctx c (s : loader K) :
  complete libc → 65536 ≤ Z.of_nat fuel → c ∈ e_fds (lw_k s) → lc_agent_handle ctx = 0 →
  wp (load_agent libc fuel ctx c) s (λ r s',
    match r with
    | inl (h, impl) => h ≠ 0 ∧ impl ≠ 0 ∧ e_fds (lw_k s') = e_fds (lw_k s) ∧
        talk c (lw_trace s') = talk c (lw_trace s)
    | inr (code, h) => e_fds (lw_k s') ∖ own code = e_fds (lw_k s) ∧ ∃ bs,
        talk c (lw_trace s') = talk c (lw_trace s) ++ bs ∧
        if decide (code ≠ -1) then ∃ msg, bs `prefix_of` error_frame FRIDA_MESSAGE_ERROR_DLOPEN msg
        else if decide (h ≠ 0) then ∃ msg, bs `prefix_of` error_frame FRIDA_MESSAGE_ERROR_DLSYM msg
        else bs = []
    end).
Proof.
  intros Hl Hf Hc Hh. wp_call (wp_load_agent libc Hl fuel ctx c s Hf Hc); [done|].
  intros [[h impl]|[code h]] s' [_ L]; cbn in L; [tauto|]. destruct L as [F L]. split; [done|].
  case_decide as Hcode.
  - rewrite (proj2 (Z.eqb_neq _ _) Hcode) in L. destruct L as (bs & msg & ? & ?). eauto.
  - subst code. case_decide as Hne.
    + cbn in L. rewrite (proj2 (Z.eqb_neq _ _) Hne) in L. destruct L as (bs & msg & ? & ?). eauto.
    + subst h. exists []. by rewrite app_nil_r.
Qed.

(** The linker refuses the library: the error names the reason. *)
Lemma load_failure_reported_witness :
  let s := start [] 0 true FRIDA_UNLOAD_POLICY_IMMEDIATE in
  (∃ s', load_agent full_api enough agent_ctx 8 s = Ret (inr (9, 0), s') ∧
    talk 8 (lw_trace s') = error_frame FRIDA_MESSAGE_ERROR_DLOPEN (bytes_of "bad ELF")) ∧
  wp (load_agent full_api enough agent_ctx 8) s (λ r s',
    match r with
    | inl (h, impl) => h ≠ 0 ∧ impl ≠ 0 ∧ e_fds (lw_k s') = e_fds (lw_k s) ∧
        talk 8 (lw_trace s') = talk 8 (lw_trace s)
    | inr (code, h) => e_fds (lw_k s') ∖ own code = e_fds (lw_k s) ∧ ∃ bs,
        talk 8 (lw_trace s') = talk 8 (lw_trace s) ++ bs ∧
        if decide (code ≠ -1) then ∃ msg, bs `prefix_of` error_frame FRIDA_MESSAGE_ERROR_DLOPEN msg
        else if decide (h ≠ 0) then ∃ msg, bs `prefix_of` error_frame FRIDA_MESSAGE_ERROR_DLSYM msg
        else bs = []
    end).
Proof.
  intros s. split; [eexists; split; vm_compute; reflexivity|].
  apply (load_failure_reported full_api enough agent_ctx 8 s).
  - exact full_api_complete.
  - vm_compute. discriminate.
  - cbn. set_solver.
  - reflexivity.
Defined.

(** ** Both ends of the control socket *)
Section conversation.
Context {K : Type} `{LoaderLaws K} (libc : FridaLibcApi) (fuel : nat) (fd : Z).
(** The function of the loader that sends a message. *)
Definition send_message (m : message_to_peer) : M (loader K) bool :=
  match m with
  | Hello tid => frida_send_hello libc fuel fd tid
  | Ready => frida_send_ready libc fuel fd
  | ErrorDlopen text => frida_send_error libc fuel fd FRIDA_MESSAGE_ERROR_DLOPEN text
  | ErrorDlsym text => frida_send_error libc fuel fd FRIDA_MESSAGE_ERROR_DLSYM text
  end.
(** Messages and a BYE, as long as they can be sent. *)
Fixpoint send_messages (ms : list message_to_peer) (p : FridaUnloadPolicy) : M (loader K) bool :=
  match ms with
  | [] => frida_send_bye libc fuel fd p
  | m :: ms => let! ok := send_message m in if negb ok then ret false else send_messages ms p
  end.

Lemma wp_send_message m s : complete libc → 65536 ≤ Z.of_nat fuel →
  wp (send_message m) s (λ ok s', ∃ bs, sends fd s s' bs ∧ message ok bs (encode m)).
Proof.
  intros Hl Hf. destruct m; cbn [send_message encode].
  - apply wp_send_hello; [done|lia].
  - apply wp_send_ready; [done|lia].
  - by apply wp_send_error.
  - by apply wp_send_error.
Qed.
Lemma wp_send_messages p ms : complete libc → 65536 ≤ Z.of_nat fuel → ∀ s,
  wp (send_messages ms p) s (λ ok s', ∃ bs, sends fd s s' bs ∧
    message ok bs (concat (encode <$> ms) ++ bye_frame p)).
Proof.
  intros Hl Hf. induction ms as [|m ms IH]; intros s; cbn [send_messages fmap list_fmap concat app].
  - apply wp_send_bye; [done|lia].
  - apply wp_bind. wp_call (wp_send_message m s Hl Hf). intros ok s1 (bs & Hs & Hm). destruct ok; cbn [negb].
    + cbn in Hm. subst bs. wp_call (IH s1). intros ok s2 (bs2 & Hs2 & Hm2). exists (encode m ++ bs2).
      split; [by eapply sends_trans|]. rewrite <- app_assoc. destruct ok; cbn in *; [by subst|by apply prefix_app].
    + apply wp_ret. exists bs. split; [done|]. rewrite <- app_assoc. by apply prefix_app_r.
Qed.
End conversation.

Lemma monitor_all p rest ms : Forall sendable ms → ∀ fuel st0, (length ms < fuel)%nat →
  monitor fuel ((concat (encode <$> ms) ++ bye_frame p) ++ rest) st0 =
  let st := foldl understand st0 ms in
  Some (mk_monitor (mon_hello st) (mon_ready st) (Some (policy_value p)) (mon_error st)).
Proof.
  induction 1 as [|m ms Hm _ IH]; intros [|fuel] st0 Hf; cbn [length] in Hf; try lia.
  - cbn [fmap list_fmap concat app foldl]. by rewrite monitor_bye.
  - cbn [fmap list_fmap concat foldl]. rewrite <- !app_assoc, monitor_one by done.
    rewrite app_assoc. apply IH. lia.
Qed.

(** C34: the injector understands the loader.  The loader's functions send HELLO,
    READY and ERROR messages, with thread ids of 32 bits and non-empty texts
    without zero bytes of less than 64 KiB, and then a BYE, in whatever pieces
    the socket takes.  If they report success, [monitor], given what was sent on
    this socket and whatever follows, ends with what the messages meant, and
    stops with the policy of the BYE; otherwise what was sent is the beginning
    of it. *)
Theorem monitor_understands_loader {K} `{LoaderLaws K} libc fuel fd ms p (s : loader K) :
  complete libc → 65536 ≤ Z.of_nat fuel → Forall sendable ms →
  wp (send_messages libc fuel fd ms p) s (λ ok s', ∃ bs,
    talk fd (lw_trace s') = talk fd (lw_trace s) ++ bs ∧
    if ok : bool then ∀ rest, ∃ st, monitor (S (length ms)) (bs ++ rest) monitor_init = Some st ∧
      mon_bye st = Some (policy_value p) ∧ stop_policy st = policy_value p ∧
      mon_hello st = mon_hello (foldl understand monitor_init ms) ∧
      mon_ready st = mon_ready (foldl understand monitor_init ms) ∧
      mon_error st = mon_error (foldl understand monitor_init ms)
    else bs `prefix_of` concat (encode <$> ms) ++ bye_frame p).
Proof.
  intros Hl Hf Hms. wp_call (wp_send_messages libc fuel fd p ms Hl Hf s). intros ok s' (bs & Hs & Hm).
  exists bs. split; [by rewrite (sends_talk _ _ _ _ fd Hs), Z.eqb_refl|]. destruct ok; [|done].
  cbn in Hm. subst bs. intros rest. rewrite monitor_all by (done || lia). eexists. split; [done|]. done.
Qed.

Lemma monitor_understands_loader_witness :
  let ms := [Hello 77; ErrorDlsym (bytes_of "no such symbol")] in
  let s := start [] 0 true FRIDA_UNLOAD_POLICY_IMMEDIATE in
  wp (send_messages full_api enough 8 ms FRIDA_UNLOAD_POLICY_RESIDENT) s (λ ok s', ∃ bs,
    talk 8 (lw_trace s') = talk 8 (lw_trace s) ++ bs ∧
    if ok : bool then ∀ rest, ∃ st, monitor 3 (bs ++ rest) monitor_init = Some st ∧
      mon_bye st = Some (policy_value FRIDA_UNLOAD_POLICY_RESIDENT) ∧
      stop_policy st = policy_value FRIDA_UNLOAD_POLICY_RESIDENT ∧
      mon_hello st = mon_hello (foldl understand monitor_init ms) ∧
      mon_ready st = mon_ready (foldl understand monitor_init ms) ∧
      mon_error st = mon_error (foldl understand monitor_init ms)
    else bs `prefix_of` concat (encode <$> ms) ++ bye_frame FRIDA_UNLOAD_POLICY_RESIDENT).
Proof.
  intros ms s. apply (monitor_understands_loader full_api enough 8 ms FRIDA_UNLOAD_POLICY_RESIDENT s).
  - exact full_api_complete.
  - vm_compute. discriminate.
  - repeat constructor; vm_compute; discriminate || reflexivity.
Defined.
