(* ===== verification/Fixups.v ===== *)
(** Pointer fixups of an uploaded image
    (src/src/fruity/helpers/upload-receiver.c): threaded rebase and bind items,
    and dyld's chained fixups in their 64-bit and arm64e formats.

    Memory is byte addressed; accessing an unmapped address is fatal.  A window
    is a range of addresses that shares the bytes of another range, as
    vm_remap sets it up. *)
From S2P Require Import Prelude ElfParser.

(** ** Memory *)
Record window := mk_window { w_start : Z; w_size : Z; w_source : Z }.
Record memory := mk_memory { m_bytes : gmap Z Z; m_windows : list window }.

Definition in_range (start size a : Z) : bool := andb (start <=? a) (a <? start + size).
(** Where the byte at an address is kept. *)
Fixpoint translate (ws : list window) (a : Z) : Z :=
  match ws with
  | [] => a
  | w :: r => if in_range (w_start w) (w_size w) a then w_source w + (a - w_start w)
              else translate r a
  end.
Definition byte_at (m : memory) (a : Z) : option Z := m_bytes m !! translate (m_windows m) a.
Definition set_byte (a b : Z) (m : memory) : option memory :=
  let cell := translate (m_windows m) a in
  match m_bytes m !! cell with
  | Some _ => Some (mk_memory (<[cell := b]> (m_bytes m)) (m_windows m))
  | None => None
  end.
Fixpoint set_bytes (a : Z) (bs : list Z) (m : memory) : option memory :=
  match bs with
  | [] => Some m
  | b :: r => match set_byte (u64 a) b m with
              | Some m' => set_bytes (a + 1) r m'
              | None => None
              end
  end.
Definition peek (n : nat) (a : Z) : M memory Z := λ m, load (byte_at m) n a m.
Definition poke (n a v : Z) : M memory unit := λ m,
  match set_bytes a (le_bytes n v) m with Some m' => Ret (tt, m') | None => Crash end.

(** A C string. *)
Fixpoint peek_string (fuel : nat) (a : Z) : M memory (list Z) :=
  match fuel with
  | O => λ _, Stuck
  | S n =>
      let! b := peek 1 a in
      if b =? 0 then ret [] else let! r := peek_string n (a + 1) in ret (b :: r)
  end.

(** Zero-filled memory appears and disappears. *)
Definition addresses (a : Z) (n : nat) : list Z := (λ i, a + Z.of_nat i) <$> seq 0 n.
Definition map_zeros (a : Z) (n : nat) (m : memory) : memory :=
  mk_memory (foldr (λ x, insert x 0) (m_bytes m) (addresses a n)) (m_windows m).
Definition unmap (a : Z) (n : nat) (m : memory) : memory :=
  mk_memory (foldr delete (m_bytes m) (addresses a n)) (m_windows m).

(** Bits [lo .. lo + width - 1] of a word. *)
Definition bits (lo width v : Z) : Z := Z.land (Z.shiftr v lo) (Z.ones width).

(** ** What the code calls *)
Class UploadApi := {
  ptrauth_sign : Z → Z → Z → Z;
  ptrauth_blend : Z → Z → Z;
  ptrauth_strip : Z → Z;
  api_dlopen : list Z → Z;
  api_dlsym : Z → list Z → Z;
  (** The address mach_vm_allocate answers, if it succeeds. *)
  api_slab : option Z
}.
Definition ptrauth_key_asia : Z := 0.
Definition ptrauth_key_asib : Z := 1.
Definition ptrauth_key_asda : Z := 2.
Definition ptrauth_key_asdb : Z := 3.

Definition FRIDA_DARWIN_THREADED_REBASE : Z := 0.
Definition FRIDA_DARWIN_THREADED_BIND : Z := 1.
Definition FRIDA_CHAINED_PTR_START_NONE : Z := 0xffff.
Definition FRIDA_CHAINED_PTR_ARM64E : Z := 1.
Definition FRIDA_CHAINED_PTR_64 : Z := 2.
Definition FRIDA_CHAINED_PTR_64_OFFSET : Z := 6.
Definition FRIDA_CHAINED_PTR_ARM64E_USERLAND24 : Z := 12.
Definition FRIDA_CHAINED_IMPORT : Z := 1.
Definition FRIDA_CHAINED_IMPORT_ADDEND : Z := 2.
Definition FRIDA_CHAINED_IMPORT_ADDEND64 : Z := 3.

Definition frida_symbol_name_from_darwin (name : list Z) : list Z :=
  match name with
  | c :: r => if c =? 95 then r else name
  | [] => name
  end.

(** The result is an [int64_t]. *)
Definition frida_sign_extend_int19 (i19 : Z) : Z :=
  let sign_bit_set := negb (Z.shiftr i19 (19 - 1) =? 0) in
  s64 (if sign_bit_set then Z.lor i19 0xfffffffffff80000 else i19).

Section fixups.
Context `{UploadApi}.

Definition frida_sign_pointer (ptr key diversity : Z) (use_address_diversity : bool)
    (address_of_ptr : Z) : Z :=
  let d := if use_address_diversity then ptrauth_blend address_of_ptr diversity else diversity in
  if orb (orb (key =? ptrauth_key_asia) (key =? ptrauth_key_asib))
         (orb (key =? ptrauth_key_asda) (key =? ptrauth_key_asdb))
  then ptrauth_sign key ptr d
  else ptr.

(** *** Threaded items *)

(** The address an unauthenticated rebase item holds. *)
Definition threaded_rebase_address (value : Z) : Z :=
  let top_8_bits := Z.land (u64 (Z.shiftl value 13)) 0xff00000000000000 in
  let bottom_43_bits := Z.land value 0x000007ffffffffff in
  let sign_bit_set := negb (bits 42 1 value =? 0) in
  let sign_bits := if sign_bit_set then 0x00fff80000000000 else 0 in
  Z.lor (Z.lor top_8_bits sign_bits) bottom_43_bits.

(** What an item's slot becomes, and the distance to the next; [None] reads
    past the symbols. *)
Definition threaded_item (preferred_base_address slide : Z) (symbols : list Z) (slot value : Z)
    : option (Z * Z) :=
  let is_authenticated := negb (bits 63 1 value =? 0) in
  let type := bits 62 1 value in
  let delta := bits 51 11 value in
  let key := bits 49 2 value in
  let has_address_diversity := negb (bits 48 1 value =? 0) in
  let diversity := bits 32 16 value in
  let bound_value :=
    if type =? FRIDA_DARWIN_THREADED_BIND then symbols !! Z.to_nat (Z.land value 0xffff)
    else
      let rebase_address :=
        if is_authenticated then Z.land value 0xffffffff else threaded_rebase_address value in
      let bound_value :=
        if is_authenticated then u64 (rebase_address + preferred_base_address)
        else rebase_address in
      Some (u64 (bound_value + slide)) in
  match bound_value with
  | None => None
  | Some b => Some (if is_authenticated
                    then frida_sign_pointer b key diversity has_address_diversity slot
                    else b, delta)
  end.

Definition apply_region (fuel : nat) (preferred_base_address slide : Z) (symbols : list Z)
    (slot : Z) : M memory unit :=
  loop fuel (λ slot,
    let! value := peek 8 slot in
    match threaded_item preferred_base_address slide symbols slot value with
    | None => crash
    | Some (v, delta) =>
        do! poke 8 slot v in
        if delta =? 0 then ret (inr tt) else ret (inl (u64 (slot + delta * 8)))
    end) slot.
Fixpoint frida_apply_threaded_items (fuel : nat) (preferred_base_address slide : Z)
    (symbols regions : list Z) : M memory unit :=
  match regions with
  | [] => ret tt
  | r :: rest =>
      do! apply_region fuel preferred_base_address slide symbols r in
      frida_apply_threaded_items fuel preferred_base_address slide symbols rest
  end.

(** *** Chained fixups *)

(** An item of the generic 64-bit formats; [bound_pointers] is where the
    resolved imports are. *)
Definition generic64_item (format actual_base_address slide bound_pointers value : Z)
    : M memory (Z * Z) :=
  if Z.shiftr value 63 =? 0 then
    let delta := bits 51 12 value in
    let top_8_bits := u64 (Z.shiftl (bits 36 8 value) (64 - 8)) in
    let bottom_36_bits := bits 0 36 value in
    let unpacked_target := Z.lor top_8_bits bottom_36_bits in
    ret (if format =? FRIDA_CHAINED_PTR_64_OFFSET then u64 (actual_base_address + unpacked_target)
         else u64 (unpacked_target + slide), delta)
  else
    let delta := bits 51 12 value in
    let! p := peek 8 (u64 (bound_pointers + 8 * bits 0 24 value)) in
    ret (u64 (p + bits 24 8 value), delta).

Definition frida_process_chained_fixups_in_segment_generic64 (fuel : nat)
    (cursor format actual_base_address preferred_base_address bound_pointers : Z) : M memory unit :=
  let slide := s64 (actual_base_address - preferred_base_address) in
  let stride := 4 in
  loop fuel (λ cursor,
    let! value := peek 8 cursor in
    let! r := generic64_item format actual_base_address slide bound_pointers value in
    let '(v, delta) := r in
    do! poke 8 cursor v in
    if delta =? 0 then ret (inr tt) else ret (inl (u64 (cursor + delta * stride)))) cursor.

Definition arm64e_ordinal (format value : Z) : Z :=
  if format =? FRIDA_CHAINED_PTR_ARM64E_USERLAND24 then bits 0 24 value else bits 0 16 value.

Definition arm64e_item
    (format actual_base_address preferred_base_address slide bound_pointers slot value : Z)
    : M memory (Z * Z) :=
  let delta := bits 51 11 value in
  let kind := Z.shiftr value 62 in
  if kind =? 0 then
    let top_8_bits := u64 (Z.shiftl (bits 43 8 value) (64 - 8)) in
    let bottom_43_bits := bits 0 43 value in
    let unpacked_target := Z.lor top_8_bits bottom_43_bits in
    ret (if format =? FRIDA_CHAINED_PTR_ARM64E then u64 (unpacked_target + slide)
         else u64 (actual_base_address + unpacked_target), delta)
  else if kind =? 1 then
    let! p := peek 8 (u64 (bound_pointers + 8 * arm64e_ordinal format value)) in
    ret (u64 (p + frida_sign_extend_int19 (bits 32 19 value)), delta)
  else if kind =? 2 then
    ret (frida_sign_pointer (u64 (preferred_base_address + bits 0 32 value + slide))
           (bits 49 2 value) (bits 32 16 value) (negb (bits 48 1 value =? 0)) slot, delta)
  else
    let! p := peek 8 (u64 (bound_pointers + 8 * arm64e_ordinal format value)) in
    ret (frida_sign_pointer p (bits 49 2 value) (bits 32 16 value)
           (negb (bits 48 1 value =? 0)) slot, delta).

Definition frida_process_chained_fixups_in_segment_arm64e (fuel : nat)
    (cursor format actual_base_address preferred_base_address bound_pointers : Z) : M memory unit :=
  let slide := s64 (actual_base_address - preferred_base_address) in
  let stride := 8 in
  loop fuel (λ cursor,
    let! value := peek 8 cursor in
    let! r := arm64e_item format actual_base_address preferred_base_address slide bound_pointers
                cursor value in
    let '(v, delta) := r in
    do! poke 8 cursor v in
    if delta =? 0 then ret (inr tt) else ret (inl (u64 (cursor + delta * stride)))) cursor.

Definition frida_resolve_import (fuel : nat) (dylib_handles dylib_ordinal symbol_strings
    symbol_offset : Z) : M memory Z :=
  if dylib_ordinal <=? 0 then ret 0
  else
    let! raw_name := peek_string fuel (u64 (symbol_strings + symbol_offset)) in
    let! handle := peek 8 (u64 (dylib_handles + 8 * (dylib_ordinal - 1))) in
    ret (ptrauth_strip (api_dlsym handle (frida_symbol_name_from_darwin raw_name))).

(** *** [frida_process_chained_fixups] *)
Definition SLAB_SIZE : Z := 64 * 1024.
Definition MACH_HEADER_SIZE : Z := 32.
Definition LC_LOAD_DYLIB : Z := 0xc.
Definition LC_LOAD_WEAK_DYLIB : Z := 0x80000018.
Definition LC_REEXPORT_DYLIB : Z := 0x8000001f.
Definition LC_LOAD_UPWARD_DYLIB : Z := 0x80000023.

(** The load commands: open every library the image depends on; the number of
    handles stored. *)
Definition load_dylibs (fuel : nat) (mach_header dylib_handles : Z) : M memory Z :=
  let! r := loop fuel (λ '(command, command_index, dylib_count),
    let! ncmds := peek 4 (mach_header + 16) in
    if command_index =? ncmds then ret (inr dylib_count)
    else
      let! cmd := peek 4 command in
      let! dylib_count :=
        (if orb (orb (cmd =? LC_LOAD_DYLIB) (cmd =? LC_LOAD_WEAK_DYLIB))
                (orb (cmd =? LC_REEXPORT_DYLIB) (cmd =? LC_LOAD_UPWARD_DYLIB))
         then
           let! offset := peek 4 (command + 8) in
           let! name := peek_string fuel (u64 (command + offset)) in
           do! poke 8 (u64 (dylib_handles + 8 * dylib_count)) (api_dlopen name) in
           ret (dylib_count + 1)
         else ret dylib_count) in
      let! cmdsize := peek 4 (command + 4) in
      ret (inl (u64 (command + cmdsize), u32 (command_index + 1), dylib_count)))
    (u64 (mach_header + MACH_HEADER_SIZE), 0, 0) in
  ret r.

(** One entry of the imports table: library ordinal, name offset and addend. *)
Definition import_at (imports_format imports i : Z) : M memory (Z * Z * Z) :=
  if imports_format =? FRIDA_CHAINED_IMPORT then
    let! w := peek 4 (u64 (imports + 4 * i)) in
    ret (bits 0 8 w, bits 9 23 w, 0)
  else if imports_format =? FRIDA_CHAINED_IMPORT_ADDEND then
    let! w := peek 4 (u64 (imports + 8 * i)) in
    let! addend := peek 4 (u64 (imports + 8 * i + 4)) in
    ret (bits 0 8 w, bits 9 23 w, s32 addend)
  else
    let! w := peek 8 (u64 (imports + 16 * i)) in
    let! addend := peek 8 (u64 (imports + 16 * i + 8)) in
    ret (bits 0 16 w, bits 32 32 w, addend).

Definition bind_imports (fuel : nat) (fixups_header dylib_handles bound_pointers bound_count : Z)
    : M memory unit :=
  let! symbols_offset := peek 4 (fixups_header + 12) in
  let symbols := u64 (fixups_header + symbols_offset) in
  let! imports_format := peek 4 (fixups_header + 20) in
  if orb (imports_format =? FRIDA_CHAINED_IMPORT)
       (orb (imports_format =? FRIDA_CHAINED_IMPORT_ADDEND)
            (imports_format =? FRIDA_CHAINED_IMPORT_ADDEND64))
  then
    let! imports_offset := peek 4 (fixups_header + 8) in
    let imports := u64 (fixups_header + imports_offset) in
    for_all (Z.to_nat bound_count) (λ i _,
      let! e := import_at imports_format imports i in
      let '(lib_ordinal, name_offset, addend) := e in
      let! p := frida_resolve_import fuel dylib_handles lib_ordinal symbols name_offset in
      poke 8 (u64 (bound_pointers + 8 * i)) (u64 (p + addend))) tt
  else ret tt.

Definition fixup_page (fuel : nat) (mach_header preferred_base_address bound_pointers seg_starts
    format page_index : Z) : M memory unit :=
  let! start := peek 2 (u64 (seg_starts + 22 + 2 * page_index)) in
  if start =? FRIDA_CHAINED_PTR_START_NONE then ret tt
  else
    let! segment_offset := peek 8 (seg_starts + 8) in
    let! page_size := peek 2 (seg_starts + 4) in
    let cursor := u64 (mach_header + segment_offset + s32 (page_index * page_size) + start) in
    if orb (format =? FRIDA_CHAINED_PTR_64) (format =? FRIDA_CHAINED_PTR_64_OFFSET)
    then frida_process_chained_fixups_in_segment_generic64 fuel cursor format mach_header
           preferred_base_address bound_pointers
    else frida_process_chained_fixups_in_segment_arm64e fuel cursor format mach_header
           preferred_base_address bound_pointers.

Definition fixup_segment (fuel : nat) (mach_header preferred_base_address bound_pointers
    image_starts seg_index : Z) : M memory unit :=
  let! seg_offset := peek 4 (u64 (image_starts + 4 + 4 * seg_index)) in
  if seg_offset =? 0 then ret tt
  else
    let seg_starts := u64 (image_starts + seg_offset) in
    let! format := peek 2 (seg_starts + 6) in
    loop fuel (λ page_index,
      let! page_count := peek 2 (seg_starts + 20) in
      if page_index =? page_count then ret (inr tt)
      else
        do! fixup_page fuel mach_header preferred_base_address bound_pointers seg_starts format
              page_index in
        ret (inl (u16 (page_index + 1)))) 0.

Definition frida_process_chained_fixups (fuel : nat)
    (fixups_header mach_header preferred_base_address : Z) : M memory unit :=
  let slab_start := default 0 api_slab in
  do! (match api_slab with
       | Some a => modify (map_zeros a (Z.to_nat SLAB_SIZE))
       | None => ret tt
       end) in
  let dylib_handles := slab_start in
  let! dylib_count := load_dylibs fuel mach_header dylib_handles in
  let bound_pointers := u64 (slab_start + 8 * dylib_count) in
  let! bound_count := peek 4 (fixups_header + 16) in
  do! bind_imports fuel fixups_header dylib_handles bound_pointers bound_count in
  let! starts_offset := peek 4 (fixups_header + 4) in
  let image_starts := u64 (fixups_header + starts_offset) in
  do! loop fuel (λ seg_index,
    let! seg_count := peek 4 image_starts in
    if seg_index =? seg_count then ret (inr tt)
    else
      do! fixup_segment fuel mach_header preferred_base_address bound_pointers image_starts
            seg_index in
      ret (inl (u32 (seg_index + 1)))) 0 in
  match api_slab with
  | Some a => modify (unmap a (Z.to_nat SLAB_SIZE))
  | None => ret tt
  end.
End fixups.
