(* ===== verification/FixupsCorrect.v ===== *)
(** Walking a chain of fixups visits every item once and changes nothing but
    the items' slots. *)
From S2P Require Import Prelude ElfParser Fixups.

(** ** Fields of a word *)
Lemma bits_div lo width v : 0 ≤ lo → 0 ≤ width → bits lo width v = (v / 2 ^ lo) mod 2 ^ width.
Proof. intros Hl Hw. unfold bits. by rewrite Z.land_ones, Z.shiftr_div_pow2. Qed.
(** A field between what is below and what is above it. *)
Lemma bits_field lo width low x high :
  0 ≤ lo → 0 ≤ width → 0 ≤ low < 2 ^ lo → 0 ≤ x < 2 ^ width →
  bits lo width (low + x * 2 ^ lo + high * 2 ^ (lo + width)) = x.
Proof.
  intros Hl Hw Hlow Hx. rewrite bits_div by done. rewrite Z.pow_add_r by done.
  replace (low + x * 2 ^ lo + high * (2 ^ lo * 2 ^ width))
    with (low + (x + high * 2 ^ width) * 2 ^ lo) by lia.
  rewrite Z.div_add by lia. rewrite (Z.div_small low) by done.
  rewrite Z.add_0_l, Z.mod_add by lia. by apply Z.mod_small.
Qed.
Lemma shiftr_field lo low x : 0 ≤ lo → 0 ≤ low < 2 ^ lo → Z.shiftr (low + x * 2 ^ lo) lo = x.
Proof.
  intros Hl Hlow. rewrite Z.shiftr_div_pow2, Z.div_add by lia. by rewrite Z.div_small.
Qed.
(** Disjoint fields are put together by [or]. *)
Lemma lor_add_disjoint a b k : 0 ≤ k → 0 ≤ a < 2 ^ k → 0 ≤ b → Z.lor (b * 2 ^ k) a = b * 2 ^ k + a.
Proof.
  intros Hk Ha Hb. rewrite <- Z.shiftl_mul_pow2 by done.
  assert (Hland : Z.land (Z.shiftl b k) a = 0).
  { apply Z.bits_inj'. intros n Hn. rewrite Z.land_spec, Z.bits_0.
    destruct (decide (n < k)); [by rewrite Z.shiftl_spec_low|].
    rewrite <- (Z.mod_small a (2 ^ k)) by done.
    rewrite Z.mod_pow2_bits_high by lia. by rewrite andb_false_r. }
  rewrite <- Z.lxor_lor by done. by rewrite Z.add_nocarry_lxor.
Qed.

Lemma land_mask_top x : 0 ≤ x < 2 ^ 64 → Z.land x 0xff00000000000000 = x / 2 ^ 56 * 2 ^ 56.
Proof.
  intros Hx. change 0xff00000000000000 with (Z.shiftl (Z.ones 8) 56).
  rewrite <- Z.shiftr_div_pow2, <- Z.shiftl_mul_pow2 by lia. apply Z.bits_inj'. intros n Hn.
  rewrite Z.land_spec. destruct (decide (n < 56)).
  - rewrite !Z.shiftl_spec_low by done. apply andb_false_r.
  - rewrite !Z.shiftl_spec by lia. rewrite Z.shiftr_spec by lia.
    replace (n - 56 + 56) with n by lia. destruct (decide (n < 64)).
    + rewrite Z.ones_spec_low by lia. apply andb_true_r.
    + rewrite <- (Z.mod_small x (2 ^ 64)) by done. by rewrite Z.mod_pow2_bits_high by lia.
Qed.
(** Extract the fields of a sum of fields. *)
Ltac fld := rewrite bits_div by lia; Z.div_mod_to_equations; lia.

(** ** Words in memory *)
Definition word (b : gmap Z Z) (a v : Z) : Prop :=
  0 ≤ a ∧ a + 8 ≤ 2 ^ 64 ∧ ∀ i, 0 ≤ i < 8 → b !! (a + i) = le_bytes 8 v !! Z.to_nat i.

Fixpoint put_list (a : Z) (bs : list Z) (b : gmap Z Z) : gmap Z Z :=
  match bs with
  | [] => b
  | x :: r => put_list (a + 1) r (<[a := x]> b)
  end.
Lemma put_list_out bs : ∀ a b x, x < a ∨ a + zlen bs ≤ x → put_list a bs b !! x = b !! x.
Proof.
  induction bs as [|y bs IH]; intros a b x Hx; [done|]. cbn. rewrite zlen_cons in Hx.
  pose proof (zlen_nonneg bs). rewrite IH by lia. apply lookup_insert_ne. lia.
Qed.
Lemma put_list_in bs : ∀ a b i, 0 ≤ i < zlen bs → put_list a bs b !! (a + i) = bs !! Z.to_nat i.
Proof.
  induction bs as [|y bs IH]; intros a b i Hi; [unfold zlen in Hi; cbn in Hi; lia|].
  rewrite zlen_cons in Hi. cbn [put_list]. destruct (decide (i = 0)) as [->|Hne].
  - rewrite Z.add_0_r, put_list_out by lia. by rewrite lookup_insert_eq.
  - replace (a + i) with (a + 1 + (i - 1)) by lia. rewrite IH by lia.
    replace (Z.to_nat i) with (S (Z.to_nat (i - 1))) by lia. done.
Qed.

Lemma set_bytes_put bs : ∀ a m,
  m_windows m = [] → 0 ≤ a → a + zlen bs ≤ 2 ^ 64 →
  (∀ i, 0 ≤ i < zlen bs → is_Some (m_bytes m !! (a + i))) →
  set_bytes a bs m = Some (mk_memory (put_list a bs (m_bytes m)) []).
Proof.
  induction bs as [|y bs IH]; intros a [b ws] Hw Ha Hb Hm; cbn in Hw; subst ws; [done|].
  cbn [set_bytes put_list]. rewrite zlen_cons in Hb, Hm. pose proof (zlen_nonneg bs).
  rewrite u64_small by lia. unfold set_byte. cbn [m_windows translate m_bytes].
  destruct (Hm 0) as [x Hx]; [lia|]. cbn in Hx. rewrite Z.add_0_r in Hx. rewrite Hx.
  apply IH; cbn; [done|lia|lia|]. intros i Hi.
  rewrite lookup_insert_is_Some. right. split; [lia|].
  replace (a + 1 + i) with (a + (i + 1)) by lia. apply Hm. lia.
Qed.

Lemma load_bytes_map m n : ∀ a bs,
  m_windows m = [] → 0 ≤ a → a + Z.of_nat n ≤ 2 ^ 64 → length bs = n →
  (∀ i, 0 ≤ i < Z.of_nat n → m_bytes m !! (a + i) = bs !! Z.to_nat i) →
  load_bytes (byte_at m) n a = Some bs.
Proof.
  induction n as [|n IH]; intros a bs Hw Ha Hb Hl Hm; destruct bs as [|y bs]; try done.
  cbn [load_bytes]. rewrite u64_small by lia. unfold byte_at at 1. rewrite Hw. cbn [translate].
  pose proof (Hm 0 ltac:(lia)) as H0. rewrite Z.add_0_r in H0. cbn in H0. rewrite H0.
  rewrite (IH (a + 1) bs); [done|done|lia|lia|by injection Hl|].
  intros i Hi. replace (a + 1 + i) with (a + (i + 1)) by lia. rewrite Hm by lia.
  replace (Z.to_nat (i + 1)) with (S (Z.to_nat i)) by lia. done.
Qed.

Lemma peek_word m a v :
  m_windows m = [] → word (m_bytes m) a v → 0 ≤ v < 2 ^ 64 → peek 8 a m = Ret (v, m).
Proof.
  intros Hw (Ha & Hb & Hv) Hr. unfold peek, load.
  assert (Hl : length (le_bytes 8 v) = 8%nat).
  { pose proof (zlen_le_bytes 8 v ltac:(lia)) as Hz. unfold zlen in Hz. lia. }
  rewrite (load_bytes_map m 8 a (le_bytes 8 v)); try done; try lia.
  rewrite le_value_le_bytes by lia. by rewrite Z.mod_small.
Qed.
Lemma poke_word m a v w :
  m_windows m = [] → word (m_bytes m) a w →
  ∃ b, poke 8 a v m = Ret (tt, mk_memory b []) ∧ word b a v ∧
    ∀ x, x < a ∨ a + 8 ≤ x → b !! x = m_bytes m !! x.
Proof.
  intros Hw (Ha & Hb & Hv). pose proof (zlen_le_bytes 8 v ltac:(lia)) as Hz.
  exists (put_list a (le_bytes 8 v) (m_bytes m)). unfold poke.
  rewrite set_bytes_put; [|done|done|lia|].
  - split; [done|]. split.
    + split_and!; [done|done|]. intros i Hi. apply put_list_in. lia.
    + intros x Hx. apply put_list_out. lia.
  - intros i Hi. rewrite Hv by lia. apply lookup_lt_is_Some.
    pose proof (zlen_le_bytes 8 w ltac:(lia)) as Hzw. unfold zlen in Hzw. lia.
Qed.

(** ** Chains *)
Section chain.
Context (delta : Z → Z) (stride : Z).

(** The slots and values of the chain that starts at an address: slots do not
    overlap, and the last one has no successor. *)
Inductive is_chain : Z → list (Z * Z) → Prop :=
| chain_last c v : 0 ≤ v < 2 ^ 64 → delta v = 0 → is_chain c [(c, v)]
| chain_next c v rest :
    0 ≤ v < 2 ^ 64 → 8 ≤ delta v * stride → c + delta v * stride < 2 ^ 64 →
    is_chain (c + delta v * stride) rest → is_chain c ((c, v) :: rest).

Definition holds (b : gmap Z Z) (items : list (Z * Z)) : Prop :=
  ∀ c v, (c, v) ∈ items → word b c v.
Definition outside (items : list (Z * Z)) (x : Z) : Prop :=
  ∀ c v, (c, v) ∈ items → x < c ∨ c + 8 ≤ x.
(** Memory that differs from [b] at most in the slots. *)
Definition same_outside (items : list (Z * Z)) (b b' : gmap Z Z) : Prop :=
  ∀ x, outside items x → b' !! x = b !! x.

Lemma chain_from c items : is_chain c items → ∀ c' v, (c', v) ∈ items → c ≤ c'.
Proof.
  induction 1 as [c v Hv Hd|c v rest Hv Hd Hb Hc IH]; intros c' v' Hin.
  - apply list_elem_of_singleton in Hin as [= -> _]. lia.
  - apply elem_of_cons in Hin as [[= -> _]|Hin]; [lia|]. pose proof (IH _ _ Hin). lia.
Qed.
Lemma word_same b b' a v : word b a v → (∀ x, a ≤ x < a + 8 → b' !! x = b !! x) → word b' a v.
Proof. intros (? & ? & Hv) Hs. split_and!; try done. intros i Hi. rewrite Hs by lia. auto. Qed.

(** [item] turns the value of a slot into [f] of it, whatever happened to the
    slots before. *)
Context (item : Z → Z → M memory (Z * Z)) (f : Z → Z → Z).
Definition chain_body (c : Z) : M memory (Z + unit) :=
  let! value := peek 8 c in
  let! r := item c value in
  let '(v, d) := r in
  do! poke 8 c v in
  if d =? 0 then ret (inr tt) else ret (inl (u64 (c + d * stride))).

Lemma chain_step c v m :
  m_windows m = [] → word (m_bytes m) c v → 0 ≤ v < 2 ^ 64 →
  item c v m = Ret ((f c v, delta v), m) →
  ∃ b, word b c (f c v) ∧ (∀ x, x < c ∨ c + 8 ≤ x → b !! x = m_bytes m !! x) ∧
    chain_body c m =
    Ret (if delta v =? 0 then inr tt else inl (u64 (c + delta v * stride)), mk_memory b []).
Proof.
  intros Hw Hword Hr Hi. destruct (poke_word m c (f c v) v Hw Hword) as (b & Hp & Hb & Hs).
  exists b. split_and!; [done|done|]. unfold chain_body, bind at 1.
  rewrite (peek_word m c v Hw Hword Hr). unfold bind at 1. rewrite Hi. unfold bind. rewrite Hp.
  by destruct (delta v =? 0).
Qed.

Lemma walk_chain all c items :
  is_chain c items → ∀ fuel m,
  (length items ≤ fuel)%nat → m_windows m = [] → holds (m_bytes m) items →
  (∀ x v, (x, v) ∈ items → (x, v) ∈ all) →
  (∀ c v m', (c, v) ∈ items → m_windows m' = [] → same_outside all (m_bytes m) (m_bytes m') →
     item c v m' = Ret ((f c v, delta v), m')) →
  wp (loop fuel chain_body c) m (λ _ m', m_windows m' = [] ∧
    (∀ c v, (c, v) ∈ items → word (m_bytes m') c (f c v)) ∧
    same_outside items (m_bytes m) (m_bytes m')).
Proof.
  induction 1 as [c v Hv Hd|c v rest Hv Hd Hb Hc IH]; intros [|fuel] m Hf Hw Hh Hall Hi;
    cbn [length] in Hf; try lia; cbn [loop].
  - destruct (chain_step c v m) as (b & Hb & Hs & E); [done|apply Hh; constructor|done
      |apply Hi; [constructor|done|by intros x _]|].
    rewrite Hd in E. eexists tt, _. unfold bind. rewrite E. split; [done|]. cbn. split_and!; [done| |].
    + intros c' v' Hin. by apply list_elem_of_singleton in Hin as [= -> ->].
    + intros x Hx. apply Hs, (Hx c v). constructor.
  - destruct (chain_step c v m) as (b & Hbw & Hs & E); [done|apply Hh; constructor|done
      |apply Hi; [constructor|done|by intros x _]|].
    assert (Hd0 : delta v ≠ 0) by lia. rewrite (proj2 (Z.eqb_neq _ _) Hd0) in E.
    destruct (Hh c v ltac:(constructor)) as (Hc0 & _ & _).
    rewrite u64_small in E by lia.
    apply wp_bind. exists (inl (c + delta v * stride)), (mk_memory b []). split; [done|].
    wp_call (IH fuel (mk_memory b [])); cbn [m_bytes m_windows]; [lia|done| | | |].
    + intros c' v' Hin. pose proof (chain_from _ _ Hc _ _ Hin).
      apply (word_same (m_bytes m)); [apply Hh; by constructor|]. intros x Hx. apply Hs. lia.
    + intros x v' Hin. apply Hall. by constructor.
    + intros c' v' m' Hin Hw' Hsame. apply Hi; [by constructor|done|]. intros x Hx.
      rewrite (Hsame x Hx). apply Hs, (Hx c v). apply Hall. constructor.
    + intros _ m' (Hw' & Hdone & Hsame). split_and!; [done| |].
      * intros c' v' Hin. apply elem_of_cons in Hin as [[= -> ->]|Hin]; [|auto].
        apply (word_same b); [done|]. intros x Hx. apply Hsame. intros c' v' Hin.
        pose proof (chain_from _ _ Hc _ _ Hin). lia.
      * intros x Hx. rewrite Hsame; [apply Hs, (Hx c v); constructor|].
        intros c' v' Hin. apply (Hx c' v'). by constructor.
Qed.
End chain.

(** ** Threaded items *)
Section threaded.
Context `{UploadApi}.

(** What an item of a threaded region says. *)
Inductive threaded :=
| TRebase (high8 target : Z)
| TBind (ordinal : Z)
| TAuthRebase (target diversity key : Z) (addr_div : bool)
| TAuthBind (ordinal diversity key : Z) (addr_div : bool).

(** Its encoding, with the distance to the next slot in words. *)
Definition threaded_word (i : threaded) (next : Z) : Z :=
  match i with
  | TRebase high8 target => target mod 2 ^ 43 + high8 * 2 ^ 43 + next * 2 ^ 51
  | TBind ordinal => ordinal + next * 2 ^ 51 + 1 * 2 ^ 62
  | TAuthRebase target diversity key addr_div =>
      target + diversity * 2 ^ 32 + Z.b2z addr_div * 2 ^ 48 + key * 2 ^ 49 + next * 2 ^ 51 +
      1 * 2 ^ 63
  | TAuthBind ordinal diversity key addr_div =>
      ordinal + diversity * 2 ^ 32 + Z.b2z addr_div * 2 ^ 48 + key * 2 ^ 49 + next * 2 ^ 51 +
      1 * 2 ^ 62 + 1 * 2 ^ 63
  end.
Definition threaded_ok (symbols : list Z) (i : threaded) : Prop :=
  match i with
  | TRebase high8 target => 0 ≤ high8 < 2 ^ 8 ∧ - 2 ^ 42 ≤ target < 2 ^ 42
  | TBind ordinal => 0 ≤ ordinal < 2 ^ 16 ∧ ordinal < zlen symbols
  | TAuthRebase target diversity key _ =>
      0 ≤ target < 2 ^ 32 ∧ 0 ≤ diversity < 2 ^ 16 ∧ 0 ≤ key < 4
  | TAuthBind ordinal diversity key _ =>
      0 ≤ ordinal < 2 ^ 16 ∧ ordinal < zlen symbols ∧ 0 ≤ diversity < 2 ^ 16 ∧ 0 ≤ key < 4
  end.
(** The pointer it stands for: a rebased address is signed and 43 bits wide,
    with its top byte apart; an authenticated one is an offset in the image,
    signed by its key. *)
Definition signed (b key diversity : Z) (addr_div : bool) (slot : Z) : Z :=
  ptrauth_sign key b (if addr_div then ptrauth_blend slot diversity else diversity).
Definition threaded_pointer (base slide : Z) (symbols : list Z) (slot : Z) (i : threaded) : Z :=
  match i with
  | TRebase high8 target => (high8 * 2 ^ 56 + target mod 2 ^ 56 + slide) mod 2 ^ 64
  | TBind ordinal => znth symbols ordinal
  | TAuthRebase target diversity key addr_div =>
      signed ((base + target + slide) mod 2 ^ 64) key diversity addr_div slot
  | TAuthBind ordinal diversity key addr_div =>
      signed (znth symbols ordinal) key diversity addr_div slot
  end.

Lemma threaded_rebase_address_ok high8 target next :
  0 ≤ high8 < 2 ^ 8 → - 2 ^ 42 ≤ target < 2 ^ 42 → 0 ≤ next < 2 ^ 11 →
  threaded_rebase_address (threaded_word (TRebase high8 target) next) =
  high8 * 2 ^ 56 + target mod 2 ^ 56.
Proof.
  intros Hh Ht Hn. cbn [threaded_word]. set (t := target mod 2 ^ 43).
  assert (Htr : 0 ≤ t < 2 ^ 43) by (apply Z.mod_pos_bound; lia).
  set (v := t + high8 * 2 ^ 43 + next * 2 ^ 51). unfold threaded_rebase_address. cbn zeta.
  assert (E1 : Z.land (u64 (Z.shiftl v 13)) 0xff00000000000000 = high8 * 2 ^ 56).
  { rewrite land_mask_top by apply u64_range. f_equal. rewrite Z.shiftl_mul_pow2 by lia.
    unfold u64, v. Z.div_mod_to_equations. lia. }
  assert (E2 : Z.land v 0x000007ffffffffff = t).
  { change 0x000007ffffffffff with (Z.ones 43). rewrite Z.land_ones by lia.
    unfold v. Z.div_mod_to_equations. lia. }
  assert (E3 : bits 42 1 v = if decide (target < 0) then 1 else 0).
  { rewrite bits_div by lia. unfold v, t in *. case_decide; Z.div_mod_to_equations; lia. }
  rewrite E1, E2, E3. case_decide as Hneg; cbn [Z.eqb negb].
  - change 0x00fff80000000000 with ((2 ^ 13 - 1) * 2 ^ 43).
    rewrite (lor_add_disjoint ((2 ^ 13 - 1) * 2 ^ 43) high8 56) by lia.
    replace (high8 * 2 ^ 56 + (2 ^ 13 - 1) * 2 ^ 43)
      with ((high8 * 2 ^ 13 + (2 ^ 13 - 1)) * 2 ^ 43) by lia.
    rewrite lor_add_disjoint by lia. unfold t. Z.div_mod_to_equations. lia.
  - rewrite Z.lor_0_r. replace (high8 * 2 ^ 56) with (high8 * 2 ^ 13 * 2 ^ 43) by lia.
    rewrite lor_add_disjoint by lia. unfold t. Z.div_mod_to_equations. lia.
Qed.

(** The fields of an authenticated item. *)
Lemma auth_fields x diversity key (addr_div : bool) next type :
  0 ≤ x < 2 ^ 32 → 0 ≤ diversity < 2 ^ 16 → 0 ≤ key < 4 → 0 ≤ next < 2 ^ 11 → 0 ≤ type < 2 →
  let v := x + diversity * 2 ^ 32 + Z.b2z addr_div * 2 ^ 48 + key * 2 ^ 49 + next * 2 ^ 51 +
           type * 2 ^ 62 + 1 * 2 ^ 63 in
  bits 63 1 v = 1 ∧ bits 62 1 v = type ∧ bits 51 11 v = next ∧ bits 49 2 v = key ∧
  bits 48 1 v = Z.b2z addr_div ∧ bits 32 16 v = diversity ∧ bits 0 32 v = x.
Proof.
  intros Hx Hd Hk Hn Ht v. unfold v.
  assert (Hb : 0 ≤ Z.b2z addr_div < 2) by (destruct addr_div; cbn; lia).
  split_and!; fld.
Qed.
Lemma land_low n v : 0 ≤ n → Z.land v (Z.ones n) = v mod 2 ^ n.
Proof. apply Z.land_ones. Qed.
Lemma sign_pointer_ok b key diversity addr_div slot :
  0 ≤ key < 4 → frida_sign_pointer b key diversity addr_div slot = signed b key diversity addr_div slot.
Proof.
  intros Hk. unfold frida_sign_pointer, signed.
  assert (Hc : key = 0 ∨ key = 1 ∨ key = 2 ∨ key = 3) by lia.
  by destruct Hc as [->|[->|[->| ->]]].
Qed.
Lemma symbol_lookup (symbols : list Z) n :
  0 ≤ n < zlen symbols → symbols !! Z.to_nat n = Some (znth symbols n).
Proof.
  intros Hn. unfold znth. unfold zlen in Hn.
  destruct (lookup_lt_is_Some_2 symbols (Z.to_nat n)) as [x Hx]; [lia|].
  by rewrite Hx, (nth_lookup_Some _ _ 0 x).
Qed.

(** Every item becomes the pointer it stands for. *)
Lemma threaded_item_ok base slide symbols slot i next :
  threaded_ok symbols i → 0 ≤ next < 2 ^ 11 →
  threaded_item base slide symbols slot (threaded_word i next) =
  Some (threaded_pointer base slide symbols slot i, next).
Proof.
  intros Hi Hn. unfold threaded_item. cbn zeta.
  destruct i as [high8 target|ordinal|target diversity key ad|ordinal diversity key ad];
    cbn [threaded_ok] in Hi.
  - destruct Hi as [Hh Ht]. rewrite threaded_rebase_address_ok by done. cbn [threaded_word].
    assert (Ht' : 0 ≤ target mod 2 ^ 43 < 2 ^ 43) by (apply Z.mod_pos_bound; lia).
    set (t := target mod 2 ^ 43) in *.
    assert (bits 63 1 (t + high8 * 2 ^ 43 + next * 2 ^ 51) = 0) as -> by fld.
    assert (bits 62 1 (t + high8 * 2 ^ 43 + next * 2 ^ 51) = 0) as -> by fld.
    assert (bits 51 11 (t + high8 * 2 ^ 43 + next * 2 ^ 51) = next) as -> by fld.
    done.
  - destruct Hi as [Ho Hs]. cbn [threaded_word].
    assert (bits 63 1 (ordinal + next * 2 ^ 51 + 1 * 2 ^ 62) = 0) as -> by fld.
    assert (bits 62 1 (ordinal + next * 2 ^ 51 + 1 * 2 ^ 62) = 1) as -> by fld.
    assert (bits 51 11 (ordinal + next * 2 ^ 51 + 1 * 2 ^ 62) = next) as -> by fld.
    change 0xffff with (Z.ones 16). rewrite land_low by lia.
    replace ((ordinal + next * 2 ^ 51 + 1 * 2 ^ 62) mod 2 ^ 16) with ordinal
      by (Z.div_mod_to_equations; lia).
    cbn [Z.eqb FRIDA_DARWIN_THREADED_BIND negb]. rewrite symbol_lookup by lia. done.
  - destruct Hi as (Ht & Hd & Hk). cbn [threaded_word].
    destruct (auth_fields target diversity key ad next 0 Ht Hd Hk Hn ltac:(lia))
      as (E1 & E2 & E3 & E4 & E5 & E6 & E7). rewrite Z.mul_0_l, Z.add_0_r in *.
    rewrite E1, E2, E3, E4, E5, E6. change 0xffffffff with (Z.ones 32).
    unfold bits in E7. rewrite Z.shiftr_0_r in E7. rewrite E7. cbn [Z.eqb FRIDA_DARWIN_THREADED_BIND negb].
    rewrite sign_pointer_ok by done. rewrite u64_add_l. cbn [threaded_pointer].
    replace (target + base + slide) with (base + target + slide) by lia.
    replace (negb (Z.b2z ad =? 0)) with ad by (by destruct ad). done.
  - destruct Hi as (Ho & Hs & Hd & Hk). cbn [threaded_word].
    destruct (auth_fields ordinal diversity key ad next 1 ltac:(lia) Hd Hk Hn ltac:(lia))
      as (E1 & E2 & E3 & E4 & E5 & E6 & E7).
    rewrite E1, E2, E3, E4, E5, E6. change 0xffff with (Z.ones 16). rewrite land_low by lia.
    rewrite bits_div, Z.pow_0_r, Z.div_1_r in E7 by lia.
    set (v := ordinal + _ + _ + _ + _ + _ + _) in *.
    replace (v mod 2 ^ 16) with ordinal by (Z.div_mod_to_equations; lia).
    cbn [Z.eqb FRIDA_DARWIN_THREADED_BIND negb]. rewrite symbol_lookup by lia. cbn [Pos.eqb].
    rewrite sign_pointer_ok by done. by destruct ad.
Qed.
End threaded.

(** ** Chains of structured items *)
Section linked.
Context {I : Type} (stride : Z).

(** An item list as it lies in memory: slot, item, distance to the next. *)
Inductive linked : Z → list (Z * I * Z) → Prop :=
| linked_last c i : linked c [(c, i, 0)]
| linked_next c i n rest :
    8 ≤ n * stride → c + n * stride < 2 ^ 64 →
    linked (c + n * stride) rest → linked c ((c, i, n) :: rest).

Context (enc : I → Z → Z) (delta : Z → Z).
Definition encoded (items : list (Z * I * Z)) : list (Z * Z) :=
  (λ '(c, i, n), (c, enc i n)) <$> items.
Lemma in_encoded items c i n : (c, i, n) ∈ items → (c, enc i n) ∈ encoded items.
Proof. intros Hin. by apply (list_elem_of_fmap_2 (λ '(c, i, n), (c, enc i n))) in Hin. Qed.
Lemma encoded_in items c v : (c, v) ∈ encoded items → ∃ i n, (c, i, n) ∈ items ∧ v = enc i n.
Proof.
  intros Hin. apply list_elem_of_fmap_1 in Hin as ([[c' i] n] & [= -> ->] & Hin). eauto.
Qed.

Context (ok : I → Z → Prop).
Hypothesis enc_range : ∀ i n, ok i n → 0 ≤ enc i n < 2 ^ 64.
Hypothesis enc_delta : ∀ i n, ok i n → delta (enc i n) = n.

Lemma linked_chain c items :
  linked c items → (∀ c i n, (c, i, n) ∈ items → ok i n) →
  is_chain delta stride c (encoded items).
Proof.
  induction 1 as [c i|c i n rest Hn Hb Hl IH]; intros Hok.
  - assert (ok i 0) by (apply (Hok c); constructor). constructor; [auto|]. by rewrite enc_delta.
  - assert (ok i n) by (apply (Hok c); constructor).
    assert (Hrest : is_chain delta stride (c + n * stride) (encoded rest)).
    { apply IH. intros c' i' n' Hin. apply (Hok c'). by constructor. }
    cbn. constructor; rewrite ?enc_delta; auto.
Qed.

(** The walk replaces every item by its pointer. *)
Lemma walk_items (item : Z → Z → M memory (Z * Z)) (pointer : Z → I → Z) c items fuel m :
  linked c items → (∀ c i n, (c, i, n) ∈ items → ok i n) →
  (length items ≤ fuel)%nat → m_windows m = [] → holds (m_bytes m) (encoded items) →
  (∀ c i n m', (c, i, n) ∈ items → m_windows m' = [] →
     same_outside (encoded items) (m_bytes m) (m_bytes m') →
     item c (enc i n) m' = Ret ((pointer c i, n), m')) →
  wp (loop fuel (chain_body stride item) c) m (λ _ m', m_windows m' = [] ∧
    (∀ c i n, (c, i, n) ∈ items → word (m_bytes m') c (pointer c i)) ∧
    same_outside (encoded items) (m_bytes m) (m_bytes m')).
Proof using enc_delta enc_range.
  intros Hl Hok Hf Hw Hh Hi.
  set (f c v := match item c v m with Ret ((p, _), _) => p | _ => 0 end).
  assert (Hfp : ∀ c i n, (c, i, n) ∈ items → f c (enc i n) = pointer c i).
  { intros c' i n Hin. unfold f. by rewrite (Hi c' i n m Hin Hw). }
  wp_call (walk_chain delta stride item f (encoded items) c (encoded items)
    (linked_chain c items Hl Hok) fuel m); [|done|done|done| |].
  - unfold encoded. by rewrite length_fmap.
  - intros c' v m' Hin Hw' Hs. apply encoded_in in Hin as (i & n & Hin & ->).
    rewrite (Hi c' i n m' Hin Hw' Hs), (Hfp c' i n Hin), enc_delta; [done|]. by eapply Hok.
  - intros _ m' (Hw' & Hd & Hs). split_and!; [done| |done]. intros c' i n Hin.
    rewrite <- (Hfp c' i n Hin). apply Hd. by apply in_encoded.
Qed.
End linked.

(** ** Chained fixups *)
Lemma u64_s64 x d : u64 (x + s64 d) = (x + d) mod 2 ^ 64.
Proof.
  unfold s64, u64. destruct (d mod 2 ^ 64 <? 2 ^ 63); [apply Zplus_mod_idemp_r|].
  replace (x + (d mod 2 ^ 64 - 2 ^ 64)) with (x + d mod 2 ^ 64 + (-1) * 2 ^ 64) by lia.
  rewrite Z.mod_add by lia. apply Zplus_mod_idemp_r.
Qed.
Lemma sign_extend_ok a : - 2 ^ 18 ≤ a < 2 ^ 18 → frida_sign_extend_int19 (a mod 2 ^ 19) = a.
Proof.
  intros Ha. unfold frida_sign_extend_int19. cbn zeta.
  rewrite Z.shiftr_div_pow2 by lia. destruct (decide (a < 0)).
  - replace (a mod 2 ^ 19) with (a + 2 ^ 19) by (Z.div_mod_to_equations; lia).
    replace ((a + 2 ^ 19) / 2 ^ (19 - 1)) with 1 by (Z.div_mod_to_equations; lia).
    cbn [Z.eqb negb]. change 0xfffffffffff80000 with ((2 ^ 45 - 1) * 2 ^ 19).
    rewrite Z.lor_comm, lor_add_disjoint by lia. unfold s64, u64.
    rewrite Z.mod_small by lia. destruct (Z.ltb_spec ((2 ^ 45 - 1) * 2 ^ 19 + (a + 2 ^ 19)) (2 ^ 63)); lia.
  - rewrite (Z.mod_small a) by lia. rewrite (Z.div_small a) by lia. cbn [Z.eqb negb].
    unfold s64, u64. rewrite Z.mod_small by lia. destruct (Z.ltb_spec a (2 ^ 63)); lia.
Qed.

(** The resolved imports, where the walk looks them up. *)
Definition bound_at (b : gmap Z Z) (bp : Z) (bound : list Z) : Prop :=
  ∀ n, 0 ≤ n < zlen bound → word b (bp + 8 * n) (znth bound n) ∧ 0 ≤ znth bound n < 2 ^ 64.
Lemma peek_bound m bp bound n :
  m_windows m = [] → bound_at (m_bytes m) bp bound → 0 ≤ n < zlen bound → 0 ≤ bp →
  peek 8 (u64 (bp + 8 * n)) m = Ret (znth bound n, m).
Proof.
  intros Hw Hb Hn Hbp. destruct (Hb n Hn) as [(H0 & H1 & Hv) Hr]. rewrite u64_small by lia.
  by apply peek_word.
Qed.

Inductive generic64 :=
| GRebase (high8 target : Z)
| GBind (ordinal addend : Z).
Definition generic64_word (i : generic64) (next : Z) : Z :=
  match i with
  | GRebase high8 target => target + high8 * 2 ^ 36 + next * 2 ^ 51
  | GBind ordinal addend => ordinal + addend * 2 ^ 24 + next * 2 ^ 51 + 1 * 2 ^ 63
  end.
Definition generic64_ok (bound : list Z) (i : generic64) (next : Z) : Prop :=
  0 ≤ next < 2 ^ 12 ∧
  match i with
  | GRebase high8 target => 0 ≤ high8 < 2 ^ 8 ∧ 0 ≤ target < 2 ^ 36
  | GBind ordinal addend => 0 ≤ ordinal < 2 ^ 24 ∧ 0 ≤ addend < 2 ^ 8 ∧ ordinal < zlen bound
  end.
(** A rebase target is an offset from the image's base in the offset format,
    an address at its preferred base otherwise. *)
Definition generic64_pointer (format actual preferred : Z) (bound : list Z) (i : generic64) : Z :=
  match i with
  | GRebase high8 target =>
      (high8 * 2 ^ 56 + target +
       (if decide (format = FRIDA_CHAINED_PTR_64_OFFSET) then actual else actual - preferred))
      mod 2 ^ 64
  | GBind ordinal addend => (znth bound ordinal + addend) mod 2 ^ 64
  end.

Lemma generic64_range bound i next :
  generic64_ok bound i next → 0 ≤ generic64_word i next < 2 ^ 64.
Proof. intros [Hn Hi]. destruct i; cbn [generic64_word]; lia. Qed.
Lemma generic64_delta bound i next :
  generic64_ok bound i next → bits 51 12 (generic64_word i next) = next.
Proof. intros [Hn Hi]. destruct i; cbn [generic64_word]; fld. Qed.

Lemma generic64_item_ok format actual preferred bp bound i next m :
  generic64_ok bound i next → m_windows m = [] → bound_at (m_bytes m) bp bound → 0 ≤ bp →
  generic64_item format actual (s64 (actual - preferred)) bp (generic64_word i next) m =
  Ret ((generic64_pointer format actual preferred bound i, next), m).
Proof.
  intros Hok Hw Hb Hbp. pose proof (generic64_delta bound i next Hok) as Hd.
  destruct Hok as [Hn Hi]. unfold generic64_item. rewrite Hd. clear Hd. cbn zeta.
  destruct i as [high8 target|ordinal addend]; cbn [generic64_word generic64_pointer].
  - destruct Hi as [Hh Ht]. rewrite Z.shiftr_div_pow2 by lia.
    rewrite (Z.div_small _ (2 ^ 63)) by lia. rewrite Z.eqb_refl.
    assert (bits 36 8 (target + high8 * 2 ^ 36 + next * 2 ^ 51) = high8) as -> by fld.
    assert (bits 0 36 (target + high8 * 2 ^ 36 + next * 2 ^ 51) = target) as -> by fld.
    change (64 - 8) with 56. rewrite Z.shiftl_mul_pow2, (u64_small (high8 * _)) by lia.
    rewrite lor_add_disjoint by lia.
    rewrite u64_s64. unfold ret. case_decide as Hf.
    + subst format. rewrite Z.eqb_refl. unfold u64. by rewrite (Z.add_comm actual).
    + by rewrite (proj2 (Z.eqb_neq _ _) Hf).
  - destruct Hi as (Ho & Ha & Hl).
    replace (Z.shiftr (ordinal + addend * 2 ^ 24 + next * 2 ^ 51 + 1 * 2 ^ 63) 63) with 1
      by (symmetry; apply shiftr_field; lia). cbn [Z.eqb].
    assert (bits 0 24 (ordinal + addend * 2 ^ 24 + next * 2 ^ 51 + 1 * 2 ^ 63) = ordinal) as -> by fld.
    assert (bits 24 8 (ordinal + addend * 2 ^ 24 + next * 2 ^ 51 + 1 * 2 ^ 63) = addend) as -> by fld.
    unfold bind. by rewrite (peek_bound m bp bound ordinal Hw Hb) by lia.
Qed.

Section arm64e.
Context `{UploadApi}.

Inductive arm64e :=
| ARebase (high8 target : Z)
| ABind (ordinal addend : Z)
| AAuthRebase (target diversity key : Z) (addr_div : bool)
| AAuthBind (ordinal diversity key : Z) (addr_div : bool).
Definition arm64e_word (i : arm64e) (next : Z) : Z :=
  match i with
  | ARebase high8 target => target + high8 * 2 ^ 43 + next * 2 ^ 51
  | ABind ordinal addend => ordinal + (addend mod 2 ^ 19) * 2 ^ 32 + next * 2 ^ 51 + 1 * 2 ^ 62
  | AAuthRebase target diversity key addr_div =>
      target + diversity * 2 ^ 32 + Z.b2z addr_div * 2 ^ 48 + key * 2 ^ 49 + next * 2 ^ 51 +
      0 * 2 ^ 62 + 1 * 2 ^ 63
  | AAuthBind ordinal diversity key addr_div =>
      ordinal + diversity * 2 ^ 32 + Z.b2z addr_div * 2 ^ 48 + key * 2 ^ 49 + next * 2 ^ 51 +
      1 * 2 ^ 62 + 1 * 2 ^ 63
  end.
Definition ordinal_ok (format : Z) (bound : list Z) (ordinal : Z) : Prop :=
  0 ≤ ordinal < zlen bound ∧
  ordinal < (if decide (format = FRIDA_CHAINED_PTR_ARM64E_USERLAND24) then 2 ^ 24 else 2 ^ 16).
Definition arm64e_ok (format : Z) (bound : list Z) (i : arm64e) (next : Z) : Prop :=
  0 ≤ next < 2 ^ 11 ∧
  match i with
  | ARebase high8 target => 0 ≤ high8 < 2 ^ 8 ∧ 0 ≤ target < 2 ^ 43
  | ABind ordinal addend => ordinal_ok format bound ordinal ∧ - 2 ^ 18 ≤ addend < 2 ^ 18
  | AAuthRebase target diversity key _ =>
      0 ≤ target < 2 ^ 32 ∧ 0 ≤ diversity < 2 ^ 16 ∧ 0 ≤ key < 4
  | AAuthBind ordinal diversity key _ =>
      ordinal_ok format bound ordinal ∧ 0 ≤ diversity < 2 ^ 16 ∧ 0 ≤ key < 4
  end.
(** An authenticated target is an offset from where the image really is. *)
Definition arm64e_pointer (format actual preferred : Z) (bound : list Z) (slot : Z) (i : arm64e) : Z :=
  match i with
  | ARebase high8 target =>
      (high8 * 2 ^ 56 + target +
       (if decide (format = FRIDA_CHAINED_PTR_ARM64E) then actual - preferred else actual))
      mod 2 ^ 64
  | ABind ordinal addend => (znth bound ordinal + addend) mod 2 ^ 64
  | AAuthRebase target diversity key addr_div =>
      signed ((actual + target) mod 2 ^ 64) key diversity addr_div slot
  | AAuthBind ordinal diversity key addr_div =>
      signed (znth bound ordinal) key diversity addr_div slot
  end.

Lemma ordinal_bound format bound ordinal : ordinal_ok format bound ordinal → 0 ≤ ordinal < 2 ^ 24.
Proof. intros [Hz Ho]. case_decide; lia. Qed.
Lemma arm64e_range format bound i next :
  arm64e_ok format bound i next → 0 ≤ arm64e_word i next < 2 ^ 64.
Proof.
  intros [Hn Hi]. destruct i as [| ordinal addend | ? ? ? ad | ordinal ? ? ad]; cbn [arm64e_word].
  - lia.
  - destruct Hi as [Ho _]. apply ordinal_bound in Ho. pose proof (Z.mod_pos_bound addend (2 ^ 19)). lia.
  - destruct ad; cbn [Z.b2z]; lia.
  - destruct Hi as [Ho Hi]. apply ordinal_bound in Ho. destruct ad; cbn [Z.b2z]; lia.
Qed.
(** The fields shared by all kinds of items. *)
Lemma arm64e_common x n kind : 0 ≤ x < 2 ^ 51 → 0 ≤ n < 2 ^ 11 →
  bits 51 11 (x + n * 2 ^ 51 + kind * 2 ^ 62) = n ∧ Z.shiftr (x + n * 2 ^ 51 + kind * 2 ^ 62) 62 = kind.
Proof.
  intros Hx Hn. split; [|apply shiftr_field; lia].
  replace (kind * 2 ^ 62) with (kind * 2 ^ (51 + 11)) by lia. apply bits_field; lia.
Qed.
Definition arm64e_low (i : arm64e) : Z :=
  match i with
  | ARebase high8 target => target + high8 * 2 ^ 43
  | ABind ordinal addend => ordinal + (addend mod 2 ^ 19) * 2 ^ 32
  | AAuthRebase x diversity key addr_div | AAuthBind x diversity key addr_div =>
      x + diversity * 2 ^ 32 + Z.b2z addr_div * 2 ^ 48 + key * 2 ^ 49
  end.
Definition arm64e_kind (i : arm64e) : Z :=
  match i with ARebase _ _ => 0 | ABind _ _ => 1 | AAuthRebase _ _ _ _ => 2 | AAuthBind _ _ _ _ => 3 end.
Lemma arm64e_word_split i next :
  arm64e_word i next = arm64e_low i + next * 2 ^ 51 + arm64e_kind i * 2 ^ 62.
Proof. destruct i; cbn [arm64e_word arm64e_low arm64e_kind]; lia. Qed.
Lemma arm64e_low_range format bound i next :
  arm64e_ok format bound i next → 0 ≤ arm64e_low i < 2 ^ 51.
Proof.
  intros [Hn Hi]. destruct i as [| ordinal addend | ? ? ? ad | ordinal ? ? ad]; cbn [arm64e_low].
  - lia.
  - destruct Hi as [Ho _]. apply ordinal_bound in Ho. pose proof (Z.mod_pos_bound addend (2 ^ 19)). lia.
  - destruct ad; cbn [Z.b2z]; lia.
  - destruct Hi as [Ho Hi]. apply ordinal_bound in Ho. destruct ad; cbn [Z.b2z]; lia.
Qed.
Lemma arm64e_delta format bound i next :
  arm64e_ok format bound i next → bits 51 11 (arm64e_word i next) = next.
Proof.
  intros Hok. rewrite arm64e_word_split. pose proof (arm64e_low_range _ _ _ _ Hok) as Hl.
  exact (proj1 (arm64e_common (arm64e_low i) next (arm64e_kind i) Hl (proj1 Hok))).
Qed.
Lemma arm64e_ordinal_ok format bound ordinal high :
  ordinal_ok format bound ordinal → arm64e_ordinal format (ordinal + high * 2 ^ 32) = ordinal.
Proof.
  intros Ho. pose proof (ordinal_bound _ _ _ Ho). destruct Ho as [_ Ho]. unfold arm64e_ordinal.
  destruct (Z.eqb_spec format FRIDA_CHAINED_PTR_ARM64E_USERLAND24);
    rewrite bits_div, Z.pow_0_r, Z.div_1_r by lia.
  - replace (high * 2 ^ 32) with (high * 2 ^ 8 * 2 ^ 24) by lia.
    rewrite Z.mod_add by lia. apply Z.mod_small. lia.
  - rewrite decide_False in Ho by done.
    replace (high * 2 ^ 32) with (high * 2 ^ 16 * 2 ^ 16) by lia.
    rewrite Z.mod_add by lia. apply Z.mod_small. lia.
Qed.

Lemma arm64e_item_ok format actual preferred bp bound slot i next m :
  arm64e_ok format bound i next → m_windows m = [] → bound_at (m_bytes m) bp bound → 0 ≤ bp →
  arm64e_item format actual preferred (s64 (actual - preferred)) bp slot (arm64e_word i next) m =
  Ret ((arm64e_pointer format actual preferred bound slot i, next), m).
Proof.
  intros Hok Hw Hb Hbp. pose proof (arm64e_delta _ _ _ _ Hok) as Hd. unfold arm64e_item. cbn zeta.
  rewrite Hd. clear Hd.
  assert (Z.shiftr (arm64e_word i next) 62 = arm64e_kind i) as ->.
  { rewrite arm64e_word_split. pose proof (arm64e_low_range _ _ _ _ Hok) as Hl.
    exact (proj2 (arm64e_common (arm64e_low i) next (arm64e_kind i) Hl (proj1 Hok))). }
  destruct Hok as [Hn Hi].
  destruct i as [high8 target|ordinal addend|target diversity key ad|ordinal diversity key ad];
    cbn [arm64e_kind arm64e_pointer Z.eqb Pos.eqb].
  - cbn [arm64e_word]. destruct Hi as [Hh Ht].
    assert (bits 43 8 (target + high8 * 2 ^ 43 + next * 2 ^ 51) = high8) as -> by fld.
    assert (bits 0 43 (target + high8 * 2 ^ 43 + next * 2 ^ 51) = target) as -> by fld.
    change (64 - 8) with 56. rewrite Z.shiftl_mul_pow2, (u64_small (high8 * _)) by lia.
    rewrite lor_add_disjoint, u64_s64 by lia. unfold ret. case_decide as Hf.
    + subst format. by rewrite Z.eqb_refl.
    + rewrite (proj2 (Z.eqb_neq _ _) Hf). unfold u64. by rewrite (Z.add_comm actual).
  - destruct Hi as [Ho Ha]. cbn [arm64e_word]. pose proof (Z.mod_pos_bound addend (2 ^ 19)) as Hm.
    pose proof (ordinal_bound _ _ _ Ho).
    assert (bits 32 19 (ordinal + (addend mod 2 ^ 19) * 2 ^ 32 + next * 2 ^ 51 + 1 * 2 ^ 62) =
      addend mod 2 ^ 19) as -> by fld.
    replace (ordinal + (addend mod 2 ^ 19) * 2 ^ 32 + next * 2 ^ 51 + 1 * 2 ^ 62)
      with (ordinal + (addend mod 2 ^ 19 + next * 2 ^ 19 + 2 ^ 30) * 2 ^ 32) by lia.
    rewrite (arm64e_ordinal_ok _ _ _ _ Ho), sign_extend_ok by done. unfold bind.
    by rewrite (peek_bound m bp bound ordinal Hw Hb) by (destruct Ho; lia).
  - destruct Hi as (Ht & Hdi & Hk). cbn [arm64e_word].
    destruct (auth_fields target diversity key ad next 0 Ht Hdi Hk Hn ltac:(lia))
      as (_ & _ & _ & E4 & E5 & E6 & E7). rewrite E4, E5, E6, E7. rewrite u64_s64.
    replace (preferred + target + (actual - preferred)) with (actual + target) by lia.
    rewrite sign_pointer_ok by done. by destruct ad.
  - destruct Hi as (Ho & Hdi & Hk). pose proof (ordinal_bound _ _ _ Ho). cbn [arm64e_word].
    destruct (auth_fields ordinal diversity key ad next 1 ltac:(lia) Hdi Hk Hn ltac:(lia))
      as (_ & _ & _ & E4 & E5 & E6 & _). rewrite E4, E5, E6.
    replace (ordinal + diversity * 2 ^ 32 + Z.b2z ad * 2 ^ 48 + key * 2 ^ 49 + next * 2 ^ 51 +
      1 * 2 ^ 62 + 1 * 2 ^ 63) with (ordinal + (diversity + Z.b2z ad * 2 ^ 16 + key * 2 ^ 17 +
      next * 2 ^ 19 + 2 ^ 30 + 2 ^ 31) * 2 ^ 32) by lia.
    rewrite (arm64e_ordinal_ok _ _ _ _ Ho). unfold bind.
    rewrite (peek_bound m bp bound ordinal Hw Hb) by (destruct Ho; lia).
    rewrite sign_pointer_ok by done. by destruct ad.
Qed.
End arm64e.
