(* ===== verification/FixupsClaims.v ===== *)
(** What relocation guarantees: every item of a threaded region or of a fixup
    chain becomes the pointer it stands for, and nothing else changes. *)
From S2P Require Import Prelude ElfParser Fixups FixupsCorrect.

Lemma loop_ext {S A R} (body body' : A → M S (A + R)) fuel :
  (∀ a s, body a s = body' a s) → ∀ a s, loop fuel body a s = loop fuel body' a s.
Proof.
  intros Hb. induction fuel as [|fuel IH]; intros a s; [done|]. cbn [loop]. unfold bind.
  rewrite Hb. destruct (body' a s) as [[[a'|v] s']| | |]; auto.
Qed.
Lemma wp_eq {S A} (m m' : M S A) s Q : m s = m' s → wp m' s Q → wp m s Q.
Proof. intros E (a & s' & E' & HQ). exists a, s'. by rewrite E. Qed.

(** ** Threaded regions *)
Section threaded.
Context `{UploadApi}.
Context (base slide : Z) (symbols : list Z).

Definition item_ok (i : threaded) (next : Z) : Prop := threaded_ok symbols i ∧ 0 ≤ next < 2 ^ 11.
Definition slots_of (regions : list (Z * list (Z * threaded * Z))) : list (Z * Z) :=
  concat ((λ r, encoded threaded_word r.2) <$> regions).

(** Regions as the linker lays them out: chains of items in memory, no two of
    which share a byte. *)
Inductive regions_in (b : gmap Z Z) (fuel : nat) : list (Z * list (Z * threaded * Z)) → Prop :=
| regions_nil : regions_in b fuel []
| regions_cons c items rest :
    linked 8 c items → (∀ c i n, (c, i, n) ∈ items → item_ok i n) → (length items ≤ fuel)%nat →
    holds b (encoded threaded_word items) →
    (∀ c v x, (c, v) ∈ slots_of rest → c ≤ x < c + 8 → outside (encoded threaded_word items) x) →
    regions_in b fuel rest → regions_in b fuel ((c, items) :: rest).

Lemma item_range i n : item_ok i n → 0 ≤ threaded_word i n < 2 ^ 64.
Proof.
  intros [Hi Hn]. destruct i as [high8 target| |? ? ? ad|? ? ? ad]; cbn [threaded_word threaded_ok] in *.
  - pose proof (Z.mod_pos_bound target (2 ^ 43)). lia.
  - lia.
  - destruct ad; cbn [Z.b2z]; lia.
  - destruct ad; cbn [Z.b2z]; lia.
Qed.
Lemma item_delta i n : item_ok i n → bits 51 11 (threaded_word i n) = n.
Proof.
  intros [Hi Hn].
  destruct i as [high8 target| |target d k ad|ordinal d k ad]; cbn [threaded_word threaded_ok] in *.
  - pose proof (Z.mod_pos_bound target (2 ^ 43)). fld.
  - fld.
  - destruct Hi as (Ht & Hd & Hk). pose proof (auth_fields target d k ad n 0 Ht Hd Hk Hn) as E.
    destruct E as (_ & _ & E & _); [lia|]. by rewrite Z.mul_0_l, Z.add_0_r in E.
  - destruct Hi as (Ho & _ & Hd & Hk).
    destruct (auth_fields ordinal d k ad n 1 ltac:(lia) Hd Hk Hn ltac:(lia)) as (_ & _ & E & _).
    exact E.
Qed.

Lemma wp_apply_region fuel c items m :
  linked 8 c items → (∀ c i n, (c, i, n) ∈ items → item_ok i n) → (length items ≤ fuel)%nat →
  m_windows m = [] → holds (m_bytes m) (encoded threaded_word items) →
  wp (apply_region fuel base slide symbols c) m (λ _ m', m_windows m' = [] ∧
    (∀ c i n, (c, i, n) ∈ items → word (m_bytes m') c (threaded_pointer base slide symbols c i)) ∧
    same_outside (encoded threaded_word items) (m_bytes m) (m_bytes m')).
Proof.
  intros Hl Hok Hf Hw Hh.
  set (item c v := match threaded_item base slide symbols c v with
                   | None => crash | Some p => ret p end : M memory (Z * Z)).
  apply (wp_eq _ (loop fuel (chain_body 8 item) c)).
  { apply loop_ext. intros a s. unfold chain_body, item, bind at 1 3.
    destruct (peek 8 a s) as [[v s']| | |]; try done. unfold bind at 2.
    destruct (threaded_item base slide symbols a v) as [[p d]|]; done. }
  apply (walk_items 8 threaded_word (bits 51 11) item_ok item_range item_delta); try done.
  intros c' i n m' Hin _ _. unfold item. destruct (Hok _ _ _ Hin) as [Hi Hn].
  by rewrite (threaded_item_ok base slide symbols c' i n Hi Hn).
Qed.

Lemma slots_cons c items rest :
  slots_of ((c, items) :: rest) = encoded threaded_word items ++ slots_of rest.
Proof. done. Qed.
Lemma regions_in_same b b' fuel regions :
  regions_in b fuel regions →
  (∀ c v x, (c, v) ∈ slots_of regions → c ≤ x < c + 8 → b' !! x = b !! x) →
  regions_in b' fuel regions.
Proof.
  induction 1 as [|c items rest Hl Hok Hf Hh Hd Hr IH]; intros Hs; [constructor|].
  rewrite slots_cons in Hs. constructor; try done.
  - intros c' v Hin. apply (word_same b); [auto|]. intros x Hx. apply (Hs c' v); [|done].
    apply elem_of_app. by left.
  - apply IH. intros c' v x Hin. apply (Hs c' v). apply elem_of_app. by right.
Qed.

Lemma wp_apply_regions fuel regions : ∀ m,
  regions_in (m_bytes m) fuel regions → m_windows m = [] →
  wp (frida_apply_threaded_items fuel base slide symbols regions.*1) m (λ _ m', m_windows m' = [] ∧
    (∀ r c i n, r ∈ regions → (c, i, n) ∈ r.2 →
       word (m_bytes m') c (threaded_pointer base slide symbols c i)) ∧
    same_outside (slots_of regions) (m_bytes m) (m_bytes m')).
Proof.
  induction regions as [|[c items] rest IH]; intros m Hr Hw.
  { apply wp_ret. split_and!; [done| |by intros x _]. intros r c i n Hin. by apply not_elem_of_nil in Hin. }
  inversion Hr as [|? ? ? Hl Hok Hf Hh Hd Hrest]; subst. cbn [fmap list_fmap fst]. apply wp_bind.
  wp_call (wp_apply_region fuel c items m); try done. intros _ m1 (Hw1 & Hi1 & Hs1).
  wp_call (IH m1); [|done|].
  { apply (regions_in_same (m_bytes m)); [done|]. intros c' v x Hin Hx. apply Hs1. by apply (Hd c' v). }
  intros _ m2 (Hw2 & Hi2 & Hs2). split_and!; [done| |].
  - intros r c' i n Hin Hit. apply elem_of_cons in Hin as [->|Hin]; [|by eapply Hi2].
    apply (word_same (m_bytes m1)); [by eapply Hi1|]. intros x Hx. apply Hs2.
    intros c'' v Hv. destruct (decide (c'' ≤ x < c'' + 8)) as [Hin''|]; [|lia]. exfalso.
    destruct (Hd c'' v x Hv Hin'' c' (threaded_word i n)); [by apply in_encoded|lia|lia].
  - intros x Hx. rewrite slots_cons in Hx. rewrite Hs2, Hs1; [done| |];
      intros c' v Hin; apply (Hx c' v), elem_of_app; auto.
Qed.
End threaded.

(** ** An image to relocate *)
#[export] Instance demo_api : UploadApi := {
  ptrauth_sign key p d := Z.lxor p ((4 * d + key) mod 2 ^ 16 * 2 ^ 48);
  ptrauth_blend a d := (a + d * 2 ^ 48) mod 2 ^ 64;
  ptrauth_strip p := p mod 2 ^ 47;
  api_dlopen name := zlen name;
  api_dlsym handle name := 0x10000 * handle + zlen name;
  api_slab := Some 0x100000
}.
(** Words at the given addresses. *)
Definition memory_of (words : list (Z * Z)) : memory :=
  mk_memory (foldr (λ '(a, v), put_list a (le_bytes 8 v)) ∅ words) [].

Definition word_check (b : gmap Z Z) (a v : Z) : bool :=
  (0 <=? a) && (a + 8 <=? 2 ^ 64) &&
  forallb (λ i, bool_decide (b !! (a + Z.of_nat i) = le_bytes 8 v !! i)) (seq 0 8).
Lemma word_check_ok b a v : word_check b a v = true → word b a v.
Proof.
  unfold word_check. rewrite !andb_true_iff, forallb_forall. intros [[Ha Hb] Hf].
  split_and!; [lia|lia|]. intros i Hi. specialize (Hf (Z.to_nat i)).
  rewrite bool_decide_eq_true, Z2Nat.id in Hf by lia. apply Hf. apply in_seq. lia.
Qed.
Lemma holds_check b items :
  forallb (λ p, word_check b p.1 p.2) items = true → holds b items.
Proof.
  rewrite forallb_forall. intros Hf c v Hin. apply word_check_ok, (Hf (c, v)).
  by apply list_elem_of_In.
Qed.
(** A property of every element of a given list. *)
Ltac each_item H := repeat (apply elem_of_cons in H as [[= -> -> ->]|H]); [..|by apply not_elem_of_nil in H].
Ltac each_slot H := repeat (apply elem_of_cons in H as [[= -> ->]|H]); [..|by apply not_elem_of_nil in H].

(** C22: threaded items are applied.  For regions of chained items in memory,
    [frida_apply_threaded_items] finishes, every slot holds the pointer its item
    stands for (a rebased address slid, a bound symbol, either one signed when
    it is authenticated), and every other byte is unchanged. *)
Theorem threaded_items_applied `{UploadApi} fuel base slide symbols regions m :
  regions_in symbols (m_bytes m) fuel regions → m_windows m = [] →
  wp (frida_apply_threaded_items fuel base slide symbols regions.*1) m (λ _ m',
    (∀ r c i n, r ∈ regions → (c, i, n) ∈ r.2 →
       word (m_bytes m') c (threaded_pointer base slide symbols c i)) ∧
    ∀ x, outside (slots_of regions) x → m_bytes m' !! x = m_bytes m !! x).
Proof. intros Hr Hw. wp_call wp_apply_regions; [done|done|]. intros _ m' (_ & Hi & Hs). by split. Qed.

(** A rebase item and an authenticated bind item two words further. *)
Definition demo_region : list (Z * threaded * Z) :=
  [(0x1000, TRebase 1 (-8), 2); (0x1010, TAuthBind 0 7 1 true, 0)].
Definition demo_threaded : memory := memory_of (encoded threaded_word demo_region).
Lemma threaded_items_applied_witness :
  wp (frida_apply_threaded_items 2 0x4000 0x100 [0x5000] [0x1000]) demo_threaded (λ _ m',
    (∀ r c i n, r ∈ [(0x1000, demo_region)] → (c, i, n) ∈ r.2 →
       word (m_bytes m') c (threaded_pointer 0x4000 0x100 [0x5000] c i)) ∧
    ∀ x, outside (slots_of [(0x1000, demo_region)]) x → m_bytes m' !! x = m_bytes demo_threaded !! x).
Proof.
  apply (threaded_items_applied 2 0x4000 0x100 [0x5000] [(0x1000, demo_region)] demo_threaded);
    [|reflexivity].
  constructor; [| |vm_compute; lia| | |constructor].
  - apply linked_next; [lia|lia|]. apply linked_last.
  - intros c i n Hin. each_item Hin; (split; [|lia]); vm_compute; repeat split; discriminate || reflexivity.
  - apply holds_check. vm_compute. reflexivity.
  - intros c v x Hin. by apply not_elem_of_nil in Hin.
Defined.

(** ** Chained fixups *)

(** Import pointers that no slot touches stay put while a chain is walked. *)
Lemma bound_same b b' bp bound slots :
  bound_at b bp bound → same_outside slots b b' →
  (∀ x, bp ≤ x < bp + 8 * zlen bound → outside slots x) → bound_at b' bp bound.
Proof.
  intros Hb Hs Ho n Hn. destruct (Hb n Hn) as [Hw Hr]. split; [|done].
  apply (word_same b); [done|]. intros x Hx. apply Hs, Ho. lia.
Qed.

(** a chain in the generic 64-bit formats is applied.  Walking it finishes,
    every slot of the chain holds its rebased target or its import plus the
    addend, and every other byte is unchanged. *)
Theorem generic64_chain_applied fuel format actual preferred bp bound c items m :
  linked 4 c items → (∀ c i n, (c, i, n) ∈ items → generic64_ok bound i n) →
  (length items ≤ fuel)%nat → m_windows m = [] →
  holds (m_bytes m) (encoded generic64_word items) →
  0 ≤ bp → bound_at (m_bytes m) bp bound →
  (∀ x, bp ≤ x < bp + 8 * zlen bound → outside (encoded generic64_word items) x) →
  wp (frida_process_chained_fixups_in_segment_generic64 fuel c format actual preferred bp) m (λ _ m',
    (∀ c i n, (c, i, n) ∈ items →
       word (m_bytes m') c (generic64_pointer format actual preferred bound i)) ∧
    ∀ x, outside (encoded generic64_word items) x → m_bytes m' !! x = m_bytes m !! x).
Proof.
  intros Hl Hok Hf Hw Hh Hbp Hb Ho.
  wp_call (walk_items 4 generic64_word (bits 51 12) (generic64_ok bound)
    (generic64_range bound) (generic64_delta bound)
    (λ _, generic64_item format actual (s64 (actual - preferred)) bp)
    (λ _, generic64_pointer format actual preferred bound)); try done.
  - intros c' i n m' Hin Hw' Hs. apply (generic64_item_ok _ _ _ _ bound); auto.
    + by eapply Hok.
    + by eapply bound_same.
  - intros _ m' (_ & Hi & Hs). by split.
Qed.

Definition demo_bound : list Z := [0x7000; 0x8000].
Definition demo_generic : list (Z * generic64 * Z) :=
  [(0x1000, GRebase 0 0x1234, 3); (0x100c, GBind 1 5, 0)].
Definition demo_generic_memory : memory :=
  memory_of (encoded generic64_word demo_generic ++ [(0x9000, 0x7000); (0x9008, 0x8000)]).
Lemma demo_bound_at (m : memory) :
  word_check (m_bytes m) 0x9000 0x7000 && word_check (m_bytes m) 0x9008 0x8000 = true →
  bound_at (m_bytes m) 0x9000 demo_bound.
Proof.
  rewrite andb_true_iff. intros [H0 H1] n Hn. change (zlen demo_bound) with 2 in Hn.
  assert (n = 0 ∨ n = 1) as [->| ->] by lia.
  - split; [exact (word_check_ok _ _ _ H0)|vm_compute; split; discriminate || reflexivity].
  - split; [exact (word_check_ok _ _ _ H1)|vm_compute; split; discriminate || reflexivity].
Qed.
Lemma generic64_chain_applied_witness :
  wp (frida_process_chained_fixups_in_segment_generic64 2 0x1000 FRIDA_CHAINED_PTR_64_OFFSET
        0x40000000 0 0x9000) demo_generic_memory (λ _ m',
    (∀ c i n, (c, i, n) ∈ demo_generic →
       word (m_bytes m') c
         (generic64_pointer FRIDA_CHAINED_PTR_64_OFFSET 0x40000000 0 demo_bound i)) ∧
    ∀ x, outside (encoded generic64_word demo_generic) x →
      m_bytes m' !! x = m_bytes demo_generic_memory !! x).
Proof.
  apply (generic64_chain_applied 2 FRIDA_CHAINED_PTR_64_OFFSET 0x40000000 0 0x9000 demo_bound).
  - apply linked_next; [lia|lia|]. apply linked_last.
  - intros c i n Hin. each_item Hin; vm_compute; repeat split; discriminate || reflexivity.
  - vm_compute. lia.
  - reflexivity.
  - apply holds_check. vm_compute. reflexivity.
  - lia.
  - apply demo_bound_at. vm_compute. reflexivity.
  - intros x Hx c v Hin. change (zlen demo_bound) with 2 in Hx. each_slot Hin; lia.
Defined.

(** C23: a chain in the arm64e formats is applied.  Walking it finishes, every
    slot of the chain holds its rebased target or its import plus the signed
    addend, signed with the key and diversity of an authenticated item, and
    every other byte is unchanged. *)
Theorem arm64e_chain_applied `{UploadApi} fuel format actual preferred bp bound c items m :
  linked 8 c items → (∀ c i n, (c, i, n) ∈ items → arm64e_ok format bound i n) →
  (length items ≤ fuel)%nat → m_windows m = [] →
  holds (m_bytes m) (encoded arm64e_word items) →
  0 ≤ bp → bound_at (m_bytes m) bp bound →
  (∀ x, bp ≤ x < bp + 8 * zlen bound → outside (encoded arm64e_word items) x) →
  wp (frida_process_chained_fixups_in_segment_arm64e fuel c format actual preferred bp) m (λ _ m',
    (∀ c i n, (c, i, n) ∈ items →
       word (m_bytes m') c (arm64e_pointer format actual preferred bound c i)) ∧
    ∀ x, outside (encoded arm64e_word items) x → m_bytes m' !! x = m_bytes m !! x).
Proof.
  intros Hl Hok Hf Hw Hh Hbp Hb Ho.
  wp_call (walk_items 8 arm64e_word (bits 51 11) (arm64e_ok format bound)
    (arm64e_range format bound) (arm64e_delta format bound)
    (arm64e_item format actual preferred (s64 (actual - preferred)) bp)
    (arm64e_pointer format actual preferred bound)); try done.
  - intros c' i n m' Hin Hw' Hs. apply arm64e_item_ok; auto.
    + by eapply Hok.
    + by eapply bound_same.
  - intros _ m' (_ & Hi & Hs). by split.
Qed.

Definition demo_arm64e : list (Z * arm64e * Z) :=
  [(0x1000, ABind 1 (-4), 1); (0x1008, AAuthRebase 0x1234 7 2 true, 2);
   (0x1018, AAuthBind 0 9 0 false, 0)].
Definition demo_arm64e_memory : memory :=
  memory_of (encoded arm64e_word demo_arm64e ++ [(0x9000, 0x7000); (0x9008, 0x8000)]).
Lemma arm64e_chain_applied_witness :
  wp (frida_process_chained_fixups_in_segment_arm64e 3 0x1000 FRIDA_CHAINED_PTR_ARM64E_USERLAND24
        0x40000000 0x10000 0x9000) demo_arm64e_memory (λ _ m',
    (∀ c i n, (c, i, n) ∈ demo_arm64e →
       word (m_bytes m') c (arm64e_pointer FRIDA_CHAINED_PTR_ARM64E_USERLAND24 0x40000000 0x10000
                              demo_bound c i)) ∧
    ∀ x, outside (encoded arm64e_word demo_arm64e) x →
      m_bytes m' !! x = m_bytes demo_arm64e_memory !! x).
Proof.
  apply (arm64e_chain_applied 3 FRIDA_CHAINED_PTR_ARM64E_USERLAND24 0x40000000 0x10000 0x9000
    demo_bound).
  - apply linked_next; [lia|lia|]. apply linked_next; [lia|lia|]. apply linked_last.
  - intros c i n Hin. each_item Hin; vm_compute; repeat split; discriminate || reflexivity.
  - vm_compute. lia.
  - reflexivity.
  - apply holds_check. vm_compute. reflexivity.
  - lia.
  - apply demo_bound_at. vm_compute. reflexivity.
  - intros x Hx c v Hin. change (zlen demo_bound) with 2 in Hx. each_slot Hin; lia.
Defined.

(** the special library ordinals of dyld are not recognised.  They are
    negative numbers in an 8-bit field (flat lookup is -2, stored as 254), but
    the field is read as unsigned: the test for ordinals up to 0 does not catch
    them, and the symbol is looked up in whatever lies in the 254th handle. *)
Theorem special_ordinal_not_rejected `{UploadApi} fuel imports i handles strings name handle w m m' :
  peek 4 (u64 (imports + 4 * i)) m = Ret (w, m) → w mod 2 ^ 8 = (-2) mod 2 ^ 8 →
  peek_string fuel (u64 (strings + bits 9 23 w)) m = Ret (name, m) →
  peek 8 (u64 (handles + 8 * 253)) m = Ret (handle, m') →
  (let! e := import_at FRIDA_CHAINED_IMPORT imports i in
   frida_resolve_import fuel handles e.1.1 strings e.1.2) m =
  Ret (ptrauth_strip (api_dlsym handle (frida_symbol_name_from_darwin name)), m').
Proof.
  intros Hw Ho Hn Hh. unfold import_at. rewrite Z.eqb_refl. unfold bind at 1 2. rewrite Hw.
  unfold ret at 1. cbn [fst snd].
  assert (bits 0 8 w = 254) as ->.
  { rewrite bits_div by lia. rewrite Z.pow_0_r, Z.div_1_r. done. }
  unfold frida_resolve_import. cbn [Z.leb Z.compare]. unfold bind at 1. rewrite Hn.
  unfold bind at 1. change (254 - 1) with 253. by rewrite Hh.
Qed.

(** An import of [_x] that asks for a flat lookup. *)
Definition flat_import : memory :=
  memory_of [(0x1000, 254); (0x2000, 0x785f); (0x3000 + 8 * 253, 0xdead)].
Lemma special_ordinal_not_rejected_witness :
  (let! e := import_at FRIDA_CHAINED_IMPORT 0x1000 0 in
   frida_resolve_import 4 0x3000 e.1.1 0x2000 e.1.2) flat_import =
  Ret (ptrauth_strip (api_dlsym 0xdead (bytes_of "x")), flat_import).
Proof.
  apply (special_ordinal_not_rejected 4 0x1000 0 0x3000 0x2000 (bytes_of "_x") 0xdead 254
    flat_import flat_import); vm_compute; reflexivity.
Defined.
