(* ===== verification/Upload.v ===== *)
(** The upload receiver (src/src/fruity/helpers/upload-receiver.c): it accepts
    the client that knows the session id and executes its commands, which write
    memory, apply fixups, change protections and run constructors. *)
From S2P Require Import Prelude Posix ElfParser Fixups.

Definition FRIDA_UPLOAD_COMMAND_WRITE : Z := 1.
Definition FRIDA_UPLOAD_COMMAND_APPLY_THREADED : Z := 2.
Definition FRIDA_UPLOAD_COMMAND_PROCESS_FIXUPS : Z := 3.
Definition FRIDA_UPLOAD_COMMAND_PROTECT : Z := 4.
Definition FRIDA_UPLOAD_COMMAND_CONSTRUCT_FROM_POINTERS : Z := 5.
Definition FRIDA_UPLOAD_COMMAND_CONSTRUCT_FROM_OFFSETS : Z := 6.
Definition FRIDA_UPLOAD_COMMAND_CHECK : Z := 7.
Definition ACK_MAGIC : Z := 0xac4ac4ac.
Definition VM_PROT_READ_WRITE : Z := 3.

(** What a run does besides changing memory. *)
Inductive upload_event :=
| Flushed (address size : Z)
| Protected (address size prot : Z)
| Constructed (function : Z)
| FdClosed (fd : Z).

(** The rest of the operating system: connections, virtual memory, and the
    image's constructors, which get and set the result. *)
Class UploadKernel (K : Type) `{Kernel K} := {
  u_accept : Z → K → sysret Z * K;
  u_page_size : Z;
  (** Where a window of the given size on an address was put. *)
  u_remap : Z → Z → memory → K → option Z * K;
  u_mprotect : Z → Z → Z → memory → K → bool * K;
  u_constructor : Z → Z → memory → Z * memory
}.

(** The image that is being put together: memory, the constructors' result, and
    what was done to it. *)
Record image := mk_image { im_mem : memory; im_result : Z; im_trace : list upload_event }.
Record upload (K : Type) := mk_upload { up_proc : proc K; up_image : image }.
Arguments mk_upload {K} _ _.
Arguments up_proc {K} _.
Arguments up_image {K} _.

(** vm_remap without an offset in the answer: the window is on the pages of
    the source range. *)
Definition trunc_page (page a : Z) : Z := a / page * page.
Definition round_page (page a : Z) : Z := (a + page - 1) / page * page.
Definition remap_window (page start source size : Z) : window :=
  mk_window start (round_page page (source + size) - trunc_page page source)
    (trunc_page page source).
(** mach_vm_deallocate of [size] bytes from the start of a window. *)
Definition shrink_window (page start size : Z) (w : window) : option window :=
  if w_start w =? start then
    let d := round_page page size in
    if w_size w <=? d then None
    else Some (mk_window (w_start w + d) (w_size w - d) (w_source w + d))
  else Some w.

Section upload.
Context {K : Type} `{UploadKernel K} `{UploadApi}.

Definition with_proc {A} (m : M (proc K) A) : M (upload K) A := λ s,
  match m (up_proc s) with
  | Ret (a, p) => Ret (a, mk_upload p (up_image s))
  | Failed => Failed
  | Crash => Crash
  | Stuck => Stuck
  end.
Definition on_image {A} (m : M image A) : M (upload K) A := λ s,
  match m (up_image s) with
  | Ret (a, im) => Ret (a, mk_upload (up_proc s) im)
  | Failed => Failed
  | Crash => Crash
  | Stuck => Stuck
  end.
Definition in_memory {A} (m : M memory A) : M image A := λ im,
  match m (im_mem im) with
  | Ret (a, mem) => Ret (a, mk_image mem (im_result im) (im_trace im))
  | Failed => Failed
  | Crash => Crash
  | Stuck => Stuck
  end.
Definition log (e : upload_event) : M image unit :=
  modify (λ im, mk_image (im_mem im) (im_result im) (im_trace im ++ [e])).
(** Bytes that arrive in memory. *)
Definition put_bytes (a : Z) (bs : list Z) : M memory unit := λ m,
  match set_bytes a bs m with Some m' => Ret (tt, m') | None => Crash end.
Definition add_window (w : window) : M memory unit :=
  modify (λ m, mk_memory (m_bytes m) (w :: m_windows m)).

(** A question to the virtual memory system. *)
Definition ask_vm {A} (c : memory → K → A * K) : M (upload K) A := λ s,
  let '(r, k) := c (im_mem (up_image s)) (p_kern (up_proc s)) in
  Ret (r, mk_upload (mk_proc k (p_errno (up_proc s))) (up_image s)).

(** [sink] is where the bytes go, given their offset in the buffer; the result
    holds the bytes read so far. *)
Definition frida_read_chunk (fuel : nat) (fd length : Z) (sink : Z → list Z → M (upload K) unit)
    : M (upload K) (bool * list Z) :=
  loop fuel (λ buffer,
    if zlen buffer =? length then ret (inr (true, buffer))
    else
      let! n := with_proc (nointr fuel (k_read fd (length - zlen buffer))) in
      match n with
      | None | Some [] => ret (inr (false, buffer))
      | Some bs =>
          do! sink (zlen buffer) bs in
          ret (inl (buffer ++ bs))
      end) [].
Definition frida_write_chunk (fuel : nat) (fd : Z) (buffer : list Z) : M (upload K) bool :=
  loop fuel (λ cursor,
    if cursor =? zlen buffer then ret (inr true)
    else
      let! n := with_proc (nointr fuel (k_write fd (zdrop cursor buffer))) in
      match n with
      | None => ret (inr false)
      | Some n => if n <=? 0 then ret (inr false) else ret (inl (cursor + n))
      end) 0.

(** FRIDA_READ_VALUE and FRIDA_WRITE_VALUE. *)
Definition local_variable : Z → list Z → M (upload K) unit := λ _ _, ret tt.
Definition read_value (fuel : nat) (fd size : Z) : M (upload K) (option Z) :=
  let! r := frida_read_chunk fuel fd size local_variable in
  ret (if r.1 : bool then Some (le_value r.2) else None).
Definition read_values (fuel : nat) (fd count : Z) : M (upload K) (option (list Z)) :=
  let! r := frida_read_chunk fuel fd (count * 8) local_variable in
  ret (if r.1 : bool
       then Some ((λ i, le_value (zslice (8 * Z.of_nat i) (8 * Z.of_nat i + 8) r.2)) <$>
                  seq 0 (Z.to_nat count))
       else None).
Definition write_ack (fuel : nat) (fd : Z) : M (upload K) bool :=
  frida_write_chunk fuel fd (le_bytes 4 ACK_MAGIC).
(** Go on with a value that was read; a failure ends the conversation. *)
Definition with_value {A} (m : M (upload K) (option A)) (k : A → M (upload K) bool)
    : M (upload K) bool :=
  let! r := m in
  match r with None => ret false | Some v => k v end.

(** Every command gives the value of [success]. *)
Definition command_write (fuel : nat) (fd : Z) : M (upload K) bool :=
  with_value (read_value fuel fd 8) (λ address,
  with_value (read_value fuel fd 4) (λ size,
    let! remapped := ask_vm (u_remap size address) in
    match remapped with
    | None => ret false
    | Some writable_address =>
        do! on_image (in_memory (add_window
              (remap_window u_page_size writable_address address size))) in
        let! writable := ask_vm (u_mprotect writable_address size VM_PROT_READ_WRITE) in
        let! success :=
          (if negb writable then ret false
           else
             let! r := frida_read_chunk fuel fd size (λ off bs,
               on_image (in_memory (put_bytes (writable_address + off) bs))) in
             if negb r.1 then ret false
             else do! on_image (log (Flushed address (zlen r.2))) in ret true) in
        do! on_image (in_memory (modify (λ m, mk_memory (m_bytes m)
              (omap (shrink_window u_page_size writable_address size) (m_windows m))))) in
        ret success
    end)).

Definition command_apply_threaded (fuel : nat) (fd : Z) : M (upload K) bool :=
  with_value (read_value fuel fd 8) (λ preferred_base_address,
  with_value (read_value fuel fd 8) (λ slide,
  with_value (read_value fuel fd 2) (λ num_symbols,
  with_value (read_values fuel fd num_symbols) (λ symbols,
  with_value (read_value fuel fd 2) (λ num_regions,
  with_value (read_values fuel fd num_regions) (λ regions,
    do! on_image (in_memory (frida_apply_threaded_items fuel preferred_base_address slide symbols regions)) in
    ret true)))))).

Definition command_process_fixups (fuel : nat) (fd : Z) : M (upload K) bool :=
  with_value (read_value fuel fd 8) (λ fixups_header_address,
  with_value (read_value fuel fd 8) (λ mach_header_address,
  with_value (read_value fuel fd 8) (λ preferred_base_address,
    do! on_image (in_memory (frida_process_chained_fixups fuel fixups_header_address mach_header_address
                  preferred_base_address)) in
    ret true))).

Definition command_protect (fuel : nat) (fd : Z) : M (upload K) bool :=
  with_value (read_value fuel fd 8) (λ address,
  with_value (read_value fuel fd 4) (λ size,
  with_value (read_value fuel fd 4) (λ prot,
    let! ok := ask_vm (u_mprotect address size (s32 prot)) in
    do! (if ok then on_image (log (Protected address size (s32 prot))) else ret tt) in
    ret ok))).

(** Call a constructor; a null pointer is fatal. *)
Definition construct (function : Z) : M image unit := λ im,
  if function =? 0 then Crash
  else
    let '(result, mem) := u_constructor function (im_result im) (im_mem im) in
    Ret (tt, mk_image mem result (im_trace im ++ [Constructed function])).
Definition construct_from_pointers (address count : Z) : M image unit :=
  for_all (Z.to_nat count) (λ i _,
    let! function := in_memory (peek 8 (u64 (address + 8 * i))) in
    construct function) tt.
Definition construct_from_offsets (address count mach_header_address : Z) : M image unit :=
  for_all (Z.to_nat count) (λ i _,
    let! offset := in_memory (peek 4 (u64 (address + 4 * i))) in
    construct (u64 (mach_header_address + offset))) tt.

Definition command_construct_from_pointers (fuel : nat) (fd : Z) : M (upload K) bool :=
  with_value (read_value fuel fd 8) (λ address,
  with_value (read_value fuel fd 4) (λ count,
    do! on_image (construct_from_pointers address count) in ret true)).
Definition command_construct_from_offsets (fuel : nat) (fd : Z) : M (upload K) bool :=
  with_value (read_value fuel fd 8) (λ address,
  with_value (read_value fuel fd 4) (λ count,
  with_value (read_value fuel fd 8) (λ mach_header_address,
    do! on_image (construct_from_offsets address count mach_header_address) in ret true))).

Definition receive_command (fuel : nat) (fd : Z) : M (upload K) bool :=
  with_value (read_value fuel fd 1) (λ command_type,
    if command_type =? FRIDA_UPLOAD_COMMAND_WRITE then command_write fuel fd
    else if command_type =? FRIDA_UPLOAD_COMMAND_APPLY_THREADED then command_apply_threaded fuel fd
    else if command_type =? FRIDA_UPLOAD_COMMAND_PROCESS_FIXUPS then command_process_fixups fuel fd
    else if command_type =? FRIDA_UPLOAD_COMMAND_PROTECT then command_protect fuel fd
    else if command_type =? FRIDA_UPLOAD_COMMAND_CONSTRUCT_FROM_POINTERS
    then command_construct_from_pointers fuel fd
    else if command_type =? FRIDA_UPLOAD_COMMAND_CONSTRUCT_FROM_OFFSETS
    then command_construct_from_offsets fuel fd
    else if command_type =? FRIDA_UPLOAD_COMMAND_CHECK then write_ack fuel fd
    else ret false).

(** The conversation with one client: whether it knew the session id. *)
Definition serve_client (fuel : nat) (client_fd session_id_top session_id_bottom : Z)
    : M (upload K) bool :=
  let! r := frida_read_chunk fuel client_fd 16 local_variable in
  if negb r.1 then ret false
  else if orb (negb (le_value (zslice 0 8 r.2) =? session_id_top))
              (negb (le_value (zslice 8 16 r.2) =? session_id_bottom))
  then ret false
  else
    let! acked := write_ack fuel client_fd in
    if negb acked then ret true
    else
      do! loop fuel (λ _ : unit,
        let! success := receive_command fuel client_fd in
        if success then ret (inl tt) else ret (inr tt)) tt in
      ret true.

Definition api_close (fd : Z) : M (upload K) unit :=
  do! with_proc (syscall (k_close fd)) in on_image (log (FdClosed fd)).

Definition frida_receive (fuel : nat) (listener_fd session_id_top session_id_bottom : Z)
    : M (upload K) Z :=
  do! loop fuel (λ _ : unit,
    let! res := with_proc (nointr fuel (u_accept listener_fd)) in
    match res with
    | None => ret (inr tt)
    | Some client_fd =>
        let! known := serve_client fuel client_fd session_id_top session_id_bottom in
        do! api_close client_fd in
        if known then ret (inr tt) else ret (inl tt)
    end) tt in
  do! api_close listener_fd in
  gets (λ s, im_result (up_image s)).
End upload.
