(* ===== verification/UploadCorrect.v ===== *)
(** The receiver executes the commands of the client that knows the session
    id, in order, however the bytes of the connection are split. *)
From S2P Require Import Prelude Posix ElfParser ElfCorrect Fixups FixupsCorrect Upload.

(** ** Commands and what they mean *)
Inductive command :=
| Write (address : Z) (data : list Z)
| ApplyThreaded (preferred_base_address slide : Z) (symbols regions : list Z)
| ProcessFixups (fixups_header mach_header preferred_base_address : Z)
| Protect (address size prot : Z)
| ConstructFromPointers (address count : Z)
| ConstructFromOffsets (address count mach_header : Z)
| CheckAlive.

Definition words (l : list Z) : list Z := concat (le_bytes 8 <$> l).
Definition encode_command (c : command) : list Z :=
  match c with
  | Write address data =>
      [FRIDA_UPLOAD_COMMAND_WRITE] ++ le_bytes 8 address ++ le_bytes 4 (zlen data) ++ data
  | ApplyThreaded base slide symbols regions =>
      [FRIDA_UPLOAD_COMMAND_APPLY_THREADED] ++ le_bytes 8 base ++ le_bytes 8 slide ++
      le_bytes 2 (zlen symbols) ++ words symbols ++ le_bytes 2 (zlen regions) ++ words regions
  | ProcessFixups header mach_header base =>
      [FRIDA_UPLOAD_COMMAND_PROCESS_FIXUPS] ++ le_bytes 8 header ++ le_bytes 8 mach_header ++
      le_bytes 8 base
  | Protect address size prot =>
      [FRIDA_UPLOAD_COMMAND_PROTECT] ++ le_bytes 8 address ++ le_bytes 4 size ++ le_bytes 4 prot
  | ConstructFromPointers address count =>
      [FRIDA_UPLOAD_COMMAND_CONSTRUCT_FROM_POINTERS] ++ le_bytes 8 address ++ le_bytes 4 count
  | ConstructFromOffsets address count mach_header =>
      [FRIDA_UPLOAD_COMMAND_CONSTRUCT_FROM_OFFSETS] ++ le_bytes 8 address ++ le_bytes 4 count ++
      le_bytes 8 mach_header
  | CheckAlive => [FRIDA_UPLOAD_COMMAND_CHECK]
  end.
Definition is_word (n v : Z) : Prop := 0 ≤ v < 2 ^ (n * 8).
(** Values fit their fields; memory is written by whole pages' starts. *)
Definition command_ok (page : Z) (c : command) : Prop :=
  match c with
  | Write address data => 0 ≤ address ∧ address + zlen data ≤ 2 ^ 64 ∧ 0 < zlen data < 2 ^ 32 ∧
      address mod page = 0
  | ApplyThreaded base slide symbols regions =>
      is_word 8 base ∧ is_word 8 slide ∧ is_word 2 (zlen symbols) ∧ is_word 2 (zlen regions) ∧
      Forall (is_word 8) symbols ∧ Forall (is_word 8) regions
  | ProcessFixups header mach_header base =>
      is_word 8 header ∧ is_word 8 mach_header ∧ is_word 8 base
  | Protect address size prot =>
      is_word 8 address ∧ is_word 4 size ∧ - 2 ^ 31 ≤ prot < 2 ^ 31 ∧ address mod page = 0
  | ConstructFromPointers address count => is_word 8 address ∧ is_word 4 count
  | ConstructFromOffsets address count mach_header =>
      is_word 8 address ∧ is_word 4 count ∧ is_word 8 mach_header
  | CheckAlive => True
  end.
Definition answer (c : command) : list Z :=
  match c with CheckAlive => le_bytes 4 ACK_MAGIC | _ => [] end.

(** All bytes of a range are there. *)
Definition mapped (m : memory) (a n : Z) : Prop := ∀ i, 0 ≤ i < n → is_Some (byte_at m (a + i)).
Definition mapped_check (m : memory) (a n : Z) : bool :=
  forallb (λ i, bool_decide (is_Some (byte_at m (a + Z.of_nat i)))) (seq 0 (Z.to_nat n)).
Lemma mapped_check_ok m a n : mapped_check m a n = true ↔ mapped m a n.
Proof.
  unfold mapped_check. rewrite forallb_forall. split; intros Hf.
  - intros i Hi. specialize (Hf (Z.to_nat i)).
    rewrite bool_decide_eq_true, Z2Nat.id in Hf by lia. apply Hf, in_seq. lia.
  - intros i Hi. apply in_seq in Hi. apply bool_decide_eq_true, Hf. lia.
Qed.

Section meaning.
Context {K : Type} `{UploadKernel K} `{UploadApi}.
Definition execute (fuel : nat) (c : command) : M image unit :=
  match c with
  | Write address data =>
      do! in_memory (put_bytes address data) in log (Flushed address (zlen data))
  | ApplyThreaded base slide symbols regions =>
      in_memory (frida_apply_threaded_items fuel base slide symbols regions)
  | ProcessFixups header mach_header base =>
      in_memory (frida_process_chained_fixups fuel header mach_header base)
  | Protect address size prot => λ im,
      if mapped_check (im_mem im) address size then log (Protected address size prot) im else Crash
  | ConstructFromPointers address count => construct_from_pointers address count
  | ConstructFromOffsets address count mach_header =>
      construct_from_offsets address count mach_header
  | CheckAlive => ret tt
  end.
Fixpoint execute_all (fuel : nat) (cs : list command) : M image unit :=
  match cs with
  | [] => ret tt
  | c :: r => do! execute fuel c in execute_all fuel r
  end.
End meaning.

(** ** The documented behaviour of the system calls

    The client is at the other end of [fd], whose input is what it sends; only
    an interruption makes a transfer fail. *)
Class UploadLaws (K : Type) `{KernelLaws K} `{!UploadKernel K} (fd : Z) := {
  page_pos : 0 < u_page_size;
  socket_read n k e k' : k_read fd n k = (SysErr e, k') → e = EINTR;
  socket_write bs k e k' : k_write fd bs k = (SysErr e, k') → e = EINTR;
  socket_duplex bs k n k' : k_write fd bs k = (SysOk n, k') → k_rest k' fd = k_rest k fd;
  (** Mapped pages can be mapped once more. *)
  remap_law size address m k r k' : u_remap size address m k = (r, k') →
    k_rest k' fd = k_rest k fd ∧ (∀ d, k_written k' d = k_written k d) ∧
    (k_signals k' ≤ k_signals k)%nat ∧
    (0 < size < 2 ^ 32 → mapped m address size →
     ∃ w, r = Some w ∧ 0 ≤ w ∧ w + size ≤ 2 ^ 64 ∧ w mod u_page_size = 0);
  (** The protection of mapped pages can be changed. *)
  mprotect_law address size prot m k r k' : u_mprotect address size prot m k = (r, k') →
    k_rest k' fd = k_rest k fd ∧ (∀ d, k_written k' d = k_written k d) ∧
    (k_signals k' ≤ k_signals k)%nat ∧
    (address mod u_page_size = 0 → mapped m address size → r = true);
  constructor_law f r m : m_windows m = [] → m_windows (u_constructor f r m).2 = []
}.

(** What a computation always keeps is there when it has ended. *)
Lemma wp_keeps {S A} (I : S → Prop) (m : M S A) s (Q : A → S → Prop) :
  wp m s (λ a s', I s' → Q a s') → keeps I m → I s → wp m s Q.
Proof. intros (a & s' & E & HQ) Hm Hs. exists a, s'. split; [done|]. apply HQ. by eapply Hm. Qed.

Section connection.
Context {K : Type} {fd : Z} `{UploadLaws K fd}.
Context (fuel : nat) (others : Z → list Z).

(** The client has [rest] to say and was sent [out]; [others] is what went out
    through the other descriptors. *)
Record conn (rest out : list Z) (p : proc K) : Prop := {
  cn_rest : k_rest (p_kern p) fd = rest;
  cn_out : k_written (p_kern p) fd = out;
  cn_signals : (k_signals (p_kern p) < fuel)%nat;
  cn_others d : d ≠ fd → k_written (p_kern p) d = others d
}.

Lemma wp_read_piece n rest out p :
  0 < n → conn rest out p →
  wp (nointr fuel (k_read fd n)) p (λ r p', ∃ bs rest', r = Some bs ∧ rest = bs ++ rest' ∧
    zlen bs ≤ n ∧ (bs = [] → rest = []) ∧ conn rest' out p').
Proof.
  intros Hn [Hr Ho Hs Hd].
  wp_call (wp_nointr (λ k, k_rest k fd = rest ∧ k_written k fd = out ∧
    ∀ d, d ≠ fd → k_written k d = others d)); [| |done|done|].
  - intros. by eapply signals_read.
  - intros k k' (Hr' & Ho' & Hd') E. destruct (read_frame _ _ _ _ _ E) as [Hf _].
    destruct (Hf fd) as [Hc Hw]. destruct (read_err _ _ _ _ _ E) as [_ Hp]. split_and!.
    + unfold k_rest in *. by rewrite Hc, Hp.
    + congruence.
    + intros d Hdf. destruct (Hf d) as [_ ->]. by apply Hd'.
  - intros r p' (k & (Hr' & Ho' & Hd') & Hs' & E). destruct r as [bs|].
    + destruct (read_rest _ _ _ _ _ E) as (Hrest & Hlen & Heof).
      destruct (read_frame _ _ _ _ _ E) as [Hf _]. destruct (Hf fd) as [_ Hw].
      exists bs, (k_rest (p_kern p') fd). split_and!; [done|congruence|lia| |].
      * intros ->. rewrite <- Hr'. by apply Heof.
      * constructor; [done|congruence|lia|]. intros d Hdf. destruct (Hf d) as [_ ->]. by apply Hd'.
    + destruct E as (e & E & _ & Hne). by apply socket_read in E.
Qed.

(** Reading a chunk delivers its bytes to the sink in order. *)
Lemma wp_read_chunk sink (Inv : Z → image → Prop) bs rest out s :
  (length bs < fuel)%nat → conn (bs ++ rest) out (up_proc s) → Inv 0 (up_image s) →
  (∀ b1 piece b2 p im, bs = b1 ++ piece ++ b2 → Inv (zlen b1) im →
     wp (sink (zlen b1) piece) (mk_upload p im) (λ _ s', up_proc s' = p ∧
       Inv (zlen b1 + zlen piece) (up_image s'))) →
  wp (frida_read_chunk fuel fd (zlen bs) sink) s (λ r s', r = (true, bs) ∧
    conn rest out (up_proc s') ∧ Inv (zlen bs) (up_image s')).
Proof.
  intros Hf Hc HI Hsink. unfold frida_read_chunk.
  apply (wp_loop _ (λ buffer s', ∃ b2, bs = buffer ++ b2 ∧ conn (b2 ++ rest) out (up_proc s') ∧
      Inv (zlen buffer) (up_image s')) (λ buffer _, Z.to_nat (zlen bs - zlen buffer))).
  - intros buffer [p im] (b2 & -> & Hcp & HIb). cbn [up_proc up_image] in *.
    rewrite zlen_app. destruct (Z.eqb_spec (zlen buffer) (zlen buffer + zlen b2)) as [E|E].
    { assert (b2 = []) as -> by (apply zlen_nil_inv; lia). rewrite !app_nil_r, Z.add_0_r in *.
      apply wp_ret. done. }
    replace (zlen buffer + zlen b2 - zlen buffer) with (zlen b2) by lia.
    pose proof (zlen_nonneg b2). apply wp_bind.
    destruct (wp_read_piece (zlen b2) (b2 ++ rest) out p) as
      (r & p' & Er & piece & rest' & -> & Hsplit & Hlen & Hne & Hcp'); [lia|done|].
    exists (Some piece), (mk_upload p' im). split; [unfold with_proc; cbn [up_proc]; by rewrite Er|].
    assert (Hpre : ∃ b3, b2 = piece ++ b3 ∧ rest' = b3 ++ rest).
    { exists (zdrop (zlen piece) b2). apply (f_equal (zdrop (zlen piece))) in Hsplit as Hd.
      rewrite zdrop_app_exact, zdrop_app_le in Hd by lia. split; [|done].
      apply (f_equal (ztake (zlen piece))) in Hsplit. rewrite ztake_app_exact, ztake_app_le in Hsplit by lia.
      rewrite <- Hsplit at 1. symmetry. apply ztake_zdrop. }
    destruct Hpre as (b3 & -> & ->). destruct piece as [|x piece].
    { destruct b3; [|by specialize (Hne eq_refl)]. exfalso. apply E. unfold zlen. cbn. lia. }
    apply wp_bind. wp_call (Hsink buffer (x :: piece) b3 p' im eq_refl HIb).
    intros _ s' [<- HI']. apply wp_ret. rewrite !zlen_app. split.
    + exists b3. rewrite <- app_assoc. done.
    + rewrite zlen_cons. pose proof (zlen_nonneg piece). pose proof (zlen_nonneg b3). lia.
  - exists bs. done.
  - rewrite zlen_nil. unfold zlen. lia.
Qed.

Lemma wp_read_eof n out sink s :
  0 < n → conn [] out (up_proc s) → (0 < fuel)%nat →
  wp (frida_read_chunk fuel fd n sink) s (λ r s', r = (false, []) ∧ conn [] out (up_proc s') ∧
    up_image s' = up_image s).
Proof.
  intros Hn Hc Hf. unfold frida_read_chunk. destruct fuel as [|f] eqn:Ef; [lia|]. rewrite <- Ef in *.
  rewrite Ef. cbn [loop]. rewrite <- Ef. apply wp_bind. rewrite zlen_nil, Z.sub_0_r.
  destruct (Z.eqb_spec 0 n); [lia|]. destruct s as [p im]. cbn [up_proc] in Hc. apply wp_bind.
  destruct (wp_read_piece n [] out p) as (r & p' & Er & piece & rest' & -> & Hsplit & _ & _ & Hcp'); [lia|done|].
  symmetry in Hsplit. apply app_nil in Hsplit as [-> ->].
  exists (Some []), (mk_upload p' im). split; [unfold with_proc; cbn [up_proc]; by rewrite Er|].
  apply wp_ret, wp_ret. done.
Qed.

(** A client that hangs up too early. *)
Lemma wp_read_short bs out s n :
  zlen bs < n → (length bs < fuel)%nat → conn bs out (up_proc s) →
  wp (frida_read_chunk fuel fd n local_variable) s (λ r s', r.1 = false ∧ conn [] out (up_proc s') ∧
    up_image s' = up_image s).
Proof.
  intros Hn Hf Hc. unfold frida_read_chunk.
  apply (wp_loop _ (λ buffer s', ∃ b2, bs = buffer ++ b2 ∧ conn b2 out (up_proc s') ∧
      up_image s' = up_image s) (λ buffer _, Z.to_nat (zlen bs - zlen buffer))).
  - intros buffer [p im] (b2 & -> & Hcp & HIb). cbn [up_proc up_image] in *.
    rewrite zlen_app in Hn |- *. pose proof (zlen_nonneg b2). destruct (Z.eqb_spec (zlen buffer) n); [lia|].
    apply wp_bind. destruct (wp_read_piece (n - zlen buffer) b2 out p) as
      (r & p' & Er & piece & b3 & -> & Hsplit & _ & Hne & Hcp'); [lia|done|].
    exists (Some piece), (mk_upload p' im). split; [unfold with_proc; cbn [up_proc]; by rewrite Er|].
    subst b2. destruct piece as [|x piece].
    { specialize (Hne eq_refl). cbn in Hne. subst b3. by apply wp_ret. }
    apply wp_bind, wp_ret, wp_ret. split.
    + exists b3. by rewrite <- app_assoc.
    + rewrite !zlen_app, zlen_cons. pose proof (zlen_nonneg piece). pose proof (zlen_nonneg b3). lia.
  - by exists bs.
  - rewrite zlen_nil. unfold zlen. lia.
Qed.

(** [m] reads exactly [bs], which stand for [v]. *)
Definition reads {A} (m : M (upload K) (option A)) (v : A) (bs : list Z) : Prop :=
  ∀ rest out s, conn (bs ++ rest) out (up_proc s) →
  wp m s (λ r s', r = Some v ∧ conn rest out (up_proc s') ∧ up_image s' = up_image s).

Lemma wp_read_local bs rest out s :
  (length bs < fuel)%nat → conn (bs ++ rest) out (up_proc s) →
  wp (frida_read_chunk fuel fd (zlen bs) local_variable) s (λ r s', r = (true, bs) ∧
    conn rest out (up_proc s') ∧ up_image s' = up_image s).
Proof.
  intros Hf Hc. apply (wp_read_chunk _ (λ _ im, im = up_image s)); [done|done|done|].
  intros b1 piece b2 p im _ ->. apply wp_ret. done.
Qed.
Lemma reads_value n v : 0 ≤ n < Z.of_nat fuel → is_word n v → reads (read_value fuel fd n) v (le_bytes n v).
Proof.
  intros Hn Hv rest out s Hc. unfold read_value. apply wp_bind.
  pose proof (zlen_le_bytes n v ltac:(lia)) as Hl. rewrite <- Hl at 1.
  wp_call (wp_read_local (le_bytes n v) rest out s); [unfold zlen in Hl; lia|done|].
  intros r s' (-> & Hc' & Hi). apply wp_ret. cbn [fst snd]. split_and!; [|done|done].
  f_equal. rewrite le_value_le_bytes by lia. by apply Z.mod_small.
Qed.

Lemma le_bytes_one b : is_byte b → le_bytes 1 b = [b].
Proof.
  intros Hb. rewrite <- (le_bytes_le_value 1 [b]); [|done|by constructor; [|constructor]].
  f_equal. unfold le_value. cbn. rewrite Z.lor_0_r. done.
Qed.
Lemma reads_byte b : (1 < fuel)%nat → is_byte b → reads (read_value fuel fd 1) b [b].
Proof. intros Hf Hb. rewrite <- (le_bytes_one b Hb) at 1. apply reads_value; [lia|done]. Qed.

Lemma zlen_words l : zlen (words l) = 8 * zlen l.
Proof.
  induction l as [|v l IH]; [done|]. unfold words in *. cbn [fmap list_fmap concat].
  rewrite zlen_app, IH, zlen_cons, zlen_le_bytes by lia. lia.
Qed.
Lemma words_slice l : ∀ i v pre, l !! i = Some v →
  zslice (zlen pre + 8 * Z.of_nat i) (zlen pre + 8 * Z.of_nat i + 8) (pre ++ words l) = le_bytes 8 v.
Proof.
  induction l as [|w l IH]; intros [|i] v pre Hv; try done; unfold words; cbn [fmap list_fmap concat].
  - injection Hv as ->. rewrite Z.mul_0_r, Z.add_0_r.
    apply (zslice_mid pre (le_bytes 8 v)); [done|]. rewrite zlen_le_bytes by lia. lia.
  - cbn in Hv. rewrite app_assoc. rewrite <- (IH i v (pre ++ le_bytes 8 w) Hv).
    rewrite zlen_app, zlen_le_bytes by lia. f_equal; lia.
Qed.
Lemma reads_values l :
  8 * zlen l < Z.of_nat fuel → Forall (is_word 8) l →
  reads (read_values fuel fd (zlen l)) l (words l).
Proof.
  intros Hn Hl rest out s Hc. unfold read_values. apply wp_bind.
  pose proof (zlen_words l) as Hw. replace (zlen l * 8) with (zlen (words l)) by lia.
  wp_call (wp_read_local (words l) rest out s); [unfold zlen at 1 in Hw; lia|done|].
  intros r s' (-> & Hc' & Hi). apply wp_ret. cbn [fst snd]. split_and!; [|done|done].
  f_equal. apply list_eq. intros i. rewrite list_lookup_fmap. unfold zlen. rewrite Nat2Z.id.
  destruct (l !! i) as [v|] eqn:Ev.
  - rewrite lookup_seq_lt by (by eapply lookup_lt_Some). cbn. f_equal.
    assert (zslice (8 * Z.of_nat i) (8 * Z.of_nat i + 8) (words l) = le_bytes 8 v) as Hs
      by exact (words_slice l i v [] Ev).
    cbn [Nat.add] in *. rewrite Hs, le_value_le_bytes by lia.
    apply Z.mod_small. by eapply Forall_lookup_1 in Hl.
  - apply lookup_ge_None in Ev. by rewrite lookup_seq_ge.
Qed.

Lemma wp_with_value {A} (m : M (upload K) (option A)) k v bs rest out s Q :
  reads m v bs → conn (bs ++ rest) out (up_proc s) →
  (∀ s', conn rest out (up_proc s') → up_image s' = up_image s → wp (k v) s' Q) →
  wp (with_value m k) s Q.
Proof.
  intros Hm Hc Hk. unfold with_value. apply wp_bind. wp_call (Hm rest out s Hc).
  intros r s' (-> & Hc' & Hi). by apply Hk.
Qed.

Lemma wp_write_ack rest out s :
  (4 < fuel)%nat → conn rest out (up_proc s) →
  wp (write_ack fuel fd) s (λ ok s', ok = true ∧
    conn rest (out ++ le_bytes 4 ACK_MAGIC) (up_proc s') ∧ up_image s' = up_image s).
Proof.
  intros Hf Hc. unfold write_ack, frida_write_chunk. set (buf := le_bytes 4 ACK_MAGIC).
  assert (Hb : zlen buf = 4) by (apply zlen_le_bytes; lia).
  apply (wp_loop _ (λ cursor s', 0 ≤ cursor ≤ 4 ∧ conn rest (out ++ ztake cursor buf) (up_proc s') ∧
    up_image s' = up_image s) (λ cursor _, Z.to_nat (4 - cursor))); [| |lia].
  - intros cursor [p im] (Hcur & Hcp & Him). cbn [up_proc up_image] in *. rewrite Hb.
    destruct (Z.eqb_spec cursor 4) as [->|Hne].
    { apply wp_ret. rewrite ztake_ge in Hcp by lia. done. }
    apply wp_bind. destruct Hcp as [Hr Ho Hs Hd].
    destruct (wp_nointr (λ k, k_rest k fd = rest ∧ k_written k fd = out ++ ztake cursor buf ∧
        ∀ d, d ≠ fd → k_written k d = others d)
      (k_write fd (zdrop cursor buf)) fuel p) as (r & p' & Er & k & (Hr' & Ho' & Hd') & Hs' & E);
      [|clear p Hr Ho Hs Hd|done|done|].
    { intros. by eapply signals_write. }
    { intros k k' (Hr & Ho & Hd) E. destruct (write_err _ _ _ _ _ E) as (_ & Hw & Hcn & Hp).
      split_and!; [unfold k_rest in *; by rewrite Hcn, Hp|congruence|].
      intros d Hdf. destruct (write_frame _ _ _ _ _ E d Hdf) as [-> _]. by apply Hd. }
    exists r, (mk_upload p' im). split; [unfold with_proc; cbn [up_proc]; by rewrite Er|].
    destruct r as [n|]; [|destruct E as (e & E & _ & Hn); by apply socket_write in E].
    pose proof (socket_duplex _ _ _ _ E) as Hdup. pose proof (write_frame _ _ _ _ _ E) as Hfr.
    apply write_ok in E as (Hn & Hpos & Hw).
    rewrite zlen_zdrop in Hn. assert (0 < n).
    { apply Hpos. intros Hnil. apply (f_equal zlen) in Hnil. rewrite zlen_zdrop in Hnil.
      unfold zlen at 2 in Hnil. cbn in Hnil. lia. }
    destruct (Z.leb_spec n 0); [lia|]. apply wp_ret. cbn [up_proc up_image].
    split; [split_and!; [lia|lia| |done]|lia]. constructor; [congruence| |lia|].
    { rewrite Hw, Ho', <- app_assoc. f_equal. by rewrite ztake_plus by lia. }
    intros d Hdf. destruct (Hfr d Hdf) as [-> _]. by apply Hd'.
  - split_and!; [lia|lia| |done]. rewrite ztake_le, app_nil_r by lia. done.
Qed.
End connection.

(** ** Writing through a window *)
Lemma set_bytes_app b1 : ∀ a b2 m,
  set_bytes a (b1 ++ b2) m =
  match set_bytes a b1 m with Some m' => set_bytes (a + zlen b1) b2 m' | None => None end.
Proof.
  induction b1 as [|x b1 IH]; intros a b2 m; cbn [app set_bytes].
  - by rewrite zlen_nil, Z.add_0_r.
  - destruct (set_byte (u64 a) x m) as [m'|]; [|done]. rewrite IH, zlen_cons.
    by replace (a + 1 + zlen b1) with (a + (1 + zlen b1)) by lia.
Qed.
Lemma set_bytes_windows bs : ∀ a m m', set_bytes a bs m = Some m' → m_windows m' = m_windows m.
Proof.
  induction bs as [|x bs IH]; intros a m m' E; cbn in E; [by injection E as <-|].
  destruct (set_byte (u64 a) x m) as [m1|] eqn:E1; [|done]. rewrite (IH _ _ _ E).
  unfold set_byte in E1. destruct (m_bytes m !! _); [|done]. by injection E1 as <-.
Qed.
(** Storing through the window stores in its source. *)
Lemma set_bytes_window w n a bs : ∀ off b b',
  0 ≤ off → off + zlen bs ≤ n → 0 ≤ w → w + n ≤ 2 ^ 64 → 0 ≤ a → a + n ≤ 2 ^ 64 →
  set_bytes (a + off) bs (mk_memory b []) = Some (mk_memory b' []) →
  ∀ n', n ≤ n' →
  set_bytes (w + off) bs (mk_memory b [mk_window w n' a]) = Some (mk_memory b' [mk_window w n' a]).
Proof.
  induction bs as [|x bs IH]; intros off b b' Ho Hn Hw Hwn Ha Han E n' Hn'.
  { cbn in *. by injection E as ->. }
  rewrite zlen_cons in Hn. pose proof (zlen_nonneg bs). cbn [set_bytes] in *.
  rewrite u64_small in E |- * by lia. unfold set_byte in E |- *.
  cbn [m_windows m_bytes translate w_start w_size w_source] in E |- *.
  unfold in_range. rewrite (proj2 (Z.leb_le w (w + off))) by lia.
  rewrite (proj2 (Z.ltb_lt (w + off) (w + n'))) by lia. cbn [andb].
  replace (a + (w + off - w)) with (a + off) by lia.
  destruct (b !! (a + off)) as [y|]; [|done].
  rewrite <- Z.add_assoc in E |- *. apply IH; try done; lia.
Qed.
Lemma set_bytes_mapped bs : ∀ a m m',
  m_windows m = [] → 0 ≤ a → a + zlen bs ≤ 2 ^ 64 → set_bytes a bs m = Some m' →
  mapped m a (zlen bs).
Proof.
  induction bs as [|x bs IH]; intros a m m' Hw Ha Hb E i Hi; [unfold zlen in Hi; cbn [length] in Hi; lia|].
  rewrite zlen_cons in Hb, Hi. pose proof (zlen_nonneg bs). cbn [set_bytes] in E.
  rewrite u64_small in E by lia.
  destruct (set_byte a x m) as [m1|] eqn:E1; [|done]. unfold set_byte in E1.
  rewrite Hw in E1. cbn [translate] in E1.
  destruct (m_bytes m !! a) as [y|] eqn:Ey; [|done]. injection E1 as <-.
  unfold byte_at. rewrite Hw. cbn [translate]. destruct (decide (i = 0)) as [->|Hi0].
  - rewrite Z.add_0_r, Ey. done.
  - pose proof (IH (a + 1) (mk_memory (<[a:=x]> (m_bytes m)) []) m' eq_refl ltac:(lia) ltac:(lia) E (i - 1) ltac:(lia)) as Hs.
    unfold byte_at in Hs. cbn [m_windows m_bytes translate] in Hs.
    rewrite lookup_insert_is_Some in Hs.
    replace (a + 1 + (i - 1)) with (a + i) in Hs by lia. destruct Hs as [?|[_ ?]]; [lia|done].
Qed.

Lemma round_page_ge page a : 0 < page → a ≤ round_page page a.
Proof. intros Hp. unfold round_page. pose proof (Z.div_mod (a + page - 1) page). pose proof (Z.mod_pos_bound (a + page - 1) page). lia. Qed.
Lemma round_page_add page a n : 0 < page → a mod page = 0 → round_page page (a + n) = a + round_page page n.
Proof.
  intros Hp Ha. unfold round_page. rewrite (Z.div_mod a page) at 1 by lia. rewrite Ha.
  replace (page * (a / page) + 0 + n + page - 1) with (n + page - 1 + (a / page) * page) by lia.
  rewrite Z.div_add by lia. rewrite (Z.div_mod a page) at 2 by lia. lia.
Qed.
Lemma trunc_page_id page a : 0 < page → a mod page = 0 → trunc_page page a = a.
Proof. intros Hp Ha. unfold trunc_page. rewrite (Z.div_mod a page) at 2 by lia. lia. Qed.

(** ** Memory operations leave the windows alone *)
Section windows.
Context `{UploadApi}.
Definition no_windows (m : memory) : Prop := m_windows m = [].
Lemma keeps_peek n a : keeps no_windows (peek n a).
Proof.
  intros m v m' Hm. unfold peek, load. destruct (load_bytes (byte_at m) n a); [|done].
  by intros [= _ <-].
Qed.
Lemma keeps_poke n a v : keeps no_windows (poke n a v).
Proof.
  intros m u m' Hm. unfold poke. destruct (set_bytes a (le_bytes n v) m) as [m1|] eqn:E; [|done].
  intros [= _ <-]. unfold no_windows. by rewrite (set_bytes_windows _ _ _ _ E).
Qed.
Hint Resolve keeps_peek keeps_poke : keeps.
Lemma keeps_string fuel : ∀ a, keeps no_windows (peek_string fuel a).
Proof. induction fuel as [|fuel IH]; intros a; cbn [peek_string]; keeps_auto. Qed.
Lemma keeps_threaded fuel base slide symbols regions :
  keeps no_windows (frida_apply_threaded_items fuel base slide symbols regions).
Proof.
  induction regions as [|r regions IH]; cbn [frida_apply_threaded_items]; [apply keeps_ret|].
  apply keeps_bind; [|done]. unfold apply_region. keeps_auto.
Qed.
Lemma keeps_generic64 fuel c format actual preferred bp :
  keeps no_windows
    (frida_process_chained_fixups_in_segment_generic64 fuel c format actual preferred bp).
Proof. unfold frida_process_chained_fixups_in_segment_generic64, generic64_item. keeps_auto. Qed.
Lemma keeps_arm64e fuel c format actual preferred bp :
  keeps no_windows
    (frida_process_chained_fixups_in_segment_arm64e fuel c format actual preferred bp).
Proof. unfold frida_process_chained_fixups_in_segment_arm64e, arm64e_item. keeps_auto. Qed.
Hint Resolve keeps_string keeps_generic64 keeps_arm64e : keeps.
Lemma keeps_dylibs fuel mach_header handles : keeps no_windows (load_dylibs fuel mach_header handles).
Proof. unfold load_dylibs. keeps_auto. Qed.
Lemma keeps_imports fuel header handles bp count :
  keeps no_windows (bind_imports fuel header handles bp count).
Proof. unfold bind_imports, import_at, frida_resolve_import. keeps_auto. Qed.
Lemma keeps_segment fuel mach_header preferred bp starts i :
  keeps no_windows (fixup_segment fuel mach_header preferred bp starts i).
Proof. unfold fixup_segment, fixup_page. keeps_auto. Qed.
Lemma keeps_modify (g : memory → memory) :
  (∀ m, m_windows (g m) = m_windows m) → keeps no_windows (modify g).
Proof. intros Hg m u m' Hm [= _ <-]. unfold no_windows in *. by rewrite Hg. Qed.
Hint Resolve keeps_dylibs keeps_imports keeps_segment : keeps.
Lemma keeps_fixups fuel header mach_header base :
  keeps no_windows (frida_process_chained_fixups fuel header mach_header base).
Proof.
  unfold frida_process_chained_fixups. apply keeps_bind.
  { destruct api_slab; [by apply keeps_modify|apply keeps_ret]. }
  intros _. keeps_auto. by apply keeps_modify.
Qed.
End windows.

(** ** Commands *)
Section commands.
Context {K : Type} {fd : Z} `{UploadLaws K fd} `{UploadApi}.
Context (fuel : nat) (others : Z → list Z).
Notation connected := (conn (K := K) (fd := fd) fuel others).

Definition plain (im : image) : Prop := no_windows (im_mem im).
Lemma keeps_in_memory {A} (m : M memory A) : keeps no_windows m → keeps plain (in_memory m).
Proof.
  intros Hm im a im' Hp. unfold in_memory. destruct (m (im_mem im)) as [[b mem]| | |] eqn:E; try done.
  intros [= -> <-]. by apply (Hm _ _ _ Hp E).
Qed.
Lemma keeps_construct f : keeps plain (construct f).
Proof.
  intros im a im' Hp. unfold construct. destruct (f =? 0); [done|].
  destruct (u_constructor f (im_result im) (im_mem im)) as [r m] eqn:E. intros [= _ <-].
  unfold plain, no_windows in *. cbn. pose proof (constructor_law f (im_result im) (im_mem im) Hp) as Hc.
  by rewrite E in Hc.
Qed.
Lemma execute_plain c : keeps plain (execute fuel c).
Proof.
  destruct c as [address data| | |address size prot| | |]; cbn [execute].
  - apply keeps_bind; [apply keeps_in_memory|by intros _ im u im' Hp [= _ <-]].
    intros m u m' Hm. unfold put_bytes. destruct (set_bytes address data m) as [m1|] eqn:E; [|done].
    intros [= _ <-]. unfold no_windows. by rewrite (set_bytes_windows _ _ _ _ E).
  - apply keeps_in_memory, keeps_threaded.
  - apply keeps_in_memory, keeps_fixups.
  - intros im u im' Hp. destruct (mapped_check _ _ _); [|done]. by intros [= _ <-].
  - apply keeps_for_all. intros i a. apply keeps_bind; [apply keeps_in_memory, keeps_peek|].
    intros f. apply keeps_construct.
  - apply keeps_for_all. intros i a. apply keeps_bind; [apply keeps_in_memory, keeps_peek|].
    intros f. apply keeps_construct.
  - apply keeps_ret.
Qed.

Lemma conn_kernel rest out p k e :
  connected rest out p → k_rest k fd = k_rest (p_kern p) fd →
  (∀ d, k_written k d = k_written (p_kern p) d) → (k_signals k ≤ k_signals (p_kern p))%nat →
  connected rest out (mk_proc k e).
Proof.
  intros [Hr Ho Hs Hd] ? Hw ?. constructor; cbn; [congruence|by rewrite Hw|lia|].
  intros d Hdf. rewrite Hw. by apply Hd.
Qed.

Lemma wp_on_image {A} (m : M image A) s a im' (Q : A → upload K → Prop) :
  m (up_image s) = Ret (a, im') → Q a (mk_upload (up_proc s) im') → wp (on_image m) s Q.
Proof. intros E HQ. exists a, (mk_upload (up_proc s) im'). unfold on_image. by rewrite E. Qed.

(** The window on the pages to be written. *)
Lemma window_of address size w :
  0 ≤ size → address mod u_page_size = 0 →
  let win := remap_window u_page_size w address size in
  win = mk_window w (w_size win) address ∧ size ≤ w_size win ∧
  shrink_window u_page_size w size win = None.
Proof.
  intros Hs Ha. pose proof page_pos as Hp. unfold remap_window. cbn [w_size w_start w_source].
  rewrite trunc_page_id, round_page_add by done. pose proof (round_page_ge u_page_size size Hp).
  split; [done|]. split; [lia|]. unfold shrink_window. cbn [w_start w_size].
  rewrite Z.eqb_refl. by rewrite (proj2 (Z.leb_le _ _)) by lia.
Qed.

(** The data arrives through the window. *)
Lemma wp_receive_data address data w n rest out s b b' :
  (length data < fuel)%nat → connected (data ++ rest) out (up_proc s) →
  0 ≤ w → w + zlen data ≤ 2 ^ 64 → 0 ≤ address → address + zlen data ≤ 2 ^ 64 → zlen data ≤ n →
  im_mem (up_image s) = mk_memory b [mk_window w n address] →
  set_bytes address data (mk_memory b []) = Some (mk_memory b' []) →
  wp (frida_read_chunk fuel fd (zlen data)
        (λ off bs, on_image (in_memory (put_bytes (w + off) bs)))) s (λ r s',
    r = (true, data) ∧ connected rest out (up_proc s') ∧
    up_image s' = mk_image (mk_memory b' [mk_window w n address]) (im_result (up_image s))
                    (im_trace (up_image s))).
Proof.
  intros Hf Hc Hw Hwn Ha Han Hn Em E.
  wp_call (wp_read_chunk fuel others _ (λ off im, ∃ bb,
    set_bytes address (ztake off data) (mk_memory b []) = Some (mk_memory bb []) ∧
    im = mk_image (mk_memory bb [mk_window w n address]) (im_result (up_image s))
           (im_trace (up_image s))) data rest out s Hf Hc).
  - exists b. split; [by rewrite ztake_le by lia|]. destruct (up_image s); cbn in *. by subst.
  - intros b1 piece b2 p im Hd (bb & Eb & ->). rewrite Hd in Eb. rewrite ztake_app_exact in Eb.
    assert (∃ m1, set_bytes (address + zlen b1) piece (mk_memory bb []) = Some m1) as [m1 E1].
    { rewrite Hd, app_assoc, set_bytes_app, set_bytes_app, Eb in E.
      destruct (set_bytes (address + zlen b1) piece (mk_memory bb [])); [eauto|done]. }
    pose proof (set_bytes_windows _ _ _ _ E1) as Hw1. destruct m1 as [b1' ws]. cbn in Hw1. subst ws.
    assert (Hlen : zlen b1 + zlen piece ≤ zlen data).
    { rewrite Hd, !zlen_app. pose proof (zlen_nonneg b2). lia. }
    pose proof (zlen_nonneg b1).
    eapply wp_on_image.
    { unfold in_memory, put_bytes. cbn [up_image im_mem].
      rewrite (set_bytes_window w (zlen data) address piece (zlen b1) bb b1'); try done; lia. }
    cbn. split; [done|]. exists b1'. split; [|done].
    rewrite Hd, app_assoc. rewrite <- zlen_app, ztake_app_exact. by rewrite set_bytes_app, Eb.
  - intros r s' (-> & Hc' & bb & Eb & ->). rewrite ztake_ge in Eb by lia. split_and!; [done|done|].
    congruence.
Qed.

Lemma wp_ask {A} (c : memory → K → A * K) s (Q : A → upload K → Prop) :
  (∀ r k, c (im_mem (up_image s)) (p_kern (up_proc s)) = (r, k) →
     Q r (mk_upload (mk_proc k (p_errno (up_proc s))) (up_image s))) → wp (ask_vm c) s Q.
Proof.
  intros HQ. unfold ask_vm. destruct (c (im_mem (up_image s)) (p_kern (up_proc s))) as [r k] eqn:E.
  eexists r, _. rewrite E. split; [done|]. by apply HQ.
Qed.

(** Read the next value of the command. *)
Ltac next_value :=
  eapply wp_with_value; [|eassumption|]; [apply reads_value; [lia|done]|].

Lemma wp_command_write address data rest out s im' :
  command_ok u_page_size (Write address data) → (length data < fuel)%nat → (8 < fuel)%nat →
  plain (up_image s) → execute fuel (Write address data) (up_image s) = Ret (tt, im') →
  connected (le_bytes 8 address ++ le_bytes 4 (zlen data) ++ data ++ rest) out (up_proc s) →
  wp (command_write fuel fd) s (λ ok s', ok = true ∧ connected rest out (up_proc s') ∧
    up_image s' = im').
Proof.
  intros (Ha & Han & Hd & Hp) Hf Hf8 Hpl Hx Hc. unfold command_write.
  assert (is_word 8 address) by (unfold is_word; lia).
  assert (is_word 4 (zlen data)) by (unfold is_word; lia).
  next_value. intros s1 Hc1 I1. next_value. intros s2 Hc2 I2. rewrite I1 in I2. clear s1 Hc1 I1.
  cbn [execute] in Hx. unfold bind at 1, in_memory, put_bytes in Hx.
  destruct (set_bytes address data (im_mem (up_image s))) as [m'|] eqn:Es; [|done].
  injection Hx as <-.
  pose proof (set_bytes_windows _ _ _ _ Es) as Hw'. rewrite Hpl in Hw'.
  destruct m' as [b' ws]. cbn in Hw'. subst ws. rewrite <- I2 in *.
  destruct (up_image s2) as [[b ws] r t] eqn:Ei. cbn in Hpl. unfold plain, no_windows in Hpl.
  cbn [im_mem m_windows] in Hpl. subst ws. cbn [im_mem im_result im_trace] in *.
  pose proof (set_bytes_mapped data address (mk_memory b []) (mk_memory b' []) eq_refl Ha Han Es) as Hmap.
  apply wp_bind, wp_ask. intros rm k E. rewrite Ei in E. cbn [im_mem] in E.
  apply remap_law in E as (R1 & R2 & R3 & R4). destruct (R4 ltac:(lia) Hmap) as (w & -> & Hw0 & Hwn & Hwp).
  pose proof (conn_kernel _ _ _ k (p_errno (up_proc s2)) Hc2 R1 R2 R3) as Hc3.
  destruct (window_of address (zlen data) w ltac:(lia) Hp) as (Ewin & Hsz & Hshr).
  set (win := remap_window u_page_size w address (zlen data)) in *.
  apply wp_bind. rewrite Ei. eapply wp_on_image; [reflexivity|]. cbn [up_proc m_bytes m_windows im_mem].
  apply wp_bind, wp_ask. intros wr k' E. cbn [up_image im_mem up_proc p_kern im_result im_trace] in E |- *.
  apply mprotect_law in E as (P1 & P2 & P3 & P4).
  pose proof (conn_kernel _ _ _ k' (p_errno (up_proc s2)) Hc3 P1 P2 P3) as Hc4.
  assert (wr = true) as ->.
  { apply P4; [done|]. intros i Hi. unfold byte_at. cbn [m_windows m_bytes]. rewrite Ewin.
    cbn [translate w_start w_size w_source]. unfold in_range.
    rewrite (proj2 (Z.leb_le _ _)), (proj2 (Z.ltb_lt _ _)) by lia. cbn [andb].
    replace (address + (w + i - w)) with (address + i) by lia. apply Hmap. lia. }
  cbn [negb]. apply wp_bind, wp_bind. rewrite Ewin.
  wp_call (wp_receive_data address data w (w_size win) rest out _ b b'); try done; try lia.
  intros rd s3 (-> & Hc5 & I5). cbn [fst snd negb]. apply wp_bind.
  eapply wp_on_image; [unfold log, modify; reflexivity|]. apply wp_ret. rewrite I5.
  apply wp_bind. eapply wp_on_image; [reflexivity|]. apply wp_ret.
  cbn [up_proc up_image im_mem m_windows m_bytes omap list_omap im_result im_trace].
  rewrite <- Ewin, Hshr. done.
Qed.

(** A memory operation at the end of a command. *)
Lemma wp_finish (m : M image unit) rest out s im im' :
  connected rest out (up_proc s) → up_image s = im → m im = Ret (tt, im') →
  wp (do! on_image m in ret true) s (λ ok s', ok = true ∧ connected rest out (up_proc s') ∧
    up_image s' = im').
Proof.
  intros Hc <- E. apply wp_bind. eapply wp_on_image; [exact E|]. by apply wp_ret.
Qed.

Lemma wp_command_threaded base slide symbols regions rest out s im' :
  let c := ApplyThreaded base slide symbols regions in
  command_ok u_page_size c → zlen (encode_command c) < Z.of_nat fuel →
  execute fuel c (up_image s) = Ret (tt, im') →
  connected (le_bytes 8 base ++ le_bytes 8 slide ++ le_bytes 2 (zlen symbols) ++ words symbols ++
             le_bytes 2 (zlen regions) ++ words regions ++ rest) out (up_proc s) →
  wp (command_apply_threaded fuel fd) s (λ ok s', ok = true ∧ connected rest out (up_proc s') ∧
    up_image s' = im').
Proof.
  intros c (Hb & Hs & Hn & Hm & Hsy & Hre) Hf Hx Hc. cbn [c encode_command] in Hf.
  rewrite !zlen_app, !zlen_words, !zlen_le_bytes in Hf by lia. change (zlen [_]) with 1 in Hf.
  pose proof (zlen_nonneg symbols). pose proof (zlen_nonneg regions).
  unfold command_apply_threaded.
  next_value. intros s1 Hc1 I1. next_value. intros s2 Hc2 I2. next_value. intros s3 Hc3 I3.
  eapply wp_with_value; [apply reads_values; [lia|done]|exact Hc3|]. intros s4 Hc4 I4.
  next_value. intros s5 Hc5 I5.
  eapply wp_with_value; [apply reads_values; [lia|done]|exact Hc5|]. intros s6 Hc6 I6.
  eapply wp_finish; [done|reflexivity|]. by rewrite I6, I5, I4, I3, I2, I1.
Qed.
Lemma wp_command_fixups header mach_header base rest out s im' :
  let c := ProcessFixups header mach_header base in
  command_ok u_page_size c → (8 < fuel)%nat → execute fuel c (up_image s) = Ret (tt, im') →
  connected (le_bytes 8 header ++ le_bytes 8 mach_header ++ le_bytes 8 base ++ rest) out (up_proc s) →
  wp (command_process_fixups fuel fd) s (λ ok s', ok = true ∧ connected rest out (up_proc s') ∧
    up_image s' = im').
Proof.
  intros c (Hh & Hm & Hb) Hf Hx Hc. unfold command_process_fixups.
  next_value. intros s1 Hc1 I1. next_value. intros s2 Hc2 I2. next_value. intros s3 Hc3 I3.
  eapply wp_finish; [done|reflexivity|]. by rewrite I3, I2, I1.
Qed.
Lemma s32_word prot : - 2 ^ 31 ≤ prot < 2 ^ 31 → s32 (prot mod 2 ^ 32) = prot.
Proof.
  intros Hp. unfold s32, u32. rewrite Z.mod_mod by lia.
  destruct (Z.ltb_spec (prot mod 2 ^ 32) (2 ^ 31)); Z.div_mod_to_equations; lia.
Qed.
Lemma le_bytes_mod n v : 0 ≤ n → le_bytes n (v mod 2 ^ (n * 8)) = le_bytes n v.
Proof.
  intros Hn. rewrite <- (le_bytes_le_value n (le_bytes n v)).
  - by rewrite le_value_le_bytes.
  - by apply zlen_le_bytes.
  - by apply le_bytes_byte.
Qed.
Lemma wp_command_protect address size prot rest out s im' :
  let c := Protect address size prot in
  command_ok u_page_size c → (8 < fuel)%nat → execute fuel c (up_image s) = Ret (tt, im') →
  connected (le_bytes 8 address ++ le_bytes 4 size ++ le_bytes 4 prot ++ rest) out (up_proc s) →
  wp (command_protect fuel fd) s (λ ok s', ok = true ∧ connected rest out (up_proc s') ∧
    up_image s' = im').
Proof.
  intros c (Ha & Hs & Hpr & Hpg) Hf Hx Hc. unfold command_protect. cbn [c execute] in Hx.
  destruct (mapped_check _ _ _) eqn:Em; [|done]. apply mapped_check_ok in Em.
  assert (is_word 4 (prot mod 2 ^ 32)) by (apply Z.mod_pos_bound; lia).
  rewrite <- (le_bytes_mod 4 prot) in Hc by lia. change (4 * 8) with 32 in Hc.
  next_value. intros s1 Hc1 I1. next_value. intros s2 Hc2 I2. next_value. intros s3 Hc3 I3.
  rewrite s32_word by done. rewrite <- I1, <- I2, <- I3 in *. clear s s1 s2 Hc Hc1 Hc2 I1 I2 I3.
  apply wp_bind, wp_ask. intros ok k E. apply mprotect_law in E as (P1 & P2 & P3 & P4).
  rewrite (P4 Hpg Em). apply wp_bind. eapply wp_on_image; [exact Hx|]. apply wp_ret.
  split_and!; [done| |done]. by apply (conn_kernel _ _ (up_proc s3)).
Qed.
Lemma wp_command_pointers address count rest out s im' :
  let c := ConstructFromPointers address count in
  command_ok u_page_size c → (8 < fuel)%nat → execute fuel c (up_image s) = Ret (tt, im') →
  connected (le_bytes 8 address ++ le_bytes 4 count ++ rest) out (up_proc s) →
  wp (command_construct_from_pointers fuel fd) s (λ ok s', ok = true ∧
    connected rest out (up_proc s') ∧ up_image s' = im').
Proof.
  intros c (Ha & Hn) Hf Hx Hc. unfold command_construct_from_pointers.
  next_value. intros s1 Hc1 I1. next_value. intros s2 Hc2 I2.
  eapply wp_finish; [done|reflexivity|]. by rewrite I2, I1.
Qed.
Lemma wp_command_offsets address count mach_header rest out s im' :
  let c := ConstructFromOffsets address count mach_header in
  command_ok u_page_size c → (8 < fuel)%nat → execute fuel c (up_image s) = Ret (tt, im') →
  connected (le_bytes 8 address ++ le_bytes 4 count ++ le_bytes 8 mach_header ++ rest) out (up_proc s) →
  wp (command_construct_from_offsets fuel fd) s (λ ok s', ok = true ∧
    connected rest out (up_proc s') ∧ up_image s' = im').
Proof.
  intros c (Ha & Hn & Hm) Hf Hx Hc. unfold command_construct_from_offsets.
  next_value. intros s1 Hc1 I1. next_value. intros s2 Hc2 I2. next_value. intros s3 Hc3 I3.
  eapply wp_finish; [done|reflexivity|]. by rewrite I3, I2, I1.
Qed.

(** Whatever the command, the receiver does what it means and answers. *)
Lemma wp_receive_command c rest out s im' :
  command_ok u_page_size c → zlen (encode_command c) < Z.of_nat fuel → (8 < fuel)%nat →
  plain (up_image s) → execute fuel c (up_image s) = Ret (tt, im') →
  connected (encode_command c ++ rest) out (up_proc s) →
  wp (receive_command fuel fd) s (λ ok s', ok = true ∧ connected rest (out ++ answer c) (up_proc s') ∧
    up_image s' = im').
Proof.
  intros Hok Hf Hf8 Hpl Hx Hc. unfold receive_command.
  destruct c as [address data|base slide symbols regions|header mh base|address size prot|address count
    |address count mh|]; cbn [encode_command answer] in Hc |- *; rewrite ?app_nil_r;
    rewrite <- ?app_assoc in Hc;
    (eapply wp_with_value; [|exact Hc|]; [apply reads_byte; [lia|split; reflexivity || discriminate]|]);
    intros s1 Hc1 I1; rewrite <- I1 in *; cbn [Z.eqb Pos.eqb].
  - apply (wp_command_write address data); try done. cbn [encode_command] in Hf. rewrite !zlen_app in Hf. unfold zlen in Hf. lia.
  - by apply (wp_command_threaded base slide symbols regions).
  - by apply (wp_command_fixups header mh base).
  - by apply (wp_command_protect address size prot).
  - by apply (wp_command_pointers address count).
  - by apply (wp_command_offsets address count mh).
  - wp_call (wp_write_ack fuel others rest out s1); [lia|done|]. intros ok s' (-> & Hc' & Hi).
    cbn in Hx. injection Hx as <-. done.
Qed.

Definition encode_all (cs : list command) : list Z := concat (encode_command <$> cs).
Definition answers (cs : list command) : list Z := concat (answer <$> cs).
Definition serve_body : unit → M (upload K) (unit + unit) := λ _,
  let! success := receive_command fuel fd in
  if success then ret (inl tt) else ret (inr tt).

(** The client hung up. *)
Lemma wp_receive_eof out s :
  (0 < fuel)%nat → connected [] out (up_proc s) →
  wp (receive_command fuel fd) s (λ ok s', ok = false ∧ connected [] out (up_proc s') ∧
    up_image s' = up_image s).
Proof.
  intros Hf Hc. unfold receive_command, with_value, read_value. apply wp_bind, wp_bind.
  wp_call (wp_read_eof fuel others 1 out local_variable s); [lia|done|done|].
  intros r s' (-> & Hc' & Hi). apply wp_ret, wp_ret. done.
Qed.

Lemma wp_serve_loop cs : ∀ n out s im',
  (length cs < n)%nat → Forall (command_ok u_page_size) cs →
  Forall (λ c, zlen (encode_command c) < Z.of_nat fuel) cs → (8 < fuel)%nat →
  plain (up_image s) → execute_all fuel cs (up_image s) = Ret (tt, im') →
  connected (encode_all cs) out (up_proc s) →
  wp (loop n serve_body tt) s (λ _ s', connected [] (out ++ answers cs) (up_proc s') ∧
    up_image s' = im').
Proof.
  induction cs as [|c cs IH]; intros [|n] out s im' Hn Hok Hlen Hf Hpl Hx Hc; cbn [length] in Hn;
    try lia; cbn [loop]; apply wp_bind; unfold serve_body at 1; apply wp_bind.
  - wp_call (wp_receive_eof out s); [lia|done|]. intros ok s' (-> & Hc' & Hi). apply wp_ret, wp_ret.
    unfold answers. cbn. rewrite app_nil_r. cbn in Hx. injection Hx as <-. done.
  - apply Forall_cons in Hok as [Hok Hoks]. apply Forall_cons in Hlen as [Hl Hls].
    cbn [execute_all] in Hx. unfold bind in Hx.
    destruct (execute fuel c (up_image s)) as [[[] im1]| | |] eqn:E1; try done.
    wp_call (wp_receive_command c (encode_all cs) out s im1); try done.
    intros ok s1 (-> & Hc1 & I1). apply wp_ret.
    wp_call (IH n (out ++ answer c) s1 im'); try done; [lia| |by rewrite I1|].
    + rewrite I1. by apply (execute_plain c _ tt im1 Hpl E1).
    + intros _ s' [Hc' Hi]. unfold answers in *. cbn. by rewrite app_assoc.
Qed.

Definition session_id (top bottom : Z) : list Z := le_bytes 8 top ++ le_bytes 8 bottom.
Lemma wp_serve_client cs top bottom out s im' :
  is_word 8 top → is_word 8 bottom → (16 < fuel)%nat → (length cs < fuel)%nat →
  Forall (command_ok u_page_size) cs →
  Forall (λ c, zlen (encode_command c) < Z.of_nat fuel) cs →
  plain (up_image s) → execute_all fuel cs (up_image s) = Ret (tt, im') →
  connected (session_id top bottom ++ encode_all cs) out (up_proc s) →
  wp (serve_client fuel fd top bottom) s (λ known s', known = true ∧
    connected [] (out ++ le_bytes 4 ACK_MAGIC ++ answers cs) (up_proc s') ∧ up_image s' = im').
Proof.
  intros Ht Hb Hf Hn Hok Hlen Hpl Hx Hc. unfold serve_client. apply wp_bind.
  assert (Hz : zlen (session_id top bottom) = 16).
  { unfold session_id. rewrite zlen_app, !zlen_le_bytes by lia. done. }
  rewrite <- Hz at 1. wp_call (wp_read_local fuel others (session_id top bottom) (encode_all cs) out s).
  { unfold zlen in Hz. lia. } { done. }
  intros r s1 (-> & Hc1 & I1). cbn [fst snd negb]. unfold session_id.
  rewrite (zslice_mid [] (le_bytes 8 top) (le_bytes 8 bottom)) by (done || (rewrite zlen_le_bytes by lia; done)).
  rewrite <- (app_nil_r (le_bytes 8 bottom)) at 1.
  rewrite (zslice_mid (le_bytes 8 top) (le_bytes 8 bottom) []) by (rewrite ?zlen_le_bytes by lia; done).
  rewrite !le_value_le_bytes, !Z.mod_small by done || lia. rewrite !Z.eqb_refl. cbn [negb orb].
  apply wp_bind. wp_call (wp_write_ack fuel others (encode_all cs) out s1); [lia|done|].
  intros ok s2 (-> & Hc2 & I2). cbn [negb]. apply wp_bind.
  wp_call (wp_serve_loop cs fuel (out ++ le_bytes 4 ACK_MAGIC) s2 im'); try done;
    [lia|by rewrite I2, I1|by rewrite I2, I1|].
  intros _ s3 [Hc3 I3]. apply wp_ret. by rewrite <- app_assoc in Hc3.
Qed.

(** A client that does not know the session id. *)
Definition stranger (top bottom : Z) (bs : list Z) : Prop := ztake 16 bs ≠ session_id top bottom.
Lemma wp_serve_stranger (I : upload K → Prop) bs top bottom out s :
  stranger top bottom bs → Forall is_byte bs → (16 < fuel)%nat → connected bs out (up_proc s) →
  keeps I (frida_read_chunk fuel fd 16 local_variable) → I s →
  wp (serve_client fuel fd top bottom) s (λ known s', known = false ∧
    (∃ rest, connected rest out (up_proc s')) ∧ up_image s' = up_image s ∧ I s').
Proof.
  intros Hst Hby Hf Hc HI HIs. unfold serve_client. apply wp_bind. pose proof (zlen_nonneg bs).
  eapply wp_keeps; [|exact HI|exact HIs].
  destruct (decide (zlen bs < 16)) as [Hsh|Hlg].
  { wp_call (wp_read_short fuel others bs out s 16); [done|unfold zlen in Hsh; lia|done|].
    intros r s' (-> & Hc' & Hi) HI'. cbn [negb]. apply wp_ret. eauto. }
  assert (Hz : zlen (ztake 16 bs) = 16) by (rewrite zlen_ztake; lia).
  rewrite <- (ztake_zdrop 16 bs) in Hc. rewrite <- Hz at 1.
  wp_call (wp_read_local fuel others (ztake 16 bs) (zdrop 16 bs) out s); [unfold zlen in Hz; lia|done|].
  intros r s' (-> & Hc' & Hi) HI'. cbn [fst snd negb].
  destruct (orb _ _) eqn:E; [apply wp_ret; eauto|]. exfalso. apply Hst.
  apply orb_false_iff in E as [E1 E2]. apply negb_false_iff, Z.eqb_eq in E1, E2.
  assert (Hby' : Forall is_byte (ztake 16 bs)) by by apply Forall_take.
  rewrite <- (ztake_zdrop 8 (ztake 16 bs)). unfold session_id. rewrite <- E1, <- E2.
  unfold zslice. rewrite !le_bytes_le_value.
  - f_equal. symmetry. apply ztake_ge. rewrite zlen_zdrop. lia.
  - rewrite zlen_ztake, zlen_zdrop. lia.
  - by apply Forall_take, Forall_drop.
  - rewrite zlen_ztake, zlen_zdrop. lia.
  - by apply Forall_take, Forall_drop.
Qed.
End commands.
