(* ===== verification/UploadClaims.v ===== *)
(** What the upload receiver promises: the commands of the client that knows
    the session id are executed in order, exactly once, whatever the sizes of
    the pieces its bytes arrive in. *)
From S2P Require Import Prelude Posix ElfParser Fixups FixupsCorrect FixupsClaims Upload UploadCorrect.

(** Nothing looks at the record of what was done. *)
Section trace.
Context {K : Type} `{UploadKernel K} `{UploadApi}.
Definition after (t : list upload_event) (im : image) : image :=
  mk_image (im_mem im) (im_result im) (t ++ im_trace im).
Definition blind {A} (m : M image A) : Prop := ∀ t im a im',
  m im = Ret (a, im') → m (after t im) = Ret (a, after t im').
Lemma blind_ret {A} (a : A) : blind (ret a).
Proof. by intros t im b im' [= -> ->]. Qed.
Lemma blind_bind {A B} (m : M image A) (f : A → M image B) :
  blind m → (∀ a, blind (f a)) → blind (let! a := m in f a).
Proof.
  intros Hm Hf t im b im' E. unfold bind in *. destruct (m im) as [[a im1]| | |] eqn:Em; try done.
  rewrite (Hm t _ _ _ Em). by apply Hf.
Qed.
Lemma blind_in_memory {A} (m : M memory A) : blind (in_memory m).
Proof.
  intros t im a im' E. unfold in_memory in *. cbn. destruct (m (im_mem im)) as [[b mem]| | |]; try done.
  by injection E as -> <-.
Qed.
Lemma blind_log e : blind (log e).
Proof. intros t im [] im' [= <-]. unfold log, modify, after. cbn. by rewrite app_assoc. Qed.
Lemma blind_construct f : blind (construct f).
Proof.
  intros t im a im' E. unfold construct in *. destruct (f =? 0); [done|]. cbn in E |- *.
  destruct (u_constructor f (im_result im) (im_mem im)) as [r m]. injection E as <- <-.
  unfold after. cbn. by rewrite app_assoc.
Qed.
Lemma blind_for_range {A R} n (body : Z → A → M image (A + R)) :
  (∀ i a, blind (body i a)) → ∀ i a, blind (for_range n i body a).
Proof.
  intros Hb. induction n as [|n IH]; intros i a; cbn [for_range]; [apply blind_ret|].
  apply blind_bind; [apply Hb|]. intros [b|v]; [apply IH|apply blind_ret].
Qed.
Lemma blind_for_all {A} n (body : Z → A → M image A) a : (∀ i a, blind (body i a)) → blind (for_all n body a).
Proof.
  intros Hb. apply blind_bind; [|intros [b|[]]; apply blind_ret]. apply blind_for_range. intros i b.
  apply blind_bind; [apply Hb|intros c; apply blind_ret].
Qed.
Lemma blind_execute_all fuel cs : blind (execute_all fuel cs).
Proof.
  induction cs as [|c cs IH]; [apply blind_ret|]. apply blind_bind; [|intros _; exact IH].
  destruct c as [address data| | |address size prot| | |]; cbn [execute].
  - apply blind_bind; [apply blind_in_memory|intros _; apply blind_log].
  - apply blind_in_memory.
  - apply blind_in_memory.
  - intros t im a im' E. cbn. destruct (mapped_check _ _ _); [|done]. by apply blind_log.
  - apply blind_for_all. intros i a. apply blind_bind; [apply blind_in_memory|apply blind_construct].
  - apply blind_for_all. intros i a. apply blind_bind; [apply blind_in_memory|].
    intros o. apply blind_construct.
  - apply blind_ret.
Qed.
End trace.

(** ** The clients

    The documented behaviour of accept: [k_pending] is what the clients that
    connect will send, in the order in which they are accepted.  Accepting one,
    reading from it and closing it sends nothing. *)
Class AcceptLaws (K : Type) `{KernelLaws K} `{!UploadKernel K} (listener : Z) := {
  k_pending : K → list (list Z);
  accept_client k fd k' : u_accept listener k = (SysOk fd, k') → UploadLaws K fd;
  accept_ok k fd k' : u_accept listener k = (SysOk fd, k') → k_pending k = k_rest k' fd :: k_pending k';
  accept_err k e k' : u_accept listener k = (SysErr e, k') →
    k_pending k' = k_pending k ∧ (k_pending k ≠ [] → e = EINTR);
  accept_frame k r k' : u_accept listener k = (r, k') → ∀ d, k_written k' d = k_written k d;
  signals_accept k r k' : u_accept listener k = (r, k') →
    (k_signals k' + interrupted r ≤ k_signals k)%nat;
  pending_read fd n k r k' : k_read fd n k = (r, k') → k_pending k' = k_pending k;
  pending_close fd k r k' : k_close fd k = (r, k') → k_pending k' = k_pending k
}.

Section receive.
Context {K : Type} {listener : Z} `{AcceptLaws K listener} `{UploadApi}.
Context (fuel : nat).

(** The clients still to come, and what was sent so far. *)
Record queue (clients : list (list Z)) (sent : Z → list Z) (p : proc K) : Prop := {
  qu_pending : k_pending (p_kern p) = clients;
  qu_sent d : k_written (p_kern p) d = sent d;
  qu_signals : (k_signals (p_kern p) < fuel)%nat
}.

Lemma wp_accept bs clients sent p :
  queue (bs :: clients) sent p →
  wp (nointr fuel (u_accept listener)) p (λ r p', ∃ fd, r = Some fd ∧ UploadLaws K fd ∧
    k_rest (p_kern p') fd = bs ∧ queue clients sent p').
Proof.
  intros [Hp Ho Hs].
  wp_call (wp_nointr (λ k, k_pending k = bs :: clients ∧ ∀ d, k_written k d = sent d)); [| |done|done|].
  - apply signals_accept.
  - intros k k' [Hp' Ho'] E. destruct (accept_err _ _ _ E) as [-> _]. split; [done|].
    intros d. rewrite <- Ho'. by eapply accept_frame.
  - intros r p' (k & [Hp' Ho'] & Hs' & E). destruct r as [fd|].
    + exists fd. pose proof (accept_ok _ _ _ E) as Hq. rewrite Hp' in Hq. injection Hq as Hb Hc.
      split_and!; [done|by eapply accept_client|done|]. constructor; [done| |lia].
      intros d. rewrite <- Ho'. by eapply accept_frame.
    + destruct E as (e & E & _ & Hne). apply accept_err in E as [_ He]. destruct Hne. apply He. by rewrite Hp'.
Qed.

Lemma wp_api_close f clients sent s :
  queue clients sent (up_proc s) →
  wp (api_close f) s (λ _ s', queue clients sent (up_proc s') ∧
    up_image s' = mk_image (im_mem (up_image s)) (im_result (up_image s))
                    (im_trace (up_image s) ++ [FdClosed f])).
Proof.
  intros [Hp Ho Hs]. unfold api_close. apply wp_bind. unfold with_proc, syscall.
  destruct (k_close f (p_kern (up_proc s))) as [r k] eqn:E.
  pose proof (close_frame _ _ _ _ E) as Hw. pose proof (signals_close _ _ _ _ E) as Hsg.
  pose proof (pending_close _ _ _ _ E) as Hpc.
  destruct r as [u|e]; (eexists _, _; split; [cbn; rewrite E; reflexivity|]); cbn;
    (eapply wp_on_image; [reflexivity|]); cbn;
    (split; [constructor; cbn; [congruence|intros d; by rewrite Hw|lia]|done]).
Qed.

(** Reading leaves the other clients waiting. *)
Lemma keeps_pending clients fd n :
  keeps (λ s, k_pending (p_kern (up_proc s)) = clients)
    (frida_read_chunk (K := K) fuel fd n local_variable).
Proof.
  unfold frida_read_chunk. apply keeps_loop. intros buffer. keeps_step; [apply keeps_ret|].
  apply keeps_bind; [|intros [[|b bs]|]; keeps_auto].
  intros s a s' Hs E. unfold with_proc in E.
  destruct (nointr fuel _ (up_proc s)) as [[r p]| | |] eqn:En; try done. injection E as <- <-. cbn.
  revert En. apply (keeps_loop (λ p, k_pending (p_kern p) = clients)); [|exact Hs]. intros _.
  apply keeps_bind.
  - intros q b q' Hq Eb. unfold syscall in Eb.
    destruct (k_read fd (n - zlen buffer) (p_kern q)) as [v k] eqn:Er.
    pose proof (pending_read _ _ _ _ _ Er) as Hk. destruct v; injection Eb as <- <-; cbn; congruence.
  - intros [v|]; [apply keeps_ret|]. apply keeps_bind; [by intros q b q' Hq [= <- <-]|].
    intros e. destruct (e =? EINTR); apply keeps_ret.
Qed.

(** One iteration of the accept loop with a client that does not know the id. *)
Notation turn := (λ top bottom, λ _ : unit,
  let! res := with_proc (nointr fuel (u_accept listener)) in
  match res with
  | None => ret (inr tt)
  | Some client_fd =>
      let! known := serve_client fuel client_fd top bottom in
      do! api_close client_fd in
      if known then ret (inr tt) else ret (inl tt)
  end).
Lemma wp_stranger top bottom bs clients sent s :
  stranger top bottom bs → Forall is_byte bs → (16 < fuel)%nat → queue (bs :: clients) sent (up_proc s) →
  wp (turn top bottom tt) s (λ r s', ∃ fd, r = inl tt ∧ queue clients sent (up_proc s') ∧
    up_image s' = mk_image (im_mem (up_image s)) (im_result (up_image s))
                    (im_trace (up_image s) ++ [FdClosed fd])).
Proof.
  intros Hst Hby Hf Hq. destruct s as [p im]. cbn [up_proc up_image] in *. apply wp_bind.
  destruct (wp_accept _ _ _ _ Hq) as (r & p1 & Er & fd & -> & Hl & Hrest & [Hp Hsent Hsig]).
  exists (Some fd), (mk_upload p1 im). split; [unfold with_proc; cbn [up_proc]; by rewrite Er|].
  apply wp_bind.
  wp_call (wp_serve_stranger (fd := fd) fuel sent (λ s, k_pending (p_kern (up_proc s)) = clients) bs top
    bottom (sent fd) (mk_upload p1 im)); [done|done|done|by constructor|apply keeps_pending|done|].
  intros known s2 (-> & (rest & [_ Ho Hs Hd]) & I2 & Hp2). apply wp_bind.
  wp_call (wp_api_close fd clients sent s2).
  { constructor; [done| |done]. intros d. destruct (decide (d = fd)) as [->|]; [done|by apply Hd]. }
  intros _ s3 [Hq3 I3]. apply wp_ret. exists fd. rewrite I3, I2. done.
Qed.

Lemma wp_known top bottom cs clients sent s im' :
  is_word 8 top → is_word 8 bottom → (16 < fuel)%nat → (length cs < fuel)%nat →
  Forall (command_ok u_page_size) cs → Forall (λ c, zlen (encode_command c) < Z.of_nat fuel) cs →
  m_windows (im_mem (up_image s)) = [] → execute_all fuel cs (up_image s) = Ret (tt, im') →
  queue ((session_id top bottom ++ encode_all cs) :: clients) sent (up_proc s) →
  wp (turn top bottom tt) s (λ r s', ∃ fd, r = inr tt ∧
    (∀ d, k_written (p_kern (up_proc s')) d =
       sent d ++ if bool_decide (d = fd) then le_bytes 4 ACK_MAGIC ++ answers cs else []) ∧
    up_image s' = mk_image (im_mem im') (im_result im') (im_trace im' ++ [FdClosed fd])).
Proof.
  intros Ht Hb Hf Hn Hok Hlen Hw Hx Hq. destruct s as [p im]. cbn [up_proc up_image] in *. apply wp_bind.
  destruct (wp_accept _ _ _ _ Hq) as (r & p1 & Er & fd & -> & Hl & Hrest & [Hp Hsent Hsig]).
  exists (Some fd), (mk_upload p1 im). split; [unfold with_proc; cbn [up_proc]; by rewrite Er|].
  apply wp_bind.
  wp_call (wp_serve_client (fd := fd) fuel sent cs top bottom (sent fd) (mk_upload p1 im) im'); try done.
  intros known s2 (-> & [_ Ho _ Hd] & I2). apply wp_bind. unfold api_close. apply wp_bind.
  unfold with_proc, syscall. destruct (k_close fd (p_kern (up_proc s2))) as [v k] eqn:E.
  pose proof (close_frame _ _ _ _ E) as Hwr.
  destruct v as [u|e]; (eexists _, _; split; [cbn; rewrite E; reflexivity|]); cbn;
    (eapply wp_on_image; [reflexivity|]); apply wp_ret; exists fd; cbn; rewrite I2; (split_and!; [done| |done]);
    intros d; rewrite Hwr; case_bool_decide as Hdf; subst; rewrite ?app_nil_r; auto.
Qed.

(** The whole accept loop. *)
Lemma wp_turns top bottom strangers cs clients : ∀ n s im' (Q : unit → upload K → Prop),
  k_pending (p_kern (up_proc s)) = strangers ++ (session_id top bottom ++ encode_all cs) :: clients →
  Forall (stranger top bottom) strangers → Forall (Forall is_byte) strangers →
  (k_signals (p_kern (up_proc s)) < fuel)%nat → (16 < fuel)%nat → (length cs < fuel)%nat →
  (length strangers < n)%nat →
  is_word 8 top → is_word 8 bottom → Forall (command_ok u_page_size) cs →
  Forall (λ c, zlen (encode_command c) < Z.of_nat fuel) cs →
  m_windows (im_mem (up_image s)) = [] →
  execute_all fuel cs (mk_image (im_mem (up_image s)) (im_result (up_image s)) []) = Ret (tt, im') →
  (∀ rejected fd s', length rejected = length strangers →
     (∀ d, k_written (p_kern (up_proc s')) d = k_written (p_kern (up_proc s)) d ++
        if bool_decide (d = fd) then le_bytes 4 ACK_MAGIC ++ answers cs else []) →
     up_image s' = mk_image (im_mem im') (im_result im')
       (im_trace (up_image s) ++ (FdClosed <$> rejected) ++ im_trace im' ++ [FdClosed fd]) → Q tt s') →
  wp (loop n (turn top bottom) tt) s Q.
Proof.
  induction strangers as [|bs strangers IH]; intros [|n] s im' Q Hp Hst Hby Hs Hf Hn Hm Ht Hb Hok Hlen
    Hw Hx HQ; cbn [length] in Hm; try lia; cbn [loop]; apply wp_bind.
  - wp_call (wp_known top bottom cs clients (k_written (p_kern (up_proc s))) s
      (after (im_trace (up_image s)) im')); try done.
    + apply (blind_execute_all _ _ (im_trace (up_image s))) in Hx. unfold after in Hx at 1. cbn in Hx.
      rewrite app_nil_r in Hx. by destruct (up_image s).
    + intros r s' (fd & -> & Hsent & I). apply wp_ret, (HQ [] fd); [done|done|].
      rewrite I. unfold after. cbn. by rewrite <- app_assoc.
  - apply Forall_cons in Hst as [Hb1 Hst]. apply Forall_cons in Hby as [Hb2 Hby].
    wp_call (wp_stranger top bottom bs (strangers ++ (session_id top bottom ++ encode_all cs) :: clients)
      (k_written (p_kern (up_proc s))) s); try done.
    intros r s1 (fd1 & -> & [Hp1 Ho1 Hs1] & I1). apply (IH n s1 im'); try done; [lia|by rewrite I1..|].
    intros rejected fd s' Hr Hsent I. apply (HQ (fd1 :: rejected) fd); [cbn; lia|intros d; by rewrite Hsent, Ho1|].
    rewrite I, I1. cbn. by rewrite <- app_assoc.
Qed.
End receive.

(** C7: the receiver serves the client that knows the session id, and no other.
    Clients connect one after the other; those that come first and do not begin
    with the session id (or hang up before all of it) are closed, and nothing is
    sent to them, nothing written and nothing run.  The first one that sends the
    id and then a list of commands, each of which can be carried out, before it
    hangs up, has them executed in order: [frida_receive] finishes with the result
    of the constructors, memory is what the commands make of it, each write was
    flushed, this client was sent one acknowledgement for its id and one for each
    CHECK command (the other commands are not acknowledged), and its connection
    and the listener were closed. *)
Theorem receive_runs_commands {K} {listener} `{AcceptLaws K listener} `{UploadApi} fuel top bottom
    strangers cs clients (s : upload K) im' :
  k_pending (p_kern (up_proc s)) = strangers ++ (session_id top bottom ++ encode_all cs) :: clients →
  Forall (stranger top bottom) strangers → Forall (Forall is_byte) strangers →
  (k_signals (p_kern (up_proc s)) < fuel)%nat → (16 < fuel)%nat → (length cs < fuel)%nat →
  (length strangers < fuel)%nat →
  is_word 8 top → is_word 8 bottom → Forall (command_ok u_page_size) cs →
  Forall (λ c, zlen (encode_command c) < Z.of_nat fuel) cs →
  m_windows (im_mem (up_image s)) = [] →
  execute_all fuel cs (mk_image (im_mem (up_image s)) (im_result (up_image s)) []) = Ret (tt, im') →
  wp (frida_receive fuel listener top bottom) s (λ result s', ∃ rejected fd,
    length rejected = length strangers ∧
    result = im_result im' ∧ im_mem (up_image s') = im_mem im' ∧
    im_trace (up_image s') = im_trace (up_image s) ++ (FdClosed <$> rejected) ++ im_trace im' ++
      [FdClosed fd; FdClosed listener] ∧
    ∀ d, k_written (p_kern (up_proc s')) d = k_written (p_kern (up_proc s)) d ++
      if bool_decide (d = fd) then le_bytes 4 ACK_MAGIC ++ answers cs else []).
Proof.
  intros Hp Hst Hby Hs Hf Hn Hm Ht Hb Hok Hlen Hw Hx. unfold frida_receive. apply wp_bind.
  eapply (wp_turns fuel top bottom strangers cs clients _ s im'); try done.
  intros rejected fd s1 Hr Hsent I1. apply wp_bind. unfold api_close at 1. apply wp_bind.
  unfold with_proc, syscall. destruct (k_close listener (p_kern (up_proc s1))) as [v k] eqn:E.
  pose proof (close_frame _ _ _ _ E) as Hwr.
  destruct v as [u|e]; (eexists _, _; split; [cbn; rewrite E; reflexivity|]); cbn;
    (eapply wp_on_image; [reflexivity|]); apply wp_gets; exists rejected, fd; cbn; rewrite I1;
    (split_and!; [done|done|done| |intros d; by rewrite Hwr]);
    cbn; by rewrite <- !app_assoc.
Qed.

(** ** A device with one connection at a time

    The client on descriptor 5 sends [so_stream], those in [so_pending] come after
    it; transfers are at most three bytes long and the next [so_signals] of them
    are interrupted. *)
Record socket := mk_socket {
  so_stream : list Z; so_pos : N; so_out : list Z; so_signals : nat; so_pending : list (list Z)
}.
Definition CLIENT : Z := 5.
Definition so_read (fd n : Z) (k : socket) : sysret (list Z) * socket :=
  if negb (fd =? CLIENT) then (SysErr EBADF, k)
  else
    match so_signals k with
    | S m => (SysErr EINTR, mk_socket (so_stream k) (so_pos k) (so_out k) m (so_pending k))
    | O =>
        let bs := ztake (Z.min 3 n) (zdrop (Z.of_N (so_pos k)) (u8 <$> so_stream k)) in
        (SysOk bs, mk_socket (so_stream k) (so_pos k + Z.to_N (zlen bs)) (so_out k) O (so_pending k))
    end.
Definition so_write (fd : Z) (bs : list Z) (k : socket) : sysret Z * socket :=
  if negb (fd =? CLIENT) then (SysErr EBADF, k)
  else
    match so_signals k with
    | S m => (SysErr EINTR, mk_socket (so_stream k) (so_pos k) (so_out k) m (so_pending k))
    | O => (SysOk (Z.min 3 (zlen bs)),
            mk_socket (so_stream k) (so_pos k) (so_out k ++ ztake (Z.min 3 (zlen bs)) bs) O (so_pending k))
    end.
#[export] Instance socket_kernel : Kernel socket := {
  k_open _ _ _ k := (SysErr ENOENT, k);
  k_read := so_read;
  k_write := so_write;
  k_close _ k := (SysOk tt, k);
  k_lseek _ _ _ k := (SysErr EINVAL, k);
  k_getdents _ _ k := (SysErr EBADF, k)
}.
Definition on_client {A} (fd : Z) (a b : A) : A := if fd =? CLIENT then a else b.

#[export] Instance socket_laws : KernelLaws socket.
Proof.
  refine {| k_content k fd := on_client fd (u8 <$> so_stream k) [];
            k_pos k fd := on_client fd (Z.of_N (so_pos k)) 0;
            k_written k fd := on_client fd (so_out k) [];
            k_signals := so_signals |}; cbn; unfold on_client.
  - intros k fd. destruct (fd =? CLIENT); lia.
  - intros fd n k bs k' E. unfold so_read in E. destruct (fd =? CLIENT); [|done]. cbn in E.
    destruct (so_signals k); [|done]. injection E as <- <-. cbn.
    set (r := zdrop (Z.of_N (so_pos k)) (u8 <$> so_stream k)).
    pose proof (zlen_ztake (Z.min 3 n) r) as Hl. pose proof (zlen_nonneg r) as Hr. split_and!.
    + lia.
    + rewrite Hl. destruct (decide (Z.min 3 n ≤ 0)).
      { rewrite (ztake_le (Z.min 3 n)) by done. rewrite ztake_le by lia. done. }
      destruct (decide (Z.min 3 n ≤ zlen r)).
      * by replace (Z.max 0 (Z.min (Z.min 3 n) (zlen r))) with (Z.min 3 n) by lia.
      * rewrite !ztake_ge by lia. done.
    + intros Hnil Hn. apply (f_equal zlen) in Hnil. rewrite Hl in Hnil.
      unfold zlen at 2 in Hnil. cbn in Hnil. unfold r in *. rewrite zlen_zdrop in *. lia.
    + rewrite N2Z.inj_add, Z2N.id by apply zlen_nonneg. done.
  - intros fd n k e k' E. unfold so_read in E. destruct (fd =? CLIENT); cbn in E.
    + destruct (so_signals k); [done|]. injection E as <- <-. done.
    + injection E as <- <-. done.
  - intros fd n k r k' E. unfold so_read in E. destruct (Z.eqb_spec fd CLIENT); cbn in E.
    + destruct (so_signals k); injection E as <- <-; (split; [done|]);
        intros fd' Hne; destruct (Z.eqb_spec fd' CLIENT); congruence.
    + injection E as <- <-. done.
  - intros fd n k bs k' E. unfold so_read in E. destruct (fd =? CLIENT); [|done]. cbn in E.
    destruct (so_signals k); [|done]. injection E as <- <-.
    apply Forall_take, Forall_drop, Forall_fmap, Forall_true. intros b. apply u8_range.
  - intros fd bs k n k' E. unfold so_write in E. destruct (fd =? CLIENT); [|done]. cbn in E.
    destruct (so_signals k); [|done]. injection E as <- <-. cbn. pose proof (zlen_nonneg bs).
    split_and!; [lia|lia| |done]. destruct bs; [done|]. intros _. rewrite zlen_cons in *.
    pose proof (zlen_nonneg bs). lia.
  - intros fd bs k e k' E. unfold so_write in E. destruct (fd =? CLIENT); cbn in E.
    + destruct (so_signals k); [done|]. injection E as <- <-. done.
    + injection E as <- <-. done.
  - intros fd bs k r k' E fd' Hne. unfold so_write in E. destruct (Z.eqb_spec fd CLIENT); cbn in E.
    + destruct (Z.eqb_spec fd' CLIENT); [congruence|]. done.
    + injection E as <- <-. done.
  - done.
  - intros fd off wh k e k' [= <- <-]. done.
  - intros fd off wh k r k' [= _ <-]. done.
  - intros fd k r k' [= _ <-]. done.
  - intros p fl m k r k' [= <- <-]. cbn. lia.
  - intros fd n k r k' E. unfold so_read in E. destruct (fd =? CLIENT); cbn in E.
    + destruct (so_signals k); injection E as <- <-; cbn; lia.
    + injection E as <- <-. cbn. lia.
  - intros fd bs k r k' E. unfold so_write in E. destruct (fd =? CLIENT); cbn in E.
    + destruct (so_signals k); injection E as <- <-; cbn; lia.
    + injection E as <- <-. cbn. lia.
  - intros fd k r k' [= <- <-]. cbn. lia.
  - intros fd off wh k r k' [= <- <-]. cbn. lia.
  - intros fd n k r k' [= <- <-]. cbn. lia.
Defined.

(** Pages of 16 bytes; a constructor counts itself. *)
#[export] Instance device : UploadKernel socket := {
  u_accept _ k :=
    match so_pending k with
    | [] => (SysErr EBADF, k)
    | bs :: r => (SysOk CLIENT, mk_socket bs 0 (so_out k) (so_signals k) r)
    end;
  u_page_size := 16;
  u_remap size address m k := (if mapped_check m address size then Some 0x8000 else None, k);
  u_mprotect address size _ m k := (mapped_check m address size, k);
  u_constructor _ r m := (r + 1, m)
}.
#[export] Instance device_laws : UploadLaws socket CLIENT.
Proof.
  constructor.
  - reflexivity.
  - intros n k e k' E. cbn in E. unfold so_read in E. cbn in E.
    destruct (so_signals k); [done|]. by injection E.
  - intros bs k e k' E. cbn in E. unfold so_write in E. cbn in E.
    destruct (so_signals k); [done|]. by injection E.
  - intros bs k n k' E. cbn in E. unfold so_write in E. cbn in E.
    destruct (so_signals k); [|done]. injection E as <- <-. done.
  - intros size address m k r k' [= <- <-]. split_and!; try done. intros Hs Hm.
    apply mapped_check_ok in Hm. rewrite Hm. exists 0x8000. cbn. split_and!; done || lia.
  - intros address size prot m k r k' [= <- <-]. split_and!; try done. intros _ Hm.
    by apply mapped_check_ok.
  - done.
Defined.

#[export] Instance device_accept : AcceptLaws socket 3.
Proof.
  refine {| k_pending k := fmap (M := list) u8 <$> so_pending k |}; cbn.
  - intros k fd k' E. destruct (so_pending k); [done|]. injection E as <- <-. apply device_laws.
  - intros k fd k' E. destruct (so_pending k); [done|]. injection E as <- <-. done.
  - intros k e k' E. destruct (so_pending k) eqn:Ep; [|done]. injection E as <- <-. by rewrite Ep.
  - intros k r k' E. by destruct (so_pending k); injection E as <- <-.
  - intros k r k' E. destruct (so_pending k); injection E as <- <-; cbn; lia.
  - intros fd n k r k' E. unfold so_read in E. destruct (fd =? CLIENT), (so_signals k); cbn in E;
      by injection E as <- <-.
  - by intros fd k r k' [= _ <-].
Defined.

(** A session: two words at 0x1000 and a table of one constructor. *)
Definition session : list command :=
  [Write 0x1000 (le_bytes 8 (threaded_word (TRebase 0 0x40) 0) ++ le_bytes 8 0x7777);
   CheckAlive; ApplyThreaded 0 0x100 [] [0x1000]; Protect 0x1000 16 5;
   ConstructFromPointers 0x1008 1].
(** First come a client that hangs up and one with another id. *)
Definition intruders : list (list Z) := [[7; 7]; session_id 11 23 ++ encode_all session].
Definition session_clients : socket :=
  mk_socket [] 0 [] 2 (intruders ++ [session_id 11 22 ++ encode_all session; [9]]).
Definition fresh_memory : memory := map_zeros 0x1000 16 (mk_memory ∅ []).
Definition session_start : upload socket :=
  mk_upload (mk_proc session_clients 0) (mk_image fresh_memory 0 []).
Definition session_end : image :=
  match execute_all 100 session (up_image session_start) with
  | Ret (_, im) => im
  | _ => up_image session_start
  end.

Lemma receive_runs_commands_witness :
  (im_result session_end = 1 ∧
   im_trace session_end = [Flushed 0x1000 16; Protected 0x1000 16 5; Constructed 0x7777] ∧
   peek 8 0x1000 (im_mem session_end) = Ret (0x140, im_mem session_end)) ∧
  wp (frida_receive 100 3 11 22) session_start (λ result s', ∃ rejected fd,
    length rejected = length intruders ∧
    result = im_result session_end ∧ im_mem (up_image s') = im_mem session_end ∧
    im_trace (up_image s') = [] ++ (FdClosed <$> rejected) ++ im_trace session_end ++
      [FdClosed fd; FdClosed 3] ∧
    ∀ d, k_written (p_kern (up_proc s')) d = k_written session_clients d ++
      if bool_decide (d = fd) then le_bytes 4 ACK_MAGIC ++ answers session else []).
Proof.
  split; [split_and!; vm_compute; reflexivity|].
  apply (receive_runs_commands 100 11 22 intruders session [[9]] session_start session_end).
  - vm_compute. reflexivity.
  - repeat constructor; unfold stranger; vm_compute; discriminate.
  - repeat (apply Forall_nil; exact I) || (apply Forall_cons; split); split; (vm_compute; reflexivity || discriminate).
  - vm_compute. lia.
  - lia.
  - vm_compute. lia.
  - vm_compute. lia.
  - split; [lia|reflexivity].
  - split; [lia|reflexivity].
  - repeat constructor; vm_compute; reflexivity || discriminate || (split; reflexivity || discriminate).
  - repeat constructor; vm_compute; reflexivity.
  - reflexivity.
  - vm_compute. reflexivity.
Defined.
