(* ===== verification/Records.v ===== *)
(** Records of bytes: C structures that are filled field by field.

    A structure in raw memory is a block, a [list Z] of its size, and a member
    is a range of it: [load] and [store] are the accesses of the C code, which
    crash outside the block, [fld] reads an unsigned member.  [same_outside]
    is the frame condition of code that fills a part of a record.  [c_layout]
    computes the offsets a C compiler gives the members of a structure. *)
From S2P Require Import Prelude.

(** Group a call with the one that uses its result. *)
Lemma wp_reassoc {S A B C} (m : M S A) (f : A → M S B) (g : B → M S C) s Q :
  wp (bind (bind m f) g) s Q → wp (bind m (λ a, bind (f a) g)) s Q.
Proof. unfold wp, bind. by destruct (m s) as [[? ?]| | |]. Qed.

Section access.
Context {S : Type}.

(** [n] bytes at [b + off]. *)
Definition load (off n : Z) (b : list Z) : M S (list Z) :=
  if (0 <=? off) && (0 <=? n) && (off + n <=? zlen b) then ret (zslice off (off + n) b)
  else crash.

(** [memcpy (b + off, bs, length bs)]. *)
Definition store (off : Z) (bs b : list Z) : M S (list Z) :=
  if (0 <=? off) && (off + zlen bs <=? zlen b) then ret (zwrite off bs b) else crash.

(** Assignment to a [__u16], [__u32] or [__u64] member; the value is truncated
    to the width of the member. *)
Definition put16 (off v : Z) : list Z → M S (list Z) := store off (le_bytes 2 v).
Definition put32 (off v : Z) : list Z → M S (list Z) := store off (le_bytes 4 v).
Definition put64 (off v : Z) : list Z → M S (list Z) := store off (le_bytes 8 v).

Lemma wp_load off n b (s : S) Q :
  0 ≤ off → 0 ≤ n → off + n ≤ zlen b → Q (zslice off (off + n) b) s → wp (load off n b) s Q.
Proof.
  intros Ho Hn Hb HQ. unfold load.
  rewrite (proj2 (Z.leb_le _ _) Ho), (proj2 (Z.leb_le _ _) Hn), (proj2 (Z.leb_le _ _) Hb).
  by apply wp_ret.
Qed.
Lemma wp_store off bs b (s : S) Q :
  0 ≤ off → off + zlen bs ≤ zlen b → Q (zwrite off bs b) s → wp (store off bs b) s Q.
Proof.
  intros Ho Hb HQ. unfold store.
  rewrite (proj2 (Z.leb_le _ _) Ho), (proj2 (Z.leb_le _ _) Hb). by apply wp_ret.
Qed.
End access.

(** The unsigned member of [n] bytes at [off]. *)
Definition fld (n off : Z) (b : list Z) : Z := le_value (zslice off (off + n) b).
(** The same bits read as a signed 32- or 64-bit member. *)
Definition sfld32 (off : Z) (b : list Z) : Z := s32 (fld 4 off b).
Definition sfld64 (off : Z) (b : list Z) : Z := s64 (fld 8 off b).

(** The C string at [off]: [None] when no NUL follows inside the block. *)
Fixpoint c_string (b : list Z) : option (list Z) :=
  match b with
  | [] => None
  | x :: r => if x =? 0 then Some [] else (λ s, x :: s) <$> c_string r
  end.

(** ** Structure layout *)
Definition align_up (a n : Z) : Z := (n + a - 1) / a * a.
(** Members as (size, alignment); the offsets of the members, and the size of
    the structure, a multiple of the largest alignment. *)
Fixpoint c_offsets (off al : Z) (ms : list (Z * Z)) : list Z * Z :=
  match ms with
  | [] => ([], align_up al off)
  | (n, a) :: r =>
      let o := align_up a off in
      let p := c_offsets (o + n) (Z.max al a) r in
      (o :: p.1, p.2)
  end.
Definition c_layout (ms : list (Z * Z)) : list Z * Z := c_offsets 0 1 ms.

(** ** Frames *)
Definition same_outside (lo hi : Z) (b b' : list Z) : Prop :=
  zlen b' = zlen b ∧
  ∀ i j, 0 ≤ i → j ≤ lo ∨ hi ≤ i → zslice i j b' = zslice i j b.

Section frames.
Implicit Types b bs : list Z.

Lemma zslice_le i j b : j ≤ i → zslice i j b = [].
Proof. intros. unfold zslice. apply ztake_le. lia. Qed.
Lemma zslice_zwrite_in o bs b i j :
  0 ≤ o → o + zlen bs ≤ zlen b → o ≤ i → j ≤ o + zlen bs →
  zslice i j (zwrite o bs b) = zslice (i - o) (j - o) bs.
Proof.
  intros Ho Hb Hi Hj. unfold zwrite, zslice.
  assert (zlen (ztake o b) = o) as Hl by (rewrite zlen_ztake; zlen_facts; lia).
  replace (zdrop i) with (zdrop (A := Z) (i - o + o)) by (f_equal; lia).
  rewrite <- zdrop_zdrop by lia.
  rewrite (zdrop_mid (ztake o b)) by done.
  destruct (decide (i ≤ j)).
  - rewrite zdrop_app_le by lia. rewrite ztake_app_le by (rewrite zlen_zdrop; lia).
    f_equal; lia.
  - rewrite !ztake_le by lia. done.
Qed.
Lemma zslice_zwrite o bs b :
  0 ≤ o → o + zlen bs ≤ zlen b → zslice o (o + zlen bs) (zwrite o bs b) = bs.
Proof.
  intros. rewrite zslice_zwrite_in by lia.
  replace (o - o) with 0 by lia. replace (o + zlen bs - o) with (zlen bs) by lia.
  apply zslice_all.
Qed.
Lemma same_outside_zwrite o bs b :
  0 ≤ o → o + zlen bs ≤ zlen b → same_outside o (o + zlen bs) b (zwrite o bs b).
Proof.
  intros Ho Hb. split; [by apply zlen_zwrite|].
  intros i j Hi [Hj|Hj].
  - destruct (decide (i < j)); [|by rewrite !zslice_le by lia].
    rewrite <- (zslice_ztake i j o (zwrite o bs b)), <- (zslice_ztake i j o b) by lia.
    by rewrite ztake_zwrite_before by (zlen_facts; lia).
  - unfold zwrite. rewrite app_assoc. unfold zslice. f_equal.
    set (p := ztake o b ++ bs).
    assert (zlen p = o + zlen bs) as Hp
      by (subst p; rewrite zlen_app, zlen_ztake; zlen_facts; lia).
    replace i with ((i - zlen p) + zlen p) at 1 by lia.
    zlen_facts. rewrite <- zdrop_zdrop by lia. rewrite zdrop_app_exact.
    rewrite zdrop_zdrop by lia. f_equal. lia.
Qed.

Lemma same_outside_refl lo hi b : same_outside lo hi b b.
Proof. done. Qed.
Lemma same_outside_trans lo hi b1 b2 b3 :
  same_outside lo hi b1 b2 → same_outside lo hi b2 b3 → same_outside lo hi b1 b3.
Proof.
  intros [L1 F1] [L2 F2]. split; [lia|]. intros i j Hi Hj.
  by rewrite F2, F1.
Qed.
Lemma same_outside_widen lo hi lo' hi' b b' :
  same_outside lo hi b b' → lo' ≤ lo → hi ≤ hi' → same_outside lo' hi' b b'.
Proof. intros [L F] Hl Hh. split; [done|]. intros i j Hi Hj. apply F; lia. Qed.
Lemma same_outside_slice lo hi b b' i j :
  same_outside lo hi b b' → 0 ≤ i → j ≤ lo ∨ hi ≤ i → zslice i j b' = zslice i j b.
Proof. intros [_ F]. apply F. Qed.
Lemma same_outside_fld lo hi b b' n o :
  same_outside lo hi b b' → 0 ≤ o → o + n ≤ lo ∨ hi ≤ o → fld n o b' = fld n o b.
Proof. intros [_ F] Ho Hn. unfold fld. by rewrite F. Qed.

Lemma fld_zwrite n o v b :
  0 ≤ n → 0 ≤ o → o + n ≤ zlen b → fld n o (zwrite o (le_bytes n v) b) = v mod 2 ^ (n * 8).
Proof.
  intros Hn Ho Hb. unfold fld. rewrite <- (zlen_le_bytes n v) at 1 by done.
  rewrite zslice_zwrite; [by apply le_value_le_bytes|done|]. by rewrite zlen_le_bytes.
Qed.
Lemma Forall_zslice (P : Z → Prop) i j b : Forall P b → Forall P (zslice i j b).
Proof. intros. unfold zslice, ztake, zdrop. by apply Forall_take, Forall_drop. Qed.

Lemma c_string_app s r : 0 ∉ s → c_string (s ++ 0 :: r) = Some s.
Proof.
  induction s as [|x s IH]; cbn [c_string app]; intros Hn; [done|].
  destruct (Z.eqb_spec x 0) as [->|]; [set_solver|]. rewrite IH by set_solver. done.
Qed.
Lemma c_string_none b : 0 ∉ b → c_string b = None.
Proof.
  induction b as [|x b IH]; cbn [c_string]; intros Hn; [done|].
  destruct (Z.eqb_spec x 0) as [->|]; [set_solver|]. by rewrite IH by set_solver.
Qed.
End frames.
#[export] Hint Resolve Forall_zslice : frida.
