(* ===== verification/Tracer.v ===== *)
(** The system-call tracer (src/src/linux/helpers/syscall-tracer.bpf.c).

    Four BPF programs run inside the kernel on behalf of every task: at the
    entry and exit of a system call and when a mapping is created or removed.
    They share the BPF maps, here the record [tracer], and write events into two
    ring buffers.  An event is the block of bytes that was reserved for it, so
    what a program does not write keeps whatever the ring held before.

    What the kernel decides is a parameter: [context] is what one run can see of
    the current task and of kernel memory, [BpfKernel] the helpers whose result
    depends on the state of the machine (time, free space in a ring, room in a
    map, and what other processors did to [process_states] meanwhile).  The
    numbers of the system calls come from a generated header, [SyscallNumbers].
    Integers are little endian, as in the bpfel builds for x86 and ARM. *)
From S2P Require Import Prelude Posix Records.

Definition MAX_INFLIGHT_COPIES : Z := 4096.
Definition MAX_PATH_DEPTH : Z := 18.
Definition MAX_PATH : Z := 256.
Definition MAX_STAT : Z := 512.
Definition MAX_SOCK : Z := 128.
Definition MAX_BUF_BUILDER_SIZE : Z := 1024.
Definition SYSCALL_NARGS : Z := 6.
Definition SIGSTOP : Z := 19.

(** ** Events *)
Definition EVENT_TYPE_SYSCALL_ENTER : Z := 0.
Definition EVENT_TYPE_SYSCALL_EXIT : Z := 1.
Definition EVENT_TYPE_NEED_SNAPSHOT : Z := 2.
Definition EVENT_TYPE_MAP_CREATE : Z := 3.
Definition EVENT_TYPE_MAP_DESTROY_RANGE : Z := 4.
Definition ATTACHMENT_STRING : Z := 0.
Definition ATTACHMENT_BYTES : Z := 1.

(** The members of the structures as (size, alignment), and their offsets. *)
Definition Event_members : list (Z * Z) := [(8, 8); (4, 4); (4, 4); (2, 2); (2, 2)].
Definition AttachmentHeader_members : list (Z * Z) := [(2, 2); (2, 2); (2, 2); (2, 2)].
Definition SyscallEvent_members : list (Z * Z) := [(24, 8); (4, 4); (4, 4); (4, 4)].
Definition SyscallEnterEvent_members : list (Z * Z) := [(40, 8); (48, 8)].
Definition SyscallExitEvent_members : list (Z * Z) := [(40, 8); (8, 8)].
Definition MapCreateEvent_members : list (Z * Z) :=
  [(24, 8); (8, 8); (8, 8); (8, 8); (8, 8); (8, 8); (8, 8); (4, 4); (8, 2); (256, 1)].
Definition MapDestroyRangeEvent_members : list (Z * Z) := [(24, 8); (8, 8); (8, 8); (4, 4)].

Definition o_time_ns : Z := 0.
Definition o_tgid : Z := 8.
Definition o_tid : Z := 12.
Definition o_type : Z := 16.
Definition o_attachment_count : Z := 18.
Definition o_syscall_nr : Z := 24.
Definition o_stack_id : Z := 28.
Definition o_map_gen : Z := 32.
Definition o_args : Z := 40.
Definition o_retval : Z := 40.
Definition o_start : Z := 24.
Definition o_end : Z := 32.
Definition o_pgoff : Z := 40.
Definition o_vm_flags : Z := 48.
Definition o_device : Z := 56.
Definition o_inode : Z := 64.
Definition o_gen : Z := 72.
Definition o_destroy_gen : Z := 40.
Definition o_map_attach : Z := 76.
Definition o_map_data : Z := 84.

Definition sizeof_AttachmentHeader : Z := 8.
Definition sizeof_SyscallEnterEvent : Z := 88.
Definition sizeof_SyscallExitEvent : Z := 48.
Definition sizeof_timespec : Z := 16.
Definition sizeof_NeedSnapshotEvent : Z := 24.
Definition sizeof_MapCreateEvent : Z := 344.
Definition sizeof_MapDestroyRangeEvent : Z := 48.

Lemma layouts :
  c_layout Event_members = ([o_time_ns; o_tgid; o_tid; o_type; o_attachment_count], 24) ∧
  c_layout AttachmentHeader_members = ([0; 2; 4; 6], sizeof_AttachmentHeader) ∧
  c_layout SyscallEvent_members = ([0; o_syscall_nr; o_stack_id; o_map_gen], 40) ∧
  c_layout SyscallEnterEvent_members = ([0; o_args], sizeof_SyscallEnterEvent) ∧
  c_layout SyscallExitEvent_members = ([0; o_retval], sizeof_SyscallExitEvent) ∧
  c_layout MapCreateEvent_members =
    ([0; o_start; o_end; o_pgoff; o_vm_flags; o_device; o_inode; o_gen; o_map_attach; o_map_data],
     sizeof_MapCreateEvent) ∧
  c_layout MapDestroyRangeEvent_members =
    ([0; o_start; o_end; o_destroy_gen], sizeof_MapDestroyRangeEvent).
Proof. done. Qed.

(** The variants of enter and exit events differ in the attachments that follow
    the common part: a header and room for its data. *)
Inductive EnterVariant := EnterNone | EnterTimespec | EnterPath | EnterPath2 | EnterPath3 | EnterSock.
Inductive ExitVariant := ExitNone | ExitStrOut | ExitStatOut | ExitSockOut.
Definition enter_rooms (v : EnterVariant) : list Z :=
  match v with
  | EnterNone => []
  | EnterTimespec => [sizeof_timespec]
  | EnterPath => [MAX_PATH]
  | EnterPath2 => [MAX_PATH; MAX_PATH]
  | EnterPath3 => [MAX_PATH; MAX_PATH; MAX_PATH]
  | EnterSock => [MAX_SOCK]
  end.
Definition exit_rooms (v : ExitVariant) : list Z :=
  match v with
  | ExitNone => []
  | ExitStrOut => [MAX_PATH]
  | ExitStatOut => [MAX_STAT]
  | ExitSockOut => [MAX_SOCK]
  end.
Definition rooms_size (rooms : list Z) : Z :=
  foldr (λ room acc, sizeof_AttachmentHeader + room + acc) 0 rooms.
Definition enter_size (v : EnterVariant) : Z := sizeof_SyscallEnterEvent + rooms_size (enter_rooms v).
Definition exit_size (v : ExitVariant) : Z := sizeof_SyscallExitEvent + rooms_size (exit_rooms v).

(** ** State *)
Definition ABI_INVALID : Z := 0.
Definition ABI_NATIVE : Z := 1.
Definition ABI_COMPAT32 : Z := 2.
Record ProcessState := mk_process { abi : Z; map_gen : Z }.

(** What is to be copied out of the process when its system call returns. *)
Inductive OutCopy :=
| StrOutCopy (arg_index user_ptr max_len : Z)
| StatOutCopy (arg_index user_ptr len : Z)
| SockOutCopy (arg_index user_ptr user_len_ptr max_len : Z).
Record Inflight := mk_inflight { syscall_nr : Z; copy : OutCopy }.

Record Stats := mk_stats {
  emitted_events : Z; emitted_bytes : Z; dropped_events : Z; dropped_bytes : Z
}.
Record BufBuilder := mk_bb { bb_buf : list Z; bb_pos : Z }.
Record ScratchArea := mk_scratch { sa_bb : BufBuilder; sa_chain : list Z }.

(** The BPF maps; [stats] and [scratch_area] have an entry per processor.
    [syscall_events] and [map_events] are the records submitted so far,
    [stopped] the processes that were sent SIGSTOP, oldest first. *)
Record tracer (K : Type) := mk_tracer {
  kern : K;
  target_tgids : gmap Z Z;
  target_uids : gmap Z Z;
  excluded_syscalls : gmap Z Z;
  process_states : gmap Z ProcessState;
  inflight : gmap Z Inflight;
  stats : list Stats;
  scratch_area : list ScratchArea;
  syscall_events : list (list Z);
  map_events : list (list Z);
  stopped : list Z
}.
Arguments mk_tracer {K} _ _ _ _ _ _ _ _ _ _ _.
Arguments kern {K} _.
Arguments target_tgids {K} _.
Arguments target_uids {K} _.
Arguments excluded_syscalls {K} _.
Arguments process_states {K} _.
Arguments inflight {K} _.
Arguments stats {K} _.
Arguments scratch_area {K} _.
Arguments syscall_events {K} _.
Arguments map_events {K} _.
Arguments stopped {K} _.

Section setters.
Context {K : Type}.
Definition set_kern k (t : tracer K) : tracer K := mk_tracer k (target_tgids t) (target_uids t) (excluded_syscalls t)
  (process_states t) (inflight t) (stats t) (scratch_area t) (syscall_events t) (map_events t) (stopped t).
Definition set_process_states m (t : tracer K) : tracer K := mk_tracer (kern t) (target_tgids t) (target_uids t) (excluded_syscalls t)
  m (inflight t) (stats t) (scratch_area t) (syscall_events t) (map_events t) (stopped t).
Definition set_inflight m (t : tracer K) : tracer K := mk_tracer (kern t) (target_tgids t) (target_uids t) (excluded_syscalls t)
  (process_states t) m (stats t) (scratch_area t) (syscall_events t) (map_events t) (stopped t).
Definition set_stats l (t : tracer K) : tracer K := mk_tracer (kern t) (target_tgids t) (target_uids t) (excluded_syscalls t)
  (process_states t) (inflight t) l (scratch_area t) (syscall_events t) (map_events t) (stopped t).
Definition set_scratch l (t : tracer K) : tracer K := mk_tracer (kern t) (target_tgids t) (target_uids t) (excluded_syscalls t)
  (process_states t) (inflight t) (stats t) l (syscall_events t) (map_events t) (stopped t).
Definition add_syscall_event e (t : tracer K) : tracer K := mk_tracer (kern t) (target_tgids t) (target_uids t) (excluded_syscalls t)
  (process_states t) (inflight t) (stats t) (scratch_area t) (syscall_events t ++ [e]) (map_events t) (stopped t).
Definition add_map_event e (t : tracer K) : tracer K := mk_tracer (kern t) (target_tgids t) (target_uids t) (excluded_syscalls t)
  (process_states t) (inflight t) (stats t) (scratch_area t) (syscall_events t) (map_events t ++ [e]) (stopped t).
Definition add_stopped p (t : tracer K) : tracer K := mk_tracer (kern t) (target_tgids t) (target_uids t) (excluded_syscalls t)
  (process_states t) (inflight t) (stats t) (scratch_area t) (syscall_events t) (map_events t) (stopped t ++ [p]).
End setters.

(** ** The kernel *)
Inductive ring := SyscallRing | MapRing.

(** [k_reserve] gives the block of a reserved record with its old contents.
    [k_refuses] tells whether an update fails for lack of memory or because of
    contention.  [k_others] is what other processors (and the reader of the
    events) did to [process_states] since it was last used, [k_evicts] the
    entries the LRU map gives up to make room. *)
Class BpfKernel (K : Type) := {
  k_time : K → Z * K;
  k_stackid : K → Z * K;
  k_reserve : ring → Z → K → option (list Z) * K;
  k_refuses : K → bool * K;
  k_others : gmap Z ProcessState → K → gmap Z ProcessState * K;
  k_evicts : gmap Z ProcessState → K → list Z * K
}.

(** What one run of a program sees: the current task, the processor it runs on,
    and memory.  [read_user] and [read_user_str] are bpf_probe_read_user(_str):
    address and old contents of the destination to result and new contents; the
    members of kernel structures are functions of the address (BPF_CORE_READ). *)
Record context := mk_context {
  pid_tgid : Z;
  uid_gid : Z;
  thread_flags : Z;
  cpu : nat;
  read_user : Z → list Z → Z * list Z;
  read_user_str : Z → list Z → Z * list Z;
  read_kernel_str : Z → list Z → Z * list Z;
  vm_file : Z → Z;
  vm_start : Z → Z;
  vm_end : Z → Z;
  vm_pgoff : Z → Z;
  vm_flags : Z → Z;
  f_inode : Z → Z;
  i_sb_s_dev : Z → Z;
  i_ino : Z → Z;
  f_path_dentry : Z → Z;
  f_path_mnt : Z → Z;
  offsetof_mnt : Z;
  mnt_root : Z → Z;
  mnt_parent : Z → Z;
  mnt_mountpoint : Z → Z;
  d_parent : Z → Z;
  d_name_name : Z → Z
}.

(** frida-linux-syscalls.h; [None] where the architecture has no such call.
    [tif_compat32] is FRIDA_TIF_COMPAT32 where the build defines it. *)
Record SyscallNumbers := mk_numbers {
  n_OPENAT : Z; n_FACCESSAT : Z; n_STATFS : Z; n_READLINKAT : Z;
  n_NEWFSTATAT : option Z; n_STATX : Z;
  n_FSTATFS : Z; n_FSTAT : Z; n_STATMOUNT : Z;
  n_RENAME : option Z; n_RENAMEAT : option Z; n_RENAMEAT2 : Z;
  n_LINK : option Z; n_LINKAT : Z; n_SYMLINK : option Z; n_SYMLINKAT : Z;
  n_MOUNT : Z; n_NANOSLEEP : Z; n_CLOCK_NANOSLEEP : Z;
  n_CONNECT : Z; n_BIND : Z; n_SENDTO : Z;
  n_ACCEPT : option Z; n_ACCEPT4 : Z; n_GETSOCKNAME : Z; n_GETPEERNAME : Z; n_RECVFROM : Z;
  tif_compat32 : option Z
}.
Definition is_nr (nr : Z) (o : option Z) : bool :=
  match o with Some n => nr =? n | None => false end.

Section programs.
Context {K : Type} `{BpfKernel K} (N : SyscallNumbers).
Notation T := (tracer K).

Definition call_kernel {A} (f : K → A * K) : M T A := λ t,
  match f (kern t) with (a, k) => Ret (a, set_kern k t) end.
Definition bpf_ktime_get_ns : M T Z := call_kernel k_time.
Definition bpf_get_stackid : M T Z := call_kernel k_stackid.
Definition bpf_ringbuf_reserve (r : ring) (size : Z) : M T (option (list Z)) :=
  call_kernel (k_reserve r size).
Definition bpf_ringbuf_submit (r : ring) (ev : list Z) : M T unit :=
  modify (match r with SyscallRing => add_syscall_event ev | MapRing => add_map_event ev end).
(** The signal goes to the process of the current task. *)
Definition bpf_send_signal (c : context) : M T unit := modify (add_stopped (pid_tgid c ≫ 32)).

(** ** process_states: an LRU map used by all processors *)
Definition others : M T unit := λ t,
  match k_others (process_states t) (kern t) with
  | (m, k) => Ret (tt, set_process_states m (set_kern k t))
  end.
Definition process_states_lookup (tgid : Z) : M T (option ProcessState) :=
  do! others in gets (λ t, process_states t !! tgid).
(** bpf_map_update_elem with BPF_NOEXIST; true when it returns 0. *)
Definition process_states_insert (tgid : Z) (st : ProcessState) : M T bool :=
  do! others in
  let! m := gets process_states in
  match m !! tgid with
  | Some _ => ret false
  | None =>
      let! refused := call_kernel k_refuses in
      if refused : bool then ret false
      else
        let! victims := call_kernel (k_evicts m) in
        do! modify (λ t, set_process_states
              (<[tgid := st]> (foldr delete (process_states t) victims)) t) in
        ret true
  end.
Definition process_states_delete (tgid : Z) : M T unit :=
  do! others in modify (λ t, set_process_states (delete tgid (process_states t)) t).

(** ** inflight: a hash map of bounded size, keyed by thread
    bpf_map_update_elem with BPF_ANY; its result is not looked at. *)
Definition inflight_update (tid : Z) (v : Inflight) : M T unit :=
  let! refused := call_kernel k_refuses in
  modify (λ t,
    if refused then t
    else match inflight t !! tid with
         | Some _ => set_inflight (<[tid := v]> (inflight t)) t
         | None =>
             if Z.of_nat (size (inflight t)) <? MAX_INFLIGHT_COPIES
             then set_inflight (<[tid := v]> (inflight t)) t else t
         end).
Definition inflight_delete (tid : Z) : M T unit :=
  modify (λ t, set_inflight (delete tid (inflight t)) t).

(** ** Which tasks and calls are traced *)
Definition should_trace_current (c : context) : M T (bool * Z * Z) :=
  let tgid := pid_tgid c ≫ 32 in
  let tid := u32 (pid_tgid c) in
  let! tgid_enabled := gets (λ t, target_tgids t !! tgid) in
  match tgid_enabled with
  | Some _ => ret (true, tgid, tid)
  | None =>
      let uid := u32 (uid_gid c) in
      let! uid_enabled := gets (λ t, target_uids t !! uid) in
      match uid_enabled with
      | Some _ => ret (true, tgid, tid)
      | None => ret (false, tgid, tid)
      end
  end.

Definition get_current_abi (c : context) : Z :=
  match tif_compat32 N with
  | Some bit =>
      if Z.land (thread_flags c) (1 ≪ bit) =? 0 then ABI_NATIVE else ABI_COMPAT32
  | None => ABI_NATIVE
  end.

Definition make_excluded_key (abi nr : Z) : Z := Z.lor (abi ≪ 32) (u32 nr).

Definition syscall_is_excluded (abi nr : Z) : M T bool :=
  gets (λ t, match excluded_syscalls t !! make_excluded_key abi nr with
             | Some _ => true | None => false end).

(** ** Statistics and reservations *)
Definition note_emit (n : Z) (st : Stats) : Stats :=
  mk_stats (u64 (emitted_events st + 1)) (u64 (emitted_bytes st + n))
    (dropped_events st) (dropped_bytes st).
Definition note_drop (n : Z) (st : Stats) : Stats :=
  mk_stats (emitted_events st) (emitted_bytes st)
    (u64 (dropped_events st + 1)) (u64 (dropped_bytes st + n)).
(** [stats] of this processor, when the lookup finds them. *)
Definition update_stats (c : context) (f : Stats → Stats) : M T unit :=
  modify (λ t, set_stats (alter f (cpu c) (stats t)) t).

Definition reserve_event (r : ring) (c : context) (n : Z) : M T (option (list Z)) :=
  let! event := bpf_ringbuf_reserve r n in
  do! update_stats c (match event with Some _ => note_emit n | None => note_drop n end) in
  ret event.
Definition reserve_syscall_event (c : context) (n : Z) : M T (option (list Z)) := reserve_event SyscallRing c n.
Definition reserve_map_event (c : context) (n : Z) : M T (option (list Z)) := reserve_event MapRing c n.

(** ** Filling events *)
Definition fill_event (type tgid tid : Z) (b : list Z) : M T (list Z) :=
  let! now := bpf_ktime_get_ns in
  let! b := put64 o_time_ns now b in
  let! b := put32 o_tgid tgid b in
  let! b := put32 o_tid tid b in
  let! b := put16 o_type type b in
  put16 o_attachment_count 0 b.

Definition fill_syscall_event (type tgid tid nr map_gen : Z) (b : list Z) : M T (list Z) :=
  let! b := fill_event type tgid tid b in
  let! b := put32 o_syscall_nr nr b in
  let! id := bpf_get_stackid in
  let! b := put32 o_stack_id id b in
  put32 o_map_gen map_gen b.

Definition fill_enter_args (args : list Z) (b : list Z) : M T (list Z) :=
  let! b := put64 o_args (znth args 0) b in
  let! b := put64 (o_args + 8) (znth args 1) b in
  let! b := put64 (o_args + 16) (znth args 2) b in
  let! b := put64 (o_args + 24) (znth args 3) b in
  let! b := put64 (o_args + 32) (znth args 4) b in
  put64 (o_args + 40) (znth args 5) b.

Definition put_header (h type arg_index capacity : Z) (b : list Z) : M T (list Z) :=
  let! b := put16 h type b in
  let! b := put16 (h + 2) arg_index b in
  put16 (h + 4) capacity b.

Definition write_attach_str_arg (c : context) (h arg_index dst dst_cap user_str : Z) (b : list Z) : M T (list Z) :=
  let! b := put_header h ATTACHMENT_STRING arg_index dst_cap b in
  let! old := load dst dst_cap b in
  let (r, new) := read_user_str c user_str old in
  let! b := store dst new b in
  if 1 <=? r then put16 (h + 6) r b
  else
    let! b := put16 (h + 6) 1 b in
    store dst [0] b.

Definition write_attach_bytes_arg (c : context) (h arg_index dst dst_cap user_src n : Z) (b : list Z) : M T (list Z) :=
  let! b := put_header h ATTACHMENT_BYTES arg_index dst_cap b in
  if n =? 0 then put16 (h + 6) 0 b
  else
    let n := if dst_cap <? n then dst_cap else n in
    let! old := load dst n b in
    let! b := store dst (read_user c user_src old).2 b in
    put16 (h + 6) n b.

(** ** Copies scheduled for the exit of the call *)
Definition maybe_schedule_str_out_copy (tid nr arg_index user_ptr max_len : Z) : M T unit :=
  inflight_update tid (mk_inflight nr (StrOutCopy arg_index user_ptr max_len)).
Definition maybe_schedule_stat_out_copy (tid nr arg_index user_ptr len : Z) : M T unit :=
  inflight_update tid (mk_inflight nr (StatOutCopy arg_index user_ptr len)).
Definition maybe_schedule_sock_out_copy (tid nr arg_index user_ptr user_len_ptr max_len : Z)
    : M T unit :=
  inflight_update tid (mk_inflight nr (SockOutCopy arg_index user_ptr user_len_ptr max_len)).

(** ** Snapshots and generations *)
Definition emit_need_snapshot (c : context) (tgid tid : Z) : M T bool :=
  let! ev := reserve_map_event c sizeof_NeedSnapshotEvent in
  match ev with
  | None => ret false
  | Some b =>
      let! b := fill_event EVENT_TYPE_NEED_SNAPSHOT tgid tid b in
      do! bpf_ringbuf_submit MapRing b in
      ret true
  end.

(** [Some map_gen] when the C function returns true. *)
Definition ensure_process_state (c : context) (tgid tid abi : Z) : M T (option Z) :=
  let! st := process_states_lookup tgid in
  match st with
  | Some st => ret (Some (map_gen st))
  | None =>
      let! inserted := process_states_insert tgid (mk_process abi 0) in
      let! ok :=
        (if inserted : bool then
           let! emitted := emit_need_snapshot c tgid tid in
           if emitted : bool then do! bpf_send_signal c in ret true
           else do! process_states_delete tgid in ret false
         else ret true) in
      if ok : bool then
        let! st := process_states_lookup tgid in
        ret (map_gen <$> st)
      else ret None
  end.

Definition bump_map_gen (tgid : Z) : M T Z :=
  let! st := process_states_lookup tgid in
  match st with
  | None => ret 0
  | Some st =>
      if map_gen st =? 0 then ret 0
      else
        let new_gen := u32 (map_gen st + 1) in
        do! modify (λ t, set_process_states
              (<[tgid := mk_process (abi st) new_gen]> (process_states t)) t) in
        ret new_gen
  end.

(** ** tracepoint/raw_syscalls/sys_enter
    Every branch of the handler reserves its variant of the event, fills the
    common part, adds the attachments of its [body] and submits the record. *)
Definition enter_event (c : context) (v : EnterVariant) (tgid tid nr gen : Z) (args : list Z)
    (body : list Z → M T (list Z)) : M T unit :=
  let! ev := reserve_syscall_event c (enter_size v) in
  match ev with
  | None => ret tt
  | Some b =>
      let! b := fill_syscall_event EVENT_TYPE_SYSCALL_ENTER tgid tid nr gen b in
      let! b := fill_enter_args args b in
      let! b := body b in
      bpf_ringbuf_submit SyscallRing b
  end.

(** Header and data of the first three attachments of an enter event. *)
Definition attach1 : Z := 88.
Definition data1 : Z := 96.
Definition attach2 : Z := 352.
Definition data2 : Z := 360.
Definition attach3 : Z := 616.
Definition data3 : Z := 624.

Definition enter_path (c : context) (tid nr : Z) (args : list Z) (b : list Z) : M T (list Z) :=
  let! b :=
    (if nr =? n_STATFS N then
       let! b := write_attach_str_arg c attach1 0 data1 MAX_PATH (znth args 0) b in
       do! maybe_schedule_stat_out_copy tid nr 1 (znth args 1) MAX_STAT in
       ret b
     else write_attach_str_arg c attach1 1 data1 MAX_PATH (znth args 1) b) in
  let! b := put16 o_attachment_count 1 b in
  do! (if nr =? n_READLINKAT N
       then maybe_schedule_str_out_copy tid nr 2 (znth args 2) (u32 (znth args 3))
       else ret tt) in
  ret b.

Definition enter_stat_path (c : context) (tid nr : Z) (args : list Z) (b : list Z) : M T (list Z) :=
  if is_nr nr (n_NEWFSTATAT N) then
    let! b := write_attach_str_arg c attach1 1 data1 MAX_PATH (znth args 1) b in
    let! b := put16 o_attachment_count 1 b in
    do! maybe_schedule_stat_out_copy tid nr 2 (znth args 2) MAX_STAT in
    ret b
  else
    let! b := write_attach_str_arg c attach1 1 data1 MAX_PATH (znth args 1) b in
    let! b := put16 o_attachment_count 1 b in
    do! maybe_schedule_stat_out_copy tid nr 4 (znth args 4) MAX_STAT in
    ret b.

Definition enter_stat_fd (tid nr : Z) (args : list Z) (b : list Z) : M T (list Z) :=
  do! (if nr =? n_FSTATFS N then maybe_schedule_stat_out_copy tid nr 1 (znth args 1) MAX_STAT
       else if nr =? n_FSTAT N then maybe_schedule_stat_out_copy tid nr 1 (znth args 1) MAX_STAT
       else
         let buf := znth args 1 in
         let bufsize := u32 (znth args 2) in
         let bufsize := if MAX_STAT <? bufsize then MAX_STAT else bufsize in
         maybe_schedule_stat_out_copy tid nr 1 buf bufsize) in
  ret b.

(** [ev->parent.args[i]]. *)
Definition event_arg (b : list Z) (i : Z) : Z := fld 8 (o_args + 8 * i) b.

Definition write_two_paths (c : context) (i j : Z) (b : list Z) : M T (list Z) :=
  let! b := write_attach_str_arg c attach1 i data1 MAX_PATH (event_arg b i) b in
  write_attach_str_arg c attach2 j data2 MAX_PATH (event_arg b j) b.

Definition enter_two_paths (c : context) (nr : Z) (b : list Z) : M T (list Z) :=
  let! b :=
    (if is_nr nr (n_RENAME N) then write_two_paths c 0 1 b
     else if is_nr nr (n_RENAMEAT N) then write_two_paths c 1 3 b
     else if nr =? n_RENAMEAT2 N then write_two_paths c 1 3 b
     else if is_nr nr (n_LINK N) then write_two_paths c 0 1 b
     else if nr =? n_LINKAT N then write_two_paths c 1 3 b
     else if is_nr nr (n_SYMLINK N) then write_two_paths c 0 1 b
     else write_two_paths c 0 2 b) in
  put16 o_attachment_count 2 b.

Definition enter_mount (c : context) (b : list Z) : M T (list Z) :=
  let! b := write_attach_str_arg c attach1 0 data1 MAX_PATH (event_arg b 0) b in
  let! b := write_attach_str_arg c attach2 1 data2 MAX_PATH (event_arg b 1) b in
  let! b := write_attach_str_arg c attach3 2 data3 MAX_PATH (event_arg b 2) b in
  put16 o_attachment_count 3 b.

(** The request at argument [i], the time that is left at argument [i + 1]. *)
Definition enter_sleep_at (c : context) (tid nr i : Z) (args : list Z) (b : list Z) : M T (list Z) :=
  let rqtp := znth args i in
  let! b :=
    (if negb (rqtp =? 0) then
       let! b := write_attach_bytes_arg c attach1 i data1 sizeof_timespec rqtp sizeof_timespec b in
       put16 o_attachment_count 1 b
     else ret b) in
  let rmtp := znth args (i + 1) in
  do! (if negb (rmtp =? 0)
       then maybe_schedule_stat_out_copy tid nr (i + 1) rmtp sizeof_timespec
       else ret tt) in
  ret b.

Definition enter_sleep (c : context) (tid nr : Z) (args : list Z) (b : list Z) : M T (list Z) :=
  if nr =? n_NANOSLEEP N then enter_sleep_at c tid nr 0 args b
  else enter_sleep_at c tid nr 2 args b.

Definition enter_sock (c : context) (nr : Z) (args : list Z) (b : list Z) : M T (list Z) :=
  let! b :=
    (if nr =? n_SENDTO N then
       write_attach_bytes_arg c attach1 4 data1 MAX_SOCK (znth args 4) (u32 (znth args 5)) b
     else
       write_attach_bytes_arg c attach1 1 data1 MAX_SOCK (znth args 1) (u32 (znth args 2)) b) in
  put16 o_attachment_count 1 b.

Definition enter_sock_out (tid nr : Z) (args : list Z) (b : list Z) : M T (list Z) :=
  do! (if nr =? n_RECVFROM N
       then maybe_schedule_sock_out_copy tid nr 4 (znth args 4) (znth args 5) MAX_SOCK
       else maybe_schedule_sock_out_copy tid nr 1 (znth args 1) (znth args 2) MAX_SOCK) in
  ret b.

(** The conditions of the branches, in the order they are tested. *)
Definition is_path_call (nr : Z) : bool :=
  (nr =? n_OPENAT N) || (nr =? n_FACCESSAT N) || (nr =? n_STATFS N) || (nr =? n_READLINKAT N).
Definition is_stat_path_call (nr : Z) : bool := is_nr nr (n_NEWFSTATAT N) || (nr =? n_STATX N).
Definition is_stat_fd_call (nr : Z) : bool :=
  (nr =? n_FSTATFS N) || (nr =? n_FSTAT N) || (nr =? n_STATMOUNT N).
Definition is_two_path_call (nr : Z) : bool :=
  is_nr nr (n_RENAME N) || is_nr nr (n_RENAMEAT N) || (nr =? n_RENAMEAT2 N) || is_nr nr (n_LINK N) ||
  (nr =? n_LINKAT N) || is_nr nr (n_SYMLINK N) || (nr =? n_SYMLINKAT N).
Definition is_sleep_call (nr : Z) : bool := (nr =? n_NANOSLEEP N) || (nr =? n_CLOCK_NANOSLEEP N).
Definition is_sock_call (nr : Z) : bool := (nr =? n_CONNECT N) || (nr =? n_BIND N) || (nr =? n_SENDTO N).
Definition is_sock_out_call (nr : Z) : bool :=
  is_nr nr (n_ACCEPT N) || (nr =? n_ACCEPT4 N) || (nr =? n_GETSOCKNAME N) ||
  (nr =? n_GETPEERNAME N) || (nr =? n_RECVFROM N).

Definition enter_branch (c : context) (tgid tid nr gen : Z) (args : list Z) : M T unit :=
  if is_path_call nr then enter_event c EnterPath tgid tid nr gen args (enter_path c tid nr args)
  else if is_stat_path_call nr then
    enter_event c EnterPath tgid tid nr gen args (enter_stat_path c tid nr args)
  else if is_stat_fd_call nr then
    enter_event c EnterNone tgid tid nr gen args (enter_stat_fd tid nr args)
  else if is_two_path_call nr then
    enter_event c EnterPath2 tgid tid nr gen args (enter_two_paths c nr)
  else if nr =? n_MOUNT N then
    enter_event c EnterPath3 tgid tid nr gen args (enter_mount c)
  else if is_sleep_call nr then
    enter_event c EnterTimespec tgid tid nr gen args (enter_sleep c tid nr args)
  else if is_sock_call nr then
    enter_event c EnterSock tgid tid nr gen args (enter_sock c nr args)
  else if is_sock_out_call nr then
    enter_event c EnterNone tgid tid nr gen args (enter_sock_out tid nr args)
  else enter_event c EnterNone tgid tid nr gen args ret.

(** The guards both tracepoints start with. *)
Definition when_traced (c : context) (id : Z) (k : Z → Z → Z → Z → M T unit) : M T unit :=
  let! q := should_trace_current c in
  match q with
  | (false, _, _) => ret tt
  | (true, tgid, tid) =>
      let abi := get_current_abi c in
      let nr := s32 id in
      let! excluded := syscall_is_excluded abi nr in
      if excluded : bool then ret tt
      else
        let! gen := ensure_process_state c tgid tid abi in
        match gen with
        | None => ret tt
        | Some gen => k tgid tid nr gen
        end
  end.

Definition on_sys_enter (c : context) (id : Z) (args : list Z) : M T unit :=
  when_traced c id (λ tgid tid nr gen, enter_branch c tgid tid nr gen args).

(** ** tracepoint/raw_syscalls/sys_exit *)
Definition exit_event (c : context) (v : ExitVariant) (tgid tid nr gen retval : Z)
    (body : list Z → M T (list Z)) : M T unit :=
  let! ev := reserve_syscall_event c (exit_size v) in
  match ev with
  | None => ret tt
  | Some b =>
      let! b := fill_syscall_event EVENT_TYPE_SYSCALL_EXIT tgid tid nr gen b in
      let! b := put64 o_retval retval b in
      let! b := body b in
      bpf_ringbuf_submit SyscallRing b
  end.

Definition exit_attach : Z := 48.
Definition exit_data : Z := 56.

(** The characters of a result that are copied: [n] and [max_len] limit them, and
    the room for the terminator. *)
Definition str_out_size (n max_len : Z) : Z :=
  let size := u32 n in
  let size := if max_len <? size then max_len else size in
  let size := if MAX_PATH <=? size then MAX_PATH - 1 else size in
  Z.land size (MAX_PATH - 1).

Definition exit_str_out (c : context) (tid retval arg_index user_ptr max_len : Z) (b : list Z)
    : M T (list Z) :=
  let! b :=
    (if 0 <? retval then
       let size := str_out_size retval max_len in
       let! b := put_header exit_attach ATTACHMENT_STRING arg_index MAX_PATH b in
       let! b := put16 (exit_attach + 6) (size + 1) b in
       let! b :=
         (if 0 <? size then
            let! old := load exit_data size b in
            store exit_data (read_user c user_ptr old).2 b
          else ret b) in
       let! b := store (exit_data + size) [0] b in
       put16 o_attachment_count 1 b
     else ret b) in
  do! inflight_delete tid in
  ret b.

Definition stat_copy_ok (nr retval : Z) : bool :=
  if (nr =? n_NANOSLEEP N) || (nr =? n_CLOCK_NANOSLEEP N) then (retval =? 0) || (retval =? - EINTR)
  else if (nr =? n_STATMOUNT N) || (nr =? n_STATX N) || (nr =? n_STATFS N) || (nr =? n_FSTATFS N) ||
          (nr =? n_FSTAT N) || is_nr nr (n_NEWFSTATAT N) then retval =? 0
  else false.

Definition exit_stat_out (c : context) (tid nr retval arg_index user_ptr len : Z) (b : list Z)
    : M T (list Z) :=
  let! b :=
    (if stat_copy_ok nr retval then
       let to_copy := if MAX_STAT <? len then MAX_STAT else len in
       let! b := put_header exit_attach ATTACHMENT_BYTES arg_index MAX_STAT b in
       let! b :=
         (if to_copy =? MAX_STAT then
            let! b := put16 (exit_attach + 6) MAX_STAT b in
            let! old := load exit_data MAX_STAT b in
            store exit_data (read_user c user_ptr old).2 b
          else
            let! b := put16 (exit_attach + 6) to_copy b in
            if negb (to_copy =? 0) then
              let! old := load exit_data to_copy b in
              store exit_data (read_user c user_ptr old).2 b
            else ret b) in
       put16 o_attachment_count 1 b
     else ret b) in
  do! inflight_delete tid in
  ret b.

Definition sock_copy_ok (nr retval : Z) : bool :=
  if is_nr nr (n_ACCEPT N) || (nr =? n_ACCEPT4 N) || (nr =? n_RECVFROM N) then 0 <=? retval
  else if (nr =? n_GETSOCKNAME N) || (nr =? n_GETPEERNAME N) then retval =? 0
  else false.

(** The length the kernel left in the process's [socklen_t]. *)
Definition read_user_len (c : context) (user_len_ptr : Z) : Z :=
  s32 (le_value (read_user c user_len_ptr (zeros 4)).2).

Definition exit_sock_out (c : context) (tid nr retval arg_index user_ptr user_len_ptr max_len : Z)
    (b : list Z) : M T (list Z) :=
  let! b :=
    (if sock_copy_ok nr retval then
       let user_len := read_user_len c user_len_ptr in
       let to_copy := if 0 <? user_len then u32 user_len else 0 in
       let maxn := if MAX_SOCK <? max_len then MAX_SOCK else max_len in
       let to_copy := if maxn <? to_copy then maxn else to_copy in
       let! b := put_header exit_attach ATTACHMENT_BYTES arg_index MAX_SOCK b in
       let! b := put16 (exit_attach + 6) to_copy b in
       let! b :=
         (if negb (to_copy =? 0) then
            let! old := load exit_data to_copy b in
            store exit_data (read_user c user_ptr old).2 b
          else ret b) in
       put16 o_attachment_count 1 b
     else ret b) in
  do! inflight_delete tid in
  ret b.

Definition exit_branch (c : context) (tgid tid nr gen retval : Z) : M T unit :=
  let! i := gets (λ t, inflight t !! tid) in
  match i with
  | Some (mk_inflight n (StrOutCopy arg_index user_ptr max_len)) =>
      if n =? nr then
        exit_event c ExitStrOut tgid tid nr gen retval
          (exit_str_out c tid retval arg_index user_ptr max_len)
      else exit_event c ExitNone tgid tid nr gen retval ret
  | Some (mk_inflight n (StatOutCopy arg_index user_ptr len)) =>
      if n =? nr then
        exit_event c ExitStatOut tgid tid nr gen retval
          (exit_stat_out c tid nr retval arg_index user_ptr len)
      else exit_event c ExitNone tgid tid nr gen retval ret
  | Some (mk_inflight n (SockOutCopy arg_index user_ptr user_len_ptr max_len)) =>
      if n =? nr then
        exit_event c ExitSockOut tgid tid nr gen retval
          (exit_sock_out c tid nr retval arg_index user_ptr user_len_ptr max_len)
      else exit_event c ExitNone tgid tid nr gen retval ret
  | None => exit_event c ExitNone tgid tid nr gen retval ret
  end.

Definition on_sys_exit (c : context) (id retval : Z) : M T unit :=
  when_traced c id (λ tgid tid nr gen, exit_branch c tgid tid nr gen retval).
End programs.
