(* ===== verification/TracerReader.v ===== *)
(** The reader of the tracer's events: the decoding of a syscall event in
    src/src/linux/linux-host-session.vala (build_event_variant) and the handling
    of map events in src/src/linux/syscall-tracer.vala (on_map_event).

    A failed [assert] of the Vala code ends the host process, so it is the
    outcome [Failed]; reading past the record is [Crash]. *)
From S2P Require Import Prelude Records Tracer.

(** A row of the generated signature tables (lib/base/linux-syscalls). *)
Record LinuxSyscallSignature := mk_sig {
  sig_nr : Z;
  sig_name : string;
  sig_nargs : Z;
  sig_args : list (string * string)
}.

(** Binary search between [lo] and [hi].  The interval shrinks with every step, so
    a step more than the table has rows is enough. *)
Fixpoint sig_search (fuel : nat) (sigs : list LinuxSyscallSignature) (nr : Z) (lo hi : nat)
    : option LinuxSyscallSignature :=
  match fuel with
  | O => None
  | S fuel =>
      if (lo <? hi)%nat then
        let mid := (lo + (hi - lo) / 2)%nat in
        match sigs !! mid with
        | None => None
        | Some sig =>
            if sig_nr sig =? nr then Some sig
            else if sig_nr sig <? nr then sig_search fuel sigs nr (mid + 1) hi
            else sig_search fuel sigs nr lo mid
        end
      else None
  end.
Definition find_sig_by_nr (sigs : list LinuxSyscallSignature) (nr : Z) : option LinuxSyscallSignature :=
  if nr <? 0 then None else sig_search (S (length sigs)) sigs nr 0 (length sigs).

(** What a client receives for an attachment; the rendering of socket addresses
    [X] is a parameter. *)
Inductive value (X : Type) : Type :=
| VString (s : list Z)
| VTimespec (sec nsec : Z)
| VSockaddr (x : X)
| VBytes (bs : list Z).
Arguments VString {X} s.
Arguments VTimespec {X} sec nsec.
Arguments VSockaddr {X} x.
Arguments VBytes {X} bs.

(** The variant sent to the client; [e_payload] is the arguments of an enter
    event or the result of an exit event. *)
Record event_view (X : Type) := mk_view {
  e_time : Z; e_tid : Z; e_tgid : Z; e_nr : Z; e_stack : Z; e_gen : Z;
  e_payload : list Z + Z;
  e_attachments : list (Z * value X)
}.
Arguments mk_view {X} _ _ _ _ _ _ _ _.
Arguments e_time {X} _.
Arguments e_tid {X} _.
Arguments e_tgid {X} _.
Arguments e_nr {X} _.
Arguments e_stack {X} _.
Arguments e_gen {X} _.
Arguments e_payload {X} _.
Arguments e_attachments {X} _.

Definition has_suffix (suffix s : string) : bool :=
  let n := String.length s in
  let m := String.length suffix in
  (m <=? n)%nat && (String.substring (n - m) m s =? suffix)%string.

(** The type of argument [i], when the signature is known and has that argument. *)
Definition arg_type (sig : option LinuxSyscallSignature) (i : Z) : option string :=
  fst <$> (sig ≫= λ s, sig_args s !! Z.to_nat i).

Section reader.
Context {S X : Type} (try_decode_sockaddr : string → list Z → option X).

Definition try_decode_timespec (arg_type : string) (data : list Z) : M S (option (value X)) :=
  if has_suffix "struct __kernel_timespec *" arg_type then
    do! c_assert (zlen data =? 16) in
    ret (Some (VTimespec (sfld64 0 data) (sfld64 8 data)))
  else if has_suffix "struct old_timespec32 *" arg_type then
    do! c_assert (zlen data =? 8) in
    ret (Some (VTimespec (sfld32 0 data) (sfld32 4 data)))
  else ret None.

(** [rest] is the record from the attachment's data to its end, [len] the size
    its header gives. *)
Definition decode_attachment_value (sig : option LinuxSyscallSignature) (arg_index type : Z)
    (rest : list Z) (len : Z) : M S (value X) :=
  if type =? ATTACHMENT_STRING then
    match c_string rest with
    | Some s => ret (VString s)
    | None => crash
    end
  else if type =? ATTACHMENT_BYTES then
    let data := ztake len rest in
    match arg_type sig arg_index with
    | Some arg_type =>
        let! v := try_decode_timespec arg_type data in
        match v with
        | Some v => ret v
        | None =>
            match try_decode_sockaddr arg_type data with
            | Some x => ret (VSockaddr x)
            | None => ret (VBytes data)
            end
        end
    | None => ret (VBytes data)
    end
  else c_assert_not_reached.

(** The loop over the attachments, from offset [a] of the record [buf]. *)
Fixpoint decode_attachments (sig : option LinuxSyscallSignature) (nargs : Z) (n : nat) (a : Z)
    (buf : list Z) : M S (list (Z * value X)) :=
  match n with
  | O => ret []
  | Datatypes.S n =>
      do! c_assert (sizeof_AttachmentHeader <=? zlen buf - a) in
      let type := fld 2 a buf in
      let idx := fld 2 (a + 2) buf in
      let capacity := fld 2 (a + 4) buf in
      let size := fld 2 (a + 6) buf in
      let a := a + sizeof_AttachmentHeader in
      do! c_assert (idx <? nargs) in
      do! c_assert (a + capacity <=? zlen buf) in
      do! c_assert (a + size <=? zlen buf) in
      let! v := decode_attachment_value sig idx type (zdrop a buf) size in
      let! r := decode_attachments sig nargs n (a + capacity) buf in
      ret ((idx, v) :: r)
  end.

Definition build_event_variant (sig : option LinuxSyscallSignature) (buf : list Z)
    : M S (event_view X) :=
  let nargs := match sig with Some s => sig_nargs s | None => SYSCALL_NARGS end in
  let enter := fld 2 o_type buf =? EVENT_TYPE_SYSCALL_ENTER in
  do! c_assert ((if enter then sizeof_SyscallEnterEvent else sizeof_SyscallExitEvent) <=? zlen buf) in
  let payload :=
    if enter then inl ((λ i, fld 8 (o_args + 8 * Z.of_nat i) buf) <$> seq 0 (Z.to_nat nargs))
    else inr (sfld64 o_retval buf) in
  let a := if enter then sizeof_SyscallEnterEvent else sizeof_SyscallExitEvent in
  let! attachments :=
    decode_attachments sig nargs (Z.to_nat (fld 2 o_attachment_count buf)) a buf in
  ret (mk_view (fld 8 o_time_ns buf) (fld 4 o_tid buf) (fld 4 o_tgid buf)
         (sfld32 o_syscall_nr buf) (sfld32 o_stack_id buf) (fld 4 o_map_gen buf)
         payload attachments).
End reader.

(** ** The request "read-events"
    A batch is what the handler of the request accumulates: the ABI of the processes it
    asked for, the processes that are gone, and the items.  [lookup_abi] is
    [get_process_abi] on the tracer's map, which is asked at most once per process that has
    an entry; the size of a variant is a parameter. *)
Definition get_process_abi (process_states : gmap Z ProcessState) (tgid : Z) : option Z :=
  abi <$> process_states !! tgid.
Record batch (X : Type) := mk_batch {
  abi_by_tgid : gmap Z Z; expired_tgids : gset Z; b_items : list (event_view X); b_total : Z
}.
Arguments mk_batch {X} _ _ _ _.
Arguments abi_by_tgid {X} _.
Arguments expired_tgids {X} _.
Arguments b_items {X} _.
Arguments b_total {X} _.
Definition MAX_BATCH_BYTES : Z := 4 * 1024 * 1024.
Definition sizeof_SyscallEvent : Z := 40.

Section batches.
Context {S X : Type} (try_decode_sockaddr : string → list Z → option X) (item_size : event_view X → Z).
Context (native compat32 : list LinuxSyscallSignature) (lookup_abi : Z → option Z).

(** The handler of one event: whether to go on, and the batch. *)
Definition on_event (ev : list Z) (b : batch X) : M S (bool * batch X) :=
  let tgid := fld 4 o_tgid ev in
  if bool_decide (tgid ∈ expired_tgids b) then ret (true, b)
  else
    let known := default ABI_INVALID (abi_by_tgid b !! tgid) in
    match (if known =? ABI_INVALID then lookup_abi tgid else Some known) with
    | None => ret (true, mk_batch (abi_by_tgid b) ({[tgid]} ∪ expired_tgids b) (b_items b) (b_total b))
    | Some abi =>
        let b := if known =? ABI_INVALID
                 then mk_batch (<[tgid := abi]> (abi_by_tgid b)) (expired_tgids b) (b_items b) (b_total b) else b in
        let sigs := if abi =? ABI_COMPAT32 then compat32 else native in
        let sig := find_sig_by_nr sigs (sfld32 o_syscall_nr ev) in
        let! item := build_event_variant try_decode_sockaddr sig ev in
        let size := item_size item in
        if negb (b_total b =? 0) && (MAX_BATCH_BYTES <? b_total b + size) then ret (false, b)
        else ret (true, mk_batch (abi_by_tgid b) (expired_tgids b) (b_items b ++ [item]) (b_total b + size))
    end.
(** Whether the handler stopped, the records left in the ring, and the batch.  The drain
    of the ring consumes a record before it looks at what its handler said, also the one
    at which the handler stopped. *)
Fixpoint drain_events (evs : list (list Z)) (b : batch X) : M S (bool * list (list Z) * batch X) :=
  match evs with
  | [] => ret (false, [], b)
  | ev :: rest =>
      do! c_assert (sizeof_SyscallEvent <=? zlen ev) in
      let! r := on_event ev b in
      if r.1 : bool then drain_events rest r.2 else ret (true, rest, r.2)
  end.
Definition read_events (evs : list (list Z)) : M S (bool * list (list Z) * batch X) :=
  drain_events evs (mk_batch ∅ ∅ [] 0).
End batches.

(** ** Map events *)
(** DevId of src/lib/base/linux.vala: the number of a device, split at 32 bits. *)
Record DevId := mk_dev { dev_major : Z; dev_minor : Z }.
Definition DevId_unpack (dev : Z) : DevId := mk_dev (u32 (dev ≫ 32)) (u32 dev).

Inductive map_update :=
| Snapshot (tgid : Z)
| MapCreate (tgid gen start stop file_offset flags : Z) (device : DevId) (inode : Z) (filename : option (list Z))
| MapDestroy (tgid gen start stop : Z)
| Ignored.

(** What on_map_event passes on; the header of the file name is expected right
    behind [gen].  [page_size] is what Gum.query_page_size returns. *)
Definition read_map_event {S} (page_size : Z) (ev : list Z) : M S map_update :=
  let type := fld 2 o_type ev in
  if type =? EVENT_TYPE_NEED_SNAPSHOT then ret (Snapshot (fld 4 o_tgid ev))
  else if type =? EVENT_TYPE_MAP_CREATE then
    let! filename :=
      (if negb (fld 2 o_attachment_count ev =? 0) then
         match c_string (zdrop (o_gen + 4 + sizeof_AttachmentHeader) ev) with
         | Some s => ret (Some s)
         | None => crash
         end
       else ret None) in
    ret (MapCreate (fld 4 o_tgid ev) (fld 4 o_gen ev) (fld 8 o_start ev) (fld 8 o_end ev)
           (u64 (fld 8 o_pgoff ev * page_size)) (fld 8 o_vm_flags ev) (DevId_unpack (fld 8 o_device ev))
           (fld 8 o_inode ev) filename)
  else if type =? EVENT_TYPE_MAP_DESTROY_RANGE then
    ret (MapDestroy (fld 4 o_tgid ev) (fld 4 o_destroy_gen ev) (fld 8 o_start ev) (fld 8 o_end ev))
  else ret Ignored.

(** ** The host process
    [host] is what on_map_event changes outside the symbol resolver:
    [process_states], and the processes that were sent SIGCONT.  [refreshed]
    tells whether the resolver could take a snapshot of a process. *)
Record host := mk_host { h_processes : gmap Z ProcessState; continued : list Z }.

(** The new entry of a process whose snapshot was requested: generation 1, or
    none when the snapshot failed or the entry is gone. *)
Definition after_snapshot (refreshed : Z → bool) (tgid : Z) (m : gmap Z ProcessState)
    : gmap Z ProcessState :=
  if refreshed tgid then
    match m !! tgid with
    | Some st => <[tgid := mk_process (abi st) 1]> m
    | None => delete tgid m
    end
  else delete tgid m.

Definition on_map_event (page_size : Z) (refreshed : Z → bool) (ev : list Z) : M host unit :=
  let! u := read_map_event page_size ev in
  match u with
  | Snapshot tgid =>
      modify (λ h, mk_host (after_snapshot refreshed tgid (h_processes h)) (continued h ++ [tgid]))
  | _ => ret tt
  end.

(** The drained records; each is asserted to have at least the members of Event. *)
Definition sizeof_Event : Z := 24.
Fixpoint on_map_events_readable (page_size : Z) (refreshed : Z → bool) (evs : list (list Z)) : M host unit :=
  match evs with
  | [] => ret tt
  | ev :: r =>
      do! c_assert (sizeof_Event <=? zlen ev) in
      do! on_map_event page_size refreshed ev in
      on_map_events_readable page_size refreshed r
  end.
