(* ===== verification/TracerMaps.v ===== *)
(** The tracer's view of memory maps: the programs on uprobe_mmap and
    uprobe_munmap, and the path of a mapped file, which is assembled in the
    scratch area of the processor from the chain of directory entries up to the
    root, across mount points. *)
From S2P Require Import Prelude Records Tracer.

Section maps.
Context {K : Type} `{BpfKernel K}.
Notation T := (tracer K).

(** ** BufBuilder *)
Definition bb_reset (b : BufBuilder) : BufBuilder := mk_bb (bb_buf b) 0.

Definition bb_putc (b : BufBuilder) (ch : Z) : M T (bool * BufBuilder) :=
  if MAX_BUF_BUILDER_SIZE - 1 <=? bb_pos b then ret (false, b)
  else
    let! buf := store (bb_pos b) [ch] (bb_buf b) in
    ret (true, mk_bb buf (bb_pos b + 1)).

Definition bb_append_kstr (c : context) (b : BufBuilder) (kstr : Z) : M T (Z * BufBuilder) :=
  let pos := bb_pos b in
  if MAX_BUF_BUILDER_SIZE - 1 <=? pos then ret (0, b)
  else
    let cap := MAX_BUF_BUILDER_SIZE - pos in
    if cap <? 2 then ret (0, b)
    else
      let cap := Z.land cap (MAX_BUF_BUILDER_SIZE - 1) in
      if cap <? 2 then ret (0, b)
      else
        let! old := load pos cap (bb_buf b) in
        let (r, new) := read_kernel_str c kstr old in
        let! buf := store pos new (bb_buf b) in
        if r <=? 1 then ret (0, mk_bb buf pos)
        else
          let n := u32 (r - 1) in
          ret (n, mk_bb buf (pos + n)).

(** ** The path of a file *)
(** The first loop: the entries from the file upwards, in [chain]. *)
Fixpoint path_walk (c : context) (n : nat) (d mnt root count : Z) (chain : list Z)
    : M T (Z * list Z) :=
  match n with
  | O => ret (count, chain)
  | S n =>
      if (d =? 0) || (mnt =? 0) then ret (count, chain)
      else if negb (root =? 0) && (d =? root) then
        let parent := mnt_parent c mnt in
        if (parent =? 0) || (parent =? mnt) then ret (count, chain)
        else
          let mp := mnt_mountpoint c mnt in
          if mp =? 0 then ret (count, chain)
          else path_walk c n mp parent (mnt_root c (u64 (parent + offsetof_mnt c))) count chain
      else if count <? zlen chain then
        let chain := zwrite count [d] chain in
        let count := count + 1 in
        if MAX_PATH_DEPTH <=? count then ret (count, chain)
        else
          let parent := d_parent c d in
          if (parent =? 0) || (parent =? d) then ret (count, chain)
          else path_walk c n parent mnt root count chain
      else crash
  end.

(** The second loop: the names from the top of the chain downwards. *)
Fixpoint path_join (c : context) (n : nat) (count : Z) (chain : list Z) (b : BufBuilder)
    : M T BufBuilder :=
  match n with
  | O => ret b
  | S n =>
      if count =? 0 then ret b
      else
        let count := count - 1 in
        let cur := znth chain count in
        if cur =? 0 then ret b
        else
          let name := d_name_name c cur in
          if name =? 0 then ret b
          else
            let! p :=
              (if negb (bb_pos b =? 1) then bb_putc b 47 else ret (true, b)) in
            if negb p.1 then ret p.2
            else
              let! q := bb_append_kstr c p.2 name in
              if q.1 =? 0 then ret q.2 else path_join c n count chain q.2
  end.

(** The terminator after the names. *)
Definition path_terminate (b : BufBuilder) : M T BufBuilder :=
  let pos := bb_pos b in
  if MAX_BUF_BUILDER_SIZE - 1 <=? pos then
    let! buf := store (MAX_BUF_BUILDER_SIZE - 1) [0] (bb_buf b) in
    ret (mk_bb buf pos)
  else
    let pos := Z.land pos (MAX_BUF_BUILDER_SIZE - 2) in
    let! buf := store pos [0] (bb_buf b) in
    ret (mk_bb buf (pos + 1)).

(** From the entry and mount of the file to the text in the builder; [None]
    where the C function returns 0 before it reaches its label [flush]. *)
Definition path_build (c : context) (file : Z) (sa : ScratchArea) : M T (bool * ScratchArea) :=
  let b := bb_reset (sa_bb sa) in
  let sa := mk_scratch b (sa_chain sa) in
  let d := f_path_dentry c file in
  if d =? 0 then ret (false, sa)
  else
    let vmnt := f_path_mnt c file in
    if vmnt =? 0 then ret (false, sa)
    else
      let mnt := u64 (vmnt - offsetof_mnt c) in
      if mnt =? 0 then ret (false, sa)
      else
        let root := mnt_root c (u64 (mnt + offsetof_mnt c)) in
        let! w := path_walk c (Z.to_nat MAX_PATH_DEPTH) d mnt root 0 (sa_chain sa) in
        let (count, chain) := w : Z * list Z in
        let! p := bb_putc b 47 in
        if negb p.1 then ret (false, mk_scratch p.2 chain)
        else if count =? 0 then
          let! q := bb_putc p.2 0 in
          ret (true, mk_scratch q.2 chain)
        else
          let! b := path_join c (Z.to_nat MAX_PATH_DEPTH) count chain p.2 in
          let! b := path_terminate b in
          ret (true, mk_scratch b chain).

Definition write_attach_dentry_path (c : context) (h arg_index dst dst_cap file : Z) (ev : list Z)
    : M T (Z * list Z) :=
  let! ev := put_header h ATTACHMENT_STRING arg_index dst_cap ev in
  let! ev := put16 (h + 6) 0 ev in
  let! found := gets (λ t, scratch_area t !! cpu c) in
  match found with
  | None => ret (0, ev)
  | Some sa =>
      let! r := path_build c file sa in
      do! modify (λ t, set_scratch (<[cpu c := r.2]> (scratch_area t)) t) in
      if negb r.1 then ret (0, ev)
      else
        let b := sa_bb r.2 in
        let n := if dst_cap <? bb_pos b then dst_cap else bb_pos b in
        let! ev :=
          (if negb (n =? 0) then
             let! bs := load 0 n (bb_buf b) in
             store dst bs ev
           else ret ev) in
        let! ev := put16 (h + 6) n ev in
        ret (u16 n, ev)
  end.

(** ** kprobe/uprobe_mmap and kprobe/uprobe_munmap *)
(** The event of a new mapping of [file]. *)
Definition map_create_event (c : context) (tgid tid gen vma file inode : Z) : M T unit :=
  let! ev := reserve_map_event c sizeof_MapCreateEvent in
  match ev with
  | None => ret tt
  | Some b =>
      let! b := fill_event EVENT_TYPE_MAP_CREATE tgid tid b in
      let! b := put64 o_start (vm_start c vma) b in
      let! b := put64 o_end (vm_end c vma) b in
      let! b := put64 o_pgoff (vm_pgoff c vma) b in
      let! b := put64 o_vm_flags (vm_flags c vma) b in
      let! b := put64 o_device (i_sb_s_dev c inode) b in
      let! b := put64 o_inode (i_ino c inode) b in
      let! b := put32 o_gen gen b in
      let! r := write_attach_dentry_path c o_map_attach 0 o_map_data MAX_PATH file b in
      let! b := (if negb (r.1 =? 0) then put16 o_attachment_count 1 r.2 else ret r.2) in
      bpf_ringbuf_submit MapRing b
  end.

Definition on_uprobe_mmap (c : context) (vma : Z) : M T unit :=
  let! q := should_trace_current c in
  match q with
  | (false, _, _) => ret tt
  | (true, tgid, tid) =>
      let! gen := bump_map_gen tgid in
      if gen =? 0 then ret tt
      else
        let file := vm_file c vma in
        if file =? 0 then ret tt
        else
          let inode := f_inode c file in
          if inode =? 0 then ret tt else map_create_event c tgid tid gen vma file inode
  end.

(** The event of a range that goes away. *)
Definition map_destroy_event (c : context) (tgid tid gen start stop : Z) : M T unit :=
  let! ev := reserve_map_event c sizeof_MapDestroyRangeEvent in
  match ev with
  | None => ret tt
  | Some b =>
      let! b := fill_event EVENT_TYPE_MAP_DESTROY_RANGE tgid tid b in
      let! b := put64 o_start start b in
      let! b := put64 o_end stop b in
      let! b := put32 o_destroy_gen gen b in
      bpf_ringbuf_submit MapRing b
  end.

Definition on_uprobe_munmap (c : context) (vma start stop : Z) : M T unit :=
  let! q := should_trace_current c in
  match q with
  | (false, _, _) => ret tt
  | (true, tgid, tid) =>
      let file := vm_file c vma in
      if file =? 0 then ret tt
      else
        let! gen := bump_map_gen tgid in
        if gen =? 0 then ret tt else map_destroy_event c tgid tid gen start stop
  end.
End maps.
