(* ===== verification/TracerCorrect.v ===== *)
(** What the building blocks of the tracer's programs do to an event: the
    fields they fill and the rest of the record, which they leave alone. *)
From S2P Require Import Prelude Posix Records Tracer TracerReader.

(** ** Documented behaviour of the helpers
    The ring buffer hands out records of the requested size. *)
Class BpfLaws (K : Type) `{BpfKernel K} := {
  reserve_size r n k b k' : k_reserve r n k = (Some b, k') → zlen b = n
}.

(** [str_at a cap] is the string at [a], cut to [cap - 1] characters, and
    [bytes_at a n] the [n] bytes at [a], where user memory has them; [name_at]
    is [str_at] for kernel memory.  A read that fails returns a negative number
    and leaves unspecified bytes in its destination. *)
Record context_laws (c : context) := {
  str_at : Z → Z → option (list Z);
  bytes_at : Z → Z → option (list Z);
  name_at : Z → Z → option (list Z);
  str_at_ok a cap s : str_at a cap = Some s → 0 ∉ s ∧ zlen s < cap;
  name_at_ok a cap s : name_at a cap = Some s → 0 ∉ s ∧ zlen s < cap;
  bytes_at_len a n bs : bytes_at a n = Some bs → zlen bs = n;
  read_str_ok a old s :
    str_at a (zlen old) = Some s →
    read_user_str c a old = (zlen s + 1, s ++ 0 :: zdrop (zlen s + 1) old);
  read_str_fails a old :
    str_at a (zlen old) = None →
    (read_user_str c a old).1 < 0 ∧ zlen (read_user_str c a old).2 = zlen old;
  read_name_ok a old s :
    name_at a (zlen old) = Some s →
    read_kernel_str c a old = (zlen s + 1, s ++ 0 :: zdrop (zlen s + 1) old);
  read_name_fails a old :
    name_at a (zlen old) = None →
    (read_kernel_str c a old).1 < 0 ∧ zlen (read_kernel_str c a old).2 = zlen old;
  read_ok a old bs : bytes_at a (zlen old) = Some bs → read_user c a old = (0, bs);
  read_fails a old :
    bytes_at a (zlen old) = None →
    (read_user c a old).1 < 0 ∧ zlen (read_user c a old).2 = zlen old
}.
Arguments str_at {c} _ _ _.
Arguments bytes_at {c} _ _ _.
Arguments name_at {c} _ _ _.

(** ** Tactics for filling records *)
(** The constants of the layout, for [lia]. *)
Ltac offs :=
  unfold o_time_ns, o_tgid, o_tid, o_type, o_attachment_count, o_syscall_nr, o_stack_id, o_map_gen,
    o_args, o_retval, o_start, o_end, o_pgoff, o_vm_flags, o_device, o_inode, o_gen, o_destroy_gen,
    o_map_attach, o_map_data, sizeof_AttachmentHeader, sizeof_SyscallEnterEvent,
    sizeof_SyscallExitEvent, sizeof_timespec, sizeof_NeedSnapshotEvent, sizeof_MapCreateEvent,
    sizeof_MapDestroyRangeEvent, MAX_PATH, MAX_STAT, MAX_SOCK, MAX_BUF_BUILDER_SIZE, MAX_PATH_DEPTH,
    SYSCALL_NARGS, attach1, data1, attach2, data2, attach3, data3, exit_attach, exit_data,
    ATTACHMENT_STRING, ATTACHMENT_BYTES in *.

Lemma wp_assign {S} n off v b (s : S) Q :
  0 ≤ off → 0 ≤ n → off + n ≤ zlen b →
  (∀ b', same_outside off (off + n) b b' → fld n off b' = v mod 2 ^ (n * 8) → Q b' s) →
  wp (store off (le_bytes n v) b) s Q.
Proof.
  intros Ho Hn Hb HQ. apply wp_store; [done|by rewrite zlen_le_bytes|].
  apply HQ; [|by apply fld_zwrite].
  rewrite <- (zlen_le_bytes n v) at 1 by done. apply same_outside_zwrite; [done|].
  by rewrite zlen_le_bytes.
Qed.

(** The next assignment to a member. *)
Ltac put_step :=
  first [apply wp_bind|idtac];
  unfold put16, put32, put64;
  apply wp_assign; [lia|lia|lia|
    let b := fresh "b" in let F := fresh "F" in let V := fresh "V" in
    intros b F V; pose proof (proj1 F)].
(** A field that later assignments did not touch. *)
Ltac fld_step :=
  match goal with
  | F : same_outside ?lo ?hi ?b ?b' |- context [fld ?n ?o ?b'] =>
      rewrite (same_outside_fld lo hi b b' n o F) by lia
  | F : same_outside ?lo ?hi ?b ?b' |- context [zslice ?i ?j ?b'] =>
      rewrite (same_outside_slice lo hi b b' i j F) by lia
  | V : fld ?n ?o ?b = _ |- context [fld ?n ?o ?b] => rewrite V
  end.
Ltac fld_solve := repeat fld_step; try done; try lia.
(** Compose the frames of a sequence of assignments. *)
Ltac frame_solve :=
  lazymatch goal with
  | |- same_outside _ _ ?b ?b => apply same_outside_refl
  | F : same_outside _ _ ?b1 ?b2 |- same_outside _ _ _ ?b2 =>
      apply (same_outside_trans _ _ _ b1);
      [frame_solve|apply (same_outside_widen _ _ _ _ _ _ F); lia]
  end.

Section fill.
Context {K : Type} `{BpfKernel K}.
Notation T := (tracer K).
Implicit Types (t : T) (b : list Z).

(** A program that only asked the kernel for something. *)
Definition only_kern t t' : Prop := t' = set_kern (kern t') t.
Lemma only_kern_refl t : only_kern t t.
Proof. by destruct t. Qed.
Lemma only_kern_trans t1 t2 t3 : only_kern t1 t2 → only_kern t2 t3 → only_kern t1 t3.
Proof. unfold only_kern. intros E1 E2. rewrite E2, E1. by destruct t3. Qed.
Lemma wp_call_kernel {A} (f : K → A * K) t Q :
  (∀ a k, f (kern t) = (a, k) → Q a (set_kern k t)) → wp (call_kernel f) t Q.
Proof.
  intros HQ. unfold wp, call_kernel. destruct (f (kern t)) as [a k] eqn:E.
  exists a, (set_kern k t). auto.
Qed.

(** The common part of every event. *)
Definition event_head (type tgid tid : Z) b : Prop :=
  fld 4 o_tgid b = u32 tgid ∧ fld 4 o_tid b = u32 tid ∧ fld 2 o_type b = u16 type.

Lemma fill_event_spec type tgid tid b t :
  24 ≤ zlen b →
  wp (fill_event type tgid tid b) t (λ b' t',
    only_kern t t' ∧ same_outside 0 20 b b' ∧ event_head type tgid tid b' ∧
    fld 2 o_attachment_count b' = 0).
Proof.
  intros Hb. unfold fill_event, bpf_ktime_get_ns, event_head. offs.
  apply wp_bind, wp_call_kernel. intros now k _. do 5 put_step.
  split_and!; [done|frame_solve| | | |]; fld_solve.
Qed.

(** The part enter and exit events share, read back. *)
Definition syscall_head (type tgid tid nr gen : Z) b : Prop :=
  event_head type tgid tid b ∧ fld 4 o_syscall_nr b = u32 nr ∧ fld 4 o_map_gen b = u32 gen.

Lemma fill_syscall_event_spec type tgid tid nr gen b t :
  40 ≤ zlen b →
  wp (fill_syscall_event type tgid tid nr gen b) t (λ b' t',
    only_kern t t' ∧ same_outside 0 36 b b' ∧ syscall_head type tgid tid nr gen b' ∧
    fld 2 o_attachment_count b' = 0).
Proof.
  intros Hb. unfold fill_syscall_event. apply wp_bind.
  wp_call (fill_event_spec type tgid tid b t); [lia|].
  intros b1 t1 (Hk & F1 & (Hg & Hd & Ht) & Hc). pose proof (proj1 F1). offs.
  put_step. apply wp_bind, wp_call_kernel. intros id k _. do 2 put_step.
  unfold syscall_head, event_head. offs.
  split_and!; [by apply (only_kern_trans _ _ _ Hk)|frame_solve| | | | | |]; fld_solve.
Qed.

Definition args_at (args : list Z) b : Prop :=
  ∀ i, 0 ≤ i < 6 → fld 8 (o_args + 8 * i) b = u64 (znth args i).

Lemma fill_enter_args_spec args b t :
  88 ≤ zlen b →
  wp (fill_enter_args args b) t (λ b' t', t' = t ∧ same_outside 40 88 b b' ∧ args_at args b').
Proof.
  intros Hb. unfold fill_enter_args. offs. do 6 put_step.
  split_and!; [done|frame_solve|]. unfold args_at. offs.
  intros i Hi.
  assert (i = 0 ∨ i = 1 ∨ i = 2 ∨ i = 3 ∨ i = 4 ∨ i = 5) as Hcases by lia.
  destruct_or! Hcases; subst i; cbn [Z.mul Z.add Pos.mul Pos.add] in *; fld_solve.
Qed.

(** ** Attachments *)
Definition header_at (h type arg_index capacity size : Z) b : Prop :=
  fld 2 h b = type ∧ fld 2 (h + 2) b = arg_index ∧ fld 2 (h + 4) b = capacity ∧
  fld 2 (h + 6) b = size.

Lemma mod_small16 z : 0 ≤ z < 2 ^ 16 → z mod 2 ^ (2 * 8) = z.
Proof. intros. apply Z.mod_small. lia. Qed.

Lemma put_header_spec h type arg_index capacity b t :
  0 ≤ h → h + 8 ≤ zlen b →
  0 ≤ type < 2 ^ 16 → 0 ≤ arg_index < 2 ^ 16 → 0 ≤ capacity < 2 ^ 16 →
  wp (put_header h type arg_index capacity b) t (λ b' t',
    t' = t ∧ same_outside h (h + 6) b b' ∧
    fld 2 h b' = type ∧ fld 2 (h + 2) b' = arg_index ∧ fld 2 (h + 4) b' = capacity).
Proof.
  intros Hh Hb Ht Ha Hc. unfold put_header. do 3 put_step.
  rewrite mod_small16 in * by lia.
  split_and!; [done|frame_solve| | |]; fld_solve.
Qed.

(** The string a read of [cap] bytes at [a] delivers: empty when it fails. *)
Definition string_read {c} (L : context_laws c) (a cap : Z) : list Z := default [] (str_at L a cap).
Lemma string_read_ok {c} (L : context_laws c) a cap :
  0 < cap → 0 ∉ string_read L a cap ∧ zlen (string_read L a cap) < cap.
Proof.
  intros Hc. unfold string_read. destruct (str_at L a cap) as [s|] eqn:E; cbn.
  - by apply (str_at_ok _ L) in E.
  - split; [set_solver|]. by rewrite zlen_nil.
Qed.

Lemma write_attach_str_arg_spec {c} (L : context_laws c) h arg_index dst cap ptr b t :
  0 ≤ h → dst = h + 8 → dst + cap ≤ zlen b → 0 < cap < 2 ^ 16 → 0 ≤ arg_index < 2 ^ 16 →
  let s := string_read L ptr cap in
  wp (write_attach_str_arg c h arg_index dst cap ptr b) t (λ b' t',
    t' = t ∧ same_outside h (dst + cap) b b' ∧
    header_at h ATTACHMENT_STRING arg_index cap (zlen s + 1) b' ∧
    zslice dst (dst + zlen s + 1) b' = s ++ [0]).
Proof.
  intros Hh Hd Hb Hcap Ha s. destruct (string_read_ok L ptr cap) as [Hn Hs]; [lia|].
  fold s in Hn, Hs. unfold write_attach_str_arg, header_at. offs.
  apply wp_bind. wp_call (put_header_spec h 0 arg_index cap b t); [lia..|].
  intros b1 t1 (-> & F1 & V1 & V2 & V3). pose proof (proj1 F1).
  apply wp_bind, wp_load; [lia..|].
  set (old := zslice dst (dst + cap) b1).
  assert (zlen old = cap) as Hold by (subst old; rewrite zlen_zslice; zlen_facts; lia).
  destruct (str_at L ptr cap) as [s'|] eqn:E.
  - assert (s = s') as -> by (subst s; unfold string_read; by rewrite E).
    rewrite (read_str_ok _ L _ _ s') by (by rewrite Hold).
    assert (zlen (s' ++ 0 :: zdrop (zlen s' + 1) old) = cap) as Hnew
      by (rewrite zlen_app, zlen_cons, zlen_zdrop; zlen_facts; lia).
    apply wp_bind, wp_store; [lia|lia|].
    pose proof (same_outside_zwrite dst _ b1 ltac:(lia) ltac:(rewrite Hnew; lia)) as F2.
    rewrite Hnew in F2. pose proof (proj1 F2).
    assert (zslice dst (dst + zlen s' + 1)
              (zwrite dst (s' ++ 0 :: zdrop (zlen s' + 1) old) b1) = s' ++ [0]) as Hdata.
    { zlen_facts. rewrite zslice_zwrite_in by lia.
      change (s' ++ 0 :: zdrop (zlen s' + 1) old) with (s' ++ [0] ++ zdrop (zlen s' + 1) old).
      rewrite app_assoc. apply (zslice_mid [] (s' ++ [0])); [zlia|]. zlia. }
    set (b2 := zwrite dst _ b1) in *. clearbody b2.
    destruct (Z.leb_spec 1 (zlen s' + 1)); [|zlen_facts; lia].
    put_step. zlen_facts. rewrite mod_small16 in * by lia.
    split_and!; [done|frame_solve|..]; fld_solve.
  - assert (s = []) as -> by (subst s; unfold string_read; by rewrite E).
    destruct (read_str_fails _ L ptr old) as [Hr Hl]; [by rewrite Hold|].
    destruct (read_user_str c ptr old) as [r new]. cbn in Hr, Hl.
    apply wp_bind, wp_store; [lia|lia|].
    pose proof (same_outside_zwrite dst new b1 ltac:(lia) ltac:(lia)) as F2.
    rewrite Hl, Hold in F2. pose proof (proj1 F2).
    set (b2 := zwrite dst _ b1) in *. clearbody b2.
    destruct (Z.leb_spec 1 r); [lia|]. put_step. rewrite mod_small16 in * by lia.
    apply wp_store; [lia|rewrite zlen_cons, zlen_nil; lia|].
    pose proof (same_outside_zwrite dst [0] b0 ltac:(lia)
      ltac:(rewrite zlen_cons, zlen_nil; lia)) as F3.
    rewrite zlen_cons, zlen_nil in F3. pose proof (proj1 F3).
    assert (zslice dst (dst + zlen (@nil Z) + 1) (zwrite dst [0] b0) = [0]) as Hdata.
    { rewrite zlen_nil. replace (dst + 0 + 1) with (dst + zlen [0]) by (rewrite zlen_cons, zlen_nil; lia).
      apply zslice_zwrite; [lia|rewrite zlen_cons, zlen_nil; lia]. }
    set (b3 := zwrite dst [0] b0) in *. clearbody b3. rewrite zlen_nil in *.
    split_and!; [done|frame_solve|..]; fld_solve.
Qed.

(** What [read_user] leaves in a destination of [n] bytes. *)
Lemma read_user_len_ok {c} (L : context_laws c) a old : zlen (read_user c a old).2 = zlen old.
Proof.
  destruct (bytes_at L a (zlen old)) as [bs|] eqn:E.
  - rewrite (read_ok _ L _ _ bs E). by apply (bytes_at_len _ L) in E.
  - by apply (read_fails _ L).
Qed.

(** Copy [n] bytes of user memory into the record at [dst]. *)
Lemma copy_user_spec {c} (L : context_laws c) dst n ptr b t :
  0 ≤ dst → 0 ≤ n → dst + n ≤ zlen b →
  wp (let! old := load dst n b in store dst (read_user c ptr old).2 b) t (λ b' t',
    t' = t ∧ same_outside dst (dst + n) b b' ∧
    (∀ bs, bytes_at L ptr n = Some bs → zslice dst (dst + n) b' = bs)).
Proof.
  intros Hd Hn Hb. apply wp_bind, wp_load; [lia..|].
  set (old := zslice dst (dst + n) b).
  assert (zlen old = n) as Hold by (subst old; rewrite zlen_zslice; zlen_facts; lia).
  pose proof (read_user_len_ok L ptr old) as Hl.
  apply wp_store; [lia|lia|].
  split_and!; [done| |].
  - rewrite <- Hold, <- Hl at 1. apply same_outside_zwrite; lia.
  - intros bs E. rewrite <- Hold in E. rewrite (read_ok _ L _ _ _ E) in *. cbn in *.
    rewrite <- Hold at 1. rewrite <- Hl. apply zslice_zwrite; lia.
Qed.

Lemma write_attach_bytes_arg_spec {c} (L : context_laws c) h arg_index dst cap ptr n b t :
  0 ≤ h → dst = h + 8 → dst + cap ≤ zlen b → 0 < cap < 2 ^ 16 → 0 ≤ arg_index < 2 ^ 16 → 0 ≤ n →
  let m := Z.min n cap in
  wp (write_attach_bytes_arg c h arg_index dst cap ptr n b) t (λ b' t',
    t' = t ∧ same_outside h (dst + cap) b b' ∧
    header_at h ATTACHMENT_BYTES arg_index cap m b' ∧
    (0 < m → ∀ bs, bytes_at L ptr m = Some bs → zslice dst (dst + m) b' = bs)).
Proof.
  intros Hh Hd Hb Hcap Ha Hn m. unfold write_attach_bytes_arg, header_at. offs.
  apply wp_bind. wp_call (put_header_spec h 1 arg_index cap b t); [lia..|].
  intros b1 t1 (-> & F1 & V1 & V2 & V3). pose proof (proj1 F1).
  destruct (Z.eqb_spec n 0) as [->|Hn0].
  - put_step. assert (m = 0) as -> by lia.
    split_and!; [done|frame_solve|..]; try fld_solve.
  - replace (if cap <? n then cap else n) with m
      by (subst m; destruct (Z.ltb_spec cap n); lia).
    apply wp_reassoc, wp_bind.
    wp_call (copy_user_spec L dst m ptr b1 t); [lia..|].
    intros b2 t2 (-> & F2 & D2). pose proof (proj1 F2). put_step.
    rewrite mod_small16 in * by lia.
    split_and!; [done|frame_solve|..]; try fld_solve.
Qed.
End fill.
