(* ===== verification/TracerEvents.v ===== *)
(** Enter and exit events of the tracer, from the program that writes them to
    the reader that decodes them.

    [wants_of] is the table of what the tracer attaches to the entry of a call,
    [out_copy_of] of what it copies when the call returns.  The theorems at the
    end say that the reader gets exactly that. *)
From S2P Require Import Prelude Posix Records Tracer TracerReader TracerCorrect.

(** ** What is attached
    [WantStr i p cap]: the string at [p], argument [i], in a room of [cap]
    bytes; [WantBytes i p n cap]: [n] bytes at [p]; [WantText i p n cap]: [n]
    bytes at [p], terminated and shown as a string. *)
Inductive want :=
| WantStr (i p cap : Z)
| WantBytes (i p n cap : Z)
| WantText (i p n cap : Z).
Definition want_index (w : want) : Z :=
  match w with WantStr i _ _ | WantBytes i _ _ _ | WantText i _ _ _ => i end.
Definition want_cap (w : want) : Z :=
  match w with WantStr _ _ cap | WantBytes _ _ _ cap | WantText _ _ _ cap => cap end.

Section tables.
Context (N : SyscallNumbers).

(** The two path arguments of renames and links. *)
Definition two_paths (nr : Z) : Z * Z :=
  if is_nr nr (n_RENAME N) then (0, 1)
  else if is_nr nr (n_RENAMEAT N) || (nr =? n_RENAMEAT2 N) then (1, 3)
  else if is_nr nr (n_LINK N) then (0, 1)
  else if nr =? n_LINKAT N then (1, 3)
  else if is_nr nr (n_SYMLINK N) then (0, 1)
  else (0, 2).

Definition want_path (args : list Z) (i : Z) : want := WantStr i (znth args i) MAX_PATH.

Definition wants_of (nr : Z) (args : list Z) : list want :=
  if is_path_call N nr then [want_path args (if nr =? n_STATFS N then 0 else 1)]
  else if is_stat_path_call N nr then [want_path args 1]
  else if is_stat_fd_call N nr then []
  else if is_two_path_call N nr then [want_path args (two_paths nr).1; want_path args (two_paths nr).2]
  else if nr =? n_MOUNT N then [want_path args 0; want_path args 1; want_path args 2]
  else if is_sleep_call N nr then
    let i := if nr =? n_NANOSLEEP N then 0 else 2 in
    if znth args i =? 0 then [] else [WantBytes i (znth args i) sizeof_timespec sizeof_timespec]
  else if is_sock_call N nr then
    let i := if nr =? n_SENDTO N then 4 else 1 in
    [WantBytes i (znth args i) (u32 (znth args (i + 1))) MAX_SOCK]
  else [].

Definition variant_of (nr : Z) : EnterVariant :=
  if is_path_call N nr || is_stat_path_call N nr then EnterPath
  else if is_stat_fd_call N nr then EnterNone
  else if is_two_path_call N nr then EnterPath2
  else if nr =? n_MOUNT N then EnterPath3
  else if is_sleep_call N nr then EnterTimespec
  else if is_sock_call N nr then EnterSock
  else EnterNone.

(** The buffers a call fills in, and their sizes. *)
Definition out_copy_of (nr : Z) (args : list Z) : option OutCopy :=
  let stat i n := Some (StatOutCopy i (znth args i) n) in
  if is_path_call N nr then
    if nr =? n_READLINKAT N then Some (StrOutCopy 2 (znth args 2) (u32 (znth args 3)))
    else if nr =? n_STATFS N then stat 1 MAX_STAT else None
  else if is_stat_path_call N nr then stat (if is_nr nr (n_NEWFSTATAT N) then 2 else 4) MAX_STAT
  else if is_stat_fd_call N nr then
    stat 1 (if (nr =? n_FSTATFS N) || (nr =? n_FSTAT N) then MAX_STAT
            else Z.min (u32 (znth args 2)) MAX_STAT)
  else if is_two_path_call N nr || (nr =? n_MOUNT N) then None
  else if is_sleep_call N nr then
    let i := if nr =? n_NANOSLEEP N then 1 else 3 in
    if znth args i =? 0 then None else stat i sizeof_timespec
  else if is_sock_call N nr then None
  else if is_sock_out_call N nr then
    let i := if nr =? n_RECVFROM N then 4 else 1 in
    Some (SockOutCopy i (znth args i) (znth args (i + 1)) MAX_SOCK)
  else None.
End tables.

(** ** Attachments in a record *)
Section attached.
Context {c : context} (L : context_laws c).

(** [data] is what reading [n] bytes at [p] may deliver. *)
Definition delivered (p n : Z) (data : list Z) : Prop :=
  zlen data = n ∧ (0 < n → ∀ bs, bytes_at L p n = Some bs → data = bs).

Definition attached_one (w : want) (h : Z) (b : list Z) : Prop :=
  match w with
  | WantStr i p cap =>
      let s := string_read L p cap in
      header_at h ATTACHMENT_STRING i cap (zlen s + 1) b ∧
      zslice (h + 8) (h + 8 + zlen s + 1) b = s ++ [0]
  | WantBytes i p n cap =>
      let m := Z.min n cap in
      header_at h ATTACHMENT_BYTES i cap m b ∧
      delivered p m (zslice (h + 8) (h + 8 + m) b)
  | WantText i p n cap =>
      let m := Z.min n (cap - 1) in
      header_at h ATTACHMENT_STRING i cap (m + 1) b ∧
      delivered p m (zslice (h + 8) (h + 8 + m) b) ∧
      zslice (h + 8 + m) (h + 8 + m + 1) b = [0]
  end.
Fixpoint attached (ws : list want) (h : Z) (b : list Z) : Prop :=
  match ws with
  | [] => h ≤ zlen b
  | w :: ws => 0 < want_cap w < 2 ^ 16 ∧ attached_one w h b ∧ attached ws (h + 8 + want_cap w) b
  end.

Lemma attached_len ws h b : attached ws h b → h ≤ zlen b.
Proof.
  revert h. induction ws as [|w ws IH]; intros h; [done|]. intros (Hc & _ & Hr).
  specialize (IH _ Hr). lia.
Qed.

(** ** Reading attachments back *)
Context {S X : Type} (try_decode_sockaddr : string → list Z → option X).

(** How the reader shows the bytes of an argument. *)
Definition shown (sig : option LinuxSyscallSignature) (i : Z) (data : list Z) : value X :=
  match arg_type sig i with
  | None => VBytes data
  | Some ty =>
      if has_suffix "struct __kernel_timespec *" ty then VTimespec (sfld64 0 data) (sfld64 8 data)
      else if has_suffix "struct old_timespec32 *" ty then VTimespec (sfld32 0 data) (sfld32 4 data)
      else match try_decode_sockaddr ty data with Some x => VSockaddr x | None => VBytes data end
  end.

(** A text ends at its first NUL. *)
Definition until_nul (data : list Z) : list Z := default data (c_string data).

Definition want_shown (sig : option LinuxSyscallSignature) (w : want) (iv : Z * value X) : Prop :=
  match w with
  | WantStr i p cap => iv = (i, VString (string_read L p cap))
  | WantBytes i p n cap =>
      ∃ data, delivered p (Z.min n cap) data ∧ iv = (i, shown sig i data)
  | WantText i p n cap =>
      ∃ data, delivered p (Z.min n (cap - 1)) data ∧ iv = (i, VString (until_nul data))
  end.

Definition sig_nargs_of (sig : option LinuxSyscallSignature) : Z :=
  match sig with Some s => sig_nargs s | None => SYSCALL_NARGS end.

(** The signature the reader uses has room for the attachment: its index is an
    argument of the call, and a time has the size the type says. *)
Definition want_fits (sig : option LinuxSyscallSignature) (w : want) : Prop :=
  want_index w < sig_nargs_of sig ∧
  match w with
  | WantStr _ _ _ | WantText _ _ _ _ => True
  | WantBytes i _ n cap =>
      0 ≤ n ∧
      ∀ ty, arg_type sig i = Some ty →
        (has_suffix "struct __kernel_timespec *" ty = true → Z.min n cap = 16) ∧
        (has_suffix "struct old_timespec32 *" ty = true → Z.min n cap = 8)
  end.

Lemma zdrop_slice_app a n (b : list Z) :
  0 ≤ a → 0 ≤ n → zdrop a b = zslice a (a + n) b ++ zdrop (a + n) b.
Proof.
  intros. unfold zslice. replace (a + n - a) with n by lia.
  rewrite <- (ztake_zdrop n (zdrop a b)) at 1. f_equal. rewrite zdrop_zdrop by lia. f_equal. lia.
Qed.

Lemma c_string_until s r : c_string (s ++ 0 :: r) = Some (until_nul s).
Proof.
  unfold until_nul. induction s as [|x s IH]; cbn [c_string app]; [done|].
  destruct (Z.eqb_spec x 0); [done|]. rewrite IH. by destruct (c_string s).
Qed.

Lemma decode_one sig w h b (s : S) :
  0 ≤ h → attached_one w h b → want_fits sig w → 0 < want_cap w →
  h + 8 + want_cap w ≤ zlen b →
  wp (decode_attachment_value try_decode_sockaddr sig (fld 2 (h + 2) b) (fld 2 h b)
        (zdrop (h + 8) b) (fld 2 (h + 6) b)) s
     (λ v s', s' = s ∧ want_shown sig w (fld 2 (h + 2) b, v)).
Proof.
  intros Hh Ha [Hi Hf] Hcap Hb. destruct w as [i p cap|i p n cap|i p n cap]; cbn in *.
  - destruct Ha as [(-> & -> & _ & ->) Hd]. unfold decode_attachment_value. cbn.
    destruct (string_read_ok L p cap Hcap) as [Hn _].
    rewrite (zdrop_slice_app (h + 8) (zlen (string_read L p cap) + 1)) by (zlen_facts; lia).
    rewrite Z.add_assoc, Hd, <- app_assoc. cbn [app].
    rewrite c_string_app by done. apply wp_ret. done.
  - destruct Ha as [(-> & -> & _ & ->) Hd]. unfold decode_attachment_value. cbn.
    destruct Hf as [Hn0 Hf].
    assert (ztake (Z.min n cap) (zdrop (h + 8) b) = zslice (h + 8) (h + 8 + Z.min n cap) b) as ->
      by (unfold zslice; f_equal; lia).
    set (data := zslice (h + 8) (h + 8 + Z.min n cap) b) in *.
    unfold shown. destruct (arg_type sig i) as [ty|].
    + specialize (Hf _ eq_refl). unfold try_decode_timespec.
      destruct Hf as [F1 F2]. destruct Hd as [Hl Hd].
      destruct (has_suffix "struct __kernel_timespec *" ty) eqn:E1.
      { apply wp_bind, wp_bind, wp_assert; [rewrite Hl, F1 by done; done|].
        apply wp_ret, wp_ret. split; [done|]. exists data. done. }
      destruct (has_suffix "struct old_timespec32 *" ty) eqn:E2.
      { apply wp_bind, wp_bind, wp_assert; [rewrite Hl, F2 by done; done|].
        apply wp_ret, wp_ret. split; [done|]. exists data. done. }
      apply wp_bind, wp_ret.
      destruct (try_decode_sockaddr ty data) eqn:E3; apply wp_ret;
        (split; [done|]; exists data; by rewrite E3).
    + apply wp_ret. split; [done|]. exists data. done.
  - destruct Ha as ((-> & -> & _ & ->) & Hd & H0). unfold decode_attachment_value. cbn.
    set (m := Z.min n (cap - 1)) in *. pose proof (proj1 Hd) as Hm. zlen_facts.
    rewrite (zdrop_slice_app (h + 8) (m + 1)) by lia.
    rewrite (zslice_split (h + 8) (h + 8 + m)), Z.add_assoc, H0, <- app_assoc by lia.
    cbn [app]. rewrite c_string_until. apply wp_ret. split; [done|].
    eexists. split; [exact Hd|done].
Qed.

Lemma decode_attached sig ws h b (s : S) :
  0 ≤ h → attached ws h b → Forall (want_fits sig) ws →
  wp (decode_attachments try_decode_sockaddr sig (sig_nargs_of sig) (length ws) h b) s
     (λ vs s', s' = s ∧ Forall2 (want_shown sig) ws vs).
Proof.
  revert h. induction ws as [|w ws IH]; intros h Hh Ha Hf.
  - apply wp_ret. split; [done|constructor].
  - destruct Ha as (Hcap & Ha & Hr). apply Forall_cons in Hf as [Hw Hws].
    pose proof (attached_len _ _ _ Hr) as Hlen.
    assert (∃ type m, header_at h type (want_index w) (want_cap w) m b ∧ m ≤ want_cap w)
      as (type & m & (H0 & H2 & H4 & H6) & Hm).
    { destruct w as [i p cap|i p n cap|i p n cap]; cbn in *; destruct Ha as [Hd _].
      - eexists _, _. split; [exact Hd|]. destruct (string_read_ok L p cap); lia.
      - eexists _, _. split; [exact Hd|]. lia.
      - eexists _, _. split; [exact Hd|]. lia. }
    pose proof (decode_one sig w h b s Hh Ha Hw (proj1 Hcap) Hlen) as Hone.
    cbn [decode_attachments length]. offs. rewrite H2, H4, H6 in *.
    destruct Hw as [Hi _].
    apply wp_bind, wp_assert; [apply Z.leb_le; lia|].
    apply wp_bind, wp_assert; [by apply Z.ltb_lt|].
    apply wp_bind, wp_assert; [apply Z.leb_le; lia|].
    apply wp_bind, wp_assert; [apply Z.leb_le; lia|].
    apply wp_bind. eapply wp_mono; [exact Hone|]. intros v s' (-> & Hv).
    apply wp_bind. wp_call (IH (h + 8 + want_cap w)); [lia|done|done|].
    intros vs s' (-> & Hvs). apply wp_ret. split; [done|]. by constructor.
Qed.
End attached.

(** ** Frames of the parts of an event *)
Section frames.
Context {c : context} (L : context_laws c).
Implicit Types b : list Z.

Lemma attached_one_frame w h lo hi b b' :
  same_outside lo hi b b' → 0 ≤ h → 0 < want_cap w → hi ≤ h ∨ h + 8 + want_cap w ≤ lo →
  attached_one L w h b → attached_one L w h b'.
Proof.
  intros F Hh Hcap Hd. destruct w as [i p cap|i p n cap|i p n cap]; cbn in *.
  - intros [(A0 & A2 & A4 & A6) Hs]. destruct (string_read_ok L p cap Hcap) as [_ Hl].
    unfold header_at. zlen_facts.
    rewrite !(same_outside_fld _ _ _ _ _ _ F), (same_outside_slice _ _ _ _ _ _ F) by lia. done.
  - intros [(A0 & A2 & A4 & A6) Hs]. unfold header_at.
    rewrite !(same_outside_fld _ _ _ _ _ _ F), (same_outside_slice _ _ _ _ _ _ F) by lia. done.
  - intros ((A0 & A2 & A4 & A6) & Hs & Hz). pose proof (proj1 Hs). zlen_facts. unfold header_at.
    rewrite !(same_outside_fld _ _ _ _ _ _ F), !(same_outside_slice _ _ _ _ _ _ F) by lia. done.
Qed.

(** [b'] differs from [b] in the attachments, which start at [lo], and in
    their number. *)
Definition head_kept (lo : Z) b b' : Prop :=
  zlen b' = zlen b ∧
  ∀ n o, 0 ≤ o → o + n ≤ 18 ∨ (20 ≤ o ∧ o + n ≤ lo) → fld n o b' = fld n o b.
Lemma head_kept_refl lo b : head_kept lo b b.
Proof. done. Qed.
Lemma head_kept_trans lo b1 b2 b3 : head_kept lo b1 b2 → head_kept lo b2 b3 → head_kept lo b1 b3.
Proof. intros [L1 F1] [L2 F2]. split; [lia|]. intros n o Ho Hn. by rewrite F2, F1. Qed.
Lemma head_kept_attach lo hi b b' : same_outside lo hi b b' → 20 ≤ lo → head_kept lo b b'.
Proof. intros F Hlo. split; [apply F|]. intros. apply (same_outside_fld _ _ _ _ _ _ F); lia. Qed.
Lemma head_kept_count b b' lo : same_outside 18 20 b b' → head_kept lo b b'.
Proof. intros F. split; [apply F|]. intros. apply (same_outside_fld _ _ _ _ _ _ F); lia. Qed.
Lemma head_kept_weaken lo lo' b b' : head_kept lo b b' → lo' ≤ lo → head_kept lo' b b'.
Proof. intros [Hl F] Hlo. split; [done|]. intros. apply F; lia. Qed.

End frames.

Ltac keep_attached :=
  lazymatch goal with
  | |- _ < _ => cbn; offs; lia
  | |- _ ≤ zlen _ => cbn; offs; lia
  | A : attached_one _ ?w ?h ?b |- attached_one _ ?w ?h ?b => exact A
  | F : same_outside ?lo ?hi ?b0 ?b |- attached_one _ ?w ?h ?b =>
      apply (attached_one_frame _ w h lo hi b0 b F);
      [offs; lia|cbn; offs; lia|cbn; offs; lia|keep_attached]
  end.
Ltac head_solve :=
  lazymatch goal with
  | |- head_kept _ ?b ?b => apply head_kept_refl
  | F : same_outside 18 20 ?b1 ?b2 |- head_kept _ _ ?b2 =>
      apply (head_kept_trans _ _ b1); [head_solve|by apply head_kept_count]
  | F : same_outside ?lo _ ?b1 ?b2 |- head_kept _ _ ?b2 =>
      apply (head_kept_trans _ _ b1);
      [head_solve|apply (head_kept_weaken lo); [apply (head_kept_attach _ _ _ _ F); offs; lia|offs; lia]]
  end.
Ltac count_put := offs; put_step; change (18 + 2) with 20 in *.
Ltac body_done :=
  split_and!; [head_solve|offs; fld_solve|unfold want_path in *; cbn [attached want_cap]; offs;
    change (88 + 8 + 256) with 352; change (352 + 8 + 256) with 616;
    change (616 + 8 + 256) with 880;
    repeat match goal with |- _ ∧ _ => split end; keep_attached|try done].


(** ** Entry of a call *)
Section enter.
Context {K : Type} `{BpfKernel K} (N : SyscallNumbers) {c : context} (L : context_laws c).
Notation T := (tracer K).
Implicit Types (t : T) (b : list Z).

(** The inflight entry of the thread, as the map leaves it. *)
Definition scheduled (tid nr : Z) (o : option OutCopy) t t' : Prop :=
  match o with
  | None => t' = t
  | Some cp => inflight_update tid (mk_inflight nr cp) t = Ret (tt, t')
  end.
Lemma inflight_update_returns tid v t : ∃ t', inflight_update tid v t = Ret (tt, t').
Proof.
  unfold inflight_update, bind, call_kernel, modify.
  destruct (k_refuses (kern t)) as [r k]. eauto.
Qed.
Lemma wp_schedule tid nr cp t (Q : unit → T → Prop) :
  (∀ t', scheduled tid nr (Some cp) t t' → Q tt t') →
  wp (inflight_update tid (mk_inflight nr cp)) t Q.
Proof.
  intros HQ. destruct (inflight_update_returns tid (mk_inflight nr cp) t) as [t' E].
  exists tt, t'. auto.
Qed.

Lemma attach_str i dst h p b t :
  0 ≤ h → dst = h + 8 → dst + MAX_PATH ≤ zlen b → 0 ≤ i < 6 →
  wp (write_attach_str_arg c h i dst MAX_PATH p b) t (λ b' t',
    t' = t ∧ same_outside h (dst + MAX_PATH) b b' ∧ attached_one L (WantStr i p MAX_PATH) h b').
Proof.
  intros Hh -> Hb Hi. offs. wp_call (write_attach_str_arg_spec L h i (h + 8) 256 p b t); [lia..|].
  intros b' t' (-> & F & Hd & Hs). done.
Qed.
Lemma attach_bytes i dst h p n cap b t :
  0 ≤ h → dst = h + 8 → dst + cap ≤ zlen b → 0 < cap < 2 ^ 16 → 0 ≤ i < 6 → 0 ≤ n →
  wp (write_attach_bytes_arg c h i dst cap p n b) t (λ b' t',
    t' = t ∧ same_outside h (dst + cap) b b' ∧ attached_one L (WantBytes i p n cap) h b').
Proof.
  intros Hh -> Hb Hcap Hi Hn. wp_call (write_attach_bytes_arg_spec L h i (h + 8) cap p n b t); [lia..|].
  intros b' t' (-> & F & Hd & Hs). split_and!; [done|done|]. cbn. split; [done|].
  split; [|done]. rewrite zlen_zslice. pose proof (proj1 F). zlen_facts. lia.
Qed.

(** What the body of a branch adds to the filled event. *)
Definition body_adds (ws : list want) (tid nr : Z) (o : option OutCopy)
    (body : list Z → M T (list Z)) b t : Prop :=
  wp (body b) t (λ b' t',
    head_kept 88 b b' ∧ fld 2 o_attachment_count b' = zlen ws ∧ attached L ws 88 b' ∧
    scheduled tid nr o t t').

Ltac attach :=
  first [wp_call attach_str|wp_call attach_bytes];
  [offs; lia..|
   let b := fresh "b" in let F := fresh "F" in let A := fresh "A" in
   intros b ? (-> & F & A); pose proof (proj1 F)].
(** Only one of the tests of a branch can succeed, and an argument is a word. *)
Hypothesis statfs_readlinkat : n_STATFS N ≠ n_READLINKAT N.
Variable args : list Z.
Hypothesis args_word : ∀ i, u64 (znth args i) = znth args i.

Lemma enter_path_adds tid nr b t :
  is_path_call N nr = true → zlen b = enter_size EnterPath →
  body_adds (wants_of N nr args) tid nr (out_copy_of N nr args) (enter_path N c tid nr args) b t.
Proof.
  intros Hc Hb. unfold body_adds, wants_of, out_copy_of, want_path. rewrite Hc.
  unfold enter_path. change (enter_size EnterPath) with 352 in Hb.
  destruct (Z.eqb_spec nr (n_STATFS N)) as [->|E].
  - rewrite (proj2 (Z.eqb_neq _ _) statfs_readlinkat).
    apply wp_bind, wp_bind. attach. apply wp_bind, wp_schedule. intros t' Hs.
    apply wp_ret. count_put. apply wp_bind, wp_ret, wp_ret. body_done.
  - apply wp_bind. attach. count_put. apply wp_bind.
    destruct (nr =? n_READLINKAT N).
    + apply wp_schedule. intros t' Hs. apply wp_ret. body_done.
    + apply wp_ret, wp_ret. body_done.
Qed.

Lemma enter_stat_path_adds tid nr b t :
  is_path_call N nr = false → is_stat_path_call N nr = true → zlen b = enter_size EnterPath →
  body_adds (wants_of N nr args) tid nr (out_copy_of N nr args) (enter_stat_path N c tid nr args) b t.
Proof.
  intros H1 Hc Hb. unfold body_adds, wants_of, out_copy_of, want_path. rewrite H1, Hc.
  unfold enter_stat_path. change (enter_size EnterPath) with 352 in Hb.
  destruct (is_nr nr (n_NEWFSTATAT N)).
  all: apply wp_bind; attach; count_put; apply wp_bind, wp_schedule; intros t' Hs; apply wp_ret; body_done.
Qed.

Lemma enter_stat_fd_adds tid nr b t :
  is_path_call N nr = false → is_stat_path_call N nr = false → is_stat_fd_call N nr = true →
  zlen b = enter_size EnterNone → fld 2 o_attachment_count b = 0 →
  body_adds (wants_of N nr args) tid nr (out_copy_of N nr args) (enter_stat_fd N tid nr args) b t.
Proof.
  intros H1 H2 Hc Hb Hn. unfold body_adds, wants_of, out_copy_of. rewrite H1, H2, Hc.
  unfold enter_stat_fd. change (enter_size EnterNone) with 88 in Hb.
  replace (if MAX_STAT <? u32 (znth args 2) then MAX_STAT else u32 (znth args 2))
    with (Z.min (u32 (znth args 2)) MAX_STAT)
    by (destruct (Z.ltb_spec MAX_STAT (u32 (znth args 2))); lia).
  destruct (nr =? n_FSTATFS N), (nr =? n_FSTAT N); cbn [orb].
  all: apply wp_bind, wp_schedule; intros t' Hs; apply wp_ret; body_done.
Qed.

Lemma two_paths_range nr :
  0 ≤ (two_paths N nr).1 < 6 ∧ 0 ≤ (two_paths N nr).2 < 6.
Proof. unfold two_paths. repeat case_match; cbn; lia. Qed.
Lemma write_two_paths_spec i j b t :
  zlen b = 616 → args_at args b → 0 ≤ i < 6 → 0 ≤ j < 6 →
  wp (write_two_paths c i j b) t (λ b' t',
    t' = t ∧ same_outside 88 616 b b' ∧
    attached_one L (want_path args i) 88 b' ∧ attached_one L (want_path args j) 352 b').
Proof.
  intros Hb Ha Hi Hj. unfold write_two_paths, event_arg, want_path. apply wp_bind.
  rewrite Ha, args_word by lia. attach. offs.
  assert (fld 8 (40 + 8 * j) b0 = znth args j) as ->.
  { rewrite (same_outside_fld _ _ _ _ _ _ F) by lia.
    specialize (Ha j Hj). unfold o_args in Ha. by rewrite Ha, args_word. }
  attach. offs. split_and!; [done|frame_solve|keep_attached..].
Qed.

Lemma enter_two_paths_adds tid nr b t :
  is_path_call N nr = false → is_stat_path_call N nr = false → is_stat_fd_call N nr = false →
  is_two_path_call N nr = true → zlen b = enter_size EnterPath2 → args_at args b →
  body_adds (wants_of N nr args) tid nr (out_copy_of N nr args) (enter_two_paths N c nr) b t.
Proof.
  intros H1 H2 H3 Hc Hb Ha. unfold body_adds, wants_of, out_copy_of. rewrite H1, H2, H3, Hc.
  change (enter_size EnterPath2) with 616 in Hb. cbn [orb].
  assert (enter_two_paths N c nr b =
    let! b := write_two_paths c (two_paths N nr).1 (two_paths N nr).2 b in
    put16 o_attachment_count 2 b) as ->.
  { unfold enter_two_paths, two_paths. repeat case_match; done. }
  destruct (two_paths_range nr) as [Hi Hj]. apply wp_bind.
  wp_call write_two_paths_spec; [done..|]. intros b1 t1 (-> & F & A1 & A2). pose proof (proj1 F).
  count_put. body_done.
Qed.

Lemma enter_mount_adds tid nr b t :
  is_path_call N nr = false → is_stat_path_call N nr = false → is_stat_fd_call N nr = false →
  is_two_path_call N nr = false → nr = n_MOUNT N → zlen b = enter_size EnterPath3 →
  args_at args b →
  body_adds (wants_of N nr args) tid nr (out_copy_of N nr args) (enter_mount c) b t.
Proof.
  intros H1 H2 H3 H4 Hc Hb Ha. unfold body_adds, wants_of, out_copy_of.
  rewrite H1, H2, H3, H4, (proj2 (Z.eqb_eq _ _) Hc). cbn [orb].
  change (enter_size EnterPath3) with 880 in Hb. unfold enter_mount, event_arg, want_path.
  pose proof (Ha 0 ltac:(lia)) as A0. pose proof (Ha 1 ltac:(lia)) as A1.
  pose proof (Ha 2 ltac:(lia)) as A2. rewrite args_word in A0, A1, A2. offs.
  apply wp_bind. rewrite A0. attach.
  replace (fld 8 (40 + 8 * 1) b0) with (znth args 1) by (symmetry; fld_solve).
  apply wp_bind. attach.
  replace (fld 8 (40 + 8 * 2) b1) with (znth args 2) by (symmetry; fld_solve).
  apply wp_bind. attach. count_put. body_done.
Qed.

Lemma enter_sleep_at_adds tid nr i b t :
  0 ≤ i < 5 → zlen b = enter_size EnterTimespec → fld 2 o_attachment_count b = 0 →
  body_adds
    (if znth args i =? 0 then [] else [WantBytes i (znth args i) sizeof_timespec sizeof_timespec])
    tid nr
    (if znth args (i + 1) =? 0 then None
     else Some (StatOutCopy (i + 1) (znth args (i + 1)) sizeof_timespec))
    (enter_sleep_at c tid nr i args) b t.
Proof.
  intros Hi Hb Hn. unfold body_adds, enter_sleep_at. change (enter_size EnterTimespec) with 112 in Hb.
  apply wp_bind. destruct (Z.eqb_spec (znth args i) 0) as [E|E]; cbn [negb].
  - apply wp_ret, wp_bind. destruct (Z.eqb_spec (znth args (i + 1)) 0); cbn [negb].
    + apply wp_ret, wp_ret. body_done.
    + apply wp_schedule. intros t' Hs. apply wp_ret. body_done.
  - apply wp_bind. attach. count_put. apply wp_bind.
    destruct (Z.eqb_spec (znth args (i + 1)) 0); cbn [negb].
    + apply wp_ret, wp_ret. body_done.
    + apply wp_schedule. intros t' Hs. apply wp_ret. body_done.
Qed.

Lemma enter_sleep_adds tid nr b t :
  is_path_call N nr = false → is_stat_path_call N nr = false → is_stat_fd_call N nr = false →
  is_two_path_call N nr = false → (nr =? n_MOUNT N) = false → is_sleep_call N nr = true →
  zlen b = enter_size EnterTimespec → fld 2 o_attachment_count b = 0 →
  body_adds (wants_of N nr args) tid nr (out_copy_of N nr args) (enter_sleep N c tid nr args) b t.
Proof.
  intros H1 H2 H3 H4 H5 Hc Hb Hn. unfold wants_of, out_copy_of.
  rewrite H1, H2, H3, H4, H5, Hc. cbn [orb].
  unfold enter_sleep, body_adds. destruct (nr =? n_NANOSLEEP N).
  - apply (enter_sleep_at_adds tid nr 0); [lia|done|done].
  - apply (enter_sleep_at_adds tid nr 2); [lia|done|done].
Qed.

Lemma enter_sock_adds tid nr b t :
  is_path_call N nr = false → is_stat_path_call N nr = false → is_stat_fd_call N nr = false →
  is_two_path_call N nr = false → (nr =? n_MOUNT N) = false → is_sleep_call N nr = false →
  is_sock_call N nr = true → zlen b = enter_size EnterSock →
  body_adds (wants_of N nr args) tid nr (out_copy_of N nr args) (enter_sock N c nr args) b t.
Proof.
  intros H1 H2 H3 H4 H5 H6 Hc Hb. unfold body_adds, wants_of, out_copy_of.
  rewrite H1, H2, H3, H4, H5, H6, Hc. cbn [orb]. change (enter_size EnterSock) with 224 in Hb.
  unfold enter_sock. apply wp_bind.
  pose proof (u32_range (znth args 5)). pose proof (u32_range (znth args 2)).
  destruct (nr =? n_SENDTO N); attach; count_put; body_done.
Qed.

Lemma enter_sock_out_adds tid nr b t :
  is_path_call N nr = false → is_stat_path_call N nr = false → is_stat_fd_call N nr = false →
  is_two_path_call N nr = false → (nr =? n_MOUNT N) = false → is_sleep_call N nr = false →
  is_sock_call N nr = false → is_sock_out_call N nr = true →
  zlen b = enter_size EnterNone → fld 2 o_attachment_count b = 0 →
  body_adds (wants_of N nr args) tid nr (out_copy_of N nr args) (enter_sock_out N tid nr args) b t.
Proof.
  intros H1 H2 H3 H4 H5 H6 H7 Hc Hb Hn. unfold body_adds, wants_of, out_copy_of.
  rewrite H1, H2, H3, H4, H5, H6, H7, Hc. cbn [orb]. change (enter_size EnterNone) with 88 in Hb.
  unfold enter_sock_out. destruct (nr =? n_RECVFROM N).
  all: apply wp_bind, wp_schedule; intros t' Hs; apply wp_ret; body_done.
Qed.

(** ** The whole entry event *)
Definition enter_record (tgid tid nr gen : Z) (ws : list want) b : Prop :=
  syscall_head EVENT_TYPE_SYSCALL_ENTER tgid tid nr gen b ∧ args_at args b ∧
  fld 2 o_attachment_count b = zlen ws ∧ attached L ws 88 b.

(** The tracer after a record was reserved, filled and submitted. *)
Definition submitted (n tid nr : Z) (o : option OutCopy) (b : list Z) t t' : Prop :=
  ∃ k t2, scheduled tid nr o (set_kern k (set_stats (alter (note_emit n) (cpu c) (stats t)) t)) t2 ∧
    t' = add_syscall_event b t2.

Lemma head_kept_syscall lo b b' type tgid tid nr gen :
  head_kept lo b b' → 36 ≤ lo → syscall_head type tgid tid nr gen b →
  syscall_head type tgid tid nr gen b'.
Proof.
  intros [_ F] Hlo. unfold syscall_head, event_head. offs. rewrite !F by lia. done.
Qed.
Lemma head_kept_args b b' : head_kept 88 b b' → args_at args b → args_at args b'.
Proof. intros [_ F] Ha i Hi. unfold o_args in *. rewrite F by lia. by apply Ha. Qed.

Lemma reserve_event_some r n t b0 k :
  k_reserve r n (kern t) = (Some b0, k) →
  reserve_event r c n t =
    Ret (Some b0, set_kern k (set_stats (alter (note_emit n) (cpu c) (stats t)) t)).
Proof.
  intros E. unfold reserve_event, bpf_ringbuf_reserve, bind, call_kernel. by rewrite E.
Qed.
Lemma reserve_event_none r n t k :
  k_reserve r n (kern t) = (None, k) →
  reserve_event r c n t =
    Ret (None, set_kern k (set_stats (alter (note_drop n) (cpu c) (stats t)) t)).
Proof.
  intros E. unfold reserve_event, bpf_ringbuf_reserve, bind, call_kernel. by rewrite E.
Qed.

Lemma enter_size_ge v : 88 ≤ enter_size v.
Proof. by destruct v. Qed.

Lemma enter_event_spec v tgid tid nr gen ws o body t b0 k :
  k_reserve SyscallRing (enter_size v) (kern t) = (Some b0, k) → zlen b0 = enter_size v →
  (∀ b t, zlen b = enter_size v → args_at args b → fld 2 o_attachment_count b = 0 →
     body_adds ws tid nr o body b t) →
  wp (enter_event c v tgid tid nr gen args body) t (λ _ t', ∃ b,
    zlen b = enter_size v ∧ enter_record tgid tid nr gen ws b ∧
    submitted (enter_size v) tid nr o b t t').
Proof.
  intros Hr Hb0 Hbody. pose proof (enter_size_ge v). unfold enter_event, reserve_syscall_event. apply wp_bind.
  eexists _, _. split; [by apply reserve_event_some|].
  apply wp_bind. wp_call fill_syscall_event_spec; [lia|].
  intros b1 t1 (Ht1 & F1 & Hd1 & Hc1). pose proof (proj1 F1).
  apply wp_bind. wp_call (fill_enter_args_spec args b1 t1); [lia|].
  intros b2 t2 (-> & F2 & Ha2). pose proof (proj1 F2).
  apply wp_bind. eapply wp_mono; [apply Hbody|].
  - lia.
  - done.
  - offs. fld_solve.
  - intros b3 t3 (Hk & Hn & Hat & Hs). apply wp_modify.
    exists b3. split_and!; [destruct Hk; lia| |].
    + split_and!; [|by apply (head_kept_args b2)|done|done].
      apply (head_kept_syscall 88 b2); [done|lia|].
      destruct Hd1 as ((A1 & A2 & A3) & A4 & A5). unfold syscall_head, event_head. offs.
      split_and!; fld_solve.
    + exists (kern t1), t3. split; [|done]. unfold only_kern in Ht1. rewrite Ht1 in Hs.
      by rewrite Ht1.
Qed.

Lemma body_ret_adds tid nr b t :
  88 ≤ zlen b → fld 2 o_attachment_count b = 0 → body_adds [] tid nr None ret b t.
Proof. intros Hb Hn. apply wp_ret. split_and!; [done|done|done|done]. Qed.

Lemma enter_branch_spec tgid tid nr gen t b0 k :
  let v := variant_of N nr in
  k_reserve SyscallRing (enter_size v) (kern t) = (Some b0, k) → zlen b0 = enter_size v →
  wp (enter_branch N c tgid tid nr gen args) t (λ _ t', ∃ b,
    zlen b = enter_size v ∧ enter_record tgid tid nr gen (wants_of N nr args) b ∧
    submitted (enter_size v) tid nr (out_copy_of N nr args) b t t').
Proof.
  intros v. subst v. unfold variant_of, enter_branch.
  destruct (is_path_call N nr) eqn:H1; cbn [orb].
  { intros Hr Hb. eapply enter_event_spec; [done..|]. intros. by apply enter_path_adds. }
  destruct (is_stat_path_call N nr) eqn:H2.
  { intros Hr Hb. eapply enter_event_spec; [done..|]. intros. by apply enter_stat_path_adds. }
  destruct (is_stat_fd_call N nr) eqn:H3.
  { intros Hr Hb. eapply enter_event_spec; [done..|]. intros. by apply enter_stat_fd_adds. }
  destruct (is_two_path_call N nr) eqn:H4.
  { intros Hr Hb. eapply enter_event_spec; [done..|]. intros. by apply enter_two_paths_adds. }
  destruct (Z.eqb_spec nr (n_MOUNT N)) as [H5|H5].
  { intros Hr Hb. eapply enter_event_spec; [done..|]. intros. by apply enter_mount_adds. }
  apply Z.eqb_neq in H5.
  destruct (is_sleep_call N nr) eqn:H6.
  { intros Hr Hb. eapply enter_event_spec; [done..|]. intros. by apply enter_sleep_adds. }
  destruct (is_sock_call N nr) eqn:H7.
  { intros Hr Hb. eapply enter_event_spec; [done..|]. intros. by apply enter_sock_adds. }
  intros Hr Hb. destruct (is_sock_out_call N nr) eqn:H8.
  { eapply enter_event_spec; [done..|]. intros. by apply enter_sock_out_adds. }
  assert (wants_of N nr args = [] ∧ out_copy_of N nr args = None) as [-> ->].
  { unfold wants_of, out_copy_of. by rewrite H1, H2, H3, H4, H5, H6, H7, H8. }
  eapply enter_event_spec; [done..|]. intros b t' Hl _ Hn.
  apply body_ret_adds; [rewrite Hl; apply enter_size_ge|done].
Qed.

(** ** Reading it back *)
Context {S X : Type} (try_decode_sockaddr : string → list Z → option X).

Lemma enter_record_read tgid tid nr gen ws b sig (s : S) :
  enter_record tgid tid nr gen ws b → 0 ≤ tgid < 2 ^ 32 → 0 ≤ tid < 2 ^ 32 →
  - 2 ^ 31 ≤ nr < 2 ^ 31 → 0 ≤ gen < 2 ^ 32 →
  Forall (want_fits sig) ws → 0 ≤ sig_nargs_of sig ≤ 6 → length args = 6%nat →
  wp (build_event_variant try_decode_sockaddr sig b) s (λ v _,
    e_tid v = tid ∧ e_tgid v = tgid ∧ e_nr v = nr ∧ e_gen v = gen ∧
    e_payload v = inl (ztake (sig_nargs_of sig) args) ∧
    Forall2 (want_shown L try_decode_sockaddr sig) ws (e_attachments v)).
Proof.
  intros (((Hg & Hd & Ht) & Hnr & Hgen) & Ha & Hn & Hat) Ig Id Inr Igen Hf Hna Hla.
  unfold build_event_variant. fold (sig_nargs_of sig). rewrite Ht.
  change (u16 EVENT_TYPE_SYSCALL_ENTER =? EVENT_TYPE_SYSCALL_ENTER) with true. cbn iota.
  pose proof (attached_len _ _ _ _ Hat). apply wp_bind, wp_assert; [offs; by apply Z.leb_le|].
  apply wp_bind. rewrite Hn. unfold zlen at 1. rewrite Nat2Z.id.
  wp_call (decode_attached L try_decode_sockaddr sig ws 88 b s); [lia|done|done|].
  intros vs s' (-> & Hvs). apply wp_ret. cbn.
  rewrite Hd, Hg, Hgen. unfold sfld32. rewrite Hnr.
  rewrite (u32_small tid), (u32_small tgid), (u32_small gen), s32_of_u32 by lia.
  split_and!; try done. f_equal.
  apply list_eq_Forall2. apply Forall2_same_length_lookup_2.
  { rewrite length_fmap, length_seq. unfold ztake. rewrite length_take. lia. }
  intros i x y Hx Hy. apply list_lookup_fmap_Some in Hx as (j & -> & Hj).
  apply lookup_seq in Hj as [-> Hj]. cbn. unfold ztake in Hy.
  apply lookup_take_Some in Hy as [Hy Hi].
  rewrite Ha by lia. rewrite args_word. unfold znth. rewrite Nat2Z.id.
  by apply nth_lookup_Some.
Qed.
End enter.
