(* ===== verification/TracerExit.v ===== *)
(** The exit of a traced call: the event with its result and the buffer that
    was scheduled to be copied out, and what the reader makes of it. *)
From S2P Require Import Prelude Posix Records Tracer TracerReader TracerCorrect TracerEvents.

Section tables.
Context (N : SyscallNumbers) (c : context).

(** How many bytes of the address the socket calls report. *)
Definition sock_len (user_len_ptr max_len : Z) : Z :=
  Z.min (Z.max 0 (read_user_len c user_len_ptr)) max_len.

(** The attachments of an exit event, given what is in flight for the thread. *)
Definition exit_wants (i : option Inflight) (nr retval : Z) : list want :=
  match i with
  | None => []
  | Some i =>
      if negb (syscall_nr i =? nr) then []
      else match copy i with
      | StrOutCopy a p max_len =>
          if 0 <? retval then [WantText a p (Z.min (u32 retval) max_len) MAX_PATH] else []
      | StatOutCopy a p len =>
          if stat_copy_ok N nr retval then [WantBytes a p len MAX_STAT] else []
      | SockOutCopy a p lp max_len =>
          if sock_copy_ok N nr retval then [WantBytes a p (sock_len lp max_len) MAX_SOCK] else []
      end
  end.

Definition exit_variant (i : option Inflight) (nr : Z) : ExitVariant :=
  match i with
  | None => ExitNone
  | Some i =>
      if negb (syscall_nr i =? nr) then ExitNone
      else match copy i with
      | StrOutCopy _ _ _ => ExitStrOut
      | StatOutCopy _ _ _ => ExitStatOut
      | SockOutCopy _ _ _ _ => ExitSockOut
      end
  end.

(** What stays in flight. *)
Definition exit_inflight (m : gmap Z Inflight) (tid nr : Z) : gmap Z Inflight :=
  match m !! tid with
  | Some i => if syscall_nr i =? nr then delete tid m else m
  | None => m
  end.
End tables.

(** Lengths and indices as the programs that schedule copies leave them. *)
Definition copy_ok (cp : OutCopy) : Prop :=
  match cp with
  | StrOutCopy a _ n | StatOutCopy a _ n | SockOutCopy a _ _ n => 0 ≤ a < 6 ∧ 0 ≤ n < 2 ^ 32
  end.

Section exit.
Context {K : Type} `{BpfKernel K} (N : SyscallNumbers) {c : context} (L : context_laws c).
Notation T := (tracer K).
Implicit Types (t : T) (b : list Z).

Definition exit_adds (ws : list want) (tid : Z) (body : list Z → M T (list Z)) b t : Prop :=
  wp (body b) t (λ b' t',
    head_kept 48 b b' ∧ fld 2 o_attachment_count b' = zlen ws ∧ attached L ws 48 b' ∧
    t' = set_inflight (delete tid (inflight t)) t).

(** A header whose size is known before the data is copied. *)
Lemma put_header_size h type a cap m b t :
  0 ≤ h → h + 8 ≤ zlen b → 0 ≤ type < 2 ^ 16 → 0 ≤ a < 2 ^ 16 → 0 ≤ cap < 2 ^ 16 →
  0 ≤ m < 2 ^ 16 →
  wp (let! b := put_header h type a cap b in put16 (h + 6) m b) t (λ b' t',
    t' = t ∧ same_outside h (h + 8) b b' ∧ header_at h type a cap m b').
Proof.
  intros Hh Hb Ht Ha Hc Hm. apply wp_bind. wp_call (put_header_spec h type a cap b t); [lia..|].
  intros b1 t1 (-> & F1 & V1 & V2 & V3). pose proof (proj1 F1). put_step.
  rewrite mod_small16 in * by lia. unfold header_at.
  split_and!; [done|frame_solve|..]; fld_solve.
Qed.

Lemma land_255 z : 0 ≤ z < 256 → Z.land z (256 - 1) = z.
Proof. intros Hz. change (256 - 1) with (Z.ones 8). rewrite Z.land_ones by lia. by apply Z.mod_small. Qed.

(** The length of a text: what was returned, what fits, what the caller allowed. *)
Lemma str_out_size_min n max_len :
  0 ≤ max_len → str_out_size n max_len = Z.min (Z.min (u32 n) max_len) (MAX_PATH - 1).
Proof.
  intros Hm. unfold str_out_size. offs. pose proof (u32_range n).
  repeat match goal with
  | |- context [?x <? ?y] => destruct (Z.ltb_spec x y)
  | |- context [?x <=? ?y] => destruct (Z.leb_spec x y)
  end; rewrite land_255; lia.
Qed.

Lemma exit_str_out_adds tid nr retval a p max_len b t :
  copy_ok (StrOutCopy a p max_len) → zlen b = exit_size ExitStrOut →
  fld 2 o_attachment_count b = 0 →
  exit_adds (exit_wants N c (Some (mk_inflight nr (StrOutCopy a p max_len))) nr retval) tid
    (exit_str_out c tid retval a p max_len) b t.
Proof.
  intros [Ha Hml] Hb Hn. unfold exit_adds, exit_wants, exit_str_out. cbn [syscall_nr copy].
  rewrite Z.eqb_refl. cbn [negb]. change (exit_size ExitStrOut) with 312 in Hb.
  apply wp_bind. destruct (0 <? retval); [|apply wp_ret, wp_bind, wp_modify, wp_ret; body_done].
  pose proof (u32_range retval).
  rewrite str_out_size_min by lia.
  set (m := Z.min (Z.min (u32 retval) max_len) (MAX_PATH - 1)).
  assert (0 ≤ m ≤ 255) as Hm by (subst m; offs; lia).
  apply wp_reassoc, wp_bind. offs. wp_call (put_header_size 48 0 a 256 (m + 1) b t); [lia..|].
  intros b1 t1 (-> & F1 & Hd). pose proof (proj1 F1).
  set (L0 := λ b2, same_outside 56 (56 + m) b1 b2 ∧ delivered L p m (zslice 56 (56 + m) b2)).
  apply wp_bind.
  apply wp_mono with (P := λ b2 t2, t2 = t ∧ L0 b2).
  { destruct (Z.ltb_spec 0 m).
    - wp_call (copy_user_spec L 56 m p b1 t); [lia..|]. intros b2 t2 (-> & F2 & D2).
      split; [done|]. split; [done|]. split; [|by intros _]. pose proof (proj1 F2).
      rewrite zlen_zslice. zlen_facts. lia.
    - apply wp_ret. split; [done|]. split; [apply same_outside_refl|].
      replace m with 0 by lia. split; [|lia]. by rewrite zslice_le by lia. }
  intros b2 t2 (-> & F2 & D2). pose proof (proj1 F2).
  apply wp_bind, wp_store; [lia|rewrite zlen_cons, zlen_nil; lia|].
  pose proof (same_outside_zwrite (56 + m) [0] b2 ltac:(lia)
    ltac:(rewrite zlen_cons, zlen_nil; lia)) as F3.
  pose proof (zslice_zwrite (56 + m) [0] b2 ltac:(lia)
    ltac:(rewrite zlen_cons, zlen_nil; lia)) as Hz.
  change (zlen [0]) with 1 in *. set (b3 := zwrite (56 + m) [0] b2) in *. clearbody b3.
  pose proof (proj1 F3). count_put. apply wp_bind, wp_modify, wp_ret.
  assert (attached_one L (WantText a p (Z.min (u32 retval) max_len) 256) 48 b3) as A.
  { cbn. fold m. unfold header_at in *. offs. change (48 + 8) with 56.
    rewrite (same_outside_slice _ _ _ _ 56 (56 + m) F3) by lia.
    destruct Hd as (V0 & V2 & V4 & V6). split_and!; fld_solve. all: done. }
  split_and!; [head_solve|by rewrite V| |done].
  cbn [attached want_cap]. change (48 + 8 + 256) with 312.
  repeat match goal with |- _ ∧ _ => split end; keep_attached.
Qed.

(** The size and the bytes behind the first members of a header. *)
Lemma bytes_out a p n cap b0 b t :
  fld 2 48 b = 1 → fld 2 50 b = a → fld 2 52 b = cap → same_outside 48 54 b0 b →
  56 + cap = zlen b0 → 0 < cap < 2 ^ 16 → 0 ≤ n ≤ cap →
  wp (let! b := put16 (exit_attach + 6) n b in
      if negb (n =? 0) then
        let! old := load exit_data n b in store exit_data (read_user c p old).2 b
      else ret b) t
    (λ b' t', t' = t ∧ same_outside 48 (56 + cap) b0 b' ∧
       attached_one L (WantBytes a p n cap) 48 b').
Proof.
  intros V0 V2 V4 F0 Hb Hc Hn. pose proof (proj1 F0). offs. put_step. cbn.
  rewrite mod_small16 in V by lia. unfold delivered, header_at.
  replace (Z.min n cap) with n by lia. offs. change (48 + 8) with 56.
  destruct (Z.eqb_spec n 0) as [->|Hn0]; cbn [negb].
  - apply wp_ret. rewrite zslice_le by lia.
    split_and!; [done|frame_solve|fld_solve..|done|lia].
  - wp_call (copy_user_spec L 56 n p b1 t); [lia..|]. intros b2 t2 (-> & F2 & D2).
    pose proof (proj1 F2).
    split_and!; [done|frame_solve|fld_solve..| |by intros _].
    rewrite zlen_zslice. zlen_facts. lia.
Qed.

Lemma exit_stat_out_adds tid nr retval a p len b t :
  copy_ok (StatOutCopy a p len) → zlen b = exit_size ExitStatOut →
  fld 2 o_attachment_count b = 0 →
  exit_adds (exit_wants N c (Some (mk_inflight nr (StatOutCopy a p len))) nr retval) tid
    (exit_stat_out N c tid nr retval a p len) b t.
Proof.
  intros [Ha Hl] Hb Hn. unfold exit_adds, exit_wants, exit_stat_out. cbn [syscall_nr copy].
  rewrite Z.eqb_refl. cbn [negb]. change (exit_size ExitStatOut) with 568 in Hb.
  apply wp_bind.
  destruct (stat_copy_ok N nr retval); [|apply wp_ret, wp_bind, wp_modify, wp_ret; body_done].
  set (n := if MAX_STAT <? len then MAX_STAT else len).
  assert (n = Z.min len MAX_STAT) as Hmin by (subst n; destruct (Z.ltb_spec MAX_STAT len); lia).
  clearbody n. apply wp_bind. offs. wp_call (put_header_spec 48 1 a 512 b t); [lia..|].
  intros b1 t1 (-> & F1 & V1 & V2 & V3).
  pose proof (bytes_out a p n 512 b b1 t V1 V2 V3 F1 ltac:(lia) ltac:(lia) ltac:(lia)) as Hout.
  apply wp_bind.
  apply wp_mono with (P := λ b' t', t' = t ∧ same_outside 48 (56 + 512) b b' ∧
    attached_one L (WantBytes a p n 512) 48 b').
  { by destruct (Z.eqb_spec n 512) as [->|]. }
  intros b2 t2 (-> & F2 & A). clear F1. pose proof (proj1 F2). count_put.
  apply wp_bind, wp_modify, wp_ret.
  assert (attached_one L (WantBytes a p len 512) 48 b2) as A'.
  { cbn in *. by replace (Z.min len 512) with (Z.min n 512) by lia. }
  split_and!; [head_solve|by rewrite V| |done].
  cbn [attached want_cap]. change (48 + 8 + 512) with 568.
  repeat match goal with |- _ ∧ _ => split end; keep_attached.
Qed.

Lemma sock_len_clamp lp max_len :
  0 ≤ max_len →
  (let user_len := read_user_len c lp in
   let to_copy := if 0 <? user_len then u32 user_len else 0 in
   let maxn := if MAX_SOCK <? max_len then MAX_SOCK else max_len in
   if maxn <? to_copy then maxn else to_copy) = Z.min (sock_len c lp max_len) MAX_SOCK.
Proof.
  intros Hm. cbv zeta. unfold sock_len.
  assert (- 2 ^ 31 ≤ read_user_len c lp < 2 ^ 31) as Hr.
  { unfold read_user_len, s32. pose proof (u32_range (le_value (read_user c lp (zeros 4)).2)).
    case_match; lia. }
  offs. destruct (Z.ltb_spec 0 (read_user_len c lp)).
  - rewrite u32_small by lia.
    destruct (Z.ltb_spec 128 max_len);
      match goal with |- context [?x <? ?y] => destruct (Z.ltb_spec x y) end; lia.
  - destruct (Z.ltb_spec 128 max_len);
      match goal with |- context [?x <? ?y] => destruct (Z.ltb_spec x y) end; lia.
Qed.

Lemma exit_sock_out_adds tid nr retval a p lp max_len b t :
  copy_ok (SockOutCopy a p lp max_len) → zlen b = exit_size ExitSockOut →
  fld 2 o_attachment_count b = 0 →
  exit_adds (exit_wants N c (Some (mk_inflight nr (SockOutCopy a p lp max_len))) nr retval) tid
    (exit_sock_out N c tid nr retval a p lp max_len) b t.
Proof.
  intros [Ha Hl] Hb Hn. unfold exit_adds, exit_wants, exit_sock_out. cbn [syscall_nr copy].
  rewrite Z.eqb_refl. cbn [negb]. change (exit_size ExitSockOut) with 184 in Hb.
  apply wp_bind.
  destruct (sock_copy_ok N nr retval); [|apply wp_ret, wp_bind, wp_modify, wp_ret; body_done].
  pose proof (sock_len_clamp lp max_len ltac:(lia)) as Hmin. cbv zeta in Hmin |- *.
  rewrite Hmin. clear Hmin. set (n := Z.min (sock_len c lp max_len) MAX_SOCK).
  assert (0 ≤ n ≤ 128) as Hn' by (subst n; unfold sock_len; offs; lia).
  apply wp_bind. offs. wp_call (put_header_spec 48 1 a 128 b t); [lia..|].
  intros b1 t1 (-> & F1 & V1 & V2 & V3). apply wp_reassoc, wp_bind.
  wp_call (bytes_out a p n 128 b b1 t V1 V2 V3 F1); [lia..|].
  intros b2 t2 (-> & F2 & A). clear F1. pose proof (proj1 F2). count_put.
apply wp_bind, wp_modify, wp_ret.
  assert (attached_one L (WantBytes a p (sock_len c lp max_len) 128) 48 b2) as A'.
  { cbn in *. subst n. by replace (Z.min (Z.min (sock_len c lp max_len) 128) 128)
      with (Z.min (sock_len c lp max_len) 128) in A by lia. }
  split_and!; [head_solve|by rewrite V| |done].
  cbn [attached want_cap]. change (48 + 8 + 128) with 184.
  repeat match goal with |- _ ∧ _ => split end; keep_attached.
Qed.

(** ** The whole exit event *)
Definition exit_record (tgid tid nr gen retval : Z) (ws : list want) b : Prop :=
  syscall_head EVENT_TYPE_SYSCALL_EXIT tgid tid nr gen b ∧ fld 8 o_retval b = u64 retval ∧
  fld 2 o_attachment_count b = zlen ws ∧ attached L ws 48 b.

Definition exit_submitted (n : Z) (m : gmap Z Inflight) (b : list Z) t t' : Prop :=
  ∃ k, t' = add_syscall_event b
              (set_inflight m (set_kern k (set_stats (alter (note_emit n) (cpu c) (stats t)) t))).

Lemma exit_size_ge v : 48 ≤ exit_size v.
Proof. by destruct v. Qed.

Lemma exit_event_spec v tgid tid nr gen retval ws m body t b0 k :
  k_reserve SyscallRing (exit_size v) (kern t) = (Some b0, k) → zlen b0 = exit_size v →
  (∀ b t1, zlen b = exit_size v → fld 2 o_attachment_count b = 0 → inflight t1 = inflight t →
     wp (body b) t1 (λ b' t', head_kept 48 b b' ∧ fld 2 o_attachment_count b' = zlen ws ∧
       attached L ws 48 b' ∧ t' = set_inflight m t1)) →
  wp (exit_event c v tgid tid nr gen retval body) t (λ _ t', ∃ b,
    zlen b = exit_size v ∧ exit_record tgid tid nr gen retval ws b ∧
    exit_submitted (exit_size v) m b t t').
Proof.
  intros Hr Hb0 Hbody. pose proof (exit_size_ge v). unfold exit_event, reserve_syscall_event.
  apply wp_bind. eexists _, _. split; [by apply reserve_event_some|].
  apply wp_bind. wp_call fill_syscall_event_spec; [lia|].
  intros b1 t1 (Ht1 & F1 & Hd1 & Hc1). pose proof (proj1 F1). offs. put_step.
  unfold only_kern in Ht1.
  apply wp_bind. eapply wp_mono; [apply Hbody|].
  - lia.
  - fld_solve.
  - rewrite Ht1. done.
  - intros b3 t3 (Hk & Hn & Hat & Hs). apply wp_modify.
    exists b3. split_and!; [destruct Hk; lia| |].
    + destruct Hd1 as ((A1 & A2 & A3) & A4 & A5).
      split_and!; [|offs; rewrite (proj2 Hk) by lia; fld_solve|done|done].
      apply (head_kept_syscall 48 b); [done|lia|].
      unfold syscall_head, event_head. offs. split_and!; fld_solve.
    + exists (kern t1). rewrite Hs. cbn. f_equal. f_equal. exact Ht1.
Qed.

Lemma set_inflight_same t : set_inflight (inflight t) t = t.
Proof. by destruct t. Qed.

Lemma exit_branch_spec tgid tid nr gen retval t b0 k :
  let i := inflight t !! tid in
  let v := exit_variant i nr in
  (∀ x, i = Some x → copy_ok (copy x)) →
  k_reserve SyscallRing (exit_size v) (kern t) = (Some b0, k) → zlen b0 = exit_size v →
  wp (exit_branch N c tgid tid nr gen retval) t (λ _ t', ∃ b,
    zlen b = exit_size v ∧ exit_record tgid tid nr gen retval (exit_wants N c i nr retval) b ∧
    exit_submitted (exit_size v) (exit_inflight (inflight t) tid nr) b t t').
Proof.
  intros i v Hok Hr Hb. unfold exit_branch. apply wp_bind, wp_gets. fold i.
  unfold exit_inflight. fold i.
  assert (∀ ws, ws = [] → exit_size v = 48 →
    wp (exit_event c ExitNone tgid tid nr gen retval ret) t (λ _ t', ∃ b,
      zlen b = exit_size v ∧ exit_record tgid tid nr gen retval ws b ∧
      exit_submitted (exit_size v) (inflight t) b t t')) as Hnone.
  { intros ws -> Hv. rewrite Hv in *. change 48 with (exit_size ExitNone) in *.
    eapply exit_event_spec; [done|done|]. intros b t1 Hl Hn Ht1. apply wp_ret.
    rewrite <- Ht1, set_inflight_same. change (exit_size ExitNone) with 48 in Hl.
    split_and!; [done|done|cbn; lia|done]. }
  subst v. destruct i as [[n [a p ml|a p len|a p lp ml]]|] eqn:E;
    unfold exit_variant in *; cbn [syscall_nr copy] in *.
  4: { by apply Hnone. }
  all: specialize (Hok _ eq_refl); cbn in Hok.
  all: destruct (Z.eqb_spec n nr) as [->|Hne]; cbn [negb] in *;
    [|apply Hnone; [unfold exit_wants; cbn [syscall_nr];
        by rewrite (proj2 (Z.eqb_neq _ _) Hne)|done]].
  all: eapply exit_event_spec; [done|done|]; intros b t1 Hl Hn Ht1; rewrite <- Ht1.
  - by apply exit_str_out_adds.
  - by apply exit_stat_out_adds.
  - by apply exit_sock_out_adds.
Qed.

(** ** Reading it back *)
Context {S X : Type} (try_decode_sockaddr : string → list Z → option X).

Lemma s64_of_u64 z : - 2 ^ 63 ≤ z < 2 ^ 63 → s64 (u64 z) = z.
Proof.
  intros Hz. unfold s64. rewrite u64_u64. unfold u64.
  destruct (Z.ltb_spec (z mod 2 ^ 64) (2 ^ 63)) as [Hl|Hl].
  - destruct (decide (0 ≤ z)); [by rewrite Z.mod_small by lia|].
    exfalso. replace (z mod 2 ^ 64) with (z + 2 ^ 64) in Hl; [lia|].
    rewrite <- (Z_mod_plus_full z 1), Z.mod_small; lia.
  - destruct (decide (0 ≤ z)); [rewrite Z.mod_small in Hl by lia; lia|].
    rewrite <- (Z_mod_plus_full z 1), Z.mod_small; lia.
Qed.

Lemma exit_record_read tgid tid nr gen retval ws b sig (s : S) :
  exit_record tgid tid nr gen retval ws b → 0 ≤ tgid < 2 ^ 32 → 0 ≤ tid < 2 ^ 32 →
  - 2 ^ 31 ≤ nr < 2 ^ 31 → 0 ≤ gen < 2 ^ 32 → - 2 ^ 63 ≤ retval < 2 ^ 63 →
  Forall (want_fits sig) ws →
  wp (build_event_variant try_decode_sockaddr sig b) s (λ v _,
    e_tid v = tid ∧ e_tgid v = tgid ∧ e_nr v = nr ∧ e_gen v = gen ∧
    e_payload v = inr retval ∧
    Forall2 (want_shown L try_decode_sockaddr sig) ws (e_attachments v)).
Proof.
  intros (((Hg & Hd & Ht) & Hnr & Hgen) & Ha & Hn & Hat) Ig Id Inr Igen Iret Hf.
  unfold build_event_variant. fold (sig_nargs_of sig). rewrite Ht.
  change (u16 EVENT_TYPE_SYSCALL_EXIT =? EVENT_TYPE_SYSCALL_ENTER) with false. cbn iota.
  pose proof (attached_len _ _ _ _ Hat). apply wp_bind, wp_assert; [offs; by apply Z.leb_le|].
  apply wp_bind. rewrite Hn. unfold zlen at 1. rewrite Nat2Z.id.
  wp_call (decode_attached L try_decode_sockaddr sig ws 48 b s); [lia|done|done|].
  intros vs s' (-> & Hvs). apply wp_ret. cbn.
  rewrite Hd, Hg, Hgen. unfold sfld32, sfld64. rewrite Hnr, Ha.
  rewrite (u32_small tid), (u32_small tgid), (u32_small gen), s32_of_u32, s64_of_u64 by lia.
  done.
Qed.
End exit.
