(* ===== verification/TracerPath.v ===== *)
(** The path of a mapped file.  [climbs] describes the entries from a file to
    the root of its file system tree; the tracer joins their names.  The scratch
    area is never overrun, whatever kernel memory looks like. *)
From S2P Require Import Prelude Records Tracer TracerReader TracerMaps TracerCorrect.

Definition scratch_ok (sa : ScratchArea) : Prop :=
  zlen (bb_buf (sa_bb sa)) = 2 * MAX_BUF_BUILDER_SIZE ∧ zlen (sa_chain sa) = MAX_PATH_DEPTH.
Definition bb_ok (b : BufBuilder) : Prop := zlen (bb_buf b) = 2048 ∧ 0 ≤ bb_pos b ≤ 1023.

(** The text in a builder. *)
Definition bb_text (b : BufBuilder) : list Z := ztake (bb_pos b) (bb_buf b).

Section path.
Context {K : Type} `{BpfKernel K} {c : context} (L : context_laws c).
Notation T := (tracer K).
Implicit Types t : T.

Lemma bb_putc_spec b ch t :
  bb_ok b →
  wp (bb_putc b ch) t (λ r t', t' = t ∧ bb_ok r.2 ∧
    (bb_pos b < 1023 → r.1 = true ∧ bb_pos r.2 = bb_pos b + 1 ∧ bb_text r.2 = bb_text b ++ [ch]) ∧
    (1023 ≤ bb_pos b → r = (false, b))).
Proof.
  intros [Hb Hp]. unfold bb_putc. offs. destruct (Z.leb_spec (1024 - 1) (bb_pos b)).
  - apply wp_ret. split; [done|]. split; [done|]. split; [lia|done].
  - apply wp_bind, wp_store; [lia|rewrite zlen_cons, zlen_nil; lia|]. apply wp_ret.
    unfold bb_ok, bb_text. cbn [fst snd bb_buf bb_pos].
    rewrite zlen_zwrite by (rewrite ?zlen_cons, ?zlen_nil; lia).
    split; [done|]. split; [lia|]. split; [|lia]. intros _. split; [done|]. split; [done|].
    change (bb_pos b + 1) with (bb_pos b + zlen [ch]). apply ztake_zwrite. lia.
Qed.

Lemma bb_append_spec b kstr t :
  bb_ok b → 1 ≤ bb_pos b →
  wp (bb_append_kstr c b kstr) t (λ r t', t' = t ∧ bb_ok r.2 ∧ bb_pos b ≤ bb_pos r.2 ∧
    (∀ s, name_at L kstr (1024 - bb_pos b) = Some s → s ≠ [] →
       r.1 = zlen s ∧ bb_pos r.2 = bb_pos b + zlen s ∧ bb_text r.2 = bb_text b ++ s)).
Proof.
  intros [Hb Hp] H1. unfold bb_append_kstr. offs.
  set (cap := 1024 - bb_pos b).
  destruct (Z.leb_spec (1024 - 1) (bb_pos b)) as [Hfull|Hroom].
  { apply wp_ret. split; [done|]. split; [done|]. split; [cbn; lia|].
    intros s Hs Hn. apply (name_at_ok _ L) in Hs as [_ Hs]. destruct s; [done|].
    rewrite zlen_cons in Hs. zlen_facts. lia. }
  destruct (Z.ltb_spec cap 2); [lia|].
  assert (Z.land cap (1024 - 1) = cap) as ->.
  { change (1024 - 1) with (Z.ones 10). rewrite Z.land_ones by lia. apply Z.mod_small. lia. }
  destruct (Z.ltb_spec cap 2); [lia|]. apply wp_bind, wp_load; [lia..|].
  set (old := zslice _ _ _).
  assert (zlen old = cap) as Hold by (subst old; rewrite zlen_zslice; lia).
  destruct (name_at L kstr cap) as [s|] eqn:E.
  - destruct (name_at_ok _ L _ _ _ E) as [Hs0 Hs]. rewrite (read_name_ok _ L _ _ s) by (by rewrite Hold).
    set (new := s ++ 0 :: zdrop (zlen s + 1) old).
    assert (zlen new = cap) as Hnew
      by (subst new; rewrite zlen_app, zlen_cons, zlen_zdrop; zlen_facts; lia).
    apply wp_bind, wp_store; [lia|lia|].
    assert (zlen (zwrite (bb_pos b) new (bb_buf b)) = 2048) as Hw by (rewrite zlen_zwrite; lia).
    destruct (Z.leb_spec (zlen s + 1) 1).
    + apply wp_ret. cbn. split; [done|]. split; [split; cbn; lia|]. split; [lia|].
      intros s' [= <-] Hn. destruct s; [done|]. rewrite zlen_cons in *. zlen_facts. lia.
    + replace (zlen s + 1 - 1) with (zlen s) by lia. zlen_facts. rewrite u32_small by lia.
      apply wp_ret. cbn. split; [done|]. split; [split; cbn; lia|]. split; [lia|].
      intros s' [= <-] _. split; [done|]. split; [done|]. unfold bb_text. cbn.
      unfold zwrite. rewrite app_assoc. subst new. rewrite app_assoc.
      rewrite <- (app_assoc (_ ++ s)).
      replace (bb_pos b + zlen s) with (zlen (ztake (bb_pos b) (bb_buf b) ++ s))
        by (rewrite zlen_app, zlen_ztake; lia).
      apply ztake_app_exact.
  - destruct (read_name_fails _ L kstr old) as [Hr Hl]; [by rewrite Hold|].
    destruct (read_kernel_str c kstr old) as [r new]. cbn in Hr, Hl.
    apply wp_bind, wp_store; [lia|lia|]. destruct (Z.leb_spec r 1); [|lia].
    apply wp_ret. cbn. split; [done|]. split; [split; cbn; [rewrite zlen_zwrite|]; lia|].
    split; [lia|done].
Qed.

(** ** The chain of entries *)
Definition root_of (mnt : Z) : Z := mnt_root c (u64 (mnt + offsetof_mnt c)).
Definition at_root (d mnt : Z) : bool := negb (root_of mnt =? 0) && (d =? root_of mnt).

(** [climbs n d mnt ds]: going up from [d] in the mount [mnt], in [n] moves
    (mounts crossed and parents taken), passes the entries [ds]. *)
Inductive climbs : nat → Z → Z → list Z → Prop :=
| climbs_top d mnt :
    d ≠ 0 → mnt ≠ 0 → at_root d mnt = true →
    mnt_parent c mnt = 0 ∨ mnt_parent c mnt = mnt ∨ mnt_mountpoint c mnt = 0 →
    climbs 0 d mnt []
| climbs_cross n d mnt ds :
    d ≠ 0 → mnt ≠ 0 → at_root d mnt = true →
    mnt_parent c mnt ≠ 0 → mnt_parent c mnt ≠ mnt → mnt_mountpoint c mnt ≠ 0 →
    climbs n (mnt_mountpoint c mnt) (mnt_parent c mnt) ds →
    climbs (S n) d mnt ds
| climbs_up n d mnt ds :
    d ≠ 0 → mnt ≠ 0 → at_root d mnt = false →
    d_parent c d ≠ 0 → d_parent c d ≠ d →
    climbs n (d_parent c d) mnt ds →
    climbs (S n) d mnt (d :: ds)
| climbs_end d mnt :
    d ≠ 0 → mnt ≠ 0 → at_root d mnt = false →
    d_parent c d = 0 ∨ d_parent c d = d →
    climbs 1 d mnt [d].

Lemma climbs_len n d mnt ds : climbs n d mnt ds → (length ds ≤ n)%nat.
Proof. induction 1; cbn; lia. Qed.

Lemma path_walk_safe fuel d mnt root count chain t :
  zlen chain = 18 → 0 ≤ count → count + Z.of_nat fuel ≤ 18 →
  wp (path_walk c fuel d mnt root count chain) t (λ w t',
    t' = t ∧ zlen w.2 = 18 ∧ 0 ≤ w.1 ≤ 18).
Proof.
  revert d mnt root count chain. induction fuel as [|fuel IH]; intros d mnt root count chain Hl Hc Hf;
    cbn [path_walk].
  { apply wp_ret. cbn. split; [done|]. split; [done|]. lia. }
  assert (wp (ret (count, chain)) t (λ w t', t' = t ∧ zlen w.2 = 18 ∧ 0 ≤ w.1 ≤ 18)) as Hret.
  { apply wp_ret. cbn. split; [done|]. split; [done|]. lia. }
  destruct ((d =? 0) || (mnt =? 0)); [done|].
  destruct (negb (root =? 0) && (d =? root)).
  - destruct ((mnt_parent c mnt =? 0) || (mnt_parent c mnt =? mnt)); [done|].
    destruct (mnt_mountpoint c mnt =? 0); [done|]. apply IH; [done|done|lia].
  - destruct (Z.ltb_spec count (zlen chain)); [|lia].
    assert (zlen (zwrite count [d] chain) = 18) as Hw
      by (rewrite zlen_zwrite; rewrite ?zlen_cons, ?zlen_nil; lia).
    assert (wp (ret (count + 1, zwrite count [d] chain)) t
      (λ w t', t' = t ∧ zlen w.2 = 18 ∧ 0 ≤ w.1 ≤ 18)) as Hret'.
    { apply wp_ret. cbn. split; [done|]. split; [done|]. lia. }
    destruct (MAX_PATH_DEPTH <=? count + 1); [done|].
    destruct ((d_parent c d =? 0) || (d_parent c d =? d)); [done|]. apply IH; [done|lia|lia].
Qed.

Lemma path_walk_climbs n d mnt ds :
  climbs n d mnt ds → ∀ fuel count chain t,
  (n ≤ fuel)%nat → zlen chain = 18 → 0 ≤ count → count + Z.of_nat fuel ≤ 18 →
  ∃ chain', path_walk c fuel d mnt (root_of mnt) count chain t = Ret (count + zlen ds, chain', t) ∧
    zlen chain' = 18 ∧ zslice 0 (count + zlen ds) chain' = zslice 0 count chain ++ ds.
Proof.
  induction 1 as [d mnt Hd Hm Hr Hp|n d mnt ds Hd Hm Hr Hp1 Hp2 Hmp Hc IH
    |n d mnt ds Hd Hm Hr Hp1 Hp2 Hc IH|d mnt Hd Hm Hr Hp]; intros fuel count chain t Hf Hl Hc0 Hcf.
  - exists chain. rewrite zlen_nil, Z.add_0_r, app_nil_r. split; [|done].
    destruct fuel as [|fuel]; [done|]. cbn [path_walk].
    rewrite (proj2 (Z.eqb_neq _ _) Hd), (proj2 (Z.eqb_neq _ _) Hm). cbn [orb].
    unfold at_root in Hr. rewrite Hr.
    destruct (Z.eqb_spec (mnt_parent c mnt) 0); [done|].
    destruct (Z.eqb_spec (mnt_parent c mnt) mnt); [done|]. cbn [orb].
    destruct (Z.eqb_spec (mnt_mountpoint c mnt) 0); [done|]. tauto.
  - destruct fuel as [|fuel]; [lia|]. cbn [path_walk].
    rewrite (proj2 (Z.eqb_neq _ _) Hd), (proj2 (Z.eqb_neq _ _) Hm). cbn [orb].
    unfold at_root in Hr. rewrite Hr.
    rewrite (proj2 (Z.eqb_neq _ _) Hp1), (proj2 (Z.eqb_neq _ _) Hp2), (proj2 (Z.eqb_neq _ _) Hmp).
    apply IH; lia.
  - destruct fuel as [|fuel]; [lia|]. cbn [path_walk].
    rewrite (proj2 (Z.eqb_neq _ _) Hd), (proj2 (Z.eqb_neq _ _) Hm). cbn [orb].
    unfold at_root in Hr. rewrite Hr. destruct (Z.ltb_spec count (zlen chain)); [|lia].
    assert (zlen (zwrite count [d] chain) = 18) as Hw
      by (rewrite zlen_zwrite; rewrite ?zlen_cons, ?zlen_nil; lia).
    assert (zslice 0 (count + 1) (zwrite count [d] chain) = zslice 0 count chain ++ [d]) as Hs.
    { rewrite !zslice_0. change (count + 1) with (count + zlen [d]). apply ztake_zwrite. lia. }
    rewrite zlen_cons. offs. destruct (Z.leb_spec 18 (count + 1)).
    + assert (fuel = O) as -> by lia. assert (n = O) as -> by lia.
      pose proof (climbs_len _ _ _ _ Hc). destruct ds; [|cbn in *; lia].
      exists (zwrite count [d] chain). rewrite zlen_nil. by replace (1 + 0) with 1 by lia.
    + rewrite (proj2 (Z.eqb_neq _ _) Hp1), (proj2 (Z.eqb_neq _ _) Hp2). cbn [orb].
      destruct (IH fuel (count + 1) (zwrite count [d] chain) t) as (ch & E & Hch & Hsl); [lia..|].
      exists ch. replace (count + (1 + zlen ds)) with (count + 1 + zlen ds) by lia.
      split; [done|]. split; [done|]. rewrite Hsl, Hs, <- app_assoc. done.
  - destruct fuel as [|fuel]; [lia|]. cbn [path_walk].
    rewrite (proj2 (Z.eqb_neq _ _) Hd), (proj2 (Z.eqb_neq _ _) Hm). cbn [orb].
    unfold at_root in Hr. rewrite Hr. destruct (Z.ltb_spec count (zlen chain)); [|lia].
    exists (zwrite count [d] chain). change (zlen [d]) with 1.
    split; [|split; [rewrite zlen_zwrite; rewrite ?zlen_cons, ?zlen_nil; lia|]].
    + destruct (MAX_PATH_DEPTH <=? count + 1); [done|].
      destruct (Z.eqb_spec (d_parent c d) 0); [done|].
      destruct (Z.eqb_spec (d_parent c d) d); [done|]. tauto.
    + rewrite !zslice_0. change (count + 1) with (count + zlen [d]). apply ztake_zwrite. lia.
Qed.

(** ** The names *)
Definition named (d : Z) (s : list Z) : Prop :=
  d ≠ 0 ∧ d_name_name c d ≠ 0 ∧ s ≠ [] ∧
  ∀ cap, zlen s < cap → name_at L (d_name_name c d) cap = Some s.
(** The absolute path with these components. *)
Definition path_of (names : list (list Z)) : list Z := concat ((λ s, 47 :: s) <$> names).

Lemma path_join_safe n count chain b t :
  bb_ok b → 1 ≤ bb_pos b →
  wp (path_join c n count chain b) t (λ b' t', t' = t ∧ bb_ok b' ∧ 1 ≤ bb_pos b').
Proof.
  revert count b. induction n as [|n IH]; intros count b Hb H1; cbn [path_join];
    [by apply wp_ret|].
  destruct (count =? 0); [by apply wp_ret|].
  destruct (znth chain (count - 1) =? 0); [by apply wp_ret|].
  destruct (d_name_name c (znth chain (count - 1)) =? 0); [by apply wp_ret|].
  apply wp_bind, wp_mono with (P := λ p t', t' = t ∧ bb_ok p.2 ∧ 1 ≤ bb_pos p.2).
  { destruct (negb (bb_pos b =? 1)); [|by apply wp_ret].
    wp_call (bb_putc_spec b 47 t Hb). intros r t' (-> & Hr & Hlt & Hge). split; [done|]. split; [done|].
    destruct (Z.ltb_spec (bb_pos b) 1023) as [Hp|Hp].
    - destruct (Hlt Hp) as (_ & -> & _). lia.
    - by rewrite (Hge Hp). }
  intros p t' (-> & Hp & Hp1). destruct (negb p.1); [by apply wp_ret|].
  apply wp_bind. wp_call (bb_append_spec p.2 (d_name_name c (znth chain (count - 1))) t Hp Hp1).
  intros q t' (-> & Hq & Hle & _). destruct (q.1 =? 0); [apply wp_ret; split; [done|]; split; [done|lia]|].
  apply IH; [done|lia].
Qed.

Lemma zlen_path_of_cons s ns : zlen (path_of (s :: ns)) = 1 + zlen s + zlen (path_of ns).
Proof. unfold path_of. cbn. rewrite zlen_cons, zlen_app. lia. Qed.

Lemma chain_last chain count (ds : list Z) d :
  0 < count ≤ zlen chain → zslice 0 count chain = ds ++ [d] →
  znth chain (count - 1) = d ∧ zslice 0 (count - 1) chain = ds.
Proof.
  intros Hc E. rewrite (zslice_split 0 (count - 1) count) in E by lia.
  rewrite (zslice_cons (count - 1)), (zslice_le (count - 1 + 1) count) in E by lia.
  apply app_inj_tail in E as [-> ->]. done.
Qed.

(** The names behind a path that is already there. *)
Lemma path_join_more rds names :
  Forall2 named rds names → ∀ n chain b t,
  zlen chain = 18 → zslice 0 (zlen rds) chain = reverse rds → (length rds ≤ n)%nat →
  (length rds ≤ 18)%nat →
  bb_ok b → 1 < bb_pos b → bb_pos b + zlen (path_of names) ≤ 1022 →
  ∃ b', path_join c n (zlen rds) chain b t = Ret (b', t) ∧ bb_ok b' ∧
    bb_pos b' = bb_pos b + zlen (path_of names) ∧ bb_text b' = bb_text b ++ path_of names.
Proof.
  induction 1 as [|d s rds names Hd Hrest IH]; intros n chain b t Hch Hsl Hn H18 Hb Hp Hlen.
  - exists b. change (path_of []) with (@nil Z). rewrite app_nil_r, zlen_nil, Z.add_0_r.
    destruct n; done.
  - destruct n as [|n]; [cbn in Hn; lia|]. rewrite reverse_cons in Hsl.
    rewrite zlen_path_of_cons in Hlen. cbn [length] in Hn, H18.
    rewrite zlen_cons in Hsl |- *. unfold zlen in Hsl at 1 |- * at 1.
    cbn [path_join]. destruct (Z.eqb_spec (1 + Z.of_nat (length rds)) 0); [lia|].
    destruct (chain_last chain (1 + Z.of_nat (length rds)) (reverse rds) d ltac:(lia) Hsl) as [-> Hsl'].
    replace (1 + Z.of_nat (length rds) - 1) with (zlen rds) in * by (unfold zlen; lia).
    destruct Hd as (Hd0 & Hname & Hs & Hat).
    rewrite (proj2 (Z.eqb_neq _ _) Hd0), (proj2 (Z.eqb_neq _ _) Hname).
    destruct (Z.eqb_spec (bb_pos b) 1); [lia|]. cbn [negb].
    zlen_facts.
    destruct (bb_putc_spec b 47 t Hb) as (p & t1 & E1 & -> & Hpok & Hlt & _).
    destruct (Hlt ltac:(lia)) as (Hp1 & Hpos1 & Htext1).
    destruct (bb_append_spec p.2 (d_name_name c d) t Hpok ltac:(lia))
      as (q & t2 & E2 & -> & Hqok & _ & Happ).
    destruct (Happ s (Hat (1024 - bb_pos p.2) ltac:(lia)) Hs) as (Hq1 & Hqpos & Hqtext).
    destruct (IH n chain q.2 t) as (b' & E3 & Hb' & Hpos' & Htext'); [done|done|lia|lia|done|lia|lia|].
    exists b'. unfold bind. rewrite E1, Hp1. cbn [negb]. rewrite E2, Hq1.
    destruct (Z.eqb_spec (zlen s) 0) as [E0|_]; [apply zlen_nil_inv in E0; done|].
    split; [done|]. split; [done|]. rewrite zlen_path_of_cons. split; [lia|].
    rewrite Htext', Hqtext, Htext1. unfold path_of. cbn. by rewrite <- !app_assoc.
Qed.

(** The first name comes right behind the leading slash. *)
Lemma path_join_first rds names :
  Forall2 named rds names → rds ≠ [] → ∀ n chain b t,
  zlen chain = 18 → zslice 0 (zlen rds) chain = reverse rds → (length rds ≤ n)%nat →
  (length rds ≤ 18)%nat →
  bb_ok b → bb_pos b = 1 → bb_text b = [47] → zlen (path_of names) ≤ 1022 →
  ∃ b', path_join c n (zlen rds) chain b t = Ret (b', t) ∧ bb_ok b' ∧
    bb_pos b' = zlen (path_of names) ∧ bb_text b' = path_of names.
Proof.
  destruct 1 as [|d s rds names Hd Hrest]; [done|].
  intros _ n chain b t Hch Hsl Hn H18 Hb Hp Ht Hlen.
  destruct n as [|n]; [cbn in Hn; lia|]. rewrite reverse_cons in Hsl.
  rewrite zlen_path_of_cons in Hlen. cbn [length] in Hn, H18.
  rewrite zlen_cons in Hsl |- *. unfold zlen in Hsl at 1 |- * at 1.
  cbn [path_join]. destruct (Z.eqb_spec (1 + Z.of_nat (length rds)) 0); [lia|].
  destruct (chain_last chain (1 + Z.of_nat (length rds)) (reverse rds) d ltac:(lia) Hsl) as [-> Hsl'].
  replace (1 + Z.of_nat (length rds) - 1) with (zlen rds) in * by (unfold zlen; lia).
  destruct Hd as (Hd0 & Hname & Hs & Hat).
  rewrite (proj2 (Z.eqb_neq _ _) Hd0), (proj2 (Z.eqb_neq _ _) Hname), Hp. cbn [negb Z.eqb Pos.eqb].
  zlen_facts.
  destruct (bb_append_spec b (d_name_name c d) t Hb ltac:(lia))
    as (q & t2 & E2 & -> & Hqok & _ & Happ).
  destruct (Happ s (Hat (1024 - bb_pos b) ltac:(lia)) Hs) as (Hq1 & Hqpos & Hqtext).
  assert (0 < zlen s) by (destruct s; [done|rewrite zlen_cons; zlen_facts; lia]).
  destruct (path_join_more rds names Hrest n chain q.2 t) as (b' & E3 & Hb' & Hpos' & Htext');
    [done|done|lia|lia|done|lia|lia|].
  exists b'. unfold bind, ret. cbn [fst snd negb]. rewrite E2, Hq1.
  destruct (Z.eqb_spec (zlen s) 0) as [E0|_]; [lia|].
  split; [done|]. split; [done|]. rewrite zlen_path_of_cons. split; [lia|].
  rewrite Htext', Hqtext, Ht. done.
Qed.

(** ** The terminator
    The mask keeps the position inside the buffer, and clears its lowest bit. *)
Definition even_below (n : Z) : Z := n - n mod 2.
Lemma land_1022 n : 0 ≤ n < 1024 → Z.land n (1024 - 2) = even_below n.
Proof.
  intros Hn. assert (Forall (λ i, Z.land i (1024 - 2) = even_below i) (seqZ 0 1024)) as Hall.
  { apply (bool_decide_unpack _). vm_compute. exact I. }
  rewrite Forall_forall in Hall. apply Hall, elem_of_seqZ. lia.
Qed.
Lemma even_below_range n : 0 ≤ n → n - 1 ≤ even_below n ≤ n ∧ 0 ≤ even_below n.
Proof. intros. unfold even_below. pose proof (Z.mod_pos_bound n 2). pose proof (Z.mod_le n 2). lia. Qed.

Lemma path_terminate_safe b t :
  bb_ok b → wp (path_terminate b) t (λ b' t', t' = t ∧ bb_ok b' ∧ 1 ≤ bb_pos b').
Proof.
  intros [Hb Hp]. unfold path_terminate. offs.
  destruct (Z.leb_spec (1024 - 1) (bb_pos b)).
  - apply wp_bind, wp_store; [lia|rewrite zlen_cons, zlen_nil; lia|]. apply wp_ret.
    split; [done|]. split; [|cbn; lia].
    split; cbn; [rewrite zlen_zwrite; rewrite ?zlen_cons, ?zlen_nil|]; lia.
  - rewrite land_1022 by lia. pose proof (even_below_range (bb_pos b)).
    apply wp_bind, wp_store; [lia|rewrite zlen_cons, zlen_nil; lia|]. apply wp_ret.
    split; [done|]. split; [|cbn; lia].
    split; cbn; [rewrite zlen_zwrite; rewrite ?zlen_cons, ?zlen_nil|]; lia.
Qed.
Lemma path_terminate_text b t :
  bb_ok b → bb_pos b ≤ 1022 →
  ∃ b', path_terminate b t = Ret (b', t) ∧ bb_ok b' ∧ bb_pos b' = even_below (bb_pos b) + 1 ∧
    bb_text b' = ztake (even_below (bb_pos b)) (bb_text b) ++ [0].
Proof.
  intros [Hb Hp] Hlt. unfold path_terminate. offs.
  destruct (Z.leb_spec (1024 - 1) (bb_pos b)); [lia|]. rewrite land_1022 by lia.
  pose proof (even_below_range (bb_pos b)) as He. unfold bind, store.
  set (e := even_below (bb_pos b)) in *.
  destruct (Z.leb_spec 0 e); [|lia].
  destruct (Z.leb_spec (e + zlen [0]) (zlen (bb_buf b))) as [_|Hx];
    [|rewrite zlen_cons, zlen_nil in Hx; lia].
  cbn [andb]. eexists. split; [reflexivity|].
  split; [split; cbn; [rewrite zlen_zwrite; rewrite ?zlen_cons, ?zlen_nil|]; lia|].
  split; [done|]. unfold bb_text. cbn [bb_buf bb_pos].
  change (e + 1) with (e + zlen [0]). rewrite ztake_zwrite by lia.
  by rewrite ztake_ztake, Z.min_l by lia.
Qed.

(** ** The whole path *)
Lemma path_build_safe file sa t :
  scratch_ok sa →
  wp (path_build c file sa) t (λ r t', t' = t ∧ scratch_ok r.2 ∧
    (r.1 = true → bb_ok (sa_bb r.2) ∧ 1 ≤ bb_pos (sa_bb r.2))).
Proof.
  intros [Hb Hc]. unfold path_build. offs. change (2 * 1024) with 2048 in Hb.
  assert (bb_ok (bb_reset (sa_bb sa))) as Hr0 by (split; cbn; lia).
  assert (∀ b chain, bb_ok b → zlen chain = 18 → scratch_ok (mk_scratch b chain)) as Hsc.
  { intros b chain [Hb' _] Hc'. by split. }
  assert (wp (ret (false, mk_scratch (bb_reset (sa_bb sa)) (sa_chain sa))) t (λ r t',
    t' = t ∧ scratch_ok r.2 ∧ (r.1 = true → bb_ok (sa_bb r.2) ∧ 1 ≤ bb_pos (sa_bb r.2)))) as Hret.
  { apply wp_ret. split; [done|]. split; [by apply Hsc|done]. }
  cbn zeta. do 3 (match goal with |- context [if ?x then ret _ else _] => destruct x; [exact Hret|] end).
  apply wp_bind. wp_call path_walk_safe; [done|lia|cbn; lia|].
  intros [count chain] t' (-> & Hch & Hcount). cbn in Hch, Hcount.
  apply wp_bind. wp_call (bb_putc_spec (bb_reset (sa_bb sa)) 47 t Hr0).
  intros p t' (-> & Hp & Hlt & _). destruct (Hlt ltac:(cbn; lia)) as (-> & Hpos & _). cbn [negb].
  cbn in Hpos. destruct (count =? 0).
  - apply wp_bind. wp_call (bb_putc_spec p.2 0 t Hp). intros q t' (-> & Hq & Hlt' & _).
    destruct (Hlt' ltac:(lia)) as (_ & Hqpos & _). apply wp_ret.
    split; [done|]. split; [by apply Hsc|]. intros _. split; [done|cbn; lia].
  - apply wp_bind. wp_call (path_join_safe (Z.to_nat 18) count chain p.2 t Hp); [lia|].
    intros b t' (-> & Hbok & H1). apply wp_bind. wp_call (path_terminate_safe b t Hbok).
    intros b' t' (-> & Hb' & H1'). apply wp_ret. split; [done|]. split; [by apply Hsc|done].
Qed.

(** What is shown of the path with these components: the root in full, of other
    paths an even number of characters. *)
Definition shown_path (names : list (list Z)) : list Z :=
  match names with
  | [] => [47]
  | _ => ztake (even_below (zlen (path_of names))) (path_of names)
  end.

(** The file has the path with components [names]. *)
Definition file_path (file : Z) (names : list (list Z)) : Prop :=
  ∃ n ds, f_path_dentry c file ≠ 0 ∧ f_path_mnt c file ≠ 0 ∧
    climbs n (f_path_dentry c file) (u64 (f_path_mnt c file - offsetof_mnt c)) ds ∧
    (n ≤ 18)%nat ∧ Forall2 named (reverse ds) names.

Lemma path_build_text file names sa t :
  scratch_ok sa → file_path file names → zlen (path_of names) ≤ 1022 →
  ∃ sa', path_build c file sa t = Ret (true, sa', t) ∧ scratch_ok sa' ∧ bb_ok (sa_bb sa') ∧
    bb_text (sa_bb sa') = shown_path names ++ [0].
Proof.
  intros [Hb Hc] (n & ds & Hd & Hm & Hcl & Hn & Hnames) Hlen. unfold path_build. offs.
  change (2 * 1024) with 2048 in Hb. cbn zeta.
  rewrite (proj2 (Z.eqb_neq _ _) Hd), (proj2 (Z.eqb_neq _ _) Hm).
  set (mnt := u64 (f_path_mnt c file - offsetof_mnt c)) in *.
  assert (mnt ≠ 0) as Hmnt by (by destruct Hcl).
  rewrite (proj2 (Z.eqb_neq _ _) Hmnt). fold (root_of mnt).
  pose proof (climbs_len _ _ _ _ Hcl) as Hds.
  destruct (path_walk_climbs _ _ _ _ Hcl (Z.to_nat 18) 0 (sa_chain sa) t)
    as (chain & Ew & Hch & Hsl); [cbn; lia|done|lia|cbn; lia|].
  unfold bind at 1. cbn [sa_chain]. rewrite Ew, Z.add_0_l in *.
  rewrite (zslice_le 0 0) in Hsl by lia. cbn [app] in Hsl.
  assert (bb_ok (bb_reset (sa_bb sa))) as Hr0 by (split; cbn; lia).
  destruct (bb_putc_spec (bb_reset (sa_bb sa)) 47 t Hr0) as (p & t1 & Ep & -> & Hp & Hlt & _).
  destruct (Hlt ltac:(cbn; lia)) as (Hp1 & Hpos & Htext). cbn in Hpos.
  unfold bind at 1. rewrite Ep, Hp1. cbn [negb].
  assert (bb_text p.2 = [47]) as Ht1 by (rewrite Htext; done).
  destruct (Z.eqb_spec (zlen ds) 0) as [E0|E0].
  - apply zlen_nil_inv in E0 as ->. apply Forall2_nil_inv_l in Hnames as ->.
    destruct (bb_putc_spec p.2 0 t Hp) as (q & t2 & Eq & -> & Hq & Hlt' & _).
    destruct (Hlt' ltac:(lia)) as (_ & Hqpos & Hqt). unfold bind at 1. rewrite Eq.
    eexists. split; [reflexivity|]. split; [by split; [apply Hq|]|]. split; [done|].
    cbn [sa_bb]. rewrite Hqt, Ht1. done.
  - assert (zlen ds = zlen (reverse ds)) as Hrev by (by rewrite zlen_reverse).
    rewrite Hrev in *.
    destruct (path_join_first _ _ Hnames) with (n := Z.to_nat 18) (chain := chain) (b := p.2) (t := t)
      as (b1 & E1 & Hb1 & Hpos1 & Ht1'); try done.
    { intros E. rewrite E in E0. done. }
    { by rewrite Hsl, reverse_involutive. }
    { rewrite length_reverse. cbn. lia. }
    { rewrite length_reverse. lia. }
    unfold bind at 1. rewrite E1.
    destruct (path_terminate_text b1 t Hb1 ltac:(lia)) as (b2 & E2 & Hb2 & Hpos2 & Ht2).
    unfold bind. rewrite E2. eexists. split; [reflexivity|]. split; [by split; [apply Hb2|]|].
    split; [done|]. cbn [sa_bb]. rewrite Ht2, Ht1', Hpos1.
    destruct names as [|nm names]; [|done]. apply Forall2_nil_inv_r in Hnames.
    rewrite Hnames in E0. done.
Qed.
End path.
