(* ===== verification/TracerMapCorrect.v ===== *)
(** Map events: what the programs on uprobe_mmap and uprobe_munmap submit, and
    what the reader makes of it. *)
From S2P Require Import Prelude Records Tracer TracerReader TracerMaps TracerCorrect TracerEvents TracerPath.

Section maps.
Context {K : Type} `{BpfKernel K} {c : context} (L : context_laws c).
Notation T := (tracer K).
Implicit Types t : T.

(** The scratch areas after a path was assembled in one of them. *)
Definition scratch_changed t t' : Prop :=
  ∃ l, t' = set_scratch l t ∧ (Forall scratch_ok (scratch_area t) → Forall scratch_ok l).
Lemma scratch_unchanged t : scratch_changed t t.
Proof. exists (scratch_area t). split; [by destruct t|done]. Qed.

(** The bytes of the attachment, for a file whose path has components [names]. *)
Definition path_attached (names : list (list Z)) (b : list Z) : Prop :=
  let text := shown_path names ++ [0] in
  let n := Z.min 256 (zlen text) in
  zslice 84 (84 + n) b = ztake n text.

Lemma write_path_spec file b t :
  zlen b = 344 → Forall scratch_ok (scratch_area t) →
  wp (write_attach_dentry_path c o_map_attach 0 o_map_data MAX_PATH file b) t (λ r t',
    scratch_changed t t' ∧ same_outside 76 340 b r.2 ∧
    (∀ names, is_Some (scratch_area t !! cpu c) → file_path L file names →
       zlen (path_of names) ≤ 1022 → r.1 ≠ 0 ∧ path_attached names r.2)).
Proof.
  intros Hb Hsc. unfold write_attach_dentry_path. offs. apply wp_bind.
  wp_call (put_header_spec 76 0 0 256 b t); [lia..|]. intros b1 t1 (-> & F1 & _).
  pose proof (proj1 F1). put_step. apply wp_bind, wp_gets.
  destruct (scratch_area t !! cpu c) as [sa|] eqn:Esa; [|].
  2: { apply wp_ret. split; [apply scratch_unchanged|]. split; [cbn; frame_solve|].
       intros names [x Hx]. done. }
  assert (scratch_ok sa) as Hsa by (by apply (Forall_lookup_1 _ _ _ _ Hsc Esa)).
  apply wp_bind. destruct (path_build_safe L file sa t Hsa) as (r & t1 & Er & -> & Hr & Hr1).
  exists r, t. split; [done|]. apply wp_bind, wp_modify.
  assert (scratch_changed t (set_scratch (<[cpu c:=r.2]> (scratch_area t)) t)) as Hch.
  { eexists. split; [done|]. intros Hall. by apply Forall_insert. }
  destruct r as [ok sa']. cbn [fst snd] in *. destruct ok; cbn [negb].
  2: { apply wp_ret. split; [done|]. split; [cbn; frame_solve|].
       intros names _ Hf Hl. destruct (path_build_text L file names sa t Hsa Hf Hl) as (? & E & _).
       rewrite Er in E. done. }
  destruct (Hr1 eq_refl) as [Hbb Hpos]. destruct Hbb as [Hbuf Hrange].
  set (n := if 256 <? bb_pos (sa_bb sa') then 256 else bb_pos (sa_bb sa')).
  assert (n = Z.min 256 (bb_pos (sa_bb sa'))) as Hn
    by (subst n; destruct (Z.ltb_spec 256 (bb_pos (sa_bb sa'))); lia).
  clearbody n. destruct (Z.eqb_spec n 0); [lia|]. cbn [negb].
  apply wp_bind, wp_bind, wp_load; [lia..|]. rewrite Z.add_0_l, zslice_0.
  set (bs := ztake n (bb_buf (sa_bb sa'))).
  assert (zlen bs = n) as Hbs by (subst bs; rewrite zlen_ztake; lia).
  apply wp_store; [lia|lia|].
  pose proof (same_outside_zwrite 84 bs b0 ltac:(lia) ltac:(lia)) as F2.
  pose proof (zslice_zwrite 84 bs b0 ltac:(lia) ltac:(lia)) as Hdata.
  rewrite Hbs in F2, Hdata. pose proof (proj1 F2).
  set (b2 := zwrite 84 bs b0) in *. clearbody b2. put_step. apply wp_ret. cbn [fst snd].
  split; [done|]. split; [frame_solve|].
  intros names _ Hf Hl. destruct (path_build_text L file names sa t Hsa Hf Hl)
    as (sa'' & E & _ & [Hbuf'' Hrange''] & Ht).
  rewrite Er in E. injection E as <-.
  split; [rewrite u16_small; lia|]. unfold path_attached.
  set (text := shown_path names ++ [0]) in *.
  assert (zlen text = bb_pos (sa_bb sa')) as Htl
    by (rewrite <- Ht; unfold bb_text; rewrite zlen_ztake; lia).
  rewrite Htl, <- Hn. fld_step. rewrite Hdata. subst bs. rewrite <- Ht.
  unfold bb_text. rewrite ztake_ztake. f_equal. lia.
Qed.

(** ** The events *)
Record mapping := mk_mapping {
  m_start : Z; m_end : Z; m_pgoff : Z; m_flags : Z; m_device : Z; m_inode : Z
}.
Definition mapping_of (vma inode : Z) : mapping :=
  mk_mapping (u64 (vm_start c vma)) (u64 (vm_end c vma)) (u64 (vm_pgoff c vma))
    (u64 (vm_flags c vma)) (u64 (i_sb_s_dev c inode)) (u64 (i_ino c inode)).

Definition map_record (tgid tid gen : Z) (m : mapping) (b : list Z) : Prop :=
  event_head EVENT_TYPE_MAP_CREATE tgid tid b ∧ fld 4 o_gen b = u32 gen ∧
  fld 8 o_start b = m_start m ∧ fld 8 o_end b = m_end m ∧ fld 8 o_pgoff b = m_pgoff m ∧
  fld 8 o_vm_flags b = m_flags m ∧ fld 8 o_device b = m_device m ∧ fld 8 o_inode b = m_inode m.

(** A map event was reserved, filled and submitted. *)
Definition map_submitted (n : Z) (b : list Z) t t' : Prop :=
  ∃ k t2, scratch_changed (set_kern k (set_stats (alter (note_emit n) (cpu c) (stats t)) t)) t2 ∧
    t' = add_map_event b t2.

Lemma map_create_spec tgid tid gen vma file inode t b0 k :
  k_reserve MapRing sizeof_MapCreateEvent (kern t) = (Some b0, k) → zlen b0 = sizeof_MapCreateEvent →
  Forall scratch_ok (scratch_area t) →
  wp (map_create_event c tgid tid gen vma file inode) t (λ _ t', ∃ b,
    zlen b = sizeof_MapCreateEvent ∧ map_record tgid tid gen (mapping_of vma inode) b ∧
    map_submitted sizeof_MapCreateEvent b t t' ∧ zslice 340 344 b = zslice 340 344 b0 ∧
    (∀ names, is_Some (scratch_area t !! cpu c) → file_path L file names →
       zlen (path_of names) ≤ 1022 →
       fld 2 o_attachment_count b = 1 ∧ path_attached names b)).
Proof.
  intros Hr Hb0 Hsc. unfold map_create_event, reserve_map_event. apply wp_bind.
  eexists _, _. split; [by apply reserve_event_some|]. offs.
  apply wp_bind. wp_call fill_event_spec; [lia|].
  intros b1 t1 (Ht1 & F1 & (Hg & Hd & Ht) & Hc). pose proof (proj1 F1). offs.
  unfold only_kern in Ht1.
  do 7 put_step. apply wp_bind. wp_call (write_path_spec file); [lia|rewrite Ht1; done|].
  intros [n b8] t2 (Hch & F8 & Hpath). cbn [fst snd] in *. pose proof (proj1 F8).
  assert (map_record tgid tid gen (mapping_of vma inode) b8) as Hrec.
  { unfold map_record, event_head, mapping_of. offs. cbn. split_and!; fld_solve. }
  assert (zslice 340 344 b8 = zslice 340 344 b0) as Hpad by fld_solve.
  assert (∀ b, scratch_changed t1 t2 →
    map_submitted 344 b t (add_map_event b t2)) as Hsub.
  { intros b' Hs. exists (kern t1), t2. split; [|done].
    rewrite Ht1 in Hs. exact Hs. }
  apply wp_bind. destruct (Z.eqb_spec n 0) as [->|Hn]; cbn [negb].
  - apply wp_ret, wp_modify. exists b8. split; [lia|]. split; [done|]. split; [by apply Hsub|].
    split; [done|]. intros names Hs Hf Hl. exfalso.
    destruct (Hpath names) as [Hne _]; [by rewrite Ht1|done|done|done].
  - put_step. apply wp_modify. eexists. split; [|split; [|split; [by apply Hsub|split]]].
    + lia.
    + destruct Hrec as ((? & ? & ?) & ? & ? & ? & ? & ? & ? & ?).
      unfold map_record, event_head. offs. split_and!; fld_solve.
    + fld_solve.
    + intros names Hs Hf Hl. split; [fld_solve|].
      destruct (Hpath names) as [_ Hat]; [by rewrite Ht1|done|done|].
      unfold path_attached in *. fld_step. done.
Qed.

Definition destroy_record (tgid tid gen start stop : Z) (b : list Z) : Prop :=
  event_head EVENT_TYPE_MAP_DESTROY_RANGE tgid tid b ∧ fld 4 o_destroy_gen b = u32 gen ∧
  fld 8 o_start b = u64 start ∧ fld 8 o_end b = u64 stop.

Lemma map_destroy_spec tgid tid gen start stop t b0 k :
  k_reserve MapRing sizeof_MapDestroyRangeEvent (kern t) = (Some b0, k) →
  zlen b0 = sizeof_MapDestroyRangeEvent →
  wp (map_destroy_event c tgid tid gen start stop) t (λ _ t', ∃ b,
    zlen b = sizeof_MapDestroyRangeEvent ∧ destroy_record tgid tid gen start stop b ∧
    map_submitted sizeof_MapDestroyRangeEvent b t t').
Proof.
  intros Hr Hb0. unfold map_destroy_event, reserve_map_event. apply wp_bind.
  eexists _, _. split; [by apply reserve_event_some|]. offs.
  apply wp_bind. wp_call fill_event_spec; [lia|].
  intros b1 t1 (Ht1 & F1 & (Hg & Hd & Ht) & Hc). pose proof (proj1 F1). offs.
  unfold only_kern in Ht1. do 3 put_step. apply wp_modify.
  match goal with |- context [add_map_event ?x _] => exists x end.
  split; [|split].
  - lia.
  - unfold destroy_record, event_head. offs. split_and!; fld_solve.
  - exists (kern t1), t1. split; [|done].
    eassert (scratch_changed _ t1) as Hs by apply scratch_unchanged. rewrite Ht1 in Hs at 1. exact Hs.
Qed.

(** ** Reading them back *)
Lemma path_of_nonzero rds names : Forall2 (named L) rds names → 0 ∉ path_of names.
Proof.
  induction 1 as [|d s rds names (_ & _ & _ & Hat) _ IH]; unfold path_of; cbn; [set_solver|].
  assert (0 ∉ s) by (apply (name_at_ok _ L) with (1 := Hat (zlen s + 1) ltac:(lia))).
  fold (path_of names). set_solver.
Qed.
Lemma shown_path_nonzero file names : file_path L file names → 0 ∉ shown_path names.
Proof.
  intros (n & ds & _ & _ & _ & _ & Hn). apply path_of_nonzero in Hn.
  unfold shown_path. destruct names; [set_solver|]. unfold ztake.
  intros Hin. apply Hn. apply elem_of_take in Hin as (i & Hi & _). by eapply list_elem_of_lookup_2.
Qed.

Lemma map_record_read {S} page_size tgid tid gen m b names (s : S) :
  map_record tgid tid gen m b → 0 ≤ tgid < 2 ^ 32 → 0 ≤ gen < 2 ^ 32 → zlen b = 344 →
  fld 2 o_attachment_count b = 1 → path_attached names b → 0 ∉ shown_path names →
  zlen (shown_path names) < 256 →
  read_map_event page_size b s =
    Ret (MapCreate tgid gen (m_start m) (m_end m) (u64 (m_pgoff m * page_size)) (m_flags m) (DevId_unpack (m_device m)) (m_inode m)
           (Some (shown_path names)), s).
Proof.
  intros ((Hg & Hd & Ht) & Hgen & H1 & H2 & H3 & H4 & H5 & H6) Ig Igen Hb Hc Hp H0 Hl.
  unfold read_map_event. rewrite Ht, Hc.
  change (u16 EVENT_TYPE_MAP_CREATE) with 3. cbn [Z.eqb EVENT_TYPE_NEED_SNAPSHOT EVENT_TYPE_MAP_CREATE].
  change (o_gen + 4 + sizeof_AttachmentHeader) with 84. cbn [negb Z.eqb Pos.eqb].
  unfold path_attached in Hp. rewrite zlen_app in Hp. change (zlen [0]) with 1 in Hp.
  rewrite Z.min_r in Hp by lia.
  rewrite ztake_ge in Hp by (rewrite zlen_app; change (zlen [0]) with 1; lia).
  zlen_facts.
  rewrite (zdrop_slice_app 84 (zlen (shown_path names) + 1)) by lia.
  rewrite Hp, <- app_assoc. cbn [app]. rewrite c_string_app by done.
  rewrite H1, H2, H3, H4, H5, H6, Hg, Hgen.
  rewrite (u32_small tgid), (u32_small gen) by lia. done.
Qed.

(** A path that fills the room leaves no terminator: the reader runs into the
    padding behind the record's last member, and past it. *)
Lemma map_record_overrun {S} page_size tgid tid gen m b names (s : S) :
  map_record tgid tid gen m b → zlen b = 344 →
  fld 2 o_attachment_count b = 1 → path_attached names b → 0 ∉ shown_path names →
  256 ≤ zlen (shown_path names) → 0 ∉ zslice 340 344 b →
  read_map_event page_size b s = Crash.
Proof.
  intros ((Hg & Hd & Ht) & _) Hb Hc Hp H0 Hl Hpad.
  unfold read_map_event. rewrite Ht, Hc.
  change (u16 EVENT_TYPE_MAP_CREATE) with 3. cbn [Z.eqb EVENT_TYPE_NEED_SNAPSHOT EVENT_TYPE_MAP_CREATE].
  change (o_gen + 4 + sizeof_AttachmentHeader) with 84. cbn [negb Z.eqb Pos.eqb].
  unfold path_attached in Hp. rewrite zlen_app in Hp. change (zlen [0]) with 1 in Hp.
  rewrite Z.min_l in Hp by lia. rewrite ztake_app_le in Hp by lia.
  rewrite (zdrop_slice_app 84 256) by lia. rewrite Hp. change (84 + 256) with 340.
  assert (zdrop 340 b = zslice 340 344 b) as ->
    by (unfold zslice; rewrite ztake_ge; [done|rewrite zlen_zdrop; lia]).
  rewrite c_string_none; [done|]. rewrite elem_of_app. intros [Hin|Hin]; [|done].
  apply H0. unfold ztake in Hin. apply elem_of_take in Hin as (i & Hi & _).
  by eapply list_elem_of_lookup_2.
Qed.

Lemma destroy_record_read {S} page_size tgid tid gen start stop b (s : S) :
  destroy_record tgid tid gen start stop b → 0 ≤ tgid < 2 ^ 32 → 0 ≤ gen < 2 ^ 32 →
  0 ≤ start < 2 ^ 64 → 0 ≤ stop < 2 ^ 64 →
  read_map_event page_size b s = Ret (MapDestroy tgid gen start stop, s).
Proof.
  intros ((Hg & Hd & Ht) & Hgen & H1 & H2) Ig Igen I1 I2. unfold read_map_event. rewrite Ht.
  change (u16 EVENT_TYPE_MAP_DESTROY_RANGE) with 4.
  cbn [Z.eqb EVENT_TYPE_NEED_SNAPSHOT EVENT_TYPE_MAP_CREATE EVENT_TYPE_MAP_DESTROY_RANGE].
  rewrite Hg, Hgen, H1, H2, (u32_small tgid), (u32_small gen), !u64_small by lia. done.
Qed.
End maps.
