(* ===== verification/TracerSystem.v ===== *)
(** The tracer as a whole: its programs run one after another, on any task and
    any processor, while the reader and other processors change the maps.  An
    invariant of all states that can be reached, and that every program returns
    from such a state. *)
From S2P Require Import Prelude Posix Records Tracer TracerReader TracerMaps TracerCorrect TracerEvents TracerExit TracerPath TracerMapCorrect.

(** ** Accounting *)
Definition total (f : Stats → Z) (l : list Stats) : Z := foldr (λ s acc, f s + acc) 0 l.
Definition log_bytes (l : list (list Z)) : Z := foldr (λ b acc, zlen b + acc) 0 l.

Lemma total_alter f g (l : list Stats) i x :
  l !! i = Some x → total f (alter g i l) = total f l - f x + f (g x).
Proof.
  revert i. induction l as [|y l IH]; intros [|i] Hi; cbn in *; try done.
  - injection Hi as ->. lia.
  - fold (total f (alter g i l)) (total f l). rewrite (IH i Hi). lia.
Qed.
Lemma alter_none (g : Stats → Stats) (l : list Stats) i : l !! i = None → alter g i l = l.
Proof.
  intros Hi. apply list_eq. intros j. destruct (decide (i = j)) as [<-|Hne].
  - by rewrite list_lookup_alter_eq, Hi.
  - by rewrite list_lookup_alter_ne.
Qed.
Lemma log_bytes_app l b : log_bytes (l ++ [b]) = log_bytes l + zlen b.
Proof. induction l as [|x l IH]; cbn; [lia|]. fold (log_bytes (l ++ [b])) (log_bytes l). lia. Qed.

(** The process a record asks to take a snapshot of. *)
Definition snapshot_of (b : list Z) : option Z :=
  if fld 2 o_type b =? EVENT_TYPE_NEED_SNAPSHOT then Some (fld 4 o_tgid b) else None.

Definition args_ok (args : list Z) : Prop :=
  length args = 6%nat ∧ ∀ i, u64 (znth args i) = znth args i.

Section system.
Context {K : Type} `{BpfLaws K} (N : SyscallNumbers).
Hypothesis statfs_readlinkat : n_STATFS N ≠ n_READLINKAT N.
Notation T := (tracer K).
Implicit Types t : T.

(** What is in flight was scheduled by the entry of the call it names. *)
Definition inflight_ok (m : gmap Z Inflight) : Prop :=
  map_Forall (λ _ i, ∃ args, args_ok args ∧ out_copy_of N (syscall_nr i) args = Some (copy i)) m.

(** A record the entry or the exit of some call left behind. *)
Definition call_record (b : list Z) : Prop :=
  ∃ c (L : context_laws c) tgid tid nr gen, - 2 ^ 31 ≤ nr < 2 ^ 31 ∧
    ((∃ args, args_ok args ∧ enter_record L args tgid tid nr gen (wants_of N nr args) b) ∨
     (∃ i retval, (∀ x, i = Some x → ∃ args, args_ok args ∧ out_copy_of N (syscall_nr x) args = Some (copy x)) ∧
        exit_record L tgid tid nr gen retval (exit_wants N c i nr retval) b)).

(** Every submitted record was counted, with its size, and a process was stopped
    exactly when a snapshot of it was requested. *)
Record trace_inv t : Prop := {
  inv_inflight : inflight_ok (inflight t);
  inv_scratch : Forall scratch_ok (scratch_area t);
  inv_events : u64 (total emitted_events (stats t)) =
    u64 (zlen (syscall_events t) + zlen (map_events t));
  inv_bytes : u64 (total emitted_bytes (stats t)) =
    u64 (log_bytes (syscall_events t) + log_bytes (map_events t));
  inv_stopped : stopped t = omap snapshot_of (map_events t);
  inv_records : Forall call_record (syscall_events t)
}.

(** The current task is a task, and its processor one of the machine. *)
Definition runs_on (c : context) t : Prop := 0 ≤ pid_tgid c < 2 ^ 64 ∧ (cpu c < length (stats t))%nat.

(** ** Effects that keep the invariant *)
Lemma inv_kern k t : trace_inv t → trace_inv (set_kern k t).
Proof. by intros []. Qed.
Lemma inv_processes m t : trace_inv t → trace_inv (set_process_states m t).
Proof. by intros []. Qed.
Lemma inv_copies m t : trace_inv t → inflight_ok m → trace_inv (set_inflight m t).
Proof. by intros []. Qed.
Lemma inv_scratch_changed t t' : trace_inv t → scratch_changed t t' → trace_inv t'.
Proof. intros [] (l & -> & Hl). split; try done. by apply Hl. Qed.
Lemma inv_drop c n t : trace_inv t → trace_inv (set_stats (alter (note_drop n) (cpu c) (stats t)) t).
Proof.
  intros [Hi Hs He Hb Hst Hrc]. split; try done; cbn [set_stats add_syscall_event add_map_event add_stopped stats syscall_events map_events stopped].
  - destruct (stats t !! cpu c) as [x|] eqn:E.
    + rewrite (total_alter _ _ _ _ _ E). cbn [note_drop emitted_events]. rewrite <- He. f_equal. lia.
    + by rewrite (alter_none _ _ _ E).
  - destruct (stats t !! cpu c) as [x|] eqn:E.
    + rewrite (total_alter _ _ _ _ _ E). cbn [note_drop emitted_bytes]. rewrite <- Hb. f_equal. lia.
    + by rewrite (alter_none _ _ _ E).
Qed.

Lemma u64_sub_add a x b y : u64 a = u64 b → u64 (a - x + u64 (x + y)) = u64 (b + y).
Proof.
  intros E. rewrite u64_add_r. replace (a - x + (x + y)) with (a + y) by lia.
  by rewrite <- (u64_add_l a), E, u64_add_l.
Qed.
Lemma emit_counts c n t :
  (cpu c < length (stats t))%nat → trace_inv t →
  let l := alter (note_emit n) (cpu c) (stats t) in
  u64 (total emitted_events l) = u64 (zlen (syscall_events t) + zlen (map_events t) + 1) ∧
  u64 (total emitted_bytes l) = u64 (log_bytes (syscall_events t) + log_bytes (map_events t) + n).
Proof.
  intros Hc [_ _ He Hb _ _] l. destruct (lookup_lt_is_Some_2 _ _ Hc) as [x Hx].
  subst l. rewrite !(total_alter _ _ _ _ _ Hx). cbn [note_emit emitted_events emitted_bytes]. split; by apply u64_sub_add.
Qed.
Lemma inv_submit_syscall c n b t :
  (cpu c < length (stats t))%nat → trace_inv t → zlen b = n → call_record b →
  trace_inv (add_syscall_event b (set_stats (alter (note_emit n) (cpu c) (stats t)) t)).
Proof.
  intros Hc Hi Hb Hrec. destruct (emit_counts c n t Hc Hi) as [E1 E2].
  destruct Hi. split; try done; cbn [set_stats add_syscall_event add_map_event add_stopped stats syscall_events map_events stopped].
  - rewrite E1, zlen_app, zlen_cons, zlen_nil. f_equal. lia.
  - rewrite E2, log_bytes_app. f_equal. lia.
  - apply Forall_app. split; [done|]. by apply Forall_singleton.
Qed.
Lemma inv_submit_map c n b t :
  (cpu c < length (stats t))%nat → trace_inv t → zlen b = n → snapshot_of b = None →
  trace_inv (add_map_event b (set_stats (alter (note_emit n) (cpu c) (stats t)) t)).
Proof.
  intros Hc Hi Hb Hsn. destruct (emit_counts c n t Hc Hi) as [E1 E2].
  destruct Hi as [? ? ? ? Hst ?]. split; try done; cbn [set_stats add_syscall_event add_map_event add_stopped stats syscall_events map_events stopped].
  - rewrite E1, zlen_app, zlen_cons, zlen_nil. f_equal. lia.
  - rewrite E2, log_bytes_app. f_equal. lia.
  - rewrite omap_app. cbn. by rewrite Hsn, app_nil_r.
Qed.
Lemma inv_submit_snapshot c n b p t :
  (cpu c < length (stats t))%nat → trace_inv t → zlen b = n → snapshot_of b = Some p →
  trace_inv (add_stopped p (add_map_event b (set_stats (alter (note_emit n) (cpu c) (stats t)) t))).
Proof.
  intros Hc Hi Hb Hsn. destruct (emit_counts c n t Hc Hi) as [E1 E2].
  destruct Hi as [? ? ? ? Hst ?]. split; try done; cbn [set_stats add_syscall_event add_map_event add_stopped stats syscall_events map_events stopped].
  - rewrite E1, zlen_app, zlen_cons, zlen_nil. f_equal. lia.
  - rewrite E2, log_bytes_app. f_equal. lia.
  - rewrite omap_app. cbn. by rewrite Hsn, Hst.
Qed.

(** ** The guards *)
(** The rest of the tracer is as before. *)
Definition quiet t t' : Prop :=
  syscall_events t' = syscall_events t ∧ inflight t' = inflight t ∧
  scratch_area t' = scratch_area t ∧ length (stats t') = length (stats t).

Lemma quiet_stats f i k t : quiet t (set_kern k (set_stats (alter f i (stats t)) t)).
Proof. repeat split. unfold set_kern, set_stats. cbn [stats]. by rewrite length_alter. Qed.

Lemma others_spec t :
  ∃ m k, k_others (process_states t) (kern t) = (m, k) ∧
    others t = Ret (tt, set_process_states m (set_kern k t)).
Proof. unfold others. destruct (k_others _ _) as [m k]. eauto. Qed.

Lemma process_states_lookup_spec tgid t :
  ∃ m k, k_others (process_states t) (kern t) = (m, k) ∧
    process_states_lookup tgid t = Ret (m !! tgid, set_process_states m (set_kern k t)).
Proof.
  destruct (others_spec t) as (m & k & E & Ho). exists m, k. split; [done|].
  unfold process_states_lookup, bind. by rewrite Ho.
Qed.
Lemma process_states_insert_spec tgid st t :
  ∃ r m k, process_states_insert tgid st t = Ret (r, set_process_states m (set_kern k t)).
Proof.
  destruct (others_spec t) as (m & k & _ & Ho). unfold process_states_insert, bind. rewrite Ho.
  cbn. destruct (m !! tgid); [by eexists _, _, _|]. unfold call_kernel. cbn.
  destruct (k_refuses k) as [[] k1]; [by eexists _, _, _|]. cbn.
  destruct (k_evicts m k1) as [v k2]. by eexists _, _, _.
Qed.
Lemma process_states_delete_spec tgid t :
  ∃ m k, process_states_delete tgid t = Ret (tt, set_process_states m (set_kern k t)).
Proof.
  destruct (others_spec t) as (m & k & _ & Ho). unfold process_states_delete, bind. rewrite Ho.
  by eexists _, _.
Qed.

Lemma inv_quiet_processes t m k :
  trace_inv t →
  trace_inv (set_process_states m (set_kern k t)) ∧ quiet t (set_process_states m (set_kern k t)).
Proof. intros Hi. split; [by apply inv_processes, inv_kern|done]. Qed.

(** Asking for a snapshot and stopping the process go together. *)
Lemma emit_and_stop c tid t :
  trace_inv t → runs_on c t →
  wp (emit_need_snapshot c (pid_tgid c ≫ 32) tid) t (λ ok t',
    (ok = true → trace_inv (add_stopped (pid_tgid c ≫ 32) t')) ∧
    (ok = false → trace_inv t') ∧ quiet t t').
Proof.
  intros Hi [Hp Hc]. unfold emit_need_snapshot, reserve_map_event. apply wp_bind.
  destruct (k_reserve MapRing sizeof_NeedSnapshotEvent (kern t)) as [[b0|] k] eqn:E.
  - pose proof (reserve_size _ _ _ _ _ E) as Hb0.
    eexists _, _. split; [by apply reserve_event_some|].
    apply wp_bind. wp_call fill_event_spec; [offs; lia|].
    intros b1 t1 (Ht1 & F1 & (Hg & Hd & Hty) & _). pose proof (proj1 F1).
    apply wp_bind, wp_modify, wp_ret. unfold only_kern in Ht1.
    split; [|split; [done|]].
    + intros _. rewrite Ht1.
      apply (inv_submit_snapshot c sizeof_NeedSnapshotEvent b1 (pid_tgid c ≫ 32)
        (set_kern (kern t1) t)); [done|by apply inv_kern|by rewrite H1|].
      unfold snapshot_of. rewrite Hty, Hg. change (u16 EVENT_TYPE_NEED_SNAPSHOT =? _) with true.
      f_equal. apply u32_small. rewrite Z.shiftr_div_pow2 by lia.
      split; [apply Z.div_pos; lia|]. apply Z.div_lt_upper_bound; lia.
    + rewrite Ht1. by apply quiet_stats.
  - eexists _, _. split; [by apply reserve_event_none|]. apply wp_ret.
    split; [done|]. split.
    + intros _. apply inv_kern. by apply inv_drop.
    + by apply quiet_stats.
Qed.

Lemma quiet_trans t1 t2 t3 : quiet t1 t2 → quiet t2 t3 → quiet t1 t3.
Proof.
  intros (A1 & A2 & A3 & A4) (B1 & B2 & B3 & B4).
  split; [congruence|]. split; [congruence|]. split; congruence.
Qed.
Lemma runs_on_quiet c t t' : runs_on c t → quiet t t' → runs_on c t'.
Proof. intros [Hp Hc] (_ & _ & _ & Hl). split; [done|]. by rewrite Hl. Qed.

Lemma ensure_process_state_keeps c tid a t :
  trace_inv t → runs_on c t →
  wp (ensure_process_state c (pid_tgid c ≫ 32) tid a) t (λ _ t', trace_inv t' ∧ quiet t t').
Proof.
  intros Hi Hc. unfold ensure_process_state. apply wp_bind.
  destruct (process_states_lookup_spec (pid_tgid c ≫ 32) t) as (m & k & _ & E1).
  eexists _, _. split; [exact E1|]. destruct (inv_quiet_processes t m k Hi) as [Hi1 Hq1].
  destruct (m !! _) as [st|]; [by apply wp_ret|].
  set (t1 := set_process_states m (set_kern k t)) in *. pose proof (runs_on_quiet _ _ _ Hc Hq1) as Hc1.
  clearbody t1. apply wp_bind.
  destruct (process_states_insert_spec (pid_tgid c ≫ 32) (mk_process a 0) t1) as (r & m2 & k2 & E2).
  eexists _, _. split; [exact E2|]. destruct (inv_quiet_processes t1 m2 k2 Hi1) as [Hi2 Hq2].
  set (t2 := set_process_states m2 (set_kern k2 t1)) in *. pose proof (runs_on_quiet _ _ _ Hc1 Hq2) as Hc2.
  pose proof (quiet_trans _ _ _ Hq1 Hq2) as Hq. clearbody t2.
  apply wp_bind, wp_mono with (P := λ _ t', trace_inv t' ∧ quiet t t').
  - destruct r; [|by apply wp_ret]. apply wp_bind. wp_call (emit_and_stop c tid t2 Hi2 Hc2).
    intros ok t3 (Hok & Hno & Hq3). pose proof (quiet_trans _ _ _ Hq Hq3) as Hqq. destruct ok.
    + apply wp_bind, wp_modify, wp_ret. split; [by apply Hok|exact Hqq].
    + apply wp_bind. destruct (process_states_delete_spec (pid_tgid c ≫ 32) t3) as (m3 & k3 & E3).
      eexists _, _. split; [exact E3|]. apply wp_ret.
      destruct (inv_quiet_processes t3 m3 k3 (Hno eq_refl)) as [Hi4 Hq4].
      split; [done|]. by apply (quiet_trans _ t3).
  - intros ok t3 [Hi3 Hq3]. destruct ok; [|by apply wp_ret]. apply wp_bind.
    destruct (process_states_lookup_spec (pid_tgid c ≫ 32) t3) as (m3 & k3 & _ & E3).
    eexists _, _. split; [exact E3|]. apply wp_ret.
    destruct (inv_quiet_processes t3 m3 k3 Hi3) as [Hi4 Hq4]. split; [done|].
    by apply (quiet_trans _ t3).
Qed.

(** A program keeps the invariant and leaves the copies of other threads alone. *)
Definition ran (c : context) t t' : Prop :=
  trace_inv t' ∧ ∀ tid, tid ≠ u32 (pid_tgid c) → inflight t' !! tid = inflight t !! tid.
Lemma ran_same c t t' : trace_inv t' → inflight t' = inflight t → ran c t t'.
Proof. intros Hi E. split; [done|]. by rewrite E. Qed.
Lemma ran_quiet c t t1 t' : quiet t t1 → ran c t1 t' → ran c t t'.
Proof. intros (_ & E & _) [Hi Hr]. split; [done|]. by rewrite <- E. Qed.

Lemma s32_range z : - 2 ^ 31 ≤ s32 z < 2 ^ 31.
Proof. unfold s32. pose proof (u32_range z). case_match; lia. Qed.
Lemma should_trace_spec c t :
  ∃ r, should_trace_current c t = Ret ((r, pid_tgid c ≫ 32, u32 (pid_tgid c)), t).
Proof.
  unfold should_trace_current, bind, gets. destruct (target_tgids t !! _); [by eexists|].
  destruct (target_uids t !! _); by eexists.
Qed.
Lemma when_traced_keeps c id k t :
  trace_inv t → runs_on c t →
  (∀ gen t1, trace_inv t1 → runs_on c t1 →
     wp (k (pid_tgid c ≫ 32) (u32 (pid_tgid c)) (s32 id) gen) t1 (λ _ t', ran c t1 t')) →
  wp (when_traced N c id k) t (λ _ t', ran c t t').
Proof.
  intros Hi Hc Hk. unfold when_traced. apply wp_bind.
  destruct (should_trace_spec c t) as [r E]. eexists _, _. split; [exact E|].
  destruct r; [|by apply wp_ret, ran_same]. apply wp_bind, wp_gets.
  destruct (excluded_syscalls t !! _); [by apply wp_ret, ran_same|]. apply wp_bind.
  wp_call (ensure_process_state_keeps c (u32 (pid_tgid c)) (get_current_abi N c) t Hi Hc).
  intros [gen|] t1 [Hi1 Hq]; [|by apply wp_ret, ran_same; [|apply Hq]].
  eapply wp_mono; [apply Hk; [done|by apply (runs_on_quiet _ t)]|].
  intros u t'. by apply ran_quiet.
Qed.

(** ** Entry and exit *)
(** Every branch reserves the record of its variant first. *)
Lemma enter_branch_reserves c tgid tid nr gen args :
  ∃ body, enter_branch N c tgid tid nr gen args =
    enter_event (K := K) c (variant_of N nr) tgid tid nr gen args body.
Proof.
  unfold enter_branch, variant_of.
  destruct (is_path_call N nr), (is_stat_path_call N nr), (is_stat_fd_call N nr),
    (is_two_path_call N nr), (nr =? n_MOUNT N), (is_sleep_call N nr), (is_sock_call N nr),
    (is_sock_out_call N nr); cbn [orb]; by eexists.
Qed.
Lemma exit_branch_reserves c tgid tid nr gen retval t :
  ∃ body, exit_branch N c tgid tid nr gen retval t =
    exit_event (K := K) c (exit_variant (inflight t !! tid) nr) tgid tid nr gen retval body t.
Proof.
  unfold exit_branch, exit_variant, bind, gets.
  destruct (inflight t !! tid) as [[n [a p l|a p l|a p q l]]|]; cbn [syscall_nr copy].
  4: by eexists.
  all: destruct (n =? nr); cbn [negb]; by eexists.
Qed.

Lemma enter_branch_keeps c (L : context_laws c) tgid nr gen args t :
  let tid := u32 (pid_tgid c) in
  - 2 ^ 31 ≤ nr < 2 ^ 31 → args_ok args → trace_inv t → runs_on c t →
  wp (enter_branch N c tgid tid nr gen args) t (λ _ t', ran c t t').
Proof.
  intros tid Hnr [Hlen Hargs] Hi [_ Hc].
  destruct (k_reserve SyscallRing (enter_size (variant_of N nr)) (kern t)) as [[b0|] k] eqn:E.
  - pose proof (reserve_size _ _ _ _ _ E) as Hb0.
    wp_call (enter_branch_spec N L statfs_readlinkat args Hargs tgid tid nr gen t b0 k E Hb0).
    intros _ t' (b & Hb & Hrec & k' & t2 & Hs & ->).
    assert (call_record b) as Hcr.
    { exists c, L, tgid, tid, nr, gen. split; [done|]. left. by exists args. }
    set (t1 := set_kern k' (set_stats _ t)) in *.
    (* Count the record first, then schedule: the order does not matter. *)
    destruct (out_copy_of N nr args) as [cp|] eqn:Eo; cbn in Hs.
    + revert Hs. unfold inflight_update, bind, call_kernel, modify. cbn.
      destruct (k_refuses k') as [r k2]. intros [= <-].
      assert (inflight_ok (<[tid:=mk_inflight nr cp]> (inflight t))) as Hm.
      { apply map_Forall_insert_2; [|apply Hi]. by exists args. }
      assert (∀ kk, trace_inv (add_syscall_event b (set_kern kk
        (set_stats (alter (note_emit (enter_size (variant_of N nr))) (cpu c) (stats t)) t)))) as Hsub.
      { intros kk. by apply (inv_submit_syscall c _ b (set_kern kk t)); [|apply inv_kern| |]. }
      assert (∀ kk, trace_inv (add_syscall_event b (set_inflight (<[tid:=mk_inflight nr cp]> (inflight t))
        (set_kern kk (set_stats (alter (note_emit (enter_size (variant_of N nr))) (cpu c) (stats t)) t)))))
        as Hsub'.
      { intros kk. by apply (inv_copies _ _ (Hsub kk)). }
      assert (∀ i, i ≠ u32 (pid_tgid c) →
        (<[tid:=mk_inflight nr cp]> (inflight t)) !! i = inflight t !! i) as Hother
        by (intros i Hne; by apply lookup_insert_ne).
      destruct r; [by apply ran_same; [apply (Hsub k2)|]|].
      destruct (inflight t !! tid); [split; [apply (Hsub' k2)|done]|].
      destruct (_ <? _); [split; [apply (Hsub' k2)|done]|by apply ran_same; [apply (Hsub k2)|]].
    + subst t2. apply ran_same; [|done].
      apply (inv_submit_syscall c _ b (set_kern k' t)); [done|by apply inv_kern|done|done].
  - destruct (enter_branch_reserves c tgid tid nr gen args) as [body ->].
    unfold enter_event, reserve_syscall_event. apply wp_bind.
    eexists _, _. split; [by apply reserve_event_none|]. apply wp_ret, ran_same; [|done].
    apply inv_kern. by apply inv_drop.
Qed.

Lemma znth_range args i : args_ok args → 0 ≤ znth args i < 2 ^ 64.
Proof. intros [_ Ha]. rewrite <- (Ha i). apply u64_range. Qed.

Lemma out_copy_ok nr args cp : args_ok args → out_copy_of N nr args = Some cp → copy_ok cp.
Proof.
  intros Ha. unfold out_copy_of. pose proof (u32_range (znth args 2)). pose proof (u32_range (znth args 3)).
  repeat case_match; intros [= <-]; cbn; offs; lia.
Qed.

Lemma exit_inflight_ok m tid nr : inflight_ok m → inflight_ok (exit_inflight m tid nr).
Proof.
  intros Hm. unfold exit_inflight. repeat case_match; [|done..]. by apply map_Forall_delete.
Qed.

Lemma exit_branch_keeps c (L : context_laws c) tgid nr gen retval t :
  let tid := u32 (pid_tgid c) in
  - 2 ^ 31 ≤ nr < 2 ^ 31 → trace_inv t → runs_on c t →
  wp (exit_branch N c tgid tid nr gen retval) t (λ _ t', ran c t t').
Proof.
  intros tid Hnr Hi [_ Hc].
  destruct (k_reserve SyscallRing (exit_size (exit_variant (inflight t !! tid) nr)) (kern t))
    as [[b0|] k] eqn:E.
  - pose proof (reserve_size _ _ _ _ _ E) as Hb0.
    wp_call (exit_branch_spec N L tgid tid nr gen retval t b0 k); [|done|done|].
    + intros x Hx. destruct (inv_inflight _ Hi tid x Hx) as (args & Ha & Ho). by eapply out_copy_ok.
    + intros _ t' (b & Hb & Hrec & k' & ->).
      assert (call_record b) as Hcr.
      { exists c, L, tgid, tid, nr, gen. split; [done|]. right. exists (inflight t !! tid), retval.
        split; [|done]. intros x Hx. apply (inv_inflight _ Hi tid x Hx). }
      pose proof (inv_submit_syscall c _ b (set_kern k' t) Hc (inv_kern k' t Hi) Hb Hcr) as Hsub.
      split; [apply (inv_copies _ _ Hsub), exit_inflight_ok, Hi|].
      intros i Hne. cbn. unfold exit_inflight. repeat case_match; [|done..].
      by apply lookup_delete_ne.
  - destruct (exit_branch_reserves c tgid tid nr gen retval t) as [body Eb].
    assert (wp (exit_event c (exit_variant (inflight t !! tid) nr) tgid tid nr gen retval body) t
      (λ _ t', ran c t t')) as (x & t' & Ew & Hx).
    { unfold exit_event, reserve_syscall_event. apply wp_bind.
      eexists _, _. split; [by apply reserve_event_none|]. apply wp_ret, ran_same; [|done].
      apply inv_kern. by apply inv_drop. }
    exists x, t'. by rewrite Eb.
Qed.

(** ** Mappings *)
Lemma bump_spec tgid t :
  ∃ g m k, bump_map_gen tgid t = Ret (g, set_process_states m (set_kern k t)).
Proof.
  unfold bump_map_gen, bind. destruct (process_states_lookup_spec tgid t) as (m & k & _ & ->).
  destruct (m !! tgid) as [st|]; [|by eexists _, _, _].
  destruct (map_gen st =? 0); by eexists _, _, _.
Qed.

Lemma not_snapshot type tgid tid b :
  event_head type tgid tid b → u16 type ≠ EVENT_TYPE_NEED_SNAPSHOT → snapshot_of b = None.
Proof.
  intros (_ & _ & Ht) Hne. unfold snapshot_of. rewrite Ht. by rewrite (proj2 (Z.eqb_neq _ _) Hne).
Qed.
Lemma inv_map_submitted c n b t t' :
  runs_on c t → trace_inv t → zlen b = n → snapshot_of b = None →
  map_submitted (c := c) n b t t' → ran c t t'.
Proof.
  intros [_ Hc] Hi Hb Hs (k & t2 & Hch & ->).
  pose proof (inv_submit_map c n b (set_kern k t) Hc (inv_kern k t Hi) Hb Hs) as Hsub.
  destruct Hch as (l & -> & Hl). apply ran_same; [|done].
  apply (inv_scratch_changed _ _ Hsub). by exists l.
Qed.

Lemma map_create_keeps c (L : context_laws c) tgid tid gen vma file inode t :
  trace_inv t → runs_on c t →
  wp (map_create_event c tgid tid gen vma file inode) t (λ _ t', ran c t t').
Proof.
  intros Hi Hc. destruct (k_reserve MapRing sizeof_MapCreateEvent (kern t)) as [[b0|] k] eqn:E.
  - pose proof (reserve_size _ _ _ _ _ E) as Hb0.
    wp_call (map_create_spec L tgid tid gen vma file inode t b0 k E Hb0 (inv_scratch _ Hi)).
    intros _ t' (b & Hb & Hrec & Hsub & _). apply (inv_map_submitted _ _ _ _ _ Hc Hi Hb); [|done].
    apply (not_snapshot _ _ _ _ (proj1 Hrec)). done.
  - unfold map_create_event, reserve_map_event. apply wp_bind.
    eexists _, _. split; [by apply reserve_event_none|].
    apply wp_ret, ran_same; [|done]. apply inv_kern. by apply inv_drop.
Qed.
Lemma map_destroy_keeps c tgid tid gen start stop t :
  trace_inv t → runs_on c t →
  wp (map_destroy_event c tgid tid gen start stop) t (λ _ t', ran c t t').
Proof.
  intros Hi Hc. destruct (k_reserve MapRing sizeof_MapDestroyRangeEvent (kern t)) as [[b0|] k] eqn:E.
  - pose proof (reserve_size _ _ _ _ _ E) as Hb0.
    wp_call (map_destroy_spec tgid tid gen start stop t b0 k E Hb0).
    intros _ t' (b & Hb & Hrec & Hsub). apply (inv_map_submitted _ _ _ _ _ Hc Hi Hb); [|done].
    apply (not_snapshot _ _ _ _ (proj1 Hrec)). done.
  - unfold map_destroy_event, reserve_map_event. apply wp_bind.
    eexists _, _. split; [by apply reserve_event_none|].
    apply wp_ret, ran_same; [|done]. apply inv_kern. by apply inv_drop.
Qed.

(** ** The four programs *)
Lemma on_sys_enter_keeps c (L : context_laws c) id args t :
  args_ok args → trace_inv t → runs_on c t →
  wp (on_sys_enter N c id args) t (λ _ t', ran c t t').
Proof.
  intros Ha Hi Hc. apply when_traced_keeps; [done|done|]. intros gen t1 Hi1 Hc1.
  apply enter_branch_keeps; [done|apply s32_range|done..].
Qed.
Lemma on_sys_exit_keeps c (L : context_laws c) id retval t :
  trace_inv t → runs_on c t → wp (on_sys_exit N c id retval) t (λ _ t', ran c t t').
Proof.
  intros Hi Hc. apply when_traced_keeps; [done|done|]. intros gen t1 Hi1 Hc1.
  apply exit_branch_keeps; [done|apply s32_range|done..].
Qed.
Lemma on_uprobe_mmap_keeps c (L : context_laws c) vma t :
  trace_inv t → runs_on c t → wp (on_uprobe_mmap c vma) t (λ _ t', ran c t t').
Proof.
  intros Hi Hc. unfold on_uprobe_mmap. apply wp_bind.
  destruct (should_trace_spec c t) as [r E]. eexists _, _. split; [exact E|].
  destruct r; [|by apply wp_ret, ran_same]. apply wp_bind.
  destruct (bump_spec (pid_tgid c ≫ 32) t) as (g & m & k & Eb). eexists _, _. split; [exact Eb|].
  destruct (inv_quiet_processes t m k Hi) as [Hi1 Hq]. repeat (case_match; [by apply wp_ret, ran_same|]).
  eapply wp_mono; [apply map_create_keeps; [done|done|by apply (runs_on_quiet _ t)]|].
  intros u t'. by apply ran_quiet.
Qed.
Lemma on_uprobe_munmap_keeps c vma start stop t :
  trace_inv t → runs_on c t → wp (on_uprobe_munmap c vma start stop) t (λ _ t', ran c t t').
Proof.
  intros Hi Hc. unfold on_uprobe_munmap. apply wp_bind.
  destruct (should_trace_spec c t) as [r E]. eexists _, _. split; [exact E|].
  destruct r; [|by apply wp_ret, ran_same]. case_match; [by apply wp_ret, ran_same|]. apply wp_bind.
  destruct (bump_spec (pid_tgid c ≫ 32) t) as (g & m & k & Eb). eexists _, _. split; [exact Eb|].
  destruct (inv_quiet_processes t m k Hi) as [Hi1 Hq]. case_match; [by apply wp_ret, ran_same|].
  eapply wp_mono; [apply map_destroy_keeps; [done|by apply (runs_on_quiet _ t)]|].
  intros u t'. by apply ran_quiet.
Qed.

(** ** Reachable states *)
(** The target and exclusion maps, which the host process edits. *)
Definition set_filters (tgids uids ex : gmap Z Z) t : T :=
  mk_tracer (kern t) tgids uids ex (process_states t) (inflight t) (stats t) (scratch_area t)
    (syscall_events t) (map_events t) (stopped t).

(** Runs of the programs in contexts that satisfy [P]. *)
Inductive step (P : context → Prop) : T → T → Prop :=
| step_enter c id args t t' :
    P c → inhabited (context_laws c) → runs_on c t → args_ok args →
    on_sys_enter N c id args t = Ret (tt, t') → step P t t'
| step_exit c id retval t t' :
    P c → inhabited (context_laws c) → runs_on c t →
    on_sys_exit N c id retval t = Ret (tt, t') → step P t t'
| step_mmap c vma t t' :
    P c → inhabited (context_laws c) → runs_on c t →
    on_uprobe_mmap c vma t = Ret (tt, t') → step P t t'
| step_munmap c vma start stop t t' :
    P c → inhabited (context_laws c) → runs_on c t →
    on_uprobe_munmap c vma start stop t = Ret (tt, t') → step P t t'
| step_filters tgids uids ex t : step P t (set_filters tgids uids ex t)
| step_processes m t : step P t (set_process_states m t)
| step_kernel k t : step P t (set_kern k t).

(** A loaded tracer: nothing in flight, nothing counted, nothing submitted. *)
Definition fresh t : Prop :=
  inflight t = ∅ ∧ Forall scratch_ok (scratch_area t) ∧
  Forall (λ s, s = mk_stats 0 0 0 0) (stats t) ∧
  syscall_events t = [] ∧ map_events t = [] ∧ stopped t = [].

Lemma total_zero f (l : list Stats) :
  Forall (λ s, s = mk_stats 0 0 0 0) l → f (mk_stats 0 0 0 0) = 0 → total f l = 0.
Proof. intros Hl Hf. induction Hl as [|s l -> _ IH]; cbn; [done|]. fold (total f l). lia. Qed.
Lemma fresh_inv t : fresh t → trace_inv t.
Proof.
  intros (Hi & Hs & Hz & He & Hm & Hst). split; rewrite ?Hi, ?He, ?Hm, ?Hst; try done.
  - by rewrite total_zero.
  - by rewrite total_zero.
Qed.

Lemma step_keeps P t t' :
  step P t t' → trace_inv t →
  trace_inv t' ∧ (∀ tid, (∀ c, P c → tid ≠ u32 (pid_tgid c)) → inflight t' !! tid = inflight t !! tid).
Proof.
  assert (∀ c t t', ran c t t' → P c → trace_inv t' ∧
    (∀ tid, (∀ c, P c → tid ≠ u32 (pid_tgid c)) → inflight t' !! tid = inflight t !! tid)) as Hran.
  { intros c x x' [Hi Hr] HP. split; [done|]. intros tid Ht. by apply Hr, Ht. }
  intros Hs Hi. destruct Hs as [c id args t t' HP [L] Hc Ha E|c id rv t t' HP [L] Hc E
    |c vma t t' HP [L] Hc E|c vma a b t t' HP [L] Hc E|tgids uids ex t|m t|k t].
  - by apply (Hran c), HP; apply (wp_frame_eq _ _ _ _ _ (on_sys_enter_keeps c L id args t Ha Hi Hc) E).
  - by apply (Hran c), HP; apply (wp_frame_eq _ _ _ _ _ (on_sys_exit_keeps c L id rv t Hi Hc) E).
  - by apply (Hran c), HP; apply (wp_frame_eq _ _ _ _ _ (on_uprobe_mmap_keeps c L vma t Hi Hc) E).
  - by apply (Hran c), HP; apply (wp_frame_eq _ _ _ _ _ (on_uprobe_munmap_keeps c vma a b t Hi Hc) E).
  - by destruct Hi.
  - split; [by apply inv_processes|done].
  - split; [by apply inv_kern|done].
Qed.
Lemma steps_keep P t t' :
  rtc (step P) t t' → trace_inv t →
  trace_inv t' ∧ (∀ tid, (∀ c, P c → tid ≠ u32 (pid_tgid c)) → inflight t' !! tid = inflight t !! tid).
Proof.
  induction 1 as [|t1 t2 t3 Hs _ IH]; intros Hi; [done|].
  destruct (step_keeps _ _ _ Hs Hi) as [Hi2 H2]. destruct (IH Hi2) as [Hi3 H3]. split; [done|].
  intros tid Ht. by rewrite H3, H2.
Qed.
Lemma reachable_inv P t0 t : fresh t0 → rtc (step P) t0 t → trace_inv t.
Proof. intros Hf Hr. apply fresh_inv in Hf. by apply (steps_keep P t0). Qed.
End system.
