(* ===== verification/SyscallsArm.v ===== *)
(** The system calls of 32-bit ARM: the signature tables of
    src/lib/base/linux-syscalls/arm-glue.c (numbers, names and arguments)
    and the numbers the tracer is built with, from arm.vala of the same directory. *)
From S2P Require Import Prelude Tracer TracerReader.
#[local] Open Scope string_scope.

Definition arm_native_1 : list LinuxSyscallSignature := [
  mk_sig 0 "restart_syscall" 0 [];
  mk_sig 1 "exit" 1 [("int", "error_code")];
  mk_sig 2 "fork" 0 [];
  mk_sig 3 "read" 3 [("unsigned int", "fd"); ("char *", "buf"); ("size_t", "count")];
  mk_sig 4 "write" 3 [("unsigned int", "fd"); ("const char *", "buf"); ("size_t", "count")];
  mk_sig 5 "open" 3 [("const char *", "filename"); ("int", "flags"); ("umode_t", "mode")];
  mk_sig 6 "close" 1 [("unsigned int", "fd")];
  mk_sig 8 "creat" 2 [("const char *", "pathname"); ("umode_t", "mode")];
  mk_sig 9 "link" 2 [("const char *", "oldname"); ("const char *", "newname")];
  mk_sig 10 "unlink" 1 [("const char *", "pathname")];
  mk_sig 11 "execve" 3 [("const char *", "filename"); ("const char *const *", "argv"); ("const char *const *", "envp")];
  mk_sig 12 "chdir" 1 [("const char *", "filename")];
  mk_sig 13 "time" 1 [("old_time32_t *", "tloc")];
  mk_sig 14 "mknod" 3 [("const char *", "filename"); ("umode_t", "mode"); ("unsigned", "dev")];
  mk_sig 15 "chmod" 2 [("const char *", "filename"); ("umode_t", "mode")];
  mk_sig 16 "lchown" 3 [("const char *", "filename"); ("uid_t", "user"); ("gid_t", "group")];
  mk_sig 19 "lseek" 3 [("unsigned int", "fd"); ("off_t", "offset"); ("unsigned int", "whence")];
  mk_sig 20 "getpid" 0 [];
  mk_sig 21 "mount" 5 [("char *", "dev_name"); ("char *", "dir_name"); ("char *", "type"); ("unsigned long", "flags"); ("void *", "data")];
  mk_sig 22 "umount" 2 [("char *", "name"); ("int", "flags")];
  mk_sig 23 "setuid" 1 [("uid_t", "uid")];
  mk_sig 24 "getuid" 0 [];
  mk_sig 25 "stime" 1 [("old_time32_t *", "tptr")];
  mk_sig 26 "ptrace" 4 [("long", "request"); ("long", "pid"); ("unsigned long", "addr"); ("unsigned long", "data")];
  mk_sig 27 "alarm" 1 [("unsigned int", "seconds")];
  mk_sig 29 "pause" 0 [];
  mk_sig 30 "utime" 2 [("const char *", "filename"); ("struct old_utimbuf32 *", "t")];
  mk_sig 33 "access" 2 [("const char *", "filename"); ("int", "mode")];
  mk_sig 34 "nice" 1 [("int", "increment")];
  mk_sig 36 "sync" 0 [];
  mk_sig 37 "kill" 2 [("pid_t", "pid"); ("int", "sig")];
  mk_sig 38 "rename" 2 [("const char *", "oldname"); ("const char *", "newname")];
  mk_sig 39 "mkdir" 2 [("const char *", "pathname"); ("umode_t", "mode")];
  mk_sig 40 "rmdir" 1 [("const char *", "pathname")];
  mk_sig 41 "dup" 1 [("unsigned int", "fildes")];
  mk_sig 42 "pipe" 1 [("int *", "fildes")];
  mk_sig 43 "times" 1 [("struct tms *", "tbuf")];
  mk_sig 45 "brk" 1 [("unsigned long", "brk")];
  mk_sig 46 "setgid" 1 [("gid_t", "gid")];
  mk_sig 47 "getgid" 0 [];
  mk_sig 49 "geteuid" 0 [];
  mk_sig 50 "getegid" 0 [];
  mk_sig 51 "acct" 1 [("const char *", "name")];
  mk_sig 52 "umount2" 2 [("char *", "name"); ("int", "flags")];
  mk_sig 54 "ioctl" 3 [("unsigned int", "fd"); ("unsigned int", "cmd"); ("unsigned long", "arg")];
  mk_sig 55 "fcntl" 3 [("unsigned int", "fd"); ("unsigned int", "cmd"); ("unsigned long", "arg")];
  mk_sig 57 "setpgid" 2 [("pid_t", "pid"); ("pid_t", "pgid")];
  mk_sig 60 "umask" 1 [("int", "mask")];
  mk_sig 61 "chroot" 1 [("const char *", "filename")];
  mk_sig 62 "ustat" 2 [("unsigned", "dev"); ("struct ustat *", "ubuf")];
  mk_sig 63 "dup2" 2 [("unsigned int", "oldfd"); ("unsigned int", "newfd")];
  mk_sig 64 "getppid" 0 [];
  mk_sig 65 "getpgrp" 0 [];
  mk_sig 66 "setsid" 0 [];
  mk_sig 67 "sigaction" 3 [("int", "sig"); ("const struct old_sigaction *", "act"); ("struct old_sigaction *", "oact")];
  mk_sig 70 "setreuid" 2 [("uid_t", "ruid"); ("uid_t", "euid")];
  mk_sig 71 "setregid" 2 [("gid_t", "rgid"); ("gid_t", "egid")];
  mk_sig 72 "sigsuspend" 3 [("int", "unused1"); ("int", "unused2"); ("old_sigset_t", "mask")];
  mk_sig 73 "sigpending" 1 [("old_sigset_t *", "uset")];
  mk_sig 74 "sethostname" 2 [("char *", "name"); ("int", "len")];
  mk_sig 75 "setrlimit" 2 [("unsigned int", "resource"); ("struct rlimit *", "rlim")];
  mk_sig 76 "getrlimit" 2 [("unsigned int", "resource"); ("struct rlimit *", "rlim")];
  mk_sig 77 "getrusage" 2 [("int", "who"); ("struct rusage *", "ru")];
  mk_sig 78 "gettimeofday" 2 [("struct __kernel_old_timeval *", "tv"); ("struct timezone *", "tz")];
  mk_sig 79 "settimeofday" 2 [("struct __kernel_old_timeval *", "tv"); ("struct timezone *", "tz")];
  mk_sig 80 "getgroups" 2 [("int", "gidsetsize"); ("gid_t *", "grouplist")];
  mk_sig 81 "setgroups" 2 [("int", "gidsetsize"); ("gid_t *", "grouplist")];
  mk_sig 82 "select" 5 [("int", "n"); ("fd_set *", "inp"); ("fd_set *", "outp"); ("fd_set *", "exp"); ("struct __kernel_old_timeval *", "tvp")];
  mk_sig 83 "symlink" 2 [("const char *", "oldname"); ("const char *", "newname")];
  mk_sig 85 "readlink" 3 [("const char *", "path"); ("char *", "buf"); ("int", "bufsiz")];
  mk_sig 86 "uselib" 1 [("const char *", "library")];
  mk_sig 87 "swapon" 2 [("const char *", "specialfile"); ("int", "swap_flags")];
  mk_sig 88 "reboot" 4 [("int", "magic1"); ("int", "magic2"); ("unsigned int", "cmd"); ("void *", "arg")];
  mk_sig 89 "readdir" 3 [("unsigned", "int"); ("struct old_linux_dirent *", "arg1"); ("unsigned", "int")];
  mk_sig 90 "mmap" 1 [("struct mmap_arg_struct *", "arg")];
  mk_sig 91 "munmap" 2 [("unsigned long", "addr"); ("size_t", "len")];
  mk_sig 92 "truncate" 2 [("const char *", "path"); ("long", "length")];
  mk_sig 93 "ftruncate" 2 [("unsigned int", "fd"); ("off_t", "length")];
  mk_sig 94 "fchmod" 2 [("unsigned int", "fd"); ("umode_t", "mode")];
  mk_sig 95 "fchown" 3 [("unsigned int", "fd"); ("uid_t", "user"); ("gid_t", "group")];
  mk_sig 96 "getpriority" 2 [("int", "which"); ("int", "who")];
  mk_sig 97 "setpriority" 3 [("int", "which"); ("int", "who"); ("int", "niceval")];
  mk_sig 99 "statfs" 2 [("const char *", "pathname"); ("struct statfs *", "buf")];
  mk_sig 100 "fstatfs" 2 [("unsigned int", "fd"); ("struct statfs *", "buf")];
  mk_sig 102 "socketcall" 2 [("int", "call"); ("unsigned long *", "args")];
  mk_sig 103 "syslog" 3 [("int", "type"); ("char *", "buf"); ("int", "len")];
  mk_sig 104 "setitimer" 3 [("int", "which"); ("struct __kernel_old_itimerval *", "value"); ("struct __kernel_old_itimerval *", "ovalue")];
  mk_sig 105 "getitimer" 2 [("int", "which"); ("struct __kernel_old_itimerval *", "value")];
  mk_sig 106 "stat" 2 [("const char *", "filename"); ("struct stat *", "statbuf")];
  mk_sig 107 "lstat" 2 [("const char *", "filename"); ("struct stat *", "statbuf")];
  mk_sig 108 "fstat" 2 [("unsigned int", "fd"); ("struct stat *", "statbuf")];
  mk_sig 111 "vhangup" 0 [];
  mk_sig 114 "wait4" 4 [("pid_t", "upid"); ("int *", "stat_addr"); ("int", "options"); ("struct rusage *", "ru")];
  mk_sig 115 "swapoff" 1 [("const char *", "specialfile")];
  mk_sig 116 "sysinfo" 1 [("struct sysinfo *", "info")];
  mk_sig 117 "ipc" 6 [("unsigned int", "call"); ("int", "first"); ("unsigned long", "second"); ("unsigned long", "third"); ("void *", "ptr"); ("long", "fifth")];
  mk_sig 118 "fsync" 1 [("unsigned int", "fd")];
  mk_sig 120 "clone" 5 [("unsigned long", "clone_flags"); ("unsigned long", "newsp"); ("int *", "parent_tidptr"); ("int *", "child_tidptr"); ("unsigned long", "tls")];
  mk_sig 121 "setdomainname" 2 [("char *", "name"); ("int", "len")];
  mk_sig 122 "uname" 1 [("struct new_utsname *", "name")];
  mk_sig 124 "adjtimex" 1 [("struct old_timex32 *", "txc_p")];
  mk_sig 125 "mprotect" 3 [("unsigned long", "start"); ("size_t", "len"); ("unsigned long", "prot")];
  mk_sig 126 "sigprocmask" 3 [("int", "how"); ("old_sigset_t *", "nset"); ("old_sigset_t *", "oset")];
  mk_sig 128 "init_module" 3 [("void *", "umod"); ("unsigned long", "len"); ("const char *", "uargs")];
  mk_sig 129 "delete_module" 2 [("const char *", "name_user"); ("unsigned int", "flags")];
  mk_sig 131 "quotactl" 4 [("unsigned int", "cmd"); ("const char *", "special"); ("qid_t", "id"); ("void *", "addr")];
  mk_sig 132 "getpgid" 1 [("pid_t", "pid")];
  mk_sig 133 "fchdir" 1 [("unsigned int", "fd")];
  mk_sig 134 "bdflush" 0 [];
  mk_sig 135 "sysfs" 3 [("int", "option"); ("unsigned long", "arg1"); ("unsigned long", "arg2")];
  mk_sig 136 "personality" 1 [("unsigned int", "personality")];
  mk_sig 138 "setfsuid" 1 [("uid_t", "uid")];
  mk_sig 139 "setfsgid" 1 [("gid_t", "gid")];
  mk_sig 140 "_llseek" 5 [("unsigned int", "fd"); ("unsigned long", "offset_high"); ("unsigned long", "offset_low"); ("loff_t *", "result"); ("unsigned int", "whence")];
  mk_sig 141 "getdents" 3 [("unsigned int", "fd"); ("struct linux_dirent *", "dirent"); ("unsigned int", "count")];
  mk_sig 142 "_newselect" 5 [("int", "n"); ("fd_set *", "inp"); ("fd_set *", "outp"); ("fd_set *", "exp"); ("struct __kernel_old_timeval *", "tvp")];
  mk_sig 143 "flock" 2 [("unsigned int", "fd"); ("unsigned int", "cmd")];
  mk_sig 144 "msync" 3 [("unsigned long", "start"); ("size_t", "len"); ("int", "flags")];
  mk_sig 145 "readv" 3 [("unsigned long", "fd"); ("const struct iovec *", "vec"); ("unsigned long", "vlen")];
  mk_sig 146 "writev" 3 [("unsigned long", "fd"); ("const struct iovec *", "vec"); ("unsigned long", "vlen")];
  mk_sig 147 "getsid" 1 [("pid_t", "pid")];
  mk_sig 148 "fdatasync" 1 [("unsigned int", "fd")];
  mk_sig 149 "_sysctl" 0 [];
  mk_sig 150 "mlock" 2 [("unsigned long", "start"); ("size_t", "len")];
  mk_sig 151 "munlock" 2 [("unsigned long", "start"); ("size_t", "len")];
  mk_sig 152 "mlockall" 1 [("int", "flags")];
  mk_sig 153 "munlockall" 0 [];
  mk_sig 154 "sched_setparam" 2 [("pid_t", "pid"); ("struct sched_param *", "param")];
  mk_sig 155 "sched_getparam" 2 [("pid_t", "pid"); ("struct sched_param *", "param")];
  mk_sig 156 "sched_setscheduler" 3 [("pid_t", "pid"); ("int", "policy"); ("struct sched_param *", "param")];
  mk_sig 157 "sched_getscheduler" 1 [("pid_t", "pid")];
  mk_sig 158 "sched_yield" 0 [];
  mk_sig 159 "sched_get_priority_max" 1 [("int", "policy")];
  mk_sig 160 "sched_get_priority_min" 1 [("int", "policy")];
  mk_sig 161 "sched_rr_get_interval" 2 [("pid_t", "pid"); ("struct __kernel_timespec *", "interval")];
  mk_sig 162 "nanosleep" 2 [("struct old_timespec32 *", "rqtp"); ("struct old_timespec32 *", "rmtp")];
  mk_sig 163 "mremap" 5 [("unsigned long", "addr"); ("unsigned long", "old_len"); ("unsigned long", "new_len"); ("unsigned long", "flags"); ("unsigned long", "new_addr")];
  mk_sig 164 "setresuid" 3 [("uid_t", "ruid"); ("uid_t", "euid"); ("uid_t", "suid")];
  mk_sig 165 "getresuid" 3 [("uid_t *", "ruidp"); ("uid_t *", "euidp"); ("uid_t *", "suidp")];
  mk_sig 168 "poll" 3 [("struct pollfd *", "ufds"); ("unsigned int", "nfds"); ("int", "timeout_msecs")]
].
Definition arm_native_2 : list LinuxSyscallSignature := [
  mk_sig 170 "setresgid" 3 [("gid_t", "rgid"); ("gid_t", "egid"); ("gid_t", "sgid")];
  mk_sig 171 "getresgid" 3 [("gid_t *", "rgidp"); ("gid_t *", "egidp"); ("gid_t *", "sgidp")];
  mk_sig 172 "prctl" 5 [("int", "option"); ("unsigned long", "arg2"); ("unsigned long", "arg3"); ("unsigned long", "arg4"); ("unsigned long", "arg5")];
  mk_sig 174 "rt_sigaction" 4 [("int", "sig"); ("const struct sigaction *", "act"); ("struct sigaction *", "oact"); ("size_t", "sigsetsize")];
  mk_sig 175 "rt_sigprocmask" 4 [("int", "how"); ("sigset_t *", "nset"); ("sigset_t *", "oset"); ("size_t", "sigsetsize")];
  mk_sig 176 "rt_sigpending" 2 [("sigset_t *", "uset"); ("size_t", "sigsetsize")];
  mk_sig 177 "rt_sigtimedwait" 4 [("const sigset_t *", "uthese"); ("siginfo_t *", "uinfo"); ("const struct __kernel_timespec *", "uts"); ("size_t", "sigsetsize")];
  mk_sig 178 "rt_sigqueueinfo" 3 [("pid_t", "pid"); ("int", "sig"); ("siginfo_t *", "uinfo")];
  mk_sig 179 "rt_sigsuspend" 2 [("sigset_t *", "unewset"); ("size_t", "sigsetsize")];
  mk_sig 180 "pread64" 4 [("unsigned int", "fd"); ("char *", "buf"); ("size_t", "count"); ("loff_t", "pos")];
  mk_sig 181 "pwrite64" 4 [("unsigned int", "fd"); ("const char *", "buf"); ("size_t", "count"); ("loff_t", "pos")];
  mk_sig 182 "chown" 3 [("const char *", "filename"); ("uid_t", "user"); ("gid_t", "group")];
  mk_sig 183 "getcwd" 2 [("char *", "buf"); ("unsigned long", "size")];
  mk_sig 184 "capget" 2 [("cap_user_header_t", "header"); ("cap_user_data_t", "dataptr")];
  mk_sig 185 "capset" 2 [("cap_user_header_t", "header"); ("const cap_user_data_t", "data")];
  mk_sig 186 "sigaltstack" 2 [("const stack_t *", "uss"); ("stack_t *", "uoss")];
  mk_sig 187 "sendfile" 4 [("int", "out_fd"); ("int", "in_fd"); ("off_t *", "offset"); ("size_t", "count")];
  mk_sig 190 "vfork" 0 [];
  mk_sig 191 "ugetrlimit" 2 [("unsigned int", "resource"); ("struct rlimit *", "rlim")];
  mk_sig 193 "truncate64" 2 [("const char *", "path"); ("loff_t", "length")];
  mk_sig 194 "ftruncate64" 2 [("unsigned int", "fd"); ("loff_t", "length")];
  mk_sig 195 "stat64" 2 [("const char *", "filename"); ("struct stat64 *", "statbuf")];
  mk_sig 196 "lstat64" 2 [("const char *", "filename"); ("struct stat64 *", "statbuf")];
  mk_sig 197 "fstat64" 2 [("unsigned long", "fd"); ("struct stat64 *", "statbuf")];
  mk_sig 198 "lchown32" 3 [("const char *", "filename"); ("uid_t", "user"); ("gid_t", "group")];
  mk_sig 199 "getuid32" 0 [];
  mk_sig 200 "getgid32" 0 [];
  mk_sig 201 "geteuid32" 0 [];
  mk_sig 202 "getegid32" 0 [];
  mk_sig 203 "setreuid32" 2 [("uid_t", "ruid"); ("uid_t", "euid")];
  mk_sig 204 "setregid32" 2 [("gid_t", "rgid"); ("gid_t", "egid")];
  mk_sig 205 "getgroups32" 2 [("int", "gidsetsize"); ("gid_t *", "grouplist")];
  mk_sig 206 "setgroups32" 2 [("int", "gidsetsize"); ("gid_t *", "grouplist")];
  mk_sig 207 "fchown32" 3 [("unsigned int", "fd"); ("uid_t", "user"); ("gid_t", "group")];
  mk_sig 208 "setresuid32" 3 [("uid_t", "ruid"); ("uid_t", "euid"); ("uid_t", "suid")];
  mk_sig 209 "getresuid32" 3 [("uid_t *", "ruid"); ("uid_t *", "euid"); ("uid_t *", "suid")];
  mk_sig 210 "setresgid32" 3 [("gid_t", "rgid"); ("gid_t", "egid"); ("gid_t", "sgid")];
  mk_sig 211 "getresgid32" 3 [("gid_t *", "rgid"); ("gid_t *", "egid"); ("gid_t *", "sgid")];
  mk_sig 212 "chown32" 3 [("const char *", "filename"); ("uid_t", "user"); ("gid_t", "group")];
  mk_sig 213 "setuid32" 1 [("uid_t", "uid")];
  mk_sig 214 "setgid32" 1 [("gid_t", "gid")];
  mk_sig 215 "setfsuid32" 1 [("uid_t", "uid")];
  mk_sig 216 "setfsgid32" 1 [("gid_t", "gid")];
  mk_sig 217 "getdents64" 3 [("unsigned int", "fd"); ("struct linux_dirent64 *", "dirent"); ("unsigned int", "count")];
  mk_sig 218 "pivot_root" 2 [("const char *", "new_root"); ("const char *", "put_old")];
  mk_sig 219 "mincore" 3 [("unsigned long", "start"); ("size_t", "len"); ("unsigned char *", "vec")];
  mk_sig 220 "madvise" 3 [("unsigned long", "start"); ("size_t", "len_in"); ("int", "behavior")];
  mk_sig 221 "fcntl64" 3 [("unsigned int", "fd"); ("unsigned int", "cmd"); ("unsigned long", "arg")];
  mk_sig 224 "gettid" 0 [];
  mk_sig 225 "readahead" 3 [("int", "fd"); ("loff_t", "offset"); ("size_t", "count")];
  mk_sig 226 "setxattr" 5 [("const char *", "pathname"); ("const char *", "name"); ("const void *", "value"); ("size_t", "size"); ("int", "flags")];
  mk_sig 227 "lsetxattr" 5 [("const char *", "pathname"); ("const char *", "name"); ("const void *", "value"); ("size_t", "size"); ("int", "flags")];
  mk_sig 228 "fsetxattr" 5 [("int", "fd"); ("const char *", "name"); ("const void *", "value"); ("size_t", "size"); ("int", "flags")];
  mk_sig 229 "getxattr" 4 [("const char *", "pathname"); ("const char *", "name"); ("void *", "value"); ("size_t", "size")];
  mk_sig 230 "lgetxattr" 4 [("const char *", "pathname"); ("const char *", "name"); ("void *", "value"); ("size_t", "size")];
  mk_sig 231 "fgetxattr" 4 [("int", "fd"); ("const char *", "name"); ("void *", "value"); ("size_t", "size")];
  mk_sig 232 "listxattr" 3 [("const char *", "pathname"); ("char *", "list"); ("size_t", "size")];
  mk_sig 233 "llistxattr" 3 [("const char *", "pathname"); ("char *", "list"); ("size_t", "size")];
  mk_sig 234 "flistxattr" 3 [("int", "fd"); ("char *", "list"); ("size_t", "size")];
  mk_sig 235 "removexattr" 2 [("const char *", "pathname"); ("const char *", "name")];
  mk_sig 236 "lremovexattr" 2 [("const char *", "pathname"); ("const char *", "name")];
  mk_sig 237 "fremovexattr" 2 [("int", "fd"); ("const char *", "name")];
  mk_sig 238 "tkill" 2 [("pid_t", "pid"); ("int", "sig")];
  mk_sig 239 "sendfile64" 4 [("int", "out_fd"); ("int", "in_fd"); ("loff_t *", "offset"); ("size_t", "count")];
  mk_sig 240 "futex" 6 [("u32 *", "uaddr"); ("int", "op"); ("u32", "val"); ("const struct __kernel_timespec *", "utime"); ("u32 *", "uaddr2"); ("u32", "val3")];
  mk_sig 241 "sched_setaffinity" 3 [("pid_t", "pid"); ("unsigned int", "len"); ("unsigned long *", "user_mask_ptr")];
  mk_sig 242 "sched_getaffinity" 3 [("pid_t", "pid"); ("unsigned int", "len"); ("unsigned long *", "user_mask_ptr")];
  mk_sig 243 "io_setup" 2 [("unsigned", "nr_events"); ("aio_context_t *", "ctxp")];
  mk_sig 244 "io_destroy" 1 [("aio_context_t", "ctx")];
  mk_sig 245 "io_getevents" 5 [("__u32", "ctx_id"); ("__s32", "min_nr"); ("__s32", "nr"); ("struct io_event *", "events"); ("struct old_timespec32 *", "timeout")];
  mk_sig 246 "io_submit" 3 [("aio_context_t", "ctx_id"); ("long", "nr"); ("struct iocb * *", "iocbpp")];
  mk_sig 247 "io_cancel" 3 [("aio_context_t", "ctx_id"); ("struct iocb *", "iocb"); ("struct io_event *", "result")];
  mk_sig 248 "exit_group" 1 [("int", "error_code")];
  mk_sig 249 "lookup_dcookie" 0 [];
  mk_sig 250 "epoll_create" 1 [("int", "size")];
  mk_sig 251 "epoll_ctl" 4 [("int", "epfd"); ("int", "op"); ("int", "fd"); ("struct epoll_event *", "event")];
  mk_sig 252 "epoll_wait" 4 [("int", "epfd"); ("struct epoll_event *", "events"); ("int", "maxevents"); ("int", "timeout")];
  mk_sig 253 "remap_file_pages" 5 [("unsigned long", "start"); ("unsigned long", "size"); ("unsigned long", "prot"); ("unsigned long", "pgoff"); ("unsigned long", "flags")];
  mk_sig 256 "set_tid_address" 1 [("int *", "tidptr")];
  mk_sig 257 "timer_create" 3 [("const clockid_t", "which_clock"); ("struct sigevent *", "timer_event_spec"); ("timer_t *", "created_timer_id")];
  mk_sig 258 "timer_settime" 4 [("timer_t", "timer_id"); ("int", "flags"); ("const struct __kernel_itimerspec *", "new_setting"); ("struct __kernel_itimerspec *", "old_setting")];
  mk_sig 259 "timer_gettime" 2 [("timer_t", "timer_id"); ("struct __kernel_itimerspec *", "setting")];
  mk_sig 260 "timer_getoverrun" 1 [("timer_t", "timer_id")];
  mk_sig 261 "timer_delete" 1 [("timer_t", "timer_id")];
  mk_sig 262 "clock_settime" 2 [("const clockid_t", "which_clock"); ("const struct __kernel_timespec *", "tp")];
  mk_sig 263 "clock_gettime" 2 [("const clockid_t", "which_clock"); ("struct __kernel_timespec *", "tp")];
  mk_sig 264 "clock_getres" 2 [("const clockid_t", "which_clock"); ("struct __kernel_timespec *", "tp")];
  mk_sig 265 "clock_nanosleep" 4 [("const clockid_t", "which_clock"); ("int", "flags"); ("const struct __kernel_timespec *", "rqtp"); ("struct __kernel_timespec *", "rmtp")];
  mk_sig 266 "statfs64" 3 [("const char *", "pathname"); ("size_t", "sz"); ("struct statfs64 *", "buf")];
  mk_sig 267 "fstatfs64" 3 [("unsigned int", "fd"); ("size_t", "sz"); ("struct statfs64 *", "buf")];
  mk_sig 268 "tgkill" 3 [("pid_t", "tgid"); ("pid_t", "pid"); ("int", "sig")];
  mk_sig 269 "utimes" 2 [("const char *", "filename"); ("struct old_timeval32 *", "t")];
  mk_sig 271 "pciconfig_iobase" 3 [("long", "which"); ("unsigned long", "bus"); ("unsigned long", "devfn")];
  mk_sig 272 "pciconfig_read" 5 [("unsigned long", "bus"); ("unsigned long", "dfn"); ("unsigned long", "off"); ("unsigned long", "len"); ("void *", "buf")];
  mk_sig 273 "pciconfig_write" 5 [("unsigned long", "bus"); ("unsigned long", "dfn"); ("unsigned long", "off"); ("unsigned long", "len"); ("void *", "buf")];
  mk_sig 274 "mq_open" 4 [("const char *", "u_name"); ("int", "oflag"); ("umode_t", "mode"); ("struct mq_attr *", "u_attr")];
  mk_sig 275 "mq_unlink" 1 [("const char *", "u_name")];
  mk_sig 276 "mq_timedsend" 5 [("mqd_t", "mqdes"); ("const char *", "u_msg_ptr"); ("size_t", "msg_len"); ("unsigned int", "msg_prio"); ("const struct __kernel_timespec *", "u_abs_timeout")];
  mk_sig 277 "mq_timedreceive" 5 [("mqd_t", "mqdes"); ("char *", "u_msg_ptr"); ("size_t", "msg_len"); ("unsigned int *", "u_msg_prio"); ("const struct __kernel_timespec *", "u_abs_timeout")];
  mk_sig 278 "mq_notify" 2 [("mqd_t", "mqdes"); ("const struct sigevent *", "u_notification")];
  mk_sig 279 "mq_getsetattr" 3 [("mqd_t", "mqdes"); ("const struct mq_attr *", "u_mqstat"); ("struct mq_attr *", "u_omqstat")];
  mk_sig 280 "waitid" 5 [("int", "which"); ("pid_t", "upid"); ("struct siginfo *", "infop"); ("int", "options"); ("struct rusage *", "ru")];
  mk_sig 281 "socket" 3 [("int", "family"); ("int", "type"); ("int", "protocol")];
  mk_sig 282 "bind" 3 [("int", "fd"); ("struct sockaddr *", "umyaddr"); ("int", "addrlen")];
  mk_sig 283 "connect" 3 [("int", "fd"); ("struct sockaddr *", "uservaddr"); ("int", "addrlen")];
  mk_sig 284 "listen" 2 [("int", "fd"); ("int", "backlog")];
  mk_sig 285 "accept" 3 [("int", "fd"); ("struct sockaddr *", "upeer_sockaddr"); ("int *", "upeer_addrlen")];
  mk_sig 286 "getsockname" 3 [("int", "fd"); ("struct sockaddr *", "usockaddr"); ("int *", "usockaddr_len")];
  mk_sig 287 "getpeername" 3 [("int", "fd"); ("struct sockaddr *", "usockaddr"); ("int *", "usockaddr_len")];
  mk_sig 288 "socketpair" 4 [("int", "family"); ("int", "type"); ("int", "protocol"); ("int *", "usockvec")];
  mk_sig 289 "send" 4 [("int", "fd"); ("void *", "buff"); ("size_t", "len"); ("unsigned int", "flags")];
  mk_sig 290 "sendto" 6 [("int", "fd"); ("void *", "buff"); ("size_t", "len"); ("unsigned int", "flags"); ("struct sockaddr *", "addr"); ("int", "addr_len")];
  mk_sig 291 "recv" 4 [("int", "fd"); ("void *", "ubuf"); ("size_t", "size"); ("unsigned int", "flags")];
  mk_sig 292 "recvfrom" 6 [("int", "fd"); ("void *", "ubuf"); ("size_t", "size"); ("unsigned int", "flags"); ("struct sockaddr *", "addr"); ("int *", "addr_len")];
  mk_sig 293 "shutdown" 2 [("int", "fd"); ("int", "how")];
  mk_sig 294 "setsockopt" 5 [("int", "fd"); ("int", "level"); ("int", "optname"); ("char *", "optval"); ("int", "optlen")];
  mk_sig 295 "getsockopt" 5 [("int", "fd"); ("int", "level"); ("int", "optname"); ("char *", "optval"); ("int *", "optlen")];
  mk_sig 296 "sendmsg" 3 [("int", "fd"); ("struct user_msghdr *", "msg"); ("unsigned int", "flags")];
  mk_sig 297 "recvmsg" 3 [("int", "fd"); ("struct user_msghdr *", "msg"); ("unsigned int", "flags")];
  mk_sig 298 "semop" 3 [("int", "semid"); ("struct sembuf *", "tsops"); ("unsigned", "nsops")];
  mk_sig 299 "semget" 3 [("key_t", "key"); ("int", "nsems"); ("int", "semflg")];
  mk_sig 300 "semctl" 4 [("int", "semid"); ("int", "semnum"); ("int", "cmd"); ("unsigned long", "arg")];
  mk_sig 301 "msgsnd" 4 [("int", "msqid"); ("struct msgbuf *", "msgp"); ("size_t", "msgsz"); ("int", "msgflg")];
  mk_sig 302 "msgrcv" 5 [("int", "msqid"); ("struct msgbuf *", "msgp"); ("size_t", "msgsz"); ("long", "msgtyp"); ("int", "msgflg")];
  mk_sig 303 "msgget" 2 [("key_t", "key"); ("int", "msgflg")];
  mk_sig 304 "msgctl" 3 [("int", "msqid"); ("int", "cmd"); ("struct msqid_ds *", "buf")];
  mk_sig 305 "shmat" 3 [("int", "shmid"); ("char *", "shmaddr"); ("int", "shmflg")];
  mk_sig 306 "shmdt" 1 [("char *", "shmaddr")];
  mk_sig 307 "shmget" 3 [("key_t", "key"); ("size_t", "size"); ("int", "shmflg")];
  mk_sig 308 "shmctl" 3 [("int", "shmid"); ("int", "cmd"); ("struct shmid_ds *", "buf")];
  mk_sig 309 "add_key" 5 [("const char *", "_type"); ("const char *", "_description"); ("const void *", "_payload"); ("size_t", "plen"); ("key_serial_t", "ringid")];
  mk_sig 310 "request_key" 4 [("const char *", "_type"); ("const char *", "_description"); ("const char *", "_callout_info"); ("key_serial_t", "destringid")];
  mk_sig 311 "keyctl" 5 [("int", "option"); ("unsigned long", "arg2"); ("unsigned long", "arg3"); ("unsigned long", "arg4"); ("unsigned long", "arg5")];
  mk_sig 312 "semtimedop" 4 [("int", "semid"); ("struct sembuf *", "tsops"); ("unsigned int", "nsops"); ("const struct __kernel_timespec *", "timeout")];
  mk_sig 314 "ioprio_set" 3 [("int", "which"); ("int", "who"); ("int", "ioprio")];
  mk_sig 315 "ioprio_get" 2 [("int", "which"); ("int", "who")];
  mk_sig 316 "inotify_init" 0 [];
  mk_sig 317 "inotify_add_watch" 3 [("int", "fd"); ("const char *", "pathname"); ("u32", "mask")];
  mk_sig 318 "inotify_rm_watch" 2 [("int", "fd"); ("__s32", "wd")];
  mk_sig 319 "mbind" 6 [("unsigned long", "start"); ("unsigned long", "len"); ("unsigned long", "mode"); ("const unsigned long *", "nmask"); ("unsigned long", "maxnode"); ("unsigned int", "flags")]
].
Definition arm_native_3 : list LinuxSyscallSignature := [
  mk_sig 320 "get_mempolicy" 5 [("int *", "policy"); ("unsigned long *", "nmask"); ("unsigned long", "maxnode"); ("unsigned long", "addr"); ("unsigned long", "flags")];
  mk_sig 321 "set_mempolicy" 3 [("int", "mode"); ("const unsigned long *", "nmask"); ("unsigned long", "maxnode")];
  mk_sig 322 "openat" 4 [("int", "dfd"); ("const char *", "filename"); ("int", "flags"); ("umode_t", "mode")];
  mk_sig 323 "mkdirat" 3 [("int", "dfd"); ("const char *", "pathname"); ("umode_t", "mode")];
  mk_sig 324 "mknodat" 4 [("int", "dfd"); ("const char *", "filename"); ("umode_t", "mode"); ("unsigned int", "dev")];
  mk_sig 325 "fchownat" 5 [("int", "dfd"); ("const char *", "filename"); ("uid_t", "user"); ("gid_t", "group"); ("int", "flag")];
  mk_sig 326 "futimesat" 3 [("unsigned int", "dfd"); ("const char *", "filename"); ("struct old_timeval32 *", "t")];
  mk_sig 327 "fstatat64" 4 [("int", "dfd"); ("const char *", "filename"); ("struct stat64 *", "statbuf"); ("int", "flag")];
  mk_sig 328 "unlinkat" 3 [("int", "dfd"); ("const char *", "pathname"); ("int", "flag")];
  mk_sig 329 "renameat" 4 [("int", "olddfd"); ("const char *", "oldname"); ("int", "newdfd"); ("const char *", "newname")];
  mk_sig 330 "linkat" 5 [("int", "olddfd"); ("const char *", "oldname"); ("int", "newdfd"); ("const char *", "newname"); ("int", "flags")];
  mk_sig 331 "symlinkat" 3 [("const char *", "oldname"); ("int", "newdfd"); ("const char *", "newname")];
  mk_sig 332 "readlinkat" 4 [("int", "dfd"); ("const char *", "pathname"); ("char *", "buf"); ("int", "bufsiz")];
  mk_sig 333 "fchmodat" 3 [("int", "dfd"); ("const char *", "filename"); ("umode_t", "mode")];
  mk_sig 334 "faccessat" 3 [("int", "dfd"); ("const char *", "filename"); ("int", "mode")];
  mk_sig 335 "pselect6" 6 [("int", "n"); ("fd_set *", "inp"); ("fd_set *", "outp"); ("fd_set *", "exp"); ("struct __kernel_timespec *", "tsp"); ("void *", "sig")];
  mk_sig 336 "ppoll" 5 [("struct pollfd *", "ufds"); ("unsigned int", "nfds"); ("struct __kernel_timespec *", "tsp"); ("const sigset_t *", "sigmask"); ("size_t", "sigsetsize")];
  mk_sig 337 "unshare" 1 [("unsigned long", "unshare_flags")];
  mk_sig 338 "set_robust_list" 2 [("struct robust_list_head *", "head"); ("size_t", "len")];
  mk_sig 339 "get_robust_list" 3 [("int", "pid"); ("struct robust_list_head * *", "head_ptr"); ("size_t *", "len_ptr")];
  mk_sig 340 "splice" 6 [("int", "fd_in"); ("loff_t *", "off_in"); ("int", "fd_out"); ("loff_t *", "off_out"); ("size_t", "len"); ("unsigned int", "flags")];
  mk_sig 341 "arm_sync_file_range" 4 [("int", "fd"); ("unsigned int", "flags"); ("loff_t", "offset"); ("loff_t", "nbytes")];
  mk_sig 342 "tee" 4 [("int", "fdin"); ("int", "fdout"); ("size_t", "len"); ("unsigned int", "flags")];
  mk_sig 343 "vmsplice" 4 [("int", "fd"); ("const struct iovec *", "uiov"); ("unsigned long", "nr_segs"); ("unsigned int", "flags")];
  mk_sig 344 "move_pages" 6 [("pid_t", "pid"); ("unsigned long", "nr_pages"); ("const void * *", "pages"); ("const int *", "nodes"); ("int *", "status"); ("int", "flags")];
  mk_sig 345 "getcpu" 3 [("unsigned *", "cpup"); ("unsigned *", "nodep"); ("struct getcpu_cache *", "unused")];
  mk_sig 346 "epoll_pwait" 6 [("int", "epfd"); ("struct epoll_event *", "events"); ("int", "maxevents"); ("int", "timeout"); ("const sigset_t *", "sigmask"); ("size_t", "sigsetsize")];
  mk_sig 347 "kexec_load" 4 [("unsigned long", "entry"); ("unsigned long", "nr_segments"); ("struct kexec_segment *", "segments"); ("unsigned long", "flags")];
  mk_sig 348 "utimensat" 4 [("int", "dfd"); ("const char *", "filename"); ("struct __kernel_timespec *", "utimes"); ("int", "flags")];
  mk_sig 349 "signalfd" 3 [("int", "ufd"); ("sigset_t *", "user_mask"); ("size_t", "sizemask")];
  mk_sig 350 "timerfd_create" 2 [("int", "clockid"); ("int", "flags")];
  mk_sig 351 "eventfd" 1 [("unsigned int", "count")];
  mk_sig 352 "fallocate" 4 [("int", "fd"); ("int", "mode"); ("loff_t", "offset"); ("loff_t", "len")];
  mk_sig 353 "timerfd_settime" 4 [("int", "ufd"); ("int", "flags"); ("const struct __kernel_itimerspec *", "utmr"); ("struct __kernel_itimerspec *", "otmr")];
  mk_sig 354 "timerfd_gettime" 2 [("int", "ufd"); ("struct __kernel_itimerspec *", "otmr")];
  mk_sig 355 "signalfd4" 4 [("int", "ufd"); ("sigset_t *", "user_mask"); ("size_t", "sizemask"); ("int", "flags")];
  mk_sig 356 "eventfd2" 2 [("unsigned int", "count"); ("int", "flags")];
  mk_sig 357 "epoll_create1" 1 [("int", "flags")];
  mk_sig 358 "dup3" 3 [("unsigned int", "oldfd"); ("unsigned int", "newfd"); ("int", "flags")];
  mk_sig 359 "pipe2" 2 [("int *", "fildes"); ("int", "flags")];
  mk_sig 360 "inotify_init1" 1 [("int", "flags")];
  mk_sig 361 "preadv" 5 [("unsigned long", "fd"); ("const struct iovec *", "vec"); ("unsigned long", "vlen"); ("unsigned long", "pos_l"); ("unsigned long", "pos_h")];
  mk_sig 362 "pwritev" 5 [("unsigned long", "fd"); ("const struct iovec *", "vec"); ("unsigned long", "vlen"); ("unsigned long", "pos_l"); ("unsigned long", "pos_h")];
  mk_sig 363 "rt_tgsigqueueinfo" 4 [("pid_t", "tgid"); ("pid_t", "pid"); ("int", "sig"); ("siginfo_t *", "uinfo")];
  mk_sig 364 "perf_event_open" 5 [("struct perf_event_attr *", "attr_uptr"); ("pid_t", "pid"); ("int", "cpu"); ("int", "group_fd"); ("unsigned long", "flags")];
  mk_sig 365 "recvmmsg" 5 [("int", "fd"); ("struct mmsghdr *", "mmsg"); ("unsigned int", "vlen"); ("unsigned int", "flags"); ("struct __kernel_timespec *", "timeout")];
  mk_sig 366 "accept4" 4 [("int", "fd"); ("struct sockaddr *", "upeer_sockaddr"); ("int *", "upeer_addrlen"); ("int", "flags")];
  mk_sig 367 "fanotify_init" 2 [("unsigned int", "flags"); ("unsigned int", "event_f_flags")];
  mk_sig 368 "fanotify_mark" 5 [("int", "fanotify_fd"); ("unsigned int", "flags"); ("__u64", "mask"); ("int", "dfd"); ("const char *", "pathname")];
  mk_sig 369 "prlimit64" 4 [("pid_t", "pid"); ("unsigned int", "resource"); ("const struct rlimit64 *", "new_rlim"); ("struct rlimit64 *", "old_rlim")];
  mk_sig 370 "name_to_handle_at" 5 [("int", "dfd"); ("const char *", "name"); ("struct file_handle *", "handle"); ("void *", "mnt_id"); ("int", "flag")];
  mk_sig 371 "open_by_handle_at" 3 [("int", "mountdirfd"); ("struct file_handle *", "handle"); ("int", "flags")];
  mk_sig 372 "clock_adjtime" 2 [("const clockid_t", "which_clock"); ("struct __kernel_timex *", "utx")];
  mk_sig 373 "syncfs" 1 [("int", "fd")];
  mk_sig 374 "sendmmsg" 4 [("int", "fd"); ("struct mmsghdr *", "mmsg"); ("unsigned int", "vlen"); ("unsigned int", "flags")];
  mk_sig 375 "setns" 2 [("int", "fd"); ("int", "flags")];
  mk_sig 376 "process_vm_readv" 6 [("pid_t", "pid"); ("const struct iovec *", "lvec"); ("unsigned long", "liovcnt"); ("const struct iovec *", "rvec"); ("unsigned long", "riovcnt"); ("unsigned long", "flags")];
  mk_sig 377 "process_vm_writev" 6 [("pid_t", "pid"); ("const struct iovec *", "lvec"); ("unsigned long", "liovcnt"); ("const struct iovec *", "rvec"); ("unsigned long", "riovcnt"); ("unsigned long", "flags")];
  mk_sig 378 "kcmp" 5 [("pid_t", "pid1"); ("pid_t", "pid2"); ("int", "type"); ("unsigned long", "idx1"); ("unsigned long", "idx2")];
  mk_sig 379 "finit_module" 3 [("int", "fd"); ("const char *", "uargs"); ("int", "flags")];
  mk_sig 380 "sched_setattr" 3 [("pid_t", "pid"); ("struct sched_attr *", "uattr"); ("unsigned int", "flags")];
  mk_sig 381 "sched_getattr" 4 [("pid_t", "pid"); ("struct sched_attr *", "uattr"); ("unsigned int", "usize"); ("unsigned int", "flags")];
  mk_sig 382 "renameat2" 5 [("int", "olddfd"); ("const char *", "oldname"); ("int", "newdfd"); ("const char *", "newname"); ("unsigned int", "flags")];
  mk_sig 383 "seccomp" 3 [("unsigned int", "op"); ("unsigned int", "flags"); ("void *", "uargs")];
  mk_sig 384 "getrandom" 3 [("char *", "ubuf"); ("size_t", "len"); ("unsigned int", "flags")];
  mk_sig 385 "memfd_create" 2 [("const char *", "uname"); ("unsigned int", "flags")];
  mk_sig 386 "bpf" 3 [("int", "cmd"); ("union bpf_attr *", "uattr"); ("unsigned int", "size")];
  mk_sig 387 "execveat" 5 [("int", "fd"); ("const char *", "filename"); ("const char *const *", "argv"); ("const char *const *", "envp"); ("int", "flags")];
  mk_sig 388 "userfaultfd" 1 [("int", "flags")];
  mk_sig 389 "membarrier" 3 [("int", "cmd"); ("unsigned int", "flags"); ("int", "cpu_id")];
  mk_sig 390 "mlock2" 3 [("unsigned long", "start"); ("size_t", "len"); ("int", "flags")];
  mk_sig 391 "copy_file_range" 6 [("int", "fd_in"); ("loff_t *", "off_in"); ("int", "fd_out"); ("loff_t *", "off_out"); ("size_t", "len"); ("unsigned int", "flags")];
  mk_sig 392 "preadv2" 6 [("unsigned long", "fd"); ("const struct iovec *", "vec"); ("unsigned long", "vlen"); ("unsigned long", "pos_l"); ("unsigned long", "pos_h"); ("rwf_t", "flags")];
  mk_sig 393 "pwritev2" 6 [("unsigned long", "fd"); ("const struct iovec *", "vec"); ("unsigned long", "vlen"); ("unsigned long", "pos_l"); ("unsigned long", "pos_h"); ("rwf_t", "flags")];
  mk_sig 394 "pkey_mprotect" 4 [("unsigned long", "start"); ("size_t", "len"); ("unsigned long", "prot"); ("int", "pkey")];
  mk_sig 395 "pkey_alloc" 2 [("unsigned long", "flags"); ("unsigned long", "init_val")];
  mk_sig 396 "pkey_free" 1 [("int", "pkey")];
  mk_sig 397 "statx" 5 [("int", "dfd"); ("const char *", "filename"); ("unsigned", "flags"); ("unsigned int", "mask"); ("struct statx *", "buffer")];
  mk_sig 398 "rseq" 4 [("struct rseq *", "rseq"); ("u32", "rseq_len"); ("int", "flags"); ("u32", "sig")];
  mk_sig 399 "io_pgetevents" 6 [("aio_context_t", "ctx_id"); ("long", "min_nr"); ("long", "nr"); ("struct io_event *", "events"); ("struct __kernel_timespec *", "timeout"); ("const struct __aio_sigset *", "usig")];
  mk_sig 400 "migrate_pages" 4 [("pid_t", "pid"); ("unsigned long", "maxnode"); ("const unsigned long *", "old_nodes"); ("const unsigned long *", "new_nodes")];
  mk_sig 401 "kexec_file_load" 5 [("int", "kernel_fd"); ("int", "initrd_fd"); ("unsigned long", "cmdline_len"); ("const char *", "cmdline_ptr"); ("unsigned long", "flags")];
  mk_sig 403 "clock_gettime64" 2 [("clockid_t", "which_clock"); ("struct __kernel_timespec *", "tp")];
  mk_sig 404 "clock_settime64" 2 [("clockid_t", "which_clock"); ("const struct __kernel_timespec *", "tp")];
  mk_sig 405 "clock_adjtime64" 2 [("clockid_t", "which_clock"); ("struct __kernel_timex *", "tx")];
  mk_sig 406 "clock_getres_time64" 2 [("clockid_t", "which_clock"); ("struct __kernel_timespec *", "tp")];
  mk_sig 407 "clock_nanosleep_time64" 4 [("clockid_t", "which_clock"); ("int", "flags"); ("const struct __kernel_timespec *", "rqtp"); ("struct __kernel_timespec *", "rmtp")];
  mk_sig 408 "timer_gettime64" 2 [("timer_t", "timer_id"); ("struct __kernel_itimerspec *", "setting")];
  mk_sig 409 "timer_settime64" 4 [("timer_t", "timer_id"); ("int", "flags"); ("const struct __kernel_itimerspec *", "new_setting"); ("struct __kernel_itimerspec *", "old_setting")];
  mk_sig 410 "timerfd_gettime64" 2 [("int", "ufd"); ("struct __kernel_itimerspec *", "otmr")];
  mk_sig 411 "timerfd_settime64" 4 [("int", "ufd"); ("int", "flags"); ("const struct __kernel_itimerspec *", "utmr"); ("struct __kernel_itimerspec *", "otmr")];
  mk_sig 412 "utimensat_time64" 4 [("int", "dfd"); ("const char *", "filename"); ("struct __kernel_timespec *", "utimes"); ("int", "flags")];
  mk_sig 413 "pselect6_time64" 6 [("int", "arg0"); ("fd_set *", "arg1"); ("fd_set *", "arg2"); ("fd_set *", "arg3"); ("struct __kernel_timespec *", "arg4"); ("void *", "arg5")];
  mk_sig 414 "ppoll_time64" 5 [("struct pollfd *", "arg0"); ("unsigned", "int"); ("struct __kernel_timespec *", "arg2"); ("const sigset_t *", "arg3"); ("size_t", "arg4")];
  mk_sig 416 "io_pgetevents_time64" 6 [("aio_context_t", "ctx_id"); ("long", "min_nr"); ("long", "nr"); ("struct io_event *", "events"); ("struct __kernel_timespec *", "timeout"); ("const struct __aio_sigset *", "sig")];
  mk_sig 417 "recvmmsg_time64" 5 [("int", "fd"); ("struct compat_mmsghdr *", "mmsg"); ("unsigned int", "vlen"); ("unsigned int", "flags"); ("struct __kernel_timespec *", "timeout")];
  mk_sig 418 "mq_timedsend_time64" 5 [("mqd_t", "mqdes"); ("const char *", "msg_ptr"); ("size_t", "msg_len"); ("unsigned int", "msg_prio"); ("const struct __kernel_timespec *", "abs_timeout")];
  mk_sig 419 "mq_timedreceive_time64" 5 [("mqd_t", "mqdes"); ("char *", "msg_ptr"); ("size_t", "msg_len"); ("unsigned int *", "msg_prio"); ("const struct __kernel_timespec *", "abs_timeout")];
  mk_sig 420 "semtimedop_time64" 4 [("int", "semid"); ("struct sembuf *", "sops"); ("unsigned", "nsops"); ("const struct __kernel_timespec *", "timeout")];
  mk_sig 421 "rt_sigtimedwait_time64" 4 [("const sigset_t *", "uthese"); ("siginfo_t *", "uinfo"); ("const struct __kernel_timespec *", "uts"); ("size_t", "sigsetsize")];
  mk_sig 422 "futex_time64" 6 [("u32 *", "uaddr"); ("int", "op"); ("u32", "val"); ("const struct __kernel_timespec *", "utime"); ("u32 *", "uaddr2"); ("u32", "val3")];
  mk_sig 423 "sched_rr_get_interval_time64" 2 [("pid_t", "pid"); ("struct __kernel_timespec *", "interval")];
  mk_sig 424 "pidfd_send_signal" 4 [("int", "pidfd"); ("int", "sig"); ("siginfo_t *", "info"); ("unsigned int", "flags")];
  mk_sig 425 "io_uring_setup" 2 [("u32", "entries"); ("struct io_uring_params *", "params")];
  mk_sig 426 "io_uring_enter" 6 [("unsigned int", "fd"); ("u32", "to_submit"); ("u32", "min_complete"); ("u32", "flags"); ("const void *", "argp"); ("size_t", "argsz")];
  mk_sig 427 "io_uring_register" 4 [("unsigned int", "fd"); ("unsigned int", "opcode"); ("void *", "arg"); ("unsigned int", "nr_args")];
  mk_sig 428 "open_tree" 3 [("int", "dfd"); ("const char *", "filename"); ("unsigned", "flags")];
  mk_sig 429 "move_mount" 5 [("int", "from_dfd"); ("const char *", "from_pathname"); ("int", "to_dfd"); ("const char *", "to_pathname"); ("unsigned int", "flags")];
  mk_sig 430 "fsopen" 2 [("const char *", "_fs_name"); ("unsigned int", "flags")];
  mk_sig 431 "fsconfig" 5 [("int", "fd"); ("unsigned int", "cmd"); ("const char *", "_key"); ("const void *", "_value"); ("int", "aux")];
  mk_sig 432 "fsmount" 3 [("int", "fs_fd"); ("unsigned int", "flags"); ("unsigned int", "attr_flags")];
  mk_sig 433 "fspick" 3 [("int", "dfd"); ("const char *", "path"); ("unsigned int", "flags")];
  mk_sig 434 "pidfd_open" 2 [("pid_t", "pid"); ("unsigned int", "flags")];
  mk_sig 435 "clone3" 2 [("struct clone_args *", "uargs"); ("size_t", "size")];
  mk_sig 436 "close_range" 3 [("unsigned int", "fd"); ("unsigned int", "max_fd"); ("unsigned int", "flags")];
  mk_sig 437 "openat2" 4 [("int", "dfd"); ("const char *", "filename"); ("struct open_how *", "how"); ("size_t", "usize")];
  mk_sig 438 "pidfd_getfd" 3 [("int", "pidfd"); ("int", "fd"); ("unsigned int", "flags")];
  mk_sig 439 "faccessat2" 4 [("int", "dfd"); ("const char *", "filename"); ("int", "mode"); ("int", "flags")];
  mk_sig 440 "process_madvise" 5 [("int", "pidfd"); ("const struct iovec *", "vec"); ("size_t", "vlen"); ("int", "behavior"); ("unsigned int", "flags")];
  mk_sig 441 "epoll_pwait2" 6 [("int", "epfd"); ("struct epoll_event *", "events"); ("int", "maxevents"); ("const struct __kernel_timespec *", "timeout"); ("const sigset_t *", "sigmask"); ("size_t", "sigsetsize")];
  mk_sig 442 "mount_setattr" 5 [("int", "dfd"); ("const char *", "path"); ("unsigned int", "flags"); ("struct mount_attr *", "uattr"); ("size_t", "usize")];
  mk_sig 443 "quotactl_fd" 4 [("unsigned int", "fd"); ("unsigned int", "cmd"); ("qid_t", "id"); ("void *", "addr")];
  mk_sig 444 "landlock_create_ruleset" 3 [("const struct landlock_ruleset_attr *const", "attr"); ("const size_t", "size"); ("const __u32", "flags")];
  mk_sig 445 "landlock_add_rule" 4 [("const int", "ruleset_fd"); ("const enum landlock_rule_type", "rule_type"); ("const void *const", "rule_attr"); ("const __u32", "flags")];
  mk_sig 446 "landlock_restrict_self" 2 [("const int", "ruleset_fd"); ("const __u32", "flags")];
  mk_sig 448 "process_mrelease" 2 [("int", "pidfd"); ("unsigned int", "flags")];
  mk_sig 449 "futex_waitv" 5 [("struct futex_waitv *", "waiters"); ("unsigned int", "nr_futexes"); ("unsigned int", "flags"); ("struct __kernel_timespec *", "timeout"); ("clockid_t", "clockid")];
  mk_sig 450 "set_mempolicy_home_node" 4 [("unsigned long", "start"); ("unsigned long", "len"); ("unsigned long", "home_node"); ("unsigned long", "flags")];
  mk_sig 451 "cachestat" 4 [("unsigned int", "fd"); ("struct cachestat_range *", "cstat_range"); ("struct cachestat *", "cstat"); ("unsigned int", "flags")];
  mk_sig 452 "fchmodat2" 4 [("int", "dfd"); ("const char *", "filename"); ("umode_t", "mode"); ("unsigned int", "flags")];
  mk_sig 453 "map_shadow_stack" 3 [("unsigned long", "addr"); ("unsigned long", "size"); ("unsigned int", "flags")];
  mk_sig 454 "futex_wake" 4 [("void *", "uaddr"); ("unsigned long", "mask"); ("int", "nr"); ("unsigned int", "flags")];
  mk_sig 455 "futex_wait" 6 [("void *", "uaddr"); ("unsigned long", "val"); ("unsigned long", "mask"); ("unsigned int", "flags"); ("struct __kernel_timespec *", "timeout"); ("clockid_t", "clockid")];
  mk_sig 456 "futex_requeue" 4 [("struct futex_waitv *", "waiters"); ("unsigned int", "flags"); ("int", "nr_wake"); ("int", "nr_requeue")];
  mk_sig 457 "statmount" 4 [("const struct mnt_id_req *", "req"); ("struct statmount *", "buf"); ("size_t", "bufsize"); ("unsigned int", "flags")];
  mk_sig 458 "listmount" 4 [("const struct mnt_id_req *", "req"); ("u64 *", "mnt_ids"); ("size_t", "nr_mnt_ids"); ("unsigned int", "flags")];
  mk_sig 459 "lsm_get_self_attr" 4 [("unsigned int", "attr"); ("struct lsm_ctx *", "ctx"); ("u32 *", "size"); ("u32", "flags")];
  mk_sig 460 "lsm_set_self_attr" 4 [("unsigned int", "attr"); ("struct lsm_ctx *", "ctx"); ("u32", "size"); ("u32", "flags")];
  mk_sig 461 "lsm_list_modules" 3 [("u64 *", "ids"); ("u32 *", "size"); ("u32", "flags")];
  mk_sig 462 "mseal" 3 [("unsigned long", "start"); ("size_t", "len"); ("unsigned long", "flags")]
].
Definition arm_native_4 : list LinuxSyscallSignature := [
  mk_sig 463 "setxattrat" 6 [("int", "dfd"); ("const char *", "pathname"); ("unsigned int", "at_flags"); ("const char *", "name"); ("const struct xattr_args *", "uargs"); ("size_t", "usize")];
  mk_sig 464 "getxattrat" 6 [("int", "dfd"); ("const char *", "pathname"); ("unsigned int", "at_flags"); ("const char *", "name"); ("struct xattr_args *", "uargs"); ("size_t", "usize")];
  mk_sig 465 "listxattrat" 5 [("int", "dfd"); ("const char *", "pathname"); ("unsigned int", "at_flags"); ("char *", "list"); ("size_t", "size")];
  mk_sig 466 "removexattrat" 4 [("int", "dfd"); ("const char *", "pathname"); ("unsigned int", "at_flags"); ("const char *", "name")];
  mk_sig 467 "open_tree_attr" 5 [("int", "dfd"); ("const char *", "filename"); ("unsigned", "flags"); ("struct mount_attr *", "uattr"); ("size_t", "usize")];
  mk_sig 468 "file_getattr" 5 [("int", "dfd"); ("const char *", "filename"); ("struct file_attr *", "ufattr"); ("size_t", "usize"); ("unsigned int", "at_flags")];
  mk_sig 469 "file_setattr" 5 [("int", "dfd"); ("const char *", "filename"); ("struct file_attr *", "ufattr"); ("size_t", "usize"); ("unsigned int", "at_flags")];
  mk_sig 470 "listns" 4 [("const struct ns_id_req *", "req"); ("u64 *", "ns_ids"); ("size_t", "nr_ns_ids"); ("unsigned int", "flags")]
].
Definition arm_frida_syscall_signatures : list LinuxSyscallSignature :=
  arm_native_1 ++ arm_native_2 ++ arm_native_3 ++ arm_native_4.

#[local] Close Scope string_scope.

(** frida-linux-syscalls.h of this build. *)
Definition arm_numbers : SyscallNumbers := {|
  n_OPENAT := 322; n_FACCESSAT := 334; n_STATFS := 99; n_READLINKAT := 332; n_NEWFSTATAT := None;
  n_STATX := 397; n_FSTATFS := 100; n_FSTAT := 108; n_STATMOUNT := 457; n_RENAME := Some 38;
  n_RENAMEAT := Some 329; n_RENAMEAT2 := 382; n_LINK := Some 9; n_LINKAT := 330;
  n_SYMLINK := Some 83; n_SYMLINKAT := 331; n_MOUNT := 21; n_NANOSLEEP := 162;
  n_CLOCK_NANOSLEEP := 265; n_CONNECT := 283; n_BIND := 282; n_SENDTO := 290;
  n_ACCEPT := Some 285; n_ACCEPT4 := 366; n_GETSOCKNAME := 286; n_GETPEERNAME := 287;
  n_RECVFROM := 292; tif_compat32 := None
|}.
