(* ===== verification/Architectures.v ===== *)
(** The architectures whose tables are modelled: the numbers the tracer compares
    with, and the signatures the reader looks calls up in.  Machines are little
    endian. *)
From S2P Require Import Prelude Tracer TracerReader SyscallsX86 SyscallsArm64 SyscallsArm.

Inductive arch := X86_64 | Arm64 | Arm.
Definition numbers_of (a : arch) : SyscallNumbers :=
  match a with X86_64 => x86_64_numbers | Arm64 => arm64_numbers | Arm => arm_numbers end.

Definition frida_get_syscall_signatures (a : arch) : list LinuxSyscallSignature :=
  match a with
  | X86_64 => x86_64_frida_syscall_signatures
  | Arm64 => arm64_frida_syscall_signatures
  | Arm => arm_frida_syscall_signatures
  end.
(** NULL on 32-bit machines. *)
Definition frida_get_compat32_syscall_signatures (a : arch) : list LinuxSyscallSignature :=
  match a with
  | X86_64 => x86_64_frida_compat32_syscall_signatures
  | Arm64 => arm64_frida_compat32_syscall_signatures
  | Arm => []
  end.

(** The rows are sorted by number, describe all their arguments, and no call has
    more than six. *)
Definition row_ok (s : LinuxSyscallSignature) : bool :=
  (zlen (sig_args s) =? sig_nargs s) && (sig_nargs s <=? SYSCALL_NARGS).
Fixpoint increasing (l : list Z) : bool :=
  match l with
  | x :: (y :: _) as r => (x <? y) && increasing r
  | _ => true
  end.
Definition table_ok (sigs : list LinuxSyscallSignature) : bool :=
  forallb row_ok sigs && increasing (sig_nr <$> sigs).

Lemma tables_ok a :
  table_ok (frida_get_syscall_signatures a) = true ∧
  table_ok (frida_get_compat32_syscall_signatures a) = true.
Proof. destruct a; split; vm_compute; reflexivity. Qed.

(** ** The search in a sorted table *)
Lemma increasing_cons x l : increasing (x :: l) = true → increasing l = true ∧ ∀ y, y ∈ l → x < y.
Proof.
  revert x. induction l as [|y l IH]; intros x Hl.
  { split; [done|]. intros y Hy. by apply elem_of_nil in Hy. }
  cbn [increasing] in Hl. apply andb_prop in Hl as [Hxy%Z.ltb_lt Hl]. split; [done|].
  intros z [->|Hz]%elem_of_cons; [done|]. pose proof (proj2 (IH _ Hl) z Hz). lia.
Qed.
Lemma increasing_lookup l i j x y :
  increasing l = true → l !! i = Some x → l !! j = Some y → (i < j)%nat → x < y.
Proof.
  revert i j. induction l as [|z l IH]; intros [|i] [|j] Hl Hi Hj Hij; try (done || lia);
    destruct (increasing_cons _ _ Hl) as [Hl' Hz]; cbn in *.
  - injection Hi as <-. apply Hz. by eapply list_elem_of_lookup_2.
  - apply (IH i j); [done..|lia].
Qed.
Lemma rows_increasing sigs i j s r :
  increasing (sig_nr <$> sigs) = true → sigs !! i = Some s → sigs !! j = Some r → (i < j)%nat →
  sig_nr s < sig_nr r.
Proof.
  intros Hs Hi Hj Hij. apply (increasing_lookup (sig_nr <$> sigs) i j); [done| | |done].
  - by rewrite list_lookup_fmap, Hi.
  - by rewrite list_lookup_fmap, Hj.
Qed.

(** With a step more than the interval is wide the search finds the row [i] of
    [nr] if the interval has it, and stops without a result otherwise. *)
Lemma sig_search_finds fuel sigs nr lo hi i s :
  increasing (sig_nr <$> sigs) = true → sigs !! i = Some s → sig_nr s = nr →
  (lo ≤ i < hi)%nat → (hi ≤ length sigs)%nat → (hi - lo < fuel)%nat →
  sig_search fuel sigs nr lo hi = Some s.
Proof.
  intros Hs Hi Hn. revert lo hi. induction fuel as [|fuel IH]; intros lo hi Hb Hl Hf; [lia|].
  cbn [sig_search]. rewrite (proj2 (Nat.ltb_lt lo hi)) by lia.
  assert ((hi - lo) / 2 < hi - lo)%nat as Hm by (apply Nat.div_lt; lia).
  set (mid := (lo + (hi - lo) / 2)%nat) in *.
  destruct (sigs !! mid) as [r|] eqn:Hr; [|apply lookup_ge_None in Hr; lia].
  destruct (Nat.lt_trichotomy mid i) as [Hlt|[->|Hgt]].
  - pose proof (rows_increasing _ _ _ _ _ Hs Hr Hi Hlt).
    rewrite (proj2 (Z.eqb_neq _ _)), (proj2 (Z.ltb_lt _ _)) by lia. apply IH; lia.
  - rewrite Hi in Hr. injection Hr as <-. by rewrite Hn, Z.eqb_refl.
  - pose proof (rows_increasing _ _ _ _ _ Hs Hi Hr Hgt).
    rewrite (proj2 (Z.eqb_neq _ _)), (proj2 (Z.ltb_ge _ _)) by lia. apply IH; lia.
Qed.
Lemma sig_search_sound fuel sigs nr lo hi s :
  sig_search fuel sigs nr lo hi = Some s → s ∈ sigs ∧ sig_nr s = nr.
Proof.
  revert lo hi. induction fuel as [|fuel IH]; intros lo hi; [done|]. cbn [sig_search].
  destruct (lo <? hi)%nat; [|done]. cbv zeta.
  destruct (sigs !! _) as [r|] eqn:Hr; [|done]. destruct (Z.eqb_spec (sig_nr r) nr).
  - intros [= <-]. split; [by eapply list_elem_of_lookup_2|done].
  - by destruct (sig_nr r <? nr); apply IH.
Qed.
Lemma find_sig_spec sigs nr s :
  table_ok sigs = true → 0 ≤ nr → find_sig_by_nr sigs nr = Some s ↔ s ∈ sigs ∧ sig_nr s = nr.
Proof.
  intros [_ Hs]%andb_prop Hn. unfold find_sig_by_nr.
  rewrite (proj2 (Z.ltb_ge _ _) Hn). split; [apply sig_search_sound|].
  intros [[i Hi]%list_elem_of_lookup_1 Hnr].
  pose proof (lookup_lt_Some _ _ _ Hi). apply (sig_search_finds _ _ _ _ _ i); [done..|lia|lia|lia].
Qed.

Lemma numbers_distinct a : n_STATFS (numbers_of a) ≠ n_READLINKAT (numbers_of a).
Proof. by destruct a. Qed.

Notation native_sig a nr := (find_sig_by_nr (frida_get_syscall_signatures a) nr).
Notation compat32_sig a nr := (find_sig_by_nr (frida_get_compat32_syscall_signatures a) nr).

(** The reader looks a call up by binary search, and finds exactly the row with
    its number, in every table: the search neither misses a row nor returns
    another one, and calls without a row are reported as unknown. *)
Theorem signature_found a nr s :
  (native_sig a nr = Some s ↔ s ∈ frida_get_syscall_signatures a ∧ sig_nr s = nr ∧ 0 ≤ nr) ∧
  (compat32_sig a nr = Some s ↔ s ∈ frida_get_compat32_syscall_signatures a ∧ sig_nr s = nr ∧ 0 ≤ nr).
Proof.
  destruct (tables_ok a) as [Hn Hc]. destruct (Z.ltb_spec nr 0) as [Hneg|Hpos].
  - assert (∀ sigs, find_sig_by_nr sigs nr = None) as E
      by (intros sigs; unfold find_sig_by_nr; by rewrite (proj2 (Z.ltb_lt _ _) Hneg)).
    rewrite !E. split; (split; [done|intros (_ & _ & ?); lia]).
  - rewrite !find_sig_spec by done. tauto.
Qed.
