(* ===== verification/SyscallsOther.v ===== *)
(** The signature tables of 32-bit x86, MIPS, 64-bit MIPS and s390x, row by row, from
    src/lib/base/linux-syscalls/, and the search in the tables of every architecture. *)
From S2P Require Import Prelude Tracer TracerReader Architectures.
#[local] Open Scope string_scope.

Definition x86_native_1 : list LinuxSyscallSignature := [
  mk_sig 0 "restart_syscall" 0 [];
  mk_sig 1 "exit" 1 [("int", "error_code")];
  mk_sig 2 "fork" 0 [];
  mk_sig 3 "read" 3 [("unsigned int", "fd"); ("char *", "buf"); ("size_t", "count")];
  mk_sig 4 "write" 3 [("unsigned int", "fd"); ("const char *", "buf"); ("size_t", "count")];
  mk_sig 5 "open" 3 [("const char *", "filename"); ("int", "flags"); ("umode_t", "mode")];
  mk_sig 6 "close" 1 [("unsigned int", "fd")];
  mk_sig 7 "waitpid" 3 [("pid_t", "pid"); ("int *", "stat_addr"); ("int", "options")];
  mk_sig 8 "creat" 2 [("const char *", "pathname"); ("umode_t", "mode")];
  mk_sig 9 "link" 2 [("const char *", "oldname"); ("const char *", "newname")];
  mk_sig 10 "unlink" 1 [("const char *", "pathname")];
  mk_sig 11 "execve" 3 [("const char *", "filename"); ("const char *const *", "argv"); ("const char *const *", "envp")];
  mk_sig 12 "chdir" 1 [("const char *", "filename")];
  mk_sig 13 "time" 1 [("__kernel_old_time_t *", "tloc")];
  mk_sig 14 "mknod" 3 [("const char *", "filename"); ("umode_t", "mode"); ("unsigned", "dev")];
  mk_sig 15 "chmod" 2 [("const char *", "filename"); ("umode_t", "mode")];
  mk_sig 16 "lchown" 3 [("const char *", "filename"); ("uid_t", "user"); ("gid_t", "group")];
  mk_sig 18 "oldstat" 2 [("const char *", "filename"); ("struct __old_kernel_stat *", "statbuf")];
  mk_sig 19 "lseek" 3 [("unsigned int", "fd"); ("off_t", "offset"); ("unsigned int", "whence")];
  mk_sig 20 "getpid" 0 [];
  mk_sig 21 "mount" 5 [("char *", "dev_name"); ("char *", "dir_name"); ("char *", "type"); ("unsigned long", "flags"); ("void *", "data")];
  mk_sig 22 "umount" 2 [("char *", "name"); ("int", "flags")];
  mk_sig 23 "setuid" 1 [("uid_t", "uid")];
  mk_sig 24 "getuid" 0 [];
  mk_sig 25 "stime" 1 [("__kernel_old_time_t *", "tptr")];
  mk_sig 26 "ptrace" 4 [("long", "request"); ("long", "pid"); ("unsigned long", "addr"); ("unsigned long", "data")];
  mk_sig 27 "alarm" 1 [("unsigned int", "seconds")];
  mk_sig 28 "oldfstat" 2 [("unsigned int", "fd"); ("struct __old_kernel_stat *", "statbuf")];
  mk_sig 29 "pause" 0 [];
  mk_sig 30 "utime" 2 [("char *", "filename"); ("struct utimbuf *", "times")];
  mk_sig 33 "access" 2 [("const char *", "filename"); ("int", "mode")];
  mk_sig 34 "nice" 1 [("int", "increment")];
  mk_sig 36 "sync" 0 [];
  mk_sig 37 "kill" 2 [("pid_t", "pid"); ("int", "sig")];
  mk_sig 38 "rename" 2 [("const char *", "oldname"); ("const char *", "newname")];
  mk_sig 39 "mkdir" 2 [("const char *", "pathname"); ("umode_t", "mode")];
  mk_sig 40 "rmdir" 1 [("const char *", "pathname")];
  mk_sig 41 "dup" 1 [("unsigned int", "fildes")];
  mk_sig 42 "pipe" 1 [("int *", "fildes")];
  mk_sig 43 "times" 1 [("struct tms *", "tbuf")];
  mk_sig 45 "brk" 1 [("unsigned long", "brk")];
  mk_sig 46 "setgid" 1 [("gid_t", "gid")];
  mk_sig 47 "getgid" 0 [];
  mk_sig 48 "signal" 2 [("int", "sig"); ("__sighandler_t", "handler")];
  mk_sig 49 "geteuid" 0 [];
  mk_sig 50 "getegid" 0 [];
  mk_sig 51 "acct" 1 [("const char *", "name")];
  mk_sig 52 "umount2" 2 [("char *", "name"); ("int", "flags")];
  mk_sig 54 "ioctl" 3 [("unsigned int", "fd"); ("unsigned int", "cmd"); ("unsigned long", "arg")];
  mk_sig 55 "fcntl" 3 [("unsigned int", "fd"); ("unsigned int", "cmd"); ("unsigned long", "arg")];
  mk_sig 57 "setpgid" 2 [("pid_t", "pid"); ("pid_t", "pgid")];
  mk_sig 59 "oldolduname" 1 [("struct oldold_utsname *", "arg0")];
  mk_sig 60 "umask" 1 [("int", "mask")];
  mk_sig 61 "chroot" 1 [("const char *", "filename")];
  mk_sig 62 "ustat" 2 [("unsigned", "dev"); ("struct ustat *", "ubuf")];
  mk_sig 63 "dup2" 2 [("unsigned int", "oldfd"); ("unsigned int", "newfd")];
  mk_sig 64 "getppid" 0 [];
  mk_sig 65 "getpgrp" 0 [];
  mk_sig 66 "setsid" 0 [];
  mk_sig 67 "sigaction" 3 [("int", "sig"); ("const struct old_sigaction *", "act"); ("struct old_sigaction *", "oact")];
  mk_sig 68 "sgetmask" 0 [];
  mk_sig 69 "ssetmask" 1 [("int", "newmask")];
  mk_sig 70 "setreuid" 2 [("uid_t", "ruid"); ("uid_t", "euid")];
  mk_sig 71 "setregid" 2 [("gid_t", "rgid"); ("gid_t", "egid")];
  mk_sig 72 "sigsuspend" 3 [("int", "unused1"); ("int", "unused2"); ("old_sigset_t", "mask")];
  mk_sig 73 "sigpending" 1 [("old_sigset_t *", "uset")];
  mk_sig 74 "sethostname" 2 [("char *", "name"); ("int", "len")];
  mk_sig 75 "setrlimit" 2 [("unsigned int", "resource"); ("struct rlimit *", "rlim")];
  mk_sig 76 "getrlimit" 2 [("unsigned int", "resource"); ("struct rlimit *", "rlim")];
  mk_sig 77 "getrusage" 2 [("int", "who"); ("struct rusage *", "ru")];
  mk_sig 78 "gettimeofday" 2 [("struct __kernel_old_timeval *", "tv"); ("struct timezone *", "tz")];
  mk_sig 79 "settimeofday" 2 [("struct __kernel_old_timeval *", "tv"); ("struct timezone *", "tz")];
  mk_sig 80 "getgroups" 2 [("int", "gidsetsize"); ("gid_t *", "grouplist")];
  mk_sig 81 "setgroups" 2 [("int", "gidsetsize"); ("gid_t *", "grouplist")];
  mk_sig 82 "select" 5 [("int", "n"); ("fd_set *", "inp"); ("fd_set *", "outp"); ("fd_set *", "exp"); ("struct __kernel_old_timeval *", "tvp")];
  mk_sig 83 "symlink" 2 [("const char *", "oldname"); ("const char *", "newname")];
  mk_sig 84 "oldlstat" 2 [("const char *", "filename"); ("struct __old_kernel_stat *", "statbuf")];
  mk_sig 85 "readlink" 3 [("const char *", "path"); ("char *", "buf"); ("int", "bufsiz")];
  mk_sig 86 "uselib" 1 [("const char *", "library")];
  mk_sig 87 "swapon" 2 [("const char *", "specialfile"); ("int", "swap_flags")];
  mk_sig 88 "reboot" 4 [("int", "magic1"); ("int", "magic2"); ("unsigned int", "cmd"); ("void *", "arg")];
  mk_sig 89 "readdir" 3 [("unsigned", "int"); ("struct old_linux_dirent *", "arg1"); ("unsigned", "int")];
  mk_sig 90 "mmap" 6 [("unsigned long", "addr"); ("unsigned long", "len"); ("unsigned long", "prot"); ("unsigned long", "flags"); ("unsigned long", "fd"); ("unsigned long", "off")];
  mk_sig 91 "munmap" 2 [("unsigned long", "addr"); ("size_t", "len")];
  mk_sig 92 "truncate" 2 [("const char *", "path"); ("long", "length")];
  mk_sig 93 "ftruncate" 2 [("unsigned int", "fd"); ("off_t", "length")];
  mk_sig 94 "fchmod" 2 [("unsigned int", "fd"); ("umode_t", "mode")];
  mk_sig 95 "fchown" 3 [("unsigned int", "fd"); ("uid_t", "user"); ("gid_t", "group")];
  mk_sig 96 "getpriority" 2 [("int", "which"); ("int", "who")];
  mk_sig 97 "setpriority" 3 [("int", "which"); ("int", "who"); ("int", "niceval")];
  mk_sig 99 "statfs" 2 [("const char *", "pathname"); ("struct statfs *", "buf")];
  mk_sig 100 "fstatfs" 2 [("unsigned int", "fd"); ("struct statfs *", "buf")];
  mk_sig 101 "ioperm" 3 [("unsigned long", "from"); ("unsigned long", "num"); ("int", "turn_on")];
  mk_sig 102 "socketcall" 2 [("int", "call"); ("unsigned long *", "args")];
  mk_sig 103 "syslog" 3 [("int", "type"); ("char *", "buf"); ("int", "len")];
  mk_sig 104 "setitimer" 3 [("int", "which"); ("struct __kernel_old_itimerval *", "value"); ("struct __kernel_old_itimerval *", "ovalue")];
  mk_sig 105 "getitimer" 2 [("int", "which"); ("struct __kernel_old_itimerval *", "value")];
  mk_sig 106 "stat" 2 [("const char *", "filename"); ("struct __old_kernel_stat *", "statbuf")];
  mk_sig 107 "lstat" 2 [("const char *", "filename"); ("struct __old_kernel_stat *", "statbuf")];
  mk_sig 108 "fstat" 2 [("unsigned int", "fd"); ("struct __old_kernel_stat *", "statbuf")];
  mk_sig 109 "olduname" 1 [("struct oldold_utsname *", "name")];
  mk_sig 110 "iopl" 1 [("unsigned int", "level")];
  mk_sig 111 "vhangup" 0 [];
  mk_sig 113 "vm86old" 1 [("struct vm86_struct *", "user_vm86")];
  mk_sig 114 "wait4" 4 [("pid_t", "upid"); ("int *", "stat_addr"); ("int", "options"); ("struct rusage *", "ru")];
  mk_sig 115 "swapoff" 1 [("const char *", "specialfile")];
  mk_sig 116 "sysinfo" 1 [("struct sysinfo *", "info")];
  mk_sig 117 "ipc" 6 [("unsigned int", "call"); ("int", "first"); ("unsigned long", "second"); ("unsigned long", "third"); ("void *", "ptr"); ("long", "fifth")];
  mk_sig 118 "fsync" 1 [("unsigned int", "fd")];
  mk_sig 120 "clone" 5 [("unsigned long", "clone_flags"); ("unsigned long", "newsp"); ("int *", "parent_tidptr"); ("int *", "child_tidptr"); ("unsigned long", "tls")];
  mk_sig 121 "setdomainname" 2 [("char *", "name"); ("int", "len")];
  mk_sig 122 "uname" 1 [("struct old_utsname *", "name")];
  mk_sig 123 "modify_ldt" 3 [("int", "func"); ("void *", "ptr"); ("unsigned long", "bytecount")];
  mk_sig 124 "adjtimex" 1 [("struct old_timex32 *", "txc_p")];
  mk_sig 125 "mprotect" 3 [("unsigned long", "start"); ("size_t", "len"); ("unsigned long", "prot")];
  mk_sig 126 "sigprocmask" 3 [("int", "how"); ("old_sigset_t *", "nset"); ("old_sigset_t *", "oset")];
  mk_sig 128 "init_module" 3 [("void *", "umod"); ("unsigned long", "len"); ("const char *", "uargs")];
  mk_sig 129 "delete_module" 2 [("const char *", "name_user"); ("unsigned int", "flags")];
  mk_sig 131 "quotactl" 4 [("unsigned int", "cmd"); ("const char *", "special"); ("qid_t", "id"); ("void *", "addr")];
  mk_sig 132 "getpgid" 1 [("pid_t", "pid")];
  mk_sig 133 "fchdir" 1 [("unsigned int", "fd")];
  mk_sig 134 "bdflush" 0 [];
  mk_sig 135 "sysfs" 3 [("int", "option"); ("unsigned long", "arg1"); ("unsigned long", "arg2")];
  mk_sig 136 "personality" 1 [("unsigned int", "personality")];
  mk_sig 138 "setfsuid" 1 [("uid_t", "uid")];
  mk_sig 139 "setfsgid" 1 [("gid_t", "gid")];
  mk_sig 140 "_llseek" 5 [("unsigned int", "fd"); ("unsigned long", "offset_high"); ("unsigned long", "offset_low"); ("loff_t *", "result"); ("unsigned int", "whence")];
  mk_sig 141 "getdents" 3 [("unsigned int", "fd"); ("struct linux_dirent *", "dirent"); ("unsigned int", "count")];
  mk_sig 142 "_newselect" 5 [("int", "n"); ("fd_set *", "inp"); ("fd_set *", "outp"); ("fd_set *", "exp"); ("struct __kernel_old_timeval *", "tvp")];
  mk_sig 143 "flock" 2 [("unsigned int", "fd"); ("unsigned int", "cmd")];
  mk_sig 144 "msync" 3 [("unsigned long", "start"); ("size_t", "len"); ("int", "flags")];
  mk_sig 145 "readv" 3 [("unsigned long", "fd"); ("const struct iovec *", "vec"); ("unsigned long", "vlen")];
  mk_sig 146 "writev" 3 [("unsigned long", "fd"); ("const struct iovec *", "vec"); ("unsigned long", "vlen")];
  mk_sig 147 "getsid" 1 [("pid_t", "pid")];
  mk_sig 148 "fdatasync" 1 [("unsigned int", "fd")];
  mk_sig 149 "_sysctl" 0 [];
  mk_sig 150 "mlock" 2 [("unsigned long", "start"); ("size_t", "len")];
  mk_sig 151 "munlock" 2 [("unsigned long", "start"); ("size_t", "len")];
  mk_sig 152 "mlockall" 1 [("int", "flags")];
  mk_sig 153 "munlockall" 0 []
].
Definition x86_native_2 : list LinuxSyscallSignature := [
  mk_sig 154 "sched_setparam" 2 [("pid_t", "pid"); ("struct sched_param *", "param")];
  mk_sig 155 "sched_getparam" 2 [("pid_t", "pid"); ("struct sched_param *", "param")];
  mk_sig 156 "sched_setscheduler" 3 [("pid_t", "pid"); ("int", "policy"); ("struct sched_param *", "param")];
  mk_sig 157 "sched_getscheduler" 1 [("pid_t", "pid")];
  mk_sig 158 "sched_yield" 0 [];
  mk_sig 159 "sched_get_priority_max" 1 [("int", "policy")];
  mk_sig 160 "sched_get_priority_min" 1 [("int", "policy")];
  mk_sig 161 "sched_rr_get_interval" 2 [("pid_t", "pid"); ("struct __kernel_timespec *", "interval")];
  mk_sig 162 "nanosleep" 2 [("struct old_timespec32 *", "rqtp"); ("struct old_timespec32 *", "rmtp")];
  mk_sig 163 "mremap" 5 [("unsigned long", "addr"); ("unsigned long", "old_len"); ("unsigned long", "new_len"); ("unsigned long", "flags"); ("unsigned long", "new_addr")];
  mk_sig 164 "setresuid" 3 [("uid_t", "ruid"); ("uid_t", "euid"); ("uid_t", "suid")];
  mk_sig 165 "getresuid" 3 [("uid_t *", "ruidp"); ("uid_t *", "euidp"); ("uid_t *", "suidp")];
  mk_sig 166 "vm86" 2 [("unsigned long", "cmd"); ("unsigned long", "arg")];
  mk_sig 168 "poll" 3 [("struct pollfd *", "ufds"); ("unsigned int", "nfds"); ("int", "timeout_msecs")];
  mk_sig 170 "setresgid" 3 [("gid_t", "rgid"); ("gid_t", "egid"); ("gid_t", "sgid")];
  mk_sig 171 "getresgid" 3 [("gid_t *", "rgidp"); ("gid_t *", "egidp"); ("gid_t *", "sgidp")];
  mk_sig 172 "prctl" 5 [("int", "option"); ("unsigned long", "arg2"); ("unsigned long", "arg3"); ("unsigned long", "arg4"); ("unsigned long", "arg5")];
  mk_sig 173 "rt_sigreturn" 0 [];
  mk_sig 174 "rt_sigaction" 4 [("int", "sig"); ("const struct sigaction *", "act"); ("struct sigaction *", "oact"); ("size_t", "sigsetsize")];
  mk_sig 175 "rt_sigprocmask" 4 [("int", "how"); ("sigset_t *", "nset"); ("sigset_t *", "oset"); ("size_t", "sigsetsize")];
  mk_sig 176 "rt_sigpending" 2 [("sigset_t *", "uset"); ("size_t", "sigsetsize")];
  mk_sig 177 "rt_sigtimedwait" 4 [("const sigset_t *", "uthese"); ("siginfo_t *", "uinfo"); ("const struct __kernel_timespec *", "uts"); ("size_t", "sigsetsize")];
  mk_sig 178 "rt_sigqueueinfo" 3 [("pid_t", "pid"); ("int", "sig"); ("siginfo_t *", "uinfo")];
  mk_sig 179 "rt_sigsuspend" 2 [("sigset_t *", "unewset"); ("size_t", "sigsetsize")];
  mk_sig 180 "pread64" 4 [("unsigned int", "fd"); ("char *", "buf"); ("size_t", "count"); ("loff_t", "pos")];
  mk_sig 181 "pwrite64" 4 [("unsigned int", "fd"); ("const char *", "buf"); ("size_t", "count"); ("loff_t", "pos")];
  mk_sig 182 "chown" 3 [("const char *", "filename"); ("uid_t", "user"); ("gid_t", "group")];
  mk_sig 183 "getcwd" 2 [("char *", "buf"); ("unsigned long", "size")];
  mk_sig 184 "capget" 2 [("cap_user_header_t", "header"); ("cap_user_data_t", "dataptr")];
  mk_sig 185 "capset" 2 [("cap_user_header_t", "header"); ("const cap_user_data_t", "data")];
  mk_sig 186 "sigaltstack" 2 [("const stack_t *", "uss"); ("stack_t *", "uoss")];
  mk_sig 187 "sendfile" 4 [("int", "out_fd"); ("int", "in_fd"); ("off_t *", "offset"); ("size_t", "count")];
  mk_sig 190 "vfork" 0 [];
  mk_sig 191 "ugetrlimit" 2 [("unsigned int", "resource"); ("struct rlimit *", "rlim")];
  mk_sig 192 "mmap2" 6 [("unsigned long", "addr"); ("unsigned long", "len"); ("unsigned long", "prot"); ("unsigned long", "flags"); ("unsigned long", "fd"); ("unsigned long", "pgoff")];
  mk_sig 193 "truncate64" 2 [("const char *", "path"); ("loff_t", "length")];
  mk_sig 194 "ftruncate64" 2 [("unsigned int", "fd"); ("loff_t", "length")];
  mk_sig 198 "lchown32" 3 [("const char *", "filename"); ("uid_t", "user"); ("gid_t", "group")];
  mk_sig 199 "getuid32" 0 [];
  mk_sig 200 "getgid32" 0 [];
  mk_sig 201 "geteuid32" 0 [];
  mk_sig 202 "getegid32" 0 [];
  mk_sig 203 "setreuid32" 2 [("uid_t", "ruid"); ("uid_t", "euid")];
  mk_sig 204 "setregid32" 2 [("gid_t", "rgid"); ("gid_t", "egid")];
  mk_sig 205 "getgroups32" 2 [("int", "gidsetsize"); ("gid_t *", "grouplist")];
  mk_sig 206 "setgroups32" 2 [("int", "gidsetsize"); ("gid_t *", "grouplist")];
  mk_sig 207 "fchown32" 3 [("unsigned int", "fd"); ("uid_t", "user"); ("gid_t", "group")];
  mk_sig 208 "setresuid32" 3 [("uid_t", "ruid"); ("uid_t", "euid"); ("uid_t", "suid")];
  mk_sig 209 "getresuid32" 3 [("uid_t *", "ruid"); ("uid_t *", "euid"); ("uid_t *", "suid")];
  mk_sig 210 "setresgid32" 3 [("gid_t", "rgid"); ("gid_t", "egid"); ("gid_t", "sgid")];
  mk_sig 211 "getresgid32" 3 [("gid_t *", "rgid"); ("gid_t *", "egid"); ("gid_t *", "sgid")];
  mk_sig 212 "chown32" 3 [("const char *", "filename"); ("uid_t", "user"); ("gid_t", "group")];
  mk_sig 213 "setuid32" 1 [("uid_t", "uid")];
  mk_sig 214 "setgid32" 1 [("gid_t", "gid")];
  mk_sig 215 "setfsuid32" 1 [("uid_t", "uid")];
  mk_sig 216 "setfsgid32" 1 [("gid_t", "gid")];
  mk_sig 217 "pivot_root" 2 [("const char *", "new_root"); ("const char *", "put_old")];
  mk_sig 218 "mincore" 3 [("unsigned long", "start"); ("size_t", "len"); ("unsigned char *", "vec")];
  mk_sig 219 "madvise" 3 [("unsigned long", "start"); ("size_t", "len_in"); ("int", "behavior")];
  mk_sig 220 "getdents64" 3 [("unsigned int", "fd"); ("struct linux_dirent64 *", "dirent"); ("unsigned int", "count")];
  mk_sig 221 "fcntl64" 3 [("unsigned int", "fd"); ("unsigned int", "cmd"); ("unsigned long", "arg")];
  mk_sig 224 "gettid" 0 [];
  mk_sig 225 "readahead" 3 [("int", "fd"); ("loff_t", "offset"); ("size_t", "count")];
  mk_sig 226 "setxattr" 5 [("const char *", "pathname"); ("const char *", "name"); ("const void *", "value"); ("size_t", "size"); ("int", "flags")];
  mk_sig 227 "lsetxattr" 5 [("const char *", "pathname"); ("const char *", "name"); ("const void *", "value"); ("size_t", "size"); ("int", "flags")];
  mk_sig 228 "fsetxattr" 5 [("int", "fd"); ("const char *", "name"); ("const void *", "value"); ("size_t", "size"); ("int", "flags")];
  mk_sig 229 "getxattr" 4 [("const char *", "pathname"); ("const char *", "name"); ("void *", "value"); ("size_t", "size")];
  mk_sig 230 "lgetxattr" 4 [("const char *", "pathname"); ("const char *", "name"); ("void *", "value"); ("size_t", "size")];
  mk_sig 231 "fgetxattr" 4 [("int", "fd"); ("const char *", "name"); ("void *", "value"); ("size_t", "size")];
  mk_sig 232 "listxattr" 3 [("const char *", "pathname"); ("char *", "list"); ("size_t", "size")];
  mk_sig 233 "llistxattr" 3 [("const char *", "pathname"); ("char *", "list"); ("size_t", "size")];
  mk_sig 234 "flistxattr" 3 [("int", "fd"); ("char *", "list"); ("size_t", "size")];
  mk_sig 235 "removexattr" 2 [("const char *", "pathname"); ("const char *", "name")];
  mk_sig 236 "lremovexattr" 2 [("const char *", "pathname"); ("const char *", "name")];
  mk_sig 237 "fremovexattr" 2 [("int", "fd"); ("const char *", "name")];
  mk_sig 238 "tkill" 2 [("pid_t", "pid"); ("int", "sig")];
  mk_sig 239 "sendfile64" 4 [("int", "out_fd"); ("int", "in_fd"); ("loff_t *", "offset"); ("size_t", "count")];
  mk_sig 240 "futex" 6 [("u32 *", "uaddr"); ("int", "op"); ("u32", "val"); ("const struct __kernel_timespec *", "utime"); ("u32 *", "uaddr2"); ("u32", "val3")];
  mk_sig 241 "sched_setaffinity" 3 [("pid_t", "pid"); ("unsigned int", "len"); ("unsigned long *", "user_mask_ptr")];
  mk_sig 242 "sched_getaffinity" 3 [("pid_t", "pid"); ("unsigned int", "len"); ("unsigned long *", "user_mask_ptr")];
  mk_sig 243 "set_thread_area" 1 [("struct user_desc *", "user_desc")];
  mk_sig 244 "get_thread_area" 1 [("struct user_desc *", "user_desc")];
  mk_sig 245 "io_setup" 2 [("unsigned", "nr_events"); ("aio_context_t *", "ctxp")];
  mk_sig 246 "io_destroy" 1 [("aio_context_t", "ctx")];
  mk_sig 247 "io_getevents" 5 [("__u32", "ctx_id"); ("__s32", "min_nr"); ("__s32", "nr"); ("struct io_event *", "events"); ("struct old_timespec32 *", "timeout")];
  mk_sig 248 "io_submit" 3 [("aio_context_t", "ctx_id"); ("long", "nr"); ("struct iocb * *", "iocbpp")];
  mk_sig 249 "io_cancel" 3 [("aio_context_t", "ctx_id"); ("struct iocb *", "iocb"); ("struct io_event *", "result")];
  mk_sig 250 "fadvise64" 5 [("int", "fd"); ("unsigned int", "offset_lo"); ("unsigned int", "offset_hi"); ("size_t", "len"); ("int", "advice")];
  mk_sig 252 "exit_group" 1 [("int", "error_code")];
  mk_sig 254 "epoll_create" 1 [("int", "size")];
  mk_sig 255 "epoll_ctl" 4 [("int", "epfd"); ("int", "op"); ("int", "fd"); ("struct epoll_event *", "event")];
  mk_sig 256 "epoll_wait" 4 [("int", "epfd"); ("struct epoll_event *", "events"); ("int", "maxevents"); ("int", "timeout")];
  mk_sig 257 "remap_file_pages" 5 [("unsigned long", "start"); ("unsigned long", "size"); ("unsigned long", "prot"); ("unsigned long", "pgoff"); ("unsigned long", "flags")];
  mk_sig 258 "set_tid_address" 1 [("int *", "tidptr")];
  mk_sig 259 "timer_create" 3 [("const clockid_t", "which_clock"); ("struct sigevent *", "timer_event_spec"); ("timer_t *", "created_timer_id")];
  mk_sig 260 "timer_settime" 4 [("timer_t", "timer_id"); ("int", "flags"); ("const struct __kernel_itimerspec *", "new_setting"); ("struct __kernel_itimerspec *", "old_setting")];
  mk_sig 261 "timer_gettime" 2 [("timer_t", "timer_id"); ("struct __kernel_itimerspec *", "setting")];
  mk_sig 262 "timer_getoverrun" 1 [("timer_t", "timer_id")];
  mk_sig 263 "timer_delete" 1 [("timer_t", "timer_id")];
  mk_sig 264 "clock_settime" 2 [("const clockid_t", "which_clock"); ("const struct __kernel_timespec *", "tp")];
  mk_sig 265 "clock_gettime" 2 [("const clockid_t", "which_clock"); ("struct __kernel_timespec *", "tp")];
  mk_sig 266 "clock_getres" 2 [("const clockid_t", "which_clock"); ("struct __kernel_timespec *", "tp")];
  mk_sig 267 "clock_nanosleep" 4 [("const clockid_t", "which_clock"); ("int", "flags"); ("const struct __kernel_timespec *", "rqtp"); ("struct __kernel_timespec *", "rmtp")];
  mk_sig 268 "statfs64" 3 [("const char *", "pathname"); ("size_t", "sz"); ("struct statfs64 *", "buf")];
  mk_sig 269 "fstatfs64" 3 [("unsigned int", "fd"); ("size_t", "sz"); ("struct statfs64 *", "buf")];
  mk_sig 270 "tgkill" 3 [("pid_t", "tgid"); ("pid_t", "pid"); ("int", "sig")];
  mk_sig 271 "utimes" 2 [("char *", "filename"); ("struct __kernel_old_timeval *", "utimes")];
  mk_sig 272 "fadvise64_64" 6 [("int", "fd"); ("__u32", "offset_low"); ("__u32", "offset_high"); ("__u32", "len_low"); ("__u32", "len_high"); ("int", "advice")];
  mk_sig 274 "mbind" 6 [("unsigned long", "start"); ("unsigned long", "len"); ("unsigned long", "mode"); ("const unsigned long *", "nmask"); ("unsigned long", "maxnode"); ("unsigned int", "flags")];
  mk_sig 275 "get_mempolicy" 5 [("int *", "policy"); ("unsigned long *", "nmask"); ("unsigned long", "maxnode"); ("unsigned long", "addr"); ("unsigned long", "flags")];
  mk_sig 276 "set_mempolicy" 3 [("int", "mode"); ("const unsigned long *", "nmask"); ("unsigned long", "maxnode")];
  mk_sig 277 "mq_open" 4 [("const char *", "u_name"); ("int", "oflag"); ("umode_t", "mode"); ("struct mq_attr *", "u_attr")];
  mk_sig 278 "mq_unlink" 1 [("const char *", "u_name")];
  mk_sig 279 "mq_timedsend" 5 [("mqd_t", "mqdes"); ("const char *", "u_msg_ptr"); ("size_t", "msg_len"); ("unsigned int", "msg_prio"); ("const struct __kernel_timespec *", "u_abs_timeout")];
  mk_sig 280 "mq_timedreceive" 5 [("mqd_t", "mqdes"); ("char *", "u_msg_ptr"); ("size_t", "msg_len"); ("unsigned int *", "u_msg_prio"); ("const struct __kernel_timespec *", "u_abs_timeout")];
  mk_sig 281 "mq_notify" 2 [("mqd_t", "mqdes"); ("const struct sigevent *", "u_notification")];
  mk_sig 282 "mq_getsetattr" 3 [("mqd_t", "mqdes"); ("const struct mq_attr *", "u_mqstat"); ("struct mq_attr *", "u_omqstat")];
  mk_sig 283 "kexec_load" 4 [("unsigned long", "entry"); ("unsigned long", "nr_segments"); ("struct kexec_segment *", "segments"); ("unsigned long", "flags")];
  mk_sig 284 "waitid" 5 [("int", "which"); ("pid_t", "upid"); ("struct siginfo *", "infop"); ("int", "options"); ("struct rusage *", "ru")];
  mk_sig 286 "add_key" 5 [("const char *", "_type"); ("const char *", "_description"); ("const void *", "_payload"); ("size_t", "plen"); ("key_serial_t", "ringid")];
  mk_sig 287 "request_key" 4 [("const char *", "_type"); ("const char *", "_description"); ("const char *", "_callout_info"); ("key_serial_t", "destringid")];
  mk_sig 288 "keyctl" 5 [("int", "option"); ("unsigned long", "arg2"); ("unsigned long", "arg3"); ("unsigned long", "arg4"); ("unsigned long", "arg5")];
  mk_sig 289 "ioprio_set" 3 [("int", "which"); ("int", "who"); ("int", "ioprio")];
  mk_sig 290 "ioprio_get" 2 [("int", "which"); ("int", "who")];
  mk_sig 291 "inotify_init" 0 [];
  mk_sig 292 "inotify_add_watch" 3 [("int", "fd"); ("const char *", "pathname"); ("u32", "mask")];
  mk_sig 293 "inotify_rm_watch" 2 [("int", "fd"); ("__s32", "wd")];
  mk_sig 294 "migrate_pages" 4 [("pid_t", "pid"); ("unsigned long", "maxnode"); ("const unsigned long *", "old_nodes"); ("const unsigned long *", "new_nodes")];
  mk_sig 295 "openat" 4 [("int", "dfd"); ("const char *", "filename"); ("int", "flags"); ("umode_t", "mode")];
  mk_sig 296 "mkdirat" 3 [("int", "dfd"); ("const char *", "pathname"); ("umode_t", "mode")];
  mk_sig 297 "mknodat" 4 [("int", "dfd"); ("const char *", "filename"); ("umode_t", "mode"); ("unsigned int", "dev")];
  mk_sig 298 "fchownat" 5 [("int", "dfd"); ("const char *", "filename"); ("uid_t", "user"); ("gid_t", "group"); ("int", "flag")];
  mk_sig 299 "futimesat" 3 [("int", "dfd"); ("const char *", "filename"); ("struct __kernel_old_timeval *", "utimes")];
  mk_sig 301 "unlinkat" 3 [("int", "dfd"); ("const char *", "pathname"); ("int", "flag")];
  mk_sig 302 "renameat" 4 [("int", "olddfd"); ("const char *", "oldname"); ("int", "newdfd"); ("const char *", "newname")];
  mk_sig 303 "linkat" 5 [("int", "olddfd"); ("const char *", "oldname"); ("int", "newdfd"); ("const char *", "newname"); ("int", "flags")];
  mk_sig 304 "symlinkat" 3 [("const char *", "oldname"); ("int", "newdfd"); ("const char *", "newname")];
  mk_sig 305 "readlinkat" 4 [("int", "dfd"); ("const char *", "pathname"); ("char *", "buf"); ("int", "bufsiz")];
  mk_sig 306 "fchmodat" 3 [("int", "dfd"); ("const char *", "filename"); ("umode_t", "mode")];
  mk_sig 307 "faccessat" 3 [("int", "dfd"); ("const char *", "filename"); ("int", "mode")]
].
Definition x86_native_3 : list LinuxSyscallSignature := [
  mk_sig 308 "pselect6" 6 [("int", "n"); ("fd_set *", "inp"); ("fd_set *", "outp"); ("fd_set *", "exp"); ("struct __kernel_timespec *", "tsp"); ("void *", "sig")];
  mk_sig 309 "ppoll" 5 [("struct pollfd *", "ufds"); ("unsigned int", "nfds"); ("struct __kernel_timespec *", "tsp"); ("const sigset_t *", "sigmask"); ("size_t", "sigsetsize")];
  mk_sig 310 "unshare" 1 [("unsigned long", "unshare_flags")];
  mk_sig 311 "set_robust_list" 2 [("struct robust_list_head *", "head"); ("size_t", "len")];
  mk_sig 312 "get_robust_list" 3 [("int", "pid"); ("struct robust_list_head * *", "head_ptr"); ("size_t *", "len_ptr")];
  mk_sig 313 "splice" 6 [("int", "fd_in"); ("loff_t *", "off_in"); ("int", "fd_out"); ("loff_t *", "off_out"); ("size_t", "len"); ("unsigned int", "flags")];
  mk_sig 314 "sync_file_range" 4 [("int", "fd"); ("loff_t", "offset"); ("loff_t", "nbytes"); ("unsigned int", "flags")];
  mk_sig 315 "tee" 4 [("int", "fdin"); ("int", "fdout"); ("size_t", "len"); ("unsigned int", "flags")];
  mk_sig 316 "vmsplice" 4 [("int", "fd"); ("const struct iovec *", "uiov"); ("unsigned long", "nr_segs"); ("unsigned int", "flags")];
  mk_sig 317 "move_pages" 6 [("pid_t", "pid"); ("unsigned long", "nr_pages"); ("const void * *", "pages"); ("const int *", "nodes"); ("int *", "status"); ("int", "flags")];
  mk_sig 318 "getcpu" 3 [("unsigned *", "cpup"); ("unsigned *", "nodep"); ("struct getcpu_cache *", "unused")];
  mk_sig 319 "epoll_pwait" 6 [("int", "epfd"); ("struct epoll_event *", "events"); ("int", "maxevents"); ("int", "timeout"); ("const sigset_t *", "sigmask"); ("size_t", "sigsetsize")];
  mk_sig 320 "utimensat" 4 [("int", "dfd"); ("const char *", "filename"); ("struct __kernel_timespec *", "utimes"); ("int", "flags")];
  mk_sig 321 "signalfd" 3 [("int", "ufd"); ("sigset_t *", "user_mask"); ("size_t", "sizemask")];
  mk_sig 322 "timerfd_create" 2 [("int", "clockid"); ("int", "flags")];
  mk_sig 323 "eventfd" 1 [("unsigned int", "count")];
  mk_sig 324 "fallocate" 4 [("int", "fd"); ("int", "mode"); ("loff_t", "offset"); ("loff_t", "len")];
  mk_sig 325 "timerfd_settime" 4 [("int", "ufd"); ("int", "flags"); ("const struct __kernel_itimerspec *", "utmr"); ("struct __kernel_itimerspec *", "otmr")];
  mk_sig 326 "timerfd_gettime" 2 [("int", "ufd"); ("struct __kernel_itimerspec *", "otmr")];
  mk_sig 327 "signalfd4" 4 [("int", "ufd"); ("sigset_t *", "user_mask"); ("size_t", "sizemask"); ("int", "flags")];
  mk_sig 328 "eventfd2" 2 [("unsigned int", "count"); ("int", "flags")];
  mk_sig 329 "epoll_create1" 1 [("int", "flags")];
  mk_sig 330 "dup3" 3 [("unsigned int", "oldfd"); ("unsigned int", "newfd"); ("int", "flags")];
  mk_sig 331 "pipe2" 2 [("int *", "fildes"); ("int", "flags")];
  mk_sig 332 "inotify_init1" 1 [("int", "flags")];
  mk_sig 333 "preadv" 5 [("unsigned long", "fd"); ("const struct iovec *", "vec"); ("unsigned long", "vlen"); ("unsigned long", "pos_l"); ("unsigned long", "pos_h")];
  mk_sig 334 "pwritev" 5 [("unsigned long", "fd"); ("const struct iovec *", "vec"); ("unsigned long", "vlen"); ("unsigned long", "pos_l"); ("unsigned long", "pos_h")];
  mk_sig 335 "rt_tgsigqueueinfo" 4 [("pid_t", "tgid"); ("pid_t", "pid"); ("int", "sig"); ("siginfo_t *", "uinfo")];
  mk_sig 336 "perf_event_open" 5 [("struct perf_event_attr *", "attr_uptr"); ("pid_t", "pid"); ("int", "cpu"); ("int", "group_fd"); ("unsigned long", "flags")];
  mk_sig 337 "recvmmsg" 5 [("int", "fd"); ("struct mmsghdr *", "mmsg"); ("unsigned int", "vlen"); ("unsigned int", "flags"); ("struct __kernel_timespec *", "timeout")];
  mk_sig 338 "fanotify_init" 2 [("unsigned int", "flags"); ("unsigned int", "event_f_flags")];
  mk_sig 339 "fanotify_mark" 5 [("int", "fanotify_fd"); ("unsigned int", "flags"); ("__u64", "mask"); ("int", "dfd"); ("const char *", "pathname")];
  mk_sig 340 "prlimit64" 4 [("pid_t", "pid"); ("unsigned int", "resource"); ("const struct rlimit64 *", "new_rlim"); ("struct rlimit64 *", "old_rlim")];
  mk_sig 341 "name_to_handle_at" 5 [("int", "dfd"); ("const char *", "name"); ("struct file_handle *", "handle"); ("void *", "mnt_id"); ("int", "flag")];
  mk_sig 342 "open_by_handle_at" 3 [("int", "mountdirfd"); ("struct file_handle *", "handle"); ("int", "flags")];
  mk_sig 343 "clock_adjtime" 2 [("const clockid_t", "which_clock"); ("struct __kernel_timex *", "utx")];
  mk_sig 344 "syncfs" 1 [("int", "fd")];
  mk_sig 345 "sendmmsg" 4 [("int", "fd"); ("struct mmsghdr *", "mmsg"); ("unsigned int", "vlen"); ("unsigned int", "flags")];
  mk_sig 346 "setns" 2 [("int", "fd"); ("int", "flags")];
  mk_sig 347 "process_vm_readv" 6 [("pid_t", "pid"); ("const struct iovec *", "lvec"); ("unsigned long", "liovcnt"); ("const struct iovec *", "rvec"); ("unsigned long", "riovcnt"); ("unsigned long", "flags")];
  mk_sig 348 "process_vm_writev" 6 [("pid_t", "pid"); ("const struct iovec *", "lvec"); ("unsigned long", "liovcnt"); ("const struct iovec *", "rvec"); ("unsigned long", "riovcnt"); ("unsigned long", "flags")];
  mk_sig 349 "kcmp" 5 [("pid_t", "pid1"); ("pid_t", "pid2"); ("int", "type"); ("unsigned long", "idx1"); ("unsigned long", "idx2")];
  mk_sig 350 "finit_module" 3 [("int", "fd"); ("const char *", "uargs"); ("int", "flags")];
  mk_sig 351 "sched_setattr" 3 [("pid_t", "pid"); ("struct sched_attr *", "uattr"); ("unsigned int", "flags")];
  mk_sig 352 "sched_getattr" 4 [("pid_t", "pid"); ("struct sched_attr *", "uattr"); ("unsigned int", "usize"); ("unsigned int", "flags")];
  mk_sig 353 "renameat2" 5 [("int", "olddfd"); ("const char *", "oldname"); ("int", "newdfd"); ("const char *", "newname"); ("unsigned int", "flags")];
  mk_sig 354 "seccomp" 3 [("unsigned int", "op"); ("unsigned int", "flags"); ("void *", "uargs")];
  mk_sig 355 "getrandom" 3 [("char *", "ubuf"); ("size_t", "len"); ("unsigned int", "flags")];
  mk_sig 356 "memfd_create" 2 [("const char *", "uname"); ("unsigned int", "flags")];
  mk_sig 357 "bpf" 3 [("int", "cmd"); ("union bpf_attr *", "uattr"); ("unsigned int", "size")];
  mk_sig 358 "execveat" 5 [("int", "fd"); ("const char *", "filename"); ("const char *const *", "argv"); ("const char *const *", "envp"); ("int", "flags")];
  mk_sig 359 "socket" 3 [("int", "family"); ("int", "type"); ("int", "protocol")];
  mk_sig 360 "socketpair" 4 [("int", "family"); ("int", "type"); ("int", "protocol"); ("int *", "usockvec")];
  mk_sig 361 "bind" 3 [("int", "fd"); ("struct sockaddr *", "umyaddr"); ("int", "addrlen")];
  mk_sig 362 "connect" 3 [("int", "fd"); ("struct sockaddr *", "uservaddr"); ("int", "addrlen")];
  mk_sig 363 "listen" 2 [("int", "fd"); ("int", "backlog")];
  mk_sig 364 "accept4" 4 [("int", "fd"); ("struct sockaddr *", "upeer_sockaddr"); ("int *", "upeer_addrlen"); ("int", "flags")];
  mk_sig 365 "getsockopt" 5 [("int", "fd"); ("int", "level"); ("int", "optname"); ("char *", "optval"); ("int *", "optlen")];
  mk_sig 366 "setsockopt" 5 [("int", "fd"); ("int", "level"); ("int", "optname"); ("char *", "optval"); ("int", "optlen")];
  mk_sig 367 "getsockname" 3 [("int", "fd"); ("struct sockaddr *", "usockaddr"); ("int *", "usockaddr_len")];
  mk_sig 368 "getpeername" 3 [("int", "fd"); ("struct sockaddr *", "usockaddr"); ("int *", "usockaddr_len")];
  mk_sig 369 "sendto" 6 [("int", "fd"); ("void *", "buff"); ("size_t", "len"); ("unsigned int", "flags"); ("struct sockaddr *", "addr"); ("int", "addr_len")];
  mk_sig 370 "sendmsg" 3 [("int", "fd"); ("struct user_msghdr *", "msg"); ("unsigned int", "flags")];
  mk_sig 371 "recvfrom" 6 [("int", "fd"); ("void *", "ubuf"); ("size_t", "size"); ("unsigned int", "flags"); ("struct sockaddr *", "addr"); ("int *", "addr_len")];
  mk_sig 372 "recvmsg" 3 [("int", "fd"); ("struct user_msghdr *", "msg"); ("unsigned int", "flags")];
  mk_sig 373 "shutdown" 2 [("int", "fd"); ("int", "how")];
  mk_sig 374 "userfaultfd" 1 [("int", "flags")];
  mk_sig 375 "membarrier" 3 [("int", "cmd"); ("unsigned int", "flags"); ("int", "cpu_id")];
  mk_sig 376 "mlock2" 3 [("unsigned long", "start"); ("size_t", "len"); ("int", "flags")];
  mk_sig 377 "copy_file_range" 6 [("int", "fd_in"); ("loff_t *", "off_in"); ("int", "fd_out"); ("loff_t *", "off_out"); ("size_t", "len"); ("unsigned int", "flags")];
  mk_sig 378 "preadv2" 6 [("unsigned long", "fd"); ("const struct iovec *", "vec"); ("unsigned long", "vlen"); ("unsigned long", "pos_l"); ("unsigned long", "pos_h"); ("rwf_t", "flags")];
  mk_sig 379 "pwritev2" 6 [("unsigned long", "fd"); ("const struct iovec *", "vec"); ("unsigned long", "vlen"); ("unsigned long", "pos_l"); ("unsigned long", "pos_h"); ("rwf_t", "flags")];
  mk_sig 380 "pkey_mprotect" 4 [("unsigned long", "start"); ("size_t", "len"); ("unsigned long", "prot"); ("int", "pkey")];
  mk_sig 381 "pkey_alloc" 2 [("unsigned long", "flags"); ("unsigned long", "init_val")];
  mk_sig 382 "pkey_free" 1 [("int", "pkey")];
  mk_sig 383 "statx" 5 [("int", "dfd"); ("const char *", "filename"); ("unsigned", "flags"); ("unsigned int", "mask"); ("struct statx *", "buffer")];
  mk_sig 384 "arch_prctl" 2 [("int", "option"); ("unsigned long", "arg2")];
  mk_sig 385 "io_pgetevents" 6 [("aio_context_t", "ctx_id"); ("long", "min_nr"); ("long", "nr"); ("struct io_event *", "events"); ("struct __kernel_timespec *", "timeout"); ("const struct __aio_sigset *", "usig")];
  mk_sig 386 "rseq" 4 [("struct rseq *", "rseq"); ("u32", "rseq_len"); ("int", "flags"); ("u32", "sig")];
  mk_sig 393 "semget" 3 [("key_t", "key"); ("int", "nsems"); ("int", "semflg")];
  mk_sig 394 "semctl" 4 [("int", "semid"); ("int", "semnum"); ("int", "cmd"); ("unsigned long", "arg")];
  mk_sig 395 "shmget" 3 [("key_t", "key"); ("size_t", "size"); ("int", "shmflg")];
  mk_sig 396 "shmctl" 3 [("int", "shmid"); ("int", "cmd"); ("struct shmid_ds *", "buf")];
  mk_sig 397 "shmat" 3 [("int", "shmid"); ("char *", "shmaddr"); ("int", "shmflg")];
  mk_sig 398 "shmdt" 1 [("char *", "shmaddr")];
  mk_sig 399 "msgget" 2 [("key_t", "key"); ("int", "msgflg")];
  mk_sig 400 "msgsnd" 4 [("int", "msqid"); ("struct msgbuf *", "msgp"); ("size_t", "msgsz"); ("int", "msgflg")];
  mk_sig 401 "msgrcv" 5 [("int", "msqid"); ("struct msgbuf *", "msgp"); ("size_t", "msgsz"); ("long", "msgtyp"); ("int", "msgflg")];
  mk_sig 402 "msgctl" 3 [("int", "msqid"); ("int", "cmd"); ("struct msqid_ds *", "buf")];
  mk_sig 403 "clock_gettime64" 2 [("clockid_t", "which_clock"); ("struct __kernel_timespec *", "tp")];
  mk_sig 404 "clock_settime64" 2 [("clockid_t", "which_clock"); ("const struct __kernel_timespec *", "tp")];
  mk_sig 405 "clock_adjtime64" 2 [("clockid_t", "which_clock"); ("struct __kernel_timex *", "tx")];
  mk_sig 406 "clock_getres_time64" 2 [("clockid_t", "which_clock"); ("struct __kernel_timespec *", "tp")];
  mk_sig 407 "clock_nanosleep_time64" 4 [("clockid_t", "which_clock"); ("int", "flags"); ("const struct __kernel_timespec *", "rqtp"); ("struct __kernel_timespec *", "rmtp")];
  mk_sig 408 "timer_gettime64" 2 [("timer_t", "timer_id"); ("struct __kernel_itimerspec *", "setting")];
  mk_sig 409 "timer_settime64" 4 [("timer_t", "timer_id"); ("int", "flags"); ("const struct __kernel_itimerspec *", "new_setting"); ("struct __kernel_itimerspec *", "old_setting")];
  mk_sig 410 "timerfd_gettime64" 2 [("int", "ufd"); ("struct __kernel_itimerspec *", "otmr")];
  mk_sig 411 "timerfd_settime64" 4 [("int", "ufd"); ("int", "flags"); ("const struct __kernel_itimerspec *", "utmr"); ("struct __kernel_itimerspec *", "otmr")];
  mk_sig 412 "utimensat_time64" 4 [("int", "dfd"); ("const char *", "filename"); ("struct __kernel_timespec *", "utimes"); ("int", "flags")];
  mk_sig 413 "pselect6_time64" 6 [("int", "arg0"); ("fd_set *", "arg1"); ("fd_set *", "arg2"); ("fd_set *", "arg3"); ("struct __kernel_timespec *", "arg4"); ("void *", "arg5")];
  mk_sig 414 "ppoll_time64" 5 [("struct pollfd *", "arg0"); ("unsigned", "int"); ("struct __kernel_timespec *", "arg2"); ("const sigset_t *", "arg3"); ("size_t", "arg4")];
  mk_sig 416 "io_pgetevents_time64" 6 [("aio_context_t", "ctx_id"); ("long", "min_nr"); ("long", "nr"); ("struct io_event *", "events"); ("struct __kernel_timespec *", "timeout"); ("const struct __aio_sigset *", "sig")];
  mk_sig 417 "recvmmsg_time64" 5 [("int", "fd"); ("struct compat_mmsghdr *", "mmsg"); ("unsigned int", "vlen"); ("unsigned int", "flags"); ("struct __kernel_timespec *", "timeout")];
  mk_sig 418 "mq_timedsend_time64" 5 [("mqd_t", "mqdes"); ("const char *", "msg_ptr"); ("size_t", "msg_len"); ("unsigned int", "msg_prio"); ("const struct __kernel_timespec *", "abs_timeout")];
  mk_sig 419 "mq_timedreceive_time64" 5 [("mqd_t", "mqdes"); ("char *", "msg_ptr"); ("size_t", "msg_len"); ("unsigned int *", "msg_prio"); ("const struct __kernel_timespec *", "abs_timeout")];
  mk_sig 420 "semtimedop_time64" 4 [("int", "semid"); ("struct sembuf *", "sops"); ("unsigned", "nsops"); ("const struct __kernel_timespec *", "timeout")];
  mk_sig 421 "rt_sigtimedwait_time64" 4 [("const sigset_t *", "uthese"); ("siginfo_t *", "uinfo"); ("const struct __kernel_timespec *", "uts"); ("size_t", "sigsetsize")];
  mk_sig 422 "futex_time64" 6 [("u32 *", "uaddr"); ("int", "op"); ("u32", "val"); ("const struct __kernel_timespec *", "utime"); ("u32 *", "uaddr2"); ("u32", "val3")];
  mk_sig 423 "sched_rr_get_interval_time64" 2 [("pid_t", "pid"); ("struct __kernel_timespec *", "interval")];
  mk_sig 424 "pidfd_send_signal" 4 [("int", "pidfd"); ("int", "sig"); ("siginfo_t *", "info"); ("unsigned int", "flags")];
  mk_sig 425 "io_uring_setup" 2 [("u32", "entries"); ("struct io_uring_params *", "params")];
  mk_sig 426 "io_uring_enter" 6 [("unsigned int", "fd"); ("u32", "to_submit"); ("u32", "min_complete"); ("u32", "flags"); ("const void *", "argp"); ("size_t", "argsz")];
  mk_sig 427 "io_uring_register" 4 [("unsigned int", "fd"); ("unsigned int", "opcode"); ("void *", "arg"); ("unsigned int", "nr_args")];
  mk_sig 428 "open_tree" 3 [("int", "dfd"); ("const char *", "filename"); ("unsigned", "flags")];
  mk_sig 429 "move_mount" 5 [("int", "from_dfd"); ("const char *", "from_pathname"); ("int", "to_dfd"); ("const char *", "to_pathname"); ("unsigned int", "flags")];
  mk_sig 430 "fsopen" 2 [("const char *", "_fs_name"); ("unsigned int", "flags")];
  mk_sig 431 "fsconfig" 5 [("int", "fd"); ("unsigned int", "cmd"); ("const char *", "_key"); ("const void *", "_value"); ("int", "aux")];
  mk_sig 432 "fsmount" 3 [("int", "fs_fd"); ("unsigned int", "flags"); ("unsigned int", "attr_flags")];
  mk_sig 433 "fspick" 3 [("int", "dfd"); ("const char *", "path"); ("unsigned int", "flags")];
  mk_sig 434 "pidfd_open" 2 [("pid_t", "pid"); ("unsigned int", "flags")];
  mk_sig 435 "clone3" 2 [("struct clone_args *", "uargs"); ("size_t", "size")];
  mk_sig 436 "close_range" 3 [("unsigned int", "fd"); ("unsigned int", "max_fd"); ("unsigned int", "flags")];
  mk_sig 437 "openat2" 4 [("int", "dfd"); ("const char *", "filename"); ("struct open_how *", "how"); ("size_t", "usize")];
  mk_sig 438 "pidfd_getfd" 3 [("int", "pidfd"); ("int", "fd"); ("unsigned int", "flags")];
  mk_sig 439 "faccessat2" 4 [("int", "dfd"); ("const char *", "filename"); ("int", "mode"); ("int", "flags")];
  mk_sig 440 "process_madvise" 5 [("int", "pidfd"); ("const struct iovec *", "vec"); ("size_t", "vlen"); ("int", "behavior"); ("unsigned int", "flags")];
  mk_sig 441 "epoll_pwait2" 6 [("int", "epfd"); ("struct epoll_event *", "events"); ("int", "maxevents"); ("const struct __kernel_timespec *", "timeout"); ("const sigset_t *", "sigmask"); ("size_t", "sigsetsize")];
  mk_sig 442 "mount_setattr" 5 [("int", "dfd"); ("const char *", "path"); ("unsigned int", "flags"); ("struct mount_attr *", "uattr"); ("size_t", "usize")];
  mk_sig 443 "quotactl_fd" 4 [("unsigned int", "fd"); ("unsigned int", "cmd"); ("qid_t", "id"); ("void *", "addr")];
  mk_sig 444 "landlock_create_ruleset" 3 [("const struct landlock_ruleset_attr *const", "attr"); ("const size_t", "size"); ("const __u32", "flags")];
  mk_sig 445 "landlock_add_rule" 4 [("const int", "ruleset_fd"); ("const enum landlock_rule_type", "rule_type"); ("const void *const", "rule_attr"); ("const __u32", "flags")];
  mk_sig 446 "landlock_restrict_self" 2 [("const int", "ruleset_fd"); ("const __u32", "flags")];
  mk_sig 447 "memfd_secret" 1 [("unsigned int", "flags")];
  mk_sig 448 "process_mrelease" 2 [("int", "pidfd"); ("unsigned int", "flags")];
  mk_sig 449 "futex_waitv" 5 [("struct futex_waitv *", "waiters"); ("unsigned int", "nr_futexes"); ("unsigned int", "flags"); ("struct __kernel_timespec *", "timeout"); ("clockid_t", "clockid")];
  mk_sig 450 "set_mempolicy_home_node" 4 [("unsigned long", "start"); ("unsigned long", "len"); ("unsigned long", "home_node"); ("unsigned long", "flags")];
  mk_sig 451 "cachestat" 4 [("unsigned int", "fd"); ("struct cachestat_range *", "cstat_range"); ("struct cachestat *", "cstat"); ("unsigned int", "flags")];
  mk_sig 452 "fchmodat2" 4 [("int", "dfd"); ("const char *", "filename"); ("umode_t", "mode"); ("unsigned int", "flags")];
  mk_sig 453 "map_shadow_stack" 3 [("unsigned long", "addr"); ("unsigned long", "size"); ("unsigned int", "flags")];
  mk_sig 454 "futex_wake" 4 [("void *", "uaddr"); ("unsigned long", "mask"); ("int", "nr"); ("unsigned int", "flags")]
].
Definition x86_native_4 : list LinuxSyscallSignature := [
  mk_sig 455 "futex_wait" 6 [("void *", "uaddr"); ("unsigned long", "val"); ("unsigned long", "mask"); ("unsigned int", "flags"); ("struct __kernel_timespec *", "timeout"); ("clockid_t", "clockid")];
  mk_sig 456 "futex_requeue" 4 [("struct futex_waitv *", "waiters"); ("unsigned int", "flags"); ("int", "nr_wake"); ("int", "nr_requeue")];
  mk_sig 457 "statmount" 4 [("const struct mnt_id_req *", "req"); ("struct statmount *", "buf"); ("size_t", "bufsize"); ("unsigned int", "flags")];
  mk_sig 458 "listmount" 4 [("const struct mnt_id_req *", "req"); ("u64 *", "mnt_ids"); ("size_t", "nr_mnt_ids"); ("unsigned int", "flags")];
  mk_sig 459 "lsm_get_self_attr" 4 [("unsigned int", "attr"); ("struct lsm_ctx *", "ctx"); ("u32 *", "size"); ("u32", "flags")];
  mk_sig 460 "lsm_set_self_attr" 4 [("unsigned int", "attr"); ("struct lsm_ctx *", "ctx"); ("u32", "size"); ("u32", "flags")];
  mk_sig 461 "lsm_list_modules" 3 [("u64 *", "ids"); ("u32 *", "size"); ("u32", "flags")];
  mk_sig 462 "mseal" 3 [("unsigned long", "start"); ("size_t", "len"); ("unsigned long", "flags")];
  mk_sig 463 "setxattrat" 6 [("int", "dfd"); ("const char *", "pathname"); ("unsigned int", "at_flags"); ("const char *", "name"); ("const struct xattr_args *", "uargs"); ("size_t", "usize")];
  mk_sig 464 "getxattrat" 6 [("int", "dfd"); ("const char *", "pathname"); ("unsigned int", "at_flags"); ("const char *", "name"); ("struct xattr_args *", "uargs"); ("size_t", "usize")];
  mk_sig 465 "listxattrat" 5 [("int", "dfd"); ("const char *", "pathname"); ("unsigned int", "at_flags"); ("char *", "list"); ("size_t", "size")];
  mk_sig 466 "removexattrat" 4 [("int", "dfd"); ("const char *", "pathname"); ("unsigned int", "at_flags"); ("const char *", "name")];
  mk_sig 467 "open_tree_attr" 5 [("int", "dfd"); ("const char *", "filename"); ("unsigned", "flags"); ("struct mount_attr *", "uattr"); ("size_t", "usize")];
  mk_sig 468 "file_getattr" 5 [("int", "dfd"); ("const char *", "filename"); ("struct file_attr *", "ufattr"); ("size_t", "usize"); ("unsigned int", "at_flags")];
  mk_sig 469 "file_setattr" 5 [("int", "dfd"); ("const char *", "filename"); ("struct file_attr *", "ufattr"); ("size_t", "usize"); ("unsigned int", "at_flags")];
  mk_sig 470 "listns" 4 [("const struct ns_id_req *", "req"); ("u64 *", "ns_ids"); ("size_t", "nr_ns_ids"); ("unsigned int", "flags")]
].
Definition x86_frida_syscall_signatures : list LinuxSyscallSignature :=
  x86_native_1 ++ x86_native_2 ++ x86_native_3 ++ x86_native_4.

Definition mips_native_1 : list LinuxSyscallSignature := [
  mk_sig 4001 "exit" 1 [("int", "error_code")];
  mk_sig 4002 "fork" 0 [];
  mk_sig 4003 "read" 3 [("unsigned int", "fd"); ("char *", "buf"); ("size_t", "count")];
  mk_sig 4004 "write" 3 [("unsigned int", "fd"); ("const char *", "buf"); ("size_t", "count")];
  mk_sig 4005 "open" 3 [("const char *", "filename"); ("int", "flags"); ("umode_t", "mode")];
  mk_sig 4006 "close" 1 [("unsigned int", "fd")];
  mk_sig 4007 "waitpid" 3 [("pid_t", "pid"); ("int *", "stat_addr"); ("int", "options")];
  mk_sig 4008 "creat" 2 [("const char *", "pathname"); ("umode_t", "mode")];
  mk_sig 4009 "link" 2 [("const char *", "oldname"); ("const char *", "newname")];
  mk_sig 4010 "unlink" 1 [("const char *", "pathname")];
  mk_sig 4011 "execve" 3 [("const char *", "filename"); ("const char *const *", "argv"); ("const char *const *", "envp")];
  mk_sig 4012 "chdir" 1 [("const char *", "filename")];
  mk_sig 4013 "time" 1 [("old_time32_t *", "tloc")];
  mk_sig 4014 "mknod" 3 [("const char *", "filename"); ("umode_t", "mode"); ("unsigned", "dev")];
  mk_sig 4015 "chmod" 2 [("const char *", "filename"); ("umode_t", "mode")];
  mk_sig 4016 "lchown" 3 [("const char *", "filename"); ("uid_t", "user"); ("gid_t", "group")];
  mk_sig 4017 "break" 0 [];
  mk_sig 4018 "unused18" 0 [];
  mk_sig 4019 "lseek" 3 [("unsigned int", "fd"); ("off_t", "offset"); ("unsigned int", "whence")];
  mk_sig 4020 "getpid" 0 [];
  mk_sig 4021 "mount" 5 [("char *", "dev_name"); ("char *", "dir_name"); ("char *", "type"); ("unsigned long", "flags"); ("void *", "data")];
  mk_sig 4022 "umount" 2 [("char *", "name"); ("int", "flags")];
  mk_sig 4023 "setuid" 1 [("uid_t", "uid")];
  mk_sig 4024 "getuid" 0 [];
  mk_sig 4025 "stime" 1 [("old_time32_t *", "tptr")];
  mk_sig 4026 "ptrace" 4 [("long", "request"); ("long", "pid"); ("unsigned long", "addr"); ("unsigned long", "data")];
  mk_sig 4027 "alarm" 1 [("unsigned int", "seconds")];
  mk_sig 4028 "unused28" 0 [];
  mk_sig 4029 "pause" 0 [];
  mk_sig 4030 "utime" 2 [("char *", "filename"); ("struct utimbuf *", "times")];
  mk_sig 4031 "stty" 0 [];
  mk_sig 4032 "gtty" 0 [];
  mk_sig 4033 "access" 2 [("const char *", "filename"); ("int", "mode")];
  mk_sig 4034 "nice" 1 [("int", "increment")];
  mk_sig 4035 "ftime" 0 [];
  mk_sig 4036 "sync" 0 [];
  mk_sig 4037 "kill" 2 [("pid_t", "pid"); ("int", "sig")];
  mk_sig 4038 "rename" 2 [("const char *", "oldname"); ("const char *", "newname")];
  mk_sig 4039 "mkdir" 2 [("const char *", "pathname"); ("umode_t", "mode")];
  mk_sig 4040 "rmdir" 1 [("const char *", "pathname")];
  mk_sig 4041 "dup" 1 [("unsigned int", "fildes")];
  mk_sig 4042 "pipe" 1 [("int *", "fildes")];
  mk_sig 4043 "times" 1 [("struct tms *", "tbuf")];
  mk_sig 4044 "prof" 0 [];
  mk_sig 4045 "brk" 1 [("unsigned long", "brk")];
  mk_sig 4046 "setgid" 1 [("gid_t", "gid")];
  mk_sig 4047 "getgid" 0 [];
  mk_sig 4048 "signal" 0 [];
  mk_sig 4049 "geteuid" 0 [];
  mk_sig 4050 "getegid" 0 [];
  mk_sig 4051 "acct" 1 [("const char *", "name")];
  mk_sig 4052 "umount2" 2 [("char *", "name"); ("int", "flags")];
  mk_sig 4053 "lock" 0 [];
  mk_sig 4054 "ioctl" 3 [("unsigned int", "fd"); ("unsigned int", "cmd"); ("unsigned long", "arg")];
  mk_sig 4055 "fcntl" 3 [("unsigned int", "fd"); ("unsigned int", "cmd"); ("unsigned long", "arg")];
  mk_sig 4056 "mpx" 0 [];
  mk_sig 4057 "setpgid" 2 [("pid_t", "pid"); ("pid_t", "pgid")];
  mk_sig 4058 "ulimit" 0 [];
  mk_sig 4059 "unused59" 1 [("struct oldold_utsname *", "arg0")];
  mk_sig 4060 "umask" 1 [("int", "mask")];
  mk_sig 4061 "chroot" 1 [("const char *", "filename")];
  mk_sig 4062 "ustat" 2 [("unsigned", "dev"); ("struct ustat *", "ubuf")];
  mk_sig 4063 "dup2" 2 [("unsigned int", "oldfd"); ("unsigned int", "newfd")];
  mk_sig 4064 "getppid" 0 [];
  mk_sig 4065 "getpgrp" 0 [];
  mk_sig 4066 "setsid" 0 [];
  mk_sig 4068 "sgetmask" 0 [];
  mk_sig 4069 "ssetmask" 1 [("int", "newmask")];
  mk_sig 4070 "setreuid" 2 [("uid_t", "ruid"); ("uid_t", "euid")];
  mk_sig 4071 "setregid" 2 [("gid_t", "rgid"); ("gid_t", "egid")];
  mk_sig 4073 "sigpending" 1 [("old_sigset_t *", "uset")];
  mk_sig 4074 "sethostname" 2 [("char *", "name"); ("int", "len")];
  mk_sig 4075 "setrlimit" 2 [("unsigned int", "resource"); ("struct rlimit *", "rlim")];
  mk_sig 4076 "getrlimit" 2 [("unsigned int", "resource"); ("struct rlimit *", "rlim")];
  mk_sig 4077 "getrusage" 2 [("int", "who"); ("struct rusage *", "ru")];
  mk_sig 4078 "gettimeofday" 2 [("struct __kernel_old_timeval *", "tv"); ("struct timezone *", "tz")];
  mk_sig 4079 "settimeofday" 2 [("struct __kernel_old_timeval *", "tv"); ("struct timezone *", "tz")];
  mk_sig 4080 "getgroups" 2 [("int", "gidsetsize"); ("gid_t *", "grouplist")];
  mk_sig 4081 "setgroups" 2 [("int", "gidsetsize"); ("gid_t *", "grouplist")];
  mk_sig 4082 "reserved82" 0 [];
  mk_sig 4083 "symlink" 2 [("const char *", "oldname"); ("const char *", "newname")];
  mk_sig 4084 "unused84" 0 [];
  mk_sig 4085 "readlink" 3 [("const char *", "path"); ("char *", "buf"); ("int", "bufsiz")];
  mk_sig 4086 "uselib" 1 [("const char *", "library")];
  mk_sig 4087 "swapon" 2 [("const char *", "specialfile"); ("int", "swap_flags")];
  mk_sig 4088 "reboot" 4 [("int", "magic1"); ("int", "magic2"); ("unsigned int", "cmd"); ("void *", "arg")];
  mk_sig 4089 "readdir" 3 [("unsigned", "int"); ("struct old_linux_dirent *", "arg1"); ("unsigned", "int")];
  mk_sig 4090 "mmap" 6 [("unsigned long", "addr"); ("unsigned long", "len"); ("unsigned long", "prot"); ("unsigned long", "flags"); ("unsigned long", "fd"); ("off_t", "offset")];
  mk_sig 4091 "munmap" 2 [("unsigned long", "addr"); ("size_t", "len")];
  mk_sig 4092 "truncate" 2 [("const char *", "path"); ("long", "length")];
  mk_sig 4093 "ftruncate" 2 [("unsigned int", "fd"); ("off_t", "length")];
  mk_sig 4094 "fchmod" 2 [("unsigned int", "fd"); ("umode_t", "mode")];
  mk_sig 4095 "fchown" 3 [("unsigned int", "fd"); ("uid_t", "user"); ("gid_t", "group")];
  mk_sig 4096 "getpriority" 2 [("int", "which"); ("int", "who")];
  mk_sig 4097 "setpriority" 3 [("int", "which"); ("int", "who"); ("int", "niceval")];
  mk_sig 4098 "profil" 0 [];
  mk_sig 4099 "statfs" 2 [("const char *", "pathname"); ("struct statfs *", "buf")];
  mk_sig 4100 "fstatfs" 2 [("unsigned int", "fd"); ("struct statfs *", "buf")];
  mk_sig 4101 "ioperm" 0 [];
  mk_sig 4102 "socketcall" 2 [("int", "call"); ("unsigned long *", "args")];
  mk_sig 4103 "syslog" 3 [("int", "type"); ("char *", "buf"); ("int", "len")];
  mk_sig 4104 "setitimer" 3 [("int", "which"); ("struct __kernel_old_itimerval *", "value"); ("struct __kernel_old_itimerval *", "ovalue")];
  mk_sig 4105 "getitimer" 2 [("int", "which"); ("struct __kernel_old_itimerval *", "value")];
  mk_sig 4106 "stat" 2 [("const char *", "filename"); ("struct stat *", "statbuf")];
  mk_sig 4107 "lstat" 2 [("const char *", "filename"); ("struct stat *", "statbuf")];
  mk_sig 4108 "fstat" 2 [("unsigned int", "fd"); ("struct stat *", "statbuf")];
  mk_sig 4109 "unused109" 1 [("struct old_utsname *", "arg0")];
  mk_sig 4110 "iopl" 0 [];
  mk_sig 4111 "vhangup" 0 [];
  mk_sig 4112 "idle" 0 [];
  mk_sig 4113 "vm86" 0 [];
  mk_sig 4114 "wait4" 4 [("pid_t", "upid"); ("int *", "stat_addr"); ("int", "options"); ("struct rusage *", "ru")];
  mk_sig 4115 "swapoff" 1 [("const char *", "specialfile")];
  mk_sig 4116 "sysinfo" 1 [("struct sysinfo *", "info")];
  mk_sig 4117 "ipc" 6 [("unsigned int", "call"); ("int", "first"); ("unsigned long", "second"); ("unsigned long", "third"); ("void *", "ptr"); ("long", "fifth")];
  mk_sig 4118 "fsync" 1 [("unsigned int", "fd")];
  mk_sig 4120 "clone" 5 [("unsigned long", "clone_flags"); ("unsigned long", "newsp"); ("int *", "parent_tidptr"); ("int *", "child_tidptr"); ("unsigned long", "tls")];
  mk_sig 4121 "setdomainname" 2 [("char *", "name"); ("int", "len")];
  mk_sig 4122 "uname" 1 [("struct old_utsname *", "name")];
  mk_sig 4123 "modify_ldt" 0 [];
  mk_sig 4124 "adjtimex" 1 [("struct old_timex32 *", "txc_p")];
  mk_sig 4125 "mprotect" 3 [("unsigned long", "start"); ("size_t", "len"); ("unsigned long", "prot")];
  mk_sig 4126 "sigprocmask" 3 [("int", "how"); ("old_sigset_t *", "nset"); ("old_sigset_t *", "oset")];
  mk_sig 4127 "create_module" 0 [];
  mk_sig 4128 "init_module" 3 [("void *", "umod"); ("unsigned long", "len"); ("const char *", "uargs")];
  mk_sig 4129 "delete_module" 2 [("const char *", "name_user"); ("unsigned int", "flags")];
  mk_sig 4130 "get_kernel_syms" 0 [];
  mk_sig 4131 "quotactl" 4 [("unsigned int", "cmd"); ("const char *", "special"); ("qid_t", "id"); ("void *", "addr")];
  mk_sig 4132 "getpgid" 1 [("pid_t", "pid")];
  mk_sig 4133 "fchdir" 1 [("unsigned int", "fd")];
  mk_sig 4134 "bdflush" 0 [];
  mk_sig 4135 "sysfs" 3 [("int", "option"); ("unsigned long", "arg1"); ("unsigned long", "arg2")];
  mk_sig 4136 "personality" 1 [("unsigned int", "personality")];
  mk_sig 4137 "afs_syscall" 0 [];
  mk_sig 4138 "setfsuid" 1 [("uid_t", "uid")];
  mk_sig 4139 "setfsgid" 1 [("gid_t", "gid")];
  mk_sig 4140 "_llseek" 5 [("unsigned int", "fd"); ("unsigned long", "offset_high"); ("unsigned long", "offset_low"); ("loff_t *", "result"); ("unsigned int", "whence")];
  mk_sig 4141 "getdents" 3 [("unsigned int", "fd"); ("struct linux_dirent *", "dirent"); ("unsigned int", "count")];
  mk_sig 4142 "_newselect" 5 [("int", "n"); ("fd_set *", "inp"); ("fd_set *", "outp"); ("fd_set *", "exp"); ("struct __kernel_old_timeval *", "tvp")];
  mk_sig 4143 "flock" 2 [("unsigned int", "fd"); ("unsigned int", "cmd")]
].
Definition mips_native_2 : list LinuxSyscallSignature := [
  mk_sig 4144 "msync" 3 [("unsigned long", "start"); ("size_t", "len"); ("int", "flags")];
  mk_sig 4145 "readv" 3 [("unsigned long", "fd"); ("const struct iovec *", "vec"); ("unsigned long", "vlen")];
  mk_sig 4146 "writev" 3 [("unsigned long", "fd"); ("const struct iovec *", "vec"); ("unsigned long", "vlen")];
  mk_sig 4147 "cacheflush" 3 [("unsigned long", "addr"); ("unsigned long", "bytes"); ("unsigned int", "cache")];
  mk_sig 4148 "cachectl" 3 [("char *", "addr"); ("int", "nbytes"); ("int", "op")];
  mk_sig 4149 "sysmips" 3 [("long", "cmd"); ("long", "arg1"); ("long", "arg2")];
  mk_sig 4150 "unused150" 0 [];
  mk_sig 4151 "getsid" 1 [("pid_t", "pid")];
  mk_sig 4152 "fdatasync" 1 [("unsigned int", "fd")];
  mk_sig 4153 "_sysctl" 0 [];
  mk_sig 4154 "mlock" 2 [("unsigned long", "start"); ("size_t", "len")];
  mk_sig 4155 "munlock" 2 [("unsigned long", "start"); ("size_t", "len")];
  mk_sig 4156 "mlockall" 1 [("int", "flags")];
  mk_sig 4157 "munlockall" 0 [];
  mk_sig 4158 "sched_setparam" 2 [("pid_t", "pid"); ("struct sched_param *", "param")];
  mk_sig 4159 "sched_getparam" 2 [("pid_t", "pid"); ("struct sched_param *", "param")];
  mk_sig 4160 "sched_setscheduler" 3 [("pid_t", "pid"); ("int", "policy"); ("struct sched_param *", "param")];
  mk_sig 4161 "sched_getscheduler" 1 [("pid_t", "pid")];
  mk_sig 4162 "sched_yield" 0 [];
  mk_sig 4163 "sched_get_priority_max" 1 [("int", "policy")];
  mk_sig 4164 "sched_get_priority_min" 1 [("int", "policy")];
  mk_sig 4165 "sched_rr_get_interval" 2 [("pid_t", "pid"); ("struct __kernel_timespec *", "interval")];
  mk_sig 4166 "nanosleep" 2 [("struct old_timespec32 *", "rqtp"); ("struct old_timespec32 *", "rmtp")];
  mk_sig 4167 "mremap" 5 [("unsigned long", "addr"); ("unsigned long", "old_len"); ("unsigned long", "new_len"); ("unsigned long", "flags"); ("unsigned long", "new_addr")];
  mk_sig 4168 "accept" 3 [("int", "fd"); ("struct sockaddr *", "upeer_sockaddr"); ("int *", "upeer_addrlen")];
  mk_sig 4169 "bind" 3 [("int", "fd"); ("struct sockaddr *", "umyaddr"); ("int", "addrlen")];
  mk_sig 4170 "connect" 3 [("int", "fd"); ("struct sockaddr *", "uservaddr"); ("int", "addrlen")];
  mk_sig 4171 "getpeername" 3 [("int", "fd"); ("struct sockaddr *", "usockaddr"); ("int *", "usockaddr_len")];
  mk_sig 4172 "getsockname" 3 [("int", "fd"); ("struct sockaddr *", "usockaddr"); ("int *", "usockaddr_len")];
  mk_sig 4173 "getsockopt" 5 [("int", "fd"); ("int", "level"); ("int", "optname"); ("char *", "optval"); ("int *", "optlen")];
  mk_sig 4174 "listen" 2 [("int", "fd"); ("int", "backlog")];
  mk_sig 4175 "recv" 4 [("int", "fd"); ("void *", "ubuf"); ("size_t", "size"); ("unsigned int", "flags")];
  mk_sig 4176 "recvfrom" 6 [("int", "fd"); ("void *", "ubuf"); ("size_t", "size"); ("unsigned int", "flags"); ("struct sockaddr *", "addr"); ("int *", "addr_len")];
  mk_sig 4177 "recvmsg" 3 [("int", "fd"); ("struct user_msghdr *", "msg"); ("unsigned int", "flags")];
  mk_sig 4178 "send" 4 [("int", "fd"); ("void *", "buff"); ("size_t", "len"); ("unsigned int", "flags")];
  mk_sig 4179 "sendmsg" 3 [("int", "fd"); ("struct user_msghdr *", "msg"); ("unsigned int", "flags")];
  mk_sig 4180 "sendto" 6 [("int", "fd"); ("void *", "buff"); ("size_t", "len"); ("unsigned int", "flags"); ("struct sockaddr *", "addr"); ("int", "addr_len")];
  mk_sig 4181 "setsockopt" 5 [("int", "fd"); ("int", "level"); ("int", "optname"); ("char *", "optval"); ("int", "optlen")];
  mk_sig 4182 "shutdown" 2 [("int", "fd"); ("int", "how")];
  mk_sig 4183 "socket" 3 [("int", "family"); ("int", "type"); ("int", "protocol")];
  mk_sig 4184 "socketpair" 4 [("int", "family"); ("int", "type"); ("int", "protocol"); ("int *", "usockvec")];
  mk_sig 4185 "setresuid" 3 [("uid_t", "ruid"); ("uid_t", "euid"); ("uid_t", "suid")];
  mk_sig 4186 "getresuid" 3 [("uid_t *", "ruidp"); ("uid_t *", "euidp"); ("uid_t *", "suidp")];
  mk_sig 4187 "query_module" 0 [];
  mk_sig 4188 "poll" 3 [("struct pollfd *", "ufds"); ("unsigned int", "nfds"); ("int", "timeout_msecs")];
  mk_sig 4189 "nfsservctl" 0 [];
  mk_sig 4190 "setresgid" 3 [("gid_t", "rgid"); ("gid_t", "egid"); ("gid_t", "sgid")];
  mk_sig 4191 "getresgid" 3 [("gid_t *", "rgidp"); ("gid_t *", "egidp"); ("gid_t *", "sgidp")];
  mk_sig 4192 "prctl" 5 [("int", "option"); ("unsigned long", "arg2"); ("unsigned long", "arg3"); ("unsigned long", "arg4"); ("unsigned long", "arg5")];
  mk_sig 4194 "rt_sigaction" 4 [("int", "sig"); ("const struct sigaction *", "act"); ("struct sigaction *", "oact"); ("size_t", "sigsetsize")];
  mk_sig 4195 "rt_sigprocmask" 4 [("int", "how"); ("sigset_t *", "nset"); ("sigset_t *", "oset"); ("size_t", "sigsetsize")];
  mk_sig 4196 "rt_sigpending" 2 [("sigset_t *", "uset"); ("size_t", "sigsetsize")];
  mk_sig 4197 "rt_sigtimedwait" 4 [("const sigset_t *", "uthese"); ("siginfo_t *", "uinfo"); ("const struct __kernel_timespec *", "uts"); ("size_t", "sigsetsize")];
  mk_sig 4198 "rt_sigqueueinfo" 3 [("pid_t", "pid"); ("int", "sig"); ("siginfo_t *", "uinfo")];
  mk_sig 4199 "rt_sigsuspend" 2 [("sigset_t *", "unewset"); ("size_t", "sigsetsize")];
  mk_sig 4200 "pread64" 4 [("unsigned int", "fd"); ("char *", "buf"); ("size_t", "count"); ("loff_t", "pos")];
  mk_sig 4201 "pwrite64" 4 [("unsigned int", "fd"); ("const char *", "buf"); ("size_t", "count"); ("loff_t", "pos")];
  mk_sig 4202 "chown" 3 [("const char *", "filename"); ("uid_t", "user"); ("gid_t", "group")];
  mk_sig 4203 "getcwd" 2 [("char *", "buf"); ("unsigned long", "size")];
  mk_sig 4204 "capget" 2 [("cap_user_header_t", "header"); ("cap_user_data_t", "dataptr")];
  mk_sig 4205 "capset" 2 [("cap_user_header_t", "header"); ("const cap_user_data_t", "data")];
  mk_sig 4206 "sigaltstack" 2 [("const stack_t *", "uss"); ("stack_t *", "uoss")];
  mk_sig 4207 "sendfile" 4 [("int", "out_fd"); ("int", "in_fd"); ("off_t *", "offset"); ("size_t", "count")];
  mk_sig 4208 "getpmsg" 0 [];
  mk_sig 4209 "putpmsg" 0 [];
  mk_sig 4210 "mmap2" 6 [("unsigned long", "addr"); ("unsigned long", "len"); ("unsigned long", "prot"); ("unsigned long", "flags"); ("unsigned long", "fd"); ("unsigned long", "pgoff")];
  mk_sig 4211 "truncate64" 2 [("const char *", "path"); ("loff_t", "length")];
  mk_sig 4212 "ftruncate64" 2 [("unsigned int", "fd"); ("loff_t", "length")];
  mk_sig 4213 "stat64" 2 [("const char *", "filename"); ("struct stat64 *", "statbuf")];
  mk_sig 4214 "lstat64" 2 [("const char *", "filename"); ("struct stat64 *", "statbuf")];
  mk_sig 4215 "fstat64" 2 [("unsigned long", "fd"); ("struct stat64 *", "statbuf")];
  mk_sig 4216 "pivot_root" 2 [("const char *", "new_root"); ("const char *", "put_old")];
  mk_sig 4217 "mincore" 3 [("unsigned long", "start"); ("size_t", "len"); ("unsigned char *", "vec")];
  mk_sig 4218 "madvise" 3 [("unsigned long", "start"); ("size_t", "len_in"); ("int", "behavior")];
  mk_sig 4219 "getdents64" 3 [("unsigned int", "fd"); ("struct linux_dirent64 *", "dirent"); ("unsigned int", "count")];
  mk_sig 4220 "fcntl64" 3 [("unsigned int", "fd"); ("unsigned int", "cmd"); ("unsigned long", "arg")];
  mk_sig 4221 "reserved221" 0 [];
  mk_sig 4222 "gettid" 0 [];
  mk_sig 4223 "readahead" 3 [("int", "fd"); ("loff_t", "offset"); ("size_t", "count")];
  mk_sig 4224 "setxattr" 5 [("const char *", "pathname"); ("const char *", "name"); ("const void *", "value"); ("size_t", "size"); ("int", "flags")];
  mk_sig 4225 "lsetxattr" 5 [("const char *", "pathname"); ("const char *", "name"); ("const void *", "value"); ("size_t", "size"); ("int", "flags")];
  mk_sig 4226 "fsetxattr" 5 [("int", "fd"); ("const char *", "name"); ("const void *", "value"); ("size_t", "size"); ("int", "flags")];
  mk_sig 4227 "getxattr" 4 [("const char *", "pathname"); ("const char *", "name"); ("void *", "value"); ("size_t", "size")];
  mk_sig 4228 "lgetxattr" 4 [("const char *", "pathname"); ("const char *", "name"); ("void *", "value"); ("size_t", "size")];
  mk_sig 4229 "fgetxattr" 4 [("int", "fd"); ("const char *", "name"); ("void *", "value"); ("size_t", "size")];
  mk_sig 4230 "listxattr" 3 [("const char *", "pathname"); ("char *", "list"); ("size_t", "size")];
  mk_sig 4231 "llistxattr" 3 [("const char *", "pathname"); ("char *", "list"); ("size_t", "size")];
  mk_sig 4232 "flistxattr" 3 [("int", "fd"); ("char *", "list"); ("size_t", "size")];
  mk_sig 4233 "removexattr" 2 [("const char *", "pathname"); ("const char *", "name")];
  mk_sig 4234 "lremovexattr" 2 [("const char *", "pathname"); ("const char *", "name")];
  mk_sig 4235 "fremovexattr" 2 [("int", "fd"); ("const char *", "name")];
  mk_sig 4236 "tkill" 2 [("pid_t", "pid"); ("int", "sig")];
  mk_sig 4237 "sendfile64" 4 [("int", "out_fd"); ("int", "in_fd"); ("loff_t *", "offset"); ("size_t", "count")];
  mk_sig 4238 "futex" 6 [("u32 *", "uaddr"); ("int", "op"); ("u32", "val"); ("const struct __kernel_timespec *", "utime"); ("u32 *", "uaddr2"); ("u32", "val3")];
  mk_sig 4239 "sched_setaffinity" 3 [("pid_t", "pid"); ("unsigned int", "len"); ("unsigned long *", "user_mask_ptr")];
  mk_sig 4240 "sched_getaffinity" 3 [("pid_t", "pid"); ("unsigned int", "len"); ("unsigned long *", "user_mask_ptr")];
  mk_sig 4241 "io_setup" 2 [("unsigned", "nr_events"); ("aio_context_t *", "ctxp")];
  mk_sig 4242 "io_destroy" 1 [("aio_context_t", "ctx")];
  mk_sig 4243 "io_getevents" 5 [("__u32", "ctx_id"); ("__s32", "min_nr"); ("__s32", "nr"); ("struct io_event *", "events"); ("struct old_timespec32 *", "timeout")];
  mk_sig 4244 "io_submit" 3 [("aio_context_t", "ctx_id"); ("long", "nr"); ("struct iocb * *", "iocbpp")];
  mk_sig 4245 "io_cancel" 3 [("aio_context_t", "ctx_id"); ("struct iocb *", "iocb"); ("struct io_event *", "result")];
  mk_sig 4246 "exit_group" 1 [("int", "error_code")];
  mk_sig 4247 "lookup_dcookie" 0 [];
  mk_sig 4248 "epoll_create" 1 [("int", "size")];
  mk_sig 4249 "epoll_ctl" 4 [("int", "epfd"); ("int", "op"); ("int", "fd"); ("struct epoll_event *", "event")];
  mk_sig 4250 "epoll_wait" 4 [("int", "epfd"); ("struct epoll_event *", "events"); ("int", "maxevents"); ("int", "timeout")];
  mk_sig 4251 "remap_file_pages" 5 [("unsigned long", "start"); ("unsigned long", "size"); ("unsigned long", "prot"); ("unsigned long", "pgoff"); ("unsigned long", "flags")];
  mk_sig 4252 "set_tid_address" 1 [("int *", "tidptr")];
  mk_sig 4253 "restart_syscall" 0 [];
  mk_sig 4254 "fadvise64" 4 [("int", "fd"); ("loff_t", "offset"); ("loff_t", "len"); ("int", "advice")];
  mk_sig 4255 "statfs64" 3 [("const char *", "pathname"); ("size_t", "sz"); ("struct statfs64 *", "buf")];
  mk_sig 4256 "fstatfs64" 3 [("unsigned int", "fd"); ("size_t", "sz"); ("struct statfs64 *", "buf")];
  mk_sig 4257 "timer_create" 3 [("const clockid_t", "which_clock"); ("struct sigevent *", "timer_event_spec"); ("timer_t *", "created_timer_id")];
  mk_sig 4258 "timer_settime" 4 [("timer_t", "timer_id"); ("int", "flags"); ("const struct __kernel_itimerspec *", "new_setting"); ("struct __kernel_itimerspec *", "old_setting")];
  mk_sig 4259 "timer_gettime" 2 [("timer_t", "timer_id"); ("struct __kernel_itimerspec *", "setting")];
  mk_sig 4260 "timer_getoverrun" 1 [("timer_t", "timer_id")];
  mk_sig 4261 "timer_delete" 1 [("timer_t", "timer_id")];
  mk_sig 4262 "clock_settime" 2 [("const clockid_t", "which_clock"); ("const struct __kernel_timespec *", "tp")];
  mk_sig 4263 "clock_gettime" 2 [("const clockid_t", "which_clock"); ("struct __kernel_timespec *", "tp")];
  mk_sig 4264 "clock_getres" 2 [("const clockid_t", "which_clock"); ("struct __kernel_timespec *", "tp")];
  mk_sig 4265 "clock_nanosleep" 4 [("const clockid_t", "which_clock"); ("int", "flags"); ("const struct __kernel_timespec *", "rqtp"); ("struct __kernel_timespec *", "rmtp")];
  mk_sig 4266 "tgkill" 3 [("pid_t", "tgid"); ("pid_t", "pid"); ("int", "sig")];
  mk_sig 4267 "utimes" 2 [("char *", "filename"); ("struct __kernel_old_timeval *", "utimes")];
  mk_sig 4268 "mbind" 6 [("unsigned long", "start"); ("unsigned long", "len"); ("unsigned long", "mode"); ("const unsigned long *", "nmask"); ("unsigned long", "maxnode"); ("unsigned int", "flags")];
  mk_sig 4269 "get_mempolicy" 5 [("int *", "policy"); ("unsigned long *", "nmask"); ("unsigned long", "maxnode"); ("unsigned long", "addr"); ("unsigned long", "flags")];
  mk_sig 4270 "set_mempolicy" 3 [("int", "mode"); ("const unsigned long *", "nmask"); ("unsigned long", "maxnode")];
  mk_sig 4271 "mq_open" 4 [("const char *", "u_name"); ("int", "oflag"); ("umode_t", "mode"); ("struct mq_attr *", "u_attr")];
  mk_sig 4272 "mq_unlink" 1 [("const char *", "u_name")];
  mk_sig 4273 "mq_timedsend" 5 [("mqd_t", "mqdes"); ("const char *", "u_msg_ptr"); ("size_t", "msg_len"); ("unsigned int", "msg_prio"); ("const struct __kernel_timespec *", "u_abs_timeout")];
  mk_sig 4274 "mq_timedreceive" 5 [("mqd_t", "mqdes"); ("char *", "u_msg_ptr"); ("size_t", "msg_len"); ("unsigned int *", "u_msg_prio"); ("const struct __kernel_timespec *", "u_abs_timeout")];
  mk_sig 4275 "mq_notify" 2 [("mqd_t", "mqdes"); ("const struct sigevent *", "u_notification")];
  mk_sig 4276 "mq_getsetattr" 3 [("mqd_t", "mqdes"); ("const struct mq_attr *", "u_mqstat"); ("struct mq_attr *", "u_omqstat")];
  mk_sig 4277 "vserver" 0 [];
  mk_sig 4278 "waitid" 5 [("int", "which"); ("pid_t", "upid"); ("struct siginfo *", "infop"); ("int", "options"); ("struct rusage *", "ru")];
  mk_sig 4280 "add_key" 5 [("const char *", "_type"); ("const char *", "_description"); ("const void *", "_payload"); ("size_t", "plen"); ("key_serial_t", "ringid")];
  mk_sig 4281 "request_key" 4 [("const char *", "_type"); ("const char *", "_description"); ("const char *", "_callout_info"); ("key_serial_t", "destringid")];
  mk_sig 4282 "keyctl" 5 [("int", "option"); ("unsigned long", "arg2"); ("unsigned long", "arg3"); ("unsigned long", "arg4"); ("unsigned long", "arg5")];
  mk_sig 4283 "set_thread_area" 1 [("unsigned long", "addr")];
  mk_sig 4284 "inotify_init" 0 [];
  mk_sig 4285 "inotify_add_watch" 3 [("int", "fd"); ("const char *", "pathname"); ("u32", "mask")]
].
Definition mips_native_3 : list LinuxSyscallSignature := [
  mk_sig 4286 "inotify_rm_watch" 2 [("int", "fd"); ("__s32", "wd")];
  mk_sig 4287 "migrate_pages" 4 [("pid_t", "pid"); ("unsigned long", "maxnode"); ("const unsigned long *", "old_nodes"); ("const unsigned long *", "new_nodes")];
  mk_sig 4288 "openat" 4 [("int", "dfd"); ("const char *", "filename"); ("int", "flags"); ("umode_t", "mode")];
  mk_sig 4289 "mkdirat" 3 [("int", "dfd"); ("const char *", "pathname"); ("umode_t", "mode")];
  mk_sig 4290 "mknodat" 4 [("int", "dfd"); ("const char *", "filename"); ("umode_t", "mode"); ("unsigned int", "dev")];
  mk_sig 4291 "fchownat" 5 [("int", "dfd"); ("const char *", "filename"); ("uid_t", "user"); ("gid_t", "group"); ("int", "flag")];
  mk_sig 4292 "futimesat" 3 [("int", "dfd"); ("const char *", "filename"); ("struct __kernel_old_timeval *", "utimes")];
  mk_sig 4293 "fstatat64" 4 [("int", "dfd"); ("const char *", "filename"); ("struct stat64 *", "statbuf"); ("int", "flag")];
  mk_sig 4294 "unlinkat" 3 [("int", "dfd"); ("const char *", "pathname"); ("int", "flag")];
  mk_sig 4295 "renameat" 4 [("int", "olddfd"); ("const char *", "oldname"); ("int", "newdfd"); ("const char *", "newname")];
  mk_sig 4296 "linkat" 5 [("int", "olddfd"); ("const char *", "oldname"); ("int", "newdfd"); ("const char *", "newname"); ("int", "flags")];
  mk_sig 4297 "symlinkat" 3 [("const char *", "oldname"); ("int", "newdfd"); ("const char *", "newname")];
  mk_sig 4298 "readlinkat" 4 [("int", "dfd"); ("const char *", "pathname"); ("char *", "buf"); ("int", "bufsiz")];
  mk_sig 4299 "fchmodat" 3 [("int", "dfd"); ("const char *", "filename"); ("umode_t", "mode")];
  mk_sig 4300 "faccessat" 3 [("int", "dfd"); ("const char *", "filename"); ("int", "mode")];
  mk_sig 4301 "pselect6" 6 [("int", "n"); ("fd_set *", "inp"); ("fd_set *", "outp"); ("fd_set *", "exp"); ("struct __kernel_timespec *", "tsp"); ("void *", "sig")];
  mk_sig 4302 "ppoll" 5 [("struct pollfd *", "ufds"); ("unsigned int", "nfds"); ("struct __kernel_timespec *", "tsp"); ("const sigset_t *", "sigmask"); ("size_t", "sigsetsize")];
  mk_sig 4303 "unshare" 1 [("unsigned long", "unshare_flags")];
  mk_sig 4304 "splice" 6 [("int", "fd_in"); ("loff_t *", "off_in"); ("int", "fd_out"); ("loff_t *", "off_out"); ("size_t", "len"); ("unsigned int", "flags")];
  mk_sig 4305 "sync_file_range" 4 [("int", "fd"); ("loff_t", "offset"); ("loff_t", "nbytes"); ("unsigned int", "flags")];
  mk_sig 4306 "tee" 4 [("int", "fdin"); ("int", "fdout"); ("size_t", "len"); ("unsigned int", "flags")];
  mk_sig 4307 "vmsplice" 4 [("int", "fd"); ("const struct iovec *", "uiov"); ("unsigned long", "nr_segs"); ("unsigned int", "flags")];
  mk_sig 4308 "move_pages" 6 [("pid_t", "pid"); ("unsigned long", "nr_pages"); ("const void * *", "pages"); ("const int *", "nodes"); ("int *", "status"); ("int", "flags")];
  mk_sig 4309 "set_robust_list" 2 [("struct robust_list_head *", "head"); ("size_t", "len")];
  mk_sig 4310 "get_robust_list" 3 [("int", "pid"); ("struct robust_list_head * *", "head_ptr"); ("size_t *", "len_ptr")];
  mk_sig 4311 "kexec_load" 4 [("unsigned long", "entry"); ("unsigned long", "nr_segments"); ("struct kexec_segment *", "segments"); ("unsigned long", "flags")];
  mk_sig 4312 "getcpu" 3 [("unsigned *", "cpup"); ("unsigned *", "nodep"); ("struct getcpu_cache *", "unused")];
  mk_sig 4313 "epoll_pwait" 6 [("int", "epfd"); ("struct epoll_event *", "events"); ("int", "maxevents"); ("int", "timeout"); ("const sigset_t *", "sigmask"); ("size_t", "sigsetsize")];
  mk_sig 4314 "ioprio_set" 3 [("int", "which"); ("int", "who"); ("int", "ioprio")];
  mk_sig 4315 "ioprio_get" 2 [("int", "which"); ("int", "who")];
  mk_sig 4316 "utimensat" 4 [("int", "dfd"); ("const char *", "filename"); ("struct __kernel_timespec *", "utimes"); ("int", "flags")];
  mk_sig 4317 "signalfd" 3 [("int", "ufd"); ("sigset_t *", "user_mask"); ("size_t", "sizemask")];
  mk_sig 4318 "timerfd" 0 [];
  mk_sig 4319 "eventfd" 1 [("unsigned int", "count")];
  mk_sig 4320 "fallocate" 4 [("int", "fd"); ("int", "mode"); ("loff_t", "offset"); ("loff_t", "len")];
  mk_sig 4321 "timerfd_create" 2 [("int", "clockid"); ("int", "flags")];
  mk_sig 4322 "timerfd_gettime" 2 [("int", "ufd"); ("struct __kernel_itimerspec *", "otmr")];
  mk_sig 4323 "timerfd_settime" 4 [("int", "ufd"); ("int", "flags"); ("const struct __kernel_itimerspec *", "utmr"); ("struct __kernel_itimerspec *", "otmr")];
  mk_sig 4324 "signalfd4" 4 [("int", "ufd"); ("sigset_t *", "user_mask"); ("size_t", "sizemask"); ("int", "flags")];
  mk_sig 4325 "eventfd2" 2 [("unsigned int", "count"); ("int", "flags")];
  mk_sig 4326 "epoll_create1" 1 [("int", "flags")];
  mk_sig 4327 "dup3" 3 [("unsigned int", "oldfd"); ("unsigned int", "newfd"); ("int", "flags")];
  mk_sig 4328 "pipe2" 2 [("int *", "fildes"); ("int", "flags")];
  mk_sig 4329 "inotify_init1" 1 [("int", "flags")];
  mk_sig 4330 "preadv" 5 [("unsigned long", "fd"); ("const struct iovec *", "vec"); ("unsigned long", "vlen"); ("unsigned long", "pos_l"); ("unsigned long", "pos_h")];
  mk_sig 4331 "pwritev" 5 [("unsigned long", "fd"); ("const struct iovec *", "vec"); ("unsigned long", "vlen"); ("unsigned long", "pos_l"); ("unsigned long", "pos_h")];
  mk_sig 4332 "rt_tgsigqueueinfo" 4 [("pid_t", "tgid"); ("pid_t", "pid"); ("int", "sig"); ("siginfo_t *", "uinfo")];
  mk_sig 4333 "perf_event_open" 5 [("struct perf_event_attr *", "attr_uptr"); ("pid_t", "pid"); ("int", "cpu"); ("int", "group_fd"); ("unsigned long", "flags")];
  mk_sig 4334 "accept4" 4 [("int", "fd"); ("struct sockaddr *", "upeer_sockaddr"); ("int *", "upeer_addrlen"); ("int", "flags")];
  mk_sig 4335 "recvmmsg" 5 [("int", "fd"); ("struct mmsghdr *", "mmsg"); ("unsigned int", "vlen"); ("unsigned int", "flags"); ("struct __kernel_timespec *", "timeout")];
  mk_sig 4336 "fanotify_init" 2 [("unsigned int", "flags"); ("unsigned int", "event_f_flags")];
  mk_sig 4337 "fanotify_mark" 5 [("int", "fanotify_fd"); ("unsigned int", "flags"); ("__u64", "mask"); ("int", "dfd"); ("const char *", "pathname")];
  mk_sig 4338 "prlimit64" 4 [("pid_t", "pid"); ("unsigned int", "resource"); ("const struct rlimit64 *", "new_rlim"); ("struct rlimit64 *", "old_rlim")];
  mk_sig 4339 "name_to_handle_at" 5 [("int", "dfd"); ("const char *", "name"); ("struct file_handle *", "handle"); ("void *", "mnt_id"); ("int", "flag")];
  mk_sig 4340 "open_by_handle_at" 3 [("int", "mountdirfd"); ("struct file_handle *", "handle"); ("int", "flags")];
  mk_sig 4341 "clock_adjtime" 2 [("const clockid_t", "which_clock"); ("struct __kernel_timex *", "utx")];
  mk_sig 4342 "syncfs" 1 [("int", "fd")];
  mk_sig 4343 "sendmmsg" 4 [("int", "fd"); ("struct mmsghdr *", "mmsg"); ("unsigned int", "vlen"); ("unsigned int", "flags")];
  mk_sig 4344 "setns" 2 [("int", "fd"); ("int", "flags")];
  mk_sig 4345 "process_vm_readv" 6 [("pid_t", "pid"); ("const struct iovec *", "lvec"); ("unsigned long", "liovcnt"); ("const struct iovec *", "rvec"); ("unsigned long", "riovcnt"); ("unsigned long", "flags")];
  mk_sig 4346 "process_vm_writev" 6 [("pid_t", "pid"); ("const struct iovec *", "lvec"); ("unsigned long", "liovcnt"); ("const struct iovec *", "rvec"); ("unsigned long", "riovcnt"); ("unsigned long", "flags")];
  mk_sig 4347 "kcmp" 5 [("pid_t", "pid1"); ("pid_t", "pid2"); ("int", "type"); ("unsigned long", "idx1"); ("unsigned long", "idx2")];
  mk_sig 4348 "finit_module" 3 [("int", "fd"); ("const char *", "uargs"); ("int", "flags")];
  mk_sig 4349 "sched_setattr" 3 [("pid_t", "pid"); ("struct sched_attr *", "uattr"); ("unsigned int", "flags")];
  mk_sig 4350 "sched_getattr" 4 [("pid_t", "pid"); ("struct sched_attr *", "uattr"); ("unsigned int", "usize"); ("unsigned int", "flags")];
  mk_sig 4351 "renameat2" 5 [("int", "olddfd"); ("const char *", "oldname"); ("int", "newdfd"); ("const char *", "newname"); ("unsigned int", "flags")];
  mk_sig 4352 "seccomp" 3 [("unsigned int", "op"); ("unsigned int", "flags"); ("void *", "uargs")];
  mk_sig 4353 "getrandom" 3 [("char *", "ubuf"); ("size_t", "len"); ("unsigned int", "flags")];
  mk_sig 4354 "memfd_create" 2 [("const char *", "uname"); ("unsigned int", "flags")];
  mk_sig 4355 "bpf" 3 [("int", "cmd"); ("union bpf_attr *", "uattr"); ("unsigned int", "size")];
  mk_sig 4356 "execveat" 5 [("int", "fd"); ("const char *", "filename"); ("const char *const *", "argv"); ("const char *const *", "envp"); ("int", "flags")];
  mk_sig 4357 "userfaultfd" 1 [("int", "flags")];
  mk_sig 4358 "membarrier" 3 [("int", "cmd"); ("unsigned int", "flags"); ("int", "cpu_id")];
  mk_sig 4359 "mlock2" 3 [("unsigned long", "start"); ("size_t", "len"); ("int", "flags")];
  mk_sig 4360 "copy_file_range" 6 [("int", "fd_in"); ("loff_t *", "off_in"); ("int", "fd_out"); ("loff_t *", "off_out"); ("size_t", "len"); ("unsigned int", "flags")];
  mk_sig 4361 "preadv2" 6 [("unsigned long", "fd"); ("const struct iovec *", "vec"); ("unsigned long", "vlen"); ("unsigned long", "pos_l"); ("unsigned long", "pos_h"); ("rwf_t", "flags")];
  mk_sig 4362 "pwritev2" 6 [("unsigned long", "fd"); ("const struct iovec *", "vec"); ("unsigned long", "vlen"); ("unsigned long", "pos_l"); ("unsigned long", "pos_h"); ("rwf_t", "flags")];
  mk_sig 4363 "pkey_mprotect" 4 [("unsigned long", "start"); ("size_t", "len"); ("unsigned long", "prot"); ("int", "pkey")];
  mk_sig 4364 "pkey_alloc" 2 [("unsigned long", "flags"); ("unsigned long", "init_val")];
  mk_sig 4365 "pkey_free" 1 [("int", "pkey")];
  mk_sig 4366 "statx" 5 [("int", "dfd"); ("const char *", "filename"); ("unsigned", "flags"); ("unsigned int", "mask"); ("struct statx *", "buffer")];
  mk_sig 4367 "rseq" 4 [("struct rseq *", "rseq"); ("u32", "rseq_len"); ("int", "flags"); ("u32", "sig")];
  mk_sig 4368 "io_pgetevents" 6 [("aio_context_t", "ctx_id"); ("long", "min_nr"); ("long", "nr"); ("struct io_event *", "events"); ("struct __kernel_timespec *", "timeout"); ("const struct __aio_sigset *", "usig")];
  mk_sig 4393 "semget" 3 [("key_t", "key"); ("int", "nsems"); ("int", "semflg")];
  mk_sig 4394 "semctl" 4 [("int", "semid"); ("int", "semnum"); ("int", "cmd"); ("unsigned long", "arg")];
  mk_sig 4395 "shmget" 3 [("key_t", "key"); ("size_t", "size"); ("int", "shmflg")];
  mk_sig 4396 "shmctl" 3 [("int", "shmid"); ("int", "cmd"); ("struct shmid_ds *", "buf")];
  mk_sig 4397 "shmat" 3 [("int", "shmid"); ("char *", "shmaddr"); ("int", "shmflg")];
  mk_sig 4398 "shmdt" 1 [("char *", "shmaddr")];
  mk_sig 4399 "msgget" 2 [("key_t", "key"); ("int", "msgflg")];
  mk_sig 4400 "msgsnd" 4 [("int", "msqid"); ("struct msgbuf *", "msgp"); ("size_t", "msgsz"); ("int", "msgflg")];
  mk_sig 4401 "msgrcv" 5 [("int", "msqid"); ("struct msgbuf *", "msgp"); ("size_t", "msgsz"); ("long", "msgtyp"); ("int", "msgflg")];
  mk_sig 4402 "msgctl" 3 [("int", "msqid"); ("int", "cmd"); ("struct msqid_ds *", "buf")];
  mk_sig 4403 "clock_gettime64" 2 [("clockid_t", "which_clock"); ("struct __kernel_timespec *", "tp")];
  mk_sig 4404 "clock_settime64" 2 [("clockid_t", "which_clock"); ("const struct __kernel_timespec *", "tp")];
  mk_sig 4405 "clock_adjtime64" 2 [("clockid_t", "which_clock"); ("struct __kernel_timex *", "tx")];
  mk_sig 4406 "clock_getres_time64" 2 [("clockid_t", "which_clock"); ("struct __kernel_timespec *", "tp")];
  mk_sig 4407 "clock_nanosleep_time64" 4 [("clockid_t", "which_clock"); ("int", "flags"); ("const struct __kernel_timespec *", "rqtp"); ("struct __kernel_timespec *", "rmtp")];
  mk_sig 4408 "timer_gettime64" 2 [("timer_t", "timer_id"); ("struct __kernel_itimerspec *", "setting")];
  mk_sig 4409 "timer_settime64" 4 [("timer_t", "timer_id"); ("int", "flags"); ("const struct __kernel_itimerspec *", "new_setting"); ("struct __kernel_itimerspec *", "old_setting")];
  mk_sig 4410 "timerfd_gettime64" 2 [("int", "ufd"); ("struct __kernel_itimerspec *", "otmr")];
  mk_sig 4411 "timerfd_settime64" 4 [("int", "ufd"); ("int", "flags"); ("const struct __kernel_itimerspec *", "utmr"); ("struct __kernel_itimerspec *", "otmr")];
  mk_sig 4412 "utimensat_time64" 4 [("int", "dfd"); ("const char *", "filename"); ("struct __kernel_timespec *", "utimes"); ("int", "flags")];
  mk_sig 4413 "pselect6_time64" 6 [("int", "arg0"); ("fd_set *", "arg1"); ("fd_set *", "arg2"); ("fd_set *", "arg3"); ("struct __kernel_timespec *", "arg4"); ("void *", "arg5")];
  mk_sig 4414 "ppoll_time64" 5 [("struct pollfd *", "arg0"); ("unsigned", "int"); ("struct __kernel_timespec *", "arg2"); ("const sigset_t *", "arg3"); ("size_t", "arg4")];
  mk_sig 4416 "io_pgetevents_time64" 6 [("aio_context_t", "ctx_id"); ("long", "min_nr"); ("long", "nr"); ("struct io_event *", "events"); ("struct __kernel_timespec *", "timeout"); ("const struct __aio_sigset *", "sig")];
  mk_sig 4417 "recvmmsg_time64" 5 [("int", "fd"); ("struct compat_mmsghdr *", "mmsg"); ("unsigned int", "vlen"); ("unsigned int", "flags"); ("struct __kernel_timespec *", "timeout")];
  mk_sig 4418 "mq_timedsend_time64" 5 [("mqd_t", "mqdes"); ("const char *", "msg_ptr"); ("size_t", "msg_len"); ("unsigned int", "msg_prio"); ("const struct __kernel_timespec *", "abs_timeout")];
  mk_sig 4419 "mq_timedreceive_time64" 5 [("mqd_t", "mqdes"); ("char *", "msg_ptr"); ("size_t", "msg_len"); ("unsigned int *", "msg_prio"); ("const struct __kernel_timespec *", "abs_timeout")];
  mk_sig 4420 "semtimedop_time64" 4 [("int", "semid"); ("struct sembuf *", "sops"); ("unsigned", "nsops"); ("const struct __kernel_timespec *", "timeout")];
  mk_sig 4421 "rt_sigtimedwait_time64" 4 [("const sigset_t *", "uthese"); ("siginfo_t *", "uinfo"); ("const struct __kernel_timespec *", "uts"); ("size_t", "sigsetsize")];
  mk_sig 4422 "futex_time64" 6 [("u32 *", "uaddr"); ("int", "op"); ("u32", "val"); ("const struct __kernel_timespec *", "utime"); ("u32 *", "uaddr2"); ("u32", "val3")];
  mk_sig 4423 "sched_rr_get_interval_time64" 2 [("pid_t", "pid"); ("struct __kernel_timespec *", "interval")];
  mk_sig 4424 "pidfd_send_signal" 4 [("int", "pidfd"); ("int", "sig"); ("siginfo_t *", "info"); ("unsigned int", "flags")];
  mk_sig 4425 "io_uring_setup" 2 [("u32", "entries"); ("struct io_uring_params *", "params")];
  mk_sig 4426 "io_uring_enter" 6 [("unsigned int", "fd"); ("u32", "to_submit"); ("u32", "min_complete"); ("u32", "flags"); ("const void *", "argp"); ("size_t", "argsz")];
  mk_sig 4427 "io_uring_register" 4 [("unsigned int", "fd"); ("unsigned int", "opcode"); ("void *", "arg"); ("unsigned int", "nr_args")];
  mk_sig 4428 "open_tree" 3 [("int", "dfd"); ("const char *", "filename"); ("unsigned", "flags")];
  mk_sig 4429 "move_mount" 5 [("int", "from_dfd"); ("const char *", "from_pathname"); ("int", "to_dfd"); ("const char *", "to_pathname"); ("unsigned int", "flags")];
  mk_sig 4430 "fsopen" 2 [("const char *", "_fs_name"); ("unsigned int", "flags")];
  mk_sig 4431 "fsconfig" 5 [("int", "fd"); ("unsigned int", "cmd"); ("const char *", "_key"); ("const void *", "_value"); ("int", "aux")];
  mk_sig 4432 "fsmount" 3 [("int", "fs_fd"); ("unsigned int", "flags"); ("unsigned int", "attr_flags")];
  mk_sig 4433 "fspick" 3 [("int", "dfd"); ("const char *", "path"); ("unsigned int", "flags")];
  mk_sig 4434 "pidfd_open" 2 [("pid_t", "pid"); ("unsigned int", "flags")];
  mk_sig 4435 "clone3" 2 [("struct clone_args *", "uargs"); ("size_t", "size")];
  mk_sig 4436 "close_range" 3 [("unsigned int", "fd"); ("unsigned int", "max_fd"); ("unsigned int", "flags")];
  mk_sig 4437 "openat2" 4 [("int", "dfd"); ("const char *", "filename"); ("struct open_how *", "how"); ("size_t", "usize")];
  mk_sig 4438 "pidfd_getfd" 3 [("int", "pidfd"); ("int", "fd"); ("unsigned int", "flags")];
  mk_sig 4439 "faccessat2" 4 [("int", "dfd"); ("const char *", "filename"); ("int", "mode"); ("int", "flags")];
  mk_sig 4440 "process_madvise" 5 [("int", "pidfd"); ("const struct iovec *", "vec"); ("size_t", "vlen"); ("int", "behavior"); ("unsigned int", "flags")];
  mk_sig 4441 "epoll_pwait2" 6 [("int", "epfd"); ("struct epoll_event *", "events"); ("int", "maxevents"); ("const struct __kernel_timespec *", "timeout"); ("const sigset_t *", "sigmask"); ("size_t", "sigsetsize")];
  mk_sig 4442 "mount_setattr" 5 [("int", "dfd"); ("const char *", "path"); ("unsigned int", "flags"); ("struct mount_attr *", "uattr"); ("size_t", "usize")];
  mk_sig 4443 "quotactl_fd" 4 [("unsigned int", "fd"); ("unsigned int", "cmd"); ("qid_t", "id"); ("void *", "addr")];
  mk_sig 4444 "landlock_create_ruleset" 3 [("const struct landlock_ruleset_attr *const", "attr"); ("const size_t", "size"); ("const __u32", "flags")];
  mk_sig 4445 "landlock_add_rule" 4 [("const int", "ruleset_fd"); ("const enum landlock_rule_type", "rule_type"); ("const void *const", "rule_attr"); ("const __u32", "flags")];
  mk_sig 4446 "landlock_restrict_self" 2 [("const int", "ruleset_fd"); ("const __u32", "flags")];
  mk_sig 4448 "process_mrelease" 2 [("int", "pidfd"); ("unsigned int", "flags")];
  mk_sig 4449 "futex_waitv" 5 [("struct futex_waitv *", "waiters"); ("unsigned int", "nr_futexes"); ("unsigned int", "flags"); ("struct __kernel_timespec *", "timeout"); ("clockid_t", "clockid")];
  mk_sig 4450 "set_mempolicy_home_node" 4 [("unsigned long", "start"); ("unsigned long", "len"); ("unsigned long", "home_node"); ("unsigned long", "flags")];
  mk_sig 4451 "cachestat" 4 [("unsigned int", "fd"); ("struct cachestat_range *", "cstat_range"); ("struct cachestat *", "cstat"); ("unsigned int", "flags")]
].
Definition mips_native_4 : list LinuxSyscallSignature := [
  mk_sig 4452 "fchmodat2" 4 [("int", "dfd"); ("const char *", "filename"); ("umode_t", "mode"); ("unsigned int", "flags")];
  mk_sig 4453 "map_shadow_stack" 3 [("unsigned long", "addr"); ("unsigned long", "size"); ("unsigned int", "flags")];
  mk_sig 4454 "futex_wake" 4 [("void *", "uaddr"); ("unsigned long", "mask"); ("int", "nr"); ("unsigned int", "flags")];
  mk_sig 4455 "futex_wait" 6 [("void *", "uaddr"); ("unsigned long", "val"); ("unsigned long", "mask"); ("unsigned int", "flags"); ("struct __kernel_timespec *", "timeout"); ("clockid_t", "clockid")];
  mk_sig 4456 "futex_requeue" 4 [("struct futex_waitv *", "waiters"); ("unsigned int", "flags"); ("int", "nr_wake"); ("int", "nr_requeue")];
  mk_sig 4457 "statmount" 4 [("const struct mnt_id_req *", "req"); ("struct statmount *", "buf"); ("size_t", "bufsize"); ("unsigned int", "flags")];
  mk_sig 4458 "listmount" 4 [("const struct mnt_id_req *", "req"); ("u64 *", "mnt_ids"); ("size_t", "nr_mnt_ids"); ("unsigned int", "flags")];
  mk_sig 4459 "lsm_get_self_attr" 4 [("unsigned int", "attr"); ("struct lsm_ctx *", "ctx"); ("u32 *", "size"); ("u32", "flags")];
  mk_sig 4460 "lsm_set_self_attr" 4 [("unsigned int", "attr"); ("struct lsm_ctx *", "ctx"); ("u32", "size"); ("u32", "flags")];
  mk_sig 4461 "lsm_list_modules" 3 [("u64 *", "ids"); ("u32 *", "size"); ("u32", "flags")];
  mk_sig 4462 "mseal" 3 [("unsigned long", "start"); ("size_t", "len"); ("unsigned long", "flags")];
  mk_sig 4463 "setxattrat" 6 [("int", "dfd"); ("const char *", "pathname"); ("unsigned int", "at_flags"); ("const char *", "name"); ("const struct xattr_args *", "uargs"); ("size_t", "usize")];
  mk_sig 4464 "getxattrat" 6 [("int", "dfd"); ("const char *", "pathname"); ("unsigned int", "at_flags"); ("const char *", "name"); ("struct xattr_args *", "uargs"); ("size_t", "usize")];
  mk_sig 4465 "listxattrat" 5 [("int", "dfd"); ("const char *", "pathname"); ("unsigned int", "at_flags"); ("char *", "list"); ("size_t", "size")];
  mk_sig 4466 "removexattrat" 4 [("int", "dfd"); ("const char *", "pathname"); ("unsigned int", "at_flags"); ("const char *", "name")];
  mk_sig 4467 "open_tree_attr" 5 [("int", "dfd"); ("const char *", "filename"); ("unsigned", "flags"); ("struct mount_attr *", "uattr"); ("size_t", "usize")];
  mk_sig 4468 "file_getattr" 5 [("int", "dfd"); ("const char *", "filename"); ("struct file_attr *", "ufattr"); ("size_t", "usize"); ("unsigned int", "at_flags")];
  mk_sig 4469 "file_setattr" 5 [("int", "dfd"); ("const char *", "filename"); ("struct file_attr *", "ufattr"); ("size_t", "usize"); ("unsigned int", "at_flags")];
  mk_sig 4470 "listns" 4 [("const struct ns_id_req *", "req"); ("u64 *", "ns_ids"); ("size_t", "nr_ns_ids"); ("unsigned int", "flags")]
].
Definition mips_frida_syscall_signatures : list LinuxSyscallSignature :=
  mips_native_1 ++ mips_native_2 ++ mips_native_3 ++ mips_native_4.

Definition mips64_native_1 : list LinuxSyscallSignature := [
  mk_sig 5000 "read" 3 [("unsigned int", "fd"); ("char *", "buf"); ("size_t", "count")];
  mk_sig 5001 "write" 3 [("unsigned int", "fd"); ("const char *", "buf"); ("size_t", "count")];
  mk_sig 5002 "open" 3 [("const char *", "filename"); ("int", "flags"); ("umode_t", "mode")];
  mk_sig 5003 "close" 1 [("unsigned int", "fd")];
  mk_sig 5004 "stat" 2 [("const char *", "filename"); ("struct stat *", "statbuf")];
  mk_sig 5005 "fstat" 2 [("unsigned int", "fd"); ("struct stat *", "statbuf")];
  mk_sig 5006 "lstat" 2 [("const char *", "filename"); ("struct stat *", "statbuf")];
  mk_sig 5007 "poll" 3 [("struct pollfd *", "ufds"); ("unsigned int", "nfds"); ("int", "timeout_msecs")];
  mk_sig 5008 "lseek" 3 [("unsigned int", "fd"); ("off_t", "offset"); ("unsigned int", "whence")];
  mk_sig 5009 "mmap" 6 [("unsigned long", "addr"); ("unsigned long", "len"); ("unsigned long", "prot"); ("unsigned long", "flags"); ("unsigned long", "fd"); ("off_t", "offset")];
  mk_sig 5010 "mprotect" 3 [("unsigned long", "start"); ("size_t", "len"); ("unsigned long", "prot")];
  mk_sig 5011 "munmap" 2 [("unsigned long", "addr"); ("size_t", "len")];
  mk_sig 5012 "brk" 1 [("unsigned long", "brk")];
  mk_sig 5013 "rt_sigaction" 4 [("int", "sig"); ("const struct sigaction *", "act"); ("struct sigaction *", "oact"); ("size_t", "sigsetsize")];
  mk_sig 5014 "rt_sigprocmask" 4 [("int", "how"); ("sigset_t *", "nset"); ("sigset_t *", "oset"); ("size_t", "sigsetsize")];
  mk_sig 5015 "ioctl" 3 [("unsigned int", "fd"); ("unsigned int", "cmd"); ("unsigned long", "arg")];
  mk_sig 5016 "pread64" 4 [("unsigned int", "fd"); ("char *", "buf"); ("size_t", "count"); ("loff_t", "pos")];
  mk_sig 5017 "pwrite64" 4 [("unsigned int", "fd"); ("const char *", "buf"); ("size_t", "count"); ("loff_t", "pos")];
  mk_sig 5018 "readv" 3 [("unsigned long", "fd"); ("const struct iovec *", "vec"); ("unsigned long", "vlen")];
  mk_sig 5019 "writev" 3 [("unsigned long", "fd"); ("const struct iovec *", "vec"); ("unsigned long", "vlen")];
  mk_sig 5020 "access" 2 [("const char *", "filename"); ("int", "mode")];
  mk_sig 5021 "pipe" 1 [("int *", "fildes")];
  mk_sig 5022 "_newselect" 5 [("int", "n"); ("fd_set *", "inp"); ("fd_set *", "outp"); ("fd_set *", "exp"); ("struct __kernel_old_timeval *", "tvp")];
  mk_sig 5023 "sched_yield" 0 [];
  mk_sig 5024 "mremap" 5 [("unsigned long", "addr"); ("unsigned long", "old_len"); ("unsigned long", "new_len"); ("unsigned long", "flags"); ("unsigned long", "new_addr")];
  mk_sig 5025 "msync" 3 [("unsigned long", "start"); ("size_t", "len"); ("int", "flags")];
  mk_sig 5026 "mincore" 3 [("unsigned long", "start"); ("size_t", "len"); ("unsigned char *", "vec")];
  mk_sig 5027 "madvise" 3 [("unsigned long", "start"); ("size_t", "len_in"); ("int", "behavior")];
  mk_sig 5028 "shmget" 3 [("key_t", "key"); ("size_t", "size"); ("int", "shmflg")];
  mk_sig 5029 "shmat" 3 [("int", "shmid"); ("char *", "shmaddr"); ("int", "shmflg")];
  mk_sig 5030 "shmctl" 3 [("int", "shmid"); ("int", "cmd"); ("struct shmid_ds *", "buf")];
  mk_sig 5031 "dup" 1 [("unsigned int", "fildes")];
  mk_sig 5032 "dup2" 2 [("unsigned int", "oldfd"); ("unsigned int", "newfd")];
  mk_sig 5033 "pause" 0 [];
  mk_sig 5034 "nanosleep" 2 [("struct __kernel_timespec *", "rqtp"); ("struct __kernel_timespec *", "rmtp")];
  mk_sig 5035 "getitimer" 2 [("int", "which"); ("struct __kernel_old_itimerval *", "value")];
  mk_sig 5036 "setitimer" 3 [("int", "which"); ("struct __kernel_old_itimerval *", "value"); ("struct __kernel_old_itimerval *", "ovalue")];
  mk_sig 5037 "alarm" 1 [("unsigned int", "seconds")];
  mk_sig 5038 "getpid" 0 [];
  mk_sig 5039 "sendfile" 4 [("int", "out_fd"); ("int", "in_fd"); ("off_t *", "offset"); ("size_t", "count")];
  mk_sig 5040 "socket" 3 [("int", "family"); ("int", "type"); ("int", "protocol")];
  mk_sig 5041 "connect" 3 [("int", "fd"); ("struct sockaddr *", "uservaddr"); ("int", "addrlen")];
  mk_sig 5042 "accept" 3 [("int", "fd"); ("struct sockaddr *", "upeer_sockaddr"); ("int *", "upeer_addrlen")];
  mk_sig 5043 "sendto" 6 [("int", "fd"); ("void *", "buff"); ("size_t", "len"); ("unsigned int", "flags"); ("struct sockaddr *", "addr"); ("int", "addr_len")];
  mk_sig 5044 "recvfrom" 6 [("int", "fd"); ("void *", "ubuf"); ("size_t", "size"); ("unsigned int", "flags"); ("struct sockaddr *", "addr"); ("int *", "addr_len")];
  mk_sig 5045 "sendmsg" 3 [("int", "fd"); ("struct user_msghdr *", "msg"); ("unsigned int", "flags")];
  mk_sig 5046 "recvmsg" 3 [("int", "fd"); ("struct user_msghdr *", "msg"); ("unsigned int", "flags")];
  mk_sig 5047 "shutdown" 2 [("int", "fd"); ("int", "how")];
  mk_sig 5048 "bind" 3 [("int", "fd"); ("struct sockaddr *", "umyaddr"); ("int", "addrlen")];
  mk_sig 5049 "listen" 2 [("int", "fd"); ("int", "backlog")];
  mk_sig 5050 "getsockname" 3 [("int", "fd"); ("struct sockaddr *", "usockaddr"); ("int *", "usockaddr_len")];
  mk_sig 5051 "getpeername" 3 [("int", "fd"); ("struct sockaddr *", "usockaddr"); ("int *", "usockaddr_len")];
  mk_sig 5052 "socketpair" 4 [("int", "family"); ("int", "type"); ("int", "protocol"); ("int *", "usockvec")];
  mk_sig 5053 "setsockopt" 5 [("int", "fd"); ("int", "level"); ("int", "optname"); ("char *", "optval"); ("int", "optlen")];
  mk_sig 5054 "getsockopt" 5 [("int", "fd"); ("int", "level"); ("int", "optname"); ("char *", "optval"); ("int *", "optlen")];
  mk_sig 5055 "clone" 5 [("unsigned long", "clone_flags"); ("unsigned long", "newsp"); ("int *", "parent_tidptr"); ("int *", "child_tidptr"); ("unsigned long", "tls")];
  mk_sig 5056 "fork" 0 [];
  mk_sig 5057 "execve" 3 [("const char *", "filename"); ("const char *const *", "argv"); ("const char *const *", "envp")];
  mk_sig 5058 "exit" 1 [("int", "error_code")];
  mk_sig 5059 "wait4" 4 [("pid_t", "upid"); ("int *", "stat_addr"); ("int", "options"); ("struct rusage *", "ru")];
  mk_sig 5060 "kill" 2 [("pid_t", "pid"); ("int", "sig")];
  mk_sig 5061 "uname" 1 [("struct old_utsname *", "name")];
  mk_sig 5062 "semget" 3 [("key_t", "key"); ("int", "nsems"); ("int", "semflg")];
  mk_sig 5063 "semop" 3 [("int", "semid"); ("struct sembuf *", "tsops"); ("unsigned", "nsops")];
  mk_sig 5064 "semctl" 4 [("int", "semid"); ("int", "semnum"); ("int", "cmd"); ("unsigned long", "arg")];
  mk_sig 5065 "shmdt" 1 [("char *", "shmaddr")];
  mk_sig 5066 "msgget" 2 [("key_t", "key"); ("int", "msgflg")];
  mk_sig 5067 "msgsnd" 4 [("int", "msqid"); ("struct msgbuf *", "msgp"); ("size_t", "msgsz"); ("int", "msgflg")];
  mk_sig 5068 "msgrcv" 5 [("int", "msqid"); ("struct msgbuf *", "msgp"); ("size_t", "msgsz"); ("long", "msgtyp"); ("int", "msgflg")];
  mk_sig 5069 "msgctl" 3 [("int", "msqid"); ("int", "cmd"); ("struct msqid_ds *", "buf")];
  mk_sig 5070 "fcntl" 3 [("unsigned int", "fd"); ("unsigned int", "cmd"); ("unsigned long", "arg")];
  mk_sig 5071 "flock" 2 [("unsigned int", "fd"); ("unsigned int", "cmd")];
  mk_sig 5072 "fsync" 1 [("unsigned int", "fd")];
  mk_sig 5073 "fdatasync" 1 [("unsigned int", "fd")];
  mk_sig 5074 "truncate" 2 [("const char *", "path"); ("long", "length")];
  mk_sig 5075 "ftruncate" 2 [("unsigned int", "fd"); ("off_t", "length")];
  mk_sig 5076 "getdents" 3 [("unsigned int", "fd"); ("struct linux_dirent *", "dirent"); ("unsigned int", "count")];
  mk_sig 5077 "getcwd" 2 [("char *", "buf"); ("unsigned long", "size")];
  mk_sig 5078 "chdir" 1 [("const char *", "filename")];
  mk_sig 5079 "fchdir" 1 [("unsigned int", "fd")];
  mk_sig 5080 "rename" 2 [("const char *", "oldname"); ("const char *", "newname")];
  mk_sig 5081 "mkdir" 2 [("const char *", "pathname"); ("umode_t", "mode")];
  mk_sig 5082 "rmdir" 1 [("const char *", "pathname")];
  mk_sig 5083 "creat" 2 [("const char *", "pathname"); ("umode_t", "mode")];
  mk_sig 5084 "link" 2 [("const char *", "oldname"); ("const char *", "newname")];
  mk_sig 5085 "unlink" 1 [("const char *", "pathname")];
  mk_sig 5086 "symlink" 2 [("const char *", "oldname"); ("const char *", "newname")];
  mk_sig 5087 "readlink" 3 [("const char *", "path"); ("char *", "buf"); ("int", "bufsiz")];
  mk_sig 5088 "chmod" 2 [("const char *", "filename"); ("umode_t", "mode")];
  mk_sig 5089 "fchmod" 2 [("unsigned int", "fd"); ("umode_t", "mode")];
  mk_sig 5090 "chown" 3 [("const char *", "filename"); ("uid_t", "user"); ("gid_t", "group")];
  mk_sig 5091 "fchown" 3 [("unsigned int", "fd"); ("uid_t", "user"); ("gid_t", "group")];
  mk_sig 5092 "lchown" 3 [("const char *", "filename"); ("uid_t", "user"); ("gid_t", "group")];
  mk_sig 5093 "umask" 1 [("int", "mask")];
  mk_sig 5094 "gettimeofday" 2 [("struct __kernel_old_timeval *", "tv"); ("struct timezone *", "tz")];
  mk_sig 5095 "getrlimit" 2 [("unsigned int", "resource"); ("struct rlimit *", "rlim")];
  mk_sig 5096 "getrusage" 2 [("int", "who"); ("struct rusage *", "ru")];
  mk_sig 5097 "sysinfo" 1 [("struct sysinfo *", "info")];
  mk_sig 5098 "times" 1 [("struct tms *", "tbuf")];
  mk_sig 5099 "ptrace" 4 [("long", "request"); ("long", "pid"); ("unsigned long", "addr"); ("unsigned long", "data")];
  mk_sig 5100 "getuid" 0 [];
  mk_sig 5101 "syslog" 3 [("int", "type"); ("char *", "buf"); ("int", "len")];
  mk_sig 5102 "getgid" 0 [];
  mk_sig 5103 "setuid" 1 [("uid_t", "uid")];
  mk_sig 5104 "setgid" 1 [("gid_t", "gid")];
  mk_sig 5105 "geteuid" 0 [];
  mk_sig 5106 "getegid" 0 [];
  mk_sig 5107 "setpgid" 2 [("pid_t", "pid"); ("pid_t", "pgid")];
  mk_sig 5108 "getppid" 0 [];
  mk_sig 5109 "getpgrp" 0 [];
  mk_sig 5110 "setsid" 0 [];
  mk_sig 5111 "setreuid" 2 [("uid_t", "ruid"); ("uid_t", "euid")];
  mk_sig 5112 "setregid" 2 [("gid_t", "rgid"); ("gid_t", "egid")];
  mk_sig 5113 "getgroups" 2 [("int", "gidsetsize"); ("gid_t *", "grouplist")];
  mk_sig 5114 "setgroups" 2 [("int", "gidsetsize"); ("gid_t *", "grouplist")];
  mk_sig 5115 "setresuid" 3 [("uid_t", "ruid"); ("uid_t", "euid"); ("uid_t", "suid")];
  mk_sig 5116 "getresuid" 3 [("uid_t *", "ruidp"); ("uid_t *", "euidp"); ("uid_t *", "suidp")];
  mk_sig 5117 "setresgid" 3 [("gid_t", "rgid"); ("gid_t", "egid"); ("gid_t", "sgid")];
  mk_sig 5118 "getresgid" 3 [("gid_t *", "rgidp"); ("gid_t *", "egidp"); ("gid_t *", "sgidp")];
  mk_sig 5119 "getpgid" 1 [("pid_t", "pid")];
  mk_sig 5120 "setfsuid" 1 [("uid_t", "uid")];
  mk_sig 5121 "setfsgid" 1 [("gid_t", "gid")];
  mk_sig 5122 "getsid" 1 [("pid_t", "pid")];
  mk_sig 5123 "capget" 2 [("cap_user_header_t", "header"); ("cap_user_data_t", "dataptr")];
  mk_sig 5124 "capset" 2 [("cap_user_header_t", "header"); ("const cap_user_data_t", "data")];
  mk_sig 5125 "rt_sigpending" 2 [("sigset_t *", "uset"); ("size_t", "sigsetsize")];
  mk_sig 5126 "rt_sigtimedwait" 4 [("const sigset_t *", "uthese"); ("siginfo_t *", "uinfo"); ("const struct __kernel_timespec *", "uts"); ("size_t", "sigsetsize")];
  mk_sig 5127 "rt_sigqueueinfo" 3 [("pid_t", "pid"); ("int", "sig"); ("siginfo_t *", "uinfo")];
  mk_sig 5128 "rt_sigsuspend" 2 [("sigset_t *", "unewset"); ("size_t", "sigsetsize")];
  mk_sig 5129 "sigaltstack" 2 [("const stack_t *", "uss"); ("stack_t *", "uoss")];
  mk_sig 5130 "utime" 2 [("char *", "filename"); ("struct utimbuf *", "times")];
  mk_sig 5131 "mknod" 3 [("const char *", "filename"); ("umode_t", "mode"); ("unsigned", "dev")];
  mk_sig 5132 "personality" 1 [("unsigned int", "personality")];
  mk_sig 5133 "ustat" 2 [("unsigned", "dev"); ("struct ustat *", "ubuf")];
  mk_sig 5134 "statfs" 2 [("const char *", "pathname"); ("struct statfs *", "buf")];
  mk_sig 5135 "fstatfs" 2 [("unsigned int", "fd"); ("struct statfs *", "buf")];
  mk_sig 5136 "sysfs" 3 [("int", "option"); ("unsigned long", "arg1"); ("unsigned long", "arg2")];
  mk_sig 5137 "getpriority" 2 [("int", "which"); ("int", "who")];
  mk_sig 5138 "setpriority" 3 [("int", "which"); ("int", "who"); ("int", "niceval")];
  mk_sig 5139 "sched_setparam" 2 [("pid_t", "pid"); ("struct sched_param *", "param")]
].
Definition mips64_native_2 : list LinuxSyscallSignature := [
  mk_sig 5140 "sched_getparam" 2 [("pid_t", "pid"); ("struct sched_param *", "param")];
  mk_sig 5141 "sched_setscheduler" 3 [("pid_t", "pid"); ("int", "policy"); ("struct sched_param *", "param")];
  mk_sig 5142 "sched_getscheduler" 1 [("pid_t", "pid")];
  mk_sig 5143 "sched_get_priority_max" 1 [("int", "policy")];
  mk_sig 5144 "sched_get_priority_min" 1 [("int", "policy")];
  mk_sig 5145 "sched_rr_get_interval" 2 [("pid_t", "pid"); ("struct __kernel_timespec *", "interval")];
  mk_sig 5146 "mlock" 2 [("unsigned long", "start"); ("size_t", "len")];
  mk_sig 5147 "munlock" 2 [("unsigned long", "start"); ("size_t", "len")];
  mk_sig 5148 "mlockall" 1 [("int", "flags")];
  mk_sig 5149 "munlockall" 0 [];
  mk_sig 5150 "vhangup" 0 [];
  mk_sig 5151 "pivot_root" 2 [("const char *", "new_root"); ("const char *", "put_old")];
  mk_sig 5152 "_sysctl" 0 [];
  mk_sig 5153 "prctl" 5 [("int", "option"); ("unsigned long", "arg2"); ("unsigned long", "arg3"); ("unsigned long", "arg4"); ("unsigned long", "arg5")];
  mk_sig 5154 "adjtimex" 1 [("struct __kernel_timex *", "txc_p")];
  mk_sig 5155 "setrlimit" 2 [("unsigned int", "resource"); ("struct rlimit *", "rlim")];
  mk_sig 5156 "chroot" 1 [("const char *", "filename")];
  mk_sig 5157 "sync" 0 [];
  mk_sig 5158 "acct" 1 [("const char *", "name")];
  mk_sig 5159 "settimeofday" 2 [("struct __kernel_old_timeval *", "tv"); ("struct timezone *", "tz")];
  mk_sig 5160 "mount" 5 [("char *", "dev_name"); ("char *", "dir_name"); ("char *", "type"); ("unsigned long", "flags"); ("void *", "data")];
  mk_sig 5161 "umount2" 2 [("char *", "name"); ("int", "flags")];
  mk_sig 5162 "swapon" 2 [("const char *", "specialfile"); ("int", "swap_flags")];
  mk_sig 5163 "swapoff" 1 [("const char *", "specialfile")];
  mk_sig 5164 "reboot" 4 [("int", "magic1"); ("int", "magic2"); ("unsigned int", "cmd"); ("void *", "arg")];
  mk_sig 5165 "sethostname" 2 [("char *", "name"); ("int", "len")];
  mk_sig 5166 "setdomainname" 2 [("char *", "name"); ("int", "len")];
  mk_sig 5167 "create_module" 0 [];
  mk_sig 5168 "init_module" 3 [("void *", "umod"); ("unsigned long", "len"); ("const char *", "uargs")];
  mk_sig 5169 "delete_module" 2 [("const char *", "name_user"); ("unsigned int", "flags")];
  mk_sig 5170 "get_kernel_syms" 0 [];
  mk_sig 5171 "query_module" 0 [];
  mk_sig 5172 "quotactl" 4 [("unsigned int", "cmd"); ("const char *", "special"); ("qid_t", "id"); ("void *", "addr")];
  mk_sig 5173 "nfsservctl" 0 [];
  mk_sig 5174 "getpmsg" 0 [];
  mk_sig 5175 "putpmsg" 0 [];
  mk_sig 5176 "afs_syscall" 0 [];
  mk_sig 5177 "reserved177" 0 [];
  mk_sig 5178 "gettid" 0 [];
  mk_sig 5179 "readahead" 3 [("int", "fd"); ("loff_t", "offset"); ("size_t", "count")];
  mk_sig 5180 "setxattr" 5 [("const char *", "pathname"); ("const char *", "name"); ("const void *", "value"); ("size_t", "size"); ("int", "flags")];
  mk_sig 5181 "lsetxattr" 5 [("const char *", "pathname"); ("const char *", "name"); ("const void *", "value"); ("size_t", "size"); ("int", "flags")];
  mk_sig 5182 "fsetxattr" 5 [("int", "fd"); ("const char *", "name"); ("const void *", "value"); ("size_t", "size"); ("int", "flags")];
  mk_sig 5183 "getxattr" 4 [("const char *", "pathname"); ("const char *", "name"); ("void *", "value"); ("size_t", "size")];
  mk_sig 5184 "lgetxattr" 4 [("const char *", "pathname"); ("const char *", "name"); ("void *", "value"); ("size_t", "size")];
  mk_sig 5185 "fgetxattr" 4 [("int", "fd"); ("const char *", "name"); ("void *", "value"); ("size_t", "size")];
  mk_sig 5186 "listxattr" 3 [("const char *", "pathname"); ("char *", "list"); ("size_t", "size")];
  mk_sig 5187 "llistxattr" 3 [("const char *", "pathname"); ("char *", "list"); ("size_t", "size")];
  mk_sig 5188 "flistxattr" 3 [("int", "fd"); ("char *", "list"); ("size_t", "size")];
  mk_sig 5189 "removexattr" 2 [("const char *", "pathname"); ("const char *", "name")];
  mk_sig 5190 "lremovexattr" 2 [("const char *", "pathname"); ("const char *", "name")];
  mk_sig 5191 "fremovexattr" 2 [("int", "fd"); ("const char *", "name")];
  mk_sig 5192 "tkill" 2 [("pid_t", "pid"); ("int", "sig")];
  mk_sig 5193 "reserved193" 0 [];
  mk_sig 5194 "futex" 6 [("u32 *", "uaddr"); ("int", "op"); ("u32", "val"); ("const struct __kernel_timespec *", "utime"); ("u32 *", "uaddr2"); ("u32", "val3")];
  mk_sig 5195 "sched_setaffinity" 3 [("pid_t", "pid"); ("unsigned int", "len"); ("unsigned long *", "user_mask_ptr")];
  mk_sig 5196 "sched_getaffinity" 3 [("pid_t", "pid"); ("unsigned int", "len"); ("unsigned long *", "user_mask_ptr")];
  mk_sig 5197 "cacheflush" 3 [("unsigned long", "addr"); ("unsigned long", "bytes"); ("unsigned int", "cache")];
  mk_sig 5198 "cachectl" 3 [("char *", "addr"); ("int", "nbytes"); ("int", "op")];
  mk_sig 5199 "sysmips" 3 [("long", "cmd"); ("long", "arg1"); ("long", "arg2")];
  mk_sig 5200 "io_setup" 2 [("unsigned", "nr_events"); ("aio_context_t *", "ctxp")];
  mk_sig 5201 "io_destroy" 1 [("aio_context_t", "ctx")];
  mk_sig 5202 "io_getevents" 5 [("aio_context_t", "ctx_id"); ("long", "min_nr"); ("long", "nr"); ("struct io_event *", "events"); ("struct __kernel_timespec *", "timeout")];
  mk_sig 5203 "io_submit" 3 [("aio_context_t", "ctx_id"); ("long", "nr"); ("struct iocb * *", "iocbpp")];
  mk_sig 5204 "io_cancel" 3 [("aio_context_t", "ctx_id"); ("struct iocb *", "iocb"); ("struct io_event *", "result")];
  mk_sig 5205 "exit_group" 1 [("int", "error_code")];
  mk_sig 5206 "lookup_dcookie" 0 [];
  mk_sig 5207 "epoll_create" 1 [("int", "size")];
  mk_sig 5208 "epoll_ctl" 4 [("int", "epfd"); ("int", "op"); ("int", "fd"); ("struct epoll_event *", "event")];
  mk_sig 5209 "epoll_wait" 4 [("int", "epfd"); ("struct epoll_event *", "events"); ("int", "maxevents"); ("int", "timeout")];
  mk_sig 5210 "remap_file_pages" 5 [("unsigned long", "start"); ("unsigned long", "size"); ("unsigned long", "prot"); ("unsigned long", "pgoff"); ("unsigned long", "flags")];
  mk_sig 5212 "set_tid_address" 1 [("int *", "tidptr")];
  mk_sig 5213 "restart_syscall" 0 [];
  mk_sig 5214 "semtimedop" 4 [("int", "semid"); ("struct sembuf *", "tsops"); ("unsigned int", "nsops"); ("const struct __kernel_timespec *", "timeout")];
  mk_sig 5215 "fadvise64" 4 [("int", "fd"); ("loff_t", "offset"); ("loff_t", "len"); ("int", "advice")];
  mk_sig 5216 "timer_create" 3 [("const clockid_t", "which_clock"); ("struct sigevent *", "timer_event_spec"); ("timer_t *", "created_timer_id")];
  mk_sig 5217 "timer_settime" 4 [("timer_t", "timer_id"); ("int", "flags"); ("const struct __kernel_itimerspec *", "new_setting"); ("struct __kernel_itimerspec *", "old_setting")];
  mk_sig 5218 "timer_gettime" 2 [("timer_t", "timer_id"); ("struct __kernel_itimerspec *", "setting")];
  mk_sig 5219 "timer_getoverrun" 1 [("timer_t", "timer_id")];
  mk_sig 5220 "timer_delete" 1 [("timer_t", "timer_id")];
  mk_sig 5221 "clock_settime" 2 [("const clockid_t", "which_clock"); ("const struct __kernel_timespec *", "tp")];
  mk_sig 5222 "clock_gettime" 2 [("const clockid_t", "which_clock"); ("struct __kernel_timespec *", "tp")];
  mk_sig 5223 "clock_getres" 2 [("const clockid_t", "which_clock"); ("struct __kernel_timespec *", "tp")];
  mk_sig 5224 "clock_nanosleep" 4 [("const clockid_t", "which_clock"); ("int", "flags"); ("const struct __kernel_timespec *", "rqtp"); ("struct __kernel_timespec *", "rmtp")];
  mk_sig 5225 "tgkill" 3 [("pid_t", "tgid"); ("pid_t", "pid"); ("int", "sig")];
  mk_sig 5226 "utimes" 2 [("char *", "filename"); ("struct __kernel_old_timeval *", "utimes")];
  mk_sig 5227 "mbind" 6 [("unsigned long", "start"); ("unsigned long", "len"); ("unsigned long", "mode"); ("const unsigned long *", "nmask"); ("unsigned long", "maxnode"); ("unsigned int", "flags")];
  mk_sig 5228 "get_mempolicy" 5 [("int *", "policy"); ("unsigned long *", "nmask"); ("unsigned long", "maxnode"); ("unsigned long", "addr"); ("unsigned long", "flags")];
  mk_sig 5229 "set_mempolicy" 3 [("int", "mode"); ("const unsigned long *", "nmask"); ("unsigned long", "maxnode")];
  mk_sig 5230 "mq_open" 4 [("const char *", "u_name"); ("int", "oflag"); ("umode_t", "mode"); ("struct mq_attr *", "u_attr")];
  mk_sig 5231 "mq_unlink" 1 [("const char *", "u_name")];
  mk_sig 5232 "mq_timedsend" 5 [("mqd_t", "mqdes"); ("const char *", "u_msg_ptr"); ("size_t", "msg_len"); ("unsigned int", "msg_prio"); ("const struct __kernel_timespec *", "u_abs_timeout")];
  mk_sig 5233 "mq_timedreceive" 5 [("mqd_t", "mqdes"); ("char *", "u_msg_ptr"); ("size_t", "msg_len"); ("unsigned int *", "u_msg_prio"); ("const struct __kernel_timespec *", "u_abs_timeout")];
  mk_sig 5234 "mq_notify" 2 [("mqd_t", "mqdes"); ("const struct sigevent *", "u_notification")];
  mk_sig 5235 "mq_getsetattr" 3 [("mqd_t", "mqdes"); ("const struct mq_attr *", "u_mqstat"); ("struct mq_attr *", "u_omqstat")];
  mk_sig 5236 "vserver" 0 [];
  mk_sig 5237 "waitid" 5 [("int", "which"); ("pid_t", "upid"); ("struct siginfo *", "infop"); ("int", "options"); ("struct rusage *", "ru")];
  mk_sig 5239 "add_key" 5 [("const char *", "_type"); ("const char *", "_description"); ("const void *", "_payload"); ("size_t", "plen"); ("key_serial_t", "ringid")];
  mk_sig 5240 "request_key" 4 [("const char *", "_type"); ("const char *", "_description"); ("const char *", "_callout_info"); ("key_serial_t", "destringid")];
  mk_sig 5241 "keyctl" 5 [("int", "option"); ("unsigned long", "arg2"); ("unsigned long", "arg3"); ("unsigned long", "arg4"); ("unsigned long", "arg5")];
  mk_sig 5242 "set_thread_area" 1 [("unsigned long", "addr")];
  mk_sig 5243 "inotify_init" 0 [];
  mk_sig 5244 "inotify_add_watch" 3 [("int", "fd"); ("const char *", "pathname"); ("u32", "mask")];
  mk_sig 5245 "inotify_rm_watch" 2 [("int", "fd"); ("__s32", "wd")];
  mk_sig 5246 "migrate_pages" 4 [("pid_t", "pid"); ("unsigned long", "maxnode"); ("const unsigned long *", "old_nodes"); ("const unsigned long *", "new_nodes")];
  mk_sig 5247 "openat" 4 [("int", "dfd"); ("const char *", "filename"); ("int", "flags"); ("umode_t", "mode")];
  mk_sig 5248 "mkdirat" 3 [("int", "dfd"); ("const char *", "pathname"); ("umode_t", "mode")];
  mk_sig 5249 "mknodat" 4 [("int", "dfd"); ("const char *", "filename"); ("umode_t", "mode"); ("unsigned int", "dev")];
  mk_sig 5250 "fchownat" 5 [("int", "dfd"); ("const char *", "filename"); ("uid_t", "user"); ("gid_t", "group"); ("int", "flag")];
  mk_sig 5251 "futimesat" 3 [("int", "dfd"); ("const char *", "filename"); ("struct __kernel_old_timeval *", "utimes")];
  mk_sig 5252 "newfstatat" 4 [("int", "dfd"); ("const char *", "filename"); ("struct stat *", "statbuf"); ("int", "flag")];
  mk_sig 5253 "unlinkat" 3 [("int", "dfd"); ("const char *", "pathname"); ("int", "flag")];
  mk_sig 5254 "renameat" 4 [("int", "olddfd"); ("const char *", "oldname"); ("int", "newdfd"); ("const char *", "newname")];
  mk_sig 5255 "linkat" 5 [("int", "olddfd"); ("const char *", "oldname"); ("int", "newdfd"); ("const char *", "newname"); ("int", "flags")];
  mk_sig 5256 "symlinkat" 3 [("const char *", "oldname"); ("int", "newdfd"); ("const char *", "newname")];
  mk_sig 5257 "readlinkat" 4 [("int", "dfd"); ("const char *", "pathname"); ("char *", "buf"); ("int", "bufsiz")];
  mk_sig 5258 "fchmodat" 3 [("int", "dfd"); ("const char *", "filename"); ("umode_t", "mode")];
  mk_sig 5259 "faccessat" 3 [("int", "dfd"); ("const char *", "filename"); ("int", "mode")];
  mk_sig 5260 "pselect6" 6 [("int", "n"); ("fd_set *", "inp"); ("fd_set *", "outp"); ("fd_set *", "exp"); ("struct __kernel_timespec *", "tsp"); ("void *", "sig")];
  mk_sig 5261 "ppoll" 5 [("struct pollfd *", "ufds"); ("unsigned int", "nfds"); ("struct __kernel_timespec *", "tsp"); ("const sigset_t *", "sigmask"); ("size_t", "sigsetsize")];
  mk_sig 5262 "unshare" 1 [("unsigned long", "unshare_flags")];
  mk_sig 5263 "splice" 6 [("int", "fd_in"); ("loff_t *", "off_in"); ("int", "fd_out"); ("loff_t *", "off_out"); ("size_t", "len"); ("unsigned int", "flags")];
  mk_sig 5264 "sync_file_range" 4 [("int", "fd"); ("loff_t", "offset"); ("loff_t", "nbytes"); ("unsigned int", "flags")];
  mk_sig 5265 "tee" 4 [("int", "fdin"); ("int", "fdout"); ("size_t", "len"); ("unsigned int", "flags")];
  mk_sig 5266 "vmsplice" 4 [("int", "fd"); ("const struct iovec *", "uiov"); ("unsigned long", "nr_segs"); ("unsigned int", "flags")];
  mk_sig 5267 "move_pages" 6 [("pid_t", "pid"); ("unsigned long", "nr_pages"); ("const void * *", "pages"); ("const int *", "nodes"); ("int *", "status"); ("int", "flags")];
  mk_sig 5268 "set_robust_list" 2 [("struct robust_list_head *", "head"); ("size_t", "len")];
  mk_sig 5269 "get_robust_list" 3 [("int", "pid"); ("struct robust_list_head * *", "head_ptr"); ("size_t *", "len_ptr")];
  mk_sig 5270 "kexec_load" 4 [("unsigned long", "entry"); ("unsigned long", "nr_segments"); ("struct kexec_segment *", "segments"); ("unsigned long", "flags")];
  mk_sig 5271 "getcpu" 3 [("unsigned *", "cpup"); ("unsigned *", "nodep"); ("struct getcpu_cache *", "unused")];
  mk_sig 5272 "epoll_pwait" 6 [("int", "epfd"); ("struct epoll_event *", "events"); ("int", "maxevents"); ("int", "timeout"); ("const sigset_t *", "sigmask"); ("size_t", "sigsetsize")];
  mk_sig 5273 "ioprio_set" 3 [("int", "which"); ("int", "who"); ("int", "ioprio")];
  mk_sig 5274 "ioprio_get" 2 [("int", "which"); ("int", "who")];
  mk_sig 5275 "utimensat" 4 [("int", "dfd"); ("const char *", "filename"); ("struct __kernel_timespec *", "utimes"); ("int", "flags")];
  mk_sig 5276 "signalfd" 3 [("int", "ufd"); ("sigset_t *", "user_mask"); ("size_t", "sizemask")];
  mk_sig 5277 "timerfd" 0 [];
  mk_sig 5278 "eventfd" 1 [("unsigned int", "count")];
  mk_sig 5279 "fallocate" 4 [("int", "fd"); ("int", "mode"); ("loff_t", "offset"); ("loff_t", "len")];
  mk_sig 5280 "timerfd_create" 2 [("int", "clockid"); ("int", "flags")];
  mk_sig 5281 "timerfd_gettime" 2 [("int", "ufd"); ("struct __kernel_itimerspec *", "otmr")]
].
Definition mips64_native_3 : list LinuxSyscallSignature := [
  mk_sig 5282 "timerfd_settime" 4 [("int", "ufd"); ("int", "flags"); ("const struct __kernel_itimerspec *", "utmr"); ("struct __kernel_itimerspec *", "otmr")];
  mk_sig 5283 "signalfd4" 4 [("int", "ufd"); ("sigset_t *", "user_mask"); ("size_t", "sizemask"); ("int", "flags")];
  mk_sig 5284 "eventfd2" 2 [("unsigned int", "count"); ("int", "flags")];
  mk_sig 5285 "epoll_create1" 1 [("int", "flags")];
  mk_sig 5286 "dup3" 3 [("unsigned int", "oldfd"); ("unsigned int", "newfd"); ("int", "flags")];
  mk_sig 5287 "pipe2" 2 [("int *", "fildes"); ("int", "flags")];
  mk_sig 5288 "inotify_init1" 1 [("int", "flags")];
  mk_sig 5289 "preadv" 5 [("unsigned long", "fd"); ("const struct iovec *", "vec"); ("unsigned long", "vlen"); ("unsigned long", "pos_l"); ("unsigned long", "pos_h")];
  mk_sig 5290 "pwritev" 5 [("unsigned long", "fd"); ("const struct iovec *", "vec"); ("unsigned long", "vlen"); ("unsigned long", "pos_l"); ("unsigned long", "pos_h")];
  mk_sig 5291 "rt_tgsigqueueinfo" 4 [("pid_t", "tgid"); ("pid_t", "pid"); ("int", "sig"); ("siginfo_t *", "uinfo")];
  mk_sig 5292 "perf_event_open" 5 [("struct perf_event_attr *", "attr_uptr"); ("pid_t", "pid"); ("int", "cpu"); ("int", "group_fd"); ("unsigned long", "flags")];
  mk_sig 5293 "accept4" 4 [("int", "fd"); ("struct sockaddr *", "upeer_sockaddr"); ("int *", "upeer_addrlen"); ("int", "flags")];
  mk_sig 5294 "recvmmsg" 5 [("int", "fd"); ("struct mmsghdr *", "mmsg"); ("unsigned int", "vlen"); ("unsigned int", "flags"); ("struct __kernel_timespec *", "timeout")];
  mk_sig 5295 "fanotify_init" 2 [("unsigned int", "flags"); ("unsigned int", "event_f_flags")];
  mk_sig 5296 "fanotify_mark" 5 [("int", "fanotify_fd"); ("unsigned int", "flags"); ("__u64", "mask"); ("int", "dfd"); ("const char *", "pathname")];
  mk_sig 5297 "prlimit64" 4 [("pid_t", "pid"); ("unsigned int", "resource"); ("const struct rlimit64 *", "new_rlim"); ("struct rlimit64 *", "old_rlim")];
  mk_sig 5298 "name_to_handle_at" 5 [("int", "dfd"); ("const char *", "name"); ("struct file_handle *", "handle"); ("void *", "mnt_id"); ("int", "flag")];
  mk_sig 5299 "open_by_handle_at" 3 [("int", "mountdirfd"); ("struct file_handle *", "handle"); ("int", "flags")];
  mk_sig 5300 "clock_adjtime" 2 [("const clockid_t", "which_clock"); ("struct __kernel_timex *", "utx")];
  mk_sig 5301 "syncfs" 1 [("int", "fd")];
  mk_sig 5302 "sendmmsg" 4 [("int", "fd"); ("struct mmsghdr *", "mmsg"); ("unsigned int", "vlen"); ("unsigned int", "flags")];
  mk_sig 5303 "setns" 2 [("int", "fd"); ("int", "flags")];
  mk_sig 5304 "process_vm_readv" 6 [("pid_t", "pid"); ("const struct iovec *", "lvec"); ("unsigned long", "liovcnt"); ("const struct iovec *", "rvec"); ("unsigned long", "riovcnt"); ("unsigned long", "flags")];
  mk_sig 5305 "process_vm_writev" 6 [("pid_t", "pid"); ("const struct iovec *", "lvec"); ("unsigned long", "liovcnt"); ("const struct iovec *", "rvec"); ("unsigned long", "riovcnt"); ("unsigned long", "flags")];
  mk_sig 5306 "kcmp" 5 [("pid_t", "pid1"); ("pid_t", "pid2"); ("int", "type"); ("unsigned long", "idx1"); ("unsigned long", "idx2")];
  mk_sig 5307 "finit_module" 3 [("int", "fd"); ("const char *", "uargs"); ("int", "flags")];
  mk_sig 5308 "getdents64" 3 [("unsigned int", "fd"); ("struct linux_dirent64 *", "dirent"); ("unsigned int", "count")];
  mk_sig 5309 "sched_setattr" 3 [("pid_t", "pid"); ("struct sched_attr *", "uattr"); ("unsigned int", "flags")];
  mk_sig 5310 "sched_getattr" 4 [("pid_t", "pid"); ("struct sched_attr *", "uattr"); ("unsigned int", "usize"); ("unsigned int", "flags")];
  mk_sig 5311 "renameat2" 5 [("int", "olddfd"); ("const char *", "oldname"); ("int", "newdfd"); ("const char *", "newname"); ("unsigned int", "flags")];
  mk_sig 5312 "seccomp" 3 [("unsigned int", "op"); ("unsigned int", "flags"); ("void *", "uargs")];
  mk_sig 5313 "getrandom" 3 [("char *", "ubuf"); ("size_t", "len"); ("unsigned int", "flags")];
  mk_sig 5314 "memfd_create" 2 [("const char *", "uname"); ("unsigned int", "flags")];
  mk_sig 5315 "bpf" 3 [("int", "cmd"); ("union bpf_attr *", "uattr"); ("unsigned int", "size")];
  mk_sig 5316 "execveat" 5 [("int", "fd"); ("const char *", "filename"); ("const char *const *", "argv"); ("const char *const *", "envp"); ("int", "flags")];
  mk_sig 5317 "userfaultfd" 1 [("int", "flags")];
  mk_sig 5318 "membarrier" 3 [("int", "cmd"); ("unsigned int", "flags"); ("int", "cpu_id")];
  mk_sig 5319 "mlock2" 3 [("unsigned long", "start"); ("size_t", "len"); ("int", "flags")];
  mk_sig 5320 "copy_file_range" 6 [("int", "fd_in"); ("loff_t *", "off_in"); ("int", "fd_out"); ("loff_t *", "off_out"); ("size_t", "len"); ("unsigned int", "flags")];
  mk_sig 5321 "preadv2" 6 [("unsigned long", "fd"); ("const struct iovec *", "vec"); ("unsigned long", "vlen"); ("unsigned long", "pos_l"); ("unsigned long", "pos_h"); ("rwf_t", "flags")];
  mk_sig 5322 "pwritev2" 6 [("unsigned long", "fd"); ("const struct iovec *", "vec"); ("unsigned long", "vlen"); ("unsigned long", "pos_l"); ("unsigned long", "pos_h"); ("rwf_t", "flags")];
  mk_sig 5323 "pkey_mprotect" 4 [("unsigned long", "start"); ("size_t", "len"); ("unsigned long", "prot"); ("int", "pkey")];
  mk_sig 5324 "pkey_alloc" 2 [("unsigned long", "flags"); ("unsigned long", "init_val")];
  mk_sig 5325 "pkey_free" 1 [("int", "pkey")];
  mk_sig 5326 "statx" 5 [("int", "dfd"); ("const char *", "filename"); ("unsigned", "flags"); ("unsigned int", "mask"); ("struct statx *", "buffer")];
  mk_sig 5327 "rseq" 4 [("struct rseq *", "rseq"); ("u32", "rseq_len"); ("int", "flags"); ("u32", "sig")];
  mk_sig 5328 "io_pgetevents" 6 [("aio_context_t", "ctx_id"); ("long", "min_nr"); ("long", "nr"); ("struct io_event *", "events"); ("struct __kernel_timespec *", "timeout"); ("const struct __aio_sigset *", "usig")];
  mk_sig 5424 "pidfd_send_signal" 4 [("int", "pidfd"); ("int", "sig"); ("siginfo_t *", "info"); ("unsigned int", "flags")];
  mk_sig 5425 "io_uring_setup" 2 [("u32", "entries"); ("struct io_uring_params *", "params")];
  mk_sig 5426 "io_uring_enter" 6 [("unsigned int", "fd"); ("u32", "to_submit"); ("u32", "min_complete"); ("u32", "flags"); ("const void *", "argp"); ("size_t", "argsz")];
  mk_sig 5427 "io_uring_register" 4 [("unsigned int", "fd"); ("unsigned int", "opcode"); ("void *", "arg"); ("unsigned int", "nr_args")];
  mk_sig 5428 "open_tree" 3 [("int", "dfd"); ("const char *", "filename"); ("unsigned", "flags")];
  mk_sig 5429 "move_mount" 5 [("int", "from_dfd"); ("const char *", "from_pathname"); ("int", "to_dfd"); ("const char *", "to_pathname"); ("unsigned int", "flags")];
  mk_sig 5430 "fsopen" 2 [("const char *", "_fs_name"); ("unsigned int", "flags")];
  mk_sig 5431 "fsconfig" 5 [("int", "fd"); ("unsigned int", "cmd"); ("const char *", "_key"); ("const void *", "_value"); ("int", "aux")];
  mk_sig 5432 "fsmount" 3 [("int", "fs_fd"); ("unsigned int", "flags"); ("unsigned int", "attr_flags")];
  mk_sig 5433 "fspick" 3 [("int", "dfd"); ("const char *", "path"); ("unsigned int", "flags")];
  mk_sig 5434 "pidfd_open" 2 [("pid_t", "pid"); ("unsigned int", "flags")];
  mk_sig 5435 "clone3" 2 [("struct clone_args *", "uargs"); ("size_t", "size")];
  mk_sig 5436 "close_range" 3 [("unsigned int", "fd"); ("unsigned int", "max_fd"); ("unsigned int", "flags")];
  mk_sig 5437 "openat2" 4 [("int", "dfd"); ("const char *", "filename"); ("struct open_how *", "how"); ("size_t", "usize")];
  mk_sig 5438 "pidfd_getfd" 3 [("int", "pidfd"); ("int", "fd"); ("unsigned int", "flags")];
  mk_sig 5439 "faccessat2" 4 [("int", "dfd"); ("const char *", "filename"); ("int", "mode"); ("int", "flags")];
  mk_sig 5440 "process_madvise" 5 [("int", "pidfd"); ("const struct iovec *", "vec"); ("size_t", "vlen"); ("int", "behavior"); ("unsigned int", "flags")];
  mk_sig 5441 "epoll_pwait2" 6 [("int", "epfd"); ("struct epoll_event *", "events"); ("int", "maxevents"); ("const struct __kernel_timespec *", "timeout"); ("const sigset_t *", "sigmask"); ("size_t", "sigsetsize")];
  mk_sig 5442 "mount_setattr" 5 [("int", "dfd"); ("const char *", "path"); ("unsigned int", "flags"); ("struct mount_attr *", "uattr"); ("size_t", "usize")];
  mk_sig 5443 "quotactl_fd" 4 [("unsigned int", "fd"); ("unsigned int", "cmd"); ("qid_t", "id"); ("void *", "addr")];
  mk_sig 5444 "landlock_create_ruleset" 3 [("const struct landlock_ruleset_attr *const", "attr"); ("const size_t", "size"); ("const __u32", "flags")];
  mk_sig 5445 "landlock_add_rule" 4 [("const int", "ruleset_fd"); ("const enum landlock_rule_type", "rule_type"); ("const void *const", "rule_attr"); ("const __u32", "flags")];
  mk_sig 5446 "landlock_restrict_self" 2 [("const int", "ruleset_fd"); ("const __u32", "flags")];
  mk_sig 5448 "process_mrelease" 2 [("int", "pidfd"); ("unsigned int", "flags")];
  mk_sig 5449 "futex_waitv" 5 [("struct futex_waitv *", "waiters"); ("unsigned int", "nr_futexes"); ("unsigned int", "flags"); ("struct __kernel_timespec *", "timeout"); ("clockid_t", "clockid")];
  mk_sig 5450 "set_mempolicy_home_node" 4 [("unsigned long", "start"); ("unsigned long", "len"); ("unsigned long", "home_node"); ("unsigned long", "flags")];
  mk_sig 5451 "cachestat" 4 [("unsigned int", "fd"); ("struct cachestat_range *", "cstat_range"); ("struct cachestat *", "cstat"); ("unsigned int", "flags")];
  mk_sig 5452 "fchmodat2" 4 [("int", "dfd"); ("const char *", "filename"); ("umode_t", "mode"); ("unsigned int", "flags")];
  mk_sig 5453 "map_shadow_stack" 3 [("unsigned long", "addr"); ("unsigned long", "size"); ("unsigned int", "flags")];
  mk_sig 5454 "futex_wake" 4 [("void *", "uaddr"); ("unsigned long", "mask"); ("int", "nr"); ("unsigned int", "flags")];
  mk_sig 5455 "futex_wait" 6 [("void *", "uaddr"); ("unsigned long", "val"); ("unsigned long", "mask"); ("unsigned int", "flags"); ("struct __kernel_timespec *", "timeout"); ("clockid_t", "clockid")];
  mk_sig 5456 "futex_requeue" 4 [("struct futex_waitv *", "waiters"); ("unsigned int", "flags"); ("int", "nr_wake"); ("int", "nr_requeue")];
  mk_sig 5457 "statmount" 4 [("const struct mnt_id_req *", "req"); ("struct statmount *", "buf"); ("size_t", "bufsize"); ("unsigned int", "flags")];
  mk_sig 5458 "listmount" 4 [("const struct mnt_id_req *", "req"); ("u64 *", "mnt_ids"); ("size_t", "nr_mnt_ids"); ("unsigned int", "flags")];
  mk_sig 5459 "lsm_get_self_attr" 4 [("unsigned int", "attr"); ("struct lsm_ctx *", "ctx"); ("u32 *", "size"); ("u32", "flags")];
  mk_sig 5460 "lsm_set_self_attr" 4 [("unsigned int", "attr"); ("struct lsm_ctx *", "ctx"); ("u32", "size"); ("u32", "flags")];
  mk_sig 5461 "lsm_list_modules" 3 [("u64 *", "ids"); ("u32 *", "size"); ("u32", "flags")];
  mk_sig 5462 "mseal" 3 [("unsigned long", "start"); ("size_t", "len"); ("unsigned long", "flags")];
  mk_sig 5463 "setxattrat" 6 [("int", "dfd"); ("const char *", "pathname"); ("unsigned int", "at_flags"); ("const char *", "name"); ("const struct xattr_args *", "uargs"); ("size_t", "usize")];
  mk_sig 5464 "getxattrat" 6 [("int", "dfd"); ("const char *", "pathname"); ("unsigned int", "at_flags"); ("const char *", "name"); ("struct xattr_args *", "uargs"); ("size_t", "usize")];
  mk_sig 5465 "listxattrat" 5 [("int", "dfd"); ("const char *", "pathname"); ("unsigned int", "at_flags"); ("char *", "list"); ("size_t", "size")];
  mk_sig 5466 "removexattrat" 4 [("int", "dfd"); ("const char *", "pathname"); ("unsigned int", "at_flags"); ("const char *", "name")];
  mk_sig 5467 "open_tree_attr" 5 [("int", "dfd"); ("const char *", "filename"); ("unsigned", "flags"); ("struct mount_attr *", "uattr"); ("size_t", "usize")];
  mk_sig 5468 "file_getattr" 5 [("int", "dfd"); ("const char *", "filename"); ("struct file_attr *", "ufattr"); ("size_t", "usize"); ("unsigned int", "at_flags")];
  mk_sig 5469 "file_setattr" 5 [("int", "dfd"); ("const char *", "filename"); ("struct file_attr *", "ufattr"); ("size_t", "usize"); ("unsigned int", "at_flags")];
  mk_sig 5470 "listns" 4 [("const struct ns_id_req *", "req"); ("u64 *", "ns_ids"); ("size_t", "nr_ns_ids"); ("unsigned int", "flags")]
].
Definition mips64_frida_syscall_signatures : list LinuxSyscallSignature :=
  mips64_native_1 ++ mips64_native_2 ++ mips64_native_3.

Definition s390x_native_1 : list LinuxSyscallSignature := [
  mk_sig 1 "exit" 1 [("int", "error_code")];
  mk_sig 2 "fork" 0 [];
  mk_sig 3 "read" 3 [("unsigned int", "fd"); ("char *", "buf"); ("size_t", "count")];
  mk_sig 4 "write" 3 [("unsigned int", "fd"); ("const char *", "buf"); ("size_t", "count")];
  mk_sig 5 "open" 3 [("const char *", "filename"); ("int", "flags"); ("umode_t", "mode")];
  mk_sig 6 "close" 1 [("unsigned int", "fd")];
  mk_sig 7 "restart_syscall" 0 [];
  mk_sig 8 "creat" 2 [("const char *", "pathname"); ("umode_t", "mode")];
  mk_sig 9 "link" 2 [("const char *", "oldname"); ("const char *", "newname")];
  mk_sig 10 "unlink" 1 [("const char *", "pathname")];
  mk_sig 11 "execve" 3 [("const char *", "filename"); ("const char *const *", "argv"); ("const char *const *", "envp")];
  mk_sig 12 "chdir" 1 [("const char *", "filename")];
  mk_sig 14 "mknod" 3 [("const char *", "filename"); ("umode_t", "mode"); ("unsigned", "dev")];
  mk_sig 15 "chmod" 2 [("const char *", "filename"); ("umode_t", "mode")];
  mk_sig 19 "lseek" 3 [("unsigned int", "fd"); ("off_t", "offset"); ("unsigned int", "whence")];
  mk_sig 20 "getpid" 0 [];
  mk_sig 21 "mount" 5 [("char *", "dev_name"); ("char *", "dir_name"); ("char *", "type"); ("unsigned long", "flags"); ("void *", "data")];
  mk_sig 22 "umount" 2 [("char *", "name"); ("int", "flags")];
  mk_sig 26 "ptrace" 4 [("long", "request"); ("long", "pid"); ("unsigned long", "addr"); ("unsigned long", "data")];
  mk_sig 27 "alarm" 1 [("unsigned int", "seconds")];
  mk_sig 29 "pause" 0 [];
  mk_sig 30 "utime" 2 [("char *", "filename"); ("struct utimbuf *", "times")];
  mk_sig 33 "access" 2 [("const char *", "filename"); ("int", "mode")];
  mk_sig 34 "nice" 1 [("int", "increment")];
  mk_sig 36 "sync" 0 [];
  mk_sig 37 "kill" 2 [("pid_t", "pid"); ("int", "sig")];
  mk_sig 38 "rename" 2 [("const char *", "oldname"); ("const char *", "newname")];
  mk_sig 39 "mkdir" 2 [("const char *", "pathname"); ("umode_t", "mode")];
  mk_sig 40 "rmdir" 1 [("const char *", "pathname")];
  mk_sig 41 "dup" 1 [("unsigned int", "fildes")];
  mk_sig 42 "pipe" 1 [("int *", "fildes")];
  mk_sig 43 "times" 1 [("struct tms *", "tbuf")];
  mk_sig 45 "brk" 1 [("unsigned long", "brk")];
  mk_sig 48 "signal" 2 [("int", "sig"); ("__sighandler_t", "handler")];
  mk_sig 51 "acct" 1 [("const char *", "name")];
  mk_sig 52 "umount2" 2 [("char *", "name"); ("int", "flags")];
  mk_sig 54 "ioctl" 3 [("unsigned int", "fd"); ("unsigned int", "cmd"); ("unsigned long", "arg")];
  mk_sig 55 "fcntl" 3 [("unsigned int", "fd"); ("unsigned int", "cmd"); ("unsigned long", "arg")];
  mk_sig 57 "setpgid" 2 [("pid_t", "pid"); ("pid_t", "pgid")];
  mk_sig 60 "umask" 1 [("int", "mask")];
  mk_sig 61 "chroot" 1 [("const char *", "filename")];
  mk_sig 62 "ustat" 2 [("unsigned", "dev"); ("struct ustat *", "ubuf")];
  mk_sig 63 "dup2" 2 [("unsigned int", "oldfd"); ("unsigned int", "newfd")];
  mk_sig 64 "getppid" 0 [];
  mk_sig 65 "getpgrp" 0 [];
  mk_sig 66 "setsid" 0 [];
  mk_sig 73 "sigpending" 1 [("old_sigset_t *", "uset")];
  mk_sig 74 "sethostname" 2 [("char *", "name"); ("int", "len")];
  mk_sig 75 "setrlimit" 2 [("unsigned int", "resource"); ("struct rlimit *", "rlim")];
  mk_sig 77 "getrusage" 2 [("int", "who"); ("struct rusage *", "ru")];
  mk_sig 78 "gettimeofday" 2 [("struct __kernel_old_timeval *", "tv"); ("struct timezone *", "tz")];
  mk_sig 79 "settimeofday" 2 [("struct __kernel_old_timeval *", "tv"); ("struct timezone *", "tz")];
  mk_sig 83 "symlink" 2 [("const char *", "oldname"); ("const char *", "newname")];
  mk_sig 85 "readlink" 3 [("const char *", "path"); ("char *", "buf"); ("int", "bufsiz")];
  mk_sig 86 "uselib" 1 [("const char *", "library")];
  mk_sig 87 "swapon" 2 [("const char *", "specialfile"); ("int", "swap_flags")];
  mk_sig 88 "reboot" 4 [("int", "magic1"); ("int", "magic2"); ("unsigned int", "cmd"); ("void *", "arg")];
  mk_sig 89 "readdir" 0 [];
  mk_sig 90 "mmap" 1 [("struct mmap_arg_struct *", "arg")];
  mk_sig 91 "munmap" 2 [("unsigned long", "addr"); ("size_t", "len")];
  mk_sig 92 "truncate" 2 [("const char *", "path"); ("long", "length")];
  mk_sig 93 "ftruncate" 2 [("unsigned int", "fd"); ("off_t", "length")];
  mk_sig 94 "fchmod" 2 [("unsigned int", "fd"); ("umode_t", "mode")];
  mk_sig 96 "getpriority" 2 [("int", "which"); ("int", "who")];
  mk_sig 97 "setpriority" 3 [("int", "which"); ("int", "who"); ("int", "niceval")];
  mk_sig 99 "statfs" 2 [("const char *", "pathname"); ("struct statfs *", "buf")];
  mk_sig 100 "fstatfs" 2 [("unsigned int", "fd"); ("struct statfs *", "buf")];
  mk_sig 102 "socketcall" 2 [("int", "call"); ("unsigned long *", "args")];
  mk_sig 103 "syslog" 3 [("int", "type"); ("char *", "buf"); ("int", "len")];
  mk_sig 104 "setitimer" 3 [("int", "which"); ("struct __kernel_old_itimerval *", "value"); ("struct __kernel_old_itimerval *", "ovalue")];
  mk_sig 105 "getitimer" 2 [("int", "which"); ("struct __kernel_old_itimerval *", "value")];
  mk_sig 106 "stat" 2 [("const char *", "filename"); ("struct stat *", "statbuf")];
  mk_sig 107 "lstat" 2 [("const char *", "filename"); ("struct stat *", "statbuf")];
  mk_sig 108 "fstat" 2 [("unsigned int", "fd"); ("struct stat *", "statbuf")];
  mk_sig 110 "lookup_dcookie" 0 [];
  mk_sig 111 "vhangup" 0 [];
  mk_sig 112 "idle" 0 [];
  mk_sig 114 "wait4" 4 [("pid_t", "upid"); ("int *", "stat_addr"); ("int", "options"); ("struct rusage *", "ru")];
  mk_sig 115 "swapoff" 1 [("const char *", "specialfile")];
  mk_sig 116 "sysinfo" 1 [("struct sysinfo *", "info")];
  mk_sig 117 "ipc" 6 [("unsigned int", "call"); ("int", "first"); ("unsigned long", "second"); ("unsigned long", "third"); ("void *", "ptr"); ("long", "fifth")];
  mk_sig 118 "fsync" 1 [("unsigned int", "fd")];
  mk_sig 119 "sigreturn" 0 [];
  mk_sig 120 "clone" 5 [("unsigned long", "clone_flags"); ("unsigned long", "newsp"); ("int *", "parent_tidptr"); ("int *", "child_tidptr"); ("unsigned long", "tls")];
  mk_sig 121 "setdomainname" 2 [("char *", "name"); ("int", "len")];
  mk_sig 122 "uname" 1 [("struct new_utsname *", "name")];
  mk_sig 124 "adjtimex" 1 [("struct __kernel_timex *", "txc_p")];
  mk_sig 125 "mprotect" 3 [("unsigned long", "start"); ("size_t", "len"); ("unsigned long", "prot")];
  mk_sig 126 "sigprocmask" 3 [("int", "how"); ("old_sigset_t *", "nset"); ("old_sigset_t *", "oset")];
  mk_sig 127 "create_module" 0 [];
  mk_sig 128 "init_module" 3 [("void *", "umod"); ("unsigned long", "len"); ("const char *", "uargs")];
  mk_sig 129 "delete_module" 2 [("const char *", "name_user"); ("unsigned int", "flags")];
  mk_sig 130 "get_kernel_syms" 0 [];
  mk_sig 131 "quotactl" 4 [("unsigned int", "cmd"); ("const char *", "special"); ("qid_t", "id"); ("void *", "addr")];
  mk_sig 132 "getpgid" 1 [("pid_t", "pid")];
  mk_sig 133 "fchdir" 1 [("unsigned int", "fd")];
  mk_sig 134 "bdflush" 0 [];
  mk_sig 135 "sysfs" 3 [("int", "option"); ("unsigned long", "arg1"); ("unsigned long", "arg2")];
  mk_sig 136 "personality" 1 [("unsigned int", "personality")];
  mk_sig 137 "afs_syscall" 0 [];
  mk_sig 141 "getdents" 3 [("unsigned int", "fd"); ("struct linux_dirent *", "dirent"); ("unsigned int", "count")];
  mk_sig 142 "select" 5 [("int", "n"); ("fd_set *", "inp"); ("fd_set *", "outp"); ("fd_set *", "exp"); ("struct __kernel_old_timeval *", "tvp")];
  mk_sig 143 "flock" 2 [("unsigned int", "fd"); ("unsigned int", "cmd")];
  mk_sig 144 "msync" 3 [("unsigned long", "start"); ("size_t", "len"); ("int", "flags")];
  mk_sig 145 "readv" 3 [("unsigned long", "fd"); ("const struct iovec *", "vec"); ("unsigned long", "vlen")];
  mk_sig 146 "writev" 3 [("unsigned long", "fd"); ("const struct iovec *", "vec"); ("unsigned long", "vlen")];
  mk_sig 147 "getsid" 1 [("pid_t", "pid")];
  mk_sig 148 "fdatasync" 1 [("unsigned int", "fd")];
  mk_sig 149 "_sysctl" 0 [];
  mk_sig 150 "mlock" 2 [("unsigned long", "start"); ("size_t", "len")];
  mk_sig 151 "munlock" 2 [("unsigned long", "start"); ("size_t", "len")];
  mk_sig 152 "mlockall" 1 [("int", "flags")];
  mk_sig 153 "munlockall" 0 [];
  mk_sig 154 "sched_setparam" 2 [("pid_t", "pid"); ("struct sched_param *", "param")];
  mk_sig 155 "sched_getparam" 2 [("pid_t", "pid"); ("struct sched_param *", "param")];
  mk_sig 156 "sched_setscheduler" 3 [("pid_t", "pid"); ("int", "policy"); ("struct sched_param *", "param")];
  mk_sig 157 "sched_getscheduler" 1 [("pid_t", "pid")];
  mk_sig 158 "sched_yield" 0 [];
  mk_sig 159 "sched_get_priority_max" 1 [("int", "policy")];
  mk_sig 160 "sched_get_priority_min" 1 [("int", "policy")];
  mk_sig 161 "sched_rr_get_interval" 2 [("pid_t", "pid"); ("struct __kernel_timespec *", "interval")];
  mk_sig 162 "nanosleep" 2 [("struct __kernel_timespec *", "rqtp"); ("struct __kernel_timespec *", "rmtp")];
  mk_sig 163 "mremap" 5 [("unsigned long", "addr"); ("unsigned long", "old_len"); ("unsigned long", "new_len"); ("unsigned long", "flags"); ("unsigned long", "new_addr")];
  mk_sig 167 "query_module" 0 [];
  mk_sig 168 "poll" 3 [("struct pollfd *", "ufds"); ("unsigned int", "nfds"); ("int", "timeout_msecs")];
  mk_sig 169 "nfsservctl" 0 [];
  mk_sig 172 "prctl" 5 [("int", "option"); ("unsigned long", "arg2"); ("unsigned long", "arg3"); ("unsigned long", "arg4"); ("unsigned long", "arg5")];
  mk_sig 173 "rt_sigreturn" 0 [];
  mk_sig 174 "rt_sigaction" 4 [("int", "sig"); ("const struct sigaction *", "act"); ("struct sigaction *", "oact"); ("size_t", "sigsetsize")];
  mk_sig 175 "rt_sigprocmask" 4 [("int", "how"); ("sigset_t *", "nset"); ("sigset_t *", "oset"); ("size_t", "sigsetsize")];
  mk_sig 176 "rt_sigpending" 2 [("sigset_t *", "uset"); ("size_t", "sigsetsize")];
  mk_sig 177 "rt_sigtimedwait" 4 [("const sigset_t *", "uthese"); ("siginfo_t *", "uinfo"); ("const struct __kernel_timespec *", "uts"); ("size_t", "sigsetsize")];
  mk_sig 178 "rt_sigqueueinfo" 3 [("pid_t", "pid"); ("int", "sig"); ("siginfo_t *", "uinfo")];
  mk_sig 179 "rt_sigsuspend" 2 [("sigset_t *", "unewset"); ("size_t", "sigsetsize")];
  mk_sig 180 "pread64" 4 [("unsigned int", "fd"); ("char *", "buf"); ("size_t", "count"); ("loff_t", "pos")];
  mk_sig 181 "pwrite64" 4 [("unsigned int", "fd"); ("const char *", "buf"); ("size_t", "count"); ("loff_t", "pos")];
  mk_sig 183 "getcwd" 2 [("char *", "buf"); ("unsigned long", "size")];
  mk_sig 184 "capget" 2 [("cap_user_header_t", "header"); ("cap_user_data_t", "dataptr")];
  mk_sig 185 "capset" 2 [("cap_user_header_t", "header"); ("const cap_user_data_t", "data")];
  mk_sig 186 "sigaltstack" 2 [("const stack_t *", "uss"); ("stack_t *", "uoss")]
].
Definition s390x_native_2 : list LinuxSyscallSignature := [
  mk_sig 187 "sendfile" 4 [("int", "out_fd"); ("int", "in_fd"); ("off_t *", "offset"); ("size_t", "count")];
  mk_sig 188 "getpmsg" 0 [];
  mk_sig 189 "putpmsg" 0 [];
  mk_sig 190 "vfork" 0 [];
  mk_sig 191 "getrlimit" 2 [("unsigned int", "resource"); ("struct rlimit *", "rlim")];
  mk_sig 198 "lchown" 3 [("const char *", "filename"); ("uid_t", "user"); ("gid_t", "group")];
  mk_sig 199 "getuid" 0 [];
  mk_sig 200 "getgid" 0 [];
  mk_sig 201 "geteuid" 0 [];
  mk_sig 202 "getegid" 0 [];
  mk_sig 203 "setreuid" 2 [("uid_t", "ruid"); ("uid_t", "euid")];
  mk_sig 204 "setregid" 2 [("gid_t", "rgid"); ("gid_t", "egid")];
  mk_sig 205 "getgroups" 2 [("int", "gidsetsize"); ("gid_t *", "grouplist")];
  mk_sig 206 "setgroups" 2 [("int", "gidsetsize"); ("gid_t *", "grouplist")];
  mk_sig 207 "fchown" 3 [("unsigned int", "fd"); ("uid_t", "user"); ("gid_t", "group")];
  mk_sig 208 "setresuid" 3 [("uid_t", "ruid"); ("uid_t", "euid"); ("uid_t", "suid")];
  mk_sig 209 "getresuid" 3 [("uid_t *", "ruidp"); ("uid_t *", "euidp"); ("uid_t *", "suidp")];
  mk_sig 210 "setresgid" 3 [("gid_t", "rgid"); ("gid_t", "egid"); ("gid_t", "sgid")];
  mk_sig 211 "getresgid" 3 [("gid_t *", "rgidp"); ("gid_t *", "egidp"); ("gid_t *", "sgidp")];
  mk_sig 212 "chown" 3 [("const char *", "filename"); ("uid_t", "user"); ("gid_t", "group")];
  mk_sig 213 "setuid" 1 [("uid_t", "uid")];
  mk_sig 214 "setgid" 1 [("gid_t", "gid")];
  mk_sig 215 "setfsuid" 1 [("uid_t", "uid")];
  mk_sig 216 "setfsgid" 1 [("gid_t", "gid")];
  mk_sig 217 "pivot_root" 2 [("const char *", "new_root"); ("const char *", "put_old")];
  mk_sig 218 "mincore" 3 [("unsigned long", "start"); ("size_t", "len"); ("unsigned char *", "vec")];
  mk_sig 219 "madvise" 3 [("unsigned long", "start"); ("size_t", "len_in"); ("int", "behavior")];
  mk_sig 220 "getdents64" 3 [("unsigned int", "fd"); ("struct linux_dirent64 *", "dirent"); ("unsigned int", "count")];
  mk_sig 222 "readahead" 3 [("int", "fd"); ("loff_t", "offset"); ("size_t", "count")];
  mk_sig 224 "setxattr" 5 [("const char *", "pathname"); ("const char *", "name"); ("const void *", "value"); ("size_t", "size"); ("int", "flags")];
  mk_sig 225 "lsetxattr" 5 [("const char *", "pathname"); ("const char *", "name"); ("const void *", "value"); ("size_t", "size"); ("int", "flags")];
  mk_sig 226 "fsetxattr" 5 [("int", "fd"); ("const char *", "name"); ("const void *", "value"); ("size_t", "size"); ("int", "flags")];
  mk_sig 227 "getxattr" 4 [("const char *", "pathname"); ("const char *", "name"); ("void *", "value"); ("size_t", "size")];
  mk_sig 228 "lgetxattr" 4 [("const char *", "pathname"); ("const char *", "name"); ("void *", "value"); ("size_t", "size")];
  mk_sig 229 "fgetxattr" 4 [("int", "fd"); ("const char *", "name"); ("void *", "value"); ("size_t", "size")];
  mk_sig 230 "listxattr" 3 [("const char *", "pathname"); ("char *", "list"); ("size_t", "size")];
  mk_sig 231 "llistxattr" 3 [("const char *", "pathname"); ("char *", "list"); ("size_t", "size")];
  mk_sig 232 "flistxattr" 3 [("int", "fd"); ("char *", "list"); ("size_t", "size")];
  mk_sig 233 "removexattr" 2 [("const char *", "pathname"); ("const char *", "name")];
  mk_sig 234 "lremovexattr" 2 [("const char *", "pathname"); ("const char *", "name")];
  mk_sig 235 "fremovexattr" 2 [("int", "fd"); ("const char *", "name")];
  mk_sig 236 "gettid" 0 [];
  mk_sig 237 "tkill" 2 [("pid_t", "pid"); ("int", "sig")];
  mk_sig 238 "futex" 6 [("u32 *", "uaddr"); ("int", "op"); ("u32", "val"); ("const struct __kernel_timespec *", "utime"); ("u32 *", "uaddr2"); ("u32", "val3")];
  mk_sig 239 "sched_setaffinity" 3 [("pid_t", "pid"); ("unsigned int", "len"); ("unsigned long *", "user_mask_ptr")];
  mk_sig 240 "sched_getaffinity" 3 [("pid_t", "pid"); ("unsigned int", "len"); ("unsigned long *", "user_mask_ptr")];
  mk_sig 241 "tgkill" 3 [("pid_t", "tgid"); ("pid_t", "pid"); ("int", "sig")];
  mk_sig 243 "io_setup" 2 [("unsigned", "nr_events"); ("aio_context_t *", "ctxp")];
  mk_sig 244 "io_destroy" 1 [("aio_context_t", "ctx")];
  mk_sig 245 "io_getevents" 5 [("aio_context_t", "ctx_id"); ("long", "min_nr"); ("long", "nr"); ("struct io_event *", "events"); ("struct __kernel_timespec *", "timeout")];
  mk_sig 246 "io_submit" 3 [("aio_context_t", "ctx_id"); ("long", "nr"); ("struct iocb * *", "iocbpp")];
  mk_sig 247 "io_cancel" 3 [("aio_context_t", "ctx_id"); ("struct iocb *", "iocb"); ("struct io_event *", "result")];
  mk_sig 248 "exit_group" 1 [("int", "error_code")];
  mk_sig 249 "epoll_create" 1 [("int", "size")];
  mk_sig 250 "epoll_ctl" 4 [("int", "epfd"); ("int", "op"); ("int", "fd"); ("struct epoll_event *", "event")];
  mk_sig 251 "epoll_wait" 4 [("int", "epfd"); ("struct epoll_event *", "events"); ("int", "maxevents"); ("int", "timeout")];
  mk_sig 252 "set_tid_address" 1 [("int *", "tidptr")];
  mk_sig 253 "fadvise64" 4 [("int", "fd"); ("loff_t", "offset"); ("loff_t", "len"); ("int", "advice")];
  mk_sig 254 "timer_create" 3 [("const clockid_t", "which_clock"); ("struct sigevent *", "timer_event_spec"); ("timer_t *", "created_timer_id")];
  mk_sig 255 "timer_settime" 4 [("timer_t", "timer_id"); ("int", "flags"); ("const struct __kernel_itimerspec *", "new_setting"); ("struct __kernel_itimerspec *", "old_setting")];
  mk_sig 256 "timer_gettime" 2 [("timer_t", "timer_id"); ("struct __kernel_itimerspec *", "setting")];
  mk_sig 257 "timer_getoverrun" 1 [("timer_t", "timer_id")];
  mk_sig 258 "timer_delete" 1 [("timer_t", "timer_id")];
  mk_sig 259 "clock_settime" 2 [("const clockid_t", "which_clock"); ("const struct __kernel_timespec *", "tp")];
  mk_sig 260 "clock_gettime" 2 [("const clockid_t", "which_clock"); ("struct __kernel_timespec *", "tp")];
  mk_sig 261 "clock_getres" 2 [("const clockid_t", "which_clock"); ("struct __kernel_timespec *", "tp")];
  mk_sig 262 "clock_nanosleep" 4 [("const clockid_t", "which_clock"); ("int", "flags"); ("const struct __kernel_timespec *", "rqtp"); ("struct __kernel_timespec *", "rmtp")];
  mk_sig 265 "statfs64" 3 [("const char *", "pathname"); ("size_t", "sz"); ("struct statfs64 *", "buf")];
  mk_sig 266 "fstatfs64" 3 [("unsigned int", "fd"); ("size_t", "sz"); ("struct statfs64 *", "buf")];
  mk_sig 267 "remap_file_pages" 5 [("unsigned long", "start"); ("unsigned long", "size"); ("unsigned long", "prot"); ("unsigned long", "pgoff"); ("unsigned long", "flags")];
  mk_sig 268 "mbind" 6 [("unsigned long", "start"); ("unsigned long", "len"); ("unsigned long", "mode"); ("const unsigned long *", "nmask"); ("unsigned long", "maxnode"); ("unsigned int", "flags")];
  mk_sig 269 "get_mempolicy" 5 [("int *", "policy"); ("unsigned long *", "nmask"); ("unsigned long", "maxnode"); ("unsigned long", "addr"); ("unsigned long", "flags")];
  mk_sig 270 "set_mempolicy" 3 [("int", "mode"); ("const unsigned long *", "nmask"); ("unsigned long", "maxnode")];
  mk_sig 271 "mq_open" 4 [("const char *", "u_name"); ("int", "oflag"); ("umode_t", "mode"); ("struct mq_attr *", "u_attr")];
  mk_sig 272 "mq_unlink" 1 [("const char *", "u_name")];
  mk_sig 273 "mq_timedsend" 5 [("mqd_t", "mqdes"); ("const char *", "u_msg_ptr"); ("size_t", "msg_len"); ("unsigned int", "msg_prio"); ("const struct __kernel_timespec *", "u_abs_timeout")];
  mk_sig 274 "mq_timedreceive" 5 [("mqd_t", "mqdes"); ("char *", "u_msg_ptr"); ("size_t", "msg_len"); ("unsigned int *", "u_msg_prio"); ("const struct __kernel_timespec *", "u_abs_timeout")];
  mk_sig 275 "mq_notify" 2 [("mqd_t", "mqdes"); ("const struct sigevent *", "u_notification")];
  mk_sig 276 "mq_getsetattr" 3 [("mqd_t", "mqdes"); ("const struct mq_attr *", "u_mqstat"); ("struct mq_attr *", "u_omqstat")];
  mk_sig 277 "kexec_load" 4 [("unsigned long", "entry"); ("unsigned long", "nr_segments"); ("struct kexec_segment *", "segments"); ("unsigned long", "flags")];
  mk_sig 278 "add_key" 5 [("const char *", "_type"); ("const char *", "_description"); ("const void *", "_payload"); ("size_t", "plen"); ("key_serial_t", "ringid")];
  mk_sig 279 "request_key" 4 [("const char *", "_type"); ("const char *", "_description"); ("const char *", "_callout_info"); ("key_serial_t", "destringid")];
  mk_sig 280 "keyctl" 5 [("int", "option"); ("unsigned long", "arg2"); ("unsigned long", "arg3"); ("unsigned long", "arg4"); ("unsigned long", "arg5")];
  mk_sig 281 "waitid" 5 [("int", "which"); ("pid_t", "upid"); ("struct siginfo *", "infop"); ("int", "options"); ("struct rusage *", "ru")];
  mk_sig 282 "ioprio_set" 3 [("int", "which"); ("int", "who"); ("int", "ioprio")];
  mk_sig 283 "ioprio_get" 2 [("int", "which"); ("int", "who")];
  mk_sig 284 "inotify_init" 0 [];
  mk_sig 285 "inotify_add_watch" 3 [("int", "fd"); ("const char *", "pathname"); ("u32", "mask")];
  mk_sig 286 "inotify_rm_watch" 2 [("int", "fd"); ("__s32", "wd")];
  mk_sig 287 "migrate_pages" 4 [("pid_t", "pid"); ("unsigned long", "maxnode"); ("const unsigned long *", "old_nodes"); ("const unsigned long *", "new_nodes")];
  mk_sig 288 "openat" 4 [("int", "dfd"); ("const char *", "filename"); ("int", "flags"); ("umode_t", "mode")];
  mk_sig 289 "mkdirat" 3 [("int", "dfd"); ("const char *", "pathname"); ("umode_t", "mode")];
  mk_sig 290 "mknodat" 4 [("int", "dfd"); ("const char *", "filename"); ("umode_t", "mode"); ("unsigned int", "dev")];
  mk_sig 291 "fchownat" 5 [("int", "dfd"); ("const char *", "filename"); ("uid_t", "user"); ("gid_t", "group"); ("int", "flag")];
  mk_sig 292 "futimesat" 3 [("int", "dfd"); ("const char *", "filename"); ("struct __kernel_old_timeval *", "utimes")];
  mk_sig 293 "newfstatat" 4 [("int", "dfd"); ("const char *", "filename"); ("struct stat *", "statbuf"); ("int", "flag")];
  mk_sig 294 "unlinkat" 3 [("int", "dfd"); ("const char *", "pathname"); ("int", "flag")];
  mk_sig 295 "renameat" 4 [("int", "olddfd"); ("const char *", "oldname"); ("int", "newdfd"); ("const char *", "newname")];
  mk_sig 296 "linkat" 5 [("int", "olddfd"); ("const char *", "oldname"); ("int", "newdfd"); ("const char *", "newname"); ("int", "flags")];
  mk_sig 297 "symlinkat" 3 [("const char *", "oldname"); ("int", "newdfd"); ("const char *", "newname")];
  mk_sig 298 "readlinkat" 4 [("int", "dfd"); ("const char *", "pathname"); ("char *", "buf"); ("int", "bufsiz")];
  mk_sig 299 "fchmodat" 3 [("int", "dfd"); ("const char *", "filename"); ("umode_t", "mode")];
  mk_sig 300 "faccessat" 3 [("int", "dfd"); ("const char *", "filename"); ("int", "mode")];
  mk_sig 301 "pselect6" 6 [("int", "n"); ("fd_set *", "inp"); ("fd_set *", "outp"); ("fd_set *", "exp"); ("struct __kernel_timespec *", "tsp"); ("void *", "sig")];
  mk_sig 302 "ppoll" 5 [("struct pollfd *", "ufds"); ("unsigned int", "nfds"); ("struct __kernel_timespec *", "tsp"); ("const sigset_t *", "sigmask"); ("size_t", "sigsetsize")];
  mk_sig 303 "unshare" 1 [("unsigned long", "unshare_flags")];
  mk_sig 304 "set_robust_list" 2 [("struct robust_list_head *", "head"); ("size_t", "len")];
  mk_sig 305 "get_robust_list" 3 [("int", "pid"); ("struct robust_list_head * *", "head_ptr"); ("size_t *", "len_ptr")];
  mk_sig 306 "splice" 6 [("int", "fd_in"); ("loff_t *", "off_in"); ("int", "fd_out"); ("loff_t *", "off_out"); ("size_t", "len"); ("unsigned int", "flags")];
  mk_sig 307 "sync_file_range" 4 [("int", "fd"); ("loff_t", "offset"); ("loff_t", "nbytes"); ("unsigned int", "flags")];
  mk_sig 308 "tee" 4 [("int", "fdin"); ("int", "fdout"); ("size_t", "len"); ("unsigned int", "flags")];
  mk_sig 309 "vmsplice" 4 [("int", "fd"); ("const struct iovec *", "uiov"); ("unsigned long", "nr_segs"); ("unsigned int", "flags")];
  mk_sig 310 "move_pages" 6 [("pid_t", "pid"); ("unsigned long", "nr_pages"); ("const void * *", "pages"); ("const int *", "nodes"); ("int *", "status"); ("int", "flags")];
  mk_sig 311 "getcpu" 3 [("unsigned *", "cpup"); ("unsigned *", "nodep"); ("struct getcpu_cache *", "unused")];
  mk_sig 312 "epoll_pwait" 6 [("int", "epfd"); ("struct epoll_event *", "events"); ("int", "maxevents"); ("int", "timeout"); ("const sigset_t *", "sigmask"); ("size_t", "sigsetsize")];
  mk_sig 313 "utimes" 2 [("char *", "filename"); ("struct __kernel_old_timeval *", "utimes")];
  mk_sig 314 "fallocate" 4 [("int", "fd"); ("int", "mode"); ("loff_t", "offset"); ("loff_t", "len")];
  mk_sig 315 "utimensat" 4 [("int", "dfd"); ("const char *", "filename"); ("struct __kernel_timespec *", "utimes"); ("int", "flags")];
  mk_sig 316 "signalfd" 3 [("int", "ufd"); ("sigset_t *", "user_mask"); ("size_t", "sizemask")];
  mk_sig 317 "timerfd" 0 [];
  mk_sig 318 "eventfd" 1 [("unsigned int", "count")];
  mk_sig 319 "timerfd_create" 2 [("int", "clockid"); ("int", "flags")];
  mk_sig 320 "timerfd_settime" 4 [("int", "ufd"); ("int", "flags"); ("const struct __kernel_itimerspec *", "utmr"); ("struct __kernel_itimerspec *", "otmr")];
  mk_sig 321 "timerfd_gettime" 2 [("int", "ufd"); ("struct __kernel_itimerspec *", "otmr")];
  mk_sig 322 "signalfd4" 4 [("int", "ufd"); ("sigset_t *", "user_mask"); ("size_t", "sizemask"); ("int", "flags")];
  mk_sig 323 "eventfd2" 2 [("unsigned int", "count"); ("int", "flags")];
  mk_sig 324 "inotify_init1" 1 [("int", "flags")];
  mk_sig 325 "pipe2" 2 [("int *", "fildes"); ("int", "flags")];
  mk_sig 326 "dup3" 3 [("unsigned int", "oldfd"); ("unsigned int", "newfd"); ("int", "flags")];
  mk_sig 327 "epoll_create1" 1 [("int", "flags")];
  mk_sig 328 "preadv" 5 [("unsigned long", "fd"); ("const struct iovec *", "vec"); ("unsigned long", "vlen"); ("unsigned long", "pos_l"); ("unsigned long", "pos_h")];
  mk_sig 329 "pwritev" 5 [("unsigned long", "fd"); ("const struct iovec *", "vec"); ("unsigned long", "vlen"); ("unsigned long", "pos_l"); ("unsigned long", "pos_h")];
  mk_sig 330 "rt_tgsigqueueinfo" 4 [("pid_t", "tgid"); ("pid_t", "pid"); ("int", "sig"); ("siginfo_t *", "uinfo")];
  mk_sig 331 "perf_event_open" 5 [("struct perf_event_attr *", "attr_uptr"); ("pid_t", "pid"); ("int", "cpu"); ("int", "group_fd"); ("unsigned long", "flags")];
  mk_sig 332 "fanotify_init" 2 [("unsigned int", "flags"); ("unsigned int", "event_f_flags")];
  mk_sig 333 "fanotify_mark" 5 [("int", "fanotify_fd"); ("unsigned int", "flags"); ("__u64", "mask"); ("int", "dfd"); ("const char *", "pathname")];
  mk_sig 334 "prlimit64" 4 [("pid_t", "pid"); ("unsigned int", "resource"); ("const struct rlimit64 *", "new_rlim"); ("struct rlimit64 *", "old_rlim")];
  mk_sig 335 "name_to_handle_at" 5 [("int", "dfd"); ("const char *", "name"); ("struct file_handle *", "handle"); ("void *", "mnt_id"); ("int", "flag")];
  mk_sig 336 "open_by_handle_at" 3 [("int", "mountdirfd"); ("struct file_handle *", "handle"); ("int", "flags")];
  mk_sig 337 "clock_adjtime" 2 [("const clockid_t", "which_clock"); ("struct __kernel_timex *", "utx")]
].
Definition s390x_native_3 : list LinuxSyscallSignature := [
  mk_sig 338 "syncfs" 1 [("int", "fd")];
  mk_sig 339 "setns" 2 [("int", "fd"); ("int", "flags")];
  mk_sig 340 "process_vm_readv" 6 [("pid_t", "pid"); ("const struct iovec *", "lvec"); ("unsigned long", "liovcnt"); ("const struct iovec *", "rvec"); ("unsigned long", "riovcnt"); ("unsigned long", "flags")];
  mk_sig 341 "process_vm_writev" 6 [("pid_t", "pid"); ("const struct iovec *", "lvec"); ("unsigned long", "liovcnt"); ("const struct iovec *", "rvec"); ("unsigned long", "riovcnt"); ("unsigned long", "flags")];
  mk_sig 342 "s390_runtime_instr" 2 [("int", "command"); ("int", "signum")];
  mk_sig 343 "kcmp" 5 [("pid_t", "pid1"); ("pid_t", "pid2"); ("int", "type"); ("unsigned long", "idx1"); ("unsigned long", "idx2")];
  mk_sig 344 "finit_module" 3 [("int", "fd"); ("const char *", "uargs"); ("int", "flags")];
  mk_sig 345 "sched_setattr" 3 [("pid_t", "pid"); ("struct sched_attr *", "uattr"); ("unsigned int", "flags")];
  mk_sig 346 "sched_getattr" 4 [("pid_t", "pid"); ("struct sched_attr *", "uattr"); ("unsigned int", "usize"); ("unsigned int", "flags")];
  mk_sig 347 "renameat2" 5 [("int", "olddfd"); ("const char *", "oldname"); ("int", "newdfd"); ("const char *", "newname"); ("unsigned int", "flags")];
  mk_sig 348 "seccomp" 3 [("unsigned int", "op"); ("unsigned int", "flags"); ("void *", "uargs")];
  mk_sig 349 "getrandom" 3 [("char *", "ubuf"); ("size_t", "len"); ("unsigned int", "flags")];
  mk_sig 350 "memfd_create" 2 [("const char *", "uname"); ("unsigned int", "flags")];
  mk_sig 351 "bpf" 3 [("int", "cmd"); ("union bpf_attr *", "uattr"); ("unsigned int", "size")];
  mk_sig 352 "s390_pci_mmio_write" 3 [("unsigned long", "mmio_addr"); ("const void *", "user_buffer"); ("size_t", "length")];
  mk_sig 353 "s390_pci_mmio_read" 3 [("unsigned long", "mmio_addr"); ("void *", "user_buffer"); ("size_t", "length")];
  mk_sig 354 "execveat" 5 [("int", "fd"); ("const char *", "filename"); ("const char *const *", "argv"); ("const char *const *", "envp"); ("int", "flags")];
  mk_sig 355 "userfaultfd" 1 [("int", "flags")];
  mk_sig 356 "membarrier" 3 [("int", "cmd"); ("unsigned int", "flags"); ("int", "cpu_id")];
  mk_sig 357 "recvmmsg" 5 [("int", "fd"); ("struct mmsghdr *", "mmsg"); ("unsigned int", "vlen"); ("unsigned int", "flags"); ("struct __kernel_timespec *", "timeout")];
  mk_sig 358 "sendmmsg" 4 [("int", "fd"); ("struct mmsghdr *", "mmsg"); ("unsigned int", "vlen"); ("unsigned int", "flags")];
  mk_sig 359 "socket" 3 [("int", "family"); ("int", "type"); ("int", "protocol")];
  mk_sig 360 "socketpair" 4 [("int", "family"); ("int", "type"); ("int", "protocol"); ("int *", "usockvec")];
  mk_sig 361 "bind" 3 [("int", "fd"); ("struct sockaddr *", "umyaddr"); ("int", "addrlen")];
  mk_sig 362 "connect" 3 [("int", "fd"); ("struct sockaddr *", "uservaddr"); ("int", "addrlen")];
  mk_sig 363 "listen" 2 [("int", "fd"); ("int", "backlog")];
  mk_sig 364 "accept4" 4 [("int", "fd"); ("struct sockaddr *", "upeer_sockaddr"); ("int *", "upeer_addrlen"); ("int", "flags")];
  mk_sig 365 "getsockopt" 5 [("int", "fd"); ("int", "level"); ("int", "optname"); ("char *", "optval"); ("int *", "optlen")];
  mk_sig 366 "setsockopt" 5 [("int", "fd"); ("int", "level"); ("int", "optname"); ("char *", "optval"); ("int", "optlen")];
  mk_sig 367 "getsockname" 3 [("int", "fd"); ("struct sockaddr *", "usockaddr"); ("int *", "usockaddr_len")];
  mk_sig 368 "getpeername" 3 [("int", "fd"); ("struct sockaddr *", "usockaddr"); ("int *", "usockaddr_len")];
  mk_sig 369 "sendto" 6 [("int", "fd"); ("void *", "buff"); ("size_t", "len"); ("unsigned int", "flags"); ("struct sockaddr *", "addr"); ("int", "addr_len")];
  mk_sig 370 "sendmsg" 3 [("int", "fd"); ("struct user_msghdr *", "msg"); ("unsigned int", "flags")];
  mk_sig 371 "recvfrom" 6 [("int", "fd"); ("void *", "ubuf"); ("size_t", "size"); ("unsigned int", "flags"); ("struct sockaddr *", "addr"); ("int *", "addr_len")];
  mk_sig 372 "recvmsg" 3 [("int", "fd"); ("struct user_msghdr *", "msg"); ("unsigned int", "flags")];
  mk_sig 373 "shutdown" 2 [("int", "fd"); ("int", "how")];
  mk_sig 374 "mlock2" 3 [("unsigned long", "start"); ("size_t", "len"); ("int", "flags")];
  mk_sig 375 "copy_file_range" 6 [("int", "fd_in"); ("loff_t *", "off_in"); ("int", "fd_out"); ("loff_t *", "off_out"); ("size_t", "len"); ("unsigned int", "flags")];
  mk_sig 376 "preadv2" 6 [("unsigned long", "fd"); ("const struct iovec *", "vec"); ("unsigned long", "vlen"); ("unsigned long", "pos_l"); ("unsigned long", "pos_h"); ("rwf_t", "flags")];
  mk_sig 377 "pwritev2" 6 [("unsigned long", "fd"); ("const struct iovec *", "vec"); ("unsigned long", "vlen"); ("unsigned long", "pos_l"); ("unsigned long", "pos_h"); ("rwf_t", "flags")];
  mk_sig 378 "s390_guarded_storage" 2 [("int", "command"); ("struct gs_cb *", "gs_cb")];
  mk_sig 379 "statx" 5 [("int", "dfd"); ("const char *", "filename"); ("unsigned", "flags"); ("unsigned int", "mask"); ("struct statx *", "buffer")];
  mk_sig 380 "s390_sthyi" 4 [("unsigned long", "function_code"); ("void *", "buffer"); ("u64 *", "return_code"); ("unsigned long", "flags")];
  mk_sig 381 "kexec_file_load" 5 [("int", "kernel_fd"); ("int", "initrd_fd"); ("unsigned long", "cmdline_len"); ("const char *", "cmdline_ptr"); ("unsigned long", "flags")];
  mk_sig 382 "io_pgetevents" 6 [("aio_context_t", "ctx_id"); ("long", "min_nr"); ("long", "nr"); ("struct io_event *", "events"); ("struct __kernel_timespec *", "timeout"); ("const struct __aio_sigset *", "usig")];
  mk_sig 383 "rseq" 4 [("struct rseq *", "rseq"); ("u32", "rseq_len"); ("int", "flags"); ("u32", "sig")];
  mk_sig 384 "pkey_mprotect" 4 [("unsigned long", "start"); ("size_t", "len"); ("unsigned long", "prot"); ("int", "pkey")];
  mk_sig 385 "pkey_alloc" 2 [("unsigned long", "flags"); ("unsigned long", "init_val")];
  mk_sig 386 "pkey_free" 1 [("int", "pkey")];
  mk_sig 392 "semtimedop" 4 [("int", "semid"); ("struct sembuf *", "tsops"); ("unsigned int", "nsops"); ("const struct __kernel_timespec *", "timeout")];
  mk_sig 393 "semget" 3 [("key_t", "key"); ("int", "nsems"); ("int", "semflg")];
  mk_sig 394 "semctl" 4 [("int", "semid"); ("int", "semnum"); ("int", "cmd"); ("unsigned long", "arg")];
  mk_sig 395 "shmget" 3 [("key_t", "key"); ("size_t", "size"); ("int", "shmflg")];
  mk_sig 396 "shmctl" 3 [("int", "shmid"); ("int", "cmd"); ("struct shmid_ds *", "buf")];
  mk_sig 397 "shmat" 3 [("int", "shmid"); ("char *", "shmaddr"); ("int", "shmflg")];
  mk_sig 398 "shmdt" 1 [("char *", "shmaddr")];
  mk_sig 399 "msgget" 2 [("key_t", "key"); ("int", "msgflg")];
  mk_sig 400 "msgsnd" 4 [("int", "msqid"); ("struct msgbuf *", "msgp"); ("size_t", "msgsz"); ("int", "msgflg")];
  mk_sig 401 "msgrcv" 5 [("int", "msqid"); ("struct msgbuf *", "msgp"); ("size_t", "msgsz"); ("long", "msgtyp"); ("int", "msgflg")];
  mk_sig 402 "msgctl" 3 [("int", "msqid"); ("int", "cmd"); ("struct msqid_ds *", "buf")];
  mk_sig 424 "pidfd_send_signal" 4 [("int", "pidfd"); ("int", "sig"); ("siginfo_t *", "info"); ("unsigned int", "flags")];
  mk_sig 425 "io_uring_setup" 2 [("u32", "entries"); ("struct io_uring_params *", "params")];
  mk_sig 426 "io_uring_enter" 6 [("unsigned int", "fd"); ("u32", "to_submit"); ("u32", "min_complete"); ("u32", "flags"); ("const void *", "argp"); ("size_t", "argsz")];
  mk_sig 427 "io_uring_register" 4 [("unsigned int", "fd"); ("unsigned int", "opcode"); ("void *", "arg"); ("unsigned int", "nr_args")];
  mk_sig 428 "open_tree" 3 [("int", "dfd"); ("const char *", "filename"); ("unsigned", "flags")];
  mk_sig 429 "move_mount" 5 [("int", "from_dfd"); ("const char *", "from_pathname"); ("int", "to_dfd"); ("const char *", "to_pathname"); ("unsigned int", "flags")];
  mk_sig 430 "fsopen" 2 [("const char *", "_fs_name"); ("unsigned int", "flags")];
  mk_sig 431 "fsconfig" 5 [("int", "fd"); ("unsigned int", "cmd"); ("const char *", "_key"); ("const void *", "_value"); ("int", "aux")];
  mk_sig 432 "fsmount" 3 [("int", "fs_fd"); ("unsigned int", "flags"); ("unsigned int", "attr_flags")];
  mk_sig 433 "fspick" 3 [("int", "dfd"); ("const char *", "path"); ("unsigned int", "flags")];
  mk_sig 434 "pidfd_open" 2 [("pid_t", "pid"); ("unsigned int", "flags")];
  mk_sig 435 "clone3" 2 [("struct clone_args *", "uargs"); ("size_t", "size")];
  mk_sig 436 "close_range" 3 [("unsigned int", "fd"); ("unsigned int", "max_fd"); ("unsigned int", "flags")];
  mk_sig 437 "openat2" 4 [("int", "dfd"); ("const char *", "filename"); ("struct open_how *", "how"); ("size_t", "usize")];
  mk_sig 438 "pidfd_getfd" 3 [("int", "pidfd"); ("int", "fd"); ("unsigned int", "flags")];
  mk_sig 439 "faccessat2" 4 [("int", "dfd"); ("const char *", "filename"); ("int", "mode"); ("int", "flags")];
  mk_sig 440 "process_madvise" 5 [("int", "pidfd"); ("const struct iovec *", "vec"); ("size_t", "vlen"); ("int", "behavior"); ("unsigned int", "flags")];
  mk_sig 441 "epoll_pwait2" 6 [("int", "epfd"); ("struct epoll_event *", "events"); ("int", "maxevents"); ("const struct __kernel_timespec *", "timeout"); ("const sigset_t *", "sigmask"); ("size_t", "sigsetsize")];
  mk_sig 442 "mount_setattr" 5 [("int", "dfd"); ("const char *", "path"); ("unsigned int", "flags"); ("struct mount_attr *", "uattr"); ("size_t", "usize")];
  mk_sig 443 "quotactl_fd" 4 [("unsigned int", "fd"); ("unsigned int", "cmd"); ("qid_t", "id"); ("void *", "addr")];
  mk_sig 444 "landlock_create_ruleset" 3 [("const struct landlock_ruleset_attr *const", "attr"); ("const size_t", "size"); ("const __u32", "flags")];
  mk_sig 445 "landlock_add_rule" 4 [("const int", "ruleset_fd"); ("const enum landlock_rule_type", "rule_type"); ("const void *const", "rule_attr"); ("const __u32", "flags")];
  mk_sig 446 "landlock_restrict_self" 2 [("const int", "ruleset_fd"); ("const __u32", "flags")];
  mk_sig 447 "memfd_secret" 1 [("unsigned int", "flags")];
  mk_sig 448 "process_mrelease" 2 [("int", "pidfd"); ("unsigned int", "flags")];
  mk_sig 449 "futex_waitv" 5 [("struct futex_waitv *", "waiters"); ("unsigned int", "nr_futexes"); ("unsigned int", "flags"); ("struct __kernel_timespec *", "timeout"); ("clockid_t", "clockid")];
  mk_sig 450 "set_mempolicy_home_node" 4 [("unsigned long", "start"); ("unsigned long", "len"); ("unsigned long", "home_node"); ("unsigned long", "flags")];
  mk_sig 451 "cachestat" 4 [("unsigned int", "fd"); ("struct cachestat_range *", "cstat_range"); ("struct cachestat *", "cstat"); ("unsigned int", "flags")];
  mk_sig 452 "fchmodat2" 4 [("int", "dfd"); ("const char *", "filename"); ("umode_t", "mode"); ("unsigned int", "flags")];
  mk_sig 453 "map_shadow_stack" 3 [("unsigned long", "addr"); ("unsigned long", "size"); ("unsigned int", "flags")];
  mk_sig 454 "futex_wake" 4 [("void *", "uaddr"); ("unsigned long", "mask"); ("int", "nr"); ("unsigned int", "flags")];
  mk_sig 455 "futex_wait" 6 [("void *", "uaddr"); ("unsigned long", "val"); ("unsigned long", "mask"); ("unsigned int", "flags"); ("struct __kernel_timespec *", "timeout"); ("clockid_t", "clockid")];
  mk_sig 456 "futex_requeue" 4 [("struct futex_waitv *", "waiters"); ("unsigned int", "flags"); ("int", "nr_wake"); ("int", "nr_requeue")];
  mk_sig 457 "statmount" 4 [("const struct mnt_id_req *", "req"); ("struct statmount *", "buf"); ("size_t", "bufsize"); ("unsigned int", "flags")];
  mk_sig 458 "listmount" 4 [("const struct mnt_id_req *", "req"); ("u64 *", "mnt_ids"); ("size_t", "nr_mnt_ids"); ("unsigned int", "flags")];
  mk_sig 459 "lsm_get_self_attr" 4 [("unsigned int", "attr"); ("struct lsm_ctx *", "ctx"); ("u32 *", "size"); ("u32", "flags")];
  mk_sig 460 "lsm_set_self_attr" 4 [("unsigned int", "attr"); ("struct lsm_ctx *", "ctx"); ("u32", "size"); ("u32", "flags")];
  mk_sig 461 "lsm_list_modules" 3 [("u64 *", "ids"); ("u32 *", "size"); ("u32", "flags")];
  mk_sig 462 "mseal" 3 [("unsigned long", "start"); ("size_t", "len"); ("unsigned long", "flags")];
  mk_sig 463 "setxattrat" 6 [("int", "dfd"); ("const char *", "pathname"); ("unsigned int", "at_flags"); ("const char *", "name"); ("const struct xattr_args *", "uargs"); ("size_t", "usize")];
  mk_sig 464 "getxattrat" 6 [("int", "dfd"); ("const char *", "pathname"); ("unsigned int", "at_flags"); ("const char *", "name"); ("struct xattr_args *", "uargs"); ("size_t", "usize")];
  mk_sig 465 "listxattrat" 5 [("int", "dfd"); ("const char *", "pathname"); ("unsigned int", "at_flags"); ("char *", "list"); ("size_t", "size")];
  mk_sig 466 "removexattrat" 4 [("int", "dfd"); ("const char *", "pathname"); ("unsigned int", "at_flags"); ("const char *", "name")];
  mk_sig 467 "open_tree_attr" 5 [("int", "dfd"); ("const char *", "filename"); ("unsigned", "flags"); ("struct mount_attr *", "uattr"); ("size_t", "usize")];
  mk_sig 468 "file_getattr" 5 [("int", "dfd"); ("const char *", "filename"); ("struct file_attr *", "ufattr"); ("size_t", "usize"); ("unsigned int", "at_flags")];
  mk_sig 469 "file_setattr" 5 [("int", "dfd"); ("const char *", "filename"); ("struct file_attr *", "ufattr"); ("size_t", "usize"); ("unsigned int", "at_flags")];
  mk_sig 470 "listns" 4 [("const struct ns_id_req *", "req"); ("u64 *", "ns_ids"); ("size_t", "nr_ns_ids"); ("unsigned int", "flags")]
].
Definition s390x_frida_syscall_signatures : list LinuxSyscallSignature :=
  s390x_native_1 ++ s390x_native_2 ++ s390x_native_3.

#[local] Close Scope string_scope.

(** Every architecture that has tables. *)
Inductive target := Traced (a : arch) | X86 | Mips | Mips64 | S390x.
Definition target_syscall_signatures (t : target) : list LinuxSyscallSignature :=
  match t with
  | Traced a => frida_get_syscall_signatures a
  | X86 => x86_frida_syscall_signatures
  | Mips => mips_frida_syscall_signatures
  | Mips64 => mips64_frida_syscall_signatures
  | S390x => s390x_frida_syscall_signatures
  end.
Lemma target_tables_ok t : table_ok (target_syscall_signatures t) = true.
Proof. destruct t as [a| | | |]; [apply tables_ok|vm_compute; reflexivity..]. Qed.

(** C40: In the table of every architecture the search finds exactly the row with the number
    of a call. *)
Theorem target_signature_found t nr sig :
  find_sig_by_nr (target_syscall_signatures t) nr = Some sig ↔
  sig ∈ target_syscall_signatures t ∧ sig_nr sig = nr ∧ 0 ≤ nr.
Proof.
  destruct (Z.ltb_spec nr 0) as [Hneg|Hpos].
  - unfold find_sig_by_nr. rewrite (proj2 (Z.ltb_lt _ _) Hneg). split; [done|intros (_ & _ & ?); lia].
  - rewrite find_sig_spec by (apply target_tables_ok || done). tauto.
Qed.
