(* ===== verification/TracerDemo.v ===== *)
(** A concrete machine for the tracer: a kernel that never runs out of room and
    tasks whose memory is a table of strings and buffers.  It satisfies the laws
    the theorems rely on. *)
From S2P Require Import Prelude Posix Records Tracer TracerReader TracerMaps TracerCorrect TracerEvents TracerExit TracerPath TracerMapCorrect TracerSystem Architectures.

(** The state is the time.  Fresh records hold 170 in every byte. *)
#[export] Instance clock_kernel : BpfKernel Z := {|
  k_time k := (k, k + 1);
  k_stackid k := (7, k);
  k_reserve _ n k := (if n <? 0 then None else Some (replicate (Z.to_nat n) 170), k);
  k_refuses k := (false, k);
  k_others m k := (m, k);
  k_evicts _ k := ([], k)
|}.
#[export] Instance clock_laws : BpfLaws Z.
Proof.
  split. cbn. intros r n k b k'. destruct (Z.ltb_spec n 0); intros [= <- <-].
  unfold zlen. rewrite length_replicate. lia.
Qed.

Section memory.
(** The strings and the buffers of the task, and the names in the kernel. *)
Context (strs bufs names : Z → option (list Z)).

Definition find_str (table : Z → option (list Z)) (a cap : Z) : option (list Z) :=
  if 0 <? cap then ztake (cap - 1) <$> table a else None.
Definition find_bytes (a n : Z) : option (list Z) :=
  match bufs a with
  | Some bs => if n <=? zlen bs then (if 0 <=? n then Some (ztake n bs) else None) else None
  | None => None
  end.
Definition copy_str (table : Z → option (list Z)) (a : Z) (old : list Z) : Z * list Z :=
  match find_str table a (zlen old) with
  | Some s => (zlen s + 1, s ++ 0 :: zdrop (zlen s + 1) old)
  | None => (-14, old)
  end.
Definition copy_bytes (a : Z) (old : list Z) : Z * list Z :=
  match find_bytes a (zlen old) with
  | Some bs => (0, bs)
  | None => (-14, old)
  end.

(** A file 7 on the root mount 100 with the entries 10, 11 and 12: each entry's
    parent is the next lower one, the root is 9. *)
Definition demo_context (pid flags : Z) (top : Z) : context := {|
  pid_tgid := (pid ≪ 32) + pid;
  uid_gid := 0;
  thread_flags := flags;
  cpu := 0%nat;
  read_user := copy_bytes;
  read_user_str := copy_str strs;
  read_kernel_str := copy_str names;
  vm_file := λ _, 7;
  vm_start := λ _, 8192;
  vm_end := λ _, 12288;
  vm_pgoff := λ _, 2;
  vm_flags := λ _, 5;
  f_inode := λ _, 40;
  i_sb_s_dev := λ _, 2049;
  i_ino := λ _, 1234;
  f_path_dentry := λ _, top;
  f_path_mnt := λ _, 100;
  offsetof_mnt := 32;
  mnt_root := λ _, 9;
  mnt_parent := λ m, m;
  mnt_mountpoint := λ _, 9;
  d_parent := λ d, d - 1;
  d_name_name := λ d, d
|}.

Hypothesis strs_ok : ∀ a s, strs a = Some s → 0 ∉ s.
Hypothesis names_ok : ∀ a s, names a = Some s → 0 ∉ s.

Lemma find_str_ok table a cap s :
  (∀ a s, table a = Some s → 0 ∉ s) → find_str table a cap = Some s → 0 ∉ s ∧ zlen s < cap.
Proof.
  intros Ht. unfold find_str. destruct (Z.ltb_spec 0 cap); [|done].
  destruct (table a) as [s'|] eqn:E; [|done]. intros [= <-]. split.
  - intros Hin. apply (Ht _ _ E). unfold ztake in Hin.
    apply elem_of_take in Hin as (i & Hi & _). by eapply list_elem_of_lookup_2.
  - rewrite zlen_ztake. zlen_facts. lia.
Qed.
Lemma find_bytes_len a n bs : find_bytes a n = Some bs → zlen bs = n.
Proof.
  unfold find_bytes. destruct (bufs a) as [l|]; [|done].
  destruct (Z.leb_spec n (zlen l)); [|done]. destruct (Z.leb_spec 0 n); [|done].
  intros [= <-]. rewrite zlen_ztake. lia.
Qed.

Definition demo_laws (pid flags top : Z) : context_laws (demo_context pid flags top).
Proof.
  refine {| str_at := (find_str strs : Z → Z → option (list Z)); bytes_at := find_bytes;
            name_at := find_str names |}; cbn.
  - intros a cap s. by apply find_str_ok.
  - intros a cap s. by apply find_str_ok.
  - apply find_bytes_len.
  - intros a old s E. unfold copy_str. by rewrite E.
  - intros a old E. unfold copy_str. rewrite E. done.
  - intros a old s E. unfold copy_str. by rewrite E.
  - intros a old E. unfold copy_str. rewrite E. done.
  - intros a old bs E. unfold copy_bytes. by rewrite E.
  - intros a old E. unfold copy_bytes. rewrite E. done.
Defined.
End memory.

Definition demo_strs (a : Z) : option (list Z) :=
  if a =? 4096 then Some (bytes_of "/etc/hosts")
  else if a =? 5000 then Some (bytes_of "/etc/hosts.bak") else None.
Definition demo_bufs (a : Z) : option (list Z) :=
  if a =? 6000 then Some (bytes_of "target/of/a/symlink")
  else if a =? 6200 then Some (le_bytes 2 1 ++ bytes_of "/run/user.sock" ++ [0])
  else Some (le_bytes 8 3 ++ le_bytes 8 500 ++ zeros 600).
Definition demo_names (a : Z) : option (list Z) :=
  if a =? 10 then Some (bytes_of "data")
  else if a =? 11 then Some (bytes_of "app")
  else if a =? 12 then Some (bytes_of "base.apk")
  else if a =? 13 then Some (replicate 250 97) else None.
Lemma demo_strs_ok a s : demo_strs a = Some s → 0 ∉ s.
Proof. unfold demo_strs. repeat case_match; intros [= <-]; cbn; set_solver. Qed.
Lemma demo_names_ok a s : demo_names a = Some s → 0 ∉ s.
Proof.
  assert (Forall (λ x, x ≠ 0) (replicate 250 97)) as H250 by (by apply Forall_replicate).
  unfold demo_names. repeat case_match; intros [= <-].
  1-3: cbn; set_solver.
  intros Hin. by apply (proj1 (Forall_forall _ _) H250) in Hin.
Qed.

Definition task (pid flags top : Z) : context :=
  demo_context demo_strs demo_bufs demo_names pid flags top.
Definition task_laws (pid flags top : Z) : context_laws (task pid flags top) :=
  demo_laws demo_strs demo_bufs demo_names demo_strs_ok demo_names_ok pid flags top.

(** One processor, process 50 traced and known with generation 3. *)
Definition demo_tracer : tracer Z :=
  mk_tracer 1000 {[50 := 1]} ∅ ∅ {[50 := mk_process ABI_NATIVE 3]} ∅ [mk_stats 0 0 0 0]
    [mk_scratch (mk_bb (zeros 2048) 0) (zeros 18)] [] [] [].
Definition no_sockaddr : string → list Z → option unit := λ _ _, None.

(** * The tables of 64-bit machines against the tracer: every argument the tracer
    attaches to a native call is an argument of that call, of a type the reader
    can show.  So no event makes the reader of a native process fail. *)
Definition is_64bit (a : arch) : Prop := a ≠ Arm.

(** Replace [nr] by the numbers a test allows. *)
Ltac which H :=
  unfold is_path_call, is_stat_path_call, is_stat_fd_call, is_two_path_call, is_sleep_call,
    is_sock_call, is_sock_out_call in H;
  cbn in H;
  repeat match type of H with
  | orb _ _ = true => apply orb_true_iff in H as [H|H]
  end;
  try discriminate H; apply Z.eqb_eq in H; subst.

(** Facts about a row are found by computing it. *)
Ltac row := vm_compute; first [reflexivity|exact I|discriminate].

Lemma str_fits sig i p cap : (i <? sig_nargs_of sig) = true → want_fits sig (WantStr i p cap).
Proof. intros Hi. split; [by apply Z.ltb_lt|done]. Qed.
Lemma text_fits sig i p n cap : (i <? sig_nargs_of sig) = true → want_fits sig (WantText i p n cap).
Proof. intros Hi. split; [by apply Z.ltb_lt|done]. Qed.

(** The reader treats the bytes of argument [i] as a time of [size] bytes. *)
Definition time_size (sig : option LinuxSyscallSignature) (i : Z) : option Z :=
  match arg_type sig i with
  | Some ty =>
      if has_suffix "struct __kernel_timespec *" ty then Some 16
      else if has_suffix "struct old_timespec32 *" ty then Some 8 else None
  | None => None
  end.
Lemma bytes_fit sig i p n cap :
  (i <? sig_nargs_of sig) = true → 0 ≤ n →
  match time_size sig i with Some m => Z.min n cap = m | None => True end →
  match arg_type sig i with
  | Some ty => has_suffix "struct __kernel_timespec *" ty && has_suffix "struct old_timespec32 *" ty = false
  | None => True
  end →
  want_fits sig (WantBytes i p n cap).
Proof.
  intros Hi Hn Hm Hx. split; [by apply Z.ltb_lt|]. split; [done|]. intros ty Hty.
  unfold time_size in Hm. rewrite Hty in Hm, Hx.
  destruct (has_suffix "struct __kernel_timespec *" ty), (has_suffix "struct old_timespec32 *" ty); done.
Qed.

Lemma native_wants_fit a nr args :
  is_64bit a → args_ok args →
  Forall (want_fits (native_sig a nr)) (wants_of (numbers_of a) nr args).
Proof.
  intros H64 Ha. unfold wants_of.
  destruct (is_path_call (numbers_of a) nr) eqn:H1.
  { destruct a; [| |done]; which H1; apply Forall_singleton; apply str_fits; row. }
  destruct (is_stat_path_call (numbers_of a) nr) eqn:H2.
  { destruct a; [| |done]; which H2; apply Forall_singleton; apply str_fits; row. }
  destruct (is_stat_fd_call (numbers_of a) nr); [done|].
  destruct (is_two_path_call (numbers_of a) nr) eqn:H4.
  { destruct a; [| |done]; which H4; repeat constructor; apply str_fits; row. }
  destruct (nr =? n_MOUNT (numbers_of a)) eqn:H5.
  { destruct a; [| |done]; which H5; repeat constructor; apply str_fits; row. }
  destruct (is_sleep_call (numbers_of a) nr) eqn:H6.
  { destruct a; [| |done]; which H6; cbn; (case_match; [by constructor|]);
      apply Forall_singleton; apply bytes_fit; row. }
  destruct (is_sock_call (numbers_of a) nr) eqn:H7; [|done].
  destruct a; [| |done]; which H7; apply Forall_singleton;
    (apply bytes_fit; [row|apply u32_range|row|row]).
Qed.

Lemma native_exit_wants_fit a c i nr retval :
  is_64bit a →
  (∀ x, i = Some x → ∃ args, args_ok args ∧
     out_copy_of (numbers_of a) (syscall_nr x) args = Some (copy x)) →
  Forall (want_fits (native_sig a nr)) (exit_wants (numbers_of a) c i nr retval).
Proof.
  intros H64 Hi. destruct i as [[n cp]|]; [|done]. unfold exit_wants. cbn [syscall_nr copy].
  destruct (Hi _ eq_refl) as (args & Ha & Ho). cbn [syscall_nr copy] in Ho.
  destruct (Z.eqb_spec n nr) as [->|]; [|done]. cbn [negb].
  pose proof (out_copy_ok (numbers_of a) nr args cp Ha Ho) as Hok. clear Hi. revert Ho.
  unfold out_copy_of. pose proof (u32_range (znth args 2)).
  destruct (is_path_call (numbers_of a) nr) eqn:H1.
  { destruct a; [| |done]; which H1; intros [= <-]; case_match; try done;
      apply Forall_singleton; first [apply text_fits; row|apply bytes_fit; row]. }
  destruct (is_stat_path_call (numbers_of a) nr) eqn:H2.
  { destruct a; [| |done]; which H2; intros [= <-]; case_match; try done;
      apply Forall_singleton; apply bytes_fit; row. }
  destruct (is_stat_fd_call (numbers_of a) nr) eqn:H3.
  { destruct a; [| |done]; which H3; intros [= <-]; case_match; try done;
      apply Forall_singleton; (apply bytes_fit; [row|cbn; offs; lia|row|row]). }
  destruct (is_two_path_call (numbers_of a) nr || (nr =? n_MOUNT (numbers_of a))); [done|].
  destruct (is_sleep_call (numbers_of a) nr) eqn:H6.
  { destruct a; [| |done]; which H6; cbn; case_match; intros [= <-]; case_match; try done;
      apply Forall_singleton; apply bytes_fit; row. }
  destruct (is_sock_call (numbers_of a) nr); [done|].
  destruct (is_sock_out_call (numbers_of a) nr) eqn:H8; [|done].
  destruct a; [| |done]; which H8; intros [= <-]; case_match; try done;
    apply Forall_singleton; (apply bytes_fit; [row|unfold sock_len; offs; lia|row|row]).
Qed.

(** ** Decoding the records of a log *)
Section decode.
Context {S X : Type} (sock : string → list Z → option X).

Lemma enter_record_decodes {c} (L : context_laws c) args tgid tid nr gen ws b sig (s : S) :
  enter_record L args tgid tid nr gen ws b → Forall (want_fits sig) ws →
  wp (build_event_variant sock sig b) s (λ _ _, True).
Proof.
  intros (((_ & _ & Ht) & _) & _ & Hn & Hat) Hf.
  unfold build_event_variant. fold (sig_nargs_of sig). rewrite Ht.
  change (u16 EVENT_TYPE_SYSCALL_ENTER =? EVENT_TYPE_SYSCALL_ENTER) with true. cbn iota.
  pose proof (attached_len _ _ _ _ Hat). apply wp_bind, wp_assert; [offs; by apply Z.leb_le|].
  apply wp_bind. rewrite Hn. unfold zlen at 1. rewrite Nat2Z.id.
  wp_call (decode_attached L sock sig ws 88 b s); [lia|done|done|].
  intros vs s' _. by apply wp_ret.
Qed.
Lemma exit_record_decodes {c} (L : context_laws c) tgid tid nr gen retval ws b sig (s : S) :
  exit_record L tgid tid nr gen retval ws b → Forall (want_fits sig) ws →
  wp (build_event_variant sock sig b) s (λ _ _, True).
Proof.
  intros (((_ & _ & Ht) & _) & _ & Hn & Hat) Hf.
  unfold build_event_variant. fold (sig_nargs_of sig). rewrite Ht.
  change (u16 EVENT_TYPE_SYSCALL_EXIT =? EVENT_TYPE_SYSCALL_ENTER) with false. cbn iota.
  pose proof (attached_len _ _ _ _ Hat). apply wp_bind, wp_assert; [offs; by apply Z.leb_le|].
  apply wp_bind. rewrite Hn. unfold zlen at 1. rewrite Nat2Z.id.
  wp_call (decode_attached L sock sig ws 48 b s); [lia|done|done|].
  intros vs s' _. by apply wp_ret.
Qed.

(** The number in a record. *)
Definition record_nr (b : list Z) : Z := sfld32 o_syscall_nr b.

Lemma native_record_decodes a b (s : S) :
  is_64bit a → call_record (numbers_of a) b →
  wp (build_event_variant sock (native_sig a (record_nr b)) b) s (λ _ _, True).
Proof.
  intros H64 (c & L & tgid & tid & nr & gen & Hnr & [(args & Ha & Hrec)|(i & rv & Hi & Hrec)]).
  - assert (record_nr b = nr) as ->.
    { unfold record_nr, sfld32. destruct Hrec as ((_ & -> & _) & _). by apply s32_of_u32. }
    apply (enter_record_decodes L _ _ _ _ _ _ _ _ _ Hrec). by apply native_wants_fit.
  - assert (record_nr b = nr) as ->.
    { unfold record_nr, sfld32. destruct Hrec as ((_ & -> & _) & _). by apply s32_of_u32. }
    apply (exit_record_decodes L _ _ _ _ _ _ _ _ _ Hrec). by apply native_exit_wants_fit.
Qed.
End decode.
