(* ===== verification/TracerClaims.v ===== *)
(** What the tracer promises its reader, from end to end, with runs on a
    concrete machine. *)
From S2P Require Import Prelude Posix Records Tracer TracerReader TracerMaps TracerCorrect TracerEvents TracerExit TracerPath TracerMapCorrect TracerSystem SyscallsX86 Architectures TracerDemo.

(** ** Which calls are seen *)
Section guards.
Context {K : Type} `{BpfKernel K} (N : SyscallNumbers).
Notation T := (tracer K).
Implicit Types t : T.

Definition tgid_of (c : context) : Z := pid_tgid c ≫ 32.
Definition tid_of (c : context) : Z := u32 (pid_tgid c).
(** The process or its user is a target. *)
Definition traced (c : context) t : Prop :=
  is_Some (target_tgids t !! tgid_of c) ∨ is_Some (target_uids t !! u32 (uid_gid c)).
Definition excluded (c : context) (id : Z) t : Prop :=
  is_Some (excluded_syscalls t !! make_excluded_key (get_current_abi N c) (s32 id)).
(** The process has an entry when [process_states] is looked at: [k_others]
    turned the map into [m] and the kernel's state into [k]. *)
Definition known (c : context) t (m : gmap Z ProcessState) (k : K) (st : ProcessState) : Prop :=
  k_others (process_states t) (kern t) = (m, k) ∧ m !! tgid_of c = Some st ∧
  0 ≤ map_gen st < 2 ^ 32.

#[global] Instance traced_dec c t : Decision (traced c t).
Proof. unfold traced. apply _. Defined.
#[global] Instance excluded_dec c id t : Decision (excluded c id t).
Proof. unfold excluded. apply _. Defined.

Lemma should_trace_traced c t :
  should_trace_current c t = Ret ((bool_decide (traced c t), tgid_of c, tid_of c), t).
Proof.
  unfold should_trace_current, bind, gets. fold (tgid_of c) (tid_of c).
  destruct (target_tgids t !! tgid_of c) eqn:E1.
  { rewrite bool_decide_true; [done|]. left. by rewrite E1. }
  destruct (target_uids t !! u32 (uid_gid c)) eqn:E2.
  { rewrite bool_decide_true; [done|]. right. by rewrite E2. }
  rewrite bool_decide_false; [done|]. intros [[x Hx]|[x Hx]]; congruence.
Qed.

Lemma when_traced_runs c id k t m kk st :
  traced c t → ¬ excluded c id t → known c t m kk st →
  when_traced N c id k t =
    k (tgid_of c) (tid_of c) (s32 id) (map_gen st) (set_process_states m (set_kern kk t)).
Proof.
  intros Ht He (Ho & Hm & _). unfold when_traced, bind. rewrite should_trace_traced.
  rewrite bool_decide_true by done. cbn. unfold excluded in He.
  destruct (excluded_syscalls t !! _) eqn:E; [by destruct He|].
  unfold ensure_process_state, process_states_lookup, bind, others. cbn. rewrite Ho. cbn.
  fold (tgid_of c). by rewrite Hm.
Qed.
Lemma when_traced_skips c id k t :
  ¬ traced c t ∨ excluded c id t → when_traced N c id k t = Ret (tt, t).
Proof.
  intros Hs. unfold when_traced, bind. rewrite should_trace_traced.
  destruct (decide (traced c t)) as [Ht|Ht].
  - rewrite bool_decide_true by done. destruct Hs as [?|[x Hx]]; [done|].
    cbn. unfold gets. by rewrite Hx.
  - by rewrite bool_decide_false.
Qed.
Lemma tgid_range c : 0 ≤ pid_tgid c < 2 ^ 64 → 0 ≤ tgid_of c < 2 ^ 32.
Proof.
  intros Hp. unfold tgid_of. rewrite Z.shiftr_div_pow2 by lia.
  split; [apply Z.div_pos; lia|]. apply Z.div_lt_upper_bound; lia.
Qed.
End guards.

(** A task that is not a target, or a call that is excluded for its ABI, is
    invisible to the tracepoints: they return and leave the tracer as it was; a
    task that is no target does not reach the map programs either. *)
Theorem untraced_unchanged {K} `{BpfKernel K} N c id args retval vma start stop (t : tracer K) :
  (¬ traced c t ∨ excluded N c id t →
    on_sys_enter N c id args t = Ret (tt, t) ∧ on_sys_exit N c id retval t = Ret (tt, t)) ∧
  (¬ traced c t →
    on_uprobe_mmap c vma t = Ret (tt, t) ∧ on_uprobe_munmap c vma start stop t = Ret (tt, t)).
Proof.
  split.
  - intros Hs. split; by apply when_traced_skips.
  - intros Ht. unfold on_uprobe_mmap, on_uprobe_munmap, bind. rewrite should_trace_traced.
    by rewrite bool_decide_false.
Qed.
Lemma untraced_unchanged_witness :
  on_sys_enter x86_64_numbers (task 51 0 12) 257 [3; 4096; 0; 0; 0; 0] demo_tracer =
    Ret (tt, demo_tracer).
Proof.
  apply (proj1 (untraced_unchanged x86_64_numbers (task 51 0 12) 257 [3; 4096; 0; 0; 0; 0] 0 0 0 0
    demo_tracer)).
  left. intros [[x Hx]|[x Hx]]; vm_compute in Hx; discriminate.
Defined.

(** ** Entry and exit of one call *)
Section calls.
Context {K : Type} `{BpfLaws K} (N : SyscallNumbers) (HN : n_STATFS N ≠ n_READLINKAT N).
Implicit Types t : tracer K.

(** The in-flight entries after the entry of a call, unless the map refuses. *)
Definition scheduled_copies (c : context) (nr : Z) (args : list Z) t t' : Prop :=
  match out_copy_of N nr args with
  | None => inflight t' = inflight t
  | Some cp =>
      (∀ k : K, (k_refuses k).1 = false) → Z.of_nat (size (inflight t)) < MAX_INFLIGHT_COPIES →
      inflight t' = <[tid_of c := mk_inflight nr cp]> (inflight t)
  end.

Lemma on_sys_enter_spec c (L : context_laws c) id args t m k st b0 k' :
  args_ok args → traced c t → ¬ excluded N c id t → known c t m k st →
  k_reserve SyscallRing (enter_size (variant_of N (s32 id))) k = (Some b0, k') →
  ∃ t' b, on_sys_enter N c id args t = Ret (tt, t') ∧
    syscall_events t' = syscall_events t ++ [b] ∧
    enter_record L args (tgid_of c) (tid_of c) (s32 id) (map_gen st) (wants_of N (s32 id) args) b ∧
    scheduled_copies c (s32 id) args t t'.
Proof.
  intros [Hlen Hargs] Ht He Hk Hr.
  unfold on_sys_enter. rewrite (when_traced_runs _ _ _ _ _ _ _ _ Ht He Hk).
  set (t1 := set_process_states m (set_kern k t)).
  destruct (enter_branch_spec N L HN args Hargs (tgid_of c) (tid_of c) (s32 id) (map_gen st) t1 b0 k' Hr
    (reserve_size _ _ _ _ _ Hr)) as ([] & t' & E & b & Hb & Hrec & k2 & t2 & Hs & ->).
  exists (add_syscall_event b t2), b. split; [done|]. unfold scheduled_copies.
  destruct (out_copy_of N (s32 id) args) as [cp|]; cbn in Hs; [|by subst t2].
  revert Hs. unfold inflight_update, bind, call_kernel, modify. cbn.
  destruct (k_refuses k2) as [r k3] eqn:Er. intros [= <-]. split; [|split; [exact Hrec|]].
  - destruct r; [done|]. destruct (inflight t !! tid_of c); [done|]. by case_match.
  - intros Hno Hsz. specialize (Hno k2). rewrite Er in Hno. cbn in Hno. subst r.
    cbn. destruct (inflight t !! tid_of c); [done|]. by rewrite (proj2 (Z.ltb_lt _ _) Hsz).
Qed.

Lemma on_sys_exit_spec c (L : context_laws c) id retval t m k st b0 k' :
  (∀ x, inflight t !! tid_of c = Some x → copy_ok (copy x)) →
  traced c t → ¬ excluded N c id t → known c t m k st →
  k_reserve SyscallRing (exit_size (exit_variant (inflight t !! tid_of c) (s32 id))) k = (Some b0, k') →
  ∃ t' b, on_sys_exit N c id retval t = Ret (tt, t') ∧
    syscall_events t' = syscall_events t ++ [b] ∧
    exit_record L (tgid_of c) (tid_of c) (s32 id) (map_gen st) retval
      (exit_wants N c (inflight t !! tid_of c) (s32 id) retval) b ∧
    inflight t' = exit_inflight (inflight t) (tid_of c) (s32 id).
Proof.
  intros Hok Ht He Hk Hr.
  unfold on_sys_exit. rewrite (when_traced_runs _ _ _ _ _ _ _ _ Ht He Hk).
  set (t1 := set_process_states m (set_kern k t)).
  destruct (exit_branch_spec N L (tgid_of c) (tid_of c) (s32 id) (map_gen st) retval t1 b0 k' Hok Hr
    (reserve_size _ _ _ _ _ Hr)) as ([] & t' & E & b & Hb & Hrec & k2 & ->).
  eexists _, b. split; [exact E|]. done.
Qed.
(** What is in flight for a thread survives whatever other threads do, and is
    attached to the exit of the call it is meant for. *)
Lemma inflight_attached c (L : context_laws c) id retval t1 t2 x m k st b0 k'
    {X} (sock : string → list Z → option X) sig :
  trace_inv N t1 → inflight t1 !! tid_of c = Some x → copy_ok (copy x) → syscall_nr x = s32 id →
  rtc (step N (λ c', tid_of c' ≠ tid_of c)) t1 t2 →
  0 ≤ pid_tgid c < 2 ^ 64 → - 2 ^ 63 ≤ retval < 2 ^ 63 →
  traced c t2 → ¬ excluded N c id t2 → known c t2 m k st →
  k_reserve SyscallRing (exit_size (exit_variant (Some x) (s32 id))) k = (Some b0, k') →
  Forall (want_fits sig) (exit_wants N c (Some x) (s32 id) retval) →
  ∃ t3 b, on_sys_exit N c id retval t2 = Ret (tt, t3) ∧
    syscall_events t3 = syscall_events t2 ++ [b] ∧
    wp (build_event_variant sock sig b) tt (λ v _,
      e_tid v = tid_of c ∧ e_payload v = inr retval ∧
      Forall2 (want_shown L sock sig) (exit_wants N c (Some x) (s32 id) retval) (e_attachments v)) ∧
    inflight t3 !! tid_of c = None.
Proof.
  intros Hi1 Hx Hok Hnr Hsteps Hp Hret Ht He Hk Hr Hf.
  destruct (steps_keep N HN _ _ _ Hsteps Hi1) as [Hi2 Hsame].
  assert (inflight t2 !! tid_of c = Some x) as Hin.
  { rewrite Hsame; [done|]. intros c' Hne E. by apply Hne. }
  destruct (on_sys_exit_spec c L id retval t2 m k st b0 k') as (t3 & b & E3 & Hev & Hrec & Hin3);
    [|done|done|done|by rewrite Hin|].
  { rewrite Hin. by intros x' [= <-]. }
  exists t3, b. split; [done|]. split; [done|]. rewrite Hin in Hrec. split.
  - eapply wp_mono; [apply (exit_record_read L sock _ _ _ _ _ _ b sig tt Hrec (tgid_range c Hp)
      (u32_range _) (s32_range id) (proj2 (proj2 Hk)) Hret Hf)|].
    by intros v s (Hv & _ & _ & _ & Hpay & Hat).
  - rewrite Hin3. unfold exit_inflight. rewrite Hin, Hnr, Z.eqb_refl. apply lookup_delete_eq.
Qed.
Lemma on_sys_enter_inv c (L : context_laws c) id args t t' :
  args_ok args → trace_inv N t → runs_on c t → on_sys_enter N c id args t = Ret (tt, t') → trace_inv N t'.
Proof.
  intros Ha Hi Hrun E. destruct (on_sys_enter_keeps N HN c L id args t Ha Hi Hrun) as (x & y & E' & Hy & _).
  rewrite E in E'. by injection E' as _ <-.
Qed.
End calls.

(** ** The calls by their names
    The arguments that the entry of a call is to show, by the name that the signature
    tables give the call: paths, times that are given, and socket addresses, whose length is
    the next argument.  Other calls show none. *)
Inductive shown_argument := Path (i : Z) | Time (i : Z) | Address (i : Z).
#[local] Open Scope string_scope.
Definition shown_arguments : list (string * list shown_argument) := [
  ("openat", [Path 1]); ("faccessat", [Path 1]); ("statfs", [Path 0]); ("readlinkat", [Path 1]);
  ("newfstatat", [Path 1]); ("statx", [Path 1]);
  ("rename", [Path 0; Path 1]); ("renameat", [Path 1; Path 3]); ("renameat2", [Path 1; Path 3]);
  ("link", [Path 0; Path 1]); ("linkat", [Path 1; Path 3]); ("symlink", [Path 0; Path 1]); ("symlinkat", [Path 0; Path 2]);
  ("mount", [Path 0; Path 1; Path 2]);
  ("nanosleep", [Time 0]); ("clock_nanosleep", [Time 2]);
  ("connect", [Address 1]); ("bind", [Address 1]); ("sendto", [Address 4])
].
(** The buffer that a call fills: text with its size in the next argument, a structure, a
    structure with its size in the next argument, a time if there is room for it, and a
    socket address with a pointer to its length in the next argument. *)
Inductive filled_argument := Text (i : Z) | Struct (i : Z) | SizedStruct (i : Z) | TimeLeft (i : Z) | PeerAddress (i : Z).
Definition filled_arguments : list (string * filled_argument) := [
  ("readlinkat", Text 2); ("statfs", Struct 1); ("newfstatat", Struct 2); ("statx", Struct 4); ("fstatfs", Struct 1);
  ("fstat", Struct 1); ("statmount", SizedStruct 1); ("nanosleep", TimeLeft 1); ("clock_nanosleep", TimeLeft 3);
  ("accept", PeerAddress 1); ("accept4", PeerAddress 1); ("getsockname", PeerAddress 1); ("getpeername", PeerAddress 1);
  ("recvfrom", PeerAddress 4)
].
#[local] Close Scope string_scope.
Definition find_name {A} (name : string) (l : list (string * A)) : option A := snd <$> find (λ x, String.eqb x.1 name) l.
Definition shown_wants (args : list Z) (x : shown_argument) : list want :=
  match x with
  | Path i => [WantStr i (znth args i) 256]
  | Time i => if znth args i =? 0 then [] else [WantBytes i (znth args i) 16 16]
  | Address i => [WantBytes i (znth args i) (u32 (znth args (i + 1))) 128]
  end.
Definition named_wants (name : string) (args : list Z) : list want :=
  flat_map (shown_wants args) (default [] (find_name name shown_arguments)).
Definition named_copy (name : string) (args : list Z) : option OutCopy :=
  x ← find_name name filled_arguments;
  match x with
  | Text i => Some (StrOutCopy i (znth args i) (u32 (znth args (i + 1))))
  | Struct i => Some (StatOutCopy i (znth args i) 512)
  | SizedStruct i => Some (StatOutCopy i (znth args i) (Z.min (u32 (znth args (i + 1))) 512))
  | TimeLeft i => if znth args i =? 0 then None else Some (StatOutCopy i (znth args i) 16)
  | PeerAddress i => Some (SockOutCopy i (znth args i) (znth args (i + 1)) 128)
  end.
(** Every row of the tables agrees with what the tracer does. *)
Definition row_agrees (N : SyscallNumbers) (s : LinuxSyscallSignature) : Prop :=
  (∀ args, wants_of N (sig_nr s) args = named_wants (sig_name s) args) ∧
  (∀ args, out_copy_of N (sig_nr s) args = named_copy (sig_name s) args) ∧ 0 ≤ sig_nargs s ≤ 6.
(** Rows for which nothing is done are checked by computation, the others one by one. *)
Definition quiet_row (N : SyscallNumbers) (s : LinuxSyscallSignature) : bool :=
  let nr := sig_nr s in
  negb (is_path_call N nr || is_stat_path_call N nr || is_stat_fd_call N nr || is_two_path_call N nr || (nr =? n_MOUNT N) ||
        is_sleep_call N nr || is_sock_call N nr || is_sock_out_call N nr) &&
  match find_name (sig_name s) shown_arguments, find_name (sig_name s) filled_arguments with None, None => true | _, _ => false end &&
  (0 <=? sig_nargs s) && (sig_nargs s <=? 6).
Lemma quiet_row_agrees N s : quiet_row N s = true → row_agrees N s.
Proof.
  unfold quiet_row. rewrite !andb_true_iff, negb_true_iff, !orb_false_iff.
  intros [[[Hq Hf] H0%Z.leb_le] H6%Z.leb_le]. destruct Hq as [[[[[[[E1 E2] E3] E4] E5] E6] E7] E8].
  destruct (find_name (sig_name s) shown_arguments) eqn:F1; [done|]. destruct (find_name (sig_name s) filled_arguments) eqn:F2; [done|].
  split; [|split; [|lia]]; intros args.
  - unfold wants_of, named_wants. by rewrite E1, E2, E3, E4, E5, E6, E7, F1.
  - unfold out_copy_of, named_copy. by rewrite E1, E2, E3, E4, E5, E6, E7, E8, F2.
Qed.
Lemma rows_agree a : is_64bit a → Forall (row_agrees (numbers_of a)) (frida_get_syscall_signatures a).
Proof.
  intros Ha. assert (Hr : Forall (row_agrees (numbers_of a)) (filter (λ s, quiet_row (numbers_of a) s = false) (frida_get_syscall_signatures a))).
  { destruct a; [| |done].
    all: match goal with |- Forall ?P ?l => let l' := eval vm_compute in l in replace l with l' by (vm_compute; reflexivity) end.
    all: repeat (apply Forall_cons; split; [split; [intros args; first [reflexivity|cbn; by case_match]|split; [intros args; reflexivity|done]]|]).
    all: apply Forall_nil_2. }
  rewrite Forall_forall in Hr |- *. intros s Hs. destruct (quiet_row (numbers_of a) s) eqn:E; [by apply quiet_row_agrees|].
  apply Hr, list_elem_of_filter. done.
Qed.
Lemma native_row a nr s : is_64bit a → native_sig a nr = Some s → row_agrees (numbers_of a) s ∧ sig_nr s = nr.
Proof.
  intros Ha E. pose proof (rows_agree a Ha) as Hr. rewrite Forall_forall in Hr.
  destruct (Z.ltb_spec nr 0) as [Hneg|Hpos]; [unfold find_sig_by_nr in E; by rewrite (proj2 (Z.ltb_lt _ _) Hneg) in E|].
  apply find_sig_spec in E as [Hin En]; [|apply tables_ok|done]. split; [by apply Hr|done].
Qed.

(** C2: On x86-64 and arm64, the entry of a native call of a process that is traced, has
    an entry in the tracer's map and does not exclude the call is submitted as one event,
    when the ring has room, and the reader decodes it to the thread, the process, the
    number, the map generation, the arguments of the call's signature, and the arguments
    that are shown for a call of this name ([shown_arguments]): paths up to their
    terminator, cut at 255 bytes and empty if they cannot be read, and times and socket
    addresses byte for byte if they can be read.  Calls that are not listed show none.  If
    the call is one that fills a buffer ([filled_arguments]), the buffer is scheduled for
    its exit, when the map of such copies has room and takes it. *)
Theorem enter_event_read_back {K} `{BpfLaws K} a c (L : context_laws c) id args (t : tracer K)
    m k st b0 k' {X} (sock : string → list Z → option X) s :
  is_64bit a → native_sig a (s32 id) = Some s → args_ok args → 0 ≤ pid_tgid c < 2 ^ 64 →
  traced c t → ¬ excluded (numbers_of a) c id t → known c t m k st →
  k_reserve SyscallRing (enter_size (variant_of (numbers_of a) (s32 id))) k = (Some b0, k') →
  ∃ t' b, on_sys_enter (numbers_of a) c id args t = Ret (tt, t') ∧
    syscall_events t' = syscall_events t ++ [b] ∧
    wp (build_event_variant sock (Some s) b) tt (λ v _,
      e_tid v = tid_of c ∧ e_tgid v = tgid_of c ∧ e_nr v = s32 id ∧ e_gen v = map_gen st ∧
      e_payload v = inl (ztake (sig_nargs s) args) ∧
      Forall2 (want_shown L sock (Some s)) (named_wants (sig_name s) args) (e_attachments v)) ∧
    match named_copy (sig_name s) args with
    | None => inflight t' = inflight t
    | Some cp =>
        (∀ k : K, (k_refuses k).1 = false) → Z.of_nat (size (inflight t)) < MAX_INFLIGHT_COPIES →
        inflight t' = <[tid_of c := mk_inflight (s32 id) cp]> (inflight t)
    end.
Proof.
  intros H64 Hs Ha Hp Ht He Hk Hr. destruct (native_row a (s32 id) s H64 Hs) as [(Hw & Hc & Hna) Hnr].
  rewrite Hnr in Hw, Hc. pose proof (native_wants_fit a (s32 id) args H64 Ha) as Hf.
  destruct (on_sys_enter_spec (numbers_of a) (numbers_distinct a) c L id args t m k st b0 k' Ha Ht He Hk Hr)
    as (t' & b & E & Hev & Hrec & Hcopy).
  exists t', b. split; [done|]. split; [done|]. unfold scheduled_copies in Hcopy. rewrite Hc in Hcopy. split; [|done].
  rewrite Hs in Hf. rewrite <- Hw.
  apply (enter_record_read L args (proj2 Ha) sock _ _ _ _ _ b (Some s) tt Hrec (tgid_range c Hp)
    (u32_range _) (s32_range id) (proj2 (proj2 Hk)) Hf Hna (proj1 Ha)).
Qed.
Definition openat_call : list Z := [3; 4096; 0; 0; 0; 0].
Definition openat_sig : LinuxSyscallSignature :=
  mk_sig 257 "openat" 4 [("int", "dfd"); ("const char *", "filename"); ("int", "flags"); ("umode_t", "mode")].
Lemma enter_event_read_back_witness :
  ∃ t' b, on_sys_enter x86_64_numbers (task 50 0 12) 257 openat_call demo_tracer = Ret (tt, t') ∧
    syscall_events t' = [b] ∧
    wp (build_event_variant no_sockaddr (Some openat_sig) b) tt
      (λ v _, e_nr v = 257 ∧ e_gen v = 3 ∧
         Forall2 (want_shown (task_laws 50 0 12) no_sockaddr (Some openat_sig)) [WantStr 1 4096 256] (e_attachments v)).
Proof.
  destruct (enter_event_read_back X86_64 (task 50 0 12) (task_laws 50 0 12) 257 openat_call
    demo_tracer {[50 := mk_process ABI_NATIVE 3]} 1000 (mk_process ABI_NATIVE 3) (replicate 352 170) 1000
    no_sockaddr openat_sig)
    as (t' & b & E & Hev & Hread & _).
  - done.
  - vm_compute. reflexivity.
  - split; [done|]. intros i. unfold znth. destruct (Z.to_nat i) as [|[|[|[|[|[|[|n]]]]]]]; done.
  - done.
  - left. by exists 1.
  - intros [x Hx]. vm_compute in Hx. discriminate.
  - split; [reflexivity|]. split; [reflexivity|done].
  - vm_compute. reflexivity.
  - exists t', b. split; [exact E|]. split; [exact Hev|].
    eapply wp_mono; [exact Hread|]. intros v s (_ & _ & Hn & Hg & _ & Ha).
    split; [exact Hn|]. split; [exact Hg|exact Ha].
Defined.

Definition after_readlinkat : tracer Z :=
  set_inflight {[50 := mk_inflight 267 (StrOutCopy 2 6000 64)]} demo_tracer.

Lemma demo_fresh : fresh demo_tracer.
Proof. by repeat constructor. Qed.
Definition fstat_call : list Z := [3; 6100; 0; 0; 0; 0].
Lemma literal_args (l : list Z) :
  length l = 6%nat → Forall (λ x, u64 x = x) l → args_ok l.
Proof.
  intros Hl Hf. split; [done|]. intros i. unfold znth.
  destruct (decide (Z.to_nat i < length l)%nat) as [Hi|Hi].
  - rewrite Forall_forall in Hf. apply Hf, list_elem_of_In, nth_In. done.
  - rewrite nth_overflow by lia. done.
Qed.
Definition returned {S} (o : outcome (unit * S)) (d : S) : S :=
  match o with Ret (_, s) => s | _ => d end.
Definition fstat_entered : tracer Z :=
  returned (on_sys_enter x86_64_numbers (task 50 0 12) 5 fstat_call demo_tracer) demo_tracer.
