(* ===== verification/TracerMapClaims.v ===== *)
(** What the reader learns about mappings: the events of uprobe_mmap and
    uprobe_munmap from end to end, and what becomes of the file's path. *)
From S2P Require Import Prelude Posix Records Tracer TracerReader TracerMaps TracerCorrect TracerEvents TracerExit TracerPath TracerMapCorrect TracerSystem SyscallsX86 Architectures TracerDemo TracerClaims.

Section maps.
Context {K : Type} `{BpfLaws K}.
Implicit Types t : tracer K.

(** The process has had its snapshot, so its mappings are reported. *)
Definition followed (c : context) t (m : gmap Z ProcessState) (k : K) (st : ProcessState) : Prop :=
  known c t m k st ∧ 0 < map_gen st < 2 ^ 32 - 1.
(** The entry of the process with the next generation. *)
Definition next_gen (st : ProcessState) : ProcessState := mk_process (abi st) (map_gen st + 1).

Lemma bump_followed c t m k st :
  followed c t m k st →
  bump_map_gen (tgid_of c) t =
    Ret (map_gen st + 1, set_process_states (<[tgid_of c := next_gen st]> m) (set_kern k t)).
Proof.
  intros [(Ho & Hm & _) Hg]. unfold bump_map_gen, bind.
  destruct (process_states_lookup_spec (tgid_of c) t) as (m' & k' & Ho' & ->).
  rewrite Ho in Ho'. injection Ho' as <- <-. rewrite Hm.
  rewrite (proj2 (Z.eqb_neq (map_gen st) 0)) by lia.
  rewrite u32_small by lia. done.
Qed.

Lemma on_uprobe_mmap_spec c (L : context_laws c) vma t m k st b0 k' :
  traced c t → followed c t m k st → vm_file c vma ≠ 0 → f_inode c (vm_file c vma) ≠ 0 →
  k_reserve MapRing sizeof_MapCreateEvent k = (Some b0, k') → Forall scratch_ok (scratch_area t) →
  ∃ t' b, on_uprobe_mmap c vma t = Ret (tt, t') ∧ map_events t' = map_events t ++ [b] ∧
    process_states t' = <[tgid_of c := next_gen st]> m ∧ zlen b = sizeof_MapCreateEvent ∧
    map_record (tgid_of c) (tid_of c) (map_gen st + 1) (mapping_of (c := c) vma (f_inode c (vm_file c vma))) b ∧
    zslice 340 344 b = zslice 340 344 b0 ∧
    (∀ names, is_Some (scratch_area t !! cpu c) → file_path L (vm_file c vma) names →
       zlen (path_of names) ≤ 1022 → fld 2 o_attachment_count b = 1 ∧ path_attached names b).
Proof.
  intros Ht Hfo Hf Hi Hr Hsc.
  set (t1 := set_process_states (<[tgid_of c := next_gen st]> m) (set_kern k t)).
  destruct (map_create_spec L (tgid_of c) (tid_of c) (map_gen st + 1) vma (vm_file c vma)
    (f_inode c (vm_file c vma)) t1 b0 k' Hr (reserve_size _ _ _ _ _ Hr) Hsc)
    as ([] & t' & E & b & Hb & Hrec & (k2 & t2 & (l & -> & _) & ->) & Hpad & Hpath).
  eexists _, b. split.
  - unfold on_uprobe_mmap, bind. rewrite should_trace_traced, bool_decide_true by done.
    rewrite (bump_followed c t m k st Hfo).
    destruct Hfo as [_ Hg]. rewrite (proj2 (Z.eqb_neq (map_gen st + 1) 0)) by lia.
    rewrite (proj2 (Z.eqb_neq _ _) Hf), (proj2 (Z.eqb_neq _ _) Hi). exact E.
  - done.
Qed.
End maps.

Lemma zlen_even_below (s : list Z) : even_below (zlen s) = zlen s - zlen s mod 2.
Proof. done. Qed.

Lemma even_below_256 n : 256 ≤ n → 256 ≤ even_below n.
Proof. unfold even_below. intros. Z.to_euclidean_division_equations. lia. Qed.

(** C36: A new mapping of a file, in a process that is traced and has had its snapshot,
    is reported with the next generation of the process, which its later system calls
    also show.  When the record fits into the ring, the reader learns the range, the
    offset in bytes (modulo 2^64), the flags, the inode, the kernel's number of the device
    split at 32 bits, and the absolute path of the file, across mount points.  The path
    must have an even number of characters (or be the root), fewer than 256, and its
    entries and mounts at most 18 moves: [odd_path_truncated] and [long_path_overruns] are
    about the others. *)
Theorem mapped_file_read_back {K} `{BpfLaws K} page_size c (L : context_laws c) vma (t : tracer K)
    m k st b0 k' names :
  traced c t → followed c t m k st → vm_file c vma ≠ 0 → f_inode c (vm_file c vma) ≠ 0 →
  0 ≤ pid_tgid c < 2 ^ 64 →
  k_reserve MapRing sizeof_MapCreateEvent k = (Some b0, k') →
  Forall scratch_ok (scratch_area t) → is_Some (scratch_area t !! cpu c) →
  file_path L (vm_file c vma) names → zlen (path_of names) mod 2 = 0 → zlen (path_of names) < 256 →
  let mp := mapping_of (c := c) vma (f_inode c (vm_file c vma)) in
  ∃ t' b, on_uprobe_mmap c vma t = Ret (tt, t') ∧ map_events t' = map_events t ++ [b] ∧
    process_states t' !! tgid_of c = Some (next_gen st) ∧
    read_map_event page_size b tt =
      Ret (MapCreate (tgid_of c) (map_gen st + 1) (m_start mp) (m_end mp) (u64 (m_pgoff mp * page_size)) (m_flags mp)
             (DevId_unpack (m_device mp)) (m_inode mp)
             (Some (match names with [] => [47] | _ => path_of names end)), tt).
Proof.
  intros Ht Hfo Hf Hi Hp Hr Hsc Hcpu Hpath Heven Hlen mp.
  destruct (on_uprobe_mmap_spec c L vma t m k st b0 k' Ht Hfo Hf Hi Hr Hsc)
    as (t' & b & E & Hev & Hps & Hb & Hrec & _ & Hat).
  exists t', b. split; [done|]. split; [done|]. split; [rewrite Hps; apply lookup_insert_eq|].
  destruct (Hat names Hcpu Hpath ltac:(lia)) as [Hc Hattach].
  assert (shown_path names = match names with [] => [47] | _ => path_of names end) as Hshown.
  { unfold shown_path. destruct names; [done|]. rewrite zlen_even_below, Heven. apply ztake_ge. lia. }
  rewrite <- Hshown. apply (map_record_read _ _ (tid_of c)); try done.
  - by apply tgid_range.
  - destruct Hfo as [_ Hg]. lia.
  - by apply (shown_path_nonzero L (vm_file c vma)).
  - rewrite Hshown. destruct names; [done|]. lia.
Qed.

(** The path of a mapped file loses its last character when it has an odd number of
    them: the mask that bounds the position of the terminator clears its lowest
    bit, so the terminator replaces that character. *)
Theorem odd_path_truncated {K} `{BpfLaws K} page_size c (L : context_laws c) vma (t : tracer K)
    m k st b0 k' names :
  traced c t → followed c t m k st → vm_file c vma ≠ 0 → f_inode c (vm_file c vma) ≠ 0 →
  0 ≤ pid_tgid c < 2 ^ 64 →
  k_reserve MapRing sizeof_MapCreateEvent k = (Some b0, k') →
  Forall scratch_ok (scratch_area t) → is_Some (scratch_area t !! cpu c) →
  file_path L (vm_file c vma) names → zlen (path_of names) mod 2 = 1 → zlen (path_of names) < 256 →
  let mp := mapping_of (c := c) vma (f_inode c (vm_file c vma)) in
  ∃ t' b, on_uprobe_mmap c vma t = Ret (tt, t') ∧ map_events t' = map_events t ++ [b] ∧
    read_map_event page_size b tt =
      Ret (MapCreate (tgid_of c) (map_gen st + 1) (m_start mp) (m_end mp) (u64 (m_pgoff mp * page_size)) (m_flags mp)
             (DevId_unpack (m_device mp)) (m_inode mp)
             (Some (ztake (zlen (path_of names) - 1) (path_of names))), tt).
Proof.
  intros Ht Hfo Hf Hi Hp Hr Hsc Hcpu Hpath Hodd Hlen mp.
  destruct (on_uprobe_mmap_spec c L vma t m k st b0 k' Ht Hfo Hf Hi Hr Hsc)
    as (t' & b & E & Hev & Hps & Hb & Hrec & _ & Hat).
  exists t', b. split; [done|]. split; [done|].
  destruct (Hat names Hcpu Hpath ltac:(lia)) as [Hc Hattach].
  assert (shown_path names = ztake (zlen (path_of names) - 1) (path_of names)) as Hshown.
  { unfold shown_path. destruct names; [done|]. by rewrite zlen_even_below, Hodd. }
  rewrite <- Hshown. apply (map_record_read _ _ (tid_of c)); try done.
  - by apply tgid_range.
  - destruct Hfo as [_ Hg]. lia.
  - by apply (shown_path_nonzero L (vm_file c vma)).
  - rewrite Hshown, zlen_ztake. zlen_facts. lia.
Qed.

(** The path of a mapped file is cut at 256 bytes without a terminator: the reader,
    which takes it for a C string, goes on into the padding of the record and past
    its end. *)
Theorem long_path_overruns {K} `{BpfLaws K} page_size c (L : context_laws c) vma (t : tracer K)
    m k st b0 k' names :
  traced c t → followed c t m k st → vm_file c vma ≠ 0 → f_inode c (vm_file c vma) ≠ 0 →
  k_reserve MapRing sizeof_MapCreateEvent k = (Some b0, k') → 0 ∉ zslice 340 344 b0 →
  Forall scratch_ok (scratch_area t) → is_Some (scratch_area t !! cpu c) →
  file_path L (vm_file c vma) names → 256 ≤ zlen (path_of names) ≤ 1022 →
  ∃ t' b, on_uprobe_mmap c vma t = Ret (tt, t') ∧ map_events t' = map_events t ++ [b] ∧
    read_map_event page_size b tt = Crash.
Proof.
  intros Ht Hfo Hf Hi Hr Hjunk Hsc Hcpu Hpath Hlen.
  destruct (on_uprobe_mmap_spec c L vma t m k st b0 k' Ht Hfo Hf Hi Hr Hsc)
    as (t' & b & E & Hev & Hps & Hb & Hrec & Hpad & Hat).
  exists t', b. split; [done|]. split; [done|].
  destruct (Hat names Hcpu Hpath ltac:(lia)) as [Hc Hattach].
  apply (map_record_overrun _ _ _ _ _ _ names tt Hrec); try done.
  - by apply (shown_path_nonzero L (vm_file c vma)).
  - unfold shown_path. destruct names;
      [change (path_of []) with (@nil Z) in Hlen; rewrite zlen_nil in Hlen; lia|].
    pose proof (even_below_256 _ (proj1 Hlen)).
    pose proof (even_below_range (zlen (path_of (l :: names)))).
    rewrite zlen_ztake. lia.
  - by rewrite Hpad.
Qed.

(** The tracer reports the number that the kernel uses for a device, in which the major
    number is above 20 bits; the reader splits it at 32 bits, and so takes every device
    for one with the major number 0. *)
Theorem device_misread major minor :
  0 ≤ major < 2 ^ 12 → 0 ≤ minor < 2 ^ 20 → DevId_unpack (Z.lor (major ≪ 20) minor) = mk_dev 0 (major * 2 ^ 20 + minor).
Proof.
  intros Hm Hn. rewrite Z.shiftl_mul_pow2, lor_shift by lia.
  unfold DevId_unpack. rewrite Z.shiftr_div_pow2, Z.div_small, !u32_small by lia. done.
Qed.
Lemma device_misread_witness : DevId_unpack (Z.lor (8 ≪ 20) 1) = mk_dev 0 8388609.
Proof. apply (device_misread 8 1); lia. Defined.

(** ** A file on the demo machine *)
Lemma demo_named d s :
  demo_names d = Some s → d ≠ 0 → s ≠ [] → ∀ top, named (task_laws 50 0 top) d s.
Proof.
  intros Hs Hd Hne top. split; [done|]. split; [done|]. split; [done|]. intros cap Hcap. cbn.
  unfold find_str. rewrite Hs. zlen_facts.
  rewrite (proj2 (Z.ltb_lt 0 cap)) by lia. cbn. by rewrite ztake_ge by lia.
Qed.
Lemma demo_climb top ds :
  climbs (c := task 50 0 top) (length ds) (9 + zlen ds) (u64 (100 - 32)) ds →
  climbs (c := task 50 0 top) (S (length ds)) (10 + zlen ds) (u64 (100 - 32)) (10 + zlen ds :: ds).
Proof.
  intros Hc. zlen_facts. apply climbs_up.
  - lia.
  - done.
  - unfold at_root, root_of. cbn -[Z.add]. apply Z.eqb_neq. lia.
  - cbn -[Z.add]. lia.
  - cbn -[Z.add]. lia.
  - replace (d_parent (task 50 0 top) (10 + zlen ds)) with (9 + zlen ds); [done|]. cbn -[Z.add]. lia.
Qed.
Lemma demo_climbs top : climbs (c := task 50 0 top) 3 12 (u64 (100 - 32)) [12; 11; 10].
Proof.
  apply (demo_climb top [11; 10]), (demo_climb top [10]), (demo_climb top []), climbs_top; try done.
  right. by left.
Qed.

Definition apk_path : list (list Z) := [bytes_of "data"; bytes_of "app"; bytes_of "base.apk"].
Lemma apk_file : file_path (task_laws 50 0 12) 7 apk_path.
Proof.
  exists 3%nat, [12; 11; 10]. split; [done|]. split; [done|]. split; [apply demo_climbs|].
  split; [lia|]. change (reverse [12; 11; 10]) with [10; 11; 12].
  repeat (constructor; [by apply demo_named|]). constructor.
Qed.
Definition app_path : list (list Z) := [bytes_of "data"; bytes_of "app"].
Lemma app_file : file_path (task_laws 50 0 11) 7 app_path.
Proof.
  exists 2%nat, [11; 10]. split; [done|]. split; [done|].
  split; [apply (demo_climb 11 [10]), (demo_climb 11 []), climbs_top; try done; right; by left|].
  split; [lia|]. change (reverse [11; 10]) with [10; 11].
  repeat (constructor; [by apply demo_named|]). constructor.
Qed.
Definition long_path : list (list Z) := apk_path ++ [replicate 250 97].
Lemma long_file : file_path (task_laws 50 0 13) 7 long_path.
Proof.
  exists 4%nat, [13; 12; 11; 10]. split; [done|]. split; [done|].
  split; [apply (demo_climb 13 [12; 11; 10]), demo_climbs|].
  split; [lia|]. change (reverse [13; 12; 11; 10]) with [10; 11; 12; 13].
  repeat (constructor; [by apply demo_named|]). constructor.
Qed.

Lemma demo_followed top :
  followed (task 50 0 top) demo_tracer {[50 := mk_process ABI_NATIVE 3]} 1000 (mk_process ABI_NATIVE 3).
Proof. split; [split; [reflexivity|split; [reflexivity|done]]|done]. Qed.
Lemma demo_traced top : traced (task 50 0 top) demo_tracer.
Proof. left. by exists 1. Qed.
Lemma demo_scratch : Forall scratch_ok (scratch_area demo_tracer).
Proof. by repeat constructor. Qed.

Lemma mapped_file_read_back_witness :
  ∃ t' b, on_uprobe_mmap (task 50 0 12) 1 demo_tracer = Ret (tt, t') ∧ map_events t' = [b] ∧
    read_map_event 4096 b tt =
      Ret (MapCreate 50 4 8192 12288 8192 5 (mk_dev 0 2049) 1234 (Some (bytes_of "/data/app/base.apk")), tt).
Proof.
  destruct (mapped_file_read_back 4096 (task 50 0 12) (task_laws 50 0 12) 1 demo_tracer
    {[50 := mk_process ABI_NATIVE 3]} 1000 (mk_process ABI_NATIVE 3) (replicate 344 170) 1000 apk_path)
    as (t' & b & E & Hev & _ & Hread).
  - apply demo_traced.
  - apply demo_followed.
  - done.
  - done.
  - done.
  - vm_compute. reflexivity.
  - apply demo_scratch.
  - by eexists.
  - apply apk_file.
  - vm_compute. reflexivity.
  - vm_compute. reflexivity.
  - exists t', b. split; [exact E|]. split; [exact Hev|]. rewrite Hread. vm_compute. reflexivity.
Defined.
Lemma odd_path_truncated_witness :
  ∃ t' b, on_uprobe_mmap (task 50 0 11) 1 demo_tracer = Ret (tt, t') ∧ map_events t' = [b] ∧
    read_map_event 4096 b tt =
      Ret (MapCreate 50 4 8192 12288 8192 5 (mk_dev 0 2049) 1234 (Some (bytes_of "/data/ap")), tt).
Proof.
  destruct (odd_path_truncated 4096 (task 50 0 11) (task_laws 50 0 11) 1 demo_tracer
    {[50 := mk_process ABI_NATIVE 3]} 1000 (mk_process ABI_NATIVE 3) (replicate 344 170) 1000 app_path)
    as (t' & b & E & Hev & Hread).
  - apply demo_traced.
  - apply demo_followed.
  - done.
  - done.
  - done.
  - vm_compute. reflexivity.
  - apply demo_scratch.
  - by eexists.
  - apply app_file.
  - vm_compute. reflexivity.
  - vm_compute. reflexivity.
  - exists t', b. split; [exact E|]. split; [exact Hev|]. rewrite Hread. vm_compute. reflexivity.
Defined.
Lemma long_path_overruns_witness :
  ∃ t' b, on_uprobe_mmap (task 50 0 13) 1 demo_tracer = Ret (tt, t') ∧ map_events t' = [b] ∧
    read_map_event 4096 b tt = Crash.
Proof.
  destruct (long_path_overruns 4096 (task 50 0 13) (task_laws 50 0 13) 1 demo_tracer
    {[50 := mk_process ABI_NATIVE 3]} 1000 (mk_process ABI_NATIVE 3) (replicate 344 170) 1000 long_path)
    as (t' & b & E & Hev & Hread).
  - apply demo_traced.
  - apply demo_followed.
  - done.
  - done.
  - vm_compute. reflexivity.
  - change (zslice 340 344 (replicate 344 170)) with [170; 170; 170; 170]. set_solver.
  - apply demo_scratch.
  - by eexists.
  - apply long_file.
  - split; vm_compute; discriminate.
  - exists t', b. split; [exact E|]. split; [exact Hev|exact Hread].
Defined.
