(* ===== verification/TracerSafety.v ===== *)
(** Properties of all runs of the tracer: its programs return, its counters agree
    with the rings, stopped processes are resumed, and the reader can decode what
    it finds, with the cases where it cannot. *)
From S2P Require Import Prelude Posix Records Tracer TracerReader TracerMaps TracerCorrect TracerEvents TracerExit TracerPath TracerMapCorrect TracerSystem SyscallsX86 SyscallsArm Architectures TracerDemo TracerClaims.

Definition anyone (c : context) : Prop := True.

(** C25: Every program of the tracer returns, from every state that can be reached,
    for every task and whatever user memory, kernel memory and the kernel's
    helpers do: no loop fails to end and no access leaves a record, the scratch
    area or the chain of entries. *)
Theorem programs_return {K} `{BpfLaws K} N (t0 t : tracer K) c (L : context_laws c)
    id args retval vma start stop :
  n_STATFS N ≠ n_READLINKAT N → fresh t0 → rtc (step N anyone) t0 t → runs_on c t → args_ok args →
  (∃ t', on_sys_enter N c id args t = Ret (tt, t')) ∧
  (∃ t', on_sys_exit N c id retval t = Ret (tt, t')) ∧
  (∃ t', on_uprobe_mmap c vma t = Ret (tt, t')) ∧
  (∃ t', on_uprobe_munmap c vma start stop t = Ret (tt, t')).
Proof.
  intros HN Hf Hr Hc Ha. pose proof (reachable_inv N HN _ _ _ Hf Hr) as Hi.
  destruct (on_sys_enter_keeps N HN c L id args t Ha Hi Hc) as ([] & t1 & E1 & _).
  destruct (on_sys_exit_keeps N c L id retval t Hi Hc) as ([] & t2 & E2 & _).
  destruct (on_uprobe_mmap_keeps N c L vma t Hi Hc) as ([] & t3 & E3 & _).
  destruct (on_uprobe_munmap_keeps N c vma start stop t Hi Hc) as ([] & t4 & E4 & _).
  eauto 10.
Qed.
Lemma programs_return_witness :
  ∃ t', on_sys_enter x86_64_numbers (task 50 0 12) 257 openat_call demo_tracer = Ret (tt, t').
Proof.
  destruct (programs_return x86_64_numbers demo_tracer demo_tracer (task 50 0 12) (task_laws 50 0 12)
    257 openat_call 0 0 0 0) as [Hret _].
  - done.
  - exact demo_fresh.
  - apply rtc_refl.
  - split; [done|cbn; lia].
  - by apply literal_args; [|repeat constructor].
  - exact Hret.
Defined.

(** C20: The counters never lie: in every reachable state the number of events and
    of bytes counted as emitted, over all processors, is the number of records
    and of bytes in the two rings (modulo 2^64), so every record that was reserved
    was also submitted. *)
Theorem emitted_is_submitted {K} `{BpfLaws K} N (t0 t : tracer K) :
  n_STATFS N ≠ n_READLINKAT N → fresh t0 → rtc (step N anyone) t0 t →
  u64 (total emitted_events (stats t)) = u64 (zlen (syscall_events t) + zlen (map_events t)) ∧
  u64 (total emitted_bytes (stats t)) = u64 (log_bytes (syscall_events t) + log_bytes (map_events t)).
Proof.
  intros HN Hf Hr. destruct (reachable_inv N HN _ _ _ Hf Hr). done.
Qed.
Definition new_process : tracer Z := set_process_states ∅ demo_tracer.
Definition after_open : tracer Z :=
  returned (on_sys_enter x86_64_numbers (task 50 0 12) 257 openat_call new_process) new_process.
Lemma after_open_reached : fresh new_process ∧ rtc (step x86_64_numbers anyone) new_process after_open.
Proof.
  split; [by repeat constructor|]. eapply rtc_once, (step_enter _ _ (task 50 0 12) 257 openat_call).
  - done.
  - constructor. exact (task_laws 50 0 12).
  - split; [done|cbn; lia].
  - by apply literal_args; [|repeat constructor].
  - vm_compute. reflexivity.
Qed.
Lemma emitted_is_submitted_witness :
  u64 (total emitted_events (stats after_open)) = 2 ∧
  u64 (total emitted_bytes (stats after_open)) = 376.
Proof.
  destruct (emitted_is_submitted x86_64_numbers new_process after_open) as [H1 H2].
  - done.
  - apply after_open_reached.
  - apply after_open_reached.
  - split; [rewrite H1|rewrite H2]; vm_compute; reflexivity.
Defined.

(** ** Stopping and resuming
    The map ring only grows. *)
Section growth.
Context {K : Type} `{BpfKernel K} (l : list (list Z)).
Definition grown (t : tracer K) : Prop := l `prefix_of` map_events t.
Lemma grown_gets {A} (g : tracer K → A) : keeps grown (gets g).
Proof. intros s a s' Hg [= _ <-]. done. Qed.
Lemma grown_call {A} (f : K → A * K) : keeps grown (call_kernel f).
Proof. intros s a s' Hg. unfold call_kernel. destruct (f (kern s)). by intros [= _ <-]. Qed.
Lemma grown_others : keeps grown others.
Proof. intros s a s' Hg. unfold others. destruct (k_others _ _). by intros [= _ <-]. Qed.
Lemma grown_modify f : (∀ t, map_events t `prefix_of` map_events (f t)) → keeps grown (modify f).
Proof. intros Hf s a s' Hg [= _ <-]. unfold grown. by etrans. Qed.
Lemma grown_load off n b : keeps grown (load off n b).
Proof. unfold load. destruct (_ && _); [apply keeps_ret|apply keeps_stop]. Qed.
Lemma grown_store off bs b : keeps grown (store off bs b).
Proof. unfold store. destruct (_ && _); [apply keeps_ret|apply keeps_stop]. Qed.
Lemma grown_inflight tid v : keeps grown (inflight_update tid v).
Proof.
  unfold inflight_update. apply keeps_bind; [apply grown_call|]. intros r. apply grown_modify. intros t. destruct r; [done|].
  destruct (inflight t !! tid); [done|]. by destruct (_ <? _).
Qed.
Hint Resolve grown_gets grown_call grown_others grown_load grown_store grown_inflight : keeps.
Ltac keeps_rule ::= apply grown_modify; intros ?; first [done | by eexists].
Ltac grown_auto := repeat (cbv beta zeta; keeps_auto).

Lemma grown_reserve r c n : keeps grown (reserve_event r c n).
Proof. unfold reserve_event, bpf_ringbuf_reserve, update_stats. grown_auto. Qed.
Lemma grown_submit r b : keeps grown (bpf_ringbuf_submit r b).
Proof. unfold bpf_ringbuf_submit. destruct r; grown_auto. Qed.
Lemma grown_fill type tgid tid b : keeps grown (fill_event type tgid tid b).
Proof. unfold fill_event, bpf_ktime_get_ns, put64, put32, put16. grown_auto. Qed.
Hint Resolve grown_reserve grown_submit grown_fill : keeps.
Lemma grown_bump tgid : keeps grown (bump_map_gen tgid).
Proof. unfold bump_map_gen, process_states_lookup. grown_auto. Qed.
Lemma grown_str c h i dst cap p b : keeps grown (write_attach_str_arg c h i dst cap p b).
Proof. unfold write_attach_str_arg, put_header, put16. grown_auto. Qed.
Lemma grown_bytes c h i dst cap p n b : keeps grown (write_attach_bytes_arg c h i dst cap p n b).
Proof. unfold write_attach_bytes_arg, put_header, put16. grown_auto. Qed.
Lemma grown_fill_syscall type tgid tid nr gen b : keeps grown (fill_syscall_event type tgid tid nr gen b).
Proof. unfold fill_syscall_event, bpf_get_stackid, put32. grown_auto. Qed.
Lemma grown_args args b : keeps grown (fill_enter_args args b).
Proof. unfold fill_enter_args, put64. grown_auto. Qed.
Hint Resolve grown_bump grown_str grown_bytes grown_fill_syscall grown_args : keeps.
Lemma grown_ensure c tgid tid abi : keeps grown (ensure_process_state c tgid tid abi).
Proof.
  unfold ensure_process_state, process_states_lookup, process_states_insert, process_states_delete, emit_need_snapshot,
    reserve_map_event, bpf_send_signal. grown_auto.
Qed.
Hint Resolve grown_ensure : keeps.
Lemma grown_when_traced N c id k : (∀ a b d e, keeps grown (k a b d e)) → keeps grown (when_traced N c id k).
Proof. intros Hk. unfold when_traced, should_trace_current, syscall_is_excluded. grown_auto. Qed.
Lemma grown_enter_event c v tgid tid nr gen args body : (∀ b, keeps grown (body b)) → keeps grown (enter_event c v tgid tid nr gen args body).
Proof. intros Hb. unfold enter_event, reserve_syscall_event. grown_auto. Qed.
Lemma grown_exit_event c v tgid tid nr gen rv body : (∀ b, keeps grown (body b)) → keeps grown (exit_event c v tgid tid nr gen rv body).
Proof. intros Hb. unfold exit_event, reserve_syscall_event, put64. grown_auto. Qed.
Lemma grown_enter N c id args : keeps grown (on_sys_enter N c id args).
Proof.
  apply grown_when_traced. intros tgid tid nr gen. unfold enter_branch.
  repeat match goal with |- keeps _ (if _ then _ else _) => case_match end; apply grown_enter_event; intros b;
    unfold enter_path, enter_stat_path, enter_stat_fd, enter_two_paths, write_two_paths, enter_mount, enter_sleep, enter_sleep_at,
      enter_sock, enter_sock_out, maybe_schedule_stat_out_copy, maybe_schedule_str_out_copy, maybe_schedule_sock_out_copy, put16; grown_auto.
Qed.
Lemma grown_exit N c id rv : keeps grown (on_sys_exit N c id rv).
Proof.
  apply grown_when_traced. intros tgid tid nr gen. unfold exit_branch. apply keeps_bind; [apply grown_gets|]. intros i.
  repeat match goal with |- keeps _ (match _ with _ => _ end) => case_match end; apply grown_exit_event; intros b;
    unfold exit_str_out, exit_stat_out, exit_sock_out, inflight_delete, put_header, put16; grown_auto.
Qed.
Lemma grown_path_walk c n : ∀ d mnt root count chain, keeps grown (path_walk c n d mnt root count chain).
Proof. induction n; intros; cbn [path_walk]; grown_auto. Qed.
Lemma grown_putc b ch : keeps grown (bb_putc b ch).
Proof. unfold bb_putc. grown_auto. Qed.
Lemma grown_kstr c b s : keeps grown (bb_append_kstr c b s).
Proof. unfold bb_append_kstr. grown_auto. Qed.
Hint Resolve grown_path_walk grown_putc grown_kstr : keeps.
Lemma grown_path_join c n : ∀ count chain b, keeps grown (path_join c n count chain b).
Proof. induction n; intros; cbn [path_join]; grown_auto. Qed.
Hint Resolve grown_path_join : keeps.
Lemma grown_path_build c file sa : keeps grown (path_build c file sa).
Proof. unfold path_build, path_terminate. grown_auto. Qed.
Hint Resolve grown_path_build : keeps.
Lemma grown_dentry_path c h i dst cap file ev : keeps grown (write_attach_dentry_path c h i dst cap file ev).
Proof. unfold write_attach_dentry_path, put_header, put16. grown_auto. Qed.
Hint Resolve grown_dentry_path : keeps.
Lemma grown_mmap c vma : keeps grown (on_uprobe_mmap c vma).
Proof. unfold on_uprobe_mmap, should_trace_current, map_create_event, reserve_map_event, put16, put32, put64. grown_auto. Qed.
Lemma grown_munmap c vma start stop : keeps grown (on_uprobe_munmap c vma start stop).
Proof. unfold on_uprobe_munmap, should_trace_current, map_destroy_event, reserve_map_event, put16, put32, put64. grown_auto. Qed.
End growth.
Lemma step_grows {K} `{BpfLaws K} N P (t t' : tracer K) : step N P t t' → map_events t `prefix_of` map_events t'.
Proof.
  assert (Hk : ∀ t t' (m : M (tracer K) unit), keeps (grown (map_events t)) m → m t = Ret (tt, t') →
    map_events t `prefix_of` map_events t').
  { intros x x' m Hm E. apply (Hm x tt x'); [by unfold grown|done]. }
  destruct 1 as [c id args t t' _ _ _ _ E|c id rv t t' _ _ _ E|c vma t t' _ _ _ E|c vma s e t t' _ _ _ E| | |]; try done.
  - by apply (Hk _ _ _ (grown_enter _ N c id args)).
  - by apply (Hk _ _ _ (grown_exit _ N c id rv)).
  - by apply (Hk _ _ _ (grown_mmap _ c vma)).
  - by apply (Hk _ _ _ (grown_munmap _ c vma s e)).
Qed.

(** *** Signals
    A program submits its request for a snapshot before it sends SIGSTOP, and the host may
    read the request in between: that a signal arrives is a step of its own.  [sg_read]
    are the map events that the host has handled. *)
Inductive signal := Stopping (pid : Z) | Continuing (pid : Z).
#[export] Instance signal_eq_dec : EqDecision signal.
Proof. solve_decision. Defined.
Record signalling (K : Type) := mk_signalling {
  sg_tracer : tracer K; sg_read : list (list Z); sg_host : host; sg_signals : list signal
}.
Arguments mk_signalling {K} _ _ _ _.
Arguments sg_tracer {K} _.
Arguments sg_read {K} _.
Arguments sg_host {K} _.
Arguments sg_signals {K} _.
(** How often a value occurs. *)
Definition times `{EqDecision A} (x : A) (l : list A) : nat := length (filter (.= x) l).
#[global] Arguments times : simpl never.
Lemma times_app `{EqDecision A} (x : A) l l' : times x (l ++ l') = (times x l + times x l')%nat.
Proof. unfold times. by rewrite filter_app, length_app. Qed.
Lemma times_cons `{EqDecision A} (x y : A) l : times x (y :: l) = ((if decide (y = x) then 1 else 0) + times x l)%nat.
Proof. unfold times. rewrite filter_cons. by case_decide. Qed.
Lemma times_fmap p l : times (Continuing p) (Continuing <$> l) = times p l ∧ times (Stopping p) (Continuing <$> l) = 0%nat.
Proof.
  induction l as [|q l [IH1 IH2]]; [done|]. cbn [fmap list_fmap]. rewrite !times_cons. unfold times in *. 
  split; [|rewrite decide_False by done; apply IH2]. f_equal; [|apply IH1]. destruct (decide (q = p)) as [->|Hne]; [by rewrite decide_True|].
  rewrite decide_False; [done|congruence].
Qed.

Section signals.
Context {K : Type} `{BpfLaws K} (N : SyscallNumbers) (page_size : Z) (refreshed : Z → bool).
Inductive signal_step : signalling K → signalling K → Prop :=
| signal_program t t' read h l : step N anyone t t' → signal_step (mk_signalling t read h l) (mk_signalling t' read h l)
| signal_arrives p t read h l :
    (times (Stopping p) l < times p (stopped t))%nat →
    signal_step (mk_signalling t read h l) (mk_signalling t read h (l ++ [Stopping p]))
| signal_host ev rest t read h h' sent l :
    map_events t = read ++ ev :: rest → on_map_event page_size refreshed ev h = Ret (tt, h') → continued h' = continued h ++ sent →
    signal_step (mk_signalling t read h l) (mk_signalling t (read ++ [ev]) h' (l ++ (Continuing <$> sent))).

Record signals_inv (x : signalling K) : Prop := {
  si_trace : trace_inv N (sg_tracer x);
  si_read : sg_read x `prefix_of` map_events (sg_tracer x);
  si_continued p : times (Continuing p) (sg_signals x) = times p (omap snapshot_of (sg_read x));
  si_stopping p : (times (Stopping p) (sg_signals x) ≤ times p (stopped (sg_tracer x)))%nat
}.
Lemma on_map_event_continues ev h h' sent :
  on_map_event page_size refreshed ev h = Ret (tt, h') → continued h' = continued h ++ sent → sent = omap snapshot_of [ev].
Proof.
  unfold on_map_event, bind, read_map_event, snapshot_of. cbn. intros E Es.
  destruct (fld 2 o_type ev =? EVENT_TYPE_NEED_SNAPSHOT); cbn in E.
  { injection E as <-. cbn in Es. by apply app_inv_head in Es. }
  assert (h' = h) as ->; [|rewrite <- (app_nil_r (continued h)) in Es at 1; by apply app_inv_head in Es].
  revert E. unfold bind, ret, crash. repeat (case_match; simplify_eq); intros; by simplify_eq.
Qed.
Lemma prefix_times p (l l' : list (list Z)) :
  l `prefix_of` l' → (times p (omap snapshot_of l) ≤ times p (omap snapshot_of l'))%nat.
Proof. intros [k ->]. rewrite omap_app, times_app. lia. Qed.
Lemma signal_step_inv x y : n_STATFS N ≠ n_READLINKAT N → signal_step x y → signals_inv x → signals_inv y.
Proof.
  intros HN Hs [I1 I2 I3 I4]. destruct Hs as [t t' read h l Hs|p t read h l Hlt|ev rest t read h h' sent l Er E Es]; cbn in *.
  - pose proof (step_grows _ _ _ _ Hs) as Hg. destruct (step_keeps N HN anyone t t' Hs I1) as [I1' _]. split; cbn; [done|by etrans|done|].
    intros p. etrans; [apply I4|]. rewrite (inv_stopped _ _ I1), (inv_stopped _ _ I1'). by apply prefix_times.
  - split; cbn; [done|done| |].
    + intros q. rewrite times_app, I3, times_cons, decide_False by done. apply Nat.add_0_r.
    + intros q. rewrite times_app, times_cons. change (times (Stopping q) []) with 0%nat. case_decide as Hq; [injection Hq as ->; lia|].
      specialize (I4 q). lia.
  - pose proof (on_map_event_continues ev h h' sent E Es) as ->. split; cbn [sg_tracer sg_read sg_host sg_signals]; [done| | |].
    + rewrite Er. exists rest. by rewrite <- app_assoc.
    + intros q. rewrite times_app, (proj1 (times_fmap q _)), I3, omap_app, times_app. done.
    + intros q. rewrite times_app, (proj2 (times_fmap q _)). specialize (I4 q). lia.
Qed.
Lemma signals_reachable t0 h x :
  n_STATFS N ≠ n_READLINKAT N → fresh t0 → rtc signal_step (mk_signalling t0 [] h []) x → signals_inv x.
Proof.
  intros HN Hf Hr. assert (Hi : signals_inv (mk_signalling t0 [] h [])).
  { split; cbn; [by apply fresh_inv|apply prefix_nil|done|intros p; unfold times; cbn; lia]. }
  induction Hr as [|x1 x2 x3 Hs _ IH]; [done|]. by apply IH, (signal_step_inv x1).
Qed.
End signals.
(** A process is stopped when the last signal it got is SIGSTOP. *)
Definition last_signal (p : Z) (l : list signal) : option signal := last (filter (λ s, s = Stopping p ∨ s = Continuing p) l).
(** The SIGCONT for a request came before the SIGSTOP that it was to undo. *)
Definition overtaken (p : Z) (l : list signal) : Prop :=
  ∃ l1 l2, l = l1 ++ Stopping p :: l2 ∧ (times (Stopping p) l1 < times (Continuing p) l1)%nat.
Lemma stopped_overtaken p l :
  times (Stopping p) l = times (Continuing p) l → last_signal p l = Some (Stopping p) → overtaken p l.
Proof.
  unfold last_signal. induction l as [|s l IH] using rev_ind; [done|]. rewrite !times_app, filter_app, !times_cons.
  change (times (Stopping p) []) with 0%nat. change (times (Continuing p) []) with 0%nat. intros Hn Hl.
  destruct (decide (s = Stopping p)) as [->|Hs]; [|destruct (decide (s = Continuing p)) as [->|Hc]].
  - destruct (decide (Stopping p = Continuing p)); [done|]. exists l, []. split; [done|lia].
  - rewrite filter_cons, decide_True in Hl by auto. cbn in Hl. by rewrite last_snoc in Hl.
  - rewrite filter_cons, decide_False in Hl by naive_solver. cbn in Hl. rewrite app_nil_r in Hl.
    destruct IH as (l1 & l2 & -> & Hlt); [lia|done|]. exists l1, (l2 ++ [s]). split; [by rewrite <- app_assoc|done].
Qed.

(** C24: Every SIGSTOP of the tracer is answered by one SIGCONT of the host.  In every
    state that programs, arriving signals and the host's work on the map ring can reach,
    in any order, a process got at most as many SIGSTOP as requests for its snapshot were
    submitted, and the host sent it one SIGCONT per request that it handled, whether or
    not the snapshot succeeded.  So when the ring has been handled and the signals have
    arrived, a process can be stopped only if the SIGCONT for a request overtook its
    SIGSTOP: the request is submitted before the signal is sent. *)
Theorem stopped_processes_resumed {K} `{BpfLaws K} N page_size refreshed (t0 : tracer K) h x p :
  n_STATFS N ≠ n_READLINKAT N → fresh t0 →
  rtc (signal_step N page_size refreshed) (mk_signalling t0 [] h []) x →
  (times (Stopping p) (sg_signals x) ≤ times p (omap snapshot_of (map_events (sg_tracer x))))%nat ∧
  times (Continuing p) (sg_signals x) = times p (omap snapshot_of (sg_read x)) ∧
  (sg_read x = map_events (sg_tracer x) → times (Stopping p) (sg_signals x) = times p (stopped (sg_tracer x)) →
   last_signal p (sg_signals x) = Some (Stopping p) → overtaken p (sg_signals x)).
Proof.
  intros HN Hf Hr. destruct (signals_reachable N page_size refreshed t0 h x HN Hf Hr) as [I1 I2 I3 I4].
  pose proof (inv_stopped _ _ I1) as Est. split; [rewrite <- Est; apply I4|]. split; [apply I3|].
  intros Er Ea Hl. apply stopped_overtaken; [|done]. by rewrite Ea, I3, Er, Est.
Qed.
Lemma open_signals refreshed :
  signal_step x86_64_numbers 4096 refreshed (mk_signalling new_process [] (mk_host ∅ []) [])
    (mk_signalling after_open [] (mk_host ∅ []) []).
Proof.
  apply signal_program. eapply (step_enter _ _ (task 50 0 12) 257 openat_call); [done| | | |vm_compute; reflexivity].
  - constructor. exact (task_laws 50 0 12).
  - split; [done|cbn; lia].
  - by apply literal_args; [|repeat constructor].
Qed.
Definition waiting : signalling Z := mk_signalling after_open [] (mk_host ∅ []) [Stopping 50].
Definition went_on : signalling Z :=
  mk_signalling after_open (map_events after_open) (mk_host ∅ [50]) [Stopping 50; Continuing 50].
Lemma went_on_reached : rtc (signal_step x86_64_numbers 4096 (λ _, false)) (mk_signalling new_process [] (mk_host ∅ []) []) went_on.
Proof.
  apply (rtc_l _ _ (mk_signalling after_open [] (mk_host ∅ []) [])); [apply open_signals|].
  apply (rtc_l _ _ waiting).
  { apply (signal_arrives _ _ _ 50 after_open [] (mk_host ∅ []) []). vm_compute. lia. }
  assert (Em : ∃ ev, map_events after_open = [ev]) by (eexists; vm_compute; reflexivity). destruct Em as [ev Em].
  apply rtc_once. unfold went_on, waiting. rewrite Em. apply (signal_host _ _ _ ev [] after_open [] (mk_host ∅ []) (mk_host ∅ [50]) [50] [Stopping 50]).
  - done.
  - vm_compute in Em. injection Em as <-. vm_compute. reflexivity.
  - done.
Qed.
Lemma stopped_processes_resumed_witness :
  sg_read went_on = map_events (sg_tracer went_on) ∧ times (Continuing 50) (sg_signals went_on) = 1%nat.
Proof.
  destruct (stopped_processes_resumed x86_64_numbers 4096 (λ _, false) new_process (mk_host ∅ []) went_on 50) as (_ & E & _).
  - done.
  - apply after_open_reached.
  - exact went_on_reached.
  - split; [done|]. rewrite E. vm_compute. reflexivity.
Defined.
(** The race: the host handles the request before the signal arrives, and the process
    stays stopped. *)
Theorem continue_before_stop : ∃ x,
  rtc (signal_step x86_64_numbers 4096 (λ _, true)) (mk_signalling new_process [] (mk_host ∅ []) []) x ∧
  sg_read x = map_events (sg_tracer x) ∧ last_signal 50 (sg_signals x) = Some (Stopping 50).
Proof.
  assert (Em : ∃ ev, map_events after_open = [ev]) by (eexists; vm_compute; reflexivity). destruct Em as [ev Em].
  exists (mk_signalling after_open [ev] (mk_host ∅ [50]) [Continuing 50; Stopping 50]). split; [|split; [symmetry; exact Em|done]].
  apply (rtc_l _ _ (mk_signalling after_open [] (mk_host ∅ []) [])); [apply open_signals|].
  apply (rtc_l _ _ (mk_signalling after_open [ev] (mk_host ∅ [50]) [Continuing 50])).
  - apply (signal_host _ _ _ ev [] after_open [] (mk_host ∅ []) (mk_host ∅ [50]) [50] []); [done| |done].
    vm_compute in Em. injection Em as <-. vm_compute. reflexivity.
  - apply rtc_once. apply (signal_arrives _ _ _ 50 after_open [ev] (mk_host ∅ [50]) [Continuing 50]). vm_compute. lia.
Qed.

(** ** Events the reader cannot decode *)
Section reading.
Context {X : Type} (sock : string → list Z → option X) (item_size : event_view X → Z).
Context (native compat32 : list LinuxSyscallSignature) (lookup_abi : Z → option Z).
Notation record_tgid b := (fld 4 o_tgid b).
Notation decodes b v := (build_event_variant sock (find_sig_by_nr native (record_nr b)) b tt = Ret (v, tt)).
(** A record of a process that is gone, or that is taken for a native one and can be decoded. *)
Definition readable (ev : list Z) : Prop :=
  lookup_abi (record_tgid ev) ≠ Some ABI_COMPAT32 ∧ ∃ v, decodes ev v.
(** The batch remembers what it was told about processes. *)
Definition batch_ok (b : batch X) : Prop :=
  (∀ p abi, abi_by_tgid b !! p = Some abi → lookup_abi p = Some abi) ∧
  (∀ p, p ∈ expired_tgids b → lookup_abi p = None).
Lemma readable_size ev : readable ev → (sizeof_SyscallEvent <=? zlen ev) = true.
Proof.
  intros (_ & v & E). revert E. unfold build_event_variant, bind, c_assert. destruct (_ <=? zlen ev) eqn:Es; [|done]. intros _.
  apply Z.leb_le in Es. apply Z.leb_le. unfold sizeof_SyscallEvent. revert Es. destruct (fld 2 o_type ev =? _); offs; lia.
Qed.
Lemma on_event_reads ev b : readable ev → batch_ok b →
  ∃ go b', on_event sock item_size native compat32 lookup_abi ev b tt = Ret ((go, b'), tt) ∧ batch_ok b' ∧
    match lookup_abi (record_tgid ev) with
    | None => go = true ∧ b_items b' = b_items b
    | Some _ => ∃ v, decodes ev v ∧ b_items b' = b_items b ++ (if go then [v] else [])
    end.
Proof.
  intros (Hn & v & Ev) [B1 B2]. unfold on_event. case_bool_decide as Hx.
  { eexists _, _. split; [done|]. split; [done|]. by rewrite (B2 _ Hx). }
  set (known := default ABI_INVALID (abi_by_tgid b !! record_tgid ev)).
  assert (Ek : (if known =? ABI_INVALID then lookup_abi (record_tgid ev) else Some known) = lookup_abi (record_tgid ev)).
  { subst known. destruct (abi_by_tgid b !! record_tgid ev) as [abi|] eqn:E; cbn; [|done].
    rewrite (B1 _ _ E). by destruct (abi =? ABI_INVALID). }
  rewrite Ek. destruct (lookup_abi (record_tgid ev)) as [abi|] eqn:Eg.
  - set (b1 := if known =? ABI_INVALID then _ else b).
    assert (batch_ok b1 ∧ b_items b1 = b_items b ∧ b_total b1 = b_total b) as (H1 & Ei & Et).
    { subst b1. destruct (known =? ABI_INVALID); [|done]. split; [|done]. split; cbn; [|done].
      intros p x [[<- <-]|[_ ?]]%lookup_insert_Some; [done|by apply B1]. }
    rewrite (proj2 (Z.eqb_neq abi ABI_COMPAT32)) by congruence. unfold bind. fold (record_nr ev). rewrite Ev.
    destruct (_ && _); eexists _, _; (split; [done|]); (split; [done|]); exists v; (split; [done|]); cbn; rewrite Ei; [by rewrite app_nil_r|done].
  - eexists _, _. split; [done|]. split; [|done]. split; cbn; [done|]. intros p [->%elem_of_singleton|?]%elem_of_union; auto.
Qed.
Definition alive (ev : list Z) : Prop := is_Some (lookup_abi (record_tgid ev)).
#[local] Instance alive_dec ev : Decision (alive ev).
Proof. unfold alive. apply _. Defined.
(** What a request takes from the ring, in order: the events of processes that are not
    gone are in the reply, except for the one at which the handler stopped. *)
Definition reply_of (evs : list (list Z)) (stopped : bool) (rest : list (list Z)) (vs : list (event_view X)) : Prop :=
  ∃ taken, Forall2 (λ ev v, decodes ev v) (filter alive taken) vs ∧
    if stopped then ∃ lost, alive lost ∧ evs = taken ++ lost :: rest else rest = [] ∧ evs = taken.
Lemma drain_reads evs : ∀ b, Forall readable evs → batch_ok b →
  ∃ stopped rest b' vs, drain_events sock item_size native compat32 lookup_abi evs b tt = Ret ((stopped, rest, b'), tt) ∧
    b_items b' = b_items b ++ vs ∧ reply_of evs stopped rest vs.
Proof.
  induction evs as [|ev evs IH]; intros b Hr Hb; cbn [drain_events].
  { exists false, [], b, []. rewrite app_nil_r. split; [done|]. split; [done|]. exists []. by split. }
  apply Forall_cons in Hr as [Hev Hr]. unfold bind, c_assert. rewrite (readable_size ev Hev).
  destruct (on_event_reads ev b Hev Hb) as (go & b1 & E & Hb1 & Hm). rewrite E. cbn [fst snd].
  destruct go.
  - destruct (IH b1 Hr Hb1) as (stopped & rest & b' & vs & E' & Ei & taken & Hf & Hs).
    assert (Ht : if stopped then ∃ lost, alive lost ∧ ev :: evs = (ev :: taken) ++ lost :: rest else rest = [] ∧ ev :: evs = ev :: taken).
    { destruct stopped; [destruct Hs as (lost & Ha & ->); by exists lost|destruct Hs as [-> ->]; done]. }
    destruct (lookup_abi (record_tgid ev)) as [abi|] eqn:Eg.
    + destruct Hm as (v & Ev & Em). exists stopped, rest, b', (v :: vs). rewrite Ei, Em, <- app_assoc. split; [done|]. split; [done|].
      exists (ev :: taken). split; [|done]. rewrite filter_cons, decide_True by (unfold alive; rewrite Eg; done). by constructor.
    + destruct Hm as [_ Em]. exists stopped, rest, b', vs. rewrite Ei, Em. split; [done|]. split; [done|].
      exists (ev :: taken). split; [|done]. rewrite filter_cons, decide_False; [done|]. unfold alive. rewrite Eg. by intros [].
  - destruct (lookup_abi (record_tgid ev)) as [abi|] eqn:Eg; [|by destruct Hm]. destruct Hm as (v & Ev & Em).
    exists true, evs, b1, []. rewrite Em. split; [done|]. split; [done|]. exists []. split; [constructor|]. exists ev. split; [|done].
    unfold alive. by rewrite Eg.
Qed.
End reading.


(** A batch that is full loses an event: the handler stops at the record, which is not
    added to the batch, but the drain consumes it all the same. *)
Theorem full_batch_loses_event {S X} (sock : string → list Z → option X) item_size native compat32 get ev rest (b : batch X) (s : S) b' :
  40 ≤ zlen ev → on_event sock item_size native compat32 get ev b s = Ret ((false, b'), s) →
  drain_events sock item_size native compat32 get (ev :: rest) b s = Ret ((true, rest, b'), s) ∧ b_items b' = b_items b.
Proof.
  intros Hl E. split.
  - cbn [drain_events]. unfold bind, c_assert. rewrite (proj2 (Z.leb_le sizeof_SyscallEvent _) Hl). by rewrite E.
  - revert E. unfold on_event, bind, ret. repeat (case_match; simplify_eq); intros; by simplify_eq.
Qed.
Lemma full_batch_loses_event_witness : ∃ ev,
  drain_events no_sockaddr (λ _, MAX_BATCH_BYTES) (frida_get_syscall_signatures X86_64) [] (λ _, Some ABI_NATIVE)
    [ev; ev] (mk_batch ∅ ∅ [] 1) tt = Ret ((true, [ev], mk_batch {[50 := ABI_NATIVE]} ∅ [] 1), tt).
Proof.
  assert (∃ ev, syscall_events after_open = [ev]) as [ev E] by (eexists; vm_compute; reflexivity). exists ev.
  apply (full_batch_loses_event no_sockaddr); vm_compute in E; injection E as <-; vm_compute; [done|reflexivity].
Defined.

(** The tracer takes the number of a 32-bit call for a native one.  On x86-64 the
    32-bit pipe(2) has the number of connect(2), so its event carries a socket
    address as argument 1 of a call that has one argument, and the reader, which
    looks the call up in the 32-bit table, fails its assertion. *)
Theorem compat32_pipe_fails_reader {K} `{BpfLaws K} c (L : context_laws c) args (t : tracer K)
    m k st b0 k' {X} (sock : string → list Z → option X) :
  get_current_abi x86_64_numbers c = ABI_COMPAT32 → args_ok args →
  traced c t → ¬ excluded x86_64_numbers c 42 t → known c t m k st →
  k_reserve SyscallRing (enter_size EnterSock) k = (Some b0, k') →
  sig_name <$> compat32_sig X86_64 42 = Some "pipe" ∧
  ∃ t' b, on_sys_enter x86_64_numbers c 42 args t = Ret (tt, t') ∧
    syscall_events t' = syscall_events t ++ [b] ∧
    build_event_variant sock (compat32_sig X86_64 42) b tt = Failed.
Proof.
  intros _ Ha Ht He Hk Hr. split; [reflexivity|].
  destruct (on_sys_enter_spec x86_64_numbers ltac:(done) c L 42 args t m k st b0 k' Ha Ht He Hk Hr)
    as (t' & b & E & Hev & Hrec & _).
  exists t', b. split; [done|]. split; [done|].
  destruct Hrec as (((_ & _ & Hty) & _) & _ & Hn & Hat).
  change (wants_of x86_64_numbers (s32 42) args)
    with [WantBytes 1 (znth args 1) (u32 (znth args 2)) MAX_SOCK] in Hn, Hat.
  pose proof (attached_len _ _ _ _ Hat) as Hl. destruct Hat as (_ & ((_ & Hi & _) & _) & Hr').
  pose proof (attached_len _ _ _ _ Hr') as Hl'. cbn [want_cap] in Hl'.
  set (sig := compat32_sig X86_64 42). assert (sig_nargs_of sig = 1) as Hna by reflexivity.
  unfold build_event_variant. fold (sig_nargs_of sig). rewrite Hna, Hty, Hn.
  change (u16 EVENT_TYPE_SYSCALL_ENTER =? EVENT_TYPE_SYSCALL_ENTER) with true. cbn iota.
  unfold bind at 1, c_assert at 1. offs. rewrite (proj2 (Z.leb_le _ _) Hl).
  change (Z.to_nat (zlen [_])) with 1%nat. cbn [decode_attachments].
  unfold bind, c_assert. offs. rewrite (proj2 (Z.leb_le 8 (zlen b - 88))) by lia. by rewrite Hi.
Qed.
Definition compat_tracer : tracer Z :=
  set_process_states {[50 := mk_process ABI_COMPAT32 1]} demo_tracer.
Lemma compat32_pipe_fails_reader_witness :
  ∃ t' b, on_sys_enter x86_64_numbers (task 50 (2 ^ 29) 12) 42 fstat_call compat_tracer = Ret (tt, t') ∧
    syscall_events t' = [b] ∧ build_event_variant no_sockaddr (compat32_sig X86_64 42) b tt = Failed.
Proof.
  destruct (compat32_pipe_fails_reader (task 50 (2 ^ 29) 12) (task_laws 50 (2 ^ 29) 12) fstat_call
    compat_tracer {[50 := mk_process ABI_COMPAT32 1]} 1000 (mk_process ABI_COMPAT32 1)
    (replicate 224 170) 1000 no_sockaddr) as [_ Hfail].
  - reflexivity.
  - by apply literal_args; [|repeat constructor].
  - left. by exists 1.
  - intros [x Hx]. vm_compute in Hx. discriminate.
  - split; [reflexivity|]. split; [reflexivity|done].
  - vm_compute. reflexivity.
  - exact Hfail.
Defined.

(** On 32-bit ARM the reader fails on every nanosleep(2) that names a time: the
    tracer attaches the 16 bytes of a 64-bit timespec, and the reader insists on the
    8 bytes of the type in the call's signature. *)
Theorem arm_nanosleep_fails_reader {K} `{BpfLaws K} c (L : context_laws c) args (t : tracer K)
    m k st b0 k' {X} (sock : string → list Z → option X) :
  args_ok args → znth args 0 ≠ 0 →
  traced c t → ¬ excluded arm_numbers c 162 t → known c t m k st →
  k_reserve SyscallRing (enter_size EnterTimespec) k = (Some b0, k') →
  sig_name <$> native_sig Arm 162 = Some "nanosleep" ∧
  ∃ t' b, on_sys_enter arm_numbers c 162 args t = Ret (tt, t') ∧
    syscall_events t' = syscall_events t ++ [b] ∧
    build_event_variant sock (native_sig Arm 162) b tt = Failed.
Proof.
  intros Ha Ha0 Ht He Hk Hr. split; [reflexivity|].
  destruct (on_sys_enter_spec arm_numbers (numbers_distinct Arm) c L 162 args t m k st b0 k' Ha Ht He Hk Hr)
    as (t' & b & E & Hev & Hrec & _).
  exists t', b. split; [done|]. split; [done|].
  destruct Hrec as (((_ & _ & Hty) & _) & _ & Hn & Hat).
  assert (wants_of arm_numbers (s32 162) args = [WantBytes 0 (znth args 0) 16 16]) as Hw.
  { change (wants_of arm_numbers (s32 162) args)
      with (if znth args 0 =? 0 then [] else [WantBytes 0 (znth args 0) 16 16]).
    by rewrite (proj2 (Z.eqb_neq _ _) Ha0). }
  rewrite Hw in Hn, Hat.
  pose proof (attached_len _ _ _ _ Hat) as Hl. destruct Hat as (_ & ((Y0 & Y2 & Y4 & Y6) & Hd & _) & Hr').
  pose proof (attached_len _ _ _ _ Hr') as Hl'. cbn [want_cap] in Hl', Hd, Y6.
  change (Z.min 16 16) with 16 in Hd, Y6.
  set (sig := native_sig Arm 162). assert (sig_nargs_of sig = 2) as Hna by reflexivity.
  unfold build_event_variant. fold (sig_nargs_of sig). rewrite Hna, Hty, Hn.
  change (u16 EVENT_TYPE_SYSCALL_ENTER =? EVENT_TYPE_SYSCALL_ENTER) with true. cbn iota.
  unfold bind at 1, c_assert at 1. offs. rewrite (proj2 (Z.leb_le _ _) Hl).
  change (Z.to_nat (zlen [_])) with 1%nat. cbn [decode_attachments]. offs.
  unfold bind, c_assert.
  rewrite (proj2 (Z.leb_le 8 (zlen b - 88))) by lia. rewrite Y2. cbn [Z.ltb Z.compare].
  rewrite Y4, Y6, Y0. rewrite (proj2 (Z.leb_le (88 + 8 + 16) (zlen b)) Hl').
  unfold decode_attachment_value. cbn [Z.eqb ATTACHMENT_STRING ATTACHMENT_BYTES Pos.eqb].
  change (ztake 16 (zdrop (88 + 8) b)) with (zslice (88 + 8) (88 + 8 + 16) b).
  unfold sig. cbn [find_sig_by_nr]. unfold try_decode_timespec, bind, c_assert.
  change (native_sig Arm 162) with (ltac:(let x := eval vm_compute in (native_sig Arm 162) in exact x)).
  cbn [sig_args nth fst]. change (Z.to_nat 0) with 0%nat. cbn [nth fst].
  change (has_suffix "struct __kernel_timespec *" "struct old_timespec32 *") with false.
  change (has_suffix "struct old_timespec32 *" "struct old_timespec32 *") with true. cbn iota.
  by rewrite Hd.
Qed.
Lemma arm_nanosleep_fails_reader_witness :
  ∃ t' b, on_sys_enter arm_numbers (task 50 0 12) 162 [6100; 0; 0; 0; 0; 0] demo_tracer = Ret (tt, t') ∧
    syscall_events t' = [b] ∧ build_event_variant no_sockaddr (native_sig Arm 162) b tt = Failed.
Proof.
  destruct (arm_nanosleep_fails_reader (task 50 0 12) (task_laws 50 0 12) [6100; 0; 0; 0; 0; 0]
    demo_tracer {[50 := mk_process ABI_NATIVE 3]} 1000 (mk_process ABI_NATIVE 3)
    (replicate 112 170) 1000 no_sockaddr) as [_ Hfail].
  - by apply literal_args; [|repeat constructor].
  - cbn. discriminate.
  - left. by exists 1.
  - intros [x Hx]. vm_compute in Hx. discriminate.
  - split; [reflexivity|]. split; [reflexivity|done].
  - vm_compute. reflexivity.
  - exact Hfail.
Defined.

(** * What happens to calls whose events do not fit into the ring. *)
(** A kernel whose ring has no room for the first record of size [n] it is asked
    for when its state is 0, and has room ever after. *)
#[export] Instance busy_kernel : BpfKernel nat := {|
  k_time k := (Z.of_nat k, k);
  k_stackid k := (7, k);
  k_reserve _ n k :=
    match k with
    | O => (None, 1%nat)
    | S _ => (if n <? 0 then None else Some (replicate (Z.to_nat n) 170), k)
    end;
  k_refuses k := (false, k);
  k_others m k := (m, k);
  k_evicts _ k := ([], k)
|}.
#[export] Instance busy_laws : BpfLaws nat.
Proof.
  split. cbn. intros r n [|k] b k'; [done|]. destruct (Z.ltb_spec n 0); intros [= <- <-].
  unfold zlen. rewrite length_replicate. lia.
Qed.

Section drops.
Context {K : Type} `{BpfLaws K} (N : SyscallNumbers).
Implicit Types t : tracer K.

(** The state after a record of [n] bytes was dropped: the counters of the
    processor, and nothing else. *)
Definition after_drop (c : context) (n : Z) (m : gmap Z ProcessState) (k : K) t : tracer K :=
  set_kern k (set_stats (alter (note_drop n) (cpu c) (stats t)) (set_process_states m t)).

Lemma enter_dropped c id args t m k st k' :
  traced c t → ¬ excluded N c id t → known c t m k st →
  k_reserve SyscallRing (enter_size (variant_of N (s32 id))) k = (None, k') →
  on_sys_enter N c id args t = Ret (tt, after_drop c (enter_size (variant_of N (s32 id))) m k' t).
Proof.
  intros Ht He Hk Hr. unfold on_sys_enter. rewrite (when_traced_runs _ _ _ _ _ _ _ _ Ht He Hk).
  destruct (enter_branch_reserves N c (tgid_of c) (tid_of c) (s32 id) (map_gen st) args) as [body ->].
  unfold enter_event, bind, reserve_syscall_event. by rewrite (reserve_event_none _ _ _ k').
Qed.
Lemma exit_dropped c id retval t m k st k' :
  traced c t → ¬ excluded N c id t → known c t m k st →
  let n := exit_size (exit_variant (inflight t !! tid_of c) (s32 id)) in
  k_reserve SyscallRing n k = (None, k') →
  on_sys_exit N c id retval t = Ret (tt, after_drop c n m k' t).
Proof.
  intros Ht He Hk n Hr. unfold on_sys_exit. rewrite (when_traced_runs _ _ _ _ _ _ _ _ Ht He Hk).
  destruct (exit_branch_reserves N c (tgid_of c) (tid_of c) (s32 id) (map_gen st) retval
    (set_process_states m (set_kern k t))) as [body ->].
  unfold exit_event, bind, reserve_syscall_event. by rewrite (reserve_event_none _ _ _ k').
Qed.
End drops.

(** A call whose event does not fit into the ring is not reported, and the only
    trace it leaves is in the counters of the processor, where the event and its
    bytes are counted as dropped.  The programs return at once: the record in
    flight of a call that is dropped at its exit is not taken out. *)
Theorem full_ring_drops {K} `{BpfLaws K} N c id args retval (t : tracer K) m k st k1 k2 :
  traced c t → ¬ excluded N c id t → known c t m k st →
  let n1 := enter_size (variant_of N (s32 id)) in
  let n2 := exit_size (exit_variant (inflight t !! tid_of c) (s32 id)) in
  k_reserve SyscallRing n1 k = (None, k1) → k_reserve SyscallRing n2 k = (None, k2) →
  on_sys_enter N c id args t = Ret (tt, after_drop c n1 m k1 t) ∧
  on_sys_exit N c id retval t = Ret (tt, after_drop c n2 m k2 t) ∧
  ∀ n k', syscall_events (after_drop c n m k' t) = syscall_events t ∧
          map_events (after_drop c n m k' t) = map_events t ∧
          inflight (after_drop c n m k' t) = inflight t ∧
          stats (after_drop c n m k' t) !! cpu c = note_drop n <$> stats t !! cpu c ∧
          ∀ i, i ≠ cpu c → stats (after_drop c n m k' t) !! i = stats t !! i.
Proof.
  intros Ht He Hk n1 n2 H1 H2. split; [by apply (enter_dropped N c id args t m k st)|].
  split; [by apply (exit_dropped N c id retval t m k st)|].
  intros n k'. do 3 (split; [done|]). split.
  - by rewrite <- list_lookup_alter_eq.
  - intros i Hi. by apply list_lookup_alter_ne.
Qed.
Definition busy_tracer : tracer nat :=
  mk_tracer 0%nat {[50 := 1]} ∅ ∅ {[50 := mk_process ABI_NATIVE 3]}
    {[50 := mk_inflight 35 (StatOutCopy 1 6100 16)]} [mk_stats 0 0 0 0]
    [mk_scratch (mk_bb (zeros 2048) 0) (zeros 18)] [] [] [].
Lemma full_ring_drops_witness :
  on_sys_exit x86_64_numbers (task 50 0 12) 35 0 busy_tracer =
    Ret (tt, set_kern 1%nat (set_stats [mk_stats 0 0 1 568] busy_tracer)).
Proof.
  destruct (full_ring_drops x86_64_numbers (task 50 0 12) 35 [6100; 6100; 0; 0; 0; 0] 0 busy_tracer
    {[50 := mk_process ABI_NATIVE 3]} 0%nat (mk_process ABI_NATIVE 3) 1%nat 1%nat) as (_ & E & _).
  - left. by exists 1.
  - intros [x Hx]. vm_compute in Hx. discriminate.
  - split; [reflexivity|]. split; [reflexivity|done].
  - reflexivity.
  - reflexivity.
  - exact E.
Defined.

(** The record that stays in flight is taken for a later call.  A thread whose
    record was left behind enters the same call again with arguments for which
    nothing is scheduled (nanosleep(2) without a place for the remaining time),
    anything happens on other threads, and it leaves the call: its exit event
    carries the memory at the address the earlier call was given. *)
Theorem stale_copy_attached {K} `{BpfLaws K} N c1 c2 (L1 : context_laws c1) (L2 : context_laws c2)
    id args retval (t t1 t2 : tracer K) old m1 k1 st1 b1 k1' m2 k2 st2 b2 k2'
    {X} (sock : string → list Z → option X) sig :
  n_STATFS N ≠ n_READLINKAT N → args_ok args → trace_inv N t → runs_on c1 t →
  inflight t !! tid_of c1 = Some (mk_inflight (s32 id) old) →
  traced c1 t → ¬ excluded N c1 id t → known c1 t m1 k1 st1 →
  out_copy_of N (s32 id) args = None →
  k_reserve SyscallRing (enter_size (variant_of N (s32 id))) k1 = (Some b1, k1') →
  on_sys_enter N c1 id args t = Ret (tt, t1) →
  tid_of c2 = tid_of c1 → rtc (step N (λ c, tid_of c ≠ tid_of c2)) t1 t2 →
  0 ≤ pid_tgid c2 < 2 ^ 64 → - 2 ^ 63 ≤ retval < 2 ^ 63 →
  traced c2 t2 → ¬ excluded N c2 id t2 → known c2 t2 m2 k2 st2 →
  let i := Some (mk_inflight (s32 id) old) in
  k_reserve SyscallRing (exit_size (exit_variant i (s32 id))) k2 = (Some b2, k2') →
  Forall (want_fits sig) (exit_wants N c2 i (s32 id) retval) →
  ∃ t3 b, on_sys_exit N c2 id retval t2 = Ret (tt, t3) ∧
    syscall_events t3 = syscall_events t2 ++ [b] ∧
    wp (build_event_variant sock sig b) tt (λ v _,
      Forall2 (want_shown L2 sock sig) (exit_wants N c2 i (s32 id) retval) (e_attachments v)).
Proof.
  intros HN Ha Hi Hrun Hold Ht1 He1 Hk1 Hcp Hr1 E1 Htid Hsteps Hp Hret Ht2 He2 Hk2 i Hr2 Hf.
  destruct (on_sys_enter_spec N HN c1 L1 id args t m1 k1 st1 b1 k1' Ha Ht1 He1 Hk1 Hr1)
    as (t1' & b & E1' & _ & _ & Hs). rewrite E1 in E1'. injection E1' as <-.
  unfold scheduled_copies in Hs. rewrite Hcp in Hs.
  pose proof (on_sys_enter_inv N HN c1 L1 id args t t1 Ha Hi Hrun E1) as Hi1.
  assert (copy_ok old) as Hok.
  { destruct (inv_inflight _ _ Hi _ _ Hold) as (args' & Ha' & Ho). by apply (out_copy_ok N (s32 id) args'). }
  destruct (inflight_attached N HN c2 L2 id retval t1 t2 (mk_inflight (s32 id) old) m2 k2 st2 b2 k2' sock sig)
    as (t3 & b' & E3 & Hev & Hread & _); try done; [by rewrite Htid, Hs|].
  exists t3, b'. split; [done|]. split; [done|].
  eapply wp_mono; [exact Hread|]. intros v s (_ & _ & Hat). exact Hat.
Qed.
Definition sleep_without_rmtp : list Z := [6100; 0; 0; 0; 0; 0].
Definition left_behind : tracer Z :=
  set_inflight {[50 := mk_inflight 35 (StatOutCopy 1 6100 16)]} demo_tracer.
Definition sleeping_again : tracer Z :=
  returned (on_sys_enter x86_64_numbers (task 50 0 12) 35 sleep_without_rmtp left_behind) left_behind.
Lemma stale_copy_attached_witness :
  ∃ t3 b, on_sys_exit x86_64_numbers (task 50 0 12) 35 0 sleeping_again = Ret (tt, t3) ∧
    syscall_events t3 = syscall_events sleeping_again ++ [b] ∧
    wp (build_event_variant no_sockaddr (native_sig X86_64 35) b) tt (λ v _,
      Forall2 (want_shown (task_laws 50 0 12) no_sockaddr (native_sig X86_64 35))
        [WantBytes 1 6100 16 MAX_STAT] (e_attachments v)).
Proof.
  destruct (stale_copy_attached x86_64_numbers (task 50 0 12) (task 50 0 12) (task_laws 50 0 12)
    (task_laws 50 0 12) 35 sleep_without_rmtp 0 left_behind sleeping_again sleeping_again
    (StatOutCopy 1 6100 16)
    {[50 := mk_process ABI_NATIVE 3]} 1000 (mk_process ABI_NATIVE 3) (replicate 112 170) 1000
    {[50 := mk_process ABI_NATIVE 3]} 1001 (mk_process ABI_NATIVE 3) (replicate 568 170) 1001
    no_sockaddr (native_sig X86_64 35))
    as (t3 & b & E & Hev & Hread).
  - done.
  - by apply literal_args; [|repeat constructor].
  - apply inv_copies; [apply fresh_inv, demo_fresh|]. apply map_Forall_singleton.
    exists [6100; 6100; 0; 0; 0; 0]. split; [by apply literal_args; [|repeat constructor]|done].
  - split; [done|cbn; lia].
  - reflexivity.
  - left. by exists 1.
  - intros [x Hx]. vm_compute in Hx. discriminate.
  - split; [reflexivity|]. split; [reflexivity|done].
  - reflexivity.
  - vm_compute. reflexivity.
  - vm_compute. reflexivity.
  - done.
  - apply rtc_refl.
  - done.
  - done.
  - left. by exists 1.
  - intros [x Hx]. vm_compute in Hx. discriminate.
  - split; [vm_compute; reflexivity|]. split; [reflexivity|done].
  - vm_compute. reflexivity.
  - apply Forall_singleton, bytes_fit; row.
  - exists t3, b. split; [exact E|]. split; [exact Hev|exact Hread].
Defined.
