(* ===== verification/SockAddr.v ===== *)
(** Socket addresses in events: try_decode_sockaddr of
    src/src/linux/linux-host-session.vala.  The rendering of internet addresses,
    inet_ntop(3), is a parameter. *)
From S2P Require Import Prelude Posix Records Tracer TracerReader TracerCorrect TracerEvents TracerExit TracerSystem SyscallsX86 Architectures TracerDemo TracerClaims.

Definition AF_UNIX : Z := 1.
Definition AF_INET : Z := 2.
Definition AF_INET6 : Z := 10.

Inductive sockaddr :=
| Inet (ip : string) (port : Z)
| Inet6 (ip : string) (port scope_id : Z)
| Unix (path : list Z)
| UnixAbstract (name : list Z).

(** The loops [while (n < path_bytes && path[n] != 0) n++]; [rest] is the path
    from [n] on. *)
Fixpoint scan (rest : list Z) (n : Z) : Z :=
  match rest with
  | [] => n
  | x :: rest => if x =? 0 then n else scan rest (n + 1)
  end.

Section decode.
Context (inet_ntop : Z → list Z → option string).

Definition inet_ntop_to_string (af : Z) (src : list Z) : string := default "?"%string (inet_ntop af src).

(** uint16.from_network *)
Definition from_network (bs : list Z) : Z := le_value (reverse bs).

Definition decode_unix (path : list Z) : sockaddr :=
  match path with
  | [] => Unix []
  | x :: rest =>
      let n := scan rest 1 in
      if x =? 0 then UnixAbstract (ztake (n - 1) rest) else Unix (ztake n path)
  end.

Definition try_decode_sockaddr (arg_type : string) (data : list Z) : option sockaddr :=
  if negb (arg_type =? "struct sockaddr *")%string then None
  else if zlen data <? 2 then None
  else
    let fam := fld 2 0 data in
    if fam =? AF_INET then
      if zlen data <? 16 then None
      else Some (Inet (inet_ntop_to_string AF_INET (zslice 4 8 data)) (from_network (zslice 2 4 data)))
    else if fam =? AF_INET6 then
      if zlen data <? 28 then None
      else Some (Inet6 (inet_ntop_to_string AF_INET6 (zslice 8 24 data)) (from_network (zslice 2 4 data))
                       (fld 4 24 data))
    else if fam =? AF_UNIX then
      Some (decode_unix (ztake (Z.min (zlen data - 2) 108) (zdrop 2 data)))
    else None.

(** ** The addresses of the kernel's headers
    [describes bs a]: [bs] is a sockaddr_in, sockaddr_in6 or sockaddr_un for [a].
    A path may be followed by its terminator and anything after that; the name of
    an abstract socket has no terminator of its own. *)
Definition port_bytes (port : Z) : list Z := reverse (le_bytes 2 port).
Inductive describes : list Z → sockaddr → Prop :=
| describes_in ip port pad :
    zlen ip = 4 → 0 ≤ port < 2 ^ 16 → zlen pad = 8 →
    describes (le_bytes 2 AF_INET ++ port_bytes port ++ ip ++ pad) (Inet (inet_ntop_to_string AF_INET ip) port)
| describes_in6 flow ip port scope :
    zlen flow = 4 → zlen ip = 16 → 0 ≤ port < 2 ^ 16 → 0 ≤ scope < 2 ^ 32 →
    describes (le_bytes 2 AF_INET6 ++ port_bytes port ++ flow ++ ip ++ le_bytes 4 scope)
      (Inet6 (inet_ntop_to_string AF_INET6 ip) port scope)
| describes_path path junk :
    0 ∉ path → path ≠ [] → zlen path + 1 ≤ 108 →
    describes (le_bytes 2 AF_UNIX ++ path ++ 0 :: junk) (Unix path)
| describes_unnamed :
    describes (le_bytes 2 AF_UNIX) (Unix [])
| describes_abstract name :
    0 ∉ name → zlen name < 108 → describes (le_bytes 2 AF_UNIX ++ 0 :: name) (UnixAbstract name).

Lemma scan_app s r n : 0 ∉ s → scan (s ++ 0 :: r) n = n + zlen s.
Proof.
  revert n. induction s as [|x s IH]; intros n Hs; cbn [scan app]; [by rewrite Z.add_0_r|].
  destruct (Z.eqb_spec x 0) as [->|]; [set_solver|]. rewrite IH by set_solver. rewrite zlen_cons. lia.
Qed.
Lemma scan_all s n : 0 ∉ s → scan s n = n + zlen s.
Proof.
  revert n. induction s as [|x s IH]; intros n Hs; cbn [scan]; [by rewrite Z.add_0_r|].
  destruct (Z.eqb_spec x 0) as [->|]; [set_solver|]. rewrite IH by set_solver. rewrite zlen_cons. lia.
Qed.
Lemma from_network_port port : 0 ≤ port < 2 ^ 16 → from_network (port_bytes port) = port.
Proof. intros. unfold from_network, port_bytes. rewrite reverse_involutive. by apply le_value_small. Qed.

Lemma family_field f r : 0 ≤ f < 2 ^ 16 → fld 2 0 (le_bytes 2 f ++ r) = f.
Proof.
  intros. unfold fld. rewrite zslice_0. change (0 + 2) with 2.
  rewrite <- (zlen_le_bytes 2 f) at 1 by done. rewrite ztake_app_exact. by apply le_value_small.
Qed.
Lemma path_field f r : zdrop 2 (le_bytes 2 f ++ r) = r.
Proof. rewrite <- (zlen_le_bytes 2 f) at 1 by done. apply zdrop_app_exact. Qed.
Lemma zlen_port port : zlen (port_bytes port) = 2.
Proof. done. Qed.

Lemma port_field f port r : zslice 2 4 (le_bytes 2 f ++ port_bytes port ++ r) = port_bytes port.
Proof. apply zslice_mid; [by rewrite zlen_le_bytes|by rewrite zlen_port]. Qed.
Lemma ztake_app_ge n (s r : list Z) : zlen s ≤ n → ztake n (s ++ r) = s ++ ztake (n - zlen s) r.
Proof.
  intros. unfold ztake, zlen in *. rewrite take_app_ge by lia. do 2 f_equal. lia.
Qed.

Lemma decode_unix_path path junk n :
  0 ∉ path → path ≠ [] → zlen path + 1 ≤ n → decode_unix (ztake n (path ++ 0 :: junk)) = Unix path.
Proof.
  intros Hz Hne Hn. rewrite ztake_app_ge by lia.
  assert (∃ r, ztake (n - zlen path) (0 :: junk) = 0 :: r) as [r ->].
  { unfold ztake. destruct (Z.to_nat (n - zlen path)) eqn:E; [lia|]. by eexists. }
  destruct path as [|x path]; [done|]. cbn [decode_unix app].
  rewrite (proj2 (Z.eqb_neq x 0)) by set_solver. rewrite scan_app by set_solver.
  rewrite app_comm_cons. replace (1 + zlen path) with (zlen (x :: path)) by (rewrite zlen_cons; lia).
  by rewrite ztake_app_exact.
Qed.
Lemma decode_unix_abstract name n :
  0 ∉ name → zlen name < n → decode_unix (ztake n (0 :: name)) = UnixAbstract name.
Proof.
  intros Hz Hn. rewrite ztake_ge by (rewrite zlen_cons; lia). cbn [decode_unix].
  rewrite scan_all by done. cbn [Z.eqb]. f_equal. apply ztake_ge. lia.
Qed.

(** Every address the kernel accepts is shown as what it is. *)
Lemma decode_describes bs a :
  describes bs a → try_decode_sockaddr "struct sockaddr *" bs = Some a.
Proof.
  intros Hd. assert (2 ≤ zlen bs) as H2.
  { destruct Hd; rewrite ?zlen_app, zlen_le_bytes by done; zlen_facts; lia. }
  unfold try_decode_sockaddr. cbn [String.eqb Ascii.eqb Bool.eqb negb].
  rewrite (proj2 (Z.ltb_ge _ 2) H2). clear H2.
  destruct Hd as [ip port pad Hip Hp Hpad|flow ip port scope Hf Hip Hp Hs|path junk Hz Hne Hl| |name Hz Hl].
  - rewrite family_field by done. rewrite Z.eqb_refl, (proj2 (Z.ltb_ge _ 16)).
    2: rewrite !zlen_app, zlen_port, zlen_le_bytes by done; lia.
    rewrite port_field, from_network_port, app_assoc by done. do 3 f_equal.
    apply zslice_mid; [by rewrite zlen_app, zlen_le_bytes, zlen_port|by rewrite Hip].
  - rewrite family_field by done. change (AF_INET6 =? AF_INET) with false.
    rewrite Z.eqb_refl, (proj2 (Z.ltb_ge _ 28)).
    2: rewrite !zlen_app, zlen_port, !zlen_le_bytes by done; lia.
    rewrite port_field, from_network_port by done. do 2 f_equal.
    + f_equal. rewrite (app_assoc _ (port_bytes port)), (app_assoc _ flow).
      apply zslice_mid; [by rewrite !zlen_app, zlen_le_bytes, zlen_port, Hf|by rewrite Hip].
    + unfold fld. rewrite (app_assoc _ (port_bytes port)), (app_assoc _ flow), (app_assoc _ ip).
      rewrite <- (app_nil_r (le_bytes 4 scope)).
      rewrite zslice_mid; [by apply le_value_small|by rewrite !zlen_app, zlen_le_bytes, zlen_port, Hf, Hip|by rewrite zlen_le_bytes].
  - rewrite family_field, path_field by done. change (AF_UNIX =? AF_INET) with false. change (AF_UNIX =? AF_INET6) with false. rewrite Z.eqb_refl.
    f_equal. apply decode_unix_path; [done..|].
    rewrite !zlen_app, zlen_le_bytes, zlen_cons by done. zlen_facts. lia.
  - done.
  - rewrite family_field, path_field by done. change (AF_UNIX =? AF_INET) with false. change (AF_UNIX =? AF_INET6) with false. rewrite Z.eqb_refl.
    f_equal. apply decode_unix_abstract; [done|].
    rewrite !zlen_app, zlen_le_bytes, zlen_cons by done. zlen_facts. lia.
Qed.
End decode.

(** The address of a traced connect(2) or bind(2) reaches the client as what it
    is.  On a 64-bit machine, when the task's memory holds an internet address or
    the address of a named, unnamed or abstract Unix socket, the event's one
    attachment is argument 1 with its host, port and scope, its path or its name. *)
Theorem connect_address_shown {K} `{BpfLaws K} ntop a c (L : context_laws c) id args (t : tracer K)
    m k st b0 k' bs addr :
  is_64bit a → s32 id = n_CONNECT (numbers_of a) ∨ s32 id = n_BIND (numbers_of a) →
  args_ok args → 0 ≤ pid_tgid c < 2 ^ 64 →
  traced c t → ¬ excluded (numbers_of a) c id t → known c t m k st →
  k_reserve SyscallRing (enter_size EnterSock) k = (Some b0, k') →
  u32 (znth args 2) ≤ MAX_SOCK → bytes_at L (znth args 1) (u32 (znth args 2)) = Some bs →
  describes ntop bs addr →
  ∃ t' b, on_sys_enter (numbers_of a) c id args t = Ret (tt, t') ∧
    syscall_events t' = syscall_events t ++ [b] ∧
    wp (build_event_variant (try_decode_sockaddr ntop) (native_sig a (s32 id)) b) tt
      (λ v _, e_nr v = s32 id ∧ e_attachments v = [(1, VSockaddr addr)]).
Proof.
  intros H64 Hid Ha Hp Ht He Hk Hr Hlen Hbs Hd.
  assert (variant_of (numbers_of a) (s32 id) = EnterSock) as Hv
    by (destruct a; [| |done]; by destruct Hid as [-> | ->]).
  assert (wants_of (numbers_of a) (s32 id) args =
          [WantBytes 1 (znth args 1) (u32 (znth args 2)) MAX_SOCK]) as Hw
    by (destruct a; [| |done]; by destruct Hid as [-> | ->]).
  assert (sig_nargs_of (native_sig a (s32 id)) = 3 ∧
          arg_type (native_sig a (s32 id)) 1 = Some "struct sockaddr *") as [Hna Hty]
    by (destruct a; [| |done]; destruct Hid as [-> | ->]; vm_compute; done).
  rewrite <- Hv in Hr.
  destruct (on_sys_enter_spec _ (numbers_distinct a) c L id args t m k st b0 k' Ha Ht He Hk Hr)
    as (t' & b & E & Hev & Hrec & _).
  exists t', b. split; [done|]. split; [done|].
  eapply wp_mono.
  { apply (enter_record_read L args (proj2 Ha) (try_decode_sockaddr ntop) _ _ _ _ _ b
      (native_sig a (s32 id)) tt Hrec (tgid_range c Hp) (u32_range _) (s32_range id)
      (proj2 (proj2 Hk)) (native_wants_fit a _ args H64 Ha)); [lia|apply Ha]. }
  intros v [] (_ & _ & Hn & _ & _ & Hat). split; [done|]. rewrite Hw in Hat.
  apply Forall2_cons_inv_l in Hat as (iv & r & (data & [Hl Hdel] & ->) & Hnil & ->).
  apply Forall2_nil_inv_l in Hnil as ->.
  assert (0 < zlen bs) by (pose proof (decode_describes ntop bs addr Hd) as X; destruct bs; [done|]; rewrite zlen_cons; zlen_facts; lia).
  rewrite Z.min_l in Hdel by done. pose proof (bytes_at_len _ L _ _ _ Hbs).
  rewrite (Hdel ltac:(lia) _ Hbs). unfold shown. rewrite Hty.
  change (has_suffix "struct __kernel_timespec *" "struct sockaddr *") with false.
  change (has_suffix "struct old_timespec32 *" "struct sockaddr *") with false. cbn iota.
  by rewrite (decode_describes ntop bs addr Hd).
Qed.
Definition no_ntop : Z → list Z → option string := λ _ _, None.
Definition connect_call : list Z := [3; 6200; 17; 0; 0; 0].
Lemma connect_address_shown_witness :
  ∃ t' b, on_sys_enter x86_64_numbers (task 50 0 12) 42 connect_call demo_tracer = Ret (tt, t') ∧
    syscall_events t' = [b] ∧
    wp (build_event_variant (try_decode_sockaddr no_ntop) (native_sig X86_64 42) b) tt
      (λ v _, e_nr v = 42 ∧ e_attachments v = [(1, VSockaddr (Unix (bytes_of "/run/user.sock")))]).
Proof.
  destruct (connect_address_shown no_ntop X86_64 (task 50 0 12) (task_laws 50 0 12) 42 connect_call
    demo_tracer {[50 := mk_process ABI_NATIVE 3]} 1000 (mk_process ABI_NATIVE 3) (replicate 224 170) 1000
    (le_bytes 2 AF_UNIX ++ bytes_of "/run/user.sock" ++ [0]) (Unix (bytes_of "/run/user.sock")))
    as (t' & b & E & Hev & Hread).
  - done.
  - by left.
  - by apply literal_args; [|repeat constructor].
  - done.
  - left. by exists 1.
  - intros [x Hx]. vm_compute in Hx. discriminate.
  - split; [reflexivity|]. split; [reflexivity|done].
  - vm_compute. reflexivity.
  - done.
  - reflexivity.
  - apply describes_path; [cbn; set_solver|done|done].
  - exists t', b. split; [exact E|]. split; [exact Hev|exact Hread].
Defined.
