(* ===== verification/SpawnGater.v ===== *)
(** The gate at which new programs wait: the BPF program of
    src/src/linux/helpers/spawn-gater.bpf.c, which reports every execve(2) and
    stops the process, and the SpawnGater of src/src/linux/spawn-gater.vala, which
    tells its clients and resumes the process when one of them asks it to.

    The state has the ring buffer, the table of pending processes, the resumptions that
    were begun and did not end yet, and a trace of what happens: submitted records,
    stopped and resumed processes and the signals to clients. *)
From S2P Require Import Prelude Posix Records Tracer TracerCorrect.

Definition MAX_FILENAME : Z := 256.
(** ExecveEvent: pid and command. *)
Definition ExecveEvent_members : list (Z * Z) := [(4, 4); (256, 1)].
Definition o_pid : Z := 0.
Definition o_command : Z := 4.
Definition sizeof_ExecveEvent : Z := 260.
Lemma ExecveEvent_layout : c_layout ExecveEvent_members = ([o_pid; o_command], sizeof_ExecveEvent).
Proof. done. Qed.

(** How the helper process answers when it is asked to resume a process. *)
Inductive helper_reply := HelperResumed | HelperInvalidArgument | HelperFailed.
(** The ring buffer of the program, where [g_reserve n] asks for a record, the helper
    process, and whether a process can be sent SIGCONT. *)
Class RingKernel (K : Type) := {
  g_reserve : Z → K → option (list Z) * K;
  g_helper_resume : Z → K → helper_reply * K;
  g_kill_cont : Z → K → bool * K
}.
Class RingLaws (K : Type) `{RingKernel K} := {
  g_reserve_size n k b k' : g_reserve n k = (Some b, k') → zlen b = n
}.

Inductive act :=
| Reported (pid : Z)
| Stop (pid : Z)
| ResumeBegun (pid : Z)
| Resume (pid : Z)
| ResumeFailed (pid : Z)
| SpawnAdded (pid : Z) (identifier : list Z)
| SpawnRemoved (pid : Z) (identifier : list Z).
#[export] Instance act_eq_dec : EqDecision act.
Proof. solve_decision. Defined.

Record gate (K : Type) := mk_gate {
  g_kern : K;
  events : list (list Z);
  attached : bool;
  pending_spawn : gmap Z (list Z);
  resuming : list Z;
  trace : list act
}.
Arguments mk_gate {K} _ _ _ _ _ _.
Arguments g_kern {K} _.
Arguments events {K} _.
Arguments attached {K} _.
Arguments pending_spawn {K} _.
Arguments resuming {K} _.
Arguments trace {K} _.

Section gate.
Context {K : Type} `{RingKernel K} (EXECVE : Z).
Notation G := (gate K).

Definition set_events l (g : G) : G := mk_gate (g_kern g) l (attached g) (pending_spawn g) (resuming g) (trace g).
Definition set_attached a (g : G) : G := mk_gate (g_kern g) (events g) a (pending_spawn g) (resuming g) (trace g).
Definition set_pending m (g : G) : G := mk_gate (g_kern g) (events g) (attached g) m (resuming g) (trace g).
Definition set_resuming l (g : G) : G := mk_gate (g_kern g) (events g) (attached g) (pending_spawn g) l (trace g).
Definition see (a : act) : M G unit :=
  modify (λ g, mk_gate (g_kern g) (events g) (attached g) (pending_spawn g) (resuming g) (trace g ++ [a])).

(** ** tracepoint/raw_syscalls/sys_enter *)
Definition g_ringbuf_reserve (n : Z) : M G (option (list Z)) := λ g,
  match g_reserve n (g_kern g) with
  | (e, k) => Ret (e, mk_gate k (events g) (attached g) (pending_spawn g) (resuming g) (trace g))
  end.
(** A call of the system that is not about the ring. *)
Definition g_call {A} (f : K → A * K) : M G A := λ g,
  match f (g_kern g) with
  | (a, k) => Ret (a, mk_gate k (events g) (attached g) (pending_spawn g) (resuming g) (trace g))
  end.
Definition report_execve (c : context) (args : list Z) : M G bool :=
  let! e := g_ringbuf_reserve sizeof_ExecveEvent in
  match e with
  | None => ret false
  | Some e =>
      let! e := put32 o_pid (pid_tgid c ≫ 32) e in
      let! old := load o_command MAX_FILENAME e in
      let! e := store o_command (read_user_str c (znth args 0) old).2 e in
      do! modify (λ g, set_events (events g ++ [e]) g) in
      do! see (Reported (pid_tgid c ≫ 32)) in
      ret true
  end.
(** The signal is sent after the record was submitted. *)
Definition on_execve_enter (c : context) (id : Z) (args : list Z) : M G unit :=
  if negb (s32 id =? EXECVE) then ret tt
  else
    let! reported := report_execve c args in
    if reported : bool then see (Stop (pid_tgid c ≫ 32)) else ret tt.

(** ** The host's side *)
Definition start : M G unit :=
  let! started := gets attached in
  do! c_assert (negb started) in
  modify (λ g, set_attached true (set_events [] g)).

Definition handle_event (e : list Z) : M G unit :=
  let pid := fld 4 o_pid e in
  match c_string (zdrop o_command e) with
  | None => crash
  | Some identifier =>
      do! modify (λ g, set_pending (<[pid := identifier]> (pending_spawn g)) g) in
      see (SpawnAdded pid identifier)
  end.
Fixpoint handle_events (es : list (list Z)) : M G unit :=
  match es with
  | [] => ret tt
  | e :: es =>
      do! c_assert (zlen e =? sizeof_ExecveEvent) in
      do! handle_event e in
      handle_events es
  end.
Definition process_pending_events : M G unit :=
  let! es := gets events in
  do! handle_events es in
  modify (set_events []).

(** perform_resume asks the helper, and sends SIGCONT when it does not know the
    process; other errors are ignored, and so is the result of kill.  It runs when the
    main loop gets to it: [begin_resume] is what its callers do. *)
Definition perform_resume (pid : Z) : M G unit :=
  let! reply := g_call (g_helper_resume pid) in
  match reply with
  | HelperResumed => see (Resume pid)
  | HelperInvalidArgument =>
      let! sent := g_call (g_kill_cont pid) in
      see (if sent : bool then Resume pid else ResumeFailed pid)
  | HelperFailed => see (ResumeFailed pid)
  end.
Definition begin_resume (pid : Z) : M G unit :=
  do! modify (λ g, set_resuming (resuming g ++ [pid]) g) in
  see (ResumeBegun pid).
(** The main loop runs the resumptions that were begun. *)
Fixpoint run_resumes (pids : list Z) : M G unit :=
  match pids with
  | [] => modify (set_resuming [])
  | pid :: pids => do! perform_resume pid in run_resumes pids
  end.

Definition try_resume (pid : Z) : M G bool :=
  let! m := gets pending_spawn in
  match m !! pid with
  | None => ret false
  | Some identifier =>
      do! modify (λ g, set_pending (delete pid (pending_spawn g)) g) in
      do! see (SpawnRemoved pid identifier) in
      do! begin_resume pid in
      ret true
  end.

Fixpoint release (spawns : list (Z * list Z)) : M G unit :=
  match spawns with
  | [] => ret tt
  | (pid, identifier) :: spawns =>
      do! see (SpawnRemoved pid identifier) in
      do! begin_resume pid in
      release spawns
  end.
Definition stop : M G unit :=
  let! started := gets attached in
  if negb started then ret tt
  else
    do! modify (set_attached false) in
    do! process_pending_events in
    let! m := gets pending_spawn in
    do! release (map_to_list m) in
    modify (set_pending ∅).

(** ** What others see
    The processes that wait at the gate, those that were reported and not yet answered,
    and the table a client that follows the signals has. *)
Definition held (l : list act) : gset Z :=
  foldl (λ h a, match a with Stop p => {[p]} ∪ h | Resume p => h ∖ {[p]} | _ => h end) ∅ l.
Definition unanswered (l : list act) : gset Z :=
  foldl (λ h a, match a with Reported p => {[p]} ∪ h | ResumeBegun p => h ∖ {[p]} | _ => h end) ∅ l.
Definition announced (l : list act) : gmap Z (list Z) :=
  foldl (λ m a, match a with
    | SpawnAdded p s => <[p := s]> m | SpawnRemoved p _ => delete p m | _ => m end) ∅ l.

Lemma held_snoc l a : held (l ++ [a]) =
  match a with Stop p => {[p]} ∪ held l | Resume p => held l ∖ {[p]} | _ => held l end.
Proof. unfold held. by rewrite foldl_snoc. Qed.
Lemma unanswered_snoc l a : unanswered (l ++ [a]) =
  match a with Reported p => {[p]} ∪ unanswered l | ResumeBegun p => unanswered l ∖ {[p]} | _ => unanswered l end.
Proof. unfold unanswered. by rewrite foldl_snoc. Qed.
Lemma announced_snoc l a : announced (l ++ [a]) =
  match a with
  | SpawnAdded p s => <[p := s]> (announced l) | SpawnRemoved p _ => delete p (announced l)
  | _ => announced l
  end.
Proof. unfold announced. by rewrite foldl_snoc. Qed.
End gate.
#[global] Arguments held : simpl never.
#[global] Arguments announced : simpl never.
#[global] Arguments unanswered : simpl never.
