(* ===== verification/SpawnGaterClaims.v ===== *)
(** What the gate promises, with runs on a concrete machine. *)
From S2P Require Import Prelude Posix Records Tracer TracerReader TracerCorrect TracerPath TracerDemo SpawnGater.

(** * The gate's promises: a process that was reported is known to the host, or about to
    be, until the host resumes it, clients see exactly the pending processes, and closing
    the gate resumes all of them.  The BPF program submits its record before it sends the
    signal, and the host may run in between: the signal is a step of its own. *)
(** A task of the machine.  The kernel clears the destination of a string it
    cannot read, so the command always ends inside the record. *)
Record gate_context (c : context) : Prop := {
  gc_task : 0 ≤ pid_tgid c < 2 ^ 64;
  gc_size a old : zlen (read_user_str c a old).2 = zlen old;
  gc_ends a old : 0 < zlen old → is_Some (c_string (read_user_str c a old).2)
}.
(** A task of [context_laws] is one, if failed reads clear their destination. *)
Lemma gate_context_laws c (L : context_laws c) :
  0 ≤ pid_tgid c < 2 ^ 64 →
  (∀ a old, str_at L a (zlen old) = None → (read_user_str c a old).2 = zeros (zlen old)) →
  gate_context c.
Proof.
  intros Ht Hz. split; [done| |].
  - intros a old. destruct (str_at L a (zlen old)) as [s|] eqn:E.
    + rewrite (read_str_ok _ L a old s E). pose proof (proj2 (str_at_ok _ L _ _ _ E)).
      cbn [snd]. rewrite zlen_app, zlen_cons, zlen_zdrop. zlen_facts. lia.
    + apply (read_str_fails _ L a old E).
  - intros a old Hl. destruct (str_at L a (zlen old)) as [s|] eqn:E.
    + rewrite (read_str_ok _ L a old s E). cbn [snd].
      rewrite c_string_app; [done|]. apply (proj1 (str_at_ok _ L _ _ _ E)).
    + rewrite (Hz a old E). unfold zeros. destruct (Z.to_nat (zlen old)) eqn:E2; [lia|done].
Qed.

Section correct.
Context {K : Type} `{RingLaws K} (EXECVE : Z).
Notation G := (gate K).
Implicit Types g : G.

Definition event_ok (e : list Z) : Prop := zlen e = sizeof_ExecveEvent ∧ is_Some (c_string (zdrop o_command e)).
Definition event_pid (e : list Z) : Z := fld 4 o_pid e.
Definition reported (es : list (list Z)) : gset Z := list_to_set (event_pid <$> es).

Record gate_inv g : Prop := {
  inv_known : unanswered (trace g) ⊆ dom (pending_spawn g) ∪ reported (events g);
  inv_seen : announced (trace g) = pending_spawn g;
  inv_ring : Forall event_ok (events g)
}.
(** A closed gate has nobody waiting. *)
Definition closed_inv g : Prop := attached g = false → pending_spawn g = ∅ ∧ events g = [].

(** ** The program *)
Definition adds_event (c : context) (args : list Z) (e : list Z) : Prop :=
  event_ok e ∧ event_pid e = pid_tgid c ≫ 32 ∧
  ∃ old, zlen old = MAX_FILENAME ∧ zdrop o_command e = (read_user_str c (znth args 0) old).2.

Lemma report_execve_spec c args g :
  gate_context c →
  wp (report_execve c args) g (λ r g', ∃ k,
    if r then ∃ e, adds_event c args e ∧
           g' = mk_gate k (events g ++ [e]) (attached g) (pending_spawn g) (resuming g) (trace g ++ [Reported (pid_tgid c ≫ 32)])
    else g' = mk_gate k (events g) (attached g) (pending_spawn g) (resuming g) (trace g)).
Proof.
  intros Hc. unfold report_execve, g_ringbuf_reserve.
  destruct (g_reserve sizeof_ExecveEvent (g_kern g)) as [[b|] k] eqn:Er.
  2: { eexists _, _. unfold bind. rewrite Er. split; [done|]. by exists k. }
  pose proof (g_reserve_size _ _ _ _ Er) as Hb. unfold sizeof_ExecveEvent in Hb.
  apply wp_bind. eexists _, _. rewrite Er. split; [done|].
  unfold o_pid, o_command, MAX_FILENAME in *. put_step.
  apply wp_bind, wp_load; [lia..|]. set (old := zslice 4 (4 + 256) b0).
  assert (zlen old = 256) as Hold by (subst old; rewrite zlen_zslice; lia).
  pose proof (gc_size c Hc (znth args 0) old) as Hsz. rewrite Hold in Hsz.
  apply wp_bind, wp_store; [lia|lia|]. apply wp_bind, wp_modify, wp_bind, wp_modify, wp_ret. exists k.
  set (e := zwrite 4 _ b0). exists e. split; [|done].
  assert (same_outside 4 260 b0 e) as Fe.
  { subst e. pose proof (same_outside_zwrite 4 (read_user_str c (znth args 0) old).2 b0) as X.
    rewrite Hsz in X. apply X; lia. }
  assert (zlen e = 260) as Hle by (destruct Fe; lia).
  assert (zdrop 4 e = (read_user_str c (znth args 0) old).2) as Hcmd.
  { pose proof (zslice_zwrite 4 (read_user_str c (znth args 0) old).2 b0) as Y.
    rewrite Hsz in Y. fold e in Y. transitivity (zslice 4 (4 + 256) e); [|by apply Y; lia].
    unfold zslice. rewrite ztake_ge; [done|]. rewrite zlen_zdrop. lia. }
  split; [|split].
  - split; [done|]. unfold o_command. rewrite Hcmd. apply (gc_ends c Hc). lia.
  - unfold event_pid, o_pid. rewrite (same_outside_fld _ _ _ _ 4 0 Fe) by lia. rewrite V.
    apply Z.mod_small. pose proof (gc_task c Hc). change (2 ^ (4 * 8)) with (2 ^ 32).
    rewrite Z.shiftr_div_pow2 by done. split; [apply Z.div_pos; lia|].
    apply Z.div_lt_upper_bound; lia.
  - exists old. unfold o_command, MAX_FILENAME. done.
Qed.

(** With room in the ring the call is reported. *)
Lemma report_execve_succeeds c args g b k :
  gate_context c → g_reserve sizeof_ExecveEvent (g_kern g) = (Some b, k) →
  ∃ k' e, adds_event c args e ∧
    report_execve c args g = Ret (true, mk_gate k' (events g ++ [e]) (attached g) (pending_spawn g) (resuming g)
      (trace g ++ [Reported (pid_tgid c ≫ 32)])).
Proof.
  intros Hc Hr. destruct (report_execve_spec c args g Hc) as (r & g1 & E & k1 & Hg1).
  assert (r = true) as ->.
  { revert E. unfold report_execve, bind, g_ringbuf_reserve. rewrite Hr.
    unfold put32, load, store, ret. repeat case_match; try done; by intros [= <-]. }
  destruct Hg1 as (e & He & ->). by exists k1, e.
Qed.
Lemma report_execve_inv c args g r g' :
  gate_context c → gate_inv g → report_execve c args g = Ret (r, g') →
  gate_inv g' ∧ attached g' = attached g ∧ trace g' = trace g ++ (if r then [Reported (pid_tgid c ≫ 32)] else []).
Proof.
  intros Hc Hi E. destruct (wp_frame_eq _ _ _ _ _ (report_execve_spec c args g Hc) E) as [k Hk]. destruct Hi as [I1 I2 I3]. destruct r.
  - destruct Hk as (e & (He & Hp & _) & ->). split; [|done]. split; cbn.
    + rewrite unanswered_snoc. unfold reported in *. rewrite fmap_app, list_to_set_app_L. cbn. rewrite Hp. set_solver.
    + by rewrite announced_snoc.
    + apply Forall_app. split; [done|by apply Forall_singleton].
  - subst g'. split; [done|]. cbn. by rewrite app_nil_r.
Qed.

(** ** The host *)
(** What the host does between two resumptions leaves no mark but announcements. *)
Definition extends (P : act → Prop) g g' : Prop := ∃ l, trace g' = trace g ++ l ∧ Forall P l.
Lemma gate_extends_refl P g : extends P g g.
Proof. exists []. by rewrite app_nil_r. Qed.
Lemma gate_extends_trans P g1 g2 g3 : extends P g1 g2 → extends P g2 g3 → extends P g1 g3.
Proof. intros (l & E & Hl) (l' & E' & Hl'). exists (l ++ l'). rewrite E', E, app_assoc. split; [done|by apply Forall_app]. Qed.
Definition is_added (a : act) : Prop := match a with SpawnAdded _ _ => True | _ => False end.
Lemma unanswered_added l l' : Forall is_added l' → unanswered (l ++ l') = unanswered l.
Proof.
  induction l' as [|a l' IH] using rev_ind; intros Hl; [by rewrite app_nil_r|]. apply Forall_app in Hl as [Hl Ha].
  rewrite Forall_singleton in Ha. rewrite app_assoc, unanswered_snoc, IH by done. by destruct a; cbn in Ha.
Qed.
Lemma held_added l l' : Forall is_added l' → held (l ++ l') = held l.
Proof.
  induction l' as [|a l' IH] using rev_ind; intros Hl; [by rewrite app_nil_r|]. apply Forall_app in Hl as [Hl Ha].
  rewrite Forall_singleton in Ha. rewrite app_assoc, held_snoc, IH by done. by destruct a; cbn in Ha.
Qed.
Lemma handle_events_spec es g :
  Forall event_ok es → announced (trace g) = pending_spawn g →
  wp (handle_events es) g (λ _ g',
    attached g' = attached g ∧ resuming g' = resuming g ∧ extends is_added g g' ∧ announced (trace g') = pending_spawn g' ∧
    dom (pending_spawn g') = dom (pending_spawn g) ∪ reported es).
Proof.
  revert g. induction es as [|e es IH]; intros g He Hs; cbn [handle_events].
  { apply wp_ret. unfold reported. cbn. do 2 (split; [done|]). split; [apply gate_extends_refl|]. split; [done|]. set_solver. }
  apply Forall_cons in He as [[Hl [s Hs']] He]. apply wp_bind, wp_assert; [by apply Z.eqb_eq|].
  apply wp_bind. unfold handle_event. rewrite Hs'. apply wp_bind, wp_modify, wp_modify.
  wp_call IH; [done| |].
  { cbn. by rewrite announced_snoc, Hs. }
  cbn. intros _ g' (-> & -> & Hx & -> & ->). do 2 (split; [done|]). split; [|split; [done|]].
  - eapply gate_extends_trans; [|exact Hx]. exists [SpawnAdded (fld 4 o_pid e) s]. split; [done|by repeat constructor].
  - rewrite dom_insert_L. unfold reported, event_pid. cbn. set_solver.
Qed.
Lemma handle_events_app es es' g Q :
  wp (handle_events es) g (λ _ g', wp (handle_events es') g' Q) → wp (handle_events (es ++ es')) g Q.
Proof.
  revert g. induction es as [|e es IH]; intros g; cbn [handle_events app].
  - by intros (u & g' & [= _ <-] & HQ).
  - unfold wp, bind, c_assert. destruct (zlen e =? sizeof_ExecveEvent); [|by intros (? & ? & ? & _)].
    destruct (handle_event e g) as [[[] g1]| | |]; try by intros (? & ? & ? & _). apply IH.
Qed.
Lemma process_pending_events_inv g :
  gate_inv g →
  wp process_pending_events g (λ _ g', gate_inv g' ∧ attached g' = attached g ∧ resuming g' = resuming g ∧
    extends is_added g g' ∧ events g' = []).
Proof.
  intros [I1 I2 I3]. unfold process_pending_events. apply wp_bind, wp_gets, wp_bind.
  wp_call handle_events_spec; [done|done|]. intros _ g' (E1 & E2 & (l & El & Hl) & E3 & E4).
  apply wp_modify. split; [|split_and!; [done|done|by exists l|done]]. split; cbn; [|done|done].
  rewrite El, unanswered_added, E4 by done. unfold reported in *. cbn. set_solver.
Qed.

Lemma try_resume_inv pid g :
  gate_inv g → wp (try_resume pid) g (λ _ g', gate_inv g' ∧ attached g' = attached g ∧ events g' = events g ∧
    extends (λ a, (∃ s, a = SpawnRemoved pid s) ∨ a = ResumeBegun pid) g g' ∧ (pid ∉ dom (pending_spawn g) → g' = g)).
Proof.
  intros Hi. unfold try_resume. apply wp_bind, wp_gets.
  destruct (pending_spawn g !! pid) as [s|] eqn:E; [|apply wp_ret; by split_and!; try apply gate_extends_refl].
  apply wp_bind, wp_modify, wp_bind, wp_modify, wp_bind, wp_bind, wp_modify, wp_modify, wp_ret. cbn.
  destruct Hi as [I1 I2 I3]. split; [split; cbn; [| |done]|split_and!; [done|done| |]].
  - rewrite !unanswered_snoc, dom_delete_L. set_solver.
  - by rewrite !announced_snoc, I2.
  - exists [SpawnRemoved pid s; ResumeBegun pid]. split; [cbn; by rewrite <- app_assoc|]. apply Forall_cons. split; [left; by exists s|]. apply Forall_singleton. by right.
  - intros Hn. destruct Hn. apply elem_of_dom. by exists s.
Qed.

Lemma pending_listed (m : gmap Z (list Z)) p s : m !! p = Some s → p ∈ (map_to_list m).*1.
Proof. intros Hp. apply list_elem_of_fmap. exists (p, s). split; [done|]. by apply elem_of_map_to_list. Qed.
Definition is_answer (a : act) : Prop := match a with SpawnRemoved _ _ | ResumeBegun _ => True | _ => False end.
Lemma release_spec l g :
  wp (release l) g (λ _ g',
    events g' = events g ∧ attached g' = attached g ∧ pending_spawn g' = pending_spawn g ∧
    resuming g' = resuming g ++ l.*1 ∧ extends is_answer g g' ∧
    unanswered (trace g') = unanswered (trace g) ∖ list_to_set l.*1 ∧
    ∀ p, p ∈ l.*1 ∨ announced (trace g) !! p = None → announced (trace g') !! p = None).
Proof.
  revert g. induction l as [|[pid s] l IH]; intros g; cbn [release].
  { apply wp_ret. cbn. rewrite app_nil_r. do 4 (split; [done|]). split; [apply gate_extends_refl|]. split; [set_solver|].
    intros p [Hp|Hp]; [by apply elem_of_nil in Hp|done]. }
  apply wp_bind, wp_modify, wp_bind, wp_bind, wp_modify, wp_modify. wp_call IH. cbn.
  intros _ g' (-> & -> & -> & -> & Hx & -> & Hn). do 3 (split; [done|]). split; [by rewrite <- app_assoc|].
  split; [|rewrite !unanswered_snoc; split; [set_solver|]].
  - eapply gate_extends_trans; [|exact Hx]. exists [SpawnRemoved pid s; ResumeBegun pid]. split; [cbn; by rewrite <- app_assoc|by repeat constructor].
  - intros p Hp. apply Hn. rewrite !announced_snoc, lookup_delete_None.
    destruct Hp as [[-> | Hp]%elem_of_cons|Hp]; auto.
Qed.

(** Closing answers everybody. *)
Lemma stop_spec g :
  gate_inv g → closed_inv g →
  wp stop g (λ _ g', gate_inv g' ∧ attached g' = false ∧ announced (trace g') = ∅ ∧ pending_spawn g' = ∅ ∧ events g' = [] ∧
    extends (λ a, is_added a ∨ is_answer a) g g' ∧ (∀ p, p ∈ unanswered (trace g) → p ∈ resuming g') ∧
    unanswered (trace g') = ∅ ∧ resuming g ⊆ resuming g').
Proof.
  intros Hi Hcl. unfold stop. apply wp_bind, wp_gets. destruct (attached g) eqn:Ea; cbn [negb].
  2: { apply wp_ret. destruct (Hcl Ea) as [Hp He]. split; [done|]. split; [done|].
       destruct Hi as [I1 I2 I3]. rewrite Hp, He in I1. rewrite I2, Hp. unfold reported in I1. split_and!; try done; try apply gate_extends_refl; set_solver. }
  apply wp_bind, wp_modify, wp_bind.
  wp_call process_pending_events_inv; [by destruct Hi|]. intros _ g' ([I1 I2 I3] & E1 & E2 & (l & El & Hl) & E3).
  apply wp_bind, wp_gets, wp_bind. wp_call release_spec. intros _ g2 (F1 & F2 & F3 & F4 & (l2 & El2 & Hl2) & F5 & F6).
  rewrite E3 in I1. unfold reported in I1. cbn in I1, El, E2.
  assert (announced (trace g2) = ∅) as Hn.
  { apply map_empty. intros p. apply F6. destruct (announced (trace g') !! p) as [s|] eqn:Ep; [left|by right].
    rewrite I2 in Ep. by eapply pending_listed. }
  assert (Hu : ∀ p, p ∈ unanswered (trace g') → p ∈ (map_to_list (pending_spawn g')).*1).
  { intros p Hp. apply I1 in Hp. rewrite union_empty_r_L in Hp. apply elem_of_dom in Hp as [s Hp]. by eapply pending_listed. }
  assert (Hz : unanswered (trace g2) = ∅).
  { apply leibniz_equiv, elem_of_equiv_empty. intros p. rewrite F5, elem_of_difference, elem_of_list_to_set. intros [Hp Hne]. by apply Hne, Hu. }
  apply wp_modify. cbn. rewrite F1, F2, Hn, E1, E3, Hz. split; [|split_and!; try done].
  - split; cbn; [rewrite Hz; set_solver|done|by rewrite F1, E3].
  - exists (l ++ l2). cbn. rewrite El2, El, app_assoc. split; [done|]. apply Forall_app. split; (eapply Forall_impl; [done|]); naive_solver.
  - intros p Hp. rewrite F4. apply elem_of_app. right. apply Hu. by rewrite El, unanswered_added.
  - rewrite F4, E2. set_solver.
Qed.

(** The resumptions that were begun are run: what becomes of the processes. *)
Definition is_outcome (a : act) : Prop := match a with Resume _ | ResumeFailed _ => True | _ => False end.
Lemma perform_resume_spec pid g :
  wp (perform_resume pid) g (λ _ g', ∃ a k, (a = Resume pid ∨ a = ResumeFailed pid) ∧
    g' = mk_gate k (events g) (attached g) (pending_spawn g) (resuming g) (trace g ++ [a])).
Proof.
  unfold perform_resume, g_call. apply wp_bind. unfold wp at 1. destruct (g_helper_resume pid (g_kern g)) as [reply k].
  eexists _, _. split; [done|]. destruct reply; [apply wp_modify; eauto| |apply wp_modify; eauto].
  apply wp_bind. unfold wp at 1. cbn [g_kern]. destruct (g_kill_cont pid k) as [sent k2].
  eexists _, _. split; [done|]. apply wp_modify. cbn. destruct sent; eauto 10.
Qed.
Lemma run_resumes_spec pids g :
  wp (run_resumes pids) g (λ _ g', ∃ l, trace g' = trace g ++ l ∧ resuming g' = [] ∧
    ∀ p, p ∈ held (trace g') → p ∈ held (trace g) ∧ (p ∈ pids → ResumeFailed p ∈ l)).
Proof.
  revert g. induction pids as [|pid pids IH]; intros g; cbn [run_resumes].
  { apply wp_modify. exists []. cbn. rewrite app_nil_r. split_and!; [done|done|]. intros p Hp. split; [done|by intros ?%elem_of_nil]. }
  apply wp_bind. wp_call perform_resume_spec. intros _ g1 (a & k & Ha & ->). wp_call IH. cbn. intros _ g' (l & El & Er & Hh).
  exists (a :: l). rewrite El, <- app_assoc. split_and!; [done|done|]. intros p Hp. rewrite app_assoc, <- El in Hp.
  destruct (Hh p Hp) as [Hp1 Hf]. rewrite held_snoc in Hp1. split; [by destruct Ha as [-> | ->]; set_solver|].
  destruct (decide (p ∈ pids)) as [Hin|Hin]; [intros _; right; by apply Hf|]. intros [->|Hx]%elem_of_cons; [|done].
  destruct Ha as [-> | ->]; [set_solver|by left].
Qed.

(** ** Runs
    The state and the processes that were reported by the program and will be sent
    SIGSTOP by it. *)
Inductive gate_step : G * list Z → G * list Z → Prop :=
| step_report c id args r g g' stopping :
    gate_context c → attached g = true → s32 id = EXECVE →
    report_execve c args g = Ret (r, g') →
    gate_step (g, stopping) (g', if r : bool then stopping ++ [pid_tgid c ≫ 32] else stopping)
| step_signal pid l1 l2 g g' :
    see (Stop pid) g = Ret (tt, g') → gate_step (g, l1 ++ pid :: l2) (g', l1 ++ l2)
| step_start g g' stopping : start g = Ret (tt, g') → gate_step (g, stopping) (g', stopping)
| step_drain g g' stopping :
    attached g = true → process_pending_events g = Ret (tt, g') → gate_step (g, stopping) (g', stopping)
| step_resume pid r g g' stopping : try_resume pid g = Ret (r, g') → gate_step (g, stopping) (g', stopping)
| step_resumed pid l1 l2 g g' stopping :
    resuming g = l1 ++ pid :: l2 → perform_resume pid (set_resuming (l1 ++ l2) g) = Ret (tt, g') →
    gate_step (g, stopping) (g', stopping)
| step_stop g g' stopping : stop g = Ret (tt, g') → gate_step (g, stopping) (g', stopping).

(** The program's run is such steps, with nothing in between. *)
Lemma on_execve_enter_steps c id args g g' stopping :
  gate_context c → attached g = true → on_execve_enter EXECVE c id args g = Ret (tt, g') →
  rtc gate_step (g, stopping) (g', stopping).
Proof.
  intros Hc Ha. unfold on_execve_enter. destruct (Z.eqb_spec (s32 id) EXECVE) as [Eid|]; cbn [negb]; [|by intros [= <-]].
  unfold bind. destruct (report_execve c args g) as [[r g1]| | |] eqn:E; try done. pose proof (step_report c id args r g g1 stopping Hc Ha Eid E) as Hs.
  destruct r; intros E2; [|injection E2 as <-; by apply rtc_once]. eapply rtc_l; [exact Hs|]. apply rtc_once.
  pose proof (step_signal (pid_tgid c ≫ 32) stopping [] g1 g' E2) as Hs2. by rewrite app_nil_r in Hs2.
Qed.

(** A gate that was just created. *)
Definition new_gate (k : K) : G := mk_gate k [] false ∅ [] [].
(** Only processes that were reported are stopped. *)
Definition stopped_were_reported g (stopping : list Z) : Prop :=
  ∀ p, p ∈ held (trace g) ∨ p ∈ stopping → Reported p ∈ trace g.
Definition system_inv (x : G * list Z) : Prop := gate_inv x.1 ∧ closed_inv x.1 ∧ stopped_were_reported x.1 x.2.
Lemma new_gate_inv k : system_inv (new_gate k, []).
Proof. split_and!; [|done|]. { split; [|done|done]. apply empty_subseteq. } intros p [Hp|Hp]; [by apply elem_of_empty in Hp|by apply elem_of_nil in Hp]. Qed.

Lemma held_others l l' : Forall (λ a, ∀ p, a ≠ Stop p) l' → held (l ++ l') ⊆ held l.
Proof.
  induction l' as [|a l' IH] using rev_ind; intros Hl; [by rewrite app_nil_r|]. apply Forall_app in Hl as [Hl Ha].
  rewrite Forall_singleton in Ha. rewrite app_assoc, held_snoc. specialize (IH Hl). destruct a as [| p | | | | |]; try done; [by destruct (Ha p)|set_solver].
Qed.
Lemma were_reported_extends g g' stopping (P : act → Prop) :
  (∀ a, P a → ∀ p, a ≠ Stop p) → extends P g g' → stopped_were_reported g stopping → stopped_were_reported g' stopping.
Proof.
  intros HP (l & E & Hl) Hs p Hp. rewrite E. apply elem_of_app. left. apply Hs. destruct Hp as [Hp|Hp]; [left|by right].
  rewrite E in Hp. eapply held_others; [|exact Hp]. eapply Forall_impl; [exact Hl|]. exact HP.
Qed.
Lemma gate_step_inv x y : gate_step x y → system_inv x → system_inv y.
Proof.
  intros Hs (Hi & Hcl & Hw). destruct Hs as [c id args r g g' st Hc Ha Eid E|pid l1 l2 g g' E|g g' st E|g g' st Ha E|pid r g g' st E|pid l1 l2 g g' st Er E|g g' st E]; cbn in *.
  - destruct (report_execve_inv c args g r g' Hc Hi E) as (Hi' & Ha' & Et). split_and!; cbn; [done|unfold closed_inv; congruence|].
    intros p Hp. rewrite Et. apply elem_of_app. destruct r.
    + destruct (decide (p = pid_tgid c ≫ 32)) as [->|Hne]; [right; by left|left]. apply Hw.
      rewrite Et, held_snoc in Hp. set_solver.
    + left. apply Hw. by rewrite Et, app_nil_r in Hp.
  - injection E as <-. destruct Hi as [I1 I2 I3]. split_and!; cbn.
    + split; cbn; [by rewrite unanswered_snoc|by rewrite announced_snoc|done].
    + done.
    + intros p Hp. cbn. apply elem_of_app. left. apply Hw. cbn in Hp. rewrite held_snoc in Hp. set_solver.
  - unfold start, bind, gets, c_assert, modify in E. destruct (attached g) eqn:Ea; [done|].
    injection E as <-. destruct (Hcl Ea) as [Hp He]. split_and!; [|done|done].
    destruct Hi as [I1 I2 I3]. rewrite He in I1. by split.
  - destruct (wp_frame_eq _ _ _ _ _ (process_pending_events_inv g Hi) E) as (Hi' & Ha' & _ & Hx & _).
    split_and!; cbn; [done|unfold closed_inv; congruence|]. eapply were_reported_extends; [|exact Hx|done]. by intros [].
  - destruct (wp_frame_eq _ _ _ _ _ (try_resume_inv pid g Hi) E) as (Hi' & Ha' & He' & Hx & Hn).
    split_and!; cbn; [done| |eapply were_reported_extends; [|exact Hx|done]; naive_solver].
    intros Hf. rewrite Ha' in Hf. pose proof (Hcl Hf) as [Hp He]. rewrite Hn by (rewrite Hp; set_solver). done.
  - destruct (wp_frame_eq _ _ _ _ _ (perform_resume_spec pid _) E) as (a & k & Ha & ->). destruct Hi as [I1 I2 I3]. split_and!; cbn.
    + split; cbn; [rewrite unanswered_snoc|rewrite announced_snoc|done]; by destruct Ha as [-> | ->].
    + done.
    + apply (were_reported_extends g _ _ (λ b, b = a)); [|exists [a]; split; [done|by apply Forall_singleton]|done].
      intros b -> p. by destruct Ha as [-> | ->].
  - destruct (wp_frame_eq _ _ _ _ _ (stop_spec g Hi Hcl) E) as (Hi' & Ha & Hn & Hp & He & Hx & _).
    split_and!; cbn; [done|done|]. eapply were_reported_extends; [|exact Hx|done]. intros [] [Hb|Hb]; done.
Qed.
Lemma gate_reachable k x : rtc gate_step (new_gate k, []) x → system_inv x.
Proof.
  intros Hr. pose proof (new_gate_inv k) as Hi. induction Hr as [|x1 x2 x3 Hs _ IH]; [done|]. by apply IH, (gate_step_inv x1).
Qed.

(** A process that was reported is unanswered, or its resumption was begun since. *)
Definition answered (pid : Z) (l : list act) : Prop := ∃ l1 l2, l = l1 ++ ResumeBegun pid :: l2 ∧ Reported pid ∉ l2.
Lemma reported_answered pid l : Reported pid ∈ l → pid ∈ unanswered l ∨ answered pid l.
Proof.
  induction l as [|a l IH] using rev_ind; intros Hp; [by apply elem_of_nil in Hp|]. rewrite unanswered_snoc.
  apply elem_of_app in Hp as [Hp|Hp%list_elem_of_singleton]; [|subst a; left; set_solver].
  destruct (decide (a = Reported pid)) as [->|Hne]; [left; set_solver|].
  destruct (decide (a = ResumeBegun pid)) as [->|Hne2]; [right; exists l, []; split; [done|by apply not_elem_of_nil]|].
  destruct (IH Hp) as [Hu|(l1 & l2 & -> & Hl)].
  - left. destruct a; try done; set_solver.
  - right. exists l1, (l2 ++ [a]). split; [by rewrite <- app_assoc|]. rewrite elem_of_app, list_elem_of_singleton. intros [?|?]; congruence.
Qed.
End correct.

(** A ring that always has room, and a helper that does not know the processes. *)
#[export] Instance roomy_ring : RingKernel unit := {|
  g_reserve n k := (if n <? 0 then None else Some (replicate (Z.to_nat n) 170), k);
  g_helper_resume _ k := (HelperInvalidArgument, k);
  g_kill_cont _ k := (true, k)
|}.
#[export] Instance roomy_laws : RingLaws unit.
Proof.
  split. cbn. intros n k b k'. destruct (Z.ltb_spec n 0); intros [= <-].
  unfold zlen. rewrite length_replicate. lia.
Qed.
(** The tasks of [task], with failed reads that clear their destination. *)
Definition clearing (c : context) : context :=
  mk_context (pid_tgid c) (uid_gid c) (thread_flags c) (cpu c) (read_user c)
    (λ a old, if (read_user_str c a old).1 <? 0 then (-14, zeros (zlen old)) else read_user_str c a old)
    (read_kernel_str c) (vm_file c) (vm_start c) (vm_end c) (vm_pgoff c) (vm_flags c) (f_inode c)
    (i_sb_s_dev c) (i_ino c) (f_path_dentry c) (f_path_mnt c) (offsetof_mnt c) (mnt_root c)
    (mnt_parent c) (mnt_mountpoint c) (d_parent c) (d_name_name c).
Lemma clearing_context c (L : context_laws c) : 0 ≤ pid_tgid c < 2 ^ 64 → gate_context (clearing c).
Proof.
  intros Ht. split; [done| |]; intros a old; cbn.
  all: destruct (str_at L a (zlen old)) as [s|] eqn:E;
    [rewrite (read_str_ok _ L a old s E)|destruct (read_str_fails _ L a old E) as [Hn Hl]]; cbn [fst snd].
  - zlen_facts. rewrite (proj2 (Z.ltb_ge _ 0)) by lia. cbn [snd].
    pose proof (proj2 (str_at_ok _ L _ _ _ E)). rewrite zlen_app, zlen_cons, zlen_zdrop. lia.
  - rewrite (proj2 (Z.ltb_lt _ 0)) by lia. cbn [snd]. apply zlen_zeros, zlen_nonneg.
  - intros _. zlen_facts. rewrite (proj2 (Z.ltb_ge _ 0)) by lia. cbn [snd].
    rewrite c_string_app; [done|]. apply (proj1 (str_at_ok _ L _ _ _ E)).
  - intros Ho. rewrite (proj2 (Z.ltb_lt _ 0)) by lia. cbn [snd]. unfold zeros.
    destruct (Z.to_nat (zlen old)) eqn:E2; [lia|done].
Qed.

(** The program behind the gate reports an execve(2) and stops the process, and
    when the host has read the ring the process is pending under the name of the
    program it was about to run, is announced to the clients, and waits. *)
Theorem execve_gated {K} `{RingLaws K} EXECVE c id args (g : gate K) s b k :
  gate_context c → gate_inv g → s32 id = EXECVE →
  g_reserve sizeof_ExecveEvent (g_kern g) = (Some b, k) →
  0 ∉ s → (∀ old, zlen old = MAX_FILENAME →
    (read_user_str c (znth args 0) old).2 = s ++ 0 :: zdrop (zlen s + 1) old) →
  wp (do! on_execve_enter EXECVE c id args in process_pending_events) g (λ _ g',
    pending_spawn g' !! (pid_tgid c ≫ 32) = Some s ∧
    announced (trace g') !! (pid_tgid c ≫ 32) = Some s ∧
    pid_tgid c ≫ 32 ∈ held (trace g')).
Proof.
  intros Hc Hi Hid Hr Hs Hread. unfold on_execve_enter. rewrite Hid, Z.eqb_refl. cbn [negb].
  apply wp_bind, wp_bind.
  destruct (report_execve_succeeds c args g b k Hc Hr) as (k1 & e & ([Hl _] & Hp & old & Ho & Hcmd) & E).
  eexists _, _. split; [exact E|]. cbn iota.
  apply wp_modify. unfold process_pending_events. apply wp_bind, wp_gets, wp_bind. cbn [events].
  apply handle_events_app. destruct Hi as [I1 I2 I3].
  wp_call handle_events_spec; [done|by cbn; rewrite !announced_snoc|].
  intros _ g2 (_ & _ & (l & El & Hadd) & Hn & _). cbn [handle_events].
  apply wp_bind, wp_assert; [by apply Z.eqb_eq|]. apply wp_bind. unfold handle_event.
  rewrite Hcmd, (Hread old Ho), c_string_app by done. apply wp_bind, wp_modify, wp_modify, wp_ret, wp_modify.
  cbn. fold (event_pid e). rewrite Hp, announced_snoc, held_snoc, El, held_added by done. cbn. rewrite held_snoc.
  split; [apply lookup_insert_eq|]. split; [apply lookup_insert_eq|]. set_solver.
Qed.
Definition ls_call : list Z := [4096; 0; 0; 0; 0; 0].
Definition open_gate : gate unit := mk_gate tt [] true ∅ [] [].
Lemma open_gate_inv : gate_inv open_gate.
Proof. by split. Qed.
Lemma execve_gated_witness :
  wp (do! on_execve_enter 59 (clearing (task 50 0 12)) 59 ls_call in process_pending_events) open_gate
    (λ _ g', pending_spawn g' !! 50 = Some (bytes_of "/etc/hosts") ∧
             announced (trace g') !! 50 = Some (bytes_of "/etc/hosts") ∧ 50 ∈ held (trace g')).
Proof.
  apply (execve_gated 59 (clearing (task 50 0 12)) 59 ls_call open_gate (bytes_of "/etc/hosts")
    (replicate 260 170) tt).
  - apply (clearing_context _ (task_laws 50 0 12)). done.
  - apply open_gate_inv.
  - done.
  - vm_compute. reflexivity.
  - cbn. set_solver.
  - intros old Ho. cbn. unfold copy_str, find_str. rewrite Ho. cbn. done.
Defined.

(** C37: In every state that can be reached, whatever the order of records, signals and
    the host's work, a process that waits at the gate is in the host's table or reported
    in the ring, so that a client can resume it or is about to be told of it, unless the
    host began to resume it after its last report: the resumption is then on its way,
    has failed, or came before the signal ([resume_before_stop]).  The table is what the
    signals announced to clients. *)
Theorem waiting_processes_known {K} `{RingLaws K} EXECVE k (g : gate K) stopping pid :
  rtc (gate_step EXECVE) (new_gate k, []) (g, stopping) → pid ∈ held (trace g) →
  (pid ∈ dom (pending_spawn g) ∨ pid ∈ reported (events g) ∨ answered pid (trace g)) ∧
  announced (trace g) = pending_spawn g.
Proof.
  intros Hr Hp. destruct (gate_reachable EXECVE k _ Hr) as ([I1 I2 _] & _ & Hw). cbn in *.
  split; [|done]. destruct (reported_answered pid (trace g)) as [Hu|Ha]; [apply Hw; by left| |auto]. apply I1 in Hu. set_solver.
Qed.
Definition started_gate : gate unit := mk_gate tt [] true ∅ [] [].
Definition gated : gate unit :=
  match on_execve_enter 59 (clearing (task 50 0 12)) 59 ls_call started_gate with
  | Ret (_, g) => g | _ => started_gate end.
Lemma gated_reachable : rtc (gate_step 59) (new_gate tt, []) (gated, []).
Proof.
  apply (rtc_l _ _ (started_gate, [])); [by apply step_start|].
  eapply (rtc_l _ _ (_, [50])).
  - apply (step_report _ (clearing (task 50 0 12)) 59 ls_call true _ _ []); [|done|done|vm_compute; reflexivity].
    apply (clearing_context _ (task_laws 50 0 12)). done.
  - apply rtc_once. apply (step_signal _ 50 [] []). vm_compute. reflexivity.
Qed.
Lemma waiting_processes_known_witness : 50 ∈ dom (pending_spawn gated) ∨ 50 ∈ reported (events gated) ∨ answered 50 (trace gated).
Proof.
  apply (waiting_processes_known 59 tt gated [] 50 gated_reachable).
  assert (trace gated = [Reported 50; Stop 50]) as -> by (vm_compute; reflexivity). set_solver.
Defined.

(** C19: Closing the gate answers everybody.  From every state that can be reached [stop]
    returns, also with unread records in the ring; no process is pending and nothing is in
    the ring, and the clients have been told.  When the resumptions that were begun have
    run, every process that the host had not answered before goes on, unless its own
    resumption failed; a process can still wait if the host had answered its last report
    before the gate was closed. *)
Theorem stop_releases_all {K} `{RingLaws K} EXECVE k (g : gate K) stopping :
  rtc (gate_step EXECVE) (new_gate k, []) (g, stopping) →
  ∃ g', stop g = Ret (tt, g') ∧ attached g' = false ∧ pending_spawn g' = ∅ ∧ events g' = [] ∧ announced (trace g') = ∅ ∧
    wp (run_resumes (resuming g')) g' (λ _ g'', ∃ l, trace g'' = trace g' ++ l ∧
      ∀ pid, pid ∈ held (trace g'') → ResumeFailed pid ∈ l ∨ answered pid (trace g)).
Proof.
  intros Hr. destruct (gate_reachable EXECVE k _ Hr) as (Hi & Hcl & Hw). cbn in *.
  destruct (stop_spec g Hi Hcl) as ([] & g' & E & _ & Ha & Hn & Hp & He & Hx & Hu & _). exists g'. split_and!; [done..|].
  wp_call run_resumes_spec. intros _ g2 (l & El & _ & Hh). exists l. split; [done|]. intros pid Hpid. destruct (Hh pid Hpid) as [Hheld Hf].
  destruct (reported_answered pid (trace g)) as [Hun|Han]; [|left; by apply Hf, Hu|by right].
  apply Hw. left. destruct Hx as (lx & Ex & Hl). rewrite Ex in Hheld. eapply held_others; [|exact Hheld].
  eapply Forall_impl; [exact Hl|]. by intros [] [Hb|Hb].
Qed.
Lemma stop_releases_all_witness :
  ∃ g', stop gated = Ret (tt, g') ∧ pending_spawn g' = ∅ ∧
    wp (run_resumes (resuming g')) g' (λ _ g'', ∃ l, trace g'' = trace g' ++ l ∧
      ∀ pid, pid ∈ held (trace g'') → ResumeFailed pid ∈ l ∨ answered pid (trace gated)).
Proof.
  destruct (stop_releases_all 59 tt gated [] gated_reachable) as (g' & E & _ & Hp & _ & _ & Hw). by exists g'.
Defined.

(** The record is submitted before the signal is sent, and the host may run in
    between.  If it then reads the ring and a client resumes the process, the
    process is stopped after it was resumed: it waits, but is neither pending nor
    reported, and no client can resume it. *)
Theorem resume_before_stop {K} `{RingLaws K} c args (g : gate K) b k :
  gate_context c → gate_inv g → g_reserve sizeof_ExecveEvent (g_kern g) = (Some b, k) →
  let pid := pid_tgid c ≫ 32 in
  wp (do! report_execve c args in do! process_pending_events in
      do! try_resume pid in do! perform_resume pid in do! see (Stop pid) in try_resume pid) g
    (λ r g', r = false ∧ pid ∈ held (trace g') ∧ pending_spawn g' !! pid = None ∧ events g' = []).
Proof.
  intros Hc Hi Hr pid. apply wp_bind.
  destruct (report_execve_succeeds c args g b k Hc Hr) as (k1 & e & (He & Hp & _) & E).
  eexists _, _. split; [exact E|]. clear E. cbn iota. destruct Hi as [I1 I2 I3].
  apply wp_bind. unfold process_pending_events. apply wp_bind, wp_gets, wp_bind.
  wp_call handle_events_spec; [|by cbn; rewrite announced_snoc|].
  { cbn [events]. apply Forall_app. split; [done|by apply Forall_singleton]. }
  intros _ g2 (_ & _ & _ & _ & Hd). apply wp_modify.
  assert (pid ∈ dom (pending_spawn g2)) as [s Hs]%elem_of_dom.
  { rewrite Hd. unfold reported. cbn [events]. rewrite fmap_app, list_to_set_app_L. cbn.
    rewrite Hp. set_solver. }
  apply wp_bind. unfold try_resume at 1. apply wp_bind, wp_gets. cbn [pending_spawn set_events]. rewrite Hs.
  apply wp_bind, wp_modify, wp_bind, wp_modify, wp_bind, wp_bind, wp_modify, wp_modify, wp_ret.
  apply wp_bind. eapply wp_mono; [apply perform_resume_spec|]. cbn beta. intros _ g3 (a & k3 & _ & ->). apply wp_bind, wp_modify.
  unfold try_resume. apply wp_bind, wp_gets. cbn. rewrite lookup_delete_eq. apply wp_ret.
  split; [done|]. split; [|split; [apply lookup_delete_eq|done]]. cbn. rewrite held_snoc.
  by apply elem_of_union_l, elem_of_singleton.
Qed.
Lemma resume_before_stop_witness :
  wp (do! report_execve (clearing (task 50 0 12)) ls_call in do! process_pending_events in
      do! try_resume 50 in do! perform_resume 50 in do! see (Stop 50) in try_resume 50) open_gate
    (λ r g', r = false ∧ 50 ∈ held (trace g') ∧ pending_spawn g' !! 50 = None ∧ events g' = []).
Proof.
  apply (resume_before_stop (clearing (task 50 0 12)) ls_call open_gate (replicate 260 170) tt).
  - apply (clearing_context _ (task_laws 50 0 12)). done.
  - apply open_gate_inv.
  - vm_compute. reflexivity.
Defined.
