(* ===== verification/ActivitySampler.v ===== *)
(** The sampler of user stacks: src/src/linux/helpers/activity-sampler.bpf.c, run
    on every tick of the processors' clocks, and the decoding of its samples in
    src/src/linux/activity-sampler.vala. *)
From S2P Require Import Prelude Posix Records Tracer TracerCorrect TracerDemo.

Definition MAX_DEPTH : Z := 16.
(** SampleEvent: time_ns, tgid, tid, stack_err, depth and ips. *)
Definition SampleEvent_members : list (Z * Z) := [(8, 8); (4, 4); (4, 4); (4, 4); (4, 4); (128, 8)].
Definition so_time_ns : Z := 0.
Definition so_tgid : Z := 8.
Definition so_tid : Z := 12.
Definition so_stack_err : Z := 16.
Definition so_depth : Z := 20.
Definition so_ips : Z := 24.
Definition sizeof_ips : Z := 128.
Definition sizeof_SampleEvent : Z := 152.
Lemma SampleEvent_layout :
  c_layout SampleEvent_members =
    ([so_time_ns; so_tgid; so_tid; so_stack_err; so_depth; so_ips], sizeof_SampleEvent) ∧
  sizeof_ips = 8 * MAX_DEPTH.
Proof. done. Qed.

(** [get_stack old] is bpf_get_stack: result and new contents of the buffer. *)
Class SamplerKernel (K : Type) := {
  sk_time : K → Z * K;
  sk_reserve : Z → K → option (list Z) * K;
  sk_stack : list Z → K → (Z * list Z) * K
}.
(** A stack of [ips] was written, innermost frame first, as much of it as fits, or
    an error was returned. *)
Class SamplerLaws (K : Type) `{SamplerKernel K} := {
  sk_reserve_size n k b k' : sk_reserve n k = (Some b, k') → zlen b = n;
  sk_stack_ok old k n new k' : sk_stack old k = ((n, new), k') →
    zlen new = zlen old ∧ (- 2 ^ 31 ≤ n < 0 ∨ ∃ ips, n = 8 * zlen ips ∧ n ≤ zlen old ∧
      Forall (λ ip, 0 ≤ ip < 2 ^ 64) ips ∧ ztake n new = concat (le_bytes 8 <$> ips))
}.

Record sampler (K : Type) := mk_sampler {
  s_kern : K;
  target_tgid : list Z;
  samples : list (list Z)
}.
Arguments mk_sampler {K} _ _ _.
Arguments s_kern {K} _.
Arguments target_tgid {K} _.
Arguments samples {K} _.

Section program.
Context {K : Type} `{SamplerKernel K}.
Notation S := (sampler K).

Definition sk_call {A} (f : K → A * K) : M S A := λ s,
  match f (s_kern s) with (a, k) => Ret (a, mk_sampler k (target_tgid s) (samples s)) end.
Definition submit_sample (e : list Z) : M S unit :=
  modify (λ s, mk_sampler (s_kern s) (target_tgid s) (samples s ++ [e])).

Definition on_perf_event (c : context) : M S unit :=
  let! target := gets (λ s, target_tgid s !! 0%nat) in
  match target with
  | None => ret tt
  | Some target =>
      let tid := u32 (pid_tgid c) in
      let tgid := pid_tgid c ≫ 32 in
      if negb (tgid =? target) then ret tt
      else
        let! e := sk_call (sk_reserve sizeof_SampleEvent) in
        match e with
        | None => ret tt
        | Some e =>
            let! now := sk_call sk_time in
            let! e := put64 so_time_ns now e in
            let! e := put32 so_tgid tgid e in
            let! e := put32 so_tid tid e in
            let! old := load so_ips sizeof_ips e in
            let! r := sk_call (sk_stack old) in
            let! e := store so_ips r.2 e in
            let nbytes := r.1 in
            if nbytes <? 0 then
              let! e := put32 so_stack_err nbytes e in
              let! e := put32 so_depth 0 e in
              submit_sample e
            else
              let! e := put32 so_stack_err 0 e in
              let! e := put32 so_depth (nbytes / 8) e in
              submit_sample e
        end
  end.
End program.

(** ** The reader *)
Record sample := mk_sample {
  sm_tgid : Z; sm_tid : Z; sm_time : Z; sm_stack_err : Z; sm_ips : list Z
}.
(** handle_sample shows [depth] frames; a frame outside of the payload is read from
    memory that is not there. *)
Definition read_sample {S} (payload : list Z) : M S sample :=
  do! c_assert (zlen payload =? sizeof_SampleEvent) in
  let depth := fld 4 so_depth payload in
  if MAX_DEPTH <? depth then crash
  else
    ret (mk_sample (fld 4 so_tgid payload) (fld 4 so_tid payload) (fld 8 so_time_ns payload)
           (sfld32 so_stack_err payload)
           ((λ i, fld 8 (so_ips + 8 * Z.of_nat i) payload) <$> seq 0 (Z.to_nat depth))).

(** ** Correctness *)
Lemma words_at (ips : list Z) (b : list Z) o :
  Forall (λ ip, 0 ≤ ip < 2 ^ 64) ips → 0 ≤ o → zslice o (o + 8 * zlen ips) b = concat (le_bytes 8 <$> ips) →
  (λ i, fld 8 (o + 8 * Z.of_nat i) b) <$> seq 0 (length ips) = ips.
Proof.
  revert o. induction ips as [|ip ips IH]; intros o Hf Ho Hb; [done|].
  apply Forall_cons in Hf as [Hip Hf]. rewrite zlen_cons in Hb. zlen_facts.
  rewrite (zslice_split o (o + 8) _) in Hb by lia. cbn [fmap list_fmap concat] in Hb.
  assert (zlen (zslice o (o + 8) b) = 8) as H8.
  { apply (f_equal zlen) in Hb. rewrite !zlen_app, zlen_le_bytes in Hb by done.
    rewrite !zlen_zslice in Hb. rewrite zlen_zslice. zlen_facts. lia. }
  apply app_inj_1 in Hb as [Hb1 Hb2].
  2: { unfold zlen in H8. pose proof (zlen_le_bytes 8 ip ltac:(done)) as Hle. unfold zlen in Hle. lia. }
  cbn [length seq fmap list_fmap]. f_equal.
  - rewrite Z.add_0_r. unfold fld. rewrite Hb1. by apply le_value_small.
  - rewrite <- (fmap_S_seq 0 (length ips)), <- list_fmap_compose.
    rewrite <- (IH (o + 8) Hf ltac:(lia)) at 2.
    + apply list_fmap_ext. intros i x _. cbn. f_equal. lia.
    + rewrite <- Hb2. f_equal. lia.
Qed.

(** What a sample shows of the stack the kernel returned. *)
Definition shows_stack (n : Z) (new : list Z) (err : Z) (ips : list Z) : Prop :=
  if n <? 0 then err = n ∧ ips = [] else err = 0 ∧ ztake n new = concat (le_bytes 8 <$> ips).

Section correct.
Context {K : Type} `{SamplerLaws K}.
Implicit Types s : sampler K.

(** The record once the stack is in it. *)
Definition sample_ok (c : context) (now n : Z) (new : list Z) (b : list Z) : Prop :=
  ∃ ips, zlen b = sizeof_SampleEvent ∧ fld 8 so_time_ns b = now mod 2 ^ 64 ∧
    fld 4 so_tgid b = (pid_tgid c ≫ 32) mod 2 ^ 32 ∧ fld 4 so_tid b = u32 (pid_tgid c) mod 2 ^ 32 ∧
    shows_stack n new (sfld32 so_stack_err b) ips ∧ fld 4 so_depth b = zlen ips ∧ zlen ips ≤ MAX_DEPTH ∧
    (λ i, fld 8 (so_ips + 8 * Z.of_nat i) b) <$> seq 0 (length ips) = ips.

Lemma on_perf_event_spec c s b0 k1 now k2 :
  target_tgid s !! 0%nat = Some (pid_tgid c ≫ 32) →
  sk_reserve sizeof_SampleEvent (s_kern s) = (Some b0, k1) → sk_time k1 = (now, k2) →
  wp (on_perf_event c) s (λ _ s', ∃ old n new k3 b,
    sk_stack old k2 = ((n, new), k3) ∧ zlen old = sizeof_ips ∧ sample_ok c now n new b ∧
    s' = mk_sampler k3 (target_tgid s) (samples s ++ [b])).
Proof.
  intros Ht Hr Hn. pose proof (sk_reserve_size _ _ _ _ Hr) as Hb.
  unfold on_perf_event. apply wp_bind, wp_gets. rewrite Ht, Z.eqb_refl. cbn [negb].
  apply wp_bind. eexists _, _. unfold sk_call at 1. rewrite Hr. split; [done|].
  apply wp_bind. eexists _, _. unfold sk_call at 1. cbn [s_kern]. rewrite Hn. split; [done|].
  unfold sizeof_SampleEvent, so_time_ns, so_tgid, so_tid, so_ips, sizeof_ips, so_stack_err, so_depth in *.
  put_step. put_step. put_step.
  apply wp_bind, wp_load; [lia..|]. set (old := zslice 24 (24 + 128) b2).
  assert (zlen old = 128) as Hold by (subst old; rewrite zlen_zslice; lia).
  destruct (sk_stack old k2) as [[n new] k3] eqn:Es.
  destruct (sk_stack_ok _ _ _ _ _ Es) as [Hnew Hst]. rewrite Hold in Hnew.
  apply wp_bind. eexists _, _. unfold sk_call at 1. cbn [s_kern]. rewrite Es. split; [done|]. cbn [fst snd].
  apply wp_bind, wp_store; [lia|lia|].
  pose proof (zslice_zwrite 24 new b2 ltac:(lia) ltac:(lia)) as Hnewat.
  pose proof (same_outside_zwrite 24 new b2 ltac:(lia) ltac:(lia)) as Fw.
  rewrite Hnew in Hnewat, Fw. set (e := zwrite 24 new b2) in *. pose proof (proj1 Fw).
  destruct (Z.ltb_spec n 0) as [Hneg|Hpos]; put_step; put_step; apply wp_modify; exists old, n, new, k3, b4;
    (split; [done|]); (split; [done|]); (split; [|done]).
  - exists []. unfold sizeof_SampleEvent, so_time_ns, so_tgid, so_tid, so_ips, so_stack_err, so_depth, sfld32.
    do 4 (split; [fld_solve|]). split; [|done]. fld_solve.
    unfold shows_stack. rewrite (proj2 (Z.ltb_lt n 0) Hneg). split; [|done].
    apply s32_of_u32. destruct Hst as [?|(? & ? & _)]; zlen_facts; lia.
  - destruct Hst as [?|(ips & -> & Hle & Hf & Hips)]; [lia|].
    exists ips. unfold sizeof_SampleEvent, so_time_ns, so_tgid, so_tid, so_ips, so_stack_err, so_depth, sfld32, MAX_DEPTH.
    do 4 (split; [fld_solve|]). rewrite Z.mul_comm, Z.div_mul in V3 by done.
    split; [|split; [|split; [lia|]]].
    + fld_solve. unfold shows_stack. by rewrite (proj2 (Z.ltb_ge _ 0) Hpos).
    + rewrite V3. apply Z.mod_small. zlen_facts. lia.
    + apply words_at; [done|done|]. fld_solve.
      rewrite <- Hips, <- Hnewat, zslice_take by lia. done.
Qed.
End correct.

(** Every tick that finds the sampled process running, with room in the ring,
    adds one sample, and the host reads from it the process, the thread, the time
    and the stack: the frames the kernel wrote, sixteen at most, or none and the
    kernel's error.  A tick in any other process changes nothing. *)
Theorem sample_read_back {K} `{SamplerLaws K} c (s : sampler K) target b0 k1 now k2 :
  target_tgid s !! 0%nat = Some target → 0 ≤ pid_tgid c < 2 ^ 64 →
  sk_reserve sizeof_SampleEvent (s_kern s) = (Some b0, k1) → sk_time k1 = (now, k2) →
  if pid_tgid c ≫ 32 =? target then
    wp (on_perf_event c) s (λ _ s', ∃ old n new k3 b err ips,
      sk_stack old k2 = ((n, new), k3) ∧ zlen old = sizeof_ips ∧ shows_stack n new err ips ∧
      s' = mk_sampler k3 (target_tgid s) (samples s ++ [b]) ∧
      read_sample b tt =
        Ret (mk_sample target (u32 (pid_tgid c)) (u64 now) err ips, tt))
  else on_perf_event c s = Ret (tt, s).
Proof.
  intros Ht Hp Hr Hn. destruct (Z.eqb_spec (pid_tgid c ≫ 32) target) as [E|E].
  2: { unfold on_perf_event, bind, gets. rewrite Ht. by rewrite (proj2 (Z.eqb_neq _ _) E). }
  rewrite <- E in Ht. wp_call on_perf_event_spec; [done..|].
  intros _ s' (old & n & new & k3 & b & Es & Ho & (ips & Hl & T1 & T2 & T3 & Hst & Hd & Hm & Hips) & ->).
  exists old, n, new, k3, b, (sfld32 so_stack_err b), ips. do 4 (split; [done|]).
  unfold read_sample, bind, c_assert. rewrite (proj2 (Z.eqb_eq _ _) Hl), Hd.
  rewrite (proj2 (Z.ltb_ge _ _) Hm). unfold zlen at 1. rewrite Nat2Z.id, Hips, T1, T2, T3.
  unfold ret, u64, u32. rewrite E, Zmod_mod, (Z.mod_small target); [done|].
  rewrite <- E, Z.shiftr_div_pow2 by done. split; [apply Z.div_pos; lia|].
  apply Z.div_lt_upper_bound; lia.
Qed.
(** A machine whose stacks have two frames. *)
#[export] Instance two_frames : SamplerKernel Z := {|
  sk_time k := (k, k + 1);
  sk_reserve n k := (if n <? 0 then None else Some (replicate (Z.to_nat n) 170), k);
  sk_stack old k :=
    if 16 <=? zlen old then ((16, le_bytes 8 4660 ++ le_bytes 8 22136 ++ zdrop 16 old), k) else ((-14, old), k)
|}.
#[export] Instance two_frames_laws : SamplerLaws Z.
Proof.
  split; cbn.
  - intros n k b k'. destruct (Z.ltb_spec n 0); intros [= <- <-]. unfold zlen. rewrite length_replicate. lia.
  - intros old k n new k'. destruct (Z.leb_spec 16 (zlen old)) as [Hl|Hl]; intros [= <- <- <-].
    + split; [rewrite !zlen_cons, zlen_zdrop; lia|].
      right. exists [4660; 22136]. do 2 (split; [done|]). split; [repeat constructor; lia|]. done.
    + split; [done|]. by left.
Qed.
Lemma sample_read_back_witness :
  ∃ s' b ips, on_perf_event (task 50 0 12) (mk_sampler 7 [50] []) = Ret (tt, s') ∧ samples s' = [b] ∧
    read_sample b tt = Ret (mk_sample 50 50 7 0 ips, tt) ∧ concat (le_bytes 8 <$> ips) = le_bytes 8 4660 ++ le_bytes 8 22136.
Proof.
  destruct (sample_read_back (task 50 0 12) (mk_sampler 7 [50] []) 50 (replicate 152 170) 7 7 8) as
    ([] & s' & E & old & n & new & k3 & b & err & ips & Es & Ho & Hst & -> & Hb).
  - reflexivity.
  - done.
  - vm_compute. reflexivity.
  - reflexivity.
  - exists (mk_sampler k3 [50] [b]), b, ips. split; [exact E|]. split; [reflexivity|].
    cbn in Es. rewrite Ho in Es. injection Es as <- <- _. destruct Hst as [-> Hips].
    split; [exact Hb|]. rewrite <- Hips. done.
Defined.
