(* ===== verification/Zymbiote.v ===== *)
(** The payload of the Android zygote, src/src/linux/helpers/zymbiote.c: two
    functions of the zygote are replaced, and every process it forks reports to
    the host over a socket and waits for permission to go on.

    [ZygoteEnv] is the process it lives in: the libc functions of ZymbioteContext,
    the two replaced functions and JNI's access to strings.  The payload shares its
    pages with code, so its variables can be written only while [protection] allows
    it; writing them at another time is fatal. *)
From S2P Require Import Prelude Posix.

Definition PROT_READ : Z := 1.
Definition PROT_WRITE : Z := 2.
Definition PROT_EXEC : Z := 4.
Definition PROT_RWX : Z := Z.lor (Z.lor PROT_READ PROT_WRITE) PROT_EXEC.
(** [sizeof (zymbiote.socket_path)] and [sizeof (addr.sun_path)]. *)
Definition SOCKET_PATH_SIZE : Z := 64.
Definition SUN_PATH_ROOM : Z := 108.

Class ZygoteEnv (K : Type) := {
  z_setcontext : Z → bool → list Z → list Z → K → Z * K;
  z_set_argv0 : Z → K → K;
  (** GetStringUTFChars *)
  z_utf8 : Z → K → list Z;
  z_mprotect : Z → K → bool * K;
  z_strdup : list Z → K → bool * K;
  z_socket : K → sysret Z * K;
  (** The address is the used part of [sun_path]. *)
  z_connect : Z → list Z → K → sysret unit * K;
  (** One buffer per element of the I/O vector. *)
  z_sendmsg : Z → list (list Z) → K → sysret Z * K;
  z_recv : Z → Z → K → sysret (list Z) * K;
  z_getpid : K → Z;
  z_getppid : K → Z
}.

Inductive zact :=
| CalledSetContext (uid : Z) (is_system_server : bool) (seinfo name : list Z)
| CalledSetArgv0 (name : Z)
| Duplicated
| Freed
| Opened (fd : Z)
| Sent (fd : Z) (bs : list Z)
| Received (fd : Z) (bs : list Z)
| Closed (fd : Z)
| RaisedStop.

Record zymbiote (K : Type) := mk_zymbiote {
  z_kern : K;
  z_errno : Z;
  protection : Z;
  package_name : option (list Z);
  z_trace : list zact
}.
Arguments mk_zymbiote {K} _ _ _ _ _.
Arguments z_kern {K} _.
Arguments z_errno {K} _.
Arguments protection {K} _.
Arguments package_name {K} _.
Arguments z_trace {K} _.

(** The constants the host wrote into the payload. *)
Record ZymbioteContext := mk_zctx {
  socket_path : list Z;
  payload_original_protection : Z
}.

Section payload.
Context {K : Type} `{ZygoteEnv K} (zc : ZymbioteContext).
Notation Z' := (zymbiote K).

Definition z_call {A} (f : K → A * K) : M Z' A := λ s,
  match f (z_kern s) with
  | (a, k) => Ret (a, mk_zymbiote k (z_errno s) (protection s) (package_name s) (z_trace s))
  end.
Definition z_emit (a : zact) : M Z' unit :=
  modify (λ s, mk_zymbiote (z_kern s) (z_errno s) (protection s) (package_name s) (z_trace s ++ [a])).
(** A call that returns -1 and sets errno when it fails. *)
Definition z_syscall {A} (f : K → sysret A * K) : M Z' (option A) := λ s,
  match f (z_kern s) with
  | (SysOk a, k) => Ret (Some a, mk_zymbiote k (z_errno s) (protection s) (package_name s) (z_trace s))
  | (SysErr e, k) => Ret (None, mk_zymbiote k e (protection s) (package_name s) (z_trace s))
  end.
Definition frida_get_errno : M Z' Z := gets z_errno.

(** mprotect of the payload; its result is not looked at. *)
Definition protect (prot : Z) : M Z' unit :=
  let! ok := z_call (z_mprotect prot) in
  modify (λ s, mk_zymbiote (z_kern s) (z_errno s) (if ok : bool then prot else protection s)
                 (package_name s) (z_trace s)).
(** Assignment to [zymbiote.package_name]. *)
Definition set_package_name (name : option (list Z)) : M Z' unit := λ s,
  if Z.land (protection s) PROT_WRITE =? 0 then Crash
  else Ret (tt, mk_zymbiote (z_kern s) (z_errno s) (protection s) name (z_trace s)).

(** ** Calls that are repeated when a signal interrupts them *)
Definition retry {A} (fuel : nat) (f : K → sysret A * K) : M Z' (option A) :=
  loop fuel (λ _ : unit,
    let! r := z_syscall f in
    match r with
    | Some v => ret (inr (Some v))
    | None =>
        let! e := frida_get_errno in
        if e =? EINTR then ret (inl tt) else ret (inr None)
    end) tt.
Definition frida_connect (fuel : nat) (sockfd : Z) (addr : list Z) : M Z' (option unit) :=
  retry fuel (z_connect sockfd addr).
Definition frida_sendmsg (fuel : nat) (sockfd : Z) (msg : list (list Z)) : M Z' (option Z) :=
  let! n := retry fuel (z_sendmsg sockfd msg) in
  do! match n with Some n => z_emit (Sent sockfd (ztake n (concat msg))) | None => ret tt end in
  ret n.
Definition frida_recv (fuel : nat) (sockfd len : Z) : M Z' (option (list Z)) :=
  let! r := retry fuel (z_recv sockfd len) in
  do! match r with Some bs => z_emit (Received sockfd bs) | None => ret tt end in
  ret r.

(** The inner loop of frida_sendmsg_all, on the vector from [idx] on: [remaining]
    bytes of it were sent.  ([off] is 0 throughout.) *)
Fixpoint consume (remaining : Z) (iov : list (list Z)) : list (list Z) :=
  match iov with
  | [] => []
  | v :: rest =>
      if remaining =? 0 then iov
      else if remaining <? zlen v then zdrop remaining v :: rest
      else consume (remaining - zlen v) rest
  end.
Definition frida_sendmsg_all (fuel : nat) (sockfd : Z) (iov : list (list Z)) : M Z' bool :=
  loop fuel (λ iov,
    match iov with
    | [] => ret (inr true)
    | _ =>
        let! n := frida_sendmsg fuel sockfd iov in
        match n with
        | None => ret (inr false)
        | Some n => ret (inl (consume n iov))
        end
    end) iov.

(** The characters copied to [addr.sun_path]: up to the first NUL, the end of
    [socket_path] or the room in the address. *)
Fixpoint abstract_name (path : list Z) (i : Z) : list Z :=
  match path with
  | [] => []
  | x :: path =>
      if x =? 0 then [] else if SUN_PATH_ROOM <=? 1 + i then [] else x :: abstract_name path (i + 1)
  end.

Definition hello_header (pid ppid : Z) (name : list Z) : list Z :=
  le_bytes 4 pid ++ le_bytes 4 ppid ++ le_bytes 4 (zlen name).

(** From the socket to the acknowledgement; the result is [*revert_now]. *)
Definition converse (fuel : nat) (fd : Z) (name : list Z) : M Z' bool :=
  let! r := frida_connect fuel fd (0 :: abstract_name (socket_path zc) 0) in
  match r with
  | None => ret false
  | Some _ =>
      let! pid := gets (λ s, z_getpid (z_kern s)) in
      let! ppid := gets (λ s, z_getppid (z_kern s)) in
      let! ok := frida_sendmsg_all fuel fd [hello_header pid ppid name; name] in
      if negb ok then ret false
      else
        let! r := frida_recv fuel fd 1 in
        match r with
        | Some bs => ret (zlen bs =? 1)
        | None => ret false
        end
  end.
Definition frida_wait_for_permission_to_resume (fuel : nat) (name : list Z) : M Z' bool :=
  let! fd := z_syscall z_socket in
  match fd with
  | None => ret false
  | Some fd =>
      do! z_emit (Opened fd) in
      let! revert_now := converse fuel fd name in
      do! z_emit (Closed fd) in
      ret revert_now
  end.

(** ** The replacements *)
Definition frida_zymbiote_replacement_setcontext (uid : Z) (is_system_server : bool) (seinfo name : list Z)
    : M Z' Z :=
  let! res := z_call (z_setcontext uid is_system_server seinfo name) in
  do! z_emit (CalledSetContext uid is_system_server seinfo name) in
  if res =? -1 then ret (-1)
  else
    let! pn := gets package_name in
    match pn with
    | Some _ => ret res
    | None =>
        do! protect PROT_RWX in
        let! ok := z_call (z_strdup name) in
        do! (if ok : bool then z_emit Duplicated else ret tt) in
        do! set_package_name (if ok then Some name else None) in
        ret res
    end.

Definition frida_zymbiote_replacement_setargv0 (fuel : nat) (name : Z) : M Z' Z :=
  do! z_call (λ k, (tt, z_set_argv0 name k)) in
  do! z_emit (CalledSetArgv0 name) in
  let! pn := gets package_name in
  let! utf8 := gets (λ s, z_utf8 name (z_kern s)) in
  let! revert_now := frida_wait_for_permission_to_resume fuel (default utf8 pn) in
  do! (match pn with
       | Some _ =>
           do! z_emit Freed in
           do! set_package_name None in
           protect (payload_original_protection zc)
       | None => ret tt
       end) in
  do! (if revert_now : bool then z_emit RaisedStop else ret tt) in
  ret 0.
End payload.

(** ** The host's side (linux-host-session.vala)
    ZymbioteConnection.read_hello on what arrived before the connection ended. *)
Record Hello := mk_hello { h_pid : Z; h_ppid : Z; h_package_name : list Z }.
(** A string of fixed size ends at a NUL inside of it. *)
Fixpoint before_nul (bs : list Z) : list Z :=
  match bs with
  | [] => []
  | x :: bs => if x =? 0 then [] else x :: before_nul bs
  end.
Definition read_hello (input : list Z) : option Hello :=
  if zlen input <? 12 then None
  else
    let package_name_len := le_value (zslice 8 12 input) in
    if zlen input <? 12 + package_name_len then None
    else
      Some (mk_hello (le_value (zslice 0 4 input)) (le_value (zslice 4 8 input))
             (before_nul (zslice 12 (12 + package_name_len) input))).
