(* ===== verification/ZymbioteClaims.v ===== *)
(** What the zygote's payload promises: every forked process is reported with its
    name, stops only after the host has answered, and the payload is left as it was. *)
From S2P Require Import Prelude Posix Zymbiote.

(** * The conversation of the zygote's payload with the host: it ends, delivers the
    whole message or gives up, closes its socket, and leaves the payload as it
    found it. *)
(** ** Documented behaviour of the process
    [z_signals] bounds the interruptions that are still to come.  A process keeps
    its identity.  A stream socket accepts at least a byte of a message that has
    one, and nothing of an empty one. *)
Definition z_ids {K} `{ZygoteEnv K} (k : K) : Z * Z := (z_getpid k, z_getppid k).
Definition calm {K A} `{ZygoteEnv K} (z_signals : K → nat) (f : K → sysret A * K) : Prop :=
  ∀ k r k', f k = (r, k') →
    (z_signals k' + interrupted r ≤ z_signals k)%nat ∧ z_ids k' = z_ids k.
Definition quiet {K A} `{ZygoteEnv K} (z_signals : K → nat) (f : K → A * K) : Prop :=
  ∀ k a k', f k = (a, k') → (z_signals k' ≤ z_signals k)%nat ∧ z_ids k' = z_ids k.
Class ZygoteLaws (K : Type) `{ZygoteEnv K} := {
  z_signals : K → nat;
  z_socket_calm : calm z_signals z_socket;
  z_connect_calm fd addr : calm z_signals (z_connect fd addr);
  z_sendmsg_calm fd msg : calm z_signals (z_sendmsg fd msg);
  z_recv_calm fd len : calm z_signals (z_recv fd len);
  z_sendmsg_count fd msg k n k' : z_sendmsg fd msg k = (SysOk n, k') →
    0 ≤ n ≤ zlen (concat msg) ∧ (0 < zlen (concat msg) → 0 < n);
  z_recv_count fd len k bs k' : 0 ≤ len → z_recv fd len k = (SysOk bs, k') → zlen bs ≤ len;
  z_setcontext_calm uid b se name : quiet z_signals (z_setcontext uid b se name);
  z_set_argv0_calm name : quiet z_signals (λ k, (tt, z_set_argv0 name k));
  z_mprotect_calm prot : quiet z_signals (z_mprotect prot);
  z_strdup_calm name : quiet z_signals (z_strdup name)
}.

Section correct.
Context {K : Type} `{ZygoteLaws K} (zc : ZymbioteContext).
Implicit Types s : zymbiote K.

(** The kernel and errno changed, the payload did not, and [l] was added to the
    trace. *)
Definition goes (l : list zact) s s' : Prop :=
  protection s' = protection s ∧ package_name s' = package_name s ∧ z_trace s' = z_trace s ++ l ∧
  (z_signals (z_kern s') ≤ z_signals (z_kern s))%nat ∧ z_ids (z_kern s') = z_ids (z_kern s).
Lemma goes_refl s : goes [] s s.
Proof. repeat split; [|done]. by rewrite app_nil_r. Qed.
Lemma goes_trans l1 l2 s1 s2 s3 : goes l1 s1 s2 → goes l2 s2 s3 → goes (l1 ++ l2) s1 s3.
Proof.
  intros (A1 & A2 & A3 & A4 & A5) (B1 & B2 & B3 & B4 & B5).
  split; [congruence|]. split; [congruence|]. split; [by rewrite B3, A3, app_assoc|].
  split; [lia|congruence].
Qed.

Lemma wp_z_emit a s Q : (∀ s', goes [a] s s' → Q tt s') → wp (z_emit a) s Q.
Proof. intros HQ. apply wp_modify, HQ. by repeat split. Qed.

Lemma wp_retry {A} (f : K → sysret A * K) fuel s :
  calm z_signals f → (z_signals (z_kern s) < fuel)%nat →
  wp (retry fuel f) s (λ r s', goes [] s s' ∧
    ∀ v, r = Some v → ∃ k k', f k = (SysOk v, k')).
Proof.
  intros Hf Hfuel. unfold retry.
  apply (wp_loop _ (λ _ s', goes [] s s') (λ _ s', z_signals (z_kern s'))); [|apply goes_refl|done].
  intros [] s1 Hs. unfold z_syscall, bind. destruct (f (z_kern s1)) as [[v|e] k] eqn:E.
  - eexists _, _. split; [by rewrite E|]. destruct (Hf _ _ _ E) as [H1 H2]. split.
    + change ([] : list zact) with ([] ++ [] : list zact). eapply goes_trans; [exact Hs|].
      cbn in H1. split; [done|]. split; [done|]. split; [cbn; by rewrite app_nil_r|]. split; cbn; [lia|done].
    + intros v' [= <-]. by exists (z_kern s1), k.
  - destruct (Hf _ _ _ E) as [H1 H2].
    assert (goes [] s (mk_zymbiote k e (protection s1) (package_name s1) (z_trace s1))) as Hg.
    { change ([] : list zact) with ([] ++ [] : list zact). eapply goes_trans; [exact Hs|].
      split; [done|]. split; [done|]. split; [cbn; by rewrite app_nil_r|]. split; cbn; [lia|done]. }
    unfold frida_get_errno, gets. cbn [z_errno]. cbn in H1.
    destruct (e =? EINTR) eqn:Ee.
    all: eexists _, _; (split; [rewrite E; cbn; rewrite Ee; reflexivity|]).
    + split; [done|]. cbn. lia.
    + done.
Qed.

Lemma goes_nil_l l s1 s2 s3 : goes [] s1 s2 → goes l s2 s3 → goes l s1 s3.
Proof. apply (goes_trans []). Qed.
Lemma goes_nil_r l s1 s2 s3 : goes l s1 s2 → goes [] s2 s3 → goes l s1 s3.
Proof. intros H1 H2. rewrite <- (app_nil_r l). by eapply goes_trans. Qed.
Lemma goes_signals l s s' : goes l s s' → (z_signals (z_kern s') ≤ z_signals (z_kern s))%nat.
Proof. intros (_ & _ & _ & ? & _). done. Qed.

(** ** Sending *)
(** What was sent on [fd], and what came back. *)
Definition sent (fd : Z) (l : list zact) : list Z :=
  concat (omap (λ a, match a with Sent fd' bs => if fd' =? fd then Some bs else None | _ => None end) l).
Definition only_sends (fd : Z) (l : list zact) : Prop := Forall (λ a, ∃ bs, a = Sent fd bs) l.
Lemma sent_app fd l1 l2 : sent fd (l1 ++ l2) = sent fd l1 ++ sent fd l2.
Proof. unfold sent. by rewrite omap_app, concat_app. Qed.

Lemma consume_rest n iov :
  0 ≤ n ≤ zlen (concat iov) → Forall (λ v, v ≠ []) iov →
  concat (consume n iov) = zdrop n (concat iov) ∧ Forall (λ v, v ≠ []) (consume n iov).
Proof.
  revert n. induction iov as [|v iov IH]; intros n Hn Hf; cbn [consume concat].
  { split; [|done]. unfold zdrop. by destruct (Z.to_nat n). }
  apply Forall_cons in Hf as [Hv Hf]. destruct (Z.eqb_spec n 0) as [->|Hn0].
  { split; [by rewrite zdrop_le|by constructor]. }
  cbn [concat] in Hn. rewrite zlen_app in Hn. destruct (Z.ltb_spec n (zlen v)) as [Hlt|Hge].
  - split; [cbn [concat]; by rewrite zdrop_app_le by lia|]. constructor; [|done].
    intros E. apply (f_equal zlen) in E. rewrite zlen_zdrop in E. change (zlen []) with 0 in E. lia.
  - destruct (IH (n - zlen v)) as [E1 E2]; [lia|done|]. split; [|done]. rewrite E1.
    replace n with ((n - zlen v) + zlen v) at 2 by lia. rewrite <- zdrop_zdrop by (zlen_facts; lia).
    by rewrite zdrop_app_exact.
Qed.

Lemma wp_sendmsg fd msg fuel s :
  (z_signals (z_kern s) < fuel)%nat →
  wp (frida_sendmsg fuel fd msg) s (λ r s',
    match r with
    | Some n => (0 ≤ n ≤ zlen (concat msg) ∧ (0 < zlen (concat msg) → 0 < n)) ∧
        goes [Sent fd (ztake n (concat msg))] s s'
    | None => goes [] s s'
    end).
Proof.
  intros Hf. unfold frida_sendmsg. apply wp_bind.
  wp_call wp_retry; [apply z_sendmsg_calm|done|]. intros [n|] s1 [Hg Hr].
  - destruct (Hr n eq_refl) as (k & k' & E). apply wp_bind, wp_z_emit. intros s2 Hs2. apply wp_ret.
    split; [by eapply z_sendmsg_count|]. by eapply goes_nil_l.
  - by apply wp_bind, wp_ret, wp_ret.
Qed.

Lemma wp_sendmsg_all fd iov fuel s :
  Forall (λ v, v ≠ []) iov → (z_signals (z_kern s) + length (concat iov) < fuel)%nat →
  wp (frida_sendmsg_all fuel fd iov) s (λ ok s', ∃ l, goes l s s' ∧ only_sends fd l ∧
    if ok then sent fd l = concat iov else sent fd l `prefix_of` concat iov).
Proof.
  intros Hne Hf. unfold frida_sendmsg_all.
  apply (wp_loop _
    (λ rest s', Forall (λ v, v ≠ []) rest ∧ ∃ l, goes l s s' ∧ only_sends fd l ∧
       sent fd l ++ concat rest = concat iov)
    (λ rest _, length (concat rest))).
  - intros rest s1 (Hr & l & Hg & Hl & Hs). destruct rest as [|v rest].
    { apply wp_ret. exists l. split; [done|]. split; [done|]. by rewrite <- Hs, app_nil_r. }
    set (msg := v :: rest) in *. apply wp_bind.
    assert (0 < zlen (concat msg)) as Hpos.
    { apply Forall_cons in Hr as [Hv _]. subst msg. cbn [concat]. rewrite zlen_app.
      destruct v; [done|]. rewrite zlen_cons. zlen_facts. lia. }
    wp_call (wp_sendmsg fd msg); [pose proof (goes_signals _ _ _ Hg); lia|]. intros [n|] s2.
    + intros [[Hn Hn0] Hg2]. apply wp_ret. specialize (Hn0 Hpos).
      destruct (consume_rest n msg Hn Hr) as [Ec Hc]. split.
      * split; [done|]. exists (l ++ [Sent fd (ztake n (concat msg))]).
        split; [by eapply goes_trans|]. split; [apply Forall_app; split; [done|]; by repeat econstructor|].
        rewrite sent_app, <- app_assoc, Ec. unfold sent at 2. cbn. rewrite Z.eqb_refl. cbn.
        by rewrite app_nil_r, ztake_zdrop.
      * rewrite Ec. unfold zlen in *. unfold zdrop. rewrite length_drop. lia.
    + intros Hg2. apply wp_ret. exists l. split; [by eapply goes_nil_r|]. split; [done|].
      exists (concat msg). done.
  - split; [done|]. exists []. split; [apply goes_refl|]. split; [constructor|done].
  - lia.
Qed.

(** ** The conversation *)
Definition hello (k : K) (name : list Z) : list Z :=
  hello_header (z_getpid k) (z_getppid k) name ++ name.
(** What [converse] leaves in the trace: the message, whole if it is to be answered,
    and at most one answer. *)
Definition spoken (fd : Z) (msg : list Z) (revert_now : bool) (l : list zact) : Prop :=
  ∃ said heard, l = said ++ heard ∧ only_sends fd said ∧
    if revert_now then sent fd said = msg ∧ ∃ b, heard = [Received fd [b]]
    else sent fd said `prefix_of` msg ∧ (heard = [] ∨ ∃ bs, heard = [Received fd bs]).

Lemma hello_ids k k' name : z_ids k' = z_ids k → hello k' name = hello k name.
Proof. unfold z_ids, hello. intros [= -> ->]. done. Qed.
Lemma hello_header_ne pid ppid name : hello_header pid ppid name ≠ [].
Proof. done. Qed.
Lemma length_hello k name : length (hello k name) = (12 + length name)%nat.
Proof. done. Qed.

Lemma wp_converse fuel fd name s :
  name ≠ [] → (z_signals (z_kern s) + 12 + length name < fuel)%nat →
  wp (converse zc fuel fd name) s (λ r s', ∃ l, goes l s s' ∧ spoken fd (hello (z_kern s) name) r l).
Proof.
  intros Hne Hf. unfold converse. apply wp_bind.
  wp_call wp_retry; [apply z_connect_calm|lia|]. intros [[]|] s1 [G1 _].
  2: { apply wp_ret. exists []. split; [done|]. exists [], []. split; [done|]. split; [constructor|].
       split; [apply prefix_nil|by left]. }
  apply wp_bind, wp_gets, wp_bind, wp_gets, wp_bind. pose proof (goes_signals _ _ _ G1).
  wp_call (wp_sendmsg_all fd); [apply Forall_cons; split; [apply hello_header_ne|by apply Forall_singleton]|cbn [concat]; rewrite app_nil_r; fold (hello (z_kern s1) name); rewrite length_hello; lia|].
  intros ok s2 (l & G2 & Hl & Hs). cbn [concat] in Hs. rewrite app_nil_r in Hs.
  assert (hello_header (z_getpid (z_kern s1)) (z_getppid (z_kern s1)) name ++ name = hello (z_kern s) name) as Eh.
  { apply (hello_ids (z_kern s) (z_kern s1)). apply G1. }
  rewrite Eh in Hs. assert (goes l s s2) as G by (by eapply goes_nil_l). destruct ok; cbn [negb].
  2: { apply wp_ret. exists l. split; [done|]. exists l, []. split; [by rewrite app_nil_r|]. split; [done|].
       split; [done|by left]. }
  apply wp_bind. unfold frida_recv. apply wp_bind. pose proof (goes_signals _ _ _ G).
  wp_call wp_retry; [apply z_recv_calm|lia|]. intros [bs|] s3 [G3 Hr].
  2: { apply wp_bind, wp_ret, wp_ret, wp_ret. exists l. split; [by eapply goes_nil_r|].
       exists l, []. split; [by rewrite app_nil_r|]. split; [done|]. split; [by rewrite Hs|by left]. }
  apply wp_bind, wp_z_emit. intros s4 G4. apply wp_ret, wp_ret.
  exists (l ++ [Received fd bs]). split; [eapply goes_trans; [exact G|by eapply goes_nil_l]|].
  exists l, [Received fd bs]. split; [done|]. split; [done|].
  destruct (Z.eqb_spec (zlen bs) 1) as [Hb|Hb].
  - split; [done|]. destruct bs as [|b [|b' bs]].
    + done.
    + by exists b.
    + rewrite !zlen_cons in Hb. zlen_facts. lia.
  - split; [by rewrite Hs|]. right. by exists bs.
Qed.

(** One connection, closed at the end, or none. *)
Definition reported (msg : list Z) (revert_now : bool) (l : list zact) : Prop :=
  (l = [] ∧ revert_now = false) ∨
  ∃ fd mid, l = Opened fd :: mid ++ [Closed fd] ∧ spoken fd msg revert_now mid.

Lemma wp_wait fuel name s :
  name ≠ [] → (z_signals (z_kern s) + 12 + length name < fuel)%nat →
  wp (frida_wait_for_permission_to_resume zc fuel name) s (λ r s', ∃ l, goes l s s' ∧
    reported (hello (z_kern s) name) r l).
Proof.
  intros Hne Hf. unfold frida_wait_for_permission_to_resume. apply wp_bind. unfold z_syscall.
  destruct (z_socket (z_kern s)) as [[fd|e] k] eqn:E; destruct (z_socket_calm _ _ _ E) as [H1 H2]; cbn in H1.
  - eexists _, _. split; [by rewrite E|]. apply wp_bind, wp_z_emit. intros s1 G1.
    assert (goes [Opened fd] s s1) as G.
    { destruct G1 as (A1 & A2 & A3 & A4 & A5). cbn in *. repeat split; try done; [lia|congruence]. }
    apply wp_bind. pose proof (goes_signals _ _ _ G). wp_call (wp_converse fuel fd name s1); [done|lia|].
    intros r s2 (l & G2 & Hl). apply wp_bind, wp_z_emit. intros s3 G3. apply wp_ret.
    exists (Opened fd :: l ++ [Closed fd]). split.
    + change (Opened fd :: l ++ [Closed fd]) with ([Opened fd] ++ (l ++ [Closed fd])).
      eapply goes_trans; [exact G|]. by eapply goes_trans.
    + right. exists fd, l. split; [done|]. rewrite <- (hello_ids (z_kern s) (z_kern s1)); [done|]. apply G.
  - eexists _, _. split; [by rewrite E|]. apply wp_ret. exists []. split; [|by left].
    repeat split; [cbn; by rewrite app_nil_r|cbn; lia|done].
Qed.

(** ** The replacements *)
Lemma wp_z_call {A} (f : K → A * K) s :
  quiet z_signals f → wp (z_call f) s (λ a s', goes [] s s' ∧ (f (z_kern s)).1 = a).
Proof.
  intros Hf. unfold z_call. destruct (f (z_kern s)) as [a k] eqn:E. eexists _, _. split; [by rewrite E|].
  destruct (Hf _ _ _ E). split; [|done]. repeat split; [cbn; by rewrite app_nil_r|done|done].
Qed.

(** The same run up to the protection of the payload and the name it keeps. *)
Definition runs (l : list zact) s s' : Prop :=
  z_trace s' = z_trace s ++ l ∧ (z_signals (z_kern s') ≤ z_signals (z_kern s))%nat ∧
  z_ids (z_kern s') = z_ids (z_kern s).
Lemma goes_runs l s s' : goes l s s' → runs l s s'.
Proof. by intros (_ & _ & ? & ? & ?). Qed.
Lemma runs_trans l1 l2 s1 s2 s3 : runs l1 s1 s2 → runs l2 s2 s3 → runs (l1 ++ l2) s1 s3.
Proof.
  intros (A1 & A2 & A3) (B1 & B2 & B3). split; [by rewrite B1, A1, app_assoc|]. split; [lia|congruence].
Qed.
Lemma runs_nil_l l s1 s2 s3 : runs [] s1 s2 → runs l s2 s3 → runs l s1 s3.
Proof. apply (runs_trans []). Qed.

(** mprotect works on the payload. *)
Definition protectable : Prop := ∀ prot (k : K), (z_mprotect prot k).1 = true.

Lemma wp_protect prot s :
  protectable →
  wp (protect prot) s (λ _ s', runs [] s s' ∧ protection s' = prot ∧ package_name s' = package_name s).
Proof.
  intros Hp. unfold protect. apply wp_bind. wp_call wp_z_call; [apply z_mprotect_calm|].
  intros ok s1 [G E]. apply wp_modify. rewrite Hp in E. subst ok. cbn. split; [|by destruct G as (? & ? & _)].
  by destruct G as (_ & _ & ? & ? & ?).
Qed.
Lemma wp_set_package_name name s Q :
  Z.land (protection s) PROT_WRITE ≠ 0 →
  (∀ s', runs [] s s' → protection s' = protection s → package_name s' = name → Q tt s') →
  wp (set_package_name name) s Q.
Proof.
  intros Hp HQ. unfold set_package_name. eexists _, _. rewrite (proj2 (Z.eqb_neq _ _) Hp). split; [done|].
  apply HQ; [|done|done]. repeat split; [cbn; by rewrite app_nil_r|done].
Qed.

Definition dup_trace (dup : bool) : list zact := if dup then [Duplicated] else [].

Lemma wp_setcontext uid b se name s :
  protectable → package_name s = None →
  wp (frida_zymbiote_replacement_setcontext uid b se name) s (λ r s', ∃ dup : bool,
    runs (CalledSetContext uid b se name :: dup_trace dup) s s' ∧
    package_name s' = (if dup then Some name else None) ∧
    protection s' = (if r =? -1 then protection s else PROT_RWX) ∧ (r = -1 → dup = false)).
Proof.
  intros Hp Hn. unfold frida_zymbiote_replacement_setcontext. apply wp_bind.
  wp_call wp_z_call; [apply z_setcontext_calm|]. intros res s1 [G1 _].
  apply wp_bind, wp_z_emit. intros s2 G2. assert (goes [CalledSetContext uid b se name] s s2) as G by (by eapply goes_nil_l).
  destruct (Z.eqb_spec res (-1)) as [->|Hres].
  { apply wp_ret. exists false. split; [by apply goes_runs|]. destruct G as (E1 & E2 & _).
    rewrite E1, E2, Hn. done. }
  apply wp_bind, wp_gets. destruct G as (E1 & E2 & R). rewrite E2, Hn. apply wp_bind.
  wp_call (wp_protect PROT_RWX); [done|]. intros _ s3 (R3 & P3 & N3). apply wp_bind.
  wp_call wp_z_call; [apply z_strdup_calm|]. intros dup s4 [G4 _]. apply wp_bind.
  assert (runs [CalledSetContext uid b se name] s s4) as R4.
  { rewrite <- (app_nil_r [_]). eapply runs_trans; [exact R|]. eapply runs_nil_l; [exact R3|]. by apply goes_runs. }
  destruct G4 as (P4 & N4 & _). rewrite P3 in P4.
  assert (wp (if dup then z_emit Duplicated else ret tt) s4 (λ _ s5,
    runs (dup_trace dup) s4 s5 ∧ protection s5 = PROT_RWX)) as Hd.
  { destruct dup; [|by apply wp_ret; split; [repeat split; [by rewrite app_nil_r|done]|]].
    apply wp_z_emit. intros s5 G5. split; [by apply goes_runs|]. destruct G5 as (-> & _). done. }
  wp_call Hd. intros _ s5 [R5 P5]. apply wp_bind, wp_set_package_name; [by rewrite P5|].
  intros s6 R6 P6 N6. apply wp_ret. exists dup. split.
  - rewrite <- (app_nil_r (_ :: _)). eapply runs_trans; [|exact R6].
    eapply (runs_trans [CalledSetContext uid b se name] (dup_trace dup)); [exact R4|exact R5].
  - rewrite (proj2 (Z.eqb_neq _ _) Hres). split; [by destruct dup|]. split; [congruence|done].
Qed.

Definition free_trace (dup : bool) : list zact := if dup then [Freed] else [].
Definition stop_trace (revert_now : bool) : list zact := if revert_now then [RaisedStop] else [].

Lemma wp_setargv0 fuel name utf8 s :
  protectable → (∀ k, z_utf8 name k = utf8) →
  (package_name s ≠ None → Z.land (protection s) PROT_WRITE ≠ 0) →
  let used := default utf8 (package_name s) in
  let dup := bool_decide (package_name s ≠ None) in
  used ≠ [] → (z_signals (z_kern s) + 12 + length used < fuel)%nat →
  wp (frida_zymbiote_replacement_setargv0 zc fuel name) s (λ r s', r = 0 ∧ ∃ revert_now l,
    reported (hello (z_kern s) used) revert_now l ∧
    runs (CalledSetArgv0 name :: l ++ free_trace dup ++ stop_trace revert_now) s s' ∧
    package_name s' = None ∧
    protection s' = if dup then payload_original_protection zc else protection s).
Proof.
  intros Hp Hu Hw used dup Hne Hf. unfold frida_zymbiote_replacement_setargv0. apply wp_bind.
  wp_call wp_z_call; [apply z_set_argv0_calm|]. intros _ s1 [G1 _]. apply wp_bind, wp_z_emit. intros s2 G2.
  assert (goes [CalledSetArgv0 name] s s2) as G by (by eapply goes_nil_l). clear G1 G2.
  apply wp_bind, wp_gets, wp_bind, wp_gets, wp_bind. rewrite Hu.
  destruct G as (P & N & R). rewrite N. fold used.
  wp_call (wp_wait fuel used s2); [done|destruct R as (_ & ? & _); lia|]. intros revert_now s3 (l & (P3 & N3 & R3) & Hl).
  rewrite (hello_ids (z_kern s) (z_kern s2)) in Hl by apply R. apply wp_bind.
  assert (wp (match package_name s with
       | Some _ =>
           do! z_emit Freed in
           do! set_package_name None in
           protect (payload_original_protection zc)
       | None => ret tt
       end) s3 (λ _ s4, runs (free_trace dup) s3 s4 ∧ package_name s4 = None ∧
         protection s4 = if dup then payload_original_protection zc else protection s)) as Hfree.
  { subst dup. destruct (package_name s) as [pn|] eqn:En.
    - apply wp_bind, wp_z_emit. intros s4 (P4 & N4 & R4). apply wp_bind, wp_set_package_name.
      { rewrite P4, P3, P. by apply Hw. }
      intros s5 R5 P5 N5. wp_call wp_protect; [done|]. intros _ s6 (R6 & P6 & N6).
      rewrite bool_decide_true by done. split; [|by rewrite N6, N5].
      rewrite <- (app_nil_r (free_trace true)). eapply runs_trans; [exact R4|]. by eapply runs_nil_l.
    - apply wp_ret. rewrite bool_decide_false by auto. split; [repeat split; [by rewrite app_nil_r|done]|].
      split; [by rewrite N3, N|by rewrite P3, P]. }
  wp_call Hfree. intros _ s4 (R4 & N4 & P4). apply wp_bind.
  assert (wp (if revert_now then z_emit RaisedStop else ret tt) s4 (λ _ s5,
    goes (stop_trace revert_now) s4 s5)) as Hstop.
  { destruct revert_now; [by apply wp_z_emit|apply wp_ret, goes_refl]. }
  wp_call Hstop. intros _ s5 (P5 & N5 & R5). apply wp_ret. split; [done|]. exists revert_now, l.
  split; [done|]. split; [|by rewrite N5, P5].
  change (CalledSetArgv0 name :: l ++ free_trace dup ++ stop_trace revert_now)
    with ([CalledSetArgv0 name] ++ l ++ free_trace dup ++ stop_trace revert_now).
  eapply runs_trans; [exact R|]. eapply runs_trans; [exact R3|]. eapply runs_trans; [exact R4|exact R5].
Qed.
End correct.

(** ** The host reads what was sent *)
Section read.
Implicit Types name : list Z.

Lemma before_nul_id name : 0 ∉ name → before_nul name = name.
Proof.
  induction name as [|x name IH]; [done|]. intros Hn. cbn [before_nul].
  destruct (Z.eqb_spec x 0) as [->|]; [set_solver|]. rewrite IH; [done|set_solver].
Qed.
Lemma hello_fields pid ppid name :
  0 ≤ pid < 2 ^ 32 → 0 ≤ ppid < 2 ^ 32 → zlen name < 2 ^ 32 →
  let msg := hello_header pid ppid name ++ name in
  le_value (zslice 0 4 msg) = pid ∧ le_value (zslice 4 8 msg) = ppid ∧
  le_value (zslice 8 12 msg) = zlen name ∧ zslice 12 (12 + zlen name) msg = name.
Proof.
  intros Hp Hpp Hn msg. set (n := le_bytes 4 (zlen name)) in *.
  assert (msg = le_bytes 4 pid ++ le_bytes 4 ppid ++ n ++ name) as -> by (subst msg; unfold hello_header; by rewrite <- !app_assoc).
  split; [|split; [|split]].
  - assert (zslice 0 4 (le_bytes 4 pid ++ le_bytes 4 ppid ++ n ++ name) = le_bytes 4 pid) as ->
      by (by apply (zslice_mid [])). by apply le_value_small.
  - assert (zslice 4 8 (le_bytes 4 pid ++ le_bytes 4 ppid ++ n ++ name) = le_bytes 4 ppid) as ->
      by (by apply zslice_mid). by apply le_value_small.
  - assert (zslice 8 12 (le_bytes 4 pid ++ le_bytes 4 ppid ++ n ++ name) = n) as ->
      by (rewrite (app_assoc (le_bytes 4 pid)); by apply zslice_mid).
    apply le_value_small; [done|]. change (2 ^ (4 * 8)) with (2 ^ 32). zlen_facts. lia.
  - rewrite (app_assoc (le_bytes 4 ppid)), (app_assoc (le_bytes 4 pid)).
    set (h := le_bytes 4 pid ++ le_bytes 4 ppid ++ n). rewrite <- (app_nil_r (h ++ name)), <- app_assoc.
    by apply zslice_mid.
Qed.
Lemma zlen_hello pid ppid name : zlen (hello_header pid ppid name ++ name) = 12 + zlen name.
Proof. unfold hello_header. rewrite !zlen_app, !zlen_le_bytes by done. lia. Qed.

Lemma read_hello_whole pid ppid name :
  0 ≤ pid < 2 ^ 32 → 0 ≤ ppid < 2 ^ 32 → zlen name < 2 ^ 32 → 0 ∉ name →
  read_hello (hello_header pid ppid name ++ name) = Some (mk_hello pid ppid name).
Proof.
  intros Hp Hpp Hn H0. destruct (hello_fields pid ppid name Hp Hpp Hn) as (F1 & F2 & F3 & F4).
  unfold read_hello. rewrite zlen_hello, F1, F2, F3, F4, before_nul_id by done. zlen_facts.
  by rewrite !(proj2 (Z.ltb_ge _ _)) by lia.
Qed.
(** A message that was cut is not taken for another one. *)
Lemma read_hello_cut pid ppid name msg :
  0 ≤ pid < 2 ^ 32 → 0 ≤ ppid < 2 ^ 32 → zlen name < 2 ^ 32 →
  msg `prefix_of` hello_header pid ppid name ++ name → msg ≠ hello_header pid ppid name ++ name →
  read_hello msg = None.
Proof.
  intros Hp Hpp Hn [r E] Hne. destruct (hello_fields pid ppid name Hp Hpp Hn) as (_ & _ & F3 & _).
  assert (0 < zlen r) as Hr.
  { destruct r; [|rewrite zlen_cons; zlen_facts; lia]. rewrite app_nil_r in E. congruence. }
  pose proof (zlen_hello pid ppid name) as Hl. rewrite E in Hl, F3. rewrite zlen_app in Hl.
  unfold read_hello. destruct (Z.ltb_spec (zlen msg) 12); [done|].
  assert (zslice 8 12 (msg ++ r) = zslice 8 12 msg) as Es.
  { unfold zslice. rewrite zdrop_app_le by lia. apply ztake_app_le. rewrite zlen_zdrop. lia. }
  rewrite Es in F3. rewrite F3, (proj2 (Z.ltb_lt _ _)) by lia. done.
Qed.
End read.

(** ** A process to run it in
    Five bytes are accepted at a time, and the first [n] calls are interrupted. *)
#[export] Instance chatty : ZygoteEnv nat := {|
  z_setcontext _ _ _ _ k := (0, k);
  z_set_argv0 _ k := k;
  z_utf8 _ _ := bytes_of "usap64";
  z_mprotect _ k := (true, k);
  z_strdup _ k := (true, k);
  z_socket k := (SysOk 9, k);
  z_connect _ _ k := match k with O => (SysOk tt, O) | S k => (SysErr EINTR, k) end;
  z_sendmsg _ msg k :=
    match k with O => (SysOk (Z.min 5 (zlen (concat msg))), O) | S k => (SysErr EINTR, k) end;
  z_recv _ len k := match k with O => (SysOk (ztake len [66]), O) | S k => (SysErr EINTR, k) end;
  z_getpid _ := 4321;
  z_getppid _ := 987
|}.
#[export] Instance chatty_laws : ZygoteLaws nat.
Proof.
  apply (Build_ZygoteLaws _ _ id).
  1-4: intros; intros k r k'; cbn; try destruct k; intros [= <- <-]; cbn; split; done || lia.
  - intros fd msg k n k'. cbn. destruct k; intros [= <- <-]. zlen_facts. lia.
  - intros fd len k bs k' Hl. cbn. destruct k; intros [= <- <-]. rewrite zlen_ztake. cbn. lia.
  - intros; intros k a k' [= <- <-]; done.
  - intros; intros k a k' [= <- <-]; done.
  - intros; intros k a k' [= <- <-]; done.
  - intros; intros k a k' [= <- <-]; done.
Defined.

Definition id_ok {K} `{ZygoteEnv K} (k : K) : Prop :=
  0 ≤ z_getpid k < 2 ^ 32 ∧ 0 ≤ z_getppid k < 2 ^ 32.

(** C39: The conversation with the host about a process whose name is not empty and has
    no zero byte ends, however often it is interrupted and however the message is split,
    and its socket is closed.  If the payload got permission, the host has read the
    process, its parent and the name from the socket, and the payload has read a byte
    from it.  If there was no socket, or connecting, sending or receiving failed, it goes
    on without permission, and what was sent is read as nothing or as the whole message,
    never as another one. *)
Theorem zygote_hello_understood {K} `{ZygoteLaws K} zc fuel name (s : zymbiote K) :
  name ≠ [] → 0 ∉ name → zlen name < 2 ^ 32 → id_ok (z_kern s) →
  (z_signals (z_kern s) + 12 + length name < fuel)%nat →
  wp (frida_wait_for_permission_to_resume zc fuel name) s (λ revert_now s', ∃ l,
    z_trace s' = z_trace s ++ l ∧
    ((l = [] ∧ revert_now = false) ∨ ∃ fd mid, l = Opened fd :: mid ++ [Closed fd] ∧
       let told := Some (mk_hello (z_getpid (z_kern s)) (z_getppid (z_kern s)) name) in
       if revert_now then read_hello (sent fd mid) = told ∧ ∃ b, Received fd [b] ∈ mid
       else read_hello (sent fd mid) = None ∨ read_hello (sent fd mid) = told)).
Proof.
  intros Hne Hnul Hlen [Hp Hpp] Hf. wp_call wp_wait; [done|done|]. intros r s' (l & G & Hl). exists l.
  split; [apply G|]. destruct Hl as [?|(fd & mid & -> & said & heard & -> & Hs & Hr)]; [by left|right].
  exists fd, (said ++ heard). split; [done|].
  assert (sent fd (said ++ heard) = sent fd said) as Es.
  { rewrite sent_app. destruct r; [destruct Hr as [_ [b ->]]|destruct Hr as [_ [-> | [bs ->]]]];
      cbn; by rewrite app_nil_r. }
  cbn zeta. rewrite Es. destruct r; destruct Hr as [Hm Hh].
  - split; [rewrite Hm; by apply read_hello_whole|]. destruct Hh as [b ->]. exists b. set_solver.
  - destruct (decide (sent fd said = hello (z_kern s) name)) as [E|E].
    + right. rewrite E. by apply read_hello_whole.
    + left. by apply (read_hello_cut (z_getpid (z_kern s)) (z_getppid (z_kern s)) name).
Qed.
Definition demo_zctx : ZymbioteContext :=
  mk_zctx (bytes_of "/frida-zymbiote-0123456789abcdef0123456789abcdef" ++ zeros 16) 5.
Definition zygote : zymbiote nat := mk_zymbiote 3%nat 0 5 None [].
Lemma zygote_hello_understood_witness :
  ∃ s' l, frida_wait_for_permission_to_resume demo_zctx 100 (bytes_of "com.example") zygote = Ret (true, s') ∧
    z_trace s' = Opened 9 :: l ++ [Closed 9] ∧
    read_hello (sent 9 l) = Some (mk_hello 4321 987 (bytes_of "com.example")).
Proof.
  destruct (zygote_hello_understood demo_zctx 100 (bytes_of "com.example") zygote) as (r & s' & E & l & Ht & Hl).
  - done.
  - cbn. set_solver.
  - done.
  - done.
  - vm_compute. lia.
  - assert (r = true) as -> by (vm_compute in E; congruence). cbn [app z_trace zygote] in Ht.
    destruct Hl as [[_ ?]|(fd & mid & Hl & Hh & _)]; [done|].
    assert (fd = 9) as ->.
    { vm_compute in E. injection E as E. rewrite <- E in Ht. cbn in Ht. rewrite Hl in Ht. by injection Ht. }
    exists s', mid. split; [exact E|]. split; [by rewrite Ht|exact Hh].
Defined.

(** A process forked by the zygote passes both hooks.  The functions they replace
    are called once each, first; the process is reported under the name it was
    given when its context was set; it stops itself exactly when the host gave
    permission, as the last thing it does; and the copy of the name is freed, the
    payload's variable reset and its protection restored.  If the copy could not be
    made, the name comes from the runtime, and the payload stays writable. *)
Theorem forked_process_reported {K} `{ZygoteLaws K} zc fuel uid sys se name jname utf8 (s : zymbiote K) :
  protectable (K := K) → package_name s = None → (∀ k : K, z_utf8 jname k = utf8) →
  name ≠ [] → utf8 ≠ [] →
  (z_signals (z_kern s) + 12 + length name + length utf8 < fuel)%nat →
  wp (let! res := frida_zymbiote_replacement_setcontext uid sys se name in
      do! frida_zymbiote_replacement_setargv0 zc fuel jname in ret res) s
    (λ res s', ∃ (dup revert_now : bool) l,
      reported (hello (z_kern s) (if dup then name else utf8)) revert_now l ∧
      z_trace s' = z_trace s ++ CalledSetContext uid sys se name :: dup_trace dup ++
        CalledSetArgv0 jname :: l ++ free_trace dup ++ stop_trace revert_now ∧
      package_name s' = None ∧
      protection s' = (if dup then payload_original_protection zc
                       else if res =? -1 then protection s else PROT_RWX)).
Proof.
  intros Hp Hn Hu Hne Hune Hf. apply wp_bind. wp_call wp_setcontext; [done|done|].
  intros res s1 (dup & (T1 & S1 & I1) & N1 & P1 & Hres). apply wp_bind.
  assert (default utf8 (package_name s1) = if dup then name else utf8) as Eu by (rewrite N1; by destruct dup).
  assert (bool_decide (package_name s1 ≠ None) = dup) as Ed.
  { rewrite N1. destruct dup; [by rewrite bool_decide_true|]. rewrite bool_decide_false; [done|]. by intros []. }
  wp_call (wp_setargv0 zc fuel jname utf8 s1); [done|done| | | |].
  - intros Hs. rewrite P1. destruct (Z.eqb_spec res (-1)) as [->|]; [|done].
    rewrite N1, (Hres eq_refl) in Hs. done.
  - rewrite Eu. by destruct dup.
  - rewrite Eu. destruct dup; lia.
  - intros _ s2 (_ & revert_now & l & Hl & (T2 & _ & _) & N2 & P2). rewrite Ed in P2, T2. rewrite Eu in Hl.
    rewrite (hello_ids (z_kern s) (z_kern s1)) in Hl by done.
    apply wp_ret. exists dup, revert_now, l. split; [done|]. split; [|split; [done|by rewrite P2, P1]].
    rewrite T2, T1, <- app_assoc. done.
Qed.
Lemma forked_process_reported_witness :
  wp (let! res := frida_zymbiote_replacement_setcontext 10123 false (bytes_of "default") (bytes_of "com.example") in
      do! frida_zymbiote_replacement_setargv0 demo_zctx 200 7 in ret res) zygote
    (λ res s', package_name s' = None ∧ ∃ l, z_trace s' = CalledSetContext 10123 false (bytes_of "default") (bytes_of "com.example") :: l).
Proof.
  eapply wp_mono.
  - apply (forked_process_reported demo_zctx 200 10123 false (bytes_of "default") (bytes_of "com.example") 7
      (bytes_of "usap64") zygote); [done|done|done|done|done|vm_compute; lia].
  - intros res s' (dup & r & l & _ & Ht & Hn & _). split; [done|]. eexists. exact Ht.
Defined.

Lemma spins {K} `{ZygoteLaws K} fuel fuel' fd iov (s : zymbiote K) :
  (∀ msg (k : K), ∃ n k', z_sendmsg fd msg k = (SysOk n, k')) →
  (∃ v, iov = [v; []]) ∨ iov = [[]] →
  loop fuel (λ iov,
    match iov with
    | [] => ret (inr true)
    | _ =>
        let! n := frida_sendmsg fuel' fd iov in
        match n with
        | None => ret (inr false)
        | Some n => ret (inl (consume n iov))
        end
    end) iov s = Stuck.
Proof.
  intros Hok. revert iov s. induction fuel as [|fuel IH]; intros iov s Hi; [done|]. cbn [loop].
  assert (iov ≠ []) as Hne by (destruct Hi as [[v ->] | ->]; discriminate).
  unfold bind at 1. destruct iov as [|v0 r0] eqn:Ei; [done|]. rewrite <- Ei in *.
  unfold bind at 1, frida_sendmsg at 1, bind at 1, retry. destruct fuel' as [|fuel']; [done|].
  cbn [loop]. unfold bind at 1 2, z_syscall at 1. destruct (Hok iov (z_kern s)) as (n & k' & En). rewrite En.
  unfold ret at 1 2. cbn. apply IH.
  destruct (z_sendmsg_count _ _ _ _ _ En) as [Hn _].
  destruct Hi as [[v ->] | ->]; cbn [consume].
  - cbn in Hn. rewrite app_nil_r in Hn. destruct (n =? 0); [by left; exists v|].
    destruct (Z.ltb_spec n (zlen v)); [left; by eexists|]. replace (n - zlen v) with 0 by lia. by right.
  - cbn in Hn. unfold zlen in Hn. cbn in Hn. replace n with 0 by lia. by right.
Qed.

(** A process without a name never gets past the report: once the header is sent
    the loop asks for an empty message to be sent, again and again.  As long as
    the socket accepts messages it does not end, whatever the number of steps. *)
Theorem empty_name_spins {K} `{ZygoteLaws K} fuel fd header (s : zymbiote K) :
  (∀ msg (k : K), ∃ n k', z_sendmsg fd msg k = (SysOk n, k')) →
  frida_sendmsg_all fuel fd [header; []] s = Stuck.
Proof. intros Hok. apply (spins fuel fuel fd); [done|]. left. by exists header. Qed.
(** A process that is never interrupted, with a socket that takes everything. *)
#[export] Instance steady : ZygoteEnv unit := {|
  z_setcontext _ _ _ _ k := (0, k);
  z_set_argv0 _ k := k;
  z_utf8 _ _ := [];
  z_mprotect _ k := (true, k);
  z_strdup _ k := (true, k);
  z_socket k := (SysOk 9, k);
  z_connect _ _ k := (SysOk tt, k);
  z_sendmsg _ msg k := (SysOk (zlen (concat msg)), k);
  z_recv _ len k := (SysOk (ztake len [66]), k);
  z_getpid _ := 4321;
  z_getppid _ := 987
|}.
#[export] Instance steady_laws : ZygoteLaws unit.
Proof.
  apply (Build_ZygoteLaws _ _ (λ _, 0%nat)).
  1-4: intros; intros k r k' [= <- <-]; done.
  - intros fd msg k n k' [= <- <-]. zlen_facts. lia.
  - intros fd len k bs k' Hl [= <- <-]. rewrite zlen_ztake. cbn. lia.
  - intros; intros k a k' [= <- <-]; done.
  - intros; intros k a k' [= <- <-]; done.
  - intros; intros k a k' [= <- <-]; done.
  - intros; intros k a k' [= <- <-]; done.
Defined.
Lemma empty_name_spins_witness :
  frida_sendmsg_all 1000 9 [hello_header 4321 987 []; []] (mk_zymbiote tt 0 5 None []) = Stuck.
Proof. apply (empty_name_spins 1000 9). intros msg k. by eexists _, _. Defined.
