(* ===== verification/UploadListener.v ===== *)
(** The listener of the iOS upload, src/src/fruity/helpers/upload-listener.c: it
    opens a socket for the client and packs descriptor, port and error into one
    word, which the injector unpacks (src/src/fruity/injector.vala). *)
From S2P Require Import Prelude Posix.

(** The socket functions of FridaUploadApi; [la_getsockname] gives [sin6_port] as
    it is in the address, in network byte order. *)
Class ListenApi (K : Type) := {
  la_socket : K → sysret Z * K;
  la_setsockopt : Z → Z → K → sysret unit * K;
  la_bind : Z → K → sysret unit * K;
  la_getsockname : Z → K → sysret Z * K;
  la_listen : Z → K → sysret unit * K;
  la_close : Z → K → K
}.

Record listening (K : Type) := mk_listening { la_kern : K; la_open : gset Z }.
Arguments mk_listening {K} _ _.
Arguments la_kern {K} _.
Arguments la_open {K} _.

(** Descriptors are numbers of an [int], and a new one was not open before. *)
Class ListenLaws (K : Type) `{ListenApi K} := {
  la_socket_fd k fd k' : la_socket k = (SysOk fd, k') → 0 ≤ fd < 2 ^ 31;
  la_port_range fd k p k' : la_getsockname fd k = (SysOk p, k') → 0 ≤ p < 2 ^ 16
}.

Definition ntohs (n : Z) : Z := le_value (reverse (le_bytes 2 n)).

Section listen.
Context {K : Type} `{ListenApi K}.
Notation L := (listening K).

Definition la_call {A} (f : K → sysret A * K) : M L (option A) := λ s,
  match f (la_kern s) with
  | (SysOk a, k) => Ret (Some a, mk_listening k (la_open s))
  | (SysErr _, k) => Ret (None, mk_listening k (la_open s))
  end.

(** The label [failure]. *)
Definition failure (fd error_code : Z) : M L Z :=
  do! (if negb (fd =? -1)
       then modify (λ s, mk_listening (la_close fd (la_kern s)) (la_open s ∖ {[fd]}))
       else ret tt) in
  ret (u64 (error_code ≪ 57)).

Definition frida_listen (rx_buffer_size : Z) : M L Z :=
  let! fd := la_call la_socket in
  match fd with
  | None => failure (-1) 1
  | Some fd =>
      do! modify (λ s, mk_listening (la_kern s) ({[fd]} ∪ la_open s)) in
      let! res := la_call (la_setsockopt fd rx_buffer_size) in
      if negb (bool_decide (is_Some res)) then failure fd 2
      else
        let! res := la_call (la_bind fd) in
        if negb (bool_decide (is_Some res)) then failure fd 3
        else
          let! port := la_call (la_getsockname fd) in
          match port with
          | None => failure fd 4
          | Some port =>
              let! res := la_call (la_listen fd) in
              if negb (bool_decide (is_Some res)) then failure fd 5
              else ret (Z.lor (u64 (fd ≪ 16)) (ntohs port))
          end
  end.
End listen.

(** What the injector makes of the result. *)
Record listen_view := mk_listen_view { lv_error_code : Z; lv_fd : Z; lv_port : Z }.
Definition unpack_listen_result (listen_result : Z) : listen_view :=
  mk_listen_view (Z.land (listen_result ≫ 56) 0xff) (Z.land (listen_result ≫ 16) 0xffffffff)
    (Z.land listen_result 0xffff).

(** ** Correctness *)
Lemma ntohs_range p : 0 ≤ ntohs p < 2 ^ 16.
Proof.
  unfold ntohs. pose proof (le_value_bound (reverse (le_bytes 2 p))) as X.
  rewrite zlen_reverse, zlen_le_bytes in X by done. apply X. apply Forall_reverse, le_bytes_byte. done.
Qed.
Lemma unpack_success fd port :
  0 ≤ fd < 2 ^ 31 → 0 ≤ port < 2 ^ 16 →
  unpack_listen_result (Z.lor (u64 (fd ≪ 16)) port) = mk_listen_view 0 fd port.
Proof.
  intros Hf Hp.
  assert (Z.lor (u64 (fd ≪ 16)) port = fd * 2 ^ 16 + port) as ->.
  { rewrite Z.shiftl_mul_pow2 by done. rewrite u64_small by lia. by apply lor_shift. }
  unfold unpack_listen_result. change 0xff with (Z.ones 8). change 0xffffffff with (Z.ones 32).
  change 0xffff with (Z.ones 16). rewrite !Z.land_ones, !Z.shiftr_div_pow2 by done.
  f_equal.
  - rewrite Z.div_small by lia. done.
  - rewrite Z.div_add_l, (Z.div_small port), Z.add_0_r by lia. apply Z.mod_small. lia.
  - rewrite Z.add_comm, Z.mod_add by lia. by apply Z.mod_small.
Qed.
Lemma unpack_failure e :
  1 ≤ e ≤ 5 → unpack_listen_result (u64 (e ≪ 57)) = mk_listen_view (2 * e) 0 0.
Proof.
  intros He. assert (e = 1 ∨ e = 2 ∨ e = 3 ∨ e = 4 ∨ e = 5) as Hc by lia.
  by destruct Hc as [-> | [-> | [-> | [-> | ->]]]].
Qed.

(** The injector can tell from the result of the listener whether it listens.
    On success it gets no error, the descriptor of the socket, which is the one
    descriptor that was opened and left open, and its port.  When one of the five
    calls fails it gets a nonzero error, twice the number of the call, and no
    descriptor is left behind. *)
Theorem listen_result_understood {K} `{ListenLaws K} rx_buffer_size (s : listening K) :
  (∀ fd k k', la_socket k = (SysOk fd, k') → fd ∉ la_open s) →
  wp (frida_listen rx_buffer_size) s (λ r s',
    (∃ fd raw k k', la_getsockname fd k = (SysOk raw, k') ∧
       unpack_listen_result r = mk_listen_view 0 fd (ntohs raw) ∧ la_open s' = {[fd]} ∪ la_open s) ∨
    (∃ e, 1 ≤ e ≤ 5 ∧ unpack_listen_result r = mk_listen_view (2 * e) 0 0 ∧ la_open s' = la_open s)).
Proof.
  intros Hfresh.
  assert (∀ A (f : K → sysret A * K) s1 (Q : option A → listening K → Prop),
    (∀ r k, (∀ a, r = Some a → f (la_kern s1) = (SysOk a, k)) → Q r (mk_listening k (la_open s1))) →
    wp (la_call f) s1 Q) as wp_la_call.
  { intros A f s1 Q HQ. unfold wp, la_call. destruct (f (la_kern s1)) as [[a|e] k] eqn:E.
    - exists (Some a), (mk_listening k (la_open s1)). split; [done|]. apply HQ. by intros a' [= <-].
    - exists None, (mk_listening k (la_open s1)). split; [done|]. by apply HQ. }
  assert (∀ fd e s1, 1 ≤ e ≤ 5 → fd ∉ la_open s → fd ≠ -1 → la_open s1 = {[fd]} ∪ la_open s →
    wp (failure fd e) s1 (λ r s', unpack_listen_result r = mk_listen_view (2 * e) 0 0 ∧ la_open s' = la_open s))
    as wp_failure.
  { intros fd e s1 He Hn Hfd Ho. unfold failure. rewrite (proj2 (Z.eqb_neq _ _) Hfd). cbn [negb].
    apply wp_bind, wp_modify, wp_ret. split; [by apply unpack_failure|]. cbn. rewrite Ho. set_solver. }
  unfold frida_listen. apply wp_bind, wp_la_call. intros [fd|] k E.
  2: { apply wp_bind, wp_ret, wp_ret. right. exists 1. split; [lia|]. split; [|done]. by apply unpack_failure. }
  specialize (E fd eq_refl). pose proof (la_socket_fd _ _ _ E) as Hr. pose proof (Hfresh _ _ _ E) as Hn.
  assert (fd ≠ -1) as Hfd by lia.
  apply wp_bind, wp_modify. cbn [la_kern la_open].
  apply wp_bind, wp_la_call. intros [[]|] k1 _; cbn.
  2: { wp_call (wp_failure fd 2); [lia|done|done|done|]. intros r s1 [? ?]. right. by exists 2. }
  apply wp_bind, wp_la_call. intros [[]|] k2 _; cbn.
  2: { wp_call (wp_failure fd 3); [lia|done|done|done|]. intros r s1 [? ?]. right. by exists 3. }
  apply wp_bind, wp_la_call. intros [port|] k3 Ep; cbn.
  2: { wp_call (wp_failure fd 4); [lia|done|done|done|]. intros r s1 [? ?]. right. by exists 4. }
  specialize (Ep port eq_refl). cbn in Ep.
  apply wp_bind, wp_la_call. intros [[]|] k4 _; cbn.
  2: { wp_call (wp_failure fd 5); [lia|done|done|done|]. intros r s1 [? ?]. right. by exists 5. }
  apply wp_ret. left. exists fd, port, k2, k3. split; [done|]. split; [|done].
  apply unpack_success; [done|apply ntohs_range].
Qed.
(** A machine with free descriptors from 5 on, where everything works. *)
#[export] Instance all_works : ListenApi Z := {|
  la_socket k := (SysOk (Z.land k 0xffff), k + 1);
  la_setsockopt _ _ k := (SysOk tt, k);
  la_bind _ k := (SysOk tt, k);
  la_getsockname _ k := (SysOk 0x9a02, k);
  la_listen _ k := (SysOk tt, k);
  la_close _ k := k
|}.
#[export] Instance all_works_laws : ListenLaws Z.
Proof.
  split.
  - intros k fd k' [= <- _]. change 0xffff with (Z.ones 16). rewrite Z.land_ones by done.
    pose proof (Z.mod_pos_bound k (2 ^ 16)). lia.
  - intros fd k p k' [= <- _]. done.
Qed.
Lemma listen_result_understood_witness :
  wp (frida_listen (1024 * 1024)) (mk_listening 5 ∅) (λ r s',
    (∃ fd raw k k', la_getsockname fd k = (SysOk raw, k') ∧
       unpack_listen_result r = mk_listen_view 0 fd (ntohs raw) ∧ la_open s' = {[fd]} ∪ ∅) ∨
    (∃ e, 1 ≤ e ≤ 5 ∧ unpack_listen_result r = mk_listen_view (2 * e) 0 0 ∧ la_open s' = ∅)).
Proof. apply (listen_result_understood (1024 * 1024) (mk_listening 5 ∅)). set_solver. Defined.
