(* ===== verification/MachO.v ===== *)
(** The symbol helpers of the iOS injection: src/src/fruity/helpers/symbol-fetcher.c
    lists the interesting local symbols of dyld as text, symbol-resolver.c finds
    dlopen and dlsym in the exports trie of libdyld and resolves a vector of names
    with them.

    They read memory, as the ELF parser does: [mem] gives the byte at an address,
    and reading where nothing is mapped is fatal.  The fetcher's buffer is the list
    of the bytes written to it. *)
From S2P Require Import Prelude ElfParser.

Definition LC_SEGMENT_64 : Z := 0x19.
Definition LC_SYMTAB : Z := 0x2.
Definition LC_DYSYMTAB : Z := 0xb.
Definition LC_DYLD_INFO_ONLY : Z := 0x80000022.
Definition LC_DYLD_EXPORTS_TRIE : Z := 0x80000033.
(** sizeof (struct mach_header_64) and of struct nlist_64 *)
Definition MACH_HEADER_SIZE : Z := 32.
Definition NLIST_SIZE : Z := 16.

Section readers.
Context {S : Type} (mem : Z → option Z).
Notation ld := (load (S := S) mem).

(** ** Strings
    [other], [prefix] and [needle] are literals with their terminator. *)
Fixpoint frida_str_equals (str : Z) (other : list Z) : M S bool :=
  match other with
  | [] => ret true
  | b :: other =>
      let! a := ld 1 str in
      if negb (a =? b) then ret false
      else if a =? 0 then ret true else frida_str_equals (str + 1) other
  end.
Fixpoint frida_str_has_prefix (str : Z) (prefix : list Z) : M S bool :=
  match prefix with
  | [] => ret true
  | c :: prefix =>
      if c =? 0 then ret true
      else
        let! a := ld 1 str in
        if negb (a =? c) then ret false else frida_str_has_prefix (str + 1) prefix
  end.
Definition frida_strstr (fuel : nat) (str : Z) (needle : list Z) : M S Z :=
  loop fuel (λ str,
    let! c := ld 1 str in
    if c =? 0 then ret (inr 0)
    else if c =? znth needle 0 then
      let! p := frida_str_has_prefix str needle in
      if p : bool then ret (inr str) else ret (inl (u64 (str + 1)))
    else ret (inl (u64 (str + 1)))) str.
Definition frida_str_contains (fuel : nat) (str : Z) (needle : list Z) : M S bool :=
  let! p := frida_strstr fuel str needle in ret (negb (p =? 0)).

(** ** Mach-O: fields of the header and of load commands *)
Definition mh_ncmds (header : Z) : M S Z := ld 4 (header + 16).
Definition lc_cmd (lc : Z) : M S Z := ld 4 lc.
Definition lc_cmdsize (lc : Z) : M S Z := ld 4 (lc + 4).
Definition sc_segname (lc : Z) : Z := u64 (lc + 8).
Definition sc_vmaddr (lc : Z) : M S Z := ld 8 (lc + 24).
Definition sc_vmsize (lc : Z) : M S Z := ld 8 (lc + 32).
Definition sc_fileoff (lc : Z) : M S Z := ld 8 (lc + 40).
Definition st_symoff (lc : Z) : M S Z := ld 4 (lc + 8).
Definition st_stroff (lc : Z) : M S Z := ld 4 (lc + 16).
Definition ds_ilocalsym (lc : Z) : M S Z := ld 4 (lc + 8).
Definition ds_nlocalsym (lc : Z) : M S Z := ld 4 (lc + 12).
Definition di_export_off (lc : Z) : M S Z := ld 4 (lc + 40).
Definition ld_dataoff (lc : Z) : M S Z := ld 4 (lc + 8).
Definition n_strx (sym : Z) : M S Z := ld 4 sym.
Definition n_value (sym : Z) : M S Z := ld 8 (sym + 8).

Definition lit (s : string) : list Z := bytes_of s ++ [0].

(** FridaMachO of symbol-fetcher.c. *)
Record FridaMachO := mk_macho {
  m_base : Z; m_slide : Z; m_size : Z; m_linkedit : Z; m_symtab : Z; m_dysymtab : Z
}.

(** ** symbol-fetcher.c: frida_parse_macho
    [init] is what the caller's structure held before. *)
Definition fetcher_parse_macho (macho : Z) (init : FridaMachO) : M S FridaMachO :=
  let! ncmds := mh_ncmds macho in
  let! r := for_all (Z.to_nat ncmds) (λ _ a,
    let '(lc, preferred_base, linkedit, m) := a in
    let! cmd := lc_cmd lc in
    let! r :=
      (if cmd =? LC_SEGMENT_64 then
         let! text := frida_str_equals (sc_segname lc) (lit "__TEXT") in
         if text : bool then
           let! vmaddr := sc_vmaddr lc in
           let! vmsize := sc_vmsize lc in
           ret (vmaddr, linkedit,
                mk_macho (m_base m) (m_slide m) vmsize (m_linkedit m) (m_symtab m) (m_dysymtab m))
         else
           let! le := frida_str_equals (sc_segname lc) (lit "__LINKEDIT") in
           if le : bool then
             let! vmaddr := sc_vmaddr lc in
             let! fileoff := sc_fileoff lc in
             ret (preferred_base, u64 (vmaddr - fileoff), m)
           else ret (preferred_base, linkedit, m)
       else if cmd =? LC_SYMTAB then
         ret (preferred_base, linkedit,
              mk_macho (m_base m) (m_slide m) (m_size m) (m_linkedit m) lc (m_dysymtab m))
       else if cmd =? LC_DYSYMTAB then
         ret (preferred_base, linkedit,
              mk_macho (m_base m) (m_slide m) (m_size m) (m_linkedit m) (m_symtab m) lc)
       else ret (preferred_base, linkedit, m)) in
    let! cmdsize := lc_cmdsize lc in
    ret (u64 (lc + cmdsize), r.1.1, r.1.2, r.2)) (u64 (macho + MACH_HEADER_SIZE), 0, 0, init) in
  let '(_, preferred_base, linkedit, m) := r in
  let slide := u64 (macho - preferred_base) in
  ret (mk_macho macho slide (m_size m) (u64 (linkedit + slide)) (m_symtab m) (m_dysymtab m)).

(** ** symbol-fetcher.c: text *)
(** The string at [val], for frida_append_string. *)
Definition frida_append_string (fuel : nat) (output : list Z) (val : Z) : M S (list Z) :=
  loop fuel (λ a,
    let '(val, out) := a in
    let! c := ld 1 val in
    if c =? 0 then ret (inr out) else ret (inl (u64 (val + 1), out ++ [c]))) (val, output).
Definition frida_append_char (output : list Z) (val : Z) : list Z := output ++ [val].
Definition nibble_to_hex_char : list Z := bytes_of "0123456789abcdef".
(** The loop over [shift] = 60, 56, ..., 0. *)
Fixpoint append_nibbles (n : nat) (found_first_nonzero : bool) (val : Z) (output : list Z) : bool * list Z :=
  match n with
  | O => (found_first_nonzero, output)
  | Datatypes.S n =>
      let shift := 4 * Z.of_nat n in
      let nibble := Z.land (val ≫ shift) 0xf in
      let found := found_first_nonzero || negb (nibble =? 0) in
      append_nibbles n found val (if found then output ++ [znth nibble_to_hex_char nibble] else output)
  end.
Definition frida_append_uint64 (output : list Z) (val : Z) : list Z :=
  match append_nibbles 16 false val output with
  | (found, output) => if negb found then output ++ [48] else output
  end.

(** Any of the conditions of the [if]; each is tried only when those before it do
    not hold. *)
Fixpoint any_of (tests : list (M S bool)) : M S bool :=
  match tests with
  | [] => ret false
  | t :: tests => let! b := t in if b : bool then ret true else any_of tests
  end.
Definition is_interesting (fuel : nat) (name : Z) : M S bool :=
  any_of [frida_str_contains fuel name (lit "libdyld_initialize");
          frida_str_contains fuel name (lit "notifyObjCInit");
          frida_str_contains fuel name (lit "restartWithDyldInCache");
          frida_str_equals name (lit "_gProcessInfo");
          frida_str_equals name (lit "__ZN5dyld412gProcessInfoE");
          frida_str_equals name (lit "__ZL12sProcessInfo");
          frida_str_contains fuel name (lit "launchWithClosure");
          frida_str_contains fuel name (lit "initializeMainExecutable");
          frida_str_contains fuel name (lit "registerThreadHelpers");
          frida_str_has_prefix name (lit "_dlopen");
          frida_str_has_prefix name (lit "_strcmp");
          frida_str_contains fuel name (lit "doModInitFunctions");
          frida_str_contains fuel name (lit "doGetDOFSections")].

(** The result is the text in the buffer, without its terminator; its length is
    what the C function returns. *)
Definition frida_fetch_dyld_symbols (fuel : nat) (dyld_load_address : Z) (init : FridaMachO) : M S (list Z) :=
  let! dyld := fetcher_parse_macho dyld_load_address init in
  let! symoff := st_symoff (m_symtab dyld) in
  let! stroff := st_stroff (m_symtab dyld) in
  let symbols := u64 (m_linkedit dyld + symoff) in
  let strings := u64 (m_linkedit dyld + stroff) in
  let! first := ds_ilocalsym (m_dysymtab dyld) in
  let! last := ds_nlocalsym (m_dysymtab dyld) in
  let! cursor := loop fuel (λ a,
    let '(i, n, cursor) := a in
    if i =? last then ret (inr cursor)
    else
      let sym := u64 (symbols + i * NLIST_SIZE) in
      let! strx := n_strx sym in
      let name := u64 (strings + strx) in
      let! interesting := is_interesting fuel name in
      if interesting : bool then
        let cursor := if negb (n =? 0) then frida_append_char cursor 10 else cursor in
        let! value := n_value sym in
        let cursor := frida_append_uint64 cursor (u64 (m_base dyld + value)) in
        let cursor := frida_append_char cursor 9 in
        let! cursor := frida_append_string fuel cursor name in
        ret (inl (u32 (i + 1), u32 (n + 1), cursor))
      else ret (inl (u32 (i + 1), n, cursor))) (first, 0, []) in
  let cursor := frida_append_char cursor 10 in
  let cursor := frida_append_uint64 cursor (m_size dyld) in
  let cursor := frida_append_char cursor 9 in
  ret (cursor ++ bytes_of "dyld_size").

(** ** symbol-resolver.c *)
(** The value and the address after it. *)
Definition frida_read_uleb128 (fuel : nat) (data : Z) : M S (Z * Z) :=
  loop fuel (λ a,
    let '(p, result, offset) := a in
    let! b := ld 1 p in
    let chunk := Z.land b 0x7f in
    let result := Z.lor result (u64 (chunk ≪ offset)) in
    let p' := u64 (p + 1) in
    if Z.land b 0x80 =? 0 then ret (inr (result, p')) else ret (inl (p', result, offset + 7))) (data, 0, 0).

(** The inner loop over an edge: the address after its terminator, whether it
    matches [s], and [s] after it.  [name] is a string of the program, with its
    terminator; [symbol_cur] is an index into it. *)
Definition match_edge (fuel : nat) (name : list Z) (s p : Z) : M S (Z * bool * Z) :=
  loop fuel (λ a,
    let '(p, matching_edge, symbol_cur) := a in
    let! c := ld 1 p in
    if c =? 0 then ret (inr (u64 (p + 1), matching_edge, symbol_cur))
    else if matching_edge : bool then
      ret (inl (u64 (p + 1), c =? znth name symbol_cur, symbol_cur + 1))
    else ret (inl (u64 (p + 1), false, symbol_cur))) (p, true, s).

(** The loop over the children: [Some] offset and the rest of the name when an edge
    matches. *)
Fixpoint find_child (fuel : nat) (n : nat) (name : list Z) (s p : Z) : M S (option (Z * Z)) :=
  match n with
  | O => ret None
  | Datatypes.S n =>
      let! r := match_edge fuel name s p in
      let '(p, matching_edge, symbol_cur) := r in
      let! o := frida_read_uleb128 fuel p in
      if matching_edge : bool then ret (Some (o.1, symbol_cur)) else find_child fuel n name s o.2
  end.

Definition frida_exports_trie_find (fuel : nat) (exports : Z) (name : list Z) : M S Z :=
  loop fuel (λ a,
    let '(s, p) := a in
    if p =? 0 then ret (inr 0)
    else
      let! t := frida_read_uleb128 fuel p in
      let '(terminal_size, p) := t in
      if andb (znth name s =? 0) (negb (terminal_size =? 0)) then
        let! flags := frida_read_uleb128 fuel p in
        let! address := frida_read_uleb128 fuel flags.2 in
        ret (inr address.1)
      else
        let children := u64 (p + terminal_size) in
        let! child_count := ld 1 children in
        let! c := find_child fuel (Z.to_nat child_count) name s (u64 (children + 1)) in
        match c with
        | Some (node_offset, s') =>
            ret (inl (s', if negb (node_offset =? 0) then u64 (exports + node_offset) else 0))
        | None => ret (inl (s, 0))
        end) (0, exports).

(** FridaMachO of symbol-resolver.c; NULL is 0. *)
Record ResolverMachO := mk_rmacho { rm_base : Z; rm_slide : Z; rm_linkedit : Z; rm_exports : Z }.
Definition resolver_parse_macho (macho : Z) : M S ResolverMachO :=
  let! ncmds := mh_ncmds macho in
  let! r := for_all (Z.to_nat ncmds) (λ _ a,
    let '(lc, preferred_base, linkedit, dyld_info, exports_trie) := a in
    let! cmd := lc_cmd lc in
    let! r :=
      (if cmd =? LC_SEGMENT_64 then
         let! text := frida_str_equals (sc_segname lc) (lit "__TEXT") in
         if text : bool then
           let! vmaddr := sc_vmaddr lc in
           ret (vmaddr, linkedit, dyld_info, exports_trie)
         else
           let! le := frida_str_equals (sc_segname lc) (lit "__LINKEDIT") in
           if le : bool then
             let! vmaddr := sc_vmaddr lc in
             let! fileoff := sc_fileoff lc in
             ret (preferred_base, u64 (vmaddr - fileoff), dyld_info, exports_trie)
           else ret (preferred_base, linkedit, dyld_info, exports_trie)
       else if cmd =? LC_DYLD_INFO_ONLY then ret (preferred_base, linkedit, lc, exports_trie)
       else if cmd =? LC_DYLD_EXPORTS_TRIE then ret (preferred_base, linkedit, dyld_info, lc)
       else ret (preferred_base, linkedit, dyld_info, exports_trie)) in
    let! cmdsize := lc_cmdsize lc in
    ret (u64 (lc + cmdsize), r.1.1.1, r.1.1.2, r.1.2, r.2))
    (u64 (macho + MACH_HEADER_SIZE), 0, 0, 0, 0) in
  let '(_, preferred_base, linkedit, dyld_info, exports_trie) := r in
  let slide := u64 (macho - preferred_base) in
  let linkedit := u64 (linkedit + slide) in
  let! exports :=
    (if negb (dyld_info =? 0) then
       let! off := di_export_off dyld_info in ret (u64 (linkedit + off))
     else if negb (exports_trie =? 0) then
       let! off := ld_dataoff exports_trie in ret (u64 (linkedit + off))
     else ret 0) in
  ret (mk_rmacho macho slide linkedit exports).

(** struct dyld_all_image_infos and struct dyld_image_info *)
Definition ai_infoArrayCount (all_image_info : Z) : M S Z := ld 4 (all_image_info + 4).
Definition ai_infoArray (all_image_info : Z) : M S Z := ld 8 (all_image_info + 8).
Definition IMAGE_INFO_SIZE : Z := 24.
Definition frida_find_libdyld (all_image_info : Z) : M S Z :=
  let! count := ai_infoArrayCount all_image_info in
  let! r := for_range (Z.to_nat count) 0 (λ i _,
    let! infoArray := ai_infoArray all_image_info in
    let image := u64 (infoArray + i * IMAGE_INFO_SIZE) in
    let! path := ld 8 (image + 8) in
    let! found := frida_str_equals path (lit "/usr/lib/system/libdyld.dylib") in
    if found : bool then let! a := ld 8 image in ret (inr a) else ret (inl tt)) tt in
  ret (match r with inl _ => 0 | inr a => a end).

Definition frida_get_libdyld_api (fuel : nat) (all_image_info : Z) : M S (Z * Z) :=
  let! libdyld := frida_find_libdyld all_image_info in
  let! m := resolver_parse_macho libdyld in
  let! o := frida_exports_trie_find fuel (rm_exports m) (lit "_dlopen") in
  let! y := frida_exports_trie_find fuel (rm_exports m) (lit "_dlsym") in
  ret (u64 (rm_base m + o), u64 (rm_base m + y)).

(** Calls of the functions at the addresses that were found; names are addresses. *)
Context (call_dlopen : Z → Z → M S Z) (call_dlsym : Z → Z → Z → M S Z).

(** The symbols of one module: the input after them and what was written. *)
Definition resolve_module (fuel : nat) (api : Z * Z) (module input : Z) (output : list Z)
    : M S (Z * list Z) :=
  loop fuel (λ a,
    let '(input, output) := a in
    let! symbol_name := ld 8 input in
    let input := u64 (input + 8) in
    if symbol_name =? 0 then ret (inr (input, output))
    else if negb (module =? 0) then
      let! p := call_dlsym api.2 module symbol_name in ret (inl (input, output ++ [p]))
    else ret (inl (input, output ++ [0]))) (input, output).
Definition frida_resolve_symbols (fuel : nat) (input_vector all_image_info : Z) : M S (list Z) :=
  let! api := frida_get_libdyld_api fuel all_image_info in
  loop fuel (λ a,
    let '(input, output) := a in
    let! module_name := ld 8 input in
    let input := u64 (input + 8) in
    if module_name =? 0 then ret (inr output)
    else
      let! module := call_dlopen api.1 module_name in
      let! r := resolve_module fuel api module input output in
      ret (inl r)) (input_vector, []).
End readers.
