(* ===== verification/ExportsTrie.v ===== *)
(** The exports trie of a Mach-O image as a table of nodes laid out in memory, and
    the search of src/src/fruity/helpers/symbol-resolver.c in it. *)
From S2P Require Import Prelude ElfParser ElfCorrect MachO.

(** ** ULEB128 *)
Fixpoint uleb (n : nat) (v : Z) : list Z :=
  match n with
  | O => []
  | S n => if v <? 128 then [v] else (v mod 128 + 128) :: uleb n (v / 128)
  end.
(** A 64-bit value takes at most ten bytes. *)
Definition uleb128 (v : Z) : list Z := uleb 10 v.

Section reading.
Context {S : Type} (mem : Z → option Z).
Implicit Types (s : S).

Lemma load_byte a b bs s : bytes_at mem a (b :: bs) → load mem 1 a s = Ret (b, s).
Proof.
  intros H. unfold load. cbn. specialize (H O b eq_refl). rewrite Z.add_0_r in H. rewrite H.
  unfold le_value. cbn. by rewrite Z.shiftl_0_l, Z.lor_0_r.
Qed.
Lemma bytes_at_tail a b bs : bytes_at mem a (b :: bs) → bytes_at mem (u64 (a + 1)) bs.
Proof. intros H. by apply bytes_at_u64, (bytes_at_app mem a [b] bs). Qed.
Lemma bytes_at_rest a b1 b2 : bytes_at mem a (b1 ++ b2) → bytes_at mem (u64 (a + zlen b1)) b2.
Proof. intros H. by apply bytes_at_u64, bytes_at_app. Qed.
Lemma bytes_at_front a b1 b2 : bytes_at mem a (b1 ++ b2) → bytes_at mem a b1.
Proof. intros H. by apply bytes_at_app in H as [? _]. Qed.
Lemma u64_cons a (b : Z) (l : list Z) : u64 (u64 (a + 1) + zlen l) = u64 (a + zlen (b :: l)).
Proof. rewrite u64_add_l. f_equal. rewrite zlen_cons. lia. Qed.

Lemma add_chunk r c o :
  0 ≤ o → 0 ≤ r < 2 ^ o → 0 ≤ c → c * 2 ^ o < 2 ^ 64 →
  Z.lor r (u64 (c ≪ o)) = r + c * 2 ^ o.
Proof.
  intros Ho Hr Hc Hlt. rewrite Z.shiftl_mul_pow2, u64_small by nia.
  rewrite Z.lor_comm, lor_shift by done. lia.
Qed.

(** The bits of a byte: without and with the mark that more follow. *)
Lemma chunk_last v : 0 ≤ v < 128 → Z.land v 0x7f = v ∧ Z.land v 0x80 = 0.
Proof.
  intros Hv. change 0x7f with (Z.ones 7). rewrite Z.land_ones, Z.mod_small by lia. split; [done|].
  apply Z.bits_inj'. intros k Hk. rewrite Z.land_spec, Z.bits_0.
  change 128 with (2 ^ 7). rewrite Z.pow2_bits_eqb by done.
  destruct (Z.eqb_spec 7 k) as [<-|]; [|apply andb_false_r]. rewrite andb_true_r.
  destruct (decide (v = 0)) as [->|]; [done|]. apply Z.bits_above_log2; [lia|].
  apply Z.log2_lt_pow2; lia.
Qed.
Lemma chunk_more m :
  0 ≤ m < 128 → Z.land (m + 128) 0x7f = m ∧ (Z.land (m + 128) 0x80 =? 0) = false.
Proof.
  intros Hm. replace (m + 128) with (1 * 2 ^ 7 + m) by lia. split.
  - change 0x7f with (Z.ones 7). rewrite Z.land_ones, Z.add_comm, Z.mod_add by lia. by apply Z.mod_small.
  - apply Z.eqb_neq. intros E.
    assert (X : Z.testbit (Z.land (1 * 2 ^ 7 + m) 0x80) 7 = false) by by rewrite E.
    rewrite Z.land_spec, andb_true_r in X. change 7 with (0 + 7) in X at 2.
    rewrite <- Z.div_pow2_bits in X by lia. by rewrite Z.div_add_l, (Z.div_small m) in X by lia.
Qed.

Lemma read_uleb_from n : ∀ fuel v p r o s,
  (n ≤ fuel)%nat → (0 < n)%nat → 0 ≤ v < 2 ^ (7 * Z.of_nat n) → 0 ≤ o → 0 ≤ r < 2 ^ o → v * 2 ^ o < 2 ^ 64 →
  bytes_at mem p (uleb n v) →
  loop fuel (λ a,
    let '(p, result, offset) := a in
    let! b := load mem 1 p in
    let chunk := Z.land b 0x7f in
    let result := Z.lor result (u64 (chunk ≪ offset)) in
    let p' := u64 (p + 1) in
    if Z.land b 0x80 =? 0 then ret (inr (result, p')) else ret (inl (p', result, offset + 7))) (p, r, o) s
  = Ret ((r + v * 2 ^ o, u64 (p + zlen (uleb n v))), s).
Proof.
  induction n as [|n IH]; intros fuel v p r o s Hf Hn Hv Ho Hr Hlt Hb; [lia|].
  destruct fuel as [|fuel]; [lia|]. cbn [loop uleb] in *.
  destruct (Z.ltb_spec v 128) as [Hs|Hs].
  - unfold bind. rewrite (load_byte _ _ _ _ Hb).
    destruct (chunk_last v) as [-> ->]; [lia|].
    cbn. rewrite add_chunk by lia. done.
  - assert (Hd := Z.div_mod v 128 ltac:(lia)). assert (Hm := Z.mod_pos_bound v 128 ltac:(lia)).
    unfold bind at 1 2. rewrite (load_byte _ _ _ _ Hb).
    destruct (chunk_more (v mod 128)) as [-> ->]; [lia|].
    unfold ret at 1. cbn iota.
    rewrite add_chunk by nia. rewrite (IH _ (v / 128)).
    + f_equal. f_equal. f_equal; [|apply u64_cons].
      rewrite Z.pow_add_r by lia. change (2 ^ 7) with 128. nia.
    + lia.
    + destruct n; [|lia]. exfalso. change (2 ^ (7 * Z.of_nat 1)) with 128 in Hv. lia.
    + split; [nia|]. apply Z.div_lt_upper_bound; [lia|].
      replace (7 * Z.of_nat (Datatypes.S n)) with (7 + 7 * Z.of_nat n) in Hv by lia.
      rewrite Z.pow_add_r in Hv by lia. change (2 ^ 7) with 128 in Hv. lia.
    + lia.
    + rewrite Z.pow_add_r by lia. change (2 ^ 7) with 128. nia.
    + rewrite Z.pow_add_r by lia. change (2 ^ 7) with 128. nia.
    + by eapply bytes_at_tail.
Qed.

(** Reading gives the value back, and the address after it. *)
Lemma read_uleb fuel v p s :
  (10 ≤ fuel)%nat → 0 ≤ v < 2 ^ 64 → bytes_at mem p (uleb128 v) →
  frida_read_uleb128 mem fuel p s = Ret ((v, u64 (p + zlen (uleb128 v))), s).
Proof.
  intros Hf Hv Hb. unfold frida_read_uleb128. unfold uleb128 in *. rewrite (read_uleb_from 10 _ v).
  - do 3 f_equal. lia.
  - lia.
  - lia.
  - change (2 ^ (7 * Z.of_nat 10)) with (2 ^ 70). lia.
  - lia.
  - lia.
  - lia.
  - done.
Qed.
End reading.

(** ** Nodes *)
(** What a node exports, its flags, address and whatever follows, and the edges to
    its children: a label and the offset of the child in the trie. *)
Record node := mk_node { nd_export : option (Z * Z * list Z); nd_children : list (list Z * Z) }.

Definition encode_export (x : option (Z * Z * list Z)) : list Z :=
  match x with
  | None => []
  | Some (flags, address, extra) => uleb128 flags ++ uleb128 address ++ extra
  end.
Definition encode_edge (c : list Z * Z) : list Z := (c.1 ++ [0]) ++ uleb128 c.2.
Definition encode_node (n : node) : list Z :=
  uleb128 (zlen (encode_export (nd_export n))) ++ encode_export (nd_export n) ++
  [zlen (nd_children n)] ++ concat (encode_edge <$> nd_children n).

(** Labels are nonempty strings, no two of a node start with the same character. *)
Definition label_ok (e : list Z) : Prop := e ≠ [] ∧ Forall (λ b, b ≠ 0) e.
Record node_ok (n : node) : Prop := {
  no_export : ∀ f a x, nd_export n = Some (f, a, x) →
    0 ≤ f < 2 ^ 64 ∧ 0 ≤ a < 2 ^ 64 ∧ zlen (encode_export (nd_export n)) < 2 ^ 63;
  no_labels : Forall (λ c : list Z * Z, label_ok c.1 ∧ 0 < c.2 < 2 ^ 64) (nd_children n);
  no_heads : NoDup ((λ c : list Z * Z, head c.1) <$> nd_children n);
  no_count : zlen (nd_children n) < 256
}.

(** A trie at [exports]: the nodes by their offsets. *)
Record trie_at (mem : Z → option Z) (exports : Z) (nodes : gmap Z node) : Prop := {
  tr_bytes : ∀ off n, nodes !! off = Some n → bytes_at mem (exports + off) (encode_node n);
  tr_addr : ∀ off n, nodes !! off = Some n → 0 < exports + off < 2 ^ 64;
  tr_ok : ∀ off n, nodes !! off = Some n → node_ok n;
  tr_child : ∀ off n e o, nodes !! off = Some n → (e, o) ∈ nd_children n → is_Some (nodes !! o)
}.

(** The names below a node with their addresses. *)
Inductive exported (nodes : gmap Z node) : Z → list Z → Z → Prop :=
| exported_here off n f a x :
    nodes !! off = Some n → nd_export n = Some (f, a, x) → exported nodes off [] a
| exported_below off n e o rest a :
    nodes !! off = Some n → (e, o) ∈ nd_children n → exported nodes o rest a →
    exported nodes off (e ++ rest) a.

Section edges.
Context {S : Type} (mem : Z → option Z) (fuel : nat).
Implicit Types (s : S).

Lemma skip_edge e : ∀ k name cur p s,
  (length e < k)%nat → Forall (λ b, b ≠ 0) e → bytes_at mem p (e ++ [0]) →
  loop k (λ a,
    let '(p, matching_edge, symbol_cur) := a in
    let! c := load mem 1 p in
    if c =? 0 then ret (inr (u64 (p + 1), matching_edge, symbol_cur))
    else if matching_edge : bool then
      ret (inl (u64 (p + 1), c =? znth name symbol_cur, symbol_cur + 1))
    else ret (inl (u64 (p + 1), false, symbol_cur))) (p, false, cur) s
  = Ret ((u64 (p + zlen (e ++ [0])), false, cur), s).
Proof.
  induction e as [|c e IH]; intros k name cur p s Hk He Hb; (destruct k as [|k]; [cbn in Hk; lia|]);
    cbn [loop]; unfold bind at 1 2; rewrite (load_byte _ _ _ _ _ Hb); [done|].
  apply Forall_cons in He as [Hc He]. rewrite (proj2 (Z.eqb_neq c 0)) by done.
  unfold ret at 1. cbn iota. rewrite IH; [|cbn in Hk; lia|done|by eapply bytes_at_tail].
  by rewrite u64_cons with (b := c).
Qed.

Lemma znth_at pre (x : Z) rest : znth (pre ++ x :: rest) (zlen pre) = x.
Proof. rewrite <- (Z.add_0_r (zlen pre)). by rewrite znth_app_r. Qed.

(** One edge: whether its label is a prefix of what is left of the name. *)
Lemma match_edge_from e : ∀ k pre rest p s,
  (length e < k)%nat → Forall (λ b, b ≠ 0) e → bytes_at mem p (e ++ [0]) →
  ∃ cur, loop k (λ a,
    let '(p, matching_edge, symbol_cur) := a in
    let! c := load mem 1 p in
    if c =? 0 then ret (inr (u64 (p + 1), matching_edge, symbol_cur))
    else if matching_edge : bool then
      ret (inl (u64 (p + 1), c =? znth ((pre ++ rest) ++ [0]) symbol_cur, symbol_cur + 1))
    else ret (inl (u64 (p + 1), false, symbol_cur))) (p, true, zlen pre) s
  = Ret ((u64 (p + zlen (e ++ [0])), bool_decide (e `prefix_of` rest), cur), s)
  ∧ (e `prefix_of` rest → cur = zlen pre + zlen e).
Proof.
  induction e as [|c e IH]; intros k pre rest p s Hk He Hb; (destruct k as [|k]; [cbn in Hk; lia|]);
    cbn [loop]; unfold bind at 1 2; rewrite (load_byte _ _ _ _ _ Hb).
  { exists (zlen pre). rewrite bool_decide_eq_true_2 by apply prefix_nil. split; [done|]. by rewrite Z.add_0_r. }
  apply Forall_cons in He as [Hc He]. rewrite (proj2 (Z.eqb_neq c 0)) by done.
  unfold ret at 1. cbn iota. rewrite <- app_assoc.
  assert (Hk' : (length e < k)%nat) by (cbn in Hk; lia). apply bytes_at_tail in Hb.
  destruct rest as [|x rest]; [|destruct (decide (c = x)) as [<-|Hne]].
  - cbn [app]. rewrite znth_at. rewrite (proj2 (Z.eqb_neq c 0)) by done.
    exists (zlen pre + 1). rewrite (skip_edge e) by done. rewrite u64_cons with (b := c). split.
    + by rewrite bool_decide_eq_false_2 by apply prefix_nil_not.
    + intros X. by apply prefix_nil_not in X.
  - cbn [app]. rewrite znth_at, Z.eqb_refl.
    destruct (IH k (pre ++ [c]) rest _ s Hk' He Hb) as (cur & E & Hcur).
    exists cur. replace (zlen pre + 1) with (zlen (pre ++ [c])) by (rewrite zlen_app; done).
    replace (pre ++ c :: rest ++ [0]) with (((pre ++ [c]) ++ rest) ++ [0]) by by rewrite <- !app_assoc.
    rewrite E, u64_cons with (b := c). split.
    + do 3 f_equal. f_equal. apply bool_decide_ext. split; [apply prefix_cons|apply prefix_cons_inv_2].
    + intros X%prefix_cons_inv_2. rewrite Hcur by done. rewrite zlen_app, !zlen_cons, zlen_nil. lia.
  - cbn [app]. rewrite znth_at, (proj2 (Z.eqb_neq c x)) by done.
    exists (zlen pre + 1). rewrite (skip_edge e) by done. rewrite u64_cons with (b := c). split.
    + rewrite bool_decide_eq_false_2; [done|]. by intros X%prefix_cons_inv_1.
    + by intros X%prefix_cons_inv_1.
Qed.

(** The children: the first edge whose label is a prefix of what is left. *)
Lemma find_child_from cs : ∀ pre rest p s,
  (10 ≤ fuel)%nat → Forall (λ c : list Z * Z, length c.1 < fuel)%nat cs →
  Forall (λ c : list Z * Z, label_ok c.1 ∧ 0 < c.2 < 2 ^ 64) cs →
  bytes_at mem p (concat (encode_edge <$> cs)) →
  find_child mem fuel (length cs) ((pre ++ rest) ++ [0]) (zlen pre) p s =
  Ret ((λ ic, (ic.2.2, zlen pre + zlen ic.2.1)) <$> list_find (λ c : list Z * Z, c.1 `prefix_of` rest) cs, s).
Proof.
  induction cs as [|[e o] cs IH]; intros pre rest p s Hf Hl Hok Hb; [done|].
  apply Forall_cons in Hl as [Hl1 Hl]. apply Forall_cons in Hok as [[[Hne He] Ho] Hok]. cbn in Hl1, Hne, He, Ho.
  cbn [length find_child]. rewrite fmap_cons, concat_cons in Hb. unfold encode_edge at 1 in Hb.
  cbn [fst snd] in Hb. rewrite <- app_assoc in Hb.
  destruct (match_edge_from e fuel pre rest p s Hl1 He (bytes_at_front mem _ _ _ Hb)) as (cur & E & Hcur).
  apply bytes_at_rest in Hb. unfold match_edge. unfold bind at 1. rewrite E. unfold bind at 1.
  rewrite (read_uleb mem fuel o) by (done || lia || by eapply bytes_at_front).
  apply bytes_at_rest in Hb. cbn [fst snd].
  destruct (decide (e `prefix_of` rest)) as [Hp|Hp].
  - rewrite bool_decide_eq_true_2 by done. rewrite Hcur by done.
    cbn [list_find fst]. by rewrite decide_True.
  - rewrite bool_decide_eq_false_2 by done. rewrite IH by done.
    cbn [list_find fst]. rewrite decide_False by done. by destruct (list_find _ cs) as [[? ?]|].
Qed.
End edges.

(** ** The table decides what a name means *)
Section nodes.
Context {mem : Z → option Z} {exports : Z} {nodes : gmap Z node} (Ht : trie_at mem exports nodes).

(** Two labels that begin what is left of a name belong to one edge. *)
Lemma same_edge off n e o e' o' rest :
  nodes !! off = Some n → (e, o) ∈ nd_children n → (e', o') ∈ nd_children n →
  e `prefix_of` rest → e' `prefix_of` rest → e = e' ∧ o = o'.
Proof.
  intros Hn H1 H2 [r1 E1] [r2 E2]. destruct (tr_ok _ _ _ Ht _ _ Hn) as [_ Hlab Hh _].
  rewrite Forall_forall in Hlab.
  destruct (Hlab _ H1) as [[Hne1 _] _], (Hlab _ H2) as [[Hne2 _] _]. cbn in *.
  apply list_elem_of_lookup in H1 as [i Hi]. apply list_elem_of_lookup in H2 as [j Hj].
  assert (i = j) as <-; [|by simplify_eq].
  eapply NoDup_lookup; [exact Hh| |]; rewrite list_lookup_fmap; [by rewrite Hi|].
  rewrite Hj. cbn. destruct e as [|b e], e' as [|b' e']; try done. cbn.
  rewrite E1 in E2. by injection E2 as -> _.
Qed.

Lemma exported_nil off n a :
  nodes !! off = Some n → exported nodes off [] a ↔ ∃ f x, nd_export n = Some (f, a, x).
Proof.
  intros Hn. split; [|intros (f & x & E); by eapply exported_here].
  remember [] as l eqn:El. intros H. destruct H as [off n' f a x Hn' E|off n' e o rest a Hn' He _].
  { simplify_eq. by eauto. }
  apply app_eq_nil in El as [-> _].
  pose proof (no_labels _ (tr_ok _ _ _ Ht _ _ Hn')) as X. rewrite Forall_forall in X.
  by destruct (X _ He) as [[? _] _].
Qed.
Lemma exported_step off n e o rest a :
  nodes !! off = Some n → (e, o) ∈ nd_children n →
  exported nodes off (e ++ rest) a ↔ exported nodes o rest a.
Proof.
  intros Hn He. split; [|by eapply exported_below].
  remember (e ++ rest) as l eqn:El.
  intros H. destruct H as [off n' f a x Hn' E|off n' e' o' rest' a Hn' He' Hr]; simplify_eq.
  - symmetry in El. apply app_eq_nil in El as [-> _].
    pose proof (no_labels _ (tr_ok _ _ _ Ht _ _ Hn)) as X. rewrite Forall_forall in X.
    by destruct (X _ He) as [[? _] _].
  - destruct (same_edge off n e o e' o' (e ++ rest)) as [<- <-]; try done.
    + by exists rest.
    + rewrite <- El. by exists rest'.
    + apply app_inv_head in El. by subst.
Qed.
Lemma exported_none off n rest a :
  nodes !! off = Some n → rest ≠ [] → Forall (λ c : list Z * Z, ¬ c.1 `prefix_of` rest) (nd_children n) →
  ¬ exported nodes off rest a.
Proof.
  intros Hn Hne Hall. rewrite Forall_forall in Hall.
  intros H. destruct H as [|off n' e o r a Hn' He _]; simplify_eq. eapply (Hall _ He). by exists r.
Qed.
End nodes.

Section find.
Context {S : Type} {mem : Z → option Z} {exports : Z} {nodes : gmap Z node}.
Context (Ht : trie_at mem exports nodes).
Context (fuel : nat) (Hfuel : (10 ≤ fuel)%nat).
Context (Hedges : ∀ off n, nodes !! off = Some n → Forall (λ c : list Z * Z, length c.1 < fuel)%nat (nd_children n)).
Implicit Types (s : S).

Definition answers (off : Z) (rest : list Z) (r : Z) : Prop :=
  exported nodes off rest r ∨ (r = 0 ∧ ∀ a, ¬ exported nodes off rest a).

Lemma export_size n : node_ok n → 0 ≤ zlen (encode_export (nd_export n)) < 2 ^ 64.
Proof.
  intros [He _ _ _]. destruct (nd_export n) as [[[f a] x]|]; [|done].
  destruct (He f a x eq_refl) as (_ & _ & H). split; [apply zlen_nonneg|]. lia.
Qed.
Lemma uleb128_nonempty v : zlen (uleb128 v) ≠ 0.
Proof. intros E%zlen_nil_inv. unfold uleb128 in E. cbn [uleb] in E. by case_match. Qed.

Definition trie_step (name : list Z) : Z * Z → M S (Z * Z + Z) := λ a,
    let '(s, p) := a in
    if p =? 0 then ret (inr 0)
    else
      let! t := frida_read_uleb128 mem fuel p in
      let '(terminal_size, p) := t in
      if andb (znth name s =? 0) (negb (terminal_size =? 0)) then
        let! flags := frida_read_uleb128 mem fuel p in
        let! address := frida_read_uleb128 mem fuel flags.2 in
        ret (inr address.1)
      else
        let children := u64 (p + terminal_size) in
        let! child_count := load mem 1 children in
        let! c := find_child mem fuel (Z.to_nat child_count) name s (u64 (children + 1)) in
        match c with
        | Some (node_offset, s') =>
            ret (inl (s', if negb (node_offset =? 0) then u64 (exports + node_offset) else 0))
        | None => ret (inl (s, 0))
        end.

(** The part of an iteration after the exported symbol. *)
Lemma trie_children pre rest off n c s :
  nodes !! off = Some n →
  bytes_at mem c ([zlen (nd_children n)] ++ concat (encode_edge <$> nd_children n)) →
  (let! child_count := load mem 1 c in
   let! c := find_child mem fuel (Z.to_nat child_count) ((pre ++ rest) ++ [0]) (zlen pre) (u64 (c + 1)) in
   match c with
   | Some (node_offset, s') =>
       ret (inl (s', if negb (node_offset =? 0) then u64 (exports + node_offset) else 0))
   | None => ret (inl (zlen pre, 0))
   end) s =
  Ret (match list_find (λ c : list Z * Z, c.1 `prefix_of` rest) (nd_children n) with
       | Some (_, (e, o)) => inl (zlen (pre ++ e), exports + o)
       | None => inl (zlen pre, 0)
       end : Z * Z + Z, s).
Proof.
  intros Hn Hc. destruct Ht as [_ Ha Hok Hch]. pose proof (Hok _ _ Hn) as Hno.
  unfold bind at 1. rewrite (load_byte mem _ _ _ _ Hc). unfold zlen at 1. rewrite Nat2Z.id.
  unfold bind at 1. rewrite find_child_from; cycle 1.
  { done. } { by eapply Hedges. } { apply Hno. } { by eapply bytes_at_tail. }
  destruct (list_find _ _) as [[i [e o]]|] eqn:Ef; [|done].
  apply list_find_Some in Ef as (Hi & _ & _). apply list_elem_of_lookup_2 in Hi.
  pose proof (no_labels n Hno) as X. rewrite Forall_forall in X. destruct (X _ Hi) as [_ Ho]. cbn in Ho.
  destruct (Hch _ _ _ _ Hn Hi) as [m Hm]. pose proof (Ha _ _ Hm).
  cbn [fmap option_fmap option_map fst snd]. rewrite (proj2 (Z.eqb_neq o 0)) by lia.
  cbn [negb]. rewrite u64_small by lia. by rewrite zlen_app.
Qed.

(** One iteration, at a node: it exports the name, or the search goes on below the
    edge that begins the rest of the name, or it ends. *)
Lemma trie_step_node pre rest off n s :
  Forall (λ b, b ≠ 0) rest → nodes !! off = Some n →
  trie_step ((pre ++ rest) ++ [0]) (zlen pre, exports + off) s =
  Ret (match nd_export n, rest with
       | Some (_, a, _), [] => inr a
       | _, _ =>
           match list_find (λ c : list Z * Z, c.1 `prefix_of` rest) (nd_children n) with
           | Some (_, (e, o)) => inl (zlen (pre ++ e), exports + o)
           | None => inl (zlen pre, 0)
           end
       end, s).
Proof.
  intros Hr Hn. destruct Ht as [Hb Ha Hok Hch].
  specialize (Hb _ _ Hn). pose proof (Ha _ _ Hn) as Hao. pose proof (Hok _ _ Hn) as Hno.
  pose proof (export_size n Hno) as Hsz. unfold encode_node in Hb.
  unfold trie_step. rewrite (proj2 (Z.eqb_neq _ 0)) by lia. unfold bind at 1.
  rewrite (read_uleb mem fuel _ _ _ Hfuel Hsz) by by eapply bytes_at_front.
  apply bytes_at_rest in Hb. set (p1 := u64 _) in Hb |- *.
  assert (Hcur : (znth ((pre ++ rest) ++ [0]) (zlen pre) =? 0) = bool_decide (rest = [])).
  { rewrite <- app_assoc. destruct rest as [|b rest]; cbn [app]; rewrite znth_at; [done|].
    apply Forall_cons in Hr as [Hr _]. by apply Z.eqb_neq. }
  rewrite Hcur. pose proof (bytes_at_rest _ _ _ _ Hb) as Hc.
  destruct (nd_export n) as [[[f a] x]|] eqn:Ex.
  - destruct (no_export n Hno f a x Ex) as (Hf & Hx & _).
    destruct rest as [|b rest]; [|by apply (trie_children pre (b :: rest) off)].
    rewrite (proj2 (Z.eqb_neq _ 0)); cycle 1.
    { cbn [encode_export]. pose proof (uleb128_nonempty f). zlia. }
    rewrite bool_decide_eq_true_2 by done. cbn [andb negb encode_export] in Hb |- *. unfold bind at 1.
    rewrite <- app_assoc in Hb.
    rewrite (read_uleb mem fuel f) by (done || by eapply bytes_at_front). cbn [snd].
    apply bytes_at_rest in Hb. rewrite <- app_assoc in Hb. unfold bind.
    by rewrite (read_uleb mem fuel a) by (done || by eapply bytes_at_front).
  - rewrite andb_false_r. by apply (trie_children pre rest off).
Qed.

(** The search from a node, with what is left of the name. *)
Lemma trie_find_from k : ∀ pre rest off s,
  (length rest + 1 < k)%nat → Forall (λ b, b ≠ 0) rest → is_Some (nodes !! off) →
  ∃ r, loop k (trie_step ((pre ++ rest) ++ [0])) (zlen pre, exports + off) s = Ret (r, s) ∧
       answers off rest r.
Proof.
  induction k as [|k IH]; intros pre rest off s Hk Hr [n Hn]; [lia|].
  cbn [loop]. unfold bind. rewrite trie_step_node with (n := n) by done.
  assert (Hnone : list_find (λ c : list Z * Z, c.1 `prefix_of` rest) (nd_children n) = None →
    nd_export n = None ∨ rest ≠ [] →
    ∃ r, loop k (trie_step ((pre ++ rest) ++ [0])) (zlen pre, 0) s = Ret (r, s) ∧ answers off rest r).
  { intros Hnf Hcase. exists 0. destruct k as [|k]; [lia|]. split; [done|]. right. split; [done|].
    intros a. destruct rest as [|b rest].
    - rewrite (exported_nil Ht) by done. destruct Hcase as [-> | ?]; [|done]. by intros (? & ? & ?).
    - apply list_find_None in Hnf. by apply (exported_none off n). }
  assert (Hgo : ∀ e o i, list_find (λ c : list Z * Z, c.1 `prefix_of` rest) (nd_children n) = Some (i, (e, o)) →
    ∃ r, loop k (trie_step ((pre ++ rest) ++ [0])) (zlen (pre ++ e), exports + o) s = Ret (r, s) ∧ answers off rest r).
  { intros e o i Hf. apply list_find_Some in Hf as (Hi & [rest' ->] & _). apply list_elem_of_lookup_2 in Hi.
    apply Forall_app in Hr as [_ Hr].
    pose proof (no_labels n (tr_ok _ _ _ Ht _ _ Hn)) as X. rewrite Forall_forall in X.
    destruct (X _ Hi) as [[Hne _] _]. cbn in Hne, Hk. rewrite length_app in Hk.
    destruct (IH (pre ++ e) rest' o s) as (r & E & Ha).
    { destruct e; [done|]. cbn in Hk. lia. } { done. } { by eapply (tr_child _ _ _ Ht). }
    exists r. rewrite (app_assoc pre e). split; [done|]. unfold answers in *.
    setoid_rewrite (exported_step Ht off n e o); done. }
  destruct (nd_export n) as [[[f a] x]|] eqn:Ex.
  - destruct rest as [|b rest].
    + exists a. split; [done|]. left. by eapply exported_here.
    + destruct (list_find _ _) as [[i [e o]]|]; [by eapply Hgo|]. by apply Hnone; [|right].
  - destruct (list_find _ _) as [[i [e o]]|]; [by eapply Hgo|]. by apply Hnone; [|left].
Qed.

Lemma exports_trie_find_answers name s :
  (length name + 1 < fuel)%nat → Forall (λ b, b ≠ 0) name → is_Some (nodes !! 0) →
  ∃ r, frida_exports_trie_find mem fuel exports (name ++ [0]) s = Ret (r, s) ∧ answers 0 name r.
Proof.
  intros Hl Hz H0. destruct (trie_find_from fuel [] name 0 s Hl Hz H0) as (r & E & Ha).
  exists r. split; [|done]. rewrite <- E, Z.add_0_r. done.
Qed.
End find.
