(* ===== verification/SymbolText.v ===== *)
(** The text that symbol-fetcher.c writes and src/src/fruity/injector.vala reads: the
    local symbols of dyld that the injector is interested in, a line each, and the
    size of dyld. *)
From S2P Require Import Prelude ElfParser ElfCorrect MachO ExportsTrie.

(** ** The reader: fetch_dyld_symbols of injector.vala
    [string.split] at a character. *)
Fixpoint split_at (c : Z) (text : list Z) : list (list Z) :=
  match text with
  | [] => [[]]
  | b :: text =>
      if b =? c then [] :: split_at c text
      else
        match split_at c text with
        | [] => [[b]]
        | l :: ls => (b :: l) :: ls
        end
  end.
(** [split ("\t", 2)]: at the first one only. *)
Fixpoint split_first (c : Z) (text : list Z) : list (list Z) :=
  match text with
  | [] => [[]]
  | b :: text =>
      if b =? c then [[]; text]
      else
        match split_first c text with
        | [] => [[b]]
        | l :: ls => (b :: l) :: ls
        end
  end.
Definition hex_digit (c : Z) : option Z :=
  if (48 <=? c) && (c <=? 57) then Some (c - 48)
  else if (97 <=? c) && (c <=? 102) then Some (c - 87)
  else if (65 <=? c) && (c <=? 70) then Some (c - 55)
  else None.
(** [uint64.from_string (s, out value, 16)]: digits only, and the value has to fit. *)
Fixpoint hex_from (acc : Z) (l : list Z) : option Z :=
  match l with
  | [] => if acc <? 2 ^ 64 then Some acc else None
  | c :: l => d ← hex_digit c; hex_from (16 * acc + d) l
  end.
Definition uint64_from_string (l : list Z) : option Z :=
  match l with
  | [] => None
  | _ => hex_from 0 l
  end.
(** The lines as pairs of name and address, or [None] where the reader gives up. *)
Definition read_line (line : list Z) : option (list Z * option Z) :=
  match split_first 9 line with
  | [raw_address; name] => Some (name, uint64_from_string raw_address)
  | _ => None
  end.
Definition read_symbols (output_str : list Z) : option (list (list Z * option Z)) :=
  mapM read_line (split_at 10 output_str).

(** ** Numbers *)
Fixpoint hex_of (n : nat) (v : Z) : list Z :=
  match n with
  | O => []
  | Datatypes.S n => znth nibble_to_hex_char (Z.land (v ≫ (4 * Z.of_nat n)) 0xf) :: hex_of n v
  end.
Lemma hex_digit_nibble d : 0 ≤ d < 16 → hex_digit (znth nibble_to_hex_char d) = Some d.
Proof.
  intros Hd. assert (H : forallb (λ i, bool_decide (hex_digit (znth nibble_to_hex_char (Z.of_nat i)) = Some (Z.of_nat i)))
    (seq 0 16) = true) by by vm_compute.
  rewrite forallb_forall in H. specialize (H (Z.to_nat d)). rewrite bool_decide_eq_true in H.
  rewrite Z2Nat.id in H by lia. apply H, in_seq. lia.
Qed.
Lemma append_nibbles_found n v : ∀ out, append_nibbles n true v out = (true, out ++ hex_of n v).
Proof.
  induction n as [|n IH]; intros out; cbn [append_nibbles hex_of]; [by rewrite app_nil_r|].
  cbn zeta. cbn [orb]. rewrite IH. by rewrite <- app_assoc.
Qed.
Lemma nibble_range v k : 0 ≤ Z.land (v ≫ k) 0xf < 16.
Proof. change 0xf with (Z.ones 4). rewrite Z.land_ones by done. by apply Z.mod_pos_bound. Qed.
Lemma nibble_split v n : 0 ≤ v →
  v mod 2 ^ (4 * Z.of_nat (S n)) =
  Z.land (v ≫ (4 * Z.of_nat n)) 0xf * 2 ^ (4 * Z.of_nat n) + v mod 2 ^ (4 * Z.of_nat n).
Proof.
  intros Hv. change 0xf with (Z.ones 4). rewrite Z.land_ones, Z.shiftr_div_pow2 by lia.
  replace (4 * Z.of_nat (S n)) with (4 * Z.of_nat n + 4) by lia. rewrite Z.pow_add_r by lia.
  rewrite Z.rem_mul_r by lia. lia.
Qed.
Lemma hex_from_of n v : ∀ acc, 0 ≤ v → 0 ≤ acc → acc * 2 ^ (4 * Z.of_nat n) + v mod 2 ^ (4 * Z.of_nat n) < 2 ^ 64 →
  hex_from acc (hex_of n v) = Some (acc * 2 ^ (4 * Z.of_nat n) + v mod 2 ^ (4 * Z.of_nat n)).
Proof.
  induction n as [|n IH]; intros acc Hv Ha Hlt.
  - cbn [hex_from hex_of]. change (2 ^ (4 * Z.of_nat 0)) with 1 in *. rewrite Z.mod_1_r in *.
    rewrite (proj2 (Z.ltb_lt acc _)) by lia. f_equal. lia.
  - cbn [hex_from hex_of]. pose proof (nibble_range v (4 * Z.of_nat n)) as Hn.
    rewrite hex_digit_nibble by done. cbn [mbind option_bind].
    rewrite nibble_split in * by done.
    replace (2 ^ (4 * Z.of_nat (S n))) with (16 * 2 ^ (4 * Z.of_nat n)) in *
      by (replace (4 * Z.of_nat (S n)) with (4 + 4 * Z.of_nat n) by lia; rewrite Z.pow_add_r by lia; done).
    rewrite IH by nia. f_equal. lia.
Qed.
(** What is written of a number: no leading zeros, and it reads back. *)
Lemma append_nibbles_none n v : ∀ out, 0 ≤ v →
  ∃ ds, append_nibbles n false v out = (bool_decide (ds ≠ []), out ++ ds) ∧
        hex_from 0 ds = hex_from 0 (hex_of n v) ∧ (ds = [] → v mod 2 ^ (4 * Z.of_nat n) = 0).
Proof.
  induction n as [|n IH]; intros out Hv.
  { exists []. cbn. by rewrite app_nil_r, Z.mod_1_r. }
  cbn [append_nibbles]. cbn zeta. cbn [orb]. pose proof (nibble_range v (4 * Z.of_nat n)) as Hr.
  destruct (Z.eqb_spec (Z.land (v ≫ (4 * Z.of_nat n)) 0xf) 0) as [E|E]; cbn [negb].
  - destruct (IH out Hv) as (ds & Eds & Hh & Hnil). exists ds. split; [done|]. split.
    + rewrite Hh. cbn [hex_of hex_from]. rewrite hex_digit_nibble by done. by rewrite E.
    + intros X. rewrite nibble_split, E, (Hnil X) by done. done.
  - exists (hex_of (S n) v). rewrite append_nibbles_found. split; [|done].
    rewrite bool_decide_eq_true_2 by done. cbn [hex_of]. by rewrite <- app_assoc.
Qed.
Lemma append_uint64_read_back out v : 0 ≤ v < 2 ^ 64 →
  ∃ ds, frida_append_uint64 out v = out ++ ds ∧ uint64_from_string ds = Some v.
Proof.
  intros Hv. unfold frida_append_uint64.
  destruct (append_nibbles_none 16 v out) as (ds & -> & Hh & Hnil); [lia|].
  assert (Hm : v mod 2 ^ (4 * Z.of_nat 16) = v) by (apply Z.mod_small; done).
  destruct ds as [|d ds].
  - exists [48]. rewrite Hm in Hnil. rewrite Hnil by done. by rewrite app_nil_r.
  - exists (d :: ds). split; [done|]. unfold uint64_from_string. rewrite Hh, hex_from_of by lia.
    f_equal. rewrite Hm. lia.
Qed.
Lemma append_uint64_app out v : frida_append_uint64 out v = out ++ frida_append_uint64 [] v.
Proof.
  assert (H : ∀ n found out, append_nibbles n found v out =
    ((append_nibbles n found v []).1, out ++ (append_nibbles n found v []).2)).
  { induction n as [|n IH]; intros found o; cbn [append_nibbles]; [by rewrite app_nil_r|]. cbn zeta.
    destruct (found || _); [|apply IH]. cbn [app]. rewrite (IH true (o ++ _)), (IH true [_]).
    cbn [fst snd]. by rewrite <- app_assoc. }
  unfold frida_append_uint64. rewrite H. destruct (append_nibbles 16 false v []) as [[] ds]; cbn [fst snd negb]; [done|].
  by rewrite app_assoc.
Qed.
Lemma hex_from_digits l : ∀ acc v, hex_from acc l = Some v → Forall (λ c, 48 ≤ c) l.
Proof.
  induction l as [|c l IH]; intros acc v E; [constructor|]. cbn in E.
  apply bind_Some in E as (d & Ed & E). constructor; [|by eapply IH]. unfold hex_digit in Ed.
  repeat case_match; simplify_eq; rewrite ?andb_true_iff, ?Z.leb_le in *; lia.
Qed.
Lemma append_uint64_digits v : 0 ≤ v < 2 ^ 64 →
  uint64_from_string (frida_append_uint64 [] v) = Some v ∧ Forall (λ c, 48 ≤ c) (frida_append_uint64 [] v).
Proof.
  intros Hv. destruct (append_uint64_read_back [] v Hv) as (ds & -> & E). split; [done|].
  destruct ds; [done|]. by eapply hex_from_digits.
Qed.

(** ** Lines *)
Fixpoint join (c : Z) (ls : list (list Z)) : list Z :=
  match ls with
  | [] => []
  | [l] => l
  | l :: ls => l ++ c :: join c ls
  end.
Lemma split_at_none c l : c ∉ l → split_at c l = [l].
Proof.
  induction l as [|b l IH]; intros H; [done|]. cbn. apply not_elem_of_cons in H as [Hb Hl].
  rewrite (proj2 (Z.eqb_neq b c)) by congruence. by rewrite IH.
Qed.
Lemma split_at_app c l r : c ∉ l → split_at c (l ++ c :: r) = l :: split_at c r.
Proof.
  induction l as [|b l IH]; intros H; cbn; [by rewrite Z.eqb_refl|].
  apply not_elem_of_cons in H as [Hb Hl]. rewrite (proj2 (Z.eqb_neq b c)) by congruence. by rewrite IH.
Qed.
Lemma split_at_join c ls : ls ≠ [] → Forall (λ l, c ∉ l) ls → split_at c (join c ls) = ls.
Proof.
  induction ls as [|l ls IH]; intros Hne H; [done|]. apply Forall_cons in H as [Hl H].
  destruct ls as [|l' ls]; [by apply split_at_none|]. cbn [join]. rewrite split_at_app by done.
  f_equal. by apply IH.
Qed.
Lemma split_first_app c l r : c ∉ l → split_first c (l ++ c :: r) = [l; r].
Proof.
  induction l as [|b l IH]; intros H; cbn; [by rewrite Z.eqb_refl|].
  apply not_elem_of_cons in H as [Hb Hl]. rewrite (proj2 (Z.eqb_neq b c)) by congruence. by rewrite IH.
Qed.
Lemma join_snoc c ls l : ls ≠ [] → join c (ls ++ [l]) = join c ls ++ c :: l.
Proof.
  induction ls as [|x ls IH]; intros Hne; [done|]. destruct ls as [|y ls]; [done|].
  cbn [app join] in *. rewrite IH by done. by rewrite <- app_assoc.
Qed.

Definition symbol_line (address : Z) (name : list Z) : list Z :=
  frida_append_uint64 [] address ++ 9 :: name.
Lemma read_symbol_line address name : 0 ≤ address < 2 ^ 64 →
  read_line (symbol_line address name) = Some (name, Some address).
Proof.
  intros Ha. destruct (append_uint64_digits address Ha) as [E Hd]. unfold read_line, symbol_line.
  rewrite split_first_app; [by rewrite E|]. intros H. rewrite Forall_forall in Hd. specialize (Hd 9 H). lia.
Qed.
Lemma symbol_line_one_line address name :
  0 ≤ address < 2 ^ 64 → 10 ∉ name → 10 ∉ symbol_line address name.
Proof.
  intros Ha Hn. destruct (append_uint64_digits address Ha) as [_ Hd]. rewrite Forall_forall in Hd.
  unfold symbol_line. rewrite elem_of_app, elem_of_cons. intros [H|[H|H]]; [|done|done].
  specialize (Hd 10 H). lia.
Qed.

(** ** Names in memory *)
Definition string_at (mem : Z → option Z) (a : Z) (name : list Z) : Prop :=
  bytes_at mem a (name ++ [0]) ∧ Forall (λ b, b ≠ 0) name ∧ 0 < a ∧ a + zlen name < 2 ^ 64.
Fixpoint contains (needle name : list Z) : bool :=
  match name with
  | [] => false
  | _ :: rest => bool_decide (needle `prefix_of` name) || contains needle rest
  end.
(** The names frida_fetch_dyld_symbols looks for. *)
Inductive wanted := Contains (t : string) | Equals (t : string) | StartsWith (t : string).
Definition matches (name : list Z) (w : wanted) : bool :=
  match w with
  | Contains t => contains (bytes_of t) name
  | Equals t => bool_decide (name = bytes_of t)
  | StartsWith t => bool_decide (bytes_of t `prefix_of` name)
  end.
Definition wanted_symbols : list wanted :=
  [Contains "libdyld_initialize"; Contains "notifyObjCInit"; Contains "restartWithDyldInCache";
   Equals "_gProcessInfo"; Equals "__ZN5dyld412gProcessInfoE"; Equals "__ZL12sProcessInfo";
   Contains "launchWithClosure"; Contains "initializeMainExecutable"; Contains "registerThreadHelpers";
   StartsWith "_dlopen"; StartsWith "_strcmp"; Contains "doModInitFunctions"; Contains "doGetDOFSections"].
Definition interesting (name : list Z) : bool := existsb (matches name) wanted_symbols.

Section names.
Context {S : Type} (mem : Z → option Z).
Implicit Types (s : S).

Lemma string_at_tail a c name : string_at mem a (c :: name) → string_at mem (a + 1) name.
Proof.
  intros (Hb & Hz & Ha & Hl). apply Forall_cons in Hz as [_ Hz]. rewrite zlen_cons in Hl.
  split_and!; [by apply (bytes_at_app mem a [c])|done|lia|lia].
Qed.
Lemma string_at_first a name s : string_at mem a name → load mem 1 a s = Ret (default 0 (head name), s).
Proof. intros (Hb & _). destruct name; by rewrite (load_byte mem _ _ _ _ Hb). Qed.

Lemma str_equals_spec l : ∀ a name s, Forall (λ b, b ≠ 0) l → string_at mem a name →
  frida_str_equals mem a (l ++ [0]) s = Ret (bool_decide (name = l), s).
Proof.
  induction l as [|b l IH]; intros a name s Hl Hs; cbn [app frida_str_equals]; unfold bind;
    rewrite (string_at_first a name s Hs); destruct name as [|c name]; cbn [head default from_option id].
  - done.
  - destruct Hs as (_ & Hz & _). apply Forall_cons in Hz as [Hc _]. by rewrite (proj2 (Z.eqb_neq c 0)).
  - apply Forall_cons in Hl as [Hb _]. by rewrite (proj2 (Z.eqb_neq 0 b)) by done.
  - apply Forall_cons in Hl as [Hb Hl].
    destruct (Z.eqb_spec c b) as [->|Hne]; cbn [negb].
    + rewrite (proj2 (Z.eqb_neq b 0)) by done. rewrite (IH _ name) by (done || by eapply string_at_tail).
      do 2 f_equal. apply bool_decide_ext. split; [by intros ->|by intros [=]].
    + rewrite bool_decide_eq_false_2; [done|]. by intros [=].
Qed.
Lemma str_has_prefix_spec l : ∀ a name s, Forall (λ b, b ≠ 0) l → string_at mem a name →
  frida_str_has_prefix mem a (l ++ [0]) s = Ret (bool_decide (l `prefix_of` name), s).
Proof.
  induction l as [|b l IH]; intros a name s Hl Hs; cbn [app frida_str_has_prefix].
  { by rewrite bool_decide_eq_true_2 by apply prefix_nil. }
  apply Forall_cons in Hl as [Hb Hl]. rewrite (proj2 (Z.eqb_neq b 0)) by done. unfold bind.
  rewrite (string_at_first a name s Hs). destruct name as [|c name]; cbn [head default from_option id].
  - rewrite (proj2 (Z.eqb_neq 0 b)) by done. by rewrite bool_decide_eq_false_2 by apply prefix_nil_not.
  - destruct (Z.eqb_spec c b) as [->|Hne]; cbn [negb].
    + rewrite (IH _ name) by (done || by eapply string_at_tail). do 2 f_equal.
      apply bool_decide_ext. split; [apply prefix_cons|apply prefix_cons_inv_2].
    + rewrite bool_decide_eq_false_2; [done|]. intros X%prefix_cons_inv_1. congruence.
Qed.
Lemma str_contains_spec needle name : ∀ fuel a s,
  (length name < fuel)%nat → needle ≠ [] → Forall (λ b, b ≠ 0) needle → string_at mem a name →
  frida_str_contains mem fuel a (needle ++ [0]) s = Ret (contains needle name, s).
Proof.
  induction name as [|c name IH]; intros fuel a s Hf Hne Hn Hs; (destruct fuel as [|fuel]; [cbn in Hf; lia|]);
    unfold frida_str_contains, frida_strstr; cbn [loop]; unfold bind at 1 2 3; rewrite (string_at_first _ _ _ Hs);
    cbn [head default from_option id contains]; [done|].
  pose proof Hs as (_ & Hz & Ha & Hlt). apply Forall_cons in Hz as [Hc _]. rewrite zlen_cons in Hlt.
  rewrite (proj2 (Z.eqb_neq c 0)) by done.
  assert (Hgo := IH fuel (a + 1) s ltac:(cbn in Hf; lia) Hne Hn (string_at_tail _ _ _ Hs)).
  unfold frida_str_contains, frida_strstr, bind at 1 in Hgo. zlen_facts.
  rewrite u64_small by lia.
  destruct needle as [|d needle]; [done|].
  assert (Hd : znth ((d :: needle) ++ [0]) 0 = d) by done. rewrite Hd in Hgo |- *.
  destruct (Z.eqb_spec c d) as [->|Hcd].
  - unfold bind at 1. rewrite (str_has_prefix_spec (d :: needle) a (d :: name) s Hn Hs).
    case_bool_decide; [|done]. cbn [orb]. unfold ret. by rewrite (proj2 (Z.eqb_neq a 0)) by lia.
  - rewrite bool_decide_eq_false_2; [done|]. intros X%prefix_cons_inv_1. congruence.
Qed.
Lemma append_string_spec name : ∀ fuel out a s, (length name < fuel)%nat → string_at mem a name →
  frida_append_string mem fuel out a s = Ret (out ++ name, s).
Proof.
  induction name as [|c name IH]; intros fuel out a s Hf Hs; (destruct fuel as [|fuel]; [cbn in Hf; lia|]);
    unfold frida_append_string; cbn [loop]; unfold bind at 1 2; rewrite (string_at_first _ _ _ Hs);
    cbn [head default from_option id]; [by rewrite app_nil_r|].
  pose proof Hs as (_ & Hz & Ha & Hlt). apply Forall_cons in Hz as [Hc _]. rewrite zlen_cons in Hlt.
  rewrite (proj2 (Z.eqb_neq c 0)) by done. zlen_facts. rewrite u64_small by lia.
  etrans; [apply (IH fuel (out ++ [c]) (a + 1) s); [cbn in Hf; lia|by eapply string_at_tail]|].
  by rewrite <- app_assoc.
Qed.

Lemma any_of_spec tests bs s :
  Forall2 (λ (t : M S bool) b, t s = Ret (b, s)) tests bs → any_of tests s = Ret (existsb id bs, s).
Proof.
  induction 1 as [|t b tests bs Ht Hts IH]; [done|]. cbn [any_of existsb]. unfold bind. rewrite Ht.
  by destruct b.
Qed.
Lemma is_interesting_spec fuel a name s :
  (length name < fuel)%nat → string_at mem a name →
  is_interesting mem fuel a s = Ret (interesting name, s).
Proof.
  intros Hf Hs. unfold is_interesting.
  rewrite (any_of_spec _ (matches name <$> wanted_symbols)).
  - done.
  - unfold wanted_symbols, lit. cbn [fmap list_fmap matches].
    repeat constructor; first [apply str_contains_spec | apply str_equals_spec | apply str_has_prefix_spec];
      try done; refine (bool_decide_unpack _ _); by vm_compute.
Qed.
End names.

(** ** The local symbols of dyld *)
Record local_symbol := mk_local {
  l_strx : Z; l_type : Z; l_sect : Z; l_desc : Z; l_value : Z; l_name : list Z
}.
Definition nlist_fields (l : local_symbol) : list (Z * Z) :=
  [(4, l_strx l); (1, l_type l); (1, l_sect l); (2, l_desc l); (8, l_value l)].
Record locals_at (mem : Z → option Z) (symbols strings : Z) (ls : list local_symbol) : Prop := {
  la_table : array_at mem NLIST_SIZE symbols (nlist_fields <$> ls);
  la_fields : Forall (λ l, fields_ok (nlist_fields l)) ls;
  la_names : Forall (λ l, string_at mem (u64 (strings + l_strx l)) (l_name l) ∧ 10 ∉ l_name l) ls
}.
Definition local_lines (base : Z) (ls : list local_symbol) : list (list Z) :=
  (λ l, symbol_line (u64 (base + l_value l)) (l_name l)) <$> filter (λ l, interesting (l_name l)) ls.

Lemma local_lines_nil base ls : local_lines base ls = [] ↔ ¬ Exists (λ l, interesting (l_name l)) ls.
Proof.
  unfold local_lines. induction ls as [|l ls IH]; [by rewrite Exists_nil; split; [intros _ []|]|].
  rewrite Exists_cons. destruct (decide (interesting (l_name l))).
  - rewrite filter_cons_True by done. split; [done|]. intros H. destruct H. by left.
  - rewrite filter_cons_False by done. rewrite IH. tauto.
Qed.

Section fetching.
Context {S : Type} (mem : Z → option Z) (fuel : nat).
Implicit Types (s : S).

(** What has been written after some lines, and after one more. *)
Lemma cursor_line (ls : list (list Z)) address name :
  frida_append_char (frida_append_uint64
    (if negb (zlen ls =? 0) then frida_append_char (join 10 ls) 10 else join 10 ls) address) 9 ++ name =
  join 10 (ls ++ [symbol_line address name]).
Proof.
  rewrite append_uint64_app. unfold frida_append_char, symbol_line. rewrite <- !app_assoc. cbn [app].
  destruct ls as [|l ls]; [done|]. rewrite join_snoc by done. rewrite zlen_cons.
  rewrite (proj2 (Z.eqb_neq _ 0)) by (pose proof (zlen_nonneg ls); lia). cbn [negb].
  by rewrite <- app_assoc.
Qed.
Lemma zlen_local_lines base ls : zlen (local_lines base ls) ≤ zlen ls.
Proof.
  unfold local_lines, zlen. rewrite length_fmap.
  pose proof (length_filter (λ l, Is_true (interesting (l_name l))) ls). lia.
Qed.
Lemma local_lines_snoc base ls l :
  local_lines base (ls ++ [l]) =
  if interesting (l_name l) then local_lines base ls ++ [symbol_line (u64 (base + l_value l)) (l_name l)]
  else local_lines base ls.
Proof.
  unfold local_lines. rewrite filter_app, fmap_app.
  destruct (decide (interesting (l_name l))) as [D|D].
  - rewrite filter_cons_True, filter_nil by done. by rewrite (Is_true_eq_true _ D).
  - rewrite filter_cons_False, filter_nil by done. rewrite app_nil_r.
    by destruct (interesting (l_name l)); [destruct D|].
Qed.

Lemma fetch_locals base symbols strings todo : ∀ k done s,
  locals_at mem symbols strings (done ++ todo) → zlen (done ++ todo) < 2 ^ 32 →
  (length todo < k)%nat → Forall (λ l, length (l_name l) < fuel)%nat todo →
  loop k (λ a,
    let '(i, n, cursor) := a in
    if i =? zlen (done ++ todo) then ret (inr cursor)
    else
      let sym := u64 (symbols + i * NLIST_SIZE) in
      let! strx := n_strx mem sym in
      let name := u64 (strings + strx) in
      let! interesting := is_interesting mem fuel name in
      if interesting : bool then
        let cursor := if negb (n =? 0) then frida_append_char cursor 10 else cursor in
        let! value := n_value mem sym in
        let cursor := frida_append_uint64 cursor (u64 (base + value)) in
        let cursor := frida_append_char cursor 9 in
        let! cursor := frida_append_string mem fuel cursor name in
        ret (inl (u32 (i + 1), u32 (n + 1), cursor))
      else ret (inl (u32 (i + 1), n, cursor)))
    (zlen done, zlen (local_lines base done), join 10 (local_lines base done)) s =
  Ret (join 10 (local_lines base (done ++ todo)), s).
Proof.
  induction todo as [|l todo IH]; intros k done s Hat Hlen Hk Hfuel; (destruct k as [|k]; [cbn in Hk; lia|]).
  { cbn [loop]. unfold bind at 1. rewrite app_nil_r, Z.eqb_refl. done. }
  pose proof Hat as [Htab Hfields Hnames].
  assert (Hl : (done ++ l :: todo) !! length done = Some l) by by apply list_lookup_middle.
  rewrite Forall_lookup in Hfields, Hnames. specialize (Hfields _ _ Hl). destruct (Hnames _ _ Hl) as [Hstr Hnl].
  assert (Hb : bytes_at mem (u64 (symbols + zlen done * NLIST_SIZE)) (encode_fields (nlist_fields l))).
  { apply bytes_at_u64, (Htab (length done)). by rewrite list_lookup_fmap, Hl. }
  apply Forall_cons in Hfuel as [Hf1 Hfuel].
  assert (Hz : zlen done < zlen (done ++ l :: todo)).
  { rewrite zlen_app, zlen_cons. pose proof (zlen_nonneg todo). lia. }
  cbn [loop]. unfold bind at 1. rewrite (proj2 (Z.eqb_neq _ _)) by lia.
  assert (Hx : n_strx mem (u64 (symbols + zlen done * NLIST_SIZE)) s = Ret (l_strx l, s)).
  { unfold n_strx. rewrite <- (Z.add_0_r (u64 _)). exact (load_field mem _ _ 0 4 _ s Hb Hfields eq_refl). }
  assert (Hv : n_value mem (u64 (symbols + zlen done * NLIST_SIZE)) s = Ret (l_value l, s)).
  { exact (load_field mem _ _ 4 8 _ s Hb Hfields eq_refl). }
  assert (Hi : u32 (zlen done + 1) = zlen (done ++ [l])).
  { rewrite zlen_app, zlen_cons, zlen_nil. pose proof (zlen_nonneg done). apply u32_small. lia. }
  specialize (IH k (done ++ [l]) s). rewrite <- app_assoc in IH. cbn [app] in IH.
  specialize (IH Hat Hlen ltac:(cbn in Hk; lia) Hfuel). rewrite local_lines_snoc in IH.
  unfold bind at 1. rewrite Hx. unfold bind at 1. rewrite (is_interesting_spec mem fuel _ _ _ Hf1 Hstr).
  destruct (interesting (l_name l)); [|by unfold ret at 1; rewrite Hi].
  unfold bind at 1. rewrite Hv. unfold bind at 1.
  rewrite (append_string_spec mem (l_name l)) by done.
  unfold ret at 1. rewrite Hi.
  rewrite cursor_line. rewrite u32_small.
  - assert (Hn : zlen (local_lines base done) + 1 =
      zlen (local_lines base done ++ [symbol_line (u64 (base + l_value l)) (l_name l)])) by by rewrite zlen_app.
    by rewrite Hn.
  - pose proof (zlen_local_lines base done). pose proof (zlen_nonneg (local_lines base done)). lia.
Qed.

Lemma dyld_size_line text size :
  frida_append_char (frida_append_uint64 (frida_append_char text 10) size) 9 ++ bytes_of "dyld_size" =
  text ++ 10 :: symbol_line size (bytes_of "dyld_size").
Proof.
  rewrite append_uint64_app. unfold frida_append_char, symbol_line. by rewrite <- !app_assoc.
Qed.
End fetching.

(** A symbol of dyld and its size as the injector knows them. *)
Definition known_symbols (base size : Z) (ls : list local_symbol) : list (list Z * option Z) :=
  ((λ l, (l_name l, Some (u64 (base + l_value l)))) <$> filter (λ l, interesting (l_name l)) ls) ++
  [(bytes_of "dyld_size", Some size)].
Lemma mapM_fmap_all {A B C} (f : B → option C) (g : A → B) (h : A → C) (l : list A) :
  (∀ x, f (g x) = Some (h x)) → mapM f (g <$> l) = Some (h <$> l).
Proof.
  intros H. induction l as [|x l IH]; [done|]. cbn [fmap list_fmap mapM]. rewrite H.
  cbn [mbind option_bind]. by rewrite IH.
Qed.
Lemma mapM_read_lines base ls :
  mapM read_line (local_lines base ls) =
  Some ((λ l, (l_name l, Some (u64 (base + l_value l)))) <$> filter (λ l, interesting (l_name l)) ls).
Proof.
  apply mapM_fmap_all. intros l. apply read_symbol_line, u64_range.
Qed.
Lemma local_lines_one_line base ls :
  Forall (λ l, 10 ∉ l_name l) ls → Forall (λ t, 10 ∉ t) (local_lines base ls).
Proof.
  rewrite !Forall_forall. intros H t. unfold local_lines. rewrite list_elem_of_fmap.
  intros (l & -> & Hl). apply list_elem_of_filter in Hl as [_ Hl].
  apply symbol_line_one_line; [apply u64_range|by apply H].
Qed.
Lemma read_symbols_text base size ls :
  0 ≤ size < 2 ^ 64 → Forall (λ l, 10 ∉ l_name l) ls →
  read_symbols (join 10 (local_lines base ls) ++ 10 :: symbol_line size (bytes_of "dyld_size")) =
  if decide (local_lines base ls = []) then None else Some (known_symbols base size ls).
Proof.
  intros Hs Hl. unfold read_symbols. case_decide as E.
  - rewrite E. cbn [join app split_at]. by rewrite Z.eqb_refl.
  - rewrite <- join_snoc, split_at_join.
    + apply mapM_Some, Forall2_app; [apply mapM_Some, mapM_read_lines|].
      constructor; [by apply read_symbol_line|constructor].
    + by destruct (local_lines base ls).
    + apply Forall_app. split; [by apply local_lines_one_line|]. constructor; [|constructor].
      apply symbol_line_one_line; [done|]. refine (bool_decide_unpack _ _). by vm_compute.
    + done.
Qed.
