(* ===== verification/MachOClaims.v ===== *)
(** What the symbol helpers promise: a name is looked up as the exports trie has it,
    a vector of names is resolved group by group, and addresses can be read back
    from the text the fetcher writes. *)
From S2P Require Import Prelude ElfParser ElfCorrect MachO ExportsTrie SymbolText.

(** ** Names in the trie *)
Lemma exported_unique {mem exports nodes} (Ht : trie_at mem exports nodes) off name a :
  exported nodes off name a → ∀ b, exported nodes off name b → a = b.
Proof.
  induction 1 as [off n f a x Hn Ex|off n e o rest a Hn He Hr IH]; intros b Hb.
  - apply (exported_nil Ht) with (n := n) in Hb as (f' & x' & E); [|done]. congruence.
  - apply IH. by apply (exported_step Ht off n e o rest).
Qed.

(** C38: Looking a name up in the exports trie of an image ends and gives the address
    the trie has for the name; for a name that is not exported it gives 0.  The trie
    is any table of nodes laid out as dyld prescribes, and the fuel needed is the
    length of the name, of the longest label, or the ten bytes of a number. *)
Theorem exported_name_found {S} mem exports nodes fuel name (s : S) :
  trie_at mem exports nodes → is_Some (nodes !! 0) → Forall (λ b, b ≠ 0) name →
  (10 ≤ fuel)%nat → (length name + 1 < fuel)%nat →
  (∀ off n, nodes !! off = Some n → Forall (λ c : list Z * Z, length c.1 < fuel)%nat (nd_children n)) →
  (∀ a, exported nodes 0 name a → frida_exports_trie_find mem fuel exports (name ++ [0]) s = Ret (a, s)) ∧
  ((∀ a, ¬ exported nodes 0 name a) → frida_exports_trie_find mem fuel exports (name ++ [0]) s = Ret (0, s)).
Proof.
  intros Ht H0 Hz Hf Hl He.
  destruct (exports_trie_find_answers Ht fuel Hf He name s Hl Hz H0) as (r & -> & [Hr|[-> Hr]]).
  - split; [|intros Hn; by destruct (Hn r)]. intros a Ha. by rewrite (exported_unique Ht _ _ _ Ha _ Hr).
  - split; [|done]. intros a Ha. by destruct (Hr a).
Qed.

(** ** Images for the examples: chunks of memory *)
Definition memory_of (image : list (Z * list Z)) (a : Z) : option Z :=
  match list_find (λ ob : Z * list Z, ob.1 ≤ a < ob.1 + zlen ob.2) image with
  | Some (_, (o, bs)) => bs !! Z.to_nat (a - o)
  | None => None
  end.
Definition memory_has (image : list (Z * list Z)) (a : Z) (bs : list Z) : bool :=
  forallb (λ i, bool_decide (memory_of image (u64 (a + Z.of_nat i)) = bs !! i)) (seq 0 (length bs)).
Lemma memory_has_at image a bs : memory_has image a bs = true → bytes_at (memory_of image) a bs.
Proof.
  unfold memory_has. rewrite forallb_forall. intros H i b Hb.
  specialize (H i). rewrite bool_decide_eq_true in H. rewrite H; [done|].
  apply in_seq. apply lookup_lt_Some in Hb. lia.
Qed.
Definition padded (n : nat) (t : string) : list Z := bytes_of t ++ replicate (n - String.length t) 0.
Definition segment (name : string) (vmaddr vmsize fileoff : Z) : list Z :=
  le_bytes 4 LC_SEGMENT_64 ++ le_bytes 4 72 ++ padded 16 name ++
  le_bytes 8 vmaddr ++ le_bytes 8 vmsize ++ le_bytes 8 fileoff ++ replicate 24 0.

(** ** A trie with _dlopen and _dlsym *)
Module Demo.
Definition table : list (Z * node) :=
  [(0, mk_node None [(bytes_of "_dl", 16)]);
   (16, mk_node None [(bytes_of "open", 64); (bytes_of "sym", 80)]);
   (64, mk_node (Some (0, 0x1234, [])) []);
   (80, mk_node (Some (0, 0x98765, [])) [])].
Definition nodes : gmap Z node := list_to_map table.
Definition exports : Z := 0x14100.
(** The list of images, libdyld with its load commands and its trie, and a vector of
    two modules with their symbols. *)
Definition image : list (Z * list Z) :=
  [(0x100, le_bytes 4 15 ++ le_bytes 4 1 ++ le_bytes 8 0x200);
   (0x200, le_bytes 8 0x10000 ++ le_bytes 8 0x300 ++ le_bytes 8 0);
   (0x300, lit "/usr/lib/system/libdyld.dylib");
   (0x10000, replicate 16 0 ++ le_bytes 4 3 ++ replicate 12 0 ++
             segment "__TEXT" 0x1000 0x4000 0 ++ segment "__LINKEDIT" 0x5000 0x1000 0x3000 ++
             le_bytes 4 LC_DYLD_EXPORTS_TRIE ++ le_bytes 4 16 ++ le_bytes 4 0x3100 ++ le_bytes 4 96);
   (0x20000, concat (le_bytes 8 <$> [0x501; 0x502; 0x503; 0; 0x504; 0x505; 0; 0]))] ++
  ((λ on, (exports + on.1, encode_node on.2)) <$> table).
Definition mem : Z → option Z := memory_of image.
Lemma nodes_cases (P : Z → node → Prop) : Forall (λ on, P on.1 on.2) table →
  ∀ off n, nodes !! off = Some n → P off n.
Proof.
  rewrite Forall_forall. intros H off n Hn. apply (H (off, n)). by apply elem_of_list_to_map_2.
Qed.
Ltac each_node := refine (nodes_cases (λ off n, _) _); unfold table; repeat apply Forall_cons_2; [..|apply Forall_nil_2]; cbn [fst snd].

#[export] Instance label_ok_dec e : Decision (label_ok e).
Proof. unfold label_ok. apply _. Defined.
Lemma nodes_at : trie_at mem exports nodes.
Proof.
  split.
  - each_node; by apply memory_has_at; vm_compute.
  - each_node; unfold exports; lia.
  - each_node.
    all: split; [intros f a x E; vm_compute in E; simplify_eq; by vm_compute|..|by vm_compute].
    all: cbn [nd_children fmap list_fmap]; refine (bool_decide_unpack _ _); by vm_compute.
  - intros off n e o Hn. revert off n Hn e o. each_node; intros e o He; apply list_elem_of_In in He; cbn in He; naive_solver.
Qed.
End Demo.

Lemma exported_name_found_witness :
  frida_exports_trie_find Demo.mem 16 Demo.exports (bytes_of "_dlsym" ++ [0]) tt = Ret (0x98765, tt).
Proof.
  destruct (exported_name_found Demo.mem Demo.exports Demo.nodes 16 (bytes_of "_dlsym") tt) as [H _].
  - apply Demo.nodes_at.
  - refine (bool_decide_unpack _ _). by vm_compute.
  - refine (bool_decide_unpack _ _). by vm_compute.
  - lia.
  - cbn. lia.
  - refine (Demo.nodes_cases (λ off n, _) _). unfold Demo.table.
    refine (bool_decide_unpack _ _). by vm_compute.
  - apply H. change (bytes_of "_dlsym") with (bytes_of "_dl" ++ bytes_of "sym" ++ []).
    eapply exported_below; [by vm_compute|by left|].
    eapply exported_below; [by vm_compute|by right; left|]. eapply exported_here; by vm_compute.
Defined.

(** ** Vectors of names *)
Definition words_at (mem : Z → option Z) (a : Z) (ws : list Z) : Prop :=
  bytes_at mem a (concat (le_bytes 8 <$> ws)).
(** A module and its symbols, all of them addresses of strings. *)
Definition group : Type := Z * list Z.
Definition group_words (g : group) : list Z := g.1 :: g.2 ++ [0].
Definition vector_words (gs : list group) : list Z := concat (group_words <$> gs) ++ [0].
Definition pointer_ok (p : Z) : Prop := 0 < p < 2 ^ 64.
Definition group_ok (g : group) : Prop := pointer_ok g.1 ∧ Forall pointer_ok g.2.

Section vectors.
Context {S : Type} (mem : Z → option Z).
Context (call_dlopen : Z → Z → M S Z) (call_dlsym : Z → Z → Z → M S Z).

(** What is wanted of a module's symbols: dlsym of each in turn, or null. *)
Fixpoint lookup_symbols (api : Z * Z) (module : Z) (names : list Z) : M S (list Z) :=
  match names with
  | [] => ret []
  | n :: names =>
      let! p := (if module =? 0 then ret 0 else call_dlsym api.2 module n) in
      let! ps := lookup_symbols api module names in
      ret (p :: ps)
  end.
Fixpoint lookup_groups (api : Z * Z) (gs : list group) : M S (list Z) :=
  match gs with
  | [] => ret []
  | (m, names) :: gs =>
      let! module := call_dlopen api.1 m in
      let! ps := lookup_symbols api module names in
      let! qs := lookup_groups api gs in
      ret (ps ++ qs)
  end.

Lemma load_word a w ws s :
  0 ≤ w < 2 ^ 64 → words_at mem a (w :: ws) →
  load mem 8 a s = Ret (w, s : S) ∧ words_at mem (u64 (a + 8)) ws.
Proof.
  intros Hw H. unfold words_at in H. rewrite fmap_cons, concat_cons in H. split.
  - unfold load. apply bytes_at_front in H. apply load_bytes_at in H.
    replace 8%nat with (length (le_bytes 8 w)) by done. rewrite H. rewrite le_value_small; [done|done|].
    by change (8 * 8) with 64.
  - apply bytes_at_rest in H. by rewrite zlen_le_bytes in H.
Qed.

Lemma resolve_module_from api module names : ∀ k a out rest s,
  (length names < k)%nat → Forall pointer_ok names → words_at mem a (names ++ [0] ++ rest) →
  resolve_module mem call_dlsym k api module a out s =
  (let! ps := lookup_symbols api module names in
   ret (u64 (a + 8 * (zlen names + 1)), out ++ ps)) s.
Proof.
  induction names as [|n names IH]; intros k a out rest s Hk Hok Hw; (destruct k as [|k]; [cbn in Hk; lia|]);
    unfold resolve_module; cbn [loop]; unfold bind at 1 2.
  - destruct (load_word a 0 rest s) as [-> _]; [lia|done|]. cbn. unfold bind, ret. by rewrite app_nil_r.
  - apply Forall_cons in Hok as [Hn Hok]. unfold pointer_ok in Hn.
    destruct (load_word a n (names ++ [0] ++ rest) s) as [-> Hw']; [lia|done|].
    rewrite (proj2 (Z.eqb_neq n 0)) by lia. cbn [lookup_symbols].
    assert (Ha : ∀ x : Z, u64 (u64 (a + 8) + 8 * (zlen names + 1)) = u64 (a + 8 * (zlen (x :: names) + 1))).
    { intros x. rewrite u64_add_l, zlen_cons. f_equal. lia. }
    assert (Hgo : ∀ p s', resolve_module mem call_dlsym k api module (u64 (a + 8)) (out ++ [p]) s' =
      (let! ps := lookup_symbols api module names in
       ret (u64 (a + 8 * (zlen (n :: names) + 1)), out ++ p :: ps)) s').
    { intros p s'. rewrite (IH k _ _ rest) by (done || cbn in Hk; lia). rewrite <- (Ha n). unfold bind, ret.
      destruct (lookup_symbols api module names s') as [[ps s2]| | |]; [|done..]. by rewrite <- app_assoc. }
    unfold resolve_module in Hgo. unfold bind. destruct (module =? 0); cbn [negb]; unfold bind, ret in Hgo |- *.
    + rewrite Hgo. by destruct (lookup_symbols api module names s) as [[ps s2]| | |].
    + destruct (call_dlsym api.2 module n s) as [[p s1]| | |]; [|done..].
      rewrite Hgo. by destruct (lookup_symbols api module names s1) as [[ps s2]| | |].
Qed.

Definition vector_step (fuel : nat) (api : Z * Z) : Z * list Z → M S (Z * list Z + list Z) := λ a,
    let '(input, output) := a in
    let! module_name := load mem 8 input in
    let input := u64 (input + 8) in
    if module_name =? 0 then ret (inr output)
    else
      let! module := call_dlopen api.1 module_name in
      let! r := resolve_module mem call_dlsym fuel api module input output in
      ret (inl r).
Lemma words_at_rest a ws ws' : words_at mem a (ws ++ ws') → words_at mem (u64 (a + 8 * zlen ws)) ws'.
Proof.
  unfold words_at. rewrite fmap_app, concat_app. intros H%bytes_at_rest.
  assert (zlen (concat (le_bytes 8 <$> ws)) = 8 * zlen ws) as E; [|by rewrite E in H].
  clear. induction ws as [|w ws IH]; [done|].
  rewrite fmap_cons, concat_cons, zlen_app, zlen_cons, IH, zlen_le_bytes by done. lia.
Qed.
Lemma vector_from fuel api gs : ∀ k a out s,
  (length gs < k)%nat → Forall (λ g : group, length g.2 < fuel)%nat gs → Forall group_ok gs →
  words_at mem a (vector_words gs) →
  loop k (vector_step fuel api) (a, out) s = (let! ps := lookup_groups api gs in ret (out ++ ps)) s.
Proof.
  induction gs as [|[m names] gs IH]; intros k a out s Hk Hl Hok Hw; (destruct k as [|k]; [cbn in Hk; lia|]);
    cbn [loop]; unfold bind at 1; unfold vector_step at 1; unfold bind at 1.
  - destruct (load_word a 0 [] s) as [-> _]; [lia|done|]. cbn. unfold bind, ret. by rewrite app_nil_r.
  - apply Forall_cons in Hl as [Hl1 Hl]. apply Forall_cons in Hok as [[Hm Hn] Hok].
    unfold vector_words in Hw. rewrite fmap_cons, concat_cons in Hw. unfold group_words at 1 in Hw.
    cbn [fst snd app] in *. unfold pointer_ok in Hm. rewrite <- !app_assoc in Hw.
    destruct (load_word a m _ s ltac:(lia) Hw) as [-> Hw'].
    rewrite (proj2 (Z.eqb_neq m 0)) by lia. cbn [lookup_groups]. unfold bind.
    destruct (call_dlopen api.1 m s) as [[module s1]| | |]; [|done..].
    rewrite (resolve_module_from api module names fuel _ _ _ s1 Hl1 Hn Hw').
    unfold bind. destruct (lookup_symbols _ _ _ s1) as [[ps s2]| | |]; [|done..].
    unfold ret. cbn iota. rewrite IH; [| cbn in Hk; lia | done | done |].
    + unfold bind, ret. destruct (lookup_groups api gs s2) as [[qs s3]| | |]; [|done..]. by rewrite app_assoc.
    + rewrite app_assoc in Hw'. apply words_at_rest in Hw'.
      by rewrite zlen_app in Hw'.
Qed.
End vectors.

(** The resolver walks a null-terminated vector of modules and symbols as meant:
    with the two functions it found, it opens the modules in order and writes, in
    order, the address dlsym gives for every symbol, or null for each symbol of a
    module that cannot be opened, whatever these functions do to the process. *)
Theorem vector_resolved {S} mem call_dlopen call_dlsym fuel input all_image_info gs (s : S) :
  (length gs < fuel)%nat → Forall (λ g : group, length g.2 < fuel)%nat gs → Forall group_ok gs →
  words_at mem input (vector_words gs) →
  frida_resolve_symbols mem call_dlopen call_dlsym fuel input all_image_info s =
  (let! api := frida_get_libdyld_api mem fuel all_image_info in
   lookup_groups call_dlopen call_dlsym api gs) s.
Proof.
  intros Hk Hl Hok Hw. unfold frida_resolve_symbols. unfold bind at 1. symmetry. unfold bind at 1. symmetry.
  destruct (frida_get_libdyld_api mem fuel all_image_info s) as [[api s1]| | |]; [|done..].
  etrans; [apply (vector_from mem call_dlopen call_dlsym fuel api gs fuel input [] s1); done|].
  unfold bind, ret. by destruct (lookup_groups _ _ _ _ s1) as [[ps s2]| | |].
Qed.

Lemma vector_resolved_witness :
  frida_resolve_symbols Demo.mem (λ f p s, Ret (if p =? 0x504 then 0 else p + f, s))
    (λ f h n s, Ret (n + f, s)) 31 0x20000 0x100 tt =
  Ret ([0x502 + (0x10000 + 0x98765); 0x503 + (0x10000 + 0x98765); 0], tt).
Proof.
  rewrite (vector_resolved Demo.mem _ _ 31 0x20000 0x100 [(0x501, [0x502; 0x503]); (0x504, [0x505])]).
  - by vm_compute.
  - cbn. lia.
  - repeat constructor.
  - repeat constructor; cbn; lia.
  - apply memory_has_at. by vm_compute.
Defined.

(** ** The symbols of dyld *)
(** The injector reads back what the fetcher writes: every local symbol of dyld it
    is interested in, by name and address, in order, and the size of dyld, whenever
    there is such a symbol.  Without one the text starts with an empty line and the
    injector gives up.  The local symbols have to come first in the table. *)
Theorem fetched_symbols_understood {S} mem fuel base init d symoff stroff ls (s : S) :
  fetcher_parse_macho mem base init s = Ret (d, s) → m_base d = base → 0 ≤ m_size d < 2 ^ 64 →
  st_symoff mem (m_symtab d) s = Ret (symoff, s) → st_stroff mem (m_symtab d) s = Ret (stroff, s) →
  ds_ilocalsym mem (m_dysymtab d) s = Ret (0, s) → ds_nlocalsym mem (m_dysymtab d) s = Ret (zlen ls, s) →
  locals_at mem (u64 (m_linkedit d + symoff)) (u64 (m_linkedit d + stroff)) ls → zlen ls < 2 ^ 32 →
  (length ls < fuel)%nat → Forall (λ l, length (l_name l) < fuel)%nat ls →
  ∃ text, frida_fetch_dyld_symbols mem fuel base init s = Ret (text, s) ∧
    read_symbols text =
      if decide (Exists (λ l, interesting (l_name l)) ls) then Some (known_symbols base (m_size d) ls) else None.
Proof.
  intros Hp Hbase Hsize Hso Hst Hi Hn Hls Hlen Hf Hfs.
  exists (join 10 (local_lines base ls) ++ 10 :: symbol_line (m_size d) (bytes_of "dyld_size")). split.
  - unfold frida_fetch_dyld_symbols. unfold bind at 1. rewrite Hp. unfold bind at 1. rewrite Hso.
    unfold bind at 1. rewrite Hst. unfold bind at 1. rewrite Hi. unfold bind at 1. rewrite Hn.
    unfold bind at 1. rewrite Hbase.
    rewrite (fetch_locals mem fuel base _ _ ls fuel [] s) by done.
    unfold ret. by rewrite dyld_size_line.
  - rewrite read_symbols_text; [|done|].
    + pose proof (local_lines_nil base ls). do 2 case_decide; tauto.
    + eapply Forall_impl; [exact (la_names _ _ _ _ Hls)|]. by intros l [_ ?].
Qed.

Module DyldDemo.
Definition symtab : list Z := le_bytes 4 LC_SYMTAB ++ le_bytes 4 24 ++ le_bytes 4 0x3100 ++ le_bytes 4 2 ++
  le_bytes 4 0x3200 ++ le_bytes 4 64.
Definition dysymtab : list Z := le_bytes 4 LC_DYSYMTAB ++ le_bytes 4 80 ++ le_bytes 4 0 ++ le_bytes 4 2 ++ replicate 64 0.
Definition locals : list local_symbol :=
  [mk_local 4 14 1 0 0x40 (bytes_of "_boring"); mk_local 16 14 1 0 0x1a0 (bytes_of "_gProcessInfo")].
Definition image : list (Z * list Z) :=
  [(0x10000, replicate 16 0 ++ le_bytes 4 4 ++ replicate 12 0 ++ segment "__TEXT" 0 0x4000 0 ++
             segment "__LINKEDIT" 0x5000 0x1000 0x3000 ++ symtab ++ dysymtab);
   (0x15100, concat ((λ l, encode_fields (nlist_fields l)) <$> locals));
   (0x15200, replicate 4 0 ++ lit "_boring" ++ replicate 4 0 ++ lit "_gProcessInfo")].
Definition mem := memory_of image.
Definition dyld : FridaMachO := mk_macho 0x10000 0x10000 0x4000 0x12000 0x100b0 0x100c8.

Lemma locals_there : locals_at mem 0x15100 0x15200 locals.
Proof.
  split.
  - intros i e He. apply memory_has_at.
    do 2 (destruct i as [|i]; [injection He as <-; by vm_compute|]). done.
  - repeat constructor; cbn; lia.
  - repeat constructor; try (refine (bool_decide_unpack _ _); by vm_compute).
    all: first [apply memory_has_at; by vm_compute | by vm_compute].
Qed.
End DyldDemo.

Lemma fetched_symbols_understood_witness :
  ∃ text, frida_fetch_dyld_symbols DyldDemo.mem 100 0x10000 (mk_macho 0 0 0 0 0 0) tt = Ret (text, tt) ∧
    read_symbols text = Some [(bytes_of "_gProcessInfo", Some 0x101a0); (bytes_of "dyld_size", Some 0x4000)].
Proof.
  destruct (fetched_symbols_understood DyldDemo.mem 100 0x10000 (mk_macho 0 0 0 0 0 0) DyldDemo.dyld
    0x3100 0x3200 DyldDemo.locals tt) as (text & E & R).
  1-7: by vm_compute.
  - exact DyldDemo.locals_there.
  - by vm_compute.
  - by vm_compute; lia.
  - refine (bool_decide_unpack _ _). by vm_compute.
  - exists text. split; [exact E|]. rewrite R. by vm_compute.
Defined.
