(* ===== verification/Binjector.v ===== *)
(** The FreeBSD injector, src/src/freebsd/binjector-glue.c: a process is attached to
    with ptrace, memory is allocated in it by calling its mmap, a payload is written
    there and started as a thread, and the process is released again.

    [BsdKernel] is what the injector asks of the system: ptrace requests, waitpid,
    signals, files, the names of programs and functions.  Every request that
    succeeds is added to a log.  The choice
    of processor, which the source makes with the preprocessor, is the parameter
    [cpu].  Objects of the injector live in a heap, [inject_objects], and the table
    of injectees has their addresses, as in the source. *)
From S2P Require Import Prelude Posix.

Definition EPERM : Z := 1.
Definition EBUSY : Z := 16.
Definition SIGTRAP : Z := 5.
Definition SIGSEGV : Z := 11.
Definition SIGSTOP : Z := 17.
Definition SIGTTIN : Z := 21.
Definition SIGTTOU : Z := 22.
Definition PROT_NONE : Z := 0.
Definition PROT_READ : Z := 1.
Definition PROT_WRITE : Z := 2.
Definition PROT_EXEC : Z := 4.
(** MAP_PRIVATE | MAP_ANONYMOUS *)
Definition MAP_FLAGS : Z := 0x1002.
Definition FRIDA_STACK_ALIGNMENT : Z := 16.
Definition FRIDA_RED_ZONE_SIZE : Z := 128.
Definition FRIDA_DUMMY_RETURN_ADDRESS : Z := 0x320.
Definition HELLO : Z := 0xff.

Inductive Cpu := IA32 | X86_64 | ARM64.
#[export] Instance Cpu_eq_dec : EqDecision Cpu.
Proof. solve_decision. Defined.

(** ** Registers: [struct reg] of the three processors *)
Inductive reg :=
| r_eip | r_esp | r_eax
| r_rip | r_rsp | r_rax | r_rdi | r_rsi | r_rdx | r_rcx | r_r8 | r_r9
| elr | sp | lr | x (i : nat)
| other (i : nat).
#[export] Instance reg_eq_dec : EqDecision reg.
Proof. solve_decision. Defined.
Definition FridaRegs : Type := reg → Z.
Definition set_reg (r : reg) (v : Z) (regs : FridaRegs) : FridaRegs :=
  λ q, if decide (q = r) then v else regs q.
(** Values for registers, in order. *)
Fixpoint set_regs (rs : list reg) (vs : list Z) (regs : FridaRegs) : FridaRegs :=
  match rs, vs with
  | r :: rs, v :: vs => set_regs rs vs (set_reg r v regs)
  | _, _ => regs
  end.

(** What waitpid reports of a process. *)
Inductive wstatus := Exited (code : Z) | Signaled (sig : Z) | Stopped (sig : Z).

Inductive UnloadPolicy := IMMEDIATE | RESIDENT | DEFERRED.
#[export] Instance UnloadPolicy_eq_dec : EqDecision UnloadPolicy.
Proof. solve_decision. Defined.

(** What a forked child does before the new program runs. *)
Inductive childop :=
| Setsid | Dup2 (from to : Z) | TraceMe | Execve (path : string) (argv envp : list string) | ExitWith (code : Z).

Class BsdKernel (K : Type) := {
  (** Whether the process is traced already. *)
  bk_attach : Z → bool → K → sysret unit * K;
  bk_detach : Z → K → sysret unit * K;
  bk_continue : Z → K → sysret unit * K;
  bk_getregs : Z → K → sysret FridaRegs * K;
  bk_setregs : Z → FridaRegs → K → sysret unit * K;
  bk_io_read : Z → Z → Z → K → sysret (list Z) * K;
  bk_io_write : Z → Z → list Z → K → sysret unit * K;
  bk_lwpinfo : Z → K → sysret Z * K;
  bk_getlwplist : Z → Z → K → sysret (list Z) * K;
  bk_suspend : Z → K → sysret unit * K;
  (** The process that was reported, with its status. *)
  bk_waitpid : Z → bool → K → Z * wstatus * K;
  bk_kill : Z → Z → K → sysret unit * K;
  bk_thr_kill2 : Z → Z → Z → K → sysret unit * K;
  bk_fork : list childop → K → Z * K;
  bk_chdir : string → K → sysret unit * K;
  bk_getcwd : K → string;
  (** The child's ends of the pipes.  The set has the descriptors that are in use. *)
  bk_stdio_pipes : bool → gset Z → K → sysret (list Z) * K;
  bk_mkfifo : string → K → K;
  bk_open_fifo : string → gset Z → K → sysret Z * K;
  bk_close : Z → K → K;
  bk_unlink : string → K → K;
  bk_program_path : Z → K → option string;
  (** _find_entrypoint: 0 is failure *)
  bk_find_entrypoint : Z → K → Z;
  bk_libthr_name : K → string;
  (** SymbolResolver: 0 where a name is not found *)
  bk_find_ld_function : Z → string → K → Z;
  bk_find_libc_function : Z → string → K → Z
}.
(** A process is traced by one process at a time and once; a new descriptor is not in
    use. *)
Class BsdLaws (K : Type) `{BsdKernel K} := {
  bl_attach_busy pid k : (bk_attach pid true k).1 = SysErr EBUSY;
  bl_fd_fresh path fds fd k k' : bk_open_fifo path fds k = (SysOk fd, k') → 0 ≤ fd ∧ fd ∉ fds;
  bl_pipes_fresh piped fds ends fd k k' : bk_stdio_pipes piped fds k = (SysOk ends, k') → fd ∈ ends → fd ∉ fds
}.

(** ** Data *)
Inductive FridaError := PERMISSION_DENIED | NOT_SUPPORTED | INVALID_OPERATION | INVALID_ARGUMENT.
Definition GError : Type := FridaError * string.
(** The result of a function that can set an error. *)
Definition rv : Type := bool * option GError.
Definition ok : rv := (true, None).
Definition fails (code : FridaError) (what : string) : rv := (false, Some (code, what)).

Record FridaRemoteApi := mk_api {
  mmap_impl : Z; munmap_impl : Z; mprotect_impl : Z;
  open_impl : Z; close_impl : Z; write_impl : Z;
  dlopen_impl : Z; dlclose_impl : Z; dlsym_impl : Z
}.
(** FridaSpawnInstance and FridaExecInstance *)
Record FridaSpawnInstance := mk_spawn { si_pid : Z; si_interruptible_thread : Z }.
Record FridaExecInstance := mk_exec { ei_pid : Z; ei_interruptible_thread : Z }.
Record FridaInjectInstance := mk_inject {
  ii_id : Z; ii_pid : Z; ii_api : FridaRemoteApi; ii_executable_path : option string;
  ii_already_attached : bool; ii_exec_pending : bool;
  ii_temp_path : string; ii_fifo_path : string; ii_fifo : Z; ii_previous_fifo : Z;
  ii_remote_payload : Z; ii_remote_size : Z; ii_entrypoint : Z; ii_stack_top : Z; ii_trampoline_data : Z
}.
Record FridaInjectRegion := mk_region { rg_offset : Z; rg_size : Z }.
Record FridaInjectParams := mk_params {
  pa_pid : Z; pa_api : FridaRemoteApi; pa_so_path : string; pa_entrypoint_name : string;
  pa_entrypoint_data : string; pa_fifo_path : string;
  pa_code : FridaInjectRegion; pa_data : FridaInjectRegion; pa_guard : FridaInjectRegion; pa_stack : FridaInjectRegion;
  pa_remote_address : Z; pa_remote_size : Z
}.

(** The log of requests. *)
Inductive bact :=
| GotRegs (pid : Z) (regs : FridaRegs) | Read (pid address : Z) (bs : list Z) | Waited (pid who : Z) (status : wstatus)
| Attached (pid : Z) | Detached (pid : Z) | Resumed (pid : Z)
| SetRegs (pid : Z) (regs : FridaRegs) | Wrote (pid address : Z) (bs : list Z)
| Suspended (tid : Z) | Signalled (pid sig : Z) | ThreadSignalled (pid tid sig : Z)
| Forked (pid : Z) (child : list childop) | ChangedDir (path : string)
| FifoMade (path : string) | FifoOpened (path : string) (fd : Z) | FdClosed (fd : Z) | Unlinked (path : string).

(** Whether a process is traced after the requests of a log, and the descriptors of
    FIFOs that are open. *)
Definition holds_after (pid : Z) (h : bool) (a : bact) : bool :=
  match a with
  | Attached p => if p =? pid then true else h
  | Forked p _ => if p =? pid then true else h
  | Detached p => if p =? pid then false else h
  | Waited _ p (Exited _) => if p =? pid then false else h
  | Waited _ p (Signaled _) => if p =? pid then false else h
  | _ => h
  end.
Definition held_from (pid : Z) (h : bool) (log : list bact) : bool := foldl (holds_after pid) h log.
Definition held (pid : Z) (log : list bact) : bool := held_from pid false log.
Definition fds_after (fds : gset Z) (a : bact) : gset Z :=
  match a with
  | FifoOpened _ fd => {[fd]} ∪ fds
  | FdClosed fd => fds ∖ {[fd]}
  | _ => fds
  end.
Definition fds_from (fds : gset Z) (log : list bact) : gset Z := foldl fds_after fds log.
Definition open_fds (log : list bact) : gset Z := fds_from ∅ log.

Record binjector (K : Type) := mk_bin {
  b_kern : K;
  b_trace : list bact;
  spawn_instances : gmap Z FridaSpawnInstance;
  exec_instances : gmap Z FridaExecInstance;
  inject_instances : gmap Z Z;
  inject_objects : gmap Z FridaInjectInstance;
  b_next : Z
}.
Arguments mk_bin {K} _ _ _ _ _ _ _.
Arguments b_kern {K} _.
Arguments b_trace {K} _.
Arguments spawn_instances {K} _.
Arguments exec_instances {K} _.
Arguments inject_instances {K} _.
Arguments inject_objects {K} _.
Arguments b_next {K} _.

Definition with_kern {K} (k : K) (acts : list bact) (s : binjector K) : binjector K :=
  mk_bin k (b_trace s ++ acts) (spawn_instances s) (exec_instances s) (inject_instances s) (inject_objects s) (b_next s).
Definition with_spawn {K} f (s : binjector K) : binjector K :=
  mk_bin (b_kern s) (b_trace s) (f (spawn_instances s)) (exec_instances s) (inject_instances s) (inject_objects s) (b_next s).
Definition with_exec {K} f (s : binjector K) : binjector K :=
  mk_bin (b_kern s) (b_trace s) (spawn_instances s) (f (exec_instances s)) (inject_instances s) (inject_objects s) (b_next s).
Definition with_injectees {K} f (s : binjector K) : binjector K :=
  mk_bin (b_kern s) (b_trace s) (spawn_instances s) (exec_instances s) (f (inject_instances s)) (inject_objects s) (b_next s).
Definition with_objects {K} f (s : binjector K) : binjector K :=
  mk_bin (b_kern s) (b_trace s) (spawn_instances s) (exec_instances s) (inject_instances s) (f (inject_objects s)) (b_next s).

(** ** Requests *)
Section requests.
Context {K : Type} `{BsdKernel K}.
Notation B := (binjector K).

(** A request, and what is logged of it when it succeeds. *)
Definition sys {A} (f : K → sysret A * K) (seen : A → list bact) : M B (sysret A) := λ s,
  match f (b_kern s) with
  | (r, k) => Ret (r, with_kern k (match r with SysOk a => seen a | SysErr _ => [] end) s)
  end.
Definition does (f : K → K) (acts : list bact) : M B unit := modify (λ s, with_kern (f (b_kern s)) acts s).
Definition ask {A} (f : K → A) : M B A := gets (λ s, f (b_kern s)).

Definition pt_attach (pid : Z) : M B (sysret unit) := λ s,
  sys (bk_attach pid (held pid (b_trace s))) (λ _, [Attached pid]) s.
Definition pt_detach (pid : Z) := sys (bk_detach pid) (λ _, [Detached pid]).
Definition pt_continue (pid : Z) := sys (bk_continue pid) (λ _, [Resumed pid]).
Definition pt_suspend (tid : Z) := sys (bk_suspend tid) (λ _, [Suspended tid]).
Definition frida_get_regs (pid : Z) : M B (sysret FridaRegs) := sys (bk_getregs pid) (λ regs, [GotRegs pid regs]).
Definition frida_set_regs (pid : Z) (regs : FridaRegs) : M B (sysret unit) :=
  sys (bk_setregs pid regs) (λ _, [SetRegs pid regs]).
Definition waitpid (pid : Z) (nohang : bool) : M B (Z * wstatus) := λ s,
  match bk_waitpid pid nohang (b_kern s) with (r, k) => Ret (r, with_kern k [Waited pid r.1 r.2] s) end.
Definition kill (pid sig : Z) := sys (bk_kill pid sig) (λ _, [Signalled pid sig]).
Definition thr_kill2 (pid tid sig : Z) := sys (bk_thr_kill2 pid tid sig) (λ _, [ThreadSignalled pid tid sig]).

(** *** Memory *)
Definition frida_remote_read (pid remote_address size : Z) : M B (rv * list Z) :=
  let! r := sys (bk_io_read pid remote_address size) (λ bs, [Read pid remote_address bs]) in
  match r with
  | SysOk bs => ret (ok, bs)
  | SysErr _ => ret (fails NOT_SUPPORTED "remote_read", [])
  end.
Definition frida_remote_write (pid remote_address : Z) (data : list Z) : M B rv :=
  let! r := sys (bk_io_write pid remote_address data) (λ _, [Wrote pid remote_address data]) in
  match r with
  | SysOk _ => ret ok
  | SysErr _ => ret (fails NOT_SUPPORTED "remote_write")
  end.

(** *** Waiting: whether the signal came, and whether the child is gone *)
Definition stops_for (signal got : Z) : bool :=
  if signal =? SIGTRAP then (got =? SIGTRAP) || (got =? SIGTTIN) || (got =? SIGTTOU) else got =? signal.
Definition frida_wait_for_child_signal (pid signal : Z) : M B (bool * bool) :=
  let! w := waitpid pid false in
  if negb (w.1 =? pid) then ret (false, true)
  else
    match w.2 with
    | Exited _ => ret (false, true)
    | Signaled _ => ret (false, false)
    | Stopped sig => ret (stops_for signal sig, false)
    end.
Definition frida_wait_for_attach_signal (pid : Z) : M B bool :=
  let! w := waitpid pid false in
  if negb (w.1 =? pid) then ret false
  else
    match w.2 with
    | Stopped sig =>
        if sig =? SIGTRAP then
          let! r := pt_continue pid in
          match r with
          | SysErr _ => ret false
          | SysOk _ => let! w := frida_wait_for_child_signal pid SIGSTOP in ret w.1
          end
        else ret (sig =? SIGSTOP)
    | _ => ret false
    end.

(** ** Running code in the process *)
Context (cpu : Cpu).
Definition pc_reg : reg := match cpu with IA32 => r_eip | X86_64 => r_rip | ARM64 => elr end.
Definition sp_reg : reg := match cpu with IA32 => r_esp | X86_64 => r_rsp | ARM64 => sp end.
Definition ret_reg : reg := match cpu with IA32 => r_eax | X86_64 => r_rax | ARM64 => x 0 end.
Definition word_size : Z := match cpu with IA32 => 4 | _ => 8 end.
Definition x86_64_arg_regs : list reg := [r_rdi; r_rsi; r_rdx; r_rcx; r_r8; r_r9].
Definition arm64_arg_regs : list reg := x <$> seq 0 8.

(** The registers for a call and what is written to the stack, in order.  On x86-64
    [r_rsp] is signed. *)
Definition call_frame (func : Z) (args : list Z) (regs : FridaRegs) : FridaRegs * list (Z * list Z) :=
  match cpu with
  | IA32 =>
      let n := zlen args in
      let esp := u32 (regs r_esp - FRIDA_RED_ZONE_SIZE) in
      let esp := u32 (esp - u32 (esp - n * 4) mod FRIDA_STACK_ALIGNMENT) in
      let regs := set_reg r_eip func regs in
      let esp' := if negb (n =? 0) then u32 (esp - n * 4) else esp in
      let stack_args := if negb (n =? 0) then [(esp', concat (le_bytes 4 <$> args))] else [] in
      let top := u32 (esp' - 4) in
      (set_reg r_esp top regs, stack_args ++ [(top, le_bytes 4 FRIDA_DUMMY_RETURN_ADDRESS)])
  | X86_64 =>
      let rsp := u64 (regs r_rsp - FRIDA_RED_ZONE_SIZE) in
      let rsp := u64 (rsp - Z.rem (s64 (rsp - Z.max (zlen args - 6) 0 * 8)) FRIDA_STACK_ALIGNMENT) in
      let regs := set_reg r_rip func regs in
      let regs := set_regs x86_64_arg_regs args regs in
      let num_stack_args := zlen args - 6 in
      let rsp' := if 0 <? num_stack_args then u64 (rsp - num_stack_args * 8) else rsp in
      let stack_args := if 0 <? num_stack_args then [(rsp', concat (le_bytes 8 <$> zdrop 6 args))] else [] in
      let top := u64 (rsp' - 8) in
      (set_reg r_rsp top regs, stack_args ++ [(top, le_bytes 8 FRIDA_DUMMY_RETURN_ADDRESS)])
  | ARM64 =>
      let regs := set_reg sp (u64 (regs sp - regs sp mod FRIDA_STACK_ALIGNMENT)) regs in
      let regs := set_reg elr func regs in
      let regs := set_regs arm64_arg_regs args regs in
      (set_reg lr FRIDA_DUMMY_RETURN_ADDRESS regs, [])
  end.

Fixpoint remote_writes (pid : Z) (ws : list (Z * list Z)) : M B rv :=
  match ws with
  | [] => ret ok
  | (a, bs) :: ws =>
      let! r := frida_remote_write pid a bs in
      if r.1 then remote_writes pid ws else ret r
  end.

(** [*retval] and [*exited] are [None] while they have not been set. *)
Record outcome_of_call := mk_oc { oc_rv : rv; oc_retval : option Z; oc_exited : option bool }.
Definition call_fails (what : string) (exited : option bool) : outcome_of_call :=
  mk_oc (fails NOT_SUPPORTED what) None exited.

(** The part that remote_call and remote_exec share: install registers, run until
    [signal], then go on with [next]. *)
Definition run_until (pid : Z) (regs : FridaRegs) (signal : Z) (next : bool → M B outcome_of_call)
    : M B outcome_of_call :=
  let! r := frida_set_regs pid regs in
  match r with
  | SysErr _ => ret (call_fails "frida_set_regs" None)
  | SysOk _ =>
      let! r := pt_continue pid in
      match r with
      | SysErr _ => ret (call_fails "PT_CONTINUE" None)
      | SysOk _ =>
          let! w := frida_wait_for_child_signal pid signal in
          if negb w.1 then ret (call_fails "PT_CONTINUE wait" (Some w.2)) else next w.2
      end
  end.

Definition frida_remote_call (pid func : Z) (args : list Z) : M B outcome_of_call :=
  let! r := frida_get_regs pid in
  match r with
  | SysErr _ => ret (call_fails "frida_get_regs" None)
  | SysOk regs =>
      do! c_assert (match cpu with ARM64 => zlen args <=? 8 | _ => true end) in
      let '(regs, writes) := call_frame func args regs in
      let! w := remote_writes pid writes in
      if negb w.1 then ret (mk_oc w None None)
      else run_until pid regs SIGSEGV (λ exited,
        let! r := frida_get_regs pid in
        match r with
        | SysErr _ => ret (call_fails "frida_get_regs" (Some exited))
        | SysOk regs => ret (mk_oc ok (Some (regs ret_reg)) (Some exited))
        end)
  end.
(** With [result] NULL, as its only caller has it. *)
Definition frida_remote_exec (pid remote_address remote_stack : Z) : M B outcome_of_call :=
  let! r := frida_get_regs pid in
  match r with
  | SysErr _ => ret (call_fails "frida_get_regs" None)
  | SysOk regs =>
      let regs := set_reg sp_reg remote_stack (set_reg pc_reg remote_address regs) in
      run_until pid regs SIGTRAP (λ exited, ret (mk_oc ok None (Some exited)))
  end.

Definition FRIDA_MAP_FAILED : Z := match cpu with IA32 => 2 ^ 32 - 1 | _ => 2 ^ 64 - 1 end.
Definition frida_remote_alloc (pid size prot : Z) (api : FridaRemoteApi) : M B (Z * option GError) :=
  let! c := frida_remote_call pid (mmap_impl api) [0; size; prot; MAP_FLAGS; 2 ^ 64 - 1; 0] in
  match oc_retval c with
  | Some retval =>
      if retval =? FRIDA_MAP_FAILED then ret (0, Some (NOT_SUPPORTED, "mmap"%string)) else ret (retval, None)
  | None => ret (0, (oc_rv c).2)
  end.
Definition frida_remote_dealloc (pid address size : Z) (api : FridaRemoteApi) : M B rv :=
  let! c := frida_remote_call pid (munmap_impl api) [address; size] in
  match oc_retval c with
  | Some retval => ret (retval =? 0, None)
  | None => ret (oc_rv c)
  end.
Definition frida_remote_mprotect (pid address size prot : Z) (api : FridaRemoteApi) : M B rv :=
  let! c := frida_remote_call pid (mprotect_impl api) [address; size; prot] in
  match oc_retval c with
  | Some retval => ret (retval =? 0, None)
  | None => ret (oc_rv c)
  end.

(** ** The entrypoint of a new program *)
Definition patched_entry_insn : list Z :=
  match cpu with ARM64 => le_bytes 4 0xd4200000 | _ => [0xcc] end.
Definition entry_failure (what : string) : rv := fails PERMISSION_DENIED what.
Definition frida_run_to_entrypoint (pid : Z) : M B rv :=
  let! entrypoint := ask (bk_find_entrypoint pid) in
  if entrypoint =? 0 then ret (fails NOT_SUPPORTED "find_entrypoint")
  else
    let! r := frida_remote_read pid entrypoint (zlen patched_entry_insn) in
    if negb r.1.1 then ret r.1
    else
      let original_entry_insn := r.2 in
      let! w := frida_remote_write pid entrypoint patched_entry_insn in
      if negb w.1 then ret w
      else
        let! c := pt_continue pid in
        match c with
        | SysErr _ => ret (entry_failure "PT_CONTINUE")
        | SysOk _ =>
            let! w := frida_wait_for_child_signal pid SIGTRAP in
            if negb w.1 then ret (entry_failure "WAIT(SIGTRAP)")
            else
              let! w := frida_remote_write pid entrypoint original_entry_insn in
              if negb w.1 then ret w
              else
                let! r := frida_get_regs pid in
                match r with
                | SysErr _ => ret (entry_failure "frida_get_regs")
                | SysOk regs =>
                    let! r := frida_set_regs pid (set_reg pc_reg entrypoint regs) in
                    match r with
                    | SysErr _ => ret (entry_failure "frida_set_regs")
                    | SysOk _ => ret ok
                    end
                end
        end.

(** ** The table of functions *)
Fixpoint resolve_all (fs : list (K → Z)) : M B (option (list Z)) :=
  match fs with
  | [] => ret (Some [])
  | f :: fs =>
      let! a := ask f in
      if a =? 0 then ret None
      else
        let! r := resolve_all fs in
        ret (match r with Some l => Some (a :: l) | None => None end)
  end.
Definition frida_remote_api_try_init (pid : Z) : M B (option FridaRemoteApi) :=
  let! r := resolve_all [bk_find_ld_function pid "dlopen"; bk_find_ld_function pid "dlclose";
                         bk_find_ld_function pid "dlsym"; bk_find_libc_function pid "mmap";
                         bk_find_libc_function pid "munmap"; bk_find_libc_function pid "mprotect";
                         bk_find_libc_function pid "open"; bk_find_libc_function pid "close";
                         bk_find_libc_function pid "write"] in
  match r with
  | Some [dlopen; dlclose; dlsym; mmap; munmap; mprotect; open; close; write] =>
      ret (Some (mk_api mmap munmap mprotect open close write dlopen dlclose dlsym))
  | _ => ret None
  end.
End requests.
