(* ===== verification/BinjectorInstances.v ===== *)
(** The instances of the FreeBSD injector and the operations its Vala half calls
    (src/src/freebsd/binjector-glue.c): spawning, exec
    transitions, injection, cloning and release. *)
From stdpp Require Import pretty.
From S2P Require Import Prelude Posix Binjector.

(** ** The payload's data: FridaTrampolineData *)
Definition field_pthread_so_string : Z := 0.
Definition field_pthread_create_string : Z := 32.
Definition field_pthread_detach_string : Z := 48.
Definition field_pthread_getthreadid_np_string : Z := 64.
Definition field_fifo_path : Z := 96.
Definition field_so_path : Z := 352.
Definition field_entrypoint_name : Z := 608.
Definition field_entrypoint_data : Z := 864.
Definition field_hello_byte : Z := 1120.
(** The size with the three pointers after [hello_byte]. *)
Definition sizeof_trampoline (cpu : Cpu) : Z := match cpu with IA32 => 1136 | _ => 1152 end.

Definition strcpy (offset : Z) (s : string) (buffer : list Z) : list Z :=
  zwrite offset (bytes_of s ++ [0]) buffer.

(** ** Updates of an instance *)
Definition with_fifo (path : string) (fd : Z) (i : FridaInjectInstance) : FridaInjectInstance :=
  mk_inject (ii_id i) (ii_pid i) (ii_api i) (ii_executable_path i) (ii_already_attached i) (ii_exec_pending i)
    (ii_temp_path i) path fd (ii_previous_fifo i) (ii_remote_payload i) (ii_remote_size i) (ii_entrypoint i)
    (ii_stack_top i) (ii_trampoline_data i).
Definition with_previous_fifo (fd : Z) (i : FridaInjectInstance) : FridaInjectInstance :=
  mk_inject (ii_id i) (ii_pid i) (ii_api i) (ii_executable_path i) (ii_already_attached i) (ii_exec_pending i)
    (ii_temp_path i) (ii_fifo_path i) (ii_fifo i) fd (ii_remote_payload i) (ii_remote_size i) (ii_entrypoint i)
    (ii_stack_top i) (ii_trampoline_data i).
Definition with_already_attached (b : bool) (i : FridaInjectInstance) : FridaInjectInstance :=
  mk_inject (ii_id i) (ii_pid i) (ii_api i) (ii_executable_path i) b (ii_exec_pending i)
    (ii_temp_path i) (ii_fifo_path i) (ii_fifo i) (ii_previous_fifo i) (ii_remote_payload i) (ii_remote_size i)
    (ii_entrypoint i) (ii_stack_top i) (ii_trampoline_data i).
Definition with_exec_pending (b : bool) (i : FridaInjectInstance) : FridaInjectInstance :=
  mk_inject (ii_id i) (ii_pid i) (ii_api i) (ii_executable_path i) (ii_already_attached i) b
    (ii_temp_path i) (ii_fifo_path i) (ii_fifo i) (ii_previous_fifo i) (ii_remote_payload i) (ii_remote_size i)
    (ii_entrypoint i) (ii_stack_top i) (ii_trampoline_data i).
Definition with_pid (pid : Z) (i : FridaInjectInstance) : FridaInjectInstance :=
  mk_inject (ii_id i) pid (ii_api i) (ii_executable_path i) (ii_already_attached i) (ii_exec_pending i)
    (ii_temp_path i) (ii_fifo_path i) (ii_fifo i) (ii_previous_fifo i) (ii_remote_payload i) (ii_remote_size i)
    (ii_entrypoint i) (ii_stack_top i) (ii_trampoline_data i).
Definition with_payload (address size : Z) (i : FridaInjectInstance) : FridaInjectInstance :=
  mk_inject (ii_id i) (ii_pid i) (ii_api i) (ii_executable_path i) (ii_already_attached i) (ii_exec_pending i)
    (ii_temp_path i) (ii_fifo_path i) (ii_fifo i) (ii_previous_fifo i) address size (ii_entrypoint i)
    (ii_stack_top i) (ii_trampoline_data i).
Definition with_code (entrypoint stack_top trampoline_data : Z) (i : FridaInjectInstance) : FridaInjectInstance :=
  mk_inject (ii_id i) (ii_pid i) (ii_api i) (ii_executable_path i) (ii_already_attached i) (ii_exec_pending i)
    (ii_temp_path i) (ii_fifo_path i) (ii_fifo i) (ii_previous_fifo i) (ii_remote_payload i) (ii_remote_size i)
    entrypoint stack_top trampoline_data.

(** [g_strdup_printf ("%s/binjector-%u", temp_path, id)] *)
Definition fifo_path_for (temp_path : string) (id : Z) : string :=
  temp_path +:+ "/binjector-" +:+ pretty (Z.to_N id).

Section instances.
Context {K : Type} `{BsdKernel K} (cpu : Cpu).
Notation B := (binjector K).

Definition get_object (h : Z) : M B FridaInjectInstance := λ s,
  match inject_objects s !! h with
  | Some i => Ret (i, s)
  | None => Crash
  end.
Definition put_object (h : Z) (i : FridaInjectInstance) : M B unit := modify (with_objects <[h := i]>).
Definition change_object (h : Z) (f : FridaInjectInstance → FridaInjectInstance) : M B unit :=
  let! i := get_object h in put_object h (f i).
Definition alloc_object (i : FridaInjectInstance) : M B Z := λ s,
  Ret (b_next s, mk_bin (b_kern s) (b_trace s) (spawn_instances s) (exec_instances s) (inject_instances s)
                   (<[b_next s := i]> (inject_objects s)) (b_next s + 1)).

(** ** The FIFO *)
Definition open_fifo (path : string) : M B (sysret Z) := λ s,
  sys (bk_open_fifo path (open_fds (b_trace s))) (λ fd, [FifoOpened path fd]) s.
Definition frida_inject_instance_init_fifo (h : Z) : M B unit :=
  let! i := get_object h in
  let path := fifo_path_for (ii_temp_path i) (ii_id i) in
  do! does (bk_mkfifo path) [FifoMade path] in
  let! fd := open_fifo path in
  match fd with
  | SysOk fd => put_object h (with_fifo path fd i)
  | SysErr _ => c_assert_not_reached
  end.
Definition close_fd (fd : Z) : M B unit := does (bk_close fd) [FdClosed fd].
Definition unlink (path : string) : M B unit := does (bk_unlink path) [Unlinked path].
Definition frida_inject_instance_close_previous_fifo (h : Z) : M B unit :=
  let! i := get_object h in
  if negb (ii_previous_fifo i =? -1) then
    do! close_fd (ii_previous_fifo i) in put_object h (with_previous_fifo (-1) i)
  else ret tt.
Definition frida_inject_instance_recreate_fifo (h : Z) : M B unit :=
  do! frida_inject_instance_close_previous_fifo h in
  let! i := get_object h in
  do! put_object h (with_previous_fifo (ii_fifo i) i) in
  do! unlink (ii_fifo_path i) in
  frida_inject_instance_init_fifo h.

Definition no_fifo : string := "".
Definition frida_inject_instance_new (id pid : Z) (api : FridaRemoteApi) (temp_path : string) : M B Z :=
  let! executable_path := ask (bk_program_path pid) in
  let! h := alloc_object (mk_inject id pid api executable_path false false temp_path no_fifo 0 0 0 0 0 0 0) in
  do! frida_inject_instance_init_fifo h in
  do! change_object h (with_previous_fifo (-1)) in
  ret h.
Definition frida_inject_instance_clone (instance id : Z) : M B Z :=
  let! i := get_object instance in
  let! h := alloc_object (mk_inject id 0 (ii_api i) (ii_executable_path i) false false (ii_temp_path i)
                            (ii_fifo_path i) (ii_fifo i) (ii_previous_fifo i) (ii_remote_payload i) (ii_remote_size i)
                            (ii_entrypoint i) (ii_stack_top i) (ii_trampoline_data i)) in
  do! frida_inject_instance_init_fifo h in
  do! change_object h (with_previous_fifo (-1)) in
  ret h.

(** ** Attaching and detaching *)
Definition attach_failure (pid attach_errno : Z) (what : string) : rv :=
  if attach_errno =? EPERM then fails PERMISSION_DENIED "attach" else fails NOT_SUPPORTED what.
(** The registers are [None] while they have not been read. *)
Definition frida_inject_instance_attach (h : Z) : M B (rv * option FridaRegs) :=
  let! i := get_object h in
  let pid := ii_pid i in
  let! r := pt_attach pid in
  match r with
  | SysErr e =>
      if e =? EBUSY then
        let! r := frida_get_regs pid in
        match r with
        | SysErr _ => ret (attach_failure pid e "frida_get_regs", None)
        | SysOk regs => do! change_object h (with_already_attached true) in ret (ok, Some regs)
        end
      else ret (attach_failure pid e "PT_ATTACH", None)
  | SysOk _ =>
      do! change_object h (with_already_attached false) in
      let! success := frida_wait_for_attach_signal pid in
      let! regs := (if success then frida_get_regs pid else ret (SysErr 0)) in
      match regs with
      | SysOk regs => ret (ok, Some regs)
      | SysErr _ => do! pt_detach pid in ret (fails NOT_SUPPORTED "wait", None)
      end
  end.

Definition detach_failure (what : string) : rv := fails INVALID_OPERATION what.
(** Where [interruptible_thread] of the process is kept: with the spawned one, else
    with the one in exec. *)
Definition set_interruptible_thread (pid tid : Z) : M B unit :=
  modify (λ s,
    if bool_decide (is_Some (spawn_instances s !! pid))
    then with_spawn (alter (λ i, mk_spawn (si_pid i) tid) pid) s
    else with_exec (alter (λ i, mk_exec (ei_pid i) tid) pid) s).
(** The process stays attached: its main thread is suspended, the others run. *)
Definition hold_main_thread (pid : Z) : M B rv :=
  let! r := sys (bk_lwpinfo pid) (λ _, []) in
  match r with
  | SysErr _ => ret (detach_failure "PT_LWPINFO")
  | SysOk main_thread =>
      let! r := sys (bk_getlwplist pid 2) (λ _, []) in
      match r with
      | SysOk [t0; t1] =>
          let non_main_thread := if negb (t0 =? main_thread) then t0 else t1 in
          do! set_interruptible_thread pid non_main_thread in
          let! r := pt_suspend main_thread in
          match r with
          | SysErr _ => ret (detach_failure "PT_SUSPEND")
          | SysOk _ =>
              let! r := pt_continue pid in
              match r with
              | SysErr _ => ret (detach_failure "PT_CONTINUE")
              | SysOk _ => ret ok
              end
          end
      | _ => ret (detach_failure "PT_GETLWPLIST")
      end
  end.
Definition frida_inject_instance_detach (h : Z) (saved_regs : FridaRegs) : M B rv :=
  let! i := get_object h in
  let pid := ii_pid i in
  let! r := frida_set_regs pid saved_regs in
  match r with
  | SysErr _ => ret (detach_failure "frida_set_regs")
  | SysOk _ =>
      if ii_already_attached i then
        let! spawn := gets (λ s, spawn_instances s !! pid) in
        let! exec := gets (λ s, exec_instances s !! pid) in
        match spawn, exec with
        | None, None => ret ok
        | _, _ => hold_main_thread pid
        end
      else
        let! r := pt_detach pid in
        match r with
        | SysErr _ => ret (detach_failure "PT_DETACH")
        | SysOk _ => ret ok
        end
  end.

Definition frida_inject_instance_did_not_exec (h : Z) : M B bool :=
  let! i := get_object h in
  let! executable_path := ask (bk_program_path (ii_pid i)) in
  match executable_path, ii_executable_path i with
  | None, _ => ret false
  | Some now, Some before => ret (bool_decide (now = before))
  | Some _, None => crash
  end.

(** The end of frida_inject_instance_free. *)
Definition dispose (h : Z) : M B unit :=
  let! i := get_object h in
  do! close_fd (ii_fifo i) in
  do! unlink (ii_fifo_path i) in
  modify (with_objects (delete h)).
(** Its first part: the payload goes, if the process is still the one it was. *)
Definition unload_payload (h : Z) (unload_policy : UnloadPolicy) : M B unit :=
  let! i := get_object h in
  if negb (ii_pid i =? 0) && negb (ii_remote_payload i =? 0) && bool_decide (unload_policy = IMMEDIATE) &&
     negb (ii_exec_pending i) then
    let! same := frida_inject_instance_did_not_exec h in
    if same : bool then
      let! a := frida_inject_instance_attach h in
      match a with
      | ((true, _), Some saved_regs) =>
          do! frida_remote_dealloc cpu (ii_pid i) (ii_remote_payload i) (ii_remote_size i) (ii_api i) in
          do! frida_inject_instance_detach h saved_regs in ret tt
      | _ => ret tt
      end
    else ret tt
  else ret tt.
Definition frida_inject_instance_free (h : Z) (unload_policy : UnloadPolicy) : M B unit :=
  do! unload_payload h unload_policy in
  do! frida_inject_instance_close_previous_fifo h in
  dispose h.

Definition frida_inject_instance_start_remote_thread (h : Z) : M B outcome_of_call :=
  let! i := get_object h in
  frida_remote_exec cpu (ii_pid i) (ii_entrypoint i) (ii_stack_top i).

(** ** The payload
    [emit] gives the machine code that the code writer produces. *)
Context (emit : FridaInjectParams → Z → list Z).
Definition trampoline_data (params : FridaInjectParams) (libthr_name : string) : list Z :=
  let buffer := zeros (pa_remote_size params - rg_offset (pa_data params)) in
  let buffer := strcpy field_pthread_so_string libthr_name buffer in
  let buffer := strcpy field_pthread_create_string "pthread_create" buffer in
  let buffer := strcpy field_pthread_detach_string "pthread_detach" buffer in
  let buffer := strcpy field_pthread_getthreadid_np_string "pthread_getthreadid_np" buffer in
  let buffer := strcpy field_fifo_path (pa_fifo_path params) buffer in
  let buffer := strcpy field_so_path (pa_so_path params) buffer in
  let buffer := strcpy field_entrypoint_name (pa_entrypoint_name params) buffer in
  let buffer := strcpy field_entrypoint_data (pa_entrypoint_data params) buffer in
  let buffer := zwrite field_hello_byte [HELLO] buffer in
  ztake (sizeof_trampoline cpu) buffer.
Definition frida_inject_instance_emit_and_transfer_payload (params : FridaInjectParams) : M B (rv * Z) :=
  let pid := pa_pid params in
  let remote_address := pa_remote_address params in
  let code := emit params remote_address in
  let! libthr_name := ask bk_libthr_name in
  let data := trampoline_data params libthr_name in
  let! r := frida_remote_write pid (u64 (remote_address + rg_offset (pa_code params))) code in
  if negb r.1 then ret (r, 0)
  else
    let! r := frida_remote_write pid (u64 (remote_address + rg_offset (pa_data params))) data in
    if negb r.1 then ret (r, 0)
    else
      let! r := frida_remote_mprotect cpu pid (u64 (remote_address + rg_offset (pa_code params)))
                  (rg_size (pa_code params)) (Z.lor PROT_READ PROT_EXEC) (pa_api params) in
      if negb r.1 then ret (r, 0)
      else
        let! r := frida_remote_mprotect cpu pid (u64 (remote_address + rg_offset (pa_guard params)))
                    (rg_size (pa_guard params)) PROT_NONE (pa_api params) in
        if negb r.1 then ret (r, 0)
        else ret (ok, u64 (remote_address + rg_offset (pa_code params))).

(** ** Injection *)
Definition STACK_SIZE : Z := 512 * 1024.
Definition inject_params (pid : Z) (api : FridaRemoteApi) (path entrypoint data fifo_path : string)
    (page_size remote_address : Z) : FridaInjectParams :=
  mk_params pid api path entrypoint data fifo_path (mk_region 0 page_size) (mk_region page_size page_size)
    (mk_region (2 * page_size) page_size) (mk_region (3 * page_size) STACK_SIZE) remote_address (3 * page_size + STACK_SIZE).

(** Start the payload's thread and let go of the process.  [*exited] is read whether
    or not it has been set. *)
Definition start_and_detach (h : Z) (saved_regs : FridaRegs) : M B rv :=
  let! c := frida_inject_instance_start_remote_thread h in
  match (oc_rv c).1, oc_exited c with
  | false, None => crash
  | false, Some false => ret (oc_rv c)
  | _, Some true => ret ok
  | true, None => crash
  | true, Some false => do! frida_inject_instance_detach h saved_regs in ret ok
  end.

(** With the process attached: memory, payload, thread.  The label
    premature_termination is a result of [false]. *)
Definition inject_attached (page_size pid : Z) (api : FridaRemoteApi) (path entrypoint data fifo_path : string) (h : Z)
    (saved_regs : FridaRegs) : M B rv :=
  let remote_size := 3 * page_size + STACK_SIZE in
  let! m := frida_remote_alloc cpu pid remote_size (Z.lor PROT_READ PROT_WRITE) api in
  let remote_address := m.1 in
  if remote_address =? 0 then ret (false, m.2)
  else
    do! change_object h (with_payload remote_address remote_size) in
    let params := inject_params pid api path entrypoint data fifo_path page_size remote_address in
    let! t := frida_inject_instance_emit_and_transfer_payload params in
    if negb t.1.1 then ret t.1
    else
      do! change_object h (with_code t.2
            (u64 (remote_address + rg_offset (pa_stack params) + rg_size (pa_stack params)))
            (u64 (remote_address + rg_offset (pa_data params)))) in
      start_and_detach h saved_regs.
Definition inject_instance_run (page_size pid : Z) (api : FridaRemoteApi) (path entrypoint data : string) (h : Z)
    : M B rv :=
  let! i := get_object h in
  match ii_executable_path i with
  | None => ret (false, None)
  | Some _ =>
      let! a := frida_inject_instance_attach h in
      match a with
      | ((true, _), Some saved_regs) =>
          inject_attached page_size pid api path entrypoint data (ii_fifo_path i) h saved_regs
      | (r, _) => ret r
      end
  end.

Definition _frida_binjector_do_inject (page_size pid : Z) (path entrypoint data temp_path : string) (id : Z)
    : M B (option GError) :=
  let! alive := kill pid 0 in
  match alive with
  | SysErr 1 => ret (Some (PERMISSION_DENIED, "kill"%string))
  | _ =>
      let! api := frida_remote_api_try_init pid in
      match api with
      | None => ret (Some (NOT_SUPPORTED, "libc"%string))
      | Some api =>
          let! h := frida_inject_instance_new id pid api temp_path in
          let! r := inject_instance_run page_size pid api path entrypoint data h in
          if r.1 then
            do! modify (with_injectees <[id := h]>) in ret None
          else
            do! frida_inject_instance_free h IMMEDIATE in ret r.2
      end
  end.

Definition _frida_binjector_demonitor (h : Z) : M B unit := frida_inject_instance_recreate_fifo h.
Definition _frida_binjector_demonitor_and_clone_injectee_state (h clone_id : Z) : M B Z :=
  do! frida_inject_instance_recreate_fifo h in
  let! clone := frida_inject_instance_clone h clone_id in
  do! modify (with_injectees <[clone_id := clone]>) in
  ret clone_id.

(** binjector.vala: _destroy_inject_instance *)
Definition _destroy_inject_instance (id : Z) (unload_policy : UnloadPolicy) : M B unit :=
  let! h := gets (λ s, inject_instances s !! id) in
  match h with
  | None => c_assert_not_reached
  | Some h =>
      do! modify (with_injectees (delete id)) in
      frida_inject_instance_free h unload_policy
  end.

Definition _frida_binjector_recreate_injectee_thread (h pid : Z) : M B (option GError) :=
  let! i := get_object h in
  let is_uninitialized_clone := ii_pid i =? 0 in
  do! put_object h (with_pid pid i) in
  do! frida_inject_instance_close_previous_fifo h in
  let! a := frida_inject_instance_attach h in
  let! r :=
    match a with
    | ((true, _), Some saved_regs) =>
        let! i := get_object h in
        let! w := (if is_uninitialized_clone
                   then frida_remote_write pid (u64 (ii_trampoline_data i + field_fifo_path)) (bytes_of (ii_fifo_path i) ++ [0])
                   else ret ok) in
        if w.1 then start_and_detach h saved_regs else ret w
    | (r, _) => ret r
    end in
  if r.1 then ret None
  else
    let! i := get_object h in
    do! _destroy_inject_instance (ii_id i) IMMEDIATE in ret r.2.

Definition _frida_process_has_thread (pid tid : Z) : M B bool :=
  let! r := sys (bk_thr_kill2 pid tid 0) (λ _, []) in
  ret (match r with SysOk _ => true | SysErr _ => false end).

(** frida_set_matching_inject_instances_exec_pending, on every injectee. *)
Definition set_exec_pending (pid : Z) (pending : bool) (i : FridaInjectInstance) : FridaInjectInstance :=
  if ii_pid i =? pid then with_exec_pending pending i else i.
Definition _frida_binjector_notify_exec_pending (pid : Z) (pending : bool) : M B unit :=
  modify (λ s, with_objects (map_imap (λ h i,
    Some (if bool_decide (h ∈ (map_to_list (inject_instances s)).*2) then set_exec_pending pid pending i else i))) s).
End instances.
