(* ===== verification/BinjectorSpawn.v ===== *)
(** Spawning and exec transitions of the FreeBSD injector
    (src/src/freebsd/binjector-glue.c) with the operations of its Vala half that
    release the processes again (src/src/freebsd/binjector.vala). *)
From S2P Require Import Prelude Posix Binjector BinjectorInstances.

Record HostSpawnOptions := mk_spawn_options {
  so_argv : list string; so_envp : list string; so_cwd : string; so_pipe : bool
}.

(** What the child does, up to the new program or its failure. *)
Definition child_program (path : string) (options : HostSpawnOptions) (fds : list Z) : list childop :=
  [Setsid] ++
  (if so_pipe options then
     match fds with [i; o; e] => [Dup2 i 0; Dup2 o 1; Dup2 e 2] | _ => [] end
   else []) ++
  [TraceMe; Execve path (so_argv options) (so_envp options); ExitWith 1].

Section spawning.
Context {K : Type} `{BsdKernel K} (cpu : Cpu).
Notation B := (binjector K).

Definition fork (child : list childop) : M B Z := λ s,
  match bk_fork child (b_kern s) with (pid, k) => Ret (pid, with_kern k [Forked pid child] s) end.
Definition chdir (path : string) := sys (bk_chdir path) (λ _, [ChangedDir path]).
Definition make_stdio_pipes (piped : bool) : M B (sysret (list Z)) := λ s,
  sys (bk_stdio_pipes piped (open_fds (b_trace s))) (λ _, []) s.
Fixpoint close_all (fds : list Z) : M B unit :=
  match fds with
  | [] => ret tt
  | fd :: fds => do! does (bk_close fd) [FdClosed fd] in close_all fds
  end.

(** From the fork on; the label failure is a result without a process. *)
Definition spawn_child (path : string) (options : HostSpawnOptions) (fds : list Z) (old_cwd : option string)
    : M B (Z * option GError) :=
  let! pid := fork (child_program path options fds) in
  do! (match old_cwd with
       | Some d => do! chdir d in ret tt
       | None => ret tt
       end) in
  let! w := frida_wait_for_child_signal pid SIGTRAP in
  if negb w.1 then ret (0, Some (PERMISSION_DENIED, "spawn"%string))
  else
    let! r := frida_run_to_entrypoint cpu pid in
    if negb r.1 then ret (0, r.2)
    else
      do! modify (with_spawn <[pid := mk_spawn pid 0]>) in
      ret (pid, None).
Definition _frida_binjector_do_spawn (path : string) (options : HostSpawnOptions) : M B (Z * option GError) :=
  let! fds := make_stdio_pipes (so_pipe options) in
  match fds with
  | SysErr _ => ret (0, Some (NOT_SUPPORTED, "stdio"%string))
  | SysOk fds =>
      let! r :=
        (if negb (bool_decide (so_cwd options = EmptyString)) then
           let! old_cwd := ask bk_getcwd in
           let! c := chdir (so_cwd options) in
           match c with
           | SysErr _ => ret (0, Some (INVALID_ARGUMENT, "chdir"%string))
           | SysOk _ => spawn_child path options fds (Some old_cwd)
           end
         else spawn_child path options fds None) in
      do! close_all fds in
      ret r
  end.

Definition release (pid interruptible_thread : Z) : M B unit :=
  do! (if negb (interruptible_thread =? 0) then
         do! thr_kill2 pid interruptible_thread SIGSTOP in
         do! frida_wait_for_child_signal pid SIGSTOP in ret tt
       else ret tt) in
  do! pt_detach pid in ret tt.
Definition frida_spawn_instance_resume (self : FridaSpawnInstance) : M B unit :=
  release (si_pid self) (si_interruptible_thread self).
Definition frida_exec_instance_resume (self : FridaExecInstance) : M B unit :=
  release (ei_pid self) (ei_interruptible_thread self).
Definition frida_exec_instance_suspend (self : FridaExecInstance) : M B unit :=
  do! kill (ei_pid self) SIGSTOP in
  do! frida_wait_for_child_signal (ei_pid self) SIGSTOP in ret tt.

Definition frida_exec_instance_prepare_transition (self : FridaExecInstance) : M B rv :=
  let! r := pt_attach (ei_pid self) in
  match r with
  | SysErr _ => ret (fails PERMISSION_DENIED "PT_ATTACH")
  | SysOk _ =>
      let! w := waitpid (ei_pid self) false in
      match w with
      | (pid, Stopped sig) =>
          if (pid =? ei_pid self) && (sig =? SIGSTOP) then
            let! r := pt_continue (ei_pid self) in
            match r with
            | SysErr _ => ret (fails PERMISSION_DENIED "PT_CONTINUE")
            | SysOk _ => ret ok
            end
          else ret (fails PERMISSION_DENIED "waitpid()")
      | _ => ret (fails PERMISSION_DENIED "waitpid()")
      end
  end.
Definition frida_exec_instance_try_perform_transition (self : FridaExecInstance) : M B rv :=
  let! w := waitpid (ei_pid self) true in
  if negb (w.1 =? ei_pid self) then ret (false, None)
  else
    match w.2 with
    | Stopped sig =>
        if sig =? SIGTRAP then frida_run_to_entrypoint cpu (ei_pid self)
        else ret (fails PERMISSION_DENIED "waitpid()")
    | _ => ret (fails PERMISSION_DENIED "waitpid()")
    end.
Definition _frida_binjector_do_prepare_exec_transition (pid : Z) : M B (option GError) :=
  let instance := mk_exec pid 0 in
  let! r := frida_exec_instance_prepare_transition instance in
  if r.1 then do! modify (with_exec <[pid := instance]>) in ret None else ret r.2.

(** ** binjector.vala *)
Definition prepare_exec_transition (pid : Z) : M B (option GError) :=
  let! r := _frida_binjector_do_prepare_exec_transition pid in
  match r with
  | Some e => ret (Some e)
  | None => do! _frida_binjector_notify_exec_pending pid true in ret None
  end.
Definition cancel_exec_transition (pid : Z) : M B (option GError) :=
  let! i := gets (λ s, exec_instances s !! pid) in
  match i with
  | None => ret (Some (INVALID_ARGUMENT, "Invalid PID"%string))
  | Some i =>
      do! modify (with_exec (delete pid)) in
      do! frida_exec_instance_suspend i in
      do! frida_exec_instance_resume i in
      do! _frida_binjector_notify_exec_pending pid false in
      ret None
  end.
(** [waiting]: whether [exec_waiters] has the process. *)
Definition resume (waiting : bool) (pid : Z) : M B (option GError) :=
  let! i := gets (λ s, spawn_instances s !! pid) in
  match i with
  | Some i => do! modify (with_spawn (delete pid)) in do! frida_spawn_instance_resume i in ret None
  | None =>
      if waiting then ret (Some (INVALID_OPERATION, "Invalid operation"%string))
      else
        let! i := gets (λ s, exec_instances s !! pid) in
        match i with
        | Some i => do! modify (with_exec (delete pid)) in do! frida_exec_instance_resume i in ret None
        | None => ret (Some (INVALID_ARGUMENT, "Invalid PID"%string))
        end
  end.
End spawning.
