(* ===== verification/BinjectorCorrect.v ===== *)
(** Rules for the requests of the FreeBSD injector, and what its remote calls do. *)
From S2P Require Import Prelude Posix Binjector.

(** * Calls in another process: the frame that the injector of FreeBSD builds follows
    the calling convention of each processor. *)
(** ** The calling conventions *)
Definition arg_regs (cpu : Cpu) : list reg :=
  match cpu with IA32 => [] | X86_64 => x86_64_arg_regs | ARM64 => arm64_arg_regs end.
(** The byte that a sequence of writes leaves at an address. *)
Fixpoint poked (ws : list (Z * list Z)) (a : Z) : option Z :=
  match ws with
  | [] => None
  | (base, bs) :: ws =>
      match poked ws a with
      | Some b => Some b
      | None => if (base <=? a) && (a <? base + zlen bs) then Some (znth bs (a - base)) else None
      end
  end.
Definition poked_word (cpu : Cpu) (ws : list (Z * list Z)) (a v : Z) : Prop :=
  ∀ j, 0 ≤ j < word_size cpu → poked ws (a + j) = Some (znth (le_bytes (word_size cpu) v) j).

(** The state at the first instruction of the function: [regs'] and what was written,
    for a thread that was stopped with [regs]. *)
Record call_abi (cpu : Cpu) (func : Z) (args : list Z) (regs regs' : FridaRegs) (ws : list (Z * list Z)) : Prop := {
  ca_pc : regs' (pc_reg cpu) = func;
  ca_reg_args : ∀ i r a, arg_regs cpu !! i = Some r → args !! i = Some a → regs' r = a;
  ca_stack_args : ∀ i a, args !! i = Some a → (length (arg_regs cpu) ≤ i)%nat →
    poked_word cpu ws (regs' (sp_reg cpu) + word_size cpu * (1 + Z.of_nat i - zlen (arg_regs cpu))) a;
  ca_return : match cpu with
              | ARM64 => regs' lr = FRIDA_DUMMY_RETURN_ADDRESS
              | _ => poked_word cpu ws (regs' (sp_reg cpu)) FRIDA_DUMMY_RETURN_ADDRESS
              end;
  ca_aligned : (regs' (sp_reg cpu) + match cpu with ARM64 => 0 | _ => word_size cpu end) mod 16 = 0;
  ca_red_zone : ∀ a b, poked ws a = Some b → regs' (sp_reg cpu) ≤ a < regs (sp_reg cpu) - FRIDA_RED_ZONE_SIZE;
  ca_other_regs : ∀ r, r ≠ pc_reg cpu → r ≠ sp_reg cpu → r ≠ lr → r ∉ arg_regs cpu → regs' r = regs r
}.

(** The stack pointer leaves room for the frame. *)
Definition room_for (cpu : Cpu) (args : list Z) (regs : FridaRegs) : Prop :=
  match cpu with
  | ARM64 => 0 ≤ regs sp < 2 ^ 64 ∧ zlen args ≤ 8
  | IA32 => 160 + 4 * zlen args ≤ regs r_esp < 2 ^ 32
  | X86_64 => 160 + 8 * zlen args ≤ regs r_rsp < 2 ^ 63
  end.

Lemma set_reg_same r v regs : set_reg r v regs r = v.
Proof. unfold set_reg. by rewrite decide_True. Qed.
Lemma set_reg_other r q v regs : q ≠ r → set_reg r v regs q = regs q.
Proof. intros. unfold set_reg. by rewrite decide_False. Qed.
Lemma set_regs_other rs : ∀ vs regs q, q ∉ rs → set_regs rs vs regs q = regs q.
Proof.
  induction rs as [|r rs IH]; intros vs regs q Hq; destruct vs as [|v vs]; cbn; [done..|].
  apply not_elem_of_cons in Hq as [Hne Hq]. rewrite IH by done. by apply set_reg_other.
Qed.
Lemma set_regs_at rs : ∀ vs regs i r v, NoDup rs → rs !! i = Some r → vs !! i = Some v → set_regs rs vs regs r = v.
Proof.
  induction rs as [|r0 rs IH]; intros vs regs i r v Hn Hr Hv; [done|]. destruct vs as [|v0 vs]; [done|].
  apply NoDup_cons in Hn as [Hn0 Hn]. destruct i as [|i]; cbn in *.
  - simplify_eq. rewrite set_regs_other by done. apply set_reg_same.
  - by eapply IH.
Qed.

(** ** Two adjacent blocks *)
Lemma poked_frame w top ret args a :
  zlen ret = w → 0 < w →
  poked (args ++ [(top, ret)]) a =
  if (top <=? a) && (a <? top + w) then Some (znth ret (a - top)) else poked args a.
Proof.
  intros Hr Hw. induction args as [|[base bs] args IH]; cbn [app poked].
  - rewrite Hr. by destruct ((top <=? a) && (a <? top + w)).
  - rewrite IH. destruct ((top <=? a) && (a <? top + w)); [done|]. done.
Qed.
Lemma znth_app_l (l l' : list Z) i : 0 ≤ i < zlen l → znth (l ++ l') i = znth l i.
Proof. intros Hi. unfold znth, zlen in *. apply app_nth1. lia. Qed.
Lemma znth_concat_words w (vs : list Z) : ∀ i v j, 0 < w → vs !! i = Some v → 0 ≤ j < w →
  znth (concat (le_bytes w <$> vs)) (w * Z.of_nat i + j) = znth (le_bytes w v) j.
Proof.
  induction vs as [|x vs IH]; intros i v j Hw Hv Hj; [done|].
  cbn [fmap list_fmap concat]. destruct i as [|i]; cbn in Hv.
  - simplify_eq. rewrite Z.mul_0_r, Z.add_0_l. apply znth_app_l. rewrite zlen_le_bytes by lia. lia.
  - replace (w * Z.of_nat (S i) + j) with (zlen (le_bytes w x) + (w * Z.of_nat i + j)) by (rewrite zlen_le_bytes; lia).
    rewrite znth_app_r by lia. by apply IH.
Qed.
Lemma zlen_le_words w (vs : list Z) : 0 ≤ w → zlen (concat (le_bytes w <$> vs)) = w * zlen vs.
Proof.
  intros Hw. induction vs as [|x vs IH]; [cbn; rewrite zlen_nil; lia|].
  cbn [fmap list_fmap concat]. rewrite zlen_app, zlen_cons, IH, zlen_le_bytes by lia. lia.
Qed.

Section stack.
Context (w B : Z) (words : list Z) (Hw : 0 < w).
Definition stack_writes : list (Z * list Z) :=
  (if negb (zlen words =? 0) then [(B, concat (le_bytes w <$> words))] else []) ++
  [(B - w, le_bytes w FRIDA_DUMMY_RETURN_ADDRESS)].

Lemma stack_writes_at a :
  poked stack_writes a =
  if (B - w <=? a) && (a <? B) then Some (znth (le_bytes w FRIDA_DUMMY_RETURN_ADDRESS) (a - (B - w)))
  else if (B <=? a) && (a <? B + w * zlen words) then Some (znth (concat (le_bytes w <$> words)) (a - B))
  else None.
Proof.
  unfold stack_writes. rewrite (poked_frame w); [|by rewrite zlen_le_bytes by lia|done].
  replace (B - w + w) with B by lia. destruct ((B - w <=? a) && (a <? B)); [done|].
  destruct (Z.eqb_spec (zlen words) 0) as [E|E]; cbn [negb poked].
  - rewrite E, Z.mul_0_r, Z.add_0_r. by destruct (Z.leb_spec B a), (Z.ltb_spec a B); try lia.
  - by rewrite zlen_le_words by lia.
Qed.
Lemma stack_return j : 0 ≤ j < w →
  poked stack_writes (B - w + j) = Some (znth (le_bytes w FRIDA_DUMMY_RETURN_ADDRESS) j).
Proof.
  intros Hj. rewrite stack_writes_at. rewrite (proj2 (Z.leb_le _ _)), (proj2 (Z.ltb_lt _ _)) by lia.
  cbn [andb]. do 2 f_equal. lia.
Qed.
Lemma stack_arg i v j : words !! i = Some v → 0 ≤ j < w →
  poked stack_writes (B + w * Z.of_nat i + j) = Some (znth (le_bytes w v) j).
Proof.
  intros Hi Hj. pose proof (lookup_lt_Some _ _ _ Hi) as Hl. rewrite stack_writes_at.
  rewrite (proj2 (Z.ltb_ge (B + w * Z.of_nat i + j) B)) by nia. rewrite andb_false_r.
  rewrite (proj2 (Z.leb_le _ _)), (proj2 (Z.ltb_lt _ _)) by (unfold zlen; nia). cbn [andb].
  rewrite <- (znth_concat_words w words i v j) by done. do 2 f_equal. lia.
Qed.
Lemma stack_extent a b : poked stack_writes a = Some b → B - w ≤ a < B + w * zlen words.
Proof.
  rewrite stack_writes_at. pose proof (zlen_nonneg words).
  destruct (Z.leb_spec (B - w) a), (Z.ltb_spec a B); cbn [andb]; try (intros _; nia).
  all: destruct (Z.leb_spec B a), (Z.ltb_spec a (B + w * zlen words)); cbn [andb]; try done; intros _; lia.
Qed.
End stack.

Lemma arm64_arg_regs_nodup : NoDup arm64_arg_regs.
Proof. apply (bool_decide_unpack _). by vm_compute. Qed.
Lemma x86_64_arg_regs_nodup : NoDup x86_64_arg_regs.
Proof. apply (bool_decide_unpack _). by vm_compute. Qed.

Lemma arm64_frame func args regs :
  room_for ARM64 args regs → let f := call_frame ARM64 func args regs in call_abi ARM64 func args regs f.1 f.2.
Proof.
  intros [Hsp Hn]. cbn zeta. unfold call_frame. cbn [fst snd].
  assert (Hlr : lr ∉ arm64_arg_regs) by (apply (bool_decide_unpack _); by vm_compute).
  assert (Hpc : elr ∉ arm64_arg_regs) by (apply (bool_decide_unpack _); by vm_compute).
  assert (Hs : sp ∉ arm64_arg_regs) by (apply (bool_decide_unpack _); by vm_compute).
  pose proof (Z.mod_pos_bound (regs sp) 16 ltac:(lia)) as Hm. unfold FRIDA_STACK_ALIGNMENT.
  pose proof (Z.div_mod (regs sp) 16 ltac:(lia)) as Hd.
  split; cbn [pc_reg sp_reg arg_regs word_size].
  - rewrite set_reg_other, set_regs_other by done. apply set_reg_same.
  - intros i r a Hr Ha. rewrite set_reg_other; [by eapply set_regs_at; eauto using arm64_arg_regs_nodup|].
    intros ->. by apply list_elem_of_lookup_2 in Hr.
  - intros i a Ha Hi. apply lookup_lt_Some in Ha. unfold zlen in Hn. cbn in Hi. lia.
  - apply set_reg_same.
  - rewrite set_reg_other, set_regs_other, set_reg_other, set_reg_same by done. rewrite u64_small by lia.
    rewrite Z.add_0_r. replace (regs sp - regs sp mod 16) with (0 + regs sp / 16 * 16) by lia. by rewrite Z.mod_add.
  - done.
  - intros r Hr1 Hr2 Hr3 Hr4. by rewrite set_reg_other, set_regs_other, !set_reg_other by done.
Qed.

Lemma s64_small z : - 2 ^ 63 ≤ z < 2 ^ 63 → s64 z = z.
Proof.
  intros H. unfold s64, u64. pose proof (Z.div_mod z (2 ^ 64)). pose proof (Z.mod_pos_bound z (2 ^ 64)).
  destruct (Z.ltb_spec (z mod 2 ^ 64) (2 ^ 63)); lia.
Qed.

(** The base of the stack arguments: below the red zone, and aligned. *)
Definition stack_base (w n old : Z) : Z :=
  let t := old - FRIDA_RED_ZONE_SIZE in t - (t - n * w) mod 16 - n * w.
Lemma stack_base_aligned w n old : stack_base w n old mod 16 = 0.
Proof.
  unfold stack_base. set (t := old - FRIDA_RED_ZONE_SIZE). pose proof (Z.div_mod (t - n * w) 16 ltac:(lia)).
  replace (t - (t - n * w) mod 16 - n * w) with (0 + (t - n * w) / 16 * 16) by lia. by rewrite Z.mod_add.
Qed.
Lemma stack_base_bounds w n old : 0 ≤ n → 0 < w →
  old - 144 - n * w < stack_base w n old ∧ stack_base w n old + w * n ≤ old - FRIDA_RED_ZONE_SIZE.
Proof.
  intros Hn Hw. unfold stack_base. set (t := old - FRIDA_RED_ZONE_SIZE).
  pose proof (Z.mod_pos_bound (t - n * w) 16 ltac:(lia)). unfold FRIDA_RED_ZONE_SIZE in *. lia.
Qed.

Lemma x86_64_call_frame func args regs :
  room_for X86_64 args regs →
  let words := zdrop 6 args in
  let B := stack_base 8 (zlen words) (regs r_rsp) in
  call_frame X86_64 func args regs =
  (set_reg r_rsp (B - 8) (set_regs x86_64_arg_regs args (set_reg r_rip func regs)), stack_writes 8 B words).
Proof.
  intros Hroom. cbn [room_for] in Hroom. cbn zeta. pose proof (zlen_nonneg args) as Hn.
  assert (Hk : Z.max (zlen args - 6) 0 = zlen (zdrop 6 args)) by (rewrite zlen_zdrop; lia).
  unfold call_frame. cbn zeta. rewrite Hk. set (k := zlen (zdrop 6 args)) in *.
  assert (Hk0 : 0 ≤ k ≤ zlen args) by lia.
  pose proof (stack_base_bounds 8 k (regs r_rsp) ltac:(lia) ltac:(lia)) as HB.
  unfold stack_base, FRIDA_STACK_ALIGNMENT, FRIDA_RED_ZONE_SIZE in *. set (t := regs r_rsp - 128) in *.
  pose proof (Z.mod_pos_bound (t - k * 8) 16 ltac:(lia)) as Hm.
  rewrite (u64_small t) by lia. rewrite s64_small by lia. rewrite Z.rem_mod_nonneg by lia.
  rewrite (u64_small (t - _)) by lia.
  assert (Hlt : (0 <? zlen args - 6) = negb (k =? 0)).
  { destruct (Z.ltb_spec 0 (zlen args - 6)), (Z.eqb_spec k 0); cbn; lia. }
  rewrite Hlt. unfold stack_writes. fold k.
  destruct (Z.eqb_spec k 0) as [E|E]; cbn [negb].
  - rewrite u64_small by lia. by rewrite E, Z.mul_0_l, !Z.sub_0_r.
  - replace (zlen args - 6) with k by lia. rewrite (u64_small (t - _ - _)) by lia. by rewrite u64_small by lia.
Qed.
Lemma x86_64_frame func args regs :
  room_for X86_64 args regs → let f := call_frame X86_64 func args regs in call_abi X86_64 func args regs f.1 f.2.
Proof.
  intros Hroom. cbn zeta. rewrite x86_64_call_frame by done. cbn [fst snd].
  assert (Hpc : r_rip ∉ x86_64_arg_regs) by (apply (bool_decide_unpack _); by vm_compute).
  assert (Hs : r_rsp ∉ x86_64_arg_regs) by (apply (bool_decide_unpack _); by vm_compute).
  set (words := zdrop 6 args). set (B := stack_base 8 _ _).
  pose proof (stack_base_bounds 8 (zlen words) (regs r_rsp) (zlen_nonneg _) ltac:(lia)) as HB. fold B in HB.
  split; cbn [pc_reg sp_reg arg_regs word_size].
  - rewrite set_reg_other, set_regs_other by done. apply set_reg_same.
  - intros i r a Hr Ha. rewrite set_reg_other; [by eapply set_regs_at; eauto using x86_64_arg_regs_nodup|].
    intros ->. by apply list_elem_of_lookup_2 in Hr.
  - intros i a Ha Hi j Hj. cbn [word_size] in *. rewrite set_reg_same. cbn [length x86_64_arg_regs] in Hi.
    rewrite <- (stack_arg 8 B words ltac:(lia) (i - 6) a j); [|unfold words, zdrop; rewrite lookup_drop;
      by replace (Z.to_nat 6 + (i - 6))%nat with i by lia|done].
    f_equal. change (zlen x86_64_arg_regs) with 6. lia.
  - intros j Hj. rewrite set_reg_same. by apply stack_return.
  - rewrite set_reg_same. replace (B - 8 + 8) with B by lia. apply stack_base_aligned.
  - intros a b Hab. rewrite set_reg_same. apply stack_extent in Hab; lia.
  - intros r Hr1 Hr2 Hr3 Hr4. by rewrite set_reg_other, set_regs_other, set_reg_other by done.
Qed.

Lemma ia32_call_frame func args regs :
  room_for IA32 args regs →
  let B := stack_base 4 (zlen args) (regs r_esp) in
  call_frame IA32 func args regs = (set_reg r_esp (B - 4) (set_reg r_eip func regs), stack_writes 4 B args).
Proof.
  intros Hroom. cbn [room_for] in Hroom. cbn zeta. pose proof (zlen_nonneg args) as Hn.
  pose proof (stack_base_bounds 4 (zlen args) (regs r_esp) ltac:(lia) ltac:(lia)) as HB.
  unfold call_frame, stack_base, FRIDA_STACK_ALIGNMENT, FRIDA_RED_ZONE_SIZE in *. cbn zeta.
  set (n := zlen args) in *. set (t := regs r_esp - 128) in *.
  pose proof (Z.mod_pos_bound (t - n * 4) 16 ltac:(lia)) as Hm.
  rewrite (u32_small t), (u32_small (t - n * 4)) by lia. rewrite (u32_small (t - _)) by lia.
  unfold stack_writes. fold n. destruct (Z.eqb_spec n 0) as [E|E]; cbn [negb].
  - rewrite u32_small by lia. by rewrite E, Z.mul_0_l, !Z.sub_0_r.
  - rewrite (u32_small (t - _ - _)) by lia. by rewrite u32_small by lia.
Qed.
Lemma ia32_frame func args regs :
  room_for IA32 args regs → let f := call_frame IA32 func args regs in call_abi IA32 func args regs f.1 f.2.
Proof.
  intros Hroom. cbn zeta. rewrite ia32_call_frame by done. cbn [fst snd]. set (B := stack_base 4 _ _).
  pose proof (stack_base_bounds 4 (zlen args) (regs r_esp) (zlen_nonneg _) ltac:(lia)) as HB. fold B in HB.
  split; cbn [pc_reg sp_reg arg_regs word_size].
  - rewrite set_reg_other by done. apply set_reg_same.
  - done.
  - intros i a Ha _ j Hj. cbn [word_size] in *. rewrite set_reg_same. rewrite <- (stack_arg 4 B args ltac:(lia) i a j) by done.
    f_equal. change (zlen (@nil reg)) with 0. lia.
  - intros j Hj. rewrite set_reg_same. by apply stack_return.
  - rewrite set_reg_same. replace (B - 4 + 4) with B by lia. apply stack_base_aligned.
  - intros a b Hab. rewrite set_reg_same. apply stack_extent in Hab; lia.
  - intros r Hr1 Hr2 Hr3 Hr4. by rewrite !set_reg_other by done.
Qed.

Lemma call_frame_abi cpu func args regs :
  room_for cpu args regs → let f := call_frame cpu func args regs in call_abi cpu func args regs f.1 f.2.
Proof. destruct cpu; [apply ia32_frame|apply x86_64_frame|apply arm64_frame]. Qed.

(** ** Logs *)
(** Requests that neither begin nor end tracing, nor open or close descriptors. *)
Definition inert_act (a : bact) : bool :=
  match a with
  | Attached _ | Detached _ | Forked _ _ | FifoOpened _ _ | FdClosed _ => false
  | _ => true
  end.
Definition inert (l : list bact) : Prop := Forall inert_act l.
(** Whether the end of a process was reported. *)
Definition ends (pid : Z) (a : bact) : bool :=
  match a with
  | Waited _ who (Exited _) | Waited _ who (Signaled _) => who =? pid
  | _ => false
  end.
Definition died (pid : Z) (l : list bact) : bool := existsb (ends pid) l.

(** Whether a wait for the process failed or found that it had exited. *)
Definition loses (pid : Z) (a : bact) : bool :=
  match a with
  | Waited p who st => (p =? pid) && (negb (who =? pid) || match st with Exited _ => true | _ => false end)
  | _ => false
  end.
Definition lost (pid : Z) (l : list bact) : bool := existsb (loses pid) l.

Lemma held_from_app pid h l1 l2 : held_from pid h (l1 ++ l2) = held_from pid (held_from pid h l1) l2.
Proof. apply foldl_app. Qed.
Lemma held_app pid l1 l2 : held pid (l1 ++ l2) = held_from pid (held pid l1) l2.
Proof. apply foldl_app. Qed.
Lemma fds_from_app fds l1 l2 : fds_from fds (l1 ++ l2) = fds_from (fds_from fds l1) l2.
Proof. apply foldl_app. Qed.
(** Requests that neither begin nor end tracing. *)
Definition steady_act (a : bact) : bool :=
  match a with Attached _ | Detached _ | Forked _ _ => false | _ => true end.
Definition steady (l : list bact) : Prop := Forall steady_act l.
Lemma inert_steady l : inert l → steady l.
Proof. intros Hl. eapply Forall_impl; [exact Hl|]. by intros []. Qed.
Lemma held_from_steady pid l : steady l → ∀ h, held_from pid h l = h && negb (died pid l).
Proof.
  induction 1 as [|a l Ha Hl IH]; intros h; [by destruct h|]. unfold held_from in *. cbn [foldl].
  rewrite IH. destruct a as [| |p who [| |]| | | | | | | | | | | | | |]; cbn [holds_after died existsb ends] in *;
    try done; unfold died; destruct (who =? pid), h; try done; cbn; by rewrite ?andb_false_r.
Qed.
Lemma steady_app l1 l2 : steady (l1 ++ l2) ↔ steady l1 ∧ steady l2.
Proof. apply Forall_app. Qed.
Lemma fds_from_inert l : inert l → ∀ fds, fds_from fds l = fds.
Proof. induction 1 as [|a l Ha Hl IH]; intros fds; [done|]. unfold fds_from in *. cbn. rewrite IH. by destruct a. Qed.
Lemma inert_app l1 l2 : inert (l1 ++ l2) ↔ inert l1 ∧ inert l2.
Proof. apply Forall_app. Qed.
Lemma died_app pid l1 l2 : died pid (l1 ++ l2) = died pid l1 || died pid l2.
Proof. apply existsb_app. Qed.

Lemma with_kern_app {K} k1 k2 l1 l2 (s : binjector K) :
  with_kern k2 l2 (with_kern k1 l1 s) = with_kern k2 (l1 ++ l2) s.
Proof. unfold with_kern. cbn. by rewrite app_assoc. Qed.

Section requests.
Context {K : Type} `{BsdKernel K}.
Implicit Types (s : binjector K) (k : K).

(** ** Requests *)
Lemma wp_sys {A} (f : K → sysret A * K) seen s (Q : sysret A → binjector K → Prop) :
  (∀ r k, f (b_kern s) = (r, k) → Q r (with_kern k (match r with SysOk a => seen a | SysErr _ => [] end) s)) →
  wp (sys f seen) s Q.
Proof.
  intros HQ. unfold wp, sys. destruct (f (b_kern s)) as [r k] eqn:E. eexists _, _. split; [done|]. by apply HQ.
Qed.
Lemma wp_waitpid pid nohang s (Q : Z * wstatus → binjector K → Prop) :
  (∀ who st k, Q (who, st) (with_kern k [Waited pid who st] s)) → wp (waitpid pid nohang) s Q.
Proof.
  intros HQ. unfold wp, waitpid. destruct (bk_waitpid pid nohang (b_kern s)) as [[who st] k].
  eexists _, _. split; [done|]. apply HQ.
Qed.

(** The state after inert requests only. *)
Definition runs (s : binjector K) (P : list bact → Prop) (s' : binjector K) : Prop :=
  ∃ k l, s' = with_kern k l s ∧ inert l ∧ P l.

(** The verdict of frida_wait_for_child_signal. *)
Definition verdict (pid signal who : Z) (st : wstatus) : bool * bool :=
  if negb (who =? pid) then (false, true)
  else match st with
       | Exited _ => (false, true)
       | Signaled _ => (false, false)
       | Stopped sig => (stops_for signal sig, false)
       end.
Lemma wp_wait_child pid signal s (Q : bool * bool → binjector K → Prop) :
  (∀ who st k, Q (verdict pid signal who st) (with_kern k [Waited pid who st] s)) →
  wp (frida_wait_for_child_signal pid signal) s Q.
Proof.
  intros HQ. unfold frida_wait_for_child_signal. wp_step. apply wp_waitpid. intros who st k.
  specialize (HQ who st k). unfold verdict in HQ. cbn [fst snd].
  destruct (negb (who =? pid)); [by wp_step|]. by destruct st; wp_step.
Qed.
Lemma verdict_came pid signal who st e :
  verdict pid signal who st = (true, e) → who = pid ∧ e = false ∧ ∃ sig, st = Stopped sig ∧ stops_for signal sig = true.
Proof.
  unfold verdict. destruct (Z.eqb_spec who pid) as [->|]; cbn; [|done].
  destruct st as [| |sig]; intros [= E <-]. by eauto 6.
Qed.

Lemma verdict_gone pid signal who st b :
  verdict pid signal who st = (b, true) →
  negb (who =? pid) || match st with Exited _ => true | _ => false end || false = true.
Proof. unfold verdict. destruct (who =? pid); cbn; [|done]. by destruct st; intros [=]. Qed.

Lemma wp_remote_write pid a bs s (Q : rv → binjector K → Prop) :
  (∀ k, Q ok (with_kern k [Wrote pid a bs] s)) →
  (∀ k, Q (fails NOT_SUPPORTED "remote_write") (with_kern k [] s)) →
  wp (frida_remote_write pid a bs) s Q.
Proof.
  intros H1 H2. unfold frida_remote_write. wp_step. apply wp_sys. intros [[]|e] k _; wp_step; [apply H1|apply H2].
Qed.
Lemma wp_remote_writes pid ws : ∀ s (Q : rv → binjector K → Prop),
  (∀ k, Q ok (with_kern k ((λ w, Wrote pid w.1 w.2) <$> ws) s)) →
  (∀ k l, inert l → Q (fails NOT_SUPPORTED "remote_write") (with_kern k l s)) →
  wp (remote_writes pid ws) s Q.
Proof.
  induction ws as [|[a bs] ws IH]; intros s Q H1 H2; cbn [remote_writes].
  - wp_step. specialize (H1 (b_kern s)). unfold with_kern in H1. cbn in H1. rewrite app_nil_r in H1. by destruct s.
  - wp_step. apply wp_remote_write; intros k; cbn [fst].
    + apply IH; [intros k'|intros k' l Hl]; rewrite with_kern_app; [apply H1|apply H2].
      apply inert_app. split; [by repeat constructor|done].
    + cbn [fails fst]. wp_step. apply H2. constructor.
Qed.

(** ** Remote calls *)
Section calls.
Context (cpu : Cpu) (pid : Z).

(** A call that succeeded: the frame was installed, the thread ran until it returned
    to the dummy address, and its result was read. *)
Definition called (func : Z) (args : list Z) (retval : Z) (l : list bact) : Prop :=
  ∃ regs regs2, let f := call_frame cpu func args regs in
    l = GotRegs pid regs :: ((λ w, Wrote pid w.1 w.2) <$> f.2) ++
        [SetRegs pid f.1; Resumed pid; Waited pid pid (Stopped SIGSEGV); GotRegs pid regs2] ∧
    retval = regs2 (ret_reg cpu).
(** The results of frida_remote_call. *)
Definition call_result (func : Z) (args : list Z) (c : outcome_of_call) (l : list bact) : Prop :=
  match oc_retval c with
  | Some retval => oc_rv c = ok ∧ oc_exited c = Some false ∧ called func args retval l
  | None => (oc_rv c).1 = false ∧ is_Some (oc_rv c).2
  end.

Lemma wp_run_until regs signal next s (Q : outcome_of_call → binjector K → Prop) :
  (∀ k l what e, inert l → (e = Some true → lost pid l = true) → Q (call_fails what e) (with_kern k l s)) →
  (∀ k sig, stops_for signal sig = true →
     wp (next false) (with_kern k [SetRegs pid regs; Resumed pid; Waited pid pid (Stopped sig)] s) Q) →
  wp (run_until pid regs signal next) s Q.
Proof.
  intros Hf Hs. unfold run_until. wp_step. apply wp_sys. intros [[]|e] k _; [|by wp_step; apply Hf; [constructor|]].
  wp_step. apply wp_sys. intros [[]|e] k2 _; rewrite with_kern_app; cbn [app];
    [|by wp_step; apply Hf; [repeat constructor|]].
  wp_step. apply wp_wait_child. intros who st k3. rewrite with_kern_app. cbn [app].
  destruct (verdict pid signal who st) as [[] e] eqn:E; cbn [fst snd negb].
  - apply verdict_came in E as (-> & -> & sig & -> & Hsig). by apply Hs.
  - wp_step. apply Hf; [by repeat constructor|]. intros [= ->]. cbn. rewrite Z.eqb_refl. cbn. by apply verdict_gone in E.
Qed.

Lemma called_inert func args retval l : called func args retval l → inert l.
Proof.
  intros (regs & regs2 & -> & _). constructor; [done|]. apply inert_app. split; [|by repeat constructor].
  unfold inert. rewrite Forall_fmap. by apply Forall_true.
Qed.

Lemma wp_remote_call func args s :
  (cpu = ARM64 → zlen args ≤ 8) →
  wp (frida_remote_call cpu pid func args) s (λ c, runs s (call_result func args c)).
Proof.
  intros Hn. unfold frida_remote_call. wp_step. apply wp_sys. intros [regs|e] k _; cycle 1.
  { wp_step. exists k, []. split_and!; [done|constructor|]. by split; [|eexists]. }
  wp_step. apply wp_assert.
  { destruct cpu; [done..|]. apply Z.leb_le. by apply Hn. }
  destruct (call_frame cpu func args regs) as [regs' ws] eqn:Ef.
  wp_step. apply wp_remote_writes; [intros k2|intros k2 l Hl]; rewrite with_kern_app; cbn [app fails ok fst negb].
  - apply wp_run_until; [intros k3 l what e Hl Hx|intros k3 sig Hsig]; rewrite with_kern_app.
    + eexists k3, _. split_and!; [done| |by split; [|eexists]].
      constructor; [done|]. apply inert_app. split; [|done]. unfold inert. rewrite Forall_fmap. by apply Forall_true.
    + wp_step. apply wp_sys. intros [regs2|e] k4 _; rewrite with_kern_app; wp_step.
      * assert (C : called func args (regs2 (ret_reg cpu)) (((GotRegs pid regs :: ((λ w, Wrote pid w.1 w.2) <$> ws)) ++
          [SetRegs pid regs'; Resumed pid; Waited pid pid (Stopped sig)]) ++ [GotRegs pid regs2])).
        { exists regs, regs2. rewrite Ef. cbn [fst snd]. split; [|done]. rewrite <- app_assoc. cbn [app].
          unfold stops_for in Hsig. cbn in Hsig. by apply Z.eqb_eq in Hsig as ->. }
        exists k4. eexists. split_and!; [done|by eapply called_inert|]. by split_and!.
      * eexists k4, _. split_and!; [done| |by split; [|eexists]]. rewrite app_nil_r. apply inert_app. split.
        -- constructor; [done|]. unfold inert. rewrite Forall_fmap. by apply Forall_true.
        -- by repeat constructor.
  - wp_step. eexists k2, _. split_and!; [done| |by split; [|eexists]]. by constructor.
Qed.

Lemma wp_remote_exec address stack s :
  wp (frida_remote_exec cpu pid address stack) s (λ c, runs s (λ l,
    if (oc_rv c).1 then oc_exited c = Some false
    else is_Some (oc_rv c).2 ∧ (oc_exited c = Some true → lost pid l = true))).
Proof.
  unfold frida_remote_exec. wp_step. apply wp_sys. intros [regs|e] k _; cycle 1.
  { wp_step. exists k, []. split_and!; [done|constructor|by split; [eexists|]]. }
  apply wp_run_until; [intros k3 l what e Hl Hx|intros k3 sig Hsig]; rewrite with_kern_app.
  - eexists k3, _. split_and!; [done|by constructor|by split; [eexists|]].
  - wp_step. eexists k3, _. split_and!; [done|by repeat constructor|done].
Qed.

(** The three requests made with a call; only the result of the call matters. *)
Lemma wp_remote_alloc size prot api s :
  wp (frida_remote_alloc cpu pid size prot api) s (λ r, runs s (λ l,
    r.1 = 0 ∨ (r.2 = None ∧ called (mmap_impl api) [0; size; prot; MAP_FLAGS; 2 ^ 64 - 1; 0] r.1 l))).
Proof.
  unfold frida_remote_alloc. wp_step. wp_call wp_remote_call; [done|]. intros c s' (k & l & -> & Hl & Hc).
  unfold call_result in Hc. destruct (oc_retval c) as [v|].
  - destruct Hc as (_ & _ & Hc). destruct (v =? FRIDA_MAP_FAILED cpu); wp_step; exists k, l; (split_and!; [done|done|]).
    + by left.
    + by right.
  - wp_step. exists k, l. split_and!; [done|done|by left].
Qed.
Lemma wp_remote_dealloc address size api s :
  wp (frida_remote_dealloc cpu pid address size api) s (λ _, runs s (λ _, True)).
Proof.
  unfold frida_remote_dealloc. wp_step. wp_call wp_remote_call; [done|]. intros c s' (k & l & -> & Hl & Hc).
  destruct (oc_retval c); wp_step; by exists k, l.
Qed.
Lemma wp_remote_mprotect address size prot api s :
  wp (frida_remote_mprotect cpu pid address size prot api) s (λ r, runs s (λ l,
    r.1 = true → called (mprotect_impl api) [address; size; prot] 0 l)).
Proof.
  unfold frida_remote_mprotect. wp_step. wp_call wp_remote_call; [done|]. intros c s' (k & l & -> & Hl & Hc).
  unfold call_result in Hc. destruct (oc_retval c) as [v|]; wp_step; exists k, l; (split_and!; [done|done|]).
  - destruct Hc as (_ & _ & Hc). cbn [fst]. intros ->%Z.eqb_eq. done.
  - intros E. destruct Hc as [Hc _]. congruence.
Qed.
End calls.
End requests.
