(* ===== verification/InjecteeCorrect.v ===== *)
(** Attaching, detaching and the steps of an injection: what each leaves in the log
    and in the instance. *)
From stdpp Require Import pretty.
From S2P Require Import Prelude Posix Binjector BinjectorInstances BinjectorCorrect.

(** ** Partial correctness at a state *)
Definition wlp {S A} (m : M S A) (s : S) (Q : A → S → Prop) : Prop := ∀ a s', m s = Ret (a, s') → Q a s'.
Section wlp_rules.
Context {S : Type}.
Lemma wlp_wp {A} (m : M S A) s Q : wp m s Q → wlp m s Q.
Proof. intros Hm a s' E. by eapply wp_frame_eq. Qed.
Lemma wlp_ret {A} (a : A) (s : S) (Q : A → S → Prop) : Q a s → wlp (ret a) s Q.
Proof. by intros HQ b s' [= <- <-]. Qed.
Lemma wlp_bind {A B} (m : M S A) (k : A → M S B) s Q : wlp m s (λ a s', wlp (k a) s' Q) → wlp (bind m k) s Q.
Proof.
  intros Hm b s' E. unfold bind in E. destruct (m s) as [[a t]| | |] eqn:Em; try done. by apply (Hm a t).
Qed.
Lemma wlp_mono {A} (m : M S A) s (P Q : A → S → Prop) : wlp m s P → (∀ a s', P a s' → Q a s') → wlp m s Q.
Proof. intros Hm HPQ a s' E. by apply HPQ, Hm. Qed.
Lemma wlp_crash {A} s (Q : A → S → Prop) : wlp crash s Q.
Proof. done. Qed.
End wlp_rules.

Section injectee.
Context {K : Type} `{BsdKernel K} (cpu : Cpu).
Implicit Types (s : binjector K) (k : K) (i : FridaInjectInstance).

(** The state after requests [l], with the instance at [h] being [i]. *)
Definition at_obj (h : Z) (i : FridaInjectInstance) (k : K) (l : list bact) (s : binjector K) : binjector K :=
  with_kern k l (with_objects <[h := i]> s).
Lemma at_obj_at_obj h i1 i2 k1 k2 l1 l2 s :
  at_obj h i2 k2 l2 (at_obj h i1 k1 l1 s) = at_obj h i2 k2 (l1 ++ l2) s.
Proof. unfold at_obj, with_kern, with_objects. cbn. by rewrite app_assoc, insert_insert_eq. Qed.
Lemma with_kern_at_obj h i k1 k2 l1 l2 s : with_kern k2 l2 (at_obj h i k1 l1 s) = at_obj h i k2 (l1 ++ l2) s.
Proof. unfold at_obj, with_kern. cbn. by rewrite app_assoc. Qed.
Lemma with_kern_obj h i k l s : inject_objects s !! h = Some i → with_kern k l s = at_obj h i k l s.
Proof. intros Hi. unfold at_obj, with_kern, with_objects. cbn. by rewrite insert_id. Qed.
Lemma at_obj_now h i s : inject_objects s !! h = Some i → s = at_obj h i (b_kern s) [] s.
Proof. intros Hi. rewrite <- with_kern_obj by done. unfold with_kern. rewrite app_nil_r. by destruct s. Qed.
Lemma at_obj_lookup h i k l s : inject_objects (at_obj h i k l s) !! h = Some i.
Proof. cbn. by rewrite lookup_insert_eq. Qed.
Lemma at_obj_trace h i k l s : b_trace (at_obj h i k l s) = b_trace s ++ l.
Proof. done. Qed.

Lemma wp_get_object h i s Q : inject_objects s !! h = Some i → Q i s → wp (get_object h) s Q.
Proof. intros Hi HQ. exists i, s. unfold get_object. by rewrite Hi. Qed.
Lemma wp_put_object h i s Q : Q tt (at_obj h i (b_kern s) [] s) → wp (put_object h i) s Q.
Proof.
  intros HQ. unfold put_object. apply wp_modify. unfold at_obj, with_kern in HQ. cbn in HQ.
  rewrite app_nil_r in HQ. done.
Qed.
Lemma wp_change_object h i f s (Q : unit → binjector K → Prop) : inject_objects s !! h = Some i →
  Q tt (at_obj h (f i) (b_kern s) [] s) → wp (change_object h f) s Q.
Proof.
  intros Hi HQ. unfold change_object. wp_step. apply (wp_get_object h i); [done|]. by apply wp_put_object.
Qed.
Lemma wp_runs {A} (m : M (binjector K) A) h i s P (Q : A → binjector K → Prop) :
  wp m s (λ a, runs s (P a)) → inject_objects s !! h = Some i →
  (∀ a k l, inert l → P a l → Q a (at_obj h i k l s)) → wp m s Q.
Proof.
  intros Hm Hi HQ. eapply wp_mono; [exact Hm|]. intros a s' (k & l & -> & Hl & HP).
  rewrite (with_kern_obj h i) by done. by apply HQ.
Qed.

(** ** Attaching *)
Definition waiting_act (a : bact) : bool :=
  match a with Waited _ _ _ | Resumed _ => true | _ => false end.
Definition waits (l : list bact) : Prop := Forall waiting_act l.
Lemma wp_wait_attach pid s :
  wp (frida_wait_for_attach_signal pid) s (λ b, runs s (λ l, waits l ∧ (b = true → died pid l = false))).
Proof.
  unfold frida_wait_for_attach_signal. wp_step. apply wp_waitpid. intros who st k. cbn [fst snd].
  destruct (Z.eqb_spec who pid) as [->|Hne]; cbn [negb]; cycle 1.
  { wp_step. eexists k, _. split_and!; [done|by repeat constructor..|done]. }
  destruct st as [| |sig]; [wp_step; eexists k, _; (split_and!; [done|by repeat constructor..|done])..|].
  destruct (sig =? SIGTRAP); cycle 1.
  { wp_step. eexists k, _. split_and!; [done|by repeat constructor..|done]. }
  wp_step. apply wp_sys. intros [[]|e] k2 _; rewrite with_kern_app; cbn [app]; cycle 1.
  { wp_step. eexists k2, _. split_and!; [done|by repeat constructor..|done]. }
  wp_step. apply wp_wait_child. intros who st k3. rewrite with_kern_app. cbn [app]. wp_step.
  eexists k3, _. split_and!; [done|by repeat constructor..|]. intros E.
  destruct (verdict pid SIGSTOP who st) as [b e] eqn:V. cbn in E. subst b.
  by apply verdict_came in V as (-> & _ & ? & -> & _).
Qed.

(** How attaching can go: the process could not be attached to; it was attached
    already; it is attached now and stopped; it was given up after attaching. *)
Inductive attaching (pid : Z) (i : FridaInjectInstance) :
  rv * option FridaRegs → FridaInjectInstance → list bact → Prop :=
| attach_refused r : r.1 = false → attaching pid i (r, None) i []
| attach_again regs : attaching pid i (ok, Some regs) (with_already_attached true i) [GotRegs pid regs]
| attach_fresh regs l : inert l → waits l → died pid l = false →
    attaching pid i (ok, Some regs) (with_already_attached false i) (Attached pid :: l ++ [GotRegs pid regs])
| attach_lost r l l' : r.1 = false → inert l → waits l → l' = [] ∨ l' = [Detached pid] →
    attaching pid i (r, None) (with_already_attached false i) (Attached pid :: l ++ l').

(** No other process traces it. *)
Definition alone (pid : Z) : Prop := ∀ k k' : K, bk_attach pid false k ≠ (SysErr EBUSY, k').

Lemma attach_failure_fails pid e what : (attach_failure pid e what).1 = false.
Proof. unfold attach_failure. by destruct (e =? EPERM). Qed.
Lemma wp_attach h i s (Q : rv * option FridaRegs → binjector K → Prop) :
  inject_objects s !! h = Some i →
  (∀ r i' l k, attaching (ii_pid i) i r i' l →
     (BsdLaws K → held (ii_pid i) (b_trace s) = true → ∀ l', l ≠ Attached (ii_pid i) :: l') →
     (alone (ii_pid i) → held (ii_pid i) (b_trace s) = false → ∀ regs, l ≠ [GotRegs (ii_pid i) regs]) →
     Q r (at_obj h i' k l s)) →
  wp (frida_inject_instance_attach h) s Q.
Proof.
  intros Hi HQ. unfold frida_inject_instance_attach. wp_step. apply (wp_get_object h i); [done|].
  wp_step. unfold pt_attach. apply wp_sys. intros [[]|e] k Ek; rewrite (with_kern_obj h i) by done.
  - assert (Hheld : BsdLaws K → held (ii_pid i) (b_trace s) = true → False).
    { intros Hlaws Hh. rewrite Hh in Ek. pose proof (bl_attach_busy (ii_pid i) (b_kern s)) as X. by rewrite Ek in X. }
    wp_step. apply (wp_change_object h i); [apply at_obj_lookup|]. rewrite at_obj_at_obj. cbn [app].
    wp_step. wp_call wp_wait_attach. intros b s' (k2 & l & -> & Hl & Hw & Hd). rewrite with_kern_at_obj. cbn [app].
    wp_step. destruct b.
    + apply wp_sys. intros [regs|e] k3 _; rewrite with_kern_at_obj; cbn [app].
      * wp_step. apply HQ; [|naive_solver..]. by apply attach_fresh; [| |apply Hd].
      * wp_step. apply wp_sys. intros r k4 _. rewrite with_kern_at_obj, app_nil_r. cbn [app]. wp_step.
        apply HQ; [|naive_solver..]. apply attach_lost; [done|done|done|]. destruct r; [by right|by left].
    + wp_step. wp_step. apply wp_sys. intros r k4 _. rewrite with_kern_at_obj. cbn [app]. wp_step.
      apply HQ; [|naive_solver..]. apply attach_lost; [done|done|done|]. destruct r; [by right|by left].
  - destruct (Z.eqb_spec e EBUSY) as [->|Hne].
    + wp_step. apply wp_sys. intros [regs|e'] k3 _; rewrite with_kern_at_obj; cbn [app].
      * wp_step. apply (wp_change_object h i); [apply at_obj_lookup|]. rewrite at_obj_at_obj. cbn [app]. wp_step.
        apply HQ; [apply attach_again|done|]. intros Ha Hh. rewrite Hh in Ek. by apply Ha in Ek.
      * wp_step. apply HQ; [|done..]. apply attach_refused, attach_failure_fails.
    + wp_step. apply HQ; [|done..]. apply attach_refused, attach_failure_fails.
Qed.

(** ** Detaching *)
(** A system that does not refuse to restore registers and to detach. *)
Definition lets_go (pid : Z) : Prop :=
  (∀ regs k, ∃ k', bk_setregs pid regs k = (SysOk tt, k')) ∧ (∀ k, ∃ k', bk_detach pid k = (SysOk tt, k')).
Definition unmanaged (pid : Z) (s : binjector K) : Prop :=
  spawn_instances s !! pid = None ∧ exec_instances s !! pid = None.

Lemma wp_detach h i saved s (Q : rv → binjector K → Prop) :
  inject_objects s !! h = Some i → (ii_already_attached i = true → unmanaged (ii_pid i) s) →
  (∀ r k l, inert l → (lets_go (ii_pid i) → ii_already_attached i = true) → Q r (at_obj h i k l s)) →
  (∀ k, ii_already_attached i = false → Q ok (at_obj h i k [SetRegs (ii_pid i) saved; Detached (ii_pid i)] s)) →
  wp (frida_inject_instance_detach h saved) s Q.
Proof.
  intros Hi Hun Hq Hd. unfold frida_inject_instance_detach. wp_step. apply (wp_get_object h i); [done|].
  wp_step. apply wp_sys. intros [[]|e] k Ek; rewrite (with_kern_obj h i) by done; cycle 1.
  { wp_step. apply Hq; [constructor|]. intros [Hs _]. destruct (Hs saved (b_kern s)) as [k' E]. congruence. }
  destruct (ii_already_attached i) eqn:Ea.
  - destruct (Hun eq_refl) as [E1 E2]. wp_step. wp_step. wp_step. wp_step.
    change (spawn_instances (at_obj _ _ _ _ s)) with (spawn_instances s).
    change (exec_instances (at_obj _ _ _ _ s)) with (exec_instances s). rewrite E1, E2. wp_step.
    apply Hq; [by repeat constructor|done].
  - wp_step. apply wp_sys. intros [[]|e] k2 Ek2; rewrite with_kern_at_obj; cbn [app]; wp_step; [by apply Hd|].
    apply Hq; [by repeat constructor|]. intros [_ Hs]. destruct (Hs (b_kern (at_obj h i k [SetRegs (ii_pid i) saved] s))) as [k' E].
    congruence.
Qed.

(** ** The payload *)
Context (emit : FridaInjectParams → Z → list Z).
Lemma wp_transfer params s :
  wp (frida_inject_instance_emit_and_transfer_payload cpu emit params) s (λ r, runs s (λ _, True)).
Proof.
  unfold frida_inject_instance_emit_and_transfer_payload. wp_step. unfold ask. wp_step.
  wp_step. apply wp_remote_write; intros k1; cbn [fails ok fst negb]; cycle 1.
  { wp_step. exists k1, []. split_and!; [done|constructor|done]. }
  wp_step. apply wp_remote_write; intros k2; rewrite with_kern_app; cbn [fails ok fst negb]; cycle 1.
  { wp_step. exists k2. eexists. split_and!; [done|by repeat constructor|done]. }
  wp_step. wp_call wp_remote_mprotect. intros r1 s1 (k3 & l1 & -> & Hl1 & _). rewrite with_kern_app.
  assert (Hw : ∀ a b, inert ([Wrote (pa_pid params) (u64 (pa_remote_address params + rg_offset (pa_code params))) a] ++
    [Wrote (pa_pid params) (u64 (pa_remote_address params + rg_offset (pa_data params))) b])) by by repeat constructor.
  destruct (r1.1); cbn [negb]; cycle 1.
  { wp_step. exists k3. eexists. split_and!; [done|by apply inert_app|done]. }
  wp_step. wp_call wp_remote_mprotect. intros r2 s2 (k4 & l2 & -> & Hl2 & _). rewrite with_kern_app.
  destruct (r2.1); cbn [negb]; wp_step; exists k4; eexists;
    (split_and!; [done|apply inert_app; split; [by apply inert_app|done]|done]).
Qed.

(** ** The thread, and the way out *)
(** How a process is let go: the log of a detach that worked, or of one that was
    refused or left to its owner. *)
Inductive letting_go (i : FridaInjectInstance) (saved : FridaRegs) : list bact → Prop :=
| let_go : ii_already_attached i = false →
    letting_go i saved [SetRegs (ii_pid i) saved; Detached (ii_pid i)]
| kept_back l : inert l → (lets_go (ii_pid i) → ii_already_attached i = true) → letting_go i saved l.
Inductive started (i : FridaInjectInstance) (saved : FridaRegs) : rv → list bact → Prop :=
| start_failed r l : r.1 = false → inert l → started i saved r l
| start_lost l : inert l → lost (ii_pid i) l = true → started i saved ok l
| start_done l l' : inert l → letting_go i saved l' → started i saved ok (l ++ l').

Lemma wlp_start_and_detach h i saved s :
  inject_objects s !! h = Some i → (ii_already_attached i = true → unmanaged (ii_pid i) s) →
  wlp (start_and_detach cpu h saved) s (λ r s', ∃ k l, s' = at_obj h i k l s ∧ started i saved r l).
Proof.
  intros Hi Hun. unfold start_and_detach. apply wlp_bind, wlp_wp.
  unfold frida_inject_instance_start_remote_thread. wp_step. apply (wp_get_object h i); [done|].
  apply (wp_runs _ h i s _ _ (wp_remote_exec cpu _ _ _ _) Hi). intros c k l Hl Hc.
  destruct ((oc_rv c).1) eqn:Er.
  - rewrite Hc. apply wlp_bind, wlp_wp. apply (wp_detach h i).
    + apply at_obj_lookup.
    + done.
    + intros r k2 l2 Hl2 Hgo. rewrite at_obj_at_obj. apply wlp_ret. exists k2. eexists. split; [done|].
      by apply start_done, kept_back.
    + intros k2 Ha. rewrite at_obj_at_obj. apply wlp_ret. exists k2. eexists. split; [done|].
      by apply start_done; [|apply let_go].
  - destruct Hc as [_ Hc]. destruct (oc_exited c) as [[]|] eqn:Ex; [| |done].
    + apply wlp_ret. exists k, l. split; [done|]. apply start_lost; [done|by apply Hc].
    + apply wlp_ret. exists k, l. split; [done|]. by apply start_failed.
Qed.

(** What the steps after attaching leave of an instance. *)
Definition same_process (i i' : FridaInjectInstance) : Prop :=
  ii_pid i' = ii_pid i ∧ ii_already_attached i' = ii_already_attached i ∧
  ii_executable_path i' = ii_executable_path i ∧ ii_exec_pending i' = ii_exec_pending i.

Lemma started_same i i' saved r l :
  same_process i i' → started i' saved r l → started i saved r l.
Proof.
  intros (E1 & E2 & _) Hs. destruct Hs as [r l Hr Hl|l Hl Hlost|l l' Hl Hgo].
  - by apply start_failed.
  - rewrite E1 in Hlost. by apply start_lost.
  - apply start_done; [done|]. destruct Hgo as [Ha|l' Hl' Hgo].
    + rewrite E1. apply let_go. congruence.
    + apply kept_back; [done|]. by rewrite <- E1, <- E2.
Qed.
Lemma started_app i saved r l0 l : inert l0 → started i saved r l → started i saved r (l0 ++ l).
Proof.
  intros Hl0 Hs. destruct Hs as [r l Hr Hl|l Hl Hlost|l l' Hl Hgo].
  - apply start_failed; [done|by apply inert_app].
  - apply start_lost; [by apply inert_app|]. unfold lost in *. by rewrite existsb_app, Hlost, orb_true_r.
  - rewrite app_assoc. apply start_done; [by apply inert_app|done].
Qed.

Lemma wlp_inject_attached page_size pid api path entrypoint data fifo h i saved s :
  inject_objects s !! h = Some i → (ii_already_attached i = true → unmanaged (ii_pid i) s) →
  wlp (inject_attached cpu emit page_size pid api path entrypoint data fifo h saved) s (λ r s',
    ∃ k l i', s' = at_obj h i' k l s ∧ same_process i i' ∧ started i saved r l).
Proof.
  intros Hi Hun. unfold inject_attached. apply wlp_bind, wlp_wp.
  apply (wp_runs _ h i s _ _ (wp_remote_alloc cpu _ _ _ _ _) Hi). intros m k1 l1 Hl1 _.
  destruct (m.1 =? 0).
  { apply wlp_ret. exists k1, l1, i. split_and!; [done|done|]. by apply start_failed. }
  apply wlp_bind, wlp_wp, (wp_change_object h i); [apply at_obj_lookup|]. rewrite at_obj_at_obj, app_nil_r.
  set (i1 := with_payload _ _ i). cbn zeta. apply wlp_bind, wlp_wp.
  eapply (wp_runs _ h i1 _ _ _ (wp_transfer _ _)); [apply at_obj_lookup|]. intros t k2 l2 Hl2 _. rewrite at_obj_at_obj.
  destruct (t.1.1) eqn:Et; cbn [negb]; cycle 1.
  { apply wlp_ret. exists k2. eexists _, i1. split_and!; [done|done|]. apply start_failed; [done|by apply inert_app]. }
  apply wlp_bind, wlp_wp, (wp_change_object h i1); [apply at_obj_lookup|]. rewrite at_obj_at_obj, app_nil_r.
  set (i2 := with_code _ _ _ i1). eapply wlp_mono; [apply (wlp_start_and_detach h i2); [apply at_obj_lookup|done]|].
  intros r s' (k & l & -> & Hs). rewrite at_obj_at_obj. exists k. eexists _, i2. split_and!; [done|done|].
  apply started_app; [by apply inert_app|]. by apply (started_same i i2).
Qed.

(** ** Release *)
Lemma wp_did_not_exec h i p s (Q : bool → binjector K → Prop) :
  inject_objects s !! h = Some i → ii_executable_path i = Some p → (∀ b, Q b s) →
  wp (frida_inject_instance_did_not_exec h) s Q.
Proof.
  intros Hi Hp HQ. unfold frida_inject_instance_did_not_exec. wp_step. apply (wp_get_object h i); [done|].
  unfold ask. wp_step. wp_step. rewrite Hp. by destruct (bk_program_path _ _); wp_step.
Qed.

Lemma wp_dispose h i s (Q : unit → binjector K → Prop) :
  inject_objects s !! h = Some i →
  (∀ k, Q tt (with_objects (delete h) (with_kern k [FdClosed (ii_fifo i); Unlinked (ii_fifo_path i)] s))) →
  wp (dispose h) s Q.
Proof.
  intros Hi HQ. unfold dispose, close_fd, unlink, does. wp_step. apply (wp_get_object h i); [done|].
  wp_step. wp_step. wp_step. wp_step. wp_step. rewrite with_kern_app. apply HQ.
Qed.
Lemma wp_close_previous h i s (Q : unit → binjector K → Prop) :
  inject_objects s !! h = Some i →
  (∀ k, Q tt (at_obj h (with_previous_fifo (-1) i) k
              (if ii_previous_fifo i =? -1 then [] else [FdClosed (ii_previous_fifo i)]) s)) →
  wp (frida_inject_instance_close_previous_fifo h) s Q.
Proof.
  intros Hi HQ. unfold frida_inject_instance_close_previous_fifo. wp_step. apply (wp_get_object h i); [done|].
  destruct (Z.eqb_spec (ii_previous_fifo i) (-1)) as [E|E]; cbn [negb].
  - wp_step. specialize (HQ (b_kern s)).
    replace (with_previous_fifo (-1) i) with i in HQ by (rewrite <- E; by destruct i).
    rewrite <- with_kern_obj in HQ by done. unfold with_kern in HQ. rewrite app_nil_r in HQ. by destruct s.
  - unfold close_fd, does. wp_step. wp_step. apply wp_put_object. rewrite (with_kern_obj h i), at_obj_at_obj by done.
    rewrite app_nil_r. apply HQ.
Qed.

(** Freeing the instance of a process that is held and not managed otherwise: the
    process is not let go. *)
Lemma wp_free_end h i k l s (Q : unit → binjector K → Prop) :
  steady l → (∀ s' l', b_trace s' = b_trace s ++ l' → steady l' → Q tt s') →
  wp (do! frida_inject_instance_close_previous_fifo h in dispose h) (at_obj h i k l s) Q.
Proof.
  intros Hl HQ. wp_step. apply (wp_close_previous h i); [apply at_obj_lookup|]. intros k2. rewrite at_obj_at_obj.
  eapply wp_dispose; [apply at_obj_lookup|]. intros k3. rewrite with_kern_at_obj. eapply HQ; [done|].
  apply steady_app. split; [|by repeat constructor]. apply steady_app. split; [done|].
  destruct (ii_previous_fifo i =? -1); by repeat constructor.
Qed.
Lemma wp_free_held (Hlaws : BsdLaws K) h i p policy s :
  inject_objects s !! h = Some i → ii_executable_path i = Some p →
  unmanaged (ii_pid i) s → held (ii_pid i) (b_trace s) = true →
  wp (frida_inject_instance_free cpu h policy) s (λ _ s', ∃ l, b_trace s' = b_trace s ++ l ∧ steady l).
Proof.
  intros Hi Hp Hun Hheld. unfold frida_inject_instance_free, unload_payload. wp_step. wp_step. apply (wp_get_object h i); [done|].
  assert (Hend : ∀ i' k l, steady l → wp (do! frida_inject_instance_close_previous_fifo h in dispose h) (at_obj h i' k l s)
    (λ _ s', ∃ l, b_trace s' = b_trace s ++ l ∧ steady l)).
  { intros i' k l Hl. apply wp_free_end; [done|]. by eauto. }
  assert (Hno : wp (do! frida_inject_instance_close_previous_fifo h in dispose h) s
    (λ _ s', ∃ l, b_trace s' = b_trace s ++ l ∧ steady l)).
  { rewrite (at_obj_now h i s) at 1 by done. apply Hend. constructor. }
  destruct (negb (ii_pid i =? 0) && _ && _ && _); [|by wp_step].
  wp_step. apply (wp_did_not_exec h i p); [done..|]. intros [|]; [|by wp_step].
  wp_step. apply (wp_attach h i); [done|]. intros r i' l k Ha Hfresh _. specialize (Hfresh Hlaws Hheld).
  destruct Ha as [[b e] Hr|regs|regs l Hl _ _|r l l' Hr Hl _ _].
  - cbn in Hr. subst b. wp_step. apply Hend. constructor.
  - cbn [ok]. wp_step. eapply (wp_runs _ h _ _ _ _ (wp_remote_dealloc _ _ _ _ _ _)); [apply at_obj_lookup|].
    intros _ k2 l2 Hl2 _. rewrite at_obj_at_obj. wp_step. eapply wp_detach; [apply at_obj_lookup|by intros _| |done].
    intros _ k3 l3 Hl3 _. rewrite at_obj_at_obj. wp_step. apply Hend.
    repeat (apply steady_app; split); [by repeat constructor|by apply inert_steady..].
  - by destruct (Hfresh (l ++ [GotRegs (ii_pid i) regs])).
  - by destruct (Hfresh (l ++ l')).
Qed.
End injectee.

(** ** Frames: what keeps a property of the tables *)
(** What an instance knows of its descriptors. *)
Definition fifo_view (i : FridaInjectInstance) : Z * Z * Z := (ii_id i, ii_fifo i, ii_previous_fifo i).
(** Requests that leave the descriptors alone. *)
Definition quiet_act (a : bact) : bool := match a with FifoOpened _ _ | FdClosed _ => false | _ => true end.
Definition quiet (l : list bact) : Prop := Forall quiet_act l.
Lemma fds_from_quiet l : quiet l → ∀ fds, fds_from fds l = fds.
Proof. induction 1 as [|a l Ha Hl IH]; intros fds; [done|]. unfold fds_from in *. cbn. rewrite IH. by destruct a. Qed.

Section frames.
Context {K : Type} `{BsdKernel K} (cpu : Cpu) (emit : FridaInjectParams → Z → list Z).
Context (I : binjector K → Prop).
Context (Ikern : ∀ k l s, quiet l → I s → I (with_kern k l s)).
Context (Iobj : ∀ h i i' s, inject_objects s !! h = Some i → fifo_view i' = fifo_view i → I s → I (with_objects <[h := i']> s)).
Context (Ispawn : ∀ f s, I s → I (with_spawn f s)) (Iexec : ∀ f s, I s → I (with_exec f s)).

Lemma keeps_request {A} (f : K → sysret A * K) seen : (∀ a, quiet (seen a)) → keeps I (sys f seen).
Proof.
  intros Hq s a s' Hs E. unfold sys in E. destruct (f (b_kern s)) as [r k]. simplify_eq. apply Ikern; [|done].
  destruct a; [apply Hq|constructor].
Qed.
Lemma keeps_pt_attach pid : keeps I (pt_attach pid).
Proof. intros s a s' Hs E. eapply keeps_request; [|done..]. by repeat constructor. Qed.
Lemma keeps_waitpid pid nohang : keeps I (waitpid pid nohang).
Proof.
  intros s a s' Hs E. unfold waitpid in E. destruct (bk_waitpid _ _ _). simplify_eq. apply Ikern; by repeat constructor.
Qed.
Lemma keeps_gets {A} (g : binjector K → A) : keeps I (gets g).
Proof. intros s a s' Hs E. unfold gets in E. by simplify_eq. Qed.
Lemma keeps_get_object h : keeps I (get_object h).
Proof. intros s a s' Hs E. unfold get_object in E. destruct (inject_objects s !! h); by simplify_eq. Qed.
Lemma keeps_change_object h f : (∀ i, fifo_view (f i) = fifo_view i) → keeps I (change_object h f).
Proof.
  intros Hf s a s' Hs E. unfold change_object, bind, get_object in E. destruct (inject_objects s !! h) as [i|] eqn:Hi; [|done].
  unfold put_object, modify in E. simplify_eq. by eapply Iobj.
Qed.
Lemma keeps_set_interruptible pid tid : keeps I (set_interruptible_thread pid tid).
Proof.
  intros s a s' Hs E. unfold set_interruptible_thread, modify in E. simplify_eq.
  case_bool_decide; [by apply Ispawn|by apply Iexec].
Qed.
Lemma keeps_c_assert b : keeps I (c_assert b).
Proof. intros s a s' Hs E. unfold c_assert in E. destruct b; by simplify_eq. Qed.
Lemma keeps_not_reached {A} : keeps I (c_assert_not_reached (A := A)).
Proof. intros s a s' Hs E. done. Qed.
Local Hint Extern 1 (∀ _, quiet _) => by repeat constructor : keeps.
Local Hint Extern 1 (∀ _, fifo_view _ = fifo_view _) => done : keeps.
Local Hint Resolve keeps_request keeps_pt_attach keeps_waitpid keeps_gets keeps_get_object
  keeps_change_object keeps_set_interruptible keeps_c_assert keeps_not_reached : keeps.

Lemma keeps_remote_read pid a n : keeps I (frida_remote_read pid a n).
Proof. unfold frida_remote_read. keeps_auto. Qed.
Lemma keeps_remote_write pid a bs : keeps I (frida_remote_write pid a bs).
Proof. unfold frida_remote_write. keeps_auto. Qed.
Local Hint Resolve keeps_remote_read keeps_remote_write : keeps.
Lemma keeps_remote_writes pid ws : keeps I (remote_writes pid ws).
Proof. induction ws as [|[a bs] ws IH]; cbn [remote_writes]; keeps_auto. Qed.
Lemma keeps_wait_child pid sig : keeps I (frida_wait_for_child_signal pid sig).
Proof. unfold frida_wait_for_child_signal. keeps_auto. Qed.
Lemma keeps_get_regs pid : keeps I (frida_get_regs pid).
Proof. unfold frida_get_regs. keeps_auto. Qed.
Lemma keeps_set_regs pid regs : keeps I (frida_set_regs pid regs).
Proof. unfold frida_set_regs. keeps_auto. Qed.
Lemma keeps_continue pid : keeps I (pt_continue pid).
Proof. unfold pt_continue. keeps_auto. Qed.
Lemma keeps_detach_request pid : keeps I (pt_detach pid).
Proof. unfold pt_detach. keeps_auto. Qed.
Local Hint Resolve keeps_remote_writes keeps_wait_child keeps_get_regs keeps_set_regs keeps_continue keeps_detach_request : keeps.
Lemma keeps_run_until pid regs sig next : (∀ b, keeps I (next b)) → keeps I (run_until pid regs sig next).
Proof. intros Hn. unfold run_until. keeps_auto. Qed.
Lemma keeps_remote_call pid func args : keeps I (frida_remote_call cpu pid func args).
Proof.
  unfold frida_remote_call. keeps_auto. apply keeps_run_until. keeps_auto.
Qed.
Lemma keeps_remote_exec pid a st : keeps I (frida_remote_exec cpu pid a st).
Proof. unfold frida_remote_exec. keeps_auto. apply keeps_run_until. keeps_auto. Qed.
Local Hint Resolve keeps_remote_call keeps_remote_exec : keeps.
Lemma keeps_remote_alloc pid size prot api : keeps I (frida_remote_alloc cpu pid size prot api).
Proof. unfold frida_remote_alloc. keeps_auto. Qed.
Lemma keeps_remote_dealloc pid a size api : keeps I (frida_remote_dealloc cpu pid a size api).
Proof. unfold frida_remote_dealloc. keeps_auto. Qed.
Lemma keeps_remote_mprotect pid a size prot api : keeps I (frida_remote_mprotect cpu pid a size prot api).
Proof. unfold frida_remote_mprotect. keeps_auto. Qed.
Lemma keeps_wait_attach pid : keeps I (frida_wait_for_attach_signal pid).
Proof. unfold frida_wait_for_attach_signal. keeps_auto. Qed.
Local Hint Resolve keeps_remote_alloc keeps_remote_dealloc keeps_remote_mprotect keeps_wait_attach : keeps.
Lemma keeps_attach h : keeps I (frida_inject_instance_attach h).
Proof. unfold frida_inject_instance_attach. keeps_auto. Qed.
Lemma keeps_detach h saved : keeps I (frida_inject_instance_detach h saved).
Proof.
  unfold frida_inject_instance_detach, hold_main_thread, pt_suspend. keeps_auto.
  all: match goal with |- keeps _ (match ?a with _ => _ end ?b) => destruct a, b end; keeps_auto.
Qed.
Lemma keeps_did_not_exec h : keeps I (frida_inject_instance_did_not_exec h).
Proof. unfold frida_inject_instance_did_not_exec, ask. keeps_auto. Qed.
Local Hint Resolve keeps_attach keeps_detach keeps_did_not_exec : keeps.
(** The part of frida_inject_instance_free that talks to the process. *)
Lemma keeps_unload h policy : keeps I (unload_payload cpu h policy).
Proof. unfold unload_payload. keeps_auto. Qed.
Lemma keeps_transfer params : keeps I (frida_inject_instance_emit_and_transfer_payload cpu emit params).
Proof. unfold frida_inject_instance_emit_and_transfer_payload, ask. keeps_auto. Qed.
Lemma keeps_start_and_detach h saved : keeps I (start_and_detach cpu h saved).
Proof. unfold start_and_detach, frida_inject_instance_start_remote_thread. keeps_auto. Qed.
Local Hint Resolve keeps_unload keeps_transfer keeps_start_and_detach : keeps.
Lemma keeps_inject_attached page_size pid api path entrypoint data fifo h saved :
  keeps I (inject_attached cpu emit page_size pid api path entrypoint data fifo h saved).
Proof. unfold inject_attached. keeps_auto. Qed.
Local Hint Resolve keeps_inject_attached : keeps.
Lemma keeps_inject_run page_size pid api path entrypoint data h :
  keeps I (inject_instance_run cpu emit page_size pid api path entrypoint data h).
Proof. unfold inject_instance_run. keeps_auto. Qed.
Lemma keeps_run_to_entrypoint pid : keeps I (frida_run_to_entrypoint cpu pid).
Proof. unfold frida_run_to_entrypoint, ask. keeps_auto. Qed.
Lemma keeps_resolve_all fs : keeps I (resolve_all fs).
Proof. induction fs as [|f fs IH]; cbn [resolve_all]; unfold ask; keeps_auto. Qed.

(** For a property that no descriptor and no instance matters to. *)
Context (Iclose : ∀ k fd s, I s → I (with_kern k [FdClosed fd] s)) (Iput : ∀ f s, I s → I (with_objects f s)).
Lemma keeps_close_fd fd : keeps I (close_fd fd).
Proof. intros s a s' Hs E. unfold close_fd, does, modify in E. simplify_eq. by apply Iclose. Qed.
Lemma keeps_unlink path : keeps I (unlink path).
Proof. intros s a s' Hs E. unfold unlink, does, modify in E. simplify_eq. apply Ikern; by repeat constructor. Qed.
Lemma keeps_put_object h i : keeps I (put_object h i).
Proof. intros s a s' Hs E. unfold put_object, modify in E. simplify_eq. by apply Iput. Qed.
Lemma keeps_with_objects f : keeps I (modify (with_objects f)).
Proof. intros s a s' Hs E. unfold modify in E. simplify_eq. by apply Iput. Qed.
Local Hint Resolve keeps_close_fd keeps_unlink keeps_put_object keeps_with_objects : keeps.
Lemma keeps_close_previous h : keeps I (frida_inject_instance_close_previous_fifo h).
Proof. unfold frida_inject_instance_close_previous_fifo. keeps_auto. Qed.
Lemma keeps_dispose h : keeps I (dispose h).
Proof. unfold dispose. keeps_auto. Qed.
Local Hint Resolve keeps_close_previous keeps_dispose : keeps.
Lemma keeps_free h policy : keeps I (frida_inject_instance_free cpu h policy).
Proof. unfold frida_inject_instance_free. keeps_auto. Qed.
End frames.

Section registering.
Context {K : Type} `{BsdKernel K}.
Implicit Types (s : binjector K).
(** ** Registering an injectee *)
Lemma resolve_all_state (fs : list (K → Z)) s : wp (resolve_all fs) s (λ _ s', s' = s).
Proof.
  induction fs as [|f fs IH]; cbn [resolve_all]; [by wp_step|].
  unfold ask. wp_step. wp_step. destruct (f (b_kern s) =? 0); [by wp_step|].
  wp_step. wp_call IH. intros r s' ->. by wp_step.
Qed.
Lemma api_try_init_state pid s : wp (frida_remote_api_try_init pid) s (λ _ s', s' = s).
Proof.
  unfold frida_remote_api_try_init. wp_step. wp_call resolve_all_state. intros r s' ->.
  destruct r as [l|]; [|by wp_step]. do 10 (destruct l as [|? l]; [by wp_step|]). by wp_step.
Qed.

(** A new instance, with its FIFO open. *)
Lemma wlp_new id pid api temp_path s :
  wlp (frida_inject_instance_new id pid api temp_path) s (λ h s', ∃ i fd k,
    let path := fifo_path_for temp_path id in
    h = b_next s ∧ inject_objects s' = <[h := i]> (inject_objects s) ∧ inject_instances s' = inject_instances s ∧
    spawn_instances s' = spawn_instances s ∧ exec_instances s' = exec_instances s ∧ b_next s' = b_next s + 1 ∧
    b_trace s' = b_trace s ++ [FifoMade path; FifoOpened path fd] ∧
    (BsdLaws K → 0 ≤ fd ∧ fd ∉ open_fds (b_trace s)) ∧ b_kern s' = k ∧
    i = mk_inject id pid api (bk_program_path pid (b_kern s)) false false temp_path path fd (-1) 0 0 0 0 0).
Proof.
  intros h s' E. unfold frida_inject_instance_new, ask, alloc_object, frida_inject_instance_init_fifo, does, open_fifo, sys,
    change_object, get_object, put_object, gets, modify, bind, with_objects, with_kern in E. cbn in E.
  rewrite !lookup_insert_eq in E. cbn in E.
  destruct (bk_open_fifo _ _ _) as [[fd|e] k] eqn:Eo; [|done]. cbn in E. rewrite !lookup_insert_eq in E. cbn in E.
  unfold ret in E. injection E as <- <-. cbn. eexists _, fd, k. split_and!; try done.
  - by rewrite !insert_insert_eq.
  - by rewrite <- app_assoc.
  - intros Hl. apply bl_fd_fresh in Eo as [? Hf]. split; [done|]. unfold open_fds in *. rewrite fds_from_app in Hf.
    by rewrite (fds_from_inert [FifoMade _]) in Hf by by repeat constructor.
Qed.
End registering.
