(* ===== verification/FifoLedger.v ===== *)
(** The descriptors of the FreeBSD injector.  Every injectee has a FIFO through which
    its thread reports; a FIFO that was replaced stays open until the thread was
    recreated.  A ledger with four moves says which instance has which descriptor;
    every operation of the injector is a sequence of these moves, so that each
    descriptor that is open has exactly one owner. *)
From stdpp Require Import pretty.
From S2P Require Import Prelude Posix Binjector BinjectorInstances BinjectorSpawn BinjectorCorrect InjecteeCorrect.

(** ** The ledger *)
Record ledger := mk_ledger {
  (** The id, the FIFO and the previous FIFO of an instance. *)
  lg_entries : gmap Z (Z * Z * Z);
  lg_ids : gmap Z Z;
  lg_next : Z;
  lg_open : gset Z
}.
Definition entry_fds (e : Z * Z * Z) : gset Z :=
  let '(_, fifo, previous) := e in {[fifo]} ∪ (if previous =? -1 then ∅ else {[previous]}).
Definition shut (fd : Z) (fds : gset Z) : gset Z := if fd =? -1 then fds else fds ∖ {[fd]}.

Inductive ledger_step : ledger → ledger → Prop :=
| ledger_add L id fd : lg_ids L !! id = None → 0 ≤ fd → fd ∉ lg_open L →
    ledger_step L (mk_ledger (<[lg_next L := (id, fd, -1)]> (lg_entries L)) (<[id := lg_next L]> (lg_ids L))
                     (lg_next L + 1) ({[fd]} ∪ lg_open L))
| ledger_forget L h id f p : lg_entries L !! h = Some (id, f, p) →
    ledger_step L (mk_ledger (<[h := (id, f, -1)]> (lg_entries L)) (lg_ids L) (lg_next L) (shut p (lg_open L)))
| ledger_replace L h id f fd : lg_entries L !! h = Some (id, f, -1) → 0 ≤ fd → fd ∉ lg_open L →
    ledger_step L (mk_ledger (<[h := (id, fd, f)]> (lg_entries L)) (lg_ids L) (lg_next L) ({[fd]} ∪ lg_open L))
| ledger_drop L h id f p : lg_entries L !! h = Some (id, f, p) →
    ledger_step L (mk_ledger (delete h (lg_entries L)) (delete id (lg_ids L)) (lg_next L)
                     (shut p (lg_open L) ∖ {[f]})).

(** Ids and instances match, the next address is free, and every open descriptor has
    one owner, which has it in one place. *)
Record ledger_ok (L : ledger) : Prop := {
  lo_ids : ∀ id h, lg_ids L !! id = Some h ↔ ∃ f p, lg_entries L !! h = Some (id, f, p);
  lo_next : ∀ h e, lg_entries L !! h = Some e → h < lg_next L;
  lo_owned : ∀ fd, fd ∈ lg_open L ↔ ∃ h e, lg_entries L !! h = Some e ∧ fd ∈ entry_fds e;
  lo_unique : ∀ fd h h' e e', lg_entries L !! h = Some e → lg_entries L !! h' = Some e' →
    fd ∈ entry_fds e → fd ∈ entry_fds e' → h = h';
  lo_apart : ∀ h id f p, lg_entries L !! h = Some (id, f, p) → 0 ≤ f ∧ f ≠ p
}.

(** The change of one entry. *)
Definition fds_of (oe : option (Z * Z * Z)) : gset Z := match oe with Some e => entry_fds e | None => ∅ end.
Lemma ledger_update L entries' h oe ids' next' open' :
  ledger_ok L → (∀ h', entries' !! h' = if decide (h' = h) then oe else lg_entries L !! h') →
  (∀ id h', ids' !! id = Some h' ↔ ∃ f p, entries' !! h' = Some (id, f, p)) →
  lg_next L ≤ next' → (is_Some oe → h < next') →
  (∀ fd, fd ∈ open' ↔ fd ∈ lg_open L ∧ fd ∉ fds_of (lg_entries L !! h) ∨ fd ∈ fds_of oe) →
  (∀ fd, fd ∈ fds_of oe → fd ∈ lg_open L → fd ∈ fds_of (lg_entries L !! h)) →
  (∀ id f p, oe = Some (id, f, p) → 0 ≤ f ∧ f ≠ p) →
  ledger_ok (mk_ledger entries' ids' next' open').
Proof.
  intros [Hids Hnext Hown Huniq Hap] He Hids' Hn Hh Hopen Hfresh Hap'.
  assert (Hin : ∀ fd h' e, lg_entries L !! h' = Some e → fd ∈ entry_fds e → h' ≠ h → fd ∉ fds_of (lg_entries L !! h)).
  { intros fd h' e E1 E2 Hne Hx. destruct (lg_entries L !! h) as [e0|] eqn:E0; cbn in Hx; [|set_solver].
    by apply Hne, (Huniq fd h' h e e0). }
  assert (Hnew : ∀ fd h' e, lg_entries L !! h' = Some e → fd ∈ entry_fds e → fd ∈ fds_of oe → h' = h).
  { intros fd h' e E1 E2 E3. destruct (decide (h' = h)) as [|Hne]; [done|]. exfalso. apply (Hin fd h' e E1 E2 Hne).
    apply Hfresh; [done|]. apply Hown. eauto. }
  split; cbn [lg_entries lg_ids lg_next lg_open].
  - done.
  - intros h' e. rewrite He. case_decide as Hd; [intros ->; subst; by apply Hh|]. intros E. apply Hnext in E. lia.
  - intros fd. rewrite Hopen, Hown. split.
    + intros [[(h' & e & E1 & E2) Hno]|Hx].
      * exists h', e. rewrite He, decide_False; [done|]. intros ->. rewrite E1 in Hno. by apply Hno.
      * destruct oe as [e|]; cbn in Hx; [|set_solver]. exists h, e. by rewrite He, decide_True.
    + intros (h' & e & E1 & E2). rewrite He in E1. case_decide as Hd; [right; by rewrite E1|].
      left. split; [eauto|]. by eapply Hin.
  - intros fd h1 h2 e1 e2. rewrite !He. do 2 case_decide; subst; [done| | |by eauto].
    + intros -> E2 F1 F2. symmetry. by eapply Hnew.
    + intros E1 -> F1 F2. by eapply Hnew.
  - intros h' id f p. rewrite He. case_decide; [by apply Hap'|by apply Hap].
Qed.
Lemma insert_cases (m : gmap Z (Z * Z * Z)) h e h' :
  <[h := e]> m !! h' = if decide (h' = h) then Some e else m !! h'.
Proof. case_decide; subst; [by rewrite lookup_insert_eq|by rewrite lookup_insert_ne]. Qed.
Lemma delete_cases (m : gmap Z (Z * Z * Z)) h h' :
  delete h m !! h' = if decide (h' = h) then None else m !! h'.
Proof. case_decide; subst; [by rewrite lookup_delete_eq|by rewrite lookup_delete_ne]. Qed.

Lemma owned_fds L h e : ledger_ok L → lg_entries L !! h = Some e → entry_fds e ⊆ lg_open L.
Proof. intros Hok He fd Hfd. apply (lo_owned L Hok). eauto. Qed.

Lemma ledger_step_ok L L' : ledger_step L L' → ledger_ok L → ledger_ok L'.
Proof.
  intros Hs Hok. pose proof (lo_ids L Hok) as Hids. pose proof (lo_next L Hok) as Hnext.
  destruct Hs as [L id fd Hid Hfd Hfr|L h id f p He|L h id f fd He Hfd Hfr|L h id f p He].
  - assert (Hno : lg_entries L !! lg_next L = None).
    { destruct (lg_entries L !! lg_next L) as [e|] eqn:E; [|done]. apply Hnext in E. lia. }
    apply (ledger_update L _ (lg_next L) (Some (id, fd, -1))); [done|intros; apply insert_cases| |lia|lia|..]; rewrite ?Hno.
    + intros id' h'. rewrite insert_cases, lookup_insert_Some. case_decide as Hd; subst.
      * split; [intros [[-> _]|[_ Hx]]; [eauto|]|intros (? & ? & ?); left; by simplify_eq].
        apply Hids in Hx as (? & ? & ?). congruence.
      * rewrite <- Hids. split; [intros [[_ Hx]|[_ Hx]]; [congruence|done]|]. intros Hx. right. split; [congruence|done].
    + clear. cbn. set_solver.
    + clear -Hfr. cbn. set_solver.
    + intros id' f' p' [= <- <- <-]. lia.
  - destruct (lo_apart L Hok _ _ _ _ He) as [Hf Hfp]. pose proof (owned_fds L h _ Hok He) as Ho.
    apply (ledger_update L _ h (Some (id, f, -1))); [done|intros; apply insert_cases| |lia|intros _; by apply Hnext in He|..]; rewrite ?He.
    + intros id' h'. rewrite insert_cases, Hids. case_decide; subst; [|done]. rewrite He. clear. naive_solver.
    + clear -Ho Hfp. intros fd. unfold shut. cbn in *. destruct (Z.eqb_spec p (-1)), (decide (fd = f)); set_solver.
    + clear. intros fd. cbn. destruct (p =? -1); set_solver.
    + intros id' f' p' [= <- <- <-]. lia.
  - destruct (lo_apart L Hok _ _ _ _ He) as [Hf Hfp]. pose proof (owned_fds L h _ Hok He) as Ho.
    apply (ledger_update L _ h (Some (id, fd, f))); [done|intros; apply insert_cases| |lia|intros _; by apply Hnext in He|..]; rewrite ?He.
    + intros id' h'. rewrite insert_cases, Hids. case_decide; subst; [|done]. rewrite He. clear. naive_solver.
    + clear -Ho Hf. intros fd'. cbn in *. destruct (Z.eqb_spec f (-1)); [lia|]. destruct (decide (fd' = f)); set_solver.
    + clear -Hfr Hf. intros fd'. cbn. destruct (Z.eqb_spec f (-1)); set_solver.
    + intros id' f' p' [= <- <- <-]. split; [done|]. intros ->. apply Hfr, Ho. clear. cbn. set_solver.
  - pose proof (owned_fds L h _ Hok He) as Ho.
    apply (ledger_update L _ h None); [done|intros; apply delete_cases| |lia|by intros []|..]; rewrite ?He.
    + intros id' h'. rewrite delete_cases, lookup_delete_Some. case_decide; subst.
      * split; [|by intros (? & ? & ?)]. intros [Hne Hx]. apply Hids in Hx as (? & ? & ?). congruence.
      * rewrite <- Hids. split; [by intros []|]. intros Hx. split; [|done]. intros ->.
        assert (lg_ids L !! id' = Some h) by (apply Hids; eauto). congruence.
    + clear. intros fd. unfold shut. cbn. destruct (Z.eqb_spec p (-1)); set_solver.
    + clear. cbn. set_solver.
    + done.
Qed.

(** ** The ledger of the injector *)
Definition ledger_of {K} (s : binjector K) : ledger :=
  mk_ledger (fifo_view <$> inject_objects s) (inject_instances s) (b_next s) (open_fds (b_trace s)).

Section refinement.
Context {K : Type} `{BsdKernel K} `{!BsdLaws K} (cpu : Cpu) (emit : FridaInjectParams → Z → list Z).
Implicit Types (s : binjector K) (L : ledger).

Lemma ledger_kern k l s : quiet l → ledger_of (with_kern k l s) = ledger_of s.
Proof.
  intros Hl. unfold ledger_of. cbn. f_equal. unfold open_fds. by rewrite fds_from_app, (fds_from_quiet l).
Qed.
Lemma ledger_at_obj h i k l s :
  ledger_of (at_obj h i k l s) =
  mk_ledger (<[h := fifo_view i]> (fifo_view <$> inject_objects s)) (inject_instances s) (b_next s) (fds_from (open_fds (b_trace s)) l).
Proof. unfold ledger_of, open_fds. cbn. by rewrite fmap_insert, fds_from_app. Qed.
Lemma ledger_object s h e : lg_entries (ledger_of s) !! h = Some e → ∃ i, inject_objects s !! h = Some i ∧ fifo_view i = e.
Proof. cbn. rewrite lookup_fmap, fmap_Some. naive_solver. Qed.
Lemma wlp_keeps {A} (I : binjector K → Prop) (m : M (binjector K) A) s : keeps I m → I s → wlp m s (λ _ s', I s').
Proof. intros Hm Hs a s' E. by eapply Hm. Qed.

(** What does not touch a FIFO keeps the ledger. *)
Section neutral.
Context (L : ledger).
Lemma Lkern k l s : quiet l → ledger_of s = L → ledger_of (with_kern k l s) = L.
Proof. intros Hl <-. by apply ledger_kern. Qed.
Lemma Lobj h i i' s : inject_objects s !! h = Some i → fifo_view i' = fifo_view i → ledger_of s = L →
  ledger_of (with_objects <[h := i']> s) = L.
Proof.
  intros Hi Hv <-. unfold ledger_of. cbn. f_equal. rewrite fmap_insert, Hv. apply insert_id. by rewrite lookup_fmap, Hi.
Qed.
Lemma Lspawn f s : ledger_of s = L → ledger_of (with_spawn f s) = L.
Proof. done. Qed.
Lemma Lexec f s : ledger_of s = L → ledger_of (with_exec f s) = L.
Proof. done. Qed.
End neutral.
Local Hint Resolve Lkern Lobj Lspawn Lexec : core.
Tactic Notation "neutral" uconstr(lemma) :=
  lazymatch goal with |- wlp _ ?s _ =>
    eapply wlp_mono; [apply (wlp_keeps (λ t, ledger_of t = ledger_of s)); [apply lemma; cbn beta; first [by eauto|by repeat constructor]|reflexivity]|]; cbn beta
  end.

Lemma ledger_closed fd s k : ledger_of (with_kern k [FdClosed fd] s) =
  mk_ledger (lg_entries (ledger_of s)) (lg_ids (ledger_of s)) (lg_next (ledger_of s)) (lg_open (ledger_of s) ∖ {[fd]}).
Proof. unfold ledger_of, open_fds. cbn. by rewrite fds_from_app. Qed.

Lemma wlp_forget h id f p s : lg_entries (ledger_of s) !! h = Some (id, f, p) →
  wlp (frida_inject_instance_close_previous_fifo h) s (λ _ s', ledger_of s' =
    mk_ledger (<[h := (id, f, -1)]> (lg_entries (ledger_of s))) (lg_ids (ledger_of s)) (lg_next (ledger_of s))
      (shut p (lg_open (ledger_of s)))).
Proof.
  intros He. apply ledger_object in He as (i & Hi & [= <- <- <-]).
  apply wlp_wp, (wp_close_previous h i); [done|]. intros k. rewrite ledger_at_obj. unfold ledger_of, shut, fifo_view. cbn.
  by destruct (ii_previous_fifo i =? -1).
Qed.
Lemma wlp_init_fifo h id f p s : lg_entries (ledger_of s) !! h = Some (id, f, p) →
  wlp (frida_inject_instance_init_fifo h) s (λ _ s', ∃ fd, 0 ≤ fd ∧ fd ∉ lg_open (ledger_of s) ∧ ledger_of s' =
    mk_ledger (<[h := (id, fd, p)]> (lg_entries (ledger_of s))) (lg_ids (ledger_of s)) (lg_next (ledger_of s))
      ({[fd]} ∪ lg_open (ledger_of s))).
Proof.
  intros He. apply ledger_object in He as (i & Hi & [= <- <- <-]).
  unfold frida_inject_instance_init_fifo. apply wlp_bind, wlp_wp, (wp_get_object h i); [done|]. cbn zeta.
  apply wlp_bind, wlp_wp, wp_modify. set (path := fifo_path_for _ _). apply wlp_bind, wlp_wp.
  unfold open_fifo. apply wp_sys. intros [fd|e] k Ek; [|done]. apply bl_fd_fresh in Ek as [Hfd Hfr].
  apply wlp_wp, wp_put_object. unfold open_fds in Hfr. cbn [with_kern b_trace] in Hfr. rewrite fds_from_app in Hfr.
  exists fd. split; [done|]. split; [done|]. rewrite ledger_at_obj. unfold ledger_of, open_fds. cbn.
  by rewrite !fds_from_app.
Qed.
Lemma wlp_free h id f p policy s : lg_entries (ledger_of s) !! h = Some (id, f, p) →
  wlp (frida_inject_instance_free cpu h policy) s (λ _ s', ledger_of s' =
    mk_ledger (delete h (lg_entries (ledger_of s))) (lg_ids (ledger_of s)) (lg_next (ledger_of s))
      (shut p (lg_open (ledger_of s)) ∖ {[f]})).
Proof.
  intros He. unfold frida_inject_instance_free. apply wlp_bind. neutral keeps_unload. intros _ s1 E1. rewrite <- E1 in *.
  apply wlp_bind. eapply wlp_mono; [by apply wlp_forget|]. cbn beta. intros _ s2 E2.
  assert (He2 : lg_entries (ledger_of s2) !! h = Some (id, f, -1)) by (rewrite E2; apply lookup_insert_eq).
  apply ledger_object in He2 as (i & Hi & [= <- <- _]). apply wlp_wp, (wp_dispose h i); [done|]. intros k.
  assert (El : ledger_of (with_objects (delete h) (with_kern k [FdClosed (ii_fifo i); Unlinked (ii_fifo_path i)] s2)) =
    mk_ledger (delete h (lg_entries (ledger_of s2))) (lg_ids (ledger_of s2)) (lg_next (ledger_of s2)) (lg_open (ledger_of s2) ∖ {[ii_fifo i]})).
  { unfold ledger_of, open_fds. cbn. by rewrite fmap_delete, fds_from_app. }
  rewrite El, E2. cbn. by rewrite delete_insert_eq.
Qed.

(** *** Instances *)
(** A ledger with an instance that has no id yet. *)
Definition with_entry (h id fd : Z) (L : ledger) : ledger :=
  mk_ledger (<[h := (id, fd, -1)]> (lg_entries L)) (lg_ids L) (lg_next L + 1) ({[fd]} ∪ lg_open L).
Definition enters (h id : Z) (s s' : binjector K) : Prop :=
  h = lg_next (ledger_of s) ∧ ∃ fd, 0 ≤ fd ∧ fd ∉ lg_open (ledger_of s) ∧ ledger_of s' = with_entry h id fd (ledger_of s).
Lemma wlp_new_enters id pid api temp_path s :
  wlp (frida_inject_instance_new id pid api temp_path) s (λ h s', enters h id s s').
Proof.
  eapply wlp_mono; [apply wlp_new|]. cbn zeta beta. intros h s' (i & fd & k & -> & Ho & Ei & _ & _ & En & Et & Hf & _ & ->).
  split; [done|]. destruct (Hf _) as [? ?]. exists fd. split_and!; [done..|]. unfold ledger_of, with_entry. cbn.
  rewrite Ho, Ei, En, Et, fmap_insert. unfold open_fds. by rewrite fds_from_app.
Qed.
(** The rest of an allocation: the FIFO, and no previous one. *)
Lemma wlp_complete (i : FridaInjectInstance) s :
  wlp (let! h := alloc_object i in do! frida_inject_instance_init_fifo h in
       do! change_object h (with_previous_fifo (-1)) in ret h) s (λ h s', enters h (ii_id i) s s').
Proof.
  apply wlp_bind. intros h s1 [= <- Es1].
  assert (E1 : ledger_of s1 = mk_ledger (<[b_next s := fifo_view i]> (lg_entries (ledger_of s))) (lg_ids (ledger_of s))
    (b_next s + 1) (lg_open (ledger_of s))).
  { subst s1. unfold ledger_of. cbn. by rewrite fmap_insert. }
  clear Es1. apply wlp_bind. eapply wlp_mono; [apply (wlp_init_fifo (b_next s) (ii_id i) (ii_fifo i) (ii_previous_fifo i));
    rewrite E1; apply lookup_insert_eq|]. cbn beta.
  intros _ s2 (fd & Hfd & Hfr & E2). rewrite E1 in *. cbn in E2, Hfr.
  assert (He2 : lg_entries (ledger_of s2) !! b_next s = Some (ii_id i, fd, ii_previous_fifo i)) by (rewrite E2; apply lookup_insert_eq).
  apply ledger_object in He2 as (i2 & Hi2 & [= E3 E4 _]).
  apply wlp_bind, wlp_wp, (wp_change_object _ i2); [done|]. apply wlp_ret. split; [done|]. exists fd. split_and!; [done..|].
  rewrite ledger_at_obj. change (fifo_view <$> inject_objects s2) with (lg_entries (ledger_of s2)).
  change (inject_instances s2) with (lg_ids (ledger_of s2)). change (b_next s2) with (lg_next (ledger_of s2)).
  change (open_fds (b_trace s2)) with (lg_open (ledger_of s2)). rewrite E2. unfold with_entry, fifo_view. cbn.
  by rewrite E3, E4, !insert_insert_eq.
Qed.
Lemma wlp_clone instance id s :
  wlp (frida_inject_instance_clone instance id) s (λ h s', enters h id s s').
Proof.
  unfold frida_inject_instance_clone. apply wlp_bind. intros i s1 E. unfold get_object in E.
  destruct (inject_objects s !! instance); [|done]. simplify_eq. eapply wlp_mono; [apply wlp_complete|]. done.
Qed.

(** *** Operations as moves *)
Definition moves s s' : Prop := rtc ledger_step (ledger_of s) (ledger_of s').
Lemma moves_none s s' : ledger_of s' = ledger_of s → moves s s'.
Proof. unfold moves. by intros ->. Qed.
Lemma moves_trans s1 s2 s3 : moves s1 s2 → moves s2 s3 → moves s1 s3.
Proof. apply rtc_trans. Qed.

Lemma enters_registered h id s s' : lg_ids (ledger_of s) !! id = None → enters h id s s' →
  moves s (with_injectees <[id := h]> s').
Proof.
  intros Hid (-> & fd & Hfd & Hfr & E). apply rtc_once.
  replace (ledger_of (with_injectees _ s')) with
    (mk_ledger (lg_entries (ledger_of s')) (<[id := lg_next (ledger_of s)]> (lg_ids (ledger_of s'))) (lg_next (ledger_of s')) (lg_open (ledger_of s')))
    by done.
  rewrite E. by apply (ledger_add (ledger_of s)). 
Qed.
(** An instance that comes and goes. *)
Lemma enters_leaves h id s s1 s2 fd : ledger_ok (ledger_of s) → lg_ids (ledger_of s) !! id = None →
  h = lg_next (ledger_of s) → 0 ≤ fd → fd ∉ lg_open (ledger_of s) → ledger_of s1 = with_entry h id fd (ledger_of s) →
  ledger_of s2 = mk_ledger (delete h (lg_entries (ledger_of s1))) (lg_ids (ledger_of s1)) (lg_next (ledger_of s1))
      (shut (-1) (lg_open (ledger_of s1)) ∖ {[fd]}) →
  moves s s2.
Proof.
  intros Hok Hid -> Hfd Hfr E1 E2. eapply rtc_l; [by apply ledger_add|]. apply rtc_once. rewrite E2, E1.
  set (L := ledger_of s) in *. set (L1 := mk_ledger _ (<[id := _]> _) _ _).
  replace (mk_ledger _ _ _ _) with (mk_ledger (delete (lg_next L) (lg_entries L1)) (delete id (lg_ids L1)) (lg_next L1)
    (shut (-1) (lg_open L1) ∖ {[fd]})).
  - eapply ledger_drop. apply lookup_insert_eq.
  - subst L1. cbn [lg_entries lg_ids lg_next lg_open with_entry]. by rewrite (delete_insert_id (lg_ids L)).
Qed.

Lemma wlp_do_inject_moves page_size pid path entrypoint data temp_path id s :
  ledger_ok (ledger_of s) → inject_instances s !! id = None →
  wlp (_frida_binjector_do_inject cpu emit page_size pid path entrypoint data temp_path id) s (λ _ s', moves s s').
Proof.
  intros Hok Hid. unfold _frida_binjector_do_inject. apply wlp_bind. unfold kill.
  neutral keeps_request. intros alive s0 E0. rewrite <- E0 in Hok.
  assert (Hid0 : lg_ids (ledger_of s0) !! id = None) by by rewrite E0.
  apply (wlp_mono _ _ (λ _ s', moves s0 s')); cycle 1.
  { intros _ s' Hm. eapply moves_trans; [|exact Hm]. by apply moves_none. }
  assert (Hgo : wlp (let! api := frida_remote_api_try_init pid in
      match api with
      | None => ret (Some (NOT_SUPPORTED, "libc"%string))
      | Some api =>
          let! h := frida_inject_instance_new id pid api temp_path in
          let! r := inject_instance_run cpu emit page_size pid api path entrypoint data h in
          if r.1 then do! modify (with_injectees <[id := h]>) in ret None
          else do! frida_inject_instance_free cpu h IMMEDIATE in ret r.2
      end) s0 (λ _ s', moves s0 s')).
  { apply wlp_bind, wlp_wp. wp_call api_try_init_state. intros [api|] s1 ->; [|by apply wlp_ret, moves_none].
    apply wlp_bind. eapply wlp_mono; [apply wlp_new_enters|]. cbn beta. intros h s1 Hent.
    apply wlp_bind. neutral keeps_inject_run. intros r s2 E2. destruct (r.1).
    - apply wlp_bind, wlp_wp, wp_modify, wlp_ret. apply enters_registered; [done|]. unfold enters in *. by rewrite E2.
    - destruct Hent as (-> & fd & Hfd & Hfr & E1). apply wlp_bind. eapply wlp_mono.
      + apply (wlp_free _ id fd (-1)). rewrite E2, E1. apply lookup_insert_eq.
      + cbn beta. intros _ s3 E3. apply wlp_ret. rewrite E2 in E3. by eapply enters_leaves. }
  destruct alive as [a|e]; [exact Hgo|]. destruct e as [|e|e]; [exact Hgo| |exact Hgo].
  destruct e; try exact Hgo. by apply wlp_ret, moves_none.
Qed.

Lemma ledger_entry s id h : ledger_ok (ledger_of s) → inject_instances s !! id = Some h →
  ∃ f p, lg_entries (ledger_of s) !! h = Some (id, f, p).
Proof. intros Hok Hid. by apply (lo_ids _ Hok). Qed.

Lemma wlp_recreate_fifo h id f p s : lg_entries (ledger_of s) !! h = Some (id, f, p) →
  wlp (frida_inject_instance_recreate_fifo h) s (λ _ s', moves s s' ∧ inject_instances s' = inject_instances s).
Proof.
  intros He. unfold frida_inject_instance_recreate_fifo. apply wlp_bind. eapply wlp_mono; [by apply wlp_forget|].
  cbn beta. intros _ s1 E1.
  assert (He1 : lg_entries (ledger_of s1) !! h = Some (id, f, -1)) by (rewrite E1; apply lookup_insert_eq).
  assert (M1 : moves s s1) by (apply rtc_once; rewrite E1; by eapply ledger_forget).
  pose proof (ledger_object _ _ _ He1) as (i & Hi & [= <- <- Hp]).
  apply wlp_bind, wlp_wp, (wp_get_object h i); [done|]. apply wlp_bind, wlp_wp, wp_put_object.
  apply wlp_bind, wlp_wp, wp_modify.
  lazymatch goal with |- wlp _ ?t _ => set (s2 := t) end.
  assert (E2 : ledger_of s2 = mk_ledger (<[h := (ii_id i, ii_fifo i, ii_fifo i)]> (lg_entries (ledger_of s1))) (lg_ids (ledger_of s1))
    (lg_next (ledger_of s1)) (lg_open (ledger_of s1))).
  { subst s2. rewrite ledger_kern by by repeat constructor. by rewrite ledger_at_obj. }
  clearbody s2. eapply wlp_mono; [apply (wlp_init_fifo h (ii_id i) (ii_fifo i) (ii_fifo i)); rewrite E2; apply lookup_insert_eq|].
  cbn beta. intros _ s3 (fd & Hfd & Hfr & E3). split.
  - eapply moves_trans; [exact M1|]. apply rtc_once. rewrite E3, E2 in *. cbn in *. rewrite insert_insert_eq. by apply ledger_replace.
  - change (lg_ids (ledger_of s3) = lg_ids (ledger_of s)). by rewrite E3, E2, E1.
Qed.
Lemma moves_ok s s' : moves s s' → ledger_ok (ledger_of s) → ledger_ok (ledger_of s').
Proof. unfold moves. induction 1; eauto using ledger_step_ok. Qed.
Lemma wlp_demonitor h id s : ledger_ok (ledger_of s) → inject_instances s !! id = Some h →
  wlp (_frida_binjector_demonitor h) s (λ _ s', moves s s').
Proof.
  intros Hok Hid. destruct (ledger_entry s id h Hok Hid) as (f & p & He).
  eapply wlp_mono; [by eapply wlp_recreate_fifo|]. by intros _ s' [? _].
Qed.
Lemma wlp_demonitor_and_clone h id clone_id s : ledger_ok (ledger_of s) → inject_instances s !! id = Some h →
  inject_instances s !! clone_id = None →
  wlp (_frida_binjector_demonitor_and_clone_injectee_state h clone_id) s (λ _ s', moves s s').
Proof.
  intros Hok Hid Hc. destruct (ledger_entry s id h Hok Hid) as (f & p & He).
  unfold _frida_binjector_demonitor_and_clone_injectee_state. apply wlp_bind.
  eapply wlp_mono; [by eapply wlp_recreate_fifo|]. intros _ s1 [M1 E1].
  apply wlp_bind. eapply wlp_mono; [apply wlp_clone|]. cbn beta. intros clone s2 Hent.
  apply wlp_bind, wlp_wp, wp_modify, wlp_ret. eapply moves_trans; [exact M1|]. apply enters_registered; [|done].
  cbn. by rewrite E1.
Qed.
Lemma wlp_destroy id h f p policy s : lg_entries (ledger_of s) !! h = Some (id, f, p) → inject_instances s !! id = Some h →
  wlp (_destroy_inject_instance cpu id policy) s (λ _ s', moves s s').
Proof.
  intros He Hid. unfold _destroy_inject_instance. apply wlp_bind, wlp_wp, wp_gets. rewrite Hid.
  apply wlp_bind, wlp_wp, wp_modify. eapply wlp_mono; [by apply (wlp_free h id f p)|]. cbn beta. intros _ s' E.
  apply rtc_once. rewrite E. by apply (ledger_drop (ledger_of s) h id f p).
Qed.
Lemma wlp_recreate_thread h id pid s : ledger_ok (ledger_of s) → inject_instances s !! id = Some h →
  wlp (_frida_binjector_recreate_injectee_thread cpu h pid) s (λ _ s', moves s s').
Proof.
  intros Hok Hid. destruct (ledger_entry s id h Hok Hid) as (f & p & He).
  unfold _frida_binjector_recreate_injectee_thread. pose proof (ledger_object _ _ _ He) as (i & Hi & [= Eid Ef Ep]).
  apply wlp_bind, wlp_wp, (wp_get_object h i); [done|]. cbn zeta. apply wlp_bind, wlp_wp, wp_put_object.
  lazymatch goal with |- wlp _ ?t _ => set (s1 := t) end.
  assert (E1 : ledger_of s1 = ledger_of s).
  { subst s1. rewrite ledger_at_obj. unfold ledger_of. cbn. f_equal. apply insert_id. by rewrite lookup_fmap, Hi. }
  clearbody s1. apply wlp_bind. eapply wlp_mono; [apply (wlp_forget h id f p); by rewrite E1|]. cbn beta. intros _ s2 E2.
  assert (M2 : moves s s2) by (apply rtc_once; rewrite E2, E1; by eapply ledger_forget).
  assert (He2 : lg_entries (ledger_of s2) !! h = Some (id, f, -1)) by (rewrite E2; apply lookup_insert_eq).
  assert (Hid2 : lg_ids (ledger_of s2) !! id = Some h) by by rewrite E2, E1.
  clear E1 E2 He Hi. apply wlp_bind. neutral keeps_attach. intros a s3 E3. apply wlp_bind.
  apply (wlp_mono _ _ (λ _ t, ledger_of t = ledger_of s2)).
  { destruct a as [[[] e] [saved|]]; [|by apply wlp_ret..].
    apply wlp_bind. neutral keeps_get_object. intros i3 s4 E4. apply wlp_bind.
    apply (wlp_mono _ _ (λ _ t, ledger_of t = ledger_of s2)).
    - destruct (ii_pid i =? 0); [|apply wlp_ret; congruence]. neutral keeps_remote_write. intros _ s5 E5. congruence.
    - intros w s5 E5. destruct (w.1); [|by apply wlp_ret]. neutral keeps_start_and_detach. intros _ s6 E6. congruence. }
  intros r s4 E4. destruct (r.1).
  - apply wlp_ret. eapply moves_trans; [exact M2|]. by apply moves_none.
  - rewrite <- E4 in He2, Hid2. pose proof (ledger_object _ _ _ He2) as (i4 & Hi4 & [= E5 _ _]).
    apply wlp_bind, wlp_wp, (wp_get_object h i4); [done|]. rewrite E5. apply wlp_bind.
    eapply wlp_mono; [by eapply wlp_destroy|]. cbn beta. intros _ s5 M5. apply wlp_ret.
    eapply moves_trans; [exact M2|]. eapply moves_trans; [|exact M5]. by apply moves_none.
Qed.
Lemma exec_pending_ledger pid pending s u s' :
  _frida_binjector_notify_exec_pending pid pending s = Ret (u, s') → ledger_of s' = ledger_of s.
Proof.
  intros [= _ <-]. unfold ledger_of. cbn. f_equal. apply map_eq. intros h. rewrite !lookup_fmap, map_lookup_imap.
  destruct (inject_objects s !! h) as [i|]; cbn; [|done]. f_equal. unfold set_exec_pending.
  case_bool_decide; [|done]. by destruct (ii_pid i =? pid).
Qed.

(** *** Spawning and exec transitions *)
Section processes.
Context (L : ledger).
Notation keepsL := (keeps (λ t : binjector K, ledger_of t = L)).
Local Hint Extern 1 (∀ _, quiet _) => by repeat constructor : keeps.
Lemma keepsL_sys {A} (f : K → sysret A * K) seen : (∀ a, quiet (seen a)) → keepsL (sys f seen).
Proof. intros Hq. apply keeps_request; eauto. Qed.
Lemma keepsL_waitpid pid nohang : keepsL (waitpid pid nohang).
Proof. apply keeps_waitpid; eauto. Qed.
Lemma keepsL_wait_child pid sig : keepsL (frida_wait_for_child_signal pid sig).
Proof. apply keeps_wait_child; eauto. Qed.
Lemma keepsL_entry pid : keepsL (frida_run_to_entrypoint cpu pid).
Proof. apply keeps_run_to_entrypoint; eauto. Qed.
Lemma keepsL_attach pid : keepsL (pt_attach pid).
Proof. apply keeps_pt_attach; eauto. Qed.
Lemma keepsL_gets {A} (g : binjector K → A) : keepsL (gets g).
Proof. apply keeps_gets. Qed.
Lemma keepsL_with_spawn f : keepsL (modify (with_spawn f)).
Proof. by intros s a s' Hs [= _ <-]. Qed.
Lemma keepsL_with_exec f : keepsL (modify (with_exec f)).
Proof. by intros s a s' Hs [= _ <-]. Qed.
Lemma keepsL_notify pid pending : keepsL (_frida_binjector_notify_exec_pending pid pending).
Proof. intros s a s' <- E. by eapply exec_pending_ledger. Qed.
Lemma keepsL_fork child : keepsL (fork child).
Proof.
  intros s a s' Hs E. unfold fork in E. destruct (bk_fork _ _). simplify_eq. apply Lkern; [by repeat constructor|done].
Qed.
Local Hint Resolve keepsL_sys keepsL_waitpid keepsL_wait_child keepsL_entry keepsL_attach keepsL_gets keepsL_with_spawn keepsL_with_exec
  keepsL_notify keepsL_fork : keeps.
Lemma keepsL_release pid tid : keepsL (release pid tid).
Proof. unfold release, thr_kill2, pt_detach. keeps_auto. Qed.
Local Hint Resolve keepsL_release : keeps.
Lemma keepsL_resume waiting pid : keepsL (resume waiting pid).
Proof. unfold resume, frida_spawn_instance_resume, frida_exec_instance_resume. keeps_auto. Qed.
Lemma keepsL_prepare pid : keepsL (prepare_exec_transition pid).
Proof.
  unfold prepare_exec_transition, _frida_binjector_do_prepare_exec_transition, frida_exec_instance_prepare_transition, pt_continue.
  keeps_auto.
Qed.
Lemma keepsL_cancel pid : keepsL (cancel_exec_transition pid).
Proof.
  unfold cancel_exec_transition, frida_exec_instance_suspend, frida_exec_instance_resume, kill. keeps_auto.
Qed.
Lemma keepsL_transition i : keepsL (frida_exec_instance_try_perform_transition cpu i).
Proof. unfold frida_exec_instance_try_perform_transition. keeps_auto. Qed.
Lemma keepsL_spawn_child path options fds cwd : keepsL (spawn_child cpu path options fds cwd).
Proof. unfold spawn_child, chdir. keeps_auto. Qed.
Local Hint Resolve keepsL_spawn_child : keeps.
(** The child's ends of the pipes are none of the FIFOs. *)
Lemma keepsL_close_all fds : (∀ fd, fd ∈ fds → fd ∉ lg_open L) → keepsL (close_all fds).
Proof.
  induction fds as [|fd fds IH]; intros Hf; cbn [close_all]; [keeps_auto|].
  intros s a s' Hs E. unfold bind, does, modify in E. apply IH in E; [done|intros fd' Hin; apply Hf; by constructor|].
  rewrite ledger_closed, Hs. destruct L as [e ids n o]. cbn in *. f_equal.
  assert (fd ∉ o) by (apply Hf; by left). set_solver.
Qed.
End processes.
Lemma wlp_do_spawn path options s :
  wlp (_frida_binjector_do_spawn cpu path options) s (λ _ s', ledger_of s' = ledger_of s).
Proof.
  unfold _frida_binjector_do_spawn. apply wlp_bind, wlp_wp. unfold make_stdio_pipes. apply wp_sys.
  intros [fds|e] k Ek; [|apply wlp_ret; by apply ledger_kern; constructor].
  assert (Hfds : ∀ fd, fd ∈ fds → fd ∉ lg_open (ledger_of s)) by (intros fd; by eapply bl_pipes_fresh).
  apply wlp_bind. apply (wlp_mono _ _ (λ _ t, ledger_of t = ledger_of s)).
  - apply (wlp_keeps (λ t, ledger_of t = ledger_of s)); [|by apply ledger_kern; constructor].
    unfold ask, chdir. pose proof (keepsL_spawn_child (ledger_of s)). pose proof (@keepsL_gets (ledger_of s)).
    destruct (negb _); [|done]. keeps_auto. all: first [by auto|apply keepsL_sys; by repeat constructor].
  - intros r s1 E1. apply wlp_bind. eapply wlp_mono; [by apply (wlp_keeps _ _ _ (keepsL_close_all _ fds Hfds))|].
    cbn beta. intros _ s2 E2. by apply wlp_ret.
Qed.

(** ** Runs *)
(** One operation that the Vala half of the injector asks for.  New ids are not in
    use. *)
Inductive binjector_step (page_size : Z) : binjector K → binjector K → Prop :=
| does_spawn path options r s s' :
    _frida_binjector_do_spawn cpu path options s = Ret (r, s') → binjector_step page_size s s'
| does_resume waiting pid r s s' : resume waiting pid s = Ret (r, s') → binjector_step page_size s s'
| does_prepare pid r s s' : prepare_exec_transition pid s = Ret (r, s') → binjector_step page_size s s'
| does_transition pid i r s s' : exec_instances s !! pid = Some i →
    frida_exec_instance_try_perform_transition cpu i s = Ret (r, s') → binjector_step page_size s s'
| does_cancel pid r s s' : cancel_exec_transition pid s = Ret (r, s') → binjector_step page_size s s'
| does_inject pid path entrypoint data temp_path id r s s' : inject_instances s !! id = None →
    _frida_binjector_do_inject cpu emit page_size pid path entrypoint data temp_path id s = Ret (r, s') → binjector_step page_size s s'
| does_demonitor id h r s s' : inject_instances s !! id = Some h →
    _frida_binjector_demonitor h s = Ret (r, s') → binjector_step page_size s s'
| does_demonitor_and_clone id h clone_id r s s' : inject_instances s !! id = Some h → inject_instances s !! clone_id = None →
    _frida_binjector_demonitor_and_clone_injectee_state h clone_id s = Ret (r, s') → binjector_step page_size s s'
| does_recreate id h pid r s s' : inject_instances s !! id = Some h →
    _frida_binjector_recreate_injectee_thread cpu h pid s = Ret (r, s') → binjector_step page_size s s'
| does_destroy id policy r s s' : _destroy_inject_instance cpu id policy s = Ret (r, s') → binjector_step page_size s s'.

(** An injector as it is created. *)
Definition new_binjector (k : K) : binjector K := mk_bin k [] ∅ ∅ ∅ ∅ 1.

(** Every operation is a sequence of moves of the ledger. *)
Lemma binjector_step_moves page_size s s' : binjector_step page_size s s' → ledger_ok (ledger_of s) → moves s s'.
Proof.
  intros Hs Hok. destruct Hs as [path options r s s' E|waiting pid r s s' E|pid r s s' E|pid i r s s' _ E|pid r s s' E
    |pid path entrypoint data temp_path id r s s' Hid E|id h r s s' Hid E|id h clone_id r s s' Hid Hc E|id h pid r s s' Hid E
    |id policy r s s' E].
  - apply moves_none. by apply wlp_do_spawn in E.
  - apply moves_none. by eapply keepsL_resume.
  - apply moves_none. by eapply keepsL_prepare.
  - apply moves_none. by eapply keepsL_transition.
  - apply moves_none. by eapply keepsL_cancel.
  - by eapply wlp_do_inject_moves.
  - by eapply wlp_demonitor.
  - by eapply wlp_demonitor_and_clone.
  - by eapply wlp_recreate_thread.
  - destruct (inject_instances s !! id) as [h|] eqn:Hid.
    + destruct (ledger_entry s id h Hok Hid) as (f & p & He). by eapply wlp_destroy.
    + unfold _destroy_inject_instance, bind, gets in E. by rewrite Hid in E.
Qed.
Lemma new_ledger_ok k : ledger_ok (ledger_of (new_binjector k)).
Proof.
  unfold ledger_of, new_binjector, open_fds. cbn. rewrite fmap_empty. split; cbn; intros *; rewrite ?lookup_empty; try done.
  - split; [done|]. by intros (? & ? & E).
  - split; [set_solver|]. intros (h & e & E & _). by rewrite lookup_empty in E.
Qed.
Lemma reachable_ledger_ok page_size k s : rtc (binjector_step page_size) (new_binjector k) s → ledger_ok (ledger_of s).
Proof.
  intros Hr. assert (Hok := new_ledger_ok k). revert Hok. induction Hr as [|s1 s2 s3 Hs _ IH]; [done|]. intros Hok.
  apply IH. eapply moves_ok; [by eapply binjector_step_moves|done].
Qed.
End refinement.
