(* ===== verification/BinjectorScript.v ===== *)
(** A system for runs of the FreeBSD injector that can be evaluated: what processes
    stop for and what calls in them answer is scripted. *)
From S2P Require Import Prelude Posix Binjector.

(** The reports of waitpid and the values of the result register, in order. *)
Record script := mk_script { sc_waits : list wstatus; sc_results : list Z }.
Definition script_regs (v : Z) : FridaRegs :=
  λ r, match r with r_rax => v | r_rsp => 0x7fff0000 | r_rip => 0x400000 | _ => 0 end.
Definition above (fds : gset Z) : Z := foldr (λ fd m, Z.max m (fd + 1)) 3 (elements fds).
Lemma above_bound l fd : fd ∈ l → fd < foldr (λ fd m, Z.max m (fd + 1)) 3 l.
Proof. induction l as [|x l IH]; [by intros ?%not_elem_of_nil|]. rewrite elem_of_cons. cbn. intros [->|Hin]; [lia|]. specialize (IH Hin). lia. Qed.
Lemma above_fresh fds : above fds ∉ fds.
Proof. intros Hin. apply elem_of_elements, above_bound in Hin. unfold above in Hin. lia. Qed.
Lemma above_nonneg fds : 0 ≤ above fds.
Proof. unfold above. induction (elements fds); cbn; lia. Qed.

#[export] Instance script_kernel : BsdKernel script := {|
  bk_attach _ traced k := (if traced then SysErr EBUSY else SysOk tt, k);
  bk_detach _ k := (SysOk tt, k);
  bk_continue _ k := (SysOk tt, k);
  bk_getregs _ k := (SysOk (script_regs (default 0 (head (sc_results k)))), mk_script (sc_waits k) (tail (sc_results k)));
  bk_setregs _ _ k := (SysOk tt, k);
  bk_io_read _ _ n k := (SysOk (zeros n), k);
  bk_io_write _ _ _ k := (SysOk tt, k);
  bk_lwpinfo _ k := (SysOk 1, k);
  bk_getlwplist _ _ k := (SysOk [1; 2], k);
  bk_suspend _ k := (SysOk tt, k);
  bk_waitpid pid _ k := (pid, default (Exited 0) (head (sc_waits k)), mk_script (tail (sc_waits k)) (sc_results k));
  bk_kill _ _ k := (SysOk tt, k);
  bk_thr_kill2 _ _ _ k := (SysOk tt, k);
  bk_fork _ k := (4242, k);
  bk_chdir _ k := (SysOk tt, k);
  bk_getcwd _ := "/"%string;
  bk_stdio_pipes piped fds k := (SysOk (if piped then [above fds; above fds + 1; above fds + 2] else []), k);
  bk_mkfifo _ k := k;
  bk_open_fifo _ fds k := (SysOk (above fds), k);
  bk_close _ k := k;
  bk_unlink _ k := k;
  bk_program_path _ _ := Some "/bin/cat"%string;
  bk_find_entrypoint _ _ := 0x401000;
  bk_libthr_name _ := "libthr.so"%string;
  bk_find_ld_function _ _ _ := 0x800000;
  bk_find_libc_function _ _ _ := 0x900000
|}.
Lemma above_least fds fd : above fds ≤ fd → fd ∉ fds.
Proof. intros Hle Hin. apply elem_of_elements, above_bound in Hin. unfold above in Hle. lia. Qed.
#[export] Instance script_laws : BsdLaws script.
Proof.
  split.
  - done.
  - intros path fds fd k k' [= <- <-]. split; [apply above_nonneg|apply above_fresh].
  - intros piped fds ends fd k k' [= <- <-] Hin. apply above_least. destruct piped; [|by apply not_elem_of_nil in Hin].
    rewrite !elem_of_cons in Hin. destruct Hin as [->|[->|[->|Hin]]]; [lia..|]. by apply not_elem_of_nil in Hin.
Qed.

(** Stops of an injection into an untraced process: the attach, mmap, two calls of
    mprotect, and the payload's breakpoint. *)
Definition good_script : script :=
  mk_script [Stopped SIGSTOP; Stopped SIGSEGV; Stopped SIGSEGV; Stopped SIGSEGV; Stopped SIGTRAP]
    [0; 0; 0x10000000; 0; 0; 0; 0; 0].
(** mmap fails. *)
Definition no_memory_script : script :=
  mk_script [Stopped SIGSTOP; Stopped SIGSEGV] [0; 0; 2 ^ 64 - 1].
