(* ===== verification/BinjectorClaims.v ===== *)
(** What the FreeBSD injector promises about the processes it touches. *)
From stdpp Require Import pretty.
From S2P Require Import Prelude Posix Binjector BinjectorInstances BinjectorSpawn BinjectorCorrect InjecteeCorrect FifoLedger BinjectorScript.

Section claims.
Context {K : Type} `{BsdKernel K}.
Implicit Types (s : binjector K).

(** A process that was let go with the registers it had when it was stopped. *)
Definition put_back (pid : Z) (l : list bact) : Prop :=
  ∃ l0 w saved l2, l = l0 ++ Attached pid :: w ++ GotRegs pid saved :: l2 ++ [SetRegs pid saved; Detached pid] ∧
    steady l0 ∧ inert w ∧ inert l2.

Lemma held_put_back pid h l : put_back pid l → held_from pid h l = false.
Proof.
  intros (l0 & w & saved & l2 & -> & _). replace (l0 ++ _) with
    ((l0 ++ Attached pid :: w ++ GotRegs pid saved :: l2 ++ [SetRegs pid saved]) ++ [Detached pid]).
  - rewrite held_from_app. cbn. by rewrite Z.eqb_refl.
  - rewrite <- app_assoc. cbn. f_equal. f_equal. rewrite <- app_assoc. cbn. by rewrite <- app_assoc.
Qed.

(** What a successful attempt to attach and run leaves in the log. *)
Lemma run_released pid i r i1 saved la rr lr :
  ii_pid i = pid → lets_go (K := K) pid → attaching pid i (r, Some saved) i1 la → started (K := K) i1 saved rr lr → rr.1 = true →
  lost pid (la ++ lr) = true ∨ steady (la ++ lr) ∨ put_back pid (la ++ lr).
Proof.
  intros Hpid Hgo Ha Hs Hr. inversion Ha as [|regs|regs l Hl Hw Hd|]; simplify_eq; clear Ha;
    destruct Hs as [? ? ? ?|l' Hl' Hlost|l' l'' Hl' Hg]; cbn in Hr; try congruence.
  - left. unfold lost in *. cbn in Hlost. by rewrite existsb_app, Hlost, orb_true_r.
  - right; left. apply steady_app. split; [by repeat constructor|]. apply steady_app. split; [by apply inert_steady|].
    destruct Hg as [Hc|l'' Hl'' _]; [done|by apply inert_steady].
  - left. unfold lost in *. cbn in Hlost. by rewrite existsb_app, Hlost, orb_true_r.
  - destruct Hg as [_|l'' Hl'' Hno]; [|by specialize (Hno Hgo)].
    right; right. exists [], l, saved, l'. cbn [app with_already_attached ii_pid]. split_and!; [|by constructor|done|done].
    f_equal. by rewrite <- app_assoc.
Qed.

Lemma steady_no_attach pid l : steady l → Attached pid ∉ l.
Proof. intros Hl Hin. unfold steady in Hl. rewrite Forall_forall in Hl. by specialize (Hl _ Hin). Qed.
Lemma put_back_cons pid l0 l : steady l0 → put_back pid l → put_back pid (l0 ++ l).
Proof.
  intros Hl0 (l1 & w & saved & l2 & -> & Hl1 & Hw & Hl2). exists (l0 ++ l1), w, saved, l2.
  split_and!; [by rewrite app_assoc|by apply steady_app|done|done].
Qed.

(** The parts of do_inject before the process is touched. *)
Definition opening_act (a : bact) : bool :=
  match a with Signalled _ _ | FifoMade _ | FifoOpened _ _ => true | _ => false end.
Definition opening (l : list bact) : Prop := Forall opening_act l.
Lemma opening_steady l : opening l → steady l.
Proof. intros Hl. eapply Forall_impl; [exact Hl|]. by intros []. Qed.
Lemma wlp_do_inject cpu emit page_size pid path entrypoint data temp_path id s (Q : option GError → binjector K → Prop) :
  (∀ e k l, opening l → Q (Some e) (with_kern k l s)) →
  (∀ api h i s1 l0, inject_objects s1 !! h = Some i → ii_pid i = pid → ii_previous_fifo i = -1 → ii_remote_payload i = 0 →
     ii_already_attached i = false → inject_instances s1 = inject_instances s →
     spawn_instances s1 = spawn_instances s → exec_instances s1 = exec_instances s →
     b_trace s1 = b_trace s ++ l0 → opening l0 →
     wlp (let! r := inject_instance_run cpu emit page_size pid api path entrypoint data h in
          if r.1 then do! modify (with_injectees <[id := h]>) in ret None
          else do! frida_inject_instance_free cpu h IMMEDIATE in ret r.2) s1 Q) →
  wlp (_frida_binjector_do_inject cpu emit page_size pid path entrypoint data temp_path id) s Q.
Proof.
  intros Hearly Hrun. unfold _frida_binjector_do_inject. apply wlp_bind, wlp_wp. unfold kill. apply wp_sys. intros r k _.
  lazymatch goal with |- context [with_kern k ?acts s] => set (l := acts) end.
  assert (Hl : opening l) by (destruct r; by repeat constructor).
  assert (Hgo : wlp (let! api := frida_remote_api_try_init pid in
      match api with
      | None => ret (Some (NOT_SUPPORTED, "libc"%string))
      | Some api =>
          let! h := frida_inject_instance_new id pid api temp_path in
          let! r := inject_instance_run cpu emit page_size pid api path entrypoint data h in
          if r.1 then do! modify (with_injectees <[id := h]>) in ret None
          else do! frida_inject_instance_free cpu h IMMEDIATE in ret r.2
      end) (with_kern k l s) Q).
  { apply wlp_bind, wlp_wp. wp_call api_try_init_state. intros [api|] s1 ->; [|by apply wlp_ret, Hearly].
    apply wlp_bind. eapply wlp_mono; [apply wlp_new|]. cbn zeta. intros h s1 (i & fd & k' & -> & Ho & Ei & Es & Ee & _ & Et & _ & _ & ->).
    eapply Hrun; [rewrite Ho; apply lookup_insert_eq|done..| |].
    - rewrite Et. cbn [with_kern b_trace]. by rewrite <- app_assoc.
    - apply Forall_app. split; [done|by repeat constructor]. }
  destruct r as [a|e]; [exact Hgo|]. destruct e as [|e|e]; [exact Hgo| |exact Hgo].
  destruct e; try exact Hgo. by apply wlp_ret, Hearly.
Qed.

(** After requests since [s], the process is not traced, and if it was attached to, it
    was put back; unless it went away. *)
Definition put_back_since (pid : Z) (s s' : binjector K) : Prop :=
  ∃ l, b_trace s' = b_trace s ++ l ∧
    (lost pid l = true ∨ (held pid (b_trace s') = false ∧ (Attached pid ∈ l → put_back pid l))).



(** Freeing an instance without a payload does not touch the process. *)
Lemma wp_free_no_payload cpu h i policy s :
  inject_objects s !! h = Some i → ii_remote_payload i = 0 →
  wp (frida_inject_instance_free cpu h policy) s (λ _ s', ∃ l, b_trace s' = b_trace s ++ l ∧
    Forall (λ a, match a with FdClosed _ | Unlinked _ => True | _ => False end) l).
Proof.
  intros Hi Hp. unfold frida_inject_instance_free, unload_payload. wp_step. wp_step. apply (wp_get_object h i); [done|].
  rewrite Hp. rewrite andb_false_r. cbn [andb]. wp_step. wp_step. apply (wp_close_previous h i); [done|]. intros k.
  eapply wp_dispose; [apply at_obj_lookup|]. intros k2. rewrite with_kern_at_obj. eexists. split; [done|].
  apply Forall_app. split; [destruct (ii_previous_fifo i =? -1)|]; by repeat constructor.
Qed.


Lemma died_or_held pid l0 l : held_from pid l0 l = l0 && negb (died pid l) → l0 = true →
  died pid l = true ∨ held_from pid l0 l = true.
Proof. intros -> ->. destruct (died pid l); auto. Qed.
Lemma not_among {A} (P : A → bool) (l : list A) a : Forall P l → P a = false → a ∉ l.
Proof. rewrite Forall_forall. intros Hl Ha Hin. specialize (Hl _ Hin). by rewrite Ha in Hl. Qed.
Lemma free_appends cpu h policy s : wlp (frida_inject_instance_free cpu h policy) s (λ _ s', ∃ l, b_trace s' = b_trace s ++ l).
Proof.
  intros u s' E. apply (keeps_free cpu (λ t, ∃ l, b_trace t = b_trace s ++ l)) in E; try done.
  - intros k l t _ [l' El]. exists (l' ++ l). cbn. by rewrite El, app_assoc.
  - intros k fd t [l' El]. eexists. cbn. by rewrite El, <- app_assoc.
  - exists []. by rewrite app_nil_r.
Qed.

(** After requests since [s]: if the registers of the process were read, it is traced
    unless it died. *)
Definition stays_held (pid : Z) (s s' : binjector K) : Prop :=
  ∃ l, b_trace s' = b_trace s ++ l ∧
    ∀ regs, GotRegs pid regs ∈ l → died pid l = true ∨ held pid (b_trace s') = true.

(** A failure before the registers were read. *)
Lemma unread_stays_held cpu pid h i k la l0 s s1 (e : option GError) :
  b_trace s1 = b_trace s ++ l0 → opening l0 → ii_remote_payload i = 0 → (∀ regs, GotRegs pid regs ∉ la) →
  wlp (do! frida_inject_instance_free cpu h IMMEDIATE in ret e) (at_obj h i k la s1) (λ _, stays_held pid s).
Proof.
  intros Ht Hl0 Hp Hno. apply wlp_bind, wlp_wp. wp_call wp_free_no_payload; [apply at_obj_lookup|done|].
  intros _ s2 (l2 & E2 & Hl2). apply wlp_ret. exists (l0 ++ la ++ l2). rewrite E2, at_obj_trace, Ht, <- !app_assoc.
  split; [done|]. intros regs. rewrite !elem_of_app. intros [Hr|[Hr|Hr]].
  - by apply (not_among _ _ _ Hl0) in Hr.
  - by destruct (Hno regs).
  - rewrite Forall_forall in Hl2. by destruct (Hl2 _ Hr).
Qed.
(** A failure with the process attached. *)
Lemma attached_stays_held (Hlaws : BsdLaws K) cpu pid h i p k l s s1 (e : option GError) :
  b_trace s1 = b_trace s ++ l → inject_objects s1 !! h = Some i → ii_pid i = pid → ii_executable_path i = Some p →
  unmanaged pid s1 → died pid l = true ∨ held pid (b_trace s1) = true → b_kern s1 = k →
  wlp (do! frida_inject_instance_free cpu h IMMEDIATE in ret e) s1 (λ _, stays_held pid s).
Proof.
  intros Ht Hi Hp Hpath Hun [Hd|Hh] _; apply wlp_bind.
  - eapply wlp_mono; [apply free_appends|]. intros _ s2 [l2 E2]. apply wlp_ret. exists (l ++ l2).
    rewrite E2, Ht, <- app_assoc. split; [done|]. intros _ _. left. by rewrite died_app, Hd.
  - rewrite <- Hp in *. apply wlp_wp. wp_call wp_free_held; [done..|]. intros _ s2 (l2 & E2 & Hl2). apply wlp_ret.
    exists (l ++ l2). rewrite E2, Ht, <- app_assoc. split; [done|]. intros _ _.
    rewrite held_app, held_from_app. rewrite Ht, held_app in Hh. rewrite Hh, held_from_steady by done.
    rewrite died_app. cbn [andb]. destruct (died (ii_pid i) l2); [left; by rewrite orb_true_r|by right].
Qed.

(** C27: An injection that fails once the registers of the process were read leaves the
    process stopped.  The process was not traced before, is not one that the injector
    has spawned or awaits the exec of, and no one else attaches to it meanwhile
    ([alone]).  Every failure after the registers were read, of the allocation, of the
    change of protection (which sets no error), of the transfer or of the start, whether
    an error is reported or the instance is just not registered, ends with the process
    still traced, unless it died: the instance is freed, which finds the process traced
    already and does not detach.  Nothing is said of a failure before that: when the
    registers cannot be read, the process is let go. *)
Theorem failed_injection_keeps_hold `{!BsdLaws K} cpu emit page_size pid path entrypoint data temp_path id s e s' :
  alone (K := K) pid → unmanaged pid s → held pid (b_trace s) = false →
  _frida_binjector_do_inject cpu emit page_size pid path entrypoint data temp_path id s = Ret (e, s') →
  is_Some e ∨ inject_instances s' !! id = None →
  stays_held pid s s'.
Proof.
  intros Hal Hun Hheld E Hfail. revert E Hfail.
  enough (wlp (_frida_binjector_do_inject cpu emit page_size pid path entrypoint data temp_path id) s (λ e s',
    is_Some e ∨ inject_instances s' !! id = None → stays_held pid s s')) as X.
  { intros E. by apply (X _ _ E). }
  apply wlp_do_inject.
  { intros e' k l Hl _. exists l. split; [done|]. intros regs Hr. by apply (not_among _ _ _ Hl) in Hr. }
  intros api h i s1 l0 Hi Hp Hprev Hpay Hna Hin Hsp Hex Ht Hl0.
  assert (Hun1 : unmanaged pid s1) by (unfold unmanaged; by rewrite Hsp, Hex).
  assert (Hh1 : held pid (b_trace s1) = false).
  { rewrite Ht, held_app, Hheld. by rewrite held_from_steady by by apply opening_steady. }
  apply wlp_bind. unfold inject_instance_run. apply wlp_bind, wlp_wp, (wp_get_object h i); [done|].
  destruct (ii_executable_path i) as [p|] eqn:Hpath; cycle 1.
  { apply wlp_ret. cbn [fst]. rewrite (at_obj_now h i s1) by done. eapply wlp_mono.
    - apply (unread_stays_held cpu pid h i _ [] l0); [done..|]. intros regs. apply not_elem_of_nil.
    - done. }
  apply wlp_bind, wlp_wp, (wp_attach h i); [done|]. rewrite Hp. intros r i1 la k Ha _ Hagain.
  specialize (Hagain Hal Hh1). destruct Ha as [r Hr|regs|saved l Hl Hw Hd|r l l' Hr Hl Hw Hl'].
  - destruct r as [[] e0]; [done|]. apply wlp_ret. apply (wlp_mono _ _ (λ _, stays_held pid s)); [|done].
    apply (unread_stays_held cpu pid h i _ [] l0); [done..|]. intros regs. apply not_elem_of_nil.
  - by destruct (Hagain regs).
  - cbn [ok]. eapply wlp_mono; [apply (wlp_inject_attached cpu emit _ _ _ _ _ _ _ h (with_already_attached false i));
      [apply at_obj_lookup|done]|].
    intros r s2 (k2 & lr & i2 & -> & (Hp2 & _ & Hpath2 & _) & Hst). rewrite at_obj_at_obj.
    destruct Hst as [r l2 Hr Hl2|l2 Hl2 _|l2 l3 Hl2 _]; [|by apply wlp_bind, wlp_wp, wp_modify, wlp_ret; intros [[]|Hid]; [|cbn in Hid; by rewrite lookup_insert_eq in Hid]..].
    rewrite Hr. apply (wlp_mono _ _ (λ _, stays_held pid s)); [eapply attached_stays_held|done].
    + done.
    + rewrite at_obj_trace, Ht, <- !app_assoc. done.
    + apply at_obj_lookup.
    + by rewrite Hp2.
    + by rewrite Hpath2.
    + done.
    + assert (Hh : held pid (b_trace s1 ++ (Attached pid :: l ++ [GotRegs pid saved]) ++ l2) = negb (died pid l2)).
      { rewrite held_app, held_from_app. cbn [held_from foldl holds_after]. rewrite Z.eqb_refl.
        change (foldl (holds_after pid) true ?x) with (held_from pid true x). rewrite !held_from_steady by
          (by apply inert_steady; try apply inert_app; repeat constructor). rewrite died_app, Hd. done. }
      rewrite at_obj_trace. destruct (died pid l2) eqn:D2; [left|right; by rewrite Hh].
      by rewrite !died_app, D2, !orb_true_r.
    + done.
  - destruct r as [[] e0]; [done|]. apply wlp_ret. apply (wlp_mono _ _ (λ _, stays_held pid s)); [|done].
    apply (unread_stays_held cpu pid h _ _ _ l0); [done..|]. intros regs. cbn. rewrite elem_of_cons, elem_of_app. intros [Hx|[Hx|Hx]]; [done| |].
    + by apply (not_among _ _ _ Hw) in Hx.
    + destruct Hl' as [-> | ->]; [by apply not_elem_of_nil in Hx|]. by apply list_elem_of_singleton in Hx.
Qed.


(** The descriptors that an instance has. *)
Definition instance_fds (i : FridaInjectInstance) : gset Z := entry_fds (fifo_view i).

(** C13: However spawning, exec transitions, injections, demonitoring, cloning,
    recreated threads and releases follow each other, and whatever fails, the table of
    injectees has exactly the live instances under their ids, and the FIFOs that are
    open are exactly those of live instances, each of one instance only: none is
    leaked and none is closed under another instance. *)
Theorem every_fifo_has_one_owner `{!BsdLaws K} cpu emit page_size k s :
  rtc (binjector_step cpu emit page_size) (new_binjector k) s →
  (∀ id h, inject_instances s !! id = Some h ↔ ∃ i, inject_objects s !! h = Some i ∧ ii_id i = id) ∧
  (∀ fd, fd ∈ open_fds (b_trace s) ↔ ∃ h i, inject_objects s !! h = Some i ∧ fd ∈ instance_fds i) ∧
  (∀ fd h h' i i', inject_objects s !! h = Some i → inject_objects s !! h' = Some i' →
     fd ∈ instance_fds i → fd ∈ instance_fds i' → h = h').
Proof.
  intros Hr. pose proof (reachable_ledger_ok _ _ _ _ _ Hr) as [Hids _ Hown Huniq _].
  assert (Hl : ∀ h i, inject_objects s !! h = Some i → lg_entries (ledger_of s) !! h = Some (fifo_view i)).
  { intros h i Hi. cbn. by rewrite lookup_fmap, Hi. }
  split_and!.
  - intros id h. rewrite (Hids id h). split.
    + intros (f & p & He). apply ledger_object in He as (i & Hi & [= <- _ _]). eauto.
    + intros (i & Hi & <-). eexists _, _. by apply Hl.
  - intros fd. rewrite (Hown fd). split.
    + intros (h & e & He & Hin). apply ledger_object in He as (i & Hi & <-). eauto.
    + intros (h & i & Hi & Hin). exists h, (fifo_view i). eauto.
  - intros fd h h' i i' Hi Hi'. by apply Huniq; apply Hl.
Qed.
End claims.

(** ** Runs *)
Definition no_code (_ : FridaInjectParams) (_ : Z) : list Z := [0xcc].
Definition run_of (k : script) : outcome (option GError * binjector script) :=
  _frida_binjector_do_inject X86_64 no_code 4096 7 "/a.so" "main" "" "/tmp" 1 (new_binjector k).

Lemma succeeded {S} (o : outcome (option GError * S)) (P : S → Prop) :
  match o with Ret (None, s) => P s | _ => False end → ∃ s, o = Ret (None, s) ∧ P s.
Proof. destruct o as [[[] s]| | |]; try done. eauto. Qed.
Lemma failed {S} (o : outcome (option GError * S)) :
  match o with Ret (Some _, _) => True | _ => False end → ∃ e s, o = Ret (Some e, s).
Proof. destruct o as [[[] s]| | |]; try done. eauto. Qed.
Lemma good_run : ∃ s, run_of good_script = Ret (None, s) ∧ inject_instances s !! 1 = Some 1.
Proof. apply succeeded. by vm_compute. Qed.
Lemma no_memory_run : ∃ e s, run_of no_memory_script = Ret (Some e, s).
Proof. apply failed. by vm_compute. Qed.


Lemma failed_injection_keeps_hold_witness :
  ∃ e s', run_of no_memory_script = Ret (Some e, s') ∧ stays_held 7 (new_binjector no_memory_script) s'.
Proof.
  destruct no_memory_run as (e & s' & E). exists e, s'. split; [exact E|].
  eapply (failed_injection_keeps_hold X86_64 no_code 4096 7 "/a.so" "main" "" "/tmp" 1); [| | |exact E|].
  - intros k k'. discriminate.
  - split; reflexivity.
  - reflexivity.
  - left. by eexists.
Defined.


Lemma every_fifo_has_one_owner_witness :
  ∃ s, run_of good_script = Ret (None, s) ∧
  (∀ id h, inject_instances s !! id = Some h ↔ ∃ i, inject_objects s !! h = Some i ∧ ii_id i = id) ∧
  (∀ fd, fd ∈ open_fds (b_trace s) ↔ ∃ h i, inject_objects s !! h = Some i ∧ fd ∈ instance_fds i) ∧
  (∀ fd h h' i i', inject_objects s !! h = Some i → inject_objects s !! h' = Some i' →
     fd ∈ instance_fds i → fd ∈ instance_fds i' → h = h').
Proof.
  destruct good_run as (s & E & _). exists s. split; [exact E|].
  apply (every_fifo_has_one_owner X86_64 no_code 4096 good_script s). eapply rtc_once, does_inject; [|exact E]. reflexivity.
Defined.

(** A function that faults itself, here at 0x400000, is taken for one that returned. *)
Lemma callee_fault_taken_for_return :
  match frida_remote_call X86_64 7 0x900000 [] (new_binjector (mk_script [Stopped SIGSEGV] [0; 5])) with
  | Ret (c, s') => oc_retval c = Some 5 ∧
      Exists (λ a, match a with GotRegs _ regs => regs r_rax = 5 ∧ regs r_rip = 0x400000 | _ => False end) (b_trace s')
  | _ => False
  end.
Proof. vm_compute. split; [reflexivity|]. repeat first [left; split; reflexivity | right]. Qed.
