(* ===== verification/PayloadCode.v ===== *)
(** The code that the FreeBSD injector runs in a process, as src/src/freebsd/binjector-glue.c
    emits it: a start that creates a thread, and the thread's worker, which reports
    through the FIFO, loads the module, calls its entrypoint and unloads it again.

    The code writers of the instrumentation library are not part of the repository;
    the emitted code is the list of the instructions that the source asks them for.
    What a thread may assume is built into the machine below: a call leaves arbitrary
    values in the registers that the calling convention does not preserve, and reaches
    the thread's stack only through the pointers it is given. *)
From S2P Require Import Prelude Posix Binjector BinjectorInstances.

(** ** Instructions *)
(** The registers of the emitted code: XAX is eax or rax, and [X n] is r12 to r15 on
    x86-64, x0 to x28 on ARM64 and r0 to r12 on ARM.  [sp] and [lr] are those of
    [Binjector]. *)
Inductive preg := XAX | XBX | XCX | XDX | XSI | XDI | XBP | XSP | X (n : nat) | FP | LR.
Definition preg_eqb (a b : preg) : bool :=
  match a, b with
  | XAX, XAX | XBX, XBX | XCX, XCX | XDX, XDX | XSI, XSI | XDI, XDI | XBP, XBP | XSP, XSP | FP, FP | LR, LR => true
  | X n, X k => Nat.eqb n k
  | _, _ => false
  end.

(** The fields of FridaTrampolineData that the code reads and writes. *)
Inductive field := pthread_so | worker_thread | module_handle.
Definition field_eqb (a b : field) : bool :=
  match a, b with
  | pthread_so, pthread_so | worker_thread, worker_thread | module_handle, module_handle => true
  | _, _ => false
  end.
Inductive label := skip_dlopen | skip_dlclose | skip_detach.
Definition label_eqb (a b : label) : bool :=
  match a, b with
  | skip_dlopen, skip_dlopen | skip_dlclose, skip_dlclose | skip_detach, skip_detach => true
  | _, _ => false
  end.

Inductive operand := Imm (v : Z) | Reg (r : preg) | Reg32 (r : preg).
(** [base] of a field access is the register with the address of the data, or [None]
    for an absolute address. *)
Inductive insn :=
| Move (dst src : preg) | Move32 (dst src : preg) | Lea (dst base : preg) (offset : Z) | Sub (r : preg) (v : Z)
| Push (rs : list preg) | Pop (rs : list preg)
| LoadField (r : preg) (base : option preg) (f : field) | StoreField (f : field) (base : option preg) (r : preg)
| LoadImm (r : preg) (v : Z) | Load32 (dst base : preg) (offset : Z)
| StoreImm32 (base : preg) (offset v : Z) | Store32 (base : preg) (offset : Z) (src : preg)
| CallImm (func : Z) (args : list operand) | CallReg (r : preg) (args : list operand)
| Cmp (a b : operand) | Je (l : label) | Jne (l : label) | Cbnz (r : preg) (l : label) | Label (l : label)
| Return | Breakpoint.

(** ** The emitted code *)
Definition RTLD_LAZY : Z := 1.
Definition RTLD_GLOBAL : Z := 0x100.
Definition O_WRONLY : Z := 1.
Definition O_CLOEXEC : Z := 0x100000.
Definition policy_number (p : UnloadPolicy) : Z := match p with IMMEDIATE => 0 | RESIDENT => 1 | DEFERRED => 2 end.
Definition sizeof_pointer (cpu : Cpu) : Z := word_size cpu.
Definition pointer_offset (cpu : Cpu) (f : field) : Z :=
  match cpu, f with
  | IA32, pthread_so => 1124 | IA32, worker_thread => 1128 | IA32, module_handle => 1132
  | _, pthread_so => 1128 | _, worker_thread => 1136 | _, module_handle => 1144
  end.

Section emit.
Context (cpu : Cpu) (params : FridaInjectParams) (remote_address : Z).
Let api := pa_api params.
(** FRIDA_REMOTE_DATA_FIELD *)
Definition data_address : Z := remote_address + rg_offset (pa_data params).
Definition data_field (offset : Z) : Z := data_address + offset.
Definition worker_offset : Z := match cpu with ARM64 => 128 | _ => 172 end.

Definition x86_start_code : list insn :=
  [CallImm (dlopen_impl api) [Imm (data_field field_pthread_so_string); Imm (Z.lor RTLD_GLOBAL RTLD_LAZY)];
   StoreField pthread_so None XAX;
   CallImm (dlsym_impl api) [Reg XAX; Imm (data_field field_pthread_create_string)];
   CallReg XAX [Imm (data_field (pointer_offset cpu worker_thread)); Imm 0; Imm (remote_address + worker_offset); Imm 0];
   Breakpoint].
Definition x86_worker_code : list insn :=
  let fd_offset := -4 in
  let unload_policy_offset := -8 in
  let tid_offset := -12 in
  let fd_reg := match cpu with IA32 => XDX | _ => XDI end in
  [Push [XBP]; Move XBP XSP; Sub XSP (32 + match cpu with IA32 => 4 | _ => 8 end); Push [XBX];
   CallImm (open_impl api) [Imm (data_field field_fifo_path); Imm (Z.lor O_WRONLY O_CLOEXEC)];
   Store32 XBP fd_offset XAX;
   CallImm (write_impl api) [Reg32 XAX; Imm (data_field field_hello_byte); Imm 1];
   LoadField XAX None module_handle; Cmp (Reg XAX) (Imm 0); Jne skip_dlopen;
     CallImm (dlopen_impl api) [Imm (data_field field_so_path); Imm RTLD_LAZY];
     StoreField module_handle None XAX;
   Label skip_dlopen;
   CallImm (dlsym_impl api) [Reg XAX; Imm (data_field field_entrypoint_name)];
   StoreImm32 XBP unload_policy_offset (policy_number IMMEDIATE);
   Lea XCX XBP unload_policy_offset; Lea XDX XBP fd_offset;
   CallReg XAX [Imm (data_field field_entrypoint_data); Reg XCX; Reg XDX];
   Load32 XAX XBP unload_policy_offset; Cmp (Reg32 XAX) (Imm (policy_number IMMEDIATE)); Jne skip_dlclose;
     LoadField XAX None module_handle;
     CallImm (dlclose_impl api) [Reg XAX];
   Label skip_dlclose;
   Load32 XAX XBP unload_policy_offset; Cmp (Reg32 XAX) (Imm (policy_number DEFERRED)); Je skip_detach;
     LoadField XAX None pthread_so;
     CallImm (dlsym_impl api) [Reg XAX; Imm (data_field field_pthread_detach_string)];
     LoadField XCX None worker_thread;
     CallReg XAX [Reg XCX];
   Label skip_detach;
   LoadField XAX None pthread_so;
   CallImm (dlsym_impl api) [Reg XAX; Imm (data_field field_pthread_getthreadid_np_string)];
   CallReg XAX [];
   Store32 XBP tid_offset XAX;
   LoadField XAX None pthread_so;
   CallImm (dlclose_impl api) [Reg XAX];
   Load32 fd_reg XBP fd_offset; Lea XCX XBP unload_policy_offset;
   CallImm (write_impl api) [Reg32 fd_reg; Reg XCX; Imm 1];
   Load32 fd_reg XBP fd_offset; Lea XCX XBP tid_offset;
   CallImm (write_impl api) [Reg32 fd_reg; Reg XCX; Imm 4];
   Load32 XCX XBP fd_offset;
   CallImm (close_impl api) [Reg32 XCX];
   Pop [XBX]; Move XSP XBP; Pop [XBP]; Return].

Definition arm64_start_code : list insn :=
  [LoadImm (X 20) data_address;
   CallImm (dlopen_impl api) [Imm (data_field field_pthread_so_string); Imm (Z.lor RTLD_GLOBAL RTLD_LAZY)];
   StoreField pthread_so (Some (X 20)) (X 0);
   CallImm (dlsym_impl api) [Reg (X 0); Imm (data_field field_pthread_create_string)];
   Move (X 5) (X 0);
   CallReg (X 5) [Imm (data_field (pointer_offset cpu worker_thread)); Imm 0; Imm (remote_address + worker_offset);
                  Imm data_address];
   Breakpoint].
Definition arm64_worker_code : list insn :=
  let base := Some (X 20) in
  [Push [FP; LR]; Move FP XSP; Push [X 23; X 24]; Push [X 21; X 22]; Push [X 19; X 20];
   Move (X 20) (X 0);
   CallImm (open_impl api) [Imm (data_field field_fifo_path); Imm (Z.lor O_WRONLY O_CLOEXEC)];
   Move32 (X 21) (X 0);
   CallImm (write_impl api) [Reg32 (X 21); Imm (data_field field_hello_byte); Imm 1];
   LoadField (X 19) base module_handle; Cbnz (X 19) skip_dlopen;
     CallImm (dlopen_impl api) [Imm (data_field field_so_path); Imm RTLD_LAZY];
     Move (X 19) (X 0); StoreField module_handle base (X 19);
   Label skip_dlopen;
   CallImm (dlsym_impl api) [Reg (X 19); Imm (data_field field_entrypoint_name)];
   Move (X 5) (X 0);
   LoadImm (X 0) (policy_number IMMEDIATE); Push [X 0; X 21]; Move (X 1) XSP; Lea (X 2) XSP 8;
   CallReg (X 5) [Imm (data_field field_entrypoint_data); Reg (X 1); Reg (X 2)];
   Load32 (X 21) XSP 8; Load32 (X 22) XSP 0;
   LoadImm (X 1) (policy_number IMMEDIATE); Cmp (Reg32 (X 22)) (Reg32 (X 1)); Jne skip_dlclose;
     CallImm (dlclose_impl api) [Reg (X 19)];
   Label skip_dlclose;
   LoadImm (X 1) (policy_number DEFERRED); Cmp (Reg32 (X 22)) (Reg32 (X 1)); Je skip_detach;
     LoadField (X 0) base pthread_so;
     CallImm (dlsym_impl api) [Reg (X 0); Imm (data_field field_pthread_detach_string)];
     Move (X 5) (X 0); LoadField (X 0) base worker_thread;
     CallReg (X 5) [Reg (X 0)];
   Label skip_detach;
   LoadField (X 0) base pthread_so;
   CallImm (dlsym_impl api) [Reg (X 0); Imm (data_field field_pthread_getthreadid_np_string)];
   CallReg (X 0) [];
   Move32 (X 23) (X 0);
   LoadField (X 0) base pthread_so;
   CallImm (dlclose_impl api) [Reg (X 0)];
   Move (X 1) XSP;
   CallImm (write_impl api) [Reg32 (X 21); Reg (X 1); Imm 1];
   Pop [X 0; X 1];
   Push [X 23; X 24]; Move (X 1) XSP;
   CallImm (write_impl api) [Reg32 (X 21); Reg (X 1); Imm 4];
   Pop [X 23; X 24];
   CallImm (close_impl api) [Reg32 (X 21)];
   Pop [X 19; X 20]; Pop [X 21; X 22]; Pop [X 23; X 24]; Pop [FP; LR]; Return].

Definition start_code : list insn := match cpu with ARM64 => arm64_start_code | _ => x86_start_code end.
Definition worker_code : list insn := match cpu with ARM64 => arm64_worker_code | _ => x86_worker_code end.
(** The argument of the thread. *)
Definition worker_argument : Z := match cpu with ARM64 => data_address | _ => 0 end.
End emit.
