(* ===== verification/PayloadMachine.v ===== *)
(** A machine for the code that the injectors of FreeBSD and QNX emit, and what the
    code for FreeBSD does in terms of calls: the same on every processor.

    What the machine has to know of a processor is an [abi]: the width of its words,
    where results are, what a callee preserves and how the stack is aligned. *)
From S2P Require Import Prelude Posix Binjector BinjectorInstances PayloadCode.

(** Steps that can get stuck. *)
Notation "'try!' y := e 'in' k" := (match e with Some y => k | None => None end)
  (at level 200, y name, e at level 100, k at level 200, right associativity).

(** ** The process as the code sees it *)
(** A number, or the address of a place on the thread's stack, relative to the stack
    pointer at the start. *)
Inductive pval := Num (z : Z) | Stk (offset : Z).
(** What a callee gets: a number, or a pointer to four bytes of the stack. *)
Inductive argv := AVal (z : Z) | ARef (contents : Z).
Record call_event := mk_call { ce_func : Z; ce_args : list argv }.
(** What a callee leaves behind: its result, the contents behind the pointers it got,
    values in the registers that are not preserved, and possibly a new
    [worker_thread], which pthread_create stores. *)
Record reply (W : Type) := mk_reply {
  rp_result : Z; rp_contents : list Z; rp_clobbered : preg → Z; rp_thread : option Z; rp_world : W
}.
Arguments mk_reply {W} _ _ _ _ _.
Arguments rp_result {W} _.
Arguments rp_contents {W} _.
Arguments rp_clobbered {W} _ _.
Arguments rp_thread {W} _.
Arguments rp_world {W} _.

(** What is behind a pointer afterwards: what the callee stored, or what was there. *)
Definition content_after (c : option Z) (old : Z) : Z := match c with Some z => u32 z | None => old end.

(** The rest of the process, the fields of the data, and the calls so far. *)
Record proc (W : Type) := mk_proc { pr_world : W; pr_fields : field → Z; pr_log : list call_event }.
Arguments mk_proc {W} _ _ _.
Arguments pr_world {W} _.
Arguments pr_fields {W} _ _.
Arguments pr_log {W} _.
Definition set_field {W} (f : field) (v : Z) (p : proc W) : proc W :=
  mk_proc (pr_world p) (λ g, if field_eqb g f then v else pr_fields p g) (pr_log p).

(** A 32-bit cell of the stack: part of a word, or a number. *)
Inductive cell := Low (v : pval) | High (v : pval) | Word (z : Z).
Record machine (W : Type) := mk_machine {
  m_regs : preg → pval; m_stack : Z → option cell; m_equal : bool; m_proc : proc W
}.
Arguments mk_machine {W} _ _ _ _.
Arguments m_regs {W} _ _.
Arguments m_stack {W} _ _.
Arguments m_equal {W} _.
Arguments m_proc {W} _.
Inductive halt := Returned | Trapped | RanOff.

(** ** Processors *)
Record abi := mk_abi {
  ab_word : Z; ab_result : preg; ab_preserved : preg → bool;
  (** The stack pointer at a call, plus the bias, is a multiple of the alignment; the
      writers for x86 align the stack for calls with arguments. *)
  ab_align : Z; ab_bias : Z; ab_writer_aligns : bool
}.
Definition ia32_preserved (r : preg) : bool :=
  match r with XBX | XSI | XDI | XBP | XSP => true | _ => false end.
Definition x86_64_preserved (r : preg) : bool :=
  match r with
  | XBX | XBP | XSP => true
  | X n => (12 <=? n)%nat && (n <=? 15)%nat
  | _ => false
  end.
Definition arm64_preserved (r : preg) : bool :=
  match r with
  | X n => (19 <=? n)%nat && (n <=? 28)%nat
  | XSP | FP => true
  | _ => false
  end.
Definition cpu_abi (cpu : Cpu) : abi :=
  match cpu with
  | IA32 => mk_abi 4 XAX ia32_preserved 16 12 true
  | X86_64 => mk_abi 8 XAX x86_64_preserved 16 8 true
  | ARM64 => mk_abi 8 (X 0) arm64_preserved 16 0 false
  end.
Coercion cpu_abi : Cpu >-> abi.

Section machine.
Context {W : Type} (cpu : abi) (env : Z → list argv → W → reply W) (data : Z).
Notation mach := (machine W).

(** Numbers as wide as a register. *)
Definition uw (z : Z) : Z := if ab_word cpu =? 4 then u32 z else u64 z.

(** *** Calls *)
Definition ask_env (f : Z) (args : list argv) (p : proc W) : reply W * proc W :=
  let r := env f args (pr_world p) in
  let p := mk_proc (rp_world r) (pr_fields p) (pr_log p ++ [mk_call f args]) in
  (r, match rp_thread r with Some t => set_field worker_thread (uw t) p | None => p end).

Definition set_preg (r : preg) (v : pval) (m : mach) : mach :=
  mk_machine (λ q, if preg_eqb q r then v else m_regs m q) (m_stack m) (m_equal m) (m_proc m).
Definition set_cell (a : Z) (c : cell) (m : mach) : mach :=
  mk_machine (m_regs m) (λ b, if b =? a then Some c else m_stack m b) (m_equal m) (m_proc m).
Definition with_proc (p : proc W) (m : mach) : mach := mk_machine (m_regs m) (m_stack m) (m_equal m) p.
Definition with_equal (b : bool) (m : mach) : mach := mk_machine (m_regs m) (m_stack m) b (m_proc m).

Definition read32 (m : mach) (a : Z) : option Z :=
  match m_stack m a with
  | Some (Low (Num z)) => Some (u32 z)
  | Some (Word z) => Some z
  | _ => None
  end.
Definition num (v : pval) : option Z := match v with Num z => Some z | Stk _ => None end.
Definition stk (v : pval) : option Z := match v with Stk o => Some o | Num _ => None end.

Definition argument (m : mach) (o : operand) : option argv :=
  match o with
  | Imm v => Some (AVal v)
  | Reg r => match m_regs m r with
             | Num z => Some (AVal z)
             | Stk a => try! z := read32 m a in Some (ARef z)
             end
  | Reg32 r => try! z := num (m_regs m r) in Some (AVal (u32 z))
  end.
Fixpoint arguments (m : mach) (os : list operand) : option (list argv) :=
  match os with
  | [] => Some []
  | o :: os => try! a := argument m o in try! l := arguments m os in Some (a :: l)
  end.
(** The contents behind the pointers, when the callee returns. *)
Definition update_cell (a : Z) (c : option Z) (m : mach) : mach :=
  match read32 m a with
  | Some old => set_cell a (Word (content_after c old)) m
  | None => m
  end.
Fixpoint write_back (os : list operand) (zs : list Z) (m0 m : mach) : mach :=
  match os with
  | [] => m
  | Reg r :: os =>
      match m_regs m0 r with
      | Stk a => write_back os (tail zs) m0 (update_cell a (head zs) m)
      | Num _ => write_back os zs m0 m
      end
  | _ :: os => write_back os zs m0 m
  end.
Definition call_aligned (args : list operand) (m : mach) : bool :=
  (ab_writer_aligns cpu && match args with [] => false | _ => true end) ||
  match m_regs m XSP with Stk o => (o + ab_bias cpu) mod ab_align cpu =? 0 | Num _ => false end.
Definition call (f : Z) (os : list operand) (m : mach) : option mach :=
  if call_aligned os m then
    try! args := arguments m os in
    let '(r, p) := ask_env f args (m_proc m) in
    let m' := write_back os (rp_contents r) m m in
    Some (mk_machine (λ q, if preg_eqb q (ab_result cpu) then Num (uw (rp_result r))
                           else if ab_preserved cpu q then m_regs m q else Num (rp_clobbered r q))
            (m_stack m') (m_equal m) p)
  else None.

(** *** Words on the stack *)
Definition set_word (a : Z) (v : pval) (m : mach) : mach :=
  if ab_word cpu =? 4 then set_cell a (Low v) m else set_cell (a + 4) (High v) (set_cell a (Low v) m).
(** A word whose lower half was replaced. *)
Definition join32 (lo word : Z) : Z := lo + word / 2 ^ 32 * 2 ^ 32.
Definition get_word (a : Z) (m : mach) : option pval :=
  if ab_word cpu =? 4 then
    match m_stack m a with
    | Some (Low v) => Some v
    | Some (Word z) => Some (Num z)
    | _ => None
    end
  else
    match m_stack m a, m_stack m (a + 4) with
    | Some (Low v), Some (High _) => Some v
    | Some (Word lo), Some (High (Num hi)) => Some (Num (join32 lo hi))
    | _, _ => None
    end.
Fixpoint set_words (a : Z) (rs : list preg) (m0 m : mach) : mach :=
  match rs with
  | [] => m
  | r :: rs => set_words (a + ab_word cpu) rs m0 (set_word a (m_regs m0 r) m)
  end.
Fixpoint get_words (a : Z) (rs : list preg) (m0 m : mach) : option mach :=
  match rs with
  | [] => Some m
  | r :: rs => try! v := get_word a m0 in get_words (a + ab_word cpu) rs m0 (set_preg r v m)
  end.
Definition field_reachable (base : option preg) (m : mach) : bool :=
  match base with
  | None => true
  | Some b => match m_regs m b with Num z => z =? data | Stk _ => false end
  end.
Definition compared (m : mach) (o : operand) : option Z :=
  match o with
  | Imm v => Some v
  | Reg r => num (m_regs m r)
  | Reg32 r => u32 <$> num (m_regs m r)
  end.

(** *** Execution: jumps go forward, to a label *)
Definition exec (i : insn) (m : mach) : option mach :=
  match i with
  | Move dst src => Some (set_preg dst (m_regs m src) m)
  | Move32 dst src => try! z := num (m_regs m src) in Some (set_preg dst (Num (u32 z)) m)
  | Lea dst base offset => try! o := stk (m_regs m base) in Some (set_preg dst (Stk (o + offset)) m)
  | Sub r v => try! o := stk (m_regs m r) in Some (set_preg r (Stk (o - v)) m)
  | Push rs =>
      try! o := stk (m_regs m XSP) in
      let o := o - ab_word cpu * Z.of_nat (length rs) in
      Some (set_preg XSP (Stk o) (set_words o rs m m))
  | Pop rs =>
      try! o := stk (m_regs m XSP) in
      try! m' := get_words o rs m m in
      Some (set_preg XSP (Stk (o + ab_word cpu * Z.of_nat (length rs))) m')
  | LoadField r base f =>
      if field_reachable base m then Some (set_preg r (Num (pr_fields (m_proc m) f)) m) else None
  | StoreField f base r =>
      if field_reachable base m then try! z := num (m_regs m r) in Some (with_proc (set_field f z (m_proc m)) m) else None
  | LoadImm r v => Some (set_preg r (Num v) m)
  | Load32 dst base offset =>
      try! o := stk (m_regs m base) in try! z := read32 m (o + offset) in Some (set_preg dst (Num z) m)
  | StoreImm32 base offset v => try! o := stk (m_regs m base) in Some (set_cell (o + offset) (Word v) m)
  | Store32 base offset src =>
      try! o := stk (m_regs m base) in try! z := num (m_regs m src) in Some (set_cell (o + offset) (Word (u32 z)) m)
  | CallImm f args => call f args m
  | CallReg r args => try! f := num (m_regs m r) in call f args m
  | Cmp a b => try! u := compared m a in try! v := compared m b in Some (with_equal (u =? v) m)
  | _ => Some m
  end.
Definition jumps (i : insn) (m : mach) : option label :=
  match i with
  | Je l => if m_equal m then Some l else None
  | Jne l => if m_equal m then None else Some l
  | Cbnz r l => match m_regs m r with Num z => if z =? 0 then None else Some l | Stk _ => Some l end
  | _ => None
  end.
Fixpoint run (code : list insn) (target : option label) (m : mach) : option (halt * mach) :=
  match code with
  | [] => Some (RanOff, m)
  | i :: code =>
      match target with
      | Some l => run code (match i with Label l' => if label_eqb l' l then None else target | _ => target end) m
      | None =>
          match i with
          | Return => Some (Returned, m)
          | Breakpoint => Some (Trapped, m)
          | _ => try! m' := exec i m in run code (jumps i m) m'
          end
      end
  end.

(** *** Calls as computations: the result and the contents behind the pointers *)
Definition invoke (f : Z) (args : list argv) : M (proc W) (Z * list Z) := λ p,
  let '(r, p) := ask_env f args p in Ret ((uw (rp_result r), rp_contents r), p).
Definition get_field (f : field) : M (proc W) Z := gets (λ p, pr_fields p f).
Definition put_field (f : field) (v : Z) : M (proc W) unit := modify (set_field f v).
End machine.

(** ** What the code is for *)
Section protocol.
Context {W : Type} (cpu : Cpu) (env : Z → list argv → W → reply W) (params : FridaInjectParams) (remote_address : Z).
Notation P := (M (proc W)).
Let api := pa_api params.
Let field_at := data_field params remote_address.

Definition start_protocol : P unit :=
  let! so := invoke cpu env (dlopen_impl api) [AVal (field_at field_pthread_so_string); AVal (Z.lor RTLD_GLOBAL RTLD_LAZY)] in
  do! put_field pthread_so so.1 in
  let! create := invoke cpu env (dlsym_impl api) [AVal so.1; AVal (field_at field_pthread_create_string)] in
  do! invoke cpu env create.1 [AVal (field_at (pointer_offset cpu worker_thread)); AVal 0; AVal (remote_address + worker_offset cpu);
                       AVal (worker_argument cpu params remote_address)] in
  ret tt.

(** The worker: say hello, load the module unless it is loaded, run its entrypoint with
    places for the policy and the descriptor, unload the module if the policy says so,
    detach the thread unless it is deferred, and report the policy and the thread id. *)
Definition load_module : P Z :=
  let! handle := get_field module_handle in
  if handle =? 0 then
    let! h := invoke cpu env (dlopen_impl api) [AVal (field_at field_so_path); AVal RTLD_LAZY] in
    do! put_field module_handle h.1 in ret h.1
  else ret handle.
(** [symbol (pthread_so)] *)
Definition pthread_function (name : Z) : P Z :=
  let! so := get_field pthread_so in
  let! f := invoke cpu env (dlsym_impl api) [AVal so; AVal (field_at name)] in ret f.1.
Definition detach_thread : P unit :=
  let! detach := pthread_function field_pthread_detach_string in
  let! thread := get_field worker_thread in
  do! invoke cpu env detach [AVal thread] in ret tt.
(** The result has the descriptor, the policy and the descriptor that the entrypoint
    left, and the thread's id. *)
Definition worker_report : P (Z * Z * Z * Z) :=
  let! fd := invoke cpu env (open_impl api) [AVal (field_at field_fifo_path); AVal (Z.lor O_WRONLY O_CLOEXEC)] in
  let fd := u32 fd.1 in
  do! invoke cpu env (write_impl api) [AVal fd; AVal (field_at field_hello_byte); AVal 1] in
  let! handle := load_module in
  let! entrypoint := invoke cpu env (dlsym_impl api) [AVal handle; AVal (field_at field_entrypoint_name)] in
  let! out := invoke cpu env entrypoint.1 [AVal (field_at field_entrypoint_data); ARef (policy_number IMMEDIATE); ARef fd] in
  let policy := content_after (head out.2) (policy_number IMMEDIATE) in
  let fd' := content_after (head (tail out.2)) fd in
  do! (if policy =? policy_number IMMEDIATE then do! invoke cpu env (dlclose_impl api) [AVal handle] in ret tt else ret tt) in
  do! (if policy =? policy_number DEFERRED then ret tt else detach_thread) in
  let! getthreadid := pthread_function field_pthread_getthreadid_np_string in
  let! tid := invoke cpu env getthreadid [] in
  let! so := get_field pthread_so in
  do! invoke cpu env (dlclose_impl api) [AVal so] in
  do! invoke cpu env (write_impl api) [AVal fd'; ARef policy; AVal 1] in
  do! invoke cpu env (write_impl api) [AVal fd'; ARef (u32 tid.1); AVal 4] in
  do! invoke cpu env (close_impl api) [AVal fd'] in ret (fd, policy, fd', u32 tid.1).
Definition worker_protocol : P unit := let! _ := worker_report in ret tt.
End protocol.
