(* ===== verification/PayloadCorrect.v ===== *)
(** The emitted code of the FreeBSD injector follows the protocol on every processor. *)
From S2P Require Import Prelude Posix Binjector BinjectorInstances PayloadCode PayloadMachine.

#[local] Arguments preg_eqb !a !b.
#[local] Arguments field_eqb !a !b.
#[local] Arguments label_eqb !a !b.
#[local] Arguments ia32_preserved !r.
#[local] Arguments x86_64_preserved !r.
#[local] Arguments arm64_preserved !r.
#[local] Arguments run : simpl never.
#[local] Arguments ask_env : simpl never.
#[local] Arguments u32 : simpl never.
#[local] Arguments join32 : simpl never.
#[local] Arguments u64 : simpl never.
#[local] Arguments Z.of_nat : simpl nomatch.
#[local] Arguments Z.add : simpl nomatch.
#[local] Arguments Z.sub : simpl nomatch.
#[local] Arguments Z.mul : simpl nomatch.
#[local] Arguments Z.eqb : simpl nomatch.
#[local] Arguments Z.opp : simpl nomatch.
#[local] Arguments Z.pos_sub : simpl nomatch.
#[local] Arguments Pos.eqb : simpl nomatch.
#[local] Arguments Pos.succ : simpl nomatch.
#[local] Arguments Pos.mul : simpl nomatch.
#[local] Arguments Pos.add : simpl nomatch.
#[local] Arguments Pos.add_carry : simpl nomatch.

Lemma u32_u32 z : u32 (u32 z) = u32 z.
Proof. unfold u32. by rewrite Z.mod_mod. Qed.

Section simulation.
Context {W : Type} (cpu : abi) (env : Z → list argv → W → reply W) (data : Z).
Context (why : halt) (good : machine W → Prop).

(** The code runs to a stop of the kind [why], with the process as the protocol
    leaves it. *)
Definition sim (code : list insn) (target : option label) (m : machine W) (c : M (proc W) unit) : Prop :=
  match c (m_proc m), run cpu env data code target m with
  | Ret (_, p), Some (y, m') => y = why ∧ m_proc m' = p ∧ good m'
  | _, _ => False
  end.

Lemma sim_exec i code m m' t c :
  match i with Return | Breakpoint | CallImm _ _ | CallReg _ _ => False | _ => True end →
  exec cpu env data i m = Some m' → jumps i m = t → m_proc m' = m_proc m →
  sim code t m' c → sim (i :: code) None m c.
Proof.
  intros Hi E <- Ep Hs. unfold sim in *. rewrite Ep in Hs. unfold run; fold (run cpu env data).
  by destruct i; rewrite ?E.
Qed.
Lemma sim_skip i l code m c :
  sim code (match i with Label l' => if label_eqb l' l then None else Some l | _ => Some l end) m c → sim (i :: code) (Some l) m c.
Proof. done. Qed.
Lemma sim_store f base r z code m c :
  field_reachable data base m = true → m_regs m r = Num z →
  sim code None (with_proc (set_field f z (m_proc m)) m) c →
  sim (StoreField f base r :: code) None m (do! put_field f z in c).
Proof.
  intros Hb Hr Hs. unfold sim in *. unfold run; fold (run cpu env data). cbn. rewrite Hb, Hr. cbn. done.
Qed.
Lemma sim_load f base r code m (c : Z → M (proc W) unit) :
  field_reachable data base m = true →
  sim code None (set_preg r (Num (pr_fields (m_proc m) f)) m) (c (pr_fields (m_proc m) f)) →
  sim (LoadField r base f :: code) None m (let! v := get_field f in c v).
Proof. intros Hb Hs. unfold sim in *. unfold run; fold (run cpu env data). cbn. rewrite Hb. done. Qed.

(** A call, and what it leaves. *)
Definition after_call (os : list operand) (r : reply W) (p : proc W) (m : machine W) : machine W :=
  mk_machine (λ q, if preg_eqb q (ab_result cpu) then Num (uw cpu (rp_result r))
                   else if ab_preserved cpu q then m_regs m q else Num (rp_clobbered r q))
    (m_stack (write_back os (rp_contents r) m m)) (m_equal m) p.
Lemma sim_call f os args code m (k : Z * list Z → M (proc W) unit) :
  call_aligned cpu os m = true → arguments m os = Some args →
  (∀ r p, pr_fields p pthread_so = pr_fields (m_proc m) pthread_so →
     pr_fields p module_handle = pr_fields (m_proc m) module_handle →
     sim code None (after_call os r p m) (k (uw cpu (rp_result r), rp_contents r))) →
  sim (CallImm f os :: code) None m (let! v := invoke cpu env f args in k v).
Proof.
  intros Ha Eo Hk. unfold sim in *. unfold run; fold (run cpu env data). cbn [exec jumps]. unfold call. rewrite Ha, Eo.
  unfold bind, invoke. destruct (ask_env cpu env f args (m_proc m)) as [r p] eqn:E.
  apply Hk; unfold ask_env in E; injection E as <- <-; by destruct (rp_thread _).
Qed.
Lemma sim_call_reg q f os args code m (k : Z * list Z → M (proc W) unit) :
  m_regs m q = Num f →
  sim (CallImm f os :: code) None m (let! v := invoke cpu env f args in k v) →
  sim (CallReg q os :: code) None m (let! v := invoke cpu env f args in k v).
Proof. intros Hq Hs. unfold sim in *. unfold run in *; fold (run cpu env data) in *. cbn [exec jumps] in *. by rewrite Hq. Qed.
Lemma sim_assoc {A B} code t m (a : M (proc W) A) (f : A → M (proc W) B) (g : B → M (proc W) unit) :
  sim code t m (bind a (λ v, bind (f v) g)) → sim code t m (bind (bind a f) g).
Proof. unfold sim, bind. by destruct (a (m_proc m)) as [[v p]| | |]. Qed.
Lemma sim_ret_bind {A} code t m (a : A) (f : A → M (proc W) unit) : sim code t m (f a) → sim code t m (bind (ret a) f).
Proof. done. Qed.
Lemma sim_stop i code m c :
  (i = Return ∧ why = Returned ∨ i = Breakpoint ∧ why = Trapped) → c = ret tt → good m → sim (i :: code) None m c.
Proof. intros Hi -> Hg. unfold sim. by destruct Hi as [[-> ->]|[-> ->]]. Qed.
End simulation.

#[local] Arguments sim : simpl never.
#[local] Arguments content_after : simpl never.

Lemma u32_0 : u32 0 = 0.
Proof. done. Qed.
Lemma u32_2 : u32 2 = 2.
Proof. done. Qed.
Lemma u32_after c z : u32 (content_after c (u32 z)) = content_after c (u32 z).
Proof. destruct c; cbn; apply u32_u32. Qed.
Lemma u32_after_0 c : u32 (content_after c 0) = content_after c 0.
Proof. destruct c; cbn; [apply u32_u32|done]. Qed.
Ltac words := rewrite ?u32_u32, ?u32_after, ?u32_after_0, ?u32_0, ?u32_2, ?Z.eqb_refl.
(** A machine as its four parts. *)
Ltac parts := unfold set_preg, set_cell, with_equal, with_proc; cbn [m_regs m_stack m_equal m_proc].
Ltac same arg := cbn; words; rewrite ?arg; words; first [reflexivity | congruence].

(** One instruction; [sp] and [arg] say what is known of the first stack pointer and
    the argument. *)
Ltac sim_insn sp arg :=
  lazymatch goal with
  | |- sim _ _ _ _ _ _ (if ?b then _ else _) _ _ => destruct b eqn:?; cbn
  | |- sim _ _ _ _ _ (_ :: _) (Some _) _ _ => apply sim_skip; cbn
  | |- sim _ _ _ _ _ _ _ _ (bind (bind _ _) _) => apply sim_assoc
  | |- sim _ _ _ _ _ _ _ _ (bind (ret _) _) => apply sim_ret_bind; cbn beta
  | |- sim _ _ _ _ _ (CallReg _ _ :: _) None _ _ => eapply sim_call_reg; [cbn; reflexivity|]
  | |- sim _ _ _ _ _ (CallImm _ _ :: _) None _ _ =>
      apply sim_call; [cbn; rewrite ?sp; reflexivity|same arg|];
      let p := fresh "p" in let H1 := fresh "Hso" in let H2 := fresh "Hmh" in
      intros [? ? ? ? ?] p H1 H2; cbn in H1, H2; unfold after_call; cbn; parts
  | |- sim _ _ _ _ _ (StoreField _ _ _ :: _) None _ _ => apply sim_store; [same arg|reflexivity|cbn; parts]
  | |- sim _ _ _ _ _ (LoadField _ _ _ :: _) None _ (bind (get_field _) _) => apply sim_load; [same arg|cbn; parts]
  | |- sim _ _ _ _ _ (Return :: _) None _ _ => apply sim_stop; [by auto|done|]
  | |- sim _ _ _ _ _ (Breakpoint :: _) None _ _ => apply sim_stop; [by auto|done|]
  | |- sim _ _ _ _ _ (_ :: _) None _ _ =>
      eapply sim_exec; [exact I|cbn; rewrite ?sp, ?arg; words; cbn; parts; lazymatch goal with |- Some _ = _ => reflexivity end|cbn; reflexivity|cbn [m_proc]; reflexivity|cbn]
  end.
Section correct.
Context {W : Type} (env : Z → list argv → W → reply W) (params : FridaInjectParams) (remote_address : Z).

Lemma start_sim (cpu : Cpu) regs stack eq p :
  regs XSP = Stk 0 →
  sim cpu env (data_address params remote_address) Trapped (λ _, True) (start_code cpu params remote_address) None
    (mk_machine regs stack eq p) (start_protocol cpu env params remote_address).
Proof.
  intros Hsp. unfold start_protocol. destruct cpu; cbn [start_code]; unfold x86_start_code, arm64_start_code;
    repeat sim_insn Hsp Hsp; done.
Qed.

(** What the worker leaves: the registers that its caller relies on, and what was on
    the stack. *)
Definition saved_regs (cpu : Cpu) : list preg :=
  match cpu with
  | IA32 => [XSP; XBX; XSI; XDI; XBP]
  | X86_64 => [XSP; XBX; XBP] ++ (X <$> seq 12 4)
  | ARM64 => [XSP; FP; LR] ++ (X <$> seq 19 10)
  end.
Definition restored (cpu : Cpu) (m0 m : machine W) : Prop :=
  Forall (λ r, m_regs m r = m_regs m0 r) (saved_regs cpu) ∧ ∀ a, 0 ≤ a → m_stack m a = m_stack m0 a.

Lemma above_cell {A} a k (s t u : A) : 0 ≤ a → k < 0 → t = u → (if a =? k then s else t) = u.
Proof. intros Ha Hk <-. destruct (Z.eqb_spec a k); [lia|done]. Qed.
Ltac is_restored sp :=
  split; [repeat constructor; cbn; rewrite ?sp; reflexivity|];
  let a := fresh "a" in let Ha := fresh "Ha" in intros a Ha; cbn;
  repeat (apply above_cell; [exact Ha|reflexivity|]); reflexivity.

Lemma x86_64_worker_sim regs stack eq p :
  regs XSP = Stk 0 →
  sim X86_64 env (data_address params remote_address) Returned (restored X86_64 (mk_machine regs stack eq p))
    (worker_code X86_64 params remote_address) None
    (mk_machine regs stack eq p) (worker_protocol X86_64 env params remote_address).
Proof.
  intros Hsp. unfold worker_protocol, worker_report, load_module, detach_thread, pthread_function. cbn [worker_code].
  unfold x86_worker_code. cbn zeta. repeat sim_insn Hsp Hsp. all: is_restored Hsp.
Qed.
Lemma ia32_worker_sim regs stack eq p :
  regs XSP = Stk 0 →
  sim IA32 env (data_address params remote_address) Returned (restored IA32 (mk_machine regs stack eq p))
    (worker_code IA32 params remote_address) None
    (mk_machine regs stack eq p) (worker_protocol IA32 env params remote_address).
Proof.
  intros Hsp. unfold worker_protocol, worker_report, load_module, detach_thread, pthread_function. cbn [worker_code].
  unfold x86_worker_code. cbn zeta. repeat sim_insn Hsp Hsp. all: is_restored Hsp.
Qed.
Lemma arm64_worker_sim regs stack eq p :
  regs XSP = Stk 0 → regs (X 0) = Num (data_address params remote_address) →
  sim ARM64 env (data_address params remote_address) Returned (restored ARM64 (mk_machine regs stack eq p))
    (worker_code ARM64 params remote_address) None
    (mk_machine regs stack eq p) (worker_protocol ARM64 env params remote_address).
Proof.
  intros Hsp Hx. unfold worker_protocol, worker_report, load_module, detach_thread, pthread_function. cbn [worker_code].
  unfold arm64_worker_code. cbn zeta. repeat sim_insn Hsp Hx. all: is_restored Hsp.
Qed.
End correct.
