(* ===== verification/FieldStrings.v ===== *)
(** Structures with fields for C strings: the data that the injectors transfer to a
    process has its strings copied in with strcpy, one after the other. *)
From S2P Require Import Prelude Records BinjectorInstances.

(** A string that a field of [n] bytes has room for. *)
Definition fits (n : Z) (s : string) : Prop := zlen (bytes_of s) < n ∧ 0 ∉ bytes_of s.

(** A NUL-terminated string at an offset, inside a field of [n] bytes. *)
Record has_field (n o : Z) (s : list Z) (b : list Z) : Prop := {
  hf_room : zlen s + 1 ≤ n;
  hf_start : 0 ≤ o;
  hf_bytes : zslice o (o + (zlen s + 1)) b = s ++ [0]
}.
Lemma zlen_terminated (s : list Z) : zlen (s ++ [0]) = zlen s + 1.
Proof. by rewrite zlen_app, zlen_cons, zlen_nil. Qed.
Lemma has_field_new n o s b : fits n s → 0 ≤ o → o + n ≤ zlen b → has_field n o (bytes_of s) (strcpy o s b).
Proof.
  intros [Hs _] Ho Hb. split; [lia|done|]. unfold strcpy. rewrite <- zlen_terminated. apply zslice_zwrite; [done|].
  rewrite zlen_terminated. lia.
Qed.
Lemma has_field_zwrite n o s b o' bs : has_field n o s b → 0 ≤ o' → o' + zlen bs ≤ zlen b → o + n ≤ o' ∨ o' + zlen bs ≤ o →
  has_field n o s (zwrite o' bs b).
Proof.
  intros [Hr Ho Hb] Ho' Hlen Hd. split; [done|done|]. rewrite <- Hb.
  destruct (same_outside_zwrite o' bs b) as [_ Hsame]; [lia..|]. apply Hsame; lia.
Qed.
Lemma zlen_strcpy o n s b : fits n s → 0 ≤ o → o + n ≤ zlen b → zlen (strcpy o s b) = zlen b.
Proof. intros [Hs _] Ho Hb. apply zlen_zwrite; [done|]. rewrite zlen_terminated. lia. Qed.
Lemma has_field_strcpy n o s b n' o' s' : has_field n o s b → fits n' s' → 0 ≤ o' → o' + n' ≤ zlen b →
  o + n ≤ o' ∨ o' + n' ≤ o → has_field n o s (strcpy o' s' b).
Proof.
  intros Hf [Hs' _] Ho' Hb Hd. apply has_field_zwrite; [done|done|..]; rewrite zlen_terminated; lia.
Qed.
Lemma has_field_read n o s b k : has_field n o s b → 0 ∉ s → o + n ≤ k → c_string (zdrop o (ztake k b)) = Some s.
Proof.
  intros [Hr Ho Hb] Hs Hk. rewrite <- (zslice_ztake o _ k) in Hb by lia.
  rewrite <- (ztake_zdrop (zlen s + 1) (zdrop o (ztake k b))).
  unfold zslice in Hb. replace (o + (zlen s + 1) - o) with (zlen s + 1) in Hb by lia. rewrite Hb, <- app_assoc. by apply c_string_app.
Qed.

(** Strings copied into fields, one after the other. *)
Definition copy_fields (fs : list (Z * Z * string)) (b : list Z) : list Z :=
  foldl (λ b f, let '(n, o, s) := f in strcpy o s b) b fs.
(** Fields that follow each other from [start] on, inside a block of [size] bytes, with
    strings that they have room for. *)
Fixpoint laid_out (start size : Z) (fs : list (Z * Z * string)) : Prop :=
  match fs with
  | [] => start ≤ size
  | (n, o, s) :: fs => start ≤ o ∧ fits n s ∧ laid_out (o + n) size fs
  end.
Lemma laid_out_start start size fs : laid_out start size fs → start ≤ size.
Proof.
  revert start. induction fs as [|[[n o] s] fs IH]; intros start; cbn; [done|]. intros (? & [Hn _] & Hl).
  apply IH in Hl. pose proof (zlen_nonneg (bytes_of s)). lia.
Qed.
Lemma laid_out_field start size fs n o s : laid_out start size fs → (n, o, s) ∈ fs → o + n ≤ size.
Proof.
  revert start. induction fs as [|[[n' o'] s'] fs IH]; intros start; [by intros _ ?%not_elem_of_nil|]. cbn. intros (_ & _ & Hl).
  rewrite elem_of_cons. intros [[= -> -> ->]|Hin]; [by eapply laid_out_start|by eapply IH].
Qed.
Lemma copy_fields_keep start fs b n o s :
  0 ≤ start → laid_out start (zlen b) fs → has_field n o s b → o + n ≤ start → has_field n o s (copy_fields fs b).
Proof.
  revert start b. induction fs as [|[[n' o'] s'] fs IH]; intros start b H0 Hl Hf Ho; [done|]. destruct Hl as (Hs & Hfit & Hl).
  pose proof (laid_out_start _ _ _ Hl). apply (IH (o' + n')); cbn.
  - destruct Hfit as [Hn _]. pose proof (zlen_nonneg (bytes_of s')). lia.
  - by rewrite (zlen_strcpy o' n') by (done || lia).
  - apply (has_field_strcpy _ _ _ _ n'); (done || lia).
  - destruct Hfit as [Hn _]. pose proof (zlen_nonneg (bytes_of s')). lia.
Qed.
Lemma copy_fields_spec start fs b : 0 ≤ start → laid_out start (zlen b) fs →
  zlen (copy_fields fs b) = zlen b ∧
  Forall (λ f, let '(n, o, s) := f in has_field n o (bytes_of s) (copy_fields fs b) ∧ 0 ∉ bytes_of s) fs.
Proof.
  revert start b. induction fs as [|[[n o] s] fs IH]; intros start b H0 Hl; [done|]. destruct Hl as (Hs & Hfit & Hl).
  pose proof (laid_out_start _ _ _ Hl). assert (Hlen : zlen (strcpy o s b) = zlen b) by (apply (zlen_strcpy o n); done || lia).
  assert (H0' : 0 ≤ o + n) by (destruct Hfit as [Hn _]; pose proof (zlen_nonneg (bytes_of s)); lia).
  rewrite <- Hlen in Hl. destruct (IH (o + n) (strcpy o s b) H0' Hl) as [E Hfs]. change (copy_fields (_ :: fs) b) with (copy_fields fs (strcpy o s b)).
  split; [by rewrite E|].
  constructor; [|exact Hfs]. split; [|by destruct Hfit].
  apply (copy_fields_keep (o + n)); [done|done| |lia]. apply has_field_new; (done || lia).
Qed.
