(* ===== verification/PayloadClaims.v ===== *)
(** What the FreeBSD injector's payload promises: its code follows one protocol on
    every processor, and its data holds the strings that the code reads. *)
From S2P Require Import Prelude Posix Records Binjector BinjectorInstances PayloadCode PayloadMachine PayloadCorrect FieldStrings.

(** * The injector's side of the FIFO: RemoteThreadSession of src/src/freebsd/binjector.vala
    reads what the payload's thread reports. *)
(** How a session ends: with a policy and the thread that it waited for, or because
    the first byte was not the expected one. *)
Inductive session_end := Ended (unload_policy : Z) (tid : option Z) | UnexpectedMessage.

(** The bytes that arrive before the FIFO is closed at the other end. *)
Definition monitor_session (input : list Z) : session_end :=
  match input with
  | [] => Ended (policy_number IMMEDIATE) None
  | unload_policy :: rest => Ended unload_policy (Some (le_value (zwrite 0 (ztake 4 rest) (zeros 4))))
  end.
Definition establish_session (input : list Z) : session_end :=
  match input with
  | [] => Ended (policy_number IMMEDIATE) None
  | byte :: rest => if negb (byte =? HELLO) then UnexpectedMessage else monitor_session rest
  end.

(** ** What the worker writes *)
Section written.
Context (write fd data : Z) (block : list Z).
(** The bytes that a call writes to the descriptor; [block] is the payload's data. *)
Definition call_bytes (e : call_event) : list Z :=
  match ce_args e with
  | [AVal d; buffer; AVal n] =>
      if (ce_func e =? write) && (d =? fd) then
        ztake n (match buffer with ARef v => le_bytes 4 v | AVal a => zdrop (a - data) block end)
      else []
  | _ => []
  end.
Definition fifo_bytes (log : list call_event) : list Z := concat (call_bytes <$> log).
Lemma fifo_bytes_app l1 l2 : fifo_bytes (l1 ++ l2) = fifo_bytes l1 ++ fifo_bytes l2.
Proof. unfold fifo_bytes. by rewrite fmap_app, concat_app. Qed.
End written.

Section report.
Context {W : Type} (cpu : Cpu) (env : Z → list argv → W → reply W) (params : FridaInjectParams) (remote_address : Z) (block : list Z).
Let data := data_address params remote_address.
Let write := write_impl (pa_api params).

(** Code that writes [bs v] to the FIFO when it returns [v]. *)
Definition writes {A} (fd : Z) (m : M (proc W) A) (p : proc W) (Q : A → list Z → Prop) : Prop :=
  wp m p (λ v p', ∃ l, pr_log p' = pr_log p ++ l ∧ Q v (fifo_bytes write fd data block l)).
Lemma writes_bind {A B} fd (m : M (proc W) A) (k : A → M (proc W) B) p Q :
  writes fd m p (λ v bs, ∀ p', writes fd (k v) p' (λ w bs', Q w (bs ++ bs'))) → writes fd (bind m k) p Q.
Proof.
  intros Hm. unfold writes. wp_step. eapply wp_mono; [exact Hm|]. cbn beta. intros v p' (l & El & Hk).
  eapply wp_mono; [apply Hk|]. cbn beta. intros w p'' (l' & El' & HQ). exists (l ++ l').
  rewrite El', El, fifo_bytes_app, app_assoc. done.
Qed.
Lemma writes_ret {A} fd (a : A) p (Q : A → list Z → Prop) : Q a [] → writes fd (ret a) p Q.
Proof. intros HQ. apply wp_ret. exists []. by rewrite app_nil_r. Qed.
Lemma writes_invoke fd f args p (Q : Z * list Z → list Z → Prop) :
  (∀ v, Q v (call_bytes write fd data block (mk_call f args))) → writes fd (invoke cpu env f args) p Q.
Proof.
  intros HQ. unfold writes, invoke, wp. destruct (ask_env cpu env f args p) as [r p'] eqn:E.
  eexists _, _. split; [done|]. exists [mk_call f args]. unfold ask_env in E. injection E as <- <-. split.
  - by destruct (rp_thread _).
  - unfold fifo_bytes. cbn. rewrite app_nil_r. apply HQ.
Qed.
Lemma writes_get_field fd f p (Q : Z → list Z → Prop) : (∀ v, Q v []) → writes fd (get_field f) p Q.
Proof. intros HQ. apply wp_gets. exists []. by rewrite app_nil_r. Qed.
Lemma writes_put_field fd f v p (Q : unit → list Z → Prop) : Q tt [] → writes fd (put_field f v) p Q.
Proof. intros HQ. apply wp_modify. exists []. by rewrite app_nil_r. Qed.
Lemma writes_mono {A} fd (m : M (proc W) A) p (Q Q' : A → list Z → Prop) :
  writes fd m p Q → (∀ v bs, Q v bs → Q' v bs) → writes fd m p Q'.
Proof. intros Hm HQ. eapply wp_mono; [exact Hm|]. cbn beta. intros v p' (l & El & Hl). eauto. Qed.

Ltac writes_step :=
  lazymatch goal with
  | |- writes _ (bind _ _) _ _ => apply writes_bind
  | |- writes _ (ret _) _ _ => apply writes_ret
  | |- writes _ (invoke _ _ _ _) _ _ => apply writes_invoke; intros ?; cbn [call_bytes ce_args ce_func]; try intros ?
  | |- writes _ (get_field _) _ _ => apply writes_get_field; intros ?; try intros ?
  | |- writes _ (put_field _ _) _ _ => apply writes_put_field; try intros ?
  | |- writes _ (if ?b then _ else _) _ _ => destruct b
  end; cbn beta iota zeta.
Lemma quiet_load fd p : writes fd (load_module cpu env params remote_address) p (λ _ bs, bs = []).
Proof. unfold load_module. repeat writes_step; done. Qed.
Lemma quiet_pthread fd name p : writes fd (pthread_function cpu env params remote_address name) p (λ _ bs, bs = []).
Proof. unfold pthread_function. repeat writes_step; done. Qed.
Lemma quiet_detach fd p : writes fd (detach_thread cpu env params remote_address) p (λ _ bs, bs = []).
Proof.
  unfold detach_thread. writes_step. eapply writes_mono; [apply quiet_pthread|]. cbn beta. intros v bs -> p'.
  repeat writes_step; done.
Qed.

Lemma writes_quiet {A B} fd (m : M (proc W) A) (k : A → M (proc W) B) p Q :
  writes fd m p (λ _ bs, bs = []) → (∀ v p', writes fd (k v) p' Q) → writes fd (bind m k) p Q.
Proof. intros Hm Hk. apply writes_bind. eapply writes_mono; [exact Hm|]. cbn beta. intros v bs -> p'. apply Hk. Qed.

(** The report: a byte of the block, and if the entrypoint kept the descriptor in
    place, the policy's byte and the thread id. *)
Definition reported (fd policy fd' tid : Z) : list Z :=
  ztake 1 (zdrop field_hello_byte block) ++
  (if fd' =? fd then ztake 1 (le_bytes 4 policy) ++ le_bytes 4 tid else []).
Lemma worker_reports p :
  ∃ fd policy fd' tid p' l, worker_report cpu env params remote_address p = Ret ((fd, policy, fd', tid), p') ∧
    pr_log p' = pr_log p ++ l ∧ fifo_bytes write fd data block l = reported fd policy fd' tid ∧ tid = u32 tid.
Proof.
  unfold worker_report, bind at 1. unfold invoke at 1. destruct (ask_env _ _ _ _ p) as [r p1] eqn:E. cbn zeta.
  set (fd := u32 _). assert (El : pr_log p1 = pr_log p ++ [mk_call (open_impl (pa_api params))
    [AVal (data_field params remote_address field_fifo_path); AVal (Z.lor O_WRONLY O_CLOEXEC)]]).
  { unfold ask_env in E. injection E as <- <-. by destruct (rp_thread _). }
  lazymatch goal with |- context [bind ?m ?k p1] =>
    assert (X : writes fd (bind m k) p1 (λ v bs, ∃ policy fd' tid, v = (fd, policy, fd', tid) ∧ bs = reported fd policy fd' tid ∧ tid = u32 tid)) end.
  { writes_step. writes_step. apply writes_quiet; [apply quiet_load|]. intros handle p2.
    apply writes_quiet; [by repeat writes_step|]. intros entrypoint p3.
    apply writes_quiet; [by repeat writes_step|]. intros out p4. cbn zeta. set (policy := content_after _ _).
    set (fd' := content_after _ fd).
    apply writes_quiet; [by repeat writes_step|]. intros _ p5.
    apply writes_quiet; [destruct (policy =? _); [by writes_step|apply quiet_detach]|]. intros _ p6.
    apply writes_quiet; [apply quiet_pthread|]. intros getthreadid p7.
    apply writes_quiet; [by repeat writes_step|]. intros tid p8.
    apply writes_quiet; [by repeat writes_step|]. intros so p9.
    apply writes_quiet; [by repeat writes_step|]. intros _ p10.
    do 7 writes_step. exists policy, fd', (u32 tid.1). split; [done|]. split; [|unfold u32; by rewrite Z.mod_mod].
    unfold reported, write, data, data_field. rewrite !Z.eqb_refl. cbn [andb].
    replace (data_address params remote_address + field_hello_byte - data_address params remote_address) with field_hello_byte by lia.
    f_equal. destruct (fd' =? fd); cbn [app]; [|done]. rewrite (ztake_ge 4) by by rewrite zlen_le_bytes. by rewrite app_nil_r. }
  destruct X as (v & p' & Ev & l & El' & policy & fd' & tid & -> & Hbs & Htid).
  exists fd, policy, fd', tid, p'. eexists. split; [exact Ev|]. split; [by rewrite El', El, <- app_assoc|].
  split; [|done]. rewrite fifo_bytes_app. exact Hbs.
Qed.
End report.

(** ** The data *)
(** The strings of the data. *)
Definition trampoline_strings (path entrypoint data fifo libthr : string) : list (Z * Z * string) :=
  [(32, field_pthread_so_string, libthr); (16, field_pthread_create_string, "pthread_create"%string);
   (16, field_pthread_detach_string, "pthread_detach"%string);
   (32, field_pthread_getthreadid_np_string, "pthread_getthreadid_np"%string);
   (256, field_fifo_path, fifo); (256, field_so_path, path); (256, field_entrypoint_name, entrypoint);
   (256, field_entrypoint_data, data)].
(** A payload whose strings all have room. *)
Definition strings_fit (path entrypoint data fifo libthr : string) : Prop :=
  fits 32 libthr ∧ fits 256 fifo ∧ fits 256 path ∧ fits 256 entrypoint ∧ fits 256 data.
Lemma trampoline_contents cpu pid api path entrypoint data fifo page_size address libthr :
  0 < page_size → strings_fit path entrypoint data fifo libthr →
  let b := trampoline_data cpu (inject_params pid api path entrypoint data fifo page_size address) libthr in
  zlen b = sizeof_trampoline cpu ∧ zslice field_hello_byte (field_hello_byte + 1) b = [HELLO] ∧
  ∀ n o s, (n, o, s) ∈ trampoline_strings path entrypoint data fifo libthr → c_string (zdrop o b) = Some (bytes_of s).
Proof.
  intros Hp (H1 & H2 & H3 & H4 & H5) b. set (fs := trampoline_strings path entrypoint data fifo libthr).
  set (z := zeros (3 * page_size + STACK_SIZE - page_size)).
  assert (Hz : 1152 ≤ zlen z) by (subst z; unfold STACK_SIZE; rewrite zlen_zeros by lia; lia).
  assert (Hl : laid_out 0 1120 fs ∧ laid_out 0 (zlen z) fs).
  { assert (Hlit : fits 16 "pthread_create" ∧ fits 16 "pthread_detach" ∧ fits 32 "pthread_getthreadid_np")
      by (split_and!; apply (bool_decide_unpack _); by vm_compute).
    destruct Hlit as (? & ? & ?). cbn [fs trampoline_strings laid_out]. unfold field_pthread_so_string, field_pthread_create_string,
      field_pthread_detach_string, field_pthread_getthreadid_np_string, field_fifo_path, field_so_path,
      field_entrypoint_name, field_entrypoint_data. split_and!; (done || lia). }
  destruct Hl as [Hin Hl]. destruct (copy_fields_spec 0 fs z ltac:(lia) Hl) as [Hlen Hfs]. set (c := copy_fields fs z) in *.
  assert (Eb : b = ztake (sizeof_trampoline cpu) (zwrite field_hello_byte [HELLO] c)) by done. clearbody b.
  assert (Hsz : 1121 ≤ sizeof_trampoline cpu ≤ 1152) by (destruct cpu; cbn; lia).
  assert (Hroom : field_hello_byte + zlen [HELLO] ≤ zlen c) by (rewrite zlen_cons, zlen_nil, Hlen; unfold field_hello_byte; lia).
  rewrite Eb. split_and!.
  - rewrite zlen_ztake, zlen_zwrite by (done || lia). lia.
  - rewrite zslice_ztake by (unfold field_hello_byte; lia). change 1 with (zlen [HELLO]). by apply zslice_zwrite.
  - intros n o s Hf. rewrite Forall_forall in Hfs. destruct (Hfs _ Hf) as [Hfield Hs].
    pose proof (laid_out_field _ _ _ _ _ _ Hin Hf). apply (has_field_read n); [|done|lia].
    apply has_field_zwrite; [done|done|done|by left].
Qed.

(** C33: The data of the payload holds what its code reads.  When every string has room
    for its NUL, the block that is transferred has the size of FridaTrampolineData, and
    reading the C string of a field gives the name of the thread library, the names of
    its functions, the FIFO's path, the module's path, the entrypoint's name and data;
    the byte to say hello with is in place. *)
Theorem trampoline_fields_read_back cpu pid api path entrypoint data fifo page_size address libthr :
  0 < page_size → strings_fit path entrypoint data fifo libthr →
  let b := trampoline_data cpu (inject_params pid api path entrypoint data fifo page_size address) libthr in
  let reads o s := c_string (zdrop o b) = Some (bytes_of s) in
  zlen b = sizeof_trampoline cpu ∧
  reads field_pthread_so_string libthr ∧ reads field_pthread_create_string "pthread_create"%string ∧
  reads field_pthread_detach_string "pthread_detach"%string ∧
  reads field_pthread_getthreadid_np_string "pthread_getthreadid_np"%string ∧
  reads field_fifo_path fifo ∧ reads field_so_path path ∧
  reads field_entrypoint_name entrypoint ∧ reads field_entrypoint_data data ∧ znth b field_hello_byte = HELLO.
Proof.
  intros Hp Hfit b reads. destruct (trampoline_contents cpu pid api path entrypoint data fifo page_size address libthr Hp Hfit)
    as (Hlen & Hh & Hread). fold b in Hlen, Hh, Hread.
  assert (Hin : ∀ i n o s, trampoline_strings path entrypoint data fifo libthr !! i = Some (n, o, s) → reads o s).
  { intros i n o s Hi. eapply Hread. by eapply list_elem_of_lookup_2. }
  split_and!; [done|by apply (Hin 0%nat 32)|by apply (Hin 1%nat 16)|by apply (Hin 2%nat 16)|by apply (Hin 3%nat 32)|by apply (Hin 4%nat 256)
    |by apply (Hin 5%nat 256)|by apply (Hin 6%nat 256)|by apply (Hin 7%nat 256)|].
  rewrite zslice_cons in Hh; [by simplify_eq|unfold field_hello_byte; lia|].
  rewrite Hlen. unfold field_hello_byte. destruct cpu; cbn; lia.
Qed.

Definition strings_fit_b (path entrypoint data fifo libthr : string) : bool :=
  forallb (λ f : Z * string, bool_decide (zlen (bytes_of f.2) < f.1 ∧ 0 ∉ bytes_of f.2))
    [(32, libthr); (256, fifo); (256, path); (256, entrypoint); (256, data)].
Lemma strings_fit_by path entrypoint data fifo libthr :
  strings_fit_b path entrypoint data fifo libthr = true → strings_fit path entrypoint data fifo libthr.
Proof.
  unfold strings_fit_b. cbn [forallb]. rewrite !andb_true_iff, !bool_decide_eq_true. unfold strings_fit, fits. cbn. tauto.
Qed.
Lemma trampoline_fields_read_back_witness :
  let b := trampoline_data X86_64 (inject_params 7 (mk_api 1 2 3 4 5 6 7 8 9) "/a.so" "main" "x" "/tmp/f" 4096 0x10000) "libthr.so" in
  c_string (zdrop field_so_path b) = Some (bytes_of "/a.so") ∧ znth b field_hello_byte = HELLO.
Proof.
  pose proof (trampoline_fields_read_back X86_64 7 (mk_api 1 2 3 4 5 6 7 8 9) "/a.so" "main" "x" "/tmp/f" 4096 0x10000 "libthr.so"
    ltac:(lia) (strings_fit_by "/a.so" "main" "x" "/tmp/f" "libthr.so" eq_refl)) as X.
  cbn zeta in X. destruct X as (_ & _ & _ & _ & _ & _ & X1 & _ & _ & X2). exact (conj X1 X2).
Defined.

(** A path without room for its NUL runs on into the next field. *)
Fixpoint repeated (n : nat) (s : string) : string := match n with O => EmptyString | S n => s +:+ repeated n s end.
Lemma long_fifo_path_runs_on :
  c_string (zdrop field_fifo_path (trampoline_data X86_64
    (inject_params 7 (mk_api 1 2 3 4 5 6 7 8 9) "/a.so" "main" "" (repeated 256 "f") 4096 0x10000) "libthr.so")) =
  Some (bytes_of (repeated 256 "f" +:+ "/a.so")).
Proof. by vm_compute. Qed.

(** ** The code *)
(** C12: The code that is emitted for a processor does what the protocol says, whatever
    the functions it calls answer and whatever they leave in the registers that they
    may use.  The start creates the thread and stops at its breakpoint.  The worker,
    with the argument that the start gave it, says hello, loads the module unless it is
    loaded, calls the entrypoint, unloads the module and detaches the thread as the
    policy wants, and reports the policy and the thread's id; it returns with the
    registers that belong to its caller, and without touching its caller's stack.  So
    all three processors make the same calls. *)
Theorem payload_follows_protocol {W} (env : Z → list argv → W → reply W) (cpu : Cpu) params remote_address (m : machine W) :
  m_regs m XSP = Stk 0 →
  let data := data_address params remote_address in
  (∃ m', run cpu env data (start_code cpu params remote_address) None m = Some (Trapped, m') ∧
     start_protocol cpu env params remote_address (m_proc m) = Ret (tt, m_proc m')) ∧
  ((cpu = ARM64 → m_regs m (X 0) = Num (worker_argument cpu params remote_address)) →
   ∃ m', run cpu env data (worker_code cpu params remote_address) None m = Some (Returned, m') ∧
     worker_protocol cpu env params remote_address (m_proc m) = Ret (tt, m_proc m') ∧ restored cpu m m').
Proof.
  intros Hsp data. destruct m as [regs stack eq p]. cbn [m_regs m_proc] in *. split.
  - pose proof (start_sim env params remote_address cpu regs stack eq p Hsp) as Hs. unfold sim in Hs. cbn [m_proc] in Hs.
    destruct (start_protocol _ _ _ _ _) as [[[] p']| | |]; try done. fold data in Hs.
    destruct (run _ _ _ _ _ _) as [[y m']|]; [|done]. destruct Hs as (-> & <- & _). by exists m'.
  - intros Hx. assert (Hs : sim cpu env data Returned (restored cpu (mk_machine regs stack eq p))
      (worker_code cpu params remote_address) None (mk_machine regs stack eq p) (worker_protocol cpu env params remote_address)).
    { destruct cpu; [by apply ia32_worker_sim|by apply x86_64_worker_sim|by apply arm64_worker_sim; [|apply Hx]]. }
    unfold sim in Hs. cbn [m_proc] in Hs. destruct (worker_protocol _ _ _ _ _) as [[[] p']| | |]; try done.
    destruct (run _ _ _ _ _ _) as [[y m']|]; [|done]. destruct Hs as (-> & <- & Hr). by exists m'.
Qed.

(** Functions that answer 5, an entrypoint that asks to stay, and registers full of 77. *)
Definition some_process (f : Z) (args : list argv) (n : Z) : reply Z :=
  mk_reply 5 (match args with [_; ARef _; ARef _] => [1] | _ => [] end) (λ _, 77) None (n + 1).
Definition some_machine : machine Z :=
  mk_machine (λ r, match r with XSP => Stk 0 | _ => Num 0x11000 end) (λ _, None) false (mk_proc 0 (λ _, 0) []).
Lemma payload_follows_protocol_witness :
  let params := inject_params 7 (mk_api 1 2 3 4 5 6 7 8 9) "/a.so" "main" "x" "/tmp/f" 4096 0x10000 in
  ∃ m', run ARM64 some_process 0x11000 (worker_code ARM64 params 0x10000) None some_machine = Some (Returned, m') ∧
    worker_protocol ARM64 some_process params 0x10000 (m_proc some_machine) = Ret (tt, m_proc m') ∧
    restored ARM64 some_machine m'.
Proof.
  intros params. destruct (payload_follows_protocol some_process ARM64 params 0x10000 some_machine eq_refl) as [_ X].
  exact (X (λ _, eq_refl)).
Defined.

Lemma first_le_byte z : ztake 1 (le_bytes 4 z) = [u8 z].
Proof. change (ztake 1 (le_bytes 4 z)) with [Z.land z (Z.ones 8)]. by rewrite Z.land_ones. Qed.
Lemma zwrite_all (bs l : list Z) : zlen bs = zlen l → zwrite 0 bs l = bs.
Proof. intros E. unfold zwrite. rewrite ztake_le by done. rewrite zdrop_ge by lia. by rewrite app_nil_r. Qed.

(** The injector understands what the payload's thread reports through the FIFO.
    If the entrypoint leaves the thread its descriptor, the session ends with the
    unload policy that the entrypoint left and waits for the thread that ran it; if
    the entrypoint took the descriptor away, the session sees the greeting only and
    ends with the immediate policy.  A greeting is always seen. *)
Theorem payload_report_understood {W} (env : Z → list argv → W → reply W) cpu pid api path entrypoint data fifo page_size
    address libthr (p : proc W) :
  0 < page_size → strings_fit path entrypoint data fifo libthr →
  let params := inject_params pid api path entrypoint data fifo page_size address in
  ∃ fd policy fd' tid p' l, worker_report cpu env params address p = Ret ((fd, policy, fd', tid), p') ∧
    pr_log p' = pr_log p ++ l ∧
    establish_session (fifo_bytes (write_impl api) fd (data_address params address) (trampoline_data cpu params libthr) l) =
      if fd' =? fd then Ended (u8 policy) (Some tid) else Ended (policy_number IMMEDIATE) None.
Proof.
  intros Hp Hfit params. destruct (trampoline_contents cpu pid api path entrypoint data fifo page_size address libthr Hp Hfit)
    as (_ & Hh & _). fold params in Hh. set (b := trampoline_data cpu params libthr) in *.
  destruct (worker_reports cpu env params address b p) as (fd & policy & fd' & tid & p' & l & Er & El & Eb & Ht).
  exists fd, policy, fd', tid, p', l. split; [done|]. split; [done|]. change (write_impl api) with (write_impl (pa_api params)).
  rewrite Eb. unfold reported. unfold zslice in Hh. replace (field_hello_byte + 1 - field_hello_byte) with 1 in Hh by lia. rewrite Hh.
  cbn [app establish_session]. rewrite Z.eqb_refl. cbn [negb]. destruct (fd' =? fd); [|done].
  rewrite first_le_byte. cbn [app monitor_session]. f_equal. f_equal. rewrite ztake_ge by by rewrite zlen_le_bytes.
  rewrite zwrite_all by by rewrite zlen_le_bytes. rewrite le_value_le_bytes by lia. by symmetry.
Qed.

Lemma payload_report_understood_witness :
  ∃ fd policy fd' tid p' l, worker_report X86_64 some_process
    (inject_params 7 (mk_api 1 2 3 4 5 6 7 8 9) "/a.so" "main" "x" "/tmp/f" 4096 0x10000) 0x10000 (m_proc some_machine) =
      Ret ((fd, policy, fd', tid), p') ∧ pr_log p' = l ∧
    establish_session (fifo_bytes 6 fd 0x11000 (trampoline_data X86_64
      (inject_params 7 (mk_api 1 2 3 4 5 6 7 8 9) "/a.so" "main" "x" "/tmp/f" 4096 0x10000) "libthr.so") l) =
      if fd' =? fd then Ended (u8 policy) (Some tid) else Ended (policy_number IMMEDIATE) None.
Proof.
  exact (payload_report_understood some_process X86_64 7 (mk_api 1 2 3 4 5 6 7 8 9) "/a.so" "main" "x" "/tmp/f" 4096 0x10000
    "libthr.so" (m_proc some_machine) eq_refl (strings_fit_by "/a.so" "main" "x" "/tmp/f" "libthr.so" eq_refl)).
Defined.
