(* ===== verification/Qinjector.v ===== *)
(** The QNX injector, src/src/qnx/qinjector-glue.c: a thread of the process is stopped
    through /proc/<pid>/as and made to call functions of its libc, which allocate
    memory for a payload and start it as a thread.

    [QnxKernel] is what the injector asks of the system; constants of the system's
    headers are the parameter [QnxHeaders].  Requests that succeed are added to a log.
    The code writers of the instrumentation library are not part of the repository:
    the emitted code is the list of instructions that the source asks them for, and
    [assemble] stands for their encoding. *)
From stdpp Require Import pretty.
From S2P Require Import Prelude Posix Binjector BinjectorInstances PayloadCode.

Definition FRIDA_REMOTE_PAYLOAD_SIZE : Z := 8192.
Definition FRIDA_REMOTE_DATA_OFFSET : Z := 512.
Definition SIGHUP : Z := 1.
Definition PSR_T_BIT : Z := 32.
Definition ARM_REG_SP : Z := 13.
Definition ARM_REG_LR : Z := 14.
Definition ARM_REG_PC : Z := 15.
(** Where a called function returns to: nothing is mapped there. *)
Definition DUMMY_RETURN : Z := 0xfffffff0.
Definition PULSE_DISCONNECT : Z := -33.
Definition PULSE_HELLO : Z := 0.
Definition PULSE_BYE : Z := 1.

Class QnxHeaders := {
  MAP_PRIVATE_ANONYMOUS : Z; PROT_READ_WRITE_EXEC : Z; MS_INVALIDATE_ICACHE : Z;
  ND_LOCAL_NODE : Z; NTO_SIDE_CHANNEL : Z; NTO_COF_CLOEXEC : Z; QNX_RTLD_LAZY : Z
}.

(** procfs_greg: the general registers and the status register. *)
Record procfs_greg := mk_greg { gpr : Z → Z; spsr : Z }.
Definition set_gpr (i v : Z) (r : procfs_greg) : procfs_greg :=
  mk_greg (λ j, if j =? i then v else gpr r j) (spsr r).

(** procfs_status: the state of a thread, and why it stopped. *)
Inductive thread_state := STATE_DEAD | STATE_STOPPED | STATE_OTHER (n : Z).
Inductive stop_reason := WHY_TERMINATED | WHY_OTHER (n : Z).
Record procfs_status := mk_status { st_state : thread_state; st_why : stop_reason }.
(** How a thread goes on: until SIGHUP arrives, until a page fault, or for good. *)
Inductive procfs_run := RunUntilHangup | RunUntilPageFault | RunFreely.

Class QnxKernel (K : Type) := {
  qk_getpid : K → Z;
  (** The set has the descriptors that are in use. *)
  qk_open : string → bool → gset Z → K → sysret Z * K;
  qk_close : Z → K → K;
  qk_lseek : Z → Z → K → sysret Z * K;
  qk_write : Z → list Z → K → sysret Z * K;
  qk_kill : Z → Z → K → K;
  (** devctl; DCMD_PROC_TIDSTATUS answers with the id of the thread it describes. *)
  qk_tidstatus : Z → Z → K → sysret Z * K;
  qk_curthread : Z → Z → K → sysret unit * K;
  qk_stop : Z → K → sysret procfs_status * K;
  qk_run : Z → procfs_run → K → sysret unit * K;
  qk_waitstop : Z → K → sysret procfs_status * K;
  qk_getgreg : Z → K → sysret procfs_greg * K;
  qk_setgreg : Z → procfs_greg → K → sysret unit * K;
  (** The number of mappings; the addresses of as many as there is room for, with the
      number of all; the path of the object at an address. *)
  qk_pagedata_size : Z → K → sysret Z * K;
  qk_pagedata : Z → Z → K → sysret (list Z * Z) * K;
  qk_mapdebug : Z → Z → K → sysret (list Z) * K;
  (** ChannelCreate_r: negative on failure.  The set has the channels in use. *)
  qk_channel_create : gset Z → K → Z * K;
  qk_channel_destroy : Z → K → K;
  qk_receive_pulse : Z → K → sysret (Z * Z) * K;
  (** dlopen and dlsym of the injector itself: 0 is NULL. *)
  qk_dlopen : list Z → K → Z * K;
  qk_dlsym : Z → string → K → Z;
  qk_dlclose : Z → K → K
}.
(** New descriptors and channels are not in use; write does not count more bytes than
    it was given; as many mappings are stored as there is room for. *)
Class QnxLaws (K : Type) `{QnxKernel K} := {
  ql_open_fresh path w fds fd k k' : qk_open path w fds k = (SysOk fd, k') → fd ∉ fds;
  ql_channel_fresh chs k : (qk_channel_create chs k).1 ∉ chs;
  ql_write_count fd bs n k k' : qk_write fd bs k = (SysOk n, k') → 0 ≤ n ≤ zlen bs;
  ql_pagedata_room fd n l total k k' : qk_pagedata fd n k = (SysOk (l, total), k') → zlen l = Z.max 0 (Z.min n total)
}.

(** The log of requests. *)
Inductive qact :=
| Opened (path : string) (fd : Z) | Closed (fd : Z)
| ChannelCreated (ch : Z) | ChannelDestroyed (ch : Z)
| ThreadChosen (fd tid : Z) | Halted (fd : Z) (status : procfs_status) | Ran (fd : Z) (how : procfs_run)
| Awaited (fd : Z) (status : procfs_status) | Killed (pid sig : Z)
| GregRead (fd : Z) (regs : procfs_greg) | GregSet (fd : Z) (regs : procfs_greg)
| MemoryWritten (fd address : Z) (bs : list Z)
| MapsRead (fd : Z) (mapinfos : list Z) | MapRead (fd vaddr : Z) (path : list Z).

Definition qfds_after (fds : gset Z) (a : qact) : gset Z :=
  match a with Opened _ fd => {[fd]} ∪ fds | Closed fd => fds ∖ {[fd]} | _ => fds end.
Definition qfds_from (fds : gset Z) (log : list qact) : gset Z := foldl qfds_after fds log.
Definition channels_after (chs : gset Z) (a : qact) : gset Z :=
  match a with ChannelCreated ch => {[ch]} ∪ chs | ChannelDestroyed ch => chs ∖ {[ch]} | _ => chs end.
Definition channels_from (chs : gset Z) (log : list qact) : gset Z := foldl channels_after chs log.

Record FridaInjectionInstance := mk_instance {
  qi_id : Z; qi_pid : Z; qi_already_attached : bool; qi_channel_id : Z; qi_remote_payload : Z
}.
Record qinjector (K : Type) := mk_qin {
  q_kern : K; q_log : list qact;
  q_instances : gmap Z FridaInjectionInstance; q_next_id : Z
}.
Arguments mk_qin {K} _ _ _ _.
Arguments q_kern {K} _.
Arguments q_log {K} _.
Arguments q_instances {K} _.
Arguments q_next_id {K} _.
Definition q_fds {K} (s : qinjector K) : gset Z := qfds_from ∅ (q_log s).
Definition q_channels {K} (s : qinjector K) : gset Z := channels_from ∅ (q_log s).
Definition q_with {K} (k : K) (acts : list qact) (s : qinjector K) : qinjector K :=
  mk_qin k (q_log s ++ acts) (q_instances s) (q_next_id s).

(** The value of a function that can set an error: the error names the operation. *)
Definition qrv : Type := bool * option string.
Definition q_ok : qrv := (true, None).
Definition q_fails (op : string) : qrv := (false, Some op).

(** ** Names of libraries *)
Definition SLASH : Z := 47.
Definition DOT : Z := 46.
Definition DASH : Z := 45.
Definition is_digit (c : Z) : bool := (48 <=? c) && (c <=? 57).
(** The position of the last occurrence. *)
Fixpoint strrchr (l : list Z) (c : Z) : option nat :=
  match l with
  | [] => None
  | y :: l => match strrchr l c with
              | Some i => Some (S i)
              | None => if y =? c then Some O else None
              end
  end.
Fixpoint str_has_prefix (l prefix : list Z) {struct prefix} : bool :=
  match prefix, l with
  | [], _ => true
  | b :: prefix, a :: l => (a =? b) && str_has_prefix l prefix
  | _, [] => false
  end.
Definition str_has_suffix (l suffix : list Z) : bool := str_has_prefix (reverse l) (reverse suffix).
Definition char_at (l : list Z) (i : nat) : Z := nth i l 0.
(** The name without a version: .1 of libc.so.1 *)
Definition strip_numeric_suffix (p : list Z) : list Z :=
  match strrchr p DOT with
  | Some j => if is_digit (char_at p (S j)) then take j p else p
  | None => p
  end.
(** The test that frida_find_library_base makes of the last component of a path. *)
Definition is_library_path (library_name path : list Z) : bool :=
  match strrchr path SLASH with
  | None => false
  | Some i =>
      let p := strip_numeric_suffix (drop (S i) path) in
      if str_has_prefix p library_name && str_has_suffix p (bytes_of ".so") then
        let next_char := char_at p (length library_name) in
        (next_char =? DASH) || (next_char =? DOT)
      else false
  end.
(** g_path_get_basename *)
Fixpoint strip_slashes (l : list Z) : list Z :=
  match l with
  | [] => []
  | c :: l => match strip_slashes l with [] => if c =? SLASH then [] else [c] | l => c :: l end
  end.
Definition path_get_basename (path : list Z) : list Z :=
  match path with
  | [] => [DOT]
  | _ => match strip_slashes path with
         | [] => [SLASH]
         | l => match strrchr l SLASH with Some i => drop (S i) l | None => l end
         end
  end.

(** ** Requests *)
Section requests.
Context {K : Type} `{QnxHeaders} `{QnxKernel K}.
Notation Q := (qinjector K).

Definition qsys {A} (f : K → sysret A * K) (seen : A → list qact) : M Q (sysret A) := λ s,
  let '(r, k) := f (q_kern s) in
  Ret (r, q_with k (match r with SysOk a => seen a | SysErr _ => [] end) s).
Definition qdoes (f : K → K) (acts : list qact) : M Q unit := modify (λ s, q_with (f (q_kern s)) acts s).
Definition qask {A} (f : K → A) : M Q A := gets (λ s, f (q_kern s)).

Definition q_open (path : string) (writable : bool) : M Q (sysret Z) := λ s,
  qsys (qk_open path writable (q_fds s)) (λ fd, [Opened path fd]) s.
Definition q_close (fd : Z) : M Q unit := qdoes (qk_close fd) [Closed fd].
Definition as_path (pid : Z) : string := "/proc/" +:+ pretty pid +:+ "/as".

(** CHECK_OS_RESULT: go on, or return with an error that names the operation. *)
Definition check {A B} (out : option B) (op : string) (m : M Q (sysret A)) (next : A → M Q (qrv * option B)) : M Q (qrv * option B) :=
  let! r := m in
  match r with SysOk a => next a | SysErr _ => ret (q_fails op, out) end.

(** *** Memory.  [ret] is a 32-bit long; it is compared with a 64-bit address. *)
Definition long_of (r : sysret Z) : Z := match r with SysOk n => s32 n | SysErr _ => -1 end.
Definition frida_remote_write_fd (fd remote_address : Z) (data : list Z) : M Q qrv :=
  let! r := qsys (qk_lseek fd (u32 remote_address)) (λ _, []) in
  if negb (u64 (long_of r) =? remote_address) then ret (q_fails "seek to address")
  else
    let! r := qsys (qk_write fd data) (λ n, [MemoryWritten fd remote_address (ztake n data)]) in
    if negb (u32 (long_of r) =? zlen data) then ret (q_fails "write data") else ret q_ok.
Definition frida_remote_write (pid remote_address : Z) (data : list Z) : M Q qrv :=
  let! r := q_open (as_path pid) true in
  match r with
  | SysErr _ => ret (false, None)
  | SysOk fd =>
      let! result := frida_remote_write_fd fd remote_address data in
      do! q_close fd in ret result
  end.

(** *** Remote calls *)
Fixpoint set_args (i : Z) (args : list Z) (r : procfs_greg) : procfs_greg :=
  match args with
  | [] => r
  | a :: args => set_args (i + 1) args (set_gpr i (u32 a) r)
  end.
(** The function, with its instruction set, and the first four arguments. *)
Definition enter_function (func : Z) (args : list Z) (saved : procfs_greg) : procfs_greg :=
  let r :=
    if negb (Z.land func 1 =? 0)
    then let r := set_gpr ARM_REG_PC (u32 (Z.ldiff func 1)) saved in mk_greg (gpr r) (Z.lor (spsr r) PSR_T_BIT)
    else let r := set_gpr ARM_REG_PC (u32 func) saved in mk_greg (gpr r) (Z.ldiff (spsr r) PSR_T_BIT) in
  set_args 0 (ztake 4 args) r.
(** The other arguments, the last one first. *)
Fixpoint push_args (fd : Z) (args : list Z) (r : procfs_greg) : M Q (qrv * procfs_greg) :=
  match args with
  | [] => ret (q_ok, r)
  | a :: args =>
      let r := set_gpr ARM_REG_SP (u32 (gpr r ARM_REG_SP - 4)) r in
      let! w := frida_remote_write_fd fd (gpr r ARM_REG_SP) (le_bytes 4 a) in
      if negb w.1 then ret (w, r) else push_args fd args r
  end.

Definition find_active_thread (fuel : nat) (fd : Z) : M Q Z :=
  loop fuel (λ tid,
    let! r := qsys (qk_tidstatus fd tid) (λ _, []) in
    match r with SysOk _ => ret (inr tid) | SysErr _ => ret (inl (u32 (tid + 1))) end) 1.
(** Get the thread to a stop; [next] when it is stopped. *)
Definition settle_thread {B} (pid fd : Z) (next : M Q (qrv * option B)) : M Q (qrv * option B) :=
  check None "DCMD_PROC_STOP" (qsys (qk_stop fd) (λ st, [Halted fd st])) (λ status,
    match st_state status with
    | STATE_DEAD => ret ((false, None), None)
    | STATE_STOPPED => next
    | STATE_OTHER _ =>
        check None "DCMD_PROC_RUN" (qsys (qk_run fd RunUntilHangup) (λ _, [Ran fd RunUntilHangup])) (λ _,
        do! qdoes (qk_kill pid SIGHUP) [Killed pid SIGHUP] in
        check None "DCMD_PROC_WAITSTOP" (qsys (qk_waitstop fd) (λ st, [Awaited fd st])) (λ status,
          match st_why status with
          | WHY_TERMINATED => ret ((false, None), None)
          | WHY_OTHER _ => check None "DCMD_PROC_STOP" (qsys (qk_stop fd) (λ st, [Halted fd st])) (λ _, next)
          end))
    end).
Definition get_greg (fd : Z) : M Q (sysret procfs_greg) := qsys (qk_getgreg fd) (λ r, [GregRead fd r]).
Definition set_greg (fd : Z) (r : procfs_greg) : M Q (sysret unit) := qsys (qk_setgreg fd r) (λ _, [GregSet fd r]).
Definition run_thread (fd : Z) (how : procfs_run) : M Q (sysret unit) := qsys (qk_run fd how) (λ _, [Ran fd how]).
(** Run until the function returns: its registers then, or the operation that failed. *)
Definition run_function (fuel : nat) (fd : Z) (r : procfs_greg) : M Q (string + procfs_greg) :=
  loop fuel (λ r : procfs_greg,
    if gpr r ARM_REG_PC =? DUMMY_RETURN then ret (inr (inr r))
    else
      let! v := run_thread fd RunUntilPageFault in
      match v with
      | SysErr _ => ret (inr (inl "DCMD_PROC_RUN"%string))
      | SysOk _ =>
          let! v := qsys (qk_waitstop fd) (λ st, [Awaited fd st]) in
          match v with
          | SysErr _ => ret (inr (inl "DCMD_PROC_WAITSTOP"%string))
          | SysOk _ =>
              let! v := get_greg fd in
              match v with
              | SysErr _ => ret (inr (inl "DCMD_PROC_GETGREG"%string))
              | SysOk r => ret (inl r)
              end
          end
      end) r.
(** The registers are read, the function is run, the registers are put back. *)
Definition call_function (fuel : nat) (fd func : Z) (args : list Z) : M Q (qrv * option Z) :=
  check None "DCMD_PROC_GETGREG" (get_greg fd) (λ saved,
    let! w := push_args fd (reverse (zdrop 4 args)) (enter_function func args saved) in
    if negb w.1.1 then ret (w.1, None)
    else
      let modified := set_gpr ARM_REG_LR DUMMY_RETURN w.2 in
      check None "DCMD_PROC_SETGREG" (set_greg fd modified) (λ _,
      let! v := run_function fuel fd modified in
      match v with
      | inl op => ret (q_fails op, None)
      | inr r =>
          let retval := Some (gpr r 0) in
          check retval "DCMD_PROC_SETGREG" (set_greg fd saved) (λ _,
          check retval "DCMD_PROC_RUN" (run_thread fd RunFreely) (λ _, ret (q_ok, retval)))
      end)).
Definition call_in_thread (fuel : nat) (pid fd func : Z) (args : list Z) : M Q (qrv * option Z) :=
  let! tid := find_active_thread fuel fd in
  check None "DCMD_PROC_CURTHREAD" (qsys (qk_curthread fd tid) (λ _, [ThreadChosen fd tid])) (λ _,
  settle_thread pid fd (call_function fuel fd func args)).
(** The value is [*retval], if it was set. *)
Definition frida_remote_call (fuel : nat) (pid func : Z) (args : list Z) : M Q (qrv * option Z) :=
  let! r := q_open (as_path pid) true in
  match r with
  | SysErr _ => ret (q_fails "open", None)
  | SysOk fd =>
      let! v := call_in_thread fuel pid fd func args in
      do! q_close fd in ret v
  end.
End requests.
