(* ===== verification/QinjectorInstances.v ===== *)
(** The instances of the QNX injector (src/src/qnx/qinjector-glue.c): how functions of
    the process are found, what is run there, and what an injection leaves. *)
From stdpp Require Import pretty.
From S2P Require Import Prelude Posix Binjector BinjectorInstances PayloadCode Qinjector.

Record FridaInjectionParams := mk_qparams {
  qp_pid : Z; qp_so_path : string; qp_entrypoint_name : string; qp_entrypoint_data : string;
  qp_channel_id : Z; qp_remote_address : Z
}.
(** Offsets in FridaTrampolineData, and its size *)
Definition qfield_so_path : Z := 0.
Definition qfield_entrypoint_name : Z := 256.
Definition qfield_entrypoint_data : Z := 512.
Definition qfield_worker_thread : Z := 768.
Definition qfield_module_handle : Z := 772.
Definition sizeof_qtrampoline : Z := 776.
(** FridaCodeChunk has room for 2048 bytes. *)
Definition sizeof_chunk : Z := 2048.

(** The functions that the payload calls, in the order in which they are resolved. *)
Record payload_api := mk_papi {
  pf_ConnectAttach : Z; pf_gettid : Z; pf_MsgSendPulse_hello : Z; pf_dlopen : Z; pf_dlsym : Z; pf_dlclose : Z;
  pf_pthread_detach : Z; pf_MsgSendPulse_bye : Z; pf_ConnectDetach : Z
}.

Section instances.
Context {K : Type} `{QnxHeaders} `{QnxKernel K}.
Notation Q := (qinjector K).

(** ** Finding functions *)
(** The loop over the mappings; reading past those that were stored is invalid. *)
Fixpoint scan_mappings (fd : Z) (library_name : list Z) (want_path : bool) (mapinfos : list Z) (n : nat)
    (result : Z) (library_path : option (list Z)) : M Q (Z * option (list Z)) :=
  match n with
  | O => ret (result, library_path)
  | S n =>
      match mapinfos with
      | [] => crash
      | vaddr :: mapinfos =>
          let! r := qsys (qk_mapdebug fd vaddr) (λ path, [MapRead fd vaddr path]) in
          match r with
          | SysErr _ => ret (result, library_path)
          | SysOk path =>
              if decide (path = library_name) then
                scan_mappings fd library_name want_path mapinfos n vaddr (if want_path then Some path else library_path)
              else if is_library_path library_name path then
                if want_path then ret (vaddr, Some path)
                else scan_mappings fd library_name want_path mapinfos n vaddr library_path
              else scan_mappings fd library_name want_path mapinfos n result library_path
          end
      end
  end.
Definition frida_find_library_base (pid : Z) (library_name : list Z) (want_path : bool) : M Q (Z * option (list Z)) :=
  let! r := q_open (as_path pid) false in
  match r with
  | SysErr _ => ret (0, None)
  | SysOk fd =>
      let! v :=
        (let! r := qsys (qk_pagedata_size fd) (λ _, []) in
         match r with
         | SysErr _ => ret (0, None)
         | SysOk num_mapinfos =>
             let! r := qsys (qk_pagedata fd num_mapinfos) (λ m, [MapsRead fd m.1]) in
             match r with
             | SysErr _ => ret (0, None)
             | SysOk (mapinfos, num_mapinfos) =>
                 scan_mappings fd library_name want_path mapinfos (Z.to_nat num_mapinfos) 0 None
             end
         end) in
      do! q_close fd in ret v
  end.
Definition frida_resolve_remote_library_function (remote_pid : Z) (library_name : list Z) (function_name : string) : M Q Z :=
  let! me := qask qk_getpid in
  let! l := frida_find_library_base me library_name true in
  do! c_assert (negb (l.1 =? 0)) in
  let! r := frida_find_library_base remote_pid library_name true in
  if r.1 =? 0 then ret 0
  else
    do! c_assert (bool_decide (l.2 = r.2)) in
    let! module := (λ s, let '(m, k) := qk_dlopen (path_get_basename (default [] l.2)) (q_kern s) in Ret (m, q_with k [] s)) in
    do! c_assert (negb (module =? 0)) in
    let! local_address := qask (qk_dlsym module function_name) in
    do! c_assert (negb (local_address =? 0)) in
    do! qdoes (qk_dlclose module) [] in
    ret (u64 (r.1 + (local_address - l.1))).
Definition frida_resolve_remote_libc_function (remote_pid : Z) (function_name : string) : M Q Z :=
  frida_resolve_remote_library_function remote_pid (bytes_of "libc") function_name.

(** ** Functions of the process *)
Context (fuel : nat).
Definition ALL_ONES : Z := 2 ^ 64 - 1.
(** Resolve and call: an int is returned, -1 on failure. *)
Definition remote_int_call (pid : Z) (name what : string) (args : list Z) : M Q (Z * option string) :=
  let! function := frida_resolve_remote_libc_function pid name in
  if function =? ALL_ONES then ret (-1, Some what)
  else
    let! c := frida_remote_call fuel pid function args in
    if negb c.1.1 then ret (-1, c.1.2) else ret (s32 (default 0 c.2), None).
Definition frida_remote_alloc (pid size prot : Z) : M Q (Z * option string) :=
  let args := [0; size; prot; MAP_PRIVATE_ANONYMOUS; ALL_ONES; 0] in
  let! function := frida_resolve_remote_libc_function pid "mmap" in
  if function =? ALL_ONES then ret (ALL_ONES, Some "remote_alloc"%string)
  else
    let! c := frida_remote_call fuel pid function args in
    if negb c.1.1 then ret (0, c.1.2)
    else
      let retval := default 0 c.2 in
      if retval =? ALL_ONES then ret (0, None) else ret (retval, None).
Definition frida_remote_dealloc (pid address size : Z) : M Q (Z * option string) :=
  remote_int_call pid "munmap" "remote_dealloc" [address; size].
Definition frida_remote_pthread_create (pid remote_address : Z) : M Q (Z * option string) :=
  remote_int_call pid "pthread_create" "remote_pthread_create"
    [remote_address + FRIDA_REMOTE_DATA_OFFSET + qfield_worker_thread; 0; remote_address; 0].
Definition frida_remote_msync (pid remote_address size flags : Z) : M Q (Z * option string) :=
  remote_int_call pid "msync" "remote_msync" [remote_address; size; flags].

(** ** The payload *)
(** FRIDA_REMOTE_DATA_FIELD *)
Definition qdata_field (remote_address offset : Z) : Z := remote_address + FRIDA_REMOTE_DATA_OFFSET + offset.
(** The registers R0, R1, ... are [X 0], [X 1], ...; the last two entries are
    pop {r5, r6, r7, pc}. *)
Definition payload_code (api : payload_api) (me : Z) (params : FridaInjectionParams) : list insn :=
  let data_field := qdata_field (qp_remote_address params) in
  let coid := Reg (X 7) in
  [Push [X 5; X 6; X 7; LR];
   CallImm (pf_ConnectAttach api)
     [Imm ND_LOCAL_NODE; Imm me; Imm (qp_channel_id params); Imm NTO_SIDE_CHANNEL; Imm NTO_COF_CLOEXEC];
   Move (X 7) (X 0);
   CallImm (pf_gettid api) [];
   Move (X 3) (X 0);
   CallImm (pf_MsgSendPulse_hello api) [coid; Imm (u32 (-1)); Imm PULSE_HELLO; Reg (X 3)];
   LoadField (X 6) None module_handle; Cmp (Reg (X 6)) (Imm 0); Jne skip_dlopen;
     CallImm (pf_dlopen api) [Imm (data_field qfield_so_path); Imm QNX_RTLD_LAZY];
     Move (X 6) (X 0);
     LoadImm (X 0) (data_field qfield_module_handle); StoreField module_handle None (X 6);
   Label skip_dlopen;
   CallImm (pf_dlsym api) [Reg (X 6); Imm (data_field qfield_entrypoint_name)];
   Move (X 5) (X 0);
   LoadImm (X 0) (policy_number IMMEDIATE); Push [X 0; X 7]; Move (X 1) XSP; Lea (X 2) XSP 4;
   CallReg (X 5) [Imm (data_field qfield_entrypoint_data); Reg (X 1); Reg (X 2)];
   Load32 (X 0) XSP 0; Cmp (Reg (X 0)) (Imm (policy_number IMMEDIATE)); Jne skip_dlclose;
     CallImm (pf_dlclose api) [Reg (X 6)];
   Label skip_dlclose;
   Load32 (X 0) XSP 0; Cmp (Reg (X 0)) (Imm (policy_number DEFERRED)); Je skip_detach;
     LoadField (X 0) None worker_thread;
     CallImm (pf_pthread_detach api) [Reg (X 0)];
   Label skip_detach;
   Load32 (X 3) XSP 0;
   CallImm (pf_MsgSendPulse_bye api) [coid; Imm (u32 (-1)); Imm PULSE_BYE; Reg (X 3)];
   CallImm (pf_ConnectDetach api) [coid];
   Pop [X 0; X 7];
   Pop [X 5; X 6; X 7; LR]; Return].
Definition frida_emit_payload_code (params : FridaInjectionParams) : M Q (list insn) :=
  let resolve := frida_resolve_remote_libc_function (qp_pid params) in
  let! connect_attach := resolve "ConnectAttach_r" in
  let! me := qask qk_getpid in
  let! gettid := resolve "gettid" in
  let! send_hello := resolve "MsgSendPulse_r" in
  let! dlopen := resolve "dlopen" in
  let! dlsym := resolve "dlsym" in
  let! dlclose := resolve "dlclose" in
  let! pthread_detach := resolve "pthread_detach" in
  let! send_bye := resolve "MsgSendPulse_r" in
  let! connect_detach := resolve "ConnectDetach_r" in
  ret (payload_code (mk_papi connect_attach gettid send_hello dlopen dlsym dlclose pthread_detach send_bye connect_detach)
         me params).

(** [assemble] encodes instructions; [chunk] is what the chunk on the stack has before
    anything is stored in it. *)
Context (assemble : list insn → list Z) (chunk : list Z).
(** A store into the chunk. *)
Definition store_chunk (offset : Z) (bs c : list Z) : M Q (list Z) :=
  if offset + zlen bs <=? sizeof_chunk then ret (zwrite offset bs c) else crash.
Definition strcpy_chunk (field : Z) (str : string) (c : list Z) : M Q (list Z) :=
  store_chunk (FRIDA_REMOTE_DATA_OFFSET + field) (bytes_of str ++ [0]) c.
Definition fill_chunk (code : list insn) (params : FridaInjectionParams) : M Q (list Z) :=
  let! c := store_chunk 0 (assemble code) chunk in
  let! c := strcpy_chunk qfield_so_path (qp_so_path params) c in
  let! c := strcpy_chunk qfield_entrypoint_name (qp_entrypoint_name params) c in
  let! c := strcpy_chunk qfield_entrypoint_data (qp_entrypoint_data params) c in
  let! c := store_chunk (FRIDA_REMOTE_DATA_OFFSET + qfield_worker_thread) (le_bytes 4 0) c in
  store_chunk (FRIDA_REMOTE_DATA_OFFSET + qfield_module_handle) (le_bytes 4 0) c.
Definition frida_emit_and_remote_execute (func : FridaInjectionParams → M Q (list insn)) (params : FridaInjectionParams) : M Q qrv :=
  let pid := qp_pid params in
  let remote_address := qp_remote_address params in
  let! code := func params in
  let! c := fill_chunk code params in
  let! w := frida_remote_write pid remote_address (ztake (FRIDA_REMOTE_DATA_OFFSET + sizeof_qtrampoline) c) in
  if negb w.1 then ret (false, w.2)
  else
    let! r := frida_remote_msync pid remote_address FRIDA_REMOTE_PAYLOAD_SIZE MS_INVALIDATE_ICACHE in
    if negb (r.1 =? 0) then ret (false, r.2)
    else
      let! r := frida_remote_pthread_create pid remote_address in
      if negb (r.1 =? 0) then ret (false, r.2) else ret q_ok.

(** ** Instances *)
Definition frida_injection_instance_new (id pid : Z) : M Q FridaInjectionInstance := λ s,
  let '(ch, k) := qk_channel_create (q_channels s) (q_kern s) in
  Ret (mk_instance id pid false ch 0, q_with k (if 0 <=? ch then [ChannelCreated ch] else []) s).
Definition frida_injection_instance_free (i : FridaInjectionInstance) (unload_policy : UnloadPolicy) : M Q unit :=
  do! (if negb (qi_remote_payload i =? 0) && bool_decide (unload_policy = IMMEDIATE)
       then do! frida_remote_dealloc (qi_pid i) (qi_remote_payload i) FRIDA_REMOTE_PAYLOAD_SIZE in ret tt
       else ret tt) in
  qdoes (qk_channel_destroy (qi_channel_id i)) [ChannelDestroyed (qi_channel_id i)].
Definition _frida_qinjector_free_instance : FridaInjectionInstance → UnloadPolicy → M Q unit := frida_injection_instance_free.
(** An error that is set already stays. *)
Definition first_error (a b : option string) : option string := match a with Some _ => a | None => b end.
(** The id of the new instance, 0 on failure, and the error if one was set. *)
Definition _frida_qinjector_do_inject (pid : Z) (path entrypoint data : string) : M Q (Z * option string) :=
  let! id := gets q_next_id in
  do! modify (λ s, mk_qin (q_kern s) (q_log s) (q_instances s) (u32 (id + 1))) in
  let! i := frida_injection_instance_new id pid in
  let! a := frida_remote_alloc pid FRIDA_REMOTE_PAYLOAD_SIZE PROT_READ_WRITE_EXEC in
  if a.1 =? 0 then
    do! frida_injection_instance_free i IMMEDIATE in ret (0, a.2)
  else
    let i := mk_instance (qi_id i) (qi_pid i) (qi_already_attached i) (qi_channel_id i) a.1 in
    let! r := frida_emit_and_remote_execute frida_emit_payload_code (mk_qparams pid path entrypoint data (qi_channel_id i) a.1) in
    if negb r.1 then
      do! frida_injection_instance_free i IMMEDIATE in ret (0, first_error a.2 r.2)
    else
      do! modify (λ s, mk_qin (q_kern s) (q_log s) (<[id := i]> (q_instances s)) (q_next_id s)) in
      ret (id, a.2).
(** _destroy_instance of src/src/qnx/qinjector.vala *)
Definition destroy_instance (id : Z) (unload_policy : UnloadPolicy) : M Q unit :=
  let! o := gets (λ s, q_instances s !! id) in
  match o with
  | None => c_assert_not_reached
  | Some i =>
      do! modify (λ s, mk_qin (q_kern s) (q_log s) (delete id (q_instances s)) (q_next_id s)) in
      _frida_qinjector_free_instance i unload_policy
  end.

(** ** What the session asks *)
Definition _frida_remote_thread_session_receive_pulse (i : FridaInjectionInstance) : M Q (option (Z * Z)) :=
  let! r := qsys (qk_receive_pulse (qi_channel_id i)) (λ _, []) in
  ret (match r with SysOk p => Some p | SysErr _ => None end).
Definition _frida_remote_thread_session_thread_is_alive (pid tid : Z) : M Q bool :=
  let! r := q_open ("/proc/" +:+ pretty pid) false in
  match r with
  | SysErr _ => ret false
  | SysOk fd =>
      let! r := qsys (qk_tidstatus fd tid) (λ _, []) in
      do! q_close fd in
      ret (match r with SysOk t => t =? tid | SysErr _ => false end)
  end.
End instances.
