(* ===== verification/QnxCall.v ===== *)
(** Remote calls of the QNX injector: what is logged of a call, the frame it builds and
    when it ends. *)
From stdpp Require Import pretty.
From S2P Require Import Prelude Posix Binjector BinjectorInstances PayloadCode Qinjector.

(** * Rules for the requests of the QNX injector, and what its remote calls leave in the
    log. *)
(** ** Logs *)
(** Requests that open or close neither descriptors nor channels. *)
Definition calm_act (a : qact) : bool :=
  match a with Opened _ _ | Closed _ | ChannelCreated _ | ChannelDestroyed _ => false | _ => true end.
Definition calm (l : list qact) : Prop := Forall calm_act l.
Definition sets_registers (a : qact) : bool := match a with GregSet _ _ => true | _ => false end.
(** No registers were replaced. *)
Definition untouched (l : list qact) : Prop := Forall (λ a, sets_registers a = false) l.
(** Requests after which the descriptors that are open are the same, and which do not
    concern channels. *)
Definition no_channel (a : qact) : bool := match a with ChannelCreated _ | ChannelDestroyed _ => false | _ => true end.
Definition balanced (fds : gset Z) (l : list qact) : Prop := qfds_from fds l = fds ∧ Forall no_channel l.

Lemma qfds_from_app fds l1 l2 : qfds_from fds (l1 ++ l2) = qfds_from (qfds_from fds l1) l2.
Proof. apply foldl_app. Qed.
Lemma qfds_from_calm l : calm l → ∀ fds, qfds_from fds l = fds.
Proof. induction 1 as [|a l Ha Hl IH]; intros fds; [done|]. unfold qfds_from in *. cbn. rewrite IH. by destruct a. Qed.
Lemma channels_from_app chs l1 l2 : channels_from chs (l1 ++ l2) = channels_from (channels_from chs l1) l2.
Proof. apply foldl_app. Qed.
Lemma channels_from_none l : Forall no_channel l → ∀ chs, channels_from chs l = chs.
Proof. induction 1 as [|a l Ha Hl IH]; intros chs; [done|]. unfold channels_from in *. cbn. rewrite IH. by destruct a. Qed.
Lemma balanced_nil fds : balanced fds [].
Proof. done. Qed.
Lemma balanced_app fds l1 l2 : balanced fds l1 → balanced fds l2 → balanced fds (l1 ++ l2).
Proof.
  intros [E1 H1] [E2 H2]. split; [by rewrite qfds_from_app, E1, E2|by apply Forall_app].
Qed.
(** A descriptor that is opened for some requests and closed again. *)
Lemma balanced_session fds path fd l : fd ∉ fds → calm l → balanced fds (Opened path fd :: l ++ [Closed fd]).
Proof.
  intros Hfd Hl. split.
  - change (Opened path fd :: l ++ [Closed fd]) with ([Opened path fd] ++ l ++ [Closed fd]).
    rewrite !qfds_from_app, (qfds_from_calm l) by done. unfold qfds_from. cbn. set_solver.
  - constructor; [done|]. apply Forall_app. split; [|by repeat constructor]. eapply Forall_impl; [exact Hl|]. by intros [].
Qed.

Lemma q_with_app {K} k1 k2 l1 l2 (s : qinjector K) : q_with k2 l2 (q_with k1 l1 s) = q_with k2 (l1 ++ l2) s.
Proof. unfold q_with. cbn. by rewrite app_assoc. Qed.
Lemma q_with_nil {K} (s : qinjector K) : q_with (q_kern s) [] s = s.
Proof. unfold q_with. rewrite app_nil_r. by destruct s. Qed.
Lemma q_fds_with {K} k l (s : qinjector K) : q_fds (q_with k l s) = qfds_from (q_fds s) l.
Proof. apply qfds_from_app. Qed.
Lemma q_channels_with {K} k l (s : qinjector K) : q_channels (q_with k l s) = channels_from (q_channels s) l.
Proof. apply channels_from_app. Qed.

Section rules.
Context {K : Type} `{QnxHeaders} `{QnxKernel K}.
Implicit Types (s : qinjector K) (k : K).

(** When [m] returns [v], it has added requests to the log for which [P v] holds. *)
Definition plogs {A} (m : M (qinjector K) A) s (P : A → list qact → Prop) : Prop :=
  ∀ v s', m s = Ret (v, s') → ∃ k l, s' = q_with k l s ∧ P v l.
(** [m] returns. *)
Definition finishes {A} (m : M (qinjector K) A) s : Prop := ∃ v s', m s = Ret (v, s').
Lemma wp_plogs {A} (m : M (qinjector K) A) s P :
  finishes m s → plogs m s P → wp m s (λ v s', ∃ k l, s' = q_with k l s ∧ P v l).
Proof. intros (v & s' & E) Hp. exists v, s'. split; [done|by apply Hp]. Qed.

Lemma plogs_mono {A} (m : M (qinjector K) A) s (P P' : A → list qact → Prop) :
  plogs m s P → (∀ v l, P v l → P' v l) → plogs m s P'.
Proof. intros Hm HP v s' E. destruct (Hm v s' E) as (k & l & -> & Hl). eauto. Qed.
Lemma plogs_ret {A} (a : A) s (P : A → list qact → Prop) : P a [] → plogs (ret a) s P.
Proof. intros HP v s' [= <- <-]. exists (q_kern s), []. by rewrite q_with_nil. Qed.
Lemma plogs_bind {A B} (m : M (qinjector K) A) (f : A → M (qinjector K) B) s P :
  plogs m s (λ v l, ∀ k, plogs (f v) (q_with k l s) (λ w l', P w (l ++ l'))) → plogs (bind m f) s P.
Proof.
  intros Hm w s' E. unfold bind in E. destruct (m s) as [[v s1]| | |] eqn:Em; [|done..].
  destruct (Hm _ _ Em) as (k & l & -> & Hf). destruct (Hf k _ _ E) as (k' & l' & -> & HP).
  exists k', (l ++ l'). by rewrite q_with_app.
Qed.
Lemma plogs_sys {A} (f : K → sysret A * K) seen s (P : sysret A → list qact → Prop) :
  (∀ r k, f (q_kern s) = (r, k) → P r (match r with SysOk a => seen a | SysErr _ => [] end)) → plogs (qsys f seen) s P.
Proof.
  intros HP v s' E. unfold qsys in E. destruct (f (q_kern s)) as [r k] eqn:Ef. injection E as <- <-. eauto.
Qed.
Lemma plogs_does f acts s (P : unit → list qact → Prop) : P tt acts → plogs (qdoes f acts) s P.
Proof. intros HP v s' [= <- <-]. eauto. Qed.
Lemma plogs_ask {A} (f : K → A) s (P : A → list qact → Prop) : (∀ v, P v []) → plogs (qask f) s P.
Proof. intros HP v s' [= <- <-]. exists (q_kern s), []. by rewrite q_with_nil. Qed.
Lemma plogs_assert b s (P : unit → list qact → Prop) : (b = true → P tt []) → plogs (c_assert b) s P.
Proof.
  intros HP v s'. destruct b; [|done]. intros [= <- <-]. exists (q_kern s), []. rewrite q_with_nil. auto.
Qed.
Lemma plogs_crash {A} s (P : A → list qact → Prop) : plogs crash s P.
Proof. done. Qed.
Lemma plogs_loop {A R} (body : A → M (qinjector K) (A + R)) (I : A → list qact → R → Prop) fuel :
  (∀ a s, plogs (body a) s (λ r l, match r with inl b => ∀ l' v, I b l' v → I a (l ++ l') v | inr v => I a l v end)) →
  ∀ a s, plogs (loop fuel body a) s (λ v l, I a l v).
Proof.
  intros Hb. induction fuel as [|fuel IH]; intros a s; [done|]. cbn [loop]. apply plogs_bind.
  eapply plogs_mono; [apply Hb|]. cbn beta. intros [b|v] l Hl k.
  - eapply plogs_mono; [apply IH|]. auto.
  - apply plogs_ret. by rewrite app_nil_r.
Qed.
Lemma plogs_check {A B} (out : option B) op (m : M (qinjector K) (sysret A)) next s P :
  plogs m s (λ r l, match r with
                    | SysOk a => ∀ k, plogs (next a) (q_with k l s) (λ w l', P w (l ++ l'))
                    | SysErr _ => P (q_fails op, out) l
                    end) → plogs (check out op m next) s P.
Proof.
  intros Hm. apply plogs_bind. eapply plogs_mono; [exact Hm|]. cbn beta. intros [a|e] l Hl k; [apply Hl|].
  apply plogs_ret. by rewrite app_nil_r.
Qed.

(** ** Total correctness *)
Lemma finishes_bind {A B} (m : M (qinjector K) A) (f : A → M (qinjector K) B) s :
  finishes m s → (∀ v s', m s = Ret (v, s') → finishes (f v) s') → finishes (bind m f) s.
Proof. intros (v & s' & E) Hf. unfold finishes, bind. rewrite E. by apply Hf. Qed.
Lemma finishes_ret {A} (a : A) s : finishes (ret a) s.
Proof. by do 2 eexists. Qed.
Lemma finishes_sys {A} (f : K → sysret A * K) seen s : finishes (qsys f seen) s.
Proof. unfold finishes, qsys. destruct (f (q_kern s)). by do 2 eexists. Qed.
Lemma finishes_does f acts s : finishes (qdoes f acts) s.
Proof. by do 2 eexists. Qed.
Lemma finishes_check {A B} (out : option B) op (m : M (qinjector K) (sysret A)) next s :
  finishes m s → (∀ v s', m s = Ret (SysOk v, s') → finishes (next v) s') → finishes (check out op m next) s.
Proof. intros Hm Hn. apply finishes_bind; [done|]. intros [v|e] s' E; [by apply Hn|apply finishes_ret]. Qed.
Lemma qsys_inv {A} (f : K → sysret A * K) seen s r s' :
  qsys f seen s = Ret (r, s') → f (q_kern s) = (r, q_kern s').
Proof. unfold qsys. destruct (f (q_kern s)) as [r1 k]. intros [= <- <-]. done. Qed.
End rules.

(** ** The frame *)
(** The registers after arguments were pushed, and what was written. *)
Fixpoint pushed_regs (args : list Z) (r : procfs_greg) : procfs_greg :=
  match args with
  | [] => r
  | _ :: args => pushed_regs args (set_gpr ARM_REG_SP (u32 (gpr r ARM_REG_SP - 4)) r)
  end.
Fixpoint pushed_words (fd : Z) (args : list Z) (r : procfs_greg) : list qact :=
  match args with
  | [] => []
  | a :: args =>
      let r := set_gpr ARM_REG_SP (u32 (gpr r ARM_REG_SP - 4)) r in
      MemoryWritten fd (gpr r ARM_REG_SP) (le_bytes 4 a) :: pushed_words fd args r
  end.
Definition frame (func : Z) (args : list Z) (saved : procfs_greg) : procfs_greg :=
  set_gpr ARM_REG_LR DUMMY_RETURN (pushed_regs (reverse (zdrop 4 args)) (enter_function func args saved)).

Lemma pushed_regs_other args : ∀ r i, i ≠ ARM_REG_SP → gpr (pushed_regs args r) i = gpr r i.
Proof.
  induction args as [|a args IH]; intros r i Hi; cbn [pushed_regs]; [done|]. rewrite IH by done. cbn.
  by rewrite (proj2 (Z.eqb_neq _ _) Hi).
Qed.
Lemma pushed_regs_spsr args : ∀ r, spsr (pushed_regs args r) = spsr r.
Proof. induction args as [|a args IH]; intros r; cbn [pushed_regs]; [done|]. by rewrite IH. Qed.
Lemma pushed_regs_sp args : ∀ r, zlen args * 4 ≤ gpr r ARM_REG_SP < 2 ^ 32 →
  gpr (pushed_regs args r) ARM_REG_SP = gpr r ARM_REG_SP - zlen args * 4.
Proof.
  induction args as [|a args IH]; intros r Hr; cbn [pushed_regs]; [by rewrite (zlen_nil (A:=Z)), Z.sub_0_r|].
  rewrite zlen_cons in *. pose proof (zlen_nonneg args).
  assert (E : gpr (set_gpr ARM_REG_SP (u32 (gpr r ARM_REG_SP - 4)) r) ARM_REG_SP = gpr r ARM_REG_SP - 4).
  { cbn. apply u32_small. lia. }
  rewrite IH by (rewrite E; lia). rewrite E. lia.
Qed.
(** Each word is where the last argument's place says. *)
Lemma pushed_words_at fd args : ∀ r, zlen args * 4 ≤ gpr r ARM_REG_SP < 2 ^ 32 → ∀ (i : nat) a, args !! i = Some a →
  pushed_words fd args r !! i = Some (MemoryWritten fd (gpr r ARM_REG_SP - (Z.of_nat i + 1) * 4) (le_bytes 4 a)).
Proof.
  induction args as [|b args IH]; intros r Hr i a Hi; [done|]. rewrite zlen_cons in Hr. pose proof (zlen_nonneg args).
  assert (E : gpr (set_gpr ARM_REG_SP (u32 (gpr r ARM_REG_SP - 4)) r) ARM_REG_SP = gpr r ARM_REG_SP - 4).
  { cbn. apply u32_small. lia. }
  cbn [pushed_words]. destruct i as [|i].
  - injection Hi as ->. cbn [lookup list_lookup]. rewrite E. do 2 f_equal.
  - change (pushed_words fd args (set_gpr ARM_REG_SP (u32 (gpr r ARM_REG_SP - 4)) r) !! i = Some (MemoryWritten fd (gpr r ARM_REG_SP - (Z.of_nat (S i) + 1) * 4) (le_bytes 4 a))).
    rewrite (IH _ ltac:(rewrite E; lia) i a Hi). rewrite E. do 2 f_equal. lia.
Qed.
Lemma set_args_other args : ∀ i r j, j < i ∨ i + zlen args ≤ j → gpr (set_args i args r) j = gpr r j.
Proof.
  induction args as [|a args IH]; intros i r j Hj; cbn [set_args]; [done|]. rewrite zlen_cons in Hj. pose proof (zlen_nonneg args).
  rewrite IH by lia. cbn. rewrite (proj2 (Z.eqb_neq _ _)) by lia. done.
Qed.
Lemma set_args_at args : ∀ i r j a, args !! j = Some a → gpr (set_args i args r) (i + Z.of_nat j) = u32 a.
Proof.
  induction args as [|b args IH]; intros i r [|j] a Hj; [done..| |]; cbn [set_args].
  - injection Hj as ->. rewrite set_args_other by lia. cbn. by rewrite Z.add_0_r, Z.eqb_refl.
  - replace (i + Z.of_nat (S j)) with (i + 1 + Z.of_nat j) by lia. by apply IH.
Qed.
Lemma set_args_spsr args : ∀ i r, spsr (set_args i args r) = spsr r.
Proof. induction args as [|a args IH]; intros i r; cbn [set_args]; [done|]. by rewrite IH. Qed.

(** ** What is logged of a call *)
(** The thread was stopped, or was woken up by SIGHUP and stopped then. *)
Definition settled (pid fd : Z) (l : list qact) : Prop :=
  (∃ st, l = [Halted fd st] ∧ st_state st = STATE_STOPPED) ∨
  (∃ st1 st2 st3 n, l = [Halted fd st1; Ran fd RunUntilHangup; Killed pid SIGHUP; Awaited fd st2; Halted fd st3] ∧
     st_why st2 = WHY_OTHER n).
(** From one page fault to the next, until the function returned. *)
Inductive running (fd : Z) : procfs_greg → list qact → procfs_greg → Prop :=
| running_done r : gpr r ARM_REG_PC = DUMMY_RETURN → running fd r [] r
| running_more r r1 st l r2 : gpr r ARM_REG_PC ≠ DUMMY_RETURN → running fd r1 l r2 →
    running fd r ([Ran fd RunUntilPageFault; Awaited fd st; GregRead fd r1] ++ l) r2.
(** A call that succeeded: the thread that was chosen is stopped, the frame is
    installed, the function runs until it returns, and the registers from before are
    put back before the thread goes on. *)
Definition called_in_thread (pid fd func : Z) (args : list Z) (retval : Z) (l : list qact) : Prop :=
  ∃ tid pre saved mid r,
    l = [ThreadChosen fd tid] ++ pre ++ [GregRead fd saved] ++
        pushed_words fd (reverse (zdrop 4 args)) (enter_function func args saved) ++
        [GregSet fd (frame func args saved)] ++ mid ++ [GregSet fd saved; Ran fd RunFreely] ∧
    settled pid fd pre ∧ running fd (frame func args saved) mid r ∧
    gpr r ARM_REG_PC = DUMMY_RETURN ∧ retval = gpr r 0.
(** The results of a call: a failure that is not reported did not touch the registers. *)
Definition call_result (pid fd func : Z) (args : list Z) (v : qrv * option Z) (l : list qact) : Prop :=
  if v.1.1 then v.1.2 = None ∧ ∃ retval, v.2 = Some retval ∧ called_in_thread pid fd func args retval l
  else untouched l ∨ is_Some v.1.2.

Lemma settled_calm pid fd l : settled pid fd l → calm l ∧ untouched l.
Proof. by intros [(st & -> & _)|(st1 & st2 & st3 & n & -> & _)]; split; repeat constructor. Qed.
Lemma running_calm fd r l r' : running fd r l r' → calm l ∧ gpr r' ARM_REG_PC = DUMMY_RETURN.
Proof. induction 1 as [|r r1 st l r2 _ _ [IH E]]; [by split; [constructor|]|]. split; [by repeat constructor|done]. Qed.
Lemma pushed_words_calm fd args : ∀ r, calm (pushed_words fd args r) ∧ untouched (pushed_words fd args r).
Proof.
  induction args as [|a args IH]; intros r; cbn [pushed_words]; [by split; constructor|]. destruct (IH (set_gpr ARM_REG_SP (u32 (gpr r ARM_REG_SP - 4)) r)) as [H1 H2].
  by split; constructor.
Qed.

Lemma calm_app l1 l2 : calm (l1 ++ l2) ↔ calm l1 ∧ calm l2.
Proof. apply Forall_app. Qed.
Lemma untouched_app l1 l2 : untouched (l1 ++ l2) ↔ untouched l1 ∧ untouched l2.
Proof. apply Forall_app. Qed.
Lemma u32_s32 n : u32 (s32 n) = u32 n.
Proof.
  unfold s32, u32. destruct (_ <? _); [by rewrite Z.mod_mod|].
  replace (n mod 2 ^ 32 - 2 ^ 32) with (n mod 2 ^ 32 + (-1) * 2 ^ 32) by lia. by rewrite Z.mod_add, Z.mod_mod by done.
Qed.

Section calls.
Context {K : Type} `{QnxHeaders} `{QnxLaws K}.
Implicit Types (s : qinjector K) (k : K).

(** A request whose failure is reported. *)
Ltac request := apply plogs_check, plogs_sys; intros [?|?] ? _; cbn beta iota.

Lemma write_fd_logs fd address data s : zlen data < 2 ^ 32 - 1 →
  plogs (frida_remote_write_fd fd address data) s (λ w l,
    calm l ∧ untouched l ∧ if w.1 then w = q_ok ∧ l = [MemoryWritten fd address data] else is_Some w.2).
Proof.
  intros Hd. unfold frida_remote_write_fd. apply plogs_bind, plogs_sys. intros r k _ k'.
  replace (match r with SysOk a => _ | SysErr _ => _ end) with (@nil qact) by by destruct r.
  destruct (negb _); [by apply plogs_ret; split_and!; [constructor..|eexists]|].
  apply plogs_bind, plogs_sys. intros r2 k2 E2 k2'.
  assert (Hn : ∀ n, r2 = SysOk n → 0 ≤ n ≤ zlen data) by (intros n ->; by eapply ql_write_count).
  destruct (Z.eqb_spec (u32 (long_of r2)) (zlen data)) as [Eq|]; cbn [negb]; apply plogs_ret; rewrite ?app_nil_r; cbn [app].
  - destruct r2 as [n|e]; cbn [long_of] in Eq.
    + specialize (Hn n eq_refl). rewrite u32_s32, u32_small in Eq by lia. subst n. rewrite ztake_ge by lia. by split_and!; repeat constructor.
    + change (u32 (-1)) with (2 ^ 32 - 1) in Eq. lia.
  - destruct r2; split_and!; repeat constructor; by eexists.
Qed.
Lemma push_args_logs fd args : ∀ r s,
  plogs (push_args fd args r) s (λ w l, calm l ∧ untouched l ∧
    if w.1.1 then w.2 = pushed_regs args r ∧ l = pushed_words fd args r else is_Some w.1.2).
Proof.
  induction args as [|a args IH]; intros r s; cbn [push_args pushed_regs pushed_words].
  { apply plogs_ret. by split; [constructor|split; [constructor|]]. }
  apply plogs_bind. eapply plogs_mono; [by apply write_fd_logs; rewrite zlen_le_bytes by lia; lia|]. cbn beta.
  intros [w e] l (Hc & Hu & Hw) k. cbn [fst snd] in *. destruct w; cbn [negb].
  - destruct Hw as [_ ->]. eapply plogs_mono; [apply IH|]. cbn beta. intros v l' (Hc' & Hu' & Hv). split_and!.
    + by apply calm_app.
    + by apply untouched_app.
    + destruct v.1.1; [|done]. by destruct Hv as [-> ->].
  - apply plogs_ret. rewrite app_nil_r. by split_and!.
Qed.
Lemma run_function_logs fuel fd r s :
  plogs (run_function fuel fd r) s (λ v l, calm l ∧ match v with inr r' => running fd r l r' | inl _ => True end).
Proof.
  unfold run_function. apply (plogs_loop _ (λ r l v, calm l ∧ match v with inr r' => running fd r l r' | inl _ => True end)).
  clear. intros r s. destruct (Z.eqb_spec (gpr r ARM_REG_PC) DUMMY_RETURN).
  { apply plogs_ret. split; [constructor|by constructor]. }
  apply plogs_bind, plogs_sys. intros [[]|e] k _ k'; [|apply plogs_ret; by split; [constructor|]].
  apply plogs_bind, plogs_sys. intros [st|e] k2 _ k2'; [|apply plogs_ret; by split; [repeat constructor|]].
  apply plogs_bind, plogs_sys. intros [r1|e] k3 _ k3'; [|apply plogs_ret; by split; [repeat constructor|]].
  apply plogs_ret. cbn [app]. intros l [op|r2] [Hc Hr].
  - split; [by repeat constructor|done].
  - split; [by repeat constructor|]. change (running fd r ([Ran fd RunUntilPageFault; Awaited fd st; GregRead fd r1] ++ l) r2). by constructor.
Qed.
Lemma settle_logs {B} pid fd (next : M (qinjector K) (qrv * option B)) s P :
  (∀ pre k, settled pid fd pre → plogs next (q_with k pre s) (λ w l, P w (pre ++ l))) →
  (∀ v l, calm l → untouched l → v.1.1 = false → P v l) →
  plogs (settle_thread pid fd next) s P.
Proof.
  intros Hn Hf. unfold settle_thread. request; [|by apply Hf; [constructor..|]]. intros k'.
  destruct (st_state a) eqn:Ea; [by apply plogs_ret, Hf; repeat constructor|by apply Hn; left; eexists|].
  request; cbn [app]; [|by apply Hf; repeat constructor]. intros k2'. apply plogs_bind, plogs_does. intros k3'.
  request; rewrite ?q_with_app; cbn [app]; [|by apply Hf; repeat constructor]. intros k4'.
  destruct (st_why _) eqn:Ew; [by apply plogs_ret, Hf; repeat constructor|].
  request; cbn [app]; [|by apply Hf; repeat constructor]. intros k5'. rewrite !q_with_app. cbn [app].
  eapply plogs_mono; [apply (Hn _ k5'); right; by do 4 eexists|]. done.
Qed.
(** From the registers that were read to the registers that are put back. *)
Lemma call_function_logs fuel fd func args s :
  plogs (call_function fuel fd func args) s (λ v l, calm l ∧
    if v.1.1 then v.1.2 = None ∧ ∃ saved mid r, v.2 = Some (gpr r 0) ∧ running fd (frame func args saved) mid r ∧
      l = [GregRead fd saved] ++ pushed_words fd (reverse (zdrop 4 args)) (enter_function func args saved) ++
          [GregSet fd (frame func args saved)] ++ mid ++ [GregSet fd saved; Ran fd RunFreely]
    else untouched l ∨ is_Some v.1.2).
Proof.
  unfold call_function. request; [|by split; [constructor|right; eexists]]. rename a into saved. intros k'.
  apply plogs_bind. eapply plogs_mono; [apply push_args_logs|]. cbn beta. intros [[w e] r] l (Hc & Hu & Hw) k1. cbn [fst snd] in *.
  destruct w; cbn [negb]; cycle 1.
  { apply plogs_ret. split; [|by right]. constructor; [done|]. by rewrite app_nil_r. }
  destruct Hw as [-> ->]. fold (frame func args saved). set (f := frame func args saved).
  set (words := pushed_words _ _ _) in *. request; [|split; [|right; by eexists]]; cycle 1.
  { constructor; [done|]. by rewrite app_nil_r. }
  intros ?. apply plogs_bind. eapply plogs_mono; [apply run_function_logs|]. cbn beta. intros [op|r2] mid [Hm Hr] k4.
  { apply plogs_ret. split; [|right; by eexists]. rewrite app_nil_r. constructor; [done|]. apply calm_app. split; [done|].
    by constructor. }
  request; cycle 1.
  { split; [|right; by eexists]. rewrite app_nil_r. constructor; [done|]. apply calm_app. split; [done|]. by constructor. }
  intros ?. request; cycle 1.
  { split; [|right; by eexists]. constructor; [done|]. apply calm_app. split; [done|]. constructor; [done|].
    apply calm_app. split; [done|by repeat constructor]. }
  intros ?. apply plogs_ret. cbn [fst snd q_ok]. split.
  - constructor; [done|]. apply calm_app. split; [done|]. constructor; [done|]. apply calm_app. split; [done|by repeat constructor].
  - split; [done|]. by exists saved, mid, r2.
Qed.
Lemma call_in_thread_logs fuel pid fd func args s :
  plogs (call_in_thread fuel pid fd func args) s (λ v l, calm l ∧ call_result pid fd func args v l).
Proof.
  unfold call_in_thread. apply plogs_bind. unfold find_active_thread.
  eapply plogs_mono; [apply (plogs_loop _ (λ _ l _, l = []))|].
  { intros tid s'. apply plogs_bind, plogs_sys. by intros [t|e] k _ k'; apply plogs_ret; [|intros l v ->]. }
  cbn beta. intros tid l -> k'. request; [|by split; [constructor|right; eexists]]. intros k2. apply settle_logs.
  - intros pre k3 Hpre. eapply plogs_mono; [apply call_function_logs|]. cbn beta. intros v l (Hc & Hv).
    destruct (settled_calm _ _ _ Hpre) as [Hp1 Hp2]. split; [constructor; [done|]; by apply calm_app|].
    unfold call_result in *. destruct v.1.1.
    + destruct Hv as [E (saved & mid & r & Ev & Hr & ->)]. split; [done|]. exists (gpr r 0). split; [done|].
      exists tid, pre, saved, mid, r. split_and!; [done|done|done| |done]. by destruct (running_calm _ _ _ _ Hr).
    + destruct Hv as [Hv|Hv]; [left|by right]. constructor; [done|]. by apply untouched_app.
  - intros [[b e] o] l Hc Hu Hv. cbn in Hv. subst b. cbn [app]. split; [by constructor|]. left. by constructor.
Qed.

(** The log of frida_remote_call: nothing if /proc could not be opened, and otherwise
    what was done with a descriptor that is closed at the end. *)
Definition remote_call_result (pid func : Z) (args : list Z) (fds : gset Z) (v : qrv * option Z) (l : list qact) : Prop :=
  (l = [] ∧ v = (q_fails "open", None)) ∨
  ∃ fd l', fd ∉ fds ∧ l = Opened (as_path pid) fd :: l' ++ [Closed fd] ∧ calm l' ∧ call_result pid fd func args v l'.
Lemma open_logs path w s (P : sysret Z → list qact → Prop) :
  (∀ fd, fd ∉ q_fds s → P (SysOk fd) [Opened path fd]) → (∀ e, P (SysErr e) []) → plogs (q_open path w) s P.
Proof. intros H2 H3. unfold q_open. apply plogs_sys. intros [fd|e] k E; [|done]. apply H2. by eapply ql_open_fresh. Qed.
Lemma remote_call_logs fuel pid func args s :
  plogs (frida_remote_call fuel pid func args) s (remote_call_result pid func args (q_fds s)).
Proof.
  unfold frida_remote_call. apply plogs_bind, open_logs; [intros fd Hfd k|intros e k]; [|apply plogs_ret; by left].
  apply plogs_bind. eapply plogs_mono; [apply call_in_thread_logs|]. cbn beta. intros v l [Hc Hv] k2.
  apply plogs_bind, plogs_does. intros k3. apply plogs_ret. right. exists fd, l. split_and!; [done| |done|done].
  by rewrite app_nil_r.
Qed.
Lemma remote_call_balanced pid func args fds v l : remote_call_result pid func args fds v l → balanced fds l.
Proof. intros [[-> _]|(fd & l' & Hfd & -> & Hc & _)]; [done|by apply balanced_session]. Qed.

(** ** When a call ends *)
(** One of the next [n] thread ids is that of a thread. *)
Fixpoint thread_within (n : nat) (fd tid : Z) k : bool :=
  match n with
  | O => false
  | S n => match qk_tidstatus fd tid k with
           | (SysOk _, _) => true
           | (SysErr _, k) => thread_within n fd (u32 (tid + 1)) k
           end
  end.
(** One of the next [n] page faults is the one at the dummy address, or the thread
    cannot be controlled any more. *)
Fixpoint returns_within (n : nat) (fd : Z) k : bool :=
  match n with
  | O => false
  | S n =>
      match qk_run fd RunUntilPageFault k with
      | (SysErr _, _) => true
      | (SysOk _, k) =>
          match qk_waitstop fd k with
          | (SysErr _, _) => true
          | (SysOk _, k) =>
              match qk_getgreg fd k with
              | (SysErr _, _) => true
              | (SysOk r, k) => (gpr r ARM_REG_PC =? DUMMY_RETURN) || returns_within n fd k
              end
          end
      end
  end.

Lemma find_thread_finishes n fd : ∀ fuel tid s, (n ≤ fuel)%nat → thread_within n fd tid (q_kern s) = true →
  finishes (loop fuel (λ tid,
    let! r := qsys (qk_tidstatus fd tid) (λ _, []) in
    match r with SysOk _ => ret (inr tid) | SysErr _ => ret (inl (u32 (tid + 1))) end) tid) s.
Proof.
  induction n as [|n IH]; intros fuel tid s Hf Hn; [done|]. destruct fuel as [|fuel]; [lia|]. cbn [loop thread_within] in *.
  unfold finishes, bind, qsys. destruct (qk_tidstatus fd tid (q_kern s)) as [[t|e] k]; [by do 2 eexists|]. cbn.
  apply IH; [lia|done].
Qed.
Lemma run_function_finishes n fd : ∀ fuel r s, (n < fuel)%nat → returns_within n fd (q_kern s) = true →
  finishes (run_function fuel fd r) s.
Proof.
  unfold run_function. induction n as [|n IH]; intros fuel r s Hf Hn; [done|]. destruct fuel as [|fuel]; [lia|].
  cbn [loop returns_within] in *. destruct (gpr r ARM_REG_PC =? DUMMY_RETURN); [apply finishes_bind; [by do 2 eexists|]; intros ? ? [= <- <-]; apply finishes_ret|].
  unfold run_thread, get_greg, finishes, bind, qsys. destruct (qk_run fd RunUntilPageFault (q_kern s)) as [[[]|e] k]; [|by do 2 eexists]. cbn.
  destruct (qk_waitstop fd k) as [[st|e] k2]; [|by do 2 eexists]. cbn.
  destruct (qk_getgreg fd k2) as [[r1|e] k3]; [|by do 2 eexists]. cbn. apply orb_true_iff in Hn as [Hpc|Hn].
  - destruct fuel as [|fuel]; [lia|]. cbn [loop]. rewrite Hpc. by do 2 eexists.
  - apply IH; [lia|done].
Qed.
Lemma write_fd_finishes fd address data s : finishes (frida_remote_write_fd fd address data) s.
Proof.
  unfold frida_remote_write_fd. apply finishes_bind; [apply finishes_sys|]. intros r s1 _. destruct (negb _); [apply finishes_ret|].
  apply finishes_bind; [apply finishes_sys|]. intros r2 s2 _. destruct (negb _); apply finishes_ret.
Qed.
Lemma push_args_finishes fd args : ∀ r s, finishes (push_args fd args r) s.
Proof.
  induction args as [|a args IH]; intros r s; cbn [push_args]; [apply finishes_ret|].
  apply finishes_bind; [apply write_fd_finishes|]. intros w s' _. destruct (negb _); [apply finishes_ret|apply IH].
Qed.

(** The function that is called comes back: once a thread was given the frame of the
    call, one of the next [n] page faults is at the dummy address, or the thread cannot
    be controlled any more. *)
Definition comes_back (n : nat) (func : Z) (args : list Z) : Prop := ∀ fd saved k k',
  qk_setgreg fd (frame func args saved) k = (SysOk tt, k') → returns_within n fd k' = true.
Lemma call_function_finishes n fuel fd func args s : comes_back n func args → (n < fuel)%nat →
  finishes (call_function fuel fd func args) s.
Proof.
  intros Hback Hf. unfold call_function. apply finishes_check; [apply finishes_sys|]. intros saved s1 _.
  apply finishes_bind; [apply push_args_finishes|]. intros w s2 Ew.
  destruct (push_args_logs _ _ _ _ _ _ Ew) as (k & l & -> & _ & _ & Hw). destruct w.1.1; [|apply finishes_ret].
  destruct Hw as [-> _]. fold (frame func args saved).
  apply finishes_check; [apply finishes_sys|]. intros [] s3 E3%qsys_inv. apply Hback in E3.
  apply finishes_bind; [by apply (run_function_finishes n)|]. intros [op|r] s4 _; [apply finishes_ret|].
  apply finishes_check; [apply finishes_sys|]. intros _ s5 _. apply finishes_check; [apply finishes_sys|]. intros; apply finishes_ret.
Qed.
(** The process that was opened has a thread. *)
Definition has_thread (n : nat) (pid : Z) s : Prop := ∀ fd k,
  qk_open (as_path pid) true (q_fds s) (q_kern s) = (SysOk fd, k) → thread_within n fd 1 k = true.
Lemma remote_call_finishes n fuel pid func args s : has_thread n pid s → comes_back n func args → (n < fuel)%nat →
  finishes (frida_remote_call fuel pid func args) s.
Proof.
  intros Hth Hback Hf. unfold frida_remote_call. apply finishes_bind; [apply finishes_sys|].
  intros [fd|e] s1 E1%qsys_inv; [|apply finishes_ret]. apply Hth in E1.
  apply finishes_bind; [|by intros; do 2 eexists]. unfold call_in_thread.
  apply finishes_bind; [by apply (find_thread_finishes n); [lia|]|]. intros tid s2 _.
  apply finishes_check; [apply finishes_sys|]. intros _ s3 _. unfold settle_thread.
  apply finishes_check; [apply finishes_sys|]. intros st s4 _.
  destruct (st_state st); [apply finishes_ret|by apply (call_function_finishes n)|].
  apply finishes_check; [apply finishes_sys|]. intros _ s5 _. apply finishes_bind; [apply finishes_does|]. intros _ s6 _.
  apply finishes_check; [apply finishes_sys|]. intros st2 s7 _. destruct (st_why st2); [apply finishes_ret|].
  apply finishes_check; [apply finishes_sys|]. intros _ s8 _. by apply (call_function_finishes n).
Qed.
(** A process without threads, or one whose threads cannot be queried: the search for a
    thread never ends. *)
Lemma find_thread_spins fuel fd s :
  (∀ tid k, ∃ e, qk_tidstatus fd tid k = (SysErr e, k)) → find_active_thread fuel fd s = Stuck.
Proof.
  intros Hno. unfold find_active_thread. match goal with |- loop _ ?body _ _ = _ => set (b := body) end.
  enough (G : ∀ fuel tid s, loop fuel b tid s = Stuck) by apply G. clear fuel s.
  induction fuel as [|fuel IH]; intros tid s; [done|]. cbn [loop]. unfold bind at 1. unfold b at 1, bind, qsys.
  destruct (Hno tid (q_kern s)) as [e ->]. apply IH.
Qed.
End calls.
