(* ===== verification/QnxLibrary.v ===== *)
(** How the QNX injector recognizes a library by the path of a mapping, and which of
    several mappings it takes. *)
From stdpp Require Import pretty.
From S2P Require Import Prelude Posix Binjector BinjectorInstances PayloadCode Qinjector QinjectorInstances QnxCall.

(** ** Strings *)
Lemma strrchr_None l c : strrchr l c = None ↔ c ∉ l.
Proof.
  induction l as [|a l IH]; cbn; [by split; [intros _ ?%not_elem_of_nil|]|]. rewrite not_elem_of_cons.
  destruct (strrchr l c); [split; [done|]; intros [_ ?]; by apply IH in H|].
  destruct (Z.eqb_spec a c); split; try done; [by intros [? _]|]. intros _. split; [done|by apply IH].
Qed.
Lemma strrchr_last l c r : c ∉ r → strrchr (l ++ c :: r) c = Some (length l).
Proof.
  intros Hr. induction l as [|a l IH]; cbn; [|by rewrite IH]. apply strrchr_None in Hr as ->. by rewrite Z.eqb_refl.
Qed.
Lemma strrchr_Some l c i : strrchr l c = Some i → ∃ a r, l = a ++ c :: r ∧ length a = i ∧ c ∉ r.
Proof.
  revert i. induction l as [|y l IH]; intros i; cbn; [done|]. destruct (strrchr l c) as [j|] eqn:E.
  - intros [= <-]. destruct (IH _ eq_refl) as (a & r & -> & <- & Hr). by exists (y :: a), r.
  - destruct (Z.eqb_spec y c) as [->|]; [|done]. intros [= <-]. exists [], l. split_and!; [done|done|by apply strrchr_None].
Qed.
Lemma path_prefix_spec l p : str_has_prefix l p = true ↔ ∃ r, l = p ++ r.
Proof.
  revert l. induction p as [|b p IH]; intros l; cbn; [by split; [intros _; exists l|]|].
  destruct l as [|a l]; [split; [done|by intros [? ?]]|]. rewrite andb_true_iff, Z.eqb_eq, IH. split.
  - intros [-> [r ->]]. by exists r.
  - intros [r [= -> ->]]. split; [done|by exists r].
Qed.
Lemma path_suffix_spec l p : str_has_suffix l p = true ↔ ∃ a, l = a ++ p.
Proof.
  unfold str_has_suffix. rewrite path_prefix_spec. split; intros [r E].
  - exists (reverse r). apply (inj reverse). by rewrite E, reverse_app, reverse_involutive.
  - exists (reverse r). by rewrite E, reverse_app.
Qed.
Lemma char_at_app l r : char_at (l ++ r) (length l) = nth 0 r 0.
Proof. unfold char_at. rewrite app_nth2 by lia. by rewrite Nat.sub_diag. Qed.

(** ** Paths *)
(** A version: a dot, and what follows it begins with a digit and has no other dot. *)
Definition version (v : list Z) : Prop := v = [] ∨ ∃ d rest, v = DOT :: d :: rest ∧ is_digit d = true ∧ DOT ∉ d :: rest.
(** The path of a library: a directory, the library's name, a dash or a dot and more
    that ends in .so, and a version. *)
Definition names_library (name path : list Z) : Prop :=
  ∃ dir c stem v, path = dir ++ [SLASH] ++ (name ++ c :: stem) ++ v ∧
    SLASH ∉ (name ++ c :: stem) ++ v ∧ (c = DASH ∨ c = DOT) ∧
    (∃ a, name ++ c :: stem = a ++ bytes_of ".so") ∧ version v.

Lemma strip_version p v : (∃ a, p = a ++ bytes_of ".so") → version v → strip_numeric_suffix (p ++ v) = p.
Proof.
  intros [a ->] [->|(d & rest & -> & Hd & Hr)]; unfold strip_numeric_suffix.
  - rewrite app_nil_r. change (bytes_of ".so") with (DOT :: [115; 111]). rewrite strrchr_last by (apply (bool_decide_unpack _); by vm_compute).
    unfold char_at. rewrite app_nth2 by lia. replace (S (length a) - length a)%nat with 1%nat by lia. done.
  - rewrite strrchr_last by done. unfold char_at. rewrite app_nth2 by lia.
    replace (S (length (a ++ bytes_of ".so")) - length (a ++ bytes_of ".so"))%nat with 1%nat by lia. cbn [nth]. rewrite Hd.
    by rewrite take_app_length.
Qed.
Lemma strip_inv p : ∃ v, p = strip_numeric_suffix p ++ v ∧ version v.
Proof.
  unfold strip_numeric_suffix. destruct (strrchr p DOT) as [j|] eqn:E; [|exists []; by rewrite app_nil_r; split; [|left]].
  apply strrchr_Some in E as (a & r & -> & <- & Hr). unfold char_at. rewrite app_nth2 by lia.
  replace (S (length a) - length a)%nat with 1%nat by lia. cbn [nth]. destruct (is_digit _) eqn:Ed.
  - rewrite take_app_length. exists (DOT :: r). split; [done|right]. destruct r as [|d r]; [done|]. by exists d, r.
  - exists []. by rewrite app_nil_r; split; [|left].
Qed.

(** The test of the source recognizes exactly the paths of the library. *)
Lemma is_library_path_spec name path : is_library_path name path = true ↔ names_library name path.
Proof.
  unfold is_library_path. split.
  - destruct (strrchr path SLASH) as [i|] eqn:E; [|done]. apply strrchr_Some in E as (dir & r & -> & <- & Hr).
    replace (drop (S (length dir)) (dir ++ SLASH :: r)) with r
      by (change (SLASH :: r) with ([SLASH] ++ r); rewrite app_assoc, drop_app_length'; [done|rewrite length_app; cbn; lia]).
    destruct (strip_inv r) as (v & Ev & Hv). set (p := strip_numeric_suffix r) in *.
    destruct (str_has_prefix p name) eqn:Ep; [|done]. destruct (str_has_suffix p (bytes_of ".so")) eqn:Es; [|done]. cbn [andb].
    apply path_prefix_spec in Ep as [st Ep]. apply path_suffix_spec in Es. rewrite Ep, char_at_app.
    destruct st as [|c st]; [by vm_compute|]. cbn [nth]. rewrite orb_true_iff, !Z.eqb_eq. intros Hc.
    exists dir, c, st, v. rewrite <- Ep, <- Ev. split_and!; done.
  - intros (dir & c & st & v & -> & Hn & Hc & Hs & Hv). cbn [app]. rewrite strrchr_last by done.
    replace (drop (S (length dir)) _) with ((name ++ c :: st) ++ v)
      by (change (SLASH :: ?r) with ([SLASH] ++ r); rewrite app_assoc, drop_app_length'; [done|rewrite length_app; cbn; lia]).
    rewrite strip_version by done. rewrite (proj2 (path_prefix_spec _ _)) by by exists (c :: st).
    rewrite (proj2 (path_suffix_spec _ _)) by done. cbn [andb]. rewrite char_at_app. cbn [nth].
    rewrite orb_true_iff, !Z.eqb_eq. done.
Qed.

(** ** The mapping that is taken *)
Definition no_library (name : list Z) (seen : list (Z * list Z)) : Prop := Forall (λ m, ¬ names_library name m.2) seen.
(** The last mapping whose path is the name itself. *)
Definition exact_choice (name : list Z) (seen : list (Z * list Z)) (v : Z * option (list Z)) : Prop :=
  match v.2 with
  | Some p => p = name ∧ ∃ before after, seen = before ++ (v.1, p) :: after ∧ Forall (λ m, m.2 ≠ name) after
  | None => v.1 = 0 ∧ Forall (λ m, m.2 ≠ name) seen
  end.
(** The first mapping of the library ends the search; without one, the name itself is
    good enough. *)
Definition library_choice (name : list Z) (seen : list (Z * list Z)) (v : Z * option (list Z)) : Prop :=
  (∃ before p, v.2 = Some p ∧ seen = before ++ [(v.1, p)] ∧ names_library name p ∧ no_library name before) ∨
  (no_library name seen ∧ exact_choice name seen v).

Lemma names_library_slash name path : names_library name path → SLASH ∈ path.
Proof. intros (dir & c & stem & v & -> & _). set_solver. Qed.
Lemma exact_choice_other name seen v a p : p ≠ name → exact_choice name seen v → exact_choice name (seen ++ [(a, p)]) v.
Proof.
  intros Hp. unfold exact_choice. destruct v.2 as [q|].
  - intros (-> & b & r & -> & Hr). split; [done|]. exists b, (r ++ [(a, p)]). rewrite <- app_assoc. split; [done|].
    apply Forall_app. by repeat constructor.
  - intros [-> Hs]. split; [done|]. apply Forall_app. by repeat constructor.
Qed.
Lemma no_library_snoc name seen a p : no_library name seen → ¬ names_library name p → no_library name (seen ++ [(a, p)]).
Proof. intros Hs Hp. apply Forall_app. by repeat constructor. Qed.

(** The mappings whose paths were read. *)
Definition map_seen (a : qact) : list (Z * list Z) := match a with MapRead _ v p => [(v, p)] | _ => [] end.
Definition maps_seen (l : list qact) : list (Z * list Z) := concat (map_seen <$> l).
Lemma maps_seen_app l1 l2 : maps_seen (l1 ++ l2) = maps_seen l1 ++ maps_seen l2.
Proof. unfold maps_seen. by rewrite fmap_app, concat_app. Qed.

Lemma maps_seen_session path fd l : maps_seen (Opened path fd :: l ++ [Closed fd]) = maps_seen l.
Proof. change (maps_seen (l ++ [Closed fd]) = maps_seen l). rewrite maps_seen_app. apply app_nil_r. Qed.
Definition is_map_read (a : qact) : bool := match a with MapRead _ _ _ => true | _ => false end.
Lemma reads_calm l : Forall is_map_read l → calm l.
Proof. intros Hl. eapply Forall_impl; [exact Hl|]. by intros []. Qed.

Section scan.
Context {K : Type} `{QnxLaws K}.
Implicit Types (s : qinjector K) (k : K).

Definition refused (fd vaddr : Z) : Prop := ∃ (k : K) e, (qk_mapdebug fd vaddr k).1 = SysErr e.
(** The mappings [seen] are all of [infos], or the search ended before. *)
Definition seen_enough (fd : Z) (name infos : list Z) (seen : list (Z * list Z)) (v : Z * option (list Z)) : Prop :=
  seen.*1 = infos ∨ (∃ p, v.2 = Some p ∧ names_library name p) ∨
  ∃ vaddr rest, infos = seen.*1 ++ vaddr :: rest ∧ refused fd vaddr.

Lemma scan_logs fd name infos : SLASH ∉ name → ∀ n r before s, (length infos ≤ n)%nat →
  no_library name before → exact_choice name before r →
  plogs (scan_mappings fd name true infos n r.1 r.2) s (λ v l,
    Forall is_map_read l ∧ library_choice name (before ++ maps_seen l) v ∧ seen_enough fd name infos (maps_seen l) v).
Proof.
  intros Hname. induction infos as [|vaddr infos IH]; intros [|n] r before s Hn Hb Hr; cbn [scan_mappings length] in *; try lia.
  { apply plogs_ret. rewrite app_nil_r. split_and!; [constructor|right; by destruct r|by left]. }
  { apply plogs_crash. }
  apply plogs_bind, plogs_sys. intros [path|e] k E k'; cycle 1.
  { apply plogs_ret. cbn. rewrite app_nil_r. split_and!; [constructor|right; by destruct r|].
    right. right. exists vaddr, infos. split; [done|]. exists (q_kern s), e. by rewrite E. }
  assert (Hnext : ∀ r', ¬ names_library name path → exact_choice name (before ++ [(vaddr, path)]) r' →
    plogs (scan_mappings fd name true infos n r'.1 r'.2) (q_with k' [MapRead fd vaddr path] s) (λ v l',
      Forall is_map_read ([MapRead fd vaddr path] ++ l') ∧ library_choice name (before ++ maps_seen ([MapRead fd vaddr path] ++ l')) v ∧
      seen_enough fd name (vaddr :: infos) (maps_seen ([MapRead fd vaddr path] ++ l')) v)).
  { intros r' Hno Hr'. eapply plogs_mono; [apply (IH _ r' (before ++ [(vaddr, path)])); [lia|by apply no_library_snoc|done]|].
    cbn beta. intros v l (Hc & Hl & He). split_and!; [by constructor|by rewrite <- app_assoc in Hl|].
    destruct He as [He|[He|(a & rest & E2 & Hr2)]]; [left; by rewrite <- He|by right; left|].
    right. right. exists a, rest. by rewrite E2. }
  destruct (decide (path = name)) as [->|Hp].
  - apply (Hnext (vaddr, Some name)); [by intros Hnl%names_library_slash|]. split; [done|]. by exists before, [].
  - destruct (is_library_path name path) eqn:Ep.
    + apply plogs_ret. apply is_library_path_spec in Ep. split_and!; [by repeat constructor| |by right; left; eexists].
      left. by exists before, path.
    + apply (Hnext r); [|by apply exact_choice_other]. rewrite <- is_library_path_spec, Ep. done.
Qed.
Lemma scan_calm fd name want infos : ∀ n r p s, plogs (scan_mappings fd name want infos n r p) s (λ _ l, calm l).
Proof.
  induction infos as [|vaddr infos IH]; intros [|n] r p s; cbn [scan_mappings]; try (apply plogs_ret; constructor).
  { apply plogs_crash. }
  apply plogs_bind, plogs_sys. intros [path|e] k _ k'; [|apply plogs_ret; constructor].
  assert (Hnext : ∀ r' p', plogs (scan_mappings fd name want infos n r' p') (q_with k' [MapRead fd vaddr path] s)
    (λ _ l', calm ([MapRead fd vaddr path] ++ l'))).
  { intros r' p'. eapply plogs_mono; [apply IH|]. intros v l Hl. by constructor. }
  destruct (decide _); [apply Hnext|]. destruct (is_library_path name path); [|apply Hnext].
  destruct want; [|apply Hnext]. apply plogs_ret. by repeat constructor.
Qed.
(** The search ends, unless it runs past the mappings that were stored. *)
Lemma scan_ends fd name want infos : ∀ n r p s, (length infos ≤ n)%nat →
  finishes (scan_mappings fd name want infos n r p) s ∨
  scan_mappings fd name want infos n r p s = Crash ∧ (length infos < n)%nat.
Proof.
  induction infos as [|vaddr infos IH]; intros [|n] r p s Hn; cbn [scan_mappings length] in *; try lia.
  { left. apply finishes_ret. }
  { right. split; [done|lia]. }
  unfold finishes, bind, qsys. destruct (qk_mapdebug fd vaddr (q_kern s)) as [[path|e] k]; [|left; by do 2 eexists]. cbn.
  assert (Hnext : ∀ r' p' s', finishes (scan_mappings fd name want infos n r' p') s' ∨
    scan_mappings fd name want infos n r' p' s' = Crash ∧ (S (length infos) < S n)%nat).
  { intros r' p' s'. destruct (IH n r' p' s' ltac:(lia)) as [Hf|[Hc Hl]]; [by left|right; split; [done|lia]]. }
  destruct (decide _); [apply Hnext|].
  destruct (is_library_path name path); [destruct want; [left; apply finishes_ret|]|]; apply Hnext.
Qed.

Lemma find_library_balanced pid name want s :
  plogs (frida_find_library_base pid name want) s (λ _ l, balanced (q_fds s) l).
Proof.
  unfold frida_find_library_base. apply plogs_bind, open_logs; [intros fd Hfd k|intros e k]; [|by apply plogs_ret].
  apply plogs_bind. apply (plogs_mono _ _ (λ _ l, calm l)).
  - apply plogs_bind, plogs_sys. intros [n|e] k2 _ k2'; [|apply plogs_ret; constructor].
    apply plogs_bind, plogs_sys. intros [[infos total]|e] k3 _ k3'; [|apply plogs_ret; constructor].
    eapply plogs_mono; [apply scan_calm|]. intros v l Hl. by constructor.
  - intros v l Hl k2. apply plogs_bind, plogs_does. intros k3. apply plogs_ret. rewrite app_nil_r. by apply balanced_session.
Qed.

(** As many mappings are stored as there was room for. *)
Lemma stored_room fd n infos total k k' :
  qk_pagedata fd n k = (SysOk (infos, total), k') →
  (length infos ≤ Z.to_nat total)%nat ∧ ((length infos < Z.to_nat total)%nat → n < total).
Proof. intros E. apply ql_pagedata_room in E. unfold zlen in E. lia. Qed.
(** The log of a search; the search reads mappings in order. *)
Definition search_result (pid : Z) (name : list Z) (fds : gset Z) (v : Z * option (list Z)) (l : list qact) : Prop :=
  balanced fds l ∧ library_choice name (maps_seen l) v ∧
  ∀ fd infos, MapsRead fd infos ∈ l → seen_enough fd name infos (maps_seen l) v.
Lemma find_library_logs pid name s : SLASH ∉ name →
  plogs (frida_find_library_base pid name true) s (search_result pid name (q_fds s)).
Proof.
  intros Hname. assert (Hno : library_choice name [] (0, None)) by (right; split; [constructor|split; [done|constructor]]).
  unfold frida_find_library_base. apply plogs_bind, open_logs; [intros fd Hfd k|intros e k]; cycle 1.
  { apply plogs_ret. split_and!; [done|done|]. by intros ? ? ?%not_elem_of_nil. }
  apply plogs_bind. apply (plogs_mono _ _ (λ v l, calm l ∧ library_choice name (maps_seen l) v ∧
    ∀ f infos, MapsRead f infos ∈ l → seen_enough f name infos (maps_seen l) v)).
  - assert (Hnone : calm [] ∧ library_choice name (maps_seen []) (0, None) ∧
      ∀ f infos, MapsRead f infos ∈ [] → seen_enough f name infos (maps_seen []) (0, None)).
    { split_and!; [constructor|done|]. by intros ? ? ?%not_elem_of_nil. }
    unfold bind at 1. intros v s'. unfold qsys at 1. cbn beta.
    destruct (qk_pagedata_size fd _) as [[n|e] k2] eqn:E1; [|intros [= <- <-]; by exists k2, []].
    unfold bind at 1, qsys at 1. cbn [q_kern q_with]. destruct (qk_pagedata fd n k2) as [[[infos total]|e] k3] eqn:E2;
      [|intros [= <- <-]; exists k3, []; by rewrite q_with_app].
    intros Ev. apply (scan_logs fd name infos Hname _ (0, None) []) in Ev as (k4 & l & -> & Hc & Hl & He);
      [|by eapply stored_room|constructor|by split; [|constructor]].
    exists k4, ([MapsRead fd infos] ++ l). rewrite !q_with_app. split; [done|]. split_and!; [constructor; [done|by apply reads_calm]|done|].
    intros f infos2 [[= -> ->]|Hin]%elem_of_cons; [done|]. exfalso.
    rewrite Forall_forall in Hc. by apply Hc in Hin.
  - cbn beta. intros v l (Hc & Hl & He) k2. apply plogs_bind, plogs_does. intros k3. apply plogs_ret. rewrite app_nil_r.
    unfold search_result. cbn [app]. rewrite maps_seen_session. split_and!; [by apply balanced_session|done|].
    intros f infos. rewrite elem_of_cons, elem_of_app, list_elem_of_singleton.
    intros [[=]|[Hin|[=]]]. by apply He.
Qed.
(** The process got more mappings between the request for their number and the request
    for the mappings. *)
Definition mappings_added (pid : Z) s : Prop := ∃ fd n infos total k k1 k2,
  qk_open (as_path pid) false (q_fds s) (q_kern s) = (SysOk fd, k) ∧
  qk_pagedata_size fd k = (SysOk n, k1) ∧ qk_pagedata fd n k1 = (SysOk (infos, total), k2) ∧ n < total.
Lemma find_library_ends pid name want s :
  finishes (frida_find_library_base pid name want) s ∨
  frida_find_library_base pid name want s = Crash ∧ mappings_added pid s.
Proof.
  unfold frida_find_library_base, mappings_added, finishes, q_open, bind, qsys.
  destruct (qk_open (as_path pid) false (q_fds s) (q_kern s)) as [[fd|e] k]; [|left; by do 2 eexists]. cbn.
  destruct (qk_pagedata_size fd k) as [[n|e] k1] eqn:E1; [|left; by do 2 eexists]. cbn.
  destruct (qk_pagedata fd n k1) as [[[infos total]|e] k2] eqn:E2; [|left; by do 2 eexists].
  destruct (stored_room _ _ _ _ _ _ E2) as [Hl Hg].
  match goal with |- context [scan_mappings fd name want infos _ 0 None ?t] =>
    destruct (scan_ends fd name want infos (Z.to_nat total) 0 None t Hl) as [(v & s' & ->)|[-> Hlt]] end.
  - left. by do 2 eexists.
  - right. split; [done|]. exists fd, n, infos, total, k, k1, k2. auto.
Qed.
End scan.
