(* ===== verification/QnxInject.v ===== *)
(** Injections of the QNX injector: what a successful one has done, that a failed one
    leaves nothing behind, and who owns the channels. *)
From stdpp Require Import pretty.
From S2P Require Import Prelude Posix Binjector BinjectorInstances PayloadCode Qinjector QinjectorInstances QnxCall QnxLibrary.

Section inject.
Context {K : Type} `{QnxHeaders} `{QnxLaws K}.
Implicit Types (s : qinjector K) (k : K).

(** ** Computations that close what they open *)
Definition tidy {A} (m : M (qinjector K) A) : Prop := ∀ s, plogs m s (λ _ l, balanced (q_fds s) l).
Lemma fds_balanced k l s : balanced (q_fds s) l → q_fds (q_with k l s) = q_fds s.
Proof. intros [E _]. by rewrite q_fds_with. Qed.
Lemma tidy_ret {A} (a : A) : tidy (ret a).
Proof. intros s. by apply plogs_ret. Qed.
Lemma tidy_bind {A B} (m : M (qinjector K) A) (f : A → M (qinjector K) B) : tidy m → (∀ v, tidy (f v)) → tidy (bind m f).
Proof.
  intros Hm Hf s. apply plogs_bind. eapply plogs_mono; [apply Hm|]. cbn beta. intros v l Hl k.
  eapply plogs_mono; [apply Hf|]. cbn beta. intros w l'. rewrite fds_balanced by done. by apply balanced_app.
Qed.
Lemma tidy_assert b : tidy (c_assert b).
Proof. intros s. by apply plogs_assert. Qed.
Lemma tidy_crash {A} : tidy (crash (A := A)).
Proof. intros s. apply plogs_crash. Qed.
Lemma tidy_ask {A} (f : K → A) : tidy (qask f).
Proof. intros s. by apply plogs_ask. Qed.
Lemma tidy_quiet {A} (m : M (qinjector K) A) : (∀ s, plogs m s (λ _ l, l = [])) → tidy m.
Proof. intros Hm s. eapply plogs_mono; [apply Hm|]. by intros _ l ->. Qed.
Lemma tidy_find pid name want : tidy (frida_find_library_base pid name want).
Proof. intros s. apply find_library_balanced. Qed.
Lemma tidy_call fuel pid func args : tidy (frida_remote_call fuel pid func args).
Proof. intros s. eapply plogs_mono; [apply remote_call_logs|]. intros v l. apply remote_call_balanced. Qed.
Ltac tidy_step :=
  lazymatch goal with
  | |- tidy (bind _ _) => apply tidy_bind; [|intros ?]
  | |- tidy (ret _) => apply tidy_ret
  | |- tidy (c_assert _) => apply tidy_assert
  | |- tidy (qask _) => apply tidy_ask
  | |- tidy crash => apply tidy_crash
  | |- tidy (qdoes _ []) => apply tidy_quiet; intros ?; by apply plogs_does
  | |- tidy (if ?b then _ else _) => destruct b
  | |- tidy (frida_find_library_base _ _ _) => apply tidy_find
  | |- tidy (frida_remote_call _ _ _ _) => apply tidy_call
  end.
Lemma tidy_resolve pid name : tidy (frida_resolve_remote_libc_function pid name).
Proof.
  unfold frida_resolve_remote_libc_function, frida_resolve_remote_library_function. repeat tidy_step.
  apply tidy_quiet. intros s w s'. destruct (qk_dlopen _ _) as [m k]. intros [= <- <-]. by exists k, [].
Qed.
Lemma tidy_int_call fuel pid name what args : tidy (remote_int_call fuel pid name what args).
Proof. unfold remote_int_call. apply tidy_bind; [apply tidy_resolve|]. intros f. repeat tidy_step. Qed.
Lemma tidy_emit params : tidy (frida_emit_payload_code params).
Proof. unfold frida_emit_payload_code. repeat first [tidy_step|apply tidy_resolve]. Qed.

(** ** The steps of an injection *)
(** A function of the process was looked up and called: [l] has the search, and the
    call that returned [retval]. *)
Definition has_called (pid func : Z) (args : list Z) (retval : Z) (fds : gset Z) (l : list qact) : Prop :=
  ∃ l1 fd l2, l = l1 ++ Opened (as_path pid) fd :: l2 ++ [Closed fd] ∧ fd ∉ fds ∧ balanced fds l1 ∧
    called_in_thread pid fd func args retval l2.
Lemma resolve_then_call {B} fuel pid name args s (f : Z → M (qinjector K) B) (P : B → list qact → Prop)
    (g : qrv * option Z → M (qinjector K) B) (early : B) :
  (∀ l, balanced (q_fds s) l → P early l) →
  (∀ v l k, balanced (q_fds s) l → (v.1.1 = true → ∃ func retval, v.2 = Some retval ∧ has_called pid func args retval (q_fds s) l) →
     plogs (g v) (q_with k l s) (λ w l', P w (l ++ l'))) →
  (∀ a, f a = if a =? ALL_ONES then ret early else bind (frida_remote_call fuel pid a args) g) →
  plogs (bind (frida_resolve_remote_libc_function pid name) f) s P.
Proof.
  intros He Hg Ef. apply plogs_bind. eapply plogs_mono; [apply tidy_resolve|]. cbn beta. intros a l Hl k. rewrite Ef.
  destruct (a =? ALL_ONES); [apply plogs_ret; rewrite app_nil_r; by apply He|].
  apply plogs_bind. eapply plogs_mono; [apply remote_call_logs|]. cbn beta. intros v l' Hv k'. rewrite q_with_app.
  pose proof (remote_call_balanced _ _ _ _ _ _ Hv) as Hb. rewrite fds_balanced in Hb, Hv by done.
  eapply plogs_mono; [apply Hg; [by apply balanced_app|]|intros w l''; by rewrite app_assoc].
  destruct v as [[b e] o]. cbn [fst snd]. intros ->. destruct Hv as [[-> [=]]|(fd & l2 & Hfd & -> & Hc & Hr)]. unfold call_result in Hr. cbn [fst snd] in Hr.
  destruct Hr as (_ & retval & E & Hr). exists a, retval. split; [done|]. by exists l, fd, l2.
Qed.
Lemma int_call_logs fuel pid name what args s :
  plogs (remote_int_call fuel pid name what args) s (λ r l, balanced (q_fds s) l ∧
    (r.1 = 0 → ∃ func retval, s32 retval = 0 ∧ has_called pid func args retval (q_fds s) l)).
Proof.
  unfold remote_int_call. eapply (resolve_then_call fuel pid name args s _ _
    (λ c, if negb c.1.1 then ret (-1, c.1.2) else ret (s32 (default 0 c.2), None)) (-1, Some what)); [done| |done].
  intros [[b e] o] l k Hl Hv. cbn [fst snd] in *. destruct b; apply plogs_ret; rewrite app_nil_r; (split; [done|]); [|done].
  cbn [fst]. intros Hz. destruct (Hv eq_refl) as (func & retval & -> & Hc). by exists func, retval.
Qed.
Lemma alloc_logs fuel pid size prot s :
  plogs (frida_remote_alloc fuel pid size prot) s (λ r l, balanced (q_fds s) l ∧
    (r.2 = None → r.1 ≠ 0 → ∃ func, has_called pid func [0; size; prot; MAP_PRIVATE_ANONYMOUS; ALL_ONES; 0] r.1 (q_fds s) l)).
Proof.
  unfold frida_remote_alloc. cbn zeta. eapply (resolve_then_call fuel pid "mmap" _ s _ _
    (λ c, if negb c.1.1 then ret (0, c.1.2) else
          if default 0 c.2 =? ALL_ONES then ret (0, None) else ret (default 0 c.2, None)) (ALL_ONES, Some "remote_alloc"%string)); [done| |done].
  intros [[b e] o] l k Hl Hv. cbn [fst snd] in *. destruct b; cbn [negb]; [|apply plogs_ret; rewrite app_nil_r; by split].
  destruct (default 0 o =? ALL_ONES); apply plogs_ret; rewrite app_nil_r; (split; [done|]); [done|]. cbn [fst snd].
  intros _ _. destruct (Hv eq_refl) as (func & retval & -> & Hc). by exists func.
Qed.

(** ** Transferring the payload and starting it *)
Lemma remote_write_logs pid address data s : zlen data < 2 ^ 32 - 1 →
  plogs (frida_remote_write pid address data) s (λ w l, balanced (q_fds s) l ∧
    (w.1 = true → ∃ fd, fd ∉ q_fds s ∧ l = [Opened (as_path pid) fd; MemoryWritten fd address data; Closed fd])).
Proof.
  intros Hd. unfold frida_remote_write. apply plogs_bind, open_logs; [intros fd Hfd k|intros e k]; [|by apply plogs_ret].
  apply plogs_bind. eapply plogs_mono; [by apply write_fd_logs|]. cbn beta. intros [b e] l (Hc & _ & Hw) k2.
  apply plogs_bind, plogs_does. intros k3. apply plogs_ret. rewrite app_nil_r. split; [by apply balanced_session|].
  cbn [fst] in *. intros ->. destruct Hw as [_ ->]. by exists fd.
Qed.
Lemma store_chunk_logs offset bs c s (P : list Z → list qact → Prop) :
  (offset + zlen bs ≤ sizeof_chunk → P (zwrite offset bs c) []) → plogs (store_chunk offset bs c) s P.
Proof.
  intros HP. unfold store_chunk. destruct (Z.leb_spec (offset + zlen bs) sizeof_chunk); [apply plogs_ret; auto|apply plogs_crash].
Qed.
Definition data_at (field : Z) : Z := FRIDA_REMOTE_DATA_OFFSET + field.
(** The chunk for some code and strings. *)
Definition filled (assemble : list insn → list Z) (chunk : list Z) (code : list insn) (params : FridaInjectionParams) : list Z :=
  zwrite (data_at qfield_module_handle) (le_bytes 4 0) (zwrite (data_at qfield_worker_thread) (le_bytes 4 0)
    (strcpy (data_at qfield_entrypoint_data) (qp_entrypoint_data params)
      (strcpy (data_at qfield_entrypoint_name) (qp_entrypoint_name params)
        (strcpy (data_at qfield_so_path) (qp_so_path params) (zwrite 0 (assemble code) chunk))))).
Lemma fill_chunk_logs assemble chunk code params s :
  plogs (fill_chunk assemble chunk code params) s (λ c l, l = [] ∧ c = filled assemble chunk code params).
Proof.
  unfold fill_chunk, strcpy_chunk. do 5 (apply plogs_bind, store_chunk_logs; intros _ ?). apply store_chunk_logs. by intros _.
Qed.
Lemma fill_chunk_runs assemble chunk code params s :
  zlen (assemble code) ≤ sizeof_chunk →
  Forall (λ f : Z * string, data_at f.1 + zlen (bytes_of f.2 ++ [0]) ≤ sizeof_chunk)
    [(qfield_so_path, qp_so_path params); (qfield_entrypoint_name, qp_entrypoint_name params);
     (qfield_entrypoint_data, qp_entrypoint_data params)] →
  fill_chunk assemble chunk code params s = Ret (filled assemble chunk code params, s).
Proof.
  intros Hc Hf. rewrite !Forall_cons in Hf. destruct Hf as (H1' & H2' & H3' & _). cbn [fst snd] in *. unfold data_at in *.
  unfold fill_chunk, strcpy_chunk, store_chunk, bind. rewrite (proj2 (Z.leb_le _ _)) by (cbn; lia). cbn [ret].
  rewrite (proj2 (Z.leb_le _ _) H1'). cbn [ret]. rewrite (proj2 (Z.leb_le _ _) H2'). cbn [ret]. rewrite (proj2 (Z.leb_le _ _) H3'). done.
Qed.

(** The payload was written to [address], the caches were flushed and a thread was
    started there. *)
Definition started (pid address : Z) (block : list Z) (fds : gset Z) (l : list qact) : Prop :=
  ∃ l0 fd lm lp msync pthread_create r1 r2,
    l = l0 ++ [Opened (as_path pid) fd; MemoryWritten fd address block; Closed fd] ++ lm ++ lp ∧ balanced fds l0 ∧
    has_called pid msync [address; FRIDA_REMOTE_PAYLOAD_SIZE; MS_INVALIDATE_ICACHE] r1 fds lm ∧ s32 r1 = 0 ∧
    has_called pid pthread_create [qdata_field address qfield_worker_thread; 0; address; 0] r2 fds lp ∧ s32 r2 = 0.
(** What is transferred: code for the functions of the process, and the data. *)
Definition payload_block (assemble : list insn → list Z) (chunk : list Z) (api : payload_api) (me : Z) (params : FridaInjectionParams) : list Z :=
  ztake (FRIDA_REMOTE_DATA_OFFSET + sizeof_qtrampoline) (filled assemble chunk (payload_code api me params) params).
Lemma emit_is_payload params s :
  plogs (frida_emit_payload_code params) s (λ code l, balanced (q_fds s) l ∧ ∃ api me, code = payload_code api me params).
Proof.
  intros code s' E. destruct (tidy_emit params s code s' E) as (k & l & -> & Hl). exists k, l. split_and!; [done|done|].
  enough (Hp : plogs (frida_emit_payload_code params) s (λ code _, ∃ api me, code = payload_code api me params))
    by (by destruct (Hp _ _ E) as (_ & _ & _ & ?)).
  unfold frida_emit_payload_code. apply plogs_bind. eapply plogs_mono; [apply tidy_resolve|]. cbn beta. intros a1 l1 _ ?.
  apply plogs_bind, plogs_ask. intros me ?. do 8 (apply plogs_bind; eapply plogs_mono; [apply tidy_resolve|]; cbn beta; intros ? ? _ ?).
  apply plogs_ret. by do 2 eexists.
Qed.
Lemma zlen_block assemble chunk api me params : zlen (payload_block assemble chunk api me params) < 2 ^ 32 - 1.
Proof. unfold payload_block. rewrite zlen_ztake. unfold FRIDA_REMOTE_DATA_OFFSET, sizeof_qtrampoline. lia. Qed.
Lemma execute_logs fuel assemble chunk params s :
  let pid := qp_pid params in let address := qp_remote_address params in
  plogs (frida_emit_and_remote_execute fuel assemble chunk frida_emit_payload_code params) s (λ r l, balanced (q_fds s) l ∧
    (r.1 = true → ∃ api me, started pid address (payload_block assemble chunk api me params) (q_fds s) l)).
Proof.
  intros pid address. unfold frida_emit_and_remote_execute. fold pid address. apply plogs_bind. eapply plogs_mono; [apply emit_is_payload|].
  cbn beta. intros code l0 (Hl0 & api & me & ->) k. apply plogs_bind. eapply plogs_mono; [apply fill_chunk_logs|].
  cbn beta. intros c l [-> ->] k2. rewrite !q_with_app, app_nil_r. fold (payload_block assemble chunk api me params).
  set (block := payload_block _ _ _ _ _). apply plogs_bind. eapply plogs_mono; [apply remote_write_logs, zlen_block|].
  cbn beta. intros w l1 [Hl1 Hw] k3. rewrite fds_balanced in Hl1, Hw by done.
  assert (Hb1 : balanced (q_fds s) (l0 ++ l1)) by by apply balanced_app.
  destruct w.1; cbn [negb]; [|apply plogs_ret; cbn [app]; rewrite app_nil_r; by split].
  destruct (Hw eq_refl) as (fd & Hfd & ->). rewrite q_with_app. apply plogs_bind.
  eapply plogs_mono; [apply int_call_logs|]. cbn beta. intros r lm [Hlm Hr] k4. rewrite fds_balanced in Hlm, Hr by done. cbn [app].
  assert (Hb2 : balanced (q_fds s) ((l0 ++ [Opened (as_path pid) fd; MemoryWritten fd address block; Closed fd]) ++ lm)) by by apply balanced_app.
  rewrite q_with_app. destruct (Z.eqb_spec r.1 0) as [Ez|]; cbn [negb]; [|apply plogs_ret; rewrite app_nil_r; split; [by rewrite <- app_assoc in Hb2|done]].
  apply plogs_bind. eapply plogs_mono; [apply int_call_logs|]. cbn beta. intros r2 lp [Hlp Hr2] k5. rewrite fds_balanced in Hlp, Hr2 by done.
  destruct (Hr Ez) as (f1 & v1 & E1 & Hc1). assert (Hb3 := balanced_app _ _ _ Hb2 Hlp).
  destruct (Z.eqb_spec r2.1 0) as [Ez2|]; cbn [negb]; rewrite <- !app_assoc in Hb3; apply plogs_ret; rewrite !app_nil_r; (split; [exact Hb3|]); [|done].
  intros _. destruct (Hr2 Ez2) as (f2 & v2 & E2 & Hc2). exists api, me. exists l0, fd, lm, lp, f1, f2, v1, v2. by split_and!.
Qed.

(** ** Instances *)
Lemma bind_returns {A B} (m : M (qinjector K) A) (f : A → M (qinjector K) B) s v s' :
  bind m f s = Ret (v, s') → ∃ a s1, m s = Ret (a, s1) ∧ f a s1 = Ret (v, s').
Proof. unfold bind. destruct (m s) as [[a s1]| | |]; [|done..]. eauto. Qed.
Lemma free_logs fuel i policy s :
  plogs (frida_injection_instance_free fuel i policy) s (λ _ l,
    ∃ l0, l = l0 ++ [ChannelDestroyed (qi_channel_id i)] ∧ balanced (q_fds s) l0).
Proof.
  unfold frida_injection_instance_free. apply plogs_bind. apply (plogs_mono _ _ (λ _ l, balanced (q_fds s) l)).
  - destruct (_ && _); [|by apply plogs_ret]. apply plogs_bind. eapply plogs_mono; [apply tidy_int_call|]. cbn beta.
    intros v l Hl k. apply plogs_ret. by rewrite app_nil_r.
  - cbn beta. intros _ l Hl k. apply plogs_does. by exists l.
Qed.

Definition created (ch : Z) : list qact := if 0 <=? ch then [ChannelCreated ch] else [].
Lemma created_calm ch fds : qfds_from fds (created ch) = fds.
Proof. unfold created. by destruct (0 <=? ch). Qed.
(** The payload is in memory that the process allocated, and runs there. *)
Definition injection_done (assemble : list insn → list Z) (chunk : list Z) (params : FridaInjectionParams) (fds : gset Z) (l : list qact) : Prop :=
  ∃ la ls mmap api me, l = la ++ ls ∧
    has_called (qp_pid params) mmap [0; FRIDA_REMOTE_PAYLOAD_SIZE; PROT_READ_WRITE_EXEC; MAP_PRIVATE_ANONYMOUS; ALL_ONES; 0]
      (qp_remote_address params) fds la ∧
    started (qp_pid params) (qp_remote_address params) (payload_block assemble chunk api me params) fds ls.
(** A new instance with a channel of its own, or none. *)
Definition inject_outcome (assemble : list insn → list Z) (chunk : list Z) (pid : Z) (path entrypoint data : string) s (r : Z * option string) s' : Prop :=
  ∃ ch l, ch ∉ q_channels s ∧ q_log s' = q_log s ++ created ch ++ l ∧ q_next_id s' = u32 (q_next_id s + 1) ∧
    ((r.1 = q_next_id s ∧ ∃ a, a ≠ 0 ∧ q_instances s' = <[r.1 := mk_instance r.1 pid false ch a]> (q_instances s) ∧
        balanced (q_fds s) l ∧
        (r.2 = None → injection_done assemble chunk (mk_qparams pid path entrypoint data ch a) (q_fds s) l)) ∨
     (r.1 = 0 ∧ q_instances s' = q_instances s ∧ ∃ l0, l = l0 ++ [ChannelDestroyed ch] ∧ balanced (q_fds s) l0)).
Lemma do_inject_outcome fuel assemble chunk pid path entrypoint data s r s' :
  _frida_qinjector_do_inject fuel assemble chunk pid path entrypoint data s = Ret (r, s') →
  inject_outcome assemble chunk pid path entrypoint data s r s'.
Proof.
  unfold _frida_qinjector_do_inject. intros E. apply bind_returns in E as (id & s0 & [= <- <-] & E).
  apply bind_returns in E as (? & s1 & [= _ <-] & E). set (s1 := mk_qin _ _ _ _) in E.
  apply bind_returns in E as (i & s2 & Ei & E). unfold frida_injection_instance_new in Ei. change (q_channels s1) with (q_channels s) in Ei.
  pose proof (ql_channel_fresh (q_channels s) (q_kern s1)) as Hch. destruct (qk_channel_create _ _) as [ch k]. cbn [fst] in Hch.
  injection Ei as <- <-. fold (created ch) in E. set (s2 := q_with k (created ch) s1) in E.
  assert (Hfds : q_fds s2 = q_fds s) by (subst s2; rewrite q_fds_with; apply created_calm).
  apply bind_returns in E as (a & s3 & Ea & E). apply alloc_logs in Ea as (k3 & la & -> & Hla & Ha). rewrite Hfds in Hla, Ha.
  assert (Hfds3 : q_fds (q_with k3 la s2) = q_fds s) by (rewrite fds_balanced; [done|by rewrite Hfds]).
  exists ch. destruct (Z.eqb_spec a.1 0) as [Ez|Ez].
  - apply bind_returns in E as (? & s4 & Ef & E). injection E as <- <-. apply free_logs in Ef as (k4 & l & -> & l0 & -> & Hl0). rewrite Hfds3 in Hl0.
    exists (la ++ l0 ++ [ChannelDestroyed ch]). split_and!; [done|cbn; by rewrite <- !app_assoc|done|]. right. split_and!; [done|done|].
    exists (la ++ l0). rewrite <- app_assoc. split; [done|]. by apply balanced_app.
  - apply bind_returns in E as (x1 & s4 & Ex & E). apply execute_logs in Ex as (k4 & le & -> & Hle & Hx). rewrite Hfds3 in Hle, Hx.
    cbn [qp_pid qp_remote_address qi_channel_id] in *. destruct x1.1; cbn [negb] in E.
    + apply bind_returns in E as (? & s5 & [= _ <-] & E). injection E as <- <-. exists (la ++ le).
      split_and!; [done|cbn; by rewrite <- !app_assoc|done|]. left. split; [done|]. exists a.1. split_and!; [done|done|by apply balanced_app|].
      cbn [snd]. intros Hn. destruct (Ha Hn Ez) as (mmap & Hm). destruct (Hx eq_refl) as (api & me & Hs). by exists la, le, mmap, api, me.
    + apply bind_returns in E as (? & s5 & Ef & E). injection E as <- <-. apply free_logs in Ef as (k5 & l & -> & l0 & -> & Hl0).
      rewrite fds_balanced in Hl0 by by rewrite Hfds3. rewrite Hfds3 in Hl0.
      exists (la ++ le ++ l0 ++ [ChannelDestroyed ch]). split_and!; [done|cbn; by rewrite <- !app_assoc|done|]. right. split_and!; [done|done|].
      exists (la ++ le ++ l0). rewrite <- !app_assoc. split; [done|]. by repeat apply balanced_app.
Qed.

(** ** Who owns the channels *)
(** No descriptor is open, and the channels that are open are those of the instances,
    one each. *)
Record channels_owned s : Prop := {
  co_fds : q_fds s = ∅;
  co_ids id : is_Some (q_instances s !! id) → id < q_next_id s;
  co_channels ch : 0 ≤ ch → ch ∈ q_channels s ↔ ∃ id i, q_instances s !! id = Some i ∧ qi_channel_id i = ch;
  co_unique id1 i1 id2 i2 : q_instances s !! id1 = Some i1 → q_instances s !! id2 = Some i2 →
    qi_channel_id i1 = qi_channel_id i2 → 0 ≤ qi_channel_id i1 → id1 = id2
}.
(** The operations of the injector.  The counter of instances has 32 bits; it is not
    used beyond its last value. *)
Inductive qnx_step (fuel : nat) (assemble : list insn → list Z) : qinjector K → qinjector K → Prop :=
| step_inject chunk pid path entrypoint data s r s' : q_next_id s < 2 ^ 32 - 1 →
    _frida_qinjector_do_inject fuel assemble chunk pid path entrypoint data s = Ret (r, s') → qnx_step fuel assemble s s'
| step_destroy id policy s s' : destroy_instance fuel id policy s = Ret (tt, s') → qnx_step fuel assemble s s'
| step_receive i s r s' : _frida_remote_thread_session_receive_pulse i s = Ret (r, s') → qnx_step fuel assemble s s'
| step_alive pid tid s r s' : _frida_remote_thread_session_thread_is_alive pid tid s = Ret (r, s') → qnx_step fuel assemble s s'.
Definition qinjector_new (k : K) : qinjector K := mk_qin k [] ∅ 1.

Lemma channels_owned_new k : channels_owned (qinjector_new k).
Proof.
  split; cbn.
  - done.
  - intros id []%lookup_empty_is_Some.
  - intros ch Hch. split; [by intros ?%elem_of_empty|]. by intros (id & i & Hi & _).
  - by intros id1 i1 id2 i2 Hi.
Qed.
(** States that differ only in balanced requests. *)
Lemma channels_owned_balanced k l s : channels_owned s → balanced (q_fds s) l → channels_owned (q_with k l s).
Proof.
  intros [Hf Hi Hc Hu] [Hb Hn]. split; cbn [q_instances q_next_id q_with]; [|done| |done].
  - by rewrite q_fds_with, Hb.
  - intros ch Hch. rewrite q_channels_with, channels_from_none by done. by apply Hc.
Qed.
Lemma channels_created ch chs : channels_from chs (created ch) = if 0 <=? ch then {[ch]} ∪ chs else chs.
Proof. unfold created. by destruct (0 <=? ch). Qed.
Lemma channels_owned_inject assemble chunk pid path entrypoint data s r s' :
  channels_owned s → q_next_id s < 2 ^ 32 - 1 → 0 ≤ q_next_id s →
  inject_outcome assemble chunk pid path entrypoint data s r s' → channels_owned s' ∧ 0 ≤ q_next_id s'.
Proof.
  intros [Hf Hi Hc Hu] Hn Hn0 (ch & l & Hch & El & En & Ho). rewrite u32_small in En by lia. split; [|lia].
  assert (Efds : q_fds s' = qfds_from (q_fds s) l).
  { unfold q_fds. rewrite El, !qfds_from_app, created_calm. done. }
  assert (Echs : q_channels s' = channels_from (if 0 <=? ch then {[ch]} ∪ q_channels s else q_channels s) l).
  { unfold q_channels. by rewrite El, !channels_from_app, channels_created. }
  destruct Ho as [(Er & a & Ha & Ei & [Hb Hnc] & _)|(Er & Ei & l0 & -> & Hb & Hnc)].
  - rewrite Hb in Efds. rewrite channels_from_none in Echs by done.
    assert (Hnew : q_instances s !! r.1 = None) by (apply eq_None_not_Some; intros Hs%Hi; lia).
    split.
    + by rewrite Efds.
    + intros id. rewrite Ei, En. intros [<-|[_ Hs%Hi]]%lookup_insert_is_Some; lia.
    + intros c Hc0. rewrite Echs, Ei. split.
      * intros Hin. destruct (Z.leb_spec 0 ch); [apply elem_of_union in Hin as [->%elem_of_singleton|Hin]|].
        -- exists r.1. eexists. by rewrite lookup_insert_eq.
        -- apply Hc in Hin as (id & i & Hid & <-); [|done]. exists id, i. split; [|done]. rewrite lookup_insert_ne; [done|]. congruence.
        -- apply Hc in Hin as (id & i & Hid & <-); [|done]. exists id, i. split; [|done]. rewrite lookup_insert_ne; [done|]. congruence.
      * intros (id & i & [[<- <-]|[Hne Hid]]%lookup_insert_Some & <-); cbn [qi_channel_id] in *.
        -- rewrite (proj2 (Z.leb_le _ _) Hc0). set_solver.
        -- assert (qi_channel_id i ∈ q_channels s) by (apply Hc; eauto). destruct (0 <=? ch); set_solver.
    + assert (Hfresh : ∀ id i, q_instances s !! id = Some i → qi_channel_id i = ch → 0 ≤ ch → False).
      { intros id i Hid <- H0'. apply Hch, Hc; eauto. }
      intros id1 i1 id2 i2. rewrite Ei, !lookup_insert_Some. intros [[<- <-]|[? H1']] [[<- <-]|[? H2']] E12 H0'; cbn [qi_channel_id] in *.
      * done.
      * exfalso. by eapply (Hfresh id2 i2).
      * exfalso. eapply (Hfresh id1 i1); [done|done|by rewrite <- E12].
      * by eapply Hu.
  - rewrite channels_from_app, (channels_from_none l0) in Echs by done. rewrite qfds_from_app, Hb in Efds. cbn in Efds, Echs.
    assert (E : ∀ c, c ∈ q_channels s' ↔ c ∈ q_channels s).
    { intros c. rewrite Echs. destruct (0 <=? ch); set_solver. }
    split; rewrite ?Ei; [by rewrite Efds|intros id Hid%Hi; lia| |done].
    intros c Hc0. rewrite E. by apply Hc.
Qed.
Lemma channels_owned_destroy fuel id policy s s' :
  channels_owned s → destroy_instance fuel id policy s = Ret (tt, s') → channels_owned s' ∧ q_next_id s' = q_next_id s.
Proof.
  intros [Hf Hi Hc Hu] E. unfold destroy_instance in E. apply bind_returns in E as (o & s0 & [= <- <-] & E).
  destruct (q_instances s !! id) as [i|] eqn:Eid; [|done]. apply bind_returns in E as (? & s1 & [= _ <-] & E).
  set (s1 := mk_qin _ _ _ _) in E. apply free_logs in E as (k & l & -> & l0 & -> & Hb & Hnc). change (q_fds s1) with (q_fds s) in Hb.
  split; [|done].
  assert (Echs : q_channels (q_with k (l0 ++ [ChannelDestroyed (qi_channel_id i)]) s1) = q_channels s ∖ {[qi_channel_id i]}).
  { by rewrite q_channels_with, channels_from_app, (channels_from_none l0). }
  split; cbn [q_instances q_next_id q_with].
  - rewrite q_fds_with. change (q_fds s1) with (q_fds s). by rewrite qfds_from_app, Hb.
  - subst s1. cbn. intros id' [j Hj]. apply lookup_delete_Some in Hj as [_ Hj]. by apply Hi.
  - intros c Hc0. rewrite Echs. subst s1. cbn [q_instances]. rewrite elem_of_difference, elem_of_singleton, Hc by done. split.
    + intros [(id' & j & Hj & <-) Hne]. exists id', j. split; [|done]. apply lookup_delete_Some. split; [|done]. intros <-. by simplify_eq.
    + intros (id' & j & Hj & <-). apply lookup_delete_Some in Hj as [Hne Hj]. split; [by exists id', j|]. intros E. apply Hne, (Hu id i id' j); [done|done|done|by rewrite <- E].
  - subst s1. cbn. intros id1 i1 id2 i2 [_ ?]%lookup_delete_Some [_ ?]%lookup_delete_Some. by apply Hu.
Qed.
Lemma tidy_receive i : tidy (_frida_remote_thread_session_receive_pulse i).
Proof.
  unfold _frida_remote_thread_session_receive_pulse. apply tidy_bind; [|intros; apply tidy_ret]. apply tidy_quiet. intros s.
  apply plogs_sys. by intros [|].
Qed.
Lemma tidy_alive pid tid : tidy (_frida_remote_thread_session_thread_is_alive pid tid).
Proof.
  intros s. unfold _frida_remote_thread_session_thread_is_alive. apply plogs_bind, open_logs; [intros fd Hfd k|intros e k]; [|by apply plogs_ret].
  apply plogs_bind, plogs_sys. intros r k2 _ k2'. replace (match r with SysOk a => _ | SysErr _ => _ end) with (@nil qact) by by destruct r.
  apply plogs_bind, plogs_does. intros k3. apply plogs_ret. apply (balanced_session _ _ _ []); [done|constructor].
Qed.
Lemma channels_owned_step fuel assemble s s' : channels_owned s ∧ 0 ≤ q_next_id s → qnx_step fuel assemble s s' → channels_owned s' ∧ 0 ≤ q_next_id s'.
Proof.
  intros Hsn Hst. destruct Hst as [chunk pid path entrypoint data s r s' Hlt E|id policy s s' E|i s r s' E|pid tid s r s' E];
    destruct Hsn as [Hs Hn].
  - eapply channels_owned_inject; [exact Hs|exact Hlt|exact Hn|]. by eapply do_inject_outcome.
  - apply channels_owned_destroy in E as [Ho ->]; done.
  - apply tidy_receive in E as (k & l & -> & Hl). split; [by apply channels_owned_balanced|done].
  - apply tidy_alive in E as (k & l & -> & Hl). split; [by apply channels_owned_balanced|done].
Qed.
Lemma channels_owned_reachable fuel assemble k s : rtc (qnx_step fuel assemble) (qinjector_new k) s → channels_owned s.
Proof.
  intros Hr. enough (channels_owned s ∧ 0 ≤ q_next_id s) by tauto.
  assert (Hn : channels_owned (qinjector_new k) ∧ 0 ≤ q_next_id (qinjector_new k)) by (split; [apply channels_owned_new|done]).
  revert Hn. revert Hr. generalize (qinjector_new k) as s0. intros s0 Hr'. induction Hr' as [|? ? ? Hstep _ IH]; [done|].
  intros Hn. apply IH. by eapply channels_owned_step.
Qed.
End inject.
