(* ===== verification/QnxPayload.v ===== *)
(** The payload of the QNX injector: its ARM code follows a protocol of calls, and the
    session of src/src/qnx/qinjector.vala understands the pulses that it sends. *)
From S2P Require Import Prelude Posix Binjector BinjectorInstances PayloadCode PayloadMachine PayloadCorrect Qinjector QinjectorInstances.

(** ** The protocol *)
(** The procedure call standard for 32-bit ARM; [X n] is Rn. *)
Definition arm_preserved (r : preg) : bool :=
  match r with X n => (4 <=? n)%nat && (n <=? 11)%nat | XSP => true | _ => false end.
Definition arm_abi : abi := mk_abi 4 (X 0) arm_preserved 8 0 false.

Section protocol.
Context {W : Type} `{QnxHeaders} (env : Z → list argv → W → reply W) (api : payload_api) (me : Z) (params : FridaInjectionParams).
Let field_at := qdata_field (qp_remote_address params).
Let invoke := invoke arm_abi env.

Definition qnx_load_module : M (proc W) Z :=
  let! handle := get_field module_handle in
  if handle =? 0 then
    let! h := invoke (pf_dlopen api) [AVal (field_at qfield_so_path); AVal QNX_RTLD_LAZY] in
    do! put_field module_handle h.1 in ret h.1
  else ret handle.
Definition send_pulse (send coid code value : Z) : M (proc W) unit :=
  do! invoke send [AVal coid; AVal (u32 (-1)); AVal code; AVal value] in ret tt.
(** Connect to the injector's channel and say hello with the thread's id; load the
    module unless it is loaded; run its entrypoint with places for the policy and the
    connection; unload the module and detach the thread as the policy says; say bye
    with the policy.  The result has the connection, the thread's id and the policy. *)
Definition qnx_report : M (proc W) (Z * Z * Z) :=
  let! coid := invoke (pf_ConnectAttach api)
    [AVal ND_LOCAL_NODE; AVal me; AVal (qp_channel_id params); AVal NTO_SIDE_CHANNEL; AVal NTO_COF_CLOEXEC] in
  let! tid := invoke (pf_gettid api) [] in
  do! send_pulse (pf_MsgSendPulse_hello api) coid.1 PULSE_HELLO tid.1 in
  let! handle := qnx_load_module in
  let! entrypoint := invoke (pf_dlsym api) [AVal handle; AVal (field_at qfield_entrypoint_name)] in
  let! out := invoke entrypoint.1 [AVal (field_at qfield_entrypoint_data); ARef (policy_number IMMEDIATE); ARef coid.1] in
  let policy := content_after (head out.2) (policy_number IMMEDIATE) in
  do! (if policy =? policy_number IMMEDIATE then do! invoke (pf_dlclose api) [AVal handle] in ret tt else ret tt) in
  do! (if policy =? policy_number DEFERRED then ret tt
       else let! thread := get_field worker_thread in do! invoke (pf_pthread_detach api) [AVal thread] in ret tt) in
  do! send_pulse (pf_MsgSendPulse_bye api) coid.1 PULSE_BYE policy in
  do! invoke (pf_ConnectDetach api) [AVal coid.1] in
  ret (coid.1, tid.1, policy).
Definition qnx_protocol : M (proc W) unit := let! _ := qnx_report in ret tt.
End protocol.

#[local] Arguments preg_eqb !a !b.
#[local] Arguments field_eqb !a !b.
#[local] Arguments label_eqb !a !b.
#[local] Arguments arm_preserved !r.
#[local] Arguments run : simpl never.
#[local] Arguments sim : simpl never.
#[local] Arguments content_after : simpl never.
#[local] Arguments ask_env : simpl never.
#[local] Arguments u32 : simpl never.
#[local] Arguments u64 : simpl never.
#[local] Arguments join32 : simpl never.
#[local] Arguments Z.of_nat : simpl nomatch.
#[local] Arguments Z.add : simpl nomatch.
#[local] Arguments Z.sub : simpl nomatch.
#[local] Arguments Z.mul : simpl nomatch.
#[local] Arguments Z.eqb : simpl nomatch.
#[local] Arguments Z.opp : simpl nomatch.
#[local] Arguments Z.pos_sub : simpl nomatch.
#[local] Arguments Pos.eqb : simpl nomatch.
#[local] Arguments Pos.succ : simpl nomatch.
#[local] Arguments Pos.mul : simpl nomatch.
#[local] Arguments Pos.add : simpl nomatch.
#[local] Arguments Pos.add_carry : simpl nomatch.

Section correct.
Context {W : Type} `{QnxHeaders} (env : Z → list argv → W → reply W) (api : payload_api) (me : Z) (params : FridaInjectionParams).

Definition arm_saved : list preg := [XSP; LR] ++ (X <$> seq 4 8).
Definition arm_restored (m0 m : machine W) : Prop :=
  Forall (λ r, m_regs m r = m_regs m0 r) arm_saved ∧ ∀ a, 0 ≤ a → m_stack m a = m_stack m0 a.
Ltac is_arm_restored sp :=
  split; [repeat constructor; cbn; rewrite ?sp; reflexivity|];
  let a := fresh "a" in let Ha := fresh "Ha" in intros a Ha; cbn;
  repeat (apply above_cell; [exact Ha|reflexivity|]); reflexivity.

Lemma payload_code_sim data regs stack eq p :
  regs XSP = Stk 0 →
  sim arm_abi env data Returned (arm_restored (mk_machine regs stack eq p)) (payload_code api me params) None
    (mk_machine regs stack eq p) (qnx_protocol env api me params).
Proof.
  intros Hsp. unfold qnx_protocol, qnx_report, qnx_load_module, send_pulse, payload_code. cbn zeta.
  repeat sim_insn Hsp Hsp. all: is_arm_restored Hsp.
Qed.
End correct.

(** * The injector's side of the channel on QNX: RemoteThreadSession of
    src/src/qnx/qinjector.vala handles the pulses of the payload's thread. *)
(** ** The session *)
(** What the main loop dispatches: a pulse, the end of the two seconds for the first
    one, and the ends of the 50 milliseconds before joining and between two looks at the
    thread. *)
Inductive session_event := Pulse (code val : Z) | HelloTimeout | DelayOver | PollOver.
Inductive join_phase := NotJoining | JoinDelayed | Joining | SessionEnded (unload_policy : Z).
Record session := mk_session {
  se_pending_hello : bool; se_timed_out : bool; se_tid : Z; se_unload_policy : Z; se_join : join_phase
}.
Definition session_new : session := mk_session true false 0 (policy_number IMMEDIATE) NotJoining.

Definition on_hello_received (tid : Z) (s : session) : session :=
  mk_session false (se_timed_out s) tid (se_unload_policy s) (se_join s).
Definition on_bye_received (unload_policy : Z) (s : session) : session :=
  mk_session (se_pending_hello s) (se_timed_out s) (se_tid s) unload_policy (se_join s).
Definition with_join (j : join_phase) (s : session) : session :=
  mk_session (se_pending_hello s) (se_timed_out s) (se_tid s) (se_unload_policy s) j.
(** [alive] is what _thread_is_alive answers. *)
Definition join_and_end (alive : bool) (s : session) : session :=
  if negb (se_tid s =? 0) && alive then with_join Joining s else with_join (SessionEnded (se_unload_policy s)) s.
Definition on_disconnect_received (alive : bool) (s : session) : session :=
  if se_pending_hello s then with_join JoinDelayed s else join_and_end alive s.
(** process_io and the timers: an event, with whether the thread is alive by then. *)
Definition session_step (s : session) (e : session_event * bool) : session :=
  match e with
  | (Pulse code val, alive) =>
      if code =? PULSE_HELLO then on_hello_received (u32 val) s
      else if code =? PULSE_BYE then on_bye_received val s
      else if code =? PULSE_DISCONNECT then on_disconnect_received alive s
      else s
  | (HelloTimeout, _) =>
      if se_pending_hello s then mk_session false true (se_tid s) (se_unload_policy s) (se_join s) else s
  | (DelayOver, alive) => match se_join s with JoinDelayed => join_and_end alive s | _ => s end
  | (PollOver, alive) => match se_join s with Joining => join_and_end alive s | _ => s end
  end.
Definition run_session (es : list (session_event * bool)) (s : session) : session := foldl session_step s es.
Definition while_alive (es : list session_event) : list (session_event * bool) := (λ e, (e, true)) <$> es.

Lemma run_session_app es1 es2 s : run_session (es1 ++ es2) s = run_session es2 (run_session es1 s).
Proof. apply foldl_app. Qed.
Lemma polls_wait n s : se_join s = Joining → se_tid s ≠ 0 → run_session (while_alive (replicate n PollOver)) s = s.
Proof.
  intros Hj Ht. induction n as [|n IH]; [done|]. cbn. rewrite Hj. unfold join_and_end.
  rewrite (proj2 (Z.eqb_neq _ _) Ht). cbn. replace (with_join Joining s) with s by (destruct s; cbn in *; by subst).
  exact IH.
Qed.
(** Pulses in any order, as long as the thread is alive: the session waits for the
    thread, and ends with its policy when it is gone. *)
Lemma session_any_order tid policy es n : u32 tid ≠ 0 →
  es ≡ₚ [Pulse PULSE_HELLO tid; Pulse PULSE_BYE policy; Pulse PULSE_DISCONNECT 0] →
  run_session (while_alive (es ++ [DelayOver] ++ replicate n PollOver)) session_new =
    mk_session false false (u32 tid) policy Joining.
Proof.
  intros Ht Hp. assert (Et : u32 tid =? 0 = false) by by apply Z.eqb_neq.
  assert (Hes : es ∈ permutations [Pulse PULSE_HELLO tid; Pulse PULSE_BYE policy; Pulse PULSE_DISCONNECT 0])
    by by apply permutations_Permutation.
  unfold while_alive. rewrite app_assoc, fmap_app, run_session_app.
  enough (run_session (while_alive (es ++ [DelayOver])) session_new = mk_session false false (u32 tid) policy Joining) as E.
  { unfold while_alive in E. rewrite E. by apply polls_wait. }
  cbn in Hes. repeat (apply elem_of_cons in Hes as [->|Hes]; [unfold run_session, session_step, on_disconnect_received, join_and_end, on_hello_received, on_bye_received, with_join; cbn; rewrite ?Et; cbn; rewrite ?Et; done|]).
  by apply not_elem_of_nil in Hes.
Qed.
(** The disconnection overtakes the farewell: when the thread is found gone before the
    farewell is handled, the session ends with the immediate policy, whatever the thread
    asked for. *)
Lemma disconnect_overtakes_bye tid policy : u32 tid ≠ 0 →
  se_join (run_session [(Pulse PULSE_HELLO tid, true); (Pulse PULSE_DISCONNECT 0, false); (Pulse PULSE_BYE policy, false)]
    session_new) = SessionEnded (policy_number IMMEDIATE).
Proof. intros Ht. unfold run_session, session_step, on_disconnect_received, join_and_end. cbn. by rewrite andb_false_r. Qed.

(** ** What the thread sends *)
Section sent.
Context (api : payload_api) (coid : Z).
(** The pulse of a call: MsgSendPulse_r (coid, -1, code, value), where the value is a
    signed number. *)
Definition pulse_of (e : call_event) : list session_event :=
  match ce_args e with
  | [AVal c; AVal priority; AVal code; AVal value] =>
      if ((ce_func e =? pf_MsgSendPulse_hello api) || (ce_func e =? pf_MsgSendPulse_bye api)) && (c =? coid)
      then [Pulse code (s32 value)] else []
  | _ => []
  end.
Definition pulses (log : list call_event) : list session_event := concat (pulse_of <$> log).
Lemma pulses_app l1 l2 : pulses (l1 ++ l2) = pulses l1 ++ pulses l2.
Proof. unfold pulses. by rewrite fmap_app, concat_app. Qed.
End sent.

Section report.
Context {W : Type} `{QnxHeaders} (env : Z → list argv → W → reply W) (api : payload_api) (me : Z) (params : FridaInjectionParams).
Definition sends {A} (coid : Z) (m : M (proc W) A) (p : proc W) (Q : A → list session_event → Prop) : Prop :=
  wp m p (λ v p', ∃ l, pr_log p' = pr_log p ++ l ∧ Q v (pulses api coid l)).
Lemma sends_bind {A B} coid (m : M (proc W) A) (k : A → M (proc W) B) p Q :
  sends coid m p (λ v es, ∀ p', sends coid (k v) p' (λ w es', Q w (es ++ es'))) → sends coid (bind m k) p Q.
Proof.
  intros Hm. unfold sends. wp_step. eapply wp_mono; [exact Hm|]. cbn beta. intros v p' (l & El & Hk).
  eapply wp_mono; [apply Hk|]. cbn beta. intros w p'' (l' & El' & HQ). exists (l ++ l').
  rewrite El', El, pulses_app, app_assoc. done.
Qed.
Lemma sends_ret {A} coid (a : A) p (Q : A → list session_event → Prop) : Q a [] → sends coid (ret a) p Q.
Proof. intros HQ. apply wp_ret. exists []. by rewrite app_nil_r. Qed.
Lemma sends_invoke coid f args p (Q : Z * list Z → list session_event → Prop) :
  (∀ v, Q (u32 v.1, v.2) (pulse_of api coid (mk_call f args))) → sends coid (invoke arm_abi env f args) p Q.
Proof.
  intros HQ. unfold sends, invoke, wp. destruct (ask_env arm_abi env f args p) as [r p'] eqn:E.
  eexists _, _. split; [done|]. exists [mk_call f args]. unfold ask_env in E. injection E as <- <-. split.
  - by destruct (rp_thread _).
  - unfold pulses. cbn. rewrite app_nil_r. apply (HQ (rp_result _, rp_contents _)).
Qed.
Lemma sends_get_field coid f p (Q : Z → list session_event → Prop) : (∀ v, Q v []) → sends coid (get_field f) p Q.
Proof. intros HQ. apply wp_gets. exists []. by rewrite app_nil_r. Qed.
Lemma sends_put_field coid f v p (Q : unit → list session_event → Prop) : Q tt [] → sends coid (put_field f v) p Q.
Proof. intros HQ. apply wp_modify. exists []. by rewrite app_nil_r. Qed.
Ltac sends_step :=
  lazymatch goal with
  | |- sends _ (bind _ _) _ _ => apply sends_bind
  | |- sends _ (ret _) _ _ => apply sends_ret
  | |- sends _ (invoke _ _ _ _) _ _ => apply sends_invoke; intros ?; cbn [pulse_of ce_args ce_func]; try intros ?
  | |- sends _ (get_field _) _ _ => apply sends_get_field; intros ?; try intros ?
  | |- sends _ (put_field _ _) _ _ => apply sends_put_field; try intros ?
  | |- sends _ (if ?b then _ else _) _ _ => destruct b
  | |- ∀ _ : proc W, _ => intros ?
  end; cbn beta iota zeta.
(** The thread sends its id and then the policy. *)
Lemma report_sends p :
  ∃ coid tid policy p' l, qnx_report env api me params p = Ret ((coid, tid, policy), p') ∧ pr_log p' = pr_log p ++ l ∧
    tid = u32 tid ∧ pulses api coid l = [Pulse PULSE_HELLO (s32 tid); Pulse PULSE_BYE (s32 policy)].
Proof.
  unfold qnx_report, bind at 1. unfold invoke at 1. destruct (ask_env _ _ _ _ p) as [r p1] eqn:E. cbn [fst].
  change (uw arm_abi) with u32. set (coid := u32 _).
  assert (El : pr_log p1 = pr_log p ++ [mk_call (pf_ConnectAttach api)
    [AVal ND_LOCAL_NODE; AVal me; AVal (qp_channel_id params); AVal NTO_SIDE_CHANNEL; AVal NTO_COF_CLOEXEC]]).
  { unfold ask_env in E. injection E as <- <-. by destruct (rp_thread _). }
  lazymatch goal with |- context [bind ?m ?k p1] =>
    assert (X : sends coid (bind m k) p1 (λ v es, ∃ tid policy, v = (coid, tid, policy) ∧ tid = u32 tid ∧
      es = [Pulse PULSE_HELLO (s32 tid); Pulse PULSE_BYE (s32 policy)])) end.
  { unfold qnx_load_module, send_pulse. repeat sends_step; (eexists _, _; split; [reflexivity|]; cbn [fst];
      rewrite !Z.eqb_refl, ?orb_true_r; cbn; split; [by rewrite u32_u32|done]). }
  destruct X as (v & p' & Ev & l & El' & tid & policy & -> & Ht & Hes).
  exists coid, tid, policy, p'. eexists. split; [exact Ev|]. split; [by rewrite El', El, <- app_assoc|]. split; [done|].
  rewrite pulses_app. exact Hes.
Qed.
End report.
