(* ===== verification/QinjectorClaims.v ===== *)
(** What the QNX injector promises about the process it touches, and what its payload
    and the session tell each other. *)
From stdpp Require Import pretty.
From S2P Require Import Prelude Posix Records Binjector BinjectorInstances BinjectorScript PayloadCode PayloadMachine PayloadCorrect FieldStrings Qinjector QinjectorInstances QnxCall QnxLibrary QnxInject QnxPayload.

(** * A system for runs of the QNX injector that can be evaluated: what called functions
    answer is scripted. *)
(** Whether the thread runs a function, the results of the functions that are called,
    the file that was opened last, and whether processes other than the injector have
    a libc. *)
Record qscript := mk_qscript { qs_running : bool; qs_results : list Z; qs_path : string; qs_libc : bool; qs_waits : list bool }.
Definition idle_regs : procfs_greg := mk_greg (λ i, if i =? ARM_REG_SP then 0x8000 else if i =? ARM_REG_PC then 0x4000 else i) 0x10.
Definition returned_regs (v : Z) : procfs_greg := set_gpr ARM_REG_PC DUMMY_RETURN (set_gpr 0 v idle_regs).
Definition libc_path : list Z := bytes_of "/proc/boot/libc.so.3".
Definition INJECTOR_PID : Z := 42.

#[export] Instance demo_headers : QnxHeaders :=
  {| MAP_PRIVATE_ANONYMOUS := 0x80002; PROT_READ_WRITE_EXEC := 0x700; MS_INVALIDATE_ICACHE := 16; ND_LOCAL_NODE := 0;
     NTO_SIDE_CHANNEL := 2 ^ 30; NTO_COF_CLOEXEC := 1; QNX_RTLD_LAZY := 1 |}.
#[export] Instance qscript_kernel : QnxKernel qscript := {|
  qk_getpid _ := INJECTOR_PID;
  qk_open path _ fds k := (SysOk (above fds), mk_qscript (qs_running k) (qs_results k) path (qs_libc k) (qs_waits k));
  qk_close _ k := k;
  qk_lseek _ a k := (SysOk a, k);
  qk_write _ bs k := (SysOk (zlen bs), k);
  qk_kill _ _ k := k;
  qk_tidstatus _ tid k := (SysOk tid, k);
  qk_curthread _ _ k := (SysOk tt, k);
  qk_stop _ k := (SysOk (mk_status (STATE_OTHER 1) (WHY_OTHER 1)), k);
  qk_run _ how k :=
    (SysOk tt, mk_qscript (match how with RunUntilPageFault => true | _ => false end) (qs_results k) (qs_path k) (qs_libc k) (qs_waits k));
  qk_waitstop _ k :=
    (match qs_waits k with false :: _ => SysErr EINTR | _ => SysOk (mk_status STATE_STOPPED (WHY_OTHER 1)) end,
     mk_qscript (qs_running k) (qs_results k) (qs_path k) (qs_libc k) (tail (qs_waits k)));
  qk_getgreg _ k :=
    if qs_running k
    then (SysOk (returned_regs (default 0 (head (qs_results k)))), mk_qscript false (tail (qs_results k)) (qs_path k) (qs_libc k) (qs_waits k))
    else (SysOk idle_regs, k);
  qk_setgreg _ _ k := (SysOk tt, k);
  qk_pagedata_size _ k := (SysOk 1, k);
  qk_pagedata _ n k := (SysOk (ztake n [0x100000], 1), k);
  qk_mapdebug _ _ k :=
    (SysOk (if qs_libc k || bool_decide (qs_path k = as_path INJECTOR_PID) then libc_path else bytes_of "/bin/cat"), k);
  qk_channel_create chs k := (above chs, k);
  qk_channel_destroy _ k := k;
  qk_receive_pulse _ k := (SysErr EINTR, k);
  qk_dlopen _ k := (7, k);
  qk_dlsym _ _ _ := 0x100400;
  qk_dlclose _ k := k
|}.
#[export] Instance qscript_laws : QnxLaws qscript.
Proof.
  split.
  - intros path w fds fd k k' [= <- _]. apply above_fresh.
  - intros chs k. apply above_fresh.
  - intros fd bs n k k' [= <- _]. pose proof (zlen_nonneg bs). lia.
  - intros fd n l total k k' [= <- <- _]. rewrite zlen_ztake. reflexivity.
Qed.
(** mmap gives 0x200000; the calls that follow succeed. *)
Definition good_run : qscript := mk_qscript false [0x200000; 0; 0] "" true [].
(** The process has no libc. *)
Definition no_libc_run : qscript := mk_qscript false [0] "" false [].
(** The wait for the first function fails. *)
Definition lost_run : qscript := mk_qscript false [0] "" true [true; false].

(** ** Remote calls *)
(** The registers and words of a call: the function with its instruction set, the
    return address, four arguments in registers and the others above the stack
    pointer, every other register as it was.  The stack pointer is aligned as the calling
    convention wants if the thread's was and an even number of arguments is on the
    stack. *)
Definition frame_for (func : Z) (args : list Z) (saved r : procfs_greg) (words : list qact) (fd : Z) : Prop :=
  gpr r ARM_REG_PC = u32 (Z.ldiff func 1) ∧ Z.testbit (spsr r) 5 = Z.testbit func 0 ∧ gpr r ARM_REG_LR = DUMMY_RETURN ∧
  (∀ (i : nat) a, ztake 4 args !! i = Some a → gpr r (Z.of_nat i) = u32 a) ∧
  gpr r ARM_REG_SP = gpr saved ARM_REG_SP - zlen (zdrop 4 args) * 4 ∧
  (∀ (i : nat) a, zdrop 4 args !! i = Some a → MemoryWritten fd (gpr r ARM_REG_SP + Z.of_nat i * 4) (le_bytes 4 a) ∈ words) ∧
  (∀ i, zlen (ztake 4 args) ≤ i < ARM_REG_SP → gpr r i = gpr saved i) ∧
  ((8 | gpr saved ARM_REG_SP) → Z.Even (zlen (zdrop 4 args)) → (8 | gpr r ARM_REG_SP)).
Lemma enter_function_spec func args saved :
  let r := enter_function func args saved in
  gpr r ARM_REG_PC = u32 (Z.ldiff func 1) ∧ Z.testbit (spsr r) 5 = Z.testbit func 0 ∧
  (∀ (i : nat) a, ztake 4 args !! i = Some a → gpr r (Z.of_nat i) = u32 a) ∧
  (∀ i, zlen (ztake 4 args) ≤ i < ARM_REG_PC → gpr r i = gpr saved i).
Proof.
  intros r. assert (Hn : zlen (ztake 4 args) ≤ 4) by (rewrite zlen_ztake; lia). pose proof (zlen_nonneg (ztake 4 args)).
  subst r. unfold enter_function. match goal with |- context [set_args 0 _ ?q] => set (r0 := q) end.
  assert (Hb : Z.land func 1 = Z.b2z (Z.testbit func 0)).
  { change 1 with (Z.ones 1). rewrite Z.land_ones by lia. by rewrite <- Z.bit0_mod. }
  assert (H0 : gpr r0 ARM_REG_PC = u32 (Z.ldiff func 1) ∧ Z.testbit (spsr r0) 5 = Z.testbit func 0 ∧ ∀ i, i < ARM_REG_PC → gpr r0 i = gpr saved i).
  { subst r0. rewrite Hb. change PSR_T_BIT with (2 ^ 5). destruct (Z.testbit func 0) eqn:E0; cbn [Z.b2z Z.eqb negb gpr spsr set_gpr].
    - split_and!; [done|by rewrite Z.lor_spec, Z.pow2_bits_true, orb_true_r by lia|]. intros i Hi. cbn. by rewrite (proj2 (Z.eqb_neq _ _)) by lia.
    - split_and!; [|by rewrite Z.ldiff_spec, Z.pow2_bits_true, andb_false_r by lia|].
      + cbn. f_equal. apply Z.bits_inj'. intros n Hn'. rewrite Z.ldiff_spec. destruct (decide (n = 0)) as [->|]; [by rewrite E0|].
        replace (Z.testbit 1 n) with false; [by rewrite andb_true_r|]. symmetry. apply Z.bits_above_log2; cbn; lia.
      + intros i Hi. cbn. by rewrite (proj2 (Z.eqb_neq _ _)) by lia. }
  destruct H0 as (Hpc & Hs & Hr). rewrite set_args_spsr. split_and!; [|done| |].
  - rewrite set_args_other; [done|]. unfold ARM_REG_PC. lia.
  - intros i a Hi. rewrite <- (Z.add_0_l (Z.of_nat i)). by apply set_args_at.
  - intros i Hi. rewrite set_args_other by lia. apply Hr. lia.
Qed.
Lemma frame_spec fd func args saved : zlen (zdrop 4 args) * 4 ≤ gpr saved ARM_REG_SP < 2 ^ 32 →
  frame_for func args saved (frame func args saved)
    (pushed_words fd (reverse (zdrop 4 args)) (enter_function func args saved)) fd.
Proof.
  intros Hsp. destruct (enter_function_spec func args saved) as (Hpc & Hs & Ha & Hr). set (e := enter_function func args saved) in *.
  assert (Hn : zlen (ztake 4 args) ≤ 4) by (rewrite zlen_ztake; lia).
  assert (Esp : gpr e ARM_REG_SP = gpr saved ARM_REG_SP) by (apply Hr; unfold ARM_REG_SP, ARM_REG_PC; lia).
  assert (Hsp' : zlen (reverse (zdrop 4 args)) * 4 ≤ gpr e ARM_REG_SP < 2 ^ 32) by (by rewrite zlen_reverse, Esp).
  assert (Eframe : gpr (frame func args saved) ARM_REG_SP = gpr saved ARM_REG_SP - zlen (zdrop 4 args) * 4).
  { unfold frame. cbn [gpr set_gpr]. change (ARM_REG_SP =? ARM_REG_LR) with false. cbn iota. fold e.
    by rewrite pushed_regs_sp, zlen_reverse, Esp. }
  assert (Hother : ∀ i, i ≠ ARM_REG_SP → i ≠ ARM_REG_LR → gpr (frame func args saved) i = gpr e i).
  { intros i H1 H2. unfold frame. cbn [gpr set_gpr]. rewrite (proj2 (Z.eqb_neq _ _)) by done. by rewrite pushed_regs_other. }
  unfold frame_for. split_and!.
  - by rewrite Hother.
  - unfold frame. cbn [spsr set_gpr]. by rewrite pushed_regs_spsr.
  - done.
  - intros i a Hi. pose proof (lookup_lt_Some _ _ _ Hi). unfold zlen in Hn. rewrite Hother by (unfold ARM_REG_SP, ARM_REG_LR; lia). by apply Ha.
  - exact Eframe.
  - intros i a Hi. rewrite Eframe. pose proof (lookup_lt_Some _ _ _ Hi) as Hlt. set (n := length (zdrop 4 args)) in *.
    apply (list_elem_of_lookup_2 _ (n - S i)). rewrite (pushed_words_at fd _ _ Hsp' _ a).
    + do 2 f_equal. rewrite Esp. unfold zlen. fold n. lia.
    + rewrite reverse_lookup by (fold n; lia). fold n. by replace (n - S (n - S i))%nat with i by lia.
  - intros i [Hi1 Hi2]. pose proof (zlen_nonneg (ztake 4 args)). rewrite Hother by (unfold ARM_REG_SP, ARM_REG_LR in *; lia).
    apply Hr. unfold ARM_REG_SP, ARM_REG_PC in *. lia.
  - rewrite Eframe. intros [a Ea] [b Eb]. rewrite Ea, Eb. exists (a - b). lia.
Qed.
(** Otherwise it is not: the injector does not align it. *)
Lemma odd_arguments_misalign : gpr (frame 0x5000 [1; 2; 3; 4; 5] (mk_greg (λ _, 0x8000) 0)) ARM_REG_SP mod 8 = 4.
Proof. reflexivity. Qed.

Section claims.
Context {K : Type} `{QnxHeaders} `{QnxLaws K}.
Implicit Types (s : qinjector K) (k : K).

(** C15: A call in a QNX process that has a thread, of a function that comes back (to the
    dummy address, in at most [n] page faults, or the thread cannot be controlled any
    more), ends and closes the descriptor it opened.  If it succeeds, one thread was
    stopped, given the frame of the call, run until it returned to the dummy address, and
    given back the registers it had before it was let go; the result is the first
    register at the return.  The frame holds the function, its arguments and the return
    address as the calling convention has them, if there is room for it below the
    thread's stack pointer; it is aligned to 8 bytes if the thread's stack was and the
    number of arguments on the stack is even.  If the call fails without an error, no
    registers were replaced; when it fails with an error, the thread may keep them. *)
Theorem qnx_call_puts_thread_back n fuel pid func args s :
  has_thread n pid s → comes_back n func args → (n < fuel)%nat →
  ∃ v s' l, frida_remote_call fuel pid func args s = Ret (v, s') ∧ q_log s' = q_log s ++ l ∧ q_fds s' = q_fds s ∧
    if v.1.1 then
      ∃ fd tid pre saved words mid r, l = [Opened (as_path pid) fd; ThreadChosen fd tid] ++ pre ++ [GregRead fd saved] ++ words ++
          [GregSet fd (frame func args saved)] ++ mid ++ [GregSet fd saved; Ran fd RunFreely; Closed fd] ∧
        settled pid fd pre ∧ running fd (frame func args saved) mid r ∧ gpr r ARM_REG_PC = DUMMY_RETURN ∧ v.2 = Some (gpr r 0) ∧
        (zlen (zdrop 4 args) * 4 ≤ gpr saved ARM_REG_SP < 2 ^ 32 → frame_for func args saved (frame func args saved) words fd)
    else v.1.2 = None → untouched l.
Proof.
  intros Ht Hr Hf. destruct (remote_call_finishes n fuel pid func args s Ht Hr Hf) as (v & s' & E).
  destruct (remote_call_logs fuel pid func args s v s' E) as (k & l & -> & Hl). exists v, (q_with k l s), l.
  split; [done|]. split; [done|]. split; [rewrite q_fds_with; by destruct (remote_call_balanced _ _ _ _ _ _ Hl)|].
  destruct v as [[b e] o]. cbn [fst snd]. destruct Hl as [[-> [= -> -> ->]]|(fd & l' & Hfd & -> & Hc & Hv)]; [constructor|].
  unfold call_result in Hv. cbn [fst snd] in Hv. destruct b.
  - destruct Hv as (_ & retval & -> & tid & pre & saved & mid & r & -> & Hp & Hrun & Hpc & ->).
    exists fd, tid, pre, saved, (pushed_words fd (reverse (zdrop 4 args)) (enter_function func args saved)), mid, r.
    split_and!; [|done|done|done|done|by apply frame_spec]. by repeat (rewrite <- ?app_assoc; cbn [app]).
  - intros ->. destruct Hv as [Hu|[? [=]]]. constructor; [done|]. apply untouched_app. by repeat constructor.
Qed.

(** C29: The search for a library in a QNX process ends and closes its descriptor, except
    that it runs past the mappings it has when the process got more of them between the
    request for their number and the request for the mappings.  It reads the mappings in
    order and takes the first whose path is a directory, the library's name, a dash or a
    dot, more that ends in .so, and at most a version; without one, the last mapping
    whose path is the name itself; without that, none.  It looks at all the mappings that
    were stored, unless it ends at the library or at the first mapping that cannot be
    queried, behind which it does not look. *)
Theorem library_base_found pid name s :
  SLASH ∉ name →
  match frida_find_library_base pid name true s with
  | Ret (v, s') => ∃ l, q_log s' = q_log s ++ l ∧ q_fds s' = q_fds s ∧ library_choice name (maps_seen l) v ∧
      ∀ fd infos, MapsRead fd infos ∈ l → seen_enough fd name infos (maps_seen l) v
  | Crash => mappings_added pid s
  | _ => False
  end.
Proof.
  intros Hname. destruct (find_library_ends pid name true s) as [(v & s' & E)|[-> Hg]]; [|done]. rewrite E.
  destruct (find_library_logs pid name s Hname v s' E) as (k & l & -> & [Hb _] & Hl & He). exists l.
  split_and!; [done|by rewrite q_fds_with|done|done].
Qed.

(** C28: In every state that the QNX injector can reach, no descriptor is open, and every
    open channel belongs to exactly one instance of the table: injections that fail
    close theirs, and destroying an instance closes its channel. *)
Theorem channels_have_one_owner fuel assemble k s :
  rtc (qnx_step fuel assemble) (qinjector_new k) s →
  q_fds s = ∅ ∧
  (∀ ch, 0 ≤ ch → ch ∈ q_channels s → exists! id, ∃ i, q_instances s !! id = Some i ∧ qi_channel_id i = ch) ∧
  (∀ id i, q_instances s !! id = Some i → 0 ≤ qi_channel_id i → qi_channel_id i ∈ q_channels s).
Proof.
  intros Hr. destruct (channels_owned_reachable _ _ _ _ Hr) as [Hf _ Hc Hu]. split_and!; [done| |].
  - intros ch Hch (id & i & Hi & <-)%Hc; [|done]. exists id. split; [by exists i|]. intros id' (j & Hj & E).
    eapply Hu; [done|done|by symmetry|done].
  - intros id i Hi Hch. apply Hc; eauto.
Qed.
End claims.

(** ** The payload *)
Lemma block_reads {QH : QnxHeaders} assemble chunk api me params :
  let code := payload_code api me params in
  zlen chunk = sizeof_chunk → zlen (assemble code) ≤ FRIDA_REMOTE_DATA_OFFSET →
  fits 256 (qp_so_path params) → fits 256 (qp_entrypoint_name params) → fits 256 (qp_entrypoint_data params) →
  let block := payload_block assemble chunk api me params in
  let reads o str := c_string (zdrop (data_at o) block) = Some (bytes_of str) in
  zlen block = FRIDA_REMOTE_DATA_OFFSET + sizeof_qtrampoline ∧ ztake (zlen (assemble code)) block = assemble code ∧
  reads qfield_so_path (qp_so_path params) ∧ reads qfield_entrypoint_name (qp_entrypoint_name params) ∧
  reads qfield_entrypoint_data (qp_entrypoint_data params) ∧
  zslice (data_at qfield_worker_thread) (data_at qfield_module_handle + 4) block = zeros 8.
Proof.
  intros code Hchunk Hcode H1 H2 H3 block reads. unfold FRIDA_REMOTE_DATA_OFFSET, sizeof_chunk in *. pose proof (zlen_nonneg (assemble code)).
  set (c0 := zwrite 0 (assemble code) chunk). assert (Hc0 : zlen c0 = 2048) by (subst c0; rewrite zlen_zwrite by lia; done).
  set (fs := [(256, 512, qp_so_path params); (256, 768, qp_entrypoint_name params); (256, 1024, qp_entrypoint_data params)]).
  assert (Hl : laid_out 512 (zlen c0) fs) by (rewrite Hc0; cbn [fs laid_out]; split_and!; (done || lia)).
  destruct (copy_fields_spec 512 fs c0 ltac:(lia) Hl) as [Hlen Hfs]. set (c1 := copy_fields fs c0) in *. rewrite Hc0 in Hlen.
  assert (Hkeep : ztake (zlen (assemble code)) c1 = assemble code).
  { subst c1. cbn [fs copy_fields foldl]. unfold strcpy.
    assert (∀ n o str b, fits n str → 512 ≤ o → o + n ≤ zlen b → ztake (zlen (assemble code)) (zwrite o (bytes_of str ++ [0]) b) = ztake (zlen (assemble code)) b) as Hk.
    { intros n o str b [Hn _] Ho Hb. pose proof (zlen_nonneg (bytes_of str)). apply ztake_zwrite_before; lia. }
    assert (∀ n o str b, fits n str → 0 ≤ o → o + n ≤ zlen b → zlen (zwrite o (bytes_of str ++ [0]) b) = zlen b) as Hz by (intros; by eapply zlen_strcpy).
    rewrite (Hk 256), (Hk 256), (Hk 256) by (rewrite ?(Hz 256), ?(Hz 256) by (rewrite ?(Hz 256) by (done || lia); done || lia); done || lia).
    subst c0. apply ztake_zwrite_0. }
  assert (Eb : block = ztake 1288 (zwrite 1284 (le_bytes 4 0) (zwrite 1280 (le_bytes 4 0) c1))) by done. clearbody block.
  assert (Z4 : zlen (le_bytes 4 0) = 4) by by rewrite zlen_le_bytes.
  assert (Hv : zlen (zwrite 1280 (le_bytes 4 0) c1) = 2048) by (rewrite zlen_zwrite; [done|lia|lia]).
  assert (Hw : zlen (zwrite 1284 (le_bytes 4 0) (zwrite 1280 (le_bytes 4 0) c1)) = 2048) by (rewrite zlen_zwrite; [done|lia|lia]).
  unfold fs in Hfs. rewrite !Forall_cons in Hfs. destruct Hfs as ([F1 ?] & [F2 ?] & [F3 ?] & _).
  assert (Hread : ∀ o str, has_field 256 o (bytes_of str) c1 → 0 ∉ bytes_of str → o + 256 ≤ 1280 → c_string (zdrop o block) = Some (bytes_of str)).
  { intros o str Hf Hs Ho. rewrite Eb. apply (has_field_read 256); [|done|lia].
    apply has_field_zwrite; [|lia|lia|left; lia]. apply has_field_zwrite; [done|lia|lia|left; lia]. }
  split_and!.
  - rewrite Eb, zlen_ztake, Hw. done.
  - rewrite Eb, ztake_ztake. rewrite Z.min_l by lia. rewrite (ztake_zwrite_before _ 1284), (ztake_zwrite_before _ 1280) by lia. done.
  - by apply Hread.
  - by apply Hread.
  - by apply Hread.
  - change (data_at qfield_worker_thread) with 1280. change (data_at qfield_module_handle + 4) with 1288.
    rewrite Eb, zslice_ztake by lia. rewrite (zslice_split 1280 1284 1288) by lia.
    change (zeros 8) with (le_bytes 4 0 ++ le_bytes 4 0). f_equal.
    + destruct (same_outside_zwrite 1284 (le_bytes 4 0) (zwrite 1280 (le_bytes 4 0) c1)) as [_ Hs]; [lia|lia|].
      rewrite Hs by lia. apply (zslice_zwrite 1280 (le_bytes 4 0)); [lia|lia].
    + apply (zslice_zwrite 1284 (le_bytes 4 0)); lia.
Qed.


(** C16: The ARM code that the QNX injector emits makes the calls of its protocol,
    whatever they answer and whatever they leave in the registers they may use: it
    connects to the injector's channel and says hello, loads the module unless it is
    loaded, calls the entrypoint, unloads and detaches as the policy wants, says bye and
    disconnects.  Every call is made with an aligned stack, and the code returns with its
    caller's registers and without touching its caller's stack. *)
Theorem qnx_payload_follows_protocol {W} {QH : QnxHeaders} (env : Z → list argv → W → reply W) api me params data (m : machine W) :
  m_regs m XSP = Stk 0 →
  ∃ m', run arm_abi env data (payload_code api me params) None m = Some (Returned, m') ∧
    qnx_protocol env api me params (m_proc m) = Ret (tt, m_proc m') ∧ arm_restored m m'.
Proof.
  intros Hsp. destruct m as [regs stack eq p]. pose proof (payload_code_sim env api me params data regs stack eq p Hsp) as Hs.
  unfold sim in Hs. cbn [m_proc] in *. destruct (qnx_protocol _ _ _ _ _) as [[[] p']| | |]; try done.
  destruct (run _ _ _ _ _ _) as [[y m']|]; [|done]. destruct Hs as (-> & <- & Hr). by exists m'.
Qed.


(** ** Witnesses *)
Definition demo_assemble (code : list insn) : list Z := zeros (zlen (take 100 code)).
Lemma demo_assemble_fits code : zlen (demo_assemble code) ≤ FRIDA_REMOTE_DATA_OFFSET.
Proof. unfold demo_assemble. rewrite zlen_zeros by apply zlen_nonneg. unfold zlen, FRIDA_REMOTE_DATA_OFFSET. rewrite length_take. lia. Qed.
Lemma demo_returns fd (k : qscript) : returns_within 1 fd k = true.
Proof. destruct k as [? ? ? ? [|[] ws]]; reflexivity. Qed.
(** A computation that returns, decided by evaluation. *)
Definition returns {S A} (m : M S A) (s : S) (ok : A → bool) : bool := match m s with Ret (v, _) => ok v | _ => false end.
Lemma returned {S A} (m : M S A) (s : S) ok : returns m s ok = true → ∃ v s', m s = Ret (v, s') ∧ ok v = true.
Proof. unfold returns. destruct (m s) as [[v s']| | |]; [|done..]. eauto. Qed.

Lemma returns_value {S A} (m : M S A) (s : S) ok v s' : returns m s ok = true → m s = Ret (v, s') → ok v = true.
Proof. unfold returns. by intros Hm E; rewrite E in Hm. Qed.

Lemma qnx_call_puts_thread_back_witness :
  ∃ v s' l, frida_remote_call 2 7 0x5001 [1; 2; 3; 4; 5; 6] (qinjector_new good_run) = Ret (v, s') ∧ q_log s' = l ∧
    v.1.1 = true ∧ q_fds s' = ∅.
Proof.
  destruct (qnx_call_puts_thread_back 1 2 7 0x5001 [1; 2; 3; 4; 5; 6] (qinjector_new good_run)) as (v & s' & l & E & El & Ef & _).
  - intros fd k _. reflexivity.
  - intros fd saved k k' _. apply demo_returns.
  - lia.
  - exists v, s', l. split; [exact E|]. split; [exact El|]. split; [|exact Ef].
    eapply (returns_value _ _ (λ v, v.1.1)); [|exact E]. vm_compute. reflexivity.
Defined.

Lemma library_base_found_witness :
  match frida_find_library_base 7 (bytes_of "libc") true (qinjector_new good_run) with
  | Ret (v, s') => v.1 = 0x100000 ∧ library_choice (bytes_of "libc") (maps_seen (q_log s')) v
  | _ => False
  end.
Proof.
  pose proof (library_base_found 7 (bytes_of "libc") (qinjector_new good_run)) as X.
  destruct (returned (frida_find_library_base 7 (bytes_of "libc") true) (qinjector_new good_run) (λ v, v.1 =? 0x100000))
    as (v & s' & E & Hv); [vm_compute; reflexivity|]. rewrite E in *.
  destruct X as (l & El & _ & Hl & _).
  - apply (bool_decide_unpack _). vm_compute. exact I.
  - split; [by apply Z.eqb_eq|]. rewrite El. exact Hl.
Defined.

(** An injection with the process's answers of [good_run]. *)
#[local] Notation demo_inject := (_frida_qinjector_do_inject 2 demo_assemble (zeros sizeof_chunk) 7 "/a.so" "main" "x").
Lemma demo_injected : ∃ v s', demo_inject (qinjector_new good_run) = Ret (v, s') ∧ v = (1, None).
Proof.
  destruct (returned demo_inject (qinjector_new good_run) (λ v, bool_decide (v = (1, None)))) as (v & s' & E & Hv).
  - vm_compute. reflexivity.
  - exists v, s'. split; [exact E|]. by apply bool_decide_eq_true in Hv.
Qed.
Lemma channels_have_one_owner_witness :
  ∃ v s', demo_inject (qinjector_new good_run) = Ret (v, s') ∧ q_fds s' = ∅ ∧
    (∀ ch, 0 ≤ ch → ch ∈ q_channels s' → exists! id, ∃ i, q_instances s' !! id = Some i ∧ qi_channel_id i = ch).
Proof.
  destruct demo_injected as (v & s' & E & _). exists v, s'. split; [exact E|].
  destruct (channels_have_one_owner 2 demo_assemble good_run s') as (H1 & H2 & _).
  - apply rtc_once. refine (step_inject 2 demo_assemble _ _ _ _ _ _ _ _ _ E). reflexivity.
  - exact (conj H1 H2).
Defined.
Lemma fits_by n str : bool_decide (zlen (bytes_of str) < n ∧ 0 ∉ bytes_of str) = true → fits n str.
Proof. by rewrite bool_decide_eq_true. Qed.

(** Functions that answer 5, and an entrypoint that asks to stay. *)
Definition qnx_process (f : Z) (args : list argv) (n : Z) : reply Z :=
  mk_reply 5 (match args with [_; ARef _; ARef _] => [1] | _ => [] end) (λ _, 77) None (n + 1).
Definition qnx_machine : machine Z :=
  mk_machine (λ r, match r with XSP => Stk 0 | _ => Num 0x11000 end) (λ _, None) false (mk_proc 0 (λ _, 0) []).
Definition qnx_params : FridaInjectionParams := mk_qparams 7 "/a.so" "main" "x" 3 0x200000.
Definition qnx_api : payload_api := mk_papi 1 2 3 4 5 6 7 3 9.
Lemma qnx_payload_follows_protocol_witness :
  ∃ m', run arm_abi qnx_process 0 (payload_code qnx_api 42 qnx_params) None qnx_machine = Some (Returned, m') ∧
    qnx_protocol qnx_process qnx_api 42 qnx_params (m_proc qnx_machine) = Ret (tt, m_proc m') ∧ arm_restored qnx_machine m'.
Proof. exact (qnx_payload_follows_protocol qnx_process qnx_api 42 qnx_params 0 qnx_machine eq_refl). Defined.


(** ** What goes wrong *)
Definition last_set (l : list qact) : option procfs_greg :=
  foldl (λ o a, match a with GregSet _ r => Some r | _ => o end) None l.
(** When the process has no libc, mmap is resolved to 0, and 0 is called. *)
Lemma missing_libc_calls_null :
  match frida_remote_alloc 2 7 8192 0x700 (qinjector_new no_libc_run) with
  | Ret (_, s') => existsb (λ a, match a with GregSet _ r => gpr r ARM_REG_PC =? 0 | _ => false end) (q_log s') = true
  | _ => False
  end.
Proof. vm_compute. reflexivity. Qed.
(** When waiting for the function fails, the thread keeps the registers of the call. *)
Lemma failed_wait_leaves_frame :
  match frida_remote_call 2 7 0x5000 [1] (qinjector_new lost_run) with
  | Ret (v, s') => v.1 = q_fails "DCMD_PROC_WAITSTOP" ∧ (λ r, gpr r ARM_REG_PC) <$> last_set (q_log s') = Some 0x5000
  | _ => False
  end.
Proof. vm_compute. split; reflexivity. Qed.
(** When mmap fails, its 32-bit result is taken for an address. *)
Lemma failed_mmap_taken_for_address :
  match frida_remote_alloc 2 7 8192 0x700 (qinjector_new (mk_qscript false [2 ^ 32 - 1] "" true [])) with
  | Ret (r, _) => r = (2 ^ 32 - 1, None)
  | _ => False
  end.
Proof. vm_compute. reflexivity. Qed.
