(* ===== verification/SelinuxPolicy.v ===== *)
(** The SELinux policy patcher, src/lib/selinux/patch.c: the policy is read from the
    kernel, types and rules for the agent are added to it, and it is loaded again.

    The policy database is the one of libsepol, which is not part of the repository: the
    model has the fields that the source reads and writes, its hash tables as finite
    maps, its bitmaps as sets of positions, and the table of access vectors as a map
    from its keys.  Reading and writing its image, the files and the kernel's switch are
    the class [SelinuxSystem].  [policydb_index_others] and [policydb_load_isids] rebuild
    indices that the patcher does not read, and are left out with the release of memory;
    allocations succeed. *)
From Stdlib Require Import Ascii.
From S2P Require Import Prelude Posix.

(** ** libsepol's data *)
Inductive type_flavor := TYPE_TYPE | TYPE_ATTRIB | TYPE_ALIAS.
Record type_datum := mk_type { ty_value : Z; ty_primary : bool; ty_flavor : type_flavor; ty_types : gset Z }.
Record constraint_expr := mk_cexpr { cx_type_names : gset Z; cx_names : gset Z }.
Record constraint_node := mk_cnode { cn_permissions : Z; cn_expr : list constraint_expr }.
(** The permissions of a class and of the common it inherits from. *)
Record class_datum := mk_class {
  cl_value : Z; cl_permissions : gmap string Z; cl_comdatum : option (gmap string Z); cl_constraints : list constraint_node
}.
Record avtab_key := mk_key { source_type : Z; target_type : Z; target_class : Z; specified : Z }.
#[export] Instance avtab_key_eq_dec : EqDecision avtab_key.
Proof. solve_decision. Defined.
#[export] Instance avtab_key_countable : Countable avtab_key.
Proof.
  refine (inj_countable' (λ k, (source_type k, target_type k, target_class k, specified k))
    (λ p, mk_key p.1.1.1 p.1.1.2 p.1.2 p.2) _). by intros [].
Defined.
Definition AVTAB_ALLOWED : Z := 1.
(** [p_classes] has positions in [class_val_to_struct]. *)
Record policydb := mk_db {
  p_types : gmap string type_datum; p_types_nprim : Z;
  p_classes : gmap string nat; class_val_to_struct : list class_datum;
  te_avtab : gmap avtab_key Z;
  type_attr_map : list (gset Z); attr_type_map : list (gset Z); permissive_map : gset Z
}.
Definition with_types (f : gmap string type_datum → gmap string type_datum) (db : policydb) : policydb :=
  mk_db (f (p_types db)) (p_types_nprim db) (p_classes db) (class_val_to_struct db) (te_avtab db)
    (type_attr_map db) (attr_type_map db) (permissive_map db).
Definition with_classes (l : list class_datum) (db : policydb) : policydb :=
  mk_db (p_types db) (p_types_nprim db) (p_classes db) l (te_avtab db) (type_attr_map db) (attr_type_map db) (permissive_map db).
Definition with_avtab (t : gmap avtab_key Z) (db : policydb) : policydb :=
  mk_db (p_types db) (p_types_nprim db) (p_classes db) (class_val_to_struct db) t (type_attr_map db) (attr_type_map db) (permissive_map db).
Definition with_attr_maps (ta at_ : list (gset Z)) (db : policydb) : policydb :=
  mk_db (p_types db) (p_types_nprim db) (p_classes db) (class_val_to_struct db) (te_avtab db) ta at_ (permissive_map db).
Definition with_permissive (m : gset Z) (db : policydb) : policydb :=
  mk_db (p_types db) (p_types_nprim db) (p_classes db) (class_val_to_struct db) (te_avtab db) (type_attr_map db) (attr_type_map db) m.

(** ** The system *)
Class SelinuxSystem (K : Type) := {
  sx_exists : string → K → bool;
  sx_get_contents : string → K → option (list Z) * K;
  sx_open : string → K → sysret Z * K;
  sx_write : Z → list Z → K → sysret Z * K;
  sx_close : Z → K → K;
  sx_getenforce : K → Z;
  sx_setenforce : Z → K → Z * K;
  sx_getcon : K → string;
  sx_policydb_read : list Z → option policydb;
  sx_policydb_to_image : policydb → list Z
}.
(** [sx_enforcing] is the mode of the kernel and [sx_received] what was accepted on a
    descriptor; [sx_signals] bounds the interruptions to come. *)
Class SelinuxLaws (K : Type) `{SelinuxSystem K} := {
  sx_enforcing : K → bool;
  sx_received : K → Z → list Z;
  sx_signals : K → nat;
  sl_getenforce k : sx_getenforce k = 1 ↔ sx_enforcing k = true;
  sl_setenforce v k k' : sx_setenforce v k = (0, k') → sx_enforcing k' = negb (v =? 0);
  sl_setenforce_fails v k r k' : sx_setenforce v k = (r, k') → r ≠ 0 → sx_enforcing k' = sx_enforcing k;
  sl_setenforce_received v k r k' : sx_setenforce v k = (r, k') → sx_received k' = sx_received k ∧ sx_signals k' = sx_signals k;
  sl_get_contents f k r k' : sx_get_contents f k = (r, k') →
    sx_enforcing k' = sx_enforcing k ∧ sx_received k' = sx_received k ∧ sx_signals k' = sx_signals k;
  sl_open f k r k' : sx_open f k = (r, k') → sx_enforcing k' = sx_enforcing k ∧ sx_signals k' = sx_signals k;
  sl_open_ok f k fd k' : sx_open f k = (SysOk fd, k') → fd ≠ -1 ∧ sx_received k' fd = [];
  sl_write fd bs k r k' : sx_write fd bs k = (r, k') →
    sx_enforcing k' = sx_enforcing k ∧ (sx_signals k' + interrupted r ≤ sx_signals k)%nat;
  sl_write_ok fd bs k n k' : sx_write fd bs k = (SysOk n, k') →
    0 ≤ n ≤ zlen bs ∧ (bs ≠ [] → 0 < n) ∧ sx_received k' fd = sx_received k fd ++ ztake n bs;
  sl_write_err fd bs k e k' : sx_write fd bs k = (SysErr e, k') → sx_received k' fd = sx_received k fd;
  sl_close fd k : sx_enforcing (sx_close fd k) = sx_enforcing k ∧ sx_received (sx_close fd k) = sx_received k ∧
    sx_signals (sx_close fd k) = sx_signals k
}.

Inductive FridaSELinuxError := POLICY_FORMAT_NOT_SUPPORTED | TYPE_NOT_FOUND | CLASS_NOT_FOUND | PERMISSION_NOT_FOUND | IO_ERROR (errno : Z).
#[export] Instance FridaSELinuxError_eq_dec : EqDecision FridaSELinuxError.
Proof. solve_decision. Defined.
(** What is printed: the operation and its error. *)
Record patcher (K : Type) := mk_patcher { sl_kern : K; sl_db : policydb; sl_printed : list (string * FridaSELinuxError) }.
Arguments mk_patcher {K} _ _ _.
Arguments sl_kern {K} _.
Arguments sl_db {K} _.
Arguments sl_printed {K} _.

(** ** The rules *)
Record FridaSELinuxRule := mk_rule { ru_sources : list string; ru_target : string; ru_klass : string; ru_permissions : list string }.
#[local] Open Scope string_scope.
Definition frida_selinux_rules : list FridaSELinuxRule := [
  mk_rule ["domain"] "domain" "process" ["execmem"];
  mk_rule ["domain"] "frida_file" "dir" ["search"];
  mk_rule ["domain"] "frida_file" "file" ["open"; "read"; "getattr"; "execute"; "?map"];
  mk_rule ["domain"] "frida_memfd" "file" ["open"; "read"; "write"; "getattr"; "execute"; "?map"];
  mk_rule ["domain"] "shell_data_file" "dir" ["search"];
  mk_rule ["domain"] "zygote_exec" "file" ["execute"];
  mk_rule ["domain"] "$self" "process" ["sigchld"];
  mk_rule ["domain"] "$self" "fd" ["use"];
  mk_rule ["domain"] "$self" "unix_stream_socket" ["connectto"; "read"; "write"; "getattr"; "getopt"];
  mk_rule ["domain"] "$self" "tcp_socket" ["read"; "write"; "getattr"; "getopt"];
  mk_rule ["zygote"] "zygote" "capability" ["sys_ptrace"];
  mk_rule ["?app_zygote"] "zygote_exec" "file" ["read"];
  mk_rule ["system_server"] "?apex_art_data_file" "file" ["execute"]
].
#[local] Close Scope string_scope.
(** Whether a name is marked as optional, and the name. *)
Definition optional_name (name : string) : bool * string :=
  match name with
  | String c rest => if Ascii.eqb c "?"%char then (true, rest) else (false, name)
  | EmptyString => (false, name)
  end.
(** The token with the index [n] of a string that is split at colons. *)
Fixpoint colon_token (n : nat) (s : string) : option string :=
  match s with
  | EmptyString => match n with O => Some EmptyString | S _ => None end
  | String c rest =>
      if Ascii.eqb c ":"%char then match n with O => Some EmptyString | S n => colon_token n rest end
      else match n with
           | O => match colon_token O rest with Some t => Some (String c t) | None => None end
           | S _ => colon_token n rest
           end
  end.

(** ** Operations *)
Section patch.
Context {K : Type} `{SelinuxSystem K}.
Notation S := (patcher K).

Definition upd_db (f : policydb → policydb) : M S unit := modify (λ s, mk_patcher (sl_kern s) (f (sl_db s)) (sl_printed s)).
Definition db : M S policydb := gets sl_db.
Definition printerr (what : string) (e : FridaSELinuxError) : M S unit :=
  modify (λ s, mk_patcher (sl_kern s) (sl_db s) (sl_printed s ++ [(what, e)])).
Definition sx_call {A} (f : K → A * K) : M S A := λ s, let '(a, k) := f (sl_kern s) in Ret (a, mk_patcher k (sl_db s) (sl_printed s)).
Definition sx_ask {A} (f : K → A) : M S A := gets (λ s, f (sl_kern s)).

(** ebitmap_set_bit on an element of an array of bitmaps. *)
Definition set_bit_at (map : list (gset Z)) (i bit : Z) : option (list (gset Z)) :=
  match map !! Z.to_nat i with Some b => Some (<[Z.to_nat i := {[bit]} ∪ b]> map) | None => None end.

Definition add_type_to_expr (type_id attribute_id : Z) (expr : constraint_expr) : constraint_expr :=
  if bool_decide (attribute_id - 1 ∈ cx_type_names expr)
  then mk_cexpr (cx_type_names expr) ({[type_id - 1]} ∪ cx_names expr) else expr.
Definition add_type_to_class (type_id attribute_id : Z) (klass : class_datum) : class_datum :=
  mk_class (cl_value klass) (cl_permissions klass) (cl_comdatum klass)
    ((λ n, mk_cnode (cn_permissions n) (add_type_to_expr type_id attribute_id <$> cn_expr n)) <$> cl_constraints klass).
Definition frida_add_type_to_class_constraints_referencing_attribute (type_id attribute_id : Z) : M S unit :=
  upd_db (λ d, with_classes (add_type_to_class type_id attribute_id <$> class_val_to_struct d) d).

(** A new type; the arrays grow by elements that are not initialised, [garbage]. *)
Definition new_type (garbage : gset Z) (type_name : string) (d : policydb) : option (Z * policydb) :=
  let type_id := p_types_nprim d + 1 in
  let n := Z.to_nat type_id in
  let i := type_id - 1 in
  let types := <[type_name := mk_type type_id true TYPE_TYPE ∅]> (p_types d) in
  let ta := <[Z.to_nat i := ∅]> (resize n garbage (type_attr_map d)) in
  let at_ := <[Z.to_nat i := ∅]> (resize n garbage (attr_type_map d)) in
  match set_bit_at ta i i with
  | Some ta =>
      Some (type_id, mk_db types type_id (p_classes d) (class_val_to_struct d) (te_avtab d) ta at_ (permissive_map d))
  | None => None
  end.
(** The loop over the attributes: whether one is missing. *)
Fixpoint add_attributes (type_id : Z) (attributes : list string) : M S bool :=
  match attributes with
  | [] => ret false
  | attribute_name :: attributes =>
      let! d := db in
      match p_types d !! attribute_name with
      | Some a =>
          let attribute_id := ty_value a in
          do! upd_db (with_types (insert attribute_name
                (mk_type (ty_value a) (ty_primary a) (ty_flavor a) ({[type_id - 1]} ∪ ty_types a)))) in
          match set_bit_at (type_attr_map d) (type_id - 1) (attribute_id - 1),
                set_bit_at (attr_type_map d) (attribute_id - 1) (type_id - 1) with
          | Some ta, Some at_ =>
              do! upd_db (with_attr_maps ta at_) in
              do! frida_add_type_to_class_constraints_referencing_attribute type_id attribute_id in
              add_attributes type_id attributes
          | _, _ => crash
          end
      | None => do! add_attributes type_id attributes in ret true
      end
  end.
Definition frida_ensure_type (garbage : gset Z) (type_name : string) (attributes : list string) : M S (option FridaSELinuxError) :=
  let! d := db in
  let! type_id :=
    match p_types d !! type_name with
    | Some t => ret (ty_value t)
    | None => match new_type garbage type_name d with
              | Some (id, d) => do! upd_db (λ _, d) in ret id
              | None => crash
              end
    end in
  let! missing := add_attributes type_id attributes in
  ret (if missing then Some TYPE_NOT_FOUND else None).

Definition frida_ensure_permissive (type_name : string) : M S (option FridaSELinuxError) :=
  let! d := db in
  match p_types d !! type_name with
  | None => ret (Some TYPE_NOT_FOUND)
  | Some t => do! upd_db (λ d, with_permissive ({[ty_value t]} ∪ permissive_map d) d) in ret None
  end.

Definition find_permission (klass : class_datum) (p : string) : option Z :=
  match cl_permissions klass !! p with
  | Some v => Some v
  | None => match cl_comdatum klass with Some c => c !! p | None => None end
  end.
Definition frida_ensure_rule (s t c p : string) : M S (option FridaSELinuxError) :=
  let! d := db in
  match p_types d !! s with
  | None => ret (Some TYPE_NOT_FOUND)
  | Some source =>
      let! t := (if String.eqb t "$self" then
                   let! self_context := sx_ask sx_getcon in
                   match colon_token 2 self_context with Some t => ret t | None => crash end
                 else ret t) in
      match p_types d !! t with
      | None => ret (Some TYPE_NOT_FOUND)
      | Some target =>
          match p_classes d !! c with
          | None => ret (Some CLASS_NOT_FOUND)
          | Some i =>
              match class_val_to_struct d !! i with
              | None => crash
              | Some klass =>
                  match find_permission klass p with
                  | None => ret (Some PERMISSION_NOT_FOUND)
                  | Some value =>
                      let perm_bit := u32 (Z.shiftl 1 (value - 1)) in
                      let key := mk_key (u16 (ty_value source)) (u16 (ty_value target)) (u16 (cl_value klass)) AVTAB_ALLOWED in
                      let data := match te_avtab d !! key with Some data => Z.lor data perm_bit | None => perm_bit end in
                      do! upd_db (with_avtab (<[key := data]> (te_avtab d))) in ret None
                  end
              end
          end
      end
  end.

(** *** The loops over the rules *)
Fixpoint for_each {A} (l : list A) (f : A → M S unit) : M S unit :=
  match l with [] => ret tt | a :: l => do! f a in for_each l f end.
Definition apply_permission (source target klass perm_entry : string) : M S unit :=
  let '(unimportant, perm) := optional_name perm_entry in
  let! e := frida_ensure_rule source target klass perm in
  match e with
  | Some e => if negb (bool_decide (e = PERMISSION_NOT_FOUND)) || negb unimportant then printerr "Unable to add SELinux rule" e else ret tt
  | None => ret tt
  end.
Definition apply_rule (rule : FridaSELinuxRule) : M S unit :=
  let '(maybe, target) := optional_name (ru_target rule) in
  let! d := db in
  if maybe && bool_decide (p_types d !! target = None) then ret tt
  else
    for_each (ru_sources rule) (λ entry,
      let '(maybe, source) := optional_name entry in
      let! d := db in
      if maybe && bool_decide (p_types d !! source = None) then ret tt
      else for_each (ru_permissions rule) (apply_permission source target (ru_klass rule))).

(** *** Files *)
Definition frida_set_file_contents (fuel : nat) (filename : string) (contents : list Z) : M S (option FridaSELinuxError) :=
  let! r := sx_call (sx_open filename) in
  match r with
  | SysErr e => ret (Some (IO_ERROR e))
  | SysOk fd =>
      let! e := loop fuel (λ offset : Z,
        if offset =? zlen contents then ret (inr None)
        else
          let! r := sx_call (sx_write fd (zdrop offset contents)) in
          match r with
          | SysOk n => ret (inl (offset + n))
          | SysErr e => if e =? EINTR then ret (inl offset) else ret (inr (Some (IO_ERROR e)))
          end) 0 in
      do! modify (λ s, mk_patcher (sx_close fd (sl_kern s)) (sl_db s) (sl_printed s)) in
      ret e
  end.
Definition frida_load_policy (filename : string) : M S (option FridaSELinuxError) :=
  let! contents := sx_call (sx_get_contents filename) in
  match contents with
  | None => ret (Some (IO_ERROR 0))
  | Some image =>
      match sx_policydb_read image with
      | None => ret (Some POLICY_FORMAT_NOT_SUPPORTED)
      | Some d => do! upd_db (λ _, d) in ret None
      end
  end.
Definition frida_save_policy (fuel : nat) (filename : string) : M S (option FridaSELinuxError) :=
  let! d := db in frida_set_file_contents fuel filename (sx_policydb_to_image d).

(** When the policy cannot be saved: once more in permissive mode. *)
Definition save_in_emulator (fuel : nat) (error : FridaSELinuxError) : M S unit :=
  let! mode := sx_ask sx_getenforce in
  let! probably_in_emulator :=
    (if mode =? 1 then let! r := sx_call (sx_setenforce 0) in ret (r =? 0) else ret false) in
  let! error :=
    (if probably_in_emulator then
       let! e := frida_ensure_permissive "shell" in
       let! e := match e with Some e => ret (Some e) | None => frida_save_policy fuel "/sys/fs/selinux/load" end in
       do! sx_call (sx_setenforce 1) in ret e
     else ret (Some error)) in
  match error with Some e => printerr "Unable to save SELinux policy to the kernel" e | None => ret tt end.
Definition frida_selinux_patch_policy (fuel : nat) (garbage : gset Z) : M S unit :=
  let system_policy := "/sys/fs/selinux/policy"%string in
  let! present := sx_ask (sx_exists system_policy) in
  if negb present then ret tt
  else
    let! e := frida_load_policy system_policy in
    match e with
    | Some e => printerr "Unable to load SELinux policy from the kernel" e
    | None =>
        let! e := frida_ensure_type garbage "frida_file" ["file_type"%string; "mlstrustedobject"%string] in
        match e with
        | Some e => printerr "Unable to add SELinux type" e
        | None =>
            let! e := frida_ensure_type garbage "frida_memfd" ["file_type"%string; "mlstrustedobject"%string] in
            match e with
            | Some e => printerr "Unable to add SELinux type" e
            | None =>
                do! for_each frida_selinux_rules apply_rule in
                let! e := frida_save_policy fuel "/sys/fs/selinux/load" in
                match e with Some e => save_in_emulator fuel e | None => ret tt end
            end
        end
    end.
End patch.
