(* ===== verification/SelinuxCorrect.v ===== *)
(** What a policy grants, and what the steps of the SELinux patcher add to it. *)
From S2P Require Import Prelude Posix SelinuxPolicy.

(** ** What a policy grants *)
(** The identifiers of a type's attributes, less one; a type is among its own. *)
Definition attrs (d : policydb) (t : Z) : gset Z := default ∅ (type_attr_map d !! Z.to_nat (t - 1)).
(** A source type has a permission of a class on a target type when the table of access
    vectors has it for an attribute of the one and an attribute of the other. *)
Definition granted (d : policydb) (source target class perm : Z) : Prop :=
  ∃ s t data, s - 1 ∈ attrs d source ∧ t - 1 ∈ attrs d target ∧
    te_avtab d !! mk_key s t class AVTAB_ALLOWED = Some data ∧ Z.testbit data (perm - 1) = true.
(** The identifier of a type, and those of a class and a permission of it. *)
Definition type_id (d : policydb) (name : string) : option Z := ty_value <$> p_types d !! name.
Definition perm_id (d : policydb) (class perm : string) : option (Z * Z) :=
  i ← p_classes d !! class; klass ← class_val_to_struct d !! i; v ← find_permission klass perm; Some (cl_value klass, v).

(** Policies as libsepol reads them: identifiers count from 1 and have 16 bits, there are
    at most 32 permissions, and the arrays have an element per type. *)
Record wf (d : policydb) : Prop := {
  wf_small : 0 ≤ p_types_nprim d < 2 ^ 16;
  wf_types n t : p_types d !! n = Some t → 1 ≤ ty_value t ≤ p_types_nprim d;
  wf_type_attr : length (type_attr_map d) = Z.to_nat (p_types_nprim d);
  wf_attr_type : length (attr_type_map d) = Z.to_nat (p_types_nprim d);
  wf_classes c i : p_classes d !! c = Some i →
    ∃ klass, class_val_to_struct d !! i = Some klass ∧ 0 ≤ cl_value klass < 2 ^ 16 ∧
      ∀ p v, find_permission klass p = Some v → 1 ≤ v ≤ 32
}.

(** ** Rules *)
(** What a rule for one source and one permission allows; [self] is the patcher's type. *)
Definition target_name (self t : string) : string := if String.eqb t "$self" then self else t.
Definition entry_allows (d : policydb) (self sn tn cn pn : string) (source target class perm : Z) : Prop :=
  ∃ s t, type_id d sn = Some s ∧ type_id d (target_name self tn) = Some t ∧ perm_id d cn pn = Some (class, perm) ∧
    s - 1 ∈ attrs d source ∧ t - 1 ∈ attrs d target.
Definition rule_allows (d : policydb) (self : string) (rule : FridaSELinuxRule) (source target class perm : Z) : Prop :=
  ∃ sn pn, sn ∈ ru_sources rule ∧ pn ∈ ru_permissions rule ∧
    entry_allows d self (optional_name sn).2 (optional_name (ru_target rule)).2 (ru_klass rule) (optional_name pn).2 source target class perm.
Definition rules_allow (d : policydb) (self : string) (source target class perm : Z) : Prop :=
  ∃ rule, rule ∈ frida_selinux_rules ∧ rule_allows d self rule source target class perm.

Lemma testbit_perm_bit v p : 1 ≤ v ≤ 32 → 1 ≤ p → Z.testbit (u32 (Z.shiftl 1 (v - 1))) (p - 1) = (p =? v).
Proof.
  intros Hv Hp. rewrite Z.shiftl_1_l. rewrite u32_small; [|split; [lia|apply Z.pow_lt_mono_r; lia]].
  destruct (Z.eqb_spec p v) as [->|Hne]; [apply Z.pow2_bits_true; lia|apply Z.pow2_bits_false; lia].
Qed.
(** A bit that is added to an access vector. *)
Lemma granted_insert d s0 t0 c0 v source target class perm :
  1 ≤ v ≤ 32 → 1 ≤ perm →
  let bit := u32 (Z.shiftl 1 (v - 1)) in
  let key := mk_key s0 t0 c0 AVTAB_ALLOWED in
  let data := match te_avtab d !! key with Some data => Z.lor data bit | None => bit end in
  granted (with_avtab (<[key := data]> (te_avtab d)) d) source target class perm ↔
  granted d source target class perm ∨ (s0 - 1 ∈ attrs d source ∧ t0 - 1 ∈ attrs d target ∧ class = c0 ∧ perm = v).
Proof.
  intros Hv Hp bit key data. unfold granted. split.
  - intros (s & t & x & Hs & Ht & Hx & Hbit). cbn [te_avtab with_avtab] in Hx. apply lookup_insert_Some in Hx as [[Ek Ex]|[_ Hx]].
    + injection Ek as <- <- <-. subst x data. destruct (te_avtab d !! key) as [old|] eqn:E.
      * rewrite Z.lor_spec in Hbit. apply orb_true_iff in Hbit as [Hbit|Hbit]; [left; by exists s0, t0, old|right].
        subst bit. rewrite testbit_perm_bit in Hbit by done. by apply Z.eqb_eq in Hbit.
      * right. subst bit. rewrite testbit_perm_bit in Hbit by done. by apply Z.eqb_eq in Hbit.
    + left. by exists s, t, x.
  - intros [(s & t & x & Hs & Ht & Hx & Hbit)|(Hs & Ht & -> & ->)].
    + destruct (decide (mk_key s t class AVTAB_ALLOWED = key)) as [Ek|Hne].
      * exists s, t, data. split_and!; [done|done|cbn; by rewrite Ek, lookup_insert_eq|].
        subst data. rewrite <- Ek, Hx. by rewrite Z.lor_spec, Hbit.
      * exists s, t, x. split_and!; [done|done|cbn; by rewrite lookup_insert_ne|done].
    + exists s0, t0, data. split_and!; [done|done|cbn; by rewrite lookup_insert_eq|].
      subst data bit. destruct (te_avtab d !! key); rewrite ?Z.lor_spec, testbit_perm_bit, Z.eqb_refl by lia; by rewrite ?orb_true_r.
Qed.

Section steps.
Context {K : Type} `{SelinuxSystem K}.
Implicit Types (s : patcher K) (d : policydb).

(** ** Steps that add grants *)
(** The policy of [s'] has the access vectors of that of [s] and [E] more. *)
Definition grants (E : Z → Z → Z → Z → Prop) s s' : Prop :=
  sl_kern s' = sl_kern s ∧ (∃ t, sl_db s' = with_avtab t (sl_db s)) ∧
  ∀ source target class perm, 1 ≤ perm →
    granted (sl_db s') source target class perm ↔ granted (sl_db s) source target class perm ∨ E source target class perm.
Lemma grants_nothing (E : Z → Z → Z → Z → Prop) s : (∀ a b c p, ¬ E a b c p) → grants E s s.
Proof. intros HE. split_and!; [done|exists (te_avtab (sl_db s)); by destruct (sl_db s)|]. intros. split; [tauto|]. intros [?|[]%HE]; done. Qed.
Lemma grants_trans (E1 E2 : Z → Z → Z → Z → Prop) s1 s2 s3 :
  grants E1 s1 s2 → grants E2 s2 s3 → grants (λ a b c p, E1 a b c p ∨ E2 a b c p) s1 s3.
Proof.
  intros (K1 & (t1 & D1) & G1) (K2 & (t2 & D2) & G2). split_and!; [congruence|exists t2; by rewrite D2, D1|].
  intros. rewrite G2, G1 by done. tauto.
Qed.
Lemma grants_iff (E1 E2 : Z → Z → Z → Z → Prop) s s' :
  grants E1 s s' → (∀ a b c p, E1 a b c p ↔ E2 a b c p) → grants E2 s s'.
Proof. intros (HK & HD & HG) HE. split_and!; [done|done|]. intros. by rewrite HG, HE. Qed.
Lemma wf_with_avtab t d : wf d → wf (with_avtab t d).
Proof. by intros []. Qed.
Lemma entry_allows_with_avtab t d : entry_allows (with_avtab t d) = entry_allows d.
Proof. done. Qed.

Lemma grants_printed E s s' l : grants E s s' → grants E s (mk_patcher (sl_kern s') (sl_db s') l).
Proof. done. Qed.
End steps.

Section rules.
Context {K : Type} `{SelinuxSystem K} (self : string).
Implicit Types (s : patcher K) (d : policydb).
(** States with a policy that is well formed, and a context from which [self] can be read. *)
Definition ready s : Prop := wf (sl_db s) ∧ colon_token 2 (sx_getcon (sl_kern s)) = Some self.
Lemma ready_grants E s s' : ready s → grants E s s' → ready s'.
Proof. intros [Hw Hc] (HK & (t & HD) & _). split; [rewrite HD; by apply wf_with_avtab|by rewrite HK]. Qed.

Lemma wp_ensure_rule sn tn cn pn s : ready s →
  wp (frida_ensure_rule sn tn cn pn) s (λ e s', grants (entry_allows (sl_db s) self sn tn cn pn) s s').
Proof.
  intros [Hw Hself]. unfold frida_ensure_rule. wp_step. unfold db. apply wp_gets. set (d := sl_db s) in *.
  assert (Hnone : type_id d sn = None ∨ type_id d (target_name self tn) = None ∨ perm_id d cn pn = None →
    grants (entry_allows d self sn tn cn pn) s s).
  { intros Hn. apply grants_nothing. intros a b c p (x & y & E1 & E2 & E3 & _). rewrite E1, E2, E3 in Hn. naive_solver. }
  destruct (p_types d !! sn) as [source|] eqn:Es; [|wp_step; apply Hnone; left; unfold type_id; by rewrite Es].
  wp_step. eapply wp_mono with (λ t s', t = target_name self tn ∧ s' = s).
  { unfold target_name. destruct (String.eqb tn "$self"); [|by wp_step].
    wp_step. unfold sx_ask. apply wp_gets. rewrite Hself. by wp_step. }
  cbn beta. intros t s' [-> ->].
  destruct (p_types d !! target_name self tn) as [target|] eqn:Et; [|wp_step; apply Hnone; right; left; unfold type_id; by rewrite Et].
  destruct (p_classes d !! cn) as [i|] eqn:Ec; [|wp_step; apply Hnone; right; right; unfold perm_id; by rewrite Ec].
  destruct (wf_classes _ Hw _ _ Ec) as (klass & Ek & Hcv & Hpv). rewrite Ek.
  destruct (find_permission klass pn) as [v|] eqn:Ep; [|wp_step; apply Hnone; right; right; unfold perm_id; rewrite Ec; cbn; rewrite Ek; cbn; by rewrite Ep].
  pose proof (wf_types _ Hw _ _ Es) as Hs. pose proof (wf_types _ Hw _ _ Et) as Ht. pose proof (wf_small _ Hw) as Hn. pose proof (Hpv _ _ Ep) as Hv.
  rewrite !u16_small by lia. wp_step. unfold upd_db. apply wp_modify. wp_step. split_and!; [done|by eexists|].
  intros a b c p Hp. cbn [sl_db]. fold d. rewrite granted_insert by done. apply or_iff_compat_l. unfold entry_allows, type_id, perm_id.
  rewrite Es, Et, Ec. cbn. rewrite Ek. cbn. rewrite Ep. cbn. split.
  - intros (H1 & H2 & -> & ->). by exists (ty_value source), (ty_value target).
  - intros (x & y & [= <-] & [= <-] & [= <- <-] & H1 & H2). done.
Qed.

Lemma wp_for_each {A} (l : list A) (f : A → M (patcher K) unit) (E : A → policydb → Z → Z → Z → Z → Prop) :
  (∀ a t d, E a (with_avtab t d) = E a d) →
  (∀ a s, a ∈ l → ready s → wp (f a) s (λ _ s', grants (E a (sl_db s)) s s')) →
  ∀ s, ready s → wp (for_each l f) s (λ _ s', grants (λ x y c p, ∃ a, a ∈ l ∧ E a (sl_db s) x y c p) s s').
Proof.
  intros HE. induction l as [|a l IH]; intros Hf s Hs; cbn [for_each].
  { wp_step. apply grants_nothing. by intros ? ? ? ? (? & ?%not_elem_of_nil & _). }
  wp_step. eapply wp_mono; [apply Hf; [by left|done]|]. cbn beta. intros _ s1 H1.
  eapply wp_mono; [apply IH; [by intros; apply Hf; [right|]|by eapply ready_grants]|]. cbn beta. intros _ s2 H2.
  eapply grants_iff; [by eapply grants_trans|]. destruct H1 as (_ & (t & D) & _). intros x y c p. rewrite D. split.
  - intros [He|(b & Hb & He)]; [exists a|exists b]; [|rewrite HE in He]; set_solver.
  - intros (b & [->|Hb]%elem_of_cons & He); [by left|right]. exists b. by rewrite HE.
Qed.
Lemma wp_apply_permission source target klass pn s : ready s →
  wp (apply_permission source target klass pn) s (λ _ s', grants (entry_allows (sl_db s) self source target klass (optional_name pn).2) s s').
Proof.
  intros Hs. unfold apply_permission. destruct (optional_name pn) as [u perm]. cbn [snd]. wp_step.
  eapply wp_mono; [by apply wp_ensure_rule|]. cbn beta. intros [e|] s' Hg; [|by wp_step].
  destruct (_ || _); [|by wp_step]. unfold printerr. apply wp_modify. by apply grants_printed.
Qed.
Lemma missing_allows_nothing d sn tn cn pn a b c p :
  p_types d !! sn = None ∨ p_types d !! target_name self tn = None → ¬ entry_allows d self sn tn cn pn a b c p.
Proof. intros Hn (x & y & E1 & E2 & _). unfold type_id in *. destruct Hn as [Hn|Hn]; rewrite Hn in *; done. Qed.
(** Optional names are those of types. *)
Definition plain_target (rule : FridaSELinuxRule) : bool :=
  let '(maybe, t) := optional_name (ru_target rule) in negb maybe || negb (String.eqb t "$self").
Lemma wp_apply_rule rule s : plain_target rule = true → ready s →
  wp (apply_rule rule) s (λ _ s', grants (rule_allows (sl_db s) self rule) s s').
Proof.
  intros Hplain Hs. unfold apply_rule, rule_allows, plain_target in *. destruct (optional_name (ru_target rule)) as [maybe target]. cbn [snd].
  wp_step. unfold db at 1. apply wp_gets. destruct (maybe && bool_decide (p_types (sl_db s) !! target = None)) eqn:Em.
  - wp_step. apply andb_prop in Em as [-> Em%bool_decide_eq_true]. cbn in Hplain. apply negb_true_iff in Hplain.
    apply grants_nothing. intros a b c p (sn & pn & _ & _ & He). eapply missing_allows_nothing; [|exact He]. right. unfold target_name. by rewrite Hplain.
  - eapply wp_mono; [apply (wp_for_each _ _ (λ sn d a b c p, ∃ pn, pn ∈ ru_permissions rule ∧
      entry_allows d self (optional_name sn).2 target (ru_klass rule) (optional_name pn).2 a b c p)); [done| |done]|].
    + intros sn s1 _ Hs1. destruct (optional_name sn) as [maybe2 source]. cbn [snd]. wp_step. unfold db. apply wp_gets.
      destruct (maybe2 && bool_decide (p_types (sl_db s1) !! source = None)) eqn:Em2.
      * wp_step. apply andb_prop in Em2 as [_ Em2%bool_decide_eq_true]. apply grants_nothing. intros a b c p (pn & _ & He).
        eapply missing_allows_nothing; [|exact He]. by left.
      * apply (wp_for_each _ _ (λ pn d, entry_allows d self source target (ru_klass rule) (optional_name pn).2)); [done| |done].
        intros pn s2 _ Hs2. by apply wp_apply_permission.
    + cbn beta. intros _ s' Hg. eapply grants_iff; [exact Hg|]. intros a b c p. naive_solver.
Qed.
Lemma wp_apply_rules s : ready s →
  wp (for_each frida_selinux_rules apply_rule) s (λ _ s', grants (rules_allow (sl_db s) self) s s').
Proof.
  intros Hs. apply (wp_for_each _ _ (λ rule d, rule_allows d self rule)); [done| |done]. intros rule s1 Hr Hs1.
  apply wp_apply_rule; [|done]. assert (Hall : forallb plain_target frida_selinux_rules = true) by by vm_compute.
  rewrite forallb_forall in Hall. apply Hall. by apply list_elem_of_In.
Qed.
End rules.

(** ** Types *)
Lemma set_bit_at_lookup map i bit map' : set_bit_at map i bit = Some map' →
  ∃ b, map !! Z.to_nat i = Some b ∧ map' = <[Z.to_nat i := {[bit]} ∪ b]> map.
Proof. unfold set_bit_at. destruct (map !! Z.to_nat i) as [b|] eqn:E; [|done]. intros [= <-]. eauto. Qed.
Lemma set_bit_at_in map i bit : 0 ≤ i < zlen map → is_Some (set_bit_at map i bit).
Proof.
  intros Hi. unfold set_bit_at. destruct (lookup_lt_is_Some_2 map (Z.to_nat i)) as [b ->]; [unfold zlen in Hi; lia|by eexists].
Qed.
(** A change of the types: the access vectors, the classes and the other types' attributes
    stay, and the type [id] keeps its attributes. *)
Record types_change (id : Z) (d d' : policydb) : Prop := {
  tc_wf : wf d';
  tc_avtab : te_avtab d' = te_avtab d;
  tc_perms c p : perm_id d' c p = perm_id d c p;
  tc_attrs x : 1 ≤ x → x ≠ id → attrs d' x = attrs d x;
  tc_keeps : attrs d id ⊆ attrs d' id;
  tc_types n i : type_id d n = Some i → type_id d' n = Some i
}.
Lemma types_change_refl id d : wf d → types_change id d d.
Proof. intros Hw. by split. Qed.
Lemma types_change_trans id d1 d2 d3 : types_change id d1 d2 → types_change id d2 d3 → types_change id d1 d3.
Proof.
  intros [A1 A2 A3 A4 A5 A6] [B1 B2 B3 B4 B5 B6]. split; [done|congruence|intros; by rewrite B3, A3|intros; by rewrite B4, A4|set_solver|auto].
Qed.
Lemma find_permission_added type_id attribute_id klass p : find_permission (add_type_to_class type_id attribute_id klass) p = find_permission klass p.
Proof. done. Qed.

(** A type that becomes one of an attribute. *)
Definition with_attribute (type_id : Z) (name : string) (a : type_datum) (ta at_ : list (gset Z)) (d : policydb) : policydb :=
  let d := with_attr_maps ta at_ (with_types (insert name (mk_type (ty_value a) (ty_primary a) (ty_flavor a) ({[type_id - 1]} ∪ ty_types a))) d) in
  with_classes (add_type_to_class type_id (ty_value a) <$> class_val_to_struct d) d.
Lemma types_change_attribute id name a ta at_ d :
  wf d → 1 ≤ id ≤ p_types_nprim d → p_types d !! name = Some a →
  set_bit_at (type_attr_map d) (id - 1) (ty_value a - 1) = Some ta →
  set_bit_at (attr_type_map d) (ty_value a - 1) (id - 1) = Some at_ →
  types_change id d (with_attribute id name a ta at_ d) ∧ ty_value a - 1 ∈ attrs (with_attribute id name a ta at_ d) id.
Proof.
  intros [W1 W2 W3 W4 W5] Hid Ha (b & Eb & ->)%set_bit_at_lookup (b2 & Eb2 & ->)%set_bit_at_lookup.
  assert (Etypes : ∀ n, type_id (with_attribute id name a (<[Z.to_nat (id - 1) := {[ty_value a - 1]} ∪ b]> (type_attr_map d))
    (<[Z.to_nat (ty_value a - 1) := {[id - 1]} ∪ b2]> (attr_type_map d)) d) n = type_id d n).
  { intros n. unfold type_id. cbn. destruct (decide (n = name)) as [->|Hne]; [by rewrite lookup_insert_eq, Ha|by rewrite lookup_insert_ne by done]. }
  split; [split|].
  - split; cbn; [done| |by rewrite length_insert|by rewrite length_insert|].
    + intros n t [[<- <-]|[_ Ht]]%lookup_insert_Some; [cbn|]; eauto.
    + intros c i Hc. destruct (W5 c i Hc) as (klass & Ek & Hv & Hp). exists (add_type_to_class id (ty_value a) klass).
      rewrite list_lookup_fmap, Ek. done.
  - done.
  - intros c p. unfold perm_id. cbn. destruct (p_classes d !! c) as [i|]; [|done]. cbn. rewrite list_lookup_fmap.
    destruct (class_val_to_struct d !! i) as [klass|]; done.
  - intros x Hx Hne. unfold attrs. cbn. rewrite list_lookup_insert_ne by lia. done.
  - unfold attrs. cbn. rewrite list_lookup_insert_eq by (eapply lookup_lt_Some; exact Eb). rewrite Eb. cbn. set_solver.
  - intros n i. by rewrite Etypes.
  - unfold attrs. cbn. rewrite list_lookup_insert_eq by (eapply lookup_lt_Some; exact Eb). cbn. set_solver.
Qed.

Section types.
Context {K : Type} `{SelinuxSystem K}.
Implicit Types (s : patcher K) (d : policydb).
Definition same_system s s' : Prop := sl_kern s' = sl_kern s ∧ sl_printed s' = sl_printed s.

Lemma wp_add_attributes id attributes : ∀ s,
  wf (sl_db s) → 1 ≤ id ≤ p_types_nprim (sl_db s) → Forall (λ a, is_Some (type_id (sl_db s) a)) attributes →
  wp (add_attributes id attributes) s (λ missing s', missing = false ∧ same_system s s' ∧ types_change id (sl_db s) (sl_db s') ∧
    p_types_nprim (sl_db s') = p_types_nprim (sl_db s) ∧
    Forall (λ a, ∃ i, type_id (sl_db s) a = Some i ∧ i - 1 ∈ attrs (sl_db s') id) attributes).
Proof.
  induction attributes as [|name attributes IH]; intros s Hw Hid Ha; cbn [add_attributes].
  { wp_step. split_and!; [done|done|by apply types_change_refl|done|constructor]. }
  apply Forall_cons in Ha as [[i Hi] Ha]. wp_step. unfold db. apply wp_gets. set (d := sl_db s) in *.
  pose proof Hi as Hi'. unfold type_id in Hi. destruct (p_types d !! name) as [a|] eqn:Ea; [|done]. injection Hi as <-.
  pose proof (wf_types _ Hw _ _ Ea) as Hv. pose proof (wf_type_attr _ Hw) as L1. pose proof (wf_attr_type _ Hw) as L2.
  destruct (set_bit_at_in (type_attr_map d) (id - 1) (ty_value a - 1)) as [ta Eta]; [unfold zlen; lia|].
  destruct (set_bit_at_in (attr_type_map d) (ty_value a - 1) (id - 1)) as [at_ Eat]; [unfold zlen; lia|].
  wp_step. unfold upd_db at 1. apply wp_modify. rewrite Eta, Eat. wp_step. unfold upd_db. apply wp_modify.
  wp_step. unfold frida_add_type_to_class_constraints_referencing_attribute, upd_db. apply wp_modify. cbn [sl_db sl_kern sl_printed]. fold d.
  destruct (types_change_attribute id name a ta at_ d Hw Hid Ea Eta Eat) as [Hc Hin].
  change (with_classes _ _) with (with_attribute id name a ta at_ d). set (d1 := with_attribute id name a ta at_ d) in *.
  eapply wp_mono; [apply IH|]; cbn [sl_db].
  - apply Hc.
  - done.
  - eapply Forall_impl; [exact Ha|]. intros n [j Hj]. exists j. by apply Hc.
  - cbn beta. intros missing s' (-> & [E1 E2] & Hc' & En & Hall). split_and!; [done|done|by eapply types_change_trans|done|].
    constructor.
    + exists (ty_value a). split; [done|]. by apply (tc_keeps _ _ _ Hc').
    + clear - Hall Ha Hc. induction Hall as [|n l (j & Hj & Hin) Hall IH]; [constructor|]. apply Forall_cons in Ha as [[j' Hj'] Ha].
      constructor; [|by apply IH]. exists j'. split; [done|]. apply Hc in Hj'. congruence.
Qed.

Lemma insert_resized {A} (x z : A) l k n : k = length l → n = S k → <[k := z]> (resize n x l) = l ++ [z].
Proof.
  intros -> ->. rewrite resize_ge by lia. replace (S (length l) - length l)%nat with 1%nat by lia.
  rewrite insert_app_r_alt by lia. by rewrite Nat.sub_diag.
Qed.
(** A new type has itself as its only attribute. *)
Lemma new_type_change garbage name d :
  wf d → p_types_nprim d + 1 < 2 ^ 16 → p_types d !! name = None →
  let id := p_types_nprim d + 1 in
  ∃ d', new_type garbage name d = Some (id, d') ∧ types_change id d d' ∧ p_types_nprim d' = id ∧ type_id d' name = Some id ∧
    attrs d' id = {[id - 1]}.
Proof.
  intros [W1 W2 W3 W4 W5] Hn Hname id. set (n := p_types_nprim d) in *.
  assert (En : Z.to_nat (n + 1 - 1) = length (type_attr_map d)) by (rewrite W3; f_equal; lia).
  assert (En2 : Z.to_nat (n + 1 - 1) = length (attr_type_map d)) by (rewrite W4; f_equal; lia).
  unfold new_type. fold n. cbn zeta. rewrite (insert_resized garbage ∅ (type_attr_map d)) by (lia || done).
  rewrite (insert_resized garbage ∅ (attr_type_map d)) by (lia || done).
  unfold set_bit_at. rewrite En, lookup_app_r, Nat.sub_diag by lia. cbn [lookup list_lookup]. rewrite insert_app_r_alt, Nat.sub_diag by lia. cbn [insert list_insert].
  eexists. split; [done|]. assert (Hnew : ∀ i x, 0 ≤ i < n → (type_attr_map d ++ [x]) !! Z.to_nat i = type_attr_map d !! Z.to_nat i).
  { intros i x Hi. apply lookup_app_l. lia. }
  split_and!; [split| | |]; cbn.
  - split; cbn; [lia| |rewrite length_app; cbn; lia|rewrite length_app; cbn; lia|done].
    intros m t [[<- <-]|[_ Ht]]%lookup_insert_Some; cbn; [lia|]. apply W2 in Ht. lia.
  - done.
  - done.
  - intros y Hy Hne. unfold attrs. cbn. destruct (decide (y ≤ n)).
    + by rewrite Hnew by lia.
    + rewrite !lookup_ge_None_2; [done|lia|rewrite length_app; cbn; lia].
  - unfold attrs. rewrite (lookup_ge_None_2 (type_attr_map d)) by lia. cbn. set_solver.
  - intros m i. unfold type_id. cbn. destruct (decide (m = name)) as [->|Hne]; [by rewrite Hname|by rewrite lookup_insert_ne by done].
  - done.
  - unfold type_id. cbn. by rewrite lookup_insert_eq.
  - unfold attrs, id. cbn [type_attr_map]. rewrite En, lookup_app_r, Nat.sub_diag by lia. cbn. set_solver.
Qed.

(** The type exists afterwards and has the attributes. *)
Definition has_attributes (d : policydb) (name : string) (attributes : list string) : Prop :=
  ∃ id, type_id d name = Some id ∧ Forall (λ a, ∃ i, type_id d a = Some i ∧ i - 1 ∈ attrs d id) attributes.
Lemma wp_ensure_type garbage name attributes s :
  wf (sl_db s) → p_types_nprim (sl_db s) + 1 < 2 ^ 16 → Forall (λ a, is_Some (type_id (sl_db s) a)) attributes →
  wp (frida_ensure_type garbage name attributes) s (λ e s', e = None ∧ same_system s s' ∧
    ∃ id, type_id (sl_db s') name = Some id ∧ types_change id (sl_db s) (sl_db s') ∧
      p_types_nprim (sl_db s) ≤ p_types_nprim (sl_db s') ≤ p_types_nprim (sl_db s) + 1 ∧ has_attributes (sl_db s') name attributes).
Proof.
  intros Hw Hn Ha. unfold frida_ensure_type. wp_step. unfold db. apply wp_gets. set (d := sl_db s) in *. wp_step.
  eapply wp_mono with (λ id s', same_system s s' ∧ types_change id d (sl_db s') ∧ type_id (sl_db s') name = Some id ∧
    1 ≤ id ≤ p_types_nprim (sl_db s') ∧ p_types_nprim d ≤ p_types_nprim (sl_db s') ≤ p_types_nprim d + 1).
  - destruct (p_types d !! name) as [t|] eqn:Et.
    + pose proof (wf_types _ Hw _ _ Et). wp_step. fold d. split; [done|]. split; [by apply types_change_refl|]. split; [unfold type_id; by rewrite Et|lia].
    + destruct (new_type_change garbage name d Hw Hn Et) as (d' & E & Hc & En & Hid & _). rewrite E. wp_step. unfold upd_db. apply wp_modify.
      wp_step. cbn [sl_db]. rewrite En. pose proof (wf_small _ Hw). split; [done|]. split; [done|]. split; [done|lia].
  - cbn beta. intros id s1 ([E1 E2] & Hc & Hid & Hr & Hn1). wp_step. eapply wp_mono; [apply wp_add_attributes|]; [apply Hc|done| |].
    { eapply Forall_impl; [exact Ha|]. intros n [j Hj]. exists j. by apply Hc. }
    cbn beta. intros missing s2 (-> & [E3 E4] & Hc2 & En2 & Hall). wp_step. split; [done|]. split; [by split; congruence|].
    assert (Hid2 : type_id (sl_db s2) name = Some id) by by apply Hc2.
    exists id. split_and!; [done|by eapply types_change_trans|lia|lia|]. exists id. split; [done|].
    eapply Forall_impl; [exact Hall|]. intros n (i & Hi & Hin). exists i. split; [by apply Hc2|done].
Qed.
End types.
