(* ===== verification/SelinuxClaims.v ===== *)
(** What the SELinux patcher promises: the policy that it loads grants what the old one
    did and what the rules say, and the kernel's mode is as before. *)
From Stdlib Require Import Ascii.
From S2P Require Import Prelude Posix SelinuxPolicy SelinuxCorrect.

Section files.
Context {K : Type} `{SelinuxLaws K}.
Implicit Types (s : patcher K).

(** ** Files *)
(** The policy and the mode are the same, and fewer interruptions are left. *)
Definition system_kept s s' : Prop :=
  sl_db s' = sl_db s ∧ sl_printed s' = sl_printed s ∧ sx_enforcing (sl_kern s') = sx_enforcing (sl_kern s) ∧
  (sx_signals (sl_kern s') ≤ sx_signals (sl_kern s))%nat.
Lemma wp_sx_call {A} (f : K → A * K) s (Q : A → patcher K → Prop) :
  (∀ a k, f (sl_kern s) = (a, k) → Q a (mk_patcher k (sl_db s) (sl_printed s))) → wp (sx_call f) s Q.
Proof. intros HQ. unfold wp, sx_call. destruct (f (sl_kern s)) as [a k] eqn:E. eexists _, _. split; [done|auto]. Qed.
Lemma wp_set_file_contents fuel filename contents s :
  (length contents + sx_signals (sl_kern s) < fuel)%nat →
  wp (frida_set_file_contents fuel filename contents) s (λ e s', system_kept s s' ∧
    (e = None → ∃ fd, sx_received (sl_kern s') fd = contents)).
Proof.
  intros Hf. unfold frida_set_file_contents. wp_step. apply wp_sx_call. intros [fd|e] k E; destruct (sl_open _ _ _ _ E) as [Ee Es]; cycle 1.
  { wp_step. split; [split_and!; cbn; [done|done|done|lia]|done]. }
  destruct (sl_open_ok _ _ _ _ E) as [_ Er]. wp_step.
  eapply wp_mono; [apply (wp_loop _
    (λ offset t, 0 ≤ offset ≤ zlen contents ∧ system_kept s t ∧ sx_received (sl_kern t) fd = ztake offset contents)
    (λ offset t, (Z.to_nat (zlen contents - offset) + sx_signals (sl_kern t))%nat)
    (λ e t, system_kept s t ∧ (e = None → sx_received (sl_kern t) fd = contents)))|].
  - intros offset t (Ho & (K1 & K2 & K3 & K4) & Hr). destruct (Z.eqb_spec offset (zlen contents)) as [->|Hne].
    { wp_step. split; [done|]. intros _. rewrite Hr. by apply ztake_ge. }
    wp_step. apply wp_sx_call. intros [n|e] k2 E2; destruct (sl_write _ _ _ _ _ E2) as [Ee2 Es2]; cbn [interrupted] in Es2.
    + destruct (sl_write_ok _ _ _ _ _ E2) as (Hn & Hpos & Hr2). wp_step. cbn [sl_kern sl_db sl_printed].
      assert (Hd : zlen (zdrop offset contents) = zlen contents - offset) by (rewrite zlen_zdrop; lia).
      assert (Hne2 : zdrop offset contents ≠ []) by (intros E0; rewrite E0 in Hd; unfold zlen in Hd at 1; cbn in Hd; lia).
      specialize (Hpos Hne2). split; [split_and!; [lia|lia|split_and!; cbn; [done|done|congruence|lia]|]|lia].
      rewrite Hr2, Hr. by rewrite ztake_plus by lia.
    + destruct (Z.eqb_spec e EINTR) as [->|]; wp_step; cbn [sl_kern sl_db sl_printed].
      * cbn in Es2. split; [split_and!; [lia|lia|split_and!; cbn; [done|done|congruence|lia]|]|lia].
        by rewrite (sl_write_err _ _ _ _ _ E2).
      * split; [split_and!; cbn; [done|done|congruence|lia]|done].
  - cbn [sl_kern]. split_and!; [lia|apply zlen_nonneg|split_and!; cbn; [done|done|done|lia]|]. by rewrite Er.
  - cbn [sl_kern]. unfold zlen. lia.
  - cbn beta. intros e t [(K1 & K2 & K3 & K4) Hr]. wp_step. apply wp_modify. wp_step. cbn [sl_kern sl_db sl_printed].
    destruct (sl_close fd (sl_kern t)) as (C1 & C2 & C3). split; [split_and!; cbn; [done|done|congruence|lia]|].
    intros He. exists fd. cbn. rewrite C2. auto.
Qed.

(** The policy that was written for the kernel is that of the patcher, or its user was told. *)
Definition loaded s : Prop := ∃ fd, sx_received (sl_kern s) fd = sx_policydb_to_image (sl_db s).
Definition unsaved s : Prop := ∃ e, ("Unable to save SELinux policy to the kernel"%string, e) ∈ sl_printed s.
Lemma wp_save_policy fuel filename s :
  (length (sx_policydb_to_image (sl_db s)) + sx_signals (sl_kern s) < fuel)%nat →
  wp (frida_save_policy fuel filename) s (λ e s', system_kept s s' ∧ (e = None → loaded s')).
Proof.
  intros Hf. unfold frida_save_policy. wp_step. unfold db. apply wp_gets. eapply wp_mono; [by apply wp_set_file_contents|].
  cbn beta. intros e s' [Hk Hr]. split; [done|]. intros He. destruct (Hr He) as [fd E]. exists fd. destruct Hk as [-> _]. done.
Qed.

(** The second attempt, with the policy in which the shell is permissive. *)
Definition shell_permissive (d : policydb) : policydb :=
  match p_types d !! "shell"%string with Some t => with_permissive ({[ty_value t]} ∪ permissive_map d) d | None => d end.
Lemma wp_ensure_shell_permissive s :
  wp (frida_ensure_permissive "shell") s (λ _ s', s' = mk_patcher (sl_kern s) (shell_permissive (sl_db s)) (sl_printed s)).
Proof.
  unfold frida_ensure_permissive, shell_permissive. wp_step. unfold db. apply wp_gets.
  destruct (p_types (sl_db s) !! "shell"%string); [wp_step; apply wp_modify; by wp_step|wp_step; by destruct s].
Qed.
Lemma wp_printerr what e s (Q : unit → patcher K → Prop) :
  Q tt (mk_patcher (sl_kern s) (sl_db s) (sl_printed s ++ [(what, e)])) → wp (printerr what e) s Q.
Proof. intros HQ. unfold printerr. by apply wp_modify. Qed.
Lemma unsaved_printed s e : unsaved (mk_patcher (sl_kern s) (sl_db s) (sl_printed s ++ [("Unable to save SELinux policy to the kernel"%string, e)])).
Proof. exists e. cbn. set_solver. Qed.
Lemma wp_save_in_emulator fuel error s :
  (length (sx_policydb_to_image (shell_permissive (sl_db s))) + sx_signals (sl_kern s) < fuel)%nat →
  wp (save_in_emulator fuel error) s (λ _ s', (∃ m, sl_db s' = with_permissive m (sl_db s)) ∧ (loaded s' ∨ unsaved s')).
Proof.
  intros Hf. unfold save_in_emulator. wp_step. apply wp_gets. wp_step.
  assert (Hsame : ∃ m, sl_db s = with_permissive m (sl_db s)) by (exists (permissive_map (sl_db s)); by destruct (sl_db s)).
  eapply wp_mono with (λ _ s', sl_db s' = sl_db s ∧ sx_signals (sl_kern s') = sx_signals (sl_kern s)).
  { destruct (_ =? 1); [|by wp_step]. wp_step. apply wp_sx_call. intros r k E. wp_step. split; [done|]. by apply (sl_setenforce_received _ _ _ _ E). }
  cbn beta. intros [] s1 [E1 E2]; wp_step.
  - wp_step. eapply wp_mono; [apply wp_ensure_shell_permissive|]. cbn beta. intros e s2 ->. rewrite E1. wp_step.
    eapply wp_mono with (λ e s', sl_db s' = shell_permissive (sl_db s) ∧ (e = None → loaded s')).
    { destruct e; [by wp_step|]. eapply wp_mono; [apply wp_save_policy; cbn; lia|]. cbn beta. intros e s3 [(E3 & _) Hl]. by rewrite E3. }
    cbn beta. intros e' s3 [E3 Hl]. wp_step. apply wp_sx_call. intros r k E. wp_step.
    assert (Hp : ∃ m, sl_db s3 = with_permissive m (sl_db s)).
    { rewrite E3. unfold shell_permissive. destruct (p_types (sl_db s) !! _); [by eexists|done]. }
    destruct e' as [e'|]; [apply wp_printerr|wp_step]; (split; [done|]); [right; apply (unsaved_printed (mk_patcher k _ _))|left].
    destruct (Hl eq_refl) as [fd Efd]. exists fd. cbn. by rewrite (proj1 (sl_setenforce_received _ _ _ _ E)).
  - wp_step. apply wp_printerr. split; [cbn; by rewrite E1|right; apply unsaved_printed].
Qed.
End files.

(** ** The policy *)
Definition new_attributes : list string := ["file_type"%string; "mlstrustedobject"%string].
(** The new policy has the names of the old one, the two types with their attributes, and
    the grants of the rules besides those of the old access vectors. *)
Record patched (self : string) (d d' : policydb) : Prop := {
  pt_types n i : type_id d n = Some i → type_id d' n = Some i;
  pt_perms c p : perm_id d' c p = perm_id d c p;
  pt_file : has_attributes d' "frida_file" new_attributes;
  pt_memfd : has_attributes d' "frida_memfd" new_attributes;
  pt_attrs x : 1 ≤ x → type_id d' "frida_file" ≠ Some x → type_id d' "frida_memfd" ≠ Some x → attrs d' x = attrs d x;
  pt_grants source target class perm : 1 ≤ perm →
    granted d' source target class perm ↔
    granted (with_avtab (te_avtab d) d') source target class perm ∨ rules_allow d' self source target class perm
}.
Lemma patched_permissive self d d' m : patched self d d' → patched self d (with_permissive m d').
Proof. by intros []. Qed.
Lemma has_attributes_kept id d d' name l :
  wf d → types_change id d d' → has_attributes d name l → has_attributes d' name l.
Proof.
  intros Hw Hc (i & Hi & Hl). exists i. split; [by apply Hc|]. eapply Forall_impl; [exact Hl|].
  intros a (j & Hj & Hin). exists j. split; [by apply Hc|]. destruct (decide (i = id)) as [->|Hne]; [by apply (tc_keeps _ _ _ Hc)|].
  rewrite (tc_attrs _ _ _ Hc); [done| |done]. unfold type_id in Hi. destruct (p_types d !! name) as [t|] eqn:E; [|done].
  injection Hi as <-. apply (wf_types _ Hw) in E. lia.
Qed.
Lemma patched_steps self d d1 d2 t i1 i2 :
  wf d1 → types_change i1 d d1 → types_change i2 d1 d2 → type_id d1 "frida_file" = Some i1 → type_id d2 "frida_memfd" = Some i2 →
  has_attributes d1 "frida_file" new_attributes → has_attributes d2 "frida_memfd" new_attributes →
  (∀ source target class perm, 1 ≤ perm → granted (with_avtab t d2) source target class perm ↔
     granted d2 source target class perm ∨ rules_allow d2 self source target class perm) →
  patched self d (with_avtab t d2).
Proof.
  intros Hw C1 C2 H1 H2 A1 A2 HG. split.
  - intros n i Hi. by apply C2, C1.
  - intros c p. change (perm_id (with_avtab t d2) c p) with (perm_id d2 c p). by rewrite (tc_perms _ _ _ C2), (tc_perms _ _ _ C1).
  - change (has_attributes d2 "frida_file" new_attributes). by apply (has_attributes_kept i2 d1 d2).
  - done.
  - intros x Hx N1 N2. change (attrs (with_avtab t d2) x) with (attrs d2 x). apply (tc_types _ _ _ C2) in H1.
    rewrite (tc_attrs _ _ _ C2), (tc_attrs _ _ _ C1); [done|done| |done|]; intros ->; [by apply N1|by apply N2].
  - intros source target class perm Hp. rewrite HG by done.
    rewrite <- (tc_avtab _ _ _ C1), <- (tc_avtab _ _ _ C2). by destruct d2.
Qed.

Section patching.
Context {K : Type} `{SelinuxLaws K}.
Implicit Types (s : patcher K) (d : policydb).

Lemma wp_bind_ret {A B} (m : M (patcher K) A) (f : A → M (patcher K) B) s a s' Q :
  m s = Ret (a, s') → wp (f a) s' Q → wp (bind m f) s Q.
Proof. intros E HQ. apply wp_bind. by exists a, s'. Qed.
(** What happens up to the first attempt to save. *)
Lemma patch_prepared garbage k k1 d d0 image self :
  sx_get_contents "/sys/fs/selinux/policy" k = (Some image, k1) → sx_policydb_read image = Some d →
  wf d → p_types_nprim d + 2 < 2 ^ 16 → Forall (λ a, is_Some (type_id d a)) new_attributes →
  colon_token 2 (sx_getcon k1) = Some self →
  ∃ s1 s2 s3 s4, frida_load_policy "/sys/fs/selinux/policy" (mk_patcher k d0 []) = Ret (None, s1) ∧
    frida_ensure_type garbage "frida_file" new_attributes s1 = Ret (None, s2) ∧
    frida_ensure_type garbage "frida_memfd" new_attributes s2 = Ret (None, s3) ∧
    for_each frida_selinux_rules apply_rule s3 = Ret (tt, s4) ∧ patched self d (sl_db s4) ∧ sl_kern s4 = k1.
Proof.
  intros Eg Er Hw Hn Ha Hself. exists (mk_patcher k1 d []).
  destruct (wp_ensure_type garbage "frida_file" new_attributes (mk_patcher k1 d [])) as (e1 & s2 & R1 & -> & [K1 _] & i1 & I1 & C1 & N1 & A1); [done|cbn; lia|done|].
  cbn [sl_db sl_kern] in *. pose proof (tc_wf _ _ _ C1) as W1.
  destruct (wp_ensure_type garbage "frida_memfd" new_attributes s2) as (e2 & s3 & R2 & -> & [K2 _] & i2 & I2 & C2 & N2 & A2); [done|lia| |].
  { eapply Forall_impl; [exact Ha|]. intros a [i Hi]. exists i. by apply C1. }
  destruct (wp_apply_rules self s3) as ([] & s4 & R3 & K3 & (t & D3) & G3).
  { split; [apply C2|]. by rewrite K2, K1. }
  exists s2, s3, s4. split; [|split_and!; [done|done|done| |congruence]].
  { unfold frida_load_policy, bind, sx_call. cbn [sl_kern]. rewrite Eg. cbn. by rewrite Er. }
  rewrite D3 in *. by eapply patched_steps.
Qed.

(** C17: A policy that libsepol reads and that has the two attributes is patched and, with
    fuel for its image and the interruptions, the patcher returns.  The policy then has the
    types frida_file and frida_memfd with the attributes file_type and mlstrustedobject, all
    other types keep their identifiers and attributes, and exactly the permissions that the
    rules of the patcher name are granted besides those of the old access vectors.  A file
    has received the image of this policy, or the message that it could not be saved was
    printed. *)
Theorem policy_patched garbage k k1 d d0 image self :
  sx_exists "/sys/fs/selinux/policy" k = true →
  sx_get_contents "/sys/fs/selinux/policy" k = (Some image, k1) → sx_policydb_read image = Some d →
  wf d → p_types_nprim d + 2 < 2 ^ 16 → Forall (λ a, is_Some (type_id d a)) new_attributes →
  colon_token 2 (sx_getcon k1) = Some self →
  ∃ enough, ∀ fuel, (enough + sx_signals k < fuel)%nat →
    wp (frida_selinux_patch_policy fuel garbage) (mk_patcher k d0 []) (λ _ s',
      patched self d (sl_db s') ∧ (loaded s' ∨ unsaved s')).
Proof.
  intros Hex Eg Er Hw Hn Ha Hself.
  destruct (patch_prepared garbage k k1 d d0 image self Eg Er Hw Hn Ha Hself) as (s1 & s2 & s3 & s4 & R1 & R2 & R3 & R4 & Hp & Hk).
  destruct (sl_get_contents _ _ _ _ Eg) as (_ & _ & Hs).
  set (len d := length (sx_policydb_to_image d)). exists (len (sl_db s4) + len (shell_permissive (sl_db s4)))%nat. intros fuel Hf.
  unfold frida_selinux_patch_policy. wp_step. apply wp_gets. cbn [sl_kern]. rewrite Hex. cbn [negb].
  eapply wp_bind_ret; [exact R1|]. cbn beta iota. eapply wp_bind_ret; [exact R2|]. cbn beta iota. eapply wp_bind_ret; [exact R3|]. cbn beta iota.
  eapply wp_bind_ret; [exact R4|]. cbn beta iota. wp_step. eapply wp_mono; [apply wp_save_policy; fold (len (sl_db s4)); rewrite Hk, Hs; lia|].
  cbn beta. intros [e|] s5 [(D5 & _ & _ & S5) Hl]; [|wp_step; rewrite D5; auto].
  eapply wp_mono; [apply wp_save_in_emulator; rewrite D5; fold (len (shell_permissive (sl_db s4))); rewrite Hk, Hs in S5; lia|].
  cbn beta. intros _ s6 [[m D6] Hl6]. split; [|done]. rewrite D6, D5. by apply patched_permissive.
Qed.

(** ** The mode *)
Definition mode_is (b : bool) s : Prop := sx_enforcing (sl_kern s) = b.
Lemma keeps_mode_gets {A} (g : patcher K → A) b : keeps (mode_is b) (gets g).
Proof. intros s a s' Hm [= <- <-]. done. Qed.
Lemma keeps_upd_db f b : keeps (mode_is b) (upd_db f).
Proof. intros s a s' Hm [= <- <-]. done. Qed.
Lemma keeps_printerr what e b : keeps (mode_is b) (printerr what e).
Proof. intros s a s' Hm [= <- <-]. done. Qed.
Lemma keeps_sx_call {A} (f : K → A * K) b :
  (∀ k a k', f k = (a, k') → sx_enforcing k' = sx_enforcing k) → keeps (mode_is b) (sx_call f).
Proof.
  intros Hf s a s' Hm. unfold sx_call. destruct (f (sl_kern s)) as [a' k] eqn:E. intros [= <- <-]. unfold mode_is in *. cbn.
  by rewrite (Hf _ _ _ E).
Qed.
Lemma keeps_set_file_contents fuel filename contents b : keeps (mode_is b) (frida_set_file_contents fuel filename contents).
Proof.
  unfold frida_set_file_contents. apply keeps_bind; [apply keeps_sx_call; by intros k a k' [E _]%sl_open|]. intros [fd|e]; [|apply keeps_ret].
  apply keeps_bind.
  - apply keeps_loop. intros offset. destruct (_ =? _); [apply keeps_ret|].
    apply keeps_bind; [apply keeps_sx_call; by intros k a k' [E _]%sl_write|]. intros [n|e]; [|destruct (_ =? _)]; apply keeps_ret.
  - intros e. apply keeps_bind; [|intros; apply keeps_ret]. intros s a s' Hm [= <- <-]. unfold mode_is in *. cbn.
    by rewrite (proj1 (sl_close fd (sl_kern s))).
Qed.
Hint Resolve keeps_mode_gets keeps_upd_db keeps_printerr keeps_set_file_contents : keeps.
Lemma keeps_load_policy filename b : keeps (mode_is b) (frida_load_policy filename).
Proof. unfold frida_load_policy. apply keeps_bind; [apply keeps_sx_call; by intros k a k' [E _]%sl_get_contents|keeps_auto]. Qed.
Lemma keeps_save_policy fuel filename b : keeps (mode_is b) (frida_save_policy fuel filename).
Proof. unfold frida_save_policy, db. keeps_auto. Qed.
Lemma keeps_add_attributes id attributes b : keeps (mode_is b) (add_attributes id attributes).
Proof.
  induction attributes; cbn [add_attributes]; unfold db, frida_add_type_to_class_constraints_referencing_attribute; keeps_auto.
Qed.
Hint Resolve keeps_load_policy keeps_save_policy keeps_add_attributes : keeps.
Lemma keeps_ensure_type garbage name attributes b : keeps (mode_is b) (frida_ensure_type garbage name attributes).
Proof. unfold frida_ensure_type, db. keeps_auto. Qed.
Lemma keeps_ensure_permissive name b : keeps (mode_is b) (frida_ensure_permissive name).
Proof. unfold frida_ensure_permissive, db. keeps_auto. Qed.
Lemma keeps_apply_permission sn tn cn pn b : keeps (mode_is b) (apply_permission sn tn cn pn).
Proof. unfold apply_permission, frida_ensure_rule, db, sx_ask. keeps_auto. Qed.
Lemma keeps_for_each {A} (l : list A) f b : (∀ a, keeps (mode_is b) (f a)) → keeps (mode_is b) (for_each l f).
Proof. intros Hf. induction l; cbn [for_each]; keeps_auto. Qed.
Lemma keeps_apply_rule rule b : keeps (mode_is b) (apply_rule rule).
Proof.
  unfold apply_rule, db. destruct (optional_name _). keeps_auto. apply keeps_for_each. keeps_auto. apply keeps_for_each. intros.
  apply keeps_apply_permission.
Qed.
Hint Resolve keeps_ensure_type keeps_ensure_permissive : keeps.

(** The kernel lets the patcher go back to the enforcing mode. *)
Definition can_enforce : Prop := ∀ k r k', sx_setenforce 1 k = (r, k') → r = 0.
Lemma keeps_save_in_emulator fuel error b : can_enforce → keeps (mode_is b) (save_in_emulator fuel error).
Proof.
  intros Hcan. unfold save_in_emulator. apply (hoare_bind _ _ _ (λ mode s, mode_is b s ∧ (mode = 1 → b = true))).
  { intros s a s' Hm [= <- <-]. split; [done|]. intros E%sl_getenforce. by unfold mode_is in Hm; rewrite <- Hm. }
  intros mode. apply (hoare_bind _ _ _ (λ (emulator : bool) s, if emulator then mode_is false s ∧ b = true else mode_is b s)).
  { intros s a s' [Hm Hb]. destruct (Z.eqb_spec mode 1) as [->|]; [|by intros [= <- <-]]. unfold bind, sx_call.
    destruct (sx_setenforce 0 (sl_kern s)) as [r k] eqn:E. intros [= <- <-]. destruct (Z.eqb_spec r 0) as [->|Hne]; cbn.
    - split; [by apply (sl_setenforce 0 _ _ E)|auto].
    - unfold mode_is in *. cbn. by rewrite (sl_setenforce_fails _ _ _ _ E Hne). }
  intros emulator. apply (hoare_bind _ _ _ (λ _, mode_is b)); [destruct emulator; [|apply keeps_ret]|].
  - apply (hoare_mono (λ s, b = true ∧ mode_is false s) _ _ (λ _, mode_is b) _); [apply hoare_pure; intros ->|tauto|done]. apply (hoare_bind _ _ _ (λ _, mode_is false)); [apply keeps_ensure_permissive|]. intros e.
    apply (hoare_bind _ _ _ (λ _, mode_is false)); [destruct e; [apply keeps_ret|apply keeps_save_policy]|]. intros e'.
    apply (hoare_bind _ _ _ (λ _, mode_is true)); [|intros; apply keeps_ret]. intros s a s' _. unfold sx_call.
    destruct (sx_setenforce 1 (sl_kern s)) as [r k] eqn:E. intros [= <- <-]. pose proof (Hcan _ _ _ E) as ->. apply (sl_setenforce 1 _ _ E).
  - intros [e|]; [apply keeps_printerr|apply keeps_ret].
Qed.
(** C31: The kernel is enforcing after the patcher when it was before, and not when it was
    not: in every run that returns, whatever fails in it, provided that the kernel does not
    refuse the enforcing mode. *)
Theorem enforcing_mode_kept fuel garbage s s' :
  can_enforce → frida_selinux_patch_policy fuel garbage s = Ret (tt, s') →
  sx_enforcing (sl_kern s') = sx_enforcing (sl_kern s).
Proof.
  intros Hcan Hrun. set (b := sx_enforcing (sl_kern s)).
  assert (Hk : keeps (mode_is b) (frida_selinux_patch_policy fuel garbage)); [|by apply (Hk s tt s')].
  unfold frida_selinux_patch_policy, sx_ask.
  assert (Hr : keeps (mode_is b) (for_each frida_selinux_rules apply_rule)) by (apply keeps_for_each; intros; apply keeps_apply_rule).
  assert (Hs : ∀ e, keeps (mode_is b) (save_in_emulator fuel e)) by (intros; by apply keeps_save_in_emulator).
  generalize (for_each frida_selinux_rules apply_rule) Hr. intros rules Hr'. keeps_auto.
Qed.
End patching.

(** ** A scripted device
    Its kernel does not take a policy while it is enforcing, accepts a byte at a time, and
    interrupts the patcher. *)
#[local] Open Scope string_scope.
Record device := mk_device { dv_enforcing : bool; dv_received : gmap Z (list Z); dv_next : nat; dv_signals : nat }.
Definition of_type (id : Z) (flavor : type_flavor) : type_datum := mk_type id true flavor ∅.
Definition device_policy : policydb := mk_db
  (list_to_map [("domain", of_type 1 TYPE_ATTRIB); ("file_type", of_type 2 TYPE_ATTRIB); ("mlstrustedobject", of_type 3 TYPE_ATTRIB);
    ("zygote", of_type 4 TYPE_TYPE); ("su", of_type 5 TYPE_TYPE); ("shell", of_type 6 TYPE_TYPE)])
  6 (list_to_map [("process", 0%nat); ("file", 1%nat); ("fd", 2%nat)])
  [mk_class 1 (list_to_map [("execmem", 1); ("sigchld", 2)]) None [mk_cnode 1 [mk_cexpr {[1]} ∅; mk_cexpr {[0]} ∅]];
   mk_class 2 (list_to_map [("execute", 5)]) (Some (list_to_map [("open", 1); ("read", 2); ("write", 3); ("getattr", 4)])) [];
   mk_class 3 (list_to_map [("use", 1)]) None []]
  {[mk_key 1 1 1 AVTAB_ALLOWED := 2]}
  [{[0]}; {[1]}; {[2]}; {[0; 3]}; {[0; 4]}; {[0; 5]}] [{[3; 4; 5]}; ∅; ∅; ∅; ∅; ∅] ∅.
#[export] Instance device_system : SelinuxSystem device := {
  sx_exists _ _ := true;
  sx_get_contents _ k := (Some [1], k);
  sx_open _ k := if dv_enforcing k then (SysErr 13, k) else
    (SysOk (Z.of_nat (dv_next k)), mk_device false (<[Z.of_nat (dv_next k) := []]> (dv_received k)) (S (dv_next k)) (dv_signals k));
  sx_write fd bs k :=
    match dv_signals k with
    | S n => (SysErr EINTR, mk_device (dv_enforcing k) (dv_received k) (dv_next k) n)
    | O => (SysOk (zlen (ztake 1 bs)), mk_device (dv_enforcing k)
             (<[fd := (default [] (dv_received k !! fd) ++ ztake 1 bs)%list]> (dv_received k)) (dv_next k) O)
    end;
  sx_close _ k := k;
  sx_getenforce k := if dv_enforcing k then 1 else 0;
  sx_setenforce v k := (0, mk_device (negb (v =? 0)%Z) (dv_received k) (dv_next k) (dv_signals k));
  sx_getcon _ := "u:r:su:s0";
  sx_policydb_read image := if bool_decide (image = [1]) then Some device_policy else None;
  sx_policydb_to_image d := [p_types_nprim d; Z.of_nat (size (te_avtab d)); Z.of_nat (size (permissive_map d))]
}.
#[export] Program Instance device_laws : SelinuxLaws device := {
  sx_enforcing := dv_enforcing; sx_received k fd := default [] (dv_received k !! fd); sx_signals := dv_signals
}.
Next Obligation. intros k. cbn. by destruct (dv_enforcing k). Qed.
Next Obligation. by intros v k k' [= <-]. Qed.
Next Obligation. by intros v k r k' [= <- <-] ?. Qed.
Next Obligation. by intros v k r k' [= <- <-]. Qed.
Next Obligation. by intros f k r k' [= <- <-]. Qed.
Next Obligation. intros f k r k'. cbn. destruct (dv_enforcing k) eqn:E; intros [= <- <-]; by cbn. Qed.
Next Obligation.
  intros f k fd k'. cbn. destruct (dv_enforcing k) eqn:E; intros [= <- <-]. split; [lia|]. cbn. by rewrite lookup_insert_eq.
Qed.
Next Obligation. intros fd bs k r k'. cbn. destruct (dv_signals k) eqn:E; intros [= <- <-]; cbn; (split; [done|lia]). Qed.
Next Obligation.
  intros fd bs k n k'. cbn. destruct (dv_signals k) eqn:E; intros [= <- <-]. cbn. rewrite lookup_insert_eq. cbn.
  pose proof (zlen_nonneg bs). split; [rewrite zlen_ztake; lia|]. split.
  - intros Hne. destruct bs as [|b bs]; [done|]. rewrite zlen_ztake. unfold zlen. cbn [length]. lia.
  - destruct bs as [|b bs]; [done|]. rewrite zlen_ztake. unfold zlen. cbn [length]. by replace (Z.max _ _) with 1 by lia.
Qed.
Next Obligation. intros fd bs k e k'. cbn. destruct (dv_signals k) eqn:E; intros [= <- <-]. done. Qed.
Next Obligation. done. Qed.

Definition a_device : device := mk_device true ∅ 7 2.
Definition device_run : patcher device := mk_patcher a_device device_policy [].
#[local] Close Scope string_scope.
Definition class_fits (klass : class_datum) : Prop :=
  0 ≤ cl_value klass < 2 ^ 16 ∧ map_Forall (λ _ v, 1 ≤ v ≤ 32) (cl_permissions klass) ∧
  map_Forall (λ _ v, 1 ≤ v ≤ 32) (default ∅ (cl_comdatum klass)).
#[export] Instance class_fits_dec klass : Decision (class_fits klass).
Proof. unfold class_fits. apply _. Defined.
Lemma device_policy_wf : wf device_policy.
Proof.
  assert (Ht : map_Forall (λ _ t, 1 ≤ ty_value t ≤ 6) (p_types device_policy)) by (apply (bool_decide_unpack _); by vm_compute).
  assert (Hc : map_Forall (λ _ i, from_option (λ klass, bool_decide (class_fits klass)) false (class_val_to_struct device_policy !! i) = true)
    (p_classes device_policy)) by (apply (bool_decide_unpack _); by vm_compute).
  split; [done|apply Ht|done|done|].
  intros c i Hi. specialize (Hc c i Hi). cbn beta in Hc. destruct (class_val_to_struct device_policy !! i) as [klass|]; [|done].
  apply bool_decide_eq_true in Hc as (Hv & H1 & H2). exists klass. split_and!; [done|lia|lia|]. intros p v. unfold find_permission.
  destruct (cl_permissions klass !! p) as [w|] eqn:E; [intros [= <-]; by apply (H1 p)|]. destruct (cl_comdatum klass); [apply H2|done].
Qed.
(** The policy of the device is well formed and has the attributes. *)
Lemma policy_patched_witness : ∃ enough, ∀ fuel, (enough + sx_signals a_device < fuel)%nat →
  wp (frida_selinux_patch_policy fuel ∅) device_run (λ _ s', patched "su" device_policy (sl_db s') ∧ (loaded s' ∨ unsaved s')).
Proof.
  apply (policy_patched ∅ a_device a_device device_policy device_policy [1] "su"); [done|done|done|apply device_policy_wf|done| |done].
  apply (bool_decide_unpack _). by vm_compute.
Defined.
(** The first attempt fails, the second succeeds, and the device is enforcing again. *)
#[local] Notation device_done := (match frida_selinux_patch_policy 20 ∅ device_run with Ret (_, s) => s | _ => device_run end).
Lemma enforcing_mode_kept_witness :
  dv_received (sl_kern device_done) !! 7 = Some [8; 5; 1] ∧
  sx_enforcing (sl_kern device_done) = sx_enforcing (sl_kern device_run).
Proof.
  split; [by vm_compute|]. apply (enforcing_mode_kept 20 ∅ device_run device_done); [by intros k r k' [= <- _]|by vm_compute].
Defined.
